(* ===== verification/_CoqProject ===== *)
-Q . S2P
Prelude.v
PyText.v
PyUuid.v
PyTime.v
PyFloat.v
PyHash.v
PyJson.v
Contracts.v
Messages.v
KafkaIo.v
Features.v
FeatureTheory.v
OnlineFeatures.v
OnlineTheory.v
OnlineProps.v
Scoring.v
ScoringTheory.v
Worker.v
WorkerTheory.v
ArtifactIntegrity.v
Replay.v
ReplayTheory.v
AlertPolicy.v
AlertPolicyTheory.v
AlertState.v
AlertTheory.v
AlertProps.v
StateCodec.v
Tables.v
Migrations.v
Store.v
StoreTheory.v
StoreProps.v
AlertConsumer.v
ConsumerTheory.v
ConsumerRestart.v
ConsumerProps.v
ReplayService.v
ReplayServiceTheory.v
ReplayServiceInv.v
ReplayLive.v
ReplayServiceProps.v
ConsoleStream.v
ConsoleProps.v
WorkerProps.v
LabContracts.v
LabCatalog.v
LabNetwork.v
LabSolver.v
LabSolverTheory.v
LabSensors.v
LabAnalysis.v
LabStore.v
LabEngine.v
LabOutbox.v
LabExamples.v
LabEngineTheory.v
LabEngineProps.v
LabModelProps.v
LabStoreProps.v
LabObserveProps.v
LabAnalysisProps.v
Rca.v
LabRca.v
LabApi.v
LabServiceProps.v
LabStreamProps.v
Evaluation.v
EvaluationProps.v
Drift.v
DriftProps.v
Champion.v
ChampionProps.v
ModelRun.v
Packaging.v
RunProps.v
PackagingProps.v
Api.v
ApiProps.v
ApiServices.v
