(* ===== verification/Prelude.v ===== *)
(** * Industrial reliability platform: a verification development

    The platform replays a recorded compressor data set (MetroPT-3) through Kafka,
    builds causal feature windows, has them scored by a model service, turns the
    scores into alerts by a locked policy, stores everything in PostgreSQL and
    shows it to an operator, who can ask for a root-cause report.  A second system
    in the same package, the virtual lab, simulates pneumatic networks that a user
    draws.  This library models the Python package [src/src/industrial_reliability]
    as executable definitions and proves what the parts promise.  This file is the
    prelude all others share: Python exceptions, results, stateful computations,
    their automation, and generic lemmas on lists and loops.

    ** How the program is put together

    [replay_service.py] reads the prepared Parquet file and publishes one telemetry
    event per row; START, PAUSE, RESUME and STOP arrive as Kafka commands of
    [api.py].  [worker.py] pushes the events of each session into an
    [OnlineFeatureBuilder], publishes each finished window and the decision that
    the scoring route of [api.py] gives for it with the champion package of
    [champion.py].  [alert_service.py] and [alert_consumer.py] run the decisions
    through the alert state machine in one transaction per decision and dispatch
    the transactional outbox.  [console_stream.py] shows telemetry, scores, alerts
    and status live.  [persistence.py] is the store under all of it, its schema
    brought up to date by [migrations.py].  The policy is selected offline by
    [alert_policy.py] from windows made by [phase1b_features.py]; a model is judged
    offline by [evaluation.py].

    In the lab, [lab/api.py] stores definitions, runs and commands
    ([lab/store.py]); engines ([lab/engine.py]) advance a run by compiling its
    definition ([lab/simulation/network.py]), solving each tick
    ([lab/simulation/solver.py]) and observing the sensors
    ([lab/simulation/sensors.py]), and write each batch with its observations in
    one fenced transaction; [lab/outbox.py] publishes the observations,
    [lab/analysis.py] raises alerts from them, [lab/evidence.py] and [lab/rca.py]
    explain an alert, and [lab/api.py] streams the events of a run.

    ** Files and what they model

    - Python: [PyText] (characters, numerals), [PyUuid], [PyTime] (naive
      datetimes as microseconds since 0001-01-01, ISO text), [PyFloat] (binary64
      as the Standard Library's [spec_float]), [PyHash] (SHA-1 and SHA-256 over
      bytes), [PyJson] (JSON values, canonical and default printing, [repr]).
    - [Contracts]: [phase1b_contracts.py], [contracts.py]; the frozen contract,
      its manifest and digest.
    - [Messages]: [runtime_messages.py]; every message with its validators.
    - [KafkaIo], [ArtifactIntegrity]: [kafka_io.py],
      [runtime_kafka.py], [runtime_ids.py], [artifact_integrity.py].
    - [Features], [OnlineFeatures]: [causal_features.py], [phase1b_features.py],
      [online_features.py]; the offline windows and the online builder.
      [FeatureTheory] and [OnlineTheory] hold their lemmas, [OnlineProps] the
      properties.
    - [Scoring], [ScoringTheory]: [scoring_client.py].
    - [Worker]: [worker.py]; [WorkerTheory] (invariants of what is published,
      one session step by step), [WorkerProps].
    - [Replay], [ReplayTheory]: [replay.py]; the session controller and the event
      stream of a file.
    - [ReplayService]: [replay_service.py]; the asyncio service as a step
      function.  [ReplayServiceTheory] and [ReplayServiceInv] (the invariant),
      [ReplayLive] (progress and prompt control), [ReplayServiceProps] (with a
      concrete service for the witnesses).
    - [AlertPolicy], [AlertPolicyTheory]: [alert_policy.py].
    - [AlertState], [AlertTheory], [AlertProps]: [alert_state.py].
    - [StateCodec], [Store], [StoreTheory], [StoreProps]: [persistence.py] and the
      constraints of the SQL schema it relies on; [Tables] (the tables as finite
      maps) is shared with the lab's store.
    - [Migrations]: [migrations.py].
    - [AlertConsumer], [ConsumerTheory], [ConsumerRestart], [ConsumerProps]:
      [alert_consumer.py] and the batch loop of [alert_service.py]; [ConsumerRestart]
      has the life of the service on the log of a partition - polls, interruptions
      ([stop], or a crash) and restarts ([start]) - and its invariants.
    - [ConsoleStream], [ConsoleProps]: [console_stream.py].
    - [Rca]: [rca_evidence.py], [rca_openai.py]; evidence bundles, the draft of a provider, its citation check and the fallback report.
    - [Drift], [DriftProps]: [drift.py]; the stability index and its reference.
    - [Evaluation], [EvaluationProps]: [evaluation.py] and the statistical detector
      of [models.py].
    - [Champion], [ChampionProps]: [champion.py], the manifest of
      [package_champion.py], the receipts of [ml_provenance.py].
    - [ModelRun]: [phase1b_benchmark.py], [autoencoder.py] and the isolation forest of
      [models.py]; one run that trains, evaluates and selects the models.
      [RunProps]: what a run leaves in its directory.
    - [Packaging], [PackagingProps]: [package_champion.py],
      [package_research_candidate.py]; builds that fail, packages that load, and the
      alert policies of a run.
    - [Api]: the route handlers of [api.py]; the handler of root-cause reports is
      also cut at its store calls, where requests interleave.  [ApiProps]
      (concurrent reports), [ApiServices] (the scoring route below the client of
      [Scoring], the replay routes above the service of [ReplayService]).
    - [LabContracts], [LabCatalog]: [lab/contracts.py], [lab/catalog.py].
    - [LabNetwork], [LabSolver], [LabSensors]: [lab/simulation/]; with
      [LabSolverTheory], [LabModelProps], [LabObserveProps].
    - [LabAnalysis], [LabAnalysisProps]: [lab/analysis.py].
    - [LabStore], [LabStoreProps]: [lab/store.py] and migration 006.
    - [LabEngine]: [lab/engine.py]; [LabEngineTheory] (with engines and clients
      racing), [LabEngineProps]; [LabExamples] is a concrete lab.
    - [LabOutbox], [LabRca]: [lab/outbox.py], [lab/worker.py], [lab/evidence.py],
      [lab/rca.py]; [LabServiceProps].
    - [LabApi], [LabStreamProps]: [lab/api.py].

    ** How the code is represented

    A call that may raise is a [result]; a method that mutates objects is an
    [M S A], which returns the state on both outcomes, since an exception does
    not undo what was mutated before it.  Dictionaries and sets are [gmap] and
    [gset]; where the order or the identity of an object matters it is kept (the
    queues of the console broker are objects a subscriber holds by reference).
    Integers are unbounded, as in Python.  A [datetime] is an instant in
    microseconds; naive and aware values are told apart where the code does.
    Fresh identifiers and clock readings are arguments, one record of draws per
    message or step, so every theorem holds for all of them.  A database
    transaction is a function on the whole database that either returns the new
    one or leaves the old one.

    Code that is not the platform's is a parameter: pydantic's validation and
    dumping ([JsonModel], the [validate] functions), the broker (an oracle of the
    outcome of its n-th call, and the log of what was sent), the scoring
    service where only its client is looked at (the answer to the n-th post of a
    body), numpy's statistics ([Numpy], [Statistics]), its linear solver, joblib,
    pandas and pyarrow where rows are selected, and executing an SQL script.  What is
    assumed of a parameter is a hypothesis of the theorem that needs it, or a law
    of its class.

    Concurrency is a schedule of steps.  The two coroutines of the replay service
    interleave at their [await]s: a [step] runs one of them from one waiting point
    to the next, and a schedule is any list of steps, which may also kill the
    process and start it again.  Engines, clients and requests for reports
    interleave at their transactions.

    ** What the theorems show

    - Alerts: the online state machine never raises on a valid stream and opens
      exactly the episodes of the simulation its policy was calibrated with; the
      outcome of each transition; the life cycle of an alert; that an opening
      alert names the decisions that support it; that nothing depends on fresh
      identifiers or the clock.  The selected policy is the best candidate, and a
      locked policy is accepted exactly when its digest is its own.
    - Store and consumer: the schema's constraints and the outbox invariant hold
      after any transactions; a stored state is read back; pages, cursors and
      reports behave; after crashes at any points the consumer has the tables of one
      that never stopped and sent what that one sent, as long as no polled batch
      raises; an offset is committed only past records that were processed or that
      an exception dropped from their batch, and what such an exception drops is
      lost; the outbox is delivered.  Migrations apply what is pending, once and in order.
    - Replay: over any schedule in which no control command is handled while its
      session publishes its final status, the telemetry published since the last
      accepted START is a prefix of the file's stream, up to repetitions after a
      crash (two theorems show what such a command breaks); an uninterrupted session completes;
      a pause or a stop lets at most one more event out; the logical stream does
      not depend on the speed.
    - Features: the offline windows are the runs of consecutive full bins inside
      one split; the online builder gives the same windows with the same values,
      less those followed by a gap.
    - Worker and scoring: the windows of a session are scored once each wherever
      the completion status lands; whatever fails, a decision is published only
      next to the vector it is about; retries are bounded; client and route
      together give the decision of the champion, the same whenever it is asked
      again, or the class of error that the failure calls for.
    - Models: a run of the benchmark never looks at the holdout before it judges
      a model, selects the first feasible one, and its champion manifest verifies;
      a package is published whole or not at all and loads under its digest; a
      package that is accepted is intact and determined by the pinned digest; the
      episodes and figures by which a model is judged are those that its decisions
      and the recorded failures give; a saved drift reference monitors as the one it
      was saved from; no alert policy can be locked for a run of the benchmark.
    - API: concurrent requests for root-cause reports never disagree; a START
      sent by the API is refused by the replay service.
    - Console: durable events are stored before they are shown, telemetry is
      thinned, and a subscriber never loses an event without being told.
    - Lab: [validate_lab] accepts exactly the definitions that compile; a solver
      step gives a well-formed state or a documented error, and every state is
      observed completely; whatever engines race or crash, the stored run is the
      plain simulation and its observations are in the outbox once each, and an
      engine that is left alone finishes; revisions and commands are numbered
      without gap and a command is accepted once; the alerts are those of simple
      machines on the samples; the outbox drains in order; a report cites only its
      evidence; the event stream delivers each event once across reconnections.
    - Errors: what follows when a command, a commit or a status comes at the
      wrong moment; some of these theorems state defects of the code.

    ** Bounds and fuel

    Loops over data are structural.  [while] loops have fuel: the pages of a
    cursor, the dispatchers, the engines and the event stream are run for a number
    of turns the theorems show to be enough; the active-set loop of the solver has
    the code's own bound.  Hash functions pad and run over the whole input;
    numerals have a digit count or the binary size of the number as fuel, the
    shortest decimal of a float the 17 digits that always suffice.
    [timedelta.total_seconds] comparisons are made on integers, which agree with
    the float comparison below 2^32 seconds.

    ** Not modelled

    Reading and writing Parquet, CSV and npz files and the command lines around
    them; the data preparation pipelines, which are pandas and pyarrow; what scikit-learn
    and torch compute; the MLflow life cycle; the Phase 1A benchmark, the
    acceptance-gate and certification scripts, which run the system and judge the
    files it leaves; the lab's baseline model; what FastAPI and uvicorn do around a
    handler; Prometheus metrics and the drift indicator that only feeds one;
    settings read from the environment except Kafka's; process start-up; the
    TypeScript console.  A [datetime] beyond the year 9999, which would raise
    [OverflowError], is an ordinary instant here. *)

From Stdlib Require Export ZArith Lia String Ascii.
From stdpp Require Export base option list gmap strings sorting.

#[global] Open Scope Z_scope.

(** ** Python exceptions

    Every [raise] reachable from a modelled function is one constructor.  The
    interpolated values of a message are dropped; its fixed text is kept. *)
Inductive exn : Type :=
| ValueError (msg : string)
| ValidationError (msg : string)
| TypeError (msg : string)
| AssertionError
| KeyError (key : string)
| IndexError
| LookupError (msg : string)
| RuntimeError (msg : string)
| OrderingViolationError
| ReplayContractError (msg : string)
| MessageDecodeError (msg : string)
| IdentityMismatchError (msg : string)
| ArtifactIntegrityError (msg : string)
| IntegrityError (constraint : string)
| PermanentScoringError (msg : string)
| RetryableScoringError (msg : string)
| SessionFailedError
| KafkaError (msg : string)
| ZeroDivisionError
| OverflowError (msg : string)
| ProviderError (class_name : string)
| DataError (msg : string)
| NumericalFailureError (msg : string)
| LabNotFoundError
| LabRevisionConflictError
| LabNotRunnableError
| RunNotFoundError
| InvalidRunStateError
| CommandRevisionConflictError
| CommandIdentityConflictError
| AttributeError (msg : string)
| FileNotFoundError (path : string)
| ChampionIntegrityError (msg : string)
| ScoringContractError (msg : string)
| MigrationError (msg : string)
| FileExistsError (msg : string)
| ChampionPackageError (msg : string)
| AlertNotFound.

#[export] Instance exn_eq_dec : EqDecision exn.
Proof. solve_decision. Defined.

(** [isinstance(e, ValueError)]: pydantic's [ValidationError] and the
    repository's [OrderingViolationError], [ReplayContractError],
    [MessageDecodeError], [IdentityMismatchError], [ArtifactIntegrityError],
    [ChampionIntegrityError], [ChampionPackageError] and [ScoringContractError] are subclasses. *)
Definition is_value_error (e : exn) : bool :=
  match e with
  | ValueError _ | ValidationError _ | OrderingViolationError | ReplayContractError _
  | MessageDecodeError _ | IdentityMismatchError _ | ArtifactIntegrityError _
  | ChampionIntegrityError _ | ChampionPackageError _ | ScoringContractError _ => true
  | _ => false
  end.

(** ** Results: a Python call returns a value or raises *)
Inductive result (A : Type) : Type :=
| Ok (a : A)
| Err (e : exn).
Arguments Ok {A} a.
Arguments Err {A} e.

#[export] Instance result_eq_dec `{EqDecision A} : EqDecision (result A).
Proof. solve_decision. Defined.

#[export] Instance result_ret : MRet result := @Ok.
#[export] Instance result_bind : MBind result := λ A B f r,
  match r with Ok a => f a | Err e => Err e end.
#[export] Instance result_fmap : FMap result := λ A B f r,
  match r with Ok a => Ok (f a) | Err e => Err e end.

Definition is_ok {A} (r : result A) : bool := match r with Ok _ => true | Err _ => false end.

(** [guard_exn b e] is [if not b: raise e]. *)
Definition guard_exn (b : bool) (e : exn) : result unit := if b then Ok () else Err e.

Definition of_option {A} (e : exn) (o : option A) : result A :=
  match o with Some a => Ok a | None => Err e end.

Definition result_to_option {A} (r : result A) : option A :=
  match r with Ok a => Some a | Err _ => None end.

(** [mapR f l] is a Python comprehension whose body may raise. *)
Fixpoint mapR {A B} (f : A → result B) (l : list A) : result (list B) :=
  match l with
  | [] => Ok []
  | a :: l => b ← f a; bs ← mapR f l; Ok (b :: bs)
  end.

(** [foldR f s l] is a [for] loop over [l] threading [s] whose body may raise. *)
Fixpoint foldR {S A} (f : S → A → result S) (s : S) (l : list A) : result S :=
  match l with
  | [] => Ok s
  | a :: l => s' ← f s a; foldR f s' l
  end.

(** ** Stateful computations

    A method that mutates Python objects: an exception does not undo the
    mutations made before it, so the state is returned on both outcomes. *)
Definition M (S A : Type) : Type := S → result A * S.

#[export] Instance M_ret S : MRet (M S) := λ A a s, (Ok a, s).
#[export] Instance M_bind S : MBind (M S) := λ A B f m s,
  match m s with
  | (Ok a, s') => f a s'
  | (Err e, s') => (Err e, s')
  end.

Definition raise {S A} (e : exn) : M S A := λ s, (Err e, s).
Definition get_st {S} : M S S := λ s, (Ok s, s).
Definition put_st {S} (s' : S) : M S unit := λ _, (Ok (), s').
Definition modify {S} (f : S → S) : M S unit := λ s, (Ok (), f s).
Definition gets {S A} (f : S → A) : M S A := λ s, (Ok (f s), s).
Definition lift_res {S A} (r : result A) : M S A := λ s, (r, s).

(** [try: m except: h e], where [h] answers [None] for an exception the
    [except] clause does not match. *)
Definition catch {S A} (m : M S A) (h : exn → option (M S A)) : M S A := λ s,
  match m s with
  | (Ok a, s') => (Ok a, s')
  | (Err e, s') => match h e with Some k => k s' | None => (Err e, s') end
  end.

(** [for x in l: body x] *)
Fixpoint forM {S A} (l : list A) (body : A → M S unit) : M S unit :=
  match l with
  | [] => mret ()
  | a :: l => _ ← body a; forM l body
  end.

Definition whenM {S} (b : bool) (m : M S unit) : M S unit := if b then m else mret ().

(** ** Automation *)
Create Rewrite HintDb pyres.

Lemma bind_Ok {A B} (r : result A) (f : A → result B) b :
  r ≫= f = Ok b ↔ ∃ a, r = Ok a ∧ f a = Ok b.
Proof. destruct r; simpl; naive_solver. Qed.

Lemma fmap_Ok {A B} (r : result A) (f : A → B) b :
  f <$> r = Ok b ↔ ∃ a, r = Ok a ∧ b = f a.
Proof. destruct r; simpl; naive_solver. Qed.

Lemma guard_exn_Ok b e u : guard_exn b e = Ok u ↔ b = true.
Proof. destruct b, u; simpl; naive_solver. Qed.

Lemma guard_exn_Err b e e' : guard_exn b e = Err e' ↔ b = false ∧ e' = e.
Proof. destruct b; simpl; naive_solver. Qed.

Lemma of_option_Ok {A} e (o : option A) a : of_option e o = Ok a ↔ o = Some a.
Proof. destruct o; simpl; naive_solver. Qed.

#[export] Hint Rewrite @bind_Ok @fmap_Ok guard_exn_Ok guard_exn_Err @of_option_Ok : pyres.

(** [inv_res] decomposes hypotheses saying that a result is [Ok]. *)
Ltac inv_res_step :=
  match goal with
  | H : (_ ≫= _) = Ok _ |- _ => apply bind_Ok in H; destruct H as (? & ? & H)
  | H : (_ <$> _) = Ok _ |- _ => apply fmap_Ok in H; destruct H as (? & ? & H)
  | H : guard_exn _ _ = Ok _ |- _ => apply guard_exn_Ok in H
  | H : of_option _ _ = Ok _ |- _ => apply of_option_Ok in H
  | H : Ok _ = Ok _ |- _ => progress simplify_eq
  | H : Some _ = Some _ |- _ => progress simplify_eq
  | H : Err _ = Ok _ |- _ => discriminate H
  | H : Ok _ = Err _ |- _ => discriminate H
  | H : andb _ _ = true |- _ => apply andb_true_iff in H; destruct H
  | H : negb _ = true |- _ => apply negb_true_iff in H
  | H : bool_decide _ = true |- _ => apply bool_decide_eq_true in H
  | H : bool_decide _ = false |- _ => apply bool_decide_eq_false in H
  end.
Ltac inv_res := repeat inv_res_step.

(** [cases_in H] splits the outermost [match]/[if] of [H]. *)
Ltac cases_in H :=
  match type of H with
  | context [match ?x with _ => _ end] => let E := fresh "E" in destruct x eqn:E
  end.

(** *** Stateful computations *)
Lemma M_bind_Ok {S A B} (m : M S A) (f : A → M S B) s b s' :
  (m ≫= f) s = (Ok b, s') ↔ ∃ a s1, m s = (Ok a, s1) ∧ f a s1 = (Ok b, s').
Proof. unfold mbind, M_bind. destruct (m s) as [[a|e] s1]; naive_solver. Qed.

Lemma M_bind_run {S A B} (m : M S A) (f : A → M S B) s :
  (m ≫= f) s = match m s with (Ok a, s') => f a s' | (Err e, s') => (Err e, s') end.
Proof. reflexivity. Qed.

Lemma M_ret_Ok {S A} (a : A) (s : S) b s' :
  (mret a : M S A) s = (Ok b, s') ↔ b = a ∧ s' = s.
Proof. unfold mret, M_ret. naive_solver. Qed.

Lemma lift_res_Ok {S A} (r : result A) (s : S) a s' :
  lift_res r s = (Ok a, s') ↔ r = Ok a ∧ s' = s.
Proof. unfold lift_res. naive_solver. Qed.

Lemma forM_app {S A} (l1 l2 : list A) (f : A → M S unit) s :
  forM (l1 ++ l2) f s = (_ ← forM l1 f; forM l2 f) s.
Proof.
  revert s. induction l1 as [|a l1 IH]; intros s; [done|]. simpl. rewrite !M_bind_run.
  destruct (f a s) as [[u|e] s1]; [|done]. rewrite IH. by rewrite M_bind_run.
Qed.

(** [inv_M] decomposes a computation that returned. *)
Ltac inv_M_step :=
  match goal with
  | H : (_ ≫= _) _ = (Ok _, _) |- _ => apply M_bind_Ok in H; destruct H as (? & ? & ? & H)
  | H : mret _ _ = (Ok _, _) |- _ => apply M_ret_Ok in H; destruct H as [? ?]; simplify_eq
  | H : lift_res _ _ = (Ok _, _) |- _ => apply lift_res_Ok in H; destruct H as [? ?]; simplify_eq
  | H : raise _ _ = (Ok _, _) |- _ => discriminate H
  end.
Ltac inv_M := repeat inv_M_step.

(** *** Invariants of stateful computations

    [keeps P m]: whatever the outcome of [m], it leaves a state satisfying [P]. *)
Definition keeps {S A} (P : S → Prop) (m : M S A) : Prop := ∀ s, P s → P (m s).2.

Create HintDb keeps.

Section Keeps.
Context {S : Type} (P : S → Prop).

Lemma keeps_ret {A} (a : A) : keeps P (mret a).
Proof. intros s Hs. exact Hs. Qed.
Lemma keeps_raise {A} e : keeps P (@raise S A e).
Proof. intros s Hs. exact Hs. Qed.
Lemma keeps_lift {A} (r : result A) : keeps P (lift_res r).
Proof. intros s Hs. exact Hs. Qed.
Lemma keeps_gets {A} (f : S → A) : keeps P (gets f).
Proof. intros s Hs. exact Hs. Qed.
Lemma keeps_bind {A B} (m : M S A) (f : A → M S B) :
  keeps P m → (∀ a, keeps P (f a)) → keeps P (m ≫= f).
Proof.
  intros Hm Hf s Hs. rewrite M_bind_run. specialize (Hm s Hs). destruct (m s) as [[a|e] s']; [|done].
  by apply Hf.
Qed.
Lemma keeps_modify f : (∀ s, P s → P (f s)) → keeps P (modify f).
Proof. intros Hf s. apply Hf. Qed.
Lemma keeps_when b m : keeps P m → keeps P (whenM b m).
Proof. intros Hm. destruct b; [done|]. intros s Hs. exact Hs. Qed.
Lemma keeps_forM {A} (l : list A) f : (∀ a, keeps P (f a)) → keeps P (forM l f).
Proof.
  intros Hf. induction l as [|a l IH]; [apply keeps_ret|]. simpl. apply keeps_bind; [apply Hf|done].
Qed.
Lemma keeps_catch {A} (m : M S A) h :
  keeps P m → (∀ e k, h e = Some k → keeps P k) → keeps P (catch m h).
Proof.
  intros Hm Hh s Hs. unfold catch. specialize (Hm s Hs). destruct (m s) as [[a|e] s']; [done|].
  destruct (h e) as [k|] eqn:Hk; [|done]. by apply (Hh e k Hk).
Qed.
End Keeps.

#[export] Hint Resolve keeps_ret keeps_raise keeps_lift keeps_gets : keeps.

(** [keeps_all] goes through a computation; what it calls is found in [keeps]. *)
Ltac keeps_step :=
  match goal with
  | |- keeps _ (_ ≫= _) => apply keeps_bind; [|let x := fresh "x" in intro x]
  | |- keeps _ (whenM _ _) => apply keeps_when
  | |- keeps _ (forM _ _) => apply keeps_forM; let x := fresh "x" in intro x
  | |- keeps _ (match ?x with _ => _ end) => destruct x
  | |- keeps _ _ => solve [auto 2 with keeps]
  end.
Ltac keeps_all := repeat keeps_step.

(** ** Lemmas on [mapR] and [foldR] *)
Lemma mapR_length {A B} (f : A → result B) l bs : mapR f l = Ok bs → length bs = length l.
Proof.
  revert bs. induction l as [|a l IH]; intros bs H; simpl in *; inv_res; [done|].
  simpl. by rewrite (IH _ H1).
Qed.

Lemma mapR_Forall2 {A B} (f : A → result B) l bs :
  mapR f l = Ok bs ↔ Forall2 (λ a b, f a = Ok b) l bs.
Proof.
  revert bs. induction l as [|a l IH]; intros bs; simpl.
  - split; [intros [= <-]; constructor | by inversion 1].
  - split.
    + intros H. inv_res. constructor; [done|]. by apply IH.
    + inversion 1; subst. rewrite H2. simpl. by rewrite (proj2 (IH _) H4).
Qed.

Lemma mapR_ok_map {A B} (f : A → result B) (g : A → B) l :
  Forall (λ a, f a = Ok (g a)) l → mapR f l = Ok (g <$> l).
Proof.
  induction 1 as [|a l Ha _ IH]; [done|]. simpl. rewrite Ha. simpl. by rewrite IH.
Qed.

Lemma mapR_total {A B} (f : A → result B) l :
  Forall (λ a, ∃ b, f a = Ok b) l → ∃ bs, mapR f l = Ok bs.
Proof.
  induction 1 as [|a l [b Hb] _ [bs IH]]; [by exists []|]. exists (b :: bs). simpl. by rewrite Hb, IH.
Qed.

Lemma mapR_app {A B} (f : A → result B) l1 l2 :
  mapR f (l1 ++ l2) = bs1 ← mapR f l1; bs2 ← mapR f l2; Ok (bs1 ++ bs2).
Proof.
  induction l1 as [|a l1 IH]; simpl; [by destruct (mapR f l2)|].
  destruct (f a); simpl; [|done]. rewrite IH. by destruct (mapR f l1), (mapR f l2).
Qed.

Lemma foldR_app {S A} (f : S → A → result S) s l1 l2 :
  foldR f s (l1 ++ l2) = s' ← foldR f s l1; foldR f s' l2.
Proof.
  revert s. induction l1 as [|a l1 IH]; intros s; [done|]. simpl.
  destruct (f s a); simpl; auto.
Qed.

Lemma foldR_ext {S A} (f g : S → A → result S) s l :
  (∀ s a, f s a = g s a) → foldR f s l = foldR g s l.
Proof.
  intros Hfg. revert s. induction l as [|a l IH]; intros s; [done|]. simpl. rewrite Hfg.
  destruct (g s a); simpl; auto.
Qed.

(** An invariant of the loop body is an invariant of the loop. *)
Lemma foldR_invariant {S A} (P : S → Prop) (f : S → A → result S) s l s' :
  (∀ s a s', P s → f s a = Ok s' → P s') → P s → foldR f s l = Ok s' → P s'.
Proof.
  intros Hf. revert s. induction l as [|a l IH]; intros s Hs H; simpl in *; inv_res; eauto.
Qed.

(** ** What a call returns or raises

    [ensures E Q r]: a value that satisfies [Q], or an exception that satisfies [E]. *)
Definition ensures {A} (E : exn → Prop) (Q : A → Prop) (r : result A) : Prop :=
  match r with Ok a => Q a | Err e => E e end.

Section Ensures.
Context (E : exn → Prop).

Lemma ensures_bind {A B} (Q : A → Prop) (R : B → Prop) (r : result A) (f : A → result B) :
  ensures E Q r → (∀ a, Q a → ensures E R (f a)) → ensures E R (r ≫= f).
Proof. destruct r; simpl; auto. Qed.
Lemma ensures_fmap {A B} (R : B → Prop) (r : result A) (f : A → B) :
  ensures E (λ a, R (f a)) r → ensures E R (f <$> r).
Proof. by destruct r. Qed.
Lemma ensures_weaken {A} (Q R : A → Prop) (r : result A) :
  ensures E Q r → (∀ a, Q a → R a) → ensures E R r.
Proof. destruct r; simpl; auto. Qed.
Lemma ensures_guard b e : (b = false → E e) → ensures E (λ _, b = true) (guard_exn b e).
Proof. destruct b; simpl; auto. Qed.
Lemma ensures_some {A} e (o : option A) : is_Some o → ensures E (λ a, o = Some a) (of_option e o).
Proof. by intros [a ->]. Qed.
Lemma ensures_foldR {S A} (I : S → Prop) (f : S → A → result S) s l :
  (∀ s a, I s → a ∈ l → ensures E I (f s a)) → I s → ensures E I (foldR f s l).
Proof.
  revert s. induction l as [|a l IH]; intros s Hf Hs; [done|]. simpl.
  apply (ensures_bind I); [apply Hf; [done|constructor]|].
  intros s' Hs'. apply IH; [|done]. intros s'' b Hs'' Hb. apply Hf; [done|by constructor].
Qed.
End Ensures.

Lemma Ok_inj {A} (a b : A) : Ok a = Ok b → a = b.
Proof. congruence. Qed.
Lemma ensures_Ok {A} E (Q : A → Prop) r a : ensures E Q r → r = Ok a → Q a.
Proof. by intros Hr ->. Qed.
(** A call that raises nothing. *)
Lemma ensures_total {A} (Q : A → Prop) r : ensures (λ _, False) Q r → ∃ a, r = Ok a ∧ Q a.
Proof. destruct r; simpl; [eauto|done]. Qed.

(** ** Lists sorted by a key *)
Lemma filter_true {A} (P : A → Prop) `{∀ x, Decision (P x)} l : Forall P l → filter P l = l.
Proof. induction 1 as [|x l Hx _ IH]; [done|]. rewrite filter_cons_True by done. by rewrite IH. Qed.

Lemma filter_false {A} (P : A → Prop) `{∀ x, Decision (P x)} l :
  Forall (λ x, ¬ P x) l → filter P l = [].
Proof. induction 1 as [|x l Hx _ IH]; [done|]. by rewrite filter_cons_False. Qed.

Lemma StronglySorted_filter {A} (R : A → A → Prop) (P : A → Prop) `{∀ x, Decision (P x)} l :
  StronglySorted R l → StronglySorted R (filter P l).
Proof.
  induction 1 as [|x l _ IH Hx]; [constructor|]. rewrite filter_cons. case_decide; [|done].
  constructor; [done|]. rewrite Forall_forall in *. intros y Hy.
  apply list_elem_of_filter in Hy as [_ Hy]. auto.
Qed.

Section Keyed.
Context {A : Type} (key : A → Z).

Definition key_lt (x y : A) : Prop := key x < key y.

(** Beyond an element of a sorted list comes exactly what follows it. *)
Lemma filter_beyond l1 x l2 :
  StronglySorted key_lt (l1 ++ x :: l2) →
  filter (λ y, key x < key y) (l1 ++ x :: l2) = l2.
Proof.
  intros Hs. apply StronglySorted_app in Hs as (Hb & H1 & H2).
  apply StronglySorted_inv in H2 as [_ H2]. rewrite filter_app, filter_cons_False by lia.
  rewrite (filter_true _ l2) by done. rewrite (filter_false _ l1); [done|].
  rewrite Forall_forall. intros y Hy. unfold key_lt in Hb.
  assert (key y < key x) by (apply Hb; [done|apply elem_of_cons; by left]). lia.
Qed.

(** Sortedness of the keys and of the elements. *)
Lemma sorted_keys l : StronglySorted Z.lt (key <$> l) ↔ StronglySorted key_lt l.
Proof.
  induction l as [|x l IH]; [split; constructor|]. rewrite fmap_cons. split.
  - intros [Hs Hx]%StronglySorted_inv. constructor; [by apply IH|]. rewrite Forall_fmap in Hx. exact Hx.
  - intros [Hs Hx]%StronglySorted_inv. constructor; [by apply IH|]. apply Forall_fmap. exact Hx.
Qed.

(** A list has one arrangement in strictly increasing order. *)
Lemma key_sorted_unique l1 l2 :
  StronglySorted key_lt l1 → StronglySorted key_lt l2 → l1 ≡ₚ l2 → l1 = l2.
Proof.
  apply StronglySorted_unique_strong. unfold key_lt. intros; lia.
Qed.

(** Sorting by an order that refines the key sorts by the key, strictly when
    no two elements have the same key. *)
Lemma merge_sort_strict (R : A → A → Prop) `{∀ x y, Decision (R x y)} `{!Transitive R, !Total R} l :
  (∀ x y, R x y → key x ≤ key y) → NoDup (key <$> l) → StronglySorted key_lt (merge_sort R l).
Proof.
  intros HR Hnd. pose proof (StronglySorted_merge_sort R l) as Hs.
  rewrite <-(merge_sort_Permutation R l) in Hnd. revert Hs Hnd.
  induction 1 as [|x l' _ IH Hx]; intros Hnd; [constructor|].
  rewrite fmap_cons in Hnd. apply NoDup_cons in Hnd as [Hni Hnd]. constructor; [by apply IH|].
  rewrite Forall_forall in *. intros y Hy. specialize (HR _ _ (Hx _ Hy)). unfold key_lt.
  assert (key x ≠ key y); [|lia].
  intros Heq. apply Hni. rewrite Heq. by apply list_elem_of_fmap_2.
Qed.
End Keyed.
