(* ===== verification/PyText.v ===== *)
(** * Positional numerals and character strings

    Python's [str] is a byte string here (the UTF-8 bytes of the text).  This
    file holds the fixed-width numerals that [str(UUID)], [datetime.isoformat]
    and [hexdigest] print, the parsers that read them back, and the few [str]
    methods the sources use on them. *)

From S2P Require Import Prelude.

(** ** Digits of a number, most significant first *)
Fixpoint to_digits (b : Z) (n : nat) (z : Z) : list Z :=
  match n with
  | O => []
  | S n => to_digits b n (z / b) ++ [z mod b]
  end.

Definition of_digits (b : Z) (ds : list Z) : Z := foldl (λ acc d, acc * b + d) 0 ds.

(** ['0'..'9'], then ['a'..'z'] *)
Definition digit_char (d : Z) : ascii :=
  ascii_of_N (Z.to_N (if d <? 10 then 48 + d else 87 + d)).

(** [int(c, base)] of one character, upper case accepted *)
Definition char_digit (b : Z) (c : ascii) : option Z :=
  let n := Z.of_N (N_of_ascii c) in
  let d := if (48 <=? n) && (n <=? 57) then Some (n - 48)
           else if (97 <=? n) && (n <=? 122) then Some (n - 87)
           else if (65 <=? n) && (n <=? 90) then Some (n - 55)
           else None in
  d ≫= λ d, if d <? b then Some d else None.

(** A [n]-digit numeral in base [b], as [f"{z:0n}"] prints it *)
Definition numeral (b : Z) (n : nat) (z : Z) : list ascii := digit_char <$> to_digits b n z.

(** [int(text, b)] of a text that consists of digits only *)
Definition parse_numeral (b : Z) (s : list ascii) : option Z :=
  of_digits b <$> mapM (char_digit b) s.

Lemma to_digits_length b n z : length (to_digits b n z) = n.
Proof. revert z. induction n as [|n IH]; intros z; [done|]. simpl. rewrite length_app, IH. simpl; lia. Qed.

Lemma to_digits_bound b n z : 0 < b → Forall (λ d, 0 ≤ d < b) (to_digits b n z).
Proof.
  intros Hb. revert z. induction n as [|n IH]; intros z; simpl; [constructor|].
  apply Forall_app; split; [apply IH|]. constructor; [|constructor].
  by apply Z.mod_pos_bound.
Qed.

Lemma of_to_digits b n z : 0 < b → of_digits b (to_digits b n z) = z mod b ^ Z.of_nat n.
Proof.
  intros Hb. revert z. induction n as [|n IH]; intros z.
  - unfold of_digits. simpl. by rewrite Z.mod_1_r.
  - simpl to_digits. unfold of_digits. rewrite foldl_app. simpl.
    fold (of_digits b (to_digits b n (z / b))). rewrite IH.
    replace (Z.of_nat (S n)) with (1 + Z.of_nat n) by lia.
    rewrite Z.pow_add_r, Z.pow_1_r by lia.
    rewrite Z.rem_mul_r; [lia|lia|]. apply Z.pow_pos_nonneg; lia.
Qed.

(** The characters printed for the digits below 36 are read back. *)
Lemma char_digit_char b d : 0 ≤ d < b → b ≤ 36 → char_digit b (digit_char d) = Some d.
Proof.
  intros Hd Hb.
  assert (∀ d, 0 ≤ d < 36 → char_digit 36 (digit_char d) = Some d) as H36.
  { intros e He.
    assert (Forall (λ k, char_digit 36 (digit_char (Z.of_nat k)) = Some (Z.of_nat k)) (seq 0 36))
      as Hall by (apply (bool_decide_unpack _); reflexivity).
    rewrite Forall_forall in Hall. specialize (Hall (Z.to_nat e)).
    rewrite Z2Nat.id in Hall by lia. apply Hall. apply elem_of_seq. lia. }
  specialize (H36 d ltac:(lia)). unfold char_digit in *.
  destruct (if _ && _ then _ else _) as [e|]; simpl in *; [|done].
  destruct (e <? 36); [|done]. injection H36 as ->.
  by rewrite (proj2 (Z.ltb_lt d b)) by lia.
Qed.

Lemma mapM_char_digit b ds :
  b ≤ 36 → Forall (λ d, 0 ≤ d < b) ds → mapM (char_digit b) (digit_char <$> ds) = Some ds.
Proof.
  intros Hb. induction 1 as [|d ds Hd _ IH]; [done|].
  rewrite fmap_cons. simpl. rewrite char_digit_char by done. simpl.
  by rewrite IH.
Qed.

Lemma numeral_length b n z : length (numeral b n z) = n.
Proof. unfold numeral. by rewrite length_fmap, to_digits_length. Qed.

(** Round trip of a fixed-width numeral. *)
Lemma parse_numeral_numeral b n z :
  0 < b ≤ 36 → parse_numeral b (numeral b n z) = Some (z mod b ^ Z.of_nat n).
Proof.
  intros [Hb Hb']. unfold parse_numeral, numeral.
  rewrite mapM_char_digit; [|done|by apply to_digits_bound].
  simpl. by rewrite of_to_digits.
Qed.

Lemma parse_numeral_small b n z :
  0 < b ≤ 36 → 0 ≤ z < b ^ Z.of_nat n → parse_numeral b (numeral b n z) = Some z.
Proof. intros Hb Hz. rewrite parse_numeral_numeral by done. by rewrite Z.mod_small. Qed.

(** ** [str] methods *)

(** [s.startswith(p)] *)
Fixpoint starts_with (p s : list ascii) : bool :=
  match p, s with
  | [], _ => true
  | a :: p, b :: s => bool_decide (a = b) && starts_with p s
  | _ :: _, [] => false
  end.

(** [s.replace(p, "")], scanning from the left; [skip] counts the characters
    of a match that are still to be dropped. *)
Fixpoint remove_sub (p s : list ascii) (skip : nat) : list ascii :=
  match s with
  | [] => []
  | c :: s' =>
      match skip with
      | S k => remove_sub p s' k
      | O => if starts_with p s then remove_sub p s' (pred (length p)) else c :: remove_sub p s' O
      end
  end.

(** [s.strip(cs)] *)
Fixpoint lstrip (cs s : list ascii) : list ascii :=
  match s with
  | [] => []
  | c :: s' => if bool_decide (c ∈ cs) then lstrip cs s' else s
  end.
Definition strip (cs s : list ascii) : list ascii := rev (lstrip cs (rev (lstrip cs s))).

Definition chars : string → list ascii := list_ascii_of_string.
Definition text : list ascii → string := string_of_list_ascii.

(** [s[:n]] *)
Definition text_prefix (n : nat) (s : string) : string := text (take n (chars s)).

Lemma text_chars s : text (chars s) = s.
Proof. apply string_of_list_ascii_of_string. Qed.
Lemma chars_text l : chars (text l) = l.
Proof. apply list_ascii_of_string_of_list_ascii. Qed.

(** A pattern that starts with a character absent from [s] is not found. *)
Lemma remove_sub_absent c p s : c ∉ s → remove_sub (c :: p) s 0 = s.
Proof.
  induction s as [|a s IH]; intros Hc; [done|]. simpl.
  rewrite not_elem_of_cons in Hc. destruct Hc as [Hne Hs].
  rewrite bool_decide_eq_false_2 by congruence. simpl. by rewrite IH.
Qed.

Lemma lstrip_absent cs s : Forall (λ c, c ∉ cs) s → lstrip cs s = s.
Proof. destruct 1 as [|c s Hc _]; [done|]. simpl. by rewrite bool_decide_eq_false_2. Qed.

Lemma strip_absent cs s : Forall (λ c, c ∉ cs) s → strip cs s = s.
Proof.
  intros H. unfold strip. rewrite (lstrip_absent cs s H).
  rewrite lstrip_absent; [apply rev_involutive|].
  by apply Forall_rev.
Qed.

(** Every character of a numeral in base at most 16 is one of ['0'..'9','a'..'f']. *)
Definition is_hex_char (c : ascii) : bool :=
  let n := Z.of_N (N_of_ascii c) in
  ((48 <=? n) && (n <=? 57)) || ((97 <=? n) && (n <=? 102)).

Lemma numeral_hex n z : Forall (λ c, is_hex_char c = true) (numeral 16 n z).
Proof.
  unfold numeral. apply Forall_fmap.
  eapply Forall_impl; [by apply (to_digits_bound 16)|].
  intros d Hd. simpl in *.
  assert (Forall (λ k, is_hex_char (digit_char (Z.of_nat k)) = true) (seq 0 16))
    as Hall by (apply (bool_decide_unpack _); reflexivity).
  rewrite Forall_forall in Hall. specialize (Hall (Z.to_nat d)).
  rewrite Z2Nat.id in Hall by lia. apply Hall. apply elem_of_seq. lia.
Qed.

(** [HEX_64_PATTERN = r"^[0-9a-f]{64}$"] *)
Definition is_hex64 (s : string) : bool :=
  bool_decide (length (chars s) = 64%nat) && forallb is_hex_char (chars s).
