(* ===== verification/PyUuid.v ===== *)
(** * [uuid.UUID]

    A UUID is a 128-bit integer, [str(u)] its 8-4-4-4-12 hexadecimal form.  The
    range is part of the type (with a proof-irrelevant bound), so equality is
    equality of the integers. *)

From S2P Require Import Prelude PyText.
From Stdlib Require Import Eqdep_dec.

Definition uuid_in_range (n : Z) : bool := (0 <=? n) && (n <? 2 ^ 128).

Record UUID := mkUUID { uuid_int : Z; uuid_ok : uuid_in_range uuid_int = true }.

Lemma uuid_eq (u v : UUID) : uuid_int u = uuid_int v → u = v.
Proof.
  destruct u as [n Hn], v as [m Hm]; simpl. intros <-. f_equal. apply UIP_dec, bool_dec.
Qed.

#[export] Instance UUID_eq_dec : EqDecision UUID.
Proof.
  intros u v. destruct (decide (uuid_int u = uuid_int v)) as [E|E].
  - left. by apply uuid_eq.
  - right. by intros ->.
Defined.

(** [UUID(int=n)] raises [ValueError] when [n] does not fit in 128 bits. *)
Definition UUID_of_int (n : Z) : result UUID :=
  match bool_dec (uuid_in_range n) true with
  | left H => Ok (mkUUID n H)
  | right _ => Err (ValueError "int is out of range (need a 128-bit value)")
  end.

Lemma uuid_wrap_ok n : uuid_in_range (n mod 2 ^ 128) = true.
Proof.
  pose proof (Z.mod_pos_bound n (2 ^ 128) ltac:(lia)).
  unfold uuid_in_range. apply andb_true_iff; rewrite Z.leb_le, Z.ltb_lt. lia.
Qed.

(** The UUID of a 16-byte string. *)
Definition UUID_of_bits (n : Z) : UUID := mkUUID (n mod 2 ^ 128) (uuid_wrap_ok n).

#[export] Instance UUID_countable : Countable UUID.
Proof.
  refine (inj_countable' uuid_int UUID_of_bits _).
  intros [n Hn]. apply uuid_eq. simpl. unfold uuid_in_range in Hn.
  apply andb_true_iff in Hn. rewrite Z.leb_le, Z.ltb_lt in Hn. apply Z.mod_small. lia.
Defined.

(** [ORDER BY] and [>] on the textual form: the text is fixed-width lower-case
    hexadecimal, so the order is the order of the integers. *)
Definition uuid_leb (u v : UUID) : bool := uuid_int u <=? uuid_int v.
Definition uuid_ltb (u v : UUID) : bool := uuid_int u <? uuid_int v.

(** ** [str(u)] *)
Definition hyphen : ascii := "-"%char.

Definition uuid_chars (u : UUID) : list ascii :=
  let h := numeral 16 32 (uuid_int u) in
  take 8 h ++ [hyphen] ++ take 4 (drop 8 h) ++ [hyphen] ++ take 4 (drop 12 h)
    ++ [hyphen] ++ take 4 (drop 16 h) ++ [hyphen] ++ drop 20 h.

Definition str_uuid (u : UUID) : string := text (uuid_chars u).

(** ** [UUID(text)] *)
Definition is_hyphen (c : ascii) : bool := bool_decide (c = hyphen).

Definition uuid_hex_of_text (s : string) : list ascii :=
  let h := remove_sub (chars "urn:") (chars s) 0 in
  let h := remove_sub (chars "uuid:") h 0 in
  let h := strip (chars "{}") h in
  filter (λ c, is_hyphen c = false) h.

Definition UUID_of_text (s : string) : result UUID :=
  let h := uuid_hex_of_text s in
  if bool_decide (length h = 32%nat) then
    match parse_numeral 16 h with
    | Some n => UUID_of_int n
    | None => Err (ValueError "invalid literal for int() with base 16")
    end
  else Err (ValueError "badly formed hexadecimal UUID string").

(** ** Round trip *)
Lemma uuid_range (u : UUID) : 0 ≤ uuid_int u < 2 ^ 128.
Proof.
  destruct u as [n Hn]; simpl. unfold uuid_in_range in Hn.
  apply andb_true_iff in Hn. rewrite Z.leb_le, Z.ltb_lt in Hn. lia.
Qed.

Lemma UUID_of_int_self (u : UUID) : UUID_of_int (uuid_int u) = Ok u.
Proof.
  unfold UUID_of_int. destruct (bool_dec _ _) as [H|H].
  - f_equal. by apply uuid_eq.
  - by destruct H, u.
Qed.

Lemma Forall_take_drop {A} (P : A → Prop) n (l : list A) :
  Forall P l → Forall P (take n l) ∧ Forall P (drop n l).
Proof. intros H. split; [by apply Forall_take | by apply Forall_drop]. Qed.

Definition uuid_char_ok (c : ascii) : Prop := is_hex_char c = true ∨ c = hyphen.

Lemma uuid_chars_ok u : Forall uuid_char_ok (uuid_chars u).
Proof.
  assert (Forall uuid_char_ok (numeral 16 32 (uuid_int u))) as H.
  { eapply Forall_impl; [apply numeral_hex|]. intros c Hc. by left. }
  assert (uuid_char_ok hyphen) by by right.
  unfold uuid_chars. rewrite !Forall_app, !Forall_singleton.
  repeat split; try done; repeat first [apply Forall_take | apply Forall_drop]; done.
Qed.

Lemma hex_char_not c d : is_hex_char c = true → is_hex_char d = false → c ≠ d.
Proof. congruence. Qed.

Lemma uuid_char_ok_neq c d : uuid_char_ok c → is_hex_char d = false → d ≠ hyphen → c ≠ d.
Proof. intros [H| ->] Hd Hh; [by eapply hex_char_not | congruence]. Qed.

Lemma uuid_chars_strip u : uuid_hex_of_text (str_uuid u) = numeral 16 32 (uuid_int u).
Proof.
  unfold uuid_hex_of_text, str_uuid. rewrite chars_text.
  pose proof (uuid_chars_ok u) as Hok.
  assert ("u"%char ∉ uuid_chars u) as Hu.
  { intros Hin. rewrite Forall_forall in Hok. 
    by apply (uuid_char_ok_neq "u"%char "u"%char (Hok _ Hin)). }
  change (chars "urn:") with ("u"%char :: chars "rn:").
  rewrite remove_sub_absent by done.
  change (chars "uuid:") with ("u"%char :: chars "uid:").
  rewrite remove_sub_absent by done.
  rewrite strip_absent.
  2:{ eapply Forall_impl; [exact Hok|]. intros c Hc Hin.
      destruct Hc as [Hc| ->]; simpl in Hin; rewrite !elem_of_cons, elem_of_nil in Hin;
        naive_solver. }
  assert (∀ l, Forall (λ c, is_hex_char c = true) l → filter (λ c, is_hyphen c = false) l = l) as Hf.
  { induction 1 as [|c l Hc _ IH]; [done|].
    rewrite filter_cons_True; [by rewrite IH|].
    unfold is_hyphen. apply bool_decide_eq_false. intros ->. discriminate Hc. }
  clear Hok Hu. pose proof (numeral_hex 32 (uuid_int u)) as Hh. unfold uuid_chars.
  generalize dependent (numeral 16 32 (uuid_int u)). intros h Hh.
  rewrite !filter_app. rewrite !filter_cons_False, !filter_nil by done. simpl.
  rewrite !Hf by (repeat first [apply Forall_take | apply Forall_drop]; done).
  replace (drop 12 h) with (drop 4 (drop 8 h)) by by rewrite drop_drop.
  replace (drop 20 h) with (drop 4 (drop 16 h)) by by rewrite drop_drop.
  replace (drop 16 h) with (drop 4 (drop 12 h)) by by rewrite drop_drop.
  replace (drop 12 h) with (drop 4 (drop 8 h)) by by rewrite drop_drop.
  by rewrite !take_drop.
Qed.

(** [UUID(str(u)) == u] *)
Lemma UUID_of_text_str u : UUID_of_text (str_uuid u) = Ok u.
Proof.
  unfold UUID_of_text. rewrite uuid_chars_strip, numeral_length.
  rewrite bool_decide_eq_true_2 by done.
  rewrite parse_numeral_small by (try apply uuid_range; lia).
  apply UUID_of_int_self.
Qed.

Lemma str_uuid_inj u v : str_uuid u = str_uuid v → u = v.
Proof. intros H. pose proof (UUID_of_text_str u) as Hu. rewrite H, UUID_of_text_str in Hu. by injection Hu. Qed.

Lemma uuid_leb_total u v : uuid_leb u v = true ∨ uuid_leb v u = true.
Proof. unfold uuid_leb. rewrite !Z.leb_le. lia. Qed.
