(* ===== verification/PyTime.v ===== *)
(** * [datetime] and [timedelta]

    A naive [datetime] is its number of microseconds since 0001-01-01T00:00:00;
    calendar fields are derived from it with CPython's proleptic Gregorian
    algorithms ([_ymd2ord], [_ord2ymd]).  A [timedelta] is a number of
    microseconds.  [OverflowError] outside the years 1..9999 is not modelled. *)

From S2P Require Import Prelude PyText.

Definition datetime := Z.
Definition usec : Z := 1000000.
Definition usec_per_day : Z := 86400 * usec.

(** [timedelta(seconds=s)], [timedelta(minutes=m)] *)
Definition seconds (s : Z) : Z := s * usec.
Definition minutes (m : Z) : Z := m * 60 * usec.

(** [td.total_seconds() <= s] for an integer [s] and a [timedelta] [td]:
    [total_seconds] is [microseconds / 10**6] correctly rounded; rounding is
    monotone, exact on integers, and finer than a microsecond next to an [s]
    below 2^32, so the float test and the integer test agree there. *)
Definition total_seconds_leb (td s : Z) : bool := td <=? seconds s.
Definition total_seconds_ltb (td s : Z) : bool := td <? seconds s.
Definition total_seconds_eqb (td s : Z) : bool := td =? seconds s.

(** ** Time-zone awareness *)
Record aware := mkAware { wall : datetime; utcoffset : Z }.

(** What a caller may hand to a message constructor. *)
Inductive stamp := Naive (t : datetime) | Aware (a : aware).

#[export] Instance aware_eq_dec : EqDecision aware.
Proof. solve_decision. Defined.
#[export] Instance stamp_eq_dec : EqDecision stamp.
Proof. solve_decision. Defined.

(** [if t.tzinfo is not None: raise] / [if t.tzinfo is None: raise] *)
Definition require_naive (msg : string) (t : stamp) : result datetime :=
  match t with Naive t => Ok t | Aware _ => Err (ValidationError msg) end.
Definition require_aware (msg : string) (t : stamp) : result aware :=
  match t with Aware a => Ok a | Naive _ => Err (ValidationError msg) end.

(** [a >= b]: comparing a naive with an aware [datetime] raises [TypeError]. *)
Definition stamp_geb (a b : stamp) : result bool :=
  match a, b with
  | Naive a, Naive b => Ok (b <=? a)
  | Aware a, Aware b => Ok (wall b - utcoffset b <=? wall a - utcoffset a)
  | _, _ => Err (TypeError "can't compare offset-naive and offset-aware datetimes")
  end.

(** ** Calendar *)
Definition is_leap (y : Z) : bool :=
  (y mod 4 =? 0) && (negb (y mod 100 =? 0) || (y mod 400 =? 0)).

Definition days_before_year (y : Z) : Z :=
  let y := y - 1 in y * 365 + y / 4 - y / 100 + y / 400.

Definition days_before_month_table : list Z :=
  [0; 0; 31; 59; 90; 120; 151; 181; 212; 243; 273; 304; 334].
Definition days_in_month_table : list Z :=
  [0; 31; 28; 31; 30; 31; 30; 31; 31; 30; 31; 30; 31].

Definition days_before_month (leap : bool) (m : Z) : Z :=
  nth (Z.to_nat m) days_before_month_table 0 + (if (2 <? m) && leap then 1 else 0).
Definition days_in_month (leap : bool) (m : Z) : Z :=
  if (m =? 2) && leap then 29 else nth (Z.to_nat m) days_in_month_table 0.

Definition ymd2ord (y m d : Z) : Z :=
  days_before_year y + days_before_month (is_leap y) m + d.

(** Month and day of the [n]th day of a year, counted from 0. *)
Definition month_day (leap : bool) (n : Z) : Z * Z :=
  let month := Z.shiftr (n + 50) 5 in
  let preceding := days_before_month leap month in
  if n <? preceding
  then (month - 1, n - (preceding - days_in_month leap (month - 1)) + 1)
  else (month, n - preceding + 1).

Definition ord2ymd (ord : Z) : Z * Z * Z :=
  let n := ord - 1 in
  let n400 := n / 146097 in let n := n mod 146097 in
  let n100 := n / 36524 in let n := n mod 36524 in
  let n4 := n / 1461 in let n := n mod 1461 in
  let n1 := n / 365 in let n := n mod 365 in
  let year := n400 * 400 + 1 + n100 * 100 + n4 * 4 + n1 in
  if (n1 =? 4) || (n100 =? 4) then (year - 1, 12, 31)
  else
    let leapyear := (n1 =? 3) && (negb (n4 =? 24) || (n100 =? 3)) in
    let '(m, d) := month_day leapyear n in (year, m, d).

(** ** Fields *)
Definition ordinal (t : datetime) : Z := t / usec_per_day + 1.
Definition time_of_day (t : datetime) : Z := t mod usec_per_day.
Definition hour (t : datetime) : Z := time_of_day t / (3600 * usec).
Definition minute (t : datetime) : Z := time_of_day t / (60 * usec) mod 60.
Definition second (t : datetime) : Z := time_of_day t / usec mod 60.
Definition microsecond (t : datetime) : Z := t mod usec.

Definition datetime_of (y mo d h mi s us : Z) : datetime :=
  (ymd2ord y mo d - 1) * usec_per_day + (h * 3600 + mi * 60 + s) * usec + us.

(** [datetime(...)] checks its fields. *)
Definition mk_datetime (y mo d h mi s us : Z) : result datetime :=
  if (1 <=? y) && (y <=? 9999) && (1 <=? mo) && (mo <=? 12)
     && (1 <=? d) && (d <=? days_in_month (is_leap y) mo)
     && (0 <=? h) && (h <? 24) && (0 <=? mi) && (mi <? 60)
     && (0 <=? s) && (s <? 60) && (0 <=? us) && (us <? usec)
  then Ok (datetime_of y mo d h mi s us)
  else Err (ValueError "datetime field out of range").

(** The instants a [datetime] can denote: years 1..9999. *)
Definition dt_valid (t : datetime) : Prop := 0 ≤ t < 3652059 * usec_per_day.

(** ** [isoformat] and [fromisoformat] *)
Definition iso_seconds (t : datetime) : list ascii :=
  let '(y, m, d) := ord2ymd (ordinal t) in
  numeral 10 4 y ++ ["-"%char] ++ numeral 10 2 m ++ ["-"%char] ++ numeral 10 2 d ++ ["T"%char]
    ++ numeral 10 2 (hour t) ++ [":"%char] ++ numeral 10 2 (minute t) ++ [":"%char]
    ++ numeral 10 2 (second t).

(** [t.isoformat()] prints the microseconds only when they are not zero. *)
Definition isoformat (t : datetime) : string :=
  text (iso_seconds t ++
        (if microsecond t =? 0 then [] else ["."%char] ++ numeral 10 6 (microsecond t))).

(** [t.isoformat(timespec="seconds")] *)
Definition isoformat_seconds (t : datetime) : string := text (iso_seconds t).

(** [take_num n s] reads an [n]-digit numeral at the head of [s]. *)
Definition take_num (n : nat) (s : list ascii) : option (Z * list ascii) :=
  if bool_decide (n ≤ length s)%nat
  then v ← parse_numeral 10 (take n s); Some (v, drop n s) else None.
Definition take_char (c : ascii) (s : list ascii) : option (list ascii) :=
  match s with c' :: s => if bool_decide (c = c') then Some s else None | [] => None end.

(** [datetime.fromisoformat] on the two layouts [isoformat] emits; the other
    ISO 8601 layouts CPython accepts are rejected here. *)
Definition parse_iso (s : list ascii) : option (Z * Z * Z * (Z * Z * Z * Z)) :=
  '(y, s) ← take_num 4 s; s ← take_char "-"%char s;
  '(m, s) ← take_num 2 s; s ← take_char "-"%char s;
  '(d, s) ← take_num 2 s; s ← take_char "T"%char s;
  '(h, s) ← take_num 2 s; s ← take_char ":"%char s;
  '(mi, s) ← take_num 2 s; s ← take_char ":"%char s;
  '(sec, s) ← take_num 2 s;
  match s with
  | [] => Some (y, m, d, (h, mi, sec, 0))
  | _ =>
      s ← take_char "."%char s;
      '(us, s) ← take_num 6 s;
      match s with [] => Some (y, m, d, (h, mi, sec, us)) | _ => None end
  end.

Definition fromisoformat (s : string) : result datetime :=
  match parse_iso (chars s) with
  | Some (y, m, d, (h, mi, sec, us)) => mk_datetime y m d h mi sec us
  | None => Err (ValueError "Invalid isoformat string")
  end.

(** ** The calendar is a bijection *)
Lemma nth_forallb (P : Z → bool) n :
  forallb (λ k, P (Z.of_nat k)) (seq 0 n) = true → ∀ z, 0 ≤ z < Z.of_nat n → P z = true.
Proof.
  intros H z Hz. rewrite forallb_forall in H. specialize (H (Z.to_nat z)).
  rewrite Z2Nat.id in H by lia. apply H. apply in_seq. lia.
Qed.

(** Month and day are in range and add up to the day of the year. *)
Definition month_day_ok (leap : bool) (n : Z) : bool :=
  let '(m, d) := month_day leap n in
  (1 <=? m) && (m <=? 12) && (1 <=? d) && (d <=? days_in_month leap m)
  && (days_before_month leap m + d =? n + 1).

Lemma month_day_spec (leap : bool) (n : Z) : 0 ≤ n < (if leap then 366 else 365) → month_day_ok leap n = true.
Proof.
  destruct leap; intros Hn.
  - apply (nth_forallb (month_day_ok true) 366); [reflexivity|lia].
  - apply (nth_forallb (month_day_ok false) 365); [reflexivity|lia].
Qed.

(** The year a day number falls in, split into 400/100/4/1-year cycles. *)
Lemma ord_cycles n : 0 ≤ n →
  ∃ a b c d r, n = 146097 * a + 36524 * b + 1461 * c + 365 * d + r ∧
    a = n / 146097 ∧ b = n mod 146097 / 36524 ∧ c = n mod 146097 mod 36524 / 1461 ∧
    d = n mod 146097 mod 36524 mod 1461 / 365 ∧ r = n mod 146097 mod 36524 mod 1461 mod 365 ∧
    0 ≤ a ∧ 0 ≤ b ≤ 4 ∧ 0 ≤ c ≤ 24 ∧ 0 ≤ d ≤ 4 ∧ 0 ≤ r < 365 ∧
    (d = 4 → r = 0) ∧ (c = 24 → d ≤ 3) ∧ (b = 4 → c = 0 ∧ d = 0 ∧ r = 0).
Proof.
  intros Hn.
  exists (n / 146097), (n mod 146097 / 36524), (n mod 146097 mod 36524 / 1461),
    (n mod 146097 mod 36524 mod 1461 / 365), (n mod 146097 mod 36524 mod 1461 mod 365).
  Z.to_euclidean_division_equations. repeat split; try reflexivity; lia.
Qed.

Lemma leap_of_cycles a b c d :
  0 ≤ b ≤ 3 → 0 ≤ c ≤ 24 → 0 ≤ d ≤ 3 →
  is_leap (a * 400 + 1 + b * 100 + c * 4 + d) = (d =? 3) && (negb (c =? 24) || (b =? 3)).
Proof.
  intros. unfold is_leap.
  set (y := a * 400 + 1 + b * 100 + c * 4 + d).
  assert ((y mod 4 =? 0) = (d =? 3)) as ->.
  { apply eq_true_iff_eq. rewrite !Z.eqb_eq. unfold y. Z.to_euclidean_division_equations. lia. }
  destruct (d =? 3) eqn:Hd; [|done]. apply Z.eqb_eq in Hd. rewrite !andb_true_l.
  assert ((y mod 100 =? 0) = (c =? 24)) as ->.
  { apply eq_true_iff_eq. rewrite !Z.eqb_eq. unfold y. Z.to_euclidean_division_equations. lia. }
  destruct (c =? 24) eqn:Hc; [|done]. apply Z.eqb_eq in Hc. rewrite !orb_false_l.
  apply eq_true_iff_eq. rewrite !Z.eqb_eq. unfold y. Z.to_euclidean_division_equations. lia.
Qed.

Lemma days_before_year_cycles a b c d :
  0 ≤ b ≤ 3 → 0 ≤ c ≤ 24 → 0 ≤ d ≤ 3 →
  days_before_year (a * 400 + 1 + b * 100 + c * 4 + d) = 146097 * a + 36524 * b + 1461 * c + 365 * d.
Proof. intros. unfold days_before_year. Z.to_euclidean_division_equations. lia. Qed.

(** [_ord2ymd] yields a valid date, and [_ymd2ord] inverts it. *)
Lemma ord2ymd_spec ord y m d :
  1 ≤ ord ≤ 3652059 → ord2ymd ord = (y, m, d) →
  1 ≤ y ≤ 9999 ∧ 1 ≤ m ≤ 12 ∧ 1 ≤ d ≤ days_in_month (is_leap y) m ∧ ymd2ord y m d = ord.
Proof.
  intros Hord. unfold ord2ymd.
  destruct (ord_cycles (ord - 1) ltac:(lia))
    as (a & b & c & e & r & Hn & <- & <- & <- & <- & <- & Ha & Hb & Hc & He & Hr & He4 & Hc24 & Hb4).
  destruct ((e =? 4) || (b =? 4)) eqn:E4.
  - intros [= <- <- <-]. apply orb_true_iff in E4. rewrite !Z.eqb_eq in E4.
    assert (∃ b' c' , a * 400 + 1 + b * 100 + c * 4 + e - 1 = a * 400 + 1 + b' * 100 + c' * 4 + 3 ∧
      0 ≤ b' ≤ 3 ∧ 0 ≤ c' ≤ 24 ∧ (c' = 24 → b' = 3) ∧ 
      146097 * a + 36524 * b' + 1461 * c' + 365 * 3 + 366 = ord) as (b' & c' & -> & Hb' & Hc' & Hbc & Hsum).
    { destruct E4 as [-> | ->]; [exists b, c | exists 3, 24]; lia. }
    assert (is_leap (a * 400 + 1 + b' * 100 + c' * 4 + 3) = true) as Hleap.
    { rewrite leap_of_cycles by lia. simpl.
      destruct (c' =? 24) eqn:Ec; [|done]. apply Z.eqb_eq in Ec. rewrite Hbc by done. done. }
    unfold ymd2ord. rewrite Hleap, days_before_year_cycles by lia.
    change (days_in_month true 12) with 31. change (days_before_month true 12) with 335. lia.
  - apply orb_false_iff in E4. rewrite !Z.eqb_neq in E4.
    rewrite <-(leap_of_cycles a) by lia.
    set (yy := a * 400 + 1 + b * 100 + c * 4 + e) in *.
    assert (0 ≤ r < (if is_leap yy then 366 else 365)) as Hr' by (destruct (is_leap yy); lia).
    pose proof (month_day_spec (is_leap yy) r Hr') as Hmd. unfold month_day_ok in Hmd.
    destruct (month_day (is_leap yy) r) as [m' d'] eqn:Emd.
    intros [= <- <- <-].
    rewrite !andb_true_iff, !Z.leb_le, Z.eqb_eq in Hmd.
    assert (days_before_year yy = 146097 * a + 36524 * b + 1461 * c + 365 * e) as Hdy
      by (apply days_before_year_cycles; lia).
    assert (yy = a * 400 + 1 + b * 100 + c * 4 + e) as Hyy by reflexivity. clearbody yy.
    unfold ymd2ord. rewrite Hdy. lia.
Qed.

(** A valid instant is the [datetime] of its fields. *)
Lemma datetime_of_fields t y m d :
  dt_valid t → ord2ymd (ordinal t) = (y, m, d) →
  mk_datetime y m d (hour t) (minute t) (second t) (microsecond t) = Ok t.
Proof.
  intros Ht Hy. unfold dt_valid in Ht.
  assert (1 ≤ ordinal t ≤ 3652059) as Hord.
  { unfold ordinal, usec_per_day, usec in *. Z.to_euclidean_division_equations. lia. }
  destruct (ord2ymd_spec _ _ _ _ Hord Hy) as (H1 & H2 & H3 & H4).
  assert (0 ≤ hour t < 24 ∧ 0 ≤ minute t < 60 ∧ 0 ≤ second t < 60 ∧ 0 ≤ microsecond t < usec ∧
    datetime_of y m d (hour t) (minute t) (second t) (microsecond t) = t) as (H5 & H6 & H7 & H8 & H9).
  { unfold datetime_of. rewrite H4. clear.
    unfold ordinal, hour, minute, second, microsecond, time_of_day, usec_per_day, usec.
    Z.to_euclidean_division_equations. lia. }
  unfold mk_datetime. rewrite H9.
  repeat match goal with
  | |- context [?a <=? ?b] => rewrite (proj2 (Z.leb_le a b)) by lia
  | |- context [?a <? ?b] => rewrite (proj2 (Z.ltb_lt a b)) by lia
  end. done.
Qed.

(** ** [fromisoformat(isoformat(t)) == t] *)
Lemma take_num_numeral n z s :
  0 ≤ z < 10 ^ Z.of_nat n → take_num n (numeral 10 n z ++ s) = Some (z, s).
Proof.
  intros Hz. unfold take_num. rewrite length_app, numeral_length.
  rewrite bool_decide_eq_true_2 by lia.
  rewrite take_app_length' by (symmetry; apply numeral_length).
  rewrite parse_numeral_small by lia. simpl.
  by rewrite drop_app_length' by (symmetry; apply numeral_length).
Qed.

Lemma take_char_cons c s : take_char c (c :: s) = Some s.
Proof. simpl. by rewrite bool_decide_eq_true_2. Qed.

Lemma fromisoformat_isoformat t : dt_valid t → fromisoformat (isoformat t) = Ok t.
Proof.
  intros Ht. unfold fromisoformat, isoformat, iso_seconds. rewrite chars_text.
  destruct (ord2ymd (ordinal t)) as [[y m] d] eqn:Hy.
  pose proof (datetime_of_fields _ _ _ _ Ht Hy) as Hmk.
  unfold mk_datetime in Hmk.
  destruct (_ && _) eqn:Hb in Hmk; [|done]. clear Hmk.
  rewrite !andb_true_iff, !Z.leb_le, !Z.ltb_lt in Hb. unfold usec in Hb.
  assert (d ≤ 99).
  { assert (m = 1 ∨ m = 2 ∨ m = 3 ∨ m = 4 ∨ m = 5 ∨ m = 6 ∨ m = 7 ∨ m = 8 ∨ m = 9 ∨ m = 10 ∨
      m = 11 ∨ m = 12) as Hm by lia.
    assert (days_in_month (is_leap y) m ≤ 31); [|lia].
    destruct (is_leap y); repeat destruct Hm as [->|Hm]; subst; vm_compute; discriminate. }
  unfold parse_iso. rewrite <-!app_assoc. cbn [app].
  repeat (rewrite take_num_numeral by lia; cbn [mbind option_bind]; rewrite ?take_char_cons;
          cbn [mbind option_bind]).
  pose proof (datetime_of_fields _ _ _ _ Ht Hy) as Hmk.
  destruct (microsecond t =? 0) eqn:Hus.
  - apply Z.eqb_eq in Hus. by rewrite Hus in Hmk.
  - cbn [app]. rewrite take_char_cons. cbn [mbind option_bind].
    rewrite <-(app_nil_r (numeral 10 6 _)), take_num_numeral by lia. done.
Qed.
