(* ===== verification/PyFloat.v ===== *)
(** * Python [float]: IEEE 754 binary64

    A [float] is a [spec_float] of the Standard Library, with 53 bits of
    precision and maximal exponent 1024; every operation is the correctly
    rounded one (round half to even), computed without primitive floats. *)

From S2P Require Import Prelude.
From Stdlib Require Export SpecFloat.

Definition float := spec_float.
Definition fprec : Z := 53.
Definition femax : Z := 1024.

#[export] Instance spec_float_eq_dec : EqDecision spec_float.
Proof. solve_decision. Defined.

Definition fadd : float → float → float := SFadd fprec femax.
Definition fsub : float → float → float := SFsub fprec femax.
Definition fmul : float → float → float := SFmul fprec femax.
Definition fdiv : float → float → float := SFdiv fprec femax.
Definition fabs : float → float := SFabs.
Definition fltb : float → float → bool := SFltb.
Definition fleb : float → float → bool := SFleb.
Definition feqb : float → float → bool := SFeqb.
Definition fsqrt : float → float := SFsqrt fprec femax.

(** [min(a, b)] and [max(a, b)] of the language: the first argument unless the
    second one is smaller (larger), whatever the order of a NaN. *)
Definition py_min (a b : float) : float := if fltb b a then b else a.
Definition py_max (a b : float) : float := if fltb a b then b else a.

(** [math.isfinite] *)
Definition is_finite (x : float) : bool :=
  match x with S754_zero _ | S754_finite _ _ _ => true | _ => false end.

(** [float(n)] of an integer below 2^53, and decimal literals [num / den] whose
    two integers are exact. *)
Definition float_of_Z (n : Z) : float := binary_normalize fprec femax n 0 false.
Definition flit (num den : Z) : float := fdiv (float_of_Z num) (float_of_Z den).
Definition finf : float := S754_infinity false.
Definition f0 : float := S754_zero false.
Definition f1 : float := float_of_Z 1.

(** [np.isclose(x, 0.0)]: [abs(x) <= 1e-8] *)
Definition isclose_zero (x : float) : bool := fleb (fabs x) (flit 1 100000000).

Lemma is_finite_fabs x : is_finite (fabs x) = is_finite x.
Proof. by destruct x. Qed.

(** [abs(x) >= 0.0] for every finite [x]. *)
Lemma fabs_nonneg x : is_finite x = true → fleb f0 (fabs x) = true.
Proof. by destruct x. Qed.

(** A comparison that holds has no NaN operand. *)
Lemma fleb_no_nan x y : fleb x y = true → x ≠ S754_nan ∧ y ≠ S754_nan.
Proof. by destruct x, y. Qed.
Lemma fltb_no_nan x y : fltb x y = true → x ≠ S754_nan ∧ y ≠ S754_nan.
Proof. by destruct x, y. Qed.

Lemma fltb_finf_false x : fltb finf x = false.
Proof. by destruct x as [| [] | |]. Qed.

Example flit_tenth : fadd (flit 1 10) (flit 2 10) ≠ flit 3 10.
Proof. by vm_compute. Qed.
