(* ===== verification/PyHash.v ===== *)
(** * [hashlib] and [uuid.uuid5]

    SHA-1 and SHA-256 over byte strings (FIPS 180-4) and the name-based UUIDs
    built from SHA-1 (RFC 9562), executable. *)

From S2P Require Import Prelude PyText PyUuid.

Definition bytes := list Z.

(** [text.encode("utf-8")] *)
Definition encode (s : string) : bytes := (λ c, Z.of_N (N_of_ascii c)) <$> chars s.

Definition mask32 (x : Z) : Z := Z.land x 4294967295.
Definition add32 (x y : Z) : Z := mask32 (x + y).
Definition not32 (x : Z) : Z := Z.lxor x 4294967295.
Definition rotl (n x : Z) : Z := mask32 (Z.lor (Z.shiftl x n) (Z.shiftr x (32 - n))).
Definition rotr (n x : Z) : Z := rotl (32 - n) x.

(** Padding: [0x80], zeros up to 56 mod 64, then the bit length in 8 bytes. *)
Definition pad (msg : bytes) : bytes :=
  let len := Z.of_nat (length msg) in
  let zeros := (55 - len) mod 64 in
  msg ++ [128] ++ replicate (Z.to_nat zeros) 0 ++ to_digits 256 8 (8 * len).

Fixpoint words (bs : bytes) : list Z :=
  match bs with
  | a :: b :: c :: d :: bs => of_digits 256 [a; b; c; d] :: words bs
  | _ => []
  end.

Fixpoint blocks (n : nat) (ws : list Z) : list (list Z) :=
  match n with
  | O => []
  | S n => take 16 ws :: blocks n (drop 16 ws)
  end.

Definition message_blocks (msg : bytes) : list (list Z) :=
  let ws := words (pad msg) in blocks (length ws / 16) ws.

Definition wnth (w : list Z) (i : nat) : Z := nth i w 0.

(** The message schedule, kept most recent word first. *)
Fixpoint extend (next : list Z → Z) (n : nat) (rw : list Z) : list Z :=
  match n with O => rw | S n => extend next n (next rw :: rw) end.

Definition digest_words (ws : list Z) : bytes := ws ≫= to_digits 256 4.

(** [h.hexdigest()] *)
Definition hexdigest (bs : bytes) : string := text (bs ≫= numeral 16 2).

Module SHA1.

Definition init : list Z := [1732584193; 4023233417; 2562383102; 271733878; 3285377520].

Definition next (rw : list Z) : Z :=
  rotl 1 (Z.lxor (Z.lxor (wnth rw 2) (wnth rw 7)) (Z.lxor (wnth rw 13) (wnth rw 15))).

Definition fk (t : nat) (b c d : Z) : Z * Z :=
  if (t <? 20)%nat then (Z.lor (Z.land b c) (Z.land (not32 b) d), 1518500249)
  else if (t <? 40)%nat then (Z.lxor b (Z.lxor c d), 1859775393)
  else if (t <? 60)%nat then
    (Z.lor (Z.land b c) (Z.lor (Z.land b d) (Z.land c d)), 2400959708)
  else (Z.lxor b (Z.lxor c d), 3395469782).

Definition round (s : list Z) (tw : nat * Z) : list Z :=
  match s with
  | [a; b; c; d; e] =>
      let '(f, k) := fk tw.1 b c d in
      [add32 (add32 (rotl 5 a) f) (add32 (add32 e k) tw.2); a; rotl 30 b; c; d]
  | _ => s
  end.

Definition compress (h blk : list Z) : list Z :=
  let w := rev (extend next 64 (rev blk)) in
  zip_with add32 h (foldl round h (zip (seq 0 80) w)).

Definition sha1 (msg : bytes) : bytes := digest_words (foldl compress init (message_blocks msg)).

End SHA1.

Module SHA256.

Definition init : list Z :=
  [1779033703; 3144134277; 1013904242; 2773480762; 1359893119; 2600822924; 528734635; 1541459225].

Definition K : list Z :=
  [1116352408; 1899447441; 3049323471; 3921009573; 961987163; 1508970993; 2453635748; 2870763221;
   3624381080; 310598401; 607225278; 1426881987; 1925078388; 2162078206; 2614888103; 3248222580;
   3835390401; 4022224774; 264347078; 604807628; 770255983; 1249150122; 1555081692; 1996064986;
   2554220882; 2821834349; 2952996808; 3210313671; 3336571891; 3584528711; 113926993; 338241895;
   666307205; 773529912; 1294757372; 1396182291; 1695183700; 1986661051; 2177026350; 2456956037;
   2730485921; 2820302411; 3259730800; 3345764771; 3516065817; 3600352804; 4094571909; 275423344;
   430227734; 506948616; 659060556; 883997877; 958139571; 1322822218; 1537002063; 1747873779;
   1955562222; 2024104815; 2227730452; 2361852424; 2428436474; 2756734187; 3204031479; 3329325298].

Definition next (rw : list Z) : Z :=
  let w15 := wnth rw 14 in let w2 := wnth rw 1 in
  let s0 := Z.lxor (rotr 7 w15) (Z.lxor (rotr 18 w15) (Z.shiftr w15 3)) in
  let s1 := Z.lxor (rotr 17 w2) (Z.lxor (rotr 19 w2) (Z.shiftr w2 10)) in
  add32 (add32 (wnth rw 15) s0) (add32 (wnth rw 6) s1).

Definition round (s : list Z) (kw : Z * Z) : list Z :=
  match s with
  | [a; b; c; d; e; f; g; h] =>
      let S1 := Z.lxor (rotr 6 e) (Z.lxor (rotr 11 e) (rotr 25 e)) in
      let ch := Z.lxor (Z.land e f) (Z.land (not32 e) g) in
      let t1 := add32 (add32 h S1) (add32 ch (add32 kw.1 kw.2)) in
      let S0 := Z.lxor (rotr 2 a) (Z.lxor (rotr 13 a) (rotr 22 a)) in
      let maj := Z.lxor (Z.land a b) (Z.lxor (Z.land a c) (Z.land b c)) in
      [add32 t1 (add32 S0 maj); a; b; c; add32 d t1; e; f; g]
  | _ => s
  end.

Definition compress (h blk : list Z) : list Z :=
  let w := rev (extend next 48 (rev blk)) in
  zip_with add32 h (foldl round h (zip K w)).

Definition sha256 (msg : bytes) : bytes := digest_words (foldl compress init (message_blocks msg)).

End SHA256.

(** [hashlib.sha256(b).hexdigest()] *)
Definition sha256_hex (b : bytes) : string := hexdigest (SHA256.sha256 b).

(** ** [uuid.uuid5(namespace, name)]

    The first 16 bytes of SHA-1 of the namespace bytes and the name, with the
    version (5) and variant (RFC 4122) bits set. *)
Definition uuid5 (ns : UUID) (name : string) : UUID :=
  let h := SHA1.sha1 (to_digits 256 16 (uuid_int ns) ++ encode name) in
  let n := of_digits 256 (take 16 h) in
  let n := Z.lor (Z.land n (Z.lnot (Z.shiftl 49152 48))) (Z.shiftl 32768 48) in
  let n := Z.lor (Z.land n (Z.lnot (Z.shiftl 61440 64))) (Z.shiftl 5 76) in
  UUID_of_bits n.

Definition NAMESPACE_URL : UUID := UUID_of_bits 143098242483405524118141958906375844040.

(** FIPS 180-4 and RFC 9562 test vectors *)
Example sha1_abc :
  hexdigest (SHA1.sha1 (encode "abc")) = "a9993e364706816aba3e25717850c26c9cd0d89d"%string.
Proof. vm_compute. reflexivity. Qed.

Example sha256_abc : sha256_hex (encode "abc")
  = "ba7816bf8f01cfea414140de5dae2223b00361a396177a9cb410ff61f20015ad"%string.
Proof. vm_compute. reflexivity. Qed.

Lemma numeral_width_hexdigest bs : length (chars (hexdigest bs)) = (2 * length bs)%nat.
Proof.
  unfold hexdigest. rewrite chars_text. induction bs as [|b bs IH]; [done|].
  cbn [mbind list_bind]. rewrite length_app, numeral_length. fold (mbind (M:=list) (numeral 16 2) bs).
  rewrite IH. simpl. lia.
Qed.
