(* ===== verification/PyJson.v ===== *)
(** * JSON values and [json.dumps]

    The canonical form the sources hash:
    [json.dumps(x, sort_keys=True, separators=(",", ":"), allow_nan=False)].
    Texts are ASCII here, so [ensure_ascii] only escapes quotes, backslashes and
    control characters. *)

From S2P Require Import Prelude PyText PyFloat PyHash.

(** ** [repr(float)]: the shortest decimal that reads back as the same float *)

(** The binary64 nearest to the positive rational [num / den]. *)
Definition float_of_ratio (num den : Z) : float :=
  let s := Z.max 0 (66 + Z.log2 den - Z.log2 num) in
  let q := Z.shiftl num s / den in
  let sticky := if Z.shiftl num s mod den =? 0 then 0 else 1 in
  binary_normalize fprec femax (2 * q + sticky) (- s - 1) false.

(** [n / d] of non-negative integers: the correctly rounded quotient. *)
Definition int_div (n d : Z) : float := if n =? 0 then f0 else float_of_ratio n d.
(** [td.total_seconds()] *)
Definition seconds_of (td : Z) : float :=
  if td <? 0 then SFopp (float_of_ratio (- td) 1000000) else int_div td 1000000.

(** [d * 10 ^ e] *)
Definition float_of_dec (d e : Z) : float :=
  if d =? 0 then f0
  else if 0 <=? e then float_of_ratio (d * 10 ^ e) 1 else float_of_ratio d (10 ^ (- e)).

(** [m * 2 ^ e] as a fraction *)
Definition ratio_of (m e : Z) : Z * Z := if 0 <=? e then (m * 2 ^ e, 1) else (m, 2 ^ (- e)).

(** Decimal exponent of the leading digit: [10 ^ k <= num / den < 10 ^ (k + 1)]. *)
Definition dec_exponent (num den : Z) : Z :=
  let guess := (Z.log2 num - Z.log2 den) * 30103 / 100000 in
  let ge k := if 0 <=? k then den * 10 ^ k <=? num else den <=? num * 10 ^ (- k) in
  if ge (guess + 1) then guess + 1 else if ge guess then guess else guess - 1.

(** The [n]-digit decimals next to [num / den], nearest first. *)
Definition dec_candidates (num den k n : Z) : list (Z * Z) :=
  let e := k - n + 1 in
  let '(a, b) := if 0 <=? e then (num, den * 10 ^ e) else (num * 10 ^ (- e), den) in
  let lo := a / b in let r := a mod b in
  if (2 * r <? b) || ((2 * r =? b) && Z.even lo) then [(lo, e); (lo + 1, e)]
  else [(lo + 1, e); (lo, e)].

Fixpoint shortest (fuel : nat) (x : float) (num den k n : Z) : Z * Z :=
  match filter (λ de : Z * Z, float_of_dec de.1 de.2 = x) (dec_candidates num den k n), fuel with
  | de :: _, _ => de
  | [], S fuel => shortest fuel x num den k (n + 1)
  | [], O => (0, 0)
  end.

Fixpoint strip_zeros (fuel : nat) (de : Z * Z) : Z * Z :=
  match fuel with
  | O => de
  | S fuel => let '(d, e) := de in
      if (d mod 10 =? 0) && negb (d =? 0) then strip_zeros fuel (d / 10, e + 1) else de
  end.

Fixpoint num_digits (fuel : nat) (d : Z) : nat :=
  match fuel with
  | O => 1%nat
  | S fuel => if d <? 10 then 1%nat else S (num_digits fuel (d / 10))
  end.

(** [str(int)] *)
Definition dec_chars (z : Z) : list ascii :=
  let a := Z.abs z in
  (if z <? 0 then ["-"%char] else []) ++ numeral 10 (num_digits (Z.to_nat (Z.log2 a)) a) a.

(** CPython's layout of a finite float: exponent form outside 1e-4 .. 1e16. *)
Definition repr_dec (d e : Z) : list ascii :=
  let ds := dec_chars d in
  let n := Z.of_nat (length ds) in
  let p := n + e in
  if (p <=? -4) || (16 <? p) then
    take 1 ds ++ (if n =? 1 then [] else ["."%char] ++ drop 1 ds) ++ ["e"%char]
      ++ (if p - 1 <? 0 then ["-"%char] else ["+"%char])
      ++ (let x := Z.abs (p - 1) in if x <? 10 then ["0"%char] ++ dec_chars x else dec_chars x)
  else if p <=? 0 then ["0"%char; "."%char] ++ replicate (Z.to_nat (- p)) "0"%char ++ ds
  else if n <=? p then ds ++ replicate (Z.to_nat (p - n)) "0"%char ++ ["."%char; "0"%char]
  else take (Z.to_nat p) ds ++ ["."%char] ++ drop (Z.to_nat p) ds.

Definition repr_float (x : float) : string :=
  match x with
  | S754_nan => "nan"%string
  | S754_infinity s => if s then "-inf"%string else "inf"%string
  | S754_zero s => if s then "-0.0"%string else "0.0"%string
  | S754_finite s m e =>
      let '(num, den) := ratio_of (Z.pos m) e in
      let k := dec_exponent num den in
      let '(d, ex) := strip_zeros 20 (shortest 17 (S754_finite false m e) num den k 1) in
      text ((if s then ["-"%char] else []) ++ repr_dec d ex)
  end.

Example repr_tenth : repr_float (flit 1 10) = "0.1"%string.
Proof. vm_compute. reflexivity. Qed.
Example repr_mad : repr_float (flit 14826 10000) = "1.4826"%string.
Proof. vm_compute. reflexivity. Qed.
Example repr_sum : repr_float (fadd (flit 1 10) (flit 2 10)) = "0.30000000000000004"%string.
Proof. vm_compute. reflexivity. Qed.
Example repr_small : repr_float (flit 2 10000000) = "2e-07"%string.
Proof. vm_compute. reflexivity. Qed.

(** ** Values *)
Inductive json :=
| JNull
| JBool (b : bool)
| JInt (n : Z)
| JFloat (x : float)
| JStr (s : string)
| JList (l : list json)
| JObj (o : list (string * json)).

(** [d.get(key)] of a [dict] *)
Fixpoint jget (key : string) (o : list (string * json)) : option json :=
  match o with
  | [] => None
  | (k, v) :: o => if bool_decide (k = key) then Some v else jget key o
  end.

(** The order of [str] keys (code points, that is bytes, of the text). *)
Fixpoint chars_leb (a b : list ascii) : bool :=
  match a, b with
  | [], _ => true
  | _ :: _, [] => false
  | c :: a, d :: b =>
      if (N_of_ascii c <? N_of_ascii d)%N then true
      else if (N_of_ascii d <? N_of_ascii c)%N then false else chars_leb a b
  end.
Definition key_le (x y : string * json) : Prop := chars_leb (chars x.1) (chars y.1) = true.
#[export] Instance key_le_dec : RelDecision key_le.
Proof. intros x y. unfold key_le. apply _. Defined.

Definition quote_char : ascii := ascii_of_N 34.
Definition backslash : ascii := ascii_of_N 92.

Definition escape_char (c : ascii) : list ascii :=
  let n := Z.of_N (N_of_ascii c) in
  if n =? 34 then [backslash; quote_char] else
  if n =? 92 then [backslash; backslash] else
  if n =? 10 then chars "\n" else
  if n =? 13 then chars "\r" else
  if n =? 9 then chars "\t" else
  if n =? 8 then chars "\b" else
  if n =? 12 then chars "\f" else
  if n <? 32 then chars "\u" ++ numeral 16 4 n else [c].

Definition json_string (s : string) : list ascii :=
  [quote_char] ++ (chars s ≫= escape_char) ++ [quote_char].

Fixpoint join (sep : ascii) (ls : list (list ascii)) : list ascii :=
  match ls with
  | [] => []
  | [l] => l
  | l :: ls => l ++ sep :: join sep ls
  end.

(** [d[k] = v]: a present key keeps its place. *)
Fixpoint dict_set (k : string) (v : json) (o : list (string * json)) : list (string * json) :=
  match o with
  | [] => [(k, v)]
  | (k', v') :: o => if bool_decide (k' = k) then (k', v) :: o else (k', v') :: dict_set k v o
  end.

(** [sort_keys=True] *)
Definition sort_keys (o : list (string * json)) : list (string * json) := merge_sort key_le o.

(** [json.dumps(..., sort_keys=True, separators=(",", ":"), allow_nan=allow_nan)]:
    a non-finite float is printed by name or raises [ValueError].  The members of an object are
    printed in their own order here and sorted by [canonical] beforehand. *)
Definition nonfinite_name (x : float) : string :=
  match x with S754_infinity false => "Infinity" | S754_infinity true => "-Infinity" | _ => "NaN" end.

Fixpoint print_json (allow_nan : bool) (j : json) : result (list ascii) :=
  match j with
  | JNull => Ok (chars "null")
  | JBool b => Ok (chars (if b then "true" else "false"))
  | JInt n => Ok (dec_chars n)
  | JFloat x => if is_finite x then Ok (chars (repr_float x))
                else if allow_nan then Ok (chars (nonfinite_name x))
                else Err (ValueError "Out of range float values are not JSON compliant")
  | JStr s => Ok (json_string s)
  | JList l =>
      ls ← (fix go l := match l with
                        | [] => Ok []
                        | j :: l => c ← print_json allow_nan j; cs ← go l; Ok (c :: cs)
                        end) l;
      Ok (["["%char] ++ join ","%char ls ++ ["]"%char])
  | JObj o =>
      ls ← (fix go o := match o with
                        | [] => Ok []
                        | (k, j) :: o =>
                            c ← print_json allow_nan j; cs ← go o;
                            Ok ((json_string k ++ ":"%char :: c) :: cs)
                        end) o;
      Ok (["{"%char] ++ join ","%char ls ++ ["}"%char])
  end.

Fixpoint canonical (j : json) : json :=
  match j with
  | JList l => JList (map canonical l)
  | JObj o => JObj (sort_keys (map (λ kv, (kv.1, canonical kv.2)) o))
  | _ => j
  end.

Definition dumps_canonical (j : json) : result string := text <$> print_json false (canonical j).

(** The same with the default [allow_nan=True]. *)
Definition dumps_sorted (j : json) : result string := text <$> print_json true (canonical j).

(** [json.dumps(j)] with its default separators, the members in their own order. *)
Fixpoint join_text (sep : list ascii) (ls : list (list ascii)) : list ascii :=
  match ls with
  | [] => []
  | [l] => l
  | l :: ls => l ++ sep ++ join_text sep ls
  end.

Fixpoint print_default (j : json) : list ascii :=
  match j with
  | JNull => chars "null"
  | JBool b => chars (if b then "true" else "false")
  | JInt n => dec_chars n
  | JFloat x => chars (if is_finite x then repr_float x else nonfinite_name x)
  | JStr s => json_string s
  | JList l => ["["%char] ++ join_text (chars ", ") (map print_default l) ++ ["]"%char]
  | JObj o =>
      ["{"%char]
      ++ join_text (chars ", ") (map (λ kv, json_string kv.1 ++ chars ": " ++ print_default kv.2) o)
      ++ ["}"%char]
  end.
Definition dumps_default (j : json) : string := text (print_default j).

(** [json.dumps(j, indent=2)]: a member per line, [level] deep. *)
Definition newline (level : nat) : list ascii := "010"%char :: replicate (2 * level) " "%char.
Fixpoint print_indent (level : nat) (j : json) : list ascii :=
  match j with
  | JList (_ :: _ as l) =>
      ["["%char] ++ newline (S level)
      ++ join_text (","%char :: newline (S level)) (map (print_indent (S level)) l)
      ++ newline level ++ ["]"%char]
  | JObj (_ :: _ as o) =>
      ["{"%char] ++ newline (S level)
      ++ join_text (","%char :: newline (S level))
           (map (λ kv, json_string kv.1 ++ chars ": " ++ print_indent (S level) kv.2) o)
      ++ newline level ++ ["}"%char]
  | _ => print_default j
  end.
Definition dumps_indent (j : json) : string := text (print_indent 0 j).

(** ** Equality of JSON values *)
Fixpoint json_eq_dec (a b : json) {struct a} : {a = b} + {a ≠ b}.
Proof.
  refine (
    match a, b with
    | JNull, JNull => left eq_refl
    | JBool x, JBool y => cast_if (decide (x = y))
    | JInt x, JInt y => cast_if (decide (x = y))
    | JFloat x, JFloat y => cast_if (decide (x = y))
    | JStr x, JStr y => cast_if (decide (x = y))
    | JList x, JList y => cast_if (@list_eq_dec _ json_eq_dec x y)
    | JObj x, JObj y => cast_if (@list_eq_dec _ (@prod_eq_dec _ _ _ json_eq_dec) x y)
    | _, _ => right _
    end); abstract congruence.
Defined.
#[export] Instance json_eq_decision : EqDecision json := json_eq_dec.

(** ** [repr] and [str]

    The [repr] of a string is in single quotes unless it holds one and no double
    quote; the bytes above 127 are those of printable characters. *)
Definition single_quote : ascii := ascii_of_N 39.
Definition repr_char (q c : ascii) : list ascii :=
  let n := Z.of_N (N_of_ascii c) in
  if bool_decide (c = q) || (n =? 92) then [backslash; c] else
  if n =? 10 then chars "\n" else
  if n =? 13 then chars "\r" else
  if n =? 9 then chars "\t" else
  if (n <? 32) || (n =? 127) then chars "\x" ++ numeral 16 2 n else [c].
Definition repr_string (s : string) : list ascii :=
  let q := if bool_decide (single_quote ∈ chars s) && negb (bool_decide (quote_char ∈ chars s))
           then quote_char else single_quote in
  [q] ++ (chars s ≫= repr_char q) ++ [q].
Fixpoint py_repr (j : json) : list ascii :=
  match j with
  | JNull => chars "None"
  | JBool b => chars (if b then "True" else "False")
  | JInt n => dec_chars n
  | JFloat x => chars (repr_float x)
  | JStr s => repr_string s
  | JList l => ["["%char] ++ join_text (chars ", ") (map py_repr l) ++ ["]"%char]
  | JObj o =>
      ["{"%char]
      ++ join_text (chars ", ") (map (λ kv, repr_string kv.1 ++ chars ": " ++ py_repr kv.2) o)
      ++ ["}"%char]
  end.
(** [str(value)] *)
Definition str_of (j : json) : string := match j with JStr s => s | _ => text (py_repr j) end.

(** [bool(value)] *)
Definition truthy (j : json) : bool :=
  match j with
  | JNull => false
  | JBool b => b
  | JInt n => negb (n =? 0)
  | JFloat x => negb (feqb x f0)
  | JStr s => negb (bool_decide (s = ""%string))
  | JList l => negb (bool_decide (length l = 0%nat))
  | JObj o => negb (bool_decide (length o = 0%nat))
  end.

(** ** Conversions *)

(** [str(value)] of a JSON scalar.  The text of a list or of an object is never
    a UUID or a timestamp: both parsers reject it with [ValueError]. *)
Definition py_str (j : json) : result string :=
  match j with
  | JNull => Ok "None"%string
  | JBool true => Ok "True"%string
  | JBool false => Ok "False"%string
  | JInt n => Ok (text (dec_chars n))
  | JFloat x => Ok (repr_float x)
  | JStr s => Ok s
  | JList _ | JObj _ => Err (ValueError "not a scalar")
  end.

(** [int(value)] of a JSON value; the text of a number is read when it is a
    plain decimal numeral. *)
Definition float_trunc (x : float) : result Z :=
  match x with
  | S754_zero _ => Ok 0
  | S754_finite s m e =>
      let a := if 0 <=? e then Zpos m * 2 ^ e else Zpos m / 2 ^ (- e) in
      Ok (if s then - a else a)
  | S754_infinity _ => Err (OverflowError "cannot convert float infinity to integer")
  | S754_nan => Err (ValueError "cannot convert float NaN to integer")
  end.
Definition py_int (j : json) : result Z :=
  match j with
  | JBool b => Ok (Z.b2z b)
  | JInt n => Ok n
  | JFloat x => float_trunc x
  | JStr s => of_option (ValueError "invalid literal for int()") (parse_numeral 10 (chars s))
  | JNull | JList _ | JObj _ => Err (TypeError "int() argument")
  end.
