(* ===== verification/Contracts.v ===== *)
(** * The frozen MetroPT-3 contract ([phase1b_contracts.py], [contracts.py])

    The analog signal envelopes, the Phase 1C contract record and its canonical
    JSON manifest, whose SHA-256 pins every other artifact of the platform. *)

From S2P Require Import Prelude PyText PyTime PyFloat PyHash PyJson.

#[local] Open Scope string_scope.

(** ** Analog envelopes *)
Module AnalogSignalContract.
Record t := mk { name : string; unit : string; hard_min : float; hard_max : float }.
End AnalogSignalContract.

Definition ANALOG_SIGNAL_CONTRACTS : list AnalogSignalContract.t :=
  let c n u lo hi := AnalogSignalContract.mk n u (float_of_Z lo) (float_of_Z hi) in
  [ c "tp2" "bar" (-1) 20; c "tp3" "bar" (-1) 20; c "h1" "bar" (-1) 20;
    c "dv_pressure" "bar" (-1) 20; c "reservoirs" "bar" (-1) 20;
    c "oil_temperature" "degC" (-40) 150; c "motor_current" "A" 0 50 ].

Definition ANALOG_SIGNAL_BY_NAME (name : string) : option AnalogSignalContract.t :=
  find (λ c, bool_decide (AnalogSignalContract.name c = name)) ANALOG_SIGNAL_CONTRACTS.

Definition validate_analog_value (name : string) (value : float) : result float :=
  match ANALOG_SIGNAL_BY_NAME name with
  | None => Err (KeyError name)
  | Some contract =>
      if negb (is_finite value)
         || negb (fleb (AnalogSignalContract.hard_min contract) value
                  && fleb value (AnalogSignalContract.hard_max contract))
      then Err (ValueError "outside hard envelope")
      else Ok value
  end.

(** ** Splits and events *)
Module Split.
Record t := mk { name : string; start : datetime; end_ : datetime }.
End Split.

Module Event.
Record t := mk {
  event_id : string;
  failure_type : string;
  source_start : datetime;
  source_end : datetime;
  source_precision : string;
  paper_count : Z;
  local_lps_transition : option datetime;
  disagreement : option string
}.
End Event.

Module MetroPT3Event.
Record t := mk {
  event_id : string;
  source_start_minute : datetime;
  source_end_minute : datetime;
  condition : string
}.
Definition normalized_end (e : t) : datetime := source_end_minute e + minutes 1.
End MetroPT3Event.

Module Phase1BContract.
Record t := mk {
  contract_version : string;
  source_url : string;
  source_doi : string;
  license : string;
  archive_sha256 : string;
  csv_member : string;
  expected_rows : Z;
  source_columns : list string;
  canonical_columns : list string;
  analog_columns : list string;
  digital_columns : list string;
  predictor_columns : list string;
  train : Split.t;
  calibration : Split.t;
  holdout : Split.t;
  events : list MetroPT3Event.t;
  timestamp_semantics : string;
  nominal_cadence_seconds : Z;
  bin_seconds : Z;
  min_bin_observations : Z;
  lookback_bins : Z;
  stride_seconds : Z;
  event_horizon_seconds : Z;
  threshold_quantile : float;
  threshold_method : string;
  anomaly_inclusive : bool;
  min_detected_events : Z;
  max_false_episodes_per_day : float;
  max_time_in_alert : float;
  random_seed : Z;
  robust_mad_scale : float;
  isolation_forest_estimators : Z;
  isolation_forest_max_samples : string;
  isolation_forest_contamination : string;
  isolation_forest_n_jobs : Z;
  autoencoder_hidden_width : Z;
  autoencoder_bottleneck_width : Z;
  autoencoder_learning_rate : float;
  autoencoder_batch_size : Z;
  autoencoder_epochs : Z
}.
End Phase1BContract.

Definition DEFAULT_CONDITION : string := "air leak / high stress".
Definition PHASE1B_CONTRACT_SHA256 : string :=
  "149e164748522fe6dfa844a8de70b29ee1259122962e036ff6a563c1120047d8".
Definition PHASE1B_SOURCE_DATASET_SHA256 : string :=
  "aab991a970e58210de853bb8078ce0e63abb4d9412fdc5c79792dae3d8e1721a".
Definition PHASE1B_PREPARED_OUTPUT_SHA256 : string :=
  "0c31129cc4f4be982a6aec79f448485a2674b2fe79643186737143dccfe6d42a".

Definition PHASE1C : Phase1BContract.t :=
  let dt y mo d h mi := datetime_of y mo d h mi 0 0 in
  {| Phase1BContract.contract_version := "phase1b-contract-v2";
     Phase1BContract.source_url :=
       "https://archive.ics.uci.edu/static/public/791/metropt%2B3%2Bdataset.zip";
     Phase1BContract.source_doi := "10.24432/C5VW3R";
     Phase1BContract.license := "CC BY 4.0";
     Phase1BContract.archive_sha256 :=
       "aab991a970e58210de853bb8078ce0e63abb4d9412fdc5c79792dae3d8e1721a";
     Phase1BContract.csv_member := "MetroPT3(AirCompressor).csv";
     Phase1BContract.expected_rows := 1516948;
     Phase1BContract.source_columns :=
       ["Unnamed: 0"; "timestamp"; "TP2"; "TP3"; "H1"; "DV_pressure"; "Reservoirs";
        "Oil_temperature"; "Motor_current"; "COMP"; "DV_eletric"; "Towers"; "MPG"; "LPS";
        "Pressure_switch"; "Oil_level"; "Caudal_impulses"];
     Phase1BContract.canonical_columns :=
       ["timestamp"; "tp2"; "tp3"; "h1"; "dv_pressure"; "reservoirs"; "oil_temperature";
        "motor_current"; "comp"; "dv_electric"; "towers"; "mpg"; "lps"; "pressure_switch";
        "oil_level"; "caudal_impulses"];
     Phase1BContract.analog_columns :=
       ["tp2"; "tp3"; "h1"; "dv_pressure"; "reservoirs"; "oil_temperature"; "motor_current"];
     Phase1BContract.digital_columns :=
       ["comp"; "dv_electric"; "towers"; "mpg"; "pressure_switch"; "oil_level";
        "caudal_impulses"; "lps"];
     Phase1BContract.predictor_columns :=
       ["tp2"; "tp3"; "h1"; "dv_pressure"; "reservoirs"; "oil_temperature"; "motor_current";
        "comp"; "dv_electric"; "towers"; "mpg"; "pressure_switch"; "oil_level";
        "caudal_impulses"];
     Phase1BContract.train := Split.mk "train" (dt 2020 2 1 0 0) (dt 2020 2 22 0 0);
     Phase1BContract.calibration := Split.mk "calibration" (dt 2020 2 22 0 0) (dt 2020 3 1 0 0);
     Phase1BContract.holdout := Split.mk "holdout" (dt 2020 3 1 0 0) (dt 2020 9 1 4 0);
     Phase1BContract.events :=
       [ MetroPT3Event.mk "metropt3-1" (dt 2020 4 18 0 0) (dt 2020 4 18 23 59) DEFAULT_CONDITION;
         MetroPT3Event.mk "metropt3-2" (dt 2020 5 29 23 30) (dt 2020 5 30 6 0) DEFAULT_CONDITION;
         MetroPT3Event.mk "metropt3-3" (dt 2020 6 5 10 0) (dt 2020 6 7 14 30) DEFAULT_CONDITION;
         MetroPT3Event.mk "metropt3-4" (dt 2020 7 15 14 30) (dt 2020 7 15 19 0) DEFAULT_CONDITION ];
     Phase1BContract.timestamp_semantics := "timezone-naive source clock";
     Phase1BContract.nominal_cadence_seconds := 10;
     Phase1BContract.bin_seconds := 300;
     Phase1BContract.min_bin_observations := 24;
     Phase1BContract.lookback_bins := 6;
     Phase1BContract.stride_seconds := 300;
     Phase1BContract.event_horizon_seconds := 7200;
     Phase1BContract.threshold_quantile := flit 995 1000;
     Phase1BContract.threshold_method := "higher";
     Phase1BContract.anomaly_inclusive := true;
     Phase1BContract.min_detected_events := 3;
     Phase1BContract.max_false_episodes_per_day := f1;
     Phase1BContract.max_time_in_alert := flit 5 100;
     Phase1BContract.random_seed := 42;
     Phase1BContract.robust_mad_scale := flit 14826 10000;
     Phase1BContract.isolation_forest_estimators := 200;
     Phase1BContract.isolation_forest_max_samples := "auto";
     Phase1BContract.isolation_forest_contamination := "auto";
     Phase1BContract.isolation_forest_n_jobs := 1;
     Phase1BContract.autoencoder_hidden_width := 64;
     Phase1BContract.autoencoder_bottleneck_width := 16;
     Phase1BContract.autoencoder_learning_rate := flit 1 1000;
     Phase1BContract.autoencoder_batch_size := 256;
     Phase1BContract.autoencoder_epochs := 20 |}.

(** [tuple(c for c in PHASE1C.digital_columns if c in PHASE1C.predictor_columns)] *)
Definition digital_predictors (c : Phase1BContract.t) : list string :=
  filter (λ col, col ∈ Phase1BContract.predictor_columns c) (Phase1BContract.digital_columns c).

Definition phase1b_evaluation_events : list Event.t :=
  (λ item, Event.mk (MetroPT3Event.event_id item) (MetroPT3Event.condition item)
             (MetroPT3Event.source_start_minute item) (MetroPT3Event.normalized_end item)
             "minute" 0 None None) <$> Phase1BContract.events PHASE1C.

(** ** The manifest

    [_serialize(asdict(contract))]: the fields in declaration order, dates as
    ISO texts with seconds. *)
Definition jstrs (l : list string) : json := JList (JStr <$> l).
Definition jdate (t : datetime) : json := JStr (isoformat_seconds t).

Definition serialize_split (s : Split.t) : json :=
  JObj [("name", JStr (Split.name s)); ("start", jdate (Split.start s)); ("end", jdate (Split.end_ s))].

Definition serialize_event (e : MetroPT3Event.t) : json :=
  JObj [("event_id", JStr (MetroPT3Event.event_id e));
        ("source_start_minute", jdate (MetroPT3Event.source_start_minute e));
        ("source_end_minute", jdate (MetroPT3Event.source_end_minute e));
        ("condition", JStr (MetroPT3Event.condition e))].

Definition serialize_contract (c : Phase1BContract.t) : list (string * json) :=
  [ ("contract_version", JStr (Phase1BContract.contract_version c));
    ("source_url", JStr (Phase1BContract.source_url c));
    ("source_doi", JStr (Phase1BContract.source_doi c));
    ("license", JStr (Phase1BContract.license c));
    ("archive_sha256", JStr (Phase1BContract.archive_sha256 c));
    ("csv_member", JStr (Phase1BContract.csv_member c));
    ("expected_rows", JInt (Phase1BContract.expected_rows c));
    ("source_columns", jstrs (Phase1BContract.source_columns c));
    ("canonical_columns", jstrs (Phase1BContract.canonical_columns c));
    ("analog_columns", jstrs (Phase1BContract.analog_columns c));
    ("digital_columns", jstrs (Phase1BContract.digital_columns c));
    ("predictor_columns", jstrs (Phase1BContract.predictor_columns c));
    ("train", serialize_split (Phase1BContract.train c));
    ("calibration", serialize_split (Phase1BContract.calibration c));
    ("holdout", serialize_split (Phase1BContract.holdout c));
    ("events", JList (serialize_event <$> Phase1BContract.events c));
    ("timestamp_semantics", JStr (Phase1BContract.timestamp_semantics c));
    ("nominal_cadence_seconds", JInt (Phase1BContract.nominal_cadence_seconds c));
    ("bin_seconds", JInt (Phase1BContract.bin_seconds c));
    ("min_bin_observations", JInt (Phase1BContract.min_bin_observations c));
    ("lookback_bins", JInt (Phase1BContract.lookback_bins c));
    ("stride_seconds", JInt (Phase1BContract.stride_seconds c));
    ("event_horizon_seconds", JInt (Phase1BContract.event_horizon_seconds c));
    ("threshold_quantile", JFloat (Phase1BContract.threshold_quantile c));
    ("threshold_method", JStr (Phase1BContract.threshold_method c));
    ("anomaly_inclusive", JBool (Phase1BContract.anomaly_inclusive c));
    ("min_detected_events", JInt (Phase1BContract.min_detected_events c));
    ("max_false_episodes_per_day", JFloat (Phase1BContract.max_false_episodes_per_day c));
    ("max_time_in_alert", JFloat (Phase1BContract.max_time_in_alert c));
    ("random_seed", JInt (Phase1BContract.random_seed c));
    ("robust_mad_scale", JFloat (Phase1BContract.robust_mad_scale c));
    ("isolation_forest_estimators", JInt (Phase1BContract.isolation_forest_estimators c));
    ("isolation_forest_max_samples", JStr (Phase1BContract.isolation_forest_max_samples c));
    ("isolation_forest_contamination", JStr (Phase1BContract.isolation_forest_contamination c));
    ("isolation_forest_n_jobs", JInt (Phase1BContract.isolation_forest_n_jobs c));
    ("autoencoder_hidden_width", JInt (Phase1BContract.autoencoder_hidden_width c));
    ("autoencoder_bottleneck_width", JInt (Phase1BContract.autoencoder_bottleneck_width c));
    ("autoencoder_learning_rate", JFloat (Phase1BContract.autoencoder_learning_rate c));
    ("autoencoder_batch_size", JInt (Phase1BContract.autoencoder_batch_size c));
    ("autoencoder_epochs", JInt (Phase1BContract.autoencoder_epochs c)) ].

Definition metropt3_contract_sha256 (c : Phase1BContract.t) : result string :=
  payload ← dumps_canonical (JObj (serialize_contract c));
  Ok (sha256_hex (encode payload)).

Definition metropt3_contract_manifest (c : Phase1BContract.t) : result (list (string * json)) :=
  sha ← metropt3_contract_sha256 c;
  Ok (serialize_contract c ++ [("contract_sha256", JStr sha)])%list.

(** ** Properties *)

(** The manifest of the frozen contract has the digest every artifact and
    message of the platform is pinned to. *)
Theorem contract_hash_pinned :
  metropt3_contract_sha256 PHASE1C =
  Ok "31f8689256951067e28c9cbb48a930c1617d8eea8c7133ba1a315f632842e1ad".
Proof. vm_compute. reflexivity. Qed.

(** The splits follow one another, every maintenance event lies inside the
    holdout, and the events do not overlap. *)
#[local] Open Scope Z_scope.
Definition splits_adjacent (c : Phase1BContract.t) : bool :=
  (Split.start (Phase1BContract.train c) <? Split.end_ (Phase1BContract.train c))
  && (Split.end_ (Phase1BContract.train c) =? Split.start (Phase1BContract.calibration c))
  && (Split.start (Phase1BContract.calibration c) <? Split.end_ (Phase1BContract.calibration c))
  && (Split.end_ (Phase1BContract.calibration c) =? Split.start (Phase1BContract.holdout c))
  && (Split.start (Phase1BContract.holdout c) <? Split.end_ (Phase1BContract.holdout c)).

Definition event_in_holdout (c : Phase1BContract.t) (e : MetroPT3Event.t) : bool :=
  (Split.start (Phase1BContract.holdout c) <=? MetroPT3Event.source_start_minute e)
  && (MetroPT3Event.source_start_minute e <? MetroPT3Event.normalized_end e)
  && (MetroPT3Event.normalized_end e <=? Split.end_ (Phase1BContract.holdout c)).

Fixpoint events_separate (es : list MetroPT3Event.t) : bool :=
  match es with
  | e :: ((f :: _) as es') =>
      (MetroPT3Event.normalized_end e <=? MetroPT3Event.source_start_minute f) && events_separate es'
  | _ => true
  end.

(** The frozen contract is coherent: the three splits are consecutive, the
    events are ordered, disjoint and inside the holdout, so no model or policy
    is fitted on labelled data; the predictors are distinct columns of the
    prepared data and leave out [lps], which the labels may depend on. *)
Theorem contract_coherent :
  splits_adjacent PHASE1C = true ∧
  forallb (event_in_holdout PHASE1C) (Phase1BContract.events PHASE1C) = true ∧
  events_separate (Phase1BContract.events PHASE1C) = true ∧
  NoDup (Phase1BContract.predictor_columns PHASE1C) ∧
  Phase1BContract.predictor_columns PHASE1C ⊆ Phase1BContract.canonical_columns PHASE1C ∧
  Phase1BContract.predictor_columns PHASE1C =
    (Phase1BContract.analog_columns PHASE1C ++ digital_predictors PHASE1C)%list ∧
  "lps"%string ∉ Phase1BContract.predictor_columns PHASE1C.
Proof.
  split_and!; try (vm_compute; reflexivity);
    try (apply (bool_decide_unpack _); vm_compute; reflexivity).
Qed.

(** A telemetry value is accepted exactly when it is finite and inside the
    closed envelope of its signal. *)
Theorem analog_envelope name value :
  validate_analog_value name value = Ok value ↔
  ∃ c, ANALOG_SIGNAL_BY_NAME name = Some c ∧ is_finite value = true ∧
       fleb (AnalogSignalContract.hard_min c) value = true ∧
       fleb value (AnalogSignalContract.hard_max c) = true.
Proof.
  unfold validate_analog_value. split.
  - destruct (ANALOG_SIGNAL_BY_NAME name) as [c|]; [|done].
    destruct (negb _ || _) eqn:E; [done|]. intros _. exists c.
    apply orb_false_iff in E as [E1%negb_false_iff E2%negb_false_iff].
    by apply andb_true_iff in E2 as [? ?].
  - by intros (c & -> & -> & -> & ->).
Qed.
