(* ===== verification/Messages.v ===== *)
(** * Runtime messages ([runtime_messages.py])

    One module per message class: the record [t] is the validated, frozen
    message; [make] is the class constructor, with the [Field] constraints and
    the [model_validator] of the class.  A field that validation forces to be
    timezone-naive has type [datetime], one it forces to be aware has type
    [aware]; [make] takes what a caller may pass, a [stamp].  A [ValueError]
    inside a validator reaches the caller as pydantic's [ValidationError]. *)

From S2P Require Import Prelude PyText PyUuid PyTime PyFloat Contracts.

Definition ERR_SOURCE_TS_NAIVE : string := "source_timestamp must be timezone-naive".
Definition ERR_EMITTED_AT_UTC : string := "emitted_at must be timezone-aware UTC".

Definition REPLAY_COMMANDS_TOPIC : string := "irp.replay.commands.v1".
Definition REPLAY_STATUS_TOPIC : string := "irp.replay.status.v1".
Definition TELEMETRY_TOPIC : string := "irp.telemetry.v1".
Definition FEATURES_TOPIC : string := "irp.features.v1".
Definition SCORES_TOPIC : string := "irp.scores.v1".
Definition QUARANTINE_TOPIC : string := "irp.quarantine.v1".
Definition ALERT_EVENTS_TOPIC : string := "irp.alerts.v1".

(** [Field(...)] constraints *)
Definition field (b : bool) (name : string) : result unit := guard_exn b (ValidationError name).
Definition str_len (lo hi : nat) (s : string) : bool :=
  (lo <=? String.length s)%nat && (String.length s <=? hi)%nat.
Definition nonempty (s : string) : bool := (1 <=? String.length s)%nat.

(** [Literal["OPENED", "UPDATED", "RESOLVED", "REOPENED"]] *)
Inductive AlertAction := OPENED | UPDATED | RESOLVED | REOPENED.
#[export] Instance AlertAction_eq_dec : EqDecision AlertAction.
Proof. solve_decision. Defined.

(** [Literal["START", "PAUSE", "RESUME", "STOP"]] *)
Inductive ReplayAction := START | PAUSE | RESUME | STOP.
#[export] Instance ReplayAction_eq_dec : EqDecision ReplayAction.
Proof. solve_decision. Defined.

(** [Literal["CREATED", "RUNNING", "PAUSED", "STOPPED", "COMPLETED", "FAILED"]] *)
Inductive ReplayState := CREATED | RUNNING | PAUSED | STOPPED | COMPLETED | FAILED.
#[export] Instance ReplayState_eq_dec : EqDecision ReplayState.
Proof. solve_decision. Defined.

(** [float | int | str | bool] *)
Inductive scalar := SFloat (x : float) | SInt (n : Z) | SStr (s : string) | SBool (b : bool).
#[export] Instance scalar_eq_dec : EqDecision scalar.
Proof. solve_decision. Defined.

Module CoverageEvidenceV1.

Record t := mk { observations_by_bin : list Z; bin_ends : list datetime }.

(** The loop over adjacent bin ends: order first, then awareness of the left one. *)
Fixpoint check_bin_ends (ends : list stamp) : result (list datetime) :=
  match ends with
  | [] => Ok []
  | [e] => e ← require_naive "bin_ends must be timezone-naive" e; Ok [e]
  | e :: ((e' :: _) as rest) =>
      ge ← stamp_geb e e';
      _ ← guard_exn (negb ge) (ValidationError "bin_ends must be strictly increasing");
      e ← require_naive "bin_ends must be timezone-naive" e;
      es ← check_bin_ends rest;
      Ok (e :: es)
  end.

Definition make (observations_by_bin : list Z) (bin_ends : list stamp) : result t :=
  _ ← field (bool_decide (length observations_by_bin = 6%nat)) "observations_by_bin";
  _ ← field (bool_decide (length bin_ends = 6%nat)) "bin_ends";
  _ ← guard_exn (forallb (λ cnt, 24 <=? cnt) observations_by_bin)
        (ValidationError "Observation count is less than min 24 observations/bin");
  ends ← check_bin_ends bin_ends;
  Ok (mk observations_by_bin ends).

End CoverageEvidenceV1.

Module FeatureVectorV1.

Record t := mk {
  message_id : UUID;
  replay_session_id : UUID;
  source_dataset_sha256 : string;
  contract_sha256 : string;
  source_timestamp : datetime;
  emitted_at : aware;
  window_id : UUID;
  machine_id : string;
  window_start : datetime;
  window_end : datetime;
  feature_names : list string;
  feature_values : list float;
  coverage : CoverageEvidenceV1.t
}.

Definition make (message_id replay_session_id : UUID)
    (source_dataset_sha256 contract_sha256 : string)
    (source_timestamp emitted_at : stamp) (window_id : UUID) (machine_id : string)
    (window_start window_end : stamp) (feature_names : list string)
    (feature_values : list float) (coverage : CoverageEvidenceV1.t) : result t :=
  _ ← field (is_hex64 source_dataset_sha256) "source_dataset_sha256";
  _ ← field (is_hex64 contract_sha256) "contract_sha256";
  _ ← field (str_len 1 128 machine_id) "machine_id";
  _ ← field (negb (bool_decide (feature_names = []))) "feature_names";
  _ ← field (negb (bool_decide (feature_values = []))) "feature_values";
  ts ← require_naive ERR_SOURCE_TS_NAIVE source_timestamp;
  ws ← require_naive "window_start and window_end must be timezone-naive" window_start;
  we ← require_naive "window_start and window_end must be timezone-naive" window_end;
  ea ← require_aware ERR_EMITTED_AT_UTC emitted_at;
  _ ← guard_exn ((ws <? we) && (we =? ts))
        (ValidationError "window_start must be < window_end and window_end must equal source_timestamp");
  _ ← guard_exn (bool_decide (length feature_names = length feature_values))
        (ValidationError "feature_names and feature_values must have the same length");
  _ ← guard_exn (bool_decide (NoDup feature_names))
        (ValidationError "feature_names must contain unique elements");
  _ ← guard_exn (forallb is_finite feature_values)
        (ValidationError "feature_values must contain only finite numbers");
  Ok (mk message_id replay_session_id source_dataset_sha256 contract_sha256 ts ea window_id
        machine_id ws we feature_names feature_values coverage).

End FeatureVectorV1.

Module ScoreRequestV1.
Record t := mk { model_version : string; feature_vector : FeatureVectorV1.t }.
Definition make (model_version : string) (feature_vector : FeatureVectorV1.t) : result t :=
  _ ← field (str_len 1 200 model_version) "model_version";
  Ok (mk model_version feature_vector).
End ScoreRequestV1.

Module EvidenceValueV1.

Record t := mk { feature_name : string; feature_value : float; robust_deviation : float }.

Definition make (feature_name : string) (feature_value robust_deviation : float) : result t :=
  _ ← guard_exn (is_finite feature_value && is_finite robust_deviation)
        (ValidationError "feature_value and robust_deviation must be finite numbers");
  Ok (mk feature_name feature_value robust_deviation).

End EvidenceValueV1.

Module ScoreDecisionV1.

Record t := mk {
  message_id : UUID;
  replay_session_id : UUID;
  source_dataset_sha256 : string;
  contract_sha256 : string;
  source_timestamp : datetime;
  emitted_at : aware;
  decision_id : UUID;
  window_id : UUID;
  model_version : string;
  score : float;
  threshold : float;
  is_anomaly : bool;
  evidence_vector : list EvidenceValueV1.t
}.

Definition make (message_id replay_session_id : UUID)
    (source_dataset_sha256 contract_sha256 : string)
    (source_timestamp emitted_at : stamp) (decision_id window_id : UUID)
    (model_version : string) (score threshold : float) (is_anomaly : bool)
    (evidence_vector : list EvidenceValueV1.t) : result t :=
  _ ← field (is_hex64 source_dataset_sha256) "source_dataset_sha256";
  _ ← field (is_hex64 contract_sha256) "contract_sha256";
  _ ← field (str_len 1 200 model_version) "model_version";
  ts ← require_naive ERR_SOURCE_TS_NAIVE source_timestamp;
  ea ← require_aware ERR_EMITTED_AT_UTC emitted_at;
  _ ← guard_exn (is_finite score && is_finite threshold)
        (ValidationError "score and threshold must be finite numbers");
  Ok (mk message_id replay_session_id source_dataset_sha256 contract_sha256 ts ea decision_id
        window_id model_version score threshold is_anomaly evidence_vector).

End ScoreDecisionV1.

Module ApiErrorV1.
Record t := mk { code : string; message : string }.
End ApiErrorV1.

(** [success: Literal[True]], [error: None] and [success: Literal[False]],
    [data: None] are constants of the two envelopes. *)
Module ScoreResponseV1.
Record t := mk { data : ScoreDecisionV1.t }.
End ScoreResponseV1.

Module ErrorResponseV1.
Record t := mk { error : ApiErrorV1.t }.
End ErrorResponseV1.

Module ReplayCommandV1.

Record t := mk {
  message_id : UUID;
  replay_session_id : UUID;
  source_dataset_sha256 : string;
  contract_sha256 : string;
  source_timestamp : datetime;
  emitted_at : aware;
  command_id : UUID;
  action : ReplayAction;
  speed : Z;
  range_start : option datetime;
  range_end : option datetime
}.

(** [_validate_start_command] *)
Definition validate_start_command (source_timestamp : datetime) (range_start range_end : option stamp)
  : result (option datetime * option datetime) :=
  match range_start, range_end with
  | Some rs, Some re =>
      rs ← require_naive "range_start and range_end must be timezone-naive" rs;
      re ← require_naive "range_start and range_end must be timezone-naive" re;
      _ ← guard_exn (negb (re <=? rs))
            (ValidationError "range_start must be strictly earlier than range_end");
      _ ← guard_exn (source_timestamp =? rs)
            (ValidationError "source_timestamp must equal range_start for START action");
      Ok (Some rs, Some re)
  | _, _ => Err (ValidationError "START action requires range_start and range_end")
  end.

(** [_validate_control_command] *)
Definition validate_control_command (range_start range_end : option stamp)
  : result (option datetime * option datetime) :=
  match range_start, range_end with
  | None, None => Ok (None, None)
  | _, _ => Err (ValidationError "action must not specify range_start or range_end")
  end.

Definition make (message_id replay_session_id : UUID)
    (source_dataset_sha256 contract_sha256 : string)
    (source_timestamp emitted_at : stamp) (command_id : UUID) (action : ReplayAction)
    (speed : Z) (range_start range_end : option stamp) : result t :=
  _ ← field (is_hex64 source_dataset_sha256) "source_dataset_sha256";
  _ ← field (is_hex64 contract_sha256) "contract_sha256";
  _ ← field (bool_decide (speed ∈ [1; 100; 1000])) "speed";
  ts ← require_naive ERR_SOURCE_TS_NAIVE source_timestamp;
  ea ← require_aware ERR_EMITTED_AT_UTC emitted_at;
  range ← (if bool_decide (action = START)
           then validate_start_command ts range_start range_end
           else validate_control_command range_start range_end);
  Ok (mk message_id replay_session_id source_dataset_sha256 contract_sha256 ts ea command_id
        action speed range.1 range.2).

End ReplayCommandV1.

Module ReplayStatusV1.

Record t := mk {
  message_id : UUID;
  replay_session_id : UUID;
  source_dataset_sha256 : string;
  contract_sha256 : string;
  source_timestamp : datetime;
  emitted_at : aware;
  state : ReplayState;
  last_sequence : option Z;
  error_code : option string
}.

(** [state in ("STOPPED", "COMPLETED", "FAILED")] *)
Definition is_terminal (s : ReplayState) : bool :=
  match s with STOPPED | COMPLETED | FAILED => true | _ => false end.

Definition make (message_id replay_session_id : UUID)
    (source_dataset_sha256 contract_sha256 : string)
    (source_timestamp emitted_at : stamp) (state : ReplayState)
    (last_sequence : option Z) (error_code : option string) : result t :=
  _ ← field (is_hex64 source_dataset_sha256) "source_dataset_sha256";
  _ ← field (is_hex64 contract_sha256) "contract_sha256";
  ts ← require_naive ERR_SOURCE_TS_NAIVE source_timestamp;
  ea ← require_aware ERR_EMITTED_AT_UTC emitted_at;
  _ ← guard_exn
        (negb (is_terminal state && match last_sequence with None => true | Some n => n <? 0 end))
        (ValidationError "state requires non-negative last_sequence");
  _ ← (if bool_decide (state = FAILED)
       then guard_exn (match error_code with Some c => nonempty c | None => false end)
              (ValidationError "FAILED state requires non-empty error_code")
       else guard_exn (bool_decide (error_code = None))
              (ValidationError "state must have error_code=None"));
  Ok (mk message_id replay_session_id source_dataset_sha256 contract_sha256 ts ea state
        last_sequence error_code).

End ReplayStatusV1.

Module TelemetryEventV1.

Record t := mk {
  message_id : UUID;
  replay_session_id : UUID;
  source_dataset_sha256 : string;
  contract_sha256 : string;
  source_timestamp : datetime;
  emitted_at : aware;
  machine_id : string;
  sequence : Z;
  tp2 : float;
  tp3 : float;
  h1 : float;
  dv_pressure : float;
  reservoirs : float;
  oil_temperature : float;
  motor_current : float;
  comp : Z;
  dv_electric : Z;
  towers : Z;
  mpg : Z;
  lps : Z;
  pressure_switch : Z;
  oil_level : Z;
  caudal_impulses : Z
}.

(** A [ValueError] of [validate_analog_value] surfaces as [ValidationError]. *)
Definition check_analog (name : string) (v : float) : result unit :=
  match validate_analog_value name v with
  | Ok _ => Ok ()
  | Err (ValueError m) => Err (ValidationError m)
  | Err e => Err e
  end.

(** [Literal[0, 1]] *)
Definition bit (b : Z) : bool := (b =? 0) || (b =? 1).

Definition make (message_id replay_session_id : UUID)
    (source_dataset_sha256 contract_sha256 : string)
    (source_timestamp emitted_at : stamp) (machine_id : string) (sequence : Z)
    (tp2 tp3 h1 dv_pressure reservoirs oil_temperature motor_current : float)
    (comp dv_electric towers mpg lps pressure_switch oil_level caudal_impulses : Z) : result t :=
  _ ← field (is_hex64 source_dataset_sha256) "source_dataset_sha256";
  _ ← field (is_hex64 contract_sha256) "contract_sha256";
  _ ← field (str_len 1 128 machine_id) "machine_id";
  _ ← field (0 <? sequence) "sequence";
  _ ← field (forallb bit
         [comp; dv_electric; towers; mpg; lps; pressure_switch; oil_level; caudal_impulses])
        "digital";
  ts ← require_naive ERR_SOURCE_TS_NAIVE source_timestamp;
  ea ← require_aware ERR_EMITTED_AT_UTC emitted_at;
  _ ← check_analog "tp2" tp2;
  _ ← check_analog "tp3" tp3;
  _ ← check_analog "h1" h1;
  _ ← check_analog "dv_pressure" dv_pressure;
  _ ← check_analog "reservoirs" reservoirs;
  _ ← check_analog "oil_temperature" oil_temperature;
  _ ← check_analog "motor_current" motor_current;
  Ok (mk message_id replay_session_id source_dataset_sha256 contract_sha256 ts ea machine_id
        sequence tp2 tp3 h1 dv_pressure reservoirs oil_temperature motor_current
        comp dv_electric towers mpg lps pressure_switch oil_level caudal_impulses).

End TelemetryEventV1.

Module QuarantineRecordV1.

Record t := mk {
  message_id : UUID;
  replay_session_id : option UUID;
  source_dataset_sha256 : string;
  contract_sha256 : string;
  source_timestamp : datetime;
  emitted_at : aware;
  original_topic : string;
  partition : Z;
  offset : Z;
  payload_sha256 : string;
  error_code : string;
  error_detail : string
}.

Definition make (message_id : UUID) (replay_session_id : option UUID)
    (source_dataset_sha256 contract_sha256 : string) (source_timestamp emitted_at : stamp)
    (original_topic : string) (partition offset : Z)
    (payload_sha256 error_code error_detail : string) : result t :=
  _ ← field (is_hex64 source_dataset_sha256) "source_dataset_sha256";
  _ ← field (is_hex64 contract_sha256) "contract_sha256";
  _ ← field (str_len 1 256 original_topic) "original_topic";
  _ ← field (0 <=? partition) "partition";
  _ ← field (0 <=? offset) "offset";
  _ ← field (is_hex64 payload_sha256) "payload_sha256";
  _ ← field (str_len 1 128 error_code) "error_code";
  _ ← field (str_len 1 1024 error_detail) "error_detail";
  ts ← require_naive ERR_SOURCE_TS_NAIVE source_timestamp;
  ea ← require_aware ERR_EMITTED_AT_UTC emitted_at;
  Ok (mk message_id replay_session_id source_dataset_sha256 contract_sha256 ts ea original_topic
        partition offset payload_sha256 error_code error_detail).

End QuarantineRecordV1.

Module FeatureDeviationV1.

Record t := mk {
  feature_name : string;
  observed_value : float;
  baseline_value : float;
  absolute_deviation : float
}.

Definition make (feature_name : string)
    (observed_value baseline_value absolute_deviation : float) : result t :=
  _ ← field (nonempty feature_name) "feature_name";
  _ ← field (fleb f0 absolute_deviation) "absolute_deviation";
  _ ← guard_exn (forallb is_finite [observed_value; baseline_value; absolute_deviation])
        (ValidationError "Deviation values must be finite");
  Ok (mk feature_name observed_value baseline_value absolute_deviation).

End FeatureDeviationV1.

Module AlertEventV1.

Record t := mk {
  message_id : UUID;
  replay_session_id : UUID;
  source_dataset_sha256 : string;
  contract_sha256 : string;
  source_timestamp : datetime;
  emitted_at : aware;
  alert_id : UUID;
  machine_id : string;
  action : AlertAction;
  first_detection : datetime;
  last_detection : datetime;
  decision_ids : list UUID;
  policy_sha256 : string
}.

Definition make (message_id replay_session_id : UUID)
    (source_dataset_sha256 contract_sha256 : string) (source_timestamp emitted_at : stamp)
    (alert_id : UUID) (machine_id : string) (action : AlertAction)
    (first_detection last_detection : stamp) (decision_ids : list UUID)
    (policy_sha256 : string) : result t :=
  _ ← field (is_hex64 source_dataset_sha256) "source_dataset_sha256";
  _ ← field (is_hex64 contract_sha256) "contract_sha256";
  _ ← field (nonempty machine_id) "machine_id";
  _ ← field (negb (bool_decide (decision_ids = []))) "decision_ids";
  _ ← field (is_hex64 policy_sha256) "policy_sha256";
  ts ← require_naive ERR_SOURCE_TS_NAIVE source_timestamp;
  ea ← require_aware ERR_EMITTED_AT_UTC emitted_at;
  fd ← require_naive "first_detection must be timezone-naive" first_detection;
  ld ← require_naive "last_detection must be timezone-naive" last_detection;
  _ ← guard_exn (fd <=? ld)
        (ValidationError "first_detection must not be later than last_detection");
  Ok (mk message_id replay_session_id source_dataset_sha256 contract_sha256 ts ea alert_id
        machine_id action fd ld decision_ids policy_sha256).

End AlertEventV1.

Module EvidenceSnapshotV1.

Record t := mk {
  message_id : UUID;
  replay_session_id : UUID;
  source_dataset_sha256 : string;
  contract_sha256 : string;
  source_timestamp : datetime;
  emitted_at : aware;
  evidence_id : UUID;
  alert_id : UUID;
  decision_id : UUID;
  window_id : UUID;
  model_version : string;
  feature_deviations : list FeatureDeviationV1.t;
  data_quality : list (string * scalar);
  model : list (string * scalar);
  system_health : list (string * scalar)
}.

Definition make (message_id replay_session_id : UUID)
    (source_dataset_sha256 contract_sha256 : string) (source_timestamp emitted_at : stamp)
    (evidence_id alert_id decision_id window_id : UUID) (model_version : string)
    (feature_deviations : list FeatureDeviationV1.t)
    (data_quality model system_health : list (string * scalar)) : result t :=
  _ ← field (is_hex64 source_dataset_sha256) "source_dataset_sha256";
  _ ← field (is_hex64 contract_sha256) "contract_sha256";
  _ ← field (nonempty model_version) "model_version";
  ts ← require_naive ERR_SOURCE_TS_NAIVE source_timestamp;
  ea ← require_aware ERR_EMITTED_AT_UTC emitted_at;
  Ok (mk message_id replay_session_id source_dataset_sha256 contract_sha256 ts ea evidence_id
        alert_id decision_id window_id model_version feature_deviations
        data_quality model system_health).

End EvidenceSnapshotV1.

(** [Literal["COMPLETE", "UNAVAILABLE"]] *)
Inductive RcaStatus := COMPLETE | UNAVAILABLE.
#[export] Instance RcaStatus_eq_dec : EqDecision RcaStatus.
Proof. solve_decision. Defined.

Module RcaObservationV1.

Record t := mk { claim : string; evidence_ids : list string }.

Definition make (claim : string) (evidence_ids : list string) : result t :=
  _ ← field (str_len 1 500 claim) "claim";
  _ ← field ((1 <=? length evidence_ids)%nat && (length evidence_ids <=? 8)%nat) "evidence_ids";
  Ok (mk claim evidence_ids).

End RcaObservationV1.

Module RcaReportV1.

Record t := mk {
  message_id : UUID;
  replay_session_id : UUID;
  source_dataset_sha256 : string;
  contract_sha256 : string;
  source_timestamp : datetime;
  emitted_at : aware;
  report_id : string;
  alert_id : string;
  status : RcaStatus;
  summary : string;
  observations : list RcaObservationV1.t;
  uncertainty : list string;
  next_checks : list string;
  evidence_ids : list string;
  evidence_bundle_sha256 : string;
  provider_model : option string
}.

(** Every citation of every observation is one of the report's evidence ids. *)
Definition citations_ok (evidence_ids : list string) (obs : list RcaObservationV1.t) : bool :=
  forallb (λ o, forallb (λ ev, bool_decide (ev ∈ evidence_ids)) (RcaObservationV1.evidence_ids o)) obs.

Definition len_between (lo hi : nat) {A} (l : list A) : bool :=
  (lo <=? length l)%nat && (length l <=? hi)%nat.

Definition make (message_id replay_session_id : UUID)
    (source_dataset_sha256 contract_sha256 : string) (source_timestamp emitted_at : stamp)
    (report_id alert_id : string) (status : RcaStatus) (summary : string)
    (observations : list RcaObservationV1.t)
    (uncertainty next_checks evidence_ids : list string)
    (evidence_bundle_sha256 : string) (provider_model : option string) : result t :=
  _ ← field (is_hex64 source_dataset_sha256) "source_dataset_sha256";
  _ ← field (is_hex64 contract_sha256) "contract_sha256";
  _ ← field (nonempty report_id) "report_id";
  _ ← field (nonempty alert_id) "alert_id";
  _ ← field (str_len 1 1000 summary) "summary";
  _ ← field (len_between 0 12 observations) "observations";
  _ ← field (len_between 1 8 uncertainty) "uncertainty";
  _ ← field (len_between 0 8 next_checks) "next_checks";
  _ ← field (len_between 1 64 evidence_ids) "evidence_ids";
  _ ← field (is_hex64 evidence_bundle_sha256) "evidence_bundle_sha256";
  ts ← require_naive ERR_SOURCE_TS_NAIVE source_timestamp;
  ea ← require_aware ERR_EMITTED_AT_UTC emitted_at;
  _ ← guard_exn (bool_decide (NoDup evidence_ids)) (ValidationError "evidence_ids must be unique");
  _ ← guard_exn (citations_ok evidence_ids observations)
        (ValidationError "Observation citation is not in evidence_ids");
  _ ← guard_exn (negb (bool_decide (status = COMPLETE) && bool_decide (provider_model = None)))
        (ValidationError "provider_model is required when status is COMPLETE");
  _ ← guard_exn (negb (bool_decide (status = UNAVAILABLE) && negb (bool_decide (provider_model = None))))
        (ValidationError "provider_model must be None when status is UNAVAILABLE");
  Ok (mk message_id replay_session_id source_dataset_sha256 contract_sha256 ts ea report_id
        alert_id status summary observations uncertainty next_checks evidence_ids
        evidence_bundle_sha256 provider_model).

End RcaReportV1.
