(* ===== verification/KafkaIo.v ===== *)
(** * Kafka messages and settings, runtime identifiers ([kafka_io.py], [runtime_kafka.py], [runtime_ids.py]) *)

From S2P Require Import Prelude PyText PyUuid PyTime PyFloat PyHash PyJson Messages.

(** ** Deterministic identifiers ([runtime_ids.py]) *)

Definition RUNTIME_NAMESPACE : UUID := UUID_of_bits 250405974340345070870588142226209286738.

Definition runtime_id (kind : string) (replay_session_id : UUID) (identity : string) : result UUID :=
  _ ← guard_exn (nonempty kind && nonempty identity)
        (ValueError "kind and identity must be non-empty strings");
  Ok (uuid5 RUNTIME_NAMESPACE (kind +:+ ":" +:+ str_uuid replay_session_id +:+ ":" +:+ identity)%string).

(** ** Kafka messages and settings ([kafka_io.py], [runtime_kafka.py])

    The canonical encoding of a message and the decoding of a payload;
    [model_dump] and [model_validate] belong to pydantic and are parameters
    ([JsonModel]).  A broker is the list of what was sent to it and the oracle
    of the outcomes of its calls. *)

(** A Python dictionary with text keys, as [json] reads and writes it. *)
Definition dict := list (string * json).

(** [model_dump(mode="json")] and [model_validate] *)
Class JsonModel (A : Type) := { model_dump : A → dict; model_validate : dict → result A }.

(** A record as the consumers see it; [value] is the undecoded payload. *)
Record KafkaRecord := mkRecord { rtopic : string; rpartition : Z; roffset : Z; rvalue : bytes }.

Definition encode_message `{JsonModel A} (message : A) : result bytes :=
  encode <$> dumps_canonical (JObj (model_dump message)).

(** [decode_message]: the schema validation of the payload is pydantic's
    ([validate]); a [ValidationError] or [ValueError] becomes [MessageDecodeError]. *)
Definition decode_message {A} (validate : bytes → result A) (payload : bytes) : result A :=
  match validate payload with
  | Ok m => Ok m
  | Err e => if is_value_error e then Err (MessageDecodeError "Failed to decode") else Err e
  end.

(** ** [KafkaSettings] *)
Module KafkaSettings.
Record t := mk { bootstrap_servers : string; client_id : string }.

(** [s.strip()]: white space at both ends *)
Definition whitespace : list ascii :=
  [" "%char; "009"%char; "010"%char; "011"%char; "012"%char; "013"%char;
   "028"%char; "029"%char; "030"%char; "031"%char].
Definition py_strip (s : string) : string := text (strip whitespace (chars s)).

Definition from_env (environ : string → option string) : result t :=
  let servers := py_strip (default "" (environ "KAFKA_BOOTSTRAP_SERVERS"%string)) in
  _ ← guard_exn (nonempty servers)
        (ValueError "KAFKA_BOOTSTRAP_SERVERS must be set in the environment");
  let client_id :=
    py_strip (default "industrial-reliability"%string (environ "KAFKA_CLIENT_ID"%string)) in
  Ok (mk servers client_id).
End KafkaSettings.

Definition TopicPartition : Type := string * Z.

(** ** What a producer has sent *)
Record Sent := mkSent { stopic : string; svalue : bytes; skey : bytes }.

(** ** Command producers ([runtime_kafka.py]) *)
Module InMemoryCommandProducer.
Record t := mk { commands : list ReplayCommandV1.t; started : bool }.
Definition init : t := mk [] false.
Definition start (s : t) : t := mk (commands s) true.
Definition stop (s : t) : t := mk (commands s) false.
Definition publish_command (command : ReplayCommandV1.t) (s : t) : t :=
  mk (commands s ++ [command]) (started s).
End InMemoryCommandProducer.

(** The aiokafka producer of the API: [None] before [start] and after [stop];
    [sent] is the log of the broker. *)
Module AioKafkaCommandProducer.
Record t := mk { started : bool; sent : list Sent }.
Definition init : t := mk false [].
Definition start (s : t) : t := mk true (sent s).
Definition stop (s : t) : t := mk false (sent s).

Definition publish_command `{JsonModel ReplayCommandV1.t} (send : Sent → result unit)
    (command : ReplayCommandV1.t) : M t unit := λ s,
  let body :=
    _ ← guard_exn (started s) (RuntimeError "Producer not started");
    payload ← encode_message command;
    let msg := mkSent REPLAY_COMMANDS_TOPIC payload
                 (encode (str_uuid (ReplayCommandV1.replay_session_id command))) in
    _ ← send msg;
    Ok msg in
  match body with
  | Ok msg => (Ok (), mk (started s) (sent s ++ [msg]))
  | Err e => (Err e, s)
  end.
End AioKafkaCommandProducer.
