(* ===== verification/Features.v ===== *)
(** * Causal feature windows ([causal_features.py], [phase1b_features.py])

    The statistics of a window of telemetry, and the offline generation of windows
    over a whole recording.  numpy's [mean], [std], [min] and [max] are
    parameters; [iter_windows] is the path for samples, what pandas extracts from
    a data frame is its argument. *)

From S2P Require Import Prelude PyText PyTime PyFloat Contracts.

(** ** numpy *)
Class Numpy := {
  np_mean : list float → float;
  np_std : list float → float;
  np_min : list float → float;
  np_max : list float → float
}.

Module TelemetrySample.
Record t := mk { timestamp : datetime; analog : list float; digital : list Z }.
End TelemetrySample.
Abbreviation sample := TelemetrySample.t.

(** [CoverageEvidence] *)
Record CoverageEvidence := mkCoverage { bin_ends : list datetime; observations_by_bin : list Z }.

Definition ANALOG_STATS : list string := ["last"; "mean"; "std"; "min"; "max"; "delta"]%string.
Definition DIGITAL_STATS : list string := ["last"; "active_ratio"; "transition_count"]%string.

(** [f"{col}_{stat}"] *)
Definition feature_name (col stat : string) : string := (col +:+ "_" +:+ stat)%string.

Definition get_candidate_feature_names (analog_columns digital_columns : list string) : list string :=
  (col ← analog_columns; feature_name col <$> ANALOG_STATS) ++
  (col ← digital_columns; feature_name col <$> DIGITAL_STATS).

(** [analog[:, idx]] and [digital[:, idx]] *)
Definition column {A} (field : sample → list A) (idx : nat) (samples : list sample) : result (list A) :=
  mapR (λ s, of_option IndexError (field s !! idx)) samples.

(** [np.count_nonzero(series[1:] != series[:-1])] *)
Fixpoint transitions (series : list Z) : Z :=
  match series with
  | x :: ((y :: _) as rest) => (if x =? y then 0 else 1) + transitions rest
  | _ => 0
  end.

(** [np.mean(series == 1)]: the exact count over the length, rounded once. *)
Definition active_ratio (series : list Z) : float :=
  fdiv (float_of_Z (Z.of_nat (length (filter (λ x, x = 1) series))))
       (float_of_Z (Z.of_nat (length series))).

Section Statistics.
Context `{Numpy}.

(** The entries of one column, in the order they are stored. *)
Definition analog_stats (col : string) (series : list float) : list (string * float) :=
  [(feature_name col "last", default f0 (last series));
   (feature_name col "mean", np_mean series);
   (feature_name col "std", np_std series);
   (feature_name col "min", np_min series);
   (feature_name col "max", np_max series);
   (feature_name col "delta", fsub (default f0 (last series)) (default f0 (head series)))].
Definition digital_stats (col : string) (series : list Z) : list (string * float) :=
  [(feature_name col "last", float_of_Z (default 0 (last series)));
   (feature_name col "active_ratio", active_ratio series);
   (feature_name col "transition_count", float_of_Z (transitions series))].

(** [for idx, col in enumerate(cols): stats.update(...)] *)
Fixpoint columns_stats {A} (field : sample → list A) (stats_of : string → list A → list (string * float))
    (idx : nat) (cols : list string) (samples : list sample) (stats : gmap string float)
  : result (gmap string float) :=
  match cols with
  | [] => Ok stats
  | col :: cols =>
      series ← column field idx samples;
      columns_stats field stats_of (S idx) cols samples
        (foldl (λ m kv, <[kv.1 := kv.2]> m) stats (stats_of col series))
  end.

Definition all_candidate_statistics (samples : list sample) (analog_cols digital_cols : list string)
  : result (gmap string float) :=
  stats ← columns_stats TelemetrySample.analog analog_stats 0 analog_cols samples ∅;
  columns_stats TelemetrySample.digital digital_stats 0 digital_cols samples stats.

Definition compute_feature_values (samples : list sample) (feature_names : list string)
    (analog_cols digital_cols : list string) : result (list float) :=
  _ ← guard_exn (negb (bool_decide (samples = []))) (ValueError "Cannot compute features on empty samples");
  all_stats ← all_candidate_statistics samples analog_cols digital_cols;
  mapR (λ name, of_option (KeyError name) (all_stats !! name)) feature_names.
End Statistics.

(** ** Bins *)
Definition compute_bin_end (ts : datetime) : datetime :=
  let minute_rem := minute ts mod 5 in
  if (minute_rem =? 0) && (second ts =? 0) && (microsecond ts =? 0) then ts
  else ts - ts mod minutes 1 + minutes (5 - minute_rem).

Abbreviation bin := (datetime * list TelemetrySample.t)%type.

(** The dictionary of the bins, by their end. *)
Definition group_samples_into_bins (samples : list sample) : gmap datetime (list sample) :=
  foldl (λ m s,
    let b_end := compute_bin_end (TelemetrySample.timestamp s) in
    <[b_end := default [] (m !! b_end) ++ [s]]> m) ∅ samples.

(** [sorted(bin_map.keys())], with their samples *)
Definition bin_le (x y : bin) : Prop := x.1 ≤ y.1.
#[export] Instance bin_le_dec : RelDecision bin_le.
Proof. intros x y. unfold bin_le. apply _. Defined.
#[export] Instance bin_le_trans : Transitive bin_le.
Proof. intros x y z. unfold bin_le. lia. Qed.
#[export] Instance bin_le_total : Total bin_le.
Proof. intros x y. unfold bin_le. lia. Qed.
Definition sorted_bins (m : gmap datetime (list sample)) : list bin :=
  merge_sort bin_le (map_to_list m).

(** ** Windows *)
Module Phase1BWindow.
Record t := mk {
  split : string;
  window_start : datetime;
  window_end : datetime;
  feature_names : list string;
  feature_values : list float;
  coverage : CoverageEvidence
}.
End Phase1BWindow.

(** [valid_bin_buffer[-1][0]] and [valid_bin_buffer[0][0] - timedelta(...)] *)
Definition buffer_end (buffer : list bin) : datetime := default 0 (fst <$> last buffer).
Definition buffer_start (stride_seconds : Z) (buffer : list bin) : datetime :=
  default 0 (fst <$> head buffer) - seconds stride_seconds.
Definition buffer_samples (buffer : list bin) : list sample := buffer ≫= snd.
Definition buffer_coverage (buffer : list bin) : CoverageEvidence :=
  mkCoverage (fst <$> buffer) ((λ b, Z.of_nat (length b.2)) <$> buffer).

Section Offline.
Context `{Numpy}.
Variable contract : Phase1BContract.t.
Import Phase1BContract.

Abbreviation predictor_digital_columns := (digital_predictors contract).
Definition candidate_names : list string :=
  get_candidate_feature_names (analog_columns contract) predictor_digital_columns.

Definition create_window_from_buffer (buffer : list bin) (split : string) : result Phase1BWindow.t :=
  feature_vals ← compute_feature_values (buffer_samples buffer) candidate_names
                   (analog_columns contract) predictor_digital_columns;
  Ok (Phase1BWindow.mk split (buffer_start (stride_seconds contract) buffer) (buffer_end buffer)
        candidate_names feature_vals (buffer_coverage buffer)).

Definition window_is_within_split (w : Phase1BWindow.t) (split : Split.t) : bool :=
  (Split.start split <=? Phase1BWindow.window_start w) &&
  (Phase1BWindow.window_end w <=? Split.end_ split).

(** [getattr(contract, split_name)] for the three splits, in order *)
Definition splits : list (string * Split.t) :=
  [("train"%string, train contract); ("calibration"%string, calibration contract);
   ("holdout"%string, holdout contract)].

Definition matched_split (window_start window_end : datetime) : option (string * Split.t) :=
  find (λ s : string * Split.t, (Split.start s.2 <=? window_start) && (window_end <=? Split.end_ s.2)) splits.

(** The variables of the loop. *)
Record WinState := mkWin {
  valid_bin_buffer : list bin;
  prev_bin_end : option datetime;
  invalid_bins_skipped : Z;
  cross_split_windows_skipped : Z;
  windows : list Phase1BWindow.t
}.

(** The reset on a gap, [append] and [popleft]. *)
Definition append_bin (st : WinState) (b : bin) : list bin :=
  let '(b_end, bin_samples) := b in
  let buffer :=
    match prev_bin_end st with
    | Some prev =>
        if total_seconds_eqb (b_end - prev) (stride_seconds contract) then valid_bin_buffer st else []
    | None => valid_bin_buffer st
    end in
  let buffer := buffer ++ [(b_end, bin_samples)] in
  if lookback_bins contract <? Z.of_nat (length buffer) then tail buffer else buffer.

Definition bin_step (st : WinState) (b : bin) : result WinState :=
  let '(b_end, bin_samples) := b in
  if Z.of_nat (length bin_samples) <? min_bin_observations contract then
    Ok (mkWin [] None (invalid_bins_skipped st + 1) (cross_split_windows_skipped st) (windows st))
  else
    let buffer := append_bin st b in
    let st := mkWin buffer (Some b_end) (invalid_bins_skipped st) (cross_split_windows_skipped st)
                (windows st) in
    if Z.of_nat (length buffer) =? lookback_bins contract then
      match matched_split (buffer_start (stride_seconds contract) buffer) (buffer_end buffer) with
      | None =>
          Ok (mkWin buffer (Some b_end) (invalid_bins_skipped st) (cross_split_windows_skipped st + 1)
                (windows st))
      | Some (name, split) =>
          window ← create_window_from_buffer buffer name;
          if window_is_within_split window split then
            Ok (mkWin buffer (Some b_end) (invalid_bins_skipped st) (cross_split_windows_skipped st)
                  (windows st ++ [window]))
          else
            Ok (mkWin buffer (Some b_end) (invalid_bins_skipped st) (cross_split_windows_skipped st + 1)
                  (windows st))
      end
    else Ok st.

Definition iter_windows_with_stats (samples : list sample) : result (list Phase1BWindow.t * Z * Z) :=
  if bool_decide (samples = []) then Ok ([], 0, 0)
  else
    st ← foldR bin_step (mkWin [] None 0 0 []) (sorted_bins (group_samples_into_bins samples));
    Ok (windows st, invalid_bins_skipped st, cross_split_windows_skipped st).

Definition iter_phase1b_windows (samples : list sample) : result (list Phase1BWindow.t) :=
  (λ r : list Phase1BWindow.t * Z * Z, r.1.1) <$> iter_windows_with_stats samples.
End Offline.

(** ** Active features

    [nunique(dropna=False).eq(1)] of a column of the training windows is a
    parameter: whether its values are all the same. *)
Definition fit_active_feature_names (constant : string → bool) (names : list string)
  : result (list string * list string) :=
  let active := filter (λ name, constant name = false) names in
  let removed := filter (λ name, constant name = true) names in
  _ ← guard_exn (negb (bool_decide (active = [])))
        (ValueError "train contains no non-constant predictive features");
  Ok (active, removed).
