(* ===== verification/FeatureTheory.v ===== *)
(** * Feature windows: lemmas on segments, bins and windows *)

From S2P Require Import Prelude PyText PyTime PyFloat Contracts Features.

(** ** Bins and windows: lemmas

    The end of a bin is the next multiple of five minutes; the bins of a recording
    in time order are its maximal runs of samples with the same end; the offline
    loop makes one window of each full run of consecutive full bins. *)

(** ** The end of a bin *)
Definition bin_width : Z := minutes 5.

Lemma minute_mod t : minute t mod 5 = t / 60000000 mod 5.
Proof.
  unfold minute, time_of_day, usec_per_day, usec.
  change (60 * 1000000) with 60000000. change (86400 * 1000000) with 86400000000.
  Z.to_euclidean_division_equations. lia.
Qed.

Lemma whole_minute t : (second t =? 0) && (microsecond t =? 0) = (t mod 60000000 =? 0).
Proof.
  unfold second, microsecond, time_of_day, usec_per_day, usec.
  change (86400 * 1000000) with 86400000000. apply eq_true_iff_eq.
  rewrite andb_true_iff, !Z.eqb_eq. Z.to_euclidean_division_equations. lia.
Qed.

Lemma compute_bin_end_spec t :
  t ≤ compute_bin_end t < t + bin_width ∧ compute_bin_end t mod bin_width = 0.
Proof.
  unfold compute_bin_end, bin_width, minutes, usec. cbv zeta.
  rewrite <-andb_assoc, whole_minute, minute_mod. change (1 * 60 * 1000000) with 60000000.
  destruct (_ && _) eqn:E.
  - apply andb_true_iff in E as [E1%Z.eqb_eq E2%Z.eqb_eq]. Z.to_euclidean_division_equations. lia.
  - apply andb_false_iff in E. rewrite !Z.eqb_neq in E. Z.to_euclidean_division_equations. lia.
Qed.

Lemma compute_bin_end_mono t u : t ≤ u → compute_bin_end t ≤ compute_bin_end u.
Proof.
  intros Htu. destruct (compute_bin_end_spec t) as [H1 H2], (compute_bin_end_spec u) as [H3 H4].
  unfold bin_width, minutes, usec in *. Z.to_euclidean_division_equations. lia.
Qed.

(** ** The bins of a recording *)
Abbreviation bin_end_of s := (compute_bin_end (TelemetrySample.timestamp s)).

Definition add_sample (bins : list bin) (s : sample) : list bin :=
  match last bins with
  | Some (e, ss) =>
      if e =? bin_end_of s then removelast bins ++ [(e, ss ++ [s])] else bins ++ [(bin_end_of s, [s])]
  | None => [(bin_end_of s, [s])]
  end.
Definition bins_of (samples : list sample) : list bin := foldl add_sample [] samples.

Definition in_time_order (samples : list sample) : Prop :=
  StronglySorted Z.le (TelemetrySample.timestamp <$> samples).

Lemma bins_of_snoc ss s : bins_of (ss ++ [s]) = add_sample (bins_of ss) s.
Proof. unfold bins_of. by rewrite foldl_app. Qed.

Lemma in_time_order_snoc ss s :
  in_time_order (ss ++ [s]) ↔
  in_time_order ss ∧ ∀ x, x ∈ ss → TelemetrySample.timestamp x ≤ TelemetrySample.timestamp s.
Proof.
  unfold in_time_order. rewrite fmap_app, StronglySorted_app. split.
  - intros (Hall & Hs & _). split; [done|]. intros x Hx. apply Hall; [by apply list_elem_of_fmap_2|set_solver].
  - intros [Hs Hx]. split_and!; [|done|repeat constructor].
    intros x y Hx' Hy. apply list_elem_of_fmap in Hx' as (x' & -> & Hx').
    apply list_elem_of_singleton in Hy as ->. by apply Hx.
Qed.

(** The end of the last bin is the one of the last sample. *)
Lemma last_bins_of ss : fst <$> last (bins_of ss) = (λ s, bin_end_of s) <$> last ss.
Proof.
  destruct ss as [|s ss _] using rev_ind; [done|]. rewrite bins_of_snoc, last_snoc. unfold add_sample.
  destruct (last (bins_of ss)) as [[e x]|]; [|done]. destruct (Z.eqb_spec e (bin_end_of s)) as [->|].
  - by rewrite last_snoc.
  - by rewrite last_snoc.
Qed.

(** The next sample opens the first bin, joins the last one, or opens another. *)
Lemma bins_of_next ss s :
  in_time_order (ss ++ [s]) →
  (ss = [] ∧ bins_of (ss ++ [s]) = [(bin_end_of s, [s])]) ∨
  ∃ bs e x, bins_of ss = bs ++ [(e, x)] ∧
    (bin_end_of s = e ∧ bins_of (ss ++ [s]) = bs ++ [(e, x ++ [s])] ∨
     e < bin_end_of s ∧ bins_of (ss ++ [s]) = (bs ++ [(e, x)]) ++ [(bin_end_of s, [s])]).
Proof.
  intros Hs. apply in_time_order_snoc in Hs as [_ Hle]. pose proof (last_bins_of ss) as Hlast.
  destruct ss as [|s0 ss _] using rev_ind; [left; by split|]. right.
  rewrite (bins_of_snoc (ss ++ [s0]) s). rewrite last_snoc in Hlast.
  destruct (bins_of (ss ++ [s0])) as [|[e x] bs _] eqn:Hb using rev_ind; [done|].
  rewrite last_snoc in Hlast. simpl in Hlast. injection Hlast as ->.
  exists bs, (bin_end_of s0), x. split; [done|]. unfold add_sample. rewrite last_snoc.
  assert (bin_end_of s0 ≤ bin_end_of s) by (apply compute_bin_end_mono, Hle; set_solver).
  destruct (Z.eqb_spec (bin_end_of s0) (bin_end_of s)) as [Heq|].
  - left. split; [done|]. by rewrite removelast_last.
  - right. split; [lia|done].
Qed.

(** Recordings by appending samples. *)
Lemma time_order_ind (P : list sample → Prop) :
  P [] → (∀ ss s, in_time_order (ss ++ [s]) → in_time_order ss → P ss → P (ss ++ [s])) →
  ∀ ss, in_time_order ss → P ss.
Proof.
  intros H0 Hs ss. induction ss as [|s ss IH] using rev_ind; [done|]. intros Ho.
  pose proof (proj1 (in_time_order_snoc _ _) Ho) as [Ho' _]. by apply Hs; auto.
Qed.

Lemma sorted_snoc (l : list Z) x : StronglySorted Z.lt l → (∀ y, last l = Some y → y < x) →
  StronglySorted Z.lt (l ++ [x]).
Proof.
  intros Hs Hl. apply StronglySorted_app. split_and!; [|done|repeat constructor].
  intros y z Hy Hz. apply list_elem_of_singleton in Hz as ->.
  destruct l as [|w l _] using rev_ind; [set_solver|]. specialize (Hl w).
  rewrite last_snoc in Hl. apply elem_of_app in Hy as [Hy| ->%list_elem_of_singleton]; [|by apply Hl].
  apply StronglySorted_app in Hs as (Hs & _ & _). specialize (Hs y w Hy ltac:(set_solver)).
  specialize (Hl eq_refl). lia.
Qed.

Lemma bins_of_sorted ss : in_time_order ss → StronglySorted Z.lt (fst <$> bins_of ss).
Proof.
  apply (time_order_ind (λ ss, StronglySorted Z.lt (fst <$> bins_of ss))); [constructor|].
  clear ss. intros ss s Ho _ IH.
  destruct (bins_of_next _ _ Ho) as [[-> ->]|(bs & e & x & Hb & [[Heq ->]|[Hlt ->]])]; [repeat constructor| |];
    rewrite Hb in IH.
  - rewrite fmap_app in *. exact IH.
  - rewrite fmap_app. apply sorted_snoc; [exact IH|]. rewrite fmap_app. simpl. rewrite last_snoc. intros y Hy. by simplify_eq.
Qed.

Lemma bins_of_NoDup ss : in_time_order ss → NoDup (fst <$> bins_of ss).
Proof.
  intros Ho%bins_of_sorted. induction Ho as [|x l _ IH Hx]; constructor; [|done].
  rewrite Forall_forall in Hx. intros Hin%Hx. lia.
Qed.

(** The dictionary holds the same bins. *)
Lemma group_bins ss : in_time_order ss → group_samples_into_bins ss = list_to_map (bins_of ss).
Proof.
  apply (time_order_ind (λ ss, group_samples_into_bins ss = list_to_map (bins_of ss))); [done|].
  clear ss. intros ss s Ho Ho' IH. unfold group_samples_into_bins in *. rewrite foldl_app. simpl. rewrite IH.
  pose proof (bins_of_NoDup _ Ho') as Hnd.
  destruct (bins_of_next _ _ Ho) as [[-> ->]|(bs & e & x & Hb & [[Heq ->]|[Hlt ->]])]; [done| |].
  - rewrite Hb in Hnd |- *. rewrite Heq.
    assert (∀ y : list sample, list_to_map (M := gmap datetime (list sample)) (bs ++ [(e, y)])
      = <[e := y]> (list_to_map bs)) as Hm.
    { intros y. rewrite <-list_to_map_cons. apply list_to_map_proper; [|by rewrite Permutation_app_comm].
      rewrite fmap_app in Hnd |- *. exact Hnd. }
    rewrite !Hm, lookup_insert_eq, insert_insert_eq. done.
  - rewrite Hb in Hnd |- *.
    assert (bin_end_of s ∉ fst <$> (bs ++ [(e, x)])) as Hni.
    { pose proof (bins_of_sorted _ Ho') as Hs. rewrite Hb, fmap_app in Hs.
      apply StronglySorted_app in Hs as (Hs & _).
      assert (e ∈ fst <$> [(e, x)]) as He by (by apply list_elem_of_singleton).
      intros Hin. rewrite fmap_app in Hin.
      apply elem_of_app in Hin as [Hin|Hin%list_elem_of_singleton]; [|simpl in Hin; lia].
      specialize (Hs _ e Hin He). lia. }
    rewrite not_elem_of_list_to_map_1 by done. simpl. rewrite <-list_to_map_cons.
    apply list_to_map_proper; [rewrite fmap_cons; by apply NoDup_cons|]. exact (Permutation_app_comm [_] _).
Qed.

Lemma sorted_bins_of ss : in_time_order ss → sorted_bins (group_samples_into_bins ss) = bins_of ss.
Proof.
  intros Ho. rewrite group_bins by done. pose proof (bins_of_NoDup _ Ho) as Hnd.
  assert (map_to_list (list_to_map (M := gmap datetime (list sample)) (bins_of ss)) ≡ₚ bins_of ss) as Hp
    by (by apply map_to_list_to_map).
  apply (key_sorted_unique fst).
  - unfold sorted_bins. apply merge_sort_strict; [apply _..|done|]. by rewrite Hp.
  - apply (sorted_keys fst). by apply bins_of_sorted.
  - unfold sorted_bins. by rewrite merge_sort_Permutation.
Qed.

(** ** Windows as runs of bins

    A window is a run of [lookback_bins] consecutive full bins.  The buffer of
    the offline loop and of the online builder is the longest run that ends at
    the last bin, cut to [lookback_bins]; so both meet every run once, in order. *)

Section Runs.
Variables (min_obs stride : Z) (k : nat).

Definition full (b : bin) : bool := min_obs <=? Z.of_nat (length b.2).
Definition adjacent (x y : bin) : bool := y.1 - x.1 =? seconds stride.
Fixpoint consecutive (bins : list bin) : bool :=
  match bins with
  | x :: ((y :: _) as rest) => adjacent x y && consecutive rest
  | _ => true
  end.
Definition full_run (bins : list bin) : bool := forallb full bins && consecutive bins.

(** The runs of a list of bins, in order. *)
Definition factors (bins : list bin) : list (list bin) :=
  (λ i, take k (drop i bins)) <$> seq 0 (S (length bins) - k).
Definition full_runs (bins : list bin) : list (list bin) := filter full_run (factors bins).

(** The buffer after a bin. *)
Definition extend (buf : list bin) (b : bin) : list bin :=
  if full b then
    let buf := match last buf with
               | Some x => if adjacent x b then buf else []
               | None => buf
               end ++ [b] in
    if (k <? length buf)%nat then tail buf else buf
  else [].

Lemma full_run_cons x bins : full_run (x :: bins) = true → full_run bins = true.
Proof.
  unfold full_run. simpl. destruct bins as [|y bins]; [done|]. rewrite !andb_true_iff. tauto.
Qed.

Lemma full_run_suffix bs bins : full_run (bs ++ bins) = true → full_run bins = true.
Proof. induction bs as [|x bs IH]; [done|]. simpl. intros H%full_run_cons. by apply IH. Qed.

Lemma full_run_snoc bins b :
  full_run (bins ++ [b]) =
  full_run bins && full b && match last bins with Some x => adjacent x b | None => true end.
Proof.
  unfold full_run. rewrite forallb_app. simpl. rewrite andb_true_r.
  assert (consecutive (bins ++ [b]) =
    consecutive bins && match last bins with Some x => adjacent x b | None => true end) as ->; [|by destruct (forallb full bins), (full b), (consecutive bins)].
  induction bins as [|x [|y bins] IH]; [done|simpl; by rewrite andb_true_r|].
  change (adjacent x y && consecutive ((y :: bins) ++ [b]) =
    adjacent x y && consecutive (y :: bins) && match last (y :: bins) with Some x => adjacent x b | None => true end).
  by rewrite IH, andb_assoc.
Qed.

Lemma full_run_prefix bins bs : full_run (bins ++ bs) = true → full_run bins = true.
Proof.
  induction bs as [|b bs IH] using rev_ind; [by rewrite app_nil_r|].
  rewrite app_assoc, full_run_snoc. intros [[H _]%andb_true_iff _]%andb_true_iff. by apply IH.
Qed.

(** [buf] is the longest run at the end of [bins], up to [k] bins. *)
Record Buffered (bins buf : list bin) : Prop := mkBuffered {
  buffered_suffix : ∃ pre, bins = pre ++ buf;
  buffered_run : full_run buf = true;
  buffered_length : (length buf ≤ k)%nat;
  buffered_longest : length buf = k ∨ ∀ pre x, bins = (pre ++ [x]) ++ buf → full_run (x :: buf) = false
}.

Hypothesis Hk : (1 ≤ k)%nat.

Lemma Buffered_nil : Buffered [] [].
Proof.
  split; [by exists []|done|simpl; lia|]. right. intros pre x H. by destruct pre.
Qed.

Lemma Buffered_extend bins buf b : Buffered bins buf → Buffered (bins ++ [b]) (extend buf b).
Proof.
  intros [[pre ->] Hrun Hlen Hmax]. unfold extend. destruct (full b) eqn:Hb.
  2:{ split; [exists ((pre ++ buf) ++ [b]); by rewrite app_nil_r|done|simpl; lia|]. right.
      intros pre' x. rewrite app_nil_r. intros [_ ->]%app_inj_tail. unfold full_run. simpl. by rewrite Hb. }
  assert (∀ r, full_run (r ++ [b]) = full_run r && match last r with Some x => adjacent x b | None => true end)
    as Hsnoc by (intros r; by rewrite full_run_snoc, Hb, andb_true_r).
  assert ((∀ pre' x, pre ++ buf = pre' ++ [x] → full_run [x; b] = false) → Buffered ((pre ++ buf) ++ [b]) [b]) as Hone.
  { intros Hx. split; [by exists (pre ++ buf)|unfold full_run; simpl; by rewrite Hb|simpl; lia|].
    right. intros pre' x [Heq _]%app_inj_tail. by apply (Hx pre'). }
  destruct (last buf) as [x|] eqn:Hl; [destruct (adjacent x b) eqn:Ha|].
  - cbv zeta. rewrite length_app. simpl. destruct (Nat.ltb_spec k (length buf + 1)) as [Hlt|Hge].
    + destruct buf as [|y buf]; [done|]. simpl in Hlt, Hlen |- *. split.
      * exists (pre ++ [y]). by rewrite <-!app_assoc.
      * apply (full_run_suffix [y]). change (full_run ((y :: buf) ++ [b]) = true).
        by rewrite Hsnoc, Hl, Hrun.
      * rewrite length_app. simpl. lia.
      * left. rewrite length_app. simpl. lia.
    + split.
      * exists pre. by rewrite app_assoc.
      * by rewrite Hsnoc, Hl, Hrun.
      * rewrite length_app. simpl. lia.
      * right. intros pre' y Heq. rewrite (app_assoc _ buf) in Heq. apply app_inj_tail in Heq as [Heq _].
        destruct Hmax as [?|Hmax]; [lia|]. specialize (Hmax _ _ Heq).
        destruct (full_run (y :: buf ++ [b])) eqn:Hr; [|done].
        apply (full_run_prefix (y :: buf) [b]) in Hr. congruence.
  - assert ((k <? length ([] ++ [b]))%nat = false) as -> by (apply Nat.ltb_ge; simpl; lia).
    apply Hone. intros pre' y Heq.
    assert (y = x) as -> by (apply (f_equal last) in Heq; rewrite last_snoc, last_app, Hl in Heq; congruence).
    unfold full_run. simpl. by rewrite Ha, andb_false_r.
  - apply last_None in Hl as ->. assert ((k <? length ([] ++ [b]))%nat = false) as -> by (apply Nat.ltb_ge; simpl; lia).
    apply Hone. intros pre' y Heq. destruct Hmax as [?|Hmax]; [simpl in *; lia|].
    specialize (Hmax pre' y ltac:(by rewrite (app_nil_r (pre' ++ [y])))).
    destruct (full_run [y; b]) eqn:Hr; [|done]. apply (full_run_prefix [y] [b]) in Hr. congruence.
Qed.

Lemma factors_snoc bins b :
  factors (bins ++ [b]) =
  factors bins ++ if (k <=? S (length bins))%nat then [drop (S (length bins) - k) (bins ++ [b])] else [].
Proof.
  unfold factors. rewrite length_app. simpl (length [b]).
  assert (∀ n, (n ≤ S (length bins) - k)%nat → (λ i, take k (drop i (bins ++ [b]))) <$> seq 0 n
    = (λ i, take k (drop i bins)) <$> seq 0 n) as Hsame.
  { intros n Hn. apply list_fmap_ext. intros ? i [-> Hi]%lookup_seq. simpl.
    rewrite drop_app_le by lia. rewrite take_app_le; [done|]. rewrite length_drop. lia. }
  destruct (Nat.leb_spec k (S (length bins))) as [Hle|Hgt].
  - replace (S (length bins + 1) - k)%nat with (S (length bins) - k + 1)%nat by lia.
    rewrite seq_app, fmap_app, Hsame by lia. simpl. f_equal. f_equal.
    apply take_ge. rewrite length_drop, length_app. simpl. lia.
  - replace (S (length bins + 1) - k)%nat with 0%nat by lia.
    replace (S (length bins) - k)%nat with 0%nat by lia. done.
Qed.

(** A bin completes at most one run: the buffer, when it has [k] bins. *)
Lemma full_runs_snoc bins buf b : Buffered bins buf →
  full_runs (bins ++ [b]) =
  full_runs bins ++ if (length (extend buf b) =? k)%nat then [extend buf b] else [].
Proof.
  intros HB. pose proof (Buffered_extend _ _ b HB) as [[pre Hpre] Hrun Hlen Hmax].
  unfold full_runs. rewrite factors_snoc, filter_app. f_equal.
  assert (length (pre ++ extend buf b) = S (length bins)) as Hlens
    by (rewrite <-Hpre, length_app; simpl; lia).
  rewrite length_app in Hlens. rewrite Hpre.
  destruct (Nat.eqb_spec (length (extend buf b)) k) as [Heq|Hne].
  - assert ((k <=? S (length bins))%nat = true) as -> by (apply Nat.leb_le; lia).
    replace (S (length bins) - k)%nat with (length pre) by lia. rewrite drop_app_length.
    rewrite filter_cons_True, filter_nil; [done|]. by rewrite Hrun.
  - destruct Hmax as [Hc|Hmax]; [lia|].
    destruct (Nat.leb_spec k (S (length bins))); [|done].
    destruct pre as [|x pre _] using rev_ind; [simpl in *; lia|].
    rewrite length_app in Hlens. simpl in Hlens.
    rewrite <-app_assoc, drop_app_le by lia. rewrite filter_cons_False, filter_nil; [done|].
    intros Hr%Is_true_true. apply full_run_suffix in Hr. simpl in Hr. rewrite (Hmax pre x) in Hr by done. done.
Qed.

Lemma full_runs_length bins run : run ∈ full_runs bins → length run = k ∧ full_run run = true.
Proof.
  intros [Hr Hin]%list_elem_of_filter. split; [|by apply Is_true_true].
  apply list_elem_of_fmap in Hin as (i & -> & Hi%elem_of_seq). rewrite length_take, length_drop. lia.
Qed.
End Runs.

(** ** The offline loop *)
Section OfflineRuns.
Context `{Numpy}.
Variable contract : Phase1BContract.t.
Import Phase1BContract.
Hypothesis Hlookback : 1 ≤ lookback_bins contract.

Abbreviation depth := (Z.to_nat (lookback_bins contract)).
Abbreviation runs := (full_runs (min_bin_observations contract) (stride_seconds contract) depth).
Abbreviation next_buffer := (extend (min_bin_observations contract) (stride_seconds contract) depth).

(** The split a run lies in. *)
Definition placed (run : list bin) : option (string * Split.t) :=
  matched_split contract (buffer_start (stride_seconds contract) run) (buffer_end run).

(** What the loop computes: one window of each run inside a split, in order;
    how many bins are too sparse and how many runs lie in no split. *)
Definition windows_of_bins (bins : list bin) : result (list Phase1BWindow.t * Z * Z) :=
  ws ← mapR (λ run, create_window_from_buffer contract run (default "" (fst <$> placed run)))
         (filter (λ run, is_Some (placed run)) (runs bins));
  Ok (ws, Z.of_nat (length (filter (λ b, full (min_bin_observations contract) b = false) bins)),
      Z.of_nat (length (filter (λ run, placed run = None) (runs bins)))).

Lemma depth_pos : (1 ≤ depth)%nat.
Proof. lia. Qed.

Lemma buffered bins : Buffered (min_bin_observations contract) (stride_seconds contract) depth bins
  (foldl next_buffer [] bins).
Proof.
  induction bins as [|b bins IH] using rev_ind; [apply Buffered_nil, depth_pos|].
  rewrite foldl_app. by apply Buffered_extend, IH; apply depth_pos.
Qed.

Lemma append_bin_extend buf inv cross ws b : full (min_bin_observations contract) b = true →
  append_bin contract (mkWin buf (fst <$> last buf) inv cross ws) b = next_buffer buf b.
Proof.
  intros Hf. destruct b as [e ss]. unfold append_bin, extend. rewrite Hf.
  assert (∀ l : list bin, (lookback_bins contract <? Z.of_nat (length l)) = (depth <? length l)%nat) as Hcmp.
  { intros l. apply eq_true_iff_eq. rewrite Nat.ltb_lt, Z.ltb_lt. lia. }
  cbn [valid_bin_buffer prev_bin_end]. by destruct (last buf) as [[p x]|]; simpl; rewrite Hcmp.
Qed.

(** One step of the loop, with the buffer of the runs. *)
Lemma bin_step_extend buf inv cross ws b :
  bin_step contract (mkWin buf (fst <$> last buf) inv cross ws) b =
  let buf' := next_buffer buf b in
  if full (min_bin_observations contract) b then
    if (length buf' =? depth)%nat then
      match placed buf' with
      | None => Ok (mkWin buf' (fst <$> last buf') inv (cross + 1) ws)
      | Some (name, split) =>
          w ← create_window_from_buffer contract buf' name;
          Ok (mkWin buf' (fst <$> last buf') inv cross (ws ++ [w]))
      end
    else Ok (mkWin buf' (fst <$> last buf') inv cross ws)
  else Ok (mkWin [] None (inv + 1) cross ws).
Proof.
  destruct b as [e ss]. unfold bin_step, full. cbn [snd valid_bin_buffer prev_bin_end].
  rewrite Z.ltb_antisym. destruct (_ <=? _) eqn:Hf; [|done]. cbn [negb].
  rewrite append_bin_extend by exact Hf. cbv zeta. set (buf' := next_buffer buf (e, ss)).
  assert (fst <$> last buf' = Some e) as ->.
  { subst buf'. unfold extend, full. cbn [snd]. rewrite Hf. pose proof depth_pos.
    set (r := match last buf with Some _ => _ | None => _ end).
    destruct (Nat.ltb_spec depth (length (r ++ [(e, ss)]))); [|by rewrite last_snoc].
    destruct r as [|y r]; [rewrite length_app in *; simpl in *; lia|]. simpl. by rewrite last_snoc. }
  assert ((Z.of_nat (length buf') =? lookback_bins contract) = (length buf' =? depth)%nat) as ->.
  { apply eq_true_iff_eq. rewrite Nat.eqb_eq, Z.eqb_eq. lia. }
  cbn [windows invalid_bins_skipped cross_split_windows_skipped].
  destruct (length buf' =? depth)%nat; [|done].
  fold (placed buf'). destruct (placed buf') as [[name split]|] eqn:Hp; [|done].
  destruct (create_window_from_buffer contract buf' name) as [w|] eqn:Hw; [|done].
  cbn [mbind result_bind]. apply find_some in Hp as [_ Hp%eq_sym]. unfold create_window_from_buffer in Hw.
  inv_res. unfold window_is_within_split. cbn [Phase1BWindow.window_start Phase1BWindow.window_end].
  cbn [snd] in Hp. by rewrite <-Hp.
Qed.

Lemma foldR_bin_step bins :
  foldR (bin_step contract) (mkWin [] None 0 0 []) bins =
  r ← windows_of_bins bins;
  let buf := foldl next_buffer [] bins in
  Ok (mkWin buf (fst <$> last buf) r.1.2 r.2 r.1.1).
Proof.
  induction bins as [|b bins IH] using rev_ind.
  { unfold windows_of_bins, full_runs, factors. by destruct depth eqn:?; [lia|]. }
  rewrite foldR_app, IH. clear IH. unfold windows_of_bins. pose proof (buffered bins) as HB.
  rewrite foldl_app. simpl foldl. set (buf := foldl next_buffer [] bins) in *.
  rewrite (full_runs_snoc _ _ _ depth_pos _ _ _ HB). rewrite !filter_app, mapR_app.
  destruct (mapR _ (filter _ (runs bins))) as [ws|]; [|done].
  cbn [mbind result_bind fst snd foldR]. rewrite bin_step_extend. cbv zeta.
  rewrite !length_app, !filter_cons, filter_nil.
  destruct (full (min_bin_observations contract) b) eqn:Hf.
  2:{ assert (next_buffer buf b = []) as -> by (unfold extend; by rewrite Hf).
      destruct depth eqn:Hd; [lia|]. simpl. rewrite !app_nil_r, !Nat.add_0_r.
      rewrite Nat2Z.inj_add. done. }
  set (buf' := next_buffer buf b). destruct (length buf' =? depth)%nat eqn:Hlen.
  - rewrite !filter_cons, filter_nil. destruct (placed buf') as [[name split]|] eqn:Hp.
    + rewrite (decide_True (P := is_Some _)) by by eexists. rewrite !decide_False by done. simpl.
      rewrite Hp. simpl. destruct (create_window_from_buffer contract buf' name); [|done].
      simpl. by rewrite !Nat.add_0_r.
    + rewrite (decide_False (P := is_Some _)) by by intros []. rewrite decide_False, decide_True by done. simpl.
      rewrite app_nil_r, !Nat.add_0_r. by rewrite Nat2Z.inj_add.
  - rewrite filter_nil. rewrite decide_False by done. simpl. by rewrite app_nil_r, !Nat.add_0_r.
Qed.
End OfflineRuns.
