(* ===== verification/OnlineFeatures.v ===== *)
(** * The online feature builder ([online_features.py])

    The builder of one session: it takes the telemetry events one by one, closes
    a five-minute bin when an event of a later one comes, and emits a feature
    vector when the last bins are consecutive and full enough.  [push] and
    [complete] mutate the builder; an exception leaves the mutations made before
    it. *)

From S2P Require Import Prelude PyText PyUuid PyTime PyFloat PyHash PyJson.
From S2P Require Import Contracts Messages KafkaIo Features.

Inductive SegmentCloseReason :=
| sequence_gap | conflicting_duplicate | timestamp_regression | invalid_bin | split_boundary.
#[export] Instance SegmentCloseReason_eq_dec : EqDecision SegmentCloseReason.
Proof. solve_decision. Defined.

Definition DEFAULT_ANALOG_COLS : list string :=
  ["tp2"; "tp3"; "h1"; "dv_pressure"; "reservoirs"; "oil_temperature"; "motor_current"]%string.
Definition DEFAULT_DIGITAL_COLS : list string :=
  ["comp"; "dv_electric"; "towers"; "mpg"; "lps"; "pressure_switch"; "oil_level"; "caudal_impulses"]%string.

Record BuilderResult := mkResult {
  features : list FeatureVectorV1.t;
  segment_closed_reason : option SegmentCloseReason
}.

(** The entry of a key in an association list. *)
Fixpoint lookup_key {A} (key : string) (l : list (string * A)) : option A :=
  match l with
  | [] => None
  | (k, a) :: l => if bool_decide (k = key) then Some a else lookup_key key l
  end.

(** [getattr(event, col)] for the fields of the two kinds *)
Definition analog_attr (event : TelemetryEventV1.t) (col : string) : result float :=
  of_option (KeyError col) (lookup_key col
    [("tp2", TelemetryEventV1.tp2 event); ("tp3", TelemetryEventV1.tp3 event);
     ("h1", TelemetryEventV1.h1 event); ("dv_pressure", TelemetryEventV1.dv_pressure event);
     ("reservoirs", TelemetryEventV1.reservoirs event);
     ("oil_temperature", TelemetryEventV1.oil_temperature event);
     ("motor_current", TelemetryEventV1.motor_current event)]%string).
Definition digital_attr (event : TelemetryEventV1.t) (col : string) : result Z :=
  of_option (KeyError col) (lookup_key col
    [("comp", TelemetryEventV1.comp event); ("dv_electric", TelemetryEventV1.dv_electric event);
     ("towers", TelemetryEventV1.towers event); ("mpg", TelemetryEventV1.mpg event);
     ("lps", TelemetryEventV1.lps event); ("pressure_switch", TelemetryEventV1.pressure_switch event);
     ("oil_level", TelemetryEventV1.oil_level event);
     ("caudal_impulses", TelemetryEventV1.caudal_impulses event)]%string).

Definition extract_sample (event : TelemetryEventV1.t) (analog_cols digital_cols : list string)
  : result sample :=
  analog ← mapR (analog_attr event) analog_cols;
  digital ← mapR (digital_attr event) digital_cols;
  Ok (TelemetrySample.mk (TelemetryEventV1.source_timestamp event) analog digital).

(** [repr] of a list of numbers *)
Fixpoint comma_separated (items : list string) : string :=
  match items with
  | [] => ""
  | [x] => x
  | x :: items => (x +:+ ", " +:+ comma_separated items)%string
  end.
Definition repr_list (items : list string) : string := ("[" +:+ comma_separated items +:+ "]")%string.
Definition repr_int (n : Z) : string := text (dec_chars n).

Definition hash_event_payload (event : TelemetryEventV1.t) : string :=
  let analog_vals :=
    [TelemetryEventV1.tp2 event; TelemetryEventV1.tp3 event; TelemetryEventV1.h1 event;
     TelemetryEventV1.dv_pressure event; TelemetryEventV1.reservoirs event;
     TelemetryEventV1.oil_temperature event; TelemetryEventV1.motor_current event] in
  let digital_vals :=
    [TelemetryEventV1.comp event; TelemetryEventV1.dv_electric event;
     TelemetryEventV1.towers event; TelemetryEventV1.mpg event; TelemetryEventV1.lps event;
     TelemetryEventV1.pressure_switch event; TelemetryEventV1.oil_level event;
     TelemetryEventV1.caudal_impulses event] in
  let raw := (repr_int (TelemetryEventV1.sequence event) +:+ ":" +:+
              isoformat (TelemetryEventV1.source_timestamp event) +:+ ":" +:+
              repr_list (repr_float <$> analog_vals) +:+ ":" +:+
              repr_list (repr_int <$> digital_vals))%string in
  sha256_hex (encode raw).

Module OnlineFeatureBuilder.

Record t := mk {
  replay_session_id : UUID;
  machine_id : string;
  source_dataset_sha256 : string;
  contract_sha256 : string;
  feature_names : list string;
  stride_seconds : Z;
  lookback_bins : Z;
  min_bin_observations : Z;
  analog_cols : list string;
  digital_cols : list string;
  last_sequence : option Z;
  last_timestamp : option datetime;
  last_event_id : option UUID;
  last_payload_hash : option string;
  current_bin_end : option datetime;
  current_bin_samples : list sample;
  valid_bin_buffer : list bin;
  is_complete : bool
}.

(** The constructor with its default window parameters and columns. *)
Definition make (replay_session_id : UUID) (machine_id source_dataset_sha256 contract_sha256 : string)
    (feature_names : list string) : t :=
  mk replay_session_id machine_id source_dataset_sha256 contract_sha256 feature_names
    300 6 24 DEFAULT_ANALOG_COLS (digital_predictors PHASE1C)
    None None None None None [] [] false.

Definition set_bins (bin_end : option datetime) (samples : list sample) (buffer : list bin) (b : t) : t :=
  mk (replay_session_id b) (machine_id b) (source_dataset_sha256 b) (contract_sha256 b)
    (feature_names b) (stride_seconds b) (lookback_bins b) (min_bin_observations b)
    (analog_cols b) (digital_cols b) (last_sequence b) (last_timestamp b) (last_event_id b)
    (last_payload_hash b) bin_end samples buffer (is_complete b).
Definition set_bin_end (e : option datetime) (b : t) : t :=
  set_bins e (current_bin_samples b) (valid_bin_buffer b) b.
Definition set_samples (s : list sample) (b : t) : t :=
  set_bins (current_bin_end b) s (valid_bin_buffer b) b.
Definition set_buffer (buf : list bin) (b : t) : t :=
  set_bins (current_bin_end b) (current_bin_samples b) buf b.
Definition set_last (seq : Z) (ts : datetime) (id : UUID) (hash : string) (b : t) : t :=
  mk (replay_session_id b) (machine_id b) (source_dataset_sha256 b) (contract_sha256 b)
    (feature_names b) (stride_seconds b) (lookback_bins b) (min_bin_observations b)
    (analog_cols b) (digital_cols b) (Some seq) (Some ts) (Some id) (Some hash)
    (current_bin_end b) (current_bin_samples b) (valid_bin_buffer b) (is_complete b).
Definition set_complete (b : t) : t :=
  mk (replay_session_id b) (machine_id b) (source_dataset_sha256 b) (contract_sha256 b)
    (feature_names b) (stride_seconds b) (lookback_bins b) (min_bin_observations b)
    (analog_cols b) (digital_cols b) (last_sequence b) (last_timestamp b) (last_event_id b)
    (last_payload_hash b) (current_bin_end b) (current_bin_samples b) (valid_bin_buffer b) true.

Definition reset_segment (b : t) : t := set_bins None [] [] b.

Section Builder.
Context `{Numpy}.

(** [now] is what [self.clock()] returns. *)
Definition emit_window (now : aware) (b : t) (buffer : list bin) : result FeatureVectorV1.t :=
  let window_end := buffer_end buffer in
  let window_start := buffer_start (stride_seconds b) buffer in
  let evidence := buffer_coverage buffer in
  coverage ← CoverageEvidenceV1.make (observations_by_bin evidence) (Naive <$> bin_ends evidence);
  feature_values ← compute_feature_values (buffer_samples buffer) (feature_names b)
                     (analog_cols b) (digital_cols b);
  window_id ← runtime_id "window" (replay_session_id b) (isoformat_seconds window_end);
  FeatureVectorV1.make
    (* message_id *) window_id
    (* replay_session_id *) (replay_session_id b)
    (* source_dataset_sha256 *) (source_dataset_sha256 b)
    (* contract_sha256 *) (contract_sha256 b)
    (* source_timestamp *) (Naive window_end)
    (* emitted_at *) (Aware now)
    (* window_id *) window_id
    (* machine_id *) (machine_id b)
    (* window_start *) (Naive window_start)
    (* window_end *) (Naive window_end)
    (* feature_names *) (feature_names b)
    (* feature_values *) feature_values
    (* coverage *) coverage.

(** The buffer after the current bin is closed. *)
Definition close_bin (b : t) (bin_end : datetime) : list bin :=
  let buffer :=
    match last (valid_bin_buffer b) with
    | Some (prev_end, _) =>
        if total_seconds_eqb (bin_end - prev_end) (stride_seconds b) then valid_bin_buffer b else []
    | None => valid_bin_buffer b
    end in
  let buffer := buffer ++ [(bin_end, current_bin_samples b)] in
  if lookback_bins b <? Z.of_nat (length buffer) then tail buffer else buffer.

Definition finalize_current_bin (now : aware) : M t (list FeatureVectorV1.t) := λ b,
  match current_bin_end b with
  | None => (Ok [], b)
  | Some bin_end =>
      if min_bin_observations b <=? Z.of_nat (length (current_bin_samples b)) then
        let b := set_buffer (close_bin b bin_end) b in
        if Z.of_nat (length (valid_bin_buffer b)) =? lookback_bins b then
          match emit_window now b (valid_bin_buffer b) with
          | Ok window => (Ok [window], set_samples [] b)
          | Err e => (Err e, b)
          end
        else (Ok [], set_samples [] b)
      else (Ok [], set_samples [] (set_buffer [] b))
  end.

(** [(should_ignore, close_reason)] *)
Definition check_sequence_and_ordering (event : TelemetryEventV1.t) (payload_hash : string)
  : M t (bool * option SegmentCloseReason) := λ b,
  let seq := TelemetryEventV1.sequence event in
  if bool_decide (last_sequence b = Some seq) then
    if bool_decide (last_event_id b = Some (TelemetryEventV1.message_id event)) &&
       bool_decide (last_payload_hash b = Some payload_hash)
    then (Ok (true, None), b)
    else (Ok (true, Some conflicting_duplicate), reset_segment b)
  else if match last_sequence b with Some last => negb (seq =? last + 1) | None => false end then
    (Ok (false, Some sequence_gap), reset_segment b)
  else if match last_timestamp b with
          | Some last => TelemetryEventV1.source_timestamp event <? last
          | None => false end then
    (Ok (false, Some timestamp_regression), reset_segment b)
  else (Ok (false, None), b).

(** The bin boundary checks: the features emitted and the close reason. *)
Definition check_bin_boundary (now : aware) (event_bin_end : datetime)
    (close_reason : option SegmentCloseReason)
  : M t (list FeatureVectorV1.t * option SegmentCloseReason) := λ b,
  match current_bin_end b with
  | None => (Ok ([], close_reason), set_bin_end (Some event_bin_end) b)
  | Some cur =>
      if event_bin_end =? cur then (Ok ([], close_reason), b)
      else if event_bin_end <? cur then
        (Ok ([], Some timestamp_regression), set_bin_end (Some event_bin_end) (reset_segment b))
      else
        match finalize_current_bin now b with
        | (Err e, b) => (Err e, b)
        | (Ok emitted, b) =>
            if seconds (stride_seconds b) <? event_bin_end - cur then
              (Ok ([], Some invalid_bin), set_bin_end (Some event_bin_end) (set_buffer [] b))
            else (Ok (emitted, close_reason), set_bin_end (Some event_bin_end) b)
        end
  end.

Definition push (now : aware) (event : TelemetryEventV1.t) : M t BuilderResult :=
  let payload_hash := hash_event_payload event in
  checked ← check_sequence_and_ordering event payload_hash;
  if checked.1 : bool then mret (mkResult [] checked.2)
  else
    out ← check_bin_boundary now (compute_bin_end (TelemetryEventV1.source_timestamp event)) checked.2;
    b ← get_st;
    sample ← lift_res (extract_sample event (analog_cols b) (digital_cols b));
    _ ← modify (λ b, set_last (TelemetryEventV1.sequence event) (TelemetryEventV1.source_timestamp event)
                       (TelemetryEventV1.message_id event) payload_hash
                       (set_samples (current_bin_samples b ++ [sample]) b));
    mret (mkResult out.1 out.2).

Definition complete (now : aware) (source_timestamp : datetime) : M t BuilderResult :=
  b ← get_st;
  _ ← lift_res (guard_exn (negb (match last_timestamp b with Some last => source_timestamp <? last | None => false end))
        (ValueError "completion timestamp cannot precede last received telemetry"));
  emitted ← finalize_current_bin now;
  _ ← modify set_complete;
  mret (mkResult emitted None).
End Builder.
End OnlineFeatureBuilder.
