(* ===== verification/OnlineTheory.v ===== *)
(** * The online builder: lemmas

    The statistics of well-shaped samples exist; a run of the offline loop makes
    a valid feature vector; the builder's buffer follows the runs. *)

From S2P Require Import Prelude PyText PyUuid PyTime PyFloat PyHash PyJson.
From S2P Require Import Contracts Messages KafkaIo Features FeatureTheory OnlineFeatures.

(** ** Samples of events *)
Definition sample_of (e : TelemetryEventV1.t) : sample :=
  TelemetrySample.mk (TelemetryEventV1.source_timestamp e)
    [TelemetryEventV1.tp2 e; TelemetryEventV1.tp3 e; TelemetryEventV1.h1 e;
     TelemetryEventV1.dv_pressure e; TelemetryEventV1.reservoirs e;
     TelemetryEventV1.oil_temperature e; TelemetryEventV1.motor_current e]
    [TelemetryEventV1.comp e; TelemetryEventV1.dv_electric e; TelemetryEventV1.towers e;
     TelemetryEventV1.mpg e; TelemetryEventV1.pressure_switch e; TelemetryEventV1.oil_level e;
     TelemetryEventV1.caudal_impulses e].

Lemma extract_sample_of e :
  extract_sample e DEFAULT_ANALOG_COLS (digital_predictors PHASE1C) = Ok (sample_of e).
Proof. reflexivity. Qed.

(** As wide as the columns of the contract. *)
Definition shaped (s : sample) : Prop :=
  length (TelemetrySample.analog s) = length DEFAULT_ANALOG_COLS ∧
  length (TelemetrySample.digital s) = length (digital_predictors PHASE1C).

Lemma sample_of_shaped e : shaped (sample_of e).
Proof. split; reflexivity. Qed.

(** ** Statistics *)
Lemma column_ok {A} (field : sample → list A) idx samples :
  Forall (λ s, idx < length (field s))%nat samples → ∃ series, column field idx samples = Ok series.
Proof.
  induction 1 as [|s ss Hs _ [series IH]]; [by exists []|].
  apply lookup_lt_is_Some in Hs as [x Hx]. exists (x :: series).
  unfold column in *. simpl. rewrite Hx. simpl. by rewrite IH.
Qed.

Lemma insert_all_keys {A} (kvs : list (string * A)) (m : gmap string A) key :
  is_Some (m !! key) ∨ key ∈ fst <$> kvs → is_Some (foldl (λ m kv, <[kv.1 := kv.2]> m) m kvs !! key).
Proof.
  revert m. induction kvs as [|[k a] kvs IH]; intros m Hk; simpl.
  { destruct Hk as [Hk|Hk]; [done|by apply not_elem_of_nil in Hk]. }
  apply IH. destruct (decide (key = k)) as [->|Hne].
  - left. rewrite lookup_insert_eq. by eexists.
  - rewrite lookup_insert_ne by done. destruct Hk as [Hk|[Hk|Hk]%elem_of_cons]; [by left|done|by right].
Qed.

Lemma columns_stats_ok `{Numpy} {A} (field : sample → list A) stats_of names idx cols samples m :
  (∀ col series, fst <$> stats_of col series = feature_name col <$> names) →
  Forall (λ s, idx + length cols ≤ length (field s))%nat samples →
  ∃ m', columns_stats field stats_of idx cols samples m = Ok m' ∧
    ∀ key, is_Some (m !! key) ∨ key ∈ (col ← cols; feature_name col <$> names) → is_Some (m' !! key).
Proof.
  intros Hnames. revert idx m. induction cols as [|col cols IH]; intros idx m Hwide; simpl.
  { exists m. split; [done|]. intros key [Hk|Hk]; [done|by apply not_elem_of_nil in Hk]. }
  destruct (column_ok field idx samples) as [series ->].
  { eapply Forall_impl; [exact Hwide|]. simpl. lia. }
  simpl. destruct (IH (S idx) (foldl (λ m kv, <[kv.1 := kv.2]> m) m (stats_of col series))) as (m' & -> & Hm').
  { eapply Forall_impl; [exact Hwide|]. simpl. lia. }
  exists m'. split; [done|]. intros key Hk. apply Hm'.
  rewrite elem_of_app in Hk. destruct Hk as [Hk|[Hk|Hk]]; [| |by right]; left; apply insert_all_keys; [by left|].
  right. by rewrite Hnames.
Qed.

(** ** Gaps *)

(** Whether the next end after [e] is more than a stride away. *)
Definition gap_after (ends : list datetime) (e : datetime) : bool :=
  match find (λ n, e <? n) ends with Some n => seconds 300 <? n - e | None => false end.

Lemma gap_after_app ends more e : Exists (λ n, e < n) ends → gap_after (ends ++ more) e = gap_after ends e.
Proof.
  unfold gap_after. induction 1 as [n ends Hn|n ends _ IH]; simpl.
  - by rewrite (proj2 (Z.ltb_lt _ _) Hn).
  - by destruct (e <? n).
Qed.

Lemma gap_after_last ends n e : Forall (λ x, x ≤ e) ends → e < n →
  gap_after (ends ++ [n]) e = (seconds 300 <? n - e).
Proof.
  intros HF Hn. unfold gap_after. induction HF as [|x ends Hx _ IH]; simpl.
  - by rewrite (proj2 (Z.ltb_lt _ _) Hn).
  - by rewrite (proj2 (Z.ltb_ge _ _) Hx).
Qed.

Lemma gap_after_none ends e : Forall (λ x, x ≤ e) ends → gap_after ends e = false.
Proof.
  unfold gap_after. induction 1 as [|x ends Hx _ IH]; simpl; [done|]. by rewrite (proj2 (Z.ltb_ge _ _) Hx).
Qed.

(** The samples of the bins are the samples of the recording. *)
Lemma bins_of_elem ss b s : b ∈ bins_of ss → s ∈ b.2 → s ∈ ss.
Proof.
  revert b s. induction ss as [|x ss IH] using rev_ind; intros b s; [intros []%not_elem_of_nil|].
  rewrite bins_of_snoc. unfold add_sample.
  assert (∀ b0, b0 ∈ bins_of ss → s ∈ b0.2 → s ∈ ss ++ [x]) as Hold
    by (intros; apply elem_of_app; left; eauto).
  destruct (bins_of ss) as [|[e xs] bs _] eqn:Hb using rev_ind.
  { simpl. intros ->%list_elem_of_singleton ->%list_elem_of_singleton. set_solver. }
  rewrite last_snoc. destruct (e =? bin_end_of x).
  - rewrite removelast_last. intros [Hin|Hin%list_elem_of_singleton]%elem_of_app Hs.
    + apply (Hold b); [|done]. apply elem_of_app. by left.
    + subst b. simpl in Hs. apply elem_of_app in Hs as [Hs| ->%list_elem_of_singleton]; [|set_solver].
      apply (Hold (e, xs)); [|done]. set_solver.
  - intros [Hin|Hin%list_elem_of_singleton]%elem_of_app Hs; [by apply (Hold b)|].
    subst b. simpl in Hs. apply list_elem_of_singleton in Hs as ->. set_solver.
Qed.

Lemma run_samples min stride k bins run s :
  run ∈ full_runs min stride k bins → s ∈ buffer_samples run → ∃ b, b ∈ bins ∧ s ∈ b.2.
Proof.
  intros [_ Hr]%list_elem_of_filter Hs. apply list_elem_of_fmap in Hr as (i & -> & _).
  unfold buffer_samples in Hs. apply list_elem_of_bind in Hs as (b & Hs & Hb). exists b. split; [|done].
  apply elem_of_take in Hb as (j & Hj & _). rewrite lookup_drop in Hj. by eapply list_elem_of_lookup_2.
Qed.

(** All bins but the last one are final. *)
Lemma bins_of_prefix ss ss' : ss ≠ [] → ∃ more, bins_of (ss ++ ss') = removelast (bins_of ss) ++ more.
Proof.
  intros Hne. assert (∃ more x, bins_of (ss ++ ss') = removelast (bins_of ss) ++ more ++ [x]) as (more & x & ->);
    [|by eexists].
  induction ss' as [|s ss' (more & x & IH)] using rev_ind.
  - rewrite app_nil_r. pose proof (last_bins_of ss) as Hl.
    destruct (bins_of ss) as [|x bs _] eqn:Hb using rev_ind.
    + destruct ss as [|y ss _] using rev_ind; [done|]. by rewrite last_snoc in Hl.
    + exists [], x. by rewrite removelast_last.
  - rewrite app_assoc, bins_of_snoc, IH. unfold add_sample. rewrite app_assoc, last_snoc. destruct x as [e xs].
    destruct (e =? bin_end_of s).
    + rewrite removelast_last. exists more, (e, xs ++ [s]). by rewrite <-app_assoc.
    + exists (more ++ [(e, xs)]), (bin_end_of s, [s]). by rewrite <-!app_assoc.
Qed.

Abbreviation candidates := (candidate_names PHASE1C).

Lemma statistics_ok `{Numpy} samples : Forall shaped samples →
  ∃ m, all_candidate_statistics samples DEFAULT_ANALOG_COLS (digital_predictors PHASE1C) = Ok m ∧
    ∀ name, name ∈ candidates → is_Some (m !! name).
Proof.
  intros Hs. unfold all_candidate_statistics.
  destruct (columns_stats_ok TelemetrySample.analog analog_stats ANALOG_STATS 0 DEFAULT_ANALOG_COLS samples ∅)
    as (m1 & -> & Hm1); [done| |].
  { eapply Forall_impl; [exact Hs|]. intros s [-> _]. simpl. lia. }
  cbn [mbind result_bind].
  destruct (columns_stats_ok TelemetrySample.digital digital_stats DIGITAL_STATS 0 (digital_predictors PHASE1C)
    samples m1) as (m2 & -> & Hm2); [done| |].
  { eapply Forall_impl; [exact Hs|]. intros s [_ ->]. lia. }
  exists m2. split; [done|]. intros name Hin. apply Hm2.
  unfold candidate_names, get_candidate_feature_names in Hin. apply elem_of_app in Hin as [Hin|Hin]; [|by right].
  left. apply Hm1. by right.
Qed.

(** The values of any of the candidate names; they are the ones of the full vector. *)
Lemma feature_values_ok `{Numpy} samples names : samples ≠ [] → Forall shaped samples →
  Forall (λ name, name ∈ candidates) names →
  ∃ (m : gmap string float) vals all,
    compute_feature_values samples names DEFAULT_ANALOG_COLS (digital_predictors PHASE1C) = Ok vals ∧
    compute_feature_values samples candidates DEFAULT_ANALOG_COLS (digital_predictors PHASE1C) = Ok all ∧
    Forall2 (λ name x, m !! name = Some x) names vals ∧
    Forall2 (λ name x, m !! name = Some x) candidates all.
Proof.
  intros Hne Hs Hnames. destruct (statistics_ok samples Hs) as (m & Hm & Hkeys).
  assert (∀ l, Forall (λ name, name ∈ candidates) l → ∃ vals : list float,
    mapR (λ name, of_option (KeyError name) (m !! name)) l = Ok vals ∧
    Forall2 (λ name x, m !! name = Some x) l vals) as Hvals.
  { induction 1 as [|name l Hin _ (vals & Hv & Hf)]; [by exists []; repeat constructor|].
    destruct (Hkeys name Hin) as [x Hx]. exists (x :: vals). simpl. rewrite Hx. simpl. rewrite Hv.
    split; [done|]. by constructor. }
  destruct (Hvals names Hnames) as (vals & Hv & Hf).
  destruct (Hvals candidates) as (all & Ha & Hfa); [by apply Forall_forall|].
  exists m, vals, all. unfold compute_feature_values. rewrite bool_decide_eq_false_2 by done.
  change (negb false) with true. cbn [guard_exn mbind result_bind]. rewrite Hm. cbn [mbind result_bind].
  by rewrite Hv, Ha.
Qed.

Lemma looked_up (m : gmap string float) names vals cands all :
  Forall (λ name, name ∈ cands) names →
  Forall2 (λ name x, m !! name = Some x) names vals → Forall2 (λ name x, m !! name = Some x) cands all →
  Forall2 (λ name x, ∃ i, cands !! i = Some name ∧ all !! i = Some x) names vals.
Proof.
  intros Hin Hv Ha. induction Hv as [|name x names vals Hx _ IH]; constructor.
  - apply Forall_inv in Hin as [i Hi]%list_elem_of_lookup. exists i. split; [done|].
    eapply Forall2_lookup_l in Ha as (y & Hy & Hm); [|exact Hi]. congruence.
  - by apply IH, (Forall_inv_tail Hin).
Qed.

Lemma isoformat_seconds_nonempty t : nonempty (isoformat_seconds t) = true.
Proof.
  unfold isoformat_seconds, iso_seconds. destruct (ord2ymd (ordinal t)) as [[y m] d].
  pose proof (numeral_length 10 4 y) as Hl. by destruct (numeral 10 4 y).
Qed.

(** ** A run makes a valid vector *)
Section Emission.
Context `{Numpy}.
Import OnlineFeatureBuilder.
Variables (session : UUID) (machine dataset_sha contract_sha : string) (names : list string).
Hypothesis Hdataset : is_hex64 dataset_sha = true.
Hypothesis Hcontract : is_hex64 contract_sha = true.
Hypothesis Hmachine : str_len 1 128 machine = true.
Hypothesis Hnames : names ≠ [].
Hypothesis Hunique : NoDup names.
Hypothesis Hknown : Forall (λ name, name ∈ candidates) names.

Abbreviation runs := (full_runs 24 300 6).
Abbreviation fresh := (make session machine dataset_sha contract_sha names).

(** The statistics are finite numbers. *)
Definition finite_stats (run : list bin) : Prop :=
  ∀ vals, compute_feature_values (buffer_samples run) names DEFAULT_ANALOG_COLS (digital_predictors PHASE1C)
    = Ok vals → forallb is_finite vals = true.

(** What the statistics of a run need. *)
Definition good (run : list bin) : Prop := finite_stats run ∧ Forall shaped (buffer_samples run).

(** The vector and the window of one run: the same bounds, coverage and values. *)
Record agrees (v : FeatureVectorV1.t) (w : Phase1BWindow.t) : Prop := mkAgrees {
  agrees_start : FeatureVectorV1.window_start v = Phase1BWindow.window_start w;
  agrees_end : FeatureVectorV1.window_end v = Phase1BWindow.window_end w;
  agrees_bins : CoverageEvidenceV1.bin_ends (FeatureVectorV1.coverage v)
    = bin_ends (Phase1BWindow.coverage w);
  agrees_counts : CoverageEvidenceV1.observations_by_bin (FeatureVectorV1.coverage v)
    = observations_by_bin (Phase1BWindow.coverage w);
  agrees_names : FeatureVectorV1.feature_names v = names;
  agrees_values : Forall2 (λ name x, ∃ i, Phase1BWindow.feature_names w !! i = Some name ∧
      Phase1BWindow.feature_values w !! i = Some x)
    (FeatureVectorV1.feature_names v) (FeatureVectorV1.feature_values v)
}.

Lemma check_bin_ends_ok bins : consecutive 300 bins = true →
  CoverageEvidenceV1.check_bin_ends (Naive <$> (fst <$> bins)) = Ok (fst <$> bins).
Proof.
  induction bins as [|x [|y bins] IH]; [done|done|].
  change (consecutive 300 (x :: y :: bins)) with (adjacent 300 x y && consecutive 300 (y :: bins)).
  intros [Hxy Hc]%andb_true_iff. specialize (IH Hc).
  change (CoverageEvidenceV1.check_bin_ends (Naive <$> (fst <$> x :: y :: bins)))
    with (ge ← Ok (y.1 <=? x.1);
          _ ← guard_exn (negb ge) (ValidationError "bin_ends must be strictly increasing");
          e ← Ok x.1; es ← CoverageEvidenceV1.check_bin_ends (Naive <$> (fst <$> y :: bins)); Ok (e :: es)).
  rewrite IH. unfold adjacent, seconds, usec in Hxy. apply Z.eqb_eq in Hxy.
  assert ((y.1 <=? x.1) = false) as -> by (apply Z.leb_gt; lia). done.
Qed.

Lemma consecutive_span x bins y : consecutive 300 (x :: bins) = true → last (x :: bins) = Some y → x.1 ≤ y.1.
Proof.
  revert x. induction bins as [|z bins IH]; intros x Hc Hl; [by simplify_eq/=|].
  change (adjacent 300 x z && consecutive 300 (z :: bins) = true) in Hc.
  apply andb_true_iff in Hc as [Hxz%Z.eqb_eq Hc]. specialize (IH z Hc Hl). unfold seconds, usec in Hxz. lia.
Qed.

Lemma full_counts bins : forallb (full 24) bins = true →
  forallb (λ cnt, 24 <=? cnt) ((λ b : bin, Z.of_nat (length b.2)) <$> bins) = true.
Proof.
  induction bins as [|x bins IH]; [done|]. simpl. unfold full at 1. rewrite !andb_true_iff.
  intros [Hx Hb]. auto.
Qed.

Lemma full_run_samples run : length run = 6%nat → full_run 24 300 run = true → buffer_samples run ≠ [].
Proof.
  intros Hlen [Hf _]%andb_true_iff. destruct run as [|[e ss] run]; [done|].
  simpl in Hf. apply andb_true_iff in Hf as [Hss _]. unfold full in Hss. simpl in Hss.
  unfold buffer_samples. simpl. destruct ss; [done|]. by intros [=].
Qed.

Lemma emit_window_ok now b run :
  length run = 6%nat → full_run 24 300 run = true → Forall shaped (buffer_samples run) → finite_stats run →
  replay_session_id b = session → machine_id b = machine → source_dataset_sha256 b = dataset_sha →
  contract_sha256 b = contract_sha → feature_names b = names → stride_seconds b = 300 →
  analog_cols b = DEFAULT_ANALOG_COLS → digital_cols b = digital_predictors PHASE1C →
  ∃ v, emit_window now b run = Ok v ∧
    ∀ split, ∃ w, create_window_from_buffer PHASE1C run split = Ok w ∧ agrees v w.
Proof.
  intros Hlen Hrun Hshape Hfin Hs Hm Hds Hcs Hn Hst Ha Hd.
  pose proof (full_run_samples _ Hlen Hrun) as Hne. apply andb_true_iff in Hrun as [Hfull Hcons].
  destruct (feature_values_ok _ names Hne Hshape Hknown) as (m & vals & all & Hv & Hall & Hm1 & Hm2).
  assert (CoverageEvidenceV1.make (observations_by_bin (buffer_coverage run))
    (Naive <$> bin_ends (buffer_coverage run)) =
    Ok (CoverageEvidenceV1.mk (observations_by_bin (buffer_coverage run)) (bin_ends (buffer_coverage run)))) as Hcov.
  { unfold CoverageEvidenceV1.make, buffer_coverage. cbn [bin_ends observations_by_bin].
    rewrite !length_fmap, Hlen, full_counts, check_bin_ends_ok by done. done. }
  assert (buffer_start 300 run < buffer_end run) as Hspan.
  { unfold buffer_start, buffer_end. destruct run as [|x run]; [done|].
    destruct (last (x :: run)) as [y|] eqn:Hl; [|by apply last_None in Hl].
    pose proof (consecutive_span _ _ _ Hcons Hl). simpl. unfold seconds, usec. lia. }
  assert (length names = length vals) as Hlv by (by eapply Forall2_length).
  unfold emit_window. rewrite Hst, Hn, Ha, Hd, Hv, Hcov, Hs, Hm, Hds, Hcs. cbn [mbind result_bind].
  unfold runtime_id. rewrite isoformat_seconds_nonempty.
  unfold FeatureVectorV1.make, guard_exn, Messages.field, require_naive, require_aware.
  rewrite Hdataset, Hcontract, Hmachine, (bool_decide_eq_false_2 (names = [])) by done.
  rewrite (bool_decide_eq_false_2 (vals = [])) by (intros ->; by destruct names).
  cbn [mbind result_bind negb andb nonempty]. rewrite (proj2 (Z.ltb_lt _ _) Hspan), Z.eqb_refl, (bool_decide_eq_true_2 _ Hlv), (bool_decide_eq_true_2 _ Hunique).
  rewrite (Hfin _ Hv). cbn [mbind result_bind guard_exn negb andb]. eexists. split; [reflexivity|].
  intros split. unfold create_window_from_buffer. change (Phase1BContract.analog_columns PHASE1C) with DEFAULT_ANALOG_COLS.
  rewrite Hall. cbn [mbind result_bind]. eexists. split; [reflexivity|]. split; try reflexivity. cbn.
  by eapply looked_up.
Qed.

(** ** The builder follows the runs *)
Abbreviation advance := (extend 24 300 6).
Abbreviation buffer_of := (foldl advance []).

Lemma six_pos : (1 ≤ 6)%nat.
Proof. lia. Qed.

Lemma buffer_of_spec bins : Buffered 24 300 6 bins (buffer_of bins).
Proof. exact (buffered PHASE1C ltac:(done) bins). Qed.

Lemma runs_snoc bins b :
  runs (bins ++ [b]) =
  runs bins ++ if (length (buffer_of (bins ++ [b])) =? 6)%nat then [buffer_of (bins ++ [b])] else [].
Proof. rewrite foldl_app. exact (full_runs_snoc _ _ _ six_pos _ _ _ (buffer_of_spec bins)). Qed.

Lemma runs_mono bins bins' run : run ∈ runs bins → run ∈ runs (bins ++ bins').
Proof.
  intros Hr. induction bins' as [|b bins' IH] using rev_ind; [by rewrite app_nil_r|].
  rewrite app_assoc, runs_snoc. apply elem_of_app. by left.
Qed.

(** The configuration never changes. *)
Record Configured (b : t) : Prop := mkConfigured {
  conf_session : replay_session_id b = session;
  conf_machine : machine_id b = machine;
  conf_dataset : source_dataset_sha256 b = dataset_sha;
  conf_contract : contract_sha256 b = contract_sha;
  conf_names : feature_names b = names;
  conf_stride : stride_seconds b = 300;
  conf_lookback : lookback_bins b = 6;
  conf_min : min_bin_observations b = 24;
  conf_analog : analog_cols b = DEFAULT_ANALOG_COLS;
  conf_digital : digital_cols b = digital_predictors PHASE1C
}.

Lemma fresh_configured : Configured fresh.
Proof. by split. Qed.

Definition emitted (run : list bin) (v : FeatureVectorV1.t) : Prop :=
  ∀ split, ∃ w, create_window_from_buffer PHASE1C run split = Ok w ∧ agrees v w.

Lemma close_bin_advance b e : Configured b → full 24 (e, current_bin_samples b) = true →
  close_bin b e = advance (valid_bin_buffer b) (e, current_bin_samples b).
Proof.
  intros Hc Hf. unfold close_bin, extend. rewrite Hf, (conf_stride _ Hc), (conf_lookback _ Hc).
  assert (∀ l : list bin, (6 <? Z.of_nat (length l)) = (6 <? length l)%nat) as Hcmp.
  { intros l. apply eq_true_iff_eq. rewrite Nat.ltb_lt, Z.ltb_lt. lia. }
  by destruct (last (valid_bin_buffer b)) as [[p x]|]; simpl; rewrite Hcmp.
Qed.

(** The buffer may be empty where the loop's is stale: the next bin resets both. *)
Definition same_buffer (buf buf' : list bin) (e : datetime) : Prop :=
  ∀ ys, advance buf (e, ys) = advance buf' (e, ys).

Lemma finalize_ok now b prev cur :
  Configured b → current_bin_end b = Some cur →
  same_buffer (valid_bin_buffer b) (buffer_of prev) cur →
  let bins := prev ++ [(cur, current_bin_samples b)] in
  Forall good (runs bins) →
  ∃ new out, finalize_current_bin now b = (Ok out, set_samples [] (set_buffer (buffer_of bins) b)) ∧
    runs bins = runs prev ++ new ∧ Forall2 emitted new out ∧ Forall (λ run, buffer_end run = cur) new.
Proof.
  intros Hc Hcur Hsame bins Hgood. pose proof (runs_snoc prev (cur, current_bin_samples b)) as Hruns.
  fold bins in Hruns. assert (buffer_of bins = advance (valid_bin_buffer b) (cur, current_bin_samples b)) as Hbuf.
  { unfold bins. rewrite foldl_app. symmetry. apply Hsame. }
  unfold finalize_current_bin. rewrite Hcur, (conf_min _ Hc).
  change (24 <=? Z.of_nat (length (current_bin_samples b))) with (full 24 (cur, current_bin_samples b)).
  destruct (full 24 (cur, current_bin_samples b)) eqn:Hf.
  2:{ assert (buffer_of bins = []) as Hnil by (rewrite Hbuf; unfold extend; by rewrite Hf).
      exists [], []. rewrite Hruns, Hnil. by split_and!. }
  rewrite (close_bin_advance b cur Hc Hf), <-Hbuf. cbv zeta. clear Hsame.
  change (valid_bin_buffer (set_buffer (buffer_of bins) b)) with (buffer_of bins).
  change (lookback_bins (set_buffer (buffer_of bins) b)) with (lookback_bins b). rewrite (conf_lookback _ Hc).
  assert ((Z.of_nat (length (buffer_of bins)) =? 6) = (length (buffer_of bins) =? 6)%nat) as ->.
  { apply eq_true_iff_eq. rewrite Nat.eqb_eq, Z.eqb_eq. lia. }
  destruct (length (buffer_of bins) =? 6)%nat eqn:Hlen; [|by exists [], []; rewrite Hruns; split_and!].
  rewrite Hruns, Forall_app, Forall_singleton in Hgood. destruct Hgood as [_ [Hfin Hshape]].
  destruct (emit_window_ok now (set_buffer (buffer_of bins) b) (buffer_of bins)) as (v & -> & Hv);
    try (destruct Hc; assumption); [by apply Nat.eqb_eq|apply (buffered_run _ _ _ _ _ (buffer_of_spec bins))|].
  exists [buffer_of bins], [v]. rewrite Hruns. split_and!; [done..|by repeat constructor|].
  constructor; [|constructor]. destruct (buffered_suffix _ _ _ _ _ (buffer_of_spec bins)) as [pre Hpre].
  unfold buffer_end. apply (f_equal last) in Hpre. unfold bins at 1 in Hpre. rewrite last_snoc, last_app in Hpre.
  destruct (last (buffer_of bins)) as [x|] eqn:Hl; [by simplify_eq|]. apply last_None in Hl. by rewrite Hl in Hlen.
Qed.

(** The state after some events, and the vectors emitted so far. *)
Abbreviation samples_of evs := (sample_of <$> evs).
Abbreviation ends bins := (fst <$> bins).
Definition kept (bins : list bin) (run : list bin) : bool := negb (gap_after (ends bins) (buffer_end run)).

Definition Holds (bins : list bin) (bin_end : option datetime) (samples : list sample) (buf : list bin)
    (vs : list FeatureVectorV1.t) : Prop :=
  ∃ prev cur, bins = prev ++ [(cur, samples)] ∧ bin_end = Some cur ∧
    same_buffer buf (buffer_of prev) cur ∧ Forall2 emitted (filter (kept bins) (runs prev)) vs.

Record Follows (evs : list TelemetryEventV1.t) (b : t) (vs : list FeatureVectorV1.t) : Prop := mkFollows {
  follows_conf : Configured b;
  follows_sequence : last_sequence b = TelemetryEventV1.sequence <$> last evs;
  follows_timestamp : last_timestamp b = TelemetryEventV1.source_timestamp <$> last evs;
  follows_bins :
    (evs = [] ∧ current_bin_end b = None ∧ current_bin_samples b = [] ∧ valid_bin_buffer b = [] ∧ vs = []) ∨
    Holds (bins_of (samples_of evs)) (current_bin_end b) (current_bin_samples b) (valid_bin_buffer b) vs
}.

Definition numbered (evs : list TelemetryEventV1.t) : Prop :=
  ∀ i x y, evs !! i = Some x → evs !! S i = Some y →
    TelemetryEventV1.sequence y = TelemetryEventV1.sequence x + 1.

Lemma follows_fresh : Follows [] fresh [].
Proof. split; [apply fresh_configured|done|done|]. by left. Qed.

Lemma check_sequence_ok evs e b vs hash :
  Follows evs b vs → numbered (evs ++ [e]) → in_time_order (samples_of (evs ++ [e])) →
  check_sequence_and_ordering e hash b = (Ok (false, None), b).
Proof.
  intros [_ Hseq Hts _] Hnum Hord. unfold check_sequence_and_ordering. rewrite Hseq, Hts.
  destruct evs as [|x evs _] using rev_ind; [done|]. rewrite last_snoc. simpl.
  assert (TelemetryEventV1.sequence e = TelemetryEventV1.sequence x + 1) as ->.
  { apply (Hnum (length evs)); rewrite <-app_assoc.
    - by rewrite lookup_app_r, Nat.sub_diag by lia.
    - rewrite lookup_app_r by lia. by replace (S (length evs) - length evs)%nat with 1%nat by lia. }
  rewrite Z.eqb_refl, bool_decide_eq_false_2 by (intros [=]; lia). simpl.
  rewrite fmap_app in Hord. apply in_time_order_snoc in Hord as [_ Hle].
  specialize (Hle (sample_of x)). simpl in Hle.
  rewrite (proj2 (Z.ltb_ge _ _)); [done|]. apply Hle. rewrite fmap_app. set_solver.
Qed.

Lemma runs_end bins run : run ∈ runs bins → ∃ b, b ∈ bins ∧ buffer_end run = b.1.
Proof.
  intros Hr. pose proof (full_runs_length _ _ _ six_pos _ _ Hr) as [Hlen _].
  apply list_elem_of_filter in Hr as [_ Hr]. apply list_elem_of_fmap in Hr as (i & -> & _).
  unfold buffer_end. destruct (last (take 6 (drop i bins))) as [b|] eqn:Hl.
  - exists b. split; [|done]. apply last_Some_elem_of, elem_of_take in Hl as (j & Hj & _).
    rewrite lookup_drop in Hj. by eapply list_elem_of_lookup_2.
  - apply last_None in Hl. by rewrite Hl in Hlen.
Qed.

Lemma filter_ext_in {A} (P Q : A → bool) (l : list A) : (∀ x, x ∈ l → P x = Q x) → filter P l = filter Q l.
Proof.
  intros HPQ. induction l as [|x l IH]; [done|]. rewrite !filter_cons.
  rewrite (HPQ x) by set_solver. rewrite IH by set_solver. done.
Qed.

(** The gaps after the older runs do not change. *)
Lemma kept_older prev cur more : StronglySorted Z.lt (ends prev ++ cur :: more) →
  filter (λ run, negb (gap_after (ends prev ++ cur :: more) (buffer_end run))) (runs prev) =
  filter (λ run, negb (gap_after (ends prev ++ [cur]) (buffer_end run))) (runs prev).
Proof.
  intros Hs. apply filter_ext_in. intros run (b & Hb & ->)%runs_end.
  change (ends prev ++ cur :: more) with (ends prev ++ [cur] ++ more). rewrite app_assoc, gap_after_app; [done|].
  apply Exists_exists. exists cur. split; [set_solver|].
  apply StronglySorted_app in Hs as (Hs & _). apply Hs; [by apply list_elem_of_fmap_2|set_solver].
Qed.

(** A reset buffer and a stale one agree on a bin after a gap. *)
Lemma reset_same_buffer (bins : list bin) (b : bin) (e : datetime) : b.1 + seconds 300 < e → same_buffer [] (buffer_of (bins ++ [b])) e.
Proof.
  intros He ys. destruct (buffered_suffix _ _ _ _ _ (buffer_of_spec (bins ++ [b]))) as [pre Hpre].
  generalize dependent (buffer_of (bins ++ [b])). intros buf Hpre.
  unfold extend. destruct (full 24 (e, ys)); [|done]. simpl (last []).
  destruct (last buf) as [x|] eqn:Hl.
  - apply (f_equal last) in Hpre. rewrite last_snoc, last_app, Hl in Hpre. injection Hpre as ->.
    assert (adjacent 300 x (e, ys) = false) as ->; [|done]. apply Z.eqb_neq. simpl. lia.
  - apply last_None in Hl. by rewrite Hl.
Qed.

Lemma sorted_before (bins : list bin) (b : bin) (e : datetime) : StronglySorted Z.lt (ends (bins ++ [b])) → e ∈ ends bins → e < b.1.
Proof.
  rewrite fmap_app. intros (Hs & _)%StronglySorted_app He. apply Hs; [done|]. by apply list_elem_of_singleton.
Qed.

Lemma ends_upto (bins : list bin) (b : bin) : StronglySorted Z.lt (ends (bins ++ [b])) → Forall (λ x, x ≤ b.1) (ends (bins ++ [b])).
Proof.
  intros Hs. apply Forall_forall. intros x Hx. rewrite fmap_app in Hx.
  apply elem_of_app in Hx as [Hx| ->%list_elem_of_singleton]; [|done].
  pose proof (sorted_before _ _ _ Hs Hx). lia.
Qed.

Lemma boundary_ok evs b vs now e :
  Follows evs b vs → in_time_order (samples_of (evs ++ [e])) →
  Forall good (runs (removelast (bins_of (samples_of (evs ++ [e]))))) →
  ∃ out reason b', check_bin_boundary now (bin_end_of (sample_of e)) None b = (Ok (out, reason), b') ∧
    Configured b' ∧
    Holds (bins_of (samples_of (evs ++ [e]))) (current_bin_end b') (current_bin_samples b' ++ [sample_of e])
      (valid_bin_buffer b') (vs ++ out).
Proof.
  intros [Hc _ _ Hbins] Hord Hgood. rewrite fmap_app in Hord, Hgood |- *. cbn [fmap list_fmap] in *.
  pose proof (bins_of_sorted _ Hord) as Hsort. unfold check_bin_boundary.
  destruct (bins_of_next _ _ Hord) as [[Hnil ->]|(bs & e0 & x & Hb & Hnext)].
  { destruct Hbins as [(_ & -> & Hs & Hbuf & ->)|(prev & cur & Hb & _)]; [|rewrite Hnil in Hb; by destruct prev].
    eexists [], _, _. split; [reflexivity|]. split; [by destruct Hc; split|]. exists [], (bin_end_of (sample_of e)).
    simpl. rewrite Hs, Hbuf. split_and!; [done..|]. constructor. }
  destruct Hbins as [(-> & _)|(prev & cur & Hb' & Hcur & Hsame & Hvs)]; [by destruct bs|].
  rewrite Hb in Hb'. apply app_inj_tail in Hb' as [<- [= <- ->]]. rewrite Hcur.
  destruct Hnext as [[Heq Hb2]|[Hlt Hb2]]; rewrite Hb2 in *.
  - rewrite Heq, Z.eqb_refl. eexists [], _, b. split; [reflexivity|]. split; [done|].
    exists bs, e0. rewrite app_nil_r. split_and!; [done..|].
    assert (kept (bs ++ [(e0, current_bin_samples b ++ [sample_of e])]) = kept (bins_of (samples_of evs))) as ->; [|done].
    unfold kept. rewrite Hb, !fmap_app. done.
  - rewrite (proj2 (Z.eqb_neq _ _)), (proj2 (Z.ltb_ge _ _)) by lia.
    rewrite removelast_last in Hgood.
    destruct (finalize_ok now b bs e0 Hc Hcur Hsame Hgood) as (new & out & -> & Hruns & Hout & Hends).
    set (b' := set_samples [] _). assert (Configured b') as Hc' by (by destruct Hc; split).
    cbv beta iota. rewrite (conf_stride _ Hc'). set (s := sample_of e) in *.
    assert (Forall2 emitted (filter (kept (bs ++ [(e0, current_bin_samples b)] ++ [(bin_end_of s, [s])])) (runs bs)) vs)
      as Hold.
    { rewrite Hb in Hvs. unfold kept in Hvs |- *. rewrite !fmap_app in Hvs |- *. cbn [fmap list_fmap app fst] in Hvs |- *.
      rewrite kept_older; [done|]. rewrite <-app_assoc, !fmap_app in Hsort. exact Hsort. }
    assert (Forall (λ run, kept ((bs ++ [(e0, current_bin_samples b)]) ++ [(bin_end_of s, [s])]) run
      = negb (seconds 300 <? bin_end_of s - e0)) new) as Hnew.
    { eapply Forall_impl; [exact Hends|]. intros run Hr. cbv beta in Hr. unfold kept. rewrite Hr, fmap_app. cbn [fmap list_fmap fst].
      rewrite gap_after_last; [done| |done]. apply (ends_upto bs (e0, current_bin_samples b)).
      rewrite fmap_app in Hsort. by apply StronglySorted_app in Hsort as (_ & Hsort & _). }
    rewrite Forall_forall in Hnew. rewrite app_assoc in Hold. destruct (Z.ltb_spec (seconds 300) (bin_end_of s - e0)) as [Hgap|Hgap].
    + eexists [], _, _. split; [reflexivity|]. split; [by destruct Hc; split|]. exists (bs ++ [(e0, current_bin_samples b)]), (bin_end_of s).
      split_and!; [done|done|apply reset_same_buffer; cbn [fst]; lia|].
      rewrite Hruns, filter_app. apply Forall2_app; [done|].
      rewrite filter_false; [constructor|]. apply Forall_forall. intros run Hr. rewrite Hnew by done. by intros [].
    + eexists out, _, _. split; [reflexivity|]. split; [by destruct Hc; split|]. exists (bs ++ [(e0, current_bin_samples b)]), (bin_end_of s).
      split_and!; [done|done|by intros ys|].
      rewrite Hruns, filter_app. apply Forall2_app; [done|].
      rewrite filter_true; [done|]. apply Forall_forall. intros run Hr. by rewrite Hnew.
Qed.

Lemma push_ok evs b vs now e :
  Follows evs b vs → numbered (evs ++ [e]) → in_time_order (samples_of (evs ++ [e])) →
  Forall good (runs (removelast (bins_of (samples_of (evs ++ [e]))))) →
  ∃ r b', push now e b = (Ok r, b') ∧ Follows (evs ++ [e]) b' (vs ++ features r).
Proof.
  intros HF Hnum Hord Hgood. unfold push. cbv zeta. rewrite M_bind_run.
  erewrite check_sequence_ok by done. cbn [fst snd].
  destruct (boundary_ok _ _ _ now _ HF Hord Hgood) as (out & reason & b' & Hbd & Hc & Hh).
  change (compute_bin_end (TelemetryEventV1.source_timestamp e)) with (bin_end_of (sample_of e)).
  rewrite M_bind_run, Hbd, M_bind_run. unfold get_st, lift_res, modify. rewrite M_bind_run.
  rewrite (conf_analog _ Hc), (conf_digital _ Hc), extract_sample_of, M_bind_run.
  eexists _, _. split; [reflexivity|]. cbn [features].
  split; [by destruct Hc; split| | |right; exact Hh]; by rewrite last_snoc.
Qed.

(** The events of a session in turn, each with what the clock shows. *)
Fixpoint drive (evs : list (aware * TelemetryEventV1.t)) : M t (list FeatureVectorV1.t) :=
  match evs with
  | [] => mret []
  | (now, e) :: evs => r ← push now e; vs ← drive evs; mret (features r ++ vs)
  end.

Lemma numbered_prefix l1 l2 : numbered (l1 ++ l2) → numbered l1.
Proof. intros H12 i x y Hx Hy. by apply (H12 i); apply lookup_app_l_Some. Qed.

Lemma in_time_order_prefix (l1 l2 : list sample) : in_time_order (l1 ++ l2) → in_time_order l1.
Proof. unfold in_time_order. rewrite fmap_app. by intros (_ & Hs & _)%StronglySorted_app. Qed.

Lemma drive_ok evs : ∀ done b vs0,
  Follows done b vs0 → numbered (done ++ evs.*2) → in_time_order (samples_of (done ++ evs.*2)) →
  Forall good (runs (bins_of (samples_of (done ++ evs.*2)))) →
  ∃ vs b', drive evs b = (Ok vs, b') ∧ Follows (done ++ evs.*2) b' (vs0 ++ vs).
Proof.
  induction evs as [|[now e] evs IH]; intros done b vs0 HF Hnum Hord Hgood; simpl.
  { exists [], b. by rewrite !app_nil_r. }
  cbn [fmap list_fmap snd] in Hnum, Hord, Hgood.
  rewrite cons_middle, app_assoc in Hnum, Hord, Hgood |- *.
  destruct (push_ok done b vs0 now e) as (r & b1 & Hpush & HF1); [done| | | |].
  - by eapply numbered_prefix.
  - rewrite fmap_app in Hord. by eapply in_time_order_prefix.
  - rewrite (fmap_app _ (done ++ [e])) in Hgood.
    destruct (bins_of_prefix (samples_of (done ++ [e])) (samples_of evs.*2)) as [more Hmore];
      [by destruct done|]. rewrite Hmore in Hgood. eapply Forall_forall. intros run Hr.
    rewrite Forall_forall in Hgood. apply Hgood, runs_mono, Hr.
  - destruct (IH (done ++ [e]) b1 (vs0 ++ features r)) as (vs & b2 & Hd & HF2); [done..|].
    exists (features r ++ vs), b2. rewrite M_bind_run, Hpush, M_bind_run, Hd. by rewrite app_assoc.
Qed.

Lemma builder_complete_ok evs b vs now finish :
  Follows evs b vs → Forall (λ e, TelemetryEventV1.source_timestamp e ≤ finish) evs →
  in_time_order (samples_of evs) → Forall good (runs (bins_of (samples_of evs))) →
  ∃ out b', complete now finish b = (Ok (mkResult out None), b') ∧ is_complete b' = true ∧
    Forall2 emitted (filter (kept (bins_of (samples_of evs))) (runs (bins_of (samples_of evs)))) (vs ++ out).
Proof.
  intros [Hc Hseq Hts Hbins] Hfin Hord Hgood. unfold complete. rewrite M_bind_run. unfold get_st, lift_res.
  rewrite M_bind_run, Hts.
  match goal with |- context [negb ?late] => assert (late = false) as -> end.
  { destruct evs as [|e evs _] using rev_ind; [done|]. rewrite last_snoc. simpl. apply Z.ltb_ge.
    rewrite Forall_app in Hfin. destruct Hfin as [_ Hfin]. by apply Forall_inv in Hfin. }
  cbn [negb guard_exn]. rewrite M_bind_run.
  destruct Hbins as [(-> & Hcur & _ & _ & ->)|(prev & cur & Hb & Hcur & Hsame & Hvs)].
  { unfold finalize_current_bin. rewrite Hcur. eexists [], _. split; [reflexivity|]. split; [done|constructor]. }
  pose proof (bins_of_sorted _ Hord) as Hsort. rewrite Hb in *.
  destruct (finalize_ok now b prev cur Hc Hcur Hsame Hgood) as (new & out & -> & Hruns & Hout & Hends).
  eexists out, _. split; [reflexivity|]. split; [done|]. rewrite Hruns, filter_app. apply Forall2_app; [done|].
  rewrite filter_true; [done|]. eapply Forall_impl; [exact Hends|]. intros run Hr. cbv beta in Hr.
  unfold kept. rewrite Hr, gap_after_none; [done|]. exact (ends_upto _ _ Hsort).
Qed.
End Emission.
