(* ===== verification/OnlineProps.v ===== *)
(** * Feature windows, offline and online: the properties *)

From S2P Require Import Prelude PyText PyUuid PyTime PyFloat PyHash PyJson.
From S2P Require Import Contracts Messages KafkaIo Features FeatureTheory.
From S2P Require Import OnlineFeatures OnlineTheory.

(** ** Lemmas *)
Lemma Forall2_filter {A B} (R : A → B → Prop) (P : A → Prop) (Q : B → Prop)
    `{∀ x, Decision (P x)} `{∀ y, Decision (Q y)} l k :
  (∀ x y, x ∈ l → R x y → P x ↔ Q y) → Forall2 R l k → Forall2 R (filter P l) (filter Q k).
Proof.
  intros HPQ HF. induction HF as [|x y l k Hxy _ IH]; [constructor|]. rewrite !filter_cons.
  assert (P x ↔ Q y) as Hiff by (apply HPQ; [left|done]).
  assert (∀ x y, x ∈ l → R x y → P x ↔ Q y) as Hrest by (intros; apply HPQ; [by right|done]).
  do 2 case_decide; [constructor; auto|tauto|tauto|auto].
Qed.

Lemma Forall2_meet {A B C} (R : A → B → Prop) (S : A → C → Prop) (T : B → C → Prop) l bs cs :
  (∀ x y z, R x y → S x z → T y z) → Forall2 R l bs → Forall2 S l cs → Forall2 T bs cs.
Proof.
  intros HT HR. revert cs. induction HR as [|x y l bs Hxy _ IH]; inversion 1; subst; constructor; eauto.
Qed.

Lemma iter_windows_of_bins `{Numpy} contract samples :
  1 ≤ Phase1BContract.lookback_bins contract →
  iter_windows_with_stats contract samples =
  windows_of_bins contract (sorted_bins (group_samples_into_bins samples)).
Proof.
  intros Hlook. unfold iter_windows_with_stats. case_bool_decide as Hnil.
  { subst samples. unfold sorted_bins, group_samples_into_bins. simpl. rewrite map_to_list_empty.
    unfold windows_of_bins, full_runs, factors.
    by destruct (Z.to_nat (Phase1BContract.lookback_bins contract)) eqn:?; [lia|]. }
  rewrite (foldR_bin_step contract Hlook). by destruct (windows_of_bins contract _) as [[[ws i] c]|].
Qed.

Lemma create_bounds `{Numpy} run split w :
  create_window_from_buffer PHASE1C run split = Ok w →
  Phase1BWindow.window_start w = buffer_start 300 run ∧ Phase1BWindow.window_end w = buffer_end run.
Proof. unfold create_window_from_buffer. intros Hw. inv_res. done. Qed.

(** A vector inside a split, and a window not followed by a gap. *)
Definition inside (v : FeatureVectorV1.t) : Prop :=
  is_Some (matched_split PHASE1C (FeatureVectorV1.window_start v) (FeatureVectorV1.window_end v)).
#[export] Instance inside_dec v : Decision (inside v).
Proof. unfold inside. apply _. Defined.
Definition contiguous (samples : list sample) (w : Phase1BWindow.t) : Prop :=
  gap_after (fst <$> bins_of samples) (Phase1BWindow.window_end w) = false.
#[export] Instance contiguous_dec samples w : Decision (contiguous samples w).
Proof. unfold contiguous. apply _. Defined.

(** The builder fed a whole session. *)
Definition online_vectors `{Numpy} (evs : list (aware * TelemetryEventV1.t)) (now : aware) (finish : datetime)
  : M OnlineFeatureBuilder.t (list FeatureVectorV1.t) :=
  vs ← drive evs; r ← OnlineFeatureBuilder.complete now finish; mret (vs ++ features r).

(** ** A recording: seven full bins, then a gap of ten minutes *)
Module Recording.

#[export] Instance numpy : Numpy :=
  {| np_mean := λ l, fdiv (foldl fadd f0 l) (float_of_Z (Z.of_nat (length l)));
     np_std := λ l, fsub (default f0 (last l)) (default f0 (last l));
     np_min := λ l, foldl (λ m x, if fltb x m then x else m) (default f0 (head l)) l;
     np_max := λ l, foldl (λ m x, if fltb m x then x else m) (default f0 (head l)) l |}.

Definition digest : string := text (replicate 64 "a"%char).
Definition start : datetime := datetime_of 2020 2 3 6 0 0 0.
Definition time (i : nat) : datetime :=
  start + 12500000 * (Z.of_nat i + 1) + if (i <? 168)%nat then 0 else minutes 10.
Definition event (i : nat) : TelemetryEventV1.t :=
  TelemetryEventV1.mk (UUID_of_bits (Z.of_nat i)) (UUID_of_bits 1) digest digest (time i)
    (mkAware (time i) 0) "compressor" (Z.of_nat i)
    (float_of_Z (Z.of_nat i)) f1 f1 f0 f1 f1 f0 1 0 0 1 0 0 1 0.
Definition clocked (n : nat) : list (aware * TelemetryEventV1.t) :=
  (λ i, (mkAware (time i) 0, event i)) <$> seq 0 n.
Definition names : list string := ["tp2_last"; "tp2_delta"; "comp_active_ratio"]%string.

Lemma clocked_events n : (clocked n).*2 = event <$> seq 0 n.
Proof. unfold clocked. by rewrite <-list_fmap_compose. Qed.

Lemma clocked_numbered n : numbered (clocked n).*2.
Proof.
  rewrite clocked_events. intros i x y Hx Hy. rewrite list_lookup_fmap in Hx, Hy.
  apply fmap_Some in Hx as (j & [-> _]%lookup_seq & ->). apply fmap_Some in Hy as (k & [-> _]%lookup_seq & ->).
  simpl. lia.
Qed.

Lemma time_mono i j : (i ≤ j)%nat → time i ≤ time j.
Proof.
  intros Hij. unfold time, minutes, usec. destruct (Nat.ltb_spec i 168), (Nat.ltb_spec j 168); lia.
Qed.

Lemma clocked_ordered n : in_time_order (sample_of <$> (clocked n).*2).
Proof.
  unfold in_time_order. rewrite clocked_events, <-!list_fmap_compose.
  change (StronglySorted Z.le (time <$> seq 0 n)). generalize 0%nat.
  induction n as [|n IH]; intros i; simpl; constructor; [apply IH|].
  apply Forall_fmap, Forall_forall. intros j [Hj _]%elem_of_seq. apply time_mono. lia.
Qed.

Lemma clocked_before n t : time n ≤ t → Forall (λ e, TelemetryEventV1.source_timestamp e ≤ t) (clocked n).*2.
Proof.
  intros Ht. rewrite clocked_events. apply Forall_fmap, Forall_forall. intros j [_ Hj]%elem_of_seq. simpl.
  pose proof (time_mono j n). lia.
Qed.

Definition finite_run (run : list bin) : bool :=
  match compute_feature_values (buffer_samples run) names DEFAULT_ANALOG_COLS (digital_predictors PHASE1C) with
  | Ok vals => forallb is_finite vals
  | Err _ => false
  end.

Lemma finite_runs runs : forallb finite_run runs = true → Forall (finite_stats names) runs.
Proof.
  intros Hr. apply Forall_forall. intros run Hin vals Hv.
  rewrite forallb_forall in Hr. specialize (Hr run (proj1 (list_elem_of_In _ _) Hin)).
  unfold finite_run in Hr. by rewrite Hv in Hr.
Qed.

(** The runs: two, and the second is followed by the gap. *)
Example recording_runs :
  (λ run, (buffer_end run - start, gap_after (fst <$> bins_of (sample_of <$> (clocked 169).*2)) (buffer_end run)))
    <$> full_runs 24 300 6 (bins_of (sample_of <$> (clocked 169).*2)) =
  [(minutes 30, false); (minutes 35, true)].
Proof. vm_compute. reflexivity. Qed.

End Recording.

(** ** Properties *)

(** C26. The offline generator of windows makes, for every recording and every
    contract, one window of each run of [lookback_bins] adjacent bins that are all full and a stride apart and that
    lies in one split, in time order; it counts the sparse bins and the runs in
    no split, and it raises exactly when the statistics of one of them do. *)
Theorem offline_windows_are_runs `{Numpy} (contract : Phase1BContract.t) (samples : list sample)
    (Hlook : 1 ≤ Phase1BContract.lookback_bins contract) :
  let bins := sorted_bins (group_samples_into_bins samples) in
  let runs := full_runs (Phase1BContract.min_bin_observations contract)
                (Phase1BContract.stride_seconds contract)
                (Z.to_nat (Phase1BContract.lookback_bins contract)) bins in
  iter_windows_with_stats contract samples =
  ws ← mapR (λ run, create_window_from_buffer contract run (default ""%string (fst <$> placed contract run)))
         (filter (λ run, is_Some (placed contract run)) runs);
  Ok (ws,
      Z.of_nat (length (filter (λ b : bin, Z.of_nat (length b.2) < Phase1BContract.min_bin_observations contract) bins)),
      Z.of_nat (length (filter (λ run, placed contract run = None) runs))).
Proof.
  intros bins runs. rewrite iter_windows_of_bins by done. unfold windows_of_bins. fold bins. fold runs.
  rewrite (list_filter_iff (λ b, full (Phase1BContract.min_bin_observations contract) b = false)
    (λ b : bin, Z.of_nat (length b.2) < Phase1BContract.min_bin_observations contract)); [done|].
  intros b. unfold full. apply Z.leb_gt.
Qed.

(** C6. Online and offline feature parity.  A builder with the default windows
    that is fed the events of a session in sequence and in time order, and then
    completed, raises nothing, and its feature vectors inside a split are, in
    order, the windows the offline generator makes of the same samples: same
    bounds, same coverage, same values of the features asked for; except the
    windows followed by a gap, which the builder drops. *)
Theorem online_offline_parity `{Numpy} session machine dataset_sha contract_sha names
    (evs : list (aware * TelemetryEventV1.t)) (now : aware) (finish : datetime)
    (Hdataset : is_hex64 dataset_sha = true) (Hcontract : is_hex64 contract_sha = true)
    (Hmachine : str_len 1 128 machine = true) (Hnames : names ≠ []) (Hunique : NoDup names)
    (Hknown : Forall (λ name, name ∈ candidate_names PHASE1C) names)
    (Hnumbered : numbered evs.*2) (Horder : in_time_order (sample_of <$> evs.*2))
    (Hfinish : Forall (λ e, TelemetryEventV1.source_timestamp e ≤ finish) evs.*2)
    (Hfinite : Forall (finite_stats names) (full_runs 24 300 6 (bins_of (sample_of <$> evs.*2)))) :
  ∃ vs b ws,
    online_vectors evs now finish
      (OnlineFeatureBuilder.make session machine dataset_sha contract_sha names) = (Ok vs, b) ∧
    OnlineFeatureBuilder.is_complete b = true ∧
    iter_phase1b_windows PHASE1C (sample_of <$> evs.*2) = Ok ws ∧
    Forall2 (agrees names) (filter inside vs) (filter (contiguous (sample_of <$> evs.*2)) ws).
Proof.
  set (ss := sample_of <$> evs.*2) in *. set (runs := full_runs 24 300 6 (bins_of ss)) in *.
  assert (Forall (good names) runs) as Hgood.
  { eapply Forall_forall. intros run Hr. split; [by eapply Forall_forall in Hfinite|].
    apply Forall_forall. intros s Hs. destruct (run_samples _ _ _ _ _ _ Hr Hs) as (b & Hb & Hsb).
    pose proof (bins_of_elem _ _ _ Hb Hsb) as Hin. apply list_elem_of_fmap in Hin as (e & -> & _).
    apply sample_of_shaped. }
  destruct (drive_ok session machine dataset_sha contract_sha names Hdataset Hcontract Hmachine Hnames
    Hunique Hknown evs [] _ [] (follows_fresh _ _ _ _ _)) as (vs1 & b1 & Hdrive & HF); [done..|].
  destruct (builder_complete_ok session machine dataset_sha contract_sha names Hdataset Hcontract Hmachine Hnames
    Hunique Hknown _ _ _ now finish HF) as (out & b2 & Hdone & Hcomplete & Hvs); [done..|].
  change ([] ++ evs.*2) with evs.*2 in Hvs. change ([] ++ vs1) with vs1 in Hvs. fold ss runs in Hvs.
  assert (∀ run split, run ∈ runs → ∃ w, create_window_from_buffer PHASE1C run split = Ok w) as Hcreate.
  { intros run split Hr. destruct (full_runs_length _ _ _ six_pos _ _ Hr) as [Hl Hrun].
    eapply Forall_forall in Hgood as [Hfin Hsh]; [|exact Hr].
    destruct (emit_window_ok session machine dataset_sha contract_sha names Hdataset Hcontract Hmachine Hnames
      Hunique Hknown now (OnlineFeatureBuilder.make session machine dataset_sha contract_sha names) run)
      as (v & _ & Hw); try done. destruct (Hw split) as (w & Hw' & _). by exists w. }
  assert (∃ ws, mapR (λ run, create_window_from_buffer PHASE1C run (default ""%string (fst <$> placed PHASE1C run)))
    (filter (λ run, is_Some (placed PHASE1C run)) runs) = Ok ws) as [ws Hws].
  { apply mapR_total. apply Forall_forall. intros run [_ Hr]%list_elem_of_filter. by apply Hcreate. }
  exists (vs1 ++ out), b2, ws. split_and!; [|done| |].
  - unfold online_vectors. rewrite M_bind_run, Hdrive, M_bind_run, Hdone. done.
  - unfold iter_phase1b_windows. rewrite iter_windows_of_bins, sorted_bins_of by done.
    unfold windows_of_bins. change (full_runs _ _ _ (bins_of ss)) with runs. by rewrite Hws.
  - apply mapR_Forall2 in Hws.
    apply (Forall2_filter _ (kept (bins_of ss)) (contiguous ss)) in Hws.
    2:{ intros run w _ Hw. destruct (create_bounds _ _ _ Hw) as [_ He]. unfold kept, contiguous.
        rewrite He. by destruct (gap_after _ _). }
    apply (Forall2_filter _ (λ run, is_Some (placed PHASE1C run)) inside) in Hvs.
    2:{ intros run v _ Hv. destruct (Hv ""%string) as (w & Hw & Ha). destruct (create_bounds _ _ _ Hw) as [Hs He].
        unfold inside. rewrite (agrees_start _ _ _ Ha), (agrees_end _ _ _ Ha), Hs, He. done. }
    rewrite list_filter_filter in Hws, Hvs.
    rewrite (list_filter_iff _ (λ run, is_Some (placed PHASE1C run) ∧ kept (bins_of ss) run)) in Hws by tauto.
    eapply Forall2_meet; [|exact Hvs|exact Hws]. intros run v w Hv Hw.
    destruct (Hv (default ""%string (fst <$> placed PHASE1C run))) as (w' & Hw' & Ha). cbv beta in Hw. congruence.
Qed.

(** ** Witnesses *)
#[local] Existing Instance Recording.numpy.

Lemma offline_windows_are_runs_witness :
  1 ≤ Phase1BContract.lookback_bins PHASE1C ∧
  (let samples := sample_of <$> (Recording.clocked 169).*2 in
   let bins := sorted_bins (group_samples_into_bins samples) in
   let runs := full_runs (Phase1BContract.min_bin_observations PHASE1C)
                 (Phase1BContract.stride_seconds PHASE1C)
                 (Z.to_nat (Phase1BContract.lookback_bins PHASE1C)) bins in
   iter_windows_with_stats PHASE1C samples =
   ws ← mapR (λ run, create_window_from_buffer PHASE1C run (default ""%string (fst <$> placed PHASE1C run)))
          (filter (λ run, is_Some (placed PHASE1C run)) runs);
   Ok (ws,
       Z.of_nat (length (filter (λ b : bin, Z.of_nat (length b.2) < Phase1BContract.min_bin_observations PHASE1C) bins)),
       Z.of_nat (length (filter (λ run, placed PHASE1C run = None) runs)))).
Proof.
  split; [by vm_compute|]. apply (offline_windows_are_runs PHASE1C (sample_of <$> (Recording.clocked 169).*2)).
  by vm_compute.
Defined.

Lemma online_offline_parity_witness : ∃ vs b ws,
    online_vectors (Recording.clocked 169) (mkAware (Recording.time 169) 0) (Recording.time 169)
      (OnlineFeatureBuilder.make (UUID_of_bits 1) "compressor" Recording.digest Recording.digest Recording.names)
      = (Ok vs, b) ∧
    OnlineFeatureBuilder.is_complete b = true ∧
    iter_phase1b_windows PHASE1C (sample_of <$> (Recording.clocked 169).*2) = Ok ws ∧
    Forall2 (agrees Recording.names) (filter inside vs)
      (filter (contiguous (sample_of <$> (Recording.clocked 169).*2)) ws).
Proof.
  apply (online_offline_parity (UUID_of_bits 1) "compressor" Recording.digest Recording.digest Recording.names).
  - by vm_compute.
  - by vm_compute.
  - by vm_compute.
  - done.
  - apply (bool_decide_unpack _). by vm_compute.
  - apply (bool_decide_unpack _). by vm_compute.
  - apply Recording.clocked_numbered.
  - apply Recording.clocked_ordered.
  - by apply Recording.clocked_before.
  - apply Recording.finite_runs. by vm_compute.
Defined.
