(* ===== verification/Scoring.v ===== *)
(** * The scoring client ([scoring_client.py])

    One request to the scoring service, with bounded retries.  The HTTP
    transport, the JSON of a request and pydantic's validation of a response are
    parameters; the n-th [post] of the client, of [body], has the outcome
    [transport n body]. *)

From S2P Require Import Prelude PyText PyUuid PyTime PyFloat PyHash Messages.

Record HttpResponse := mkResponse { status_code : Z; content : bytes }.

(** What [self.client.post] does: answer, raise [httpx.TimeoutException] or
    [httpx.NetworkError], or raise something else. *)
Inductive HttpOutcome :=
| Responded (r : HttpResponse)
| TimedOut
| Disconnected
| Raised (e : exn).

Record RetryPolicy := mkRetryPolicy { attempts : Z; delays_seconds : list float }.
Definition default_policy : RetryPolicy := mkRetryPolicy 3 [flit 1 4; f1].

(** The client: what it posted and how long it slept. *)
Record Client := mkClient { posts : list bytes; slept : list float }.

Section ScoringClient.
Variable transport : nat → bytes → HttpOutcome.
Variable request_json : ScoreRequestV1.t → bytes.
Variable validate_response : bytes → result ScoreResponseV1.t.
Variable model_version : string.
Variable retry_policy : RetryPolicy.

Definition mismatch (field : string) : exn :=
  PermanentScoringError ("Scoring API " +:+ field +:+ " mismatch").

(** The identity checks on a decision. *)
Definition check_decision (decision : ScoreDecisionV1.t) (feature : FeatureVectorV1.t)
  : result ScoreDecisionV1.t :=
  _ ← guard_exn (bool_decide (ScoreDecisionV1.model_version decision = model_version))
        (mismatch "model_version");
  _ ← guard_exn (bool_decide (ScoreDecisionV1.window_id decision = FeatureVectorV1.window_id feature))
        (mismatch "window_id");
  _ ← guard_exn (bool_decide (ScoreDecisionV1.replay_session_id decision =
                              FeatureVectorV1.replay_session_id feature))
        (mismatch "replay_session_id");
  _ ← guard_exn (bool_decide (ScoreDecisionV1.source_dataset_sha256 decision =
                              FeatureVectorV1.source_dataset_sha256 feature))
        (mismatch "source_dataset_sha256");
  _ ← guard_exn (bool_decide (ScoreDecisionV1.contract_sha256 decision =
                              FeatureVectorV1.contract_sha256 feature))
        (mismatch "contract_sha256");
  Ok decision.

(** The codes of the transient failures. *)
Definition transient_codes : list Z := [429; 500; 502; 503; 504].

Definition validated_decision (response : HttpResponse) (feature : FeatureVectorV1.t)
  : result ScoreDecisionV1.t :=
  if status_code response =? 200 then
    match validate_response (content response) with
    | Ok envelope => check_decision (ScoreResponseV1.data envelope) feature
    | Err e =>
        if is_value_error e
        then Err (PermanentScoringError "Scoring API returned invalid ScoreResponseV1")
        else Err e
    end
  else if bool_decide (status_code response ∈ transient_codes) then
    Err (RetryableScoringError "Transient Scoring API failure")
  else Err (PermanentScoringError "Permanent Scoring API error").

(** One attempt: [inl] for an outcome of the call, [inr] for one that is retried. *)
Definition attempt_outcome (o : HttpOutcome) (feature : FeatureVectorV1.t)
  : result ScoreDecisionV1.t + exn :=
  match o with
  | Responded response =>
      match validated_decision response feature with
      | Err (RetryableScoringError m) => inr (RetryableScoringError m)
      | r => inl r
      end
  | TimedOut | Disconnected => inr (RetryableScoringError "Scoring API network/timeout failure")
  | Raised e => inl (Err e)
  end.

Definition post (body : bytes) : M Client HttpOutcome := λ c,
  (Ok (transport (length (posts c)) body), mkClient (posts c ++ [body]) (slept c)).
Definition sleep (delay : float) : M Client unit := λ c, (Ok (), mkClient (posts c) (slept c ++ [delay])).

(** [for attempt in range(self.retry_policy.attempts)] *)
Fixpoint retry_loop (remaining attempt : nat) (body : bytes) (feature : FeatureVectorV1.t)
  : M Client ScoreDecisionV1.t :=
  match remaining with
  | O => raise AssertionError
  | S remaining =>
      o ← post body;
      match attempt_outcome o feature with
      | inl r => lift_res r
      | inr err =>
          if attempts retry_policy <=? Z.of_nat attempt + 1 then raise err
          else
            delay ← lift_res (of_option IndexError (delays_seconds retry_policy !! attempt));
            _ ← sleep delay;
            retry_loop remaining (S attempt) body feature
      end
  end.

Definition score (feature : FeatureVectorV1.t) : M Client ScoreDecisionV1.t :=
  request ← lift_res (ScoreRequestV1.make model_version feature);
  retry_loop (Z.to_nat (attempts retry_policy)) 0 (request_json request) feature.
End ScoringClient.
