(* ===== verification/ScoringTheory.v ===== *)
(** * The scoring client: lemmas and property *)

From S2P Require Import Prelude PyText PyUuid PyTime PyFloat PyHash Messages Scoring.

(** A decision is about a feature vector and the expected model. *)
Record decides (model_version : string) (d : ScoreDecisionV1.t) (f : FeatureVectorV1.t) : Prop := mkDecides {
  decides_model : ScoreDecisionV1.model_version d = model_version;
  decides_window : ScoreDecisionV1.window_id d = FeatureVectorV1.window_id f;
  decides_session : ScoreDecisionV1.replay_session_id d = FeatureVectorV1.replay_session_id f;
  decides_dataset : ScoreDecisionV1.source_dataset_sha256 d = FeatureVectorV1.source_dataset_sha256 f;
  decides_contract : ScoreDecisionV1.contract_sha256 d = FeatureVectorV1.contract_sha256 f
}.

Section Client.
Variable transport : nat → bytes → HttpOutcome.
Variable request_json : ScoreRequestV1.t → bytes.
Variable validate_response : bytes → result ScoreResponseV1.t.
Variable model_version : string.

Abbreviation outcome_of := (attempt_outcome validate_response model_version).

Lemma outcome_decides o f d : outcome_of o f = inl (Ok d) → decides model_version d f.
Proof.
  unfold attempt_outcome. destruct o as [r| | |e]; [|done..].
  destruct (validated_decision _ _ r f) as [d'|e] eqn:Hv; [|by destruct e].
  intros [= ->]. unfold validated_decision in Hv. destruct (status_code r =? 200); [|by case_bool_decide].
  destruct (validate_response _) as [env|e]; [|by destruct (is_value_error e)].
  unfold check_decision in Hv. inv_res. by split.
Qed.

Lemma outcome_retryable o f e : outcome_of o f = inr e → ∃ m, e = RetryableScoringError m.
Proof.
  unfold attempt_outcome. destruct o as [r| | |e']; [|intros [= <-]; by eexists..|done].
  destruct (validated_decision _ _ r f) as [d'|e']; [done|]. destruct e'; try done. intros [= <-]. by eexists.
Qed.

(** The result of an attempt that is the last one. *)
Definition settle (o : result ScoreDecisionV1.t + exn) : result ScoreDecisionV1.t :=
  match o with inl r => r | inr e => Err e end.

(** The loop stops at the first outcome that is not retried, or at the last attempt. *)
Lemma retry_loop_spec policy f body remaining : ∀ attempt c,
  (1 ≤ remaining)%nat → attempts policy = Z.of_nat (attempt + remaining) →
  (attempt + remaining ≤ S (length (delays_seconds policy)))%nat →
  ∃ j, (j < remaining)%nat ∧
    (∀ i, (i < j)%nat → ∃ e, outcome_of (transport (length (posts c) + i) body) f = inr e) ∧
    (∀ e, outcome_of (transport (length (posts c) + j) body) f = inr e → S j = remaining) ∧
    retry_loop transport validate_response model_version policy remaining attempt body f c =
      (settle (outcome_of (transport (length (posts c) + j) body) f),
       mkClient (posts c ++ replicate (S j) body) (slept c ++ take j (drop attempt (delays_seconds policy)))).
Proof.
  induction remaining as [|remaining IH]; intros attempt c Hleft Hn Hd; [lia|].
  simpl. rewrite M_bind_run. unfold post.
  destruct (outcome_of (transport (length (posts c)) body) f) as [r|e] eqn:Ho.
  { exists 0%nat. rewrite Nat.add_0_r, Ho. split_and!; [lia|lia|done|]. unfold lift_res. by rewrite app_nil_r. }
  destruct remaining as [|remaining].
  { exists 0%nat. rewrite Nat.add_0_r, Ho. split_and!; [lia|lia|done|].
    rewrite (proj2 (Z.leb_le _ _)) by lia. unfold raise. by rewrite app_nil_r. }
  rewrite (proj2 (Z.leb_gt _ _)) by lia.
  assert (is_Some (delays_seconds policy !! attempt)) as [delay Hdelay] by (apply lookup_lt_is_Some; lia).
  rewrite Hdelay, M_bind_run. unfold lift_res, of_option. rewrite M_bind_run. unfold sleep. cbn [posts slept].
  destruct (IH (S attempt) (mkClient (posts c ++ [body]) (slept c ++ [delay]))) as (j & Hj & Hbefore & Hlast & Hrun);
    [lia|lia|lia|]. cbn [posts slept] in Hbefore, Hlast, Hrun. rewrite length_app in Hbefore, Hlast, Hrun.
  assert (∀ i, length (posts c) + length [body] + i = length (posts c) + S i)%nat as Hshift by (simpl; lia).
  exists (S j). split_and!; [lia| | |].
  - intros [|i] Hi; [rewrite Nat.add_0_r; by eexists|]. rewrite <-Hshift. apply Hbefore. lia.
  - intros e' He'. rewrite <-Hshift in He'. f_equal. by eapply Hlast.
  - rewrite Hrun, Hshift, <-!app_assoc. by rewrite (drop_S _ _ _ Hdelay).
Qed.
End Client.

(** C31. The scoring client tries at most [attempts] times.  It stops at the first
    attempt that is not a transient failure (a time-out, a lost connection, or an
    answer 429, 500, 502, 503 or 504) or at the last one; every attempt posts the
    same body, the pauses between the attempts are the first delays of the
    policy, and the answer is the outcome of the last attempt made.  A decision
    it returns has the expected model version and is about the vector sent: same
    window, session, dataset and contract; and every decision that was exhausted
    is a [RetryableScoringError]. *)
Theorem score_retries transport request_json validate_response model_version policy feature c request
    (Hrequest : ScoreRequestV1.make model_version feature = Ok request)
    (Hattempts : 1 ≤ attempts policy ≤ Z.of_nat (length (delays_seconds policy)) + 1) :
  let outcome i := attempt_outcome validate_response model_version (transport (length (posts c) + i)%nat (request_json request)) feature in
  ∃ (j : nat) r,
    score transport request_json validate_response model_version policy feature c =
      (r, mkClient (posts c ++ replicate (S j) (request_json request))
                   (slept c ++ take j (delays_seconds policy))) ∧
    Z.of_nat j < attempts policy ∧
    (∀ i, (i < j)%nat → ∃ e, outcome i = inr e) ∧
    match r with
    | Ok d => outcome j = inl (Ok d) ∧ decides model_version d feature
    | Err e => outcome j = inl (Err e) ∨
        outcome j = inr e ∧ Z.of_nat j + 1 = attempts policy ∧ ∃ m, e = RetryableScoringError m
    end.
Proof.
  intros outcome. unfold score. rewrite M_bind_run. unfold lift_res. rewrite Hrequest.
  destruct (retry_loop_spec transport validate_response model_version policy feature (request_json request)
    (Z.to_nat (attempts policy)) 0 c) as (j & Hj & Hbefore & Hlast & ->); [lia|lia|lia|].
  rewrite drop_0. eexists j, _. split; [reflexivity|]. split; [lia|]. split; [exact Hbefore|].
  fold (outcome j) in Hlast |- *. destruct (outcome j) as [[d|e]|e] eqn:Ho; simpl.
  - split; [done|]. by eapply outcome_decides.
  - by left.
  - right. split; [done|]. split; [specialize (Hlast e eq_refl); lia|]. by eapply outcome_retryable.
Qed.

(** ** Witness: a time-out, a 503, then a decision *)
Module ScoringExample.
Definition digest : string := text (replicate 64 "a"%char).
Definition noon : datetime := datetime_of 2020 3 5 12 0 0 0.
Definition vector (n : Z) : FeatureVectorV1.t :=
  FeatureVectorV1.mk (UUID_of_bits n) (UUID_of_bits 1) digest digest noon (mkAware noon 0)
    (UUID_of_bits n) "compressor" (noon - minutes 30) noon ["tp2_last"%string] [f1]
    (CoverageEvidenceV1.mk [24; 24; 24; 24; 24; 24] []).
Definition decision (n : Z) : ScoreDecisionV1.t :=
  ScoreDecisionV1.mk (UUID_of_bits (n + 100)) (UUID_of_bits 1) digest digest noon (mkAware noon 0)
    (UUID_of_bits (n + 100)) (UUID_of_bits n) "model-1" f0 f1 false [].

(** A response body is the number of its decision. *)
Definition validate_response (body : bytes) : result ScoreResponseV1.t :=
  match body with
  | [n] => Ok (ScoreResponseV1.mk (decision n))
  | _ => Err (ValidationError "response")
  end.
Definition request_json (r : ScoreRequestV1.t) : bytes :=
  [uuid_int (FeatureVectorV1.window_id (ScoreRequestV1.feature_vector r))].
Definition transport (n : nat) (body : bytes) : HttpOutcome :=
  match n with O => TimedOut | 1%nat => Responded (mkResponse 503 []) | _ => Responded (mkResponse 200 body) end.

Example scored_at_the_third_attempt :
  score transport request_json validate_response "model-1" default_policy (vector 7) (mkClient [] []) =
  (Ok (decision 7), mkClient [[7]; [7]; [7]] [flit 1 4; f1]).
Proof. vm_compute. reflexivity. Qed.
End ScoringExample.

Lemma score_retries_witness :
  let outcome i := attempt_outcome ScoringExample.validate_response "model-1"
    (ScoringExample.transport (0 + i)%nat [7]) (ScoringExample.vector 7) in
  ∃ (j : nat) r,
    score ScoringExample.transport ScoringExample.request_json ScoringExample.validate_response "model-1"
      default_policy (ScoringExample.vector 7) (mkClient [] []) =
      (r, mkClient (replicate (S j) [7]) (take j [flit 1 4; f1])) ∧
    Z.of_nat j < 3 ∧
    (∀ i, (i < j)%nat → ∃ e, outcome i = inr e) ∧
    match r with
    | Ok d => outcome j = inl (Ok d) ∧ decides "model-1" d (ScoringExample.vector 7)
    | Err e => outcome j = inl (Err e) ∨
        outcome j = inr e ∧ Z.of_nat j + 1 = 3 ∧ ∃ m, e = RetryableScoringError m
    end.
Proof.
  apply (score_retries ScoringExample.transport ScoringExample.request_json ScoringExample.validate_response
    "model-1" default_policy (ScoringExample.vector 7) (mkClient [] [])
    (ScoreRequestV1.mk "model-1" (ScoringExample.vector 7))).
  - reflexivity.
  - vm_compute. split; discriminate.
Defined.
