(* ===== verification/Worker.v ===== *)
(** * The streaming worker ([worker.py])

    Consumes telemetry and status records, builds the feature windows of each
    session, has them scored and publishes vectors and decisions.  [StreamingWorker]
    is a state; a handler is a stateful computation that may raise.  Kafka calls
    are environment: the outcome of the n-th call of the producer or of [commit]
    is [io n]; a record's fresh identifiers and clock readings are its [WDraws].
    The optional metrics are absent, and with them the drift indicator, which
    only feeds a metric; the rolling features it would read are kept. *)

From S2P Require Import Prelude PyText PyUuid PyTime PyFloat PyHash PyJson.
From S2P Require Import Contracts Messages KafkaIo Features OnlineFeatures Scoring.

Module WorkerSettings.
Record t := mk {
  model_version : string;
  source_dataset_sha256 : string;
  contract_sha256 : string;
  feature_names : list string
}.
End WorkerSettings.

(** The fresh values one record can use. *)
Record WDraws := mkWDraws {
  quarantine_id : UUID; quarantine_now : aware;
  failed_id : UUID; failed_now : aware;
  push_now : aware; complete_now : aware
}.

(** [StreamingWorker]; [started] is whether the producer and consumer exist. *)
Record WState := mkW {
  started : bool;
  builders : gmap UUID OnlineFeatureBuilder.t;
  rolling_features : gmap UUID (gmap string (list float));
  terminal_status : gmap UUID ReplayStatusV1.t;
  last_sequence : gmap UUID Z;
  session_offsets : gmap UUID (gmap TopicPartition Z);
  failed_sessions : gset UUID;
  blocked_partitions : gset TopicPartition;
  self_emitted_status_ids : gset UUID;
  client : Client;
  sent : list Sent;
  calls : nat;
  committed : gmap TopicPartition Z
}.

Definition init_worker : WState := mkW false ∅ ∅ ∅ ∅ ∅ ∅ ∅ ∅ (mkClient [] []) [] 0 ∅.

Definition start_worker (s : WState) : WState :=
  mkW true (builders s) (rolling_features s) (terminal_status s) (last_sequence s) (session_offsets s)
    (failed_sessions s) (blocked_partitions s) (self_emitted_status_ids s) (client s) (sent s) (calls s)
    (committed s).
Definition set_builder (sid : UUID) (b : OnlineFeatureBuilder.t) (s : WState) : WState :=
  mkW (started s) (<[sid := b]> (builders s)) (rolling_features s) (terminal_status s) (last_sequence s)
    (session_offsets s) (failed_sessions s) (blocked_partitions s) (self_emitted_status_ids s) (client s)
    (sent s) (calls s) (committed s).
Definition set_rolling (sid : UUID) (m : gmap string (list float)) (s : WState) : WState :=
  mkW (started s) (builders s) (<[sid := m]> (rolling_features s)) (terminal_status s) (last_sequence s)
    (session_offsets s) (failed_sessions s) (blocked_partitions s) (self_emitted_status_ids s) (client s)
    (sent s) (calls s) (committed s).
Definition set_terminal (sid : UUID) (st : ReplayStatusV1.t) (s : WState) : WState :=
  mkW (started s) (builders s) (rolling_features s) (<[sid := st]> (terminal_status s)) (last_sequence s)
    (session_offsets s) (failed_sessions s) (blocked_partitions s) (self_emitted_status_ids s) (client s)
    (sent s) (calls s) (committed s).
Definition set_sequence (sid : UUID) (seq : Z) (s : WState) : WState :=
  mkW (started s) (builders s) (rolling_features s) (terminal_status s) (<[sid := seq]> (last_sequence s))
    (session_offsets s) (failed_sessions s) (blocked_partitions s) (self_emitted_status_ids s) (client s)
    (sent s) (calls s) (committed s).
(** [self.session_offsets[session_id][tp] = OffsetAndMetadata(offset + 1, "")] *)
Definition track_offset (sid : UUID) (tp : TopicPartition) (offset : Z) (s : WState) : WState :=
  mkW (started s) (builders s) (rolling_features s) (terminal_status s) (last_sequence s)
    (<[sid := <[tp := offset + 1]> (default ∅ (session_offsets s !! sid))]> (session_offsets s))
    (failed_sessions s) (blocked_partitions s) (self_emitted_status_ids s) (client s)
    (sent s) (calls s) (committed s).
Definition add_failed (sid : UUID) (s : WState) : WState :=
  mkW (started s) (builders s) (rolling_features s) (terminal_status s) (last_sequence s) (session_offsets s)
    ({[sid]} ∪ failed_sessions s) (blocked_partitions s) (self_emitted_status_ids s) (client s)
    (sent s) (calls s) (committed s).
Definition block_partition (tp : TopicPartition) (s : WState) : WState :=
  mkW (started s) (builders s) (rolling_features s) (terminal_status s) (last_sequence s) (session_offsets s)
    (failed_sessions s) ({[tp]} ∪ blocked_partitions s) (self_emitted_status_ids s) (client s)
    (sent s) (calls s) (committed s).
Definition add_self_emitted (id : UUID) (s : WState) : WState :=
  mkW (started s) (builders s) (rolling_features s) (terminal_status s) (last_sequence s) (session_offsets s)
    (failed_sessions s) (blocked_partitions s) ({[id]} ∪ self_emitted_status_ids s) (client s)
    (sent s) (calls s) (committed s).
Definition set_client (c : Client) (s : WState) : WState :=
  mkW (started s) (builders s) (rolling_features s) (terminal_status s) (last_sequence s) (session_offsets s)
    (failed_sessions s) (blocked_partitions s) (self_emitted_status_ids s) c
    (sent s) (calls s) (committed s).
Definition set_broker (log : list Sent) (n : nat) (offsets : gmap TopicPartition Z) (s : WState) : WState :=
  mkW (started s) (builders s) (rolling_features s) (terminal_status s) (last_sequence s) (session_offsets s)
    (failed_sessions s) (blocked_partitions s) (self_emitted_status_ids s) (client s)
    log n offsets.

Section Worker.
Context `{Numpy, JsonModel FeatureVectorV1.t, JsonModel ScoreDecisionV1.t, JsonModel ReplayStatusV1.t,
          JsonModel QuarantineRecordV1.t}.
(** pydantic's [model_validate_json] of the two messages, [str(error)], the
    outcomes of the calls to Kafka, and the scoring client's parameters. *)
Variable validate_telemetry : bytes → result TelemetryEventV1.t.
Variable validate_status : bytes → result ReplayStatusV1.t.
Variable error_text : exn → string.
Variable io : nat → option exn.
Variable transport : nat → bytes → HttpOutcome.
Variable request_json : ScoreRequestV1.t → bytes.
Variable validate_response : bytes → result ScoreResponseV1.t.
Variable retry_policy : RetryPolicy.
Variable settings : WorkerSettings.t.

(** ** Calls to Kafka *)
Definition next_call : M WState unit := λ s,
  let s' := set_broker (sent s) (S (calls s)) (committed s) s in
  match io (calls s) with
  | None => (Ok (), s')
  | Some e => (Err e, s')
  end.
Definition send_and_wait (msg : Sent) : M WState unit :=
  _ ← next_call;
  modify (λ s, set_broker (sent s ++ [msg]) (calls s) (committed s) s).
Definition commit (offsets : gmap TopicPartition Z) : M WState unit :=
  _ ← next_call;
  modify (λ s, set_broker (sent s) (calls s) (offsets ∪ committed s) s).

Definition PRODUCER_NOT_STARTED : string := "Producer not started".

Definition require_producer : M WState unit :=
  ready ← gets started;
  if ready : bool then mret () else raise (RuntimeError PRODUCER_NOT_STARTED).

Definition publish_quarantine (draws : WDraws) (record : KafkaRecord) (error_code error_detail : string)
  : M WState unit :=
  _ ← require_producer;
  let payload_hash := sha256_hex (rvalue record) in
  quarantine ← lift_res (QuarantineRecordV1.make
    (* message_id *) (quarantine_id draws)
    (* replay_session_id *) None
    (* source_dataset_sha256 *) (text (replicate 64 "0"%char))
    (* contract_sha256 *) (text (replicate 64 "0"%char))
    (* source_timestamp *) (Naive (datetime_of 2020 1 1 0 0 0 0))
    (* emitted_at *) (Aware (quarantine_now draws))
    (* original_topic *) (rtopic record)
    (* partition *) (rpartition record)
    (* offset *) (roffset record)
    (* payload_sha256 *) payload_hash
    (* error_code *) error_code
    (* error_detail *) (text_prefix 1000 error_detail));
  value ← lift_res (encode_message quarantine);
  send_and_wait (mkSent QUARANTINE_TOPIC value (encode payload_hash)).

Definition fail_session (draws : WDraws) (session_id : UUID) (error_code : string) (last_seq : Z)
    (source_ts : datetime) : M WState unit :=
  _ ← modify (add_failed session_id);
  ready ← gets started;
  whenM ready (
    _ ← modify (add_self_emitted (failed_id draws));
    status ← lift_res (ReplayStatusV1.make
      (* message_id *) (failed_id draws)
      (* replay_session_id *) session_id
      (* source_dataset_sha256 *) (WorkerSettings.source_dataset_sha256 settings)
      (* contract_sha256 *) (WorkerSettings.contract_sha256 settings)
      (* source_timestamp *) (Naive source_ts)
      (* emitted_at *) (Aware (failed_now draws))
      (* state *) FAILED
      (* last_sequence *) (Some last_seq)
      (* error_code *) (Some error_code));
    value ← lift_res (encode_message status);
    send_and_wait (mkSent REPLAY_STATUS_TOPIC value (encode (str_uuid session_id)))).

(** ** Features *)

(** [session_feats[name].append(val)], with at most 36 values kept. *)
Definition roll (feats : gmap string (list float)) (nv : string * float) : gmap string (list float) :=
  let vals := default [] (feats !! nv.1) ++ [nv.2] in
  <[nv.1 := if (36 <? length vals)%nat then tail vals else vals]> feats.

(** [await self.scoring_client.score(feature)] *)
Definition call_score (feature : FeatureVectorV1.t) : M WState ScoreDecisionV1.t := λ s,
  let '(r, c) := score transport request_json validate_response
                   (WorkerSettings.model_version settings) retry_policy feature (client s) in
  (r, set_client c s).

(** [except (RetryableScoringError, PermanentScoringError) as err] *)
Definition scoring_failed (draws : WDraws) (feature : FeatureVectorV1.t) (error_code : string)
  : M WState ScoreDecisionV1.t :=
  let sid := FeatureVectorV1.replay_session_id feature in
  last_seq ← gets (λ s, default 0 (last_sequence s !! sid));
  _ ← fail_session draws sid error_code last_seq (FeatureVectorV1.source_timestamp feature);
  raise SessionFailedError.

Definition obtain_decision (draws : WDraws) (feature : FeatureVectorV1.t) : M WState ScoreDecisionV1.t :=
  catch (call_score feature) (λ err,
    match err with
    | RetryableScoringError _ => Some (scoring_failed draws feature "SCORING_RETRY_EXHAUSTED")
    | PermanentScoringError _ => Some (scoring_failed draws feature "SCORING_CONTRACT_MISMATCH")
    | _ => None
    end).

Definition process_feature (draws : WDraws) (feature : FeatureVectorV1.t) : M WState unit :=
  _ ← require_producer;
  let sid := FeatureVectorV1.replay_session_id feature in
  _ ← modify (λ s, set_rolling sid
        (foldl roll (default ∅ (rolling_features s !! sid))
           (zip (FeatureVectorV1.feature_names feature) (FeatureVectorV1.feature_values feature))) s);
  feat_bytes ← lift_res (encode_message feature);
  _ ← send_and_wait (mkSent FEATURES_TOPIC feat_bytes (encode (str_uuid (FeatureVectorV1.window_id feature))));
  decision ← obtain_decision draws feature;
  score_bytes ← lift_res (encode_message decision);
  send_and_wait (mkSent SCORES_TOPIC score_bytes (encode (str_uuid (ScoreDecisionV1.decision_id decision)))).

(** A method of the builder of a session, which keeps the mutations it made. *)
Definition on_builder {A} (sid : UUID) (b : OnlineFeatureBuilder.t) (m : M OnlineFeatureBuilder.t A)
  : M WState A := λ s, let '(r, b') := m b in (r, set_builder sid b' s).

(** [offsets_to_commit = self.session_offsets.get(session_id, {})] *)
Definition commit_session (session_id : UUID) : M WState unit :=
  offsets ← gets (λ s, default ∅ (session_offsets s !! session_id));
  ready ← gets started;
  whenM (negb (bool_decide (offsets = ∅)) && ready) (commit offsets).

Definition complete_session (draws : WDraws) (status : ReplayStatusV1.t) : M WState unit :=
  let session_id := ReplayStatusV1.replay_session_id status in
  failed ← gets failed_sessions;
  if bool_decide (session_id ∈ failed) then mret ()
  else
    builder ← gets (λ s, builders s !! session_id);
    _ ← match builder with
        | Some b =>
            if OnlineFeatureBuilder.is_complete b then mret ()
            else
              res ← on_builder session_id b
                      (OnlineFeatureBuilder.complete (complete_now draws)
                         (ReplayStatusV1.source_timestamp status));
              forM (features res) (process_feature draws)
        | None => mret ()
        end;
    commit_session session_id.

(** ** Records *)
Definition same_identity (event : TelemetryEventV1.t) : bool :=
  bool_decide (TelemetryEventV1.source_dataset_sha256 event = WorkerSettings.source_dataset_sha256 settings) &&
  bool_decide (TelemetryEventV1.contract_sha256 event = WorkerSettings.contract_sha256 settings).

(** A new builder of the session of an event. *)
Definition new_builder (event : TelemetryEventV1.t) : OnlineFeatureBuilder.t :=
  OnlineFeatureBuilder.make (TelemetryEventV1.replay_session_id event) (TelemetryEventV1.machine_id event)
    (WorkerSettings.source_dataset_sha256 settings) (WorkerSettings.contract_sha256 settings)
    (WorkerSettings.feature_names settings).

(** An event with the right identity: push, score, and the terminal barrier. *)
Definition accept_event (draws : WDraws) (event : TelemetryEventV1.t) : M WState unit :=
  let sid := TelemetryEventV1.replay_session_id event in
  b ← gets (λ s, default (new_builder event) (builders s !! sid));
  _ ← modify (set_builder sid b);
  res ← on_builder sid b (OnlineFeatureBuilder.push (push_now draws) event);
  _ ← modify (set_sequence sid (TelemetryEventV1.sequence event));
  _ ← whenM (negb (bool_decide (segment_closed_reason res = None))) (modify (set_rolling sid ∅));
  _ ← forM (features res) (process_feature draws);
  term ← gets (λ s, terminal_status s !! sid);
  match term with
  | Some status =>
      whenM (bool_decide (ReplayStatusV1.state status = COMPLETED) &&
             bool_decide (ReplayStatusV1.last_sequence status = Some (TelemetryEventV1.sequence event)))
        (complete_session draws status)
  | None => mret ()
  end.

Definition handle_telemetry_record (draws : WDraws) (record : KafkaRecord) : M WState unit :=
  let tp := (rtopic record, rpartition record) in
  blocked ← gets blocked_partitions;
  if bool_decide (tp ∈ blocked) then mret ()
  else
    match decode_message validate_telemetry (rvalue record) with
    | Err err =>
        _ ← modify (block_partition tp);
        publish_quarantine draws record "INVALID_TELEMETRY_PAYLOAD" (error_text err)
    | Ok event =>
        let sid := TelemetryEventV1.replay_session_id event in
        failed ← gets failed_sessions;
        if bool_decide (sid ∈ failed) then mret ()
        else if negb (same_identity event) then
          _ ← publish_quarantine draws record "TELEMETRY_IDENTITY_MISMATCH"
                "telemetry identity does not match scoring package";
          last_seq ← gets (λ s, default 0 (last_sequence s !! sid));
          fail_session draws sid "TELEMETRY_IDENTITY_MISMATCH" last_seq (TelemetryEventV1.source_timestamp event)
        else
          _ ← modify (track_offset sid tp (roffset record));
          accept_event draws event
    end.

Definition handle_status_record (draws : WDraws) (record : KafkaRecord) : M WState unit :=
  let tp := (rtopic record, rpartition record) in
  match decode_message validate_status (rvalue record) with
  | Err err =>
      _ ← modify (block_partition tp);
      publish_quarantine draws record "INVALID_STATUS_PAYLOAD" (error_text err)
  | Ok status =>
      let sid := ReplayStatusV1.replay_session_id status in
      own ← gets self_emitted_status_ids;
      if bool_decide (ReplayStatusV1.message_id status ∈ own) then mret ()
      else
        _ ← modify (track_offset sid tp (roffset record));
        match ReplayStatusV1.state status with
        | FAILED => modify (add_failed sid)
        | COMPLETED | STOPPED =>
            _ ← modify (set_terminal sid status);
            current_seq ← gets (λ s, default 0 (last_sequence s !! sid));
            whenM (match ReplayStatusV1.last_sequence status with
                   | Some last => last <=? current_seq | None => false end)
              (complete_session draws status)
        | _ => mret ()
        end
  end.

Definition handle_record (draws : WDraws) (record : KafkaRecord) : M WState unit :=
  if bool_decide (rtopic record = TELEMETRY_TOPIC) then handle_telemetry_record draws record
  else if bool_decide (rtopic record = REPLAY_STATUS_TOPIC) then handle_status_record draws record
  else mret ().

(** [async for record in self.consumer]: an exception ends the worker. *)
Definition run (records : list (WDraws * KafkaRecord)) : M WState unit :=
  _ ← modify start_worker;
  forM records (λ r, handle_record r.1 r.2).
End Worker.
