(* ===== verification/WorkerTheory.v ===== *)
(** * The streaming worker: lemmas *)

From S2P Require Import Prelude PyText PyUuid PyTime PyFloat PyHash PyJson Contracts Messages.
From S2P Require Import KafkaIo Features OnlineFeatures OnlineTheory OnlineProps Scoring.
From S2P Require Import ScoringTheory Worker.

(** ** The streaming worker: lemmas *)

(** ** Decisions of the client *)
Lemma retry_loop_decides transport validate_response model_version policy remaining :
  ∀ attempt body f c d c',
  retry_loop transport validate_response model_version policy remaining attempt body f c = (Ok d, c') →
  decides model_version d f.
Proof.
  induction remaining as [|remaining IH]; intros attempt body f c d c' Hr; [done|].
  simpl in Hr. rewrite M_bind_run in Hr. unfold post in Hr.
  destruct (attempt_outcome _ _ _ f) as [r|e] eqn:Ho.
  - unfold lift_res in Hr. simplify_eq. by eapply outcome_decides.
  - destruct (attempts policy <=? _); [done|]. inv_M. by eapply IH.
Qed.

Lemma score_decides transport request_json validate_response model_version policy f c d c' :
  score transport request_json validate_response model_version policy f c = (Ok d, c') →
  decides model_version d f.
Proof. unfold score. intros Hs. inv_M. by eapply retry_loop_decides. Qed.

Section Worker.
Context `{Numpy, JsonModel FeatureVectorV1.t, JsonModel ScoreDecisionV1.t, JsonModel ReplayStatusV1.t,
          JsonModel QuarantineRecordV1.t}.
Variable validate_telemetry : bytes → result TelemetryEventV1.t.
Variable validate_status : bytes → result ReplayStatusV1.t.
Variable error_text : exn → string.
Variable io : nat → option exn.
Variable transport : nat → bytes → HttpOutcome.
Variable request_json : ScoreRequestV1.t → bytes.
Variable validate_response : bytes → result ScoreResponseV1.t.
Variable retry_policy : RetryPolicy.
Variable settings : WorkerSettings.t.

Abbreviation process := (process_feature io transport request_json validate_response retry_policy settings).
Abbreviation complete_with :=
  (complete_session io transport request_json validate_response retry_policy settings).
Abbreviation accept := (accept_event io transport request_json validate_response retry_policy settings).
Abbreviation handle := (handle_record validate_telemetry validate_status error_text io transport
  request_json validate_response retry_policy settings).
Abbreviation run_worker := (run validate_telemetry validate_status error_text io transport
  request_json validate_response retry_policy settings).

(** The messages of a vector and of a decision. *)
Definition vector_message (v : FeatureVectorV1.t) (value : bytes) : Sent :=
  mkSent FEATURES_TOPIC value (encode (str_uuid (FeatureVectorV1.window_id v))).
Definition decision_message (d : ScoreDecisionV1.t) (value : bytes) : Sent :=
  mkSent SCORES_TOPIC value (encode (str_uuid (ScoreDecisionV1.decision_id d))).

(** ** What the worker publishes *)

(** A decision is published next to the vector it is about. *)
Inductive logged : list Sent → Prop :=
| logged_nil : logged []
| logged_other log m : logged log → stopic m ≠ SCORES_TOPIC → logged (log ++ [m])
| logged_scored log v d vb db :
    logged log → encode_message v = Ok vb → encode_message d = Ok db →
    decides (WorkerSettings.model_version settings) d v →
    logged (log ++ [vector_message v vb; decision_message d db]).

Definition Audited (s : WState) : Prop := logged (sent s).

Lemma send_keeps msg : stopic msg ≠ SCORES_TOPIC → keeps Audited (send_and_wait io msg).
Proof.
  intros Ht s Hs. unfold send_and_wait. rewrite M_bind_run. unfold next_call.
  destruct (io (calls s)); [done|]. simpl. by apply logged_other.
Qed.

Lemma commit_keeps offsets : keeps Audited (commit io offsets).
Proof.
  intros s Hs. unfold commit. rewrite M_bind_run. unfold next_call. by destruct (io (calls s)).
Qed.

Lemma require_keeps : keeps Audited require_producer.
Proof. unfold require_producer. apply keeps_bind; [apply keeps_gets|]. intros []; auto with keeps. Qed.

Lemma update_keeps f : (∀ s, sent (f s) = sent s) → keeps Audited (modify f).
Proof. intros Hf. apply keeps_modify. unfold Audited. intros s. by rewrite Hf. Qed.

#[local] Hint Resolve commit_keeps require_keeps : keeps.
#[local] Hint Extern 1 (keeps Audited (send_and_wait _ _)) => (apply send_keeps; discriminate) : keeps.
#[local] Hint Extern 1 (keeps Audited (modify _)) => (apply update_keeps; done) : keeps.

Lemma fail_keeps draws sid code seq ts : keeps Audited (fail_session io settings draws sid code seq ts).
Proof. unfold fail_session. keeps_all. Qed.

Lemma quarantine_keeps draws record code detail : keeps Audited (publish_quarantine io draws record code detail).
Proof. unfold publish_quarantine. keeps_all. Qed.
#[local] Hint Resolve fail_keeps quarantine_keeps : keeps.

(** A decision obtained leaves the log alone and is about the vector. *)
Lemma obtain_decision_cases draws v s :
  match obtain_decision io transport request_json validate_response retry_policy settings draws v s with
  | (Ok d, s') => sent s' = sent s ∧ calls s' = calls s ∧ decides (WorkerSettings.model_version settings) d v
  | (Err e, s') => Audited s → Audited s'
  end.
Proof.
  unfold obtain_decision, catch, call_score.
  destruct (score _ _ _ _ _ v (client s)) as [[d|e] c] eqn:Hs.
  { split; [done|]. split; [done|]. by eapply score_decides. }
  assert (∀ code, match scoring_failed io settings draws v code (set_client c s) with
    | (Ok _, _) => False | (Err _, s') => Audited s → Audited s' end) as Hfail.
  { intros code. unfold scoring_failed. rewrite M_bind_run. unfold gets. rewrite M_bind_run.
    pose proof (fail_keeps draws (FeatureVectorV1.replay_session_id v) code
      (default 0 (last_sequence (set_client c s) !! FeatureVectorV1.replay_session_id v))
      (FeatureVectorV1.source_timestamp v) (set_client c s)) as Hk.
    by destruct (fail_session _ _ _ _ _ _ _ _) as [[u|e'] s']. }
  destruct e; try done.
  - specialize (Hfail "SCORING_CONTRACT_MISMATCH"%string). by destruct (scoring_failed _ _ _ _ _ _) as [[?|?] ?].
  - specialize (Hfail "SCORING_RETRY_EXHAUSTED"%string). by destruct (scoring_failed _ _ _ _ _ _) as [[?|?] ?].
Qed.

Lemma process_keeps draws v : keeps Audited (process draws v).
Proof.
  unfold process_feature. apply keeps_bind; [apply require_keeps|]. intros _.
  apply keeps_bind; [by apply update_keeps|]. intros _. intros s Hs. rewrite M_bind_run. unfold lift_res.
  destruct (encode_message v) as [vb|e] eqn:Hv; [|done]. rewrite M_bind_run.
  unfold send_and_wait at 1. rewrite M_bind_run. unfold next_call at 1. destruct (io (calls s)); [done|].
  unfold modify at 1. set (s1 := set_broker (sent _ ++ _) _ _ _).
  assert (sent s1 = sent s ++ [vector_message v vb]) as Hlog by done.
  assert (Audited s1) as Hs1 by (unfold Audited; rewrite Hlog; by apply logged_other).
  rewrite M_bind_run. pose proof (obtain_decision_cases draws v s1) as Hd.
  destruct (obtain_decision _ _ _ _ _ _ draws v s1) as [[d|e] s2]; [|by apply Hd].
  destruct Hd as (Hsent & _ & Hdec). rewrite M_bind_run. unfold lift_res.
  assert (Audited s2) as Hs2 by (unfold Audited; by rewrite Hsent).
  destruct (encode_message d) as [db|e] eqn:Hdb; [|done].
  unfold send_and_wait. rewrite M_bind_run. unfold next_call. destruct (io (calls s2)); [done|].
  unfold Audited. simpl. rewrite Hsent, Hlog, <-app_assoc. by apply logged_scored.
Qed.

Lemma builder_keeps {A} sid b (m : M OnlineFeatureBuilder.t A) : keeps Audited (on_builder sid b m).
Proof. intros s Hs. unfold on_builder. by destruct (m b). Qed.

#[local] Hint Resolve process_keeps builder_keeps : keeps.

Lemma complete_keeps draws status : keeps Audited (complete_with draws status).
Proof. unfold complete_session, commit_session. keeps_all. Qed.
#[local] Hint Resolve complete_keeps : keeps.

Lemma accept_keeps draws e : keeps Audited (accept draws e).
Proof. unfold accept_event. keeps_all. Qed.
#[local] Hint Resolve accept_keeps : keeps.

Lemma handle_keeps draws record : keeps Audited (handle draws record).
Proof. unfold handle_record, handle_telemetry_record, handle_status_record. keeps_all. Qed.

Lemma run_audited records : Audited (run_worker records init_worker).2.
Proof.
  unfold run. rewrite M_bind_run. unfold modify at 1. cbv beta iota.
  apply keeps_forM; [intros r; apply handle_keeps|]. constructor.
Qed.

(** The message before a decision. *)
Lemma logged_before log : logged log → ∀ pre m post,
  log = pre ++ m :: post → stopic m = SCORES_TOPIC →
  ∃ pre' v d vb db, pre = pre' ++ [vector_message v vb] ∧ m = decision_message d db ∧
    encode_message v = Ok vb ∧ encode_message d = Ok db ∧
    decides (WorkerSettings.model_version settings) d v.
Proof.
  induction 1 as [|log m' _ IH Hm'|log v d vb db _ IH Hv Hd Hdec]; intros pre m post Heq Hm.
  - by destruct pre.
  - destruct post as [|x post _] using rev_ind.
    + apply app_inj_tail in Heq as [_ ->]. done.
    + rewrite app_comm_cons, app_assoc in Heq. apply app_inj_tail in Heq as [Heq _]. by eapply IH.
  - rewrite (cons_middle (vector_message v vb) log [decision_message d db]), app_assoc in Heq. destruct post as [|x post _] using rev_ind.
    + apply app_inj_tail in Heq as [<- <-]. exists log, v, d, vb, db. by split_and!.
    + rewrite app_comm_cons, app_assoc in Heq. apply app_inj_tail in Heq as [Heq _].
      destruct post as [|y post _] using rev_ind.
      * apply app_inj_tail in Heq as [_ <-]. done.
      * rewrite app_comm_cons, app_assoc in Heq. apply app_inj_tail in Heq as [Heq _]. by eapply IH.
Qed.
End Worker.

(** ** The streaming worker: one session from start to completion

    A handler that raises nothing moves the session from one [Stage] to the
    next: the builder, the last sequence, the tracked offsets, the log. *)

(** ** The builder is complete only after [complete] *)
Definition open_builder (b : OnlineFeatureBuilder.t) : Prop := OnlineFeatureBuilder.is_complete b = false.

Lemma finalize_open `{Numpy} now : keeps open_builder (OnlineFeatureBuilder.finalize_current_bin now).
Proof.
  intros b Hb. unfold OnlineFeatureBuilder.finalize_current_bin. cbv zeta. repeat case_match; exact Hb.
Qed.

Lemma push_open `{Numpy} now e : keeps open_builder (OnlineFeatureBuilder.push now e).
Proof.
  unfold OnlineFeatureBuilder.push. apply keeps_bind.
  { intros b Hb. unfold OnlineFeatureBuilder.check_sequence_and_ordering. repeat case_match; exact Hb. }
  intros [[] reason]; [apply keeps_ret|]. apply keeps_bind.
  { intros b Hb. unfold OnlineFeatureBuilder.check_bin_boundary. pose proof (finalize_open now b Hb) as Hf.
    repeat case_match; exact Hb || exact Hf. }
  intros [out reason']. apply keeps_bind; [by intros b|]. intros b. apply keeps_bind; [apply keeps_lift|].
  intros smp. apply keeps_bind; [|intros _; apply keeps_ret]. apply keeps_modify. by intros b'.
Qed.

Lemma drive_open `{Numpy} evs : keeps open_builder (drive evs).
Proof.
  induction evs as [|[now e] evs IH]; [apply keeps_ret|]. simpl. apply keeps_bind; [apply push_open|]. intros r.
  apply keeps_bind; [exact IH|]. intros vs. apply keeps_ret.
Qed.

Lemma drive_app `{Numpy} l1 l2 b vs b' :
  drive (l1 ++ l2) b = (Ok vs, b') →
  ∃ vs1 vs2 b1, drive l1 b = (Ok vs1, b1) ∧ drive l2 b1 = (Ok vs2, b') ∧ vs = vs1 ++ vs2.
Proof.
  revert b vs. induction l1 as [|[now e] l1 IH]; intros b vs Hd; [by exists [], vs, b|].
  simpl in Hd. apply M_bind_Ok in Hd as (r & b0 & Hp & Hd). apply M_bind_Ok in Hd as (vs0 & b2 & Hd & Hret).
  apply M_ret_Ok in Hret as [-> ->]. apply IH in Hd as (vs1 & vs2 & b1 & H12 & H22 & ->).
  exists (features r ++ vs1), vs2, b1. simpl. rewrite M_bind_run, Hp, M_bind_run, H12.
  split_and!; [done..|]. by rewrite app_assoc.
Qed.

Section Session.
Context `{Numpy, JsonModel FeatureVectorV1.t, JsonModel ScoreDecisionV1.t, JsonModel ReplayStatusV1.t,
          JsonModel QuarantineRecordV1.t}.
Variable validate_telemetry : bytes → result TelemetryEventV1.t.
Variable validate_status : bytes → result ReplayStatusV1.t.
Variable error_text : exn → string.
Variable transport : nat → bytes → HttpOutcome.
Variable request_json : ScoreRequestV1.t → bytes.
Variable validate_response : bytes → result ScoreResponseV1.t.
Variable retry_policy : RetryPolicy.
Variable settings : WorkerSettings.t.
Variables (sid : UUID) (machine : string).

(** Every call to Kafka succeeds. *)
Abbreviation quiet := (λ _ : nat, @None exn).
Abbreviation process := (process_feature quiet transport request_json validate_response retry_policy settings).
Abbreviation complete_with :=
  (complete_session quiet transport request_json validate_response retry_policy settings).
Abbreviation accept := (accept_event quiet transport request_json validate_response retry_policy settings).
Abbreviation handle := (handle_record validate_telemetry validate_status error_text quiet transport
  request_json validate_response retry_policy settings).

Abbreviation fresh := (OnlineFeatureBuilder.make sid machine (WorkerSettings.source_dataset_sha256 settings)
  (WorkerSettings.contract_sha256 settings) (WorkerSettings.feature_names settings)).

(** The scoring service answers for a vector, whatever was posted before. *)
Definition answered (v : FeatureVectorV1.t) : Prop :=
  FeatureVectorV1.replay_session_id v = sid ∧ is_ok (encode_message v) = true ∧
  ∀ c, ∃ d c', score transport request_json validate_response (WorkerSettings.model_version settings)
    retry_policy v c = (Ok d, c') ∧ is_ok (encode_message d) = true.

(** What is published for a vector, and for a list of them. *)
Definition published_for (v : FeatureVectorV1.t) (messages : list Sent) : Prop :=
  ∃ d vb db, messages = [vector_message v vb; decision_message d db] ∧
    encode_message v = Ok vb ∧ encode_message d = Ok db ∧
    decides (WorkerSettings.model_version settings) d v.
Definition published (vs : list FeatureVectorV1.t) (log : list Sent) : Prop :=
  ∃ chunks, log = concat chunks ∧ Forall2 published_for vs chunks.

Lemma published_nil : published [] [].
Proof. exists []. split; [done|constructor]. Qed.

Lemma published_app vs1 log1 vs2 log2 :
  published vs1 log1 → published vs2 log2 → published (vs1 ++ vs2) (log1 ++ log2).
Proof.
  intros (c1 & -> & H12) (c2 & -> & H22). exists (c1 ++ c2). rewrite concat_app.
  split; [done|by apply Forall2_app].
Qed.

Record Stage (b : OnlineFeatureBuilder.t) (seq : option Z) (offs : gmap TopicPartition Z)
    (term : option ReplayStatusV1.t) (log : list Sent) (done : gmap TopicPartition Z) (s : WState) : Prop := mkStage {
  stage_started : started s = true;
  stage_failed : sid ∉ failed_sessions s;
  stage_blocked : blocked_partitions s = ∅;
  stage_own : self_emitted_status_ids s = ∅;
  stage_builder : default fresh (builders s !! sid) = b;
  stage_sequence : last_sequence s !! sid = seq;
  stage_offsets : default ∅ (session_offsets s !! sid) = offs;
  stage_terminal : terminal_status s !! sid = term;
  stage_log : sent s = log;
  stage_committed : committed s = done
}.

Lemma stage_init : Stage fresh None ∅ None [] ∅ (start_worker init_worker).
Proof. by split. Qed.

Lemma process_ok draws v b seq offs term log done s :
  Stage b seq offs term log done s → answered v →
  ∃ messages s', process draws v s = (Ok (), s') ∧ published_for v messages ∧
    Stage b seq offs term (log ++ messages) done s' ∧ builders s' = builders s.
Proof.
  intros [Hst Hf Hbl Hown Hb Hseq Hoff Hterm Hlog Hdone] (Hsid & Hv & Hscore).
  destruct (encode_message v) as [vb|] eqn:Hvb; [|done].
  unfold process_feature, require_producer. rewrite !M_bind_run. unfold gets. rewrite Hst.
  unfold mret, M_ret. rewrite M_bind_run. unfold modify, lift_res. rewrite M_bind_run, Hvb, M_bind_run.
  unfold send_and_wait, next_call. rewrite M_bind_run.
  unfold obtain_decision, catch, call_score, modify. rewrite M_bind_run.
  match goal with |- context [client ?s0] => destruct (Hscore (client s0)) as (d & c' & Hd & Hdb) end.
  rewrite Hd. destruct (encode_message d) as [db|] eqn:Hdbe; [|done]. rewrite !M_bind_run.
  exists [vector_message v vb; decision_message d db]. eexists. split; [reflexivity|]. split.
  { exists d, vb, db. split_and!; [done..|]. by eapply score_decides. }
  split; [|done]. split; simpl; try done. by rewrite Hlog, <-app_assoc.
Qed.

Lemma process_all_ok draws vs b seq offs term log done s :
  Stage b seq offs term log done s → Forall answered vs →
  ∃ more s', forM vs (process draws) s = (Ok (), s') ∧ published vs more ∧
    Stage b seq offs term (log ++ more) done s' ∧ builders s' = builders s.
Proof.
  intros Hs Hvs. revert log s Hs. induction Hvs as [|v vs Hv _ IH]; intros log s Hs.
  { exists [], s. rewrite app_nil_r. split_and!; [done|apply published_nil|done|done]. }
  destruct (process_ok draws v _ _ _ _ _ _ _ Hs Hv) as (m1 & s1 & Hr1 & Hp1 & Hs1 & Hb1).
  destruct (IH _ _ Hs1) as (m2 & s2 & Hr2 & Hp2 & Hs2 & Hb2). exists (m1 ++ m2), s2. simpl.
  rewrite M_bind_run, Hr1. split; [done|]. rewrite app_assoc. split; [|split; [done|by rewrite Hb2]].
  apply (published_app [v]); [|done]. exists [m1]. simpl. rewrite app_nil_r. split; [done|by repeat constructor].
Qed.

(** ** Completion *)
Lemma complete_session_ok draws status b seq offs term log done s r b' :
  Stage b seq offs term log done s → ReplayStatusV1.replay_session_id status = sid →
  is_Some (builders s !! sid) → open_builder b → offs ≠ ∅ →
  OnlineFeatureBuilder.complete (complete_now draws) (ReplayStatusV1.source_timestamp status) b = (Ok r, b') →
  Forall answered (features r) →
  ∃ more s', complete_with draws status s = (Ok (), s') ∧ published (features r) more ∧
    Stage b' seq offs term (log ++ more) (offs ∪ done) s' ∧ builders s' !! sid = Some b'.
Proof.
  intros Hs Hsid [b0 Hb0] Hopen Hoffs Hc Hvs. unfold complete_session. rewrite M_bind_run. unfold gets.
  rewrite Hsid, bool_decide_eq_false_2 by apply (stage_failed _ _ _ _ _ _ _ Hs).
  rewrite M_bind_run, Hb0. pose proof (stage_builder _ _ _ _ _ _ _ Hs) as Hb. rewrite Hb0 in Hb. simpl in Hb. subst b0.
  rewrite M_bind_run. unfold open_builder in Hopen. rewrite Hopen, M_bind_run. unfold on_builder. rewrite Hc.
  destruct (process_all_ok draws (features r) b' seq offs term log done (set_builder sid b' s)) as (more & s1 & Hr & Hp & Hs1 & Hb1);
    [|done|].
  { destruct Hs. split; try done. simpl. by rewrite lookup_insert_eq. }
  rewrite Hr. unfold commit_session. rewrite M_bind_run. unfold gets. rewrite M_bind_run.
  rewrite (stage_offsets _ _ _ _ _ _ _ Hs1), (stage_started _ _ _ _ _ _ _ Hs1), bool_decide_eq_false_2 by done.
  simpl. unfold commit, next_call. rewrite M_bind_run. unfold modify. exists more. eexists. split; [reflexivity|].
  split; [done|]. split; [|simpl; by rewrite Hb1; simpl; rewrite lookup_insert_eq].
  destruct Hs1. split; try done. simpl. by subst done.
Qed.

(** ** Telemetry *)
Definition of_session (r : WDraws * KafkaRecord) (e : TelemetryEventV1.t) : Prop :=
  rtopic r.2 = TELEMETRY_TOPIC ∧ validate_telemetry (rvalue r.2) = Ok e ∧
  TelemetryEventV1.replay_session_id e = sid ∧ TelemetryEventV1.machine_id e = machine ∧
  same_identity settings e = true.

Definition offset_of (offs : gmap TopicPartition Z) (r : WDraws * KafkaRecord) : gmap TopicPartition Z :=
  <[(rtopic r.2, rpartition r.2) := roffset r.2 + 1]> offs.

(** Whether a terminal status waits for the event. *)
Definition barrier (term : option ReplayStatusV1.t) (e : TelemetryEventV1.t) : bool :=
  match term with
  | Some status => bool_decide (ReplayStatusV1.state status = COMPLETED) &&
      bool_decide (ReplayStatusV1.last_sequence status = Some (TelemetryEventV1.sequence e))
  | None => false
  end.

Lemma handle_telemetry_ok r e b seq offs term log done s res b' :
  Stage b seq offs term log done s → of_session r e →
  OnlineFeatureBuilder.push (push_now r.1) e b = (Ok res, b') → Forall answered (features res) →
  ∃ more s1, published (features res) more ∧ builders s1 !! sid = Some b' ∧
    Stage b' (Some (TelemetryEventV1.sequence e)) (offset_of offs r) term (log ++ more) done s1 ∧
    handle r.1 r.2 s =
      match term with
      | Some status => whenM (barrier term e) (complete_with r.1 status) s1
      | None => (Ok (), s1)
      end.
Proof.
  intros Hs (Htopic & Hval & Hsid & Hm & Hid) Hpush Hvs.
  unfold handle_record. rewrite Htopic, bool_decide_eq_true_2 by done.
  unfold handle_telemetry_record. rewrite M_bind_run. unfold gets.
  rewrite (stage_blocked _ _ _ _ _ _ _ Hs), bool_decide_eq_false_2 by set_solver.
  unfold decode_message. rewrite Hval, M_bind_run, Hsid.
  rewrite bool_decide_eq_false_2 by apply (stage_failed _ _ _ _ _ _ _ Hs). rewrite Hid. cbn [negb].
  rewrite M_bind_run. unfold modify. unfold accept_event. rewrite M_bind_run, Hsid. unfold gets. rewrite M_bind_run.
  assert (new_builder settings e = fresh) as -> by (unfold new_builder; by rewrite Hsid, Hm).
  set (s0 := track_offset _ _ _ s).
  assert (Stage b seq (offset_of offs r) term log done s0) as Hs0.
  { destruct Hs. split; try done. simpl. rewrite lookup_insert_eq. simpl. by subst offs. }
  rewrite (stage_builder _ _ _ _ _ _ _ Hs0). unfold modify. rewrite M_bind_run. unfold on_builder. rewrite Hpush.
  rewrite M_bind_run, M_bind_run. set (s1 := set_sequence _ _ _).
  assert (Stage b' (Some (TelemetryEventV1.sequence e)) (offset_of offs r) term log done s1) as Hs1.
  { destruct Hs0. split; try done; simpl; by rewrite lookup_insert_eq. }
  set (after := whenM (negb (bool_decide (segment_closed_reason res = None))) (λ s, (Ok (), set_rolling sid ∅ s))).
  assert (∃ s2, after s1 = (Ok (), s2) ∧ builders s2 = builders s1 ∧
    Stage b' (Some (TelemetryEventV1.sequence e)) (offset_of offs r) term log done s2) as (s2 & -> & Hb2 & Hs2).
  { unfold after. destruct (negb _); eexists; (split; [reflexivity|]); (split; [done|]); [|done].
    destruct Hs1. by split. }
  destruct (process_all_ok r.1 (features res) _ _ _ _ _ _ _ Hs2 Hvs) as (more & s3 & Hr & Hp & Hs3 & Hb3).
  rewrite M_bind_run, Hr, M_bind_run. rewrite (stage_terminal _ _ _ _ _ _ _ Hs3).
  exists more, s3. split; [done|]. split; [rewrite Hb3, Hb2; simpl; by rewrite lookup_insert_eq|].
  split; [done|]. by destruct term.
Qed.

(** A list of events none of which a status waits for. *)
Lemma telemetry_ok rs evs : Forall2 of_session rs evs →
  ∀ b seq offs term log done s vs b',
  Stage b seq offs term log done s → Forall (λ e, barrier term e = false) evs →
  drive (zip (push_now <$> rs.*1) evs) b = (Ok vs, b') → Forall answered vs →
  ∃ more s', forM rs (λ r, handle r.1 r.2) s = (Ok (), s') ∧ published vs more ∧
    Stage b' (match last evs with Some e => Some (TelemetryEventV1.sequence e) | None => seq end)
      (foldl offset_of offs rs) term (log ++ more) done s'.
Proof.
  induction 1 as [|r e rs evs Hre _ IH]; intros b seq offs term log done s vs b' Hs Hbar Hd Hvs.
  { simpl in Hd. unfold mret, M_ret in Hd. simplify_eq. exists [], s. rewrite app_nil_r.
    split; [done|]. split; [apply published_nil|done]. }
  simpl in Hd. apply M_bind_Ok in Hd as (res & b1 & Hpush & Hd).
  apply M_bind_Ok in Hd as (vs2 & b2 & Hd & Hret). apply M_ret_Ok in Hret as [-> ->].
  apply Forall_app in Hvs as [Hv1 Hv2]. apply Forall_cons in Hbar as [Hb Hbar].
  destruct (handle_telemetry_ok r e _ _ _ _ _ _ _ _ _ Hs Hre Hpush Hv1) as (m1 & s1 & Hp1 & _ & Hs1 & Hr1).
  assert (handle r.1 r.2 s = (Ok (), s1)) as Hr1' by (rewrite Hr1; destruct term; by rewrite ?Hb).
  destruct (IH _ _ _ _ _ _ _ _ _ Hs1 Hbar Hd Hv2) as (m2 & s2 & Hr2 & Hp2 & Hs2).
  exists (m1 ++ m2), s2. simpl. rewrite M_bind_run, Hr1', Hr2. split; [done|].
  split; [by apply published_app|]. rewrite app_assoc, last_cons.
  by destruct (last evs).
Qed.

(** ** Status

    A [STOPPED] status completes a session that has got as far, too. *)
Definition of_status (r : WDraws * KafkaRecord) (status : ReplayStatusV1.t) : Prop :=
  rtopic r.2 = REPLAY_STATUS_TOPIC ∧ validate_status (rvalue r.2) = Ok status ∧
  ReplayStatusV1.replay_session_id status = sid ∧
  (ReplayStatusV1.state status = COMPLETED ∨ ReplayStatusV1.state status = STOPPED).

Lemma handle_status_ok r status n b seq offs term log done s :
  Stage b seq offs term log done s → of_status r status → ReplayStatusV1.last_sequence status = Some n →
  ∃ s1, handle r.1 r.2 s = whenM (n <=? default 0 seq) (complete_with r.1 status) s1 ∧
    builders s1 = builders s ∧ Stage b seq (offset_of offs r) (Some status) log done s1.
Proof.
  intros Hs (Htopic & Hval & Hsid & Hstate) Hn. unfold handle_record.
  rewrite Htopic, bool_decide_eq_false_2, bool_decide_eq_true_2 by done.
  unfold handle_status_record, decode_message. rewrite Hval, M_bind_run. unfold gets.
  rewrite (stage_own _ _ _ _ _ _ _ Hs), bool_decide_eq_false_2 by set_solver.
  rewrite M_bind_run, Hsid. unfold modify.
  exists (set_terminal sid status (track_offset sid (rtopic r.2, rpartition r.2) (roffset r.2) s)). split.
  - destruct Hstate as [->| ->]; rewrite M_bind_run, M_bind_run, Hn; simpl;
      by rewrite (stage_sequence _ _ _ _ _ _ _ Hs).
  - split; [done|]. destruct Hs. split; try done; simpl; rewrite lookup_insert_eq; [simpl; by subst offs|done].
Qed.
End Session.
