(* ===== verification/ArtifactIntegrity.v ===== *)
(** * Artifact integrity ([artifact_integrity.py])

    A manifest is the JSON object of its file; the files and their digests are
    arguments ([sha256_file] of a path is [sha256_hex] of its content). *)

From S2P Require Import Prelude PyText PyFloat PyHash PyJson.

Module PreparedArtifactIdentity.
Record t := mk {
  source_dataset_sha256 : string;
  contract_sha256 : string;
  parquet_sha256 : string;
  manifest_sha256 : string
}.
End PreparedArtifactIdentity.

(** [str(data.get(key, ""))] *)
Definition get_text (key : string) (data : list (string * json)) : result string :=
  match jget key data with Some v => py_str v | None => Ok ""%string end.

Definition load_self_hashed_manifest (data : list (string * json))
  : result (list (string * json)) :=
  supplied ← get_text "manifest_sha256" data;
  let unhashed := filter (λ kv : string * json, kv.1 ≠ "manifest_sha256"%string) data in
  canonical ← dumps_sorted (JObj unhashed);
  let actual := sha256_hex (encode canonical) in
  _ ← guard_exn (bool_decide (supplied = actual))
        (ArtifactIntegrityError "manifest self-hash mismatch");
  Ok data.

Definition verify_file_sha256 (content : bytes) (expected : string) : result string :=
  let actual := sha256_hex content in
  _ ← guard_exn (bool_decide (actual = expected)) (ArtifactIntegrityError "SHA-256 mismatch");
  Ok actual.

Definition verify_prepared_parquet (manifest_data : list (string * json)) (parquet : bytes)
    (expected_contract_sha256 expected_source_dataset_sha256 expected_output_sha256 : string)
  : result PreparedArtifactIdentity.t :=
  manifest ← load_self_hashed_manifest manifest_data;
  contract ← get_text "contract_sha256" manifest;
  source ← get_text "archive_sha256" manifest;
  declared_output ← get_text "output_sha256" manifest;
  _ ← guard_exn (bool_decide (contract = expected_contract_sha256))
        (ArtifactIntegrityError "prepared contract SHA-256 mismatch");
  _ ← guard_exn (bool_decide (source = expected_source_dataset_sha256))
        (ArtifactIntegrityError "prepared source SHA-256 mismatch");
  _ ← guard_exn (bool_decide (declared_output = expected_output_sha256))
        (ArtifactIntegrityError "prepared output SHA-256 mismatch");
  parquet_sha ← verify_file_sha256 parquet expected_output_sha256;
  manifest_sha ← (v ← of_option (KeyError "manifest_sha256") (jget "manifest_sha256" manifest); py_str v);
  Ok (PreparedArtifactIdentity.mk source contract parquet_sha manifest_sha).
