(* ===== verification/Replay.v ===== *)
(** * The replay source and session controller ([replay.py]) *)

From S2P Require Import Prelude PyText PyUuid PyTime PyFloat PyHash PyJson.
From S2P Require Import Messages KafkaIo ArtifactIntegrity.

Definition ALLOWED_TRANSITIONS (state : ReplayState) : list ReplayAction :=
  match state with
  | CREATED => [START]
  | RUNNING => [PAUSE; STOP]
  | PAUSED => [RESUME; STOP]
  | STOPPED | COMPLETED | FAILED => []
  end.

(** [td.total_seconds() / speed]: the two correctly rounded divisions. *)
Definition total_seconds (td : Z) : float := 
  if td =? 0 then f0 else if 0 <? td then float_of_ratio td usec else SFopp (float_of_ratio (- td) usec).

Definition pace_seconds (previous current : datetime) (speed : Z) : result float :=
  _ ← guard_exn (bool_decide (speed ∈ [1; 100; 1000]) && negb (current <=? previous))
        (ReplayContractError "invalid speed or non-increasing source time");
  Ok (fdiv (total_seconds (current - previous)) (float_of_Z speed)).

Module ReplayController.

Record t := mk {
  session_id : UUID;
  source_dataset_sha256 : string;
  contract_sha256 : string;
  state : ReplayState;
  speed : Z;
  range_start : option datetime;
  range_end : option datetime;
  current_source_timestamp : option datetime;
  last_sequence : option Z;
  error_code : option string
}.

Definition created (session_id : UUID) (dataset_sha256 contract_sha256 : string) : t :=
  mk session_id dataset_sha256 contract_sha256 CREATED 1 None None None None None.

Definition apply (self : t) (command : ReplayCommandV1.t) : result t :=
  _ ← guard_exn (bool_decide (ReplayCommandV1.replay_session_id command = session_id self))
        (ReplayContractError "Command replay_session_id does not match controller session");
  _ ← guard_exn (bool_decide (ReplayCommandV1.action command ∈ ALLOWED_TRANSITIONS (state self)))
        (ReplayContractError "Transition is not allowed");
  Ok (match ReplayCommandV1.action command with
      | START => mk (session_id self)
          (ReplayCommandV1.source_dataset_sha256 command) (ReplayCommandV1.contract_sha256 command)
          RUNNING (ReplayCommandV1.speed command)
          (ReplayCommandV1.range_start command) (ReplayCommandV1.range_end command)
          (Some (ReplayCommandV1.source_timestamp command)) (Some 0) None
      | PAUSE => mk (session_id self) (source_dataset_sha256 self) (contract_sha256 self)
          PAUSED (speed self) (range_start self) (range_end self)
          (Some (ReplayCommandV1.source_timestamp command)) (last_sequence self) None
      | RESUME => mk (session_id self) (source_dataset_sha256 self) (contract_sha256 self)
          RUNNING (ReplayCommandV1.speed command) (range_start self) (range_end self)
          (Some (ReplayCommandV1.source_timestamp command)) (last_sequence self) None
      | STOP => mk (session_id self) (source_dataset_sha256 self) (contract_sha256 self)
          STOPPED (speed self) (range_start self) (range_end self)
          (Some (ReplayCommandV1.source_timestamp command))
          (Some (default 0 (last_sequence self))) None
      end).

Definition mark_completed (self : t) (last_sequence : Z) (source_timestamp : datetime) : t :=
  mk (session_id self) (source_dataset_sha256 self) (contract_sha256 self) COMPLETED (speed self)
    (range_start self) (range_end self) (Some source_timestamp) (Some last_sequence) None.

Definition mark_failed (self : t) (error_code : string) (last_sequence : Z)
    (source_timestamp : datetime) : t :=
  mk (session_id self) (source_dataset_sha256 self) (contract_sha256 self) FAILED (speed self)
    (range_start self) (range_end self) (Some source_timestamp) (Some last_sequence) (Some error_code).

(** [f"{self.state}:{self.last_sequence}"] *)
Definition state_name (s : ReplayState) : string :=
  match s with
  | CREATED => "CREATED" | RUNNING => "RUNNING" | PAUSED => "PAUSED"
  | STOPPED => "STOPPED" | COMPLETED => "COMPLETED" | FAILED => "FAILED"
  end.
Definition sequence_text (n : option Z) : string :=
  match n with Some n => text (dec_chars n) | None => "None" end.

(** [status(emitted_at)]; [now] is [datetime.now(UTC)]. *)
Definition status (self : t) (emitted_at : option aware) (now : aware) : result ReplayStatusV1.t :=
  let emitted := default now emitted_at in
  let source_ts :=
    match current_source_timestamp self, range_start self with
    | Some ts, _ => ts
    | None, Some rs => rs
    | None, None => datetime_of 2020 1 1 0 0 0 0
    end in
  message_id ← runtime_id "status" (session_id self)
    (state_name (state self) +:+ ":" +:+ sequence_text (last_sequence self))%string;
  ReplayStatusV1.make
    (* message_id *) message_id
    (* replay_session_id *) (session_id self)
    (* source_dataset_sha256 *) (source_dataset_sha256 self)
    (* contract_sha256 *) (contract_sha256 self)
    (* source_timestamp *) (Naive source_ts)
    (* emitted_at *) (Aware emitted)
    (* state *) (state self)
    (* last_sequence *) (last_sequence self)
    (* error_code *) (error_code self).

End ReplayController.

(** ** The telemetry table *)
Module TelemetryRow.
Record t := mk {
  timestamp : datetime;
  tp2 : float; tp3 : float; h1 : float; dv_pressure : float; reservoirs : float;
  oil_temperature : float; motor_current : float;
  comp : Z; dv_electric : Z; towers : Z; mpg : Z; lps : Z;
  pressure_switch : Z; oil_level : Z; caudal_impulses : Z
}.
End TelemetryRow.

(** pyarrow: [table.filter(mask)] for a mask computed from the timestamp column
    keeps the rows whose timestamp satisfies it, in order. *)
Class TableOps := {
  filter_rows : (datetime → bool) → list TelemetryRow.t → list TelemetryRow.t;
  filter_rows_spec : ∀ mask rows,
    filter_rows mask rows = filter (λ r, mask (TelemetryRow.timestamp r) = true) rows
}.

(** A generator: the values it yields and the exception that ends it, if any. *)
Record Gen (A : Type) := mkGen { yields : list A; ending : option exn }.
Arguments mkGen {A} yields ending.
Arguments yields {A} g.
Arguments ending {A} g.

(** [for i in range(n - 1): if ts[i] >= ts[i + 1]: raise] *)
Fixpoint check_increasing (ts : list datetime) : result unit :=
  match ts with
  | t :: ((t' :: _) as ts') =>
      _ ← guard_exn (negb (t' <=? t)) (ReplayContractError "Non-increasing timestamp detected");
      check_increasing ts'
  | _ => Ok ()
  end.

Module ReplaySource.

(** The opened source: the rows of the file, its verified identity and the
    clock readings of the events (by sequence number). *)
Record t := mk {
  rows : list TelemetryRow.t;
  identity : PreparedArtifactIdentity.t;
  clock : Z → aware
}.

Definition MACHINE_ID : string := "metropt-compressor-01".

Definition event_of (self : t) (command : ReplayCommandV1.t) (seq : Z) (row : TelemetryRow.t)
  : result TelemetryEventV1.t :=
  msg_id ← runtime_id "telemetry" (ReplayCommandV1.replay_session_id command) (text (dec_chars seq));
  TelemetryEventV1.make
    (* message_id *) msg_id
    (* replay_session_id *) (ReplayCommandV1.replay_session_id command)
    (* source_dataset_sha256 *) (PreparedArtifactIdentity.source_dataset_sha256 (identity self))
    (* contract_sha256 *) (PreparedArtifactIdentity.contract_sha256 (identity self))
    (* source_timestamp *) (Naive (TelemetryRow.timestamp row))
    (* emitted_at *) (Aware (clock self seq))
    (* machine_id *) MACHINE_ID
    (* sequence *) seq
    (TelemetryRow.tp2 row) (TelemetryRow.tp3 row) (TelemetryRow.h1 row)
    (TelemetryRow.dv_pressure row) (TelemetryRow.reservoirs row)
    (TelemetryRow.oil_temperature row) (TelemetryRow.motor_current row)
    (TelemetryRow.comp row) (TelemetryRow.dv_electric row) (TelemetryRow.towers row)
    (TelemetryRow.mpg row) (TelemetryRow.lps row) (TelemetryRow.pressure_switch row)
    (TelemetryRow.oil_level row) (TelemetryRow.caudal_impulses row).

(** The [for row in df.itertuples()] loop. *)
Fixpoint emit (self : t) (command : ReplayCommandV1.t) (seq : Z) (rows : list TelemetryRow.t)
  : Gen TelemetryEventV1.t :=
  match rows with
  | [] => mkGen [] None
  | row :: rows =>
      match event_of self command seq row with
      | Ok event => let g := emit self command (seq + 1) rows in mkGen (event :: yields g) (ending g)
      | Err e => mkGen [] (Some e)
      end
  end.

Definition in_range (lower : datetime) (strict : bool) (upper ts : datetime) : bool :=
  (if strict then lower <? ts else lower <=? ts) && (ts <? upper).

Definition iter_events `{TableOps} (self : t) (command : ReplayCommandV1.t) (start_sequence : Z)
    (resume_from_timestamp : option datetime) : Gen TelemetryEventV1.t :=
  match ReplayCommandV1.range_start command, ReplayCommandV1.range_end command with
  | Some range_start, Some range_end =>
      let lower_bound := default range_start resume_from_timestamp in
      let strict := bool_decide (is_Some resume_from_timestamp) in
      let filtered := filter_rows (in_range lower_bound strict range_end) (rows self) in
      match check_increasing (TelemetryRow.timestamp <$> filtered) with
      | Ok _ => emit self command start_sequence filtered
      | Err e => mkGen [] (Some e)
      end
  | _, _ => mkGen [] (Some (ReplayContractError "ReplayCommand must specify range_start and range_end"))
  end.

End ReplaySource.
