(* ===== verification/ReplayTheory.v ===== *)
(** * The replay source is deterministic and resumable; the controller is safe *)

From S2P Require Import Prelude PyText PyUuid PyTime PyFloat PyHash PyJson.
From S2P Require Import Messages KafkaIo ArtifactIntegrity Replay.

(** ** Identifiers *)
Lemma num_digits_pos f d : ∃ n, num_digits f d = S n.
Proof. destruct f; simpl; [eauto|]. case_match; eauto. Qed.

Lemma dec_chars_nonempty z : dec_chars z ≠ [].
Proof.
  unfold dec_chars. cbv zeta. intros Hnil. apply app_eq_nil in Hnil as [_ Hnil].
  apply (f_equal length) in Hnil. rewrite numeral_length in Hnil.
  destruct (num_digits_pos (Z.to_nat (Z.log2 (Z.abs z))) (Z.abs z)) as [n Hn].
  rewrite Hn in Hnil. done.
Qed.

Lemma nonempty_text (l : list ascii) : l ≠ [] → nonempty (text l) = true.
Proof. by destruct l. Qed.

Lemma runtime_id_seq kind sid n :
  nonempty kind = true → ∃ u, runtime_id kind sid (text (dec_chars n)) = Ok u.
Proof.
  intros Hk. unfold runtime_id. rewrite Hk, nonempty_text by apply dec_chars_nonempty. simpl. eauto.
Qed.

(** ** The stream *)

(** An event without the part that depends on the clock. *)
Definition erase_telemetry (e : TelemetryEventV1.t) : TelemetryEventV1.t :=
  TelemetryEventV1.mk (TelemetryEventV1.message_id e) (TelemetryEventV1.replay_session_id e)
    (TelemetryEventV1.source_dataset_sha256 e) (TelemetryEventV1.contract_sha256 e)
    (TelemetryEventV1.source_timestamp e) (mkAware 0 0) (TelemetryEventV1.machine_id e)
    (TelemetryEventV1.sequence e) (TelemetryEventV1.tp2 e) (TelemetryEventV1.tp3 e)
    (TelemetryEventV1.h1 e) (TelemetryEventV1.dv_pressure e) (TelemetryEventV1.reservoirs e)
    (TelemetryEventV1.oil_temperature e) (TelemetryEventV1.motor_current e)
    (TelemetryEventV1.comp e) (TelemetryEventV1.dv_electric e) (TelemetryEventV1.towers e)
    (TelemetryEventV1.mpg e) (TelemetryEventV1.lps e) (TelemetryEventV1.pressure_switch e)
    (TelemetryEventV1.oil_level e) (TelemetryEventV1.caudal_impulses e).

Definition erase_gen (g : Gen TelemetryEventV1.t) : Gen TelemetryEventV1.t :=
  mkGen (erase_telemetry <$> yields g) (ending g).

(** Two sources over the same verified file. *)
Definition same_file (a b : ReplaySource.t) : Prop :=
  ReplaySource.rows a = ReplaySource.rows b ∧ ReplaySource.identity a = ReplaySource.identity b.

(** Two computations that start with the same steps. *)
Ltac step_both :=
  repeat match goal with
  | |- _ <$> (?m ≫= _) = _ <$> (?m ≫= _) =>
      destruct m; cbn [mbind result_bind require_aware]; [|reflexivity]
  end.

Lemma event_of_clock a b cmd seq row :
  same_file a b →
  erase_telemetry <$> ReplaySource.event_of a cmd seq row =
  erase_telemetry <$> ReplaySource.event_of b cmd seq row.
Proof.
  intros [_ Hid]. unfold ReplaySource.event_of. rewrite Hid.
  step_both. unfold TelemetryEventV1.make. step_both. reflexivity.
Qed.

Lemma emit_clock a b cmd seq rows :
  same_file a b →
  erase_gen (ReplaySource.emit a cmd seq rows) = erase_gen (ReplaySource.emit b cmd seq rows).
Proof.
  intros Hab. revert seq. induction rows as [|row rows IH]; intros seq; simpl; [done|].
  pose proof (event_of_clock a b cmd seq row Hab) as Hev. specialize (IH (seq + 1)).
  pose proof (f_equal yields IH) as Hy. pose proof (f_equal ending IH) as He. simpl in Hy, He.
  destruct (ReplaySource.event_of a cmd seq row) as [x|], (ReplaySource.event_of b cmd seq row) as [y|];
    try done; [|by injection Hev as ->].
  assert (erase_telemetry x = erase_telemetry y) as Hxy by exact (f_equal (default (erase_telemetry x) ∘ result_to_option) Hev).
  unfold erase_gen. cbn [yields ending]. rewrite He, !fmap_cons, Hxy. by f_equal; f_equal.
Qed.

(** The fields of an emitted event. *)
Lemma event_of_fields src cmd seq row e :
  ReplaySource.event_of src cmd seq row = Ok e →
  TelemetryEventV1.sequence e = seq ∧
  TelemetryEventV1.source_timestamp e = TelemetryRow.timestamp row ∧
  TelemetryEventV1.replay_session_id e = ReplayCommandV1.replay_session_id cmd ∧
  runtime_id "telemetry" (ReplayCommandV1.replay_session_id cmd) (text (dec_chars seq))
    = Ok (TelemetryEventV1.message_id e).
Proof.
  unfold ReplaySource.event_of, TelemetryEventV1.make, field. intros He.
  inv_res.
  match goal with Hn : require_naive _ _ = _ |- _ => cbn in Hn; injection Hn as <- end.
  by split_and!.
Qed.

(** What the events of a generator are: numbered from [seq] on, with the
    timestamps of a prefix of the rows, of all of them when nothing was raised. *)
Lemma emit_spec src cmd seq rows :
  let g := ReplaySource.emit src cmd seq rows in
  (∀ i e, yields g !! i = Some e →
     TelemetryEventV1.sequence e = seq + Z.of_nat i ∧
     TelemetryRow.timestamp <$> rows !! i = Some (TelemetryEventV1.source_timestamp e) ∧
     TelemetryEventV1.replay_session_id e = ReplayCommandV1.replay_session_id cmd) ∧
  (ending g = None → length (yields g) = length rows).
Proof.
  revert seq. induction rows as [|row rows IH]; intros seq; simpl; [done|].
  destruct (ReplaySource.event_of src cmd seq row) as [e|] eqn:He; [|done]. simpl.
  apply event_of_fields in He as (Hseq & Hts & Hsid & _). destruct (IH (seq + 1)) as [Hy Hl].
  split; [|intros Hn; f_equal; auto].
  intros [|i] e' Hi; simpl in *; [simplify_eq; rewrite Z.add_0_r; by rewrite Hts|].
  destruct (Hy _ _ Hi) as (-> & -> & ->). split_and!; [lia|done|done].
Qed.

(** Emitting from the [k]-th row on gives the events from the [k]-th on. *)
Lemma emit_drop src cmd seq rows k :
  (k ≤ length (yields (ReplaySource.emit src cmd seq rows)))%nat →
  ReplaySource.emit src cmd (seq + Z.of_nat k) (drop k rows) =
    mkGen (drop k (yields (ReplaySource.emit src cmd seq rows)))
      (ending (ReplaySource.emit src cmd seq rows)).
Proof.
  revert seq k. induction rows as [|row rows IH]; intros seq k Hn.
  { simpl in *. by destruct k; [|lia]. }
  destruct k as [|k].
  { rewrite Z.add_0_r, !drop_0. by destruct (ReplaySource.emit src cmd seq (row :: rows)). }
  simpl in *. destruct (ReplaySource.event_of src cmd seq row) as [e|] eqn:He; simpl in *; [|lia].
  rewrite <-IH by lia. f_equal. lia.
Qed.

Lemma check_increasing_sorted ts : check_increasing ts = Ok () → StronglySorted Z.lt ts.
Proof.
  intros Hc. apply Sorted_StronglySorted; [intros x y z; lia|].
  induction ts as [|t ts IH]; [constructor|]. simpl in Hc.
  destruct ts as [|t' ts]; [repeat constructor|].
  inv_res. apply Z.leb_gt in H. constructor; [by apply IH|]. by constructor.
Qed.

Lemma sorted_check_increasing ts : StronglySorted Z.lt ts → check_increasing ts = Ok ().
Proof.
  induction 1 as [|t ts Hs IH Ht]; [done|]. simpl. destruct ts as [|t' ts]; [done|].
  inversion Ht; subst. rewrite (proj2 (Z.leb_gt t' t)) by lia. exact IH.
Qed.

Section Stream.
Context `{TableOps}.

(** The rows a replay covers. *)
Definition selected (src : ReplaySource.t) (lower : datetime) (strict : bool) (upper : datetime)
  : list TelemetryRow.t :=
  filter (λ r, ReplaySource.in_range lower strict upper (TelemetryRow.timestamp r) = true)
    (ReplaySource.rows src).

Lemma iter_events_eq src cmd seq resume rs re :
  ReplayCommandV1.range_start cmd = Some rs → ReplayCommandV1.range_end cmd = Some re →
  ReplaySource.iter_events src cmd seq resume =
    let rows := selected src (default rs resume) (bool_decide (is_Some resume)) re in
    match check_increasing (TelemetryRow.timestamp <$> rows) with
    | Ok _ => ReplaySource.emit src cmd seq rows
    | Err e => mkGen [] (Some e)
    end.
Proof.
  intros Hs He. unfold ReplaySource.iter_events. rewrite Hs, He. cbv zeta.
  rewrite filter_rows_spec. reflexivity.
Qed.

(** Restarting strictly after the timestamp of the [k]-th selected row selects
    the rows after it. *)
Lemma selected_after src rs re ts l1 row l2 :
  selected src rs false re = l1 ++ row :: l2 →
  StronglySorted Z.lt (TelemetryRow.timestamp <$> selected src rs false re) →
  TelemetryRow.timestamp row = ts →
  selected src ts true re = l2.
Proof.
  intros Hsel Hs <-. apply (sorted_keys TelemetryRow.timestamp) in Hs. rewrite Hsel in Hs.
  rewrite <-(filter_beyond TelemetryRow.timestamp l1 row l2 Hs), <-Hsel.
  unfold selected. rewrite list_filter_filter. apply list_filter_iff.
  intros x. unfold ReplaySource.in_range. rewrite !andb_true_iff, !Z.ltb_lt, Z.leb_le.
  assert (rs ≤ TelemetryRow.timestamp row); [|lia].
  assert (row ∈ selected src rs false re) as Hin
    by (rewrite Hsel; apply elem_of_app; right; apply elem_of_cons; by left).
  apply list_elem_of_filter in Hin as [Hin _]. unfold ReplaySource.in_range in Hin.
  rewrite andb_true_iff, Z.leb_le in Hin. lia.
Qed.

Lemma sorted_drop k (ts : list Z) : StronglySorted Z.lt ts → StronglySorted Z.lt (drop k ts).
Proof.
  intros Hs. rewrite <-(take_drop k ts) in Hs. by apply StronglySorted_app in Hs as (_ & _ & ?).
Qed.

(** A replay resumed after its [k]-th event goes on with the next one. *)
Lemma resume_events src src' cmd k e :
  same_file src' src →
  yields (ReplaySource.iter_events src cmd 1 None) !! k = Some e →
  erase_gen (ReplaySource.iter_events src' cmd (Z.of_nat (S k) + 1)
    (Some (TelemetryEventV1.source_timestamp e))) =
  mkGen (erase_telemetry <$> drop (S k) (yields (ReplaySource.iter_events src cmd 1 None)))
    (ending (ReplaySource.iter_events src cmd 1 None)).
Proof.
  intros Hsame Hk.
  destruct (ReplayCommandV1.range_start cmd) as [rs|] eqn:Hrs;
    [|by (unfold ReplaySource.iter_events in Hk; rewrite Hrs in Hk)].
  destruct (ReplayCommandV1.range_end cmd) as [re|] eqn:Hre;
    [|by (unfold ReplaySource.iter_events in Hk; rewrite Hrs, Hre in Hk)].
  rewrite (iter_events_eq src _ _ None rs re Hrs Hre) in Hk |- *.
  rewrite (iter_events_eq src' _ _ _ rs re Hrs Hre). cbv zeta in *. simpl default in *.
  rewrite (bool_decide_eq_false_2 (is_Some None)) in * by (by intros [? ?]).
  rewrite (bool_decide_eq_true_2 (is_Some (Some _))) by eauto.
  destruct (check_increasing _) as [[]|] eqn:Hc; [|done].
  apply check_increasing_sorted in Hc as Hs.
  destruct (emit_spec src cmd 1 (selected src rs false re)) as [Hspec _].
  destruct (Hspec _ _ Hk) as (_ & Hts & _).
  apply fmap_Some in Hts as (row & Hrow & Hts).
  assert (selected src rs false re =
    take k (selected src rs false re) ++ row :: drop (S k) (selected src rs false re)) as Hsplit
    by (symmetry; by apply take_drop_middle).
  assert (selected src' (TelemetryEventV1.source_timestamp e) true re =
    drop (S k) (selected src rs false re)) as Hsel.
  { replace (selected src' _ true re) with (selected src (TelemetryEventV1.source_timestamp e) true re)
      by (unfold selected; by rewrite (proj1 Hsame)).
    by eapply selected_after. }
  simpl. rewrite Hsel, fmap_drop, sorted_check_increasing by (by apply sorted_drop).
  rewrite (emit_clock src' src) by done.
  replace (Z.of_nat (S k) + 1) with (1 + Z.of_nat (S k)) by lia.
  rewrite emit_drop by (apply lookup_lt_Some in Hk; lia). done.
Qed.

(** The stream depends on a command through its session and its range only. *)
Definition same_replay (c c' : ReplayCommandV1.t) : Prop :=
  ReplayCommandV1.replay_session_id c = ReplayCommandV1.replay_session_id c' ∧
  ReplayCommandV1.range_start c = ReplayCommandV1.range_start c' ∧
  ReplayCommandV1.range_end c = ReplayCommandV1.range_end c'.

Lemma emit_replay src c c' seq rows :
  same_replay c c' → ReplaySource.emit src c seq rows = ReplaySource.emit src c' seq rows.
Proof.
  intros (Hsid & _). revert seq. induction rows as [|row rows IH]; intros seq; [done|].
  simpl. unfold ReplaySource.event_of. rewrite Hsid. by rewrite IH.
Qed.

Lemma iter_events_replay src c c' seq resume :
  same_replay c c' →
  ReplaySource.iter_events src c seq resume = ReplaySource.iter_events src c' seq resume.
Proof.
  intros Hc. unfold ReplaySource.iter_events. pose proof Hc as (_ & Hs & He).
  rewrite Hs, He. do 3 (case_match; try done). by apply emit_replay.
Qed.

Lemma iter_events_clock src src' c seq resume :
  same_file src' src →
  erase_gen (ReplaySource.iter_events src' c seq resume) =
  erase_gen (ReplaySource.iter_events src c seq resume).
Proof.
  intros Hs. unfold ReplaySource.iter_events. rewrite (proj1 Hs).
  do 3 (case_match; try done). by apply emit_clock.
Qed.

(** The events of a stream: numbered from 1 on, in the order of strictly
    increasing timestamps inside the range, for the session of the command. *)
Lemma iter_events_spec src c k e :
  yields (ReplaySource.iter_events src c 1 None) !! k = Some e →
  TelemetryEventV1.sequence e = Z.of_nat (S k) ∧
  TelemetryEventV1.replay_session_id e = ReplayCommandV1.replay_session_id c.
Proof.
  unfold ReplaySource.iter_events. repeat (case_match; try done). intros Hk.
  apply emit_spec in Hk as (-> & _ & ->). split; [lia|done].
Qed.

Lemma sorted_take k (ts : list Z) : StronglySorted Z.lt ts → StronglySorted Z.lt (take k ts).
Proof.
  intros Hs. rewrite <-(take_drop k ts) in Hs. by apply StronglySorted_app in Hs as (_ & ? & _).
Qed.

Lemma event_of_id src cmd seq row e :
  ReplaySource.event_of src cmd seq row = Ok e →
  runtime_id "telemetry" (ReplayCommandV1.replay_session_id cmd)
    (text (dec_chars (TelemetryEventV1.sequence e))) = Ok (TelemetryEventV1.message_id e).
Proof. intros He. by apply event_of_fields in He as (-> & _ & _ & ->). Qed.

Lemma emit_ids src cmd seq rows e :
  e ∈ yields (ReplaySource.emit src cmd seq rows) →
  runtime_id "telemetry" (ReplayCommandV1.replay_session_id cmd)
    (text (dec_chars (TelemetryEventV1.sequence e))) = Ok (TelemetryEventV1.message_id e).
Proof.
  revert seq. induction rows as [|row rows IH]; intros seq He; simpl in He; [set_solver|].
  destruct (ReplaySource.event_of src cmd seq row) as [e'|] eqn:Hev; simpl in He; [|set_solver].
  apply elem_of_cons in He as [->|He]; [by eapply event_of_id|by eapply IH].
Qed.

Lemma emit_timestamps src cmd seq rows :
  let g := ReplaySource.emit src cmd seq rows in
  TelemetryEventV1.source_timestamp <$> yields g =
  take (length (yields g)) (TelemetryRow.timestamp <$> rows).
Proof.
  cbv zeta. revert seq. induction rows as [|row rows IH]; intros seq; simpl; [done|].
  destruct (ReplaySource.event_of src cmd seq row) as [e|] eqn:Hev; simpl; [|done].
  apply event_of_fields in Hev as (_ & -> & _). f_equal. apply IH.
Qed.

Lemma emit_sequences src cmd seq rows :
  let g := ReplaySource.emit src cmd seq rows in
  TelemetryEventV1.sequence <$> yields g = seqZ seq (Z.of_nat (length (yields g))).
Proof.
  cbv zeta. revert seq. induction rows as [|row rows IH]; intros seq; simpl; [done|].
  destruct (ReplaySource.event_of src cmd seq row) as [e|] eqn:Hev; cbn [yields length]; [|done].
  rewrite fmap_cons. apply event_of_fields in Hev as (-> & _). rewrite seqZ_cons by lia. f_equal.
  rewrite IH. f_equal; lia.
Qed.

(** The stream of a command with a range. *)
Lemma iter_events_shape src cmd rs re :
  ReplayCommandV1.range_start cmd = Some rs → ReplayCommandV1.range_end cmd = Some re →
  let g := ReplaySource.iter_events src cmd 1 None in
  TelemetryEventV1.sequence <$> yields g = seqZ 1 (Z.of_nat (length (yields g))) ∧
  (∃ k ts, TelemetryEventV1.source_timestamp <$> yields g = take k ts ∧ StronglySorted Z.lt ts) ∧
  (∀ e, e ∈ yields g →
     rs ≤ TelemetryEventV1.source_timestamp e < re ∧
     TelemetryEventV1.replay_session_id e = ReplayCommandV1.replay_session_id cmd ∧
     runtime_id "telemetry" (ReplayCommandV1.replay_session_id cmd)
       (text (dec_chars (TelemetryEventV1.sequence e))) = Ok (TelemetryEventV1.message_id e)) ∧
  (ending g = None →
     TelemetryEventV1.source_timestamp <$> yields g =
     TelemetryRow.timestamp <$> filter (λ r, rs ≤ TelemetryRow.timestamp r < re) (ReplaySource.rows src)).
Proof.
  intros Hs He. cbv zeta. rewrite (iter_events_eq src cmd 1 None rs re Hs He). cbv zeta. simpl default.
  rewrite (bool_decide_eq_false_2 (is_Some None)) by (by intros [? ?]).
  destruct (check_increasing _) as [[]|] eqn:Hc.
  2:{ split_and!; [done|exists 0%nat, []; split; [done|apply SSorted_nil]|intros e' Hin; by apply not_elem_of_nil in Hin|done]. }
  apply check_increasing_sorted in Hc.
  assert (selected src rs false re = filter (λ r, rs ≤ TelemetryRow.timestamp r < re) (ReplaySource.rows src)) as Hsel.
  { apply list_filter_iff. intros r. unfold ReplaySource.in_range. rewrite andb_true_iff, Z.leb_le, Z.ltb_lt. lia. }
  split_and!; [apply emit_sequences|by eexists _, _; split; [apply emit_timestamps|]| |].
  - intros e Hin. split; [|split; [|by eapply emit_ids]].
    + apply list_elem_of_lookup in Hin as [i Hi].
      apply emit_spec in Hi as (_ & Hts & _). apply fmap_Some in Hts as (row & Hrow & ->).
      apply list_elem_of_lookup_2 in Hrow. rewrite Hsel in Hrow. by apply list_elem_of_filter in Hrow as [? _].
    + apply list_elem_of_lookup in Hin as [i Hi]. by apply emit_spec in Hi as (_ & _ & ->).
  - intros Hend. rewrite emit_timestamps, (proj2 (emit_spec _ _ _ _) Hend).
    rewrite <-(length_fmap TelemetryRow.timestamp), firstn_all. by rewrite Hsel.
Qed.
End Stream.
