(* ===== verification/AlertPolicy.v ===== *)
(** * The calibration-locked alert policy ([alert_policy.py])

    The offline simulation of an alert stream, the cost of a candidate policy
    on the calibration windows, the choice of a policy, and the self-hash that
    locks it.  pandas (sorting a frame, the extrema of a column) is a parameter. *)

From S2P Require Import Prelude PyText PyUuid PyTime PyFloat PyHash PyJson.

Definition PERSISTENCE_CANDIDATES : list Z := [1; 2; 3].
Definition COOLDOWN_CANDIDATES : list Z := [1; 2; 3; 6].
Definition MERGE_GAP_SECONDS_CANDIDATES : list Z := [0; 300; 900].

Module PolicyMetrics.
Record t := mk { false_episodes_per_day : float; time_in_alert : float }.
End PolicyMetrics.

Module PolicySelection.
Record t := mk {
  persistence : Z;
  cooldown : Z;
  merge_gap_seconds : Z;
  metrics : PolicyMetrics.t
}.
End PolicySelection.

Module LockedAlertPolicyV1.

Record t := mk {
  schema_version : string;
  source_split : string;
  source_scores_sha256 : string;
  source_dataset_sha256 : string;
  contract_sha256 : string;
  model_id : string;
  model_version : string;
  threshold : float;
  stride_seconds : Z;
  persistence_decisions : Z;
  cooldown_decisions : Z;
  merge_gap_seconds : Z;
  calibration_false_episodes_per_day : float;
  calibration_time_in_alert : float;
  policy_sha256 : string
}.

(** [asdict(self)] *)
Definition to_dict (p : t) : list (string * json) :=
  [ ("schema_version", JStr (schema_version p));
    ("source_split", JStr (source_split p));
    ("source_scores_sha256", JStr (source_scores_sha256 p));
    ("source_dataset_sha256", JStr (source_dataset_sha256 p));
    ("contract_sha256", JStr (contract_sha256 p));
    ("model_id", JStr (model_id p));
    ("model_version", JStr (model_version p));
    ("threshold", JFloat (threshold p));
    ("stride_seconds", JInt (stride_seconds p));
    ("persistence_decisions", JInt (persistence_decisions p));
    ("cooldown_decisions", JInt (cooldown_decisions p));
    ("merge_gap_seconds", JInt (merge_gap_seconds p));
    ("calibration_false_episodes_per_day", JFloat (calibration_false_episodes_per_day p));
    ("calibration_time_in_alert", JFloat (calibration_time_in_alert p));
    ("policy_sha256", JStr (policy_sha256 p)) ]%string.

End LockedAlertPolicyV1.

(** The dictionary [payload] of [lock_alert_policy] before its hash is added,
    and the policy the hash is added to. *)
Definition payload (p : LockedAlertPolicyV1.t) : list (string * json) :=
  removelast (LockedAlertPolicyV1.to_dict p).
Definition signed (p : LockedAlertPolicyV1.t) (sha : string) : LockedAlertPolicyV1.t :=
  LockedAlertPolicyV1.mk
    (LockedAlertPolicyV1.schema_version p) (LockedAlertPolicyV1.source_split p)
    (LockedAlertPolicyV1.source_scores_sha256 p) (LockedAlertPolicyV1.source_dataset_sha256 p)
    (LockedAlertPolicyV1.contract_sha256 p) (LockedAlertPolicyV1.model_id p)
    (LockedAlertPolicyV1.model_version p) (LockedAlertPolicyV1.threshold p)
    (LockedAlertPolicyV1.stride_seconds p) (LockedAlertPolicyV1.persistence_decisions p)
    (LockedAlertPolicyV1.cooldown_decisions p) (LockedAlertPolicyV1.merge_gap_seconds p)
    (LockedAlertPolicyV1.calibration_false_episodes_per_day p)
    (LockedAlertPolicyV1.calibration_time_in_alert p) sha.

(** ** The self-hash *)
Definition compute_policy_sha256 (policy_data : list (string * json)) : result string :=
  let copy_payload := filter (λ kv : string * json, kv.1 ≠ "policy_sha256"%string) policy_data in
  canonical_json ← dumps_canonical (JObj copy_payload);
  Ok (sha256_hex (encode canonical_json)).

Definition verify_policy_integrity (policy : LockedAlertPolicyV1.t) : result unit :=
  expected_sha ← compute_policy_sha256 (LockedAlertPolicyV1.to_dict policy);
  guard_exn (bool_decide (LockedAlertPolicyV1.policy_sha256 policy = expected_sha))
    (ValueError "Alert policy integrity check failed").

(** ** Simulation of one stream *)

(** [_step_anomaly]: new activity, new anomaly streak, episodes opened. *)
Definition step_anomaly (ts : datetime) (is_active : bool) (anomaly_streak : Z)
    (last_resolution : option datetime) (persistence merge_gap_seconds : Z) : bool * Z * Z :=
  let new_anomaly_streak := anomaly_streak + 1 in
  if negb is_active && (persistence <=? new_anomaly_streak) then
    let is_merged :=
      match last_resolution with
      | Some r => (0 <? merge_gap_seconds) && total_seconds_leb (ts - r) merge_gap_seconds
      | None => false
      end in
    (true, new_anomaly_streak, if is_merged then 0 else 1)
  else (is_active, new_anomaly_streak, 0).

(** [_step_normal]: new activity, new normal streak, resolution time if any. *)
Definition step_normal (ts : datetime) (is_active : bool) (normal_streak cooldown : Z)
  : bool * Z * option datetime :=
  let new_normal_streak := normal_streak + 1 in
  if is_active && (cooldown <=? new_normal_streak)
  then (false, new_normal_streak, Some ts)
  else (is_active, new_normal_streak, None).

(** The local variables of [_simulate_alert_stream]. *)
Module SimState.
Record t := mk {
  is_active : bool;
  anomaly_streak : Z;
  normal_streak : Z;
  last_resolution : option datetime;
  episodes : Z;
  alert_window_count : Z
}.
End SimState.

Definition sim_init : SimState.t := SimState.mk false 0 0 None 0 0.

Definition sim_step (persistence cooldown merge_gap_seconds : Z) (s : SimState.t)
    (row : datetime * bool) : SimState.t :=
  let '(ts, is_anom) := row in
  let s' :=
    if is_anom : bool then
      let '(active, streak, ep_inc) :=
        step_anomaly ts (SimState.is_active s) (SimState.anomaly_streak s) (SimState.last_resolution s)
          persistence merge_gap_seconds in
      SimState.mk active streak 0 (SimState.last_resolution s) (SimState.episodes s + ep_inc) (SimState.alert_window_count s)
    else
      let '(active, streak, res) := step_normal ts (SimState.is_active s) (SimState.normal_streak s) cooldown in
      SimState.mk active 0 streak (match res with Some _ => res | None => SimState.last_resolution s end)
        (SimState.episodes s) (SimState.alert_window_count s) in
  if SimState.is_active s'
  then SimState.mk true (SimState.anomaly_streak s') (SimState.normal_streak s') (SimState.last_resolution s') (SimState.episodes s')
         (SimState.alert_window_count s' + 1)
  else s'.

Definition sim_run (persistence cooldown merge_gap_seconds : Z) (rows : list (datetime * bool))
  : SimState.t := foldl (sim_step persistence cooldown merge_gap_seconds) sim_init rows.

(** ** Score frames *)

(** A timestamp cell is an ISO text or a timestamp. *)
Inductive cell := CText (s : string) | CTime (t : datetime).
Definition cell_time (c : cell) : result datetime :=
  match c with CText s => fromisoformat s | CTime t => Ok t end.

Module ScoreRow.
Record t := mk {
  model_id : string;
  split : string;
  window_start : cell;
  window_end : cell;
  is_anomaly : bool
}.
End ScoreRow.

(** [int / int], correctly rounded (positive denominator) *)
Definition int_truediv (a b : Z) : float :=
  if a =? 0 then f0
  else if 0 <? a then float_of_ratio a b else SFopp (float_of_ratio (- a) b).

(** [max(a, b)] on floats *)
Definition fmax (a b : float) : float := if fltb a b then b else a.

Definition row_step (row : ScoreRow.t) : result (datetime * bool) :=
  ts ← cell_time (ScoreRow.window_end row);
  Ok (ts, ScoreRow.is_anomaly row).

(** [_simulate_alert_stream] *)
Definition simulate_alert_stream (sorted_df : list ScoreRow.t)
    (persistence cooldown merge_gap_seconds : Z) : result (Z * Z) :=
  rows ← mapR row_step sorted_df;
  let s := sim_run persistence cooldown merge_gap_seconds rows in
  Ok (SimState.episodes s, SimState.alert_window_count s).

(** What pandas provides: [df.sort_values("window_end").reset_index(drop=True)]
    and [column.min()], [column.max()]. *)
Class FrameOps := {
  sort_values : list ScoreRow.t → list ScoreRow.t;
  col_min : list cell → cell;
  col_max : list cell → cell
}.

Section Selection.
Context `{FrameOps}.

Definition evaluate_candidate (frame : list ScoreRow.t)
    (persistence cooldown merge_gap_seconds : Z) : result PolicyMetrics.t :=
  match frame with
  | [] => Ok (PolicyMetrics.mk f0 f0)
  | _ =>
      let sorted_df := sort_values frame in
      '(episodes, alert_window_count) ←
        simulate_alert_stream sorted_df persistence cooldown merge_gap_seconds;
      start_time ← cell_time (col_min (ScoreRow.window_start <$> sorted_df));
      end_time ← cell_time (col_max (ScoreRow.window_end <$> sorted_df));
      let duration_days :=
        fmax (fdiv (int_truediv (end_time - start_time) usec) (float_of_Z 86400)) (flit 1 288) in
      Ok (PolicyMetrics.mk
            (fdiv (float_of_Z episodes) duration_days)
            (int_truediv alert_window_count (Z.max (Z.of_nat (length sorted_df)) 1)))
  end.

(** [product(PERSISTENCE_CANDIDATES, COOLDOWN_CANDIDATES, MERGE_GAP_SECONDS_CANDIDATES)] *)
Definition candidates : list (Z * Z * Z) :=
  p ← PERSISTENCE_CANDIDATES; c ← COOLDOWN_CANDIDATES; g ← MERGE_GAP_SECONDS_CANDIDATES;
  [(p, c, g)].

(** The calibration gates *)
Definition meets_gates (m : PolicyMetrics.t) : bool :=
  fleb (PolicyMetrics.false_episodes_per_day m) f1
  && fleb (PolicyMetrics.time_in_alert m) (flit 5 100).

Definition candidate_cost (m : PolicyMetrics.t) : float :=
  fadd (PolicyMetrics.false_episodes_per_day m)
       (fmul (float_of_Z 100) (PolicyMetrics.time_in_alert m)).

(** The loop of [select_policy]: an admissible candidate is returned at once
    ([inl]); otherwise the cheapest one so far is carried to the end ([inr]). *)
Fixpoint select_loop (frame : list ScoreRow.t) (cands : list (Z * Z * Z))
    (best_selection : option PolicySelection.t) (best_cost : float)
  : result (PolicySelection.t + option PolicySelection.t) :=
  match cands with
  | [] => Ok (inr best_selection)
  | (persistence, cooldown, merge_gap) :: cands =>
      metrics ← evaluate_candidate frame persistence cooldown merge_gap;
      let sel := PolicySelection.mk persistence cooldown merge_gap metrics in
      if meets_gates metrics then Ok (inl sel)
      else
        let cost := candidate_cost metrics in
        if fltb cost best_cost then select_loop frame cands (Some sel) cost
        else select_loop frame cands best_selection best_cost
  end.

(** [set(frame["split"].unique()) == {"calibration"}] *)
Definition only_calibration (frame : list ScoreRow.t) : bool :=
  negb (bool_decide (frame = [])) && forallb (λ r, bool_decide (ScoreRow.split r = "calibration"%string)) frame.

Definition select_policy (frame : list ScoreRow.t) (allow_fallback : bool)
  : result PolicySelection.t :=
  _ ← guard_exn (only_calibration frame || allow_fallback)
        (ValueError "policy selection accepts calibration rows only");
  r ← select_loop frame candidates None finf;
  match r with
  | inl sel => Ok sel
  | inr best_selection =>
      match best_selection with
      | Some sel => if allow_fallback then Ok sel
                    else Err (ValueError "no predeclared alert policy satisfies the calibration gates")
      | None => Err (ValueError "no predeclared alert policy satisfies the calibration gates")
      end
  end.

(** ** [lock_alert_policy]

    The manifest is the parsed [manifest.json], [scores] the content of
    [scores.parquet] next to it ([None] when there is no such file) and
    [scores_sha] its digest; the result is the policy written to disk. *)
Definition need (key : string) (o : list (string * json)) : result json :=
  of_option (KeyError key) (jget key o).

(** Manifest texts: a value of another type, which Python would carry along
    unchecked, is rejected here. *)
Definition as_text (j : json) : result string :=
  match j with JStr s => Ok s | _ => Err (TypeError "expected str") end.
Definition as_float (j : json) : result float :=
  match j with JFloat x => Ok x | JInt n => Ok (float_of_Z n) | _ => Err (TypeError "float() argument") end.
Definition as_int (j : json) : result Z :=
  match j with JInt n => Ok n | _ => Err (TypeError "int() argument") end.

Definition rows_of (scores : list ScoreRow.t) (model_id split : string) : list ScoreRow.t :=
  filter (λ r, ScoreRow.model_id r = model_id ∧ ScoreRow.split r = split) scores.

(** The rows a policy may be fitted on: calibration rows, and for a research
    candidate without any the train rows. *)
Definition calibration_rows (scores : list ScoreRow.t) (model_id : string) (is_research : bool)
  : result (list ScoreRow.t) :=
  match rows_of scores model_id "calibration" with
  | [] =>
      if is_research then
        match rows_of scores model_id "train" with
        | [] => Err (ValueError "No calibration or train rows found")
        | rows => Ok rows
        end
      else Err (ValueError "No calibration rows found for champion model")
  | rows => Ok rows
  end.

(** [manifest_data.get("artifact_sha256", {}).get("scores.parquet")] *)
Definition expected_scores_sha (manifest : list (string * json)) : option json :=
  match jget "artifact_sha256" manifest with
  | Some (JObj o) => jget "scores.parquet" o
  | _ => None
  end.
(** [bool(value)] *)
Definition truthy (j : json) : bool :=
  match j with
  | JNull => false
  | JBool b => b
  | JInt n => negb (n =? 0)
  | JFloat x => match x with S754_zero _ => false | _ => true end
  | JStr s => negb (bool_decide (s = ""%string))
  | JList l => negb (bool_decide (length l = 0%nat))
  | JObj o => negb (bool_decide (length o = 0%nat))
  end.

Definition lock_alert_policy (manifest : list (string * json))
    (scores : option (list ScoreRow.t)) (scores_sha : string) : result LockedAlertPolicyV1.t :=
  model_id ← need "model_id" manifest ≫= as_text;
  model_version ← match jget "model_version" manifest with
                  | Some v => as_text v
                  | None => Ok ("champion-" +:+ model_id +:+ "-v1")%string
                  end;
  source_dataset_sha256 ← need "source_dataset_sha256" manifest ≫= as_text;
  contract_sha256 ← need "contract_sha256" manifest ≫= as_text;
  threshold ← need "threshold" manifest ≫= as_float;
  stride_seconds ← match jget "stride_seconds" manifest with
                   | Some v => as_int v
                   | None => Ok 300
                   end;
  let is_research := match jget "operational_status" manifest with
                     | Some (JStr s) => bool_decide (s = "RESEARCH_ONLY"%string)
                     | _ => false
                     end in
  scores_df ← of_option (ValueError "Scores file not found") scores;
  _ ← match expected_scores_sha manifest with
      | Some e => guard_exn (negb (truthy e)
                             || match e with JStr s => bool_decide (scores_sha = s) | _ => false end)
                    (ValueError "scores.parquet SHA-256 mismatch")
      | None => Ok ()
      end;
  champion_calib ← calibration_rows scores_df model_id is_research;
  let source_split :=
    if existsb (λ r, bool_decide (ScoreRow.split r = "calibration"%string)) champion_calib
    then "calibration"%string else "train"%string in
  selection ← select_policy champion_calib is_research;
  let unsigned := {|
    LockedAlertPolicyV1.schema_version := "alert-policy-v1";
    LockedAlertPolicyV1.source_split := source_split;
    LockedAlertPolicyV1.source_scores_sha256 := scores_sha;
    LockedAlertPolicyV1.source_dataset_sha256 := source_dataset_sha256;
    LockedAlertPolicyV1.contract_sha256 := contract_sha256;
    LockedAlertPolicyV1.model_id := model_id;
    LockedAlertPolicyV1.model_version := model_version;
    LockedAlertPolicyV1.threshold := threshold;
    LockedAlertPolicyV1.stride_seconds := stride_seconds;
    LockedAlertPolicyV1.persistence_decisions := PolicySelection.persistence selection;
    LockedAlertPolicyV1.cooldown_decisions := PolicySelection.cooldown selection;
    LockedAlertPolicyV1.merge_gap_seconds := PolicySelection.merge_gap_seconds selection;
    LockedAlertPolicyV1.calibration_false_episodes_per_day :=
      PolicyMetrics.false_episodes_per_day (PolicySelection.metrics selection);
    LockedAlertPolicyV1.calibration_time_in_alert :=
      PolicyMetrics.time_in_alert (PolicySelection.metrics selection);
    LockedAlertPolicyV1.policy_sha256 := "" |} in
  canonical_json ← dumps_canonical (JObj (payload unsigned));
  Ok (signed unsigned (sha256_hex (encode canonical_json))).
End Selection.
