(* ===== verification/AlertPolicyTheory.v ===== *)
(** * The calibration-locked policy is the one the rules select

    [select_policy] against a declarative specification of its choice, the
    bounds of the simulated stream, and the self-hash of a locked policy. *)

From S2P Require Import Prelude PyText PyTime PyFloat PyHash PyJson AlertPolicy.

(** ** The order of floats *)
Lemma pos_cmp_lt_trans a b c :
  Pos.compare a b = Lt → Pos.compare b c = Lt → Pos.compare a c = Lt.
Proof. rewrite !Pos.compare_lt_iff. lia. Qed.

(** [SFcompare] on two numbers of the same sign: exponents, then mantissas. *)
Definition mag_cmp (e1 : Z) (m1 : positive) (e2 : Z) (m2 : positive) : comparison :=
  match Z.compare e1 e2 with Lt => Lt | Gt => Gt | Eq => Pos.compare m1 m2 end.

Lemma mag_cmp_antisym e1 m1 e2 m2 : mag_cmp e2 m2 e1 m1 = CompOpp (mag_cmp e1 m1 e2 m2).
Proof.
  unfold mag_cmp. rewrite (Z.compare_antisym e1 e2). destruct (e1 ?= e2); simpl; try done.
  apply Pos.compare_antisym.
Qed.

Lemma mag_cmp_trans e1 m1 e2 m2 e3 m3 :
  mag_cmp e1 m1 e2 m2 = Lt → mag_cmp e2 m2 e3 m3 = Lt → mag_cmp e1 m1 e3 m3 = Lt.
Proof.
  unfold mag_cmp.
  destruct (Z.compare_spec e1 e2), (Z.compare_spec e2 e3), (Z.compare_spec e1 e3);
    try done; try lia; subst; eauto using pos_cmp_lt_trans.
Qed.

Lemma fltb_neg m1 e1 m2 e2 :
  fltb (S754_finite true m1 e1) (S754_finite true m2 e2) = true ↔ mag_cmp e2 m2 e1 m1 = Lt.
Proof.
  rewrite mag_cmp_antisym. unfold fltb, SFltb, SFcompare, mag_cmp.
  destruct (e1 ?= e2); simpl; try done. change (Pos.compare_cont Eq m1 m2) with (m1 ?= m2)%positive.
  by destruct (m1 ?= m2)%positive.
Qed.
Lemma fltb_pos m1 e1 m2 e2 :
  fltb (S754_finite false m1 e1) (S754_finite false m2 e2) = true ↔ mag_cmp e1 m1 e2 m2 = Lt.
Proof.
  unfold fltb, SFltb, SFcompare, mag_cmp.
  destruct (e1 ?= e2); simpl; try done. change (Pos.compare_cont Eq m1 m2) with (m1 ?= m2)%positive.
  by destruct (m1 ?= m2)%positive.
Qed.

Lemma fltb_trans x y z : fltb x y = true → fltb y z = true → fltb x z = true.
Proof.
  destruct x as [|[]| |[] m1 e1], y as [|[]| |[] m2 e2], z as [|[]| |[] m3 e3]; try done;
    rewrite ?fltb_neg, ?fltb_pos; intros; eauto using mag_cmp_trans.
Qed.

Lemma fltb_irrefl x : fltb x x = false.
Proof.
  unfold fltb, SFltb. destruct x as [|[]| |[] m e]; simpl; try done;
    by rewrite Z.compare_refl, Pos.compare_refl.
Qed.

(** ** What [select_policy] chooses *)
Section Choice.
Context `{FrameOps}.

Definition evaluated (frame : list ScoreRow.t) (c : Z * Z * Z) (m : PolicyMetrics.t) : Prop :=
  evaluate_candidate frame c.1.1 c.1.2 c.2 = Ok m.
Definition selection (c : Z * Z * Z) (m : PolicyMetrics.t) : PolicySelection.t :=
  PolicySelection.mk c.1.1 c.1.2 c.2 m.

(** Every candidate of [cs] is evaluated, and fails the gates. *)
Definition all_fail (frame : list ScoreRow.t) (cs : list (Z * Z * Z)) : Prop :=
  Forall (λ c, ∃ m, evaluated frame c m ∧ meets_gates m = false) cs.

(** The first candidate that meets the gates. *)
Definition first_admissible (frame : list ScoreRow.t) (cs : list (Z * Z * Z))
    (sel : PolicySelection.t) : Prop :=
  ∃ before c after m, cs = before ++ c :: after ∧ all_fail frame before ∧
    evaluated frame c m ∧ meets_gates m = true ∧ sel = selection c m.

(** A candidate none of the others undercuts. *)
Definition cheapest (frame : list ScoreRow.t) (cs : list (Z * Z * Z))
    (sel : PolicySelection.t) : Prop :=
  (∃ c m, c ∈ cs ∧ evaluated frame c m ∧ sel = selection c m) ∧
  ∀ c m, c ∈ cs → evaluated frame c m →
    fltb (candidate_cost m) (candidate_cost (PolicySelection.metrics sel)) = false.

(** The invariant of the loop: [best] is the cheapest of [seen], or every
    cost of [seen] is at least infinity and there is none. *)
Definition best_so_far (frame : list ScoreRow.t) (seen : list (Z * Z * Z))
    (best : option PolicySelection.t) (cost : float) : Prop :=
  match best with
  | Some sel => cheapest frame seen sel ∧ cost = candidate_cost (PolicySelection.metrics sel)
  | None => cost = finf
  end ∧
  ∀ c m, c ∈ seen → evaluated frame c m → fltb (candidate_cost m) cost = false.

Lemma evaluated_inj frame c c' m m' :
  c' = c → evaluated frame c' m' → evaluated frame c m → m' = m.
Proof. unfold evaluated. intros -> H1 H2. congruence. Qed.

Lemma best_so_far_keep frame seen best cost c m :
  evaluated frame c m → fltb (candidate_cost m) cost = false →
  best_so_far frame seen best cost → best_so_far frame (seen ++ [c]) best cost.
Proof.
  intros Hm Hlt [Hb Hmin].
  assert (∀ c' m', c' ∈ seen ++ [c] → evaluated frame c' m' →
    fltb (candidate_cost m') cost = false) as Hmin'.
  { intros c' m' Hin Hm'. apply elem_of_app in Hin as [Hin|Hin]; [eauto|].
    apply list_elem_of_singleton in Hin. by rewrite (evaluated_inj _ _ _ _ _ Hin Hm' Hm). }
  split; [|done]. destruct best as [sel|]; [|done]. destruct Hb as [[(c0 & m0 & Hin & He) _] ->].
  split; [|done]. split; [|done]. exists c0, m0. split; [|done]. apply elem_of_app. by left.
Qed.

Lemma best_so_far_new frame seen best cost c m :
  evaluated frame c m → fltb (candidate_cost m) cost = true →
  best_so_far frame seen best cost →
  best_so_far frame (seen ++ [c]) (Some (selection c m)) (candidate_cost m).
Proof.
  intros Hm Hlt [_ Hmin].
  assert (∀ c' m', c' ∈ seen ++ [c] → evaluated frame c' m' →
    fltb (candidate_cost m') (candidate_cost m) = false) as Hmin'.
  { intros c' m' Hin Hm'. apply elem_of_app in Hin as [Hin|Hin].
    - specialize (Hmin _ _ Hin Hm').
      destruct (fltb (candidate_cost m') (candidate_cost m)) eqn:E; [|done].
      by rewrite (fltb_trans _ _ _ E Hlt) in Hmin.
    - apply list_elem_of_singleton in Hin.
      rewrite (evaluated_inj _ _ _ _ _ Hin Hm' Hm). apply fltb_irrefl. }
  split; [|done]. split; [|done]. split; [|done].
  exists c, m. split; [|done]. apply elem_of_app. right. by apply list_elem_of_singleton.
Qed.

Lemma select_loop_spec frame cs seen best cost r :
  select_loop frame cs best cost = Ok r →
  best_so_far frame seen best cost → all_fail frame seen →
  match r with
  | inl sel => first_admissible frame (seen ++ cs) sel
  | inr best' => all_fail frame (seen ++ cs) ∧
      ∃ cost', best_so_far frame (seen ++ cs) best' cost'
  end.
Proof.
  revert seen best cost. induction cs as [|[[p c] g] cs IH]; intros seen best cost Hr Hb Hf;
    simpl in Hr; inv_res.
  { rewrite app_nil_r. eauto. }
  assert (evaluated frame (p, c, g) x) as Hx by done.
  destruct (meets_gates x) eqn:Hg; inv_res.
  { exists seen, (p, c, g), cs, x. by split_and!. }
  rewrite (cons_middle (p, c, g) seen cs), (assoc_L (++)).
  assert (all_fail frame (seen ++ [(p, c, g)])) as Hf'.
  { apply Forall_app. split; [done|]. constructor; [|done]. eauto. }
  destruct (fltb (candidate_cost x) cost) eqn:Hlt;
    apply (IH _ _ _ Hr); eauto using best_so_far_keep, best_so_far_new.
Qed.
End Choice.

(** ** The simulated stream *)

(** Equal but for the episodes, of which [s1] has at least as many as [s2]. *)
Definition fewer_episodes (s1 s2 : SimState.t) : Prop :=
  SimState.is_active s1 = SimState.is_active s2 ∧
  SimState.anomaly_streak s1 = SimState.anomaly_streak s2 ∧
  SimState.normal_streak s1 = SimState.normal_streak s2 ∧
  SimState.last_resolution s1 = SimState.last_resolution s2 ∧
  SimState.alert_window_count s1 = SimState.alert_window_count s2 ∧
  SimState.episodes s2 ≤ SimState.episodes s1.

Lemma total_seconds_leb_mono td a b :
  a ≤ b → total_seconds_leb td a = true → total_seconds_leb td b = true.
Proof. unfold total_seconds_leb, seconds, usec. rewrite !Z.leb_le. lia. Qed.

Lemma merged_mono r ts g1 g2 :
  g1 ≤ g2 →
  match r with Some r => (0 <? g1) && total_seconds_leb (ts - r) g1 | None => false end = true →
  match r with Some r => (0 <? g2) && total_seconds_leb (ts - r) g2 | None => false end = true.
Proof.
  intros Hg. destruct r as [r|]; [|done]. rewrite !andb_true_iff, !Z.ltb_lt. intros [? Hm].
  split; [lia|]. by eapply total_seconds_leb_mono.
Qed.

Lemma sim_step_gap p c g1 g2 s1 s2 row :
  g1 ≤ g2 → fewer_episodes s1 s2 → fewer_episodes (sim_step p c g1 s1 row) (sim_step p c g2 s2 row).
Proof.
  intros Hg (Ha & Hs & Hn & Hr & Hw & He). destruct row as [ts [|]];
    unfold sim_step, step_anomaly, step_normal; rewrite Ha, ?Hs, ?Hn, ?Hr.
  - destruct (negb _ && _); simpl; [|case_match; repeat split; simpl; lia].
    pose proof (merged_mono (SimState.last_resolution s2) ts _ _ Hg) as Hm.
    repeat split; simpl; try lia. repeat case_match; try lia; by specialize (Hm eq_refl).
  - destruct (SimState.is_active s2 && _); simpl; repeat case_match;
      repeat split; simpl in *; try lia; congruence.
Qed.

Lemma sim_run_gap p c g1 g2 rows :
  g1 ≤ g2 → fewer_episodes (sim_run p c g1 rows) (sim_run p c g2 rows).
Proof.
  intros Hg. unfold sim_run.
  assert (fewer_episodes sim_init sim_init) as H by (by repeat split).
  revert H. generalize sim_init at 1 3. generalize sim_init.
  induction rows as [|row rows IH]; intros s2 s1 H; simpl; [done|].
  by apply IH, sim_step_gap.
Qed.

Definition sim_bounded (n : Z) (s : SimState.t) : Prop :=
  0 ≤ SimState.episodes s ≤ SimState.alert_window_count s ∧ SimState.alert_window_count s ≤ n.

Lemma sim_step_bounded p c g n s row :
  sim_bounded n s → sim_bounded (n + 1) (sim_step p c g s row).
Proof.
  intros [He Hw]. destruct row as [ts [|]]; unfold sim_step, step_anomaly, step_normal, sim_bounded.
  - destruct (SimState.is_active s); simpl; [lia|].
    destruct (p <=? _); simpl; repeat case_match; simpl; lia.
  - destruct (SimState.is_active s && _); simpl; repeat case_match; simpl; lia.
Qed.

Lemma sim_run_bounded p c g rows : sim_bounded (Z.of_nat (length rows)) (sim_run p c g rows).
Proof.
  unfold sim_run. assert (sim_bounded 0 sim_init) as H by (by repeat split).
  replace (Z.of_nat (length rows)) with (0 + Z.of_nat (length rows)) by lia.
  revert H. generalize sim_init. generalize 0.
  induction rows as [|row rows IH]; intros n s H; simpl foldl.
  { by rewrite Z.add_0_r. }
  replace (n + Z.of_nat (length (row :: rows))) with ((n + 1) + Z.of_nat (length rows))
    by (simpl; lia).
  by apply IH, sim_step_bounded.
Qed.

(** ** The self-hash *)
Lemma filter_payload p :
  filter (λ kv : string * json, kv.1 ≠ "policy_sha256"%string) (LockedAlertPolicyV1.to_dict p) =
  payload p.
Proof. reflexivity. Qed.

Lemma payload_signed p sha : payload (signed p sha) = payload p.
Proof. reflexivity. Qed.

(** ** Concrete frames *)
Module PolicyExamples.

(** pandas on the small frames below: they are already sorted. *)
#[export] Instance frame_ops : FrameOps := {
  sort_values := id;
  col_min := λ l, default (CTime 0) (head l);
  col_max := λ l, default (CTime 0) (last l)
}.

Definition row (split : string) (n : Z) (anomaly : bool) : ScoreRow.t :=
  ScoreRow.mk "m" split (CTime (seconds (300 * n))) (CTime (seconds (300 * (n + 1)))) anomaly.
Definition quiet : list ScoreRow.t :=
  [row "calibration" 0 false; row "calibration" 1 false; row "calibration" 2 false].

Definition sha : string := "31f8689256951067e28c9cbb48a930c1617d8eea8c7133ba1a315f632842e1ad".
Definition manifest : list (string * json) :=
  [("model_id", JStr "m"); ("source_dataset_sha256", JStr sha); ("contract_sha256", JStr sha);
   ("threshold", JFloat f1);
   ("artifact_sha256", JObj [("scores.parquet", JStr sha)])]%string.

End PolicyExamples.
Import PolicyExamples.

(** C39. The locked parameters are the ones the rules choose: a policy is selected
    from calibration rows only, unless fallback is allowed, and is the first
    candidate in the order persistence, cooldown, merge gap that meets both
    calibration gates; only when none does, and with fallback, it is the
    candidate of least cost, and without fallback there is no policy. *)
Theorem select_policy_choice `{FrameOps} frame fallback sel
    (Hsel : select_policy frame fallback = Ok sel) :
  (only_calibration frame = true ∨ fallback = true) ∧
  (first_admissible frame candidates sel ∨
   fallback = true ∧ all_fail frame candidates ∧ cheapest frame candidates sel).
Proof.
  unfold select_policy in Hsel. inv_res. split; [by apply orb_true_iff|].
  pose proof (select_loop_spec _ _ [] _ _ _ H1 ltac:(by split; [|intros ? ? ?%elem_of_nil])
    ltac:(constructor)) as Hspec.
  destruct x0 as [sel'|[sel'|]]; inv_res; [by left|].
  destruct fallback; inv_res. right. destruct Hspec as (? & ? & [[? _] _]). done.
Qed.

Lemma select_policy_choice_witness :
  ∃ sel, select_policy quiet false = Ok sel ∧
  (only_calibration quiet = true ∨ false = true) ∧
  (first_admissible quiet candidates sel ∨
   false = true ∧ all_fail quiet candidates ∧ cheapest quiet candidates sel).
Proof.
  eexists. split; [vm_compute; reflexivity|].
  apply (select_policy_choice quiet false). vm_compute. reflexivity.
Defined.

(** A longer merge gap never raises more alerts: on the same stream it gives
    at most as many episodes and exactly the same alert windows, and in every
    case an episode has a window and a window has a row. *)
Theorem merge_gap_monotone rows_df p c g1 g2 e1 w1 e2 w2
    (Hgap : g1 ≤ g2)
    (H1 : simulate_alert_stream rows_df p c g1 = Ok (e1, w1))
    (H2 : simulate_alert_stream rows_df p c g2 = Ok (e2, w2)) :
  w2 = w1 ∧ 0 ≤ e2 ≤ e1 ∧ e1 ≤ w1 ≤ Z.of_nat (length rows_df).
Proof.
  unfold simulate_alert_stream in *.
  destruct (mapR row_step rows_df) as [rows|] eqn:Hrows; [|done]. simplify_eq/=.
  destruct (sim_run_gap p c g1 g2 rows Hgap) as (_ & _ & _ & _ & Hw & He).
  destruct (sim_run_bounded p c g1 rows) as [He1 Hw1], (sim_run_bounded p c g2 rows) as [He2 Hw2].
  rewrite <-(mapR_length _ _ _ Hrows). split; [done|]. lia.
Qed.

Lemma merge_gap_monotone_witness :
  (3 : Z) = 3 ∧ 0 ≤ 1 ≤ 2 ∧ 2 ≤ 3 ≤ Z.of_nat 4.
Proof.
  apply (merge_gap_monotone
    [row "calibration" 0 true; row "calibration" 1 false; row "calibration" 2 true;
     row "calibration" 3 true] 1 1 0 900 2 3 1 3); [lia|reflexivity|reflexivity].
Defined.

(** A locked policy is the one the service accepts: whatever
    [lock_alert_policy] writes passes [verify_policy_integrity], the digest
    being that of the canonical JSON of every other field; it carries the
    digest of the scores it was fitted on, which the manifest names if it names
    one, and its parameters are those selected on the champion's rows. *)
Theorem locked_policy_verifies `{FrameOps} manifest scores scores_sha p
    (Hlock : lock_alert_policy manifest scores scores_sha = Ok p) :
  verify_policy_integrity p = Ok () ∧
  LockedAlertPolicyV1.source_scores_sha256 p = scores_sha ∧
  (∀ s, expected_scores_sha manifest = Some (JStr s) → s ≠ ""%string → s = scores_sha) ∧
  ∃ df frame research sel, scores = Some df ∧
    calibration_rows df (LockedAlertPolicyV1.model_id p) research = Ok frame ∧
    select_policy frame research = Ok sel ∧
    LockedAlertPolicyV1.persistence_decisions p = PolicySelection.persistence sel ∧
    LockedAlertPolicyV1.cooldown_decisions p = PolicySelection.cooldown sel ∧
    LockedAlertPolicyV1.merge_gap_seconds p = PolicySelection.merge_gap_seconds sel.
Proof.
  unfold lock_alert_policy in Hlock. inv_res.
  match goal with E : dumps_canonical _ = Ok ?j |- _ => rename E into Hj end.
  split; [|split; [done|split]].
  - unfold verify_policy_integrity, compute_policy_sha256. rewrite filter_payload, payload_signed, Hj.
    simpl. by rewrite bool_decide_eq_true_2.
  - intros s Hs Hne.
    match goal with E : match expected_scores_sha _ with Some _ => _ | None => _ end = _ |- _ =>
      rewrite Hs in E; apply guard_exn_Ok in E; simpl in E;
      rewrite negb_involutive, orb_true_iff, !bool_decide_eq_true in E end.
    naive_solver.
  - simpl. eauto 15.
Qed.

Lemma locked_policy_verifies_witness :
  ∃ p, lock_alert_policy manifest (Some quiet) sha = Ok p ∧ verify_policy_integrity p = Ok ().
Proof.
  eexists. split; [reflexivity|].
  apply (locked_policy_verifies manifest (Some quiet) sha). reflexivity.
Defined.

(** A policy is accepted exactly when its digest is the one of its other
    fields: any change of a field that changes their canonical JSON is caught,
    up to a collision of the hash. *)
Theorem policy_integrity_exact p :
  verify_policy_integrity p = Ok () ↔
  ∃ j, dumps_canonical (JObj (payload p)) = Ok j ∧
       LockedAlertPolicyV1.policy_sha256 p = sha256_hex (encode j).
Proof.
  unfold verify_policy_integrity, compute_policy_sha256. rewrite filter_payload. split.
  - intros H. inv_res. eauto.
  - intros (j & -> & Hj). simpl. by rewrite bool_decide_eq_true_2.
Qed.
