(* ===== verification/AlertState.v ===== *)
(** * The alert state machine ([alert_state.py])

    [transition] is the pure step of one score decision over the alert state of
    a replay session.  The two [uuid4()] and [datetime.now(UTC)] draws a step can
    make are its [Ambient] argument. *)

From S2P Require Import Prelude PyText PyUuid PyTime PyFloat PyHash Messages AlertPolicy.

Definition ALERT_NAMESPACE : UUID := NAMESPACE_URL.

Module AlertState.

Record t := mk {
  replay_session_id : UUID;
  machine_id : string;
  active_alert_id : option UUID;
  previous_alert_id : option UUID;
  first_detection : option datetime;
  last_detection : option datetime;
  resolved_at : option datetime;
  anomaly_decision_ids : list UUID;
  anomaly_streak : Z;
  normal_streak : Z;
  last_decision_id : option UUID;
  last_source_timestamp : option datetime
}.

Definition empty (replay_session_id : UUID) (machine_id : string) : t :=
  {| replay_session_id := replay_session_id;
     machine_id := machine_id;
     active_alert_id := None;
     previous_alert_id := None;
     first_detection := None;
     last_detection := None;
     resolved_at := None;
     anomaly_decision_ids := [];
     anomaly_streak := 0;
     normal_streak := 0;
     last_decision_id := None;
     last_source_timestamp := None |}.

End AlertState.

Module TransitionResult.
Record t := mk {
  state : AlertState.t;
  event : option AlertEventV1.t;
  evidence : option EvidenceSnapshotV1.t
}.
End TransitionResult.

(** The fresh identifiers and clock readings of one step. *)
Record Ambient := mkAmbient {
  event_uuid4 : UUID; event_now : aware;
  evidence_uuid4 : UUID; evidence_now : aware
}.

Definition alert_id_for (replay_session_id first_decision_id : UUID) : UUID :=
  uuid5 ALERT_NAMESPACE
    ("alert:" +:+ str_uuid replay_session_id +:+ ":" +:+ str_uuid first_decision_id)%string.

Definition evidence_id_for (alert_id decision_id : UUID) : UUID :=
  uuid5 ALERT_NAMESPACE
    ("evidence:" +:+ str_uuid alert_id +:+ ":" +:+ str_uuid decision_id)%string.

(** [a or b] of an optional [datetime] (a [datetime] is always true) *)
Definition or_else (o : option datetime) (d : datetime) : datetime := default d o.

Definition deviation_of (ev : EvidenceValueV1.t) : result FeatureDeviationV1.t :=
  FeatureDeviationV1.make
    (EvidenceValueV1.feature_name ev)
    (EvidenceValueV1.feature_value ev)
    (fsub (EvidenceValueV1.feature_value ev) (EvidenceValueV1.robust_deviation ev))
    (fabs (EvidenceValueV1.robust_deviation ev)).

Definition build_evidence_snapshot (amb : Ambient) (alert_id : UUID) (decision : ScoreDecisionV1.t)
  : result EvidenceSnapshotV1.t :=
  let evidence_id := evidence_id_for alert_id (ScoreDecisionV1.decision_id decision) in
  deviations ← mapR deviation_of (ScoreDecisionV1.evidence_vector decision);
  EvidenceSnapshotV1.make
    (* message_id *) (evidence_uuid4 amb)
    (* replay_session_id *) (ScoreDecisionV1.replay_session_id decision)
    (* source_dataset_sha256 *) (ScoreDecisionV1.source_dataset_sha256 decision)
    (* contract_sha256 *) (ScoreDecisionV1.contract_sha256 decision)
    (* source_timestamp *) (Naive (ScoreDecisionV1.source_timestamp decision))
    (* emitted_at *) (Aware (evidence_now amb))
    (* evidence_id *) (evidence_id)
    (* alert_id *) (alert_id)
    (* decision_id *) (ScoreDecisionV1.decision_id decision)
    (* window_id *) (ScoreDecisionV1.window_id decision)
    (* model_version *) (ScoreDecisionV1.model_version decision)
    (* feature_deviations *) (deviations)
    (* data_quality *) ([("status", SStr "ok")]%string)
    (* model *) ([("score", SFloat (ScoreDecisionV1.score decision));
               ("threshold", SFloat (ScoreDecisionV1.threshold decision))]%string)
    (* system_health *) ([("is_anomaly", SBool (ScoreDecisionV1.is_anomaly decision))]%string).

(** The [AlertEventV1(...)] call shared by the emitting branches. *)
Definition alert_event (amb : Ambient) (state : AlertState.t) (decision : ScoreDecisionV1.t)
    (policy : LockedAlertPolicyV1.t) (action : AlertAction) (alert_id : UUID)
    (first_det last_det : datetime) (decision_ids : list UUID) : result AlertEventV1.t :=
  AlertEventV1.make
    (* message_id *) (event_uuid4 amb)
    (* replay_session_id *) (ScoreDecisionV1.replay_session_id decision)
    (* source_dataset_sha256 *) (ScoreDecisionV1.source_dataset_sha256 decision)
    (* contract_sha256 *) (ScoreDecisionV1.contract_sha256 decision)
    (* source_timestamp *) (Naive (ScoreDecisionV1.source_timestamp decision))
    (* emitted_at *) (Aware (event_now amb))
    (* alert_id *) (alert_id)
    (* machine_id *) (AlertState.machine_id state)
    (* action *) (action)
    (* first_detection *) (Naive first_det)
    (* last_detection *) (Naive last_det)
    (* decision_ids *) (decision_ids)
    (* policy_sha256 *) (LockedAlertPolicyV1.policy_sha256 policy).

Definition emit_anomaly_result (amb : Ambient) (state : AlertState.t) (decision : ScoreDecisionV1.t)
    (policy : LockedAlertPolicyV1.t) (action : AlertAction) (alert_id : UUID)
    (first_det : datetime) (new_anomaly_streak : Z) (new_anomaly_decision_ids : list UUID)
  : result TransitionResult.t :=
  let last_det := ScoreDecisionV1.source_timestamp decision in
  event ← alert_event amb state decision policy action alert_id first_det last_det
            new_anomaly_decision_ids;
  evidence ← build_evidence_snapshot amb alert_id decision;
  let new_state := {|
    AlertState.replay_session_id := AlertState.replay_session_id state;
    AlertState.machine_id := AlertState.machine_id state;
    AlertState.active_alert_id := Some alert_id;
    AlertState.previous_alert_id := AlertState.previous_alert_id state;
    AlertState.first_detection := Some first_det;
    AlertState.last_detection := Some last_det;
    AlertState.resolved_at := None;
    AlertState.anomaly_decision_ids := new_anomaly_decision_ids;
    AlertState.anomaly_streak := new_anomaly_streak;
    AlertState.normal_streak := 0;
    AlertState.last_decision_id := Some (ScoreDecisionV1.decision_id decision);
    AlertState.last_source_timestamp := Some (ScoreDecisionV1.source_timestamp decision) |} in
  Ok (TransitionResult.mk new_state (Some event) (Some evidence)).

(** [is_reopen] of [_handle_anomaly_trigger] *)
Definition is_reopen (state : AlertState.t) (decision : ScoreDecisionV1.t)
    (policy : LockedAlertPolicyV1.t) : bool :=
  match AlertState.previous_alert_id state, AlertState.resolved_at state with
  | Some _, Some resolved_at =>
      (0 <? LockedAlertPolicyV1.merge_gap_seconds policy)
      && total_seconds_leb (ScoreDecisionV1.source_timestamp decision - resolved_at)
           (LockedAlertPolicyV1.merge_gap_seconds policy)
  | _, _ => false
  end.

Definition handle_anomaly_trigger (amb : Ambient) (state : AlertState.t)
    (decision : ScoreDecisionV1.t) (policy : LockedAlertPolicyV1.t)
    (new_anomaly_streak : Z) (new_anomaly_decision_ids : list UUID) : result TransitionResult.t :=
  if new_anomaly_streak <? LockedAlertPolicyV1.persistence_decisions policy then
    let new_state := {|
      AlertState.replay_session_id := AlertState.replay_session_id state;
      AlertState.machine_id := AlertState.machine_id state;
      AlertState.active_alert_id := None;
      AlertState.previous_alert_id := AlertState.previous_alert_id state;
      AlertState.first_detection := AlertState.first_detection state;
      AlertState.last_detection := AlertState.last_detection state;
      AlertState.resolved_at := AlertState.resolved_at state;
      AlertState.anomaly_decision_ids := new_anomaly_decision_ids;
      AlertState.anomaly_streak := new_anomaly_streak;
      AlertState.normal_streak := 0;
      AlertState.last_decision_id := Some (ScoreDecisionV1.decision_id decision);
      AlertState.last_source_timestamp := Some (ScoreDecisionV1.source_timestamp decision) |} in
    Ok (TransitionResult.mk new_state None None)
  else
    let reopen := is_reopen state decision policy in
    let action := if reopen then REOPENED else OPENED in
    alert_id ←
      match (if reopen then AlertState.previous_alert_id state else None) with
      | Some a => Ok a
      | None => first ← of_option IndexError (head new_anomaly_decision_ids);
                Ok (alert_id_for (ScoreDecisionV1.replay_session_id decision) first)
      end;
    let first_det :=
      if reopen
      then or_else (AlertState.first_detection state) (ScoreDecisionV1.source_timestamp decision)
      else ScoreDecisionV1.source_timestamp decision in
    emit_anomaly_result amb state decision policy action alert_id first_det
      new_anomaly_streak new_anomaly_decision_ids.

Definition handle_anomaly_update (amb : Ambient) (state : AlertState.t)
    (decision : ScoreDecisionV1.t) (policy : LockedAlertPolicyV1.t)
    (new_anomaly_streak : Z) (new_anomaly_decision_ids : list UUID) : result TransitionResult.t :=
  alert_id ← of_option AssertionError (AlertState.active_alert_id state);
  let first_det :=
    or_else (AlertState.first_detection state) (ScoreDecisionV1.source_timestamp decision) in
  emit_anomaly_result amb state decision policy UPDATED alert_id first_det
    new_anomaly_streak new_anomaly_decision_ids.

Definition handle_normal (amb : Ambient) (state : AlertState.t) (decision : ScoreDecisionV1.t)
    (policy : LockedAlertPolicyV1.t) : result TransitionResult.t :=
  let new_normal_streak := AlertState.normal_streak state + 1 in
  match AlertState.active_alert_id state with
  | Some alert_id =>
      if LockedAlertPolicyV1.cooldown_decisions policy <=? new_normal_streak then
        let first_det :=
          or_else (AlertState.first_detection state) (ScoreDecisionV1.source_timestamp decision) in
        let last_det :=
          or_else (AlertState.last_detection state) (ScoreDecisionV1.source_timestamp decision) in
        event ← alert_event amb state decision policy RESOLVED alert_id first_det last_det
                  (AlertState.anomaly_decision_ids state);
        let new_state := {|
          AlertState.replay_session_id := AlertState.replay_session_id state;
          AlertState.machine_id := AlertState.machine_id state;
          AlertState.active_alert_id := None;
          AlertState.previous_alert_id := Some alert_id;
          AlertState.first_detection := Some first_det;
          AlertState.last_detection := Some last_det;
          AlertState.resolved_at := Some (ScoreDecisionV1.source_timestamp decision);
          AlertState.anomaly_decision_ids := [];
          AlertState.anomaly_streak := 0;
          AlertState.normal_streak := new_normal_streak;
          AlertState.last_decision_id := Some (ScoreDecisionV1.decision_id decision);
          AlertState.last_source_timestamp := Some (ScoreDecisionV1.source_timestamp decision) |} in
        Ok (TransitionResult.mk new_state (Some event) None)
      else
        let new_state := {|
          AlertState.replay_session_id := AlertState.replay_session_id state;
          AlertState.machine_id := AlertState.machine_id state;
          AlertState.active_alert_id := AlertState.active_alert_id state;
          AlertState.previous_alert_id := AlertState.previous_alert_id state;
          AlertState.first_detection := AlertState.first_detection state;
          AlertState.last_detection := AlertState.last_detection state;
          AlertState.resolved_at := AlertState.resolved_at state;
          AlertState.anomaly_decision_ids := AlertState.anomaly_decision_ids state;
          AlertState.anomaly_streak := 0;
          AlertState.normal_streak := new_normal_streak;
          AlertState.last_decision_id := Some (ScoreDecisionV1.decision_id decision);
          AlertState.last_source_timestamp := Some (ScoreDecisionV1.source_timestamp decision) |} in
        Ok (TransitionResult.mk new_state None None)
  | None =>
      let new_state := {|
        AlertState.replay_session_id := AlertState.replay_session_id state;
        AlertState.machine_id := AlertState.machine_id state;
        AlertState.active_alert_id := None;
        AlertState.previous_alert_id := AlertState.previous_alert_id state;
        AlertState.first_detection := AlertState.first_detection state;
        AlertState.last_detection := AlertState.last_detection state;
        AlertState.resolved_at := AlertState.resolved_at state;
        AlertState.anomaly_decision_ids := [];
        AlertState.anomaly_streak := 0;
        AlertState.normal_streak := new_normal_streak;
        AlertState.last_decision_id := Some (ScoreDecisionV1.decision_id decision);
        AlertState.last_source_timestamp := Some (ScoreDecisionV1.source_timestamp decision) |} in
      Ok (TransitionResult.mk new_state None None)
  end.

Definition transition (amb : Ambient) (state : AlertState.t) (decision : ScoreDecisionV1.t)
    (policy : LockedAlertPolicyV1.t) : result TransitionResult.t :=
  if bool_decide (AlertState.last_decision_id state = Some (ScoreDecisionV1.decision_id decision))
  then Ok (TransitionResult.mk state None None)
  else if match AlertState.last_source_timestamp state with
          | Some ts => ScoreDecisionV1.source_timestamp decision <=? ts
          | None => false
          end
  then Err OrderingViolationError
  else if ScoreDecisionV1.is_anomaly decision then
    let new_anomaly_streak := AlertState.anomaly_streak state + 1 in
    let new_anomaly_decision_ids :=
      AlertState.anomaly_decision_ids state ++ [ScoreDecisionV1.decision_id decision] in
    match AlertState.active_alert_id state with
    | None => handle_anomaly_trigger amb state decision policy new_anomaly_streak
                new_anomaly_decision_ids
    | Some _ => handle_anomaly_update amb state decision policy new_anomaly_streak
                  new_anomaly_decision_ids
    end
  else handle_normal amb state decision policy.
