(* ===== verification/AlertTheory.v ===== *)
(** * Correctness of the alert state machine

    A well-formedness invariant of the alert state, totality of [transition] on
    valid input, the lifecycle the emitted events follow, and the simulation
    that makes the online machine count exactly the episodes and alert windows
    the policy was calibrated on. *)

From S2P Require Import Prelude PyText PyUuid PyTime PyFloat Messages AlertPolicy AlertState.

(** ** The stepper as a run *)
Definition step_result (policy : LockedAlertPolicyV1.t) (s : AlertState.t)
    (ad : Ambient * ScoreDecisionV1.t) : result TransitionResult.t :=
  transition ad.1 s ad.2 policy.

(** The results of consuming a stream of decisions, in order. *)
Fixpoint run (policy : LockedAlertPolicyV1.t) (s : AlertState.t)
    (ads : list (Ambient * ScoreDecisionV1.t)) : result (list TransitionResult.t) :=
  match ads with
  | [] => Ok []
  | ad :: ads =>
      r ← step_result policy s ad;
      rs ← run policy (TransitionResult.state r) ads;
      Ok (r :: rs)
  end.

Fixpoint final_state (s : AlertState.t) (rs : list TransitionResult.t) : AlertState.t :=
  match rs with [] => s | r :: rs => final_state (TransitionResult.state r) rs end.

Definition events_of (rs : list TransitionResult.t) : list AlertEventV1.t :=
  omap TransitionResult.event rs.

Definition is_open (s : AlertState.t) : bool := bool_decide (is_Some (AlertState.active_alert_id s)).

Definition count_opened (rs : list TransitionResult.t) : Z :=
  Z.of_nat (length (filter (λ e, AlertEventV1.action e = OPENED) (events_of rs))).
Definition count_active (rs : list TransitionResult.t) : Z :=
  Z.of_nat (length (filter (λ r, is_open (TransitionResult.state r) = true) rs)).

(** ** Well-formed input *)

(** What [ScoreDecisionV1] validation guarantees and [AlertEventV1] needs. *)
Definition decision_valid (d : ScoreDecisionV1.t) : Prop :=
  is_hex64 (ScoreDecisionV1.source_dataset_sha256 d) = true ∧
  is_hex64 (ScoreDecisionV1.contract_sha256 d) = true ∧
  str_len 1 200 (ScoreDecisionV1.model_version d) = true.

(** What [FeatureDeviationV1] needs on top of [EvidenceValueV1]: a named
    feature, finite numbers and a difference that does not overflow. *)
Definition evidence_valid (ev : EvidenceValueV1.t) : Prop :=
  nonempty (EvidenceValueV1.feature_name ev) = true ∧
  is_finite (EvidenceValueV1.feature_value ev) = true ∧
  is_finite (EvidenceValueV1.robust_deviation ev) = true ∧
  is_finite (fsub (EvidenceValueV1.feature_value ev) (EvidenceValueV1.robust_deviation ev)) = true.

Lemma make_decision_valid mid sid ds cs ts ea did wid mv sc th an ev d :
  ScoreDecisionV1.make mid sid ds cs ts ea did wid mv sc th an ev = Ok d → decision_valid d.
Proof. unfold ScoreDecisionV1.make, field. intros H. inv_res. by repeat split. Qed.

Lemma deviation_of_valid ev : evidence_valid ev → ∃ d, deviation_of ev = Ok d.
Proof.
  intros (Hn & Hf & Hr & Hs). unfold deviation_of, FeatureDeviationV1.make, field.
  rewrite Hn, fabs_nonneg by done. simpl. rewrite Hf, Hs, is_finite_fabs, Hr. simpl. eauto.
Qed.

Lemma deviations_valid evs : Forall evidence_valid evs → ∃ ds, mapR deviation_of evs = Ok ds.
Proof.
  induction 1 as [|ev evs Hev _ [ds IH]]; [by eexists|].
  destruct (deviation_of_valid ev Hev) as [d Hd]. simpl. rewrite Hd. simpl. rewrite IH. simpl. eauto.
Qed.

Lemma evidence_snapshot_valid amb a d :
  decision_valid d → Forall evidence_valid (ScoreDecisionV1.evidence_vector d) →
  ∃ e, build_evidence_snapshot amb a d = Ok e.
Proof.
  intros (H1 & H2 & H3) Hev. destruct (deviations_valid _ Hev) as [ds Hds].
  unfold build_evidence_snapshot. rewrite Hds. cbn [mbind result_bind].
  unfold EvidenceSnapshotV1.make, field. rewrite H1, H2. simpl.
  unfold str_len, nonempty in *. apply andb_true_iff in H3 as [-> _]. simpl. eauto.
Qed.

(** ** The invariant *)
Record alert_ok (s : AlertState.t) : Prop := {
  ok_machine : nonempty (AlertState.machine_id s) = true;
  ok_active : ∀ a, AlertState.active_alert_id s = Some a →
    AlertState.anomaly_decision_ids s ≠ [] ∧
    ∃ f l ts, AlertState.first_detection s = Some f ∧ AlertState.last_detection s = Some l ∧
      AlertState.last_source_timestamp s = Some ts ∧ f ≤ l ≤ ts;
  ok_resolved : ∀ r, AlertState.active_alert_id s = None → AlertState.resolved_at s = Some r →
    is_Some (AlertState.previous_alert_id s) ∧
    ∃ f ts, AlertState.first_detection s = Some f ∧
      AlertState.last_source_timestamp s = Some ts ∧ f ≤ r ≤ ts;
  ok_streaks : 0 ≤ AlertState.anomaly_streak s ∧ 0 ≤ AlertState.normal_streak s
}.

Lemma alert_ok_empty sid mid : nonempty mid = true → alert_ok (AlertState.empty sid mid).
Proof. intros Hm. by constructor. Qed.

Lemma alert_event_valid amb s d pol act a fd ld ids :
  decision_valid d → nonempty (AlertState.machine_id s) = true →
  is_hex64 (LockedAlertPolicyV1.policy_sha256 pol) = true → ids ≠ [] → fd ≤ ld →
  ∃ e, alert_event amb s d pol act a fd ld ids = Ok e.
Proof.
  intros (H1 & H2 & _) Hm Hp Hids Hle.
  unfold alert_event, AlertEventV1.make, field. rewrite H1, H2, Hm, Hp.
  rewrite bool_decide_eq_false_2 by done. simpl.
  rewrite (proj2 (Z.leb_le fd ld)) by done. simpl. eauto.
Qed.

(** Fields of an event built by [alert_event]. *)
Lemma alert_event_fields amb s d pol act a fd ld ids e :
  alert_event amb s d pol act a fd ld ids = Ok e →
  AlertEventV1.action e = act ∧ AlertEventV1.alert_id e = a ∧
  AlertEventV1.message_id e = event_uuid4 amb ∧ AlertEventV1.decision_ids e = ids ∧
  AlertEventV1.replay_session_id e = ScoreDecisionV1.replay_session_id d ∧
  AlertEventV1.first_detection e = fd ∧ AlertEventV1.last_detection e = ld ∧
  AlertEventV1.source_timestamp e = ScoreDecisionV1.source_timestamp d ∧
  AlertEventV1.machine_id e = AlertState.machine_id s ∧ fd ≤ ld ∧ ids ≠ [].
Proof.
  unfold alert_event, AlertEventV1.make, field. intros H. inv_res. simpl in *. simplify_eq/=.
  rewrite Z.leb_le in *. by repeat split.
Qed.

(** Case analysis of an accepted step: one goal per branch of [transition]. *)
Ltac split_branch H :=
  repeat (inv_res; match type of H with
    | context [match ?x with _ => _ end] =>
        match type of x with
        | result _ => fail 1
        | _ => let E := fresh "E" in destruct x eqn:E
        end
    end).
Ltac transition_cases H :=
  unfold transition, handle_anomaly_trigger, handle_anomaly_update, handle_normal,
    emit_anomaly_result in H;
  split_branch H; inv_res; simplify_eq/=;
  repeat match goal with
  | E : alert_event _ _ _ _ _ _ _ _ _ = Ok _ |- _ =>
      apply alert_event_fields in E;
      destruct E as (? & ? & ? & ? & ? & ? & ? & ? & ? & ? & ?)
  | E : (_ <? _) = true |- _ => apply Z.ltb_lt in E
  | E : (_ <? _) = false |- _ => apply Z.ltb_ge in E
  | E : (_ <=? _) = true |- _ => apply Z.leb_le in E
  | E : (_ <=? _) = false |- _ => apply Z.leb_gt in E
  end.

Lemma is_reopen_true s d pol :
  is_reopen s d pol = true →
  ∃ a r, AlertState.previous_alert_id s = Some a ∧ AlertState.resolved_at s = Some r ∧
    0 < LockedAlertPolicyV1.merge_gap_seconds pol ∧
    ScoreDecisionV1.source_timestamp d - r ≤ seconds (LockedAlertPolicyV1.merge_gap_seconds pol).
Proof.
  unfold is_reopen, total_seconds_leb. intros H.
  destruct (AlertState.previous_alert_id s) as [a|], (AlertState.resolved_at s) as [r|]; try done.
  rewrite andb_true_iff, Z.ltb_lt, Z.leb_le in H. naive_solver.
Qed.

(** An accepted, non-duplicate decision is later than everything before it. *)
Lemma not_stale s (d : ScoreDecisionV1.t) ts :
  match AlertState.last_source_timestamp s with
  | Some ts => ScoreDecisionV1.source_timestamp d <=? ts
  | None => false
  end = false →
  AlertState.last_source_timestamp s = Some ts → ts < ScoreDecisionV1.source_timestamp d.
Proof. intros H Hts. rewrite Hts in H. by apply Z.leb_gt. Qed.

(** Every accepted step preserves well-formedness. *)
Lemma transition_preserves_ok amb s d pol r :
  alert_ok s → transition amb s d pol = Ok r → alert_ok (TransitionResult.state r).
Proof.
  intros [Hm Ha Hr Hs] H. transition_cases H.
  all: constructor; simpl; try done; try lia; intros; simplify_eq.
  all: try (destruct (Ha _ eq_refl) as (? & f & l & ts & Hf & Hl & Hts & ?)).
  all: try (destruct (Hr _ eq_refl ltac:(eassumption)) as (? & f & ts & Hf & Hts & ?)).
  all: try (pose proof (not_stale _ _ _ ltac:(eassumption) Hts)).
  all: rewrite ?Hf; simpl; split; try done.
  all: repeat eexists; try done; try lia.
Qed.

(** The two conditions under which a decision is not processed. *)
Definition is_duplicate (s : AlertState.t) (d : ScoreDecisionV1.t) : Prop :=
  AlertState.last_decision_id s = Some (ScoreDecisionV1.decision_id d).
#[export] Instance is_duplicate_dec s d : Decision (is_duplicate s d).
Proof. unfold is_duplicate. apply _. Defined.
Definition is_stale (s : AlertState.t) (d : ScoreDecisionV1.t) : Prop :=
  ∃ ts, AlertState.last_source_timestamp s = Some ts ∧ ScoreDecisionV1.source_timestamp d ≤ ts.

Lemma emit_ok amb s d pol act a fd n ids :
  decision_valid d → Forall evidence_valid (ScoreDecisionV1.evidence_vector d) →
  nonempty (AlertState.machine_id s) = true →
  is_hex64 (LockedAlertPolicyV1.policy_sha256 pol) = true → ids ≠ [] →
  fd ≤ ScoreDecisionV1.source_timestamp d →
  ∃ r, emit_anomaly_result amb s d pol act a fd n ids = Ok r.
Proof.
  intros Hd Hev Hm Hp Hids Hle. unfold emit_anomaly_result.
  destruct (alert_event_valid amb s d pol act a fd _ ids Hd Hm Hp Hids Hle) as [e ->].
  destruct (evidence_snapshot_valid amb a d Hd Hev) as [ev Hev']. simpl. rewrite Hev'. simpl. eauto.
Qed.

(** On valid input the only exception is [OrderingViolationError], raised
    exactly on a stale decision that is not the last one again. *)
Lemma transition_total amb s d pol :
  alert_ok s → decision_valid d → Forall evidence_valid (ScoreDecisionV1.evidence_vector d) →
  is_hex64 (LockedAlertPolicyV1.policy_sha256 pol) = true →
  (is_stale s d ∧ ¬ is_duplicate s d ∧ transition amb s d pol = Err OrderingViolationError) ∨
  ((is_duplicate s d ∨ ¬ is_stale s d) ∧ ∃ r, transition amb s d pol = Ok r).
Proof.
  intros Hok Hd Hev Hp. unfold transition, is_stale, is_duplicate.
  case_bool_decide as Hdup; [right; eauto|].
  destruct (match AlertState.last_source_timestamp s with Some _ => _ | None => _ end) eqn:Hst.
  { left. destruct (AlertState.last_source_timestamp s) as [ts|]; [|done].
    apply Z.leb_le in Hst. eauto. }
  right. split.
  { right. intros (ts & Hts & Hle). pose proof (not_stale _ _ _ Hst Hts). lia. }
  destruct Hok as [Hm Ha Hr _].
  destruct (ScoreDecisionV1.is_anomaly d).
  - destruct (AlertState.active_alert_id s) as [a|] eqn:Hact.
    + destruct (Ha _ eq_refl) as (_ & f & l & ts & Hf & _ & Hts & ?).
      pose proof (not_stale _ _ _ Hst Hts).
      unfold handle_anomaly_update. rewrite Hact, Hf. simpl.
      apply emit_ok; try done; [by destruct (AlertState.anomaly_decision_ids s) | lia].
    + unfold handle_anomaly_trigger. destruct (_ <? _); [eauto|].
      assert (∃ x xs, AlertState.anomaly_decision_ids s ++ [ScoreDecisionV1.decision_id d] = x :: xs)
        as (x & xs & ->) by (destruct (AlertState.anomaly_decision_ids s); simpl; eauto).
      destruct (is_reopen s d pol) eqn:Hre.
      * apply is_reopen_true in Hre as (a & r & Hpa & Hra & _).
        destruct (Hr _ eq_refl Hra) as (_ & f & ts & Hf & Hts & ?).
        pose proof (not_stale _ _ _ Hst Hts).
        rewrite Hpa, Hf. simpl. apply emit_ok; try done; simpl; lia.
      * simpl. by apply emit_ok.
  - unfold handle_normal. destruct (AlertState.active_alert_id s) as [a|] eqn:Hact; [|eauto].
    destruct (_ <=? _); [|eauto].
    destruct (Ha _ eq_refl) as (Hids & f & l & ts & Hf & Hl & Hts & ?). rewrite Hf, Hl. simpl.
    destruct (alert_event_valid amb s d pol RESOLVED a f l (AlertState.anomaly_decision_ids s) Hd Hm Hp Hids)
      as [e ->]; [lia|]. simpl. eauto.
Qed.

(** ** Lifecycle of the emitted events *)

(** What an observer of one session's alert topic knows. *)
Inductive phase := Idle | Open (a : UUID) | Closed (a : UUID).

Definition lifecycle_step (p : phase) (e : AlertEventV1.t) : option phase :=
  let id := AlertEventV1.alert_id e in
  match p, AlertEventV1.action e with
  | Idle, OPENED => Some (Open id)
  | Closed _, OPENED => Some (Open id)
  | Closed a, REOPENED => if bool_decide (a = id) then Some (Open id) else None
  | Open a, UPDATED => if bool_decide (a = id) then Some (Open id) else None
  | Open a, RESOLVED => if bool_decide (a = id) then Some (Closed id) else None
  | _, _ => None
  end.

Fixpoint lifecycle (p : phase) (es : list AlertEventV1.t) : option phase :=
  match es with
  | [] => Some p
  | e :: es => p' ← lifecycle_step p e; lifecycle p' es
  end.

(** The phase an alert state stands for. *)
Definition phase_of (s : AlertState.t) : phase :=
  match AlertState.active_alert_id s with
  | Some a => Open a
  | None => match AlertState.previous_alert_id s with Some a => Closed a | None => Idle end
  end.

Lemma transition_lifecycle amb s d pol r :
  transition amb s d pol = Ok r →
  match TransitionResult.event r with
  | Some e => lifecycle_step (phase_of s) e = Some (phase_of (TransitionResult.state r))
  | None => phase_of (TransitionResult.state r) = phase_of s
  end.
Proof.
  intros H. transition_cases H; unfold phase_of, lifecycle_step; simpl;
    repeat match goal with
    | E : AlertState.active_alert_id s = _ |- _ => rewrite E
    | E : AlertEventV1.action _ = _ |- _ => rewrite E
    end; try done; rewrite ?bool_decide_eq_true_2 by done; try congruence.
  destruct (is_reopen s d pol) eqn:Hre.
  - apply is_reopen_true in Hre as (a & r & Hpa & _). rewrite Hpa in *. simplify_eq/=.
    rewrite bool_decide_eq_true_2 by congruence. congruence.
  - destruct (AlertState.previous_alert_id s); congruence.
Qed.

Lemma run_lifecycle pol s ads rs :
  run pol s ads = Ok rs → lifecycle (phase_of s) (events_of rs) = Some (phase_of (final_state s rs)).
Proof.
  revert s rs. induction ads as [|ad ads IH]; intros s rs H; simpl in *; inv_res; [done|].
  pose proof (transition_lifecycle _ _ _ _ _ H0) as Hl.
  specialize (IH _ _ H1).
  unfold events_of in *. simpl. destruct (TransitionResult.event x) as [e|]; simpl.
  - by rewrite Hl.
  - by rewrite <-Hl.
Qed.

(** ** The online machine refines the calibration simulation *)

(** The row of the calibration frame a decision corresponds to. *)
Definition row_of (d : ScoreDecisionV1.t) : datetime * bool :=
  (ScoreDecisionV1.source_timestamp d, ScoreDecisionV1.is_anomaly d).

Definition sim_of (pol : LockedAlertPolicyV1.t) : SimState.t → datetime * bool → SimState.t :=
  sim_step (LockedAlertPolicyV1.persistence_decisions pol)
    (LockedAlertPolicyV1.cooldown_decisions pol) (LockedAlertPolicyV1.merge_gap_seconds pol).

(** The simulation relation: same activity, same streaks, and while no alert is
    active the resolution time of the simulation is the one kept for reopening. *)
Record sim_rel (s : AlertState.t) (m : SimState.t) : Prop := {
  rel_active : SimState.is_active m = is_open s;
  rel_anomaly : SimState.anomaly_streak m = AlertState.anomaly_streak s;
  rel_normal : SimState.normal_streak m = AlertState.normal_streak s;
  rel_resolved : AlertState.active_alert_id s = None →
    SimState.last_resolution m = AlertState.resolved_at s ∧
    (is_Some (AlertState.resolved_at s) → is_Some (AlertState.previous_alert_id s))
}.

Lemma sim_rel_init sid mid : sim_rel (AlertState.empty sid mid) sim_init.
Proof. constructor; try done. intros _. split; [done|]. by intros []. Qed.

Definition opened (o : option AlertEventV1.t) : Z :=
  match o with Some e => if bool_decide (AlertEventV1.action e = OPENED) then 1 else 0 | None => 0 end.

(** With no alert active, reopening is the simulation's merging. *)
Lemma reopen_is_merge s d pol (m : SimState.t) :
  SimState.last_resolution m = AlertState.resolved_at s →
  (is_Some (AlertState.resolved_at s) → is_Some (AlertState.previous_alert_id s)) →
  match SimState.last_resolution m with
  | Some r => (0 <? LockedAlertPolicyV1.merge_gap_seconds pol)
              && total_seconds_leb (ScoreDecisionV1.source_timestamp d - r)
                   (LockedAlertPolicyV1.merge_gap_seconds pol)
  | None => false
  end = is_reopen s d pol.
Proof.
  intros -> Hp. unfold is_reopen. destruct (AlertState.resolved_at s) as [r|].
  - by destruct Hp as [a ->].
  - by destruct (AlertState.previous_alert_id s).
Qed.

Ltac decide_leb :=
  repeat match goal with
  | |- context [?a <=? ?b] =>
      first [rewrite (proj2 (Z.leb_le a b)) by lia | rewrite (proj2 (Z.leb_gt a b)) by lia]
  end.

(** One step: the relation is kept, an episode is counted exactly when the
    machine emits [OPENED], and a window exactly when an alert is active. *)
Lemma transition_simulates amb s d pol r m :
  ¬ is_duplicate s d → transition amb s d pol = Ok r → sim_rel s m →
  let m' := sim_of pol m (row_of d) in
  sim_rel (TransitionResult.state r) m' ∧
  SimState.episodes m' = SimState.episodes m + opened (TransitionResult.event r) ∧
  SimState.alert_window_count m' =
    SimState.alert_window_count m + (if is_open (TransitionResult.state r) then 1 else 0).
Proof.
  intros Hdup H [Hact Han Hno Hres]. simpl.
  unfold sim_of, sim_step, row_of, step_anomaly, step_normal, is_open in *.
  rewrite Hact, Han, Hno. transition_cases H; try done;
    repeat match goal with E : ScoreDecisionV1.is_anomaly d = _ |- _ => rewrite E; clear E end;
    repeat match goal with E : AlertState.active_alert_id s = _ |- _ => rewrite E in *; simpl in * end;
    try destruct (Hres eq_refl) as [Hlr Hprev].
  all: try (rewrite (reopen_is_merge s d pol m Hlr Hprev)).
  all: simpl; decide_leb; simpl.
  all: repeat match goal with E : AlertEventV1.action _ = _ |- _ => rewrite E; clear E end.
  all: split; [constructor; simpl; try done; try (intros; split; naive_solver)|].
  all: try (destruct (is_reopen s d pol)); simpl; lia.
Qed.

(** An accepted decision becomes the last one. *)
Lemma transition_last amb s d pol r :
  ¬ is_duplicate s d → transition amb s d pol = Ok r →
  AlertState.last_decision_id (TransitionResult.state r) = Some (ScoreDecisionV1.decision_id d) ∧
  AlertState.last_source_timestamp (TransitionResult.state r) =
    Some (ScoreDecisionV1.source_timestamp d) ∧
  AlertState.replay_session_id (TransitionResult.state r) = AlertState.replay_session_id s ∧
  AlertState.machine_id (TransitionResult.state r) = AlertState.machine_id s.
Proof. intros Hdup H. by transition_cases H. Qed.

(** ** Streams *)
Definition decision_ids (ads : list (Ambient * ScoreDecisionV1.t)) : list UUID :=
  (λ ad, ScoreDecisionV1.decision_id ad.2) <$> ads.
Definition timestamps (ads : list (Ambient * ScoreDecisionV1.t)) : list Z :=
  (λ ad, ScoreDecisionV1.source_timestamp ad.2) <$> ads.

(** Validated decisions with distinct identifiers, in chronological order. *)
Record stream_valid (ads : list (Ambient * ScoreDecisionV1.t)) : Prop := {
  sv_decisions : Forall (λ ad, decision_valid ad.2) ads;
  sv_evidence : Forall (λ ad, Forall evidence_valid (ScoreDecisionV1.evidence_vector ad.2)) ads;
  sv_distinct : NoDup (decision_ids ads);
  sv_chronological : StronglySorted Z.lt (timestamps ads)
}.

(** The state has seen only decisions that precede the stream. *)
Definition precedes (s : AlertState.t) (ads : list (Ambient * ScoreDecisionV1.t)) : Prop :=
  Forall (λ ad, ¬ is_duplicate s ad.2 ∧ ¬ is_stale s ad.2) ads.

Lemma stream_valid_cons ad ads :
  stream_valid (ad :: ads) →
  decision_valid ad.2 ∧ Forall evidence_valid (ScoreDecisionV1.evidence_vector ad.2) ∧
  stream_valid ads ∧ (ScoreDecisionV1.decision_id ad.2 ∉ decision_ids ads) ∧
  Forall (λ t, ScoreDecisionV1.source_timestamp ad.2 < t) (timestamps ads).
Proof.
  intros [Hd He Hi Ht]. unfold decision_ids, timestamps in *. rewrite !fmap_cons in *.
  inversion Hd; inversion He; inversion Ht; subst. apply NoDup_cons in Hi as [? ?].
  by split_and!.
Qed.

Lemma precedes_step amb s d pol r ads :
  ¬ is_duplicate s d → transition amb s d pol = Ok r → stream_valid ((amb, d) :: ads) →
  precedes (TransitionResult.state r) ads.
Proof.
  intros Hdup Hr Hv. destruct (transition_last _ _ _ _ _ Hdup Hr) as (Hid & Hts & _).
  apply stream_valid_cons in Hv as (_ & _ & _ & Hnotin & Hlt). simpl in *.
  unfold precedes, is_duplicate, is_stale. rewrite Hid, Hts.
  rewrite Forall_forall. intros ad Had. split.
  - intros [= Heq]. apply Hnotin. rewrite Heq. by apply (list_elem_of_fmap_2 (λ ad, ScoreDecisionV1.decision_id ad.2)).
  - intros (ts & [= <-] & Hle). rewrite Forall_forall in Hlt.
    specialize (Hlt (ScoreDecisionV1.source_timestamp ad.2)). simpl in Hlt.
    assert (ScoreDecisionV1.source_timestamp ad.2 ∈ timestamps ads) as Hin
      by (by apply (list_elem_of_fmap_2 (λ ad, ScoreDecisionV1.source_timestamp ad.2))).
    specialize (Hlt Hin). lia.
Qed.

Lemma precedes_empty sid mid ads : precedes (AlertState.empty sid mid) ads.
Proof. apply Forall_true. intros ad. split; [done|]. by intros (? & ? & _). Qed.

Lemma count_opened_cons r rs :
  count_opened (r :: rs) = opened (TransitionResult.event r) + count_opened rs.
Proof.
  unfold count_opened, events_of, opened. cbn [omap list_omap].
  destruct (TransitionResult.event r) as [e|]; [|done].
  rewrite filter_cons. case_decide; case_bool_decide; cbn [length]; try done; lia.
Qed.

Lemma count_active_cons r rs :
  count_active (r :: rs) = (if is_open (TransitionResult.state r) then 1 else 0) + count_active rs.
Proof.
  unfold count_active. rewrite filter_cons.
  destruct (is_open _); case_decide; cbn [length]; try done; lia.
Qed.

(** A valid stream is consumed without an exception, in step with the simulation. *)
Lemma run_simulates pol ads s m :
  is_hex64 (LockedAlertPolicyV1.policy_sha256 pol) = true →
  stream_valid ads → alert_ok s → precedes s ads → sim_rel s m →
  ∃ rs, run pol s ads = Ok rs ∧
    let m' := foldl (sim_of pol) m (row_of ∘ snd <$> ads) in
    alert_ok (final_state s rs) ∧ sim_rel (final_state s rs) m' ∧
    SimState.episodes m' = SimState.episodes m + count_opened rs ∧
    SimState.alert_window_count m' = SimState.alert_window_count m + count_active rs.
Proof.
  intros Hp. revert s m. induction ads as [|[amb d] ads IH]; intros s m Hv Hok Hpre Hrel.
  { exists []. simpl. unfold count_opened, count_active. simpl. split_and!; try done; lia. }
  inversion Hpre as [|? ? [Hdup Hst] _]; subst. simpl in Hdup, Hst.
  pose proof (stream_valid_cons _ _ Hv) as (Hd & He & Hv' & _). simpl in *.
  destruct (transition_total amb s d pol Hok Hd He Hp) as [(? & _)|(_ & r & Hr)]; [done|].
  destruct (transition_simulates amb s d pol r m Hdup Hr Hrel) as (Hrel' & Hep & Hwc).
  destruct (IH (TransitionResult.state r) (sim_of pol m (row_of d)) Hv'
    (transition_preserves_ok _ _ _ _ _ Hok Hr) (precedes_step _ _ _ _ _ _ Hdup Hr Hv) Hrel')
    as (rs & Hrs & Hok' & Hrel'' & Hep' & Hwc').
  exists (r :: rs). unfold step_result. simpl. rewrite Hr. simpl. rewrite Hrs. simpl.
  split_and!; [done..| |].
  - etransitivity; [apply Hep'|]. rewrite Hep, count_opened_cons. lia.
  - etransitivity; [apply Hwc'|]. rewrite Hwc, count_active_cons. lia.
Qed.

(** ** Independence of the fresh identifiers *)

(** An event and a snapshot without the parts drawn from [uuid4] and the clock. *)
Definition erase_event (e : AlertEventV1.t) : AlertEventV1.t :=
  AlertEventV1.mk (UUID_of_bits 0) (AlertEventV1.replay_session_id e)
    (AlertEventV1.source_dataset_sha256 e) (AlertEventV1.contract_sha256 e)
    (AlertEventV1.source_timestamp e) (mkAware 0 0) (AlertEventV1.alert_id e)
    (AlertEventV1.machine_id e) (AlertEventV1.action e) (AlertEventV1.first_detection e)
    (AlertEventV1.last_detection e) (AlertEventV1.decision_ids e) (AlertEventV1.policy_sha256 e).

Definition erase_evidence (e : EvidenceSnapshotV1.t) : EvidenceSnapshotV1.t :=
  EvidenceSnapshotV1.mk (UUID_of_bits 0) (EvidenceSnapshotV1.replay_session_id e)
    (EvidenceSnapshotV1.source_dataset_sha256 e) (EvidenceSnapshotV1.contract_sha256 e)
    (EvidenceSnapshotV1.source_timestamp e) (mkAware 0 0) (EvidenceSnapshotV1.evidence_id e)
    (EvidenceSnapshotV1.alert_id e) (EvidenceSnapshotV1.decision_id e)
    (EvidenceSnapshotV1.window_id e) (EvidenceSnapshotV1.model_version e)
    (EvidenceSnapshotV1.feature_deviations e) (EvidenceSnapshotV1.data_quality e)
    (EvidenceSnapshotV1.model e) (EvidenceSnapshotV1.system_health e).

Definition erase (r : TransitionResult.t) : TransitionResult.t :=
  TransitionResult.mk (TransitionResult.state r) (erase_event <$> TransitionResult.event r)
    (erase_evidence <$> TransitionResult.evidence r).

Lemma alert_event_ambient amb1 amb2 s d pol act a fd ld ids :
  erase_event <$> alert_event amb1 s d pol act a fd ld ids =
  erase_event <$> alert_event amb2 s d pol act a fd ld ids.
Proof.
  unfold alert_event, AlertEventV1.make, field, guard_exn.
  repeat (case_match; simpl; try done).
Qed.

Lemma evidence_ambient amb1 amb2 a d :
  erase_evidence <$> build_evidence_snapshot amb1 a d =
  erase_evidence <$> build_evidence_snapshot amb2 a d.
Proof.
  unfold build_evidence_snapshot. destruct (mapR _ _); [|done].
  unfold EvidenceSnapshotV1.make, field, guard_exn. cbn [mbind result_bind].
  repeat (case_match; simpl; try done).
Qed.

Lemma fmap_same {A B} (f : A → B) (r1 r2 : result A) :
  f <$> r1 = f <$> r2 →
  (∃ a b, r1 = Ok a ∧ r2 = Ok b ∧ f a = f b) ∨ (∃ e, r1 = Err e ∧ r2 = Err e).
Proof. destruct r1, r2; simpl; intros [= ?]; subst; eauto 10. Qed.

Lemma emit_ambient amb1 amb2 s d pol act a fd n ids :
  erase <$> emit_anomaly_result amb1 s d pol act a fd n ids =
  erase <$> emit_anomaly_result amb2 s d pol act a fd n ids.
Proof.
  unfold emit_anomaly_result.
  destruct (fmap_same _ _ _ (alert_event_ambient amb1 amb2 s d pol act a fd
    (ScoreDecisionV1.source_timestamp d) ids)) as [(x & y & -> & -> & Hxy)|(e & -> & ->)]; [|done].
  simpl. destruct (fmap_same _ _ _ (evidence_ambient amb1 amb2 a d))
    as [(u & v & -> & -> & Huv)|(e & -> & ->)]; [|done].
  simpl. unfold erase. simpl. by rewrite Hxy, Huv.
Qed.

Lemma transition_ambient amb1 amb2 s d pol :
  erase <$> transition amb1 s d pol = erase <$> transition amb2 s d pol.
Proof.
  unfold transition, handle_anomaly_update, handle_anomaly_trigger, handle_normal.
  case_bool_decide; [done|]. destruct (match AlertState.last_source_timestamp s with Some _ => _ | None => _ end); [done|].
  destruct (ScoreDecisionV1.is_anomaly d), (AlertState.active_alert_id s); simpl.
  - apply emit_ambient.
  - destruct (_ <? _); [done|].
    match goal with |- _ <$> (?x ≫= _) = _ => destruct x end; [apply emit_ambient|done].
  - destruct (_ <=? _); [|done].
    match goal with |- _ <$> (alert_event _ _ _ _ ?ac ?a ?f ?l ?i ≫= _) = _ =>
      destruct (fmap_same _ _ _ (alert_event_ambient amb1 amb2 s d pol ac a f l i))
        as [(x & y & -> & -> & Hxy)|(e & -> & ->)] end; [|done].
    simpl. unfold erase. simpl. by rewrite Hxy.
  - done.
Qed.

(** Two runs over the same decisions agree up to the drawn parts. *)
Lemma run_ambient pol s ads1 ads2 :
  ads1.*2 = ads2.*2 →
  result_fmap _ _ (map erase) (run pol s ads1) = result_fmap _ _ (map erase) (run pol s ads2).
Proof.
  revert s ads2. induction ads1 as [|[a1 d1] ads1 IH]; intros s [|[a2 d2] ads2] H; try done.
  simpl in H. simplify_eq. simpl. unfold step_result. simpl.
  destruct (fmap_same _ _ _ (transition_ambient a1 a2 s d2 pol))
    as [(r1 & r2 & -> & -> & Hr)|(e & -> & ->)]; [|done].
  assert (TransitionResult.state r1 = TransitionResult.state r2) as Hs
    by (by apply (f_equal TransitionResult.state) in Hr).
  cbn [mbind result_bind]. rewrite Hs.
  destruct (fmap_same _ _ _ (IH (TransitionResult.state r2) ads2 ltac:(done)))
    as [(u & v & -> & -> & Huv)|(e & -> & ->)]; [|done].
  simpl. by rewrite Hr, Huv.
Qed.

(** ** What an alert is made of *)
Definition anomalous (ads : list (Ambient * ScoreDecisionV1.t)) : list UUID :=
  decision_ids (filter (λ ad, ScoreDecisionV1.is_anomaly ad.2 = true) ads).

(** While no alert is active the pending identifiers are exactly the current
    streak, which has not reached the persistence threshold. *)
Record streak_ok (pol : LockedAlertPolicyV1.t) (s : AlertState.t) : Prop := {
  streak_length : AlertState.active_alert_id s = None →
    Z.of_nat (length (AlertState.anomaly_decision_ids s)) = AlertState.anomaly_streak s;
  streak_below : AlertState.active_alert_id s = None →
    AlertState.anomaly_streak s < Z.max 1 (LockedAlertPolicyV1.persistence_decisions pol)
}.

Lemma streak_ok_empty pol sid mid : streak_ok pol (AlertState.empty sid mid).
Proof. constructor; simpl; intros _; lia. Qed.

Definition triggers (e : AlertEventV1.t) : bool :=
  match AlertEventV1.action e with OPENED | REOPENED => true | _ => false end.

Lemma transition_streak amb s d pol r :
  streak_ok pol s → transition amb s d pol = Ok r →
  streak_ok pol (TransitionResult.state r) ∧
  ∀ e, TransitionResult.event r = Some e → triggers e = true →
    Z.of_nat (length (AlertEventV1.decision_ids e)) =
      Z.max 1 (LockedAlertPolicyV1.persistence_decisions pol).
Proof.
  intros [Hl Hb] H. transition_cases H; (split; [constructor; simpl|]); intros; simplify_eq/=;
    auto; try lia;
    repeat match goal with E : AlertEventV1.decision_ids _ = _ |- _ => rewrite E; clear E end;
    rewrite ?length_app; simpl; try specialize (Hl eq_refl); try specialize (Hb eq_refl); try lia;
    unfold triggers in *; repeat case_match; try done; try lia.
Qed.

(** The decisions an event names are among those consumed, and anomalous. *)
Lemma transition_members amb s d pol r :
  transition amb s d pol = Ok r →
  (∀ i, i ∈ AlertState.anomaly_decision_ids (TransitionResult.state r) →
     i ∈ AlertState.anomaly_decision_ids s ++ anomalous [(amb, d)]) ∧
  ∀ e, TransitionResult.event r = Some e →
    ∀ i, i ∈ AlertEventV1.decision_ids e →
      i ∈ AlertState.anomaly_decision_ids s ++ anomalous [(amb, d)].
Proof.
  intros H. unfold anomalous, decision_ids.
  transition_cases H; split; intros; simplify_eq/=;
    repeat match goal with E : AlertEventV1.decision_ids _ = _ |- _ => rewrite E in *; clear E end;
    rewrite filter_cons; simpl;
    repeat match goal with E : ScoreDecisionV1.is_anomaly d = _ |- _ => rewrite E end;
    simpl; set_solver.
Qed.

Lemma events_of_cons r rs e :
  e ∈ events_of (r :: rs) ↔ TransitionResult.event r = Some e ∨ e ∈ events_of rs.
Proof.
  unfold events_of. cbn [omap list_omap].
  destruct (TransitionResult.event r) as [e'|]; [|naive_solver].
  rewrite elem_of_cons. naive_solver.
Qed.

Lemma run_streak pol s ads rs :
  streak_ok pol s → run pol s ads = Ok rs →
  ∀ e, e ∈ events_of rs → triggers e = true →
    Z.of_nat (length (AlertEventV1.decision_ids e)) =
      Z.max 1 (LockedAlertPolicyV1.persistence_decisions pol).
Proof.
  revert s rs. induction ads as [|[amb d] ads IH]; intros s rs Hok H e He Ht; simpl in H; inv_res.
  { by apply elem_of_nil in He. }
  destruct (transition_streak _ _ _ _ _ Hok H0) as [Hok' Hev].
  apply events_of_cons in He as [He|He]; eauto.
Qed.

Lemma run_members pol s ads rs :
  run pol s ads = Ok rs →
  ∀ e i, e ∈ events_of rs → i ∈ AlertEventV1.decision_ids e →
    i ∈ AlertState.anomaly_decision_ids s ++ anomalous ads.
Proof.
  revert s rs. induction ads as [|[amb d] ads IH]; intros s rs H e i He Hi; simpl in H; inv_res.
  { by apply elem_of_nil in He. }
  destruct (transition_members _ _ _ _ _ H0) as [Hst Hev].
  assert (anomalous ((amb, d) :: ads) = anomalous [(amb, d)] ++ anomalous ads) as ->.
  { unfold anomalous, decision_ids. by rewrite <-fmap_app, <-filter_app. }
  apply events_of_cons in He as [He|He].
  - specialize (Hev _ He _ Hi). set_solver.
  - specialize (IH _ _ H1 _ _ He Hi). apply elem_of_app in IH as [IH|IH]; [|set_solver].
    specialize (Hst _ IH). set_solver.
Qed.

(** A step's snapshot documents its event: both or neither on an anomaly, and
    they name the same alert and decision. *)
Lemma snapshot_fields amb a d ev :
  build_evidence_snapshot amb a d = Ok ev →
  EvidenceSnapshotV1.alert_id ev = a ∧
  EvidenceSnapshotV1.decision_id ev = ScoreDecisionV1.decision_id d ∧
  EvidenceSnapshotV1.evidence_id ev = evidence_id_for a (ScoreDecisionV1.decision_id d) ∧
  EvidenceSnapshotV1.window_id ev = ScoreDecisionV1.window_id d ∧
  EvidenceSnapshotV1.replay_session_id ev = ScoreDecisionV1.replay_session_id d.
Proof.
  unfold build_evidence_snapshot, EvidenceSnapshotV1.make, field. intros H. inv_res. by repeat split.
Qed.
