(* ===== verification/AlertProps.v ===== *)
(** * What the alert state machine guarantees

    The theorems a deployment relies on, from the lemmas of [AlertTheory], each
    with a concrete stream on which its hypotheses hold. *)

From S2P Require Import Prelude PyText PyUuid PyTime PyFloat PyHash PyJson.
From S2P Require Import Messages AlertPolicy AlertState AlertTheory.

(** ** A concrete session *)
Module AlertExamples.

Definition hex64 : string := "31f8689256951067e28c9cbb48a930c1617d8eea8c7133ba1a315f632842e1ad".
Definition uid (n : Z) : UUID := UUID_of_bits n.

Definition policy : LockedAlertPolicyV1.t :=
  LockedAlertPolicyV1.mk "alert-policy-v1" "calibration" hex64 hex64 hex64 "m" "champion-m-v1"
    f1 300 2 1 900 f0 f0 hex64.

Definition decision (n : Z) (anomaly : bool) : ScoreDecisionV1.t :=
  ScoreDecisionV1.mk (uid (100 + n)) (uid 7) hex64 hex64 (seconds (300 * n)) (mkAware 0 0)
    (uid (200 + n)) (uid (300 + n)) "champion-m-v1" f1 f1 anomaly
    [EvidenceValueV1.mk "TP2" f1 f0].

Definition ambient (n : Z) : Ambient :=
  mkAmbient (uid (400 + n)) (mkAware 0 0) (uid (500 + n)) (mkAware 0 0).

(** Two anomalies open an alert, one normal resolves it, two anomalies reopen it. *)
Definition stream : list (Ambient * ScoreDecisionV1.t) :=
  [(ambient 1, decision 1 true); (ambient 2, decision 2 true); (ambient 3, decision 3 false);
   (ambient 4, decision 4 true); (ambient 5, decision 5 true)].

Definition start : AlertState.t := AlertState.empty (uid 7) "metropt".

End AlertExamples.
Import AlertExamples.

Lemma stream_ok : stream_valid stream.
Proof.
  constructor.
  - repeat constructor.
  - repeat constructor.
  - apply (bool_decide_unpack _). by vm_compute.
  - repeat constructor.
Qed.

(** C1. The alerts raised online are the alerts the policy was calibrated on:
    over any chronological stream of validated decisions with distinct
    identifiers, the state machine never raises, it emits exactly as many
    [OPENED] events as [_simulate_alert_stream] counts episodes on the same
    rows, and an alert is active after exactly as many decisions as the
    simulation counts alert windows. *)
Theorem online_matches_calibration pol sid mid ads
    (Hmachine : nonempty mid = true)
    (Hpolicy : is_hex64 (LockedAlertPolicyV1.policy_sha256 pol) = true)
    (Hstream : stream_valid ads) :
  ∃ rs, run pol (AlertState.empty sid mid) ads = Ok rs ∧
    let m := sim_run (LockedAlertPolicyV1.persistence_decisions pol)
               (LockedAlertPolicyV1.cooldown_decisions pol)
               (LockedAlertPolicyV1.merge_gap_seconds pol) (row_of ∘ snd <$> ads) in
    count_opened rs = SimState.episodes m ∧
    count_active rs = SimState.alert_window_count m.
Proof.
  destruct (run_simulates pol ads (AlertState.empty sid mid) sim_init Hpolicy Hstream
    (alert_ok_empty _ _ Hmachine) (precedes_empty _ _ _) (sim_rel_init _ _))
    as (rs & Hrs & _ & _ & He & Hw).
  exists rs. split; [done|]. split; symmetry; [apply He | apply Hw].
Qed.

Lemma online_matches_calibration_witness :
  ∃ rs, run policy start stream = Ok rs ∧
    let m := sim_run 2 1 900 (row_of ∘ snd <$> stream) in
    count_opened rs = SimState.episodes m ∧ count_active rs = SimState.alert_window_count m.
Proof.
  apply (online_matches_calibration policy (uid 7) "metropt" stream); [reflexivity..|].
  exact stream_ok.
Defined.

(** C2. One decision, on every branch: on a well-formed state and validated
    input [transition] raises nothing but [OrderingViolationError], and that
    exactly when the decision is not later than the last one and is not the
    last one again; the last decision delivered again changes nothing and
    emits nothing; every other decision is accepted, the state stays
    well-formed and records it as its last. *)
Theorem transition_outcomes amb s d pol
    (Hok : alert_ok s) (Hd : decision_valid d)
    (Hev : Forall evidence_valid (ScoreDecisionV1.evidence_vector d))
    (Hpolicy : is_hex64 (LockedAlertPolicyV1.policy_sha256 pol) = true) :
  (is_duplicate s d ∧ transition amb s d pol = Ok (TransitionResult.mk s None None)) ∨
  (¬ is_duplicate s d ∧ is_stale s d ∧ transition amb s d pol = Err OrderingViolationError) ∨
  (¬ is_duplicate s d ∧ ¬ is_stale s d ∧ ∃ r, transition amb s d pol = Ok r ∧
     alert_ok (TransitionResult.state r) ∧
     AlertState.last_decision_id (TransitionResult.state r) = Some (ScoreDecisionV1.decision_id d) ∧
     AlertState.last_source_timestamp (TransitionResult.state r) =
       Some (ScoreDecisionV1.source_timestamp d)).
Proof.
  destruct (decide (is_duplicate s d)) as [Hdup|Hdup].
  { left. split; [done|]. unfold transition. by rewrite bool_decide_eq_true_2. }
  right. destruct (transition_total amb s d pol Hok Hd Hev Hpolicy)
    as [(? & _ & ?)|([|Hst] & r & Hr)]; [by left|done|].
  right. split_and!; [done..|]. exists r.
  destruct (transition_last _ _ _ _ _ Hdup Hr) as (? & ? & _).
  split_and!; [done|by eapply transition_preserves_ok|done|done].
Qed.

Lemma transition_outcomes_witness :
  let d := decision 1 true in
  (is_duplicate start d ∧ transition (ambient 1) start d policy = Ok (TransitionResult.mk start None None)) ∨
  (¬ is_duplicate start d ∧ is_stale start d ∧
     transition (ambient 1) start d policy = Err OrderingViolationError) ∨
  (¬ is_duplicate start d ∧ ¬ is_stale start d ∧ ∃ r, transition (ambient 1) start d policy = Ok r ∧
     alert_ok (TransitionResult.state r) ∧
     AlertState.last_decision_id (TransitionResult.state r) = Some (ScoreDecisionV1.decision_id d) ∧
     AlertState.last_source_timestamp (TransitionResult.state r) =
       Some (ScoreDecisionV1.source_timestamp d)).
Proof.
  apply (transition_outcomes (ambient 1) start (decision 1 true) policy).
  - by apply alert_ok_empty.
  - by repeat split.
  - repeat constructor.
  - reflexivity.
Defined.

(** C3. The alert topic follows the lifecycle
    OPENED, UPDATED*, RESOLVED, then REOPENED of the same alert or OPENED of
    another one: for every prefix of a session the emitted events are accepted
    by the lifecycle automaton, which ends in the phase of the state.  An alert
    is never updated or resolved unless it is the open one, never opened while
    one is open, and only the last resolved alert is reopened. *)
Theorem alert_lifecycle pol sid mid ads rs
    (Hrun : run pol (AlertState.empty sid mid) ads = Ok rs) :
  lifecycle Idle (events_of rs) = Some (phase_of (final_state (AlertState.empty sid mid) rs)).
Proof. exact (run_lifecycle _ _ _ _ Hrun). Qed.

Lemma alert_lifecycle_witness :
  ∃ rs, run policy start (take 1 stream) = Ok rs ∧
  lifecycle Idle (events_of rs) = Some (phase_of (final_state start rs)).
Proof.
  eexists. split; [reflexivity|].
  apply (alert_lifecycle policy (uid 7) "metropt" (take 1 stream)). reflexivity.
Defined.

(** C27. An alert rests on the persistence rule: the [OPENED] or [REOPENED]
    event of a session names exactly [persistence_decisions] decisions (at
    least one), and every decision any event names was consumed in the session
    and was anomalous. *)
Theorem alert_is_supported pol sid mid ads rs e
    (Hrun : run pol (AlertState.empty sid mid) ads = Ok rs) (He : e ∈ events_of rs) :
  (triggers e = true →
     Z.of_nat (length (AlertEventV1.decision_ids e)) =
       Z.max 1 (LockedAlertPolicyV1.persistence_decisions pol)) ∧
  (∀ i, i ∈ AlertEventV1.decision_ids e → i ∈ anomalous ads).
Proof.
  split.
  - exact (run_streak _ _ _ _ (streak_ok_empty _ _ _) Hrun e He).
  - intros i Hi. exact (run_members _ _ _ _ Hrun e i He Hi).
Qed.

Lemma alert_is_supported_witness :
  ∃ rs e, run policy start (take 2 stream) = Ok rs ∧ e ∈ events_of rs ∧
    (triggers e = true →
       Z.of_nat (length (AlertEventV1.decision_ids e)) =
         Z.max 1 (LockedAlertPolicyV1.persistence_decisions policy)) ∧
    (∀ i, i ∈ AlertEventV1.decision_ids e → i ∈ anomalous (take 2 stream)).
Proof.
  eexists _, _. split; [|split; [|eapply (alert_is_supported policy (uid 7) "metropt")]].
  - reflexivity.
  - apply elem_of_cons. left. reflexivity.
  - reflexivity.
  - apply elem_of_cons. left. reflexivity.
Defined.

(** Consuming the same decisions twice, as after a crash and recovery,
    gives the same states, the same alerts with the same identifiers and the
    same evidence, or the same exception: only the message identifiers and the
    emission times differ. *)
Theorem alerts_deterministic pol s ads1 ads2 (Hsame : ads1.*2 = ads2.*2) :
  result_fmap _ _ (map erase) (run pol s ads1) = result_fmap _ _ (map erase) (run pol s ads2).
Proof. exact (run_ambient pol s ads1 ads2 Hsame). Qed.

Lemma alerts_deterministic_witness :
  result_fmap _ _ (map erase) (run policy start stream) =
  result_fmap _ _ (map erase) (run policy start ((λ ad, (ambient 9, ad.2)) <$> stream)).
Proof. apply (alerts_deterministic policy start stream). reflexivity. Defined.
