(* ===== verification/StateCodec.v ===== *)
(** * The JSON form of an alert state ([_state_payload], [_state_from_payload])

    The alert runtime state is stored as a JSON object and read back when the
    service restarts; the round trip is what makes recovery exact. *)

From S2P Require Import Prelude PyText PyUuid PyTime PyFloat PyHash PyJson.
From S2P Require Import Messages KafkaIo AlertPolicy AlertState.

Definition opt_json {A} (f : A → json) (o : option A) : json :=
  match o with Some a => f a | None => JNull end.

Definition state_payload (state : AlertState.t) : dict :=
  [ ("replay_session_id", JStr (str_uuid (AlertState.replay_session_id state)));
    ("machine_id", JStr (AlertState.machine_id state));
    ("active_alert_id", opt_json (JStr ∘ str_uuid) (AlertState.active_alert_id state));
    ("previous_alert_id", opt_json (JStr ∘ str_uuid) (AlertState.previous_alert_id state));
    ("first_detection", opt_json (JStr ∘ isoformat) (AlertState.first_detection state));
    ("last_detection", opt_json (JStr ∘ isoformat) (AlertState.last_detection state));
    ("resolved_at", opt_json (JStr ∘ isoformat) (AlertState.resolved_at state));
    ("anomaly_decision_ids", JList ((JStr ∘ str_uuid) <$> AlertState.anomaly_decision_ids state));
    ("anomaly_streak", JInt (AlertState.anomaly_streak state));
    ("normal_streak", JInt (AlertState.normal_streak state));
    ("last_decision_id", opt_json (JStr ∘ str_uuid) (AlertState.last_decision_id state));
    ("last_source_timestamp",
       opt_json (JStr ∘ isoformat) (AlertState.last_source_timestamp state)) ]%string.

(** [payload.get(name)], and [payload[name]] *)
Definition get_value (name : string) (payload : dict) : json := default JNull (jget name payload).
Definition get_required (name : string) (payload : dict) : result json :=
  of_option (KeyError name) (jget name payload).

(** [UUID(str(value))] *)
Definition as_uuid (v : json) : result UUID := s ← py_str v; UUID_of_text s.

Definition optional_uuid (payload : dict) (name : string) : result (option UUID) :=
  match get_value name payload with
  | JNull => Ok None
  | v => Some <$> as_uuid v
  end.

Definition optional_datetime (payload : dict) (name : string) : result (option datetime) :=
  match get_value name payload with
  | JNull => Ok None
  | v => s ← py_str v; Some <$> fromisoformat s
  end.

Definition state_from_payload (payload : dict) : result AlertState.t :=
  let ids := match jget "anomaly_decision_ids" payload with Some (JList l) => l | _ => [] end in
  replay_session_id ← (v ← get_required "replay_session_id" payload; as_uuid v);
  machine_id ← (v ← get_required "machine_id" payload; py_str v);
  active_alert_id ← optional_uuid payload "active_alert_id";
  previous_alert_id ← optional_uuid payload "previous_alert_id";
  first_detection ← optional_datetime payload "first_detection";
  last_detection ← optional_datetime payload "last_detection";
  resolved_at ← optional_datetime payload "resolved_at";
  anomaly_decision_ids ← mapR as_uuid ids;
  anomaly_streak ← py_int (default (JInt 0) (jget "anomaly_streak" payload));
  normal_streak ← py_int (default (JInt 0) (jget "normal_streak" payload));
  last_decision_id ← optional_uuid payload "last_decision_id";
  last_source_timestamp ← optional_datetime payload "last_source_timestamp";
  Ok (AlertState.mk replay_session_id machine_id active_alert_id previous_alert_id first_detection
        last_detection resolved_at anomaly_decision_ids anomaly_streak normal_streak
        last_decision_id last_source_timestamp).

(** ** Round trip *)

(** Every timestamp of the state is in Python's range. *)
Definition opt_valid (o : option datetime) : Prop := ∀ t, o = Some t → dt_valid t.
Record state_dated (s : AlertState.t) : Prop := {
  dated_first : opt_valid (AlertState.first_detection s);
  dated_last : opt_valid (AlertState.last_detection s);
  dated_resolved : opt_valid (AlertState.resolved_at s);
  dated_source : opt_valid (AlertState.last_source_timestamp s)
}.

Lemma as_uuid_str u : as_uuid (JStr (str_uuid u)) = Ok u.
Proof. exact (UUID_of_text_str u). Qed.

Lemma optional_uuid_payload payload name o :
  jget name payload = Some (opt_json (JStr ∘ str_uuid) o) → optional_uuid payload name = Ok o.
Proof.
  unfold optional_uuid, get_value. intros ->. destruct o as [u|]; [|done].
  change (Some <$> as_uuid (JStr (str_uuid u)) = Ok (Some u)). by rewrite as_uuid_str.
Qed.

Lemma optional_datetime_payload payload name o :
  opt_valid o → jget name payload = Some (opt_json (JStr ∘ isoformat) o) →
  optional_datetime payload name = Ok o.
Proof.
  unfold optional_datetime, get_value. intros Ho ->. destruct o as [t|]; [|done].
  change (Some <$> fromisoformat (isoformat t) = Ok (Some t)).
  rewrite fromisoformat_isoformat by auto. reflexivity.
Qed.

Lemma ids_payload (ids : list UUID) :
  mapR as_uuid ((JStr ∘ str_uuid) <$> ids) = Ok ids.
Proof.
  induction ids as [|i ids IH]; [done|]. rewrite fmap_cons. cbn [mapR].
  rewrite IH. unfold compose. by rewrite as_uuid_str.
Qed.

Lemma state_from_payload_payload s : state_dated s → state_from_payload (state_payload s) = Ok s.
Proof.
  intros [Hf Hl Hr Ht]. unfold state_from_payload.
  replace (match jget "anomaly_decision_ids" (state_payload s) with Some (JList l) => l | _ => [] end)
    with ((JStr ∘ str_uuid) <$> AlertState.anomaly_decision_ids s) by done.
  rewrite ids_payload.
  rewrite (optional_uuid_payload _ "active_alert_id" (AlertState.active_alert_id s)) by done.
  rewrite (optional_uuid_payload _ "previous_alert_id" (AlertState.previous_alert_id s)) by done.
  rewrite (optional_uuid_payload _ "last_decision_id" (AlertState.last_decision_id s)) by done.
  rewrite (optional_datetime_payload _ "first_detection" (AlertState.first_detection s)) by done.
  rewrite (optional_datetime_payload _ "last_detection" (AlertState.last_detection s)) by done.
  rewrite (optional_datetime_payload _ "resolved_at" (AlertState.resolved_at s)) by done.
  rewrite (optional_datetime_payload _ "last_source_timestamp" (AlertState.last_source_timestamp s))
    by done.
  change (get_required "replay_session_id" (state_payload s))
    with (Ok (JStr (str_uuid (AlertState.replay_session_id s)))).
  cbn [mbind result_bind]. rewrite as_uuid_str. by destruct s.
Qed.
