(* ===== verification/Tables.v ===== *)
(** * SQL tables

    What the two stores use of PostgreSQL: transactions, constraints, selections
    in the order of a key, and the range of its integer columns.  A table is a
    [gmap] from its primary key to its rows. *)

From S2P Require Import Prelude PyText PyUuid.

(** [with psycopg.connect(...)]: commit when the body returns, roll back when it raises. *)
Definition transaction {DB A} (body : DB → result (A * DB)) : M DB A := λ db,
  match body db with
  | Ok (a, db') => (Ok a, db')
  | Err e => (Err e, db)
  end.
Definition update {DB} (body : DB → result DB) : M DB unit :=
  transaction (λ db, db' ← body db; Ok ((), db')).

(** [FOREIGN KEY] and [UNIQUE] *)
Definition references {K A} `{EqDecision K, Countable K} (m : gmap K A) (k : K) (name : string)
  : result unit := guard_exn (bool_decide (is_Some (m !! k))) (IntegrityError name).
Definition exists_row {K A} `{EqDecision K, Countable K} (P : K → A → bool) (m : gmap K A) : bool :=
  existsb (λ kv, P kv.1 kv.2) (map_to_list m).

(** [ORDER BY key]: rows by their UUID key. *)
Definition by_key {A} (x y : UUID * A) : Prop := uuid_leb x.1 y.1 = true.
#[export] Instance by_key_dec {A} : RelDecision (@by_key A).
Proof. intros x y. unfold by_key. apply _. Defined.
Definition ordered_rows {A} (P : UUID → A → bool) (m : gmap UUID A) : list (UUID * A) :=
  merge_sort by_key (filter (λ kv : UUID * A, P kv.1 kv.2 = true) (map_to_list m)).

(** [LIMIT n] *)
Definition limit {A} (n : Z) (rows : list A) : result (list A) :=
  _ ← guard_exn (0 <=? n) (RuntimeError "LIMIT must not be negative");
  Ok (take (Z.to_nat n) rows).

(** A value outside the range of [bigint] or [int] is a [DataError]. *)
Definition int_column (bits : Z) (n : Z) : result unit :=
  guard_exn ((- 2 ^ (bits - 1) <=? n) && (n <? 2 ^ (bits - 1))) (DataError "integer out of range").
Definition bigint : Z → result unit := int_column 64.
Definition int4 : Z → result unit := int_column 32.

(** Tables whose key is a UUID and a number: the rows of a UUID [ORDER BY] the number. *)
Definition by_number {A} (x y : Z * A) : Prop := x.1 ≤ y.1.
#[export] Instance by_number_dec {A} : RelDecision (@by_number A).
Proof. intros x y. unfold by_number. apply _. Defined.
#[export] Instance by_number_trans {A} : Transitive (@by_number A).
Proof. intros x y z. unfold by_number. lia. Qed.
#[export] Instance by_number_total {A} : Total (@by_number A).
Proof. intros x y. unfold by_number. lia. Qed.

Definition numbered {A} (id : UUID) (m : gmap (UUID * Z) A) : list (Z * A) :=
  omap (λ kv : (UUID * Z) * A, if bool_decide (kv.1.1 = id) then Some (kv.1.2, kv.2) else None)
    (map_to_list m).
Definition numbered_rows {A} (id : UUID) (P : Z → A → bool) (m : gmap (UUID * Z) A) : list (Z * A) :=
  merge_sort by_number (filter (λ kv : Z * A, P kv.1 kv.2 = true) (numbered id m)).

(** ** Lemmas *)
Lemma exists_row_true {K A} `{EqDecision K, Countable K} (P : K → A → bool) (m : gmap K A) :
  exists_row P m = true ↔ ∃ k a, m !! k = Some a ∧ P k a = true.
Proof.
  unfold exists_row. rewrite existsb_exists. split.
  - intros ([k a] & Hin & HP). apply list_elem_of_In, elem_of_map_to_list in Hin. eauto.
  - intros (k & a & Hk & HP). exists (k, a). split; [|done].
    by apply list_elem_of_In, elem_of_map_to_list.
Qed.

Lemma exists_row_false {K A} `{EqDecision K, Countable K} (P : K → A → bool) (m : gmap K A) k a :
  exists_row P m = false → m !! k = Some a → P k a = false.
Proof.
  intros Hf Hk. destruct (P k a) eqn:HP; [|done].
  assert (exists_row P m = true) as Ht by (apply exists_row_true; eauto). congruence.
Qed.

Lemma references_Ok {K A} `{EqDecision K, Countable K} (m : gmap K A) k name u :
  references m k name = Ok u ↔ is_Some (m !! k).
Proof. unfold references. by rewrite guard_exn_Ok, bool_decide_eq_true. Qed.

Lemma insert_is_Some {K A} `{EqDecision K, Countable K} (m : gmap K A) i j x :
  is_Some (m !! j) → is_Some (<[i := x]> m !! j).
Proof. intros Hj. destruct (decide (i = j)) as [->|]; [rewrite lookup_insert_eq|rewrite lookup_insert_ne]; eauto. Qed.

Lemma insert_is_Some_eq {K A} `{EqDecision K, Countable K} (m : gmap K A) i x :
  is_Some (<[i := x]> m !! i).
Proof. rewrite lookup_insert_eq. eauto. Qed.

Lemma elem_of_numbered {A} (id : UUID) (m : gmap (UUID * Z) A) n a :
  (n, a) ∈ numbered id m ↔ m !! (id, n) = Some a.
Proof.
  unfold numbered. rewrite list_elem_of_omap. split.
  - intros ([[i k] b] & Hin & Heq). apply elem_of_map_to_list in Hin. simpl in Heq.
    case_bool_decide; [|done]. by simplify_eq.
  - intros Hm. exists ((id, n), a). split; [by apply elem_of_map_to_list|]. simpl.
    by rewrite bool_decide_eq_true_2.
Qed.

Lemma NoDup_numbered {A} (id : UUID) (m : gmap (UUID * Z) A) : NoDup (numbered id m).*1.
Proof.
  unfold numbered. pose proof (NoDup_fst_map_to_list m) as Hnd.
  induction (map_to_list m) as [|[[i k] b] l IH]; [constructor|].
  rewrite fmap_cons, NoDup_cons in Hnd. destruct Hnd as [Hni Hnd]. simpl.
  case_bool_decide as Hi; [|by apply IH]. subst i. rewrite fmap_cons. constructor; [|by apply IH].
  intros Hin. apply Hni. apply list_elem_of_fmap in Hin as ([k' a'] & Hk & Hin). simpl in Hk. subst k'.
  apply list_elem_of_omap in Hin as ([[i' k'] b'] & Hin & Heq). simpl in Heq.
  case_bool_decide; [|done]. simplify_eq. apply list_elem_of_fmap. eexists; split; [|exact Hin]; done.
Qed.

Lemma elem_of_numbered_rows {A} (id : UUID) (P : Z → A → bool) (m : gmap (UUID * Z) A) n a :
  (n, a) ∈ numbered_rows id P m ↔ m !! (id, n) = Some a ∧ P n a = true.
Proof.
  unfold numbered_rows. rewrite merge_sort_Permutation, list_elem_of_filter, elem_of_numbered. naive_solver.
Qed.

(** The rows of a selection come in strictly increasing order of their number. *)
Lemma numbered_rows_sorted {A} (id : UUID) (P : Z → A → bool) (m : gmap (UUID * Z) A) :
  StronglySorted (key_lt fst) (numbered_rows id P m).
Proof.
  refine (merge_sort_strict fst by_number _ _ _); [by intros|].
  eapply sublist_NoDup; [apply (NoDup_numbered id m)|]. apply fmap_sublist, sublist_filter.
Qed.

(** ** What is selected from the rows of a table, in any order *)
Definition select {K A B} `{EqDecision K, Countable K} (f : K → A → option B) (m : gmap K A) : list B :=
  omap (λ kv, f kv.1 kv.2) (map_to_list m).

Section Select.
Context {K A B : Type} `{EqDecision K, Countable K} (f : K → A → option B).

Lemma select_empty : select f (∅ : gmap K A) = [].
Proof. unfold select. by rewrite map_to_list_empty. Qed.

Lemma select_insert (m : gmap K A) k a :
  m !! k = None → select f (<[k := a]> m) ≡ₚ option_list (f k a) ++ select f m.
Proof.
  intros Hk. unfold select. rewrite (omap_Permutation _ _ _ (map_to_list_insert m k a Hk)). simpl.
  by destruct (f k a).
Qed.

Lemma elem_of_select (m : gmap K A) b :
  b ∈ select f m ↔ ∃ k a, m !! k = Some a ∧ f k a = Some b.
Proof.
  unfold select. rewrite list_elem_of_omap. split.
  - intros ([k a] & Hin & Hf). apply elem_of_map_to_list in Hin. eauto.
  - intros (k & a & Hk & Hf). exists (k, a). split; [by apply elem_of_map_to_list|done].
Qed.

Lemma select_none (m : gmap K A) : (∀ k a, m !! k = Some a → f k a = None) → select f m = [].
Proof.
  intros Hn. destruct (select f m) as [|b l] eqn:E; [done|].
  assert (b ∈ select f m) as (k & a & Hk & Hf)%elem_of_select by (rewrite E; constructor).
  rewrite (Hn k a Hk) in Hf. done.
Qed.

(** An update of columns that are not selected. *)
Lemma select_alter (g : A → A) (m : gmap K A) k :
  (∀ k a, f k (g a) = f k a) → select f (alter g k m) ≡ₚ select f m.
Proof.
  intros Hg. destruct (m !! k) as [a|] eqn:Hk.
  - rewrite <-(insert_delete_id m k a Hk) at 2.
    assert (alter g k m = <[k := g a]> (delete k m)) as ->.
    { apply map_eq. intros i. destruct (decide (i = k)) as [->|Hi].
      - by rewrite lookup_alter_eq, Hk, lookup_insert_eq.
      - by rewrite lookup_alter_ne, lookup_insert_ne, lookup_delete_ne by done. }
    rewrite !select_insert by apply lookup_delete_eq. by rewrite Hg.
  - by rewrite alter_id by (intros; congruence).
Qed.
End Select.
