(* ===== verification/Migrations.v ===== *)
(** * Database migrations *)

From S2P Require Import Prelude PyText PyHash PyJson Tables.

(** ** Database migrations ([migrations.py])

    SQL files applied in the order of their names, each recorded with its digest,
    in one transaction.  What a file does to the schema is a parameter; the table
    [schema_migrations] of a database where it does not exist is empty.  A
    directory is the content of its regular files. *)

Record Migration := mkMigration { name : string; text_of_file : bytes; sha256 : string }.

Definition glob_digit (c : ascii) : bool := bool_decide (c ∈ chars "0123456789").
(** [fnmatch(name, "[0-9][0-9][0-9]_*.sql")] *)
Definition migration_glob (n : string) : bool :=
  match chars n with
  | a :: b :: c :: u :: rest =>
      glob_digit a && glob_digit b && glob_digit c && bool_decide (u = "_"%char)
      && bool_decide (drop (length rest - 4) rest = chars ".sql")
  | _ => false
  end.

(** [sorted] of paths of one directory: by name *)
Definition name_before (x y : string * bytes) : Prop := chars_leb (chars x.1) (chars y.1) = true.
#[export] Instance name_before_dec : RelDecision name_before.
Proof. intros x y. unfold name_before. apply _. Defined.

Definition discover_migrations (path : gmap string bytes) : list Migration :=
  (λ file, mkMigration file.1 file.2 (sha256_hex file.2)) <$>
    merge_sort name_before (filter (λ file, migration_glob file.1 = true) (map_to_list path)).

Section Apply.
Context {Schema : Type}.
(** [cursor.execute(migration.path.read_text(...))] *)
Variable execute : bytes → Schema → result Schema.

Record MigDB := mkMigDB { schema : Schema; schema_migrations : gmap string string }.

(** One turn of the loop, with the names applied so far. *)
Definition apply_one (s : list string * MigDB) (migration : Migration) : result (list string * MigDB) :=
  let '(applied, db) := s in
  match schema_migrations db !! name migration with
  | Some sha =>
      _ ← guard_exn (bool_decide (sha = sha256 migration)) (MigrationError (name migration));
      Ok (applied, db)
  | None =>
      schema ← execute (text_of_file migration) (schema db);
      Ok (applied ++ [name migration],
          mkMigDB schema (<[name migration := sha256 migration]> (schema_migrations db)))
  end.

Definition apply_migrations (path : gmap string bytes) : M MigDB (list string) :=
  transaction (λ db, foldR apply_one ([], db) (discover_migrations path)).
End Apply.
Arguments MigDB : clear implicits.

(** ** What applying the migrations guarantees *)

Lemma discovered_names path : NoDup (name <$> discover_migrations path).
Proof.
  unfold discover_migrations. rewrite <-list_fmap_compose.
  apply (NoDup_fmap_2_strong (Migrations.name ∘ _)).
  - intros [n c] [n' c'] Hn Hn' Heq. simpl in Heq. subst.
    rewrite merge_sort_Permutation in Hn, Hn'.
    apply list_elem_of_filter in Hn as [_ Hn]. apply list_elem_of_filter in Hn' as [_ Hn'].
    apply elem_of_map_to_list in Hn, Hn'. congruence.
  - rewrite merge_sort_Permutation. apply NoDup_filter, NoDup_map_to_list.
Qed.

Lemma discovered path n c :
  path !! n = Some c → migration_glob n = true →
  mkMigration n c (sha256_hex c) ∈ discover_migrations path.
Proof.
  intros Hn Hg. unfold discover_migrations. apply list_elem_of_fmap. exists (n, c). split; [done|].
  rewrite merge_sort_Permutation. apply list_elem_of_filter. split; [done|]. by apply elem_of_map_to_list.
Qed.

Section Props.
Context {Schema : Type} (execute : bytes → Schema → result Schema).
Abbreviation apply_one := (apply_one execute).
Implicit Types db : MigDB Schema.

Definition pending db (m : Migration) : Prop := schema_migrations db !! name m = None.
#[export] Instance pending_dec db m : Decision (pending db m).
Proof. unfold pending. apply _. Defined.
Definition recorded db (m : Migration) : Prop := schema_migrations db !! name m = Some (sha256 m).
(** The files run one after the other. *)
Definition execute_all (s : Schema) (ms : list Migration) : result Schema :=
  foldR (λ s m, execute (text_of_file m) s) s ms.

Lemma recorded_skipped l : ∀ applied db, Forall (recorded db) l → foldR apply_one (applied, db) l = Ok (applied, db).
Proof.
  induction l as [|m l IH]; intros applied db Hl; [done|]. apply Forall_cons in Hl as [Hm Hl].
  simpl. rewrite Hm. rewrite bool_decide_eq_true_2 by done. simpl. by apply IH.
Qed.

Lemma pending_insert db s m (l : list Migration) : name m ∉ name <$> l →
  filter (pending (mkMigDB s (<[name m := sha256 m]> (schema_migrations db)))) l = filter (pending db) l.
Proof.
  induction l as [|x l IH]; intros Hm; [done|]. simpl in Hm. apply not_elem_of_cons in Hm as [Hne Hm].
  assert (pending (mkMigDB s (<[name m := sha256 m]> (schema_migrations db))) x ↔ pending db x) as Hx
    by (unfold pending; simpl; by rewrite lookup_insert_ne).
  rewrite !filter_cons, IH by done. destruct (decide (pending db x)) as [Hd|Hd].
  - by rewrite decide_True by tauto.
  - by rewrite decide_False by tauto.
Qed.

(** What the loop leaves when it ends. *)
Lemma applied_spec l : ∀ applied db applied' db', NoDup (name <$> l) →
  foldR apply_one (applied, db) l = Ok (applied', db') →
  applied' = applied ++ (name <$> filter (pending db) l) ∧
  execute_all (schema db) (filter (pending db) l) = Ok (schema db') ∧
  Forall (recorded db') l ∧
  (∀ n sha, schema_migrations db !! n = Some sha → schema_migrations db' !! n = Some sha) ∧
  (∀ n, n ∉ name <$> l → schema_migrations db' !! n = schema_migrations db !! n).
Proof.
  induction l as [|m l IH]; intros applied db applied' db' Hnd E; simpl in E.
  { simplify_eq. by rewrite app_nil_r. }
  simpl in Hnd. apply NoDup_cons in Hnd as [Hm Hnd]. rewrite filter_cons.
  destruct (schema_migrations db !! name m) as [sha|] eqn:Hsha.
  - rewrite decide_False by (unfold pending; by rewrite Hsha). inv_res. simplify_eq.
    destruct (IH _ _ _ _ Hnd E) as (-> & Hex & Hrec & Hmono & Hother). split_and!; try done.
    + constructor; [by apply Hmono|done].
    + intros n Hn. apply Hother. set_solver.
  - rewrite decide_True by done.
    destruct (execute (text_of_file m) (schema db)) as [s|] eqn:Hs; [|done]. simpl in E.
    destruct (IH _ _ _ _ Hnd E) as (-> & Hex & Hrec & Hmono & Hother).
    rewrite pending_insert in Hex |- * by done. simpl in Hex, Hmono, Hother. split_and!.
    + simpl. by rewrite <-(assoc_L (++)).
    + unfold execute_all. cbn [foldR]. rewrite Hs. exact Hex.
    + constructor; [|done]. apply Hmono. apply lookup_insert_eq.
    + intros n sha Hn. apply Hmono. rewrite lookup_insert_ne by congruence. done.
    + intros n Hn. rewrite Hother by set_solver. apply lookup_insert_ne. set_solver.
Qed.

(** Why the loop fails. *)
Lemma failed_spec l : ∀ applied db e, NoDup (name <$> l) →
  foldR apply_one (applied, db) l = Err e →
  ∃ m, m ∈ l ∧
    ((e = MigrationError (name m) ∧ ∃ sha, schema_migrations db !! name m = Some sha ∧ sha ≠ sha256 m) ∨
     (pending db m ∧ ∃ s, execute (text_of_file m) s = Err e)).
Proof.
  induction l as [|m l IH]; intros applied db e Hnd E; simpl in E; [done|].
  simpl in Hnd. apply NoDup_cons in Hnd as [Hm Hnd].
  destruct (schema_migrations db !! name m) as [sha|] eqn:Hsha.
  - destruct (bool_decide (sha = sha256 m)) eqn:Hb; simpl in E.
    + destruct (IH _ _ _ Hnd E) as (x & Hx & Hwhy). exists x. split; [set_solver|done].
    + simplify_eq. exists m. split; [set_solver|]. left. split; [done|].
      exists sha. split; [done|]. by apply bool_decide_eq_false in Hb.
  - destruct (execute (text_of_file m) (schema db)) as [s|e'] eqn:Hs; simpl in E.
    + destruct (IH _ _ _ Hnd E) as (x & Hx & Hwhy). exists x. split; [set_solver|].
      assert (name x ≠ name m) as Hne by (intros Heq; apply Hm; rewrite <-Heq; by apply list_elem_of_fmap_2).
      unfold pending in Hwhy. simpl in Hwhy. by rewrite lookup_insert_ne in Hwhy.
    + simplify_eq. exists m. split; [set_solver|]. right. eauto.
Qed.

Lemma changed_fails l m sha : ∀ applied db, NoDup (name <$> l) → m ∈ l →
  schema_migrations db !! name m = Some sha → sha ≠ sha256 m →
  ∃ e, foldR apply_one (applied, db) l = Err e.
Proof.
  intros applied db Hnd Hm Hsha Hne. destruct (foldR _ _ _) as [[a db']|e] eqn:E; [|eauto].
  destruct (applied_spec _ _ _ _ _ Hnd E) as (_ & _ & Hrec & Hmono & _).
  rewrite Forall_forall in Hrec. specialize (Hrec _ Hm). unfold recorded in Hrec.
  rewrite (Hmono _ _ Hsha) in Hrec. congruence.
Qed.

(** C24. Migrations converge.  A run either applies the files that are not recorded, all
    of them, in the order of their names, records each with its digest and keeps
    what was recorded; or it fails and changes nothing, and it fails only because
    the digest of a recorded file changed or because a pending file cannot be
    executed.  After a run that succeeded another run over the same files applies
    nothing, one over other files applies at most those that were not there, and one over
    files of which a recorded one has changed fails. *)
Theorem migrations_converge path db :
  match apply_migrations execute path db with
  | (Ok applied, db') =>
      let todo := filter (pending db) (discover_migrations path) in
      applied = name <$> todo ∧ execute_all (schema db) todo = Ok (schema db') ∧
      Forall (recorded db') (discover_migrations path) ∧
      (∀ n, n ∉ name <$> discover_migrations path → schema_migrations db' !! n = schema_migrations db !! n) ∧
      apply_migrations execute path db' = (Ok [], db') ∧
      (∀ path' applied' db'', apply_migrations execute path' db' = (Ok applied', db'') →
         ∀ n, n ∈ applied' → path !! n = None) ∧
      (∀ path' n c c', path !! n = Some c → path' !! n = Some c' → migration_glob n = true →
         sha256_hex c' ≠ sha256_hex c → ∃ e, apply_migrations execute path' db' = (Err e, db'))
  | (Err e, db') => db' = db ∧ ∃ m, m ∈ discover_migrations path ∧
      ((e = MigrationError (name m) ∧ ∃ sha, schema_migrations db !! name m = Some sha ∧ sha ≠ sha256 m) ∨
       (pending db m ∧ ∃ s, execute (text_of_file m) s = Err e))
  end.
Proof.
  pose proof (discovered_names path) as Hnd. unfold apply_migrations, transaction.
  destruct (foldR apply_one ([], db) (discover_migrations path)) as [[applied db']|e] eqn:E.
  2:{ split; [done|]. by eapply failed_spec. }
  destruct (applied_spec _ _ _ _ _ Hnd E) as (Happ & Hex & Hrec & Hmono & Hother).
  assert (∀ n c, path !! n = Some c → migration_glob n = true →
    schema_migrations db' !! n = Some (sha256_hex c)) as Hdone.
  { intros n c Hn Hg. rewrite Forall_forall in Hrec. exact (Hrec _ (discovered path n c Hn Hg)). }
  split_and!; try done.
  - by rewrite recorded_skipped.
  - intros path' applied' db'' E' n Hin. destruct (path !! n) as [c|] eqn:Hn; [|done].
    destruct (foldR apply_one ([], db') (discover_migrations path')) as [[a d]|] eqn:E2; simplify_eq/=.
    destruct (applied_spec _ _ _ _ _ (discovered_names path') E2) as (-> & _). simpl in Hin.
    apply list_elem_of_fmap in Hin as (m & -> & Hin). apply list_elem_of_filter in Hin as [Hp Hin].
    unfold pending in Hp. unfold discover_migrations in Hin.
    apply list_elem_of_fmap in Hin as ([n' c'] & -> & Hin). rewrite merge_sort_Permutation in Hin.
    apply list_elem_of_filter in Hin as [Hg _]. simpl in *. by rewrite (Hdone _ _ Hn Hg) in Hp.
  - intros path' n c c' Hn Hn' Hg Hne.
    destruct (changed_fails (discover_migrations path') (mkMigration n c' (sha256_hex c')) (sha256_hex c) [] db')
      as [e He]; [apply discovered_names|by apply discovered|by apply Hdone|simpl; congruence|].
    exists e. by rewrite He.
Qed.
End Props.

(** ** Witness: two files, then a third, then a change *)
Module MigrationExample.
Definition execute (sql : bytes) (s : list bytes) : result (list bytes) :=
  if bool_decide (sql = []) then Err (ProviderError "SyntaxError") else Ok (s ++ [sql]).
Definition path : gmap string bytes :=
  <["002_alerts.sql" := [2]]> (<["001_init.sql" := [1]]> (<["README.md" := [9]]> ∅)).
Definition fresh : MigDB (list bytes) := mkMigDB [] ∅.

Example both_applied :
  (apply_migrations execute path fresh).1 = Ok ["001_init.sql"; "002_alerts.sql"]%string ∧
  schema (apply_migrations execute path fresh).2 = [[1]; [2]] ∧
  (apply_migrations execute (<["003_rca.sql" := [3]]> path) (apply_migrations execute path fresh).2).1 =
    Ok ["003_rca.sql"]%string ∧
  is_ok (apply_migrations execute (<["001_init.sql" := [7]]> path) (apply_migrations execute path fresh).2).1 = false.
Proof. vm_compute. repeat split. Qed.

Lemma migrations_converge_witness :
  ∃ applied db', apply_migrations execute path fresh = (Ok applied, db') ∧
    apply_migrations execute path db' = (Ok [], db') ∧
    ∃ e, apply_migrations execute (<["001_init.sql" := [7]]> path) db' = (Err e, db').
Proof.
  pose proof (migrations_converge execute path fresh) as Hthm.
  destruct (apply_migrations execute path fresh) as [[applied|e] db'] eqn:E.
  2:{ apply (f_equal (λ x, is_ok x.1)) in E. vm_compute in E. discriminate E. }
  destruct Hthm as (_ & _ & _ & _ & Hagain & _ & Hchanged).
  exists applied, db'. split; [reflexivity|]. split; [exact Hagain|].
  apply (Hchanged _ "001_init.sql"%string [1] [7]); [reflexivity|reflexivity|reflexivity|].
  apply (bool_decide_unpack _). vm_compute. reflexivity.
Defined.
End MigrationExample.
