(* ===== verification/Store.v ===== *)
(** * The PostgreSQL store ([persistence.py], [db/migrations])

    The database is a record of tables.  Each SQL statement is a function that
    enforces the constraints of the schema (primary keys, UNIQUE, CHECK and
    foreign keys, whose violation is [IntegrityError]); a method is one
    transaction: its statements in order, all undone when one of them raises.
    UUID columns hold [str(uuid)], represented by the UUID; [now()] is an
    argument of the methods whose timestamps are read back; [updated_at] of
    [alert_runtime_states] is never read and is not a column here.  The
    [model_dump(mode="json")] and [model_validate] of a message are pydantic's:
    a parameter, [JsonModel]. *)

From S2P Require Import Prelude PyText PyUuid PyTime PyFloat PyHash PyJson Tables.
From S2P Require Import Messages KafkaIo AlertPolicy AlertState StateCodec.

(** ** Rows *)
Module SessionRow.
Record t := mk {
  source_dataset_sha256 : string;
  contract_sha256 : string;
  model_version : string;
  state : ReplayState;
  last_sequence : option Z;
  source_timestamp : option datetime;
  error_code : option string;
  updated_at : Z
}.
End SessionRow.

Module DecisionRow.
Record t := mk {
  replay_session_id : UUID;
  window_id : UUID;
  source_timestamp : datetime;
  model_version : string;
  score : float;
  threshold : float;
  is_anomaly : bool;
  payload : dict
}.
End DecisionRow.

(** [CHECK (state IN ('OPEN','RESOLVED'))] *)
Inductive AlertRowState := ROW_OPEN | ROW_RESOLVED.
#[export] Instance AlertRowState_eq_dec : EqDecision AlertRowState.
Proof. solve_decision. Defined.

Module AlertRow.
Record t := mk {
  replay_session_id : UUID;
  machine_id : string;
  state : AlertRowState;
  first_detection : datetime;
  last_detection : datetime;
  resolved_at : option datetime;
  latest_decision_id : UUID;
  policy_sha256 : string
}.
End AlertRow.

Module EventRow.
Record t := mk { alert_id : UUID; decision_id : UUID; action : AlertAction; payload : dict }.
End EventRow.

Module EvidenceRow.
Record t := mk { alert_id : UUID; decision_id : UUID; payload : dict }.
End EvidenceRow.

Module OutboxEntry.
Record t := mk {
  topic : string; message_key : string; payload : dict; published_at : option Z
}.
End OutboxEntry.

Module CheckpointRow.
Record t := mk {
  command_payload : dict;
  state : ReplayState;
  last_sequence : Z;
  source_timestamp : option datetime;
  updated_at : Z
}.
End CheckpointRow.

Module RcaRow.
Record t := mk {
  alert_id : string;
  evidence_bundle_sha256 : string;
  status : RcaStatus;
  provider_model : option string;
  summary : string;
  payload : dict;
  created_at : aware
}.
End RcaRow.

(** [Literal["status", "telemetry", "score", "alert"]] *)
Inductive EventType := STATUS_EVENT | TELEMETRY_EVENT | SCORE_EVENT | ALERT_EVENT.
#[export] Instance EventType_eq_dec : EqDecision EventType.
Proof. solve_decision. Defined.

Module ConsoleEventV1.
Record t := mk {
  event_id : string;
  replay_session_id : string;
  event_type : EventType;
  source_timestamp : datetime;
  payload : dict;
  durable : bool
}.
End ConsoleEventV1.

Module ConsoleRow.
Record t := mk {
  stream_sequence : Z;
  event_id : string;
  replay_session_id : string;
  event_type : EventType;
  source_timestamp : datetime;
  payload : dict
}.
End ConsoleRow.

(** ** The database *)
Record DB := mkDB {
  replay_sessions : gmap UUID SessionRow.t;
  score_decisions : gmap UUID DecisionRow.t;
  alerts : gmap UUID AlertRow.t;
  alert_events : gmap UUID EventRow.t;
  evidence_snapshots : gmap UUID EvidenceRow.t;
  alert_outbox : gmap UUID OutboxEntry.t;
  alert_runtime_states : gmap (UUID * string) dict;
  replay_checkpoints : gmap UUID CheckpointRow.t;
  rca_reports : gmap string RcaRow.t;
  console_events : list ConsoleRow.t;
  console_sequence : Z
}.

Definition empty_db : DB := mkDB ∅ ∅ ∅ ∅ ∅ ∅ ∅ ∅ ∅ [] 1.

Definition set_sessions f (db : DB) : DB :=
  mkDB (f (replay_sessions db)) (score_decisions db) (alerts db) (alert_events db)
    (evidence_snapshots db) (alert_outbox db) (alert_runtime_states db) (replay_checkpoints db)
    (rca_reports db) (console_events db) (console_sequence db).
Definition set_decisions f (db : DB) : DB :=
  mkDB (replay_sessions db) (f (score_decisions db)) (alerts db) (alert_events db)
    (evidence_snapshots db) (alert_outbox db) (alert_runtime_states db) (replay_checkpoints db)
    (rca_reports db) (console_events db) (console_sequence db).
Definition set_alerts f (db : DB) : DB :=
  mkDB (replay_sessions db) (score_decisions db) (f (alerts db)) (alert_events db)
    (evidence_snapshots db) (alert_outbox db) (alert_runtime_states db) (replay_checkpoints db)
    (rca_reports db) (console_events db) (console_sequence db).
Definition set_events f (db : DB) : DB :=
  mkDB (replay_sessions db) (score_decisions db) (alerts db) (f (alert_events db))
    (evidence_snapshots db) (alert_outbox db) (alert_runtime_states db) (replay_checkpoints db)
    (rca_reports db) (console_events db) (console_sequence db).
Definition set_evidence f (db : DB) : DB :=
  mkDB (replay_sessions db) (score_decisions db) (alerts db) (alert_events db)
    (f (evidence_snapshots db)) (alert_outbox db) (alert_runtime_states db) (replay_checkpoints db)
    (rca_reports db) (console_events db) (console_sequence db).
Definition set_outbox f (db : DB) : DB :=
  mkDB (replay_sessions db) (score_decisions db) (alerts db) (alert_events db)
    (evidence_snapshots db) (f (alert_outbox db)) (alert_runtime_states db) (replay_checkpoints db)
    (rca_reports db) (console_events db) (console_sequence db).
Definition set_runtime f (db : DB) : DB :=
  mkDB (replay_sessions db) (score_decisions db) (alerts db) (alert_events db)
    (evidence_snapshots db) (alert_outbox db) (f (alert_runtime_states db)) (replay_checkpoints db)
    (rca_reports db) (console_events db) (console_sequence db).
Definition set_checkpoints f (db : DB) : DB :=
  mkDB (replay_sessions db) (score_decisions db) (alerts db) (alert_events db)
    (evidence_snapshots db) (alert_outbox db) (alert_runtime_states db) (f (replay_checkpoints db))
    (rca_reports db) (console_events db) (console_sequence db).
Definition set_rca f (db : DB) : DB :=
  mkDB (replay_sessions db) (score_decisions db) (alerts db) (alert_events db)
    (evidence_snapshots db) (alert_outbox db) (alert_runtime_states db) (replay_checkpoints db)
    (f (rca_reports db)) (console_events db) (console_sequence db).
Definition set_console f n (db : DB) : DB :=
  mkDB (replay_sessions db) (score_decisions db) (alerts db) (alert_events db)
    (evidence_snapshots db) (alert_outbox db) (alert_runtime_states db) (replay_checkpoints db)
    (rca_reports db) (f (console_events db)) n.

(** The key whose text is [s]. *)
Definition text_key (s : string) : option UUID :=
  match UUID_of_text s with
  | Ok u => if bool_decide (str_uuid u = s) then Some u else None
  | Err _ => None
  end.
Definition references_text {A} (m : gmap UUID A) (s : string) (name : string) : result unit :=
  guard_exn (match text_key s with Some u => bool_decide (is_Some (m !! u)) | None => false end)
    (IntegrityError name).

(** ** Statements *)
Definition ensure_session_exists (now : Z) (decision : ScoreDecisionV1.t) (db : DB) : DB :=
  let sid := ScoreDecisionV1.replay_session_id decision in
  match replay_sessions db !! sid with
  | Some _ => db
  | None => set_sessions <[sid := SessionRow.mk
      (ScoreDecisionV1.source_dataset_sha256 decision) (ScoreDecisionV1.contract_sha256 decision)
      (ScoreDecisionV1.model_version decision) RUNNING None
      (Some (ScoreDecisionV1.source_timestamp decision)) None now]> db
  end.

Section Models.
Context `{JsonModel ScoreDecisionV1.t, JsonModel AlertEventV1.t, JsonModel EvidenceSnapshotV1.t,
          JsonModel ReplayCommandV1.t, JsonModel RcaReportV1.t}.

Definition decision_row (d : ScoreDecisionV1.t) : DecisionRow.t :=
  DecisionRow.mk (ScoreDecisionV1.replay_session_id d) (ScoreDecisionV1.window_id d)
    (ScoreDecisionV1.source_timestamp d) (ScoreDecisionV1.model_version d)
    (ScoreDecisionV1.score d) (ScoreDecisionV1.threshold d) (ScoreDecisionV1.is_anomaly d)
    (model_dump d).

(** [INSERT INTO score_decisions ... ON CONFLICT (decision_id) DO NOTHING] *)
Definition insert_decision (d : ScoreDecisionV1.t) (db : DB) : result DB :=
  match score_decisions db !! ScoreDecisionV1.decision_id d with
  | Some _ => Ok db
  | None =>
      _ ← guard_exn (negb (exists_row (λ _ r,
             bool_decide (DecisionRow.window_id r = ScoreDecisionV1.window_id d)) (score_decisions db)))
            (IntegrityError "score_decisions_window_id_key");
      _ ← references (replay_sessions db) (ScoreDecisionV1.replay_session_id d)
            "score_decisions_replay_session_id_fkey";
      Ok (set_decisions <[ScoreDecisionV1.decision_id d := decision_row d]> db)
  end.

(** [INSERT INTO alerts ... ON CONFLICT (alert_id) DO UPDATE]: the identity
    and the first detection of an existing row stay. *)
Definition upsert_alert (d : ScoreDecisionV1.t) (event : AlertEventV1.t) (db : DB) : result DB :=
  let resolved := bool_decide (AlertEventV1.action event = RESOLVED) in
  let state := if resolved then ROW_RESOLVED else ROW_OPEN in
  let resolved_at := if resolved then Some (ScoreDecisionV1.source_timestamp d) else None in
  let latest := ScoreDecisionV1.decision_id d in
  _ ← references (score_decisions db) latest "alerts_latest_decision_id_fkey";
  match alerts db !! AlertEventV1.alert_id event with
  | Some r =>
      Ok (set_alerts <[AlertEventV1.alert_id event := AlertRow.mk
            (AlertRow.replay_session_id r) (AlertRow.machine_id r) state
            (AlertRow.first_detection r) (AlertEventV1.last_detection event) resolved_at
            latest (AlertRow.policy_sha256 r)]> db)
  | None =>
      _ ← references (replay_sessions db) (AlertEventV1.replay_session_id event)
            "alerts_replay_session_id_fkey";
      Ok (set_alerts <[AlertEventV1.alert_id event := AlertRow.mk
            (AlertEventV1.replay_session_id event) (AlertEventV1.machine_id event) state
            (AlertEventV1.first_detection event) (AlertEventV1.last_detection event) resolved_at
            latest (AlertEventV1.policy_sha256 event)]> db)
  end.

(** [INSERT INTO alert_events ... ON CONFLICT (alert_id, decision_id, action) DO NOTHING] *)
Definition insert_alert_event (d : ScoreDecisionV1.t) (event : AlertEventV1.t) (db : DB)
  : result DB :=
  let row := EventRow.mk (AlertEventV1.alert_id event) (ScoreDecisionV1.decision_id d)
               (AlertEventV1.action event) (model_dump event) in
  if exists_row (λ _ r, bool_decide (EventRow.alert_id r = EventRow.alert_id row)
                        && bool_decide (EventRow.decision_id r = EventRow.decision_id row)
                        && bool_decide (EventRow.action r = EventRow.action row)) (alert_events db)
  then Ok db
  else
    _ ← guard_exn (bool_decide (alert_events db !! AlertEventV1.message_id event = None))
          (IntegrityError "alert_events_pkey");
    _ ← references (alerts db) (EventRow.alert_id row) "alert_events_alert_id_fkey";
    _ ← references (score_decisions db) (EventRow.decision_id row) "alert_events_decision_id_fkey";
    Ok (set_events <[AlertEventV1.message_id event := row]> db).

(** [INSERT INTO evidence_snapshots ... ON CONFLICT (alert_id, decision_id) DO NOTHING] *)
Definition insert_evidence (d : ScoreDecisionV1.t) (ev : EvidenceSnapshotV1.t) (db : DB)
  : result DB :=
  let row := EvidenceRow.mk (EvidenceSnapshotV1.alert_id ev) (ScoreDecisionV1.decision_id d)
               (model_dump ev) in
  if exists_row (λ _ r, bool_decide (EvidenceRow.alert_id r = EvidenceRow.alert_id row)
                        && bool_decide (EvidenceRow.decision_id r = EvidenceRow.decision_id row))
       (evidence_snapshots db)
  then Ok db
  else
    _ ← guard_exn (bool_decide (evidence_snapshots db !! EvidenceSnapshotV1.evidence_id ev = None))
          (IntegrityError "evidence_snapshots_pkey");
    _ ← references (alerts db) (EvidenceRow.alert_id row) "evidence_snapshots_alert_id_fkey";
    _ ← references (score_decisions db) (EvidenceRow.decision_id row)
          "evidence_snapshots_decision_id_fkey";
    Ok (set_evidence <[EvidenceSnapshotV1.evidence_id ev := row]> db).

(** [INSERT INTO alert_outbox ... ON CONFLICT (message_id) DO NOTHING] *)
Definition insert_outbox (event : AlertEventV1.t) (db : DB) : result DB :=
  match alert_outbox db !! AlertEventV1.message_id event with
  | Some _ => Ok db
  | None =>
      _ ← references (alert_events db) (AlertEventV1.message_id event)
            "alert_outbox_message_id_fkey";
      Ok (set_outbox <[AlertEventV1.message_id event := OutboxEntry.mk
            ALERT_EVENTS_TOPIC (str_uuid (AlertEventV1.alert_id event)) (model_dump event) None]> db)
  end.

(** [INSERT INTO alert_runtime_states ... ON CONFLICT DO UPDATE] *)
Definition upsert_runtime_state (s : AlertState.t) (db : DB) : result DB :=
  let key := (AlertState.replay_session_id s, AlertState.machine_id s) in
  _ ← references (replay_sessions db) key.1 "alert_runtime_states_replay_session_id_fkey";
  Ok (set_runtime <[key := state_payload s]> db).

(** ** Decisions and alerts *)
Definition persist_event (d : ScoreDecisionV1.t) (r : TransitionResult.t) (db : DB) : result DB :=
  match TransitionResult.event r with
  | None => Ok db
  | Some event =>
      db ← upsert_alert d event db;
      db ← insert_alert_event d event db;
      db ← match TransitionResult.evidence r with
           | None => Ok db
           | Some ev_snapshot => insert_evidence d ev_snapshot db
           end;
      insert_outbox event db
  end.

Definition record_body (now : Z) (decision : ScoreDecisionV1.t) (r : TransitionResult.t) (db : DB)
  : result DB :=
  db ← insert_decision decision (ensure_session_exists now decision db);
  db ← persist_event decision r db;
  upsert_runtime_state (TransitionResult.state r) db.

Definition record_decision_transition (now : Z) (decision : ScoreDecisionV1.t)
    (r : TransitionResult.t) : M DB unit := update (record_body now decision r).

(** The decisions of a session, [ORDER BY source_timestamp ASC, decision_id ASC]. *)
Definition decision_before (x y : UUID * DecisionRow.t) : Prop :=
  DecisionRow.source_timestamp x.2 < DecisionRow.source_timestamp y.2 ∨
  DecisionRow.source_timestamp x.2 = DecisionRow.source_timestamp y.2 ∧
  uuid_int x.1 ≤ uuid_int y.1.
#[export] Instance decision_before_dec : RelDecision decision_before.
Proof. intros x y. unfold decision_before. apply _. Defined.

Definition session_rows (db : DB) (sid : UUID) : list (UUID * DecisionRow.t) :=
  merge_sort decision_before
    (filter (λ kv, DecisionRow.replay_session_id kv.2 = sid) (map_to_list (score_decisions db))).

(** The messages a reconstructing [transition] builds are dropped; by
    [transition_ambient] its state does not depend on the draws, so one
    [Ambient] stands for all of them. *)
Definition replay_row (amb : Ambient) (policy : LockedAlertPolicyV1.t) (state : AlertState.t)
    (row : UUID * DecisionRow.t) : result AlertState.t :=
  decision ← model_validate (DecisionRow.payload row.2);
  TransitionResult.state <$> transition amb state decision policy.

Definition reconstruct_alert_state (amb : Ambient) (db : DB) (sid : UUID) (machine_id : string)
    (policy : LockedAlertPolicyV1.t) : result AlertState.t :=
  foldR (replay_row amb policy) (AlertState.empty sid machine_id) (session_rows db sid).

Definition load_body (amb : Ambient) (sid : UUID) (machine_id : string)
    (policy : option LockedAlertPolicyV1.t) (db : DB) : result (AlertState.t * DB) :=
  match alert_runtime_states db !! (sid, machine_id) with
  | Some payload => s ← state_from_payload payload; Ok (s, db)
  | None =>
      if bool_decide (session_rows db sid = []) then Ok (AlertState.empty sid machine_id, db)
      else
        policy ← of_option
          (RuntimeError "alert policy is required to reconstruct legacy runtime state") policy;
        state ← reconstruct_alert_state amb db sid machine_id policy;
        _ ← references (replay_sessions db) sid "alert_runtime_states_replay_session_id_fkey";
        Ok (state, set_runtime <[(sid, machine_id) := state_payload state]> db)
  end.

Definition load_alert_state (amb : Ambient) (sid : UUID) (machine_id : string)
    (policy : option LockedAlertPolicyV1.t) : M DB AlertState.t :=
  transaction (load_body amb sid machine_id policy).

(** ** The transactional outbox *)
Record OutboxRow := mkOutboxRow {
  message_id : UUID; topic : string; message_key : string; outbox_payload : dict
}.

(** The row lock of [FOR UPDATE SKIP LOCKED] is released when the method
    returns, so it is not part of the state. *)
Definition next_unpublished_outbox (db : DB) : option OutboxRow :=
  match ordered_rows (λ _ r, bool_decide (OutboxEntry.published_at r = None)) (alert_outbox db) with
  | [] => None
  | (id, r) :: _ =>
      Some (mkOutboxRow id (OutboxEntry.topic r) (OutboxEntry.message_key r) (OutboxEntry.payload r))
  end.

Definition mark_published (now : Z) (r : OutboxEntry.t) : OutboxEntry.t :=
  OutboxEntry.mk (OutboxEntry.topic r) (OutboxEntry.message_key r) (OutboxEntry.payload r) (Some now).
Definition mark_outbox_published (now : Z) (id : UUID) : M DB unit :=
  update (λ db, Ok (set_outbox (alter (mark_published now) id) db)).

Definition count_active_alerts (db : DB) : Z :=
  Z.of_nat (length (filter (λ kv : UUID * AlertRow.t, AlertRow.state kv.2 = ROW_OPEN)
                      (map_to_list (alerts db)))).

(** ** Replay sessions and checkpoints *)
Definition record_replay_status (now : Z) (status : ReplayStatusV1.t) : M DB unit :=
  update (λ db,
    let sid := ReplayStatusV1.replay_session_id status in
    let row :=
      match replay_sessions db !! sid with
      | Some r => SessionRow.mk (SessionRow.source_dataset_sha256 r) (SessionRow.contract_sha256 r)
          (SessionRow.model_version r) (ReplayStatusV1.state status)
          (ReplayStatusV1.last_sequence status) (Some (ReplayStatusV1.source_timestamp status))
          (ReplayStatusV1.error_code status) now
      | None => SessionRow.mk (ReplayStatusV1.source_dataset_sha256 status)
          (ReplayStatusV1.contract_sha256 status) "champion-statistical-v1"
          (ReplayStatusV1.state status) (ReplayStatusV1.last_sequence status)
          (Some (ReplayStatusV1.source_timestamp status)) (ReplayStatusV1.error_code status) now
      end in
    Ok (set_sessions <[sid := row]> db)).

Definition get_replay (db : DB) (sid : UUID) : option SessionRow.t := replay_sessions db !! sid.

Record ReplayCheckpoint := mkCheckpoint {
  cp_session : UUID;
  cp_command : ReplayCommandV1.t;
  cp_state : ReplayState;
  cp_sequence : Z;
  cp_timestamp : option datetime
}.

(** [CHECK (state IN ('RUNNING','PAUSED','STOPPED','COMPLETED','FAILED'))] *)
Definition checkpoint_state_ok (s : ReplayState) : bool := negb (bool_decide (s = CREATED)).

Definition record_replay_checkpoint (now : Z) (command : ReplayCommandV1.t) (state : ReplayState)
    (last_sequence : Z) (source_timestamp : option datetime) : M DB unit :=
  update (λ db,
    _ ← guard_exn (checkpoint_state_ok state) (IntegrityError "replay_checkpoints_state_check");
    Ok (set_checkpoints <[ReplayCommandV1.replay_session_id command := CheckpointRow.mk
          (model_dump command) state last_sequence source_timestamp now]> db)).

Definition update_replay_checkpoint_state (now : Z) (sid : UUID) (state : ReplayState)
  : M DB unit :=
  update (λ db,
    match replay_checkpoints db !! sid with
    | None => Err (LookupError "Replay checkpoint not found")
    | Some r =>
        _ ← guard_exn (checkpoint_state_ok state) (IntegrityError "replay_checkpoints_state_check");
        Ok (set_checkpoints <[sid := CheckpointRow.mk (CheckpointRow.command_payload r) state
              (CheckpointRow.last_sequence r) (CheckpointRow.source_timestamp r) now]> db)
    end).

Definition checkpoint_of (row : UUID * CheckpointRow.t) : result ReplayCheckpoint :=
  command ← model_validate (CheckpointRow.command_payload row.2);
  Ok (mkCheckpoint row.1 command (CheckpointRow.state row.2) (CheckpointRow.last_sequence row.2)
        (CheckpointRow.source_timestamp row.2)).

Definition load_replay_checkpoint (db : DB) (sid : UUID) : result (option ReplayCheckpoint) :=
  match replay_checkpoints db !! sid with
  | None => Ok None
  | Some r => Some <$> checkpoint_of (sid, r)
  end.

(** [ORDER BY updated_at ASC] *)
Definition checkpoint_older (x y : UUID * CheckpointRow.t) : Prop :=
  CheckpointRow.updated_at x.2 ≤ CheckpointRow.updated_at y.2.
#[export] Instance checkpoint_older_dec : RelDecision checkpoint_older.
Proof. intros x y. unfold checkpoint_older. apply _. Defined.

Definition is_incomplete (s : ReplayState) : bool :=
  match s with RUNNING | PAUSED => true | _ => false end.

Definition load_incomplete_replays (db : DB) : result (list ReplayCheckpoint) :=
  mapR checkpoint_of (merge_sort checkpoint_older
    (filter (λ kv : UUID * CheckpointRow.t, is_incomplete (CheckpointRow.state kv.2) = true)
       (map_to_list (replay_checkpoints db)))).

(** ** Alert queries *)
Definition list_alerts (db : DB) (sid : UUID) (after : option UUID) (lim : Z)
  : result (list (UUID * AlertRow.t)) :=
  limit lim (ordered_rows (λ id r,
    bool_decide (AlertRow.replay_session_id r = sid) &&
    match after with Some a => uuid_ltb a id | None => true end) (alerts db)).

Record AlertDetailRecord := mkDetail {
  detail_alert : UUID * AlertRow.t;
  detail_events : list dict;
  detail_evidence : list dict;
  detail_decisions : list dict;
  detail_rca : option dict
}.

(** [ORDER BY d.source_timestamp] *)
Definition earlier_row (x y : DecisionRow.t) : Prop :=
  DecisionRow.source_timestamp x ≤ DecisionRow.source_timestamp y.
#[export] Instance earlier_row_dec : RelDecision earlier_row.
Proof. intros x y. unfold earlier_row. apply _. Defined.

Definition alert_event_rows (db : DB) (alert_id : UUID) : list (UUID * EventRow.t) :=
  ordered_rows (λ _ r, bool_decide (EventRow.alert_id r = alert_id)) (alert_events db).

(** The instant of an aware time. *)
Definition instant (t : aware) : Z := wall t - utcoffset t.
(** [ORDER BY created_at DESC] *)
Definition newer_report (x y : string * RcaRow.t) : Prop :=
  instant (RcaRow.created_at y.2) ≤ instant (RcaRow.created_at x.2).
#[export] Instance newer_report_dec : RelDecision newer_report.
Proof. intros x y. unfold newer_report. apply _. Defined.

Definition reports_of (db : DB) (alert_id : string) : list (string * RcaRow.t) :=
  merge_sort newer_report
    (filter (λ kv, RcaRow.alert_id kv.2 = alert_id) (map_to_list (rca_reports db))).

Definition get_alert_detail (db : DB) (alert_id : UUID) : option AlertDetailRecord :=
  match alerts db !! alert_id with
  | None => None
  | Some row =>
      let events := alert_event_rows db alert_id in
      let evidence := ordered_rows (λ _ r, bool_decide (EvidenceRow.alert_id r = alert_id))
                        (evidence_snapshots db) in
      let decisions := merge_sort earlier_row
        (omap (λ kv, score_decisions db !! EventRow.decision_id kv.2) events) in
      Some (mkDetail (alert_id, row)
              ((λ kv, EventRow.payload kv.2) <$> events)
              ((λ kv, EvidenceRow.payload kv.2) <$> evidence)
              (DecisionRow.payload <$> decisions)
              ((λ kv, RcaRow.payload kv.2) <$> head (reports_of db (str_uuid alert_id))))
  end.

(** ** Root-cause reports *)
Definition find_report (db : DB) (alert_id bundle : string) : option (string * RcaRow.t) :=
  head (filter (λ kv, RcaRow.alert_id kv.2 = alert_id ∧ RcaRow.evidence_bundle_sha256 kv.2 = bundle)
          (map_to_list (rca_reports db))).

Definition insert_report (report : RcaReportV1.t) (db : DB) : result DB :=
  let row := RcaRow.mk (RcaReportV1.alert_id report) (RcaReportV1.evidence_bundle_sha256 report)
    (RcaReportV1.status report) (RcaReportV1.provider_model report) (RcaReportV1.summary report)
    (model_dump report) (RcaReportV1.emitted_at report) in
  match find_report db (RcaRow.alert_id row) (RcaRow.evidence_bundle_sha256 row) with
  | Some _ => Ok db
  | None =>
      _ ← guard_exn (bool_decide (rca_reports db !! RcaReportV1.report_id report = None))
            (IntegrityError "rca_reports_pkey");
      _ ← references_text (alerts db) (RcaRow.alert_id row) "rca_reports_alert_id_fkey";
      Ok (set_rca <[RcaReportV1.report_id report := row]> db)
  end.

Definition save_rca (report : RcaReportV1.t) : M DB RcaReportV1.t :=
  transaction (λ db,
    db ← insert_report report db;
    match find_report db (RcaReportV1.alert_id report) (RcaReportV1.evidence_bundle_sha256 report) with
    | None => Ok (report, db)
    | Some (_, row) =>
        existing_report ← model_validate (RcaRow.payload row);
        _ ← guard_exn (bool_decide (model_dump (existing_report : RcaReportV1.t) = model_dump report))
              (IdentityMismatchError "Stored RCA report payload does not match");
        Ok (existing_report, db)
    end).

Definition save_complete_rca (report : RcaReportV1.t) : M DB RcaReportV1.t :=
  if bool_decide (RcaReportV1.status report = COMPLETE) then save_rca report else mret report.

Definition get_rca (db : DB) (alert_id : string) (bundle : option string)
  : result (option RcaReportV1.t) :=
  let row :=
    match bundle with
    | Some b => if nonempty b then find_report db alert_id b else head (reports_of db alert_id)
    | None => head (reports_of db alert_id)
    end in
  match row with
  | None => Ok None
  | Some (_, r) => Some <$> model_validate (RcaRow.payload r)
  end.
End Models.

(** ** The console stream

    [stream_sequence] is an identity column: a number is drawn before the
    conflict and the constraints are looked at, and a rollback does not return it. *)
Definition append_console_event (event : ConsoleEventV1.t) : M DB unit := λ db,
  let n := console_sequence db in
  let row := ConsoleRow.mk n (ConsoleEventV1.event_id event) (ConsoleEventV1.replay_session_id event)
    (ConsoleEventV1.event_type event) (ConsoleEventV1.source_timestamp event)
    (ConsoleEventV1.payload event) in
  let insert :=
    _ ← guard_exn (negb (bool_decide (ConsoleRow.event_type row = TELEMETRY_EVENT)))
          (IntegrityError "console_events_event_type_check");
    if existsb (λ r, bool_decide (ConsoleRow.event_id r = ConsoleRow.event_id row)) (console_events db)
    then Ok (console_events db)
    else
      _ ← references_text (replay_sessions db) (ConsoleRow.replay_session_id row)
            "console_events_replay_session_id_fkey";
      Ok (console_events db ++ [row]) in
  match insert with
  | Ok rows => (Ok (), set_console (λ _, rows) (n + 1) db)
  | Err e => (Err e, set_console id (n + 1) db)
  end.

Definition find_cursor (db : DB) (sid event_id : string) : option ConsoleRow.t :=
  head (filter (λ r, ConsoleRow.event_id r = event_id ∧ ConsoleRow.replay_session_id r = sid)
          (console_events db)).

Definition console_cursor_exists (db : DB) (sid event_id : string) : bool :=
  bool_decide (is_Some (find_cursor db sid event_id)).

(** [ORDER BY stream_sequence ASC] *)
Definition sequence_before (x y : ConsoleRow.t) : Prop :=
  ConsoleRow.stream_sequence x ≤ ConsoleRow.stream_sequence y.
#[export] Instance sequence_before_dec : RelDecision sequence_before.
Proof. intros x y. unfold sequence_before. apply _. Defined.

Definition console_rows (db : DB) (sid : string) (seq : option Z) : list ConsoleRow.t :=
  merge_sort sequence_before
    (filter (λ r, ConsoleRow.replay_session_id r = sid ∧
       match seq with Some n => n <? ConsoleRow.stream_sequence r | None => true end = true)
       (console_events db)).

Definition console_event_of (r : ConsoleRow.t) : ConsoleEventV1.t :=
  ConsoleEventV1.mk (ConsoleRow.event_id r) (ConsoleRow.replay_session_id r)
    (ConsoleRow.event_type r) (ConsoleRow.source_timestamp r) (ConsoleRow.payload r) true.

Definition page (db : DB) (sid : string) (seq : option Z) (lim : Z)
  : result (list ConsoleEventV1.t) :=
  rows ← limit lim (console_rows db sid seq);
  Ok (map console_event_of rows).

Definition events_after (db : DB) (sid : string) (after_event_id : option string) (lim : Z)
  : result (list ConsoleEventV1.t) :=
  match after_event_id with
  | Some id =>
      if nonempty id then
        match find_cursor db sid id with
        | None => Ok []
        | Some r => page db sid (Some (ConsoleRow.stream_sequence r)) lim
        end
      else page db sid None lim
  | None => page db sid None lim
  end.
