(* ===== verification/StoreTheory.v ===== *)
(** * Integrity of the store

    The schema's constraints and the transactional outbox as an invariant of
    the database that every method preserves, whether it returns or raises. *)

From S2P Require Import Prelude PyText PyUuid PyTime PyFloat PyHash PyJson.
From S2P Require Import Messages KafkaIo AlertPolicy AlertState AlertTheory StateCodec Tables.
From S2P Require Import Store.

(** ** Lemmas on tables *)
(** A text column that references a table. *)
Definition text_ref {A} (m : gmap UUID A) (s : string) : Prop :=
  ∃ k, s = str_uuid k ∧ is_Some (m !! k).

Lemma references_text_Ok {A} (m : gmap UUID A) s name u :
  references_text m s name = Ok u ↔ text_ref m s.
Proof.
  unfold references_text, text_key, text_ref. rewrite guard_exn_Ok. split.
  - destruct (UUID_of_text s) as [k|]; [|done]. case_bool_decide; [|done].
    rewrite bool_decide_eq_true. eauto.
  - intros (k & -> & Hk). rewrite UUID_of_text_str. rewrite (bool_decide_eq_true_2 (str_uuid k = _)) by done.
    by rewrite bool_decide_eq_true.
Qed.

Lemma text_ref_insert {A} (m : gmap UUID A) i x s : text_ref m s → text_ref (<[i := x]> m) s.
Proof. intros (k & -> & Hk). exists k. split; [done|]. by apply insert_is_Some. Qed.

Create HintDb store.
#[export] Hint Extern 1 (is_Some (<[_ := _]> _ !! _)) => simple apply insert_is_Some_eq : store.
#[export] Hint Extern 2 (is_Some (<[_ := _]> _ !! _)) => apply insert_is_Some : store.
#[export] Hint Resolve text_ref_insert : store.

(** ** The invariant *)
Definition same_event (r s : EventRow.t) : Prop :=
  EventRow.alert_id r = EventRow.alert_id s ∧ EventRow.decision_id r = EventRow.decision_id s ∧
  EventRow.action r = EventRow.action s.

Record db_ok (db : DB) : Prop := {
  decision_session : ∀ i r, score_decisions db !! i = Some r →
    is_Some (replay_sessions db !! DecisionRow.replay_session_id r);
  decision_window : ∀ i j r s, score_decisions db !! i = Some r → score_decisions db !! j = Some s →
    DecisionRow.window_id r = DecisionRow.window_id s → i = j;
  alert_session : ∀ i r, alerts db !! i = Some r →
    is_Some (replay_sessions db !! AlertRow.replay_session_id r);
  alert_latest : ∀ i r, alerts db !! i = Some r →
    is_Some (score_decisions db !! AlertRow.latest_decision_id r);
  event_alert : ∀ i r, alert_events db !! i = Some r → is_Some (alerts db !! EventRow.alert_id r);
  event_decision : ∀ i r, alert_events db !! i = Some r →
    is_Some (score_decisions db !! EventRow.decision_id r);
  event_unique : ∀ i j r s, alert_events db !! i = Some r → alert_events db !! j = Some s →
    same_event r s → i = j;
  evidence_alert : ∀ i r, evidence_snapshots db !! i = Some r →
    is_Some (alerts db !! EvidenceRow.alert_id r);
  evidence_decision : ∀ i r, evidence_snapshots db !! i = Some r →
    is_Some (score_decisions db !! EvidenceRow.decision_id r);
  evidence_unique : ∀ i j r s, evidence_snapshots db !! i = Some r →
    evidence_snapshots db !! j = Some s → EvidenceRow.alert_id r = EvidenceRow.alert_id s →
    EvidenceRow.decision_id r = EvidenceRow.decision_id s → i = j;
  runtime_session : ∀ k p, alert_runtime_states db !! k = Some p →
    is_Some (replay_sessions db !! k.1);
  rca_alert : ∀ i r, rca_reports db !! i = Some r →
    text_ref (alerts db) (RcaRow.alert_id r);
  rca_unique : ∀ i j r s, rca_reports db !! i = Some r → rca_reports db !! j = Some s →
    RcaRow.alert_id r = RcaRow.alert_id s →
    RcaRow.evidence_bundle_sha256 r = RcaRow.evidence_bundle_sha256 s → i = j;
  checkpoint_state : ∀ i r, replay_checkpoints db !! i = Some r → CheckpointRow.state r ≠ CREATED;
  console_session : ∀ r, r ∈ console_events db →
    text_ref (replay_sessions db) (ConsoleRow.replay_session_id r);
  console_ids : NoDup (ConsoleRow.event_id <$> console_events db);
  console_order : StronglySorted Z.lt (ConsoleRow.stream_sequence <$> console_events db);
  console_below : Forall (λ r, ConsoleRow.stream_sequence r < console_sequence db) (console_events db)
}.

(** The transactional outbox: the events and the outbox have the same messages,
    with the same content. *)
Definition outbox_ok (db : DB) : Prop :=
  ∀ i, match alert_events db !! i, alert_outbox db !! i with
       | Some e, Some o => OutboxEntry.payload o = EventRow.payload e ∧
           OutboxEntry.topic o = ALERT_EVENTS_TOPIC ∧
           OutboxEntry.message_key o = str_uuid (EventRow.alert_id e)
       | None, None => True
       | _, _ => False
       end.

Lemma db_ok_empty : db_ok empty_db.
Proof. constructor; simpl; intros; try (by rewrite lookup_empty in *); try constructor. by apply elem_of_nil in H. Qed.

Lemma outbox_ok_empty : outbox_ok empty_db.
Proof. by intros i. Qed.

(** ** Every statement preserves the constraints *)
Ltac rows :=
  repeat match goal with
  | H : <[_ := _]> _ !! _ = Some _ |- _ =>
      apply lookup_insert_Some in H; destruct H as [[? ?]|[? ?]]; simplify_eq/=
  end.
Ltac keep_ok Hok := destruct Hok; constructor; simpl; intros; rows; eauto with store.

Lemma ok_set_session db i r : db_ok db → db_ok (set_sessions <[i := r]> db).
Proof.
  intros Hok. keep_ok Hok.
Qed.

Lemma ok_ensure_session now d db : db_ok db → db_ok (ensure_session_exists now d db).
Proof. intros Hok. unfold ensure_session_exists. case_match; [done|]. by apply ok_set_session. Qed.

Section Preservation.
Context `{JsonModel ScoreDecisionV1.t, JsonModel AlertEventV1.t, JsonModel EvidenceSnapshotV1.t,
          JsonModel ReplayCommandV1.t, JsonModel RcaReportV1.t}.

Lemma ok_insert_decision d db db' : db_ok db → insert_decision d db = Ok db' → db_ok db'.
Proof.
  unfold insert_decision. intros Hok Hr. destruct (score_decisions db !! _) eqn:Hd; inv_res; [done|].
  apply references_Ok in H5.
  assert (∀ i r, score_decisions db !! i = Some r →
    DecisionRow.window_id r ≠ ScoreDecisionV1.window_id d) as Hw.
  { intros i r Hi Heq. pose proof (exists_row_false _ _ _ _ H4 Hi) as Hx.
    simpl in Hx. by rewrite bool_decide_eq_true_2 in Hx. }
  keep_ok Hok; naive_solver.
Qed.

Lemma ok_upsert_alert d e db db' : db_ok db → upsert_alert d e db = Ok db' → db_ok db'.
Proof.
  unfold upsert_alert. intros Hok Hr. inv_res. apply references_Ok in H4.
  destruct (alerts db !! _) eqn:Ha; inv_res; [|apply references_Ok in H5];
    keep_ok Hok.
Qed.

Lemma ok_insert_alert_event d e db db' : db_ok db → insert_alert_event d e db = Ok db' → db_ok db'.
Proof.
  unfold insert_alert_event. intros Hok Hr. destruct (exists_row _ _) eqn:Hx; inv_res; [done|].
  apply references_Ok in H5, H6.
  assert (∀ i r, alert_events db !! i = Some r →
    ¬ same_event r (EventRow.mk (AlertEventV1.alert_id e) (ScoreDecisionV1.decision_id d)
        (AlertEventV1.action e) (model_dump e))) as Hu.
  { intros i r Hi (Ha & Hd & Hac). pose proof (exists_row_false _ _ _ _ Hx Hi) as Hf. simpl in *.
    by rewrite !bool_decide_eq_true_2 in Hf. }
  keep_ok Hok; unfold same_event in *; naive_solver.
Qed.

Lemma ok_insert_evidence d e db db' : db_ok db → insert_evidence d e db = Ok db' → db_ok db'.
Proof.
  unfold insert_evidence. intros Hok Hr. destruct (exists_row _ _) eqn:Hx; inv_res; [done|].
  apply references_Ok in H5, H6.
  assert (∀ i r, evidence_snapshots db !! i = Some r →
    EvidenceRow.alert_id r = EvidenceSnapshotV1.alert_id e →
    EvidenceRow.decision_id r ≠ ScoreDecisionV1.decision_id d) as Hu.
  { intros i r Hi Ha Hd. pose proof (exists_row_false _ _ _ _ Hx Hi) as Hf. simpl in *.
    by rewrite !bool_decide_eq_true_2 in Hf. }
  keep_ok Hok; naive_solver.
Qed.

Lemma ok_insert_outbox e db db' : db_ok db → insert_outbox e db = Ok db' → db_ok db'.
Proof.
  unfold insert_outbox. intros Hok Hr. case_match; inv_res; [done|]. keep_ok Hok.
Qed.

Lemma ok_upsert_runtime s db db' : db_ok db → upsert_runtime_state s db = Ok db' → db_ok db'.
Proof.
  unfold upsert_runtime_state. intros Hok Hr. inv_res. apply references_Ok in H4. keep_ok Hok.
Qed.

Lemma ok_persist_event d r db db' : db_ok db → persist_event d r db = Ok db' → db_ok db'.
Proof.
  unfold persist_event. intros Hok Hr. case_match; [|by inv_res]. inv_res.
  eapply ok_insert_outbox; [|done].
  assert (db_ok x0) by eauto using ok_insert_alert_event, ok_upsert_alert.
  case_match; inv_res; eauto using ok_insert_evidence.
Qed.

Lemma ok_record now d r db db' : db_ok db → record_body now d r db = Ok db' → db_ok db'.
Proof.
  unfold record_body. intros Hok Hr. inv_res.
  eauto using ok_upsert_runtime, ok_persist_event, ok_insert_decision, ok_ensure_session.
Qed.

(** *** The outbox *)
Definition same_messages (db db' : DB) : Prop :=
  alert_events db' = alert_events db ∧ alert_outbox db' = alert_outbox db.

Lemma outbox_same db db' : same_messages db db' → outbox_ok db → outbox_ok db'.
Proof. intros [He Ho] Hok i. rewrite He, Ho. apply Hok. Qed.

Lemma upsert_alert_messages d e db db' : upsert_alert d e db = Ok db' → same_messages db db'.
Proof. unfold upsert_alert. intros Hr. inv_res. case_match; by inv_res. Qed.
Lemma insert_evidence_messages d e db db' : insert_evidence d e db = Ok db' → same_messages db db'.
Proof. unfold insert_evidence. intros Hr. case_match; by inv_res. Qed.
Lemma insert_decision_messages d db db' : insert_decision d db = Ok db' → same_messages db db'.
Proof. unfold insert_decision. intros Hr. case_match; by inv_res. Qed.
Lemma upsert_runtime_messages s db db' : upsert_runtime_state s db = Ok db' → same_messages db db'.
Proof. unfold upsert_runtime_state. intros Hr. by inv_res. Qed.
Lemma ensure_session_messages now d db : same_messages db (ensure_session_exists now d db).
Proof. unfold ensure_session_exists. by case_match. Qed.

(** An event already in the outbox of a consistent database is in
    [alert_events], and the other way round. *)
Lemma outbox_ok_None db i : outbox_ok db → alert_events db !! i = None ↔ alert_outbox db !! i = None.
Proof. intros Hok. specialize (Hok i). split; intros E; rewrite E in Hok; by case_match. Qed.

Lemma outbox_events_outbox d e db db1 db' :
  outbox_ok db → insert_alert_event d e db = Ok db1 →
  (∀ db2, same_messages db1 db2 → insert_outbox e db2 = Ok db' → outbox_ok db').
Proof.
  unfold insert_alert_event. intros Hok Hr db2 [He Ho] Hins. unfold insert_outbox in Hins.
  rewrite He, Ho in Hins. destruct (exists_row _ _); inv_res.
  - destruct (alert_outbox db1 !! _) eqn:Hout; inv_res.
    + apply (outbox_same db1); done.
    + apply references_Ok in H4. apply (outbox_ok_None _ _ Hok) in Hout.
      rewrite Hout in H4. by destruct H4.
  - simpl in *. assert (alert_outbox db !! AlertEventV1.message_id e = None) as Hout
      by (by apply outbox_ok_None).
    rewrite Hout in Hins. inv_res. intros i. simpl. rewrite He, Ho. simpl.
    destruct (decide (AlertEventV1.message_id e = i)) as [<-|Hne].
    + by rewrite !lookup_insert_eq.
    + rewrite !lookup_insert_ne by done. apply Hok.
Qed.

Lemma outbox_persist d r db db' : outbox_ok db → persist_event d r db = Ok db' → outbox_ok db'.
Proof.
  unfold persist_event. intros Hok Hr. case_match; [|by inv_res]. inv_res.
  eapply outbox_events_outbox; [|done| |done].
  - eapply outbox_same; [by eapply upsert_alert_messages|done].
  - case_match; inv_res; [by eapply insert_evidence_messages|done].
Qed.

Lemma outbox_record now d r db db' : outbox_ok db → record_body now d r db = Ok db' → outbox_ok db'.
Proof.
  unfold record_body. intros Hok Hr. inv_res.
  eapply outbox_same; [by eapply upsert_runtime_messages|].
  eapply outbox_persist; [|done].
  eapply outbox_same; [by eapply insert_decision_messages|].
  eapply outbox_same; [apply ensure_session_messages|done].
Qed.
End Preservation.

(** ** The methods as operations *)
Definition db_good (db : DB) : Prop := db_ok db ∧ outbox_ok db.

(** A method preserves the invariant on both outcomes. *)
Definition preserves {A} (m : M DB A) : Prop := ∀ db, db_good db → db_good (m db).2.

Lemma preserves_transaction {A} (body : DB → result (A * DB)) :
  (∀ db a db', db_good db → body db = Ok (a, db') → db_good db') → preserves (transaction body).
Proof.
  intros Hb db Hdb. unfold transaction. destruct (body db) as [[a db']|] eqn:E; simpl; eauto.
Qed.

Lemma preserves_update body :
  (∀ db db', db_good db → body db = Ok db' → db_good db') → preserves (update body).
Proof. intros Hb. apply preserves_transaction. intros db a db' Hdb E. inv_res. eauto. Qed.

Lemma preserves_bind {A B} (m : M DB A) (k : A → M DB B) :
  preserves m → (∀ a, preserves (k a)) → preserves (m ≫= k).
Proof.
  intros Hm Hk db Hdb. specialize (Hm db Hdb). unfold mbind, M_bind.
  destruct (m db) as [[a|e] db']; [by apply Hk|done].
Qed.

Lemma preserves_ret {A} (a : A) : preserves (mret a : M DB A).
Proof. by intros db Hdb. Qed.

Lemma preserves_mark now i : preserves (mark_outbox_published now i).
Proof.
  apply preserves_update. intros db db' [Hok Hout] E. inv_res. split.
  - keep_ok Hok.
  - intros j. specialize (Hout j). simpl. rewrite lookup_alter.
    destruct (alert_events db !! j), (alert_outbox db !! j) eqn:E2; simpl in *;
      destruct (decide (i = j)); simplify_eq; rewrite ?decide_True, ?decide_False by done;
      rewrite ?E2; simpl; try done; by rewrite ?E2.
Qed.

Lemma find_report_None db a b i r :
  find_report db a b = None → rca_reports db !! i = Some r →
  RcaRow.alert_id r = a → RcaRow.evidence_bundle_sha256 r ≠ b.
Proof.
  unfold find_report. intros Hf Hi Ha Hb. apply head_None in Hf.
  assert ((i, r) ∈ filter (λ kv : string * RcaRow.t,
      RcaRow.alert_id kv.2 = a ∧ RcaRow.evidence_bundle_sha256 kv.2 = b) (map_to_list (rca_reports db)))
    as Hin by (apply list_elem_of_filter; split; [done|by apply elem_of_map_to_list]).
  rewrite Hf in Hin. by apply elem_of_nil in Hin.
Qed.

Lemma find_report_Some db a b i r :
  find_report db a b = Some (i, r) →
  rca_reports db !! i = Some r ∧ RcaRow.alert_id r = a ∧ RcaRow.evidence_bundle_sha256 r = b.
Proof.
  unfold find_report. intros Hf. apply head_Some in Hf as [l Hl].
  assert ((i, r) ∈ (i, r) :: l) as Hin by (apply elem_of_cons; by left).
  rewrite <-Hl in Hin. apply list_elem_of_filter in Hin as [[? ?] Hin].
  by apply elem_of_map_to_list in Hin.
Qed.

Section Operations.
Context `{JsonModel ScoreDecisionV1.t, JsonModel AlertEventV1.t, JsonModel EvidenceSnapshotV1.t,
          JsonModel ReplayCommandV1.t, JsonModel RcaReportV1.t}.

Lemma preserves_record now d r : preserves (record_decision_transition now d r).
Proof.
  apply preserves_update. intros db db' [Hok Hout] E.
  split; [by eapply ok_record|by eapply outbox_record].
Qed.

Lemma preserves_load amb sid mid pol : preserves (load_alert_state amb sid mid pol).
Proof.
  apply preserves_transaction. intros db s db' [Hok Hout] E. unfold load_body in E.
  case_match; inv_res; [done|]. case_match; inv_res; [done|]. inv_res.
  match goal with Hr : references _ _ _ = _ |- _ => apply references_Ok in Hr end.
  split; [keep_ok Hok|by apply (outbox_same db)].
Qed.

Lemma preserves_status now st : preserves (record_replay_status now st).
Proof.
  apply preserves_update. intros db db' [Hok Hout] E. cbv zeta in E. inv_res.
  split; [by apply ok_set_session|by apply (outbox_same db)].
Qed.

Lemma preserves_checkpoint now cmd st seq ts : preserves (record_replay_checkpoint now cmd st seq ts).
Proof.
  apply preserves_update. intros db db' [Hok Hout] E. unfold checkpoint_state_ok in E. inv_res.
  split; [keep_ok Hok|by apply (outbox_same db)].
Qed.

Lemma preserves_update_checkpoint now sid st : preserves (update_replay_checkpoint_state now sid st).
Proof.
  apply preserves_update. intros db db' [Hok Hout] E. unfold checkpoint_state_ok in E.
  case_match; inv_res. split; [keep_ok Hok|by apply (outbox_same db)].
Qed.

Lemma ok_insert_report rep db db' : db_good db → insert_report rep db = Ok db' → db_good db'.
Proof.
  unfold insert_report. intros [Hok Hout] E.
  destruct (find_report _ _ _) as [[i r]|] eqn:Hf; inv_res; [done|].
  match goal with Hr : references_text _ _ _ = _ |- _ => apply references_text_Ok in Hr end.
  simpl in *. split; [|by apply (outbox_same db)].
  pose proof (λ i r, find_report_None db _ _ i r Hf) as Hnew. keep_ok Hok; naive_solver.
Qed.

Lemma preserves_save_rca rep : preserves (save_rca rep).
Proof.
  apply preserves_transaction. intros db a db' Hdb E. inv_res.
  apply (ok_insert_report _ _ _ Hdb) in H4. case_match; inv_res; [|done].
  case_match; inv_res; done.
Qed.

Lemma preserves_append ev : preserves (append_console_event ev).
Proof.
  intros db [Hok Hout]. unfold append_console_event.
  assert (Forall (λ r, ConsoleRow.stream_sequence r < console_sequence db + 1) (console_events db))
    as Hbelow by (eapply Forall_impl; [apply (console_below _ Hok)|simpl; lia]).
  match goal with |- context [match ?x with Ok _ => _ | Err _ => _ end] =>
    destruct x as [rows|e] eqn:E end; simpl; [|split; [keep_ok Hok|by apply (outbox_same db)]].
  inv_res. destruct (existsb _ _) eqn:Hx; inv_res.
  { split; [keep_ok Hok|by apply (outbox_same db)]. }
  match goal with Hr : references_text _ _ _ = _ |- _ => apply references_text_Ok in Hr end.
  split; [|by apply (outbox_same db)].
  assert (ConsoleEventV1.event_id ev ∉ ConsoleRow.event_id <$> console_events db) as Hfresh.
  { intros Hin. apply list_elem_of_fmap in Hin as (r & Heq & Hin).
    assert (existsb (λ r, bool_decide (ConsoleRow.event_id r = ConsoleEventV1.event_id ev))
      (console_events db) = true) as Ht.
    { apply existsb_exists. exists r. split; [by apply list_elem_of_In|].
      by apply bool_decide_eq_true. }
    simpl in Hx. by rewrite Ht in Hx. }
  pose proof (console_below _ Hok) as Hb.
  keep_ok Hok.
  - apply elem_of_app in H6 as [?| ->%list_elem_of_singleton]; [eauto|done].
  - rewrite fmap_app. apply NoDup_app. split; [done|]. split; [|simpl; by apply NoDup_singleton].
    intros i Hi1 Hi2. simpl in Hi2. apply list_elem_of_singleton in Hi2. by subst.
  - rewrite fmap_app. apply StronglySorted_app. split; [|split; [done|by repeat constructor]].
    intros i j Hi Hj. apply list_elem_of_singleton in Hj as ->.
    apply list_elem_of_fmap in Hi as (r & -> & Hr). rewrite Forall_forall in Hb. by apply Hb.
  - apply Forall_app. split; [done|]. repeat constructor. simpl. lia.
Qed.
End Operations.
