(* ===== verification/StoreProps.v ===== *)
(** * What the store guarantees

    Constraints and outbox over every sequence of transactions, exact recovery
    of a stored alert state, complete pagination, resumption of the console
    stream, and immutability of saved root-cause reports. *)

From S2P Require Import Prelude PyText PyUuid PyTime PyFloat PyHash PyJson.
From S2P Require Import Messages KafkaIo AlertPolicy AlertState AlertTheory AlertProps.
From S2P Require Import StateCodec Tables Store StoreTheory.
Import AlertExamples.

(** ** Sequences of transactions *)
Inductive store_op :=
| OpRecord (now : Z) (d : ScoreDecisionV1.t) (r : TransitionResult.t)
| OpLoad (amb : Ambient) (sid : UUID) (machine_id : string) (pol : option LockedAlertPolicyV1.t)
| OpMark (now : Z) (id : UUID)
| OpStatus (now : Z) (st : ReplayStatusV1.t)
| OpCheckpoint (now : Z) (cmd : ReplayCommandV1.t) (st : ReplayState) (seq : Z) (ts : option datetime)
| OpUpdateCheckpoint (now : Z) (sid : UUID) (st : ReplayState)
| OpSaveRca (rep : RcaReportV1.t)
| OpSaveCompleteRca (rep : RcaReportV1.t)
| OpAppend (ev : ConsoleEventV1.t).

Section Operations.
Context `{JsonModel ScoreDecisionV1.t, JsonModel AlertEventV1.t, JsonModel EvidenceSnapshotV1.t,
          JsonModel ReplayCommandV1.t, JsonModel RcaReportV1.t}.

Definition exec (op : store_op) : M DB unit :=
  match op with
  | OpRecord now d r => record_decision_transition now d r
  | OpLoad amb sid mid pol => _ ← load_alert_state amb sid mid pol; mret ()
  | OpMark now id => mark_outbox_published now id
  | OpStatus now st => record_replay_status now st
  | OpCheckpoint now cmd st seq ts => record_replay_checkpoint now cmd st seq ts
  | OpUpdateCheckpoint now sid st => update_replay_checkpoint_state now sid st
  | OpSaveRca rep => _ ← save_rca rep; mret ()
  | OpSaveCompleteRca rep => _ ← save_complete_rca rep; mret ()
  | OpAppend ev => append_console_event ev
  end.

(** The database after a sequence of calls, whatever each of them returned or raised. *)
Definition run_ops (ops : list store_op) (db : DB) : DB := foldl (λ db op, (exec op db).2) db ops.

Lemma preserves_exec op : preserves (exec op).
Proof.
  destruct op; simpl; eauto using preserves_record, preserves_mark, preserves_status,
    preserves_checkpoint, preserves_update_checkpoint, preserves_append.
  - apply preserves_bind; [apply preserves_load|]. intros a. apply preserves_ret.
  - apply preserves_bind; [apply preserves_save_rca|]. intros a. apply preserves_ret.
  - apply preserves_bind; [|intros a; apply preserves_ret]. unfold save_complete_rca.
    case_match; [apply preserves_save_rca|apply preserves_ret].
Qed.

Lemma run_ops_good ops db : db_good db → db_good (run_ops ops db).
Proof.
  revert db. induction ops as [|op ops IH]; intros db Hdb; [done|].
  simpl. apply IH, preserves_exec, Hdb.
Qed.
End Operations.

(** ** Ordered queries *)
#[export] Instance by_key_trans {A} : Transitive (@by_key A).
Proof. intros x y z. unfold by_key, uuid_leb. rewrite !Z.leb_le. lia. Qed.
#[export] Instance by_key_total {A} : Total (@by_key A).
Proof. intros x y. unfold by_key, uuid_leb. rewrite !Z.leb_le. lia. Qed.

Definition row_key {A} (kv : UUID * A) : Z := uuid_int kv.1.

Lemma NoDup_row_keys {A} (m : gmap UUID A) : NoDup (row_key <$> map_to_list m).
Proof.
  apply NoDup_fmap_2_strong; [|apply NoDup_map_to_list].
  intros [i x] [j y] Hi Hj Heq. apply uuid_eq in Heq. simpl in Heq. subst.
  apply elem_of_map_to_list in Hi, Hj. congruence.
Qed.

Lemma NoDup_fmap_filter {A B} (f : A → B) (P : A → Prop) `{∀ x, Decision (P x)} l :
  NoDup (f <$> l) → NoDup (f <$> filter P l).
Proof. intros Hnd. eapply sublist_NoDup; [exact Hnd|]. apply fmap_sublist, sublist_filter. Qed.

Lemma ordered_rows_sorted {A} P (m : gmap UUID A) :
  StronglySorted (key_lt row_key) (ordered_rows P m).
Proof.
  apply merge_sort_strict.
  - apply _.
  - apply _.
  - intros x y. unfold by_key, uuid_leb. by rewrite Z.leb_le.
  - apply NoDup_fmap_filter, NoDup_row_keys.
Qed.

Lemma ordered_rows_elem {A} P (m : gmap UUID A) kv :
  kv ∈ ordered_rows P m ↔ P kv.1 kv.2 = true ∧ m !! kv.1 = Some kv.2.
Proof.
  unfold ordered_rows. rewrite merge_sort_Permutation, list_elem_of_filter.
  destruct kv. by rewrite elem_of_map_to_list.
Qed.

Lemma ordered_rows_beyond {A} P (m : gmap UUID A) l1 a r l2 :
  ordered_rows P m = l1 ++ (a, r) :: l2 →
  ordered_rows (λ k x, P k x && uuid_ltb a k) m = l2.
Proof.
  intros Hl. pose proof (ordered_rows_sorted P m) as Hs. rewrite Hl in Hs.
  rewrite <-(filter_beyond row_key l1 (a, r) l2 Hs), <-Hl.
  apply (key_sorted_unique row_key).
  - apply ordered_rows_sorted.
  - apply StronglySorted_filter, ordered_rows_sorted.
  - unfold ordered_rows at 1. rewrite merge_sort_Permutation.
    unfold ordered_rows. rewrite (merge_sort_Permutation by_key).
    rewrite list_filter_filter. apply Permutation_refl', list_filter_iff.
    intros [k x]. unfold row_key, uuid_ltb. simpl. rewrite andb_true_iff, Z.ltb_lt. tauto.
Qed.

(** ** Pages of alerts *)

(** A client reading page after page, each from the last alert of the one before. *)
Fixpoint read_pages (fuel : nat) (db : DB) (sid : UUID) (after : option UUID) (lim : Z)
  : result (list (UUID * AlertRow.t)) :=
  match fuel with
  | O => Ok []
  | S fuel =>
      rows ← list_alerts db sid after lim;
      match last rows with
      | None => Ok []
      | Some (a, _) => rest ← read_pages fuel db sid (Some a) lim; Ok (rows ++ rest)
      end
  end.

Definition session_alerts (db : DB) (sid : UUID) (after : option UUID) : list (UUID * AlertRow.t) :=
  ordered_rows (λ id r, bool_decide (AlertRow.replay_session_id r = sid) &&
    match after with Some a => uuid_ltb a id | None => true end) (alerts db).

Lemma ordered_rows_ext {A} P Q (m : gmap UUID A) :
  (∀ k x, P k x = Q k x) → ordered_rows P m = ordered_rows Q m.
Proof.
  intros HPQ. unfold ordered_rows. f_equal. apply list_filter_iff. intros [k x]. simpl.
  by rewrite HPQ.
Qed.

Lemma session_alerts_beyond db sid after l1 a r l2 :
  session_alerts db sid after = l1 ++ (a, r) :: l2 → session_alerts db sid (Some a) = l2.
Proof.
  intros Hl. pose proof (ordered_rows_beyond _ _ _ _ _ _ Hl) as <-. unfold session_alerts.
  apply ordered_rows_ext. intros k x.
  destruct after as [b|]; [|by rewrite andb_true_r].
  assert ((a, r) ∈ session_alerts db sid (Some b)) as Hin.
  { rewrite Hl. apply elem_of_app. right. apply elem_of_cons. by left. }
  apply ordered_rows_elem in Hin as [Hin _]. simpl in Hin.
  apply andb_true_iff in Hin as [_ Hba]. unfold uuid_ltb in *. apply Z.ltb_lt in Hba.
  destruct (bool_decide _); simpl; [|done].
  destruct (uuid_int a <? uuid_int k) eqn:E; [|by rewrite andb_false_r].
  apply Z.ltb_lt in E. symmetry. rewrite andb_true_r. apply Z.ltb_lt. lia.
Qed.

Lemma read_pages_spec fuel db sid after lim :
  0 < lim → (length (session_alerts db sid after) < fuel)%nat →
  read_pages fuel db sid after lim = Ok (session_alerts db sid after).
Proof.
  intros Hlim. revert after. induction fuel as [|fuel IH]; intros after Hlen; [lia|].
  simpl. unfold list_alerts, limit. fold (session_alerts db sid after).
  rewrite (proj2 (Z.leb_le 0 lim)) by lia. simpl.
  set (rows := session_alerts db sid after) in *. set (n := Z.to_nat lim).
  assert (0 < n)%nat as Hn by lia.
  destruct (last (take n rows)) as [[a r]|] eqn:Hlast.
  - apply last_Some in Hlast as [l1 Hl1].
    assert (rows = l1 ++ (a, r) :: drop n rows) as Hrows.
    { rewrite <-(take_drop n rows) at 1. rewrite Hl1. by rewrite <-(assoc_L (++)). }
    assert (session_alerts db sid (Some a) = drop n rows) as Hrest
      by (by apply (session_alerts_beyond db sid after l1 a r)).
    rewrite IH; rewrite Hrest.
    + simpl. by rewrite take_drop.
    + rewrite length_drop. rewrite Hrows, length_app in Hlen |- *. simpl in *. lia.
  - apply last_None in Hlast. destruct rows as [|x rows]; [done|].
    destruct n; [lia|done].
Qed.

(** ** Properties *)

(** C9. The constraints of the schema and the transactional outbox hold after any
    sequence of transactions, whether each of them committed or failed: foreign
    keys refer to existing rows, a window has one decision, an alert event is
    recorded once, a replay checkpoint is never CREATED, the console sequence
    increases, and the outbox holds exactly the recorded alert events, each
    with its content, its topic and the alert as its key. *)
Theorem store_constraints
    `{JsonModel ScoreDecisionV1.t, JsonModel AlertEventV1.t, JsonModel EvidenceSnapshotV1.t,
      JsonModel ReplayCommandV1.t, JsonModel RcaReportV1.t} ops :
  db_ok (run_ops ops empty_db) ∧ outbox_ok (run_ops ops empty_db).
Proof. apply (run_ops_good ops empty_db). split; [exact db_ok_empty|exact outbox_ok_empty]. Qed.

(** C33. A stored alert state is read back exactly. *)
Theorem alert_state_roundtrip s (Hdated : state_dated s) :
  state_from_payload (state_payload s) = Ok s.
Proof. exact (state_from_payload_payload s Hdated). Qed.

Lemma alert_state_roundtrip_witness :
  let s := AlertState.mk (uid 7) "metropt" (Some (uid 1)) None (Some (seconds 300))
             (Some (seconds 600)) None [uid 3; uid 4] 2 0 (Some (uid 4)) (Some (seconds 600)) in
  state_from_payload (state_payload s) = Ok s.
Proof.
  apply alert_state_roundtrip.
  constructor; intros t E; simplify_eq/=; unfold dt_valid, seconds, usec_per_day, usec; lia.
Defined.

(** Reading the alerts of a session page by page, each page after the last
    alert of the one before, ends and returns every alert of the session exactly
    once, in the order of their identifiers, for any page size. *)
Theorem alert_pages_complete fuel db sid lim
    (Hlim : 0 < lim) (Hfuel : (size (alerts db) < fuel)%nat) :
  read_pages fuel db sid None lim = Ok (session_alerts db sid None) ∧
  (∀ i r, (i, r) ∈ session_alerts db sid None ↔
     alerts db !! i = Some r ∧ AlertRow.replay_session_id r = sid) ∧
  StronglySorted (key_lt row_key) (session_alerts db sid None).
Proof.
  split; [|split].
  - apply read_pages_spec; [done|].
    assert (length (session_alerts db sid None) ≤ size (alerts db))%nat; [|lia].
    unfold session_alerts, ordered_rows. rewrite merge_sort_Permutation. rewrite <-length_map_to_list.
    apply sublist_length, sublist_filter.
  - intros i r. unfold session_alerts. rewrite ordered_rows_elem. simpl.
    rewrite andb_true_r, bool_decide_eq_true. tauto.
  - apply ordered_rows_sorted.
Qed.

Lemma alert_pages_complete_witness :
  let row := AlertRow.mk (uid 7) "metropt" ROW_OPEN 0 0 None (uid 9) hex64 in
  let db := set_alerts (λ _, <[uid 1 := row]> (<[uid 2 := row]> ∅)) empty_db in
  read_pages 3 db (uid 7) None 1 = Ok (session_alerts db (uid 7) None) ∧
  (∀ i r, (i, r) ∈ session_alerts db (uid 7) None ↔
     alerts db !! i = Some r ∧ AlertRow.replay_session_id r = uid 7) ∧
  StronglySorted (key_lt row_key) (session_alerts db (uid 7) None).
Proof. apply alert_pages_complete; [lia|]. vm_compute. lia. Defined.

(** ** Root-cause reports *)

(** A concrete codec of reports, for the witness. *)
Module ReportExamples.

Definition status_json (s : RcaStatus) : json := JBool (bool_decide (s = COMPLETE)).
Definition texts (l : list string) : json := JList (map JStr l).
Definition observation_json (o : RcaObservationV1.t) : json :=
  JList [JStr (RcaObservationV1.claim o); texts (RcaObservationV1.evidence_ids o)].

Definition dump (x : RcaReportV1.t) : dict := [("report", JList
  [ JInt (uuid_int (RcaReportV1.message_id x)); JInt (uuid_int (RcaReportV1.replay_session_id x));
    JStr (RcaReportV1.source_dataset_sha256 x); JStr (RcaReportV1.contract_sha256 x);
    JInt (RcaReportV1.source_timestamp x);
    JInt (wall (RcaReportV1.emitted_at x)); JInt (utcoffset (RcaReportV1.emitted_at x));
    JStr (RcaReportV1.report_id x); JStr (RcaReportV1.alert_id x);
    status_json (RcaReportV1.status x); JStr (RcaReportV1.summary x);
    JList (map observation_json (RcaReportV1.observations x));
    texts (RcaReportV1.uncertainty x); texts (RcaReportV1.next_checks x);
    texts (RcaReportV1.evidence_ids x); JStr (RcaReportV1.evidence_bundle_sha256 x);
    opt_json JStr (RcaReportV1.provider_model x) ])]%string.

Definition text_of (j : json) : string := match j with JStr s => s | _ => "" end.
Definition texts_of (j : json) : list string := match j with JList l => map text_of l | _ => [] end.
Definition observation_of (j : json) : RcaObservationV1.t :=
  match j with
  | JList [JStr c; l] => RcaObservationV1.mk c (texts_of l)
  | _ => RcaObservationV1.mk "" []
  end.

Definition validate (d : dict) : result RcaReportV1.t :=
  match d with
  | [(_, JList [JInt m; JInt s; JStr ds; JStr cs; JInt ts; JInt w; JInt o; JStr rid; JStr aid;
       JBool st; JStr su; JList obs; un; nc; ev; JStr b; p])] =>
      Ok (RcaReportV1.mk (UUID_of_bits m) (UUID_of_bits s) ds cs ts (mkAware w o) rid aid
            (if st then COMPLETE else UNAVAILABLE) su (map observation_of obs) (texts_of un)
            (texts_of nc) (texts_of ev) b (match p with JStr p => Some p | _ => None end))
  | _ => Err (ValidationError "report")
  end.

#[export] Instance report_model : JsonModel RcaReportV1.t :=
  {| model_dump := dump; model_validate := validate |}.

Lemma texts_of_texts l : texts_of (texts l) = l.
Proof. unfold texts_of, texts. rewrite map_map. apply map_id. Qed.

Lemma UUID_of_bits_self u : UUID_of_bits (uuid_int u) = u.
Proof. apply uuid_eq. simpl. apply Z.mod_small, uuid_range. Qed.

Lemma codec x : model_validate (model_dump x) = Ok x.
Proof.
  destruct x as [m s ds cs ts [w o] rid aid st su obs un nc ev b p].
  cbn -[UUID_of_bits texts texts_of map].
  rewrite !UUID_of_bits_self, !texts_of_texts, map_map. repeat f_equal.
  - by destruct st.
  - rewrite <-(map_id obs) at 2. apply map_ext. intros [c ids]. cbn -[texts texts_of]. by rewrite texts_of_texts.
  - by destruct p.
Qed.

(** A complete report on the alert [uid 1], and a database with that alert. *)
Definition report : RcaReportV1.t :=
  RcaReportV1.mk (uid 20) (uid 7) hex64 hex64 0 (mkAware 0 0) "rca-1" (str_uuid (uid 1)) COMPLETE
    "pressure drop" [] ["sensor drift"] [] ["ev-1"] hex64 (Some "model").
Definition alert_row : AlertRow.t := AlertRow.mk (uid 7) "metropt" ROW_OPEN 0 0 None (uid 9) hex64.
Definition db : DB := set_alerts (λ _, <[uid 1 := alert_row]> ∅) empty_db.

End ReportExamples.

Section Reports.
Context `{JsonModel RcaReportV1.t}.

Lemma find_report_is_Some db a b i r :
  rca_reports db !! i = Some r → RcaRow.alert_id r = a → RcaRow.evidence_bundle_sha256 r = b →
  ∃ j s, find_report db a b = Some (j, s).
Proof.
  intros Hi Ha Hb. destruct (find_report db a b) as [[j s]|] eqn:Hf; [eauto|].
  by destruct (find_report_None _ _ _ _ _ Hf Hi Ha).
Qed.

(** After the insert the report under the key is the stored one, or the new one. *)
Lemma insert_report_find rep db db' :
  insert_report rep db = Ok db' →
  (db' = db ∧ ∃ i r, find_report db (RcaReportV1.alert_id rep)
                       (RcaReportV1.evidence_bundle_sha256 rep) = Some (i, r)) ∨
  (∃ i r, find_report db' (RcaReportV1.alert_id rep) (RcaReportV1.evidence_bundle_sha256 rep)
            = Some (i, r) ∧ RcaRow.payload r = model_dump rep).
Proof.
  unfold insert_report. intros E. simpl in E.
  destruct (find_report _ _ _) as [[i r]|] eqn:Hf; inv_res; [left; eauto|]. right.
  edestruct (find_report_is_Some (set_rca <[RcaReportV1.report_id rep := RcaRow.mk
    (RcaReportV1.alert_id rep) (RcaReportV1.evidence_bundle_sha256 rep)
    (RcaReportV1.status rep) (RcaReportV1.provider_model rep) (RcaReportV1.summary rep)
    (model_dump rep) (RcaReportV1.emitted_at rep)]> db)) as (j & s & Hj).
  { simpl. apply lookup_insert_eq. }
  { reflexivity. }
  { reflexivity. }
  exists j, s. split; [exact Hj|].
  apply find_report_Some in Hj as (Hj & Ha & Hb). simpl in Hj.
  apply lookup_insert_Some in Hj as [[_ <-]|[_ Hj]]; [done|].
  by destruct (find_report_None _ _ _ _ _ Hf Hj Ha).
Qed.
End Reports.

(** The first report saved for an alert and an evidence bundle is the one that
    stays: a successful save returns the report it was given, which is then the
    one read back; saving a report with the same content again returns it and
    changes nothing, and saving another one for the same alert and bundle raises
    [IdentityMismatchError] and changes nothing. *)
Theorem rca_first_write_wins `{JsonModel RcaReportV1.t} rep db r db'
    (Hcodec : ∀ x : RcaReportV1.t, model_validate (model_dump x) = Ok x)
    (Hbundle : nonempty (RcaReportV1.evidence_bundle_sha256 rep) = true)
    (Hsave : save_rca rep db = (Ok r, db')) :
  r = rep ∧
  get_rca db' (RcaReportV1.alert_id rep) (Some (RcaReportV1.evidence_bundle_sha256 rep)) =
    Ok (Some rep) ∧
  ∀ rep2, RcaReportV1.alert_id rep2 = RcaReportV1.alert_id rep →
    RcaReportV1.evidence_bundle_sha256 rep2 = RcaReportV1.evidence_bundle_sha256 rep →
    save_rca rep2 db' =
      if bool_decide (model_dump rep2 = model_dump rep) then (Ok rep, db')
      else (Err (IdentityMismatchError "Stored RCA report payload does not match"), db').
Proof.
  assert (∃ i row, find_report db' (RcaReportV1.alert_id rep)
      (RcaReportV1.evidence_bundle_sha256 rep) = Some (i, row) ∧
    model_validate (RcaRow.payload row) = Ok r ∧ model_dump r = model_dump rep)
    as (i & row & Hfind & Hval & Hdump).
  { unfold save_rca, transaction in Hsave.
    destruct (insert_report rep db) as [db1|e] eqn:Hins; [|done]. simpl in Hsave.
    apply insert_report_find in Hins as Hcase.
    assert (∃ i row, find_report db1 (RcaReportV1.alert_id rep)
      (RcaReportV1.evidence_bundle_sha256 rep) = Some (i, row)) as (i & row & Hf)
      by (destruct Hcase as [(-> & ?)|(? & ? & ? & ?)]; eauto).
    rewrite Hf in Hsave. destruct (model_validate _) as [x|e] eqn:Hv; [|done]. simpl in Hsave.
    destruct (bool_decide _) eqn:Hb; [|done]. apply bool_decide_eq_true in Hb.
    simpl in Hsave. simplify_eq. eauto. }
  assert (r = rep) as ->.
  { pose proof (Hcodec r) as H1. rewrite Hdump, Hcodec in H1. by simplify_eq. }
  split; [done|]. split.
  - unfold get_rca. rewrite Hbundle, Hfind. simpl. by rewrite Hval.
  - intros rep2 Ha Hb. unfold save_rca, transaction, insert_report. simpl.
    rewrite Ha, Hb, Hfind. simpl. rewrite Hfind, Hval. simpl.
    repeat case_bool_decide; simpl; congruence.
Qed.

Import ReportExamples.

Lemma rca_first_write_wins_witness :
  ∃ db', save_rca report db = (Ok report, db') ∧
  get_rca db' (RcaReportV1.alert_id report) (Some (RcaReportV1.evidence_bundle_sha256 report)) =
    Ok (Some report).
Proof.
  assert (is_ok (save_rca report db).1 = true) as Hok by (vm_compute; reflexivity).
  destruct (save_rca report db) as [[r|e] db'] eqn:Hsave; [|discriminate Hok].
  destruct (rca_first_write_wins report db r db' codec eq_refl Hsave) as (-> & Hget & _).
  exists db'. split; [reflexivity|exact Hget].
Defined.

(** ** The console stream *)
Lemma find_cursor_Some db r :
  NoDup (ConsoleRow.event_id <$> console_events db) → r ∈ console_events db →
  find_cursor db (ConsoleRow.replay_session_id r) (ConsoleRow.event_id r) = Some r.
Proof.
  intros Hnd Hr. unfold find_cursor.
  set (l := filter _ _).
  assert (r ∈ l) as Hin by (by apply list_elem_of_filter).
  destruct l as [|x l'] eqn:Hl; [by apply elem_of_nil in Hin|]. simpl. f_equal.
  assert (x ∈ filter (λ r0, ConsoleRow.event_id r0 = ConsoleRow.event_id r ∧
    ConsoleRow.replay_session_id r0 = ConsoleRow.replay_session_id r) (console_events db)) as Hx
    by (fold l; rewrite Hl; apply elem_of_cons; by left).
  apply list_elem_of_filter in Hx as [[Hid _] Hx].
  apply list_elem_of_lookup in Hx as [i Hi]. apply list_elem_of_lookup in Hr as [j Hj].
  assert (i = j) as ->; [|congruence].
  eapply NoDup_lookup; [exact Hnd| |].
  - rewrite list_lookup_fmap, Hi. reflexivity.
  - rewrite list_lookup_fmap, Hj. simpl. by rewrite Hid.
Qed.

#[export] Instance sequence_before_trans : Transitive sequence_before.
Proof. intros x y z. unfold sequence_before. lia. Qed.
#[export] Instance sequence_before_total : Total sequence_before.
Proof. intros x y. unfold sequence_before. lia. Qed.

Lemma sorted_lt_NoDup (l : list Z) : StronglySorted Z.lt l → NoDup l.
Proof.
  induction 1 as [|x l _ IH Hx]; constructor; [|done].
  intros Hin. rewrite Forall_forall in Hx. specialize (Hx _ Hin). lia.
Qed.

Lemma console_rows_sorted db sid seq :
  db_ok db → StronglySorted (key_lt ConsoleRow.stream_sequence) (console_rows db sid seq).
Proof.
  intros Hok. apply merge_sort_strict; [apply _|apply _|done|].
  apply NoDup_fmap_filter, sorted_lt_NoDup, (console_order _ Hok).
Qed.

Lemma console_rows_beyond db sid l1 r l2 :
  db_ok db → console_rows db sid None = l1 ++ r :: l2 →
  console_rows db sid (Some (ConsoleRow.stream_sequence r)) = l2.
Proof.
  intros Hok Hl. pose proof (console_rows_sorted db sid None Hok) as Hs. rewrite Hl in Hs.
  rewrite <-(filter_beyond _ l1 r l2 Hs), <-Hl.
  apply (key_sorted_unique ConsoleRow.stream_sequence).
  - by apply console_rows_sorted.
  - by apply StronglySorted_filter, console_rows_sorted.
  - unfold console_rows. rewrite !(merge_sort_Permutation sequence_before).
    rewrite list_filter_filter. apply Permutation_refl', list_filter_iff.
    intros x. rewrite Z.ltb_lt. tauto.
Qed.

(** Resuming the console stream of a session from the last event received
    returns exactly the events stored after it, in stream order and at most
    [limit] of them: with no more than [limit] events missed nothing is lost or
    repeated; a cursor that is not an event of the session returns nothing. *)
Theorem console_resume db sid l1 r l2 lim
    (Hok : db_ok db) (Hlim : 0 ≤ lim) (Hid : nonempty (ConsoleRow.event_id r) = true)
    (Hrows : console_rows db sid None = l1 ++ r :: l2) :
  events_after db sid (Some (ConsoleRow.event_id r)) lim =
    Ok (map console_event_of (take (Z.to_nat lim) l2)) ∧
  ∀ id, nonempty id = true → console_cursor_exists db sid id = false →
    events_after db sid (Some id) lim = Ok [].
Proof.
  split.
  - assert (r ∈ console_rows db sid None) as Hr
      by (rewrite Hrows; apply elem_of_app; right; apply elem_of_cons; by left).
    unfold console_rows in Hr. rewrite merge_sort_Permutation in Hr.
    apply list_elem_of_filter in Hr as [[Hsid _] Hr].
    unfold events_after. rewrite Hid, <-Hsid.
    rewrite (find_cursor_Some db r (console_ids _ Hok) Hr). unfold page, limit.
    rewrite (proj2 (Z.leb_le 0 lim) Hlim), Hsid. simpl.
    by rewrite (console_rows_beyond db sid l1 r l2 Hok Hrows).
  - intros id Hne Hex. unfold events_after, console_cursor_exists in *. rewrite Hne.
    apply bool_decide_eq_false in Hex. destruct (find_cursor db sid id); [|done].
    by destruct Hex.
Qed.

Lemma console_resume_witness :
  let row n id := ConsoleRow.mk n id (str_uuid (uid 7)) SCORE_EVENT 0 [] in
  let sessions := {[uid 7 := SessionRow.mk hex64 hex64 "m" RUNNING None None None 0]} in
  let db := set_sessions (λ _, sessions)
    (set_console (λ _, [row 1 "a"; row 2 "b"; row 3 "c"]%string) 4 empty_db) in
  events_after db (str_uuid (uid 7)) (Some "a"%string) 100 =
    Ok (map console_event_of (take 100 [row 2 "b"; row 3 "c"]%string)) ∧
  ∀ id, nonempty id = true → console_cursor_exists db (str_uuid (uid 7)) id = false →
    events_after db (str_uuid (uid 7)) (Some id) 100 = Ok [].
Proof.
  intros row sessions db.
  apply (console_resume db (str_uuid (uid 7)) [] (row 1 "a"%string)); [|lia|done|reflexivity].
  constructor; simpl; intros; try (by rewrite lookup_empty in *).
  - assert (ConsoleRow.replay_session_id r = str_uuid (uid 7)) as ->.
    { repeat (apply elem_of_cons in H as [->|H]; [done|]). by apply elem_of_nil in H. }
    exists (uid 7). split; [done|]. unfold sessions. rewrite lookup_singleton_eq. eauto.
  - apply (bool_decide_unpack _). reflexivity.
  - repeat constructor; lia.
  - repeat constructor; simpl; lia.
Defined.
