(* ===== verification/AlertConsumer.v ===== *)
(** * The alert consumer and the outbox dispatcher ([alert_consumer.py], [alert_service.py])

    [process] handles one Kafka record; [process_consumer_batch] one polled
    batch, committing after each record; [consumer_step] one turn of the loop,
    with the position of the consumer (which a poll advances) and the committed
    offset.  Kafka calls, [uuid4] and the clock are environment: the outcome of
    the n-th call of the producer or of [commit] is [io n], and a record's fresh
    values are its [Draws].  The optional metrics are absent. *)

From S2P Require Import Prelude PyText PyUuid PyTime PyFloat PyHash PyJson.
From S2P Require Import Messages KafkaIo AlertPolicy AlertState StateCodec Tables Store.

Inductive ProcessOutcome := COMMITTED | SESSION_FAILED | QUARANTINED | SKIPPED.
#[export] Instance ProcessOutcome_eq_dec : EqDecision ProcessOutcome.
Proof. solve_decision. Defined.

(** The fresh values one record can use. *)
Record Draws := mkDraws {
  quarantine_id : UUID; quarantine_now : aware;
  status_id : UUID; status_now : aware;
  ambient : Ambient;
  load_ambient : Ambient;
  db_now : Z
}.

(** The settings of the consumer. *)
Record Config := mkConfig {
  policy : LockedAlertPolicyV1.t;
  machine_id : string;
  has_producer : bool
}.

(** The consumer, its database and what the broker received. *)
Record CState := mkC {
  db : DB;
  failed_sessions : gset UUID;
  sent : list Sent;
  calls : nat;
  committed : gmap TopicPartition Z
}.

Definition set_db (d : DB) (s : CState) : CState :=
  mkC d (failed_sessions s) (sent s) (calls s) (committed s).
Definition add_failed (sid : UUID) (s : CState) : CState :=
  mkC (db s) ({[sid]} ∪ failed_sessions s) (sent s) (calls s) (committed s).

(** A store method called by the consumer. *)
Definition on_db {A} (m : M DB A) : M CState A := λ s, let '(r, d) := m (db s) in (r, set_db d s).

Section Consumer.
Context `{JsonModel ScoreDecisionV1.t, JsonModel AlertEventV1.t, JsonModel EvidenceSnapshotV1.t,
          JsonModel ReplayStatusV1.t, JsonModel QuarantineRecordV1.t}.
(** pydantic's [model_validate_json] of a score decision, [str(error)], and the
    outcomes of the calls to Kafka. *)
Variable validate : bytes → result ScoreDecisionV1.t.
Variable error_text : exn → string.
Variable io : nat → option exn.
Variable cfg : Config.

(** The next call to Kafka. *)
Definition next_call : M CState unit := λ s,
  let s' := mkC (db s) (failed_sessions s) (sent s) (S (calls s)) (committed s) in
  match io (calls s) with
  | None => (Ok (), s')
  | Some e => (Err e, s')
  end.

(** [await self.producer.send_and_wait(...)] *)
Definition send_and_wait (msg : Sent) : M CState unit :=
  _ ← next_call;
  modify (λ s, mkC (db s) (failed_sessions s) (sent s ++ [msg]) (calls s) (committed s)).

(** [await self.consumer.commit({tp: offset})] *)
Definition commit (tp : TopicPartition) (offset : Z) : M CState unit :=
  _ ← next_call;
  modify (λ s, mkC (db s) (failed_sessions s) (sent s) (calls s) (<[tp := offset]> (committed s))).

Definition assert_identity (decision : ScoreDecisionV1.t) : result unit :=
  _ ← guard_exn (bool_decide (ScoreDecisionV1.source_dataset_sha256 decision =
                              LockedAlertPolicyV1.source_dataset_sha256 (policy cfg)))
        (ValueError "Source dataset SHA mismatch");
  _ ← guard_exn (bool_decide (ScoreDecisionV1.contract_sha256 decision =
                              LockedAlertPolicyV1.contract_sha256 (policy cfg)))
        (ValueError "Contract SHA mismatch");
  guard_exn (bool_decide (ScoreDecisionV1.model_version decision =
                          LockedAlertPolicyV1.model_version (policy cfg)))
    (ValueError "Model version mismatch").

Definition fail_session (draws : Draws) (session_id : UUID) (source_ts : datetime)
    (error_code : string) : M CState unit :=
  _ ← modify (add_failed session_id);
  status ← lift_res (ReplayStatusV1.make
    (* message_id *) (status_id draws)
    (* replay_session_id *) session_id
    (* source_dataset_sha256 *) (LockedAlertPolicyV1.source_dataset_sha256 (policy cfg))
    (* contract_sha256 *) (LockedAlertPolicyV1.contract_sha256 (policy cfg))
    (* source_timestamp *) (Naive source_ts)
    (* emitted_at *) (Aware (status_now draws))
    (* state *) FAILED
    (* last_sequence *) (Some 0)
    (* error_code *) (Some error_code));
  _ ← on_db (record_replay_status (db_now draws) status);
  whenM (has_producer cfg) (
    value ← lift_res (encode_message status);
    send_and_wait (mkSent REPLAY_STATUS_TOPIC value (encode (str_uuid session_id)))).

Definition publish_quarantine (draws : Draws) (record : KafkaRecord) (error : exn) : M CState unit :=
  if negb (has_producer cfg)
  then raise (RuntimeError "Kafka producer is required to quarantine invalid scores")
  else
    let payload_hash := sha256_hex (rvalue record) in
    quarantine ← lift_res (QuarantineRecordV1.make
      (* message_id *) (quarantine_id draws)
      (* replay_session_id *) None
      (* source_dataset_sha256 *) (text (replicate 64 "0"%char))
      (* contract_sha256 *) (text (replicate 64 "0"%char))
      (* source_timestamp *) (Naive (datetime_of 2020 1 1 0 0 0 0))
      (* emitted_at *) (Aware (quarantine_now draws))
      (* original_topic *) (rtopic record)
      (* partition *) (rpartition record)
      (* offset *) (roffset record)
      (* payload_sha256 *) payload_hash
      (* error_code *) "INVALID_SCORE_PAYLOAD"
      (* error_detail *) (text_prefix 1000 (error_text error)));
    value ← lift_res (encode_message quarantine);
    send_and_wait (mkSent QUARANTINE_TOPIC value (encode payload_hash)).

(** The state a decision is applied to, its transition, and its record. *)
Definition apply_decision (draws : Draws) (decision : ScoreDecisionV1.t)
  : M CState TransitionResult.t :=
  state ← on_db (load_alert_state (load_ambient draws) (ScoreDecisionV1.replay_session_id decision)
                   (machine_id cfg) (Some (policy cfg)));
  r ← lift_res (transition (ambient draws) state decision (policy cfg));
  _ ← on_db (record_decision_transition (db_now draws) decision r);
  mret r.

Definition process (draws : Draws) (record : KafkaRecord) : M CState ProcessOutcome :=
  match decode_message validate (rvalue record) with
  | Err error =>
      _ ← publish_quarantine draws record error;
      mret QUARANTINED
  | Ok decision =>
      let session_id := ScoreDecisionV1.replay_session_id decision in
      failed ← gets failed_sessions;
      if bool_decide (session_id ∈ failed) then mret SKIPPED
      else
        match assert_identity decision with
        | Err e =>
            if is_value_error e then
              _ ← fail_session draws session_id (ScoreDecisionV1.source_timestamp decision)
                    "CONTRACT_MISMATCH";
              mret SESSION_FAILED
            else raise e
        | Ok _ =>
            _ ← apply_decision draws decision;
            mret COMMITTED
        end
  end.

(** ** The batch and the loop ([alert_service.py]) *)

(** The records of one partition: [inl] to go on, [inr] when the loop must halt. *)
Fixpoint process_partition (tp : TopicPartition) (messages : list (Draws * KafkaRecord))
  : M CState bool :=
  match messages with
  | [] => mret false
  | (draws, record) :: messages =>
      outcome ← process draws record;
      if bool_decide (outcome = SESSION_FAILED) then mret true
      else
        _ ← commit tp (roffset record + 1);
        process_partition tp messages
  end.

Definition Batch : Type := list (TopicPartition * list (Draws * KafkaRecord)).

Fixpoint process_consumer_batch (batch : Batch) : M CState bool :=
  match batch with
  | [] => mret false
  | (tp, messages) :: batch =>
      halt ← process_partition tp messages;
      if halt : bool then mret true else process_consumer_batch batch
  end.

(** The service: [_running], the consumer and the fetch position of each
    partition, which a poll advances past the batch it returns. *)
Record Service := mkService { running : bool; consumer : CState; position : gmap TopicPartition Z }.

Definition advance (pos : gmap TopicPartition Z) (part : TopicPartition * list (Draws * KafkaRecord))
  : gmap TopicPartition Z :=
  match last part.2 with
  | Some (_, r) => <[part.1 := roffset r + 1]> pos
  | None => pos
  end.

(** One turn of [_run_consumer_loop] on the batch [getmany] returned.  An
    [Exception] is logged and the loop goes on with the next poll. *)
Definition consumer_step (batch : Batch) (s : Service) : Service :=
  if negb (running s) then s
  else
    let pos := foldl advance (position s) batch in
    match process_consumer_batch batch (consumer s) with
    | (Ok halt, c) => mkService (negb halt) c pos
    | (Err _, c) => mkService (running s) c pos
    end.

(** ** The outbox dispatcher *)
Definition dispatch_one (now : Z) : M CState bool :=
  row ← gets (λ s, next_unpublished_outbox (db s));
  match row with
  | None => mret false
  | Some row =>
      payload ← lift_res (dumps_sorted (JObj (outbox_payload row)));
      _ ← send_and_wait (mkSent (topic row) (encode payload) (encode (message_key row)));
      _ ← on_db (mark_outbox_published now (message_id row));
      mret true
  end.

(** [run_loop] for at most [fuel] turns: an exception is logged and retried
    after a pause; it stops when there is nothing to dispatch. *)
Fixpoint dispatch_loop (fuel : nat) (now : Z) (s : CState) : CState :=
  match fuel with
  | O => s
  | S fuel =>
      match dispatch_one now s with
      | (Ok true, s') => dispatch_loop fuel now s'
      | (Ok false, s') => s'
      | (Err _, s') => dispatch_loop fuel now s'
      end
  end.
End Consumer.

(** ** The life of a process ([start], [stop]) *)
Section Restarts.
Context `{JsonModel ScoreDecisionV1.t, JsonModel AlertEventV1.t, JsonModel EvidenceSnapshotV1.t,
          JsonModel ReplayStatusV1.t, JsonModel QuarantineRecordV1.t}.
Variable validate : bytes → result ScoreDecisionV1.t.
Variable error_text : exn → string.
Variable io : nat → option exn.
Variable cfg : Config.

(** The outcomes of the calls when the [k]-th one from [s] on is never answered. *)
Definition cut (k : nat) (s : CState) : nat → option exn := λ n,
  if (n =? calls s + k)%nat then Some (KafkaError "cancelled") else io n.

(** [stop] cancels the consumer task where it awaits, and a crash ends it there: the
    batch is processed up to its [k]-th call to Kafka, and the process is gone.  A
    batch with fewer calls ends, and the process is gone at the next poll. *)
Definition interrupted_step (k : nat) (batch : Batch) (s : Service) : Service :=
  if negb (running s) then s
  else mkService false
         (process_consumer_batch validate error_text (cut k (consumer s)) cfg batch (consumer s)).2
         (position s).

(** [start]: a new consumer of the group goes on at the committed offsets
    ([auto_offset_reset="earliest"]), with a new [AlertConsumer] on the same store. *)
Definition restart (s : Service) : Service :=
  if running s then s
  else
    let c := consumer s in
    mkService true (mkC (db c) ∅ (sent c) (calls c) (committed c)) (committed c).
End Restarts.
