(* ===== verification/ConsumerTheory.v ===== *)
(** * Lemmas on the alert consumer *)

From S2P Require Import Prelude PyText PyUuid PyTime PyFloat PyHash PyJson.
From S2P Require Import Messages KafkaIo AlertPolicy AlertState AlertTheory.
From S2P Require Import StateCodec Tables Store StoreTheory StoreProps AlertConsumer.

(** ** Transactions that returned *)
Lemma transaction_Ok {A} (body : DB → result (A * DB)) d a d' :
  transaction body d = (Ok a, d') ↔ body d = Ok (a, d').
Proof. unfold transaction. destruct (body d) as [[b d1]|]; naive_solver. Qed.

Lemma update_Ok (body : DB → result DB) d u d' : update body d = (Ok u, d') ↔ body d = Ok d'.
Proof.
  unfold update. rewrite transaction_Ok, bind_Ok. destruct u. split; [|eauto].
  intros (? & ? & [= ->]). done.
Qed.

Lemma on_db_Ok {A} (m : M DB A) s a s' :
  on_db m s = (Ok a, s') ↔ ∃ d, m (db s) = (Ok a, d) ∧ s' = set_db d s.
Proof. unfold on_db. destruct (m (db s)) as [[b|e] d]; naive_solver. Qed.

(** ** Dates of a state *)
Lemma opt_valid_Some t : dt_valid t → opt_valid (Some t).
Proof. by intros Ht ? [= <-]. Qed.
Lemma opt_valid_None : opt_valid None.
Proof. done. Qed.
Lemma or_else_valid o t : opt_valid o → dt_valid t → dt_valid (or_else o t).
Proof. intros Ho Ht. destruct o; simpl; auto. Qed.
#[export] Hint Resolve opt_valid_Some opt_valid_None or_else_valid : store.

Lemma state_dated_empty sid mid : state_dated (AlertState.empty sid mid).
Proof. by constructor. Qed.

Lemma transition_dated amb s d pol r :
  state_dated s → dt_valid (ScoreDecisionV1.source_timestamp d) →
  transition amb s d pol = Ok r → state_dated (TransitionResult.state r).
Proof.
  intros [Hf Hl Hr Ht] Hd H. transition_cases H; constructor; simpl; try case_match; auto with store.
Qed.

(** ** What one transaction does to the tables *)
Section Recording.
Context `{JsonModel ScoreDecisionV1.t, JsonModel AlertEventV1.t, JsonModel EvidenceSnapshotV1.t}.

(** The tables the recovery of a state depends on. *)
Definition same_decisions (d d' : DB) : Prop :=
  score_decisions d' = score_decisions d ∧ alert_runtime_states d' = alert_runtime_states d ∧
  replay_sessions d' = replay_sessions d.

Lemma same_decisions_trans d1 d2 d3 : same_decisions d1 d2 → same_decisions d2 d3 → same_decisions d1 d3.
Proof. unfold same_decisions. naive_solver congruence. Qed.

Lemma upsert_alert_decisions d e db db' : upsert_alert d e db = Ok db' → same_decisions db db'.
Proof. unfold upsert_alert. intros Hr. inv_res. case_match; by inv_res. Qed.
Lemma insert_event_decisions d e db db' : insert_alert_event d e db = Ok db' → same_decisions db db'.
Proof. unfold insert_alert_event. intros Hr. case_match; by inv_res. Qed.
Lemma insert_evidence_decisions d e db db' : insert_evidence d e db = Ok db' → same_decisions db db'.
Proof. unfold insert_evidence. intros Hr. case_match; by inv_res. Qed.
Lemma insert_outbox_decisions e db db' : insert_outbox e db = Ok db' → same_decisions db db'.
Proof. unfold insert_outbox. intros Hr. case_match; by inv_res. Qed.

Lemma persist_event_decisions d r db db' : persist_event d r db = Ok db' → same_decisions db db'.
Proof.
  unfold persist_event. intros Hr. case_match; [|by inv_res]. inv_res.
  eapply same_decisions_trans; [by eapply upsert_alert_decisions|].
  eapply same_decisions_trans; [by eapply insert_event_decisions|].
  eapply same_decisions_trans; [|by eapply insert_outbox_decisions].
  case_match; inv_res; [by eapply insert_evidence_decisions|done].
Qed.

Lemma record_tables now d r db db' :
  record_body now d r db = Ok db' →
  alert_runtime_states db' =
    <[(AlertState.replay_session_id (TransitionResult.state r),
       AlertState.machine_id (TransitionResult.state r)) := state_payload (TransitionResult.state r)]>
      (alert_runtime_states db) ∧
  score_decisions db' =
    match score_decisions db !! ScoreDecisionV1.decision_id d with
    | Some _ => score_decisions db
    | None => <[ScoreDecisionV1.decision_id d := decision_row d]> (score_decisions db)
    end.
Proof.
  unfold record_body, upsert_runtime_state. intros Hr. inv_res. simpl.
  apply persist_event_decisions in H3 as (Hdec & Hrt & _).
  unfold insert_decision in H2. unfold ensure_session_exists in H2.
  rewrite Hdec, Hrt.
  destruct (replay_sessions db !! _); simpl in H2;
    destruct (score_decisions db !! _) eqn:E; inv_res; done.
Qed.
End Recording.

(** ** Runs *)
Lemma transition_identity amb s d pol r :
  transition amb s d pol = Ok r →
  AlertState.replay_session_id (TransitionResult.state r) = AlertState.replay_session_id s ∧
  AlertState.machine_id (TransitionResult.state r) = AlertState.machine_id s.
Proof. intros H. by transition_cases H. Qed.

Lemma final_state_snoc s rs r : final_state s (rs ++ [r]) = TransitionResult.state r.
Proof. revert s. induction rs as [|r' rs IH]; intros s; simpl; auto. Qed.

Lemma run_snoc pol s ads rs ad r :
  run pol s ads = Ok rs → transition ad.1 (final_state s rs) ad.2 pol = Ok r →
  run pol s (ads ++ [ad]) = Ok (rs ++ [r]).
Proof.
  revert s rs. induction ads as [|ad' ads IH]; intros s rs Hrun Hr; simpl in *; inv_res.
  - unfold step_result. simpl in *. by rewrite Hr.
  - rewrite H. simpl. simpl in Hr. by rewrite (IH _ _ H0 Hr).
Qed.

Lemma run_identity pol s ads rs :
  run pol s ads = Ok rs →
  AlertState.replay_session_id (final_state s rs) = AlertState.replay_session_id s ∧
  AlertState.machine_id (final_state s rs) = AlertState.machine_id s.
Proof.
  revert s rs. induction ads as [|ad ads IH]; intros s rs H; simpl in H; inv_res; [done|].
  destruct (transition_identity _ _ _ _ _ H0) as [<- <-]. simpl. by apply IH.
Qed.

Lemma run_dated pol s ads rs :
  run pol s ads = Ok rs → state_dated s → Forall dt_valid (timestamps ads) →
  state_dated (final_state s rs).
Proof.
  revert s rs. induction ads as [|ad ads IH]; intros s rs H Hs Hts; simpl in H; inv_res; [done|].
  inversion Hts; subst. simpl. eapply IH; [done| |done]. by eapply transition_dated.
Qed.

(** Accepted decisions with distinct identifiers are in chronological order. *)
Lemma run_chronological pol s ads rs :
  run pol s ads = Ok rs → NoDup (decision_ids ads) →
  (∀ i, AlertState.last_decision_id s = Some i → i ∉ decision_ids ads) →
  StronglySorted Z.lt (timestamps ads) ∧
  ∀ ts, AlertState.last_source_timestamp s = Some ts → Forall (Z.lt ts) (timestamps ads).
Proof.
  revert s rs. induction ads as [|[amb d] ads IH]; intros s rs H Hnd Hlast; simpl in H; inv_res.
  { split; constructor. }
  apply NoDup_cons in Hnd as [Hni Hnd]. simpl in Hni.
  assert (¬ is_duplicate s d) as Hdup.
  { intros Hd. apply (Hlast _ Hd). apply elem_of_cons. by left. }
  destruct (transition_last _ _ _ _ _ Hdup H0) as (Hid & Hts & _).
  destruct (IH _ _ H1 Hnd) as [Hsort Hlt].
  { intros i Hi. rewrite Hid in Hi. by simplify_eq. }
  specialize (Hlt _ Hts). split; [by constructor|].
  intros ts Hs.
  assert (ts < ScoreDecisionV1.source_timestamp d) as Htsd.
  { unfold step_result, transition in H0. simpl in H0. rewrite bool_decide_eq_false_2 in H0 by done.
    rewrite Hs in H0. destruct (_ <=? _) eqn:E; [done|]. by apply Z.leb_gt in E. }
  constructor; [done|]. eapply Forall_impl; [exact Hlt|]. simpl. lia.
Qed.

(** ** Consuming a stream of decisions *)
Definition session_of (d : ScoreDecisionV1.t) : UUID := ScoreDecisionV1.replay_session_id d.

(** The decisions of one session, with the draws of their transitions. *)
Definition of_session (sid : UUID) (ads : list (Draws * ScoreDecisionV1.t))
  : list (Ambient * ScoreDecisionV1.t) :=
  (λ ad, (ambient ad.1, ad.2)) <$> filter (λ ad, session_of ad.2 = sid) ads.

Lemma of_session_snoc sid ads ad :
  of_session sid (ads ++ [ad]) =
  if decide (session_of ad.2 = sid) then of_session sid ads ++ [(ambient ad.1, ad.2)]
  else of_session sid ads.
Proof.
  unfold of_session. rewrite filter_app, filter_cons. case_decide; rewrite fmap_app; simpl; [done|].
  by rewrite app_nil_r.
Qed.

Definition row_of_decision `{JsonModel ScoreDecisionV1.t} (d : ScoreDecisionV1.t)
  : UUID * DecisionRow.t := (ScoreDecisionV1.decision_id d, decision_row d).

Section Recovery.
Context `{JsonModel ScoreDecisionV1.t, JsonModel AlertEventV1.t, JsonModel EvidenceSnapshotV1.t}.
Variable cfg : Config.

(** What the accepting branch of [process] does with a stream. *)
Definition consume (ads : list (Draws * ScoreDecisionV1.t)) : M CState unit :=
  forM ads (λ ad, _ ← apply_decision cfg ad.1 ad.2; mret ()).

(** The database after the stream [ads]: for each session the stored state is
    that of the run, and the decisions stored are those of the stream. *)
Record recovered (ads : list (Draws * ScoreDecisionV1.t)) (d : DB) : Prop := {
  rec_run : ∀ sid, ∃ rs,
    run (policy cfg) (AlertState.empty sid (machine_id cfg)) (of_session sid ads) = Ok rs ∧
    alert_runtime_states d !! (sid, machine_id cfg) =
      if bool_decide (of_session sid ads = []) then None
      else Some (state_payload (final_state (AlertState.empty sid (machine_id cfg)) rs));
  rec_rows : ∀ i row, score_decisions d !! i = Some row ↔
    ∃ ad, ad ∈ ads ∧ (i, row) = row_of_decision ad.2
}.

Lemma session_rows_elem d sid kv :
  kv ∈ session_rows d sid ↔
  DecisionRow.replay_session_id kv.2 = sid ∧ score_decisions d !! kv.1 = Some kv.2.
Proof.
  unfold session_rows. rewrite merge_sort_Permutation, list_elem_of_filter.
  destruct kv. by rewrite elem_of_map_to_list.
Qed.

Lemma session_rows_nil ads d sid :
  recovered ads d → of_session sid ads = [] → session_rows d sid = [].
Proof.
  intros [_ Hrows] Hnil. apply elem_of_nil_inv. intros [i row] Hin.
  apply session_rows_elem in Hin as [Hsid Hin]. simpl in *.
  apply Hrows in Hin as (ad & Had & Heq). unfold row_of_decision in Heq. simplify_eq/=.
  unfold of_session in Hnil. apply fmap_nil_inv in Hnil.
  assert (ad ∈ filter (λ ad0, session_of ad0.2 = session_of ad.2) ads) as Hf
    by (by apply list_elem_of_filter).
  unfold session_of in *. rewrite Hnil in Hf. by apply elem_of_nil in Hf.
Qed.

(** Loading gives back the state of the run, and changes nothing. *)
Lemma load_recovered amb ads d sid rs :
  recovered ads d → Forall dt_valid (timestamps (of_session sid ads)) →
  run (policy cfg) (AlertState.empty sid (machine_id cfg)) (of_session sid ads) = Ok rs →
  load_body amb sid (machine_id cfg) (Some (policy cfg)) d =
    Ok (final_state (AlertState.empty sid (machine_id cfg)) rs, d).
Proof.
  intros Hrec Hts Hrun. destruct (rec_run _ _ Hrec sid) as (rs' & Hrun' & Hst).
  rewrite Hrun in Hrun'. simplify_eq. unfold load_body.
  case_bool_decide as Hnil; rewrite Hst.
  - rewrite (session_rows_nil _ _ _ Hrec Hnil), bool_decide_eq_true_2 by done.
    rewrite Hnil in Hrun. simpl in Hrun. by simplify_eq.
  - rewrite state_from_payload_payload; [done|].
    by eapply run_dated; [| apply state_dated_empty|].
Qed.

Lemma apply_decision_Ok draws d s r s' :
  apply_decision cfg draws d s = (Ok r, s') →
  ∃ st d1 d2,
    load_body (load_ambient draws) (session_of d) (machine_id cfg) (Some (policy cfg)) (db s) = Ok (st, d1) ∧
    transition (ambient draws) st d (policy cfg) = Ok r ∧
    record_body (db_now draws) d r d1 = Ok d2 ∧ s' = set_db d2 s.
Proof.
  unfold apply_decision. intros Ha. inv_M.
  apply on_db_Ok in H2 as (d1 & Hload & ->). apply on_db_Ok in H4 as (d2 & Hrec & ->).
  apply transaction_Ok in Hload. apply update_Ok in Hrec. simpl in Hrec. eauto 10.
Qed.

Lemma NoDup_snoc_fresh {A} (l : list A) x : NoDup (l ++ [x]) → NoDup l ∧ x ∉ l.
Proof. intros Hnd. apply NoDup_app in Hnd as (? & Hx & _). set_solver. Qed.

(** One accepted decision extends the recovered stream. *)
Lemma recovered_step ads d ad r d' s s' :
  recovered ads d → db s = d → db s' = d' →
  Forall dt_valid (timestamps (of_session (session_of ad.2) ads)) →
  (ScoreDecisionV1.decision_id ad.2 ∉ (λ ad, ScoreDecisionV1.decision_id ad.2) <$> ads) →
  apply_decision cfg ad.1 ad.2 s = (Ok r, s') → recovered (ads ++ [ad]) d'.
Proof.
  intros Hrec <- <- Hts Hfresh Ha. apply apply_decision_Ok in Ha as (st & d1 & d2 & Hl & Hr & Hd2 & ->).
  destruct (rec_run _ _ Hrec (session_of ad.2)) as (rs & Hrun & _).
  rewrite (load_recovered _ _ _ _ _ Hrec Hts Hrun) in Hl. simplify_eq.
  apply record_tables in Hd2 as [Hrt Hdec].
  destruct (transition_identity _ _ _ _ _ Hr) as [Hsid Hmid].
  destruct (run_identity _ _ _ _ Hrun) as [Hsid' Hmid'].
  rewrite Hsid, Hmid, Hsid', Hmid' in Hrt. simpl in Hrt.
  assert (score_decisions (db s) !! ScoreDecisionV1.decision_id ad.2 = None) as Hnone.
  { destruct (score_decisions (db s) !! _) as [row|] eqn:E; [|done].
    apply (rec_rows _ _ Hrec) in E as (ad' & Hin & Heq). unfold row_of_decision in Heq.
    simplify_eq. destruct Hfresh. apply list_elem_of_fmap. eauto. }
  rewrite Hnone in Hdec. constructor; simpl.
  - intros sid. rewrite of_session_snoc, Hrt. case_decide as Hs.
    + subst sid. exists (rs ++ [r]). split; [by apply run_snoc|].
      rewrite lookup_insert_eq, bool_decide_eq_false_2, final_state_snoc; [done|].
      by destruct (of_session _ _).
    + destruct (rec_run _ _ Hrec sid) as (rs' & Hrun' & Hst). exists rs'. split; [done|].
      rewrite lookup_insert_ne by congruence. done.
  - intros i row. rewrite Hdec, lookup_insert_Some. rewrite (rec_rows _ _ Hrec).
    unfold row_of_decision. split.
    + intros [[<- <-]|[_ (ad' & Hin & Heq)]].
      * exists ad. split; [apply elem_of_app; right; by apply list_elem_of_singleton|done].
      * exists ad'. split; [apply elem_of_app; by left|done].
    + intros (ad' & Hin & Heq). apply elem_of_app in Hin as [Hin|Hin].
      * right. split; [|eauto]. simplify_eq. intros Heq. apply Hfresh.
        apply list_elem_of_fmap. eauto.
      * apply list_elem_of_singleton in Hin. simplify_eq. by left.
Qed.

Lemma recovered_empty : recovered [] empty_db.
Proof.
  constructor.
  - intros sid. by exists [].
  - intros i row. split; [done|]. intros (ad & Hin & _). by apply elem_of_nil in Hin.
Qed.

Definition dated (ads : list (Draws * ScoreDecisionV1.t)) : Prop :=
  Forall (λ ad, dt_valid (ScoreDecisionV1.source_timestamp ad.2)) ads.

Lemma dated_session sid ads : dated ads → Forall dt_valid (timestamps (of_session sid ads)).
Proof.
  intros Hd. unfold timestamps, of_session. rewrite !Forall_fmap. unfold dated in Hd.
  rewrite Forall_forall in *. intros ad Had. apply list_elem_of_filter in Had as [_ Had].
  by apply Hd.
Qed.

Lemma consume_recovers ads done s s' :
  recovered done (db s) → dated (done ++ ads) →
  NoDup ((λ ad, ScoreDecisionV1.decision_id ad.2) <$> done ++ ads) →
  consume ads s = (Ok (), s') → recovered (done ++ ads) (db s').
Proof.
  revert done s. induction ads as [|ad ads IH]; intros done s Hrec Hdt Hnd Hc.
  { rewrite app_nil_r. unfold consume in Hc. simpl in Hc. by inv_M. }
  unfold consume in Hc. simpl in Hc. inv_M.
  rewrite cons_middle, (assoc_L (++)) in Hdt, Hnd |- *.
  eapply IH; [|done|done|done].
  eapply recovered_step; [done|done|done| | |done].
  - apply dated_session. by apply Forall_app in Hdt as [[? ?]%Forall_app ?].
  - rewrite fmap_app in Hnd. apply NoDup_app in Hnd as (Hnd & _ & _).
    rewrite fmap_app in Hnd. by apply NoDup_snoc_fresh in Hnd as [_ Hnd].
Qed.

(** *** Reconstruction from the stored decisions *)
#[local] Instance decision_before_trans : Transitive decision_before.
Proof. intros x y z. unfold decision_before. lia. Qed.
#[local] Instance decision_before_total : Total decision_before.
Proof. intros x y. unfold decision_before. lia. Qed.

Definition row_time (kv : UUID * DecisionRow.t) : Z := DecisionRow.source_timestamp kv.2.

Lemma NoDup_ids_session sid ads :
  NoDup ((λ ad, ScoreDecisionV1.decision_id ad.2) <$> ads) → NoDup (decision_ids (of_session sid ads)).
Proof.
  intros Hnd. unfold decision_ids, of_session. rewrite <-list_fmap_compose. simpl.
  eapply (NoDup_fmap_filter (λ ad : Draws * ScoreDecisionV1.t, ScoreDecisionV1.decision_id ad.2)), Hnd.
Qed.

(** The stored rows of a session are its decisions, in the order of the stream. *)
Lemma session_rows_stream ads d sid :
  recovered ads d → NoDup ((λ ad, ScoreDecisionV1.decision_id ad.2) <$> ads) →
  session_rows d sid = (λ ad, row_of_decision ad.2) <$> of_session sid ads.
Proof.
  intros Hrec Hnd. destruct (rec_run _ _ Hrec sid) as (rs & Hrun & _).
  pose proof (NoDup_ids_session sid _ Hnd) as Hids.
  destruct (run_chronological _ _ _ _ Hrun Hids) as [Hsort _]; [done|].
  assert (StronglySorted (key_lt row_time) ((λ ad, row_of_decision ad.2) <$> of_session sid ads))
    as Hstream.
  { apply sorted_keys. rewrite <-list_fmap_compose. exact Hsort. }
  assert (session_rows d sid ≡ₚ (λ ad, row_of_decision ad.2) <$> of_session sid ads) as Hperm.
  { apply NoDup_Permutation.
    - unfold session_rows. rewrite merge_sort_Permutation. apply NoDup_filter, NoDup_map_to_list.
    - eapply (NoDup_fmap_1 fst). rewrite <-list_fmap_compose. exact Hids.
    - intros [i row]. rewrite session_rows_elem, (rec_rows _ _ Hrec), list_elem_of_fmap. simpl.
      unfold of_session, row_of_decision. split.
      + intros [Hs (ad & Hin & Heq)]. simplify_eq/=. exists (ambient ad.1, ad.2). split; [done|].
        apply list_elem_of_fmap. exists ad. split; [done|]. by apply list_elem_of_filter.
      + intros (y & Heq & Hy). apply list_elem_of_fmap in Hy as (ad & -> & Hin).
        apply list_elem_of_filter in Hin as [Hs Hin]. simplify_eq/=. eauto. }
  apply (key_sorted_unique row_time); [|done|done].
  apply merge_sort_strict; [apply _|apply _| |].
  - intros x y. unfold decision_before, row_time. lia.
  - assert (NoDup (row_time <$> session_rows d sid)) as Hk.
    { rewrite Hperm. by apply sorted_lt_NoDup, sorted_keys. }
    unfold session_rows in Hk. by rewrite merge_sort_Permutation in Hk.
Qed.

Lemma replay_rows amb s ads rs :
  run (policy cfg) s ads = Ok rs →
  Forall (λ ad, model_validate (model_dump ad.2) = Ok ad.2) ads →
  foldR (replay_row amb (policy cfg)) s ((λ ad, row_of_decision ad.2) <$> ads) = Ok (final_state s rs).
Proof.
  revert s rs. induction ads as [|ad ads IH]; intros s rs Hrun Hc; simpl in Hrun; inv_res; [done|].
  inversion Hc as [|? ? Hv Hc']; subst. cbn beta in Hv.
  unfold step_result in H2.
  assert (replay_row amb (policy cfg) s (row_of_decision ad.2) = Ok (TransitionResult.state x)) as Hrow.
  { unfold replay_row.
    change (DecisionRow.payload (row_of_decision ad.2).2) with (model_dump ad.2). rewrite Hv.
    cbn [mbind result_bind].
    destruct (fmap_same _ _ _ (transition_ambient ad.1 amb s ad.2 (policy cfg)))
      as [(r1 & r2 & E1 & E2 & Heq)|(e & E1 & E2)]; [|congruence].
    rewrite E2. rewrite H2 in E1. simplify_eq.
    simpl. congruence. }
  rewrite fmap_cons. cbn [foldR]. rewrite Hrow. cbn [mbind result_bind]. exact (IH _ _ H3 Hc').
Qed.

(** What is loaded, and what is rebuilt from the stored decisions, is the state of the run. *)
Lemma recovered_state ads dbase sid amb :
  recovered ads dbase → dated ads → NoDup ((λ ad, ScoreDecisionV1.decision_id ad.2) <$> ads) →
  Forall (λ ad : Draws * ScoreDecisionV1.t, model_validate (model_dump ad.2) = Ok ad.2) ads →
  ∃ rs, let start := AlertState.empty sid (machine_id cfg) in
    run (policy cfg) start (of_session sid ads) = Ok rs ∧
    load_alert_state amb sid (machine_id cfg) (Some (policy cfg)) dbase =
      (Ok (final_state start rs), dbase) ∧
    reconstruct_alert_state amb dbase sid (machine_id cfg) (policy cfg) = Ok (final_state start rs).
Proof.
  intros Hrec Hdated Hdistinct Hcodec. destruct (rec_run _ _ Hrec sid) as (rs & Hr & _). exists rs.
  simpl. split_and!; [done| |].
  - unfold load_alert_state, transaction. erewrite load_recovered; [done|done| |done].
    by apply dated_session.
  - unfold reconstruct_alert_state. erewrite session_rows_stream by done.
    apply replay_rows; [done|]. unfold of_session. apply Forall_fmap.
    rewrite Forall_forall in Hcodec |- *. intros ad Had.
    apply list_elem_of_filter in Had as [_ Had]. exact (Hcodec ad Had).
Qed.

(** *** Redelivery *)
Lemma transition_records amb s d pol r :
  transition amb s d pol = Ok r →
  AlertState.last_decision_id (TransitionResult.state r) = Some (ScoreDecisionV1.decision_id d).
Proof.
  intros Hr. destruct (decide (is_duplicate s d)) as [Hd|Hd].
  - unfold transition in Hr. rewrite bool_decide_eq_true_2 in Hr by done. by simplify_eq.
  - by apply (transition_last _ _ _ _ _ Hd) in Hr as [? _].
Qed.

Lemma run_last pol s ads ad rs :
  run pol s (ads ++ [ad]) = Ok rs →
  AlertState.last_decision_id (final_state s rs) = Some (ScoreDecisionV1.decision_id ad.2).
Proof.
  revert s rs. induction ads as [|ad' ads IH]; intros s rs Hrun; simpl in Hrun; inv_res; simpl; [|eauto].
  unfold step_result in H2. by eapply transition_records.
Qed.

Lemma apply_decision_good draws d s r s' :
  apply_decision cfg draws d s = (Ok r, s') → db_good (db s) → db_good (db s').
Proof.
  intros Ha Hg. unfold apply_decision in Ha. inv_M.
  apply on_db_Ok in H2 as (d1 & Hload & ->). apply on_db_Ok in H4 as (d2 & Hrec & ->). simpl.
  pose proof (preserves_load (load_ambient draws) (ScoreDecisionV1.replay_session_id d)
    (machine_id cfg) (Some (policy cfg)) (db s) Hg) as Hg1. rewrite Hload in Hg1.
  match type of Hrec with record_decision_transition ?n ?e ?r ?d0 = _ =>
    pose proof (preserves_record n e r d0 Hg1) as Hg2 end.
  by rewrite Hrec in Hg2.
Qed.

Lemma consume_good ads s s' : consume ads s = (Ok (), s') → db_good (db s) → db_good (db s').
Proof.
  revert s. induction ads as [|ad ads IH]; intros s Hc Hg; unfold consume in Hc; simpl in Hc; inv_M;
    [done|]. eapply IH; [done|]. by eapply apply_decision_good.
Qed.

(** Recording the state that is already stored, for a decision already stored,
    leaves the database as it is. *)
Lemma record_again now d st dbase row :
  db_ok dbase →
  score_decisions dbase !! ScoreDecisionV1.decision_id d = Some row →
  DecisionRow.replay_session_id row = session_of d →
  AlertState.replay_session_id st = session_of d →
  alert_runtime_states dbase !! (session_of d, AlertState.machine_id st) = Some (state_payload st) →
  record_body now d (TransitionResult.mk st None None) dbase = Ok dbase.
Proof.
  intros Hok Hrow Hsid Hst Hrt.
  destruct (decision_session _ Hok _ _ Hrow) as [ses Hses]. rewrite Hsid in Hses.
  unfold record_body, ensure_session_exists, insert_decision, persist_event, upsert_runtime_state.
  unfold session_of in *. rewrite Hses, Hrow. simpl. rewrite Hst. unfold references.
  rewrite Hses. rewrite bool_decide_eq_true_2 by eauto. simpl. unfold set_runtime.
  rewrite insert_id by done. by destruct dbase.
Qed.

Lemma redelivered ads ad sid before draws s :
  recovered ads (db s) → db_ok (db s) → dated ads →
  of_session sid ads = before ++ [(ambient ad.1, ad.2)] → ad ∈ ads → session_of ad.2 = sid →
  ∃ r, apply_decision cfg draws ad.2 s = (Ok r, s) ∧ TransitionResult.event r = None.
Proof.
  intros Hrec Hok Hdt Hlast Hin Hsid. subst sid.
  destruct (rec_run _ _ Hrec (session_of ad.2)) as (rs & Hrun & Hst).
  rewrite bool_decide_eq_false_2 in Hst by (rewrite Hlast; by destruct before).
  set (F := final_state (AlertState.empty (session_of ad.2) (machine_id cfg)) rs) in *.
  exists (TransitionResult.mk F None None). split; [|done].
  assert (load_body (load_ambient draws) (session_of ad.2) (machine_id cfg) (Some (policy cfg)) (db s)
    = Ok (F, db s)) as Hload by (by eapply load_recovered; [|apply dated_session|]).
  assert (transition (ambient draws) F ad.2 (policy cfg) = Ok (TransitionResult.mk F None None)) as Htr.
  { unfold transition. rewrite bool_decide_eq_true_2; [done|].
    rewrite Hlast in Hrun. exact (run_last _ _ _ _ _ Hrun). }
  destruct (run_identity _ _ _ _ Hrun) as [Hs Hm]. fold F in Hs, Hm. simpl in Hs, Hm.
  assert (record_body (db_now draws) ad.2 (TransitionResult.mk F None None) (db s) = Ok (db s)) as Hrb.
  { eapply record_again; [done| | |done|by rewrite Hm].
    - apply (rec_rows _ _ Hrec). exists ad. done.
    - done. }
  unfold apply_decision, mbind, M_bind, on_db, load_alert_state, transaction.
  unfold session_of in Hload. rewrite Hload. unfold lift_res. rewrite Htr. simpl.
  unfold record_decision_transition, update, transaction. rewrite Hrb. simpl.
  by destruct s.
Qed.
End Recovery.
