(* ===== verification/ConsumerRestart.v ===== *)
(** * The alert consumer under crashes, restarts and failures

    What one record and one batch do whatever happens to the calls, the life of
    the service on the log of a partition as a list of turns, the consumer that
    is never stopped as the reference, the invariants that tie the two, and which
    records the commits pass. *)

From S2P Require Import Prelude PyText PyUuid PyTime PyFloat PyHash PyJson.
From S2P Require Import Messages KafkaIo AlertPolicy AlertState AlertTheory.
From S2P Require Import StateCodec Tables Store StoreTheory StoreProps AlertConsumer ConsumerTheory.

(** ** Commits *)
Section Commits.
Context `{JsonModel ScoreDecisionV1.t, JsonModel AlertEventV1.t, JsonModel EvidenceSnapshotV1.t,
          JsonModel ReplayStatusV1.t, JsonModel QuarantineRecordV1.t}.
Context (validate : bytes → result ScoreDecisionV1.t) (error_text : exn → string)
        (io : nat → option exn) (cfg : Config).

(** A record is processed without touching the committed offsets. *)
Section Uncommitted.
Variable c : gmap TopicPartition Z.
Definition uncommitted (s : CState) : Prop := committed s = c.

Lemma keeps_on_db {A} (m : M DB A) : keeps uncommitted (on_db m).
Proof. intros s Hs. unfold on_db. by destruct (m (db s)). Qed.
Lemma keeps_send msg : keeps uncommitted (send_and_wait io msg).
Proof.
  unfold send_and_wait. apply keeps_bind; [|intros _; by apply keeps_modify].
  intros s Hs. unfold next_call. by destruct (io (calls s)).
Qed.
Lemma keeps_add_failed sid : keeps uncommitted (modify (add_failed sid)).
Proof. by apply keeps_modify. Qed.

Lemma keeps_process draws record : keeps uncommitted (process validate error_text io cfg draws record).
Proof.
  pose proof @keeps_on_db. pose proof keeps_send. pose proof keeps_add_failed.
  unfold process, publish_quarantine, fail_session, apply_decision. keeps_all.
Qed.
End Uncommitted.

(** The records a partition's loop got through: each processed and committed. *)
Inductive handled (tp : TopicPartition)
  : list (Draws * KafkaRecord) → CState → CState → Prop :=
| handled_nil s : handled tp [] s s
| handled_cons d r ms o s s1 s2 s3 :
    process validate error_text io cfg d r s = (Ok o, s1) → o ≠ SESSION_FAILED →
    commit io tp (roffset r + 1) s1 = (Ok (), s2) →
    handled tp ms s2 s3 → handled tp ((d, r) :: ms) s s3.

(** How the record at which the loop stopped failed. *)
Definition stopped_at (tp : TopicPartition) (dr : Draws * KafkaRecord) (s : CState)
    (res : result bool) : Prop :=
  match res with
  | Ok _ => (process validate error_text io cfg dr.1 dr.2 s).1 = Ok SESSION_FAILED
  | Err e => (process validate error_text io cfg dr.1 dr.2 s).1 = Err e ∨
      ∃ o s1, process validate error_text io cfg dr.1 dr.2 s = (Ok o, s1) ∧ o ≠ SESSION_FAILED ∧
        (commit io tp (roffset dr.2 + 1) s1).1 = Err e
  end.

Definition last_offset (tp : TopicPartition) (done : list (Draws * KafkaRecord))
    (c : gmap TopicPartition Z) : gmap TopicPartition Z :=
  match last done with Some (_, r) => <[tp := roffset r + 1]> c | None => c end.

Lemma commit_committed tp o s u s' :
  commit io tp o s = (Ok u, s') → committed s' = <[tp := o]> (committed s).
Proof.
  unfold commit, next_call, modify, mbind, M_bind. destruct (io (calls s)); [done|].
  intros [= _ <-]. done.
Qed.

Lemma commit_fails tp o s e s' : commit io tp o s = (Err e, s') → committed s' = committed s.
Proof.
  unfold commit, next_call, modify, mbind, M_bind. destruct (io (calls s)); [|done].
  by intros [= _ <-].
Qed.

Lemma partition_spec tp ms s res s' :
  process_partition validate error_text io cfg tp ms s = (res, s') →
  ∃ done rest s1, ms = done ++ rest ∧ handled tp done s s1 ∧
    committed s' = last_offset tp done (committed s) ∧
    match rest with
    | [] => res = Ok false
    | dr :: _ => res ≠ Ok false ∧ stopped_at tp dr s1 res
    end.
Proof.
  revert s. induction ms as [|[d r] ms IH]; intros s Hp; simpl in Hp.
  { unfold mret, M_ret in Hp. simplify_eq. exists [], [], s'. split_and!; try done. constructor. }
  rewrite M_bind_run in Hp. pose proof (keeps_process (committed s) d r s eq_refl) as Hk.
  unfold uncommitted in Hk.
  destruct (process _ _ _ _ d r s) as [[o|e] s1] eqn:Hproc; simpl in Hk.
  2:{ simplify_eq. exists [], ((d, r) :: ms), s. split_and!; try done; [constructor|].
      left. simpl. by rewrite Hproc. }
  case_bool_decide as Ho.
  { unfold mret, M_ret in Hp. simplify_eq. exists [], ((d, r) :: ms), s.
    split_and!; try done; [constructor|]. simpl. by rewrite Hproc. }
  rewrite M_bind_run in Hp.
  destruct (commit io tp (roffset r + 1) s1) as [[[]|e] s2] eqn:Hc.
  - destruct (IH _ Hp) as (done & rest & s3 & -> & Hh & Hcom & Hrest).
    exists ((d, r) :: done), rest, s3. split_and!; try done; [by econstructor|].
    rewrite Hcom. apply commit_committed in Hc. rewrite Hc, Hk. unfold last_offset.
    destruct done as [|x done]; [done|]. rewrite last_cons_cons.
    destruct (last (x :: done)) as [[]|] eqn:E; [by rewrite insert_insert_eq|].
    by apply last_None in E.
  - simplify_eq. exists [], ((d, r) :: ms), s. split_and!; try done; [constructor| |].
    + apply commit_fails in Hc. by rewrite Hc.
    + right. simpl. rewrite Hproc. eexists _, _. split_and!; [done..|]. by rewrite Hc.
Qed.
End Commits.

(** ** One record, whatever happens to the calls *)
Section Records.
Context `{JsonModel ScoreDecisionV1.t, JsonModel AlertEventV1.t, JsonModel EvidenceSnapshotV1.t,
          JsonModel ReplayStatusV1.t, JsonModel QuarantineRecordV1.t}.
Variable validate : bytes → result ScoreDecisionV1.t.
Variable error_text : exn → string.
Variable cfg : Config.
Abbreviation proc io := (process validate error_text io cfg).

(** Two databases that differ in the rows of [replay_sessions] at most *)
Definition but_sessions (d d' : DB) : Prop := ∃ f, d' = set_sessions f d.

Lemma but_sessions_refl d : but_sessions d d.
Proof. exists id. by destruct d. Qed.
Lemma but_sessions_trans d1 d2 d3 : but_sessions d1 d2 → but_sessions d2 d3 → but_sessions d1 d3.
Proof. intros [f ->] [g ->]. by exists (g ∘ f). Qed.

(** A decision of another data set, contract or model *)
Definition foreign (r : KafkaRecord) : Prop :=
  ∃ d e, decode_message validate (rvalue r) = Ok d ∧ assert_identity cfg d = Err e.

Lemma identity_error d e : assert_identity cfg d = Err e → is_value_error e = true.
Proof. unfold assert_identity, guard_exn. intros E. repeat (case_match; simpl in E; simplify_eq); done. Qed.

Lemma next_call_same io s :
  let s' := (next_call io s).2 in
  db s' = db s ∧ failed_sessions s' = failed_sessions s ∧ sent s' = sent s.
Proof. unfold next_call. by destruct (io (calls s)). Qed.

(** Sending changes nothing but the list of what was sent. *)
Lemma send_effect io msg s :
  let out := send_and_wait io msg s in
  db out.2 = db s ∧ failed_sessions out.2 = failed_sessions s ∧
  sent out.2 = sent s ++ (if is_ok out.1 then [msg] else []).
Proof.
  unfold send_and_wait. rewrite M_bind_run. unfold next_call, modify.
  destruct (io (calls s)); simpl; [by rewrite app_nil_r|done].
Qed.

Lemma publish_quarantine_effect io d r e s :
  let out := publish_quarantine error_text io cfg d r e s in
  db out.2 = db s ∧ failed_sessions out.2 = failed_sessions s ∧ ∃ new, sent out.2 = sent s ++ new.
Proof.
  unfold publish_quarantine. destruct (negb _); [split_and!; [done..|]; exists []; by rewrite app_nil_r|].
  rewrite M_bind_run. unfold lift_res. destruct (QuarantineRecordV1.make _ _ _ _ _ _ _ _ _ _ _ _);
    [|split_and!; [done..|]; exists []; by rewrite app_nil_r].
  rewrite M_bind_run. destruct (encode_message _); [|split_and!; [done..|]; exists []; by rewrite app_nil_r].
  match goal with |- context [send_and_wait io ?m s] => destruct (send_effect io m s) as (? & ? & ?) end. eauto.
Qed.

(** A failed session: its row, at most, and the status. *)
Lemma fail_session_effect io d sid ts code s :
  let out := fail_session io cfg d sid ts code s in
  but_sessions (db s) (db out.2) ∧ ∃ new, sent out.2 = sent s ++ new.
Proof.
  unfold fail_session. rewrite M_bind_run. unfold modify. rewrite M_bind_run. unfold lift_res.
  assert (∀ s', but_sessions (db s) (db (add_failed sid s)) ∧ (s' = s → ∃ new, sent (add_failed sid s) = sent s ++ new)) as Hnone.
  { intros s'. split; [apply but_sessions_refl|]. exists []. by rewrite app_nil_r. }
  destruct (ReplayStatusV1.make _ _ _ _ _ _ _ _ _) as [st|e]; [|by destruct (Hnone s); eauto].
  rewrite M_bind_run. unfold on_db, record_replay_status, update, transaction. cbv zeta. cbn [mbind result_bind].
  set (s1 := set_db _ _).
  assert (but_sessions (db s) (db s1) ∧ sent s1 = sent s) as [Hdb Hsent] by (split; [by eexists|done]).
  unfold whenM. destruct (has_producer cfg).
  2:{ split; [exact Hdb|]. exists []. by rewrite app_nil_r. }
  rewrite M_bind_run. destruct (encode_message st) as [v|e].
  2:{ split; [exact Hdb|]. exists []. by rewrite app_nil_r. }
  match goal with |- context [send_and_wait io ?m s1] => destruct (send_effect io m s1) as (-> & _ & ->) end.
  split; [exact Hdb|]. rewrite Hsent. by eexists.
Qed.

(** Applying a decision looks at the database alone. *)
Lemma apply_decision_db d dec s s' :
  db s = db s' →
  (apply_decision cfg d dec s').1 = (apply_decision cfg d dec s).1 ∧
  (apply_decision cfg d dec s).2 = set_db (db (apply_decision cfg d dec s).2) s ∧
  (apply_decision cfg d dec s').2 = set_db (db (apply_decision cfg d dec s).2) s'.
Proof.
  intros Hdb. unfold apply_decision. rewrite !M_bind_run. unfold on_db. rewrite <-Hdb.
  destruct (load_alert_state _ _ _ _ (db s)) as [[st|e] d1]; [|by simpl].
  rewrite !M_bind_run. unfold lift_res. destruct (transition _ _ _ _) as [r|e]; [|by simpl].
  rewrite !M_bind_run. simpl. by destruct (record_decision_transition _ _ _ d1) as [[u|e] d2].
Qed.

Lemma load_alert_state_recovered amb ads dbase sid :
  recovered cfg ads dbase → dated ads →
  ∃ rs, run (policy cfg) (AlertState.empty sid (machine_id cfg)) (of_session sid ads) = Ok rs ∧
    load_alert_state amb sid (machine_id cfg) (Some (policy cfg)) dbase =
      (Ok (final_state (AlertState.empty sid (machine_id cfg)) rs), dbase).
Proof.
  intros Hrec Hd. destruct (rec_run _ _ _ Hrec sid) as (rs & Hr & _). exists rs. split; [done|].
  unfold load_alert_state, transaction. erewrite load_recovered; [done|done|by apply dated_session|done].
Qed.

(** An exception while a decision is applied leaves the database as it was. *)
Lemma apply_decision_Err ads d dec s e s' :
  recovered cfg ads (db s) → dated ads → apply_decision cfg d dec s = (Err e, s') → db s' = db s.
Proof.
  intros Hrec Hd E. unfold apply_decision in E. rewrite M_bind_run in E. unfold on_db in E.
  destruct (load_alert_state_recovered (load_ambient d) ads (db s) (ScoreDecisionV1.replay_session_id dec) Hrec Hd)
    as (rs & _ & Hl). rewrite Hl in E. rewrite M_bind_run in E. unfold lift_res in E.
  destruct (transition _ _ _ _) as [r|x]; [|by simplify_eq]. rewrite M_bind_run in E. simpl in E.
  unfold record_decision_transition, update, transaction in E. destruct (record_body _ _ _ _) as [d2|x]; simpl in E; by simplify_eq.
Qed.

Lemma process_foreign io d r s res s' :
  foreign r → failed_sessions s = ∅ → proc io d r s = (res, s') →
  (∀ o, res = Ok o → o = SESSION_FAILED) ∧ but_sessions (db s) (db s') ∧ ∃ new, sent s' = sent s ++ new.
Proof.
  intros (dec & e & Hdec & Hid) Hf E. unfold process in E. rewrite Hdec, M_bind_run in E. unfold gets in E.
  rewrite Hf, bool_decide_eq_false_2 in E by set_solver. rewrite Hid, (identity_error _ _ Hid), M_bind_run in E.
  match type of E with context [fail_session io cfg d ?sid ?ts ?c s] =>
    destruct (fail_session_effect io d sid ts c s) as [Hdb Hs] end.
  destruct (fail_session _ _ _ _ _ _ _) as [[[]|x] s1]; simpl in *; unfold mret, M_ret in E; simplify_eq;
    (split; [|done]); [by intros o [= <-]|done].
Qed.

Lemma process_malformed io d r e s res s' :
  decode_message validate (rvalue r) = Err e → proc io d r s = (res, s') →
  (∀ o, res = Ok o → o = QUARANTINED) ∧ db s' = db s ∧ failed_sessions s' = failed_sessions s ∧
  ∃ new, sent s' = sent s ++ new.
Proof.
  intros Hdec E. unfold process in E. rewrite Hdec, M_bind_run in E.
  destruct (publish_quarantine_effect io d r e s) as (Hdb & Hf & Hs).
  destruct (publish_quarantine _ _ _ _ _ _ _) as [[[]|x] s1]; simpl in *; unfold mret, M_ret in E; simplify_eq;
    (split; [|done]); [by intros o [= <-]|done].
Qed.

(** The same record with a broker that answers: the same message goes out. *)
Lemma process_malformed_again io d r e s s' s0 o :
  decode_message validate (rvalue r) = Err e → proc io d r s = (Ok o, s') →
  ∃ s1 new, proc (λ _, None) d r s0 = (Ok o, s1) ∧ db s1 = db s0 ∧ failed_sessions s1 = failed_sessions s0 ∧
    sent s' = sent s ++ new ∧ sent s1 = sent s0 ++ new.
Proof.
  intros Hdec E. unfold process in *. rewrite Hdec, M_bind_run in *. unfold publish_quarantine in *.
  destruct (negb (has_producer cfg)); [done|]. rewrite M_bind_run in *. unfold lift_res in *.
  destruct (QuarantineRecordV1.make _ _ _ _ _ _ _ _ _ _ _ _) as [q|]; [|done]. rewrite M_bind_run in *.
  destruct (encode_message q) as [v|]; [|done].
  unfold send_and_wait in *. rewrite M_bind_run in *. unfold next_call, modify, mret, M_ret in *.
  destruct (io (calls s)); [done|]. simpl in *. simplify_eq. eexists _, _. by split_and!.
Qed.

Lemma process_deployed io d r dec s :
  decode_message validate (rvalue r) = Ok dec → assert_identity cfg dec = Ok () → failed_sessions s = ∅ →
  proc io d r s =
    match apply_decision cfg d dec s with
    | (Ok _, s') => (Ok COMMITTED, s')
    | (Err e, s') => (Err e, s')
    end.
Proof.
  intros Hdec Hid Hf. unfold process. rewrite Hdec, M_bind_run. unfold gets.
  rewrite Hf, bool_decide_eq_false_2 by set_solver. rewrite Hid, M_bind_run. by destruct (apply_decision _ _ _ _) as [[]].
Qed.
End Records.

(** ** The life of the service on the log of a partition *)

(** What can happen to the service: it polls (with the fresh values of the records
    the poll returns, at most as many as there are values), it is stopped or
    crashes during a batch, and it is started. *)
Inductive Turn :=
  | Polled (ds : list Draws)
  | Interrupted (k : nat) (ds : list Draws)
  | Restarted.

(** The offset a position or a commit stands at; without one the consumer starts
    with the first record. *)
Definition offset_at (tp : TopicPartition) (m : gmap TopicPartition Z) : Z := default 0 (m !! tp).

Section Turns.
Context `{JsonModel ScoreDecisionV1.t, JsonModel AlertEventV1.t, JsonModel EvidenceSnapshotV1.t,
          JsonModel ReplayStatusV1.t, JsonModel QuarantineRecordV1.t}.
Variable validate : bytes → result ScoreDecisionV1.t.
Variable error_text : exn → string.
Variable io : nat → option exn.
Variable cfg : Config.
Variable tp : TopicPartition.
Variable log : list KafkaRecord.

(** The records a poll returns, from the position on. *)
Definition fetched (ds : list Draws) (s : Service) : list (Draws * KafkaRecord) :=
  zip ds (drop (Z.to_nat (offset_at tp (position s))) log).

Definition turn (s : Service) (t : Turn) : Service :=
  match t with
  | Polled ds => consumer_step validate error_text io cfg [(tp, fetched ds s)] s
  | Interrupted k ds => interrupted_step validate error_text io cfg k [(tp, fetched ds s)] s
  | Restarted => restart s
  end.

Definition serve (s : Service) (ts : list Turn) : Service := foldl turn s ts.

(** No exception was swallowed: each batch that was not interrupted ended. *)
Definition turn_clean (s : Service) (t : Turn) : Prop :=
  match t with
  | Polled ds => running s = true →
      is_ok (process_partition validate error_text io cfg tp (fetched ds s) (consumer s)).1 = true
  | _ => True
  end.

Fixpoint clean (s : Service) (ts : list Turn) : Prop :=
  match ts with
  | [] => True
  | t :: ts => turn_clean s t ∧ clean (turn s t) ts
  end.

Lemma fetched_prefix ds s :
  (fetched ds s).*2 `prefix_of` drop (Z.to_nat (offset_at tp (position s))) log.
Proof.
  unfold fetched. generalize (drop (Z.to_nat (offset_at tp (position s))) log). clear.
  induction ds as [|d ds IH]; intros [|r l]; simpl; try apply prefix_nil. by apply prefix_cons.
Qed.

Lemma batch_one ms s :
  process_consumer_batch validate error_text io cfg [(tp, ms)] s =
  match process_partition validate error_text io cfg tp ms s with
  | (Ok h, s') => (Ok h, s')
  | (Err e, s') => (Err e, s')
  end.
Proof. simpl. rewrite M_bind_run. by destruct (process_partition _ _ _ _ _ _ _) as [[[]|] ?]. Qed.
End Turns.

(** ** The consumer that is never stopped *)
Section Reference.
Context `{JsonModel ScoreDecisionV1.t, JsonModel AlertEventV1.t, JsonModel EvidenceSnapshotV1.t,
          JsonModel ReplayStatusV1.t, JsonModel QuarantineRecordV1.t}.
Variable validate : bytes → result ScoreDecisionV1.t.
Variable error_text : exn → string.
Variable cfg : Config.
Variable tp : TopicPartition.
Variable log : list KafkaRecord.

Definition decoded (r : KafkaRecord) : option ScoreDecisionV1.t :=
  match decode_message validate (rvalue r) with Ok d => Some d | Err _ => None end.
Definition decoded_record (dr : Draws * KafkaRecord) : option (Draws * ScoreDecisionV1.t) :=
  pair dr.1 <$> decoded dr.2.
(** The decisions among the records, with the fresh values used for them. *)
Definition accepted (drs : list (Draws * KafkaRecord)) : list (Draws * ScoreDecisionV1.t) :=
  omap decoded_record drs.

Definition new_consumer : CState := mkC empty_db ∅ [] 0 ∅.

(** What the records make of a new database, in one run and with a broker that answers. *)
Definition uninterrupted (drs : list (Draws * KafkaRecord)) : result bool * CState :=
  process_partition validate error_text (λ _, None) cfg tp drs new_consumer.

Lemma accepted_snoc drs dr :
  accepted (drs ++ [dr]) = accepted drs ++ option_list (decoded_record dr).
Proof. unfold accepted. rewrite omap_app. simpl. by destruct (decoded_record dr). Qed.

Lemma accepted_decisions drs : (accepted drs).*2 = omap decoded (drs.*2).
Proof.
  unfold accepted. induction drs as [|[d r] drs IH]; [done|]. csimpl. rewrite <-IH.
  unfold decoded_record at 1. simpl. by destruct (decoded r).
Qed.

Lemma partition_snoc io drs d r s :
  process_partition validate error_text io cfg tp (drs ++ [(d, r)]) s =
  match process_partition validate error_text io cfg tp drs s with
  | (Ok false, s1) => process_partition validate error_text io cfg tp [(d, r)] s1
  | out => out
  end.
Proof.
  revert s. induction drs as [|[d' r'] drs IH]; intros s; [done|]. cbn [app].
  cbn [process_partition]. rewrite !M_bind_run.
  destruct (process _ _ _ _ d' r' s) as [[o|e] s1]; [|done]. case_bool_decide; [done|].
  rewrite !M_bind_run. destruct (commit _ _ _ _) as [[[]|e] s2]; [|done]. apply IH.
Qed.

Lemma partition_one d r s o s1 :
  process validate error_text (λ _, None) cfg d r s = (Ok o, s1) → o ≠ SESSION_FAILED →
  ∃ s2, process_partition validate error_text (λ _, None) cfg tp [(d, r)] s = (Ok false, s2) ∧
    db s2 = db s1 ∧ failed_sessions s2 = failed_sessions s1 ∧ sent s2 = sent s1.
Proof.
  intros Hp Ho. simpl. rewrite M_bind_run, Hp, bool_decide_eq_false_2 by done.
  rewrite M_bind_run. unfold commit. rewrite M_bind_run. simpl. eexists. by split_and!.
Qed.

(** The records of a stream that can be consumed to its end. *)
Definition deployed (r : KafkaRecord) : Prop :=
  ∀ d, decoded r = Some d → assert_identity cfg d = Ok ().

Definition decisions_ok (rs : list KafkaRecord) : Prop :=
  Forall (λ d, dt_valid (ScoreDecisionV1.source_timestamp d)) (omap decoded rs) ∧
  NoDup (ScoreDecisionV1.decision_id <$> omap decoded rs).

Lemma decisions_ok_prefix rs rs' : rs `prefix_of` rs' → decisions_ok rs' → decisions_ok rs.
Proof.
  intros [l ->] [Hd Hn]. rewrite omap_app in Hd, Hn. rewrite fmap_app in Hn.
  split; [by apply Forall_app in Hd as [? _]|by apply NoDup_app in Hn as (? & _)].
Qed.

Lemma decisions_ok_accepted drs : decisions_ok (drs.*2) →
  dated (accepted drs) ∧ NoDup ((λ ad, ScoreDecisionV1.decision_id ad.2) <$> accepted drs).
Proof.
  intros [Hd Hn]. rewrite <-accepted_decisions in Hd, Hn. rewrite <-list_fmap_compose in Hn. split; [|done].
  unfold dated. rewrite Forall_fmap in Hd. done.
Qed.

Lemma decoded_Some r d : decoded r = Some d ↔ decode_message validate (rvalue r) = Ok d.
Proof. unfold decoded. destruct (decode_message _ _); naive_solver. Qed.

(** A prefix that is consumed to its end. *)
Record reached (drs : list (Draws * KafkaRecord)) (u : CState) : Prop := {
  rch_run : uninterrupted drs = (Ok false, u);
  rch_recovered : recovered cfg (accepted drs) (db u);
  rch_good : db_good (db u);
  rch_failed : failed_sessions u = ∅;
  rch_deployed : Forall (λ dr, deployed dr.2) drs
}.

Lemma reached_nil : reached [] new_consumer.
Proof.
  constructor; [done|apply recovered_empty| |done|constructor].
  split; [exact db_ok_empty|exact outbox_ok_empty].
Qed.

(** One more record with the broker answering. *)
Lemma reached_snoc drs u d r o u1 :
  reached drs u → decisions_ok ((drs ++ [(d, r)]).*2) →
  process validate error_text (λ _, None) cfg d r u = (Ok o, u1) → o ≠ SESSION_FAILED →
  ∃ u2, reached (drs ++ [(d, r)]) u2 ∧ db u2 = db u1 ∧ sent u2 = sent u1.
Proof.
  intros [Hrun Hrec Hgood Hf Hdep] Hok Hp Ho.
  destruct (partition_one _ _ _ _ _ Hp Ho) as (u2 & Hpart & Hdb & Hf2 & Hs2).
  exists u2. split; [|done]. pose proof (decisions_ok_accepted _ Hok) as [Hdated Hnd].
  assert (uninterrupted (drs ++ [(d, r)]) = (Ok false, u2)) as Hun.
  { unfold uninterrupted in *. by rewrite partition_snoc, Hrun, Hpart. }
  rewrite accepted_snoc in Hdated, Hnd.
  destruct (decode_message validate (rvalue r)) as [dec|e] eqn:Hdec.
  - assert (decoded r = Some dec) as Hde by by apply decoded_Some.
    assert (decoded_record (d, r) = Some (d, dec)) as Hdr by (unfold decoded_record; simpl; by rewrite Hde).
    rewrite Hdr in Hdated, Hnd. simpl in Hdated, Hnd.
    destruct (assert_identity cfg dec) as [[]|e] eqn:Hid.
    2:{ exfalso. apply Ho. eapply (process_foreign validate error_text cfg (λ _, None) d r u (Ok o) u1); [|done..|done].
        by exists dec, e. }
    rewrite (process_deployed validate error_text cfg _ _ _ _ _ Hdec Hid Hf) in Hp.
    destruct (apply_decision cfg d dec u) as [[tr|x] u3] eqn:Ha; [|done]. simplify_eq.
    destruct (apply_decision_db cfg d dec u u eq_refl) as (_ & Heq & _). rewrite Ha in Heq. simpl in Heq.
    constructor; [done| | | |].
    + rewrite Hdb, accepted_snoc, Hdr. simpl.
      eapply (recovered_step cfg (accepted drs) (db u) (d, dec) tr (db u1) u u1); [done..| | |exact Ha].
      * apply dated_session. by apply Forall_app in Hdated as [? _].
      * rewrite fmap_app in Hnd. by apply NoDup_snoc_fresh in Hnd as [_ ?].
    + rewrite Hdb. by eapply apply_decision_good.
    + rewrite Hf2, Heq. done.
    + apply Forall_app. split; [done|]. constructor; [|constructor]. intros dec' Hd'. simpl in Hd'.
      by simplify_eq.
  - destruct (process_malformed validate error_text cfg _ _ _ _ _ _ _ Hdec Hp) as (_ & Hdb1 & Hf1 & _).
    assert (decoded r = None) as Hde by (unfold decoded; by rewrite Hdec).
    constructor; [done| | | |].
    + rewrite Hdb, Hdb1, accepted_snoc. unfold decoded_record. simpl. rewrite Hde. simpl. by rewrite app_nil_r.
    + by rewrite Hdb, Hdb1.
    + by rewrite Hf2, Hf1.
    + apply Forall_app. split; [done|]. constructor; [|constructor]. intros dec' Hd'. simpl in Hd'. by simplify_eq.
Qed.

(** ** A consumer with [k] records committed *)

(** It is where the never-stopped one is after [k] records or after one more, but for
    what it sent again and for the row of a session whose record it stopped at. *)
Definition upto (k : nat) (c : CState) : Prop :=
  ∃ drs u, drs.*2 `prefix_of` log ∧ reached drs u ∧ (k ≤ length drs ≤ S k)%nat ∧
    sent u `sublist_of` sent c ∧
    (db c = db u ∨ length drs = k ∧ but_sessions (db u) (db c) ∧
       ∃ r, log !! k = Some r ∧ foreign validate cfg r).

Lemma upto_exact k c drs u :
  drs.*2 `prefix_of` log → reached drs u → length drs = S k → sent u `sublist_of` sent c → db c = db u →
  upto k c ∧ upto (S k) c.
Proof. intros Hp Hr Hl Hs Hdb. split; exists drs, u; (split_and!; [done|done|lia|lia|done|by left]). Qed.

Lemma upto_sent k c new d f n m : upto k c → d = db c → upto k (mkC d f (sent c ++ new) n m).
Proof.
  intros (drs & u & Hp & Hr & Hl & Hs & Hdb) ->. exists drs, u. split_and!; [done|done|lia|lia| |done].
  simpl. by apply sublist_inserts_r.
Qed.

Lemma upto_ext k c c' : upto k c → db c' = db c → (∃ new, sent c' = sent c ++ new) → upto k c'.
Proof.
  intros Hu Hdb [new Hs]. pose proof (upto_sent k c new (db c') (failed_sessions c') (calls c') (committed c') Hu Hdb) as Hx.
  rewrite <-Hs in Hx. by destruct c'.
Qed.

Lemma not_foreign r d : decode_message validate (rvalue r) = Ok d → assert_identity cfg d = Ok () → ¬ foreign validate cfg r.
Proof. intros Hd Hi (d' & e & Hd' & He). congruence. Qed.

Lemma prefix_take {A} (l l' : list A) : l `prefix_of` l' → l = take (length l) l'.
Proof. intros [k ->]. by rewrite take_app_length. Qed.

Lemma prefix_snoc {A} (l l' : list A) x : l `prefix_of` l' → l' !! length l = Some x → l ++ [x] `prefix_of` l'.
Proof.
  intros [k ->] Hx. rewrite lookup_app_r, Nat.sub_diag in Hx by done. destruct k as [|y k]; [done|].
  simpl in Hx. simplify_eq. exists k. by rewrite <-(assoc_L (++)).
Qed.

Section Committed.
Variable io : nat → option exn.
Hypothesis log_ok : decisions_ok log.

Lemma extend drs u k d r o u1 :
  drs.*2 `prefix_of` log → reached drs u → length drs = k → log !! k = Some r →
  process validate error_text (λ _, None) cfg d r u = (Ok o, u1) → o ≠ SESSION_FAILED →
  ∃ u2, (drs ++ [(d, r)]).*2 `prefix_of` log ∧ reached (drs ++ [(d, r)]) u2 ∧
    length (drs ++ [(d, r)]) = S k ∧ db u2 = db u1 ∧ sent u2 = sent u1.
Proof.
  intros Hpre Hreach Hl Hr Hp Ho.
  assert ((drs ++ [(d, r)]).*2 `prefix_of` log) as Hpre'.
  { rewrite fmap_app. simpl. apply prefix_snoc; [done|]. by rewrite length_fmap, Hl. }
  destruct (reached_snoc drs u d r o u1) as (u2 & Hr2 & Hdb & Hs); [done| |done|done|].
  { by eapply decisions_ok_prefix. }
  exists u2. split_and!; [done..| |done|done]. rewrite length_app. simpl. lia.
Qed.

Lemma upto_malformed k c d r e res c1 :
  upto k c → log !! k = Some r → decode_message validate (rvalue r) = Err e →
  process validate error_text io cfg d r c = (res, c1) →
  upto k c1 ∧ failed_sessions c1 = failed_sessions c ∧ ∀ o, res = Ok o → upto (S k) c1.
Proof.
  intros Hup Hr Hdec Hp.
  destruct (process_malformed validate error_text cfg _ _ _ _ _ _ _ Hdec Hp) as (_ & Hdb1 & Hf1 & new & Hs1).
  split_and!; [by eapply upto_ext; eauto|done|]. intros o ->.
  destruct Hup as (drs & u & Hpre & Hreach & Hlen & Hsent & Hdb).
  assert (db c = db u) as Hdbu.
  { destruct Hdb as [?|(_ & _ & r' & Hr' & dec & e' & Hdec' & _)]; [done|]. congruence. }
  destruct (decide (length drs = k)) as [Hk|Hk].
  - destruct (process_malformed_again validate error_text cfg _ _ _ _ _ _ u _ Hdec Hp)
      as (u1 & new' & Hpu & Hdu & _ & Hsc & Hsu).
    assert (o = QUARANTINED) as ->
      by by eapply (process_malformed validate error_text cfg _ _ _ _ _ _ _ Hdec Hp).
    destruct (extend drs u k d r _ u1 Hpre Hreach Hk Hr Hpu) as (u2 & Hp2 & Hr2 & Hl2 & Hdb2 & Hs2); [done|].
    apply (upto_exact k c1 (drs ++ [(d, r)]) u2); [done..| |congruence].
    rewrite Hs2, Hsu, Hsc. by apply sublist_app.
  - apply (upto_exact k c1 drs u); [done|done|lia| |congruence]. rewrite Hs1. by apply sublist_inserts_r.
Qed.

Lemma upto_foreign k c d r res c1 :
  upto k c → failed_sessions c = ∅ → log !! k = Some r → foreign validate cfg r →
  process validate error_text io cfg d r c = (res, c1) →
  upto k c1 ∧ ∀ o, res = Ok o → o = SESSION_FAILED.
Proof.
  intros (drs & u & Hpre & Hreach & Hlen & Hsent & Hdb) Hf Hr Hfor Hp.
  destruct (process_foreign validate error_text cfg _ _ _ _ _ _ Hfor Hf Hp) as (Hout & Hbut & new & Hs1).
  split; [|done]. assert (length drs = k) as Hk.
  { destruct (decide (length drs = k)) as [?|Hne]; [done|]. exfalso.
    assert (drs.*2 !! k = Some r) as Hin.
    { rewrite <-Hr. apply prefix_lookup_lt; [|done]. rewrite length_fmap. lia. }
    apply list_lookup_fmap_Some in Hin as ([d' r'] & -> & Hin).
    pose proof (rch_deployed _ _ Hreach) as Hdep. rewrite Forall_lookup in Hdep. specialize (Hdep _ _ Hin).
    destruct Hfor as (dec & e & Hdec & Hid). simpl in *. unfold deployed in Hdep.
    rewrite (Hdep dec) in Hid; [done|]. by apply decoded_Some. }
  exists drs, u. split_and!; [done|done|lia|lia| |].
  - rewrite Hs1. by apply sublist_inserts_r.
  - right. split_and!; [done| |by exists r]. eapply but_sessions_trans; [|done].
    destruct Hdb as [->|(_ & ? & _)]; [apply but_sessions_refl|done].
Qed.

Lemma upto_deployed k c d r dec res c1 :
  upto k c → failed_sessions c = ∅ → log !! k = Some r →
  decode_message validate (rvalue r) = Ok dec → assert_identity cfg dec = Ok () →
  process validate error_text io cfg d r c = (res, c1) →
  upto k c1 ∧ failed_sessions c1 = ∅ ∧ ∀ o, res = Ok o → upto (S k) c1.
Proof.
  intros Hup Hf Hr Hdec Hid Hp.
  pose proof Hup as (drs & u & Hpre & Hreach & Hlen & Hsent & Hdb).
  assert (db c = db u) as Hdbu.
  { destruct Hdb as [?|(_ & _ & r' & Hr' & dec' & e' & Hdec' & Hid')]; [done|]. congruence. }
  pose proof (rch_recovered _ _ Hreach) as Hrec.
  destruct (decisions_ok_accepted drs) as [Hdated Hnd]; [by eapply decisions_ok_prefix|].
  rewrite (process_deployed validate error_text cfg _ _ _ _ _ Hdec Hid Hf) in Hp.
  destruct (decide (length drs = k)) as [Hk|Hk].
  - destruct (apply_decision cfg d dec c) as [[tr|e] c2] eqn:Ha; simplify_eq.
    + destruct (apply_decision_db cfg d dec c u Hdbu) as (Hres & Hc & Hu). rewrite Ha in Hres, Hc, Hu. simpl in *.
      assert (process validate error_text (λ _, None) cfg d r u = (Ok COMMITTED, set_db (db c1) u)) as Hpu.
      { rewrite (process_deployed validate error_text cfg _ _ _ _ _ Hdec Hid (rch_failed _ _ Hreach)).
        destruct (apply_decision cfg d dec u) as [[|] ?]; simpl in *; by simplify_eq. }
      destruct (extend drs u (length drs) d r _ _ Hpre Hreach eq_refl Hr Hpu) as (u2 & Hp2 & Hr2 & Hl2 & Hdb2 & Hs2); [done|].
      destruct (upto_exact (length drs) c1 (drs ++ [(d, r)]) u2) as [? ?]; [done..| |by rewrite Hdb2|].
      { rewrite Hs2, Hc. done. }
      split_and!; [done| |done]. rewrite Hc. done.
    + assert (db c1 = db c) as Hdb1 by (eapply (apply_decision_Err cfg (accepted drs)); [by rewrite Hdbu|done|done]).
      destruct (apply_decision_db cfg d dec c c eq_refl) as (_ & Hc & _). rewrite Ha in Hc. simpl in Hc.
      split_and!; [|by rewrite Hc|done]. eapply upto_ext; [done..|]. exists []. rewrite Hc, app_nil_r. done.
  - assert (∃ l d0, drs = l ++ [(d0, r)]) as (l & d0 & Hl).
    { destruct drs as [|[d0 r0] l _] using rev_ind; [simpl in *; lia|]. exists l, d0. do 2 f_equal.
      rewrite length_app in Hlen, Hk. simpl in Hlen, Hk. assert (length l = k) as Hlk by lia.
      rewrite fmap_app in Hpre. simpl in Hpre. destruct Hpre as [t Ht].
      rewrite Ht, <-(assoc_L (++)), lookup_app_r, length_fmap, Hlk, Nat.sub_diag in Hr by (rewrite length_fmap; lia).
      simpl in Hr. by simplify_eq. }
    assert (accepted drs = accepted l ++ [(d0, dec)]) as Hacc.
    { rewrite Hl, accepted_snoc. f_equal. unfold decoded_record. simpl.
      by rewrite (proj2 (decoded_Some _ _) Hdec). }
    destruct (redelivered cfg (accepted drs) (d0, dec) (session_of dec) (of_session (session_of dec) (accepted l)) d c)
      as (tr & Ha & _).
    + by rewrite Hdbu.
    + rewrite Hdbu. apply (rch_good _ _ Hreach).
    + done.
    + rewrite Hacc, of_session_snoc. simpl. by rewrite decide_True.
    + rewrite Hacc. apply elem_of_app. right. by apply list_elem_of_singleton.
    + done.
    + simpl in Ha. rewrite Ha in Hp. simplify_eq.
      by destruct (upto_exact k c1 _ u Hpre Hreach ltac:(lia) Hsent Hdbu).
Qed.

(** The record after the [k] committed ones, fresh or delivered again. *)
Lemma upto_record k c d r res c1 :
  upto k c → failed_sessions c = ∅ → log !! k = Some r →
  process validate error_text io cfg d r c = (res, c1) →
  upto k c1 ∧ ∀ o, res = Ok o → o ≠ SESSION_FAILED → upto (S k) c1 ∧ failed_sessions c1 = ∅.
Proof.
  intros Hup Hf Hr Hp.
  destruct (decode_message validate (rvalue r)) as [dec|e] eqn:Hdec; [destruct (assert_identity cfg dec) as [[]|e] eqn:Hid|].
  - destruct (upto_deployed k c d r dec res c1) as (? & ? & ?); [done..|]. eauto.
  - destruct (upto_foreign k c d r res c1) as [? Hout]; [done..|by exists dec, e|done|]. split; [done|].
    intros o Ho. by apply Hout in Ho.
  - destruct (upto_malformed k c d r e res c1) as (? & Hf1 & ?); [done..|]. rewrite Hf1. eauto.
Qed.

(** The records of the log from [k] on, and the offsets they carry. *)
Hypothesis offsets : ∀ i r, log !! i = Some r → roffset r = Z.of_nat i.

Lemma upto_committed k c m : upto k c → upto k (mkC (db c) (failed_sessions c) (sent c) (S (calls c)) m).
Proof. intros Hu. eapply upto_ext; [done|done|]. exists []. simpl. by rewrite app_nil_r. Qed.

Lemma upto_commit k c o r c1 :
  upto k c → commit io tp o c = (r, c1) → upto k c1 ∧ failed_sessions c1 = failed_sessions c.
Proof.
  unfold commit. rewrite M_bind_run. unfold next_call, modify. intros Hu Hc.
  destruct (io (calls c)); simplify_eq; (split; [by apply upto_committed|done]).
Qed.

(** A batch of the records after the [k] committed ones. *)
Lemma upto_partition k c ms res c1 :
  upto k c → failed_sessions c = ∅ → offset_at tp (committed c) = Z.of_nat k →
  ms.*2 `prefix_of` drop k log →
  process_partition validate error_text io cfg tp ms c = (res, c1) →
  ∃ k', upto k' c1 ∧ offset_at tp (committed c1) = Z.of_nat k' ∧
    (res = Ok false → failed_sessions c1 = ∅ ∧ k' = (k + length ms)%nat).
Proof.
  revert k c. induction ms as [|[d r] ms IH]; intros k c Hup Hf Hcom Hpre Hp.
  { simpl in Hp. unfold mret, M_ret in Hp. simplify_eq. exists k. rewrite Nat.add_0_r. done. }
  simpl in Hp. rewrite M_bind_run in Hp.
  assert (log !! k = Some r ∧ ms.*2 `prefix_of` drop (S k) log) as [Hr Hpre'].
  { destruct Hpre as [t Ht]. simpl in Ht. split.
    - rewrite <-(Nat.add_0_r k), <-lookup_drop, Ht. done.
    - exists t. rewrite <-Nat.add_1_r, <-drop_drop, Ht. done. }
  pose proof (keeps_process validate error_text io cfg (committed c) d r c eq_refl) as Hk.
  unfold uncommitted in Hk.
  destruct (process _ _ _ _ d r c) as [out c2] eqn:Hproc. simpl in Hk.
  destruct (upto_record k c d r out c2 Hup Hf Hr Hproc) as [Hup2 Hnext].
  destruct out as [o|e].
  2:{ simplify_eq. exists k. split_and!; [done|by rewrite Hk|done]. }
  case_bool_decide as Ho.
  { unfold mret, M_ret in Hp. simplify_eq. exists k. split_and!; [done|by rewrite Hk|done]. }
  destruct (Hnext o eq_refl Ho) as [Hup3 Hf2].
  rewrite M_bind_run in Hp. destruct (commit io tp (roffset r + 1) c2) as [cres c3] eqn:Hc.
  destruct (upto_commit k c2 _ _ _ Hup2 Hc) as [Hup2' Hf3].
  destruct (upto_commit (S k) c2 _ _ _ Hup3 Hc) as [Hup3' _].
  destruct cres as [u|e].
  - assert (offset_at tp (committed c3) = Z.of_nat (S k)) as Hcom3.
    { rewrite (commit_committed _ _ _ _ _ _ Hc), (offsets _ _ Hr). unfold offset_at. rewrite lookup_insert_eq. simpl. lia. }
    destruct (IH (S k) c3 Hup3' ltac:(by rewrite Hf3) Hcom3 Hpre' Hp) as (k' & Hu & Hco & Hend).
    exists k'. split_and!; [done|done|]. intros Hres. destruct (Hend Hres) as [? ->]. split; [done|]. simpl. lia.
  - simplify_eq. exists k. split_and!; [done| |done]. rewrite (commit_fails _ _ _ _ _ _ Hc). by rewrite Hk.
Qed.

End Committed.

(** The service: the committed offset says where the store is, and so does the
    position while it runs. *)
Definition service_upto (s : Service) : Prop :=
  ∃ k, upto k (consumer s) ∧ offset_at tp (committed (consumer s)) = Z.of_nat k ∧
    (running s = true → failed_sessions (consumer s) = ∅ ∧ offset_at tp (position s) = Z.of_nat k).

Lemma offset_advance k ms pos :
  (∀ i r, log !! i = Some r → roffset r = Z.of_nat i) →
  offset_at tp pos = Z.of_nat k → ms.*2 `prefix_of` drop k log →
  offset_at tp (advance pos (tp, ms)) = Z.of_nat (k + length ms).
Proof.
  intros Hoff Hpos Hpre. unfold advance. simpl. destruct (last ms) as [[d r]|] eqn:E.
  - rewrite last_lookup in E. destruct (length ms) as [|n] eqn:Hl; [by apply nil_length_inv in Hl; subst|].
    simpl in E. assert (ms.*2 !! n = Some r) as Hn by (by rewrite list_lookup_fmap, E).
    eapply prefix_lookup_Some in Hn; [|done]. rewrite lookup_drop in Hn. apply Hoff in Hn.
    unfold offset_at. rewrite lookup_insert_eq, Hn. simpl. lia.
  - apply last_None in E. subst. simpl. by rewrite Hpos, Nat.add_0_r.
Qed.

Lemma service_turn io s t :
  decisions_ok log → (∀ i r, log !! i = Some r → roffset r = Z.of_nat i) →
  service_upto s → turn_clean validate error_text io cfg tp log s t →
  service_upto (turn validate error_text io cfg tp log s t).
Proof.
  intros Hlog Hoff Hs Hclean. pose proof Hs as (k & Hup & Hcom & Hrun). destruct t as [ds|n ds|]; simpl in *.
  - unfold consumer_step. destruct (running s) eqn:R; [|done]. destruct (Hrun eq_refl) as [Hf Hpos]. simpl negb.
    cbv iota. rewrite batch_one. specialize (Hclean eq_refl).
    pose proof (fetched_prefix tp log ds s) as Hpre. rewrite Hpos, Nat2Z.id in Hpre.
    destruct (process_partition _ _ _ _ tp (fetched tp log ds s) (consumer s)) as [[h|e] c1] eqn:Hp; [|done].
    destruct (upto_partition io Hlog Hoff k _ _ _ _ Hup Hf Hcom Hpre Hp) as (k' & Hu & Hc & Hend).
    exists k'. simpl. split_and!; [done|done|]. intros Hh. destruct h; [done|].
    destruct (Hend eq_refl) as [? ->]. split; [done|]. by apply offset_advance.
  - unfold interrupted_step. destruct (running s) eqn:R; [|done]. destruct (Hrun eq_refl) as [Hf Hpos]. simpl negb.
    cbv iota. rewrite batch_one.
    pose proof (fetched_prefix tp log ds s) as Hpre. rewrite Hpos, Nat2Z.id in Hpre.
    destruct (process_partition _ _ _ _ tp (fetched tp log ds s) (consumer s)) as [res c1] eqn:Hp.
    destruct (upto_partition (cut io n (consumer s)) Hlog Hoff k _ _ _ _ Hup Hf Hcom Hpre Hp) as (k' & Hu & Hc & _).
    exists k'. split_and!; [by destruct res|by destruct res|done].
  - unfold restart. destruct (running s) eqn:R; [done|]. exists k. simpl. split_and!; [|done|done].
    eapply upto_ext; [done..|]. exists []. simpl. by rewrite app_nil_r.
Qed.

Lemma service_serve io s ts :
  decisions_ok log → (∀ i r, log !! i = Some r → roffset r = Z.of_nat i) →
  service_upto s → clean validate error_text io cfg tp log s ts →
  service_upto (serve validate error_text io cfg tp log s ts).
Proof.
  intros Hlog Hoff. revert s. induction ts as [|t ts IH]; intros s Hs Hc; [done|].
  destruct Hc as [Ht Hc]. apply IH; [|done]. by apply service_turn.
Qed.
End Reference.

(** ** Which records the commits pass *)
Section Accounting.
Context `{JsonModel ScoreDecisionV1.t, JsonModel AlertEventV1.t, JsonModel EvidenceSnapshotV1.t,
          JsonModel ReplayStatusV1.t, JsonModel QuarantineRecordV1.t}.
Variable validate : bytes → result ScoreDecisionV1.t.
Variable error_text : exn → string.
Variable io : nat → option exn.
Variable cfg : Config.
Variable tp : TopicPartition.
Variable log : list KafkaRecord.
Abbreviation turn := (turn validate error_text io cfg tp log).
Abbreviation serve := (serve validate error_text io cfg tp log).
Abbreviation clean := (clean validate error_text io cfg tp log).

(** The batch of a turn, and the outcomes of its calls. *)
Definition batch_of (s : Service) (t : Turn) : list (Draws * KafkaRecord) :=
  match t with
  | Polled ds | Interrupted _ ds => if running s then fetched tp log ds s else []
  | Restarted => []
  end.
Definition calls_of (s : Service) (t : Turn) : nat → option exn :=
  match t with Interrupted k _ => cut io k (consumer s) | _ => io end.

(** The turn processed [r] without failing its session and committed it, after it
    had done so with every record before it in the batch. *)
Definition got_through (s : Service) (t : Turn) (r : KafkaRecord) : Prop :=
  ∃ done d rest s1, batch_of s t = done ++ (d, r) :: rest ∧
    handled validate error_text (calls_of s t) cfg tp (done ++ [(d, r)]) (consumer s) s1.

(** An exception ended the batch of the turn at [r] or before it, and the loop polled on. *)
Definition left_behind (s : Service) (t : Turn) (r : KafkaRecord) : Prop :=
  ∃ ds done dr rest s1 e, t = Polled ds ∧ batch_of s t = done ++ dr :: rest ∧
    handled validate error_text io cfg tp done (consumer s) s1 ∧
    stopped_at validate error_text io cfg tp dr s1 (Err e) ∧ r ∈ (dr :: rest).*2 ∧
    running (turn s t) = true.

(** What a turn does with its batch: the records it got through, the commit after the
    last of them, and the record it stopped at. *)
Definition turn_exact (s : Service) (t : Turn) : Prop :=
  ∃ done rest s1, batch_of s t = done ++ rest ∧
    handled validate error_text (calls_of s t) cfg tp done (consumer s) s1 ∧
    committed (consumer (turn s t)) = last_offset tp done (committed (consumer s)) ∧
    match rest with
    | [] => True
    | dr :: _ => ∃ res, res ≠ Ok false ∧
        stopped_at validate error_text (calls_of s t) cfg tp dr s1 res ∧
        (is_ok res = true → running (turn s t) = false)
    end.

Lemma partition_turn s t : running s = true →
  (∀ ds, t = Polled ds ∨ (∃ k, t = Interrupted k ds) →
    let out := process_partition validate error_text (calls_of s t) cfg tp (fetched tp log ds s) (consumer s) in
    consumer (turn s t) = out.2 ∧
    (running (turn s t) = true → ∃ ds, t = Polled ds) ∧
    (out.1 = Ok true → running (turn s t) = false) ∧
    (running (turn s t) = true → position (turn s t) = advance (position s) (tp, fetched tp log ds s)) ∧
    (t = Polled ds → out.1 ≠ Ok true → running (turn s t) = true)).
Proof.
  intros R ds [->|[k ->]]; simpl; unfold consumer_step, interrupted_step; rewrite R; simpl negb; cbv iota;
    rewrite batch_one; destruct (process_partition _ _ _ _ _ _ _) as [[[]|e] c]; simpl;
    (split_and!; try done; naive_solver).
Qed.

Lemma handled_app io' ms ms' s s' :
  handled validate error_text io' cfg tp (ms ++ ms') s s' →
  ∃ s1, handled validate error_text io' cfg tp ms s s1 ∧ handled validate error_text io' cfg tp ms' s1 s'.
Proof.
  revert s. induction ms as [|[d r] ms IH]; intros s Hh; [exists s; split; [constructor|done]|].
  simpl in Hh. inversion Hh; subst. destruct (IH _ ltac:(eassumption)) as (s1' & ? & ?).
  exists s1'. split; [|done]. by econstructor.
Qed.

(** The records of a batch are those of the log from the position on. *)
Lemma batch_lookup s t j d r :
  batch_of s t !! j = Some (d, r) → log !! (Z.to_nat (offset_at tp (position s)) + j)%nat = Some r.
Proof.
  assert (∀ ds, fetched tp log ds s !! j = Some (d, r) →
    log !! (Z.to_nat (offset_at tp (position s)) + j)%nat = Some r) as Hds.
  { intros ds Hj. pose proof (fetched_prefix tp log ds s) as Hpre.
    assert ((fetched tp log ds s).*2 !! j = Some r) as Hj2 by (by rewrite list_lookup_fmap, Hj).
    eapply prefix_lookup_Some in Hj2; [|done]. by rewrite lookup_drop in Hj2. }
  destruct t; simpl; try (destruct (running s); [apply Hds|done]). done.
Qed.

Lemma batch_running s t dr ms : batch_of s t = dr :: ms → running s = true.
Proof. destruct t; simpl; by destruct (running s). Qed.

Lemma turn_exact_holds s t : turn_exact s t.
Proof.
  assert (running s = true ∧ (∃ ds, t = Polled ds ∨ ∃ k, t = Interrupted k ds) ∨
    batch_of s t = [] ∧ committed (consumer (turn s t)) = committed (consumer s))
    as [(R & ds & Ht)|[Hb Hc]].
  { destruct t as [ds|k ds|]; simpl; unfold consumer_step, interrupted_step, restart;
      destruct (running s) eqn:R; eauto 10. }
  - destruct (partition_turn s t R ds Ht) as (Hcons & _ & Hhalt & _).
    destruct (process_partition _ _ _ _ _ _ _) as [res c] eqn:Hp; simpl in *.
    destruct (partition_spec _ _ _ _ _ _ _ _ _ Hp) as (done & rest & s1 & Heq & Hh & Hcom & Hrest).
    exists done, rest, s1. split_and!; [|done|by rewrite Hcons|].
    { destruct Ht as [->|[k ->]]; simpl; by rewrite R. }
    destruct rest as [|dr rest]; [done|]. destruct Hrest as [Hne Hst]. exists res. split_and!; [done|done|].
    intros Hok. apply Hhalt. destruct res as [[]|]; naive_solver.
  - exists [], [], (consumer s). split_and!; [done|constructor|done|done].
Qed.

Definition accounted (s0 : Service) (ts : list Turn) (r : KafkaRecord) : Prop :=
  ∃ pre t post, ts = pre ++ t :: post ∧
    (got_through (serve s0 pre) t r ∨ left_behind (serve s0 pre) t r).

Lemma serve_snoc s0 ts t : serve s0 (ts ++ [t]) = turn (serve s0 ts) t.
Proof. unfold ConsumerRestart.serve. by rewrite foldl_app. Qed.

Lemma accounted_snoc s0 ts t r : accounted s0 ts r → accounted s0 (ts ++ [t]) r.
Proof. intros (pre & t' & post & -> & Hr). exists pre, t', (post ++ [t]). split; [|done]. by rewrite <-(assoc_L (++)). Qed.

Lemma accounted_last s0 ts t r :
  got_through (serve s0 ts) t r ∨ left_behind (serve s0 ts) t r → accounted s0 (ts ++ [t]) r.
Proof. intros Hr. by exists ts, t, []. Qed.

Hypothesis offsets : ∀ i r, log !! i = Some r → roffset r = Z.of_nat i.

(** A batch's commit is after the last record it got through. *)
Lemma last_offset_at s t done rest c :
  batch_of s t = done ++ rest →
  offset_at tp (last_offset tp done c) =
    if bool_decide (done = []) then offset_at tp c
    else Z.of_nat (Z.to_nat (offset_at tp (position s)) + length done).
Proof.
  intros Hb. unfold last_offset. destruct done as [|[d r] done _] using rev_ind; [done|].
  rewrite last_snoc, bool_decide_eq_false_2 by (by destruct done). unfold offset_at. rewrite lookup_insert_eq. simpl.
  assert (batch_of s t !! length done = Some (d, r)) as Hl.
  { rewrite Hb, <-(assoc_L (++)), lookup_app_r, Nat.sub_diag by lia. done. }
  apply batch_lookup, offsets in Hl. rewrite Hl, length_app. unfold offset_at. simpl. lia.
Qed.

Lemma got_through_in s t done rest s1 j d r :
  batch_of s t = done ++ rest →
  handled validate error_text (calls_of s t) cfg tp done (consumer s) s1 →
  done !! j = Some (d, r) → got_through s t r.
Proof.
  intros Hb Hh Hj. apply take_drop_middle in Hj. rewrite <-Hj in Hb, Hh.
  rewrite cons_middle, (assoc_L (++)) in Hh. apply handled_app in Hh as (s2 & Hh & _).
  exists (take j done), d, (drop (S j) done ++ rest), s2. split; [|done]. rewrite Hb, <-(assoc_L (++)). done.
Qed.

Definition covered (s0 : Service) (ts : list Turn) (n : Z) : Prop :=
  ∀ i r, offset_at tp (committed (consumer s0)) ≤ Z.of_nat i → Z.of_nat i < n →
    log !! i = Some r → accounted s0 ts r.

Lemma covered_snoc s0 ts t n : covered s0 ts n → covered s0 (ts ++ [t]) n.
Proof. intros Hc i r Hi Hn Hr. by eapply accounted_snoc, Hc. Qed.

(** The record of the log at an offset of the batch. *)
Lemma batch_nth s t i r :
  log !! i = Some r → offset_at tp (position s) ≤ Z.of_nat i →
  (i < Z.to_nat (offset_at tp (position s)) + length (batch_of s t))%nat →
  ∃ d, batch_of s t !! (i - Z.to_nat (offset_at tp (position s)))%nat = Some (d, r).
Proof.
  intros Hr Hlo Hhi.
  destruct (lookup_lt_is_Some_2 (batch_of s t) (i - Z.to_nat (offset_at tp (position s)))) as [[d r'] Hj]; [lia|].
  exists d. rewrite Hj. apply batch_lookup in Hj. replace (_ + _)%nat with i in Hj by lia. congruence.
Qed.

Lemma covered_done s0 ts t done rest s1 :
  let s := serve s0 ts in
  covered s0 ts (offset_at tp (position s)) → batch_of s t = done ++ rest →
  handled validate error_text (calls_of s t) cfg tp done (consumer s) s1 →
  covered s0 (ts ++ [t]) (Z.of_nat (Z.to_nat (offset_at tp (position s)) + length done)).
Proof.
  intros s Hpos Hb Hh i r Hi Hn Hr.
  destruct (decide (Z.of_nat i < offset_at tp (position s))) as [Hlt|Hge]; [by eapply accounted_snoc, Hpos|].
  destruct (batch_nth s t i r Hr) as [d Hj]; [lia|rewrite Hb, length_app; lia|].
  rewrite Hb, lookup_app_l in Hj by lia. apply accounted_last. left. by eapply got_through_in.
Qed.

(** Where a poll that returned a batch leaves the position. *)
Lemma advance_at s t ms : batch_of s t = ms →
  offset_at tp (advance (position s) (tp, ms)) =
    if bool_decide (ms = []) then offset_at tp (position s)
    else Z.of_nat (Z.to_nat (offset_at tp (position s)) + length ms).
Proof.
  intros Hb. pose proof (last_offset_at s t ms [] (position s)) as Hl. rewrite app_nil_r in Hl.
  rewrite <-(Hl Hb). done.
Qed.

Lemma covered_rest s0 ts ds done rest s1 :
  let s := serve s0 ts in
  running s = true → running (turn s (Polled ds)) = true →
  covered s0 ts (offset_at tp (position s)) → batch_of s (Polled ds) = done ++ rest →
  handled validate error_text io cfg tp done (consumer s) s1 →
  (∀ dr rest', rest = dr :: rest' → ∃ res, res ≠ Ok false ∧ stopped_at validate error_text io cfg tp dr s1 res ∧
     (is_ok res = true → running (turn s (Polled ds)) = false)) →
  covered s0 (ts ++ [Polled ds]) (offset_at tp (position (turn s (Polled ds)))).
Proof.
  intros s R R' Hpos Hb Hh Hrest i r Hi Hn Hr.
  destruct (partition_turn s (Polled ds) R ds (or_introl eq_refl)) as (_ & _ & _ & Hadv & _).
  rewrite (Hadv R'), (advance_at s (Polled ds)) in Hn by (simpl; by rewrite R).
  destruct (decide (Z.of_nat i < Z.of_nat (Z.to_nat (offset_at tp (position s)) + length done))) as [Hlt|Hge].
  { by eapply (covered_done s0 ts (Polled ds)). }
  assert (fetched tp log ds s = done ++ rest) as Hms by (simpl in Hb; by rewrite R in Hb).
  case_bool_decide as Hnil; [lia|]. rewrite Hms in Hn.
  destruct (batch_nth s (Polled ds) i r Hr) as [d Hj]; [lia|rewrite Hb; lia|].
  rewrite Hb, lookup_app_r in Hj by lia. apply accounted_last. right. fold s.
  destruct rest as [|dr rest]; [done|]. destruct (Hrest dr rest eq_refl) as (res & Hres & Hst & Hrun).
  destruct res as [x|e]; [by rewrite (Hrun eq_refl) in R'|].
  exists ds, done, dr, rest, s1, e. split_and!; [done..| |done].
  apply list_elem_of_fmap. exists (d, r). split; [done|]. by eapply list_elem_of_lookup_2.
Qed.

(** Whatever is below the commit or, while the service runs, below the position, is
    accounted for. *)
Lemma serve_covered s0 ts : running s0 = false →
  covered s0 ts (offset_at tp (committed (consumer (serve s0 ts)))) ∧
  (running (serve s0 ts) = true → covered s0 ts (offset_at tp (position (serve s0 ts)))).
Proof.
  intros R0. induction ts as [|t ts [IHc IHp]] using rev_ind.
  { split; [intros i r; simpl; lia|]. simpl. by rewrite R0. }
  rewrite serve_snoc. set (s := serve s0 ts) in *.
  destruct (turn_exact_holds s t) as (done & rest & s1 & Hb & Hh & Hc & Hrest). split.
  - rewrite Hc, (last_offset_at s t done rest) by done. case_bool_decide as Hd; [by apply covered_snoc|].
    eapply covered_done; [|done..]. apply IHp. destruct done as [|dr done]; [done|]. by eapply batch_running.
  - intros R'. destruct t as [ds|k ds|].
    + assert (running s = true) as R.
      { simpl in R'. unfold consumer_step in R'. destruct (running s) eqn:R; [done|]. simpl in R'. congruence. }
      eapply covered_rest; [done|done|by apply IHp|done|done|]. by intros dr rest' ->.
    + exfalso. simpl in R'. unfold interrupted_step in R'. destruct (running s) eqn:R; simpl in R'; congruence.
    + simpl in R' |- *. unfold restart in *. destruct (running s) eqn:R; apply covered_snoc; [by apply IHp|done].
Qed.

(** Without a swallowed exception nothing is left behind. *)
Lemma clean_split s0 pre t post : clean s0 (pre ++ t :: post) → turn_clean validate error_text io cfg tp log (serve s0 pre) t.
Proof.
  revert s0. induction pre as [|t' pre IH]; intros s0 [Ht Hc]; [done|]. by apply (IH (turn s0 t')).
Qed.

Lemma partition_stops io' done dr rest s s1 e :
  handled validate error_text io' cfg tp done s s1 →
  stopped_at validate error_text io' cfg tp dr s1 (Err e) →
  (process_partition validate error_text io' cfg tp (done ++ dr :: rest) s).1 = Err e.
Proof.
  intros Hh. revert e. induction Hh as [s|d r ms o s s1' s2 s3 Hp Ho Hc Hh IH]; intros e Hst; cbn [app process_partition].
  - destruct dr as [d r]. simpl in Hst. rewrite M_bind_run. destruct (process _ _ _ _ d r s) as [[o|x] s2] eqn:E.
    + destruct Hst as [?|(o' & s1 & [= <- <-] & Ho & Hc)]; [done|]. rewrite bool_decide_eq_false_2 by done.
      rewrite M_bind_run. destruct (commit _ _ _ _) as [[]]; simpl in *; congruence.
    + destruct Hst as [?|(o' & s1 & ? & _)]; simpl in *; congruence.
  - rewrite M_bind_run, Hp, bool_decide_eq_false_2, M_bind_run, Hc by done. by apply IH.
Qed.

Lemma left_behind_unclean s t r : left_behind s t r → ¬ turn_clean validate error_text io cfg tp log s t.
Proof.
  intros (ds & done & dr & rest & s1 & e & -> & Hb & Hh & Hst & _) Hc.
  pose proof (batch_running s (Polled ds) ) as R. rewrite Hb in R.
  assert (running s = true) as Hr by (destruct done; by eapply R).
  simpl in Hc, Hb. specialize (Hc Hr). rewrite Hr in Hb. rewrite Hb in Hc.
  by rewrite (partition_stops io done dr rest _ _ _ Hh Hst) in Hc.
Qed.
End Accounting.

(** ** Decisions that are never stored *)
Section Absent.
Context `{JsonModel ScoreDecisionV1.t, JsonModel AlertEventV1.t, JsonModel EvidenceSnapshotV1.t,
          JsonModel ReplayStatusV1.t, JsonModel QuarantineRecordV1.t}.
Variable validate : bytes → result ScoreDecisionV1.t.
Variable error_text : exn → string.
Variable io : nat → option exn.
Variable cfg : Config.

Definition absent (id : UUID) (s : CState) : Prop := score_decisions (db s) !! id = None.

Lemma absent_load id amb sid mid pol d :
  score_decisions (load_alert_state amb sid mid pol d).2 !! id = score_decisions d !! id.
Proof.
  unfold load_alert_state, transaction. destruct (load_body _ _ _ _ d) as [[st d']|] eqn:E; [|done]. simpl.
  unfold load_body in E. destruct (alert_runtime_states d !! _); [by inv_res|]. case_bool_decide; by inv_res.
Qed.

Lemma keeps_absent_record id now dec tr d :
  ScoreDecisionV1.decision_id dec ≠ id → score_decisions d !! id = None →
  score_decisions (record_decision_transition now dec tr d).2 !! id = None.
Proof.
  intros Hne Hd. unfold record_decision_transition, update, transaction.
  destruct (record_body now dec tr d) as [d'|] eqn:E; [|done]. simpl.
  apply record_tables in E as [_ ->]. case_match; [done|]. by rewrite lookup_insert_ne.
Qed.

Lemma keeps_absent_apply id d dec :
  ScoreDecisionV1.decision_id dec ≠ id → keeps (absent id) (apply_decision cfg d dec).
Proof.
  intros Hne. unfold apply_decision. apply keeps_bind.
  { intros s Hs. unfold on_db, absent in *. pose proof (absent_load id (load_ambient d)
      (ScoreDecisionV1.replay_session_id dec) (machine_id cfg) (Some (policy cfg)) (db s)) as Hl.
    destruct (load_alert_state _ _ _ _ (db s)). simpl in *. by rewrite Hl. }
  intros st. apply keeps_bind; [by apply keeps_lift|]. intros tr. apply keeps_bind; [|intros; apply keeps_ret].
  intros s Hs. unfold on_db, absent in *. pose proof (keeps_absent_record id (db_now d) dec tr (db s) Hne Hs) as Hl.
  destruct (record_decision_transition _ _ _ (db s)). done.
Qed.

(** A record stores no decision but its own. *)
Lemma absent_process id d r :
  (∀ dec, decoded validate r = Some dec → ScoreDecisionV1.decision_id dec ≠ id) →
  keeps (absent id) (process validate error_text io cfg d r).
Proof.
  intros Hne s Hs. unfold process, decoded in *. destruct (decode_message validate (rvalue r)) as [dec|e].
  - rewrite M_bind_run. unfold gets. case_bool_decide; [done|].
    destruct (assert_identity cfg dec) as [[]|e].
    + rewrite M_bind_run. pose proof (keeps_absent_apply id d dec (Hne _ eq_refl) s Hs) as Hk.
      by destruct (apply_decision _ _ _ _) as [[]].
    + destruct (is_value_error e); [|done]. rewrite M_bind_run.
      match goal with |- context [fail_session io cfg d ?sid ?ts ?c s] =>
        destruct (fail_session_effect cfg io d sid ts c s) as [[f Hdb] _] end.
      destruct (fail_session _ _ _ _ _ _ _) as [[] s']; simpl in *; unfold absent; rewrite Hdb; done.
  - rewrite M_bind_run. destruct (publish_quarantine_effect error_text cfg io d r e s) as (Hdb & _ & _).
    destruct (publish_quarantine _ _ _ _ _ _ _) as [[] s']; simpl in *; unfold absent; by rewrite Hdb.
Qed.

Lemma absent_commit id tp o : keeps (absent id) (commit io tp o).
Proof. intros s Hs. unfold commit. rewrite M_bind_run. unfold next_call. by destruct (io (calls s)). Qed.

Definition others (id : UUID) (ms : list (Draws * KafkaRecord)) : Prop :=
  ∀ dec, dec ∈ omap (decoded validate) (ms.*2) → ScoreDecisionV1.decision_id dec ≠ id.

Lemma absent_partition id tp ms :
  others id ms → keeps (absent id) (process_partition validate error_text io cfg tp ms).
Proof.
  induction ms as [|[d r] ms IH]; intros Ho; simpl; [apply keeps_ret|].
  apply keeps_bind.
  { apply absent_process. intros dec Hd. apply Ho. simpl. rewrite Hd. by left. }
  intros o. case_bool_decide; [apply keeps_ret|]. apply keeps_bind; [apply absent_commit|]. intros _.
  apply IH. intros dec Hd. apply Ho. simpl. destruct (decoded validate r); [by right|done].
Qed.

(** A batch that an exception ended stores the decisions up to the record it ended at. *)
Lemma absent_stopped id tp done dr rest s s1 e :
  handled validate error_text io cfg tp done s s1 →
  stopped_at validate error_text io cfg tp dr s1 (Err e) →
  others id (done ++ [dr]) → absent id s →
  absent id (process_partition validate error_text io cfg tp (done ++ dr :: rest) s).2.
Proof.
  intros Hh Hst Ho Hs.
  assert ((process_partition validate error_text io cfg tp (done ++ dr :: rest) s).2 =
          (process_partition validate error_text io cfg tp (done ++ [dr]) s).2) as ->.
  { clear Ho Hs. revert Hst. induction Hh as [s|d r ms o s s1' s2 s3 Hp Hne Hc Hh IH]; intros Hst; cbn [app process_partition].
    - destruct dr as [d r]. simpl in Hst. rewrite !M_bind_run. destruct (process _ _ _ _ d r s) as [[o|x] s2] eqn:E; [|done].
      destruct Hst as [?|(o' & s1 & [= <- <-] & Hne & Hc)]; [done|]. rewrite bool_decide_eq_false_2 by done.
      rewrite !M_bind_run. by destruct (commit _ _ _ _) as [[]].
    - rewrite !M_bind_run, Hp, bool_decide_eq_false_2, !M_bind_run, Hc by done. by apply IH. }
  by apply (absent_partition id tp (done ++ [dr]) Ho s Hs).
Qed.
End Absent.

(** ** What the poll after an exception passes *)
Section Skipped.
Context `{JsonModel ScoreDecisionV1.t, JsonModel AlertEventV1.t, JsonModel EvidenceSnapshotV1.t,
          JsonModel ReplayStatusV1.t, JsonModel QuarantineRecordV1.t}.
Variable validate : bytes → result ScoreDecisionV1.t.
Variable error_text : exn → string.
Variable io : nat → option exn.
Variable cfg : Config.
Variable tp : TopicPartition.
Variable log : list KafkaRecord.
Hypothesis offsets : ∀ i r, log !! i = Some r → roffset r = Z.of_nat i.

Definition distinct (rs : list KafkaRecord) : Prop :=
  NoDup (ScoreDecisionV1.decision_id <$> omap (decoded validate) rs).

Lemma distinct_others l1 l2 l3 d d' :
  distinct (l1 ++ l2 ++ l3) → d ∈ omap (decoded validate) l2 →
  d' ∈ omap (decoded validate) l1 ∨ d' ∈ omap (decoded validate) l3 →
  ScoreDecisionV1.decision_id d' ≠ ScoreDecisionV1.decision_id d.
Proof.
  unfold distinct. rewrite !omap_app, !fmap_app. intros (_ & Hn1 & (_ & Hn2 & _)%NoDup_app)%NoDup_app Hd [Hd'|Hd'] Heq;
    apply (list_elem_of_fmap_2 ScoreDecisionV1.decision_id) in Hd, Hd'; rewrite Heq in Hd'.
  - apply (Hn1 _ Hd'). apply elem_of_app. by left.
  - by apply (Hn2 _ Hd).
Qed.

(** The next poll goes on after the batch, whatever became of it. *)
Lemma next_fetch s s1 ds ds' :
  0 ≤ offset_at tp (position s) → position s1 = advance (position s) (tp, fetched tp log ds s) →
  offset_at tp (position s1) =
    Z.of_nat (Z.to_nat (offset_at tp (position s)) + length (fetched tp log ds s)) ∧
  ∃ l1 l2, log = l1 ++ (fetched tp log ds s).*2 ++ (fetched tp log ds' s1).*2 ++ l2.
Proof.
  intros Hpos Hadv. pose proof (fetched_prefix tp log ds s) as Hpre. pose proof (fetched_prefix tp log ds' s1) as Hpre'.
  set (k := Z.to_nat (offset_at tp (position s))) in *.
  assert (offset_at tp (position s1) = Z.of_nat (k + length (fetched tp log ds s))) as Hoff.
  { rewrite Hadv. eapply offset_advance; [done| |done]. unfold k. lia. }
  split; [done|]. rewrite Hoff, Nat2Z.id in Hpre'. destruct Hpre as [t Ht], Hpre' as [t' Ht'].
  exists (take k log), t'. rewrite <-(take_drop k log) at 1. f_equal. rewrite Ht. f_equal. rewrite <-Ht'.
  rewrite <-drop_drop, Ht. by rewrite drop_app_length' by (by rewrite length_fmap).
Qed.

Lemma skipped s ds ds' e :
  distinct log → running s = true → 0 ≤ offset_at tp (position s) →
  (process_partition validate error_text io cfg tp (fetched tp log ds s) (consumer s)).1 = Err e →
  let s1 := turn validate error_text io cfg tp log s (Polled ds) in
  let s2 := turn validate error_text io cfg tp log s1 (Polled ds') in
  fetched tp log ds' s1 ≠ [] →
  (process_partition validate error_text io cfg tp (fetched tp log ds' s1) (consumer s1)).1 = Ok false →
  running s2 = true ∧
  ∃ done dr rest c, fetched tp log ds s = done ++ dr :: rest ∧
    handled validate error_text io cfg tp done (consumer s) c ∧
    stopped_at validate error_text io cfg tp dr c (Err e) ∧
    (∀ r, r ∈ (dr :: rest).*2 → roffset r < offset_at tp (committed (consumer s2))) ∧
    ∀ d, d ∈ omap (decoded validate) (rest.*2) →
      score_decisions (db (consumer s)) !! ScoreDecisionV1.decision_id d = None →
      score_decisions (db (consumer s2)) !! ScoreDecisionV1.decision_id d = None.
Proof.
  intros Hd R Hpos Herr s1 s2 Hne Hok.
  destruct (partition_turn validate error_text io cfg tp log s (Polled ds) R ds (or_introl eq_refl))
    as (Hc1 & _ & _ & Hp1 & Hr1). fold s1 in Hc1, Hp1, Hr1. simpl in Hc1, Hr1.
  specialize (Hr1 eq_refl ltac:(congruence)).
  destruct (partition_turn validate error_text io cfg tp log s1 (Polled ds') Hr1 ds' (or_introl eq_refl))
    as (Hc2 & _ & _ & _ & Hr2). fold s2 in Hc2, Hr2. simpl in Hc2, Hr2.
  specialize (Hr2 eq_refl ltac:(congruence)). split; [done|].
  destruct (next_fetch s s1 ds ds' Hpos (Hp1 Hr1)) as (Hoff & l1 & l2 & Hlog).
  destruct (process_partition _ _ _ _ _ (fetched tp log ds s) _) as [res1 c1] eqn:E1. simpl in Herr, Hc1. subst res1.
  destruct (partition_spec _ _ _ _ _ _ _ _ _ E1) as (done & [|dr rest] & c & Hms & Hh & _ & Hrest); [discriminate|].
  destruct Hrest as [_ Hst].
  destruct (process_partition _ _ _ _ _ (fetched tp log ds' s1) _) as [res2 c2] eqn:E2. simpl in Hok, Hc2. subst res2.
  destruct (partition_spec _ _ _ _ _ _ _ _ _ E2) as (done' & [|dr' rest'] & c' & Hms' & Hh' & Hcom & Hrest'); [|by destruct Hrest'].
  exists done, dr, rest, c. split_and!; [done..| |].
  - intros r Hr. apply list_elem_of_fmap in Hr as ([d r'] & -> & Hr). apply list_elem_of_lookup_1 in Hr as [j Hj].
    assert (batch_of tp log s (Polled ds) !! (length done + j)%nat = Some (d, r')) as Hb.
    { simpl. rewrite R, Hms, lookup_app_r by lia. rewrite <-Hj. f_equal. lia. }
    apply lookup_lt_Some in Hj. apply batch_lookup, offsets in Hb. simpl. rewrite Hb, Hc2, Hcom.
    rewrite (last_offset_at tp log offsets s1 (Polled ds') done' []) by (simpl; by rewrite Hr1).
    rewrite app_nil_r in Hms'. rewrite bool_decide_eq_false_2 by congruence.
    rewrite Hoff, Nat2Z.id, Hms, length_app. lia.
  - intros d Hdec Hnone. rewrite Hc2. rewrite Hlog, Hms, fmap_app in Hd.
    assert (distinct ((l1 ++ (done ++ [dr]).*2) ++ rest.*2 ++ ((fetched tp log ds' s1).*2 ++ l2))) as Hdis.
    { revert Hd. rewrite fmap_app. simpl. by rewrite <-!(assoc_L (++)). }
    assert (absent (ScoreDecisionV1.decision_id d) c1) as H1c.
    { pose proof (absent_stopped validate error_text io cfg (ScoreDecisionV1.decision_id d) tp done dr rest _ _ _ Hh Hst) as Ha.
      rewrite <-Hms, E1 in Ha. apply Ha; [|done]. intros d' Hd'. eapply distinct_others; [exact Hdis|done|].
      left. rewrite omap_app. apply elem_of_app. by right. }
    pose proof (absent_partition validate error_text io cfg (ScoreDecisionV1.decision_id d) tp (fetched tp log ds' s1)) as Ha.
    rewrite <-Hc1 in H1c. specialize (λ o, Ha o _ H1c). rewrite E2 in Ha. apply Ha.
    intros d' Hd'. eapply distinct_others; [exact Hdis|done|]. right. rewrite omap_app. apply elem_of_app. by left.
Qed.
End Skipped.
