(* ===== verification/ConsumerProps.v ===== *)
(** * What the alert consumer guarantees

    Exact recovery after crashes and restarts, harmless redelivery, what a
    committed offset stands for, the meaning of each outcome, and delivery of the
    outbox; and the records that an exception in a batch leaves behind. *)

From S2P Require Import Prelude PyText PyUuid PyTime PyFloat PyHash PyJson.
From S2P Require Import Messages KafkaIo AlertPolicy AlertState AlertTheory AlertProps.
From S2P Require Import StateCodec Tables Store StoreTheory StoreProps AlertConsumer.
From S2P Require Import ConsumerTheory ConsumerRestart.

(** ** The outbox dispatcher *)

(** The Kafka message of an outbox entry, and the entries to be published. *)
Definition message_of (row : UUID * OutboxEntry.t) : result Sent :=
  payload ← dumps_sorted (JObj (OutboxEntry.payload row.2));
  Ok (mkSent (OutboxEntry.topic row.2) (encode payload) (encode (OutboxEntry.message_key row.2))).

Definition unpublished (d : DB) : list (UUID * OutboxEntry.t) :=
  ordered_rows (λ _ r, bool_decide (OutboxEntry.published_at r = None)) (alert_outbox d).

Lemma unpublished_mark now d i r l :
  unpublished d = (i, r) :: l →
  unpublished (set_outbox (alter (mark_published now) i) d) = l.
Proof.
  intros Hl. unfold unpublished in *.
  pose proof (ordered_rows_sorted (λ _ r, bool_decide (OutboxEntry.published_at r = None))
    (alert_outbox d)) as Hs. rewrite Hl in Hs.
  apply (key_sorted_unique row_key).
  - apply ordered_rows_sorted.
  - by apply StronglySorted_inv in Hs as [? _].
  - assert (∀ m, NoDup (ordered_rows (λ _ r, bool_decide (OutboxEntry.published_at r = None)) m)) as Hnd.
    { intros m. unfold ordered_rows. rewrite merge_sort_Permutation.
      apply NoDup_filter, NoDup_map_to_list. }
    pose proof (Hnd (alert_outbox d)) as Hndl. rewrite Hl in Hndl. apply NoDup_cons in Hndl as [Hni Hndl].
    apply NoDup_Permutation; [apply Hnd|done|]. intros [j x].
    assert ((j, x) ∈ (i, r) :: l ↔ OutboxEntry.published_at x = None ∧ alert_outbox d !! j = Some x) as Hin.
    { rewrite <-Hl, ordered_rows_elem. simpl. by rewrite bool_decide_eq_true. }
    rewrite ordered_rows_elem. simpl. rewrite bool_decide_eq_true, lookup_alter.
    rewrite elem_of_cons in Hin. destruct (decide (i = j)) as [<-|Hne].
    + split.
      * intros [Hx Hj]. apply fmap_Some in Hj as (y & _ & ->). done.
      * intros Hx. apply StronglySorted_inv in Hs as [_ Hs]. rewrite Forall_forall in Hs.
        specialize (Hs _ Hx). unfold key_lt, row_key in Hs. simpl in Hs. lia.
    + rewrite <-Hin. split; [intros [[= -> ->]|?]; done|by right].
Qed.

Lemma next_unpublished_spec d :
  next_unpublished_outbox d =
    match unpublished d with
    | [] => None
    | (i, r) :: _ =>
        Some (mkOutboxRow i (OutboxEntry.topic r) (OutboxEntry.message_key r) (OutboxEntry.payload r))
    end.
Proof. reflexivity. Qed.

(** With a broker that accepts every message, the loop sends the pending
    messages in order, once each, and marks them all. *)
Lemma dispatch_loop_spec io now fuel s msgs :
  (∀ n, io n = None) → mapR message_of (unpublished (db s)) = Ok msgs →
  (length msgs < fuel)%nat →
  sent (dispatch_loop io fuel now s) = sent s ++ msgs ∧
  unpublished (db (dispatch_loop io fuel now s)) = [].
Proof.
  intros Hio. revert s msgs. induction fuel as [|fuel IH]; intros s msgs Hm Hf; [lia|].
  cbn [dispatch_loop]. unfold dispatch_one. rewrite M_bind_run. unfold gets.
  rewrite next_unpublished_spec.
  destruct (unpublished (db s)) as [|[i r] l] eqn:Hun.
  { simpl in Hm. simplify_eq. cbn. by rewrite app_nil_r. }
  cbn [mapR] in Hm. apply bind_Ok in Hm as (msg & Hmsg & Hm).
  apply bind_Ok in Hm as (msgs' & Hm & Hmsgs). simplify_eq.
  unfold message_of in Hmsg. apply bind_Ok in Hmsg as (p & Hp & [= <-]). simpl in Hp.
  cbn [outbox_payload topic message_key message_id]. rewrite M_bind_run. unfold lift_res. rewrite Hp.
  rewrite M_bind_run. unfold send_and_wait. rewrite M_bind_run. unfold next_call. rewrite Hio.
  unfold modify. rewrite M_bind_run. unfold on_db. cbn [db].
  unfold mark_outbox_published, update, transaction. simpl.
  edestruct (IH (set_db (set_outbox (alter (mark_published now) i) (db s))
    (mkC (db s) (failed_sessions s) (sent s ++ [mkSent (OutboxEntry.topic r) (encode p)
       (encode (OutboxEntry.message_key r))]) (S (calls s)) (committed s))) msgs') as [Hs Hu].
  - simpl. by rewrite (unpublished_mark now _ _ _ _ Hun).
  - simpl in Hf. lia.
  - split; [|exact Hu]. rewrite Hs. simpl. by rewrite <-(assoc_L (++)).
Qed.

(** Whatever is marked as published has been sent. *)
Definition delivered (s : CState) : Prop :=
  ∀ i o, alert_outbox (db s) !! i = Some o → OutboxEntry.published_at o ≠ None →
    ∃ msg, message_of (i, o) = Ok msg ∧ msg ∈ sent s.

Lemma delivered_mono s c m f d :
  delivered s → delivered (mkC (db s) f (sent s ++ m) c d).
Proof.
  intros Hd i o Ho Hp. destruct (Hd i o Ho Hp) as (msg & Hm & Hin). exists msg. split; [done|].
  simpl. apply elem_of_app. by left.
Qed.

Lemma delivered_mark s now i r msg :
  delivered s → (i, r) ∈ unpublished (db s) → message_of (i, r) = Ok msg → msg ∈ sent s →
  delivered (set_db (set_outbox (alter (mark_published now) i) (db s)) s).
Proof.
  intros Hd Hr Hm Hin j o Ho Hp. simpl in *. rewrite lookup_alter in Ho.
  apply ordered_rows_elem in Hr as [_ Hr]. simpl in Hr.
  destruct (decide (i = j)) as [<-|Hne]; [|by apply (Hd j o Ho Hp)].
  rewrite Hr in Ho. simpl in Ho. simplify_eq. exists msg. split; [|done].
  unfold message_of, mark_published in *. simpl in *. done.
Qed.

Lemma dispatch_one_delivered io now s : delivered s → delivered (dispatch_one io now s).2.
Proof.
  intros Hd. unfold dispatch_one. rewrite M_bind_run. unfold gets. rewrite next_unpublished_spec.
  destruct (unpublished (db s)) as [|[i r] l] eqn:Hun; [done|].
  cbn [outbox_payload topic message_key message_id]. rewrite M_bind_run. unfold lift_res.
  destruct (dumps_sorted _) as [p|] eqn:Hp; [|done].
  rewrite M_bind_run. unfold send_and_wait. rewrite M_bind_run. unfold next_call.
  destruct (io (calls s)) as [e|].
  { simpl. rewrite <-(app_nil_r (sent s)). by apply delivered_mono. }
  unfold modify. rewrite M_bind_run. unfold on_db. cbn [db].
  unfold mark_outbox_published, update, transaction. simpl.
  set (msg := mkSent _ _ _).
  apply (delivered_mark (mkC (db s) (failed_sessions s) (sent s ++ [msg]) (S (calls s)) (committed s))
    now i r msg).
  - by apply delivered_mono.
  - simpl. rewrite Hun. apply elem_of_cons. by left.
  - unfold message_of. simpl. by rewrite Hp.
  - simpl. apply elem_of_app. right. by apply list_elem_of_singleton.
Qed.

Lemma dispatch_loop_delivered io now fuel s : delivered s → delivered (dispatch_loop io fuel now s).
Proof.
  revert s. induction fuel as [|fuel IH]; intros s Hd; [done|]. cbn [dispatch_loop].
  pose proof (dispatch_one_delivered io now s Hd) as H1.
  destruct (dispatch_one io now s) as [[[]|e] s']; simpl in H1; auto.
Qed.

(** ** A concrete codec and stream *)
Module ConsumerExamples.
Import AlertExamples.

(** Score decisions are found again by their identifier; the other messages
    are only written. *)
Definition decisions : list ScoreDecisionV1.t :=
  [decision 1 true; decision 2 true; decision 3 false; decision 4 true; decision 5 true].

#[export] Instance decision_model : JsonModel ScoreDecisionV1.t := {|
  model_dump := λ d, [("decision_id", JInt (uuid_int (ScoreDecisionV1.decision_id d)))]%string;
  model_validate := λ o,
    match jget "decision_id" o with
    | Some (JInt n) => of_option (ValidationError "decision_id")
        (find (λ d, uuid_int (ScoreDecisionV1.decision_id d) =? n) decisions)
    | _ => Err (ValidationError "decision_id")
    end |}.
#[export] Instance event_model : JsonModel AlertEventV1.t :=
  {| model_dump := λ e, [("message_id", JInt (uuid_int (AlertEventV1.message_id e)))]%string;
     model_validate := λ _, Err (ValidationError "event") |}.
#[export] Instance evidence_model : JsonModel EvidenceSnapshotV1.t :=
  {| model_dump := λ e, [("message_id", JInt (uuid_int (EvidenceSnapshotV1.message_id e)))]%string;
     model_validate := λ _, Err (ValidationError "evidence") |}.

Definition cfg : Config := mkConfig policy "metropt" true.
Definition draws (n : Z) : Draws :=
  mkDraws (uid (600 + n)) (mkAware 0 0) (uid (700 + n)) (mkAware 0 0) (AlertExamples.ambient n)
    (AlertExamples.ambient 0) n.
Definition ads : list (Draws * ScoreDecisionV1.t) :=
  [(draws 1, decision 1 true); (draws 2, decision 2 true)].
Definition fresh : CState := mkC empty_db ∅ [] 0 ∅.

End ConsumerExamples.

(** The other two message classes of the consumer, only written. *)
Module StatusExamples.
Import ConsumerExamples.
#[export] Instance status_model : JsonModel ReplayStatusV1.t :=
  {| model_dump := λ e, [("message_id", JInt (uuid_int (ReplayStatusV1.message_id e)))]%string;
     model_validate := λ _, Err (ValidationError "status") |}.
#[export] Instance quarantine_model : JsonModel QuarantineRecordV1.t :=
  {| model_dump := λ e, [("message_id", JInt (uuid_int (QuarantineRecordV1.message_id e)))]%string;
     model_validate := λ _, Err (ValidationError "quarantine") |}.

(** A payload of one byte [n] is the [n]-th decision; anything else is malformed. *)
Definition validate (b : bytes) : result ScoreDecisionV1.t :=
  match b with
  | [n] => of_option (ValidationError "decision") (if 1 <=? n then decisions !! Z.to_nat (n - 1) else None)
  | _ => Err (ValidationError "decision")
  end.
Definition error_text (e : exn) : string := "malformed".
Definition tp : TopicPartition := (SCORES_TOPIC, 0).

(** Two anomalous decisions with a malformed record between them, a normal one and
    two anomalous ones: an alert is opened, resolved and opened again. *)
Definition log : list KafkaRecord :=
  imap (λ i b, mkRecord SCORES_TOPIC 0 (Z.of_nat i) b) [[1]; [0; 255]; [2]; [3]; [4]; [5]].
Definition stopped : Service := mkService false new_consumer ∅.
(** One call of the broker fails. *)
Definition fails_once (k : nat) : nat → option exn :=
  λ n, if (n =? k)%nat then Some (KafkaError "commit failed") else None.
End StatusExamples.

(** ** Properties *)

(** C4. Crash recovery is exact.  On the log of a partition, take any sequence of
    polls, restarts, and stops or crashes at any call to Kafka (so also between the
    database commit of a record and the commit of its offset), each batch that is
    not interrupted ending without an exception; the outbox dispatcher stands still.  The consumer is then where a consumer that was never
    stopped, [u], is on the records up to the committed offset or on one record
    more: every table - alerts, their events, evidence and outbox entries,
    decisions and runtime states - holds the same rows, but for the row of a
    session whose record of another data set or model it stopped at; every message
    [u] sent was sent, in order, though perhaps more than once; and for every
    session the state that is loaded, and the one rebuilt from the stored
    decisions, is the state the state machine reaches on that session's decisions
    alone. *)
Theorem recovery_exact
    `{JsonModel ScoreDecisionV1.t, JsonModel AlertEventV1.t, JsonModel EvidenceSnapshotV1.t,
      JsonModel ReplayStatusV1.t, JsonModel QuarantineRecordV1.t}
    validate error_text io cfg tp log ts
    (Hoffsets : ∀ i r, log !! i = Some r → roffset r = Z.of_nat i)
    (Hdecisions : decisions_ok validate log)
    (Hcodec : Forall (λ d, model_validate (model_dump d) = Ok d) (omap (decoded validate) log))
    (Hclean : clean validate error_text io cfg tp log (mkService false new_consumer ∅) ts) :
  let c := consumer (serve validate error_text io cfg tp log (mkService false new_consumer ∅) ts) in
  let k := Z.to_nat (offset_at tp (committed c)) in
  ∃ drs u, drs.*2 `prefix_of` log ∧ (k ≤ length drs ≤ S k)%nat ∧
    uninterrupted validate error_text cfg tp drs = (Ok false, u) ∧
    but_sessions (db u) (db c) ∧
    (db c = db u ∨ ∃ r, log !! k = Some r ∧ foreign validate cfg r) ∧
    sent u `sublist_of` sent c ∧
    ∀ sid amb, ∃ rs, let start := AlertState.empty sid (machine_id cfg) in
      run (policy cfg) start (of_session sid (accepted validate drs)) = Ok rs ∧
      load_alert_state amb sid (machine_id cfg) (Some (policy cfg)) (db c) =
        (Ok (final_state start rs), db c) ∧
      reconstruct_alert_state amb (db c) sid (machine_id cfg) (policy cfg) = Ok (final_state start rs).
Proof.
  intros c k.
  destruct (service_serve validate error_text cfg tp log io (mkService false new_consumer ∅) ts Hdecisions Hoffsets)
    as (k' & (drs & u & Hpre & Hreach & Hlen & Hsent & Hdb) & Hcom & _); [|done|].
  { exists 0%nat. split_and!; [|done|done]. exists [], new_consumer.
    split_and!; [apply prefix_nil|apply reached_nil|simpl; lia..|done|by left]. }
  fold c in Hsent, Hdb, Hcom. assert (k = k') as -> by (unfold k; rewrite Hcom; lia).
  destruct Hreach as [Hrun Hrec Hgood Hf Hdep].
  assert (but_sessions (db u) (db c)) as Hbut.
  { destruct Hdb as [->|(_ & ? & _)]; [apply but_sessions_refl|done]. }
  destruct (decisions_ok_accepted validate drs) as [Hdated Hnd]; [by eapply decisions_ok_prefix|].
  exists drs, u. split_and!; [done|lia|lia|done|done|tauto|done|]. intros sid amb.
  apply (recovered_state cfg); [|done|done|].
  - destruct Hbut as [f ->]. by destruct Hrec.
  - destruct Hpre as [l Hl]. rewrite Hl, omap_app, <-accepted_decisions in Hcodec.
    apply Forall_app in Hcodec as [Hcodec _]. by apply Forall_fmap in Hcodec.
Qed.

Import ConsumerExamples StatusExamples.

Lemma log_offsets i r : log !! i = Some r → roffset r = Z.of_nat i.
Proof. unfold log. rewrite list_lookup_imap, fmap_Some. by intros (b & _ & ->). Qed.

(** The commit of the malformed record is lost, and so is that of the fifth record; in
    between an alert is resolved. *)
Definition crashes : list Turn :=
  [Restarted; Interrupted 2 [draws 1; draws 2]; Restarted; Polled [draws 3; draws 4; draws 5];
   Interrupted 0 [draws 6; draws 7]; Restarted; Polled [draws 8; draws 9]].

Lemma recovery_exact_witness :
  let c := consumer (serve validate error_text (λ _, None) cfg tp log stopped crashes) in
  offset_at tp (committed c) = 6 ∧ size (alert_outbox (db c)) = 3%nat ∧ length (sent c) = 2%nat ∧
  let k := Z.to_nat (offset_at tp (committed c)) in
  ∃ drs u, drs.*2 `prefix_of` log ∧ (k ≤ length drs ≤ S k)%nat ∧
    uninterrupted validate error_text cfg tp drs = (Ok false, u) ∧
    but_sessions (db u) (db c) ∧
    (db c = db u ∨ ∃ r, log !! k = Some r ∧ foreign validate cfg r) ∧
    sent u `sublist_of` sent c ∧
    ∀ sid amb, ∃ rs, let start := AlertState.empty sid "metropt" in
      run AlertExamples.policy start (of_session sid (accepted validate drs)) = Ok rs ∧
      load_alert_state amb sid "metropt" (Some AlertExamples.policy) (db c) =
        (Ok (final_state start rs), db c) ∧
      reconstruct_alert_state amb (db c) sid "metropt" AlertExamples.policy = Ok (final_state start rs).
Proof.
  cbv zeta. split_and!; [vm_compute; reflexivity..|].
  apply (recovery_exact validate error_text (λ _, None) cfg tp log crashes).
  - exact log_offsets.
  - split; [repeat constructor; unfold dt_valid; simpl; unfold seconds, usec_per_day, usec; lia|].
    apply (bool_decide_unpack _). vm_compute. reflexivity.
  - repeat constructor.
  - repeat split; intros _; vm_compute; reflexivity.
Defined.

(** At-least-once delivery of scores is harmless: when the last decision of a
    session is delivered again, after a crash between the database commit and
    the Kafka commit, whatever was consumed for other sessions in between, it is
    accepted, emits nothing and leaves the database as it is. *)
Theorem redelivery_is_noop
    `{JsonModel ScoreDecisionV1.t, JsonModel AlertEventV1.t, JsonModel EvidenceSnapshotV1.t}
    cfg ads s s' ad before draws
    (Hdated : dated ads)
    (Hdistinct : NoDup ((λ ad, ScoreDecisionV1.decision_id ad.2) <$> ads))
    (Hfresh : db s = empty_db)
    (Hrun : consume cfg ads s = (Ok (), s'))
    (Hin : ad ∈ ads)
    (Hlast : of_session (session_of ad.2) ads = before ++ [(ambient ad.1, ad.2)]) :
  ∃ r, apply_decision cfg draws ad.2 s' = (Ok r, s') ∧ TransitionResult.event r = None.
Proof.
  assert (recovered cfg ads (db s')) as Hrec.
  { eapply (consume_recovers cfg ads []); [|done|done|done]. rewrite Hfresh. apply recovered_empty. }
  eapply redelivered; [done| |done|done|done|done].
  apply (proj1 (consume_good cfg ads s s' Hrun ltac:(rewrite Hfresh; split;
    [exact db_ok_empty|exact outbox_ok_empty]))).
Qed.

Lemma redelivery_is_noop_witness :
  ∃ s', consume cfg ads fresh = (Ok (), s') ∧
  ∃ r, apply_decision cfg (draws 9) (AlertExamples.decision 2 true) s' = (Ok r, s') ∧
    TransitionResult.event r = None.
Proof.
  assert (is_ok (consume cfg ads fresh).1 = true) as Hok by (vm_compute; reflexivity).
  destruct (consume cfg ads fresh) as [[[]|e] s'] eqn:Hrun; [|discriminate Hok].
  exists s'. split; [reflexivity|].
  apply (redelivery_is_noop cfg ads fresh s' (draws 2, AlertExamples.decision 2 true)
    [(AlertExamples.ambient 1, AlertExamples.decision 1 true)] (draws 9)).
  - repeat constructor; unfold dt_valid; simpl; unfold seconds, usec_per_day, usec; lia.
  - apply (bool_decide_unpack _). vm_compute. reflexivity.
  - reflexivity.
  - exact Hrun.
  - apply elem_of_cons. right. apply elem_of_cons. left. reflexivity.
  - reflexivity.
Defined.

(** C13. What a committed offset stands for, over the whole life of the service on the
    log of a partition: any sequence of polls, restarts and interruptions, any outcomes of the calls to
    Kafka, any records.  Each record that the committed offset has passed was, in
    one of the turns, processed without failing its session and then committed
    itself, after every earlier record of its batch - or it was in the rest of a
    polled batch that an exception ended, at or after the record that raised, and
    the loop polled on.  When no polled batch was ended by an exception the second
    case is excluded: nothing unprocessed is committed past.  And each turn moves
    the commit exactly to the offset after the last record it got through; where
    it stops short of the end of its batch, that record failed its session or
    raised or its commit raised, and after a failed session the service is no
    longer running. *)
Theorem commits_are_exact
    `{JsonModel ScoreDecisionV1.t, JsonModel AlertEventV1.t, JsonModel EvidenceSnapshotV1.t,
      JsonModel ReplayStatusV1.t, JsonModel QuarantineRecordV1.t}
    validate error_text io cfg tp log s0 ts
    (Hoffsets : ∀ i r, log !! i = Some r → roffset r = Z.of_nat i)
    (Hstopped : running s0 = false) :
  let serve := serve validate error_text io cfg tp log s0 in
  let through pre t := got_through validate error_text io cfg tp log (serve pre) t in
  let behind pre t := left_behind validate error_text io cfg tp log (serve pre) t in
  let passed r := ∃ i, log !! i = Some r ∧
    offset_at tp (committed (consumer s0)) ≤ Z.of_nat i < offset_at tp (committed (consumer (serve ts))) in
  (∀ r, passed r → ∃ pre t post, ts = pre ++ t :: post ∧ (through pre t r ∨ behind pre t r)) ∧
  (clean validate error_text io cfg tp log s0 ts →
     ∀ r, passed r → ∃ pre t post, ts = pre ++ t :: post ∧ through pre t r) ∧
  ∀ pre t post, ts = pre ++ t :: post → turn_exact validate error_text io cfg tp log (serve pre) t.
Proof.
  intros sv through behind passed.
  assert (∀ r, passed r → ∃ pre t post, ts = pre ++ t :: post ∧ (through pre t r ∨ behind pre t r)) as Hacc.
  { intros r (i & Hr & Hlo & Hhi).
    destruct (serve_covered validate error_text io cfg tp log Hoffsets s0 ts Hstopped) as [Hc _]. by apply (Hc i r). }
  split_and!; [exact Hacc| |intros; apply turn_exact_holds].
  intros Hclean r Hr. destruct (Hacc r Hr) as (pre & t & post & -> & [Ht|Hb]); [eauto 10|].
  exfalso. eapply left_behind_unclean; [exact Hb|]. by eapply clean_split.
Qed.

(** The commit of the first record fails and the poll that follows passes it. *)
Lemma commits_are_exact_witness :
  let ts := [Restarted; Polled [draws 1; draws 2]; Polled [draws 3; draws 4]] in
  let served := serve validate error_text (fails_once 0) cfg tp log stopped in
  offset_at tp (committed (consumer (served ts))) = 4 ∧
  ∀ i r, log !! i = Some r → Z.of_nat i < 4 → ∃ pre t post, ts = pre ++ t :: post ∧
    (got_through validate error_text (fails_once 0) cfg tp log (served pre) t r ∨
     left_behind validate error_text (fails_once 0) cfg tp log (served pre) t r).
Proof.
  cbv zeta.
  assert (offset_at tp (committed (consumer (serve validate error_text (fails_once 0) cfg tp log stopped
    [Restarted; Polled [draws 1; draws 2]; Polled [draws 3; draws 4]]))) = 4) as Hc by (vm_compute; reflexivity).
  split; [exact Hc|]. intros i r Hr Hi.
  apply (commits_are_exact validate error_text (fails_once 0) cfg tp log stopped
    [Restarted; Polled [draws 1; draws 2]; Polled [draws 3; draws 4]] log_offsets eq_refl).
  exists i. rewrite Hc. split; [exact Hr|]. split; [change (0 ≤ Z.of_nat i); lia|exact Hi].
Defined.

(** C17. The outbox is delivered: with a broker that accepts every message the
    dispatcher ends, sends every pending alert message exactly once, in the
    order of the message identifiers, and leaves none pending. *)
Theorem outbox_is_delivered io now fuel s msgs
    (Hio : ∀ n, io n = None)
    (Hmsgs : mapR message_of (unpublished (db s)) = Ok msgs)
    (Hfuel : (length msgs < fuel)%nat) :
  sent (dispatch_loop io fuel now s) = sent s ++ msgs ∧
  unpublished (db (dispatch_loop io fuel now s)) = [].
Proof. exact (dispatch_loop_spec io now fuel s msgs Hio Hmsgs Hfuel). Qed.

Lemma outbox_is_delivered_witness :
  let entry := OutboxEntry.mk ALERT_EVENTS_TOPIC "key" [("n", JInt 1)]%string None in
  let s := set_db (set_outbox <[AlertExamples.uid 1 := entry]> empty_db) fresh in
  let msg := mkSent ALERT_EVENTS_TOPIC (encode (text (chars "{" ++ json_string "n" ++ chars ":1}"))) (encode "key") in
  sent (dispatch_loop (λ _, None) 2 0 s) = sent s ++ [msg] ∧
  unpublished (db (dispatch_loop (λ _, None) 2 0 s)) = [].
Proof.
  intros entry s msg.
  apply (outbox_is_delivered (λ _, None) 0 2 s [msg]).
  - reflexivity.
  - vm_compute. reflexivity.
  - simpl. lia.
Defined.

(** No alert message is lost: with any sequence of failures of the broker,
    every entry the dispatcher has marked as published was sent. *)
Theorem published_was_sent io now fuel s (Hdelivered : delivered s) :
  delivered (dispatch_loop io fuel now s).
Proof. exact (dispatch_loop_delivered io now fuel s Hdelivered). Qed.

Lemma published_was_sent_witness :
  let entry := OutboxEntry.mk ALERT_EVENTS_TOPIC "key" [("n", JInt 1)]%string None in
  let s := set_db (set_outbox <[AlertExamples.uid 1 := entry]> empty_db) fresh in
  delivered (dispatch_loop (λ n, if bool_decide (n = 0%nat) then Some (KafkaError "down") else None) 3 0 s).
Proof.
  intros entry s. apply published_was_sent. intros i o Ho Hp. simpl in Ho.
  apply lookup_insert_Some in Ho as [[_ <-]|[_ Ho]]; [done|by rewrite lookup_empty in Ho].
Defined.

(** ** The meaning of an outcome *)
Lemma status_make_fields m sid ds cs ts ea st q ec x :
  ReplayStatusV1.make m sid ds cs ts ea st q ec = Ok x →
  ReplayStatusV1.replay_session_id x = sid ∧ ReplayStatusV1.state x = st ∧
  ReplayStatusV1.error_code x = ec.
Proof. unfold ReplayStatusV1.make, field. intros Hm. by inv_res. Qed.

Lemma next_call_Ok io s u s' :
  next_call io s = (Ok u, s') → s' = mkC (db s) (failed_sessions s) (sent s) (S (calls s)) (committed s).
Proof. unfold next_call. destruct (io (calls s)); by intros [= _ <-]. Qed.

Lemma send_Ok io msg s u s' :
  send_and_wait io msg s = (Ok u, s') →
  db s' = db s ∧ failed_sessions s' = failed_sessions s ∧ sent s' = sent s ++ [msg].
Proof.
  unfold send_and_wait. intros Hs. apply M_bind_Ok in Hs as (? & s1 & Hn & Hs).
  apply next_call_Ok in Hn. subst. unfold modify in Hs. by simplify_eq.
Qed.

Lemma record_status_Ok now st dbase u d :
  record_replay_status now st dbase = (Ok u, d) →
  ∃ row, d = set_sessions <[ReplayStatusV1.replay_session_id st := row]> dbase ∧
    SessionRow.state row = ReplayStatusV1.state st ∧
    SessionRow.error_code row = ReplayStatusV1.error_code st.
Proof.
  unfold record_replay_status. intros Hr. apply update_Ok in Hr. cbv zeta in Hr. simplify_eq.
  eexists. split; [reflexivity|]. by case_match.
Qed.

Lemma fail_session_Ok `{JsonModel ReplayStatusV1.t} io cfg draws sid ts code s u s' :
  fail_session io cfg draws sid ts code s = (Ok u, s') →
  ∃ row, db s' = set_sessions <[sid := row]> (db s) ∧ SessionRow.state row = FAILED ∧
    SessionRow.error_code row = Some code ∧ failed_sessions s' = {[sid]} ∪ failed_sessions s.
Proof.
  unfold fail_session. rewrite M_bind_run. unfold modify. intros Hr.
  apply M_bind_Ok in Hr as (st & s1 & Hmk & Hr). apply lift_res_Ok in Hmk as [Hmk ->].
  apply status_make_fields in Hmk as (Hsid & Hstate & Hcode).
  apply M_bind_Ok in Hr as ([] & s1 & Hdb & Hr). apply on_db_Ok in Hdb as (d & Hdb & ->).
  apply record_status_Ok in Hdb as (row & -> & Hs & Hc). exists row. rewrite Hs, Hc, <-Hsid.
  assert (db s' = set_sessions <[ReplayStatusV1.replay_session_id st := row]> (db s) ∧
    failed_sessions s' = {[ReplayStatusV1.replay_session_id st]} ∪ failed_sessions s) as [-> ->]; [|done].
  unfold whenM in Hr. rewrite Hsid in *. destruct (has_producer cfg).
  - apply M_bind_Ok in Hr as (v & s2 & Hv & Hr). apply lift_res_Ok in Hv as [_ ->].
    by apply send_Ok in Hr as (-> & -> & _).
  - apply M_ret_Ok in Hr as [_ ->]. done.
Qed.

(** Each outcome means what it says.  QUARANTINED: the record did not decode,
    nothing but one message on the quarantine topic, keyed by the digest of the
    payload, came of it.  SKIPPED: its session had failed before and nothing
    happened.  SESSION_FAILED: the decision is not of the deployed dataset,
    contract and model; the session is marked as failed, its row says FAILED
    with CONTRACT_MISMATCH, and no decision or alert was stored.  COMMITTED: the
    decision is of the deployed policy and was applied in one transaction. *)
Theorem outcome_meaning
    `{JsonModel ScoreDecisionV1.t, JsonModel AlertEventV1.t, JsonModel EvidenceSnapshotV1.t,
      JsonModel ReplayStatusV1.t, JsonModel QuarantineRecordV1.t}
    validate error_text io cfg draws record s o s'
    (Hrun : process validate error_text io cfg draws record s = (Ok o, s')) :
  match o with
  | QUARANTINED => is_ok (decode_message validate (rvalue record)) = false ∧ db s' = db s ∧
      failed_sessions s' = failed_sessions s ∧
      ∃ v, sent s' = sent s ++ [mkSent QUARANTINE_TOPIC v (encode (sha256_hex (rvalue record)))]
  | SKIPPED => s' = s ∧ ∃ d, decode_message validate (rvalue record) = Ok d ∧
      session_of d ∈ failed_sessions s
  | SESSION_FAILED => ∃ d e row, decode_message validate (rvalue record) = Ok d ∧
      assert_identity cfg d = Err e ∧ session_of d ∈ failed_sessions s' ∧
      replay_sessions (db s') !! session_of d = Some row ∧ SessionRow.state row = FAILED ∧
      SessionRow.error_code row = Some "CONTRACT_MISMATCH"%string ∧
      score_decisions (db s') = score_decisions (db s) ∧ alerts (db s') = alerts (db s) ∧
      alert_outbox (db s') = alert_outbox (db s)
  | COMMITTED => ∃ d r, decode_message validate (rvalue record) = Ok d ∧
      assert_identity cfg d = Ok () ∧ (session_of d ∉ failed_sessions s) ∧
      apply_decision cfg draws d s = (Ok r, s')
  end.
Proof.
  unfold process in Hrun. destruct (decode_message validate (rvalue record)) as [d|e] eqn:Hd.
  - rewrite M_bind_run in Hrun. unfold gets in Hrun. case_bool_decide as Hf.
    { inv_M. eauto. }
    destruct (assert_identity cfg d) as [[]|e] eqn:Hid.
    { inv_M. eauto 10. }
    destruct (is_value_error e) eqn:Hv; [|discriminate Hrun]. inv_M.
    match goal with Hx : fail_session _ _ _ _ _ _ _ = _ |- _ =>
      apply fail_session_Ok in Hx as (row & Hdb & Hst & Hcode & Hfs) end.
    exists d, e, row. rewrite Hdb, Hfs. simpl. rewrite lookup_insert_eq.
    split_and!; try done. set_solver.
  - inv_M.
    match goal with Hx : publish_quarantine _ _ _ _ _ _ _ = _ |- _ => unfold publish_quarantine in Hx end.
    destruct (negb _); [done|]. inv_M.
    match goal with Hx : send_and_wait _ _ _ = _ |- _ => apply send_Ok in Hx as (-> & -> & ->) end.
    eauto.
Qed.

Lemma outcome_meaning_witness :
  ∃ s', process validate error_text (λ _, None) cfg (draws 9)
          (mkRecord SCORES_TOPIC 0 4 [0; 255]) fresh = (Ok QUARANTINED, s') ∧
    is_ok (decode_message validate [0; 255]) = false ∧ db s' = db fresh ∧
    failed_sessions s' = failed_sessions fresh ∧
    ∃ v, sent s' = sent fresh ++ [mkSent QUARANTINE_TOPIC v (encode (sha256_hex [0; 255]))].
Proof.
  destruct (process validate error_text (λ _, None) cfg (draws 9)
    (mkRecord SCORES_TOPIC 0 4 [0; 255]) fresh) as [[o|e] s'] eqn:Hrun.
  - assert (o = QUARANTINED) as ->.
    { apply (f_equal fst) in Hrun. vm_compute in Hrun. by injection Hrun. }
    exists s'. split; [reflexivity|]. exact (outcome_meaning _ _ _ _ _ _ _ _ _ Hrun).
  - exfalso. apply (f_equal (λ x, is_ok x.1)) in Hrun. vm_compute in Hrun. discriminate Hrun.
Defined.


