(* ===== verification/ReplayService.v ===== *)
(** * The replay service ([replay_service.py])

    The service is an asyncio program of two coroutines: the command loop
    ([run], one command at a time) and the task of the active session
    ([_run_replay_session], or [resume_checkpoint] after a restart).  A
    coroutine gives up control only where it waits: for the next record, for a
    broker call, for [pause_event] or in [asyncio.sleep].  The model is a
    transition function over these segments: [step ev s] runs one segment from
    one waiting point to the next, the event saying which waiting point is over
    and how.  Any interleaving of the two coroutines, of failing or lost broker
    calls, of shutdowns, kills and restarts is a list of events.

    The store keeps its transactions across a kill; a record being sent when the
    process dies or the call fails may or may not have reached the broker.  The
    optional metrics are absent. *)

From S2P Require Import Prelude PyText PyUuid PyTime PyFloat PyHash PyJson.
From S2P Require Import Messages KafkaIo ArtifactIntegrity Replay Tables Store.

(** The fresh values a segment can use. *)
Record RDraws := mkRDraws {
  uuid_a : UUID; uuid_b : UUID; wall_clock : aware; db_clock : Z
}.

(** What the service publishes, and the record that carries it. *)
Inductive Message :=
| MTelemetry (event : TelemetryEventV1.t)
| MStatus (status : ReplayStatusV1.t)
| MQuarantine (record : QuarantineRecordV1.t).
Definition Outgoing : Type := Message * Sent.

(** The end of [send_and_wait]: acknowledged, or an exception after which the
    broker may have the record. *)
Inductive Delivery := Acked | Raised (delivered : bool).
Definition reached (d : Delivery) : bool := match d with Acked => true | Raised b => b end.

(** ** The task of a session *)

(** The local variables of the two coroutines.  [resumed] tells them apart. *)
Record Locals := mkLocals {
  resumed : bool;
  ctrl : ReplayController.t;
  command : ReplayCommandV1.t;
  remaining : Gen TelemetryEventV1.t;
  last_seq : Z;
  last_ts : option datetime;
  prev_ts : option datetime
}.

(** Where the task waits.  [woken]: [pause_event] was set since the wait
    began, so [wait] returns even if it is cleared again. *)
Inductive Pc :=
| AtPause (event : TelemetryEventV1.t) (woken : bool)
| Sleeping (event : TelemetryEventV1.t)
| Sending (event : TelemetryEventV1.t) (msg : Sent)
| AtEndPause (woken : bool)
| SendingCompleted (status : ReplayStatusV1.t) (msg : Sent)
| SendingFailed (status : ReplayStatusV1.t) (msg : Sent).

(** A task that has not run yet, one that waits, one that sends the failure
    status of a session without a command, and one that is done. *)
Inductive Task :=
| FreshTask (initial_controller : ReplayController.t)
| ResumeTask (checkpoint : ReplayCheckpoint)
| Running (l : Locals) (pc : Pc)
| FreshFailed (status : ReplayStatusV1.t) (msg : Sent)
| TaskDone.

Definition task_done (t : Task) : bool := match t with TaskDone => true | _ => false end.

Definition set_ctrl (c : ReplayController.t) (l : Locals) : Locals :=
  mkLocals (resumed l) c (command l) (remaining l) (last_seq l) (last_ts l) (prev_ts l).
Definition set_remaining (g : Gen TelemetryEventV1.t) (l : Locals) : Locals :=
  mkLocals (resumed l) (ctrl l) (command l) g (last_seq l) (last_ts l) (prev_ts l).
(** [last_ts = event.source_timestamp; last_seq = event.sequence] *)
Definition set_last (event : TelemetryEventV1.t) (l : Locals) : Locals :=
  mkLocals (resumed l) (ctrl l) (command l) (remaining l) (TelemetryEventV1.sequence event)
    (Some (TelemetryEventV1.source_timestamp event)) (prev_ts l).
Definition set_prev (event : TelemetryEventV1.t) (l : Locals) : Locals :=
  mkLocals (resumed l) (ctrl l) (command l) (remaining l) (last_seq l) (last_ts l)
    (Some (TelemetryEventV1.source_timestamp event)).

(** [_checkpoint_state] *)
Definition checkpoint_state (pause_event stop_event : bool) : ReplayState :=
  if stop_event then STOPPED else if negb pause_event then PAUSED else RUNNING.

(** [last_timestamp or range_start or source_timestamp] *)
Definition terminal_timestamp (l : Locals) : datetime :=
  default (default (ReplayCommandV1.source_timestamp (command l))
             (ReplayCommandV1.range_start (command l))) (last_ts l).

(** ** The service *)
Record Session := mkSession {
  controller : ReplayController.t;
  pause_event : bool;
  stop_event : bool;
  task : Task
}.
Definition set_task (t : Task) (s : Session) : Session :=
  mkSession (controller s) (pause_event s) (stop_event s) t.

(** Where the command loop waits: for a record, for the broker to take the
    handler's message or the commit, for the task in [stop], or not any more. *)
Inductive Main :=
| Idle
| Publishing (msg : Outgoing) (offset : Z)
| Committing (offset : Z)
| Stopping
| Exited.

Record RState := mkR {
  db : DB;
  log : list Outgoing;
  committed : Z;
  source : ReplaySource.t;
  active_session : option Session;
  main : Main
}.

Definition set_db (d : DB) (s : RState) : RState :=
  mkR d (log s) (committed s) (source s) (active_session s) (main s).
Definition set_active (a : option Session) (s : RState) : RState :=
  mkR (db s) (log s) (committed s) (source s) a (main s).
Definition set_main (m : Main) (s : RState) : RState :=
  mkR (db s) (log s) (committed s) (source s) (active_session s) m.
Definition deliver (b : bool) (msg : Outgoing) (s : RState) : RState :=
  if b then mkR (db s) (log s ++ [msg]) (committed s) (source s) (active_session s) (main s) else s.

Definition on_store {A} (m : M DB A) : M RState A := λ s,
  let '(r, d) := m (db s) in (r, set_db d s).

(** [pause_event.set()] wakes the coroutine that waits for it. *)
Definition wake (t : Task) : Task :=
  match t with
  | Running l (AtPause ev _) => Running l (AtPause ev true)
  | Running l (AtEndPause _) => Running l (AtEndPause true)
  | _ => t
  end.
Definition set_pause_event (s : Session) : Session :=
  mkSession (controller s) true (stop_event s) (wake (task s)).
Definition clear_pause_event (s : Session) : Session :=
  mkSession (controller s) false (stop_event s) (task s).
Definition set_stop_event (s : Session) : Session :=
  mkSession (controller s) (pause_event s) true (task s).
Definition set_controller (c : ReplayController.t) (s : Session) : Session :=
  mkSession c (pause_event s) (stop_event s) (task s).

Section Service.
Context `{JsonModel ReplayCommandV1.t, JsonModel TelemetryEventV1.t, JsonModel ReplayStatusV1.t,
          JsonModel QuarantineRecordV1.t, TableOps}.
(** pydantic's [model_validate_json] of a command, and [str(err)]. *)
Variable validate : bytes → result ReplayCommandV1.t.
Variable error_text : exn → string.
(** [self.store is not None] and [self.enable_pacing] *)
Variable has_store enable_pacing : bool.

(** The records of [publish_telemetry], [publish_status] and
    [publish_quarantine], ready to be sent. *)
Definition publish_telemetry (event : TelemetryEventV1.t) : result Sent :=
  payload ← encode_message event;
  Ok (mkSent TELEMETRY_TOPIC payload (encode (TelemetryEventV1.machine_id event))).
Definition publish_status (status : ReplayStatusV1.t) : result Sent :=
  payload ← encode_message status;
  Ok (mkSent REPLAY_STATUS_TOPIC payload (encode (str_uuid (ReplayStatusV1.replay_session_id status)))).
Definition publish_quarantine (record : QuarantineRecordV1.t) : result Sent :=
  payload ← encode_message record;
  Ok (mkSent QUARANTINE_TOPIC payload (encode (QuarantineRecordV1.payload_sha256 record))).

(** [publish_status(ctrl.status())] *)
Definition status_message (now : aware) (c : ReplayController.t) : result (ReplayStatusV1.t * Sent) :=
  status ← ReplayController.status c None now;
  msg ← publish_status status;
  Ok (status, msg).

(** [if self.store is not None: self.store.record_replay_checkpoint(...)] *)
Definition checkpoint (now : Z) (cmd : ReplayCommandV1.t) (state : ReplayState) (seq : Z)
    (ts : option datetime) : M DB unit :=
  whenM has_store (record_replay_checkpoint now cmd state seq ts).

Section Segments.
Variables (d : RDraws) (pause stop : bool).

(** The [except Exception] block; an exception inside it ends the task. *)
Definition fail_session (l : Locals) : DB → Task * DB := λ db,
  let c := ReplayController.mark_failed (ctrl l) "REPLAY_STREAM_ERROR" (last_seq l) (terminal_timestamp l) in
  match checkpoint (db_clock d) (command l) FAILED (last_seq l) (Some (terminal_timestamp l)) db with
  | (Err _, db) => (TaskDone, db)
  | (Ok _, db) =>
      match status_message (wall_clock d) c with
      | Err _ => (TaskDone, db)
      | Ok (status, msg) => (Running (set_ctrl c l) (SendingFailed status msg), db)
      end
  end.

(** After the loop and its last wait. *)
Definition complete (l : Locals) : DB → Task * DB := λ db,
  if stop then (TaskDone, db)
  else
    let l := set_ctrl (ReplayController.mark_completed (ctrl l) (last_seq l) (terminal_timestamp l)) l in
    match checkpoint (db_clock d) (command l) COMPLETED (last_seq l) (Some (terminal_timestamp l)) db with
    | (Err _, db) => fail_session l db
    | (Ok _, db) =>
        match status_message (wall_clock d) (ctrl l) with
        | Err _ => fail_session l db
        | Ok (status, msg) => (Running l (SendingCompleted status msg), db)
        end
    end.

(** From the pacing to the broker call. *)
Definition begin_send (l : Locals) (event : TelemetryEventV1.t) : DB → Task * DB := λ db,
  let l := if resumed l then l else set_last event (set_prev event l) in
  match publish_telemetry event with
  | Err _ => fail_session l db
  | Ok msg => (Running l (Sending event msg), db)
  end.

(** After [await pause_event.wait()] in the loop. *)
Definition after_wait (l : Locals) (event : TelemetryEventV1.t) : DB → Task * DB := λ db,
  if stop then (TaskDone, db)
  else
    match prev_ts l with
    | Some prev =>
        if negb (resumed l) && enable_pacing && (prev <? TelemetryEventV1.source_timestamp event) then
          match pace_seconds prev (TelemetryEventV1.source_timestamp event)
                  (ReplayController.speed (ctrl l)) with
          | Err _ => fail_session l db
          | Ok delay => if fltb f0 delay then (Running l (Sleeping event), db) else begin_send l event db
          end
        else begin_send l event db
    | None => begin_send l event db
    end.

(** The head of the [for] loop. *)
Definition loop_head (l : Locals) : DB → Task * DB := λ db,
  match yields (remaining l) with
  | event :: events =>
      let l := set_remaining (mkGen events (ending (remaining l))) l in
      if negb (resumed l) && stop then (TaskDone, db)
      else if pause then after_wait l event db
      else (Running l (AtPause event false), db)
  | [] =>
      match ending (remaining l) with
      | Some _ => fail_session l db
      | None => if pause then complete l db else (Running l (AtEndPause false), db)
      end
  end.

(** The event was published. *)
Definition after_send (l : Locals) (event : TelemetryEventV1.t) : DB → Task * DB := λ db,
  let l := if resumed l then set_last event l else l in
  match checkpoint (db_clock d) (command l) (checkpoint_state pause stop) (last_seq l) (last_ts l) db with
  | (Err _, db) => fail_session l db
  | (Ok _, db) => loop_head l db
  end.

(** [_run_replay_session], up to the loop.  When the command cannot be built the
    [except] block needs the unbound [start_cmd] unless there is no store. *)
Definition default_start (c : ReplayController.t) : datetime :=
  default (datetime_of 2020 1 1 0 0 0 0) (ReplayController.range_start c).

Definition start_command (c : ReplayController.t) : result ReplayCommandV1.t :=
  ReplayCommandV1.make
    (* message_id *) (uuid_a d)
    (* replay_session_id *) (ReplayController.session_id c)
    (* source_dataset_sha256 *) (ReplayController.source_dataset_sha256 c)
    (* contract_sha256 *) (ReplayController.contract_sha256 c)
    (* source_timestamp *) (Naive (default_start c))
    (* emitted_at *) (Aware (wall_clock d))
    (* command_id *) (uuid_b d)
    (* action *) START
    (* speed *) (ReplayController.speed c)
    (* range_start *) (Naive <$> ReplayController.range_start c)
    (* range_end *) (Naive <$> ReplayController.range_end c).

Definition run_replay_session (src : ReplaySource.t) (c : ReplayController.t) : DB → Task * DB := λ db,
  match start_command c with
  | Ok start_cmd =>
      loop_head (mkLocals false c start_cmd (ReplaySource.iter_events src start_cmd 1 None)
                   0 (Some (default_start c)) None) db
  | Err _ =>
      if has_store then (TaskDone, db)
      else
        match status_message (wall_clock d)
                (ReplayController.mark_failed c "REPLAY_STREAM_ERROR" 0 (default_start c)) with
        | Err _ => (TaskDone, db)
        | Ok (status, msg) => (FreshFailed status msg, db)
        end
  end.

(** [resume_checkpoint], up to the loop. *)
Definition resume_checkpoint (src : ReplaySource.t) (cp : ReplayCheckpoint) : DB → Task * DB := λ db,
  let cmd := cp_command cp in
  match ReplayController.apply
          (ReplayController.created (cp_session cp) (ReplayCommandV1.source_dataset_sha256 cmd)
             (ReplayCommandV1.contract_sha256 cmd)) cmd with
  | Err _ => (TaskDone, db)
  | Ok c =>
      loop_head (mkLocals true c cmd
        (ReplaySource.iter_events src cmd (cp_sequence cp + 1) (cp_timestamp cp))
        (cp_sequence cp) (cp_timestamp cp) None) db
  end.

(** The task runs from its waiting point, when the wait is over. *)
Definition task_run (src : ReplaySource.t) (t : Task) : option (DB → Task * DB) :=
  match t with
  | FreshTask c => Some (run_replay_session src c)
  | ResumeTask cp => Some (resume_checkpoint src cp)
  | Running l (AtPause event true) => Some (after_wait l event)
  | Running l (Sleeping event) => Some (begin_send l event)
  | Running l (AtEndPause true) => Some (complete l)
  | _ => None
  end.

(** The broker call of the task ends. *)
Definition task_sent (t : Task) (how : Delivery) : option (Outgoing * (DB → Task * DB)) :=
  match t with
  | Running l (Sending event msg) =>
      Some ((MTelemetry event, msg),
            match how with Acked => after_send l event | Raised _ => fail_session l end)
  | Running l (SendingCompleted status msg) =>
      Some ((MStatus status, msg),
            match how with Acked => λ db, (TaskDone, db) | Raised _ => fail_session l end)
  | Running _ (SendingFailed status msg) | FreshFailed status msg =>
      Some ((MStatus status, msg), λ db, (TaskDone, db))
  | _ => None
  end.
End Segments.

(** The record a task is sending. *)
Definition in_flight (t : Task) : option Outgoing :=
  match t with
  | Running _ (Sending event msg) => Some (MTelemetry event, msg)
  | Running _ (SendingCompleted status msg) | Running _ (SendingFailed status msg)
  | FreshFailed status msg => Some (MStatus status, msg)
  | _ => None
  end.

(** ** The command handlers

    Each runs up to its last broker call, whose record it returns. *)
Definition announce (d : RDraws) (c : ReplayController.t) : M RState (option Outgoing) :=
  sm ← lift_res (status_message (wall_clock d) c);
  mret (Some (MStatus sm.1, sm.2)).

(** [self.active_session and not self.active_session.task.done()] *)
Definition live_session (s : RState) : option Session :=
  match active_session s with
  | Some a => if task_done (task a) then None else Some a
  | None => None
  end.

Definition handle_start (d : RDraws) (command : ReplayCommandV1.t) : M RState (option Outgoing) :=
  live ← gets live_session;
  src ← gets source;
  match live with
  | Some _ =>
      announce d (ReplayController.mark_failed
        (ReplayController.created (ReplayCommandV1.replay_session_id command)
           (ReplayCommandV1.source_dataset_sha256 command) (ReplayCommandV1.contract_sha256 command))
        "REPLAY_ALREADY_ACTIVE" 0 (ReplayCommandV1.source_timestamp command))
  | None =>
      let identity := ReplaySource.identity src in
      if negb (bool_decide (ReplayCommandV1.source_dataset_sha256 command =
                            PreparedArtifactIdentity.source_dataset_sha256 identity) &&
               bool_decide (ReplayCommandV1.contract_sha256 command =
                            PreparedArtifactIdentity.contract_sha256 identity))
      then
        announce d (ReplayController.mark_failed
          (ReplayController.created (ReplayCommandV1.replay_session_id command)
             (PreparedArtifactIdentity.source_dataset_sha256 identity)
             (PreparedArtifactIdentity.contract_sha256 identity))
          "REPLAY_SOURCE_IDENTITY_MISMATCH" 0 (ReplayCommandV1.source_timestamp command))
      else
        _ ← on_store (checkpoint (db_clock d) command RUNNING 0 None);
        c ← lift_res (ReplayController.apply
              (ReplayController.created (ReplayCommandV1.replay_session_id command)
                 (ReplayCommandV1.source_dataset_sha256 command)
                 (ReplayCommandV1.contract_sha256 command)) command);
        _ ← modify (set_active (Some (mkSession c true false (FreshTask c))));
        announce d c
  end.

(** The guard and the body the other three handlers share: the new state of
    the checkpoint, and what happens to the session's events. *)
Definition control_session (d : RDraws) (command : ReplayCommandV1.t) (state : ReplayState)
    (signal : Session → Session) : M RState (option Outgoing) :=
  live ← gets live_session;
  match live with
  | Some a =>
      if bool_decide (ReplayController.session_id (controller a) =
                      ReplayCommandV1.replay_session_id command) then
        c ← lift_res (ReplayController.apply (controller a) command);
        _ ← on_store (whenM has_store
              (update_replay_checkpoint_state (db_clock d) (ReplayController.session_id c) state));
        _ ← modify (set_active (Some (signal (set_controller c a))));
        announce d c
      else mret None
  | None => mret None
  end.

Definition handle_pause (d : RDraws) (command : ReplayCommandV1.t) : M RState (option Outgoing) :=
  control_session d command PAUSED clear_pause_event.
Definition handle_resume (d : RDraws) (command : ReplayCommandV1.t) : M RState (option Outgoing) :=
  control_session d command RUNNING set_pause_event.
Definition handle_stop (d : RDraws) (command : ReplayCommandV1.t) : M RState (option Outgoing) :=
  control_session d command STOPPED (set_pause_event ∘ set_stop_event).

Definition handle_command (d : RDraws) (command : ReplayCommandV1.t) : M RState (option Outgoing) :=
  match ReplayCommandV1.action command with
  | START => handle_start d command
  | PAUSE => handle_pause d command
  | RESUME => handle_resume d command
  | STOP => handle_stop d command
  end.

Definition handle_command_record (d : RDraws) (record : KafkaRecord) : M RState (option Outgoing) :=
  match decode_message validate (rvalue record) with
  | Err err =>
      quarantine ← lift_res (QuarantineRecordV1.make
        (* message_id *) (uuid_a d)
        (* replay_session_id *) None
        (* source_dataset_sha256 *) (text (replicate 64 "0"%char))
        (* contract_sha256 *) (text (replicate 64 "0"%char))
        (* source_timestamp *) (Naive (datetime_of 2020 1 1 0 0 0 0))
        (* emitted_at *) (Aware (wall_clock d))
        (* original_topic *) (rtopic record)
        (* partition *) (rpartition record)
        (* offset *) (roffset record)
        (* payload_sha256 *) (sha256_hex (rvalue record))
        (* error_code *) "INVALID_COMMAND_PAYLOAD"
        (* error_detail *) (text (take 1000 (chars (error_text err)))));
      msg ← lift_res (publish_quarantine quarantine);
      mret (Some (MQuarantine quarantine, msg))
  | Ok command => handle_command d command
  end.

(** ** Start and stop *)

(** [start]: the service of a new process, with the session it resumes. *)
Definition resume_session (cp : ReplayCheckpoint) : result Session :=
  _ ← guard_exn (is_incomplete (cp_state cp)) (RuntimeError "cannot resume checkpoint");
  let cmd := cp_command cp in
  c ← ReplayController.apply
        (ReplayController.created (cp_session cp) (ReplayCommandV1.source_dataset_sha256 cmd)
           (ReplayCommandV1.contract_sha256 cmd)) cmd;
  let c := ReplayController.mk (ReplayController.session_id c)
    (ReplayController.source_dataset_sha256 c) (ReplayController.contract_sha256 c)
    (cp_state cp) (ReplayController.speed c) (ReplayController.range_start c)
    (ReplayController.range_end c) (cp_timestamp cp) (Some (cp_sequence cp))
    (ReplayController.error_code c) in
  Ok (mkSession c (bool_decide (cp_state cp = RUNNING)) false (ResumeTask cp)).

Definition start (db : DB) : result (option Session) :=
  if negb has_store then Ok None
  else
    incomplete ← load_incomplete_replays db;
    match incomplete with
    | [] => Ok None
    | [cp] => Some <$> resume_session cp
    | _ => Err (RuntimeError "multiple incomplete replay sessions require operator resolution")
    end.

(** [stop], up to the wait for the task. *)
Definition stop (s : RState) : RState :=
  match live_session s with
  | Some a => set_main Stopping (set_active (Some (set_pause_event (set_stop_event a))) s)
  | None => set_main Exited s
  end.

(** ** Events and steps *)
Inductive Event :=
| Poll (d : RDraws) (record : KafkaRecord)
| Published (how : Delivery)
| CommitDone (ok : bool)
| TaskRun (d : RDraws)
| TaskSent (d : RDraws) (how : Delivery)
| Shutdown
| StopDone
| StopTimeout (delivered : bool)
| Kill (delivered_main delivered_task : bool)
| Start (clock : Z → aware).

(** What reaches the broker of the record the task is sending. *)
Definition flush_task (b : bool) (s : RState) : RState :=
  match live_session s with
  | Some a => match in_flight (task a) with Some msg => deliver b msg s | None => s end
  | None => s
  end.

(** The task takes one segment, while the process lives. *)
Definition run_task (f : Session → option (DB → Task * DB)) (s : RState) : option RState :=
  match main s, active_session s with
  | Exited, _ | _, None => None
  | _, Some a =>
      body ← f a;
      let '(t, db) := body (db s) in
      Some (set_active (Some (set_task t a)) (set_db db s))
  end.

Definition step (ev : Event) (s : RState) : option RState :=
  match ev with
  | Poll d record =>
      match main s with
      | Idle =>
          match handle_command_record d record s with
          | (Ok (Some msg), s) => Some (set_main (Publishing msg (roffset record + 1)) s)
          | (Ok None, s) => Some (set_main (Committing (roffset record + 1)) s)
          | (Err _, s) => Some (stop s)
          end
      | _ => None
      end
  | Published how =>
      match main s with
      | Publishing msg offset =>
          let s := deliver (reached how) msg s in
          match how with
          | Acked => Some (set_main (Committing offset) s)
          | Raised _ => Some (stop s)
          end
      | _ => None
      end
  | CommitDone ok =>
      match main s with
      | Committing offset =>
          if ok then
            Some (set_main Idle (mkR (db s) (log s) offset (source s) (active_session s) (main s)))
          else Some (stop s)
      | _ => None
      end
  | TaskRun d => run_task (λ a, task_run d (pause_event a) (stop_event a) (source s) (task a)) s
  | TaskSent d how =>
      a ← active_session s;
      mk ← task_sent d (pause_event a) (stop_event a) (task a) how;
      run_task (λ _, Some mk.2) (deliver (reached how) mk.1 s)
  | Shutdown =>
      match main s with
      | Idle | Committing _ => Some (stop s)
      | _ => None
      end
  | StopDone =>
      match main s, live_session s with
      | Stopping, None => Some (set_main Exited s)
      | _, _ => None
      end
  | StopTimeout delivered =>
      match main s, active_session s with
      | Stopping, Some a =>
          Some (set_main Exited (set_active (Some (set_task TaskDone a)) (flush_task delivered s)))
      | _, _ => None
      end
  | Kill delivered_main delivered_task =>
      match main s with
      | Exited => None
      | m =>
          let s := flush_task delivered_task s in
          let s := match m with Publishing msg _ => deliver delivered_main msg s | _ => s end in
          Some (set_main Exited (set_active None s))
      end
  | Start clock =>
      match main s with
      | Exited =>
          let src := ReplaySource.mk (ReplaySource.rows (source s)) (ReplaySource.identity (source s)) clock in
          match start (db s) with
          | Ok a => Some (mkR (db s) (log s) (committed s) src a Idle)
          | Err _ => Some (set_active None s)
          end
      | _ => None
      end
  end.

(** A schedule; events that are not enabled are skipped. *)
Definition exec (s : RState) (evs : list Event) : RState :=
  foldl (λ s ev, default s (step ev s)) s evs.

(** The service before its first process, on an empty database. *)
Definition initial (src : ReplaySource.t) : RState := mkR empty_db [] 0 src None Exited.
End Service.
