(* ===== verification/ReplayServiceTheory.v ===== *)
(** * The replay service: the invariant of its schedules

    The position of a session is a number [k]: the events before it are in the
    topic, its row in the store says so, and its task is about to send the next
    one.  [TaskPos] ties the row to the waiting point of the task; every segment
    preserves it. *)

From S2P Require Import Prelude PyText PyUuid PyTime PyFloat PyHash PyJson.
From S2P Require Import Messages KafkaIo ArtifactIntegrity Replay ReplayTheory Tables.
From S2P Require Import Store.
From S2P Require Import ReplayService.

(** ** What a topic holds *)
Definition telemetry_of (sid : UUID) (log : list Outgoing) : list TelemetryEventV1.t :=
  omap (λ m : Outgoing, match m.1 with
    | MTelemetry e =>
        if bool_decide (TelemetryEventV1.replay_session_id e = sid) then Some e else None
    | _ => None
    end) log.

(** Without the repetitions of the last event that a redelivery makes. *)
Definition dedup_step (acc : list TelemetryEventV1.t) (e : TelemetryEventV1.t)
  : list TelemetryEventV1.t :=
  match last acc with
  | Some e' =>
      if TelemetryEventV1.sequence e' =? TelemetryEventV1.sequence e then acc else acc ++ [e]
  | None => acc ++ [e]
  end.
Definition dedup (l : list TelemetryEventV1.t) : list TelemetryEventV1.t := foldl dedup_step [] l.

Lemma dedup_snoc l e : dedup (l ++ [e]) = dedup_step (dedup l) e.
Proof. unfold dedup. by rewrite foldl_app. Qed.

Lemma telemetry_snoc sid log (m : Outgoing) :
  telemetry_of sid (log ++ [m]) = telemetry_of sid log ++ telemetry_of sid [m].
Proof. apply omap_app. Qed.

Lemma telemetry_event sid e msg :
  TelemetryEventV1.replay_session_id e = sid → telemetry_of sid [(MTelemetry e, msg) : Outgoing] = [e].
Proof. intros Hs. unfold telemetry_of. simpl. by rewrite bool_decide_eq_true_2. Qed.

Lemma telemetry_other sid (m : Outgoing) :
  (∀ e, m.1 = MTelemetry e → TelemetryEventV1.replay_session_id e ≠ sid) → telemetry_of sid [m] = [].
Proof.
  intros Hm. unfold telemetry_of. simpl. destruct (m.1) as [e| |]; try done.
  by rewrite bool_decide_eq_false_2 by auto.
Qed.

Lemma erase_sequence e : TelemetryEventV1.sequence (erase_telemetry e) = TelemetryEventV1.sequence e.
Proof. done. Qed.

(** A START command with the values validation admits, and what a controller
    keeps of them. *)
Definition wf_start (c : ReplayCommandV1.t) : Prop :=
  is_hex64 (ReplayCommandV1.source_dataset_sha256 c) = true ∧
  is_hex64 (ReplayCommandV1.contract_sha256 c) = true ∧
  ReplayCommandV1.speed c ∈ [1; 100; 1000] ∧
  ∃ rs re, ReplayCommandV1.range_start c = Some rs ∧ ReplayCommandV1.range_end c = Some re ∧ rs < re.
Definition wf_ctrl (c : ReplayController.t) : Prop :=
  is_hex64 (ReplayController.source_dataset_sha256 c) = true ∧
  is_hex64 (ReplayController.contract_sha256 c) = true ∧
  ReplayController.speed c ∈ [1; 100; 1000].

Lemma apply_start_wf c0 cmd c :
  ReplayController.apply c0 cmd = Ok c → ReplayCommandV1.action cmd = START → wf_start cmd → wf_ctrl c.
Proof.
  intros Ha Hst (? & ? & ? & _). unfold ReplayController.apply in Ha. rewrite Hst in Ha. inv_res.
  by split_and!.
Qed.

Section Theory.
Context `{JsonModel ReplayCommandV1.t, JsonModel TelemetryEventV1.t, JsonModel ReplayStatusV1.t,
          JsonModel QuarantineRecordV1.t, TableOps}.
Variable enable_pacing : bool.
Variable src : ReplaySource.t.

(** The events of a replay, without the clock. *)
Definition logical_stream (c : ReplayCommandV1.t) : list TelemetryEventV1.t :=
  erase_telemetry <$> yields (ReplaySource.iter_events src c 1 None).
Definition stream_ending (c : ReplayCommandV1.t) : option exn :=
  ending (ReplaySource.iter_events src c 1 None).

Section Replay.
(** The command that started the replay. *)
Variable cmd : ReplayCommandV1.t.
Abbreviation sid := (ReplayCommandV1.replay_session_id cmd).
Abbreviation ys := (logical_stream cmd).

Lemma stream_lookup k e :
  ys !! k = Some e →
  TelemetryEventV1.sequence e = Z.of_nat (S k) ∧ TelemetryEventV1.replay_session_id e = sid.
Proof.
  unfold logical_stream. rewrite list_lookup_fmap. intros Hk.
  apply fmap_Some in Hk as (e' & Hk & ->). by apply iter_events_spec in Hk.
Qed.

(** The first [n] events have been published. *)
Definition published (n : nat) (tel : list TelemetryEventV1.t) : Prop :=
  erase_telemetry <$> dedup tel = take n ys ∧ (n ≤ length ys)%nat.

(** Publishing the event at a position [n] or [n - 1]. *)
Lemma published_snoc n k tel e :
  published n tel → ys !! k = Some (erase_telemetry e) → (k ≤ n ≤ S k)%nat →
  published (S k) (tel ++ [e]).
Proof.
  intros [Htel Hn] Hk Hkn. pose proof (stream_lookup _ _ Hk) as [Hseq _].
  rewrite erase_sequence in Hseq. split; [|apply lookup_lt_Some in Hk; lia].
  rewrite dedup_snoc.
  destruct (decide (n = k)) as [->|Hne].
  - assert (match last (dedup tel) with
      | Some e' => TelemetryEventV1.sequence e' =? TelemetryEventV1.sequence e
      | None => false end = false) as Hlast.
    { destruct (last (dedup tel)) as [e'|] eqn:Hl; [|done].
      pose proof (f_equal last Htel) as Hl'. rewrite fmap_last, Hl in Hl'. simpl in Hl'.
      destruct k as [|k]; [done|]. destruct (ys !! k) as [y|] eqn:Hy.
      - rewrite (take_S_r _ _ _ Hy), last_snoc in Hl'. injection Hl' as <-.
        apply stream_lookup in Hy as [Hy _]. rewrite erase_sequence in Hy. apply Z.eqb_neq. lia.
      - apply lookup_ge_None in Hy. apply lookup_lt_Some in Hk. lia. }
    assert (dedup_step (dedup tel) e = dedup tel ++ [e]) as ->.
    { unfold dedup_step. by destruct (last (dedup tel)); [rewrite Hlast|]. }
    rewrite fmap_app, Htel. simpl. by rewrite (take_S_r _ _ _ Hk).
  - assert (n = S k) as -> by lia.
    pose proof (f_equal last Htel) as Hl. rewrite (take_S_r _ _ _ Hk) in Hl.
    rewrite fmap_last, last_snoc in Hl. apply fmap_Some in Hl as (e' & Hl & He).
    apply (f_equal TelemetryEventV1.sequence) in He. rewrite !erase_sequence in He.
    unfold dedup_step. by rewrite Hl, He, Z.eqb_refl.
Qed.

Lemma published_skip n tel (m : Outgoing) :
  published n (telemetry_of sid tel) →
  (∀ e, m.1 = MTelemetry e → TelemetryEventV1.replay_session_id e ≠ sid) →
  published n (telemetry_of sid (tel ++ [m])).
Proof. intros Hp Hm. by rewrite telemetry_snoc, (telemetry_other _ _ Hm), app_nil_r. Qed.

(** ** Positions *)

(** The timestamp of the last event before a position. *)
Definition time_at (k : nat) : option datetime :=
  match k with
  | O => None
  | S j => TelemetryEventV1.source_timestamp <$> ys !! j
  end.

Definition RowPos (n k : nat) (r : CheckpointRow.t) : Prop :=
  CheckpointRow.last_sequence r = Z.of_nat k ∧ CheckpointRow.source_timestamp r = time_at k ∧
  (k ≤ n ≤ S k)%nat ∧ (n ≤ length ys)%nat.

(** The replay of a command kept in the store or by a task. *)
Definition same_start (c : ReplayCommandV1.t) : Prop :=
  same_replay c cmd ∧ ReplayCommandV1.action c = START ∧ (wf_start cmd → wf_start c).

Definition LoopPos (n : nat) (l : Locals) (ev : TelemetryEventV1.t) (r : CheckpointRow.t) : Prop :=
  ∃ k, RowPos n k r ∧ ys !! k = Some (erase_telemetry ev) ∧
    erase_gen (remaining l) = mkGen (drop (S k) ys) (stream_ending cmd).

Definition start_locals (l : Locals) : Prop :=
  same_start (command l) ∧ (wf_start cmd → wf_ctrl (ctrl l)) ∧ 0 ≤ last_seq l.

Definition TaskPos (n : nat) (t : Task) (r : CheckpointRow.t) : Prop :=
  match t with
  | FreshTask c =>
      RowPos n 0 r ∧ ReplayController.session_id c = sid ∧
      ReplayController.range_start c = ReplayCommandV1.range_start cmd ∧
      ReplayController.range_end c = ReplayCommandV1.range_end cmd ∧
      (wf_start cmd → wf_ctrl c)
  | ResumeTask cp =>
      ∃ k, RowPos n k r ∧ cp_session cp = sid ∧ same_start (cp_command cp) ∧
        cp_sequence cp = Z.of_nat k ∧ cp_timestamp cp = time_at k
  | Running l pc =>
      start_locals l ∧
      match pc with
      | AtPause ev _ | Sleeping ev => LoopPos n l ev r
      | Sending ev _ =>
          LoopPos n l ev r ∧
          (resumed l = false → last_seq l = TelemetryEventV1.sequence ev ∧
             last_ts l = Some (TelemetryEventV1.source_timestamp ev))
      | AtEndPause _ => RowPos n (length ys) r ∧ stream_ending cmd = None
      | SendingCompleted _ _ => CheckpointRow.state r = COMPLETED
      | SendingFailed _ _ => CheckpointRow.state r = FAILED
      end
  | FreshFailed _ _ | TaskDone => True
  end.

(** What holds of the row of a replay at any time. *)
Definition RowOk (n : nat) (r : CheckpointRow.t) : Prop :=
  (∃ c, CheckpointRow.command_payload r = model_dump c ∧ same_start c) ∧
  (is_incomplete (CheckpointRow.state r) = true → ∃ k, RowPos n k r) ∧
  (CheckpointRow.state r = COMPLETED → n = length ys ∧ stream_ending cmd = None).

(** The effect of a segment on the store: at most the row of the session. *)
Definition seg_ok (n : nat) (db : DB) (out : Task * DB) : Prop :=
  ∃ r, replay_checkpoints out.2 = <[sid := r]> (replay_checkpoints db) ∧
    RowOk n r ∧ TaskPos n out.1 r.

Lemma seg_keep n db t r :
  replay_checkpoints db !! sid = Some r → RowOk n r → TaskPos n t r → seg_ok n db (t, db).
Proof. intros Hr Hok Ht. exists r. split_and!; [|done|done]. simpl. by rewrite insert_id. Qed.

Lemma seg_after n db db' out r :
  replay_checkpoints db' = <[sid := r]> (replay_checkpoints db) → seg_ok n db' out → seg_ok n db out.
Proof.
  intros Hdb (r' & Ho & ?). exists r'. split; [|done]. by rewrite Ho, Hdb, insert_insert_eq.
Qed.

(** Checkpoints never fail. *)
Lemma checkpoint_run now c st seq ts db :
  st ≠ CREATED →
  ∃ db', checkpoint true now c st seq ts db = (Ok (), db') ∧
    replay_checkpoints db' = <[ReplayCommandV1.replay_session_id c :=
      CheckpointRow.mk (model_dump c) st seq ts now]> (replay_checkpoints db).
Proof.
  intros Hst. unfold checkpoint, whenM, record_replay_checkpoint, update, transaction.
  unfold checkpoint_state_ok. rewrite bool_decide_eq_false_2 by done. simpl.
  eexists. by split.
Qed.

Lemma fail_session_ok d n l db :
  start_locals l → seg_ok n db (fail_session true d l db).
Proof.
  intros Hc. unfold fail_session. cbv zeta.
  destruct (checkpoint_run (db_clock d) (command l) FAILED (last_seq l) (Some (terminal_timestamp l)) db)
    as (db' & -> & Hdb); [done|].
  rewrite (proj1 (proj1 (proj1 Hc))) in Hdb.
  assert (RowOk n (CheckpointRow.mk (model_dump (command l)) FAILED (last_seq l)
    (Some (terminal_timestamp l)) (db_clock d))) by (split_and!; simpl; [exists (command l); by split; [|apply Hc]|done|done]).
  destruct (status_message _ _) as [[st msg]|]; eexists; (split_and!; [exact Hdb|done|]); simpl; [|done].
  by split.
Qed.

Lemma complete_ok d stop n l db r :
  replay_checkpoints db !! sid = Some r → RowOk n r → start_locals l →
  n = length ys → stream_ending cmd = None → seg_ok n db (complete true d stop l db).
Proof.
  intros Hr Hok Hc Hn Hend. unfold complete. destruct stop; [by eapply seg_keep|]. cbv zeta.
  set (l' := set_ctrl _ l). assert (start_locals l') as Hc' by exact Hc.
  destruct (checkpoint_run (db_clock d) (command l') COMPLETED (last_seq l')
    (Some (terminal_timestamp l')) db) as (db' & -> & Hdb); [done|].
  rewrite (proj1 (proj1 (proj1 Hc'))) in Hdb.
  destruct (status_message _ _) as [[st msg]|]; [|by eapply seg_after; [|apply fail_session_ok]].
  eexists. split_and!; [exact Hdb| |]; [|by split].
  split_and!; simpl; [exists (command l'); by split; [|apply Hc']|done|done].
Qed.

Lemma locals_event k ev l :
  ys !! k = Some (erase_telemetry ev) → start_locals l →
  start_locals (set_last ev l) ∧ start_locals (set_last ev (set_prev ev l)).
Proof.
  intros Hk (Hc & Hw & _). apply stream_lookup in Hk as [Hk _]. rewrite erase_sequence in Hk.
  split; (split_and!; [exact Hc|exact Hw|simpl; lia]).
Qed.

Lemma begin_send_ok d n l ev db r :
  replay_checkpoints db !! sid = Some r → RowOk n r → start_locals l → LoopPos n l ev r →
  seg_ok n db (begin_send true d l ev db).
Proof.
  intros Hr Hok Hc Hpos. unfold begin_send. cbv zeta.
  assert (start_locals (if resumed l then l else set_last ev (set_prev ev l))) as Hc'.
  { destruct Hpos as (k & _ & Hk & _). destruct (resumed l); [done|]. by eapply locals_event. }
  destruct (publish_telemetry ev) as [msg|]; [|by apply fail_session_ok].
  eapply seg_keep; [done|done|]. split; [done|].
  split; [by destruct (resumed l)|]. by destruct (resumed l) eqn:Hl; simpl; [congruence|].
Qed.

Lemma after_wait_ok d stop n l ev db r :
  replay_checkpoints db !! sid = Some r → RowOk n r → start_locals l → LoopPos n l ev r →
  seg_ok n db (after_wait true enable_pacing d stop l ev db).
Proof.
  intros Hr Hok Hc Hpos. unfold after_wait. destruct stop; [by eapply seg_keep|].
  repeat case_match; try (by eapply begin_send_ok); [|by apply fail_session_ok].
  by eapply seg_keep.
Qed.

(** The head of the loop, at position [k]. *)
Lemma loop_head_ok d pause stop n k l db r :
  replay_checkpoints db !! sid = Some r → RowOk n r → start_locals l → RowPos n k r →
  erase_gen (remaining l) = mkGen (drop k ys) (stream_ending cmd) →
  seg_ok n db (loop_head true enable_pacing d pause stop l db).
Proof.
  intros Hr Hok Hc Hpos Hrem. unfold loop_head. destruct (remaining l) as [[|ev evs] en] eqn:Hl;
    cbn [yields ending] in *; injection Hrem as Hdrop Hend.
  - assert (k = length ys) as ->.
    { apply (f_equal length) in Hdrop. rewrite length_drop in Hdrop. simpl in Hdrop.
      destruct Hpos as (_ & _ & ? & ?). unfold logical_stream in *. lia. }
    destruct en; [by apply fail_session_ok|].
    assert (n = length ys) by (destruct Hpos as (_ & _ & ? & ?); lia).
    destruct pause; [by eapply complete_ok|]. by eapply seg_keep.
  - assert (ys !! k = Some (erase_telemetry ev) ∧ erase_telemetry <$> evs = drop (S k) ys) as [Hk Hevs].
    { split; [by rewrite <-(Nat.add_0_r k), <-lookup_drop, <-Hdrop|].
      by rewrite <-Nat.add_1_r, <-drop_drop, <-Hdrop. }
    assert (LoopPos n (set_remaining (mkGen evs en) l) ev r) as Hloop.
    { exists k. split_and!; [done|done|]. unfold erase_gen. simpl. by rewrite <-Hevs, Hend. }
    cbv zeta. destruct (negb _ && stop); [by eapply seg_keep|].
    destruct pause; [by eapply after_wait_ok|]. by eapply seg_keep.
Qed.

(** The broker has the event being sent. *)
Definition Delivered (n : nat) (l : Locals) (ev : TelemetryEventV1.t) (r : CheckpointRow.t) : Prop :=
  ∃ k, n = S k ∧ RowPos n k r ∧ ys !! k = Some (erase_telemetry ev) ∧
    erase_gen (remaining l) = mkGen (drop (S k) ys) (stream_ending cmd).

Lemma sending_delivered n l ev msg r tel :
  published n tel → RowOk n r → TaskPos n (Running l (Sending ev msg)) r →
  ∃ n', published n' (tel ++ [ev]) ∧ RowOk n' r ∧ TaskPos n' (Running l (Sending ev msg)) r ∧
    Delivered n' l ev r.
Proof.
  intros Hp (Hpay & _ & Hcomp) (Hc & (k & Hr & Hk & Hrem) & Hlast). exists (S k).
  destruct Hr as (Hseq & Hts & Hkn & Hn).
  assert (k < length ys)%nat by (by eapply lookup_lt_Some).
  assert (RowPos (S k) k r) as Hr by (split_and!; [done|done|lia|lia|lia]).
  split_and!; [by eapply published_snoc| | |by exists k].
  - split_and!; [done|eauto|]. intros Hst. destruct (Hcomp Hst). split; [lia|done].
  - split; [done|]. split; [by exists k|done].
Qed.

(** The values the checkpoint records. *)
Lemma after_send_ok d pause stop n l ev msg db r :
  replay_checkpoints db !! sid = Some r → TaskPos n (Running l (Sending ev msg)) r →
  Delivered n l ev r →
  seg_ok n db (after_send true enable_pacing d pause stop l ev db).
Proof.
  intros Hr (Hc & _ & Hlast) (k & -> & Hpos & Hk & Hrem). unfold after_send. cbv zeta.
  set (l' := if resumed l then set_last ev l else l).
  assert (start_locals l') as Hc'
    by (unfold l'; destruct (resumed l); [by eapply locals_event|done]).
  assert (last_seq l' = Z.of_nat (S k) ∧ last_ts l' = time_at (S k)) as [Hs Ht].
  { apply stream_lookup in Hk as Hseq. rewrite erase_sequence in Hseq. destruct Hseq as [Hseq _].
    simpl. rewrite Hk. unfold l'. destruct (resumed l); simpl; [by rewrite Hseq|].
    destruct Hlast as [-> ->]; [done|]. by rewrite Hseq. }
  assert (erase_gen (remaining l') = mkGen (drop (S k) ys) (stream_ending cmd)) as Hrem'
    by (unfold l'; by destruct (resumed l)).
  destruct (checkpoint_run (db_clock d) (command l') (checkpoint_state pause stop) (last_seq l')
    (last_ts l') db) as (db' & -> & Hdb); [by destruct pause, stop|].
  rewrite (proj1 (proj1 (proj1 Hc'))) in Hdb. eapply seg_after; [exact Hdb|].
  destruct Hpos as (_ & _ & _ & Hn).
  eapply loop_head_ok; [by rewrite Hdb, lookup_insert_eq| |done| |exact Hrem'].
  - split_and!; simpl; [exists (command l'); by split; [|apply Hc']| |by destruct pause, stop].
    intros _. exists (S k). split_and!; [done|done|lia|lia|lia].
  - split_and!; [done|done|lia|lia|lia].
Qed.

Lemma same_start_refl : ReplayCommandV1.action cmd = START → same_start cmd.
Proof. intros Hst. split; [by split_and!|done]. Qed.

Lemma start_command_same d c start_cmd :
  ReplayController.session_id c = sid →
  ReplayController.range_start c = ReplayCommandV1.range_start cmd →
  ReplayController.range_end c = ReplayCommandV1.range_end cmd →
  start_command d c = Ok start_cmd → same_start start_cmd.
Proof.
  intros Hsid Hrs Hre Hmake. unfold start_command, ReplayCommandV1.make,
    ReplayCommandV1.validate_start_command, field in Hmake.
  rewrite Hsid, Hrs, Hre in Hmake. inv_res. simpl in *.
  destruct (ReplayCommandV1.range_start cmd) as [rs|] eqn:Ers,
    (ReplayCommandV1.range_end cmd) as [re|] eqn:Ere; simpl in *; try done.
  inv_res. split; [by split_and!|]. split; [done|]. intros _.
  split_and!; try done. eexists _, re. split; [reflexivity|]. split; [reflexivity|]. by apply Z.leb_gt.
Qed.

Lemma start_command_ok d c :
  wf_start cmd → wf_ctrl c →
  ReplayController.range_start c = ReplayCommandV1.range_start cmd →
  ReplayController.range_end c = ReplayCommandV1.range_end cmd →
  is_ok (start_command d c) = true.
Proof.
  intros (_ & _ & _ & rs & re & Hs & He & Hlt) (Hd & Hc & Hsp) Hrs Hre.
  unfold start_command, default_start, ReplayCommandV1.make, field.
  rewrite Hd, Hc, Hrs, Hre, Hs, He, (bool_decide_eq_true_2 _ Hsp). simpl.
  rewrite (proj2 (Z.leb_gt re rs)) by lia. simpl. by rewrite Z.eqb_refl.
Qed.

(** What a task that has not run yet is going to send. *)
Lemma fresh_remaining src' c :
  same_file src' src → same_start c →
  erase_gen (ReplaySource.iter_events src' c 1 None) = mkGen ys (stream_ending cmd).
Proof.
  intros Hsrc Hc. unfold logical_stream, stream_ending.
  by rewrite (iter_events_clock src src'), (iter_events_replay src _ _ _ _ (proj1 Hc)).
Qed.

Lemma resume_remaining src' c n k r :
  same_file src' src → same_start c → RowPos n k r →
  erase_gen (ReplaySource.iter_events src' c (Z.of_nat k + 1) (time_at k)) =
    mkGen (drop k ys) (stream_ending cmd).
Proof.
  intros Hsrc Hc Hpos. destruct k as [|k]; [by apply fresh_remaining|]. simpl.
  rewrite (iter_events_replay src' _ _ _ _ (proj1 Hc)).
  destruct (ys !! k) as [y|] eqn:Hy.
  - unfold logical_stream, stream_ending in *. rewrite list_lookup_fmap in Hy.
    apply fmap_Some in Hy as (e & He & ->). simpl.
    rewrite <-fmap_drop. by rewrite <-(resume_events src src' cmd k e Hsrc He).
  - apply lookup_ge_None in Hy. destruct Hpos as (_ & _ & ? & ?). lia.
Qed.

Lemma fresh_task_ok d pause stop n src' c db r :
  same_file src' src →
  replay_checkpoints db !! sid = Some r → RowOk n r → TaskPos n (FreshTask c) r →
  seg_ok n db (run_replay_session true enable_pacing d pause stop src' c db).
Proof.
  intros Hsrc Hr Hok (Hpos & Hsid & Hrs & Hre & Hw). unfold run_replay_session.
  destruct (start_command d c) as [start_cmd|] eqn:Hmake; [|by eapply seg_keep].
  pose proof (start_command_same _ _ _ Hsid Hrs Hre Hmake) as Hc.
  eapply (loop_head_ok _ _ _ _ 0); [done|done|by split_and!|done|]. by apply fresh_remaining.
Qed.

Lemma resume_task_ok d pause stop n src' cp db r :
  same_file src' src →
  replay_checkpoints db !! sid = Some r → RowOk n r → TaskPos n (ResumeTask cp) r →
  seg_ok n db (resume_checkpoint true enable_pacing d pause stop src' cp db).
Proof.
  intros Hsrc Hr Hok (k & Hpos & Hsid & Hc & Hseq & Hts). unfold resume_checkpoint. cbv zeta.
  destruct (ReplayController.apply _ _) as [c|] eqn:Hc0; [|by eapply seg_keep].
  eapply (loop_head_ok _ _ _ _ k); [done|done| |done|].
  - split_and!; [apply Hc..| |simpl; lia]. intros Hw. eapply apply_start_wf; [done|apply Hc|by apply Hc].
  - simpl. rewrite Hseq, Hts. by eapply resume_remaining.
Qed.

(** ** One segment of the task *)
Lemma task_run_ok d pause stop n src' t f db r :
  same_file src' src →
  replay_checkpoints db !! sid = Some r → RowOk n r → TaskPos n t r →
  task_run true enable_pacing d pause stop src' t = Some f → seg_ok n db (f db).
Proof.
  intros Hsrc Hr Hok Ht Hf. destruct t as [c|cp|l pc|st msg|]; simpl in Hf; simplify_eq.
  - by eapply fresh_task_ok.
  - by eapply resume_task_ok.
  - destruct Ht as (Hc & Hpc). destruct pc as [ev []|ev|ev msg|[]|st msg|st msg]; simplify_eq.
    + by eapply after_wait_ok.
    + by eapply begin_send_ok.
    + destruct Hpc as [(Hs & Hk & Hn & Hlen) Hend]. eapply complete_ok; try done; lia.
Qed.

(** ** The invariant of one replay *)
Definition Started (n : nat) (s : RState) : Prop :=
  published n (telemetry_of sid (log s)) ∧
  ∃ r, replay_checkpoints (db s) !! sid = Some r ∧ RowOk n r ∧
    ∀ a, active_session s = Some a → ReplayController.session_id (controller a) = sid →
      TaskPos n (task a) r.

Lemma TaskPos_wake n t r : TaskPos n t r → TaskPos n (wake t) r.
Proof. destruct t as [| |l []| |]; done. Qed.

(** A record of the task that reaches the broker. *)
Lemma flush_pos n t r msg log :
  published n (telemetry_of sid log) → RowOk n r → TaskPos n t r → in_flight t = Some msg →
  ∃ n', published n' (telemetry_of sid (log ++ [msg])) ∧ RowOk n' r ∧ TaskPos n' t r ∧
    ∀ l ev m, t = Running l (Sending ev m) → Delivered n' l ev r.
Proof.
  intros Hp Hok Ht Hm. destruct t as [| |l []| |]; simpl in Hm; simplify_eq.
  - destruct (sending_delivered _ _ _ _ _ _ Hp Hok Ht) as (n' & Hp' & ? & ? & ?).
    exists n'. rewrite telemetry_snoc, telemetry_event; [|].
    { split_and!; [done|done|done|]. intros. by simplify_eq. }
    destruct Ht as (_ & (k & _ & Hk & _) & _). by apply stream_lookup in Hk as [_ Hk].
  - exists n. split_and!; [by apply published_skip|done|done|done].
  - exists n. split_and!; [by apply published_skip|done|done|done].
  - exists n. split_and!; [by apply published_skip|done|done|done].
Qed.

Lemma in_flight_session n t r msg e :
  TaskPos n t r → in_flight t = Some msg → msg.1 = MTelemetry e →
  TelemetryEventV1.replay_session_id e = sid.
Proof.
  destruct t as [| |l []| |]; simpl; try done; intros Ht Hm He; simplify_eq; try done.
  simpl in He. simplify_eq. destruct Ht as (_ & (k & _ & Hk & _) & _).
  by apply stream_lookup in Hk as [_ Hk].
Qed.

(** Changing the state of a row, as the control commands do. *)
Definition with_state (now : Z) (st : ReplayState) (r : CheckpointRow.t) : CheckpointRow.t :=
  CheckpointRow.mk (CheckpointRow.command_payload r) st (CheckpointRow.last_sequence r)
    (CheckpointRow.source_timestamp r) now.

Definition sending_terminal (t : Task) : bool :=
  match t with
  | Running _ (SendingCompleted _ _) | Running _ (SendingFailed _ _) | FreshFailed _ _ => true
  | _ => false
  end.

Lemma with_state_ok n t now st r :
  st ≠ COMPLETED → task_done t = false → sending_terminal t = false →
  RowOk n r → TaskPos n t r → RowOk n (with_state now st r) ∧ TaskPos n t (with_state now st r).
Proof.
  intros Hst Hd Hs (Hpay & _ & _) Ht. split.
  - split_and!; [done| |done]. intros _.
    destruct t as [| |l []| |]; simpl in *; try done; destruct_and?;
      repeat match goal with
      | Hk : ∃ _, _ |- _ => destruct Hk
      | Hk : _ ∧ _ |- _ => destruct Hk
      | Hk : LoopPos _ _ _ _ |- _ => destruct Hk
      end; eauto.
  - destruct t as [| |l []| |]; done.
Qed.
End Replay.

(** ** The invariant of the service *)
Definition Unstarted (sid : UUID) (s : RState) : Prop :=
  telemetry_of sid (log s) = [] ∧ replay_checkpoints (db s) !! sid = None ∧
  ∀ a, active_session s = Some a → ReplayController.session_id (controller a) ≠ sid.

Definition not_telemetry (m : Message) : Prop := ∀ e, m ≠ MTelemetry e.

Definition Inv (started : list ReplayCommandV1.t) (s : RState) : Prop :=
  same_file (source s) src ∧
  (∀ m o, main s = Publishing m o → not_telemetry m.1) ∧
  ∀ sid, Unstarted sid s ∨
    ∃ cmd n, cmd ∈ started ∧ ReplayCommandV1.action cmd = START ∧
      ReplayCommandV1.replay_session_id cmd = sid ∧ Started cmd n s.

(** A step that only moves the waiting points. *)
Definition moves (s s' : RState) : Prop :=
  db s' = db s ∧ log s' = log s ∧ source s' = source s ∧
  ∀ a', active_session s' = Some a' → ∃ a, active_session s = Some a ∧
    ReplayController.session_id (controller a') = ReplayController.session_id (controller a) ∧
    ∀ cmd n r, TaskPos cmd n (task a) r → TaskPos cmd n (task a') r.

Lemma inv_moves started s s' :
  moves s s' → (∀ m o, main s' = Publishing m o → not_telemetry m.1) → Inv started s → Inv started s'.
Proof.
  intros (Hdb & Hlog & Hsrc & Ha) Hm (Hs & _ & Hinv). split_and!; [by rewrite Hsrc|done|].
  intros sid. destruct (Hinv sid) as [(Hq1 & Hq2 & Hq3)|(cmd & n & Hin & Hst & Hsid & Hq1 & r & Hq2 & Hq3 & Hq4)].
  - left. split_and!; [by rewrite Hlog|by rewrite Hdb|].
    intros a' Ha'. destruct (Ha a' Ha') as (a & Ha1 & -> & _). by apply Hq3.
  - right. exists cmd, n. do 3 (split; [done|]). split; [by rewrite Hlog|]. exists r.
    rewrite Hdb. split_and!; [done|done|]. intros a' Ha' Hid.
    destruct (Ha a' Ha') as (a & Ha1 & Hid' & Hpos). apply Hpos, Hq4; congruence.
Qed.

(** What one step may change: the log and the row of the session [i], which may be
    under a new command. *)
Lemma inv_frame_new started started' s s' i :
  Inv started s →
  (∀ c, c ∈ started → ReplayCommandV1.replay_session_id c ≠ i → c ∈ started') →
  source s' = source s →
  (∀ m o, main s' = Publishing m o → not_telemetry m.1) →
  (∀ sid, sid ≠ i → telemetry_of sid (log s') = telemetry_of sid (log s)) →
  (∀ sid, sid ≠ i → replay_checkpoints (db s') !! sid = replay_checkpoints (db s) !! sid) →
  (∀ a, active_session s' = Some a → ReplayController.session_id (controller a) = i) →
  (∃ cmd n, cmd ∈ started' ∧ ReplayCommandV1.action cmd = START ∧
     ReplayCommandV1.replay_session_id cmd = i ∧ Started cmd n s') →
  Inv started' s'.
Proof.
  intros (Hs & _ & Hinv) Hsub Hsrc Hm Hlog Hdb Ha Hi. split_and!; [by rewrite Hsrc|done|].
  intros sid. destruct (decide (sid = i)) as [->|Hne]; [by right|].
  destruct (Hinv sid) as [(Hq1 & Hq2 & Hq3)|(cmd & n & Hin & Hst & Hsid & Hq1 & r & Hq2 & Hq3 & Hq4)].
  - left. split_and!; [by rewrite Hlog|by rewrite Hdb|]. intros a Hact. by rewrite (Ha a Hact).
  - right. exists cmd, n. subst sid. split; [by apply Hsub|]. do 2 (split; [done|]). split; [by rewrite Hlog|].
    exists r. rewrite Hdb by done. split_and!; [done|done|].
    intros a Hact Hid. specialize (Ha a Hact). congruence.
Qed.

Lemma inv_frame started s s' i :
  Inv started s →
  source s' = source s →
  (∀ m o, main s' = Publishing m o → not_telemetry m.1) →
  (∀ sid, sid ≠ i → telemetry_of sid (log s') = telemetry_of sid (log s)) →
  (∀ sid, sid ≠ i → replay_checkpoints (db s') !! sid = replay_checkpoints (db s) !! sid) →
  (∀ a, active_session s' = Some a → ReplayController.session_id (controller a) = i) →
  (∃ cmd n, cmd ∈ started ∧ ReplayCommandV1.action cmd = START ∧
     ReplayCommandV1.replay_session_id cmd = i ∧ Started cmd n s') →
  Inv started s'.
Proof. intros Hinv. by apply (inv_frame_new started). Qed.
End Theory.
