(* ===== verification/ReplayServiceInv.v ===== *)
(** * The replay service: every step preserves the invariant *)

From S2P Require Import Prelude PyText PyUuid PyTime PyFloat PyHash PyJson.
From S2P Require Import Messages KafkaIo ArtifactIntegrity Replay ReplayTheory Tables.
From S2P Require Import Store.
From S2P Require Import ReplayService ReplayServiceTheory.

(** The rows [load_incomplete_replays] reads. *)
Lemma load_incomplete_row `{JsonModel ReplayCommandV1.t} db cps cp :
  load_incomplete_replays db = Ok cps → cp ∈ cps →
  ∃ r, replay_checkpoints db !! cp_session cp = Some r ∧
    model_validate (CheckpointRow.command_payload r) = Ok (cp_command cp) ∧
    cp_state cp = CheckpointRow.state r ∧ is_incomplete (cp_state cp) = true ∧
    cp_sequence cp = CheckpointRow.last_sequence r ∧
    cp_timestamp cp = CheckpointRow.source_timestamp r.
Proof.
  unfold load_incomplete_replays. intros Hl Hcp. apply mapR_Forall2 in Hl.
  apply list_elem_of_lookup in Hcp as [i Hi].
  destruct (Forall2_lookup_r _ _ _ _ _ Hl Hi) as ([sid r] & Hrow & Hcp).
  apply list_elem_of_lookup_2 in Hrow. rewrite merge_sort_Permutation in Hrow.
  apply list_elem_of_filter in Hrow as [Hinc Hrow]. apply elem_of_map_to_list in Hrow.
  unfold checkpoint_of in Hcp. inv_res. simpl in *. eauto 10.
Qed.

Section Steps.
Context `{JsonModel ReplayCommandV1.t, JsonModel TelemetryEventV1.t, JsonModel ReplayStatusV1.t,
          JsonModel QuarantineRecordV1.t, TableOps}.
Variable validate : bytes → result ReplayCommandV1.t.
Variable error_text : exn → string.
Variable enable_pacing : bool.
Variable src : ReplaySource.t.
(** A stored command is read back as it was written. *)
Hypothesis command_codec : ∀ c : ReplayCommandV1.t, model_validate (model_dump c) = Ok c.

Abbreviation Inv := (Inv src).
Abbreviation step := (step validate error_text true enable_pacing).

(** The START command of a record. *)
Definition start_of (ev : Event) : option ReplayCommandV1.t :=
  match ev with
  | Poll _ record =>
      match decode_message validate (rvalue record) with
      | Ok c => if bool_decide (ReplayCommandV1.action c = START) then Some c else None
      | Err _ => None
      end
  | _ => None
  end.

(** A PAUSE, RESUME or STOP handled while the task of its session publishes its
    final status: the handler takes the session for a running one. *)
Definition late_control (ev : Event) (s : RState) : bool :=
  match ev with
  | Poll _ record =>
      match decode_message validate (rvalue record) with
      | Ok c =>
          negb (bool_decide (ReplayCommandV1.action c = START)) &&
          match live_session s with
          | Some a =>
              bool_decide (ReplayController.session_id (controller a) = ReplayCommandV1.replay_session_id c)
              && sending_terminal (task a)
          | None => false
          end
      | Err _ => false
      end
  | _ => false
  end.

(** The state with another topic. *)
Definition relog (L : list Outgoing) (s : RState) : RState :=
  mkR (db s) L (committed s) (source s) (active_session s) (main s).
Lemma relog_id s : relog (log s) s = s.
Proof. by destruct s. Qed.

Definition without (sid : UUID) (l : list ReplayCommandV1.t) : list ReplayCommandV1.t :=
  filter (λ c, ReplayCommandV1.replay_session_id c ≠ sid) l.

(** ** Steps that only move the waiting points *)
Lemma moves_refl s : moves src s s.
Proof. split_and!; try done. intros a Ha. exists a. by split_and!. Qed.

Lemma moves_stop s : moves src s (stop s).
Proof.
  unfold stop, live_session. destruct (active_session s) as [a|] eqn:Ha; [|].
  - destruct (task_done (task a)) eqn:Hd.
    + split_and!; try done. simpl. intros a' Ha'. exists a'. by split_and!.
    + split_and!; try done. simpl. intros a' Ha'. simplify_eq. exists a. split_and!; [done|done|].
      intros cmd n r Ht. by apply TaskPos_wake.
  - split_and!; try done. simpl. congruence.
Qed.

Lemma moves_main m s : moves src s (set_main m s).
Proof. split_and!; try done. simpl. intros a Ha. exists a. by split_and!. Qed.

Lemma main_stop s m o : main (stop s) ≠ Publishing m o.
Proof. unfold stop. by destruct (live_session s). Qed.

Lemma inv_stop started s : Inv started s → Inv started (stop s).
Proof.
  apply inv_moves; [apply moves_stop|]. intros m o Hm. by apply main_stop in Hm.
Qed.

Lemma inv_main started s m :
  (∀ o off, m = Publishing o off → not_telemetry o.1) → Inv started s → Inv started (set_main m s).
Proof. intros Hm. apply inv_moves; [apply moves_main|]. simpl. eauto. Qed.

(** ** What is delivered *)
Lemma inv_deliver started s b msg :
  not_telemetry msg.1 → Inv started s → Inv started (deliver b msg s).
Proof.
  intros Hm. destruct b; [|done]. intros (Hs & Hpub & Hinv). split_and!; [done|done|].
  intros sid. destruct (Hinv sid) as [(Ht & Hr & Ha)|(cmd & n & Hin & Hst & Hsid & Hp & Hrow)].
  - left. split_and!; [|done|done]. simpl. rewrite telemetry_snoc, Ht.
    rewrite telemetry_other; [done|]. intros e He. by apply Hm in He.
  - right. exists cmd, n. do 3 (split; [done|]). split; [|done]. simpl.
    apply published_skip; [done|]. intros e He. by apply Hm in He.
Qed.

(** The active session has been started. *)
Lemma active_started started s a :
  Inv started s → active_session s = Some a →
  ∃ cmd n, cmd ∈ started ∧ ReplayCommandV1.action cmd = START ∧
    ReplayCommandV1.replay_session_id cmd = ReplayController.session_id (controller a) ∧
    Started src cmd n s.
Proof.
  intros (_ & _ & Hinv) Ha. destruct (Hinv (ReplayController.session_id (controller a))) as [(_ & _ & Hne)|Hs].
  - by destruct (Hne a Ha).
  - done.
Qed.

(** One segment of the task of the active session, after its record reached
    the broker if it was sending one. *)
Lemma inv_segment started s s1 s2 a t d :
  Inv started s → active_session s = Some a →
  (** the broker *)
  source s1 = source s → main s1 = main s → active_session s1 = Some a → db s1 = db s →
  (∀ cmd n r, ReplayCommandV1.replay_session_id cmd = ReplayController.session_id (controller a) →
     Started src cmd n s → replay_checkpoints (db s) !! ReplayCommandV1.replay_session_id cmd = Some r →
     RowOk src cmd n r → TaskPos src cmd n (task a) r →
     ∃ n', published src cmd n' (telemetry_of (ReplayCommandV1.replay_session_id cmd) (log s1)) ∧
       seg_ok src cmd n' (db s) (t, d)) →
  (∀ sid, sid ≠ ReplayController.session_id (controller a) →
     telemetry_of sid (log s1) = telemetry_of sid (log s)) →
  s2 = set_active (Some (set_task t a)) (set_db d s1) →
  Inv started s2.
Proof.
  intros Hinv Ha Hsrc Hmain Ha1 Hdb Hseg Hlog ->.
  destruct (active_started _ _ _ Hinv Ha) as (cmd & n & Hin & Hst & Hsid & Hstarted).
  pose proof Hstarted as (Hp & r & Hr & Hok & Htask).
  destruct (Hseg cmd n r Hsid Hstarted Hr Hok (Htask a Ha (eq_sym Hsid)))
    as (n' & Hp' & r' & Hd & Hok' & Ht').
  apply (inv_frame _ _ s _ (ReplayController.session_id (controller a))); try done.
  - simpl. rewrite Hmain. apply Hinv.
  - simpl. intros sid Hne. simpl in Hd. rewrite Hd, lookup_insert_ne by congruence. done.
  - simpl. intros a' Ha'. by simplify_eq.
  - exists cmd, n'. do 3 (split; [done|]). split; [done|]. exists r'. simpl in *.
    rewrite Hd, lookup_insert_eq. split_and!; [done|done|]. intros a' Ha' _. by simplify_eq.
Qed.

Lemma inv_task_run started s s' d :
  Inv started s → step (TaskRun d) s = Some s' → Inv started s'.
Proof.
  intros Hinv Hstep. pose proof Hinv as (Hsrc & _). simpl in Hstep. unfold run_task in Hstep.
  destruct (active_session s) as [a|] eqn:Ha; [|by destruct (main s)].
  destruct (task_run _ _ _ _ _ _ _) as [f|] eqn:Hf; [|by destruct (main s)]. simpl in Hstep.
  destruct (f (db s)) as [t dd] eqn:Hd.
  assert (s' = set_active (Some (set_task t a)) (set_db dd s)) as -> by (destruct (main s); congruence).
  eapply (inv_segment _ _ s); try done. intros cmd n r Hsid (Hp & _) Hr Hok Ht.
  exists n. split; [done|]. rewrite <-Hd. by eapply task_run_ok.
Qed.

(** The record in flight reaches the broker or not. *)
Lemma in_flight_pos s a cmd n r msg b :
  in_flight (task a) = Some msg → Started src cmd n s →
  RowOk src cmd n r → TaskPos src cmd n (task a) r →
  ∃ n', published src cmd n' (telemetry_of (ReplayCommandV1.replay_session_id cmd) (log (deliver b msg s))) ∧
    RowOk src cmd n' r ∧ TaskPos src cmd n' (task a) r ∧
    ∀ l ev m, b = true → task a = Running l (Sending ev m) → Delivered src cmd n' l ev r.
Proof.
  intros Hm (Hp & _) Hok Ht. destruct b; [|by exists n].
  destruct (flush_pos _ _ _ _ _ _ _ Hp Hok Ht Hm) as (n' & ? & ? & ? & ?). by exists n'; split_and!; eauto.
Qed.

Lemma in_flight_log s a cmd n r msg b sid :
  in_flight (task a) = Some msg → TaskPos src cmd n (task a) r →
  sid ≠ ReplayCommandV1.replay_session_id cmd →
  telemetry_of sid (log (deliver b msg s)) = telemetry_of sid (log s).
Proof.
  intros Hm Ht Hne. destruct b; [|done]. simpl. rewrite telemetry_snoc, telemetry_other, app_nil_r; [done|].
  intros e He Heq. apply Hne. rewrite <-Heq. by eapply in_flight_session.
Qed.

Lemma task_sent_in_flight d pause stop t how mk :
  task_sent true enable_pacing d pause stop t how = Some mk → in_flight t = Some mk.1.
Proof. destruct t as [| |l []| |]; simpl; intros; by simplify_eq. Qed.

Lemma task_sent_ok cmd n d pause stop t how mk db r :
  task_sent true enable_pacing d pause stop t how = Some mk →
  replay_checkpoints db !! ReplayCommandV1.replay_session_id cmd = Some r →
  RowOk src cmd n r → TaskPos src cmd n t r →
  (∀ l ev m, reached how = true → t = Running l (Sending ev m) → Delivered src cmd n l ev r) →
  seg_ok src cmd n db (mk.2 db).
Proof.
  intros Hs Hr Hok Ht Hd. destruct t as [| |l []| |]; simpl in Hs; simplify_eq; simpl.
  - destruct how; [by eapply after_send_ok; eauto|]. by apply fail_session_ok, Ht.
  - destruct how; [by eapply seg_keep|]. by apply fail_session_ok, Ht.
  - by eapply seg_keep.
  - by eapply seg_keep.
Qed.

Lemma inv_task_sent started s s' d how :
  Inv started s → step (TaskSent d how) s = Some s' → Inv started s'.
Proof.
  intros Hinv Hstep. simpl in Hstep.
  destruct (active_session s) as [a|] eqn:Ha; [|done]. simpl in Hstep.
  destruct (task_sent _ _ _ _ _ _ _) as [mk|] eqn:Hmk; [|done]. simpl in Hstep.
  pose proof (task_sent_in_flight _ _ _ _ _ _ Hmk) as Hfl.
  destruct (active_started _ _ _ Hinv Ha) as (cmd0 & n0 & _ & _ & Hsid0 & _ & r0 & _ & _ & Ht0).
  specialize (Ht0 _ Ha (eq_sym Hsid0)). unfold run_task in Hstep.
  assert (active_session (deliver (reached how) mk.1 s) = Some a) as Ha' by (by destruct (reached how)).
  assert (db (deliver (reached how) mk.1 s) = db s) as Hdb by (by destruct (reached how)).
  rewrite Ha', Hdb in Hstep. simpl in Hstep. destruct (mk.2 (db s)) as [t dd] eqn:Hd.
  assert (s' = set_active (Some (set_task t a)) (set_db dd (deliver (reached how) mk.1 s))) as ->
    by (destruct (main (deliver (reached how) mk.1 s)); congruence).
  eapply (inv_segment _ s (deliver (reached how) mk.1 s)); try done; [by destruct (reached how)..| |].
  - intros cmd n r Hsid Hst Hr Hok Ht.
    destruct (in_flight_pos _ _ _ _ _ _ (reached how) Hfl Hst Hok Ht) as (n' & Hp' & Hok' & Ht' & Hdel).
    exists n'. split; [done|]. rewrite <-Hd. eapply task_sent_ok; eauto.
  - intros sid Hne. eapply in_flight_log; [done|done|]. congruence.
Qed.

(** The end of a process: the record in flight is delivered or lost, and the
    task is gone. *)
Lemma inv_flush started s b m act :
  Inv started s → (∀ o off, m ≠ Publishing o off) →
  (∀ a', act = Some a' → ∃ a, active_session s = Some a ∧ a' = set_task TaskDone a) →
  Inv started (set_main m (set_active act (flush_task b s))).
Proof.
  intros Hinv Hm Hact. unfold flush_task.
  assert (∀ s1, moves src s1 (set_main m (set_active None s1))) as Hgone.
  { intros s1. split_and!; try done. }
  assert (∀ s1, active_session s1 = active_session s → moves src s1 (set_main m (set_active act s1))) as Hmv.
  { intros s1 Hs1. split_and!; try done. simpl. intros a' Ha'. destruct (Hact a' Ha') as (a & Ha & ->).
    exists a. rewrite Hs1. split_and!; [done|done|]. done. }
  destruct (live_session s) as [a|] eqn:Hl.
  2:{ eapply inv_moves; [by apply Hmv|by simpl; intros ?? ?%Hm|done]. }
  unfold live_session in Hl. destruct (active_session s) as [a0|] eqn:Ha; [|done].
  destruct (task_done (task a0)) eqn:Hdone; simplify_eq.
  destruct (in_flight (task a)) as [msg|] eqn:Hfl.
  2:{ eapply inv_moves; [by apply Hmv|by simpl; intros ?? ?%Hm|done]. }
  destruct (active_started _ _ _ Hinv Ha) as (cmd & n & Hin & Hst & Hsid & Hstarted).
  pose proof Hstarted as (Hp & r & Hr & Hok & Ht). specialize (Ht a Ha (eq_sym Hsid)).
  destruct (in_flight_pos _ _ _ _ _ _ b Hfl Hstarted Hok Ht) as (n' & Hp' & Hok' & Ht' & _).
  assert (∀ x, db (deliver x msg s) = db s) as Hdb by (by intros []).
  apply (inv_frame _ _ s _ (ReplayController.session_id (controller a))); try done.
  - by destruct b.
  - simpl. by intros ?? ?%Hm.
  - intros sid Hne. simpl. eapply in_flight_log; [done|done|congruence].
  - simpl. by rewrite Hdb.
  - simpl. intros a' Ha'. destruct (Hact a' Ha') as (a1 & ? & ->). by simplify_eq.
  - exists cmd, n'. do 3 (split; [done|]). split; [done|]. exists r. simpl. rewrite Hdb.
    split_and!; [done|done|]. intros a' Ha' _. destruct (Hact a' Ha') as (a1 & ? & ->). done.
Qed.

(** ** The command handlers *)

(** The message of a handler is never telemetry. *)
Definition reply_ok (r : result (option Outgoing)) : Prop :=
  ∀ msg, r = Ok (Some msg) → not_telemetry msg.1.

Lemma announce_ok d c s : reply_ok (announce d c s).1 ∧ (announce d c s).2 = s.
Proof.
  unfold announce. rewrite M_bind_run. unfold lift_res. destruct (status_message _ _) as [sm|]; simpl.
  - split; [|done]. intros msg Hm. simplify_eq. by intros e.
  - by split.
Qed.

Lemma inv_weaken started started' s :
  (∀ c, c ∈ started → c ∈ started') → Inv started s → Inv started' s.
Proof.
  intros Hsub (Hs & Hm & Hinv). split_and!; [done|done|]. intros sid.
  destruct (Hinv sid) as [?|(cmd & n & ? & ?)]; [by left|]. right. exists cmd, n. split; [by apply Hsub|done].
Qed.

Lemma published_0 cmd tel : tel = [] → published src cmd 0 tel.
Proof. intros ->. split; [done|lia]. Qed.

(** A START is accepted when no session is active and its data are those of the file. *)
Definition accepts (s : RState) (c : ReplayCommandV1.t) : bool :=
  match live_session s with Some _ => false | None => true end &&
  bool_decide (ReplayCommandV1.source_dataset_sha256 c =
    PreparedArtifactIdentity.source_dataset_sha256 (ReplaySource.identity (source s))) &&
  bool_decide (ReplayCommandV1.contract_sha256 c =
    PreparedArtifactIdentity.contract_sha256 (ReplaySource.identity (source s))).

Lemma handle_start_refused d command s :
  accepts s command = false → reply_ok (handle_start true d command s).1 ∧ (handle_start true d command s).2 = s.
Proof.
  unfold accepts. intros Hacc. unfold handle_start. rewrite !M_bind_run. unfold gets. cbn beta iota.
  rewrite M_bind_run. cbn beta iota. destruct (live_session s) as [a|]; [apply announce_ok|]. cbv zeta.
  simpl in Hacc. rewrite Hacc. apply announce_ok.
Qed.

(** What was published for the session before is the matter of the START it was
    accepted with then: [L] is the topic without it. *)
Lemma handle_start_accepted started d command s L :
  ReplayCommandV1.action command = START → accepts s command = true →
  (∀ m o, main s ≠ Publishing m o) → Inv started s →
  telemetry_of (ReplayCommandV1.replay_session_id command) L = [] →
  (∀ sid, sid ≠ ReplayCommandV1.replay_session_id command → telemetry_of sid L = telemetry_of sid (log s)) →
  let out := handle_start true d command s in
  reply_ok out.1 ∧ log out.2 = log s ∧
  Inv (without (ReplayCommandV1.replay_session_id command) started ++ [command]) (relog L out.2).
Proof.
  unfold accepts. intros Hst Hacc Hmain Hinv HL HL'. cbv zeta. unfold handle_start. rewrite !M_bind_run.
  unfold gets. cbn beta iota. rewrite M_bind_run. cbn beta iota. destruct (live_session s) as [a|]; [done|]. cbv zeta.
  simpl in Hacc. rewrite Hacc. change (negb true) with false. cbv iota.
  rewrite M_bind_run. unfold on_store.
  destruct (checkpoint_run (db_clock d) command RUNNING 0 None (db s)) as (db' & -> & Hdb); [done|].
  rewrite M_bind_run. unfold lift_res.
  unfold ReplayController.apply. simpl.
  rewrite (bool_decide_eq_true_2 (_ = _)) by done. rewrite Hst. simpl.
  rewrite M_bind_run. unfold modify.
  match goal with |- reply_ok (announce ?d ?c ?s).1 ∧ _ => destruct (announce_ok d c s) as [? ->] end.
  split; [done|]. split; [done|].
  apply (inv_frame_new _ started _ s _ (ReplayCommandV1.replay_session_id command)); try done.
  - intros c Hc Hne. apply elem_of_app. left. by apply list_elem_of_filter.
  - simpl. intros m o Hm. by destruct (Hmain m o).
  - simpl. intros sid Hne. by rewrite Hdb, lookup_insert_ne.
  - simpl. intros a Ha'. by simplify_eq.
  - exists command, 0%nat. split; [set_solver|]. do 2 (split; [done|]).
    split; [by apply published_0|]. eexists. simpl. rewrite Hdb, lookup_insert_eq. split; [done|].
    assert (RowPos src command 0 0 (CheckpointRow.mk (model_dump command) RUNNING 0 None (db_clock d)))
      by (split_and!; simpl; done || lia).
    split; [split_and!; simpl; eauto; [|done]|].
    { exists command. split; [done|by apply same_start_refl]. }
    intros a Ha' _. simplify_eq. simpl. split_and!; try done. by intros (? & ? & ? & _).
Qed.

Lemma handle_start_ok started d command s :
  ReplayCommandV1.action command = START →
  (∀ c, c ∈ started → ReplayCommandV1.replay_session_id c ≠ ReplayCommandV1.replay_session_id command) →
  (∀ m o, main s ≠ Publishing m o) →
  Inv started s →
  reply_ok (handle_start true d command s).1 ∧ Inv (started ++ [command]) (handle_start true d command s).2.
Proof.
  intros Hst Hnew Hmain Hinv. destruct (accepts s command) eqn:Hacc.
  - destruct (handle_start_accepted started d command s (log s) Hst Hacc Hmain Hinv) as (Hr & Hlog & Hi); [|done|].
    + destruct Hinv as (_ & _ & Hinv).
      destruct (Hinv (ReplayCommandV1.replay_session_id command)) as [(Ht & _)|(c & n & Hin & _ & Hsid & _)];
        [done|by destruct (Hnew c Hin)].
    + split; [done|]. rewrite <-Hlog, relog_id in Hi. eapply inv_weaken; [|exact Hi].
      intros c [Hc|Hc]%elem_of_app; apply elem_of_app; [left; by apply list_elem_of_filter in Hc as [_ ?]|by right].
  - destruct (handle_start_refused d command s Hacc) as [? ->]. split; [done|]. eapply inv_weaken; [|done]. set_solver.
Qed.

Lemma update_state_run now sid st db r :
  st ≠ CREATED → replay_checkpoints db !! sid = Some r →
  ∃ db', update_replay_checkpoint_state now sid st db = (Ok (), db') ∧
    replay_checkpoints db' = <[sid := with_state now st r]> (replay_checkpoints db).
Proof.
  intros Hst Hr. unfold update_replay_checkpoint_state, update, transaction. rewrite Hr.
  unfold checkpoint_state_ok. rewrite bool_decide_eq_false_2 by done. simpl. eexists. by split.
Qed.

Lemma apply_session c command c' :
  ReplayController.apply c command = Ok c' →
  ReplayController.session_id c' = ReplayController.session_id c.
Proof. unfold ReplayController.apply. intros Ha. inv_res. by destruct (ReplayCommandV1.action command). Qed.

Lemma control_ok started d command state signal s :
  state ≠ CREATED → state ≠ COMPLETED →
  (∀ a, controller (signal a) = controller a ∧ (task (signal a) = task a ∨ task (signal a) = wake (task a))) →
  (∀ a, live_session s = Some a →
     ReplayController.session_id (controller a) = ReplayCommandV1.replay_session_id command →
     sending_terminal (task a) = false) →
  (∀ m o, main s ≠ Publishing m o) →
  Inv started s →
  reply_ok (control_session true d command state signal s).1 ∧
  Inv started (control_session true d command state signal s).2.
Proof.
  intros Hcr Hco Hsig Hlate Hmain Hinv. unfold control_session. rewrite M_bind_run. unfold gets. cbn beta iota.
  destruct (live_session s) as [a|] eqn:Hl; [|by split].
  case_bool_decide as Hid; [|by split]. rewrite M_bind_run. unfold lift_res.
  destruct (ReplayController.apply (controller a) command) as [c|] eqn:Hc; [|by split].
  apply apply_session in Hc. specialize (Hlate a eq_refl Hid).
  assert (active_session s = Some a ∧ task_done (task a) = false) as [Ha Hdone].
  { unfold live_session in Hl. destruct (active_session s) as [a'|]; [|done].
    destruct (task_done (task a')) eqn:?; by simplify_eq. }
  destruct (active_started _ _ _ Hinv Ha) as (cmd & n & Hin & Hst & Hsid & Hp & r & Hr & Hok & Ht).
  specialize (Ht a Ha (eq_sym Hsid)).
  rewrite M_bind_run. unfold on_store, whenM. rewrite Hsid, <-Hc in Hr.
  destruct (update_state_run (db_clock d) _ state (db s) r Hcr Hr) as (db' & -> & Hdb).
  rewrite M_bind_run. unfold modify.
  match goal with |- reply_ok (announce ?d ?c ?s).1 ∧ _ => destruct (announce_ok d c s) as [? ->] end.
  split; [done|]. destruct (Hsig (set_controller c a)) as [Hctl Htask]. rewrite Hc in Hdb, Hr.
  apply (inv_frame _ _ s _ (ReplayController.session_id (controller a))); try done.
  - simpl. intros m o Hmo. by destruct (Hmain m o).
  - simpl. intros sid Hne. by rewrite Hdb, lookup_insert_ne.
  - simpl. intros a' Ha'. simplify_eq. by rewrite Hctl.
  - destruct (with_state_ok src cmd n (task a) (db_clock d) state r Hco Hdone Hlate Hok Ht) as [Hok' Ht'].
    exists cmd, n. do 3 (split; [done|]). split; [done|]. exists (with_state (db_clock d) state r). simpl.
    rewrite Hdb, Hsid, lookup_insert_eq. split_and!; [done|done|]. intros a' Ha' _. simplify_eq.
    destruct Htask as [->| ->]; simpl; [done|]. by apply TaskPos_wake.
Qed.

Lemma handle_record_ok started d record s :
  (∀ c c', c ∈ started → start_of (Poll d record) = Some c' →
     ReplayCommandV1.replay_session_id c ≠ ReplayCommandV1.replay_session_id c') →
  late_control (Poll d record) s = false →
  (∀ m o, main s ≠ Publishing m o) →
  Inv started s →
  let out := handle_command_record validate error_text true d record s in
  reply_ok out.1 ∧ Inv (started ++ option_list (start_of (Poll d record))) out.2.
Proof.
  intros Hnew Hlate Hmain Hinv. cbv zeta. simpl in *. unfold handle_command_record.
  destruct (decode_message validate (rvalue record)) as [c|err].
  2:{ simpl. rewrite app_nil_r, !M_bind_run. unfold lift_res.
      destruct (QuarantineRecordV1.make _ _ _ _ _ _ _ _ _ _ _ _) as [q|]; [|by split].
      rewrite M_bind_run. destruct (publish_quarantine q) as [msg|]; [|by split].
      split; [|done]. intros m Hm. simpl in Hm. simplify_eq. by intros e. }
  assert (ReplayCommandV1.action c ≠ START → ∀ a, live_session s = Some a →
    ReplayController.session_id (controller a) = ReplayCommandV1.replay_session_id c →
    sending_terminal (task a) = false) as Hl.
  { intros Hact a Ha Hid. rewrite bool_decide_eq_false_2, Ha, (bool_decide_eq_true_2 _ Hid) in Hlate by done.
    done. }
  unfold handle_command. destruct (ReplayCommandV1.action c) eqn:Hact; simpl.
  - apply handle_start_ok; try done. intros c' Hc'. by eapply Hnew.
  - rewrite app_nil_r. apply control_ok; try done; [|by apply Hl]. intros a. by split; [|left].
  - rewrite app_nil_r. apply control_ok; try done; [|by apply Hl]. intros a. by split; [|right].
  - rewrite app_nil_r. apply control_ok; try done; [|by apply Hl]. intros a. by split; [|right].
Qed.

(** ** Starting a process *)
Lemma inv_clock started s clock :
  Inv started s →
  Inv started (mkR (db s) (log s) (committed s)
    (ReplaySource.mk (ReplaySource.rows (source s)) (ReplaySource.identity (source s)) clock)
    (active_session s) (main s)).
Proof. intros ([Hr Hi] & Hm & Hinv). split_and!; [by split|done|exact Hinv]. Qed.

Lemma resume_session_ok cmd n r cp a :
  RowOk src cmd n r →
  cp_session cp = ReplayCommandV1.replay_session_id cmd →
  model_validate (CheckpointRow.command_payload r) = Ok (cp_command cp) →
  cp_state cp = CheckpointRow.state r → is_incomplete (cp_state cp) = true →
  cp_sequence cp = CheckpointRow.last_sequence r → cp_timestamp cp = CheckpointRow.source_timestamp r →
  resume_session cp = Ok a →
  ReplayController.session_id (controller a) = cp_session cp ∧ TaskPos src cmd n (task a) r.
Proof.
  intros ((c' & Hpay & Hc') & Hinc & _) Hsid Hval Hst Hi Hseq Hts Hres.
  unfold resume_session in Hres. inv_res. simpl.
  match goal with Ha : ReplayController.apply _ _ = _ |- _ => apply apply_session in Ha as -> end.
  split; [done|]. rewrite Hpay, command_codec in Hval. simplify_eq.
  rewrite Hst in Hi. destruct (Hinc Hi) as [k Hk]. exists k.
  destruct Hk as (Hkseq & Hkts & ?). rewrite Hseq, Hts. by split_and!.
Qed.

Lemma start_row db' act :
  start true db' = Ok act → ∀ a, act = Some a →
  ∃ cp r, replay_checkpoints db' !! cp_session cp = Some r ∧
    model_validate (CheckpointRow.command_payload r) = Ok (cp_command cp) ∧
    cp_state cp = CheckpointRow.state r ∧ is_incomplete (cp_state cp) = true ∧
    cp_sequence cp = CheckpointRow.last_sequence r ∧
    cp_timestamp cp = CheckpointRow.source_timestamp r ∧ resume_session cp = Ok a.
Proof.
  intros Hs a ->. unfold start in Hs. simpl in Hs. inv_res.
  match goal with Hl : load_incomplete_replays _ = Ok ?l |- _ =>
    destruct l as [|cp [|]]; try done; inv_res;
    destruct (load_incomplete_row _ _ cp Hl) as (r & ?); [set_solver|] end.
  exists cp, r. naive_solver.
Qed.

Lemma inv_start started s clock s' :
  Inv started s → step (Start clock) s = Some s' → Inv started s'.
Proof.
  intros Hinv Hstep. simpl in Hstep. destruct (main s) eqn:Hmain; try done.
  destruct (start true (db s)) as [act|] eqn:Hs; simplify_eq.
  2:{ eapply inv_moves; [|by simpl; rewrite Hmain|done]. by split_and!. }
  apply (inv_clock _ _ clock) in Hinv as Hinv'. destruct act as [a|].
  2:{ eapply inv_moves; [|done|exact Hinv']. by split_and!. }
  destruct (start_row _ _ Hs a eq_refl) as (cp & r & Hr & Hval & Hst & Hi & Hseq & Hts & Hres).
  destruct Hinv as (_ & _ & Hinv). destruct (Hinv (cp_session cp)) as
    [(_ & Hnone & _)|(cmd & n & Hin & Hact & Hsid & Hp & r' & Hr' & Hok & _)]; [congruence|].
  rewrite Hsid, Hr in Hr'. simplify_eq.
  destruct (resume_session_ok _ _ _ _ _ Hok (eq_sym Hsid) Hval Hst Hi Hseq Hts Hres) as [Hid Ht].
  eapply (inv_frame _ _ _ _ (cp_session cp)); [exact Hinv'|done..| |].
  - simpl. intros a' Ha'. by simplify_eq.
  - exists cmd, n. do 3 (split; [done|]). split; [exact Hp|]. exists r'. simpl. rewrite Hsid.
    split_and!; [done|done|]. intros a' Ha' _. by simplify_eq.
Qed.

(** ** Every step *)
Theorem step_inv started s ev s' :
  Inv started s →
  (∀ c c', c ∈ started → start_of ev = Some c' →
     ReplayCommandV1.replay_session_id c ≠ ReplayCommandV1.replay_session_id c') →
  late_control ev s = false →
  step ev s = Some s' →
  Inv (started ++ option_list (start_of ev)) s'.
Proof.
  intros Hinv Hnew Hlate Hstep.
  destruct ev as [d record|how|ok|d|d how| | |b|b b'|clock];
    [|rewrite app_nil_r..];
    [|clear Hnew Hlate..].
  - simpl in Hstep. destruct (main s) eqn:Hmain; try done.
    destruct (handle_record_ok started d record s Hnew Hlate) as [Hreply Hs']; [congruence|done|].
    destruct (handle_command_record _ _ _ _ _ _) as [[[msg|]|e] s1]; simplify_eq; simpl in *.
    + apply inv_main; [|done]. intros o off Ho. simplify_eq. by apply Hreply.
    + by apply inv_main.
    + by apply inv_stop.
  - simpl in Hstep. destruct (main s) as [|msg off| | |] eqn:Hmain; try done.
    assert (Inv started (deliver (reached how) msg s)) as Hd.
    { apply inv_deliver; [|done]. by eapply (proj1 (proj2 Hinv)). }
    destruct how; simplify_eq; [by apply inv_main|by apply inv_stop].
  - simpl in Hstep. destruct (main s) as [| |off| |] eqn:Hmain; try done.
    destruct ok; simplify_eq; [|by apply inv_stop].
    eapply inv_moves; [|done|exact Hinv]. split_and!; try done. simpl. intros a Ha. exists a. by split_and!.
  - by eapply inv_task_run.
  - by eapply inv_task_sent.
  - simpl in Hstep. destruct (main s); simplify_eq; by apply inv_stop.
  - simpl in Hstep. destruct (main s), (live_session s); simplify_eq; by apply inv_main.
  - simpl in Hstep. destruct (main s), (active_session s) as [a|] eqn:Ha; simplify_eq.
    apply inv_flush; [done|done|]. intros a' Ha'. simplify_eq. by exists a.
  - simpl in Hstep.
    assert (∀ m, s' = set_main Exited (set_active None (match m with
      Publishing msg _ => deliver b msg (flush_task b' s) | _ => flush_task b' s end)) →
      (∀ msg o, m = Publishing msg o → not_telemetry msg.1) → Inv started s') as Hkill.
    { intros m -> Hm.
      pose proof (inv_flush started s b' (main (set_main Exited s)) None Hinv) as Hf. simpl in Hf.
      assert (∀ x, set_main Exited (set_active None (match m with
        Publishing msg _ => deliver b msg x | _ => x end)) =
        match m with Publishing msg _ => deliver b msg (set_main Exited (set_active None x))
        | _ => set_main Exited (set_active None x) end) as ->.
      { intros x. destruct m; try done. by destruct b. }
      destruct m; try (apply Hf; done). apply inv_deliver; [by eapply Hm|]. by apply Hf. }
    destruct (main s) as [|msg off| | |] eqn:Hmain; simplify_eq;
      (match goal with Hm : main s = ?m |- _ => apply (Hkill m) end);
      [done|intros; simplify_eq; by eapply (proj1 (proj2 Hinv))
      |done|intros; simplify_eq; by eapply (proj1 (proj2 Hinv))
      |done|intros; simplify_eq; by eapply (proj1 (proj2 Hinv))
      |done|intros; simplify_eq; by eapply (proj1 (proj2 Hinv))].
  - by eapply inv_start.
Qed.

(** ** Sessions accepted again

    A START can be handled again after its session is over; the service then starts
    the stream from its first event.  What the topic held for the session before is
    left out of the invariant from then on, so the invariant speaks of a topic [L]
    that agrees, for each session, with the real one from the last START on. *)

(** The START an event has the service accept. *)
Definition accepted_start (ev : Event) (s : RState) : option ReplayCommandV1.t :=
  match main s, start_of ev with
  | Idle, Some c => if accepts s c then Some c else None
  | _, _ => None
  end.

Lemma after_handler L started s1 res off :
  reply_ok res → Inv started (relog L s1) →
  Inv started (relog L (match res with
    | Ok (Some msg) => set_main (Publishing msg off) s1
    | Ok None => set_main (Committing off) s1
    | Err _ => stop s1 end)).
Proof.
  intros Hr Hi. destruct res as [[msg|]|e].
  - change (Inv started (set_main (Publishing msg off) (relog L s1))). apply inv_main; [|done].
    intros o off' Ho. simplify_eq. by apply Hr.
  - change (Inv started (set_main (Committing off) (relog L s1))). by apply inv_main.
  - assert (relog L (stop s1) = stop (relog L s1)) as ->.
    { unfold stop, live_session. simpl. destruct (active_session s1) as [a|]; [|done]. by destruct (task_done (task a)). }
    by apply inv_stop.
Qed.

Lemma start_of_poll ev c : start_of ev = Some c →
  ∃ d record, ev = Poll d record ∧ decode_message validate (rvalue record) = Ok c ∧ ReplayCommandV1.action c = START.
Proof.
  destruct ev as [d record| | | | | | | | |]; try done. simpl.
  destruct (decode_message validate (rvalue record)) as [c'|] eqn:Hd; [|done]. case_bool_decide; [|done].
  intros [= ->]. eauto 10.
Qed.

Lemma step_start d record c s :
  main s = Idle → decode_message validate (rvalue record) = Ok c → ReplayCommandV1.action c = START →
  step (Poll d record) s = Some (match (handle_start true d c s).1 with
    | Ok (Some msg) => set_main (Publishing msg (roffset record + 1)) (handle_start true d c s).2
    | Ok None => set_main (Committing (roffset record + 1)) (handle_start true d c s).2
    | Err _ => stop (handle_start true d c s).2 end).
Proof.
  intros Hm Hd Hst. simpl. rewrite Hm. unfold handle_command_record, handle_command. rewrite Hd, Hst.
  by destruct (handle_start true d c s) as [[[]|] ].
Qed.

Lemma stop_log s : log (stop s) = log s.
Proof. unfold stop, live_session. destruct (active_session s) as [a|]; [|done]. by destruct (task_done (task a)). Qed.

Lemma step_accepted started s ev c s' L :
  Inv started s → accepted_start ev s = Some c → step ev s = Some s' →
  telemetry_of (ReplayCommandV1.replay_session_id c) L = [] →
  (∀ sid, sid ≠ ReplayCommandV1.replay_session_id c → telemetry_of sid L = telemetry_of sid (log s)) →
  log s' = log s ∧ Inv (without (ReplayCommandV1.replay_session_id c) started ++ [c]) (relog L s').
Proof.
  unfold accepted_start. intros Hinv Hacc Hstep HL HL'.
  destruct (main s) eqn:Hm; try done. destruct (start_of ev) as [c'|] eqn:Hs; [|done].
  destruct (accepts s c') eqn:Ha; [|done]. injection Hacc as ->.
  apply start_of_poll in Hs as (d & record & -> & Hd & Hst). rewrite (step_start d record c s Hm Hd Hst) in Hstep.
  destruct (handle_start_accepted started d c s L Hst Ha) as (Hr & Hlog & Hi); [congruence|done..|].
  injection Hstep as <-. split; [|by apply after_handler].
  destruct (handle_start _ _ _ _).1 as [[]|]; [done|done|by rewrite stop_log].
Qed.

Lemma step_unaccepted started s ev s' :
  Inv started s → accepted_start ev s = None → late_control ev s = false → step ev s = Some s' → Inv started s'.
Proof.
  unfold accepted_start. intros Hinv Hacc Hlate Hstep. destruct (start_of ev) as [c|] eqn:Hs.
  - apply start_of_poll in Hs as (d & record & -> & Hd & Hst).
    assert (main s = Idle) as Hm by (simpl in Hstep; by destruct (main s)).
    rewrite (step_start d record c s Hm Hd Hst) in Hstep. rewrite Hm in Hacc.
    destruct (accepts s c) eqn:Ha; [done|]. destruct (handle_start_refused d c s Ha) as [Hr Heq].
    injection Hstep as <-. rewrite Heq.
    pose proof (after_handler (log s) started s (handle_start true d c s).1 (roffset record + 1) Hr) as Hi.
    rewrite relog_id in Hi. specialize (Hi Hinv).
    destruct (handle_start true d c s).1 as [[]|]; [exact Hi|exact Hi|]. rewrite <-(stop_log s), relog_id in Hi. done.
  - pose proof (step_inv started s ev s' Hinv) as Hi. rewrite Hs in Hi. simpl in Hi. rewrite app_nil_r in Hi.
    apply Hi; done.
Qed.

(** ** Steps do not read the topic *)
Lemma relog_deliver L b msg s : deliver b msg (relog L s) = relog (L ++ (if b then [msg] else [])) (deliver b msg s).
Proof. destruct b; simpl; [done|by rewrite app_nil_r]. Qed.

Definition unread {A} (m : M RState A) : Prop :=
  ∀ L s, m (relog L s) = ((m s).1, relog L (m s).2) ∧ log (m s).2 = log s.

Lemma unread_ret {A} (a : A) : unread (mret a).
Proof. done. Qed.
Lemma unread_lift {A} (r : result A) : unread (lift_res r).
Proof. done. Qed.
Lemma unread_gets {A} (f : RState → A) : (∀ L s, f (relog L s) = f s) → unread (gets f).
Proof. intros Hf L s. unfold gets. by rewrite Hf. Qed.
Lemma unread_modify f : (∀ L s, f (relog L s) = relog L (f s) ∧ log (f s) = log s) → unread (modify f).
Proof. intros Hf L s. unfold modify. simpl. by destruct (Hf L s) as [-> ->]. Qed.
Lemma unread_on_store {A} (m : M DB A) : unread (on_store m).
Proof. intros L s. unfold on_store. simpl. by destruct (m (db s)). Qed.
Lemma unread_bind {A B} (m : M RState A) (f : A → M RState B) :
  unread m → (∀ a, unread (f a)) → unread (m ≫= f).
Proof.
  intros Hm Hf L s. rewrite !M_bind_run. destruct (Hm L s) as [-> Hl].
  destruct (m s) as [[a|e] s1]; simpl in *; [|done]. destruct (Hf a L s1) as [-> ->]. done.
Qed.
Lemma unread_announce d c : unread (announce d c).
Proof. unfold announce. apply unread_bind; [apply unread_lift|]. intros. apply unread_ret. Qed.

#[local] Ltac unread_all := repeat first
  [ apply unread_announce | apply unread_ret | apply unread_lift | apply unread_on_store
  | apply unread_gets; done | apply unread_modify; done | apply unread_bind; [|intro]
  | match goal with |- unread (match ?x with _ => _ end) => destruct x end ].

Lemma unread_handler d record : unread (handle_command_record validate error_text true d record).
Proof.
  unfold handle_command_record, handle_command, handle_start, handle_pause, handle_resume, handle_stop, control_session.
  unread_all.
Qed.

Lemma relog_stop L s : stop (relog L s) = relog L (stop s).
Proof. unfold stop, live_session. simpl. destruct (active_session s) as [a|]; [|done]. by destruct (task_done (task a)). Qed.

Lemma relog_flush b s : ∃ new, log (flush_task b s) = log s ++ new ∧
  ∀ L, flush_task b (relog L s) = relog (L ++ new) (flush_task b s).
Proof.
  unfold flush_task, live_session. simpl. destruct (active_session s) as [a|].
  2:{ exists []. rewrite app_nil_r. split; [done|]. intros L. by rewrite app_nil_r. }
  destruct (task_done (task a)); [exists []; rewrite app_nil_r; split; [done|]; intros L; by rewrite app_nil_r|].
  destruct (in_flight (task a)) as [msg|]; [|exists []; rewrite app_nil_r; split; [done|]; intros L; by rewrite app_nil_r].
  exists (if b then [msg] else []). split; [destruct b; [done|by rewrite app_nil_r]|]. intros L. apply relog_deliver.
Qed.

Lemma relog_run f s : run_task f s = None ∨
  ∃ s', log s' = log s ∧ run_task f s = Some s' ∧ ∀ L, run_task f (relog L s) = Some (relog L s').
Proof.
  unfold run_task. simpl. destruct (active_session s) as [a|]; [|left; by destruct (main s)].
  destruct (f a) as [body|]; simpl; [|left; by destruct (main s)].
  destruct (body (db s)) as [t d] eqn:Hb.
  destruct (main s) eqn:Hm; first [by left|right]; eexists; (split_and!; [|done|]); try done;
    intros L; by rewrite Hb.
Qed.

(** The messages a step appends, and the state it leaves but for them, do not
    depend on what the topic holds. *)
Lemma step_relog ev s s' :
  step ev s = Some s' →
  ∃ new, log s' = log s ++ new ∧ ∀ L, step ev (relog L s) = Some (relog (L ++ new) s').
Proof.
  assert (∀ s1, Some s1 = Some s' → log s1 = log s → (∀ L, step ev (relog L s) = Some (relog L s1)) →
    ∃ new, log s' = log s ++ new ∧ ∀ L, step ev (relog L s) = Some (relog (L ++ new) s')) as Hnil.
  { intros s1 [= ->] Hl HL. exists []. rewrite app_nil_r. split; [done|]. intros L. by rewrite app_nil_r. }
  intros Hstep. destruct ev as [d record|how|ok|d|d how| | |b|b b'|clock]; simpl in Hstep.
  - destruct (main s) eqn:Hm; try done.
    assert (∀ L, handle_command_record validate error_text true d record (relog L s) =
      ((handle_command_record validate error_text true d record s).1,
       relog L (handle_command_record validate error_text true d record s).2)) as HL
      by (intros L; apply unread_handler).
    destruct (unread_handler d record [] s) as [_ Hlog].
    destruct (handle_command_record _ _ _ _ _ s) as [[[msg|]|e] s1]; simpl in *;
      (apply (Hnil _ Hstep); [try done; by rewrite stop_log|]); intros L; simpl; rewrite Hm, HL; simpl;
      [done|done|by rewrite relog_stop].
  - destruct (main s) as [|msg off| | |] eqn:Hm; try done.
    exists (if reached how then [msg] else []).
    assert (log (deliver (reached how) msg s) = log s ++ (if reached how then [msg] else [])) as Hl
      by (destruct (reached how); simpl; [done|by rewrite app_nil_r]).
    destruct how as [|b]; injection Hstep as <-; (split; [try rewrite stop_log; exact Hl|]); intros L; simpl; rewrite Hm.
    + done.
    + f_equal. by rewrite relog_deliver, relog_stop.
  - destruct (main s) as [| |off| |] eqn:Hm; try done. destruct ok; apply (Hnil _ Hstep).
    + done.
    + intros L. simpl. by rewrite Hm.
    + by rewrite stop_log.
    + intros L. simpl. rewrite Hm. by rewrite relog_stop.
  - destruct (relog_run (λ a, task_run true enable_pacing d (pause_event a) (stop_event a) (source s) (task a)) s)
      as [Hn|(s1 & Hl & Hs1 & HL)]; [by rewrite Hn in Hstep|].
    rewrite Hs1 in Hstep. apply (Hnil _ Hstep); [done|]. intros L. exact (HL L).
  - destruct (active_session s) as [a|] eqn:Ha; [|done]. simpl in Hstep.
    destruct (task_sent _ _ _ _ _ _ _) as [mk|] eqn:Hmk; [|done]. simpl in Hstep.
    destruct (relog_run (λ _, Some mk.2) (deliver (reached how) mk.1 s)) as [Hn|(s1 & Hl & Hs1 & HL)];
      [by rewrite Hn in Hstep|]. rewrite Hs1 in Hstep. injection Hstep as <-.
    exists (if reached how then [mk.1] else []). split.
    { rewrite Hl. by destruct (reached how); simpl; [|rewrite app_nil_r]. }
    intros L. simpl. rewrite Ha. simpl. rewrite Hmk. simpl. rewrite relog_deliver. apply HL.
  - destruct (main s) eqn:Hm; try done; (apply (Hnil _ Hstep); [by rewrite stop_log|]); intros L; simpl; rewrite Hm;
      by rewrite relog_stop.
  - destruct (main s) eqn:Hm; try done. destruct (live_session s) as [a|] eqn:Hl; [done|].
    apply (Hnil _ Hstep); [done|]. intros L. simpl. rewrite Hm. change (live_session (relog L s)) with (live_session s).
    by rewrite Hl.
  - destruct (main s) eqn:Hm; try done. destruct (active_session s) as [a|] eqn:Ha; [|done].
    injection Hstep as <-. destruct (relog_flush b s) as (new & Hl & HL). exists new. split; [exact Hl|].
    intros L. simpl. rewrite Hm, Ha. by rewrite HL.
  - destruct (relog_flush b' s) as (new & Hl & HL).
    destruct (main s) as [|msg off| | |] eqn:Hm; try done; injection Hstep as <-;
      try (exists new; split; [exact Hl|]; intros L; simpl; rewrite Hm; by rewrite HL).
    exists (new ++ if b then [msg] else []). split.
    { destruct b; simpl; rewrite Hl; [by rewrite (assoc_L (++))|by rewrite app_nil_r]. }
    intros L. simpl. rewrite Hm. rewrite HL, relog_deliver. by rewrite (assoc_L (++)).
  - destruct (main s) eqn:Hm; try done. destruct (start true (db s)) as [a|] eqn:Ha;
      (apply (Hnil _ Hstep); [done|]); intros L; simpl; rewrite Hm, Ha; done.
Qed.
End Steps.
