(* ===== verification/ReplayLive.v ===== *)
(** * The replay service: progress and prompt control *)

From S2P Require Import Prelude PyText PyUuid PyTime PyFloat PyHash PyJson Messages KafkaIo.
From S2P Require Import KafkaIo ArtifactIntegrity Replay ReplayTheory Tables Store.
From S2P Require Import ReplayService ReplayServiceTheory ReplayServiceInv.

(** ** The replay service: an uninterrupted replay completes

    While its session is neither paused nor stopped and the broker acknowledges
    what it sends, a task always has a next segment, each segment makes its rank
    smaller, and it ends with the checkpoint COMPLETED. *)

Section Live.
Context `{JsonModel ReplayCommandV1.t, JsonModel TelemetryEventV1.t, JsonModel ReplayStatusV1.t,
          JsonModel QuarantineRecordV1.t, TableOps}.
Variable enable_pacing : bool.
Variable src : ReplaySource.t.
Variable cmd : ReplayCommandV1.t.
Abbreviation sid := (ReplayCommandV1.replay_session_id cmd).
Abbreviation ys := (logical_stream src cmd).

(** The command is valid, every row of the range makes an event, and what is
    sent can be encoded. *)
Hypothesis cmd_wf : wf_start cmd.
Hypothesis stream_ok : stream_ending src cmd = None.
Hypothesis status_encodes : ∀ st : ReplayStatusV1.t, is_ok (encode_message st) = true.
Hypothesis event_encodes :
  ∀ e : TelemetryEventV1.t, erase_telemetry e ∈ ys → is_ok (encode_message e) = true.

(** How many segments are left. *)
Definition rank (t : Task) : nat :=
  match t with
  | FreshTask _ | ResumeTask _ => 2 * length ys + 2
  | Running l pc =>
      match pc with
      | AtPause _ _ => 2 * length (yields (remaining l)) + 4
      | Sleeping _ => 2 * length (yields (remaining l)) + 3
      | Sending _ _ => 2 * length (yields (remaining l)) + 2
      | AtEndPause _ => 2
      | SendingCompleted _ _ | SendingFailed _ _ => 1
      end
  | FreshFailed _ _ => 1
  | TaskDone => 0
  end.

(** The task is not stuck, has not failed, and has left its mark when it ends. *)
Definition Live (t : Task) (r : CheckpointRow.t) : Prop :=
  match t with
  | Running _ (AtPause _ false) | Running _ (AtEndPause false) | Running _ (SendingFailed _ _)
  | FreshFailed _ _ => False
  | Running _ (SendingCompleted _ _) | TaskDone => CheckpointRow.state r = COMPLETED
  | _ => True
  end.

Definition seg_live (bound : nat) (out : Task * DB) : Prop :=
  ∃ r, replay_checkpoints out.2 !! sid = Some r ∧ Live out.1 r ∧ (rank out.1 ≤ bound)%nat.

Lemma completed_status c seq ts now :
  wf_ctrl c → 0 ≤ seq →
  is_ok (status_message now (ReplayController.mark_completed c seq ts)) = true.
Proof.
  intros (Hd & Hc & _) Hseq. unfold status_message, ReplayController.status. cbv zeta. simpl.
  unfold runtime_id. simpl. unfold ReplayStatusV1.make, field. simpl. rewrite Hd, Hc. simpl.
  rewrite (proj2 (Z.ltb_ge seq 0)) by lia. simpl.
  unfold publish_status. match goal with |- context [encode_message ?m] =>
    pose proof (status_encodes m); by destruct (encode_message m) end.
Qed.

Lemma complete_live d l db :
  start_locals cmd l → seg_live 1 (complete true d false l db).
Proof.
  intros Hc. unfold complete. cbv zeta.
  set (l' := set_ctrl _ l).
  destruct (checkpoint_run (db_clock d) (command l') COMPLETED (last_seq l')
    (Some (terminal_timestamp l')) db) as (db' & -> & Hdb); [done|].
  replace (ReplayCommandV1.replay_session_id (command l')) with sid in Hdb by (symmetry; apply Hc).
  pose proof (completed_status (ctrl l) (last_seq l) (terminal_timestamp l) (wall_clock d)
    (proj1 (proj2 Hc) cmd_wf) (proj2 (proj2 Hc))) as Hs.
  change (ctrl l') with (ReplayController.mark_completed (ctrl l) (last_seq l) (terminal_timestamp l)).
  destruct (status_message _ _) as [[st msg]|]; [|done].
  eexists. split; [simpl; by rewrite Hdb, lookup_insert_eq|]. by split.
Qed.

Lemma publish_telemetry_ok k ev :
  ys !! k = Some (erase_telemetry ev) → is_ok (publish_telemetry ev) = true.
Proof.
  intros Hk. unfold publish_telemetry. apply list_elem_of_lookup_2 in Hk. apply event_encodes in Hk.
  by destruct (encode_message ev).
Qed.

Lemma begin_send_live d l ev db r k :
  replay_checkpoints db !! sid = Some r → ys !! k = Some (erase_telemetry ev) →
  seg_live (2 * length (yields (remaining l)) + 2) (begin_send true d l ev db).
Proof.
  intros Hr Hk. unfold begin_send. cbv zeta. apply publish_telemetry_ok in Hk.
  destruct (publish_telemetry ev) as [msg|]; [|done]. exists r. split; [done|]. split; [done|].
  simpl. destruct (resumed l); simpl; lia.
Qed.

Lemma pace_ok prev ts speed :
  prev < ts → speed ∈ [1; 100; 1000] → is_ok (pace_seconds prev ts speed) = true.
Proof.
  intros Hp Hs. unfold pace_seconds. rewrite bool_decide_eq_true_2 by done.
  by rewrite (proj2 (Z.leb_gt ts prev)).
Qed.

Lemma seg_live_weaken a b out : seg_live a out → (a ≤ b)%nat → seg_live b out.
Proof. intros (r & ? & ? & ?) ?. exists r. split_and!; [done|done|lia]. Qed.

Lemma after_wait_live d l ev db r k :
  start_locals cmd l →
  replay_checkpoints db !! sid = Some r → ys !! k = Some (erase_telemetry ev) →
  seg_live (2 * length (yields (remaining l)) + 3) (after_wait true enable_pacing d false l ev db).
Proof.
  intros Hc Hr Hk. unfold after_wait.
  assert (seg_live (2 * length (yields (remaining l)) + 3) (begin_send true d l ev db))
    by (eapply seg_live_weaken; [by eapply begin_send_live|lia]).
  destruct (prev_ts l) as [prev|]; [|done].
  destruct (_ && (prev <? _)) eqn:Hp; [|done]. apply andb_true_iff in Hp as [_ Hp%Z.ltb_lt].
  pose proof (pace_ok _ _ _ Hp (proj2 (proj2 (proj1 (proj2 Hc) cmd_wf)))) as Hok.
  destruct (pace_seconds _ _ _) as [delay|]; [|done]. destruct (fltb f0 delay); [|done].
  exists r. split; [done|]. by split.
Qed.

Lemma loop_head_live d l db r k :
  start_locals cmd l →
  replay_checkpoints db !! sid = Some r →
  erase_gen (remaining l) = mkGen (drop k ys) (stream_ending src cmd) →
  seg_live (2 * length (yields (remaining l)) + 1) (loop_head true enable_pacing d true false l db).
Proof.
  intros Hc Hr Hrem. unfold loop_head. destruct (remaining l) as [[|ev evs] en] eqn:Hl;
    cbn [yields ending] in *; injection Hrem as Hdrop Hend.
  - rewrite stream_ok in Hend. subst en. by apply complete_live.
  - assert (ys !! k = Some (erase_telemetry ev)) as Hk
      by (by rewrite <-(Nat.add_0_r k), <-lookup_drop, <-Hdrop).
    rewrite andb_false_r. eapply seg_live_weaken; [by eapply after_wait_live|]. simpl. lia.
Qed.

(** A segment that runs. *)
Lemma task_run_live n d src' t f db r :
  same_file src' src →
  replay_checkpoints db !! sid = Some r → TaskPos src cmd n t r →
  task_run true enable_pacing d true false src' t = Some f →
  ∃ b, (b < rank t)%nat ∧ seg_live b (f db).
Proof.
  intros Hsrc Hr Ht Hf. destruct t as [c|cp|l pc|st msg|]; simpl in Hf; simplify_eq.
  - destruct Ht as (_ & Hsid & Hrs & Hre & Hw). unfold run_replay_session.
    pose proof (start_command_ok cmd d c cmd_wf (Hw cmd_wf) Hrs Hre) as Hok.
    destruct (start_command d c) as [start_cmd|] eqn:Hc; [|done].
    apply (start_command_same cmd) in Hc; try done.
    pose proof (fresh_remaining src cmd src' start_cmd Hsrc Hc) as Hrem.
    eexists. split; [|eapply (loop_head_live _ _ _ _ 0); [by split_and!|exact Hr|exact Hrem]].
    simpl. apply (f_equal (length ∘ yields)) in Hrem. simpl in Hrem. rewrite length_fmap in Hrem. lia.
  - destruct Ht as (k & Hpos & Hsid & Hc & Hseq & Hts). unfold resume_checkpoint. cbv zeta.
    destruct (ReplayController.apply _ _) as [c|] eqn:Ha.
    2:{ exfalso. unfold ReplayController.apply in Ha. simpl in Ha.
        rewrite (proj1 (proj2 Hc)), (bool_decide_eq_true_2 (_ = _)) in Ha; [done|].
        rewrite Hsid. apply Hc. }
    pose proof (resume_remaining src cmd src' (cp_command cp) n k r Hsrc Hc Hpos) as Hrem.
    rewrite <-Hseq, <-Hts in Hrem.
    eexists. split; [|eapply (loop_head_live _ _ _ _ k); [|exact Hr|exact Hrem]].
    + simpl. apply (f_equal (length ∘ yields)) in Hrem. simpl in Hrem.
      rewrite length_fmap, length_drop in Hrem. lia.
    + split_and!; [apply Hc..| |simpl; lia]. intros Hw. eapply apply_start_wf; [done|apply Hc|by apply Hc].
  - destruct Ht as (Hc & Hpc). destruct pc as [ev []|ev|ev msg|[]|st msg|st msg]; simplify_eq.
    + destruct Hpc as (k & _ & Hk & _). eexists. split; [|by eapply after_wait_live]. simpl. lia.
    + destruct Hpc as (k & _ & Hk & _). eexists. split; [|by eapply begin_send_live]. simpl. lia.
    + eexists. split; [|by apply complete_live]. simpl. lia.
Qed.

Lemma after_send_live d l ev msg n db r :
  replay_checkpoints db !! sid = Some r → TaskPos src cmd n (Running l (Sending ev msg)) r →
  seg_live (2 * length (yields (remaining l)) + 1) (after_send true enable_pacing d true false l ev db).
Proof.
  intros Hr (Hc & (k & Hpos & Hk & Hrem) & _). unfold after_send. cbv zeta.
  set (l' := if resumed l then set_last ev l else l).
  assert (start_locals cmd l') as Hc'
    by (unfold l'; destruct (resumed l); [by eapply locals_event|done]).
  destruct (checkpoint_run (db_clock d) (command l') (checkpoint_state true false) (last_seq l')
    (last_ts l') db) as (db' & -> & Hdb); [done|].
  replace (ReplayCommandV1.replay_session_id (command l')) with sid in Hdb by (symmetry; apply Hc').
  replace (remaining l) with (remaining l') in Hrem |- * by (unfold l'; by destruct (resumed l)).
  eapply loop_head_live; [done|by rewrite Hdb, lookup_insert_eq|exact Hrem].
Qed.

(** An acknowledged broker call. *)
Lemma task_sent_live n d t mk db r :
  replay_checkpoints db !! sid = Some r → TaskPos src cmd n t r → Live t r →
  task_sent true enable_pacing d true false t Acked = Some mk →
  ∃ b, (b < rank t)%nat ∧ seg_live b (mk.2 db).
Proof.
  intros Hr Ht Hlive Hs. destruct t as [| |l []| |]; simpl in Hs; simplify_eq; simpl; try done.
  - eexists. split; [|by eapply after_send_live]. lia.
  - exists 0%nat. split; [lia|]. exists r. split; [done|]. by split.
Qed.

(** A task that lives has a next segment. *)
Lemma live_enabled d src' t r :
  Live t r → task_done t = false →
  is_Some (task_run true enable_pacing d true false src' t) ∨
  is_Some (task_sent true enable_pacing d true false t Acked).
Proof. destruct t as [| |l [? []| | |[]| |]| |]; simpl; intros; try done; eauto. Qed.

(** ** Sessions are woken *)
Definition waiting (t : Task) : bool :=
  match t with
  | Running _ (AtPause _ false) | Running _ (AtEndPause false) => true
  | _ => false
  end.

Lemma fail_session_runs has_store d l db : waiting (fail_session has_store d l db).1 = false.
Proof. unfold fail_session. cbv zeta. by repeat case_match. Qed.
Lemma complete_runs has_store d stop l db : waiting (complete has_store d stop l db).1 = false.
Proof. unfold complete. cbv zeta. repeat (case_match; try done); apply fail_session_runs. Qed.
Lemma begin_send_runs has_store d l ev db : waiting (begin_send has_store d l ev db).1 = false.
Proof. unfold begin_send. cbv zeta. repeat (case_match; try done); apply fail_session_runs. Qed.
Lemma after_wait_runs has_store d stop l ev db :
  waiting (after_wait has_store enable_pacing d stop l ev db).1 = false.
Proof.
  unfold after_wait. repeat (case_match; try done); (apply fail_session_runs || apply begin_send_runs).
Qed.
Lemma loop_head_runs has_store d stop l db :
  waiting (loop_head has_store enable_pacing d true stop l db).1 = false.
Proof.
  unfold loop_head. cbv zeta. repeat (case_match; try done);
    (apply fail_session_runs || apply after_wait_runs || apply complete_runs).
Qed.
Lemma after_send_runs has_store d stop l ev db :
  waiting (after_send has_store enable_pacing d true stop l ev db).1 = false.
Proof.
  unfold after_send. cbv zeta. repeat (case_match; try done);
    (apply fail_session_runs || apply loop_head_runs).
Qed.

Lemma task_run_runs has_store d stop src' t f db :
  task_run has_store enable_pacing d true stop src' t = Some f → waiting (f db).1 = false.
Proof.
  destruct t as [c|cp|l [ev []|ev|ev msg|[]|st msg|st msg]| |]; simpl; intros; simplify_eq.
  - unfold run_replay_session. repeat (case_match; try done); apply loop_head_runs.
  - unfold resume_checkpoint. cbv zeta. repeat (case_match; try done); apply loop_head_runs.
  - apply after_wait_runs.
  - apply begin_send_runs.
  - apply complete_runs.
Qed.

Lemma task_sent_runs has_store d stop t how mk db :
  task_sent has_store enable_pacing d true stop t how = Some mk → waiting (mk.2 db).1 = false.
Proof.
  intros Hs. destruct t as [c|cp|l [ev w|ev|ev msg|w|st msg|st msg]| |]; try discriminate Hs;
    injection Hs as <-; cbn [snd]; try done; destruct how; try done;
    (apply after_send_runs || apply fail_session_runs).
Qed.
End Live.

(** A session whose [pause_event] is set does not wait for it. *)
Definition awake (s : RState) : Prop :=
  ∀ a, active_session s = Some a → pause_event a = true → waiting (task a) = false.

Lemma waiting_wake t : waiting (wake t) = false.
Proof. by destruct t as [| |l []| |]. Qed.

Section Awake.
Context `{JsonModel ReplayCommandV1.t, JsonModel TelemetryEventV1.t, JsonModel ReplayStatusV1.t,
          JsonModel QuarantineRecordV1.t, TableOps}.
Variable validate : bytes → result ReplayCommandV1.t.
Variable error_text : exn → string.
Variable has_store enable_pacing : bool.

Lemma awake_stop s : awake s → awake (stop s).
Proof.
  unfold stop, live_session. intros Hs.
  destruct (active_session s) as [a|] eqn:Ha; [|intros a' Ha'; simpl in Ha'; congruence].
  destruct (task_done (task a)); [intros a' Ha'; apply Hs; exact Ha'|].
  intros a' Ha' _. simpl in Ha'. simplify_eq. apply waiting_wake.
Qed.

Lemma awake_active s s' : active_session s' = active_session s → awake s → awake s'.
Proof. intros Ha Hs a'. rewrite Ha. apply Hs. Qed.

Lemma awake_handle d record s :
  awake s → awake (handle_command_record validate error_text has_store d record s).2.
Proof.
  intros Hs. unfold handle_command_record.
  destruct (decode_message _ _) as [c|e].
  2:{ rewrite M_bind_run. unfold lift_res.
      destruct (QuarantineRecordV1.make _ _ _ _ _ _ _ _ _ _ _ _) as [q|]; [|done].
      rewrite M_bind_run. by destruct (publish_quarantine q). }
  assert (∀ c s, awake s → awake (announce d c s).2) as Hann
    by (intros c' s' Hs'; by destruct (announce_ok d c' s') as [_ ->]).
  assert (∀ st sig, (∀ a, pause_event (sig a) = false ∨ waiting (task (sig a)) = false) →
    awake (control_session has_store d c st sig s).2) as Hctl.
  { intros st sig Hsig. unfold control_session. rewrite M_bind_run. unfold gets. cbn beta iota.
    destruct (live_session s) as [a|]; [|done]. case_bool_decide; [|done].
    rewrite M_bind_run. unfold lift_res. destruct (ReplayController.apply _ _) as [c'|]; [|done].
    rewrite M_bind_run. unfold on_store. destruct (whenM _ _ _) as [[[]|] db']; [|done].
    rewrite M_bind_run. unfold modify. apply Hann. intros a' Ha' Hp. simpl in Ha'. simplify_eq.
    destruct (Hsig (set_controller c' a)); congruence. }
  unfold handle_command. destruct (ReplayCommandV1.action c).
  - unfold handle_start. rewrite !M_bind_run. unfold gets. cbn beta iota. rewrite M_bind_run. cbn beta iota.
    destruct (live_session s); [by apply Hann|]. cbv zeta.
    match goal with |- context [if ?b then _ else _] => destruct b end; [by apply Hann|].
    rewrite M_bind_run. unfold on_store. destruct (checkpoint _ _ _ _ _ _ _) as [[[]|] db']; [|done].
    rewrite M_bind_run. unfold lift_res. destruct (ReplayController.apply _ _) as [c'|]; [|done].
    rewrite M_bind_run. unfold modify. apply Hann. intros a' Ha' Hp. simpl in Ha'. by simplify_eq.
  - apply Hctl. by left.
  - apply Hctl. right. apply waiting_wake.
  - apply Hctl. right. apply waiting_wake.
Qed.

Lemma awake_deliver b m s : awake s → awake (deliver b m s).
Proof. by destruct b. Qed.

Lemma awake_step ev s s' :
  awake s → step validate error_text has_store enable_pacing ev s = Some s' → awake s'.
Proof.
  intros Hs Hstep. destruct ev as [d record|how|ok|d|d how| | |b|b b'|clock]; simpl in Hstep.
  - destruct (main s); try done. pose proof (awake_handle d record s Hs) as Hh.
    destruct (handle_command_record _ _ _ _ _ _) as [[[m|]|] s1]; simplify_eq; simpl in Hh;
      [done|done|by apply awake_stop].
  - destruct (main s); try done.
    destruct how; simplify_eq; [|apply awake_stop]; by apply awake_deliver.
  - destruct (main s); try done. destruct ok; simplify_eq; [done|by apply awake_stop].
  - unfold run_task in Hstep. destruct (active_session s) as [a|] eqn:Ha; [|by destruct (main s)].
    destruct (task_run _ _ _ _ _ _ _) as [f|] eqn:Hf; [|by destruct (main s)]. simpl in Hstep.
    destruct (f (db s)) as [t dd] eqn:Hd.
    assert (s' = set_active (Some (set_task t a)) (set_db dd s)) as -> by (destruct (main s); congruence).
    intros a' Ha' Hp. simpl in *. simplify_eq. simpl in *. rewrite Hp in Hf.
    apply (task_run_runs _ _ _ _ _ _ _ (db s)) in Hf. by rewrite Hd in Hf.
  - destruct (active_session s) as [a|] eqn:Ha; [|done]. simpl in Hstep.
    destruct (task_sent _ _ _ _ _ _ _) as [mk|] eqn:Hmk; [|done]. simpl in Hstep.
    unfold run_task in Hstep.
    replace (active_session (deliver (reached how) mk.1 s)) with (Some a) in Hstep
      by (by destruct (reached how)). simpl in Hstep.
    destruct (mk.2 _) as [t dd] eqn:Hd in Hstep.
    assert (s' = set_active (Some (set_task t a)) (set_db dd (deliver (reached how) mk.1 s))) as ->
      by (destruct (main (deliver (reached how) mk.1 s)); congruence).
    intros a' Ha' Hp. simpl in *. simplify_eq. simpl in *. rewrite Hp in Hmk.
    eapply task_sent_runs in Hmk. by rewrite Hd in Hmk.
  - destruct (main s); simplify_eq; by apply awake_stop.
  - by destruct (main s), (live_session s); simplify_eq.
  - destruct (main s), (active_session s) as [a|]; simplify_eq. intros a' Ha' _. simpl in Ha'. by simplify_eq.
  - destruct (main s); simplify_eq; by intros a' Ha'.
  - destruct (main s); try done. destruct (start _ _) as [[a|]|] eqn:Hst; simplify_eq; try done.
    intros a' Ha' _. simpl in Ha'. simplify_eq. unfold start in Hst.
    destruct has_store; simpl in Hst; [|done]. inv_res. repeat (case_match; try done); inv_res.
    unfold resume_session in *. by inv_res.
Qed.
End Awake.

(** ** Driving a session *)
Section Drive.
Context `{JsonModel ReplayCommandV1.t, JsonModel TelemetryEventV1.t, JsonModel ReplayStatusV1.t,
          JsonModel QuarantineRecordV1.t, TableOps}.
Variable validate : bytes → result ReplayCommandV1.t.
Variable error_text : exn → string.
Variable enable_pacing : bool.
Variable src : ReplaySource.t.
Variable cmd : ReplayCommandV1.t.
Abbreviation sid := (ReplayCommandV1.replay_session_id cmd).
Abbreviation ys := (logical_stream src cmd).
Abbreviation step := (step validate error_text true enable_pacing).

Hypothesis command_codec : ∀ c : ReplayCommandV1.t, model_validate (model_dump c) = Ok c.
Hypothesis cmd_wf : wf_start cmd.
Hypothesis stream_ok : stream_ending src cmd = None.
Hypothesis status_encodes : ∀ st : ReplayStatusV1.t, is_ok (encode_message st) = true.
Hypothesis event_encodes :
  ∀ e : TelemetryEventV1.t, erase_telemetry e ∈ ys → is_ok (encode_message e) = true.

(** The event loop with nothing else to do: the task runs, or its broker call is
    acknowledged. *)
Definition drive (d : RDraws) (s : RState) : RState :=
  match step (TaskRun d) s with
  | Some s' => s'
  | None => default s (step (TaskSent d Acked) s)
  end.

(** A session under way: active, neither paused nor stopped, its task alive. *)
Definition Driven (started : list ReplayCommandV1.t) (m : nat) (s : RState) : Prop :=
  Inv src started s ∧ cmd ∈ started ∧
  NoDup (ReplayCommandV1.replay_session_id <$> started) ∧ main s ≠ Exited ∧
  ∃ a r, active_session s = Some a ∧ ReplayController.session_id (controller a) = sid ∧
    pause_event a = true ∧ stop_event a = false ∧
    replay_checkpoints (db s) !! sid = Some r ∧ Live (task a) r ∧ (rank src cmd (task a) ≤ m)%nat.

Lemma started_unique started c :
  cmd ∈ started → NoDup (ReplayCommandV1.replay_session_id <$> started) →
  c ∈ started → ReplayCommandV1.replay_session_id c = sid → c = cmd.
Proof.
  intros Hcmd Hnd Hc Hsid. apply list_elem_of_lookup in Hcmd as [i Hi], Hc as [j Hj].
  assert (j = i) as ->; [|congruence].
  eapply (proj1 (NoDup_alt _) Hnd j i sid); rewrite list_lookup_fmap; [rewrite Hj|rewrite Hi]; simpl; congruence.
Qed.

(** The state of a driven session. *)
Lemma driven_started started m s :
  Driven started m s → ∃ n, Started src cmd n s.
Proof.
  intros ((_ & _ & Hinv) & Hcmd & Hnd & _ & a & r & Ha & Hid & _ & _ & Hr & _).
  destruct (Hinv sid) as [(_ & Hnone & _)|(c & n & Hc & _ & Hsid & Hs)]; [congruence|].
  rewrite (started_unique _ _ Hcmd Hnd Hc Hsid) in Hs. by exists n.
Qed.

Lemma driven_done d started m s a :
  Driven started m s → active_session s = Some a → task_done (task a) = true → drive d s = s.
Proof.
  intros _ Ha Hd. unfold drive. simpl. unfold run_task. rewrite Ha. simpl.
  destruct (task a); try done. simpl. by destruct (main s).
Qed.

Lemma drive_step d started m s a :
  Driven started (S m) s → active_session s = Some a → task_done (task a) = false →
  Driven started m (drive d s).
Proof.
  intros Hd Ha Hdone. destruct (driven_started _ _ _ Hd) as (n & Hp & r & Hr & Hok & Htask).
  destruct Hd as (Hinv & Hcmd & Hnd & Hmain & a' & r' & Ha' & Hid & Hpause & Hstop & Hr' & Hlive & Hrank).
  rewrite Ha in Ha'. injection Ha' as <-. rewrite Hr in Hr'. injection Hr' as <-.
  specialize (Htask a Ha Hid).
  assert (∀ ev s', ev = TaskRun d ∨ ev = TaskSent d Acked → step ev s = Some s' → Inv src started s') as Hstep.
  { intros ev s' Hev Hs. pose proof (step_inv validate error_text enable_pacing src command_codec
      started s ev s' Hinv) as Hi.
    destruct Hev as [-> | ->]; rewrite app_nil_r in Hi; by apply Hi. }
  unfold drive. destruct (step (TaskRun d) s) as [s'|] eqn:Hrun.
  - specialize (Hstep _ _ (or_introl eq_refl) Hrun). simpl in Hrun. unfold run_task in Hrun.
    rewrite Ha in Hrun. destruct (task_run _ _ _ _ _ _ _) as [f|] eqn:Hf; [|by destruct (main s)].
    simpl in Hrun. destruct (f (db s)) as [t dd] eqn:Hfd.
    assert (s' = set_active (Some (set_task t a)) (set_db dd s)) as -> by (destruct (main s); congruence).
    rewrite Hpause, Hstop in Hf.
    destruct (task_run_live enable_pacing src cmd cmd_wf stream_ok status_encodes event_encodes
      n d (source s) (task a) f (db s) r (proj1 Hinv) Hr Htask Hf) as (b & Hb & r1 & Hr1 & Hl1 & Hk1).
    rewrite Hfd in Hr1, Hl1, Hk1. split_and!; try done.
    exists (set_task t a), r1. simpl in *. split_and!; try done. lia.
  - assert (task_run true enable_pacing d true false (source s) (task a) = None) as Hnone.
    { simpl in Hrun. unfold run_task in Hrun. rewrite Ha, Hpause, Hstop in Hrun.
      destruct (task_run _ _ _ _ _ _ _) as [f|]; [|done]. simpl in Hrun.
      destruct (f (db s)). by destruct (main s). }
    destruct (live_enabled enable_pacing d (source s) (task a) r Hlive Hdone) as [[? Hx]|[mk Hmk]];
      [congruence|].
    destruct (mk.2 (db s)) as [t dd] eqn:Hfd.
    assert (step (TaskSent d Acked) s =
      Some (set_active (Some (set_task t a)) (set_db dd (deliver true mk.1 s)))) as Hs.
    { simpl. rewrite Ha. simpl. rewrite Hpause, Hstop, Hmk. simpl. unfold run_task. simpl.
      rewrite ?Ha. simpl. rewrite Hfd. by destruct (main s). }
    rewrite Hs. simpl. specialize (Hstep _ _ (or_intror eq_refl) Hs).
    destruct (task_sent_live enable_pacing src cmd cmd_wf stream_ok status_encodes event_encodes
      n d (task a) mk (db s) r Hr Htask Hlive Hmk) as (b & Hb & r1 & Hr1 & Hl1 & Hk1).
    rewrite Hfd in Hr1, Hl1, Hk1. split_and!; try done.
    exists (set_task t a), r1. simpl in *. split_and!; try done. lia.
Qed.

(** Enough rounds complete the session. *)
Lemma drive_completes d started m s :
  Driven started m s →
  let s' := Nat.iter m (drive d) s in
  Driven started 0 s'.
Proof.
  revert s. induction m as [|m IH]; intros s Hd; [done|].
  rewrite Nat.iter_succ_r. apply IH.
  pose proof Hd as (_ & _ & _ & _ & a & r & Ha & _ & _ & _ & _ & Hlive & _).
  destruct (task_done (task a)) eqn:Hdone.
  - rewrite (driven_done d _ _ _ _ Hd Ha Hdone).
    destruct Hd as (? & ? & ? & ? & a' & r' & Ha' & ? & ? & ? & ? & ? & ?).
    split_and!; try done. exists a', r'. split_and!; try done.
    rewrite Ha in Ha'. injection Ha' as <-. destruct (task a); simpl in *; try done. lia.
  - by eapply drive_step.
Qed.

Lemma driven_0 started s :
  Driven started 0 s →
  ∃ a r, active_session s = Some a ∧ task a = TaskDone ∧
    replay_checkpoints (db s) !! sid = Some r ∧ CheckpointRow.state r = COMPLETED ∧
    erase_telemetry <$> dedup (telemetry_of sid (log s)) = ys.
Proof.
  intros Hd. destruct (driven_started _ _ _ Hd) as (n & [Hp Hn] & r & Hr & (_ & _ & Hcomp) & _).
  destruct Hd as (_ & _ & _ & _ & a & r' & Ha & _ & _ & _ & Hr' & Hlive & Hrank).
  rewrite Hr in Hr'. injection Hr' as <-. exists a, r.
  assert (task a = TaskDone) as Ht.
  { destruct (task a) as [| |l []| |]; simpl in *; try done; lia. }
  rewrite Ht in Hlive. simpl in Hlive. destruct (Hcomp Hlive) as [-> _].
  split_and!; try done. by rewrite Hp, firstn_all.
Qed.
End Drive.

(** ** The replay service: PAUSE and STOP take effect within one event

    [potential] counts the telemetry in the topic and the event a held session can
    still send: the one it is sending, or the one it was about to send when the
    command came.  No step of a held session makes it larger. *)

Definition is_telemetry (m : Outgoing) : bool := match m.1 with MTelemetry _ => true | _ => false end.
Definition telemetry_count (log : list Outgoing) : nat := length (filter (λ m, is_telemetry m = true) log).

Definition held (a : Session) : Prop := pause_event a = false ∨ stop_event a = true.
Definition held_service (s : RState) : Prop := ∀ a, active_session s = Some a → task_done (task a) = false → held a.

(** The event a task sends without asking again. *)
Definition pending (stop : bool) (t : Task) : nat :=
  match t with
  | Running _ (Sleeping _) | Running _ (Sending _ _) => 1
  | Running _ (AtPause _ true) => if stop then 0 else 1
  | _ => 0
  end.
Definition pending_of (s : RState) : nat :=
  match active_session s with Some a => pending (stop_event a) (task a) | None => 0 end.
Definition potential (s : RState) : nat := telemetry_count (log s) + pending_of s.

Lemma telemetry_count_snoc log m :
  telemetry_count (log ++ [m]) = (telemetry_count log + if is_telemetry m then 1 else 0)%nat.
Proof.
  unfold telemetry_count. rewrite filter_app, length_app. f_equal.
  destruct (is_telemetry m) eqn:Hm.
  - rewrite filter_true; [done|]. by constructor.
  - rewrite filter_false; [done|]. by constructor; [rewrite Hm|].
Qed.

Lemma pending_wake t : (pending true (wake t) ≤ pending true t)%nat.
Proof. destruct t as [| |l [? []| | |[]| |]| |]; simpl; lia. Qed.

Lemma pending_bound stop t : (pending stop t ≤ 1)%nat.
Proof. destruct t as [| |l [? []| | |[]| |]| |], stop; simpl; lia. Qed.

Section Pause.
Context `{JsonModel ReplayCommandV1.t, JsonModel TelemetryEventV1.t, JsonModel ReplayStatusV1.t,
          JsonModel QuarantineRecordV1.t, TableOps}.
Variable validate : bytes → result ReplayCommandV1.t.
Variable error_text : exn → string.
Variable has_store enable_pacing : bool.

(** ** Segments *)
Lemma fail_session_pending d stop l db : pending stop (fail_session has_store d l db).1 = 0%nat.
Proof. unfold fail_session. cbv zeta. by repeat case_match. Qed.
Lemma complete_pending d stop st l db : pending st (complete has_store d stop l db).1 = 0%nat.
Proof. unfold complete. cbv zeta. repeat (case_match; try done); apply fail_session_pending. Qed.
Lemma begin_send_pending d st l ev db : (pending st (begin_send has_store d l ev db).1 ≤ 1)%nat.
Proof.
  unfold begin_send. cbv zeta. case_match; [done|]. rewrite fail_session_pending. lia.
Qed.
Lemma after_wait_pending d stop l ev db :
  (pending stop (after_wait has_store enable_pacing d stop l ev db).1 ≤ if stop then 0 else 1)%nat.
Proof.
  unfold after_wait. destruct stop; [done|].
  repeat (case_match; try done); rewrite ?fail_session_pending; try lia; apply begin_send_pending.
Qed.

(** The head of the loop of a held session. *)
Lemma loop_head_pending d pause stop l db :
  pause = false ∨ stop = true →
  pending stop (loop_head has_store enable_pacing d pause stop l db).1 = 0%nat.
Proof.
  intros Hh. unfold loop_head. cbv zeta. destruct (yields (remaining l)).
  - destruct (ending (remaining l)); [apply fail_session_pending|].
    destruct pause; [apply complete_pending|done].
  - destruct (negb _ && stop); [done|]. destruct pause; [|done].
    destruct Hh as [|Hs]; [done|]. pose proof (after_wait_pending d stop (set_remaining
      (mkGen l0 (ending (remaining l))) l) t db) as Hp. subst stop. lia.
Qed.

Lemma after_send_pending d pause stop l ev db :
  pause = false ∨ stop = true →
  pending stop (after_send has_store enable_pacing d pause stop l ev db).1 = 0%nat.
Proof.
  intros Hh. unfold after_send. cbv zeta.
  destruct (checkpoint _ _ _ _ _ _ _) as [[] db']; [by apply loop_head_pending|apply fail_session_pending].
Qed.

Lemma task_run_pending d pause stop src t f db :
  pause = false ∨ stop = true →
  task_run has_store enable_pacing d pause stop src t = Some f →
  (pending stop (f db).1 ≤ pending stop t)%nat.
Proof.
  intros Hh Hf. destruct t as [c|cp|l [ev []|ev|ev msg|[]|st msg|st msg]| |]; simpl in *; simplify_eq.
  - unfold run_replay_session. repeat (case_match; try done). by rewrite loop_head_pending.
  - unfold resume_checkpoint. cbv zeta. case_match; [|done]. by rewrite loop_head_pending.
  - apply after_wait_pending.
  - apply begin_send_pending.
  - by rewrite complete_pending.
Qed.

Lemma task_sent_pending d pause stop t how mk db :
  pause = false ∨ stop = true →
  task_sent has_store enable_pacing d pause stop t how = Some mk →
  ((if is_telemetry mk.1 then 1 else 0) + pending stop (mk.2 db).1 ≤ pending stop t)%nat.
Proof.
  intros Hh Hm. destruct t as [c|cp|l [ev w|ev|ev msg|w|st msg|st msg]|st msg|]; simpl in *; simplify_eq;
    simpl; try lia.
  - destruct how; [rewrite after_send_pending by exact Hh|rewrite fail_session_pending]; lia.
  - destruct how; [done|rewrite fail_session_pending; lia].
Qed.

(** ** Steps *)
Definition settles (s s' : RState) : Prop :=
  held_service s' ∧ (potential s' ≤ potential s)%nat.

Lemma stop_settles s :
  held_service (stop s) ∧ (potential (stop s) ≤ telemetry_count (log s) + 1)%nat ∧
  (held_service s → (potential (stop s) ≤ potential s)%nat).
Proof.
  unfold held_service, potential, pending_of, stop, live_session.
  destruct (active_session s) as [a|] eqn:Ha; simpl; [|rewrite Ha; split_and!; [done|lia|lia]].
  destruct (task_done (task a)) eqn:Hd; simpl; rewrite ?Ha.
  - split_and!; [intros a' Ha' ?; simplify_eq; congruence| |lia]. destruct (task a); simpl in *; try done; lia.
  - split_and!; [intros a' Ha' _; simplify_eq; by right| |].
    + destruct (task a) as [| |l [? []| | |[]| |]| |]; simpl; lia.
    + intros _. destruct (task a) as [| |l [? []| | |[]| |]| |]; simpl; destruct (stop_event a); lia.
Qed.

Lemma deliver_potential b m s :
  is_telemetry m = false → potential (deliver b m s) = potential s.
Proof.
  intros Hm. destruct b; [|done]. unfold potential, pending_of. simpl.
  rewrite telemetry_count_snoc, Hm. lia.
Qed.

(** The commands that do not let a session run: PAUSE, STOP and malformed ones. *)
Definition holding (record : KafkaRecord) : bool :=
  match decode_message validate (rvalue record) with
  | Ok c => bool_decide (ReplayCommandV1.action c = PAUSE ∨ ReplayCommandV1.action c = STOP)
  | Err _ => true
  end.

Lemma announce_state d c s : (announce d c s).2 = s.
Proof. unfold announce. rewrite M_bind_run. unfold lift_res. by destruct (status_message _ _). Qed.

Lemma control_settles d c st sig s :
  (∀ a, stop_event (sig a) = stop_event a ∧ pause_event (sig a) = false ∧ task (sig a) = task a ∨
        stop_event (sig a) = true ∧ task (sig a) = wake (task a)) →
  held_service s → settles s (control_session has_store d c st sig s).2.
Proof.
  intros Hsig Hs. unfold settles, control_session. rewrite M_bind_run. unfold gets. cbn beta iota.
  destruct (live_session s) as [a|] eqn:Hl; [|by split].
  case_bool_decide; [|by split]. rewrite M_bind_run. unfold lift_res.
  destruct (ReplayController.apply _ _) as [c'|]; [|by split].
  rewrite M_bind_run. unfold on_store. destruct (whenM _ _ _) as [[[]|] db']; [|by split].
  rewrite M_bind_run. unfold modify. rewrite announce_state.
  unfold live_session in Hl. destruct (active_session s) as [a0|] eqn:Ha; [|done].
  destruct (task_done (task a0)) eqn:Hd; simplify_eq.
  unfold potential, pending_of. simpl. rewrite Ha.
  destruct (Hsig (set_controller c' a)) as [(Hst & Hp & Ht)|(Hst & Ht)]; simpl in *; rewrite Hst, Ht.
  - split; [|done]. intros a' Ha' _. simpl in Ha'. simplify_eq. by left.
  - split; [intros a' Ha' _; simpl in Ha'; simplify_eq; by right|].
    destruct (task a) as [| |l [? []| | |[]| |]| |]; simpl; destruct (stop_event a); lia.
Qed.

Lemma handle_settles d record s :
  holding record = true → held_service s →
  settles s (handle_command_record validate error_text has_store d record s).2.
Proof.
  unfold holding, handle_command_record. intros Hh Hs.
  destruct (decode_message _ _) as [c|e].
  2:{ rewrite M_bind_run. unfold lift_res.
      destruct (QuarantineRecordV1.make _ _ _ _ _ _ _ _ _ _ _ _) as [q|]; [|by split].
      rewrite M_bind_run. by destruct (publish_quarantine q). }
  apply bool_decide_eq_true in Hh. unfold handle_command.
  destruct Hh as [-> | ->]; apply control_settles; try done; intros a; [by left|by right].
Qed.

(** The events that do not let a session run: anything but a restart and a
    command that starts or resumes. *)
Definition calm (ev : Event) : bool :=
  match ev with Poll _ record => holding record | Start _ => false | _ => true end.

Lemma settles_main m s s' :
  main s' = m → settles s s' → settles s (set_main m s').
Proof. by intros <-. Qed.

Lemma settles_stop s s' : settles s s' → settles s (stop s').
Proof.
  intros [Hh Hp]. destruct (stop_settles s') as (Hh' & _ & Hp'). split; [done|].
  specialize (Hp' Hh). lia.
Qed.

Lemma flush_settles b s :
  held_service s →
  (telemetry_count (log (flush_task b s)) ≤ potential s)%nat ∧
  active_session (flush_task b s) = active_session s ∧ main (flush_task b s) = main s.
Proof.
  intros _. unfold flush_task, live_session, potential, pending_of.
  destruct (active_session s) as [a|] eqn:Ha; [|split_and!; [lia|done|done]].
  destruct (task_done (task a)); [split_and!; [lia|done|done]|].
  destruct (in_flight (task a)) as [msg|] eqn:Hm; [|split_and!; [lia|done|done]].
  destruct b; simpl; [|split_and!; [lia|done|done]]. rewrite telemetry_count_snoc.
  split_and!; [|done|done].
  destruct (task a) as [| |l []| |]; simpl in *; simplify_eq; simpl; lia.
Qed.

Lemma deliver_settles b msg s :
  held_service s → is_telemetry msg = false → settles s (deliver b msg s).
Proof.
  intros Hs Hm. split; [by destruct b|]. by rewrite deliver_potential.
Qed.

(** [main] is only ever publishing the answer of a handler. *)
Definition answers (s : RState) : Prop := ∀ m o, main s = Publishing m o → is_telemetry m = false.

Lemma announce_answer d c s m s' : announce d c s = (Ok (Some m), s') → is_telemetry m = false.
Proof.
  unfold announce. rewrite M_bind_run. unfold lift_res. destruct (status_message _ _); intros Hm; [|done].
  injection Hm as <- _. done.
Qed.

Lemma handle_answer d record s m s' :
  handle_command_record validate error_text has_store d record s = (Ok (Some m), s') →
  is_telemetry m = false.
Proof.
  unfold handle_command_record. destruct (decode_message _ _) as [c|e].
  2:{ rewrite M_bind_run. unfold lift_res.
      destruct (QuarantineRecordV1.make _ _ _ _ _ _ _ _ _ _ _ _) as [q|]; [|done].
      rewrite M_bind_run. destruct (publish_quarantine q); [|done]. intros Hm. injection Hm as <- _. done. }
  assert (∀ st sig, control_session has_store d c st sig s = (Ok (Some m), s') → is_telemetry m = false) as Hc.
  { intros st sig. unfold control_session. rewrite M_bind_run. unfold gets. cbn beta iota.
    destruct (live_session s) as [a|]; [|done]. case_bool_decide; [|done].
    rewrite M_bind_run. unfold lift_res. destruct (ReplayController.apply _ _) as [c'|]; [|done].
    rewrite M_bind_run. unfold on_store. destruct (whenM _ _ _) as [[[]|] db']; [|done].
    rewrite M_bind_run. unfold modify. apply announce_answer. }
  unfold handle_command. destruct (ReplayCommandV1.action c); [|apply Hc..].
  unfold handle_start. rewrite !M_bind_run. unfold gets. cbn beta iota. rewrite M_bind_run. cbn beta iota.
  destruct (live_session s); [apply announce_answer|]. cbv zeta.
  match goal with |- context [if ?b then _ else _] => destruct b end; [apply announce_answer|].
  rewrite M_bind_run. unfold on_store. destruct (checkpoint _ _ _ _ _ _ _) as [[[]|] db']; [|done].
  rewrite M_bind_run. unfold lift_res. destruct (ReplayController.apply _ _) as [c'|]; [|done].
  rewrite M_bind_run. unfold modify. apply announce_answer.
Qed.

Lemma run_task_settles f s s0 s' (k : nat) :
  run_task f s0 = Some s' → held_service s →
  active_session s0 = active_session s → db s0 = db s →
  telemetry_count (log s0) = (telemetry_count (log s) + k)%nat →
  (∀ a body, active_session s = Some a → f a = Some body →
     task_done (task a) = false ∧
     (held a → k + pending (stop_event a) (body (db s)).1 ≤ pending (stop_event a) (task a))%nat) →
  settles s s'.
Proof.
  intros Hrun Hs Ha Hdb Hlog Hf. unfold run_task in Hrun. rewrite Ha in Hrun.
  destruct (active_session s) as [a|] eqn:Ha'; [|by destruct (main s0)].
  destruct (f a) as [body|] eqn:Hbody; [|by destruct (main s0)]. simpl in Hrun.
  destruct (Hf a body eq_refl Hbody) as [Hdone Hk]. rewrite Hdb in Hrun.
  pose proof (Hs a Ha' Hdone) as Hheld. specialize (Hk Hheld).
  destruct (body (db s)) as [t dd] eqn:Hd. simpl in Hk.
  assert (s' = set_active (Some (set_task t a)) (set_db dd s0)) as -> by (destruct (main s0); congruence).
  split.
  - intros a' Ht _. simpl in Ht. simplify_eq. exact Hheld.
  - unfold potential, pending_of. simpl. rewrite Ha', Hlog. lia.
Qed.

Lemma stop_answers s : answers (stop s).
Proof. intros m o Hm. unfold stop in Hm. by destruct (live_session s). Qed.

Lemma step_settles ev s s' :
  calm ev = true → held_service s → answers s →
  step validate error_text has_store enable_pacing ev s = Some s' → settles s s' ∧ answers s'.
Proof.
  intros Hcalm Hs Hans Hstep. assert (settles s s) as Hrefl by (by split).
  destruct ev as [d record|how|ok|d|d how| | |b|b b'|clock]; simpl in Hstep, Hcalm; try done.
  - destruct (main s); try done. pose proof (handle_settles d record s Hcalm Hs) as Hh.
    destruct (handle_command_record _ _ _ _ _ _) as [[[m|]|] s1] eqn:Hrec; simplify_eq; simpl in Hh.
    + split; [exact Hh|]. intros m' o Hm. simpl in Hm. simplify_eq. by eapply handle_answer.
    + split; [exact Hh|]. by intros m' o Hm.
    + split; [by apply settles_stop|apply stop_answers].
  - destruct (main s) as [|msg o| | |] eqn:Hmain; try done.
    pose proof (deliver_settles (reached how) msg s Hs (Hans _ _ Hmain)) as Hd.
    destruct how; simplify_eq; [by split; [|intros m' o' Hm]|].
    split; [by apply settles_stop|apply stop_answers].
  - destruct (main s); try done. destruct ok; simplify_eq.
    + split; [exact Hrefl|by intros m' o' Hm].
    + split; [by apply settles_stop|apply stop_answers].
  - assert (answers s') as Ha'.
    { unfold run_task in Hstep. destruct (main s) eqn:Hm, (active_session s); try done;
        destruct (task_run _ _ _ _ _ _ _) as [f|]; try done; simpl in Hstep; destruct (f (db s));
        simplify_eq; intros m' o' Hm'; simpl in Hm'; rewrite Hm in Hm'; simplify_eq; by eapply Hans. }
    split; [|done]. eapply (run_task_settles _ s s s' 0); try done; try lia.
    intros a body Ha Hb. cbn beta in Hb. split; [destruct (task a); done|]. intros Hh. simpl. by eapply task_run_pending.
  - destruct (active_session s) as [a|] eqn:Ha; [|done]. simpl in Hstep.
    destruct (task_sent _ _ _ _ _ _ _) as [mk|] eqn:Hmk; [|done]. simpl in Hstep.
    assert (active_session (deliver (reached how) mk.1 s) = Some a ∧ db (deliver (reached how) mk.1 s) = db s ∧
      main (deliver (reached how) mk.1 s) = main s) as (Hact & Hdb & Hmain) by (by destruct (reached how)).
    assert (answers s') as Ha'.
    { unfold run_task in Hstep. rewrite Hact, Hmain in Hstep. simpl in Hstep.
      destruct (mk.2 _) as [t dd]. destruct (main s) eqn:Hm; simplify_eq; intros m' o' Hm'; simpl in Hm';
        rewrite Hmain in Hm'; simplify_eq; by eapply Hans. }
    split; [|done].
    eapply (run_task_settles _ s _ s' (if reached how && is_telemetry mk.1 then 1 else 0) Hstep Hs);
      [by rewrite Ha|done| |].
    + destruct (reached how); simpl; [by rewrite telemetry_count_snoc|lia].
    + intros a0 body Ha0 Hb. rewrite Ha in Ha0. simplify_eq.
      split; [by destruct (task a0)|]. intros Hh.
      pose proof (task_sent_pending _ _ _ _ _ _ (db s) Hh Hmk).
      destruct (reached how), (is_telemetry mk.1); simpl in *; lia.
  - destruct (main s); simplify_eq; (split; [by apply settles_stop|apply stop_answers]).
  - destruct (main s), (live_session s); simplify_eq. by split; [|intros m' o' Hm].
  - destruct (flush_settles b s Hs) as (Hf & _). destruct (main s), (active_session s) as [a|]; simplify_eq.
    split; [|by intros m' o' Hm]. split; [by intros a' Ha'; simpl in Ha'; simplify_eq|].
    unfold potential at 1, pending_of at 1. simpl. lia.
  - destruct (flush_settles b' s Hs) as (Hf & _).
    assert (∀ s1, (telemetry_count (log s1) ≤ potential s)%nat →
      settles s (set_main Exited (set_active None s1)) ∧ answers (set_main Exited (set_active None s1))) as Hk.
    { intros s1 Hs1. split; [|by intros m' o' Hm]. split; [by intros a' Ha'|].
      unfold potential at 1, pending_of at 1. simpl. lia. }
    destruct (main s) as [|msg o| | |] eqn:Hmain; simplify_eq; try by apply Hk.
    apply Hk. destruct b; [|exact Hf]. simpl.
    by rewrite telemetry_count_snoc, (Hans _ _ Hmain), Nat.add_0_r.
Qed.

(** A PAUSE or STOP of the live session: it holds it, or its failure stops the
    service, which holds it too. *)
Lemma control_holds d c st sig s a :
  live_session s = Some a →
  ReplayController.session_id (controller a) = ReplayCommandV1.replay_session_id c →
  (∀ a, held (sig a)) →
  let out := control_session has_store d c st sig s in
  log out.2 = log s ∧ main out.2 = main s ∧
  (is_ok out.1 = true → held_service out.2 ∧ (potential out.2 ≤ telemetry_count (log s) + 1)%nat).
Proof.
  intros Hl Hid Hsig. unfold control_session. cbv zeta. rewrite M_bind_run. unfold gets. cbn beta iota.
  rewrite Hl, bool_decide_eq_true_2 by done. rewrite M_bind_run. unfold lift_res.
  destruct (ReplayController.apply _ _) as [c'|]; [|done].
  rewrite M_bind_run. unfold on_store. destruct (whenM _ _ _) as [[[]|] db']; [|done].
  rewrite M_bind_run. unfold modify. rewrite announce_state. split_and!; [done|done|]. intros _. split.
  - intros a' Ha' _. simpl in Ha'. simplify_eq. apply Hsig.
  - unfold potential, pending_of. simpl.
    pose proof (pending_bound (stop_event (sig (set_controller c' a))) (task (sig (set_controller c' a)))). lia.
Qed.

Lemma poll_holds d record c a s s' :
  decode_message validate (rvalue record) = Ok c →
  ReplayCommandV1.action c = PAUSE ∨ ReplayCommandV1.action c = STOP →
  live_session s = Some a →
  ReplayController.session_id (controller a) = ReplayCommandV1.replay_session_id c →
  step validate error_text has_store enable_pacing (Poll d record) s = Some s' →
  held_service s' ∧ answers s' ∧ (potential s' ≤ telemetry_count (log s) + 1)%nat.
Proof.
  intros Hdec Hact Hl Hid Hstep. simpl in Hstep. destruct (main s) eqn:Hmain; try done.
  assert (let out := handle_command_record validate error_text has_store d record s in
    log out.2 = log s ∧ main out.2 = main s ∧ (is_ok out.1 = true →
      held_service out.2 ∧ (potential out.2 ≤ telemetry_count (log s) + 1)%nat)) as Hout.
  { unfold handle_command_record. rewrite Hdec. unfold handle_command.
    destruct Hact as [-> | ->]; apply (control_holds _ _ _ _ _ a); try done; intros a'; [by left|by right]. }
  cbv zeta in Hout.
  destruct (handle_command_record _ _ _ _ _ _) as [[[m|]|] s1] eqn:Hrec; simplify_eq; simpl in Hout;
    destruct Hout as (Hlog & Hm & Hok).
  - destruct (Hok eq_refl) as [Hh Hp]. split_and!; [exact Hh| |exact Hp].
    intros m' o Hm'. simpl in Hm'. simplify_eq. by eapply handle_answer.
  - destruct (Hok eq_refl) as [Hh Hp]. split_and!; [exact Hh|by intros m' o Hm'|exact Hp].
  - destruct (stop_settles s1) as (Hh & Hp & _). rewrite Hlog in Hp.
    split_and!; [exact Hh|apply stop_answers|exact Hp].
Qed.

Lemma exec_settles evs s :
  forallb calm evs = true → held_service s → answers s →
  (potential (exec validate error_text has_store enable_pacing s evs) ≤ potential s)%nat.
Proof.
  revert s. induction evs as [|ev evs IH]; intros s Hc Hs Ha; [done|].
  simpl in Hc. apply andb_true_iff in Hc as [Hev Hc]. simpl.
  destruct (step _ _ _ _ ev s) as [s'|] eqn:Hstep; simpl; [|by apply IH].
  destruct (step_settles _ _ _ Hev Hs Ha Hstep) as [[Hs' Hp] Ha']. etrans; [by apply IH|exact Hp].
Qed.
End Pause.
