(* ===== verification/ReplayServiceProps.v ===== *)
(** * Replay: what the source, the handlers and the service promise *)

From S2P Require Import Prelude PyText PyUuid PyTime PyFloat PyHash PyJson Messages KafkaIo.
From S2P Require Import KafkaIo ArtifactIntegrity Replay ReplayTheory Tables Store.
From S2P Require Import ReplayService ReplayServiceTheory ReplayServiceInv.
From S2P Require Import ReplayLive.

(** ** The replay source and the command handlers: what they promise *)

(** The stream of a replay: its events are numbered from 1 on without gap, in
    strictly increasing source time, inside the half-open range of the command and
    for its session, under the identifier derived from session and number; and
    when the generator ends normally there is one for each row of the file in the
    range. *)
Theorem stream_shape `{TableOps} src cmd rs re
    (Hrs : ReplayCommandV1.range_start cmd = Some rs) (Hre : ReplayCommandV1.range_end cmd = Some re) :
  let g := ReplaySource.iter_events src cmd 1 None in
  TelemetryEventV1.sequence <$> yields g = seqZ 1 (Z.of_nat (length (yields g))) ∧
  StronglySorted Z.lt (TelemetryEventV1.source_timestamp <$> yields g) ∧
  (∀ e, e ∈ yields g →
     rs ≤ TelemetryEventV1.source_timestamp e < re ∧
     TelemetryEventV1.replay_session_id e = ReplayCommandV1.replay_session_id cmd ∧
     runtime_id "telemetry" (ReplayCommandV1.replay_session_id cmd)
       (text (dec_chars (TelemetryEventV1.sequence e))) = Ok (TelemetryEventV1.message_id e)) ∧
  (ending g = None →
     TelemetryEventV1.source_timestamp <$> yields g =
     TelemetryRow.timestamp <$> filter (λ r, rs ≤ TelemetryRow.timestamp r < re) (ReplaySource.rows src)).
Proof.
  intros g. destruct (iter_events_shape src cmd rs re Hrs Hre) as (Hseq & Hpre & Hall & Hend).
  split_and!; [exact Hseq| | |exact Hend].
  - destruct Hpre as (k & ts & Hk & Hs). fold g in Hk. rewrite Hk. by apply sorted_take.
  - exact Hall.
Qed.

(** A replay resumed after any of its events goes on with the next one: reading the
    same file again with the sequence and the timestamp of the last published event,
    for a stored command of the same session and range, gives the rest of the
    stream, the same events up to the clock, and ends the same way. *)
Theorem replay_resumes `{TableOps} src src' cmd cmd' k e
    (Hfile : same_file src' src) (Hcmd : same_replay cmd' cmd)
    (Hlast : yields (ReplaySource.iter_events src cmd 1 None) !! k = Some e) :
  erase_gen (ReplaySource.iter_events src' cmd' (TelemetryEventV1.sequence e + 1)
    (Some (TelemetryEventV1.source_timestamp e))) =
  erase_gen (mkGen (drop (S k) (yields (ReplaySource.iter_events src cmd 1 None)))
    (ending (ReplaySource.iter_events src cmd 1 None))).
Proof.
  rewrite (iter_events_replay src' cmd' cmd) by done.
  destruct (iter_events_spec _ _ _ _ Hlast) as [-> _].
  by apply resume_events.
Qed.

(** An event without its identifiers and its emission time. *)
Definition logical_event (e : TelemetryEventV1.t) : TelemetryEventV1.t :=
  let e := erase_telemetry e in
  TelemetryEventV1.mk (UUID_of_bits 0) (UUID_of_bits 0)
    (TelemetryEventV1.source_dataset_sha256 e) (TelemetryEventV1.contract_sha256 e)
    (TelemetryEventV1.source_timestamp e) (TelemetryEventV1.emitted_at e) (TelemetryEventV1.machine_id e)
    (TelemetryEventV1.sequence e) (TelemetryEventV1.tp2 e) (TelemetryEventV1.tp3 e)
    (TelemetryEventV1.h1 e) (TelemetryEventV1.dv_pressure e) (TelemetryEventV1.reservoirs e)
    (TelemetryEventV1.oil_temperature e) (TelemetryEventV1.motor_current e)
    (TelemetryEventV1.comp e) (TelemetryEventV1.dv_electric e) (TelemetryEventV1.towers e)
    (TelemetryEventV1.mpg e) (TelemetryEventV1.lps e) (TelemetryEventV1.pressure_switch e)
    (TelemetryEventV1.oil_level e) (TelemetryEventV1.caudal_impulses e).

Lemma event_of_logical a b cmd cmd' seq row :
  same_file a b →
  logical_event <$> ReplaySource.event_of a cmd seq row =
  logical_event <$> ReplaySource.event_of b cmd' seq row.
Proof.
  intros [_ Hid]. unfold ReplaySource.event_of. rewrite Hid.
  destruct (runtime_id_seq "telemetry" (ReplayCommandV1.replay_session_id cmd) seq eq_refl) as [u ->].
  destruct (runtime_id_seq "telemetry" (ReplayCommandV1.replay_session_id cmd') seq eq_refl) as [v ->].
  cbn [mbind result_bind]. unfold TelemetryEventV1.make. step_both. reflexivity.
Qed.

Lemma emit_logical a b cmd cmd' seq rows :
  same_file a b →
  logical_event <$> yields (ReplaySource.emit a cmd seq rows) =
  logical_event <$> yields (ReplaySource.emit b cmd' seq rows) ∧
  ending (ReplaySource.emit a cmd seq rows) = ending (ReplaySource.emit b cmd' seq rows).
Proof.
  intros Hab. revert seq. induction rows as [|row rows IH]; intros seq; simpl; [done|].
  pose proof (event_of_logical a b cmd cmd' seq row Hab) as Hev. destruct (IH (seq + 1)) as [Hy He].
  destruct (ReplaySource.event_of a cmd seq row) as [x|], (ReplaySource.event_of b cmd' seq row) as [y|];
    try done; [|by injection Hev as ->].
  cbn [yields ending]. rewrite !fmap_cons, Hy. split; [|done]. f_equal.
  by exact (f_equal (default (logical_event x) ∘ result_to_option) Hev).
Qed.

(** The stream does not depend on the speed: two replays of the same range of the
    same file, of any session, at any speed and any time, have the same events
    apart from message id, session id and emission time, and end the same way. *)
Theorem stream_speed_independent `{TableOps} src src' cmd cmd'
    (Hfile : same_file src' src)
    (Hstart : ReplayCommandV1.range_start cmd' = ReplayCommandV1.range_start cmd)
    (Hend : ReplayCommandV1.range_end cmd' = ReplayCommandV1.range_end cmd) :
  let g := ReplaySource.iter_events src cmd 1 None in
  let g' := ReplaySource.iter_events src' cmd' 1 None in
  logical_event <$> yields g' = logical_event <$> yields g ∧ ending g' = ending g.
Proof.
  unfold ReplaySource.iter_events. cbv zeta. rewrite Hstart, Hend, (proj1 Hfile).
  do 3 (case_match; try done). by apply emit_logical.
Qed.

(** A FAILED answer changes nothing but is about the session it names. *)
Lemma announce_failed
    `{JsonModel ReplayCommandV1.t, JsonModel TelemetryEventV1.t, JsonModel ReplayStatusV1.t,
      JsonModel QuarantineRecordV1.t, TableOps} d sid ds cs code ts s r s' :
  announce d (ReplayController.mark_failed (ReplayController.created sid ds cs) code 0 ts) s = (r, s') →
  s' = s ∧
  ∀ msg, r = Ok (Some msg) → ∃ st, msg.1 = MStatus st ∧
    ReplayStatusV1.replay_session_id st = sid ∧
    ReplayStatusV1.state st = FAILED ∧ ReplayStatusV1.last_sequence st = Some 0 ∧
    ReplayStatusV1.error_code st = Some code.
Proof.
  intros Hrun. unfold announce in Hrun. rewrite M_bind_run in Hrun. unfold lift_res, status_message in Hrun.
  destruct (ReplayController.status _ None _) as [st|e] eqn:Hst; [|cbn in Hrun; by injection Hrun as <- <-].
  cbn [mbind result_bind] in Hrun.
  destruct (publish_status st); cbn in Hrun; unfold mret, M_ret in Hrun; injection Hrun as <- <-; [|done].
  split; [done|]. intros msg Hm. simplify_eq. exists st. split; [done|].
  unfold ReplayController.status, ReplayStatusV1.make, field in Hst. cbv zeta in Hst. inv_res. by simpl.
Qed.

(** A START while a session is active changes nothing: the answer is a FAILED
    status with REPLAY_ALREADY_ACTIVE for the session the command names - also when
    that is the active session itself, as after a redelivery of its own START. *)
Theorem start_while_active
    `{JsonModel ReplayCommandV1.t, JsonModel TelemetryEventV1.t, JsonModel ReplayStatusV1.t,
      JsonModel QuarantineRecordV1.t, TableOps} has_store d command s a r s'
    (Hlive : live_session s = Some a)
    (Hrun : handle_start has_store d command s = (r, s')) :
  s' = s ∧
  ∀ msg, r = Ok (Some msg) → ∃ st, msg.1 = MStatus st ∧
    ReplayStatusV1.replay_session_id st = ReplayCommandV1.replay_session_id command ∧
    ReplayStatusV1.state st = FAILED ∧ ReplayStatusV1.last_sequence st = Some 0 ∧
    ReplayStatusV1.error_code st = Some "REPLAY_ALREADY_ACTIVE"%string.
Proof.
  unfold handle_start in Hrun. rewrite !M_bind_run in Hrun. unfold gets in Hrun. cbn beta iota in Hrun.
  rewrite M_bind_run in Hrun. cbn beta iota in Hrun. rewrite Hlive in Hrun.
  exact (announce_failed _ _ _ _ _ _ _ _ _ Hrun).
Qed.

(** ** A concrete replay service: the codecs, file and schedules of the witnesses *)
Module ReplayExamples.

Definition uid (n : Z) : UUID := UUID_of_bits n.
Definition digest : string := text (replicate 64 "a"%char).

(** ** Codecs *)
Definition of_time (t : option datetime) : json := match t with Some t => JInt t | None => JNull end.
Definition to_time (j : json) : option datetime := match j with JInt t => Some t | _ => None end.
Definition of_action (a : ReplayAction) : json :=
  JInt (match a with START => 0 | PAUSE => 1 | RESUME => 2 | STOP => 3 end).
Definition to_action (n : Z) : ReplayAction :=
  if n =? 0 then START else if n =? 1 then PAUSE else if n =? 2 then RESUME else STOP.

Definition dump_command (c : ReplayCommandV1.t) : dict :=
  [("command", JList [JInt (uuid_int (ReplayCommandV1.message_id c));
     JInt (uuid_int (ReplayCommandV1.replay_session_id c));
     JStr (ReplayCommandV1.source_dataset_sha256 c); JStr (ReplayCommandV1.contract_sha256 c);
     JInt (ReplayCommandV1.source_timestamp c);
     JInt (wall (ReplayCommandV1.emitted_at c)); JInt (utcoffset (ReplayCommandV1.emitted_at c));
     JInt (uuid_int (ReplayCommandV1.command_id c)); of_action (ReplayCommandV1.action c);
     JInt (ReplayCommandV1.speed c); of_time (ReplayCommandV1.range_start c);
     of_time (ReplayCommandV1.range_end c)])]%string.

Definition validate_command (d : dict) : result ReplayCommandV1.t :=
  match d with
  | [(_, JList [JInt m; JInt s; JStr ds; JStr cs; JInt ts; JInt w; JInt o; JInt c; JInt a; JInt sp; rs; re])] =>
      Ok (ReplayCommandV1.mk (UUID_of_bits m) (UUID_of_bits s) ds cs ts (mkAware w o)
            (UUID_of_bits c) (to_action a) sp (to_time rs) (to_time re))
  | _ => Err (ValidationError "command")
  end.

#[export] Instance command_model : JsonModel ReplayCommandV1.t :=
  {| model_dump := dump_command; model_validate := validate_command |}.
#[export] Instance telemetry_model : JsonModel TelemetryEventV1.t :=
  {| model_dump := λ e, [("message_id", JInt (uuid_int (TelemetryEventV1.message_id e)))]%string;
     model_validate := λ _, Err (ValidationError "telemetry") |}.
#[export] Instance status_model : JsonModel ReplayStatusV1.t :=
  {| model_dump := λ e, [("message_id", JInt (uuid_int (ReplayStatusV1.message_id e)))]%string;
     model_validate := λ _, Err (ValidationError "status") |}.
#[export] Instance quarantine_model : JsonModel QuarantineRecordV1.t :=
  {| model_dump := λ e, [("message_id", JInt (uuid_int (QuarantineRecordV1.message_id e)))]%string;
     model_validate := λ _, Err (ValidationError "quarantine") |}.
#[export] Instance table_ops : TableOps.
Proof.
  refine {| filter_rows mask rows := filter (λ r, mask (TelemetryRow.timestamp r) = true) rows |}.
  reflexivity.
Defined.

Lemma replay_uuid_self u : UUID_of_bits (uuid_int u) = u.
Proof. apply uuid_eq. simpl. apply Z.mod_small, uuid_range. Qed.

Lemma command_codec (c : ReplayCommandV1.t) : model_validate (model_dump c) = Ok c.
Proof.
  destruct c as [m s ds cs ts [w o] cid a sp rs re]. cbn -[UUID_of_bits to_action].
  rewrite !replay_uuid_self. by destruct a, rs, re.
Qed.

(** ** A file of three rows and its sessions *)
Definition noon : datetime := datetime_of 2020 3 1 12 0 0 0.
Definition row (n : Z) : TelemetryRow.t :=
  TelemetryRow.mk (noon + seconds (10 * n)) f1 f1 f1 f1 f1 f1 f1 0 1 0 1 0 1 0 1.
Definition clock (n : Z) : aware := mkAware (noon + n) 0.
Definition source_file : ReplaySource.t :=
  ReplaySource.mk [row 0; row 1; row 2] (PreparedArtifactIdentity.mk digest digest digest digest) clock.

Definition command (session action : Z) : ReplayCommandV1.t :=
  ReplayCommandV1.mk (uid (100 + action)) (uid session) digest digest noon (mkAware noon 0)
    (uid (200 + action)) (to_action action) 1000
    (if action =? 0 then Some noon else None)
    (if action =? 0 then Some (noon + seconds 3600) else None).

(** A payload [[s; a]] is the command [a] on the session [s]. *)
Definition validate (b : bytes) : result ReplayCommandV1.t :=
  match b with
  | [s; a] => Ok (command s a)
  | _ => Err (ValidationError "command")
  end.
Definition error_text (e : exn) : string := "malformed".

Definition draws : RDraws := mkRDraws (uid 1) (uid 2) (mkAware noon 0) 1.
Definition poll (session action : Z) : Event :=
  Poll draws (mkRecord REPLAY_COMMANDS_TOPIC 0 0 [session; action]).
(** A command handled, answered and committed. *)
Definition handled (session action : Z) : list Event :=
  [poll session action; Published Acked; CommitDone true].

Definition run (evs : list Event) : RState :=
  exec validate error_text true true (initial source_file) evs.

End ReplayExamples.
Import ReplayExamples.

Lemma stream_shape_witness :
  let g := ReplaySource.iter_events source_file (command 7 0) 1 None in
  length (yields g) = 3%nat ∧
  TelemetryEventV1.sequence <$> yields g = seqZ 1 (Z.of_nat (length (yields g))) ∧
  StronglySorted Z.lt (TelemetryEventV1.source_timestamp <$> yields g) ∧
  (∀ e, e ∈ yields g →
     noon ≤ TelemetryEventV1.source_timestamp e < noon + seconds 3600 ∧
     TelemetryEventV1.replay_session_id e = ReplayCommandV1.replay_session_id (command 7 0) ∧
     runtime_id "telemetry" (ReplayCommandV1.replay_session_id (command 7 0))
       (text (dec_chars (TelemetryEventV1.sequence e))) = Ok (TelemetryEventV1.message_id e)) ∧
  (ending g = None →
     TelemetryEventV1.source_timestamp <$> yields g =
     TelemetryRow.timestamp <$> filter (λ r, noon ≤ TelemetryRow.timestamp r < noon + seconds 3600)
       (ReplaySource.rows source_file)).
Proof.
  split; [vm_compute; reflexivity|].
  apply (stream_shape source_file (command 7 0) noon (noon + seconds 3600)); reflexivity.
Defined.

(** The same file read later. *)
Definition reopened : ReplaySource.t :=
  ReplaySource.mk (ReplaySource.rows source_file) (ReplaySource.identity source_file)
    (λ n, mkAware (noon + 1000 * n) 0).

Lemma replay_resumes_witness :
  ∃ e, yields (ReplaySource.iter_events source_file (command 7 0) 1 None) !! 1%nat = Some e ∧
  erase_gen (ReplaySource.iter_events reopened (command 7 0) (TelemetryEventV1.sequence e + 1)
    (Some (TelemetryEventV1.source_timestamp e))) =
  erase_gen (mkGen (drop 2 (yields (ReplaySource.iter_events source_file (command 7 0) 1 None)))
    (ending (ReplaySource.iter_events source_file (command 7 0) 1 None))).
Proof.
  destruct (yields (ReplaySource.iter_events source_file (command 7 0) 1 None) !! 1%nat) as [e|] eqn:He.
  2:{ apply (f_equal (λ o, match o with Some _ => true | None => false end)) in He. vm_compute in He. discriminate. }
  exists e. split; [reflexivity|].
  apply (replay_resumes source_file reopened (command 7 0) (command 7 0) 1 e).
  - split; reflexivity.
  - split_and!; reflexivity.
  - exact He.
Defined.

Lemma stream_speed_independent_witness :
  let slow := ReplayCommandV1.mk (uid 1) (uid 9) digest digest noon (mkAware noon 0) (uid 2) START 1
    (Some noon) (Some (noon + seconds 3600)) in
  let g := ReplaySource.iter_events source_file (command 7 0) 1 None in
  let g' := ReplaySource.iter_events reopened slow 1 None in
  logical_event <$> yields g' = logical_event <$> yields g ∧ ending g' = ending g.
Proof.
  intros slow. apply (stream_speed_independent source_file reopened (command 7 0) slow).
  - split; reflexivity.
  - reflexivity.
  - reflexivity.
Defined.

(** The START of session 7 is delivered again while session 7 runs. *)
Definition busy_schedule : list Event :=
  [Start clock] ++ handled 7 0 ++ [TaskRun draws; TaskSent draws Acked].

Lemma start_while_active_witness :
  let s := exec validate error_text true true (initial source_file) busy_schedule in
  is_ok (handle_start true draws (command 7 0) s).1 = true ∧
  (handle_start true draws (command 7 0) s).2 = s ∧
  ∀ msg, (handle_start true draws (command 7 0) s).1 = Ok (Some msg) → ∃ st, msg.1 = MStatus st ∧
    ReplayStatusV1.replay_session_id st = ReplayCommandV1.replay_session_id (command 7 0) ∧
    ReplayStatusV1.state st = FAILED ∧ ReplayStatusV1.last_sequence st = Some 0 ∧
    ReplayStatusV1.error_code st = Some "REPLAY_ALREADY_ACTIVE"%string.
Proof.
  intros s. split; [vm_compute; reflexivity|].
  destruct (live_session s) as [a|] eqn:Ha.
  2:{ apply (f_equal (λ o, match o with Some _ => true | None => false end)) in Ha. vm_compute in Ha. discriminate. }
  apply (start_while_active true draws (command 7 0) s a
    (handle_start true draws (command 7 0) s).1 (handle_start true draws (command 7 0) s).2 Ha).
  apply surjective_pairing.
Defined.

(** ** A race *)

(** Session 7 has published its last event and recorded COMPLETED; PAUSE is handled
    while it sends its final status, and session 8 is started next. *)
Definition late_pause : list Event :=
  [Start clock] ++ handled 7 0 ++
  [TaskRun draws; TaskSent draws Acked; TaskRun draws; TaskSent draws Acked; TaskRun draws;
   TaskSent draws Acked] ++
  [poll 7 1; TaskSent draws Acked; Published Acked; CommitDone true] ++
  [poll 8 0; Published Acked; CommitDone true; TaskRun draws].

Lemma start_fails s clk e :
  main s = Exited → start true (db s) = Err e →
  main (exec validate error_text true true s [Start clk]) = Exited.
Proof. intros Hm Hs. simpl. by rewrite Hm, Hs. Qed.

(** A PAUSE handled while a finished session sends its final status takes it for a
    running one and puts its checkpoint back to PAUSED.  When another session is
    then started and the process is killed, the service does not start again: two
    sessions look incomplete. *)
Theorem late_pause_blocks_restart :
  let s := exec validate error_text true true (initial source_file) (late_pause ++ [Kill true true]) in
  start true (db s) =
    Err (RuntimeError "multiple incomplete replay sessions require operator resolution") ∧
  ∀ clk, main (exec validate error_text true true s [Start clk]) = Exited.
Proof.
  assert (start true (db (exec validate error_text true true (initial source_file)
    (late_pause ++ [Kill true true]))) =
    Err (RuntimeError "multiple incomplete replay sessions require operator resolution")) as Hs
    by (vm_compute; reflexivity).
  assert (main (exec validate error_text true true (initial source_file)
    (late_pause ++ [Kill true true])) = Exited) as Hm by (vm_compute; reflexivity).
  intros s. split; [exact Hs|]. intros clk. exact (start_fails _ clk _ Hm Hs).
Qed.

(** The broker refuses the first event of session 7; PAUSE is handled while the service
    reports the failure, the process is killed and started again, and the session is
    resumed. *)
Definition late_pause_of_failed : list Event :=
  [Start clock] ++ handled 7 0 ++ [TaskRun draws; TaskSent draws (Raised false)] ++ handled 7 1 ++
  [Kill true true; Start clock; TaskRun draws] ++ handled 7 2 ++
  [TaskRun draws; TaskSent draws Acked; TaskSent draws Acked; TaskSent draws Acked].

(** A PAUSE handled while a failed session reports its failure puts the checkpoint,
    which counts the event that was lost, back to PAUSED: the session is resumed
    after that event, completes, and the event is never published. *)
Theorem late_pause_loses_event :
  let s := exec validate error_text true true (initial source_file) late_pause_of_failed in
  TelemetryEventV1.sequence <$> telemetry_of (uid 7) (log s) = [2; 3] ∧
  TelemetryEventV1.sequence <$> yields (ReplaySource.iter_events source_file (command 7 0) 1 None) = [1; 2; 3] ∧
  CheckpointRow.state <$> replay_checkpoints (db s) !! uid 7 = Some COMPLETED.
Proof. vm_compute. split_and!; reflexivity. Qed.

(** ** The replay service: what it promises

    The telemetry of a replay over any schedule, with crashes and restarts;
    the progress of a replay nobody interrupts; the promptness of PAUSE and STOP;
    and two races of the control commands with the end of a session. *)

Section Schedules.
Context `{JsonModel ReplayCommandV1.t, JsonModel TelemetryEventV1.t, JsonModel ReplayStatusV1.t,
          JsonModel QuarantineRecordV1.t, TableOps}.
Variable validate : bytes → result ReplayCommandV1.t.
Variable error_text : exn → string.
Variable enable_pacing : bool.

(** No control command is handled while its session publishes its last status. *)
Fixpoint polite (s : RState) (evs : list Event) : bool :=
  match evs with
  | [] => true
  | ev :: evs =>
      negb (late_control validate ev s) &&
      polite (default s (step validate error_text true enable_pacing ev s)) evs
  end.

(** The START commands of a schedule. *)
Definition starts (evs : list Event) : list ReplayCommandV1.t := omap (start_of validate) evs.

Lemma exec_inv src evs started s :
  (∀ c : ReplayCommandV1.t, model_validate (model_dump c) = Ok c) →
  Inv src started s →
  NoDup (ReplayCommandV1.replay_session_id <$> started ++ starts evs) →
  polite s evs = true →
  Inv src (started ++ starts evs) (exec validate error_text true enable_pacing s evs).
Proof.
  intros Hcodec. revert started s. induction evs as [|ev evs IH]; intros started s Hinv Hnd Hp.
  { by rewrite app_nil_r. }
  simpl in Hp. apply andb_true_iff in Hp as [Hlate Hp]. apply negb_true_iff in Hlate.
  assert (starts (ev :: evs) = option_list (start_of validate ev) ++ starts evs) as Hs.
  { unfold starts. simpl. by destruct (start_of validate ev). }
  rewrite Hs, app_assoc in Hnd |- *. simpl.
  apply IH; [|done|done].
  destruct (step _ _ _ _ ev s) as [s'|] eqn:Hstep; simpl.
  2:{ eapply inv_weaken; [|done]. set_solver. }
  eapply step_inv; try done. intros c c' Hc Hc' Heq.
  rewrite Hc' in Hnd. rewrite <-app_assoc, fmap_app, NoDup_app in Hnd. destruct Hnd as (_ & Hnd & _).
  apply (Hnd (ReplayCommandV1.replay_session_id c)); [by apply list_elem_of_fmap_2|].
  rewrite Heq. simpl. set_solver.
Qed.

(** *** The last START of each session *)

(** Each session with the START it was last accepted with, and the length of the
    topic then. *)
Fixpoint runs (rs : list (ReplayCommandV1.t * nat)) (s : RState) (evs : list Event)
  : list (ReplayCommandV1.t * nat) :=
  match evs with
  | [] => rs
  | ev :: evs =>
      runs (match accepted_start validate ev s with
            | Some c => filter (λ r : ReplayCommandV1.t * nat, ReplayCommandV1.replay_session_id r.1 ≠
                                  ReplayCommandV1.replay_session_id c) rs ++ [(c, length (log s))]
            | None => rs
            end) (default s (step validate error_text true enable_pacing ev s)) evs
  end.

Definition tracked (src : ReplaySource.t) (rs : list (ReplayCommandV1.t * nat)) (s : RState) : Prop :=
  ∃ L, Inv src (rs.*1) (relog L s) ∧ NoDup (ReplayCommandV1.replay_session_id <$> rs.*1) ∧
    (∀ c m, (c, m) ∈ rs → (m ≤ length (log s))%nat ∧
      telemetry_of (ReplayCommandV1.replay_session_id c) L =
      telemetry_of (ReplayCommandV1.replay_session_id c) (drop m (log s))) ∧
    ∀ sid, sid ∉ ReplayCommandV1.replay_session_id <$> rs.*1 → telemetry_of sid L = telemetry_of sid (log s).

(** A topic without the telemetry of a session. *)
Definition purge (sid : UUID) (L : list Outgoing) : list Outgoing :=
  omap (λ o : Outgoing, match o.1 with
    | MTelemetry e => if bool_decide (TelemetryEventV1.replay_session_id e = sid) then None else Some o
    | _ => Some o
    end) L.

Lemma telemetry_cons sid (e : TelemetryEventV1.t) x L :
  telemetry_of sid ((MTelemetry e, x) :: L) =
  if bool_decide (TelemetryEventV1.replay_session_id e = sid) then e :: telemetry_of sid L else telemetry_of sid L.
Proof. unfold telemetry_of. csimpl. by case_bool_decide. Qed.

Lemma purge_cons sid (e : TelemetryEventV1.t) x L :
  purge sid ((MTelemetry e, x) :: L) =
  if bool_decide (TelemetryEventV1.replay_session_id e = sid) then purge sid L
  else (MTelemetry e, x) :: purge sid L.
Proof. unfold purge. csimpl. by case_bool_decide. Qed.

Lemma purge_telemetry sid sid' L :
  telemetry_of sid' (purge sid L) = if bool_decide (sid' = sid) then [] else telemetry_of sid' L.
Proof.
  induction L as [|[[e| |] x] L IH]; [by case_bool_decide| |exact IH|exact IH].
  rewrite purge_cons. destruct (decide (TelemetryEventV1.replay_session_id e = sid)) as [He|He].
  - rewrite bool_decide_eq_true_2, IH, telemetry_cons by done. repeat case_bool_decide; congruence.
  - rewrite bool_decide_eq_false_2, !telemetry_cons, IH by done. repeat case_bool_decide; congruence.
Qed.

Lemma without_runs (c : ReplayCommandV1.t) (rs : list (ReplayCommandV1.t * nat)) :
  (filter (λ r : ReplayCommandV1.t * nat, ReplayCommandV1.replay_session_id r.1 ≠
     ReplayCommandV1.replay_session_id c) rs).*1 = without (ReplayCommandV1.replay_session_id c) (rs.*1).
Proof.
  unfold without. induction rs as [|[c' m] rs IH]; [done|]. csimpl. rewrite !filter_cons. simpl.
  destruct (decide _); csimpl; by rewrite IH.
Qed.

Lemma tracked_step src rs s ev :
  (∀ c : ReplayCommandV1.t, model_validate (model_dump c) = Ok c) →
  tracked src rs s → late_control validate ev s = false →
  tracked src (match accepted_start validate ev s with
    | Some c => filter (λ r : ReplayCommandV1.t * nat, ReplayCommandV1.replay_session_id r.1 ≠
                          ReplayCommandV1.replay_session_id c) rs ++ [(c, length (log s))]
    | None => rs
    end) (default s (step validate error_text true enable_pacing ev s)).
Proof.
  intros Hcodec (L & Hinv & Hnd & HL & Hout) Hlate.
  assert (accepted_start validate ev (relog L s) = accepted_start validate ev s) as Hacc by done.
  destruct (accepted_start validate ev s) as [c|] eqn:Ha.
  - destruct (step validate error_text true enable_pacing ev s) as [s'|] eqn:Hstep.
    2:{ exfalso. unfold accepted_start in Ha. destruct (main s) eqn:Hm; try done.
        destruct (start_of validate ev) as [c'|] eqn:Hs; [|done].
        apply start_of_poll in Hs as (d & record & -> & Hd & Hst). by erewrite step_start in Hstep. }
    simpl. destruct (step_relog validate error_text enable_pacing ev s s' Hstep) as (new & Hlog & Hrl).
    destruct (step_accepted validate error_text enable_pacing src Hcodec (rs.*1) (relog L s) ev c (relog (L ++ new) s')
      (purge (ReplayCommandV1.replay_session_id c) L) Hinv Hacc (Hrl L)) as [Hnew Hinv'].
    { by rewrite purge_telemetry, bool_decide_eq_true_2. }
    { intros sid Hne. by rewrite purge_telemetry, bool_decide_eq_false_2. }
    simpl in Hnew. assert (new = []) as ->.
    { apply (f_equal length) in Hnew. rewrite length_app in Hnew. apply nil_length_inv. lia. }
    rewrite app_nil_r in Hlog. exists (purge (ReplayCommandV1.replay_session_id c) L). split_and!.
    + rewrite fmap_app, without_runs. exact Hinv'.
    + rewrite fmap_app, without_runs, fmap_app. apply NoDup_app. split_and!; [| |apply NoDup_singleton].
      * unfold without. eapply sublist_NoDup; [exact Hnd|apply fmap_sublist, sublist_filter].
      * intros x (c' & -> & Hc')%list_elem_of_fmap Hx. apply list_elem_of_filter in Hc' as [Hne _].
        apply list_elem_of_singleton in Hx. by apply Hne.
    + intros c' m [Hin|Hin]%elem_of_app.
      * apply list_elem_of_filter in Hin as [Hne Hin]. simpl in Hne.
        rewrite purge_telemetry, bool_decide_eq_false_2 by done. rewrite Hlog. by apply HL.
      * apply list_elem_of_singleton in Hin. simplify_eq. rewrite Hlog. split; [done|].
        by rewrite purge_telemetry, bool_decide_eq_true_2, drop_all by done.
    + intros sid Hni. rewrite fmap_app, without_runs, fmap_app in Hni.
      assert (sid ≠ ReplayCommandV1.replay_session_id c) as Hne.
      { intros ->. apply Hni, elem_of_app. right. by apply list_elem_of_singleton. }
      rewrite purge_telemetry, bool_decide_eq_false_2 by done. rewrite Hlog. apply Hout.
      intros (c' & -> & Hc')%list_elem_of_fmap. apply Hni, elem_of_app. left.
      apply list_elem_of_fmap. exists c'. split; [done|]. by apply list_elem_of_filter.
  - destruct (step validate error_text true enable_pacing ev s) as [s'|] eqn:Hstep; simpl; [|by exists L].
    destruct (step_relog validate error_text enable_pacing ev s s' Hstep) as (new & Hlog & Hrl).
    exists (L ++ new). split_and!; [|done| |].
    + eapply step_unaccepted; [done|exact Hinv|exact Hacc|exact Hlate|apply Hrl].
    + intros c m Hin. destruct (HL c m Hin) as [Hm Ht]. rewrite Hlog, length_app. split; [lia|].
      rewrite drop_app_le by done. unfold telemetry_of in *. by rewrite !omap_app, Ht.
    + intros sid Hni. specialize (Hout sid Hni). rewrite Hlog. unfold telemetry_of in *. by rewrite !omap_app, Hout.
Qed.

Lemma runs_tracked src rs s evs :
  (∀ c : ReplayCommandV1.t, model_validate (model_dump c) = Ok c) →
  tracked src rs s → polite s evs = true →
  tracked src (runs rs s evs) (exec validate error_text true enable_pacing s evs).
Proof.
  intros Hcodec. revert rs s. induction evs as [|ev evs IH]; intros rs s Ht Hp; [done|].
  simpl in Hp. apply andb_true_iff in Hp as [Hlate Hp]. apply negb_true_iff in Hlate. simpl.
  apply IH; [|done]. by apply tracked_step.
Qed.

Lemma exec_awake evs s :
  awake s → awake (exec validate error_text true enable_pacing s evs).
Proof.
  revert s. induction evs as [|ev evs IH]; intros s Hs; [done|]. simpl. apply IH.
  destruct (step _ _ _ _ ev s) as [s'|] eqn:Hstep; [|done]. by eapply awake_step.
Qed.

Lemma inv_initial src : Inv src [] (initial src).
Proof.
  split_and!; [by split|done|]. intros sid. left. split_and!; [done|apply lookup_empty|done].
Qed.
End Schedules.

(** C5. The telemetry topic over any schedule in which no control command (PAUSE,
    RESUME or STOP) is handled while its session publishes its final status: whatever
    commands are handled, in whatever order and however often each is delivered,
    broker calls fail or are lost, and however often the process is stopped, killed
    and started again.  From the moment a session is accepted by its last START -
    accepted, because a START delivered while a session is active is refused - the
    events published for it are, without the repetitions of the last event that a
    redelivery makes, the first events of the stream of that command, in order and
    without gap; and when the store says the session is complete, all of them.  For a
    session no START of which was accepted nothing is published. *)
Theorem replay_exact
    `{JsonModel ReplayCommandV1.t, JsonModel TelemetryEventV1.t, JsonModel ReplayStatusV1.t,
      JsonModel QuarantineRecordV1.t, TableOps}
    validate error_text enable_pacing src evs
    (Hcodec : ∀ c : ReplayCommandV1.t, model_validate (model_dump c) = Ok c)
    (Hpolite : polite validate error_text enable_pacing (initial src) evs = true) :
  let s := exec validate error_text true enable_pacing (initial src) evs in
  let started := runs validate error_text enable_pacing [] (initial src) evs in
  (∀ cmd m, (cmd, m) ∈ started →
     let sid := ReplayCommandV1.replay_session_id cmd in
     ∃ n, (n ≤ length (logical_stream src cmd))%nat ∧
       erase_telemetry <$> dedup (telemetry_of sid (drop m (log s))) = take n (logical_stream src cmd) ∧
       ∀ r, replay_checkpoints (db s) !! sid = Some r → CheckpointRow.state r = COMPLETED →
         n = length (logical_stream src cmd) ∧ stream_ending src cmd = None) ∧
  ∀ sid, sid ∉ ReplayCommandV1.replay_session_id <$> started.*1 → telemetry_of sid (log s) = [].
Proof.
  intros s started.
  destruct (runs_tracked validate error_text enable_pacing src [] (initial src) evs Hcodec) as (L & (_ & _ & Hinv) & Hnd & HL & Hout);
    [|done|].
  { exists []. split_and!; [exact (inv_initial src)|constructor|by intros ? ? ?%elem_of_nil|done]. }
  fold s started in Hinv, Hnd, HL, Hout. split.
  - intros cmd m Hcmd sid. destruct (HL cmd m Hcmd) as [_ Ht]. fold sid in Ht. rewrite <-Ht.
    assert (cmd ∈ started.*1) as Hcmd1 by (apply list_elem_of_fmap; by exists (cmd, m)).
    destruct (Hinv sid) as [(Hn & Hr & _)|(c & n & Hin & _ & Hsid & [Hp Hn] & r & Hr & (_ & _ & Hcomp) & _)]; simpl in *.
    + exists 0%nat. rewrite Hn, Hr. split_and!; [lia|done|done].
    + assert (c = cmd) as -> by (by eapply (started_unique cmd started.*1)).
      exists n. split_and!; [done|done|]. intros r' Hr' Hst. unfold sid in Hr'. rewrite Hr in Hr'. simplify_eq. by apply Hcomp.
  - intros sid Hni. rewrite <-(Hout sid Hni). destruct (Hinv sid) as [(Hn & _)|(c & n & Hin & _ & Hsid & _)]; [done|].
    exfalso. apply Hni, list_elem_of_fmap. by exists c.
Qed.

(** A task that is neither over nor reporting a failure. *)
Definition healthy (t : Task) : bool :=
  match t with
  | TaskDone | FreshFailed _ _ | Running _ (SendingFailed _ _) => false
  | _ => true
  end.

Lemma healthy_live `{JsonModel ReplayCommandV1.t, TableOps} src cmd n t r :
  healthy t = true → waiting t = false → TaskPos src cmd n t r →
  Live t r ∧ (rank src cmd t ≤ 2 * length (logical_stream src cmd) + 4)%nat.
Proof.
  intros Hh Hw Ht.
  assert (∀ l ev, LoopPos src cmd n l ev r →
    (length (yields (remaining l)) ≤ length (logical_stream src cmd))%nat) as Hlen.
  { intros l ev (k & _ & _ & Hrem). apply (f_equal (length ∘ yields)) in Hrem. simpl in Hrem.
    rewrite length_fmap, length_drop in Hrem. lia. }
  destruct t as [| |l [? []| | |[]| |]| |]; simpl in *; try done; (split; [try done|try lia]);
    destruct Ht as (_ & Hpos); try done;
    first [pose proof (Hlen _ _ Hpos)|pose proof (Hlen _ _ (proj1 Hpos))]; lia.
Qed.

(** C14. An uninterrupted replay completes: from any state the service can reach, also
    after kills and restarts, when each session was started once and no control
    command was handled while its session published its final status, if the session of a valid START command is active,
    neither paused nor stopped, and has not failed, then when the broker
    acknowledges what is sent the session ends, within two segments for each
    event, with every event of the stream published and the checkpoint COMPLETED. *)
Theorem replay_completes
    `{JsonModel ReplayCommandV1.t, JsonModel TelemetryEventV1.t, JsonModel ReplayStatusV1.t,
      JsonModel QuarantineRecordV1.t, TableOps}
    validate error_text enable_pacing src evs cmd a d
    (Hcodec : ∀ c : ReplayCommandV1.t, model_validate (model_dump c) = Ok c)
    (Hstatus : ∀ st : ReplayStatusV1.t, is_ok (encode_message st) = true)
    (Hevent : ∀ e : TelemetryEventV1.t,
       erase_telemetry e ∈ logical_stream src cmd → is_ok (encode_message e) = true)
    (Honce : NoDup (ReplayCommandV1.replay_session_id <$> starts validate evs))
    (Hpolite : polite validate error_text enable_pacing (initial src) evs = true)
    (Hcmd : cmd ∈ starts validate evs) (Hwf : wf_start cmd) (Hstream : stream_ending src cmd = None) :
  let s := exec validate error_text true enable_pacing (initial src) evs in
  let sid := ReplayCommandV1.replay_session_id cmd in
  active_session s = Some a → ReplayController.session_id (controller a) = sid →
  main s ≠ Exited → pause_event a = true → stop_event a = false → healthy (task a) = true →
  let s' := Nat.iter (2 * length (logical_stream src cmd) + 4)
              (drive validate error_text enable_pacing d) s in
  ∃ a' r, active_session s' = Some a' ∧ task a' = TaskDone ∧
    replay_checkpoints (db s') !! sid = Some r ∧ CheckpointRow.state r = COMPLETED ∧
    erase_telemetry <$> dedup (telemetry_of sid (log s')) = logical_stream src cmd.
Proof.
  intros s sid Ha Hid Hmain Hpause Hstop Hhealthy s'.
  pose proof (exec_inv validate error_text enable_pacing src evs [] (initial src) Hcodec
    (inv_initial src) Honce Hpolite) as Hinv. fold s in Hinv. simpl in Hinv.
  assert (awake s) as Haw by (apply exec_awake; by intros ? ?).
  destruct (active_started _ _ _ _ Hinv Ha) as (c & n & Hc & _ & Hsid & _ & r & Hr & _ & Htask).
  assert (c = cmd) as -> by (eapply started_unique; [exact Hcmd|exact Honce|exact Hc|by rewrite Hsid]).
  destruct (healthy_live src cmd n (task a) r Hhealthy (Haw a Ha Hpause) (Htask a Ha Hid)) as [Hl Hk].
  apply (driven_0 src cmd (starts validate evs)).
  eapply (drive_completes validate error_text enable_pacing src cmd Hcodec Hwf Hstream Hstatus Hevent).
  split_and!; [apply Hinv..|exact Hcmd|exact Honce|exact Hmain|]. by exists a, r.
Qed.

(** PAUSE and STOP are prompt: from when the command of the live session is
    handled, and until a restart or a command that starts or resumes a session,
    at most one more telemetry event reaches the topic, whatever else happens. *)
Theorem pause_is_prompt
    `{JsonModel ReplayCommandV1.t, JsonModel TelemetryEventV1.t, JsonModel ReplayStatusV1.t,
      JsonModel QuarantineRecordV1.t, TableOps}
    validate error_text has_store enable_pacing s d record c a evs
    (Hdecode : decode_message validate (rvalue record) = Ok c)
    (Haction : ReplayCommandV1.action c = PAUSE ∨ ReplayCommandV1.action c = STOP)
    (Hlive : live_session s = Some a)
    (Hid : ReplayController.session_id (controller a) = ReplayCommandV1.replay_session_id c)
    (Hidle : main s = Idle) (Hcalm : forallb (calm validate) evs = true) :
  (telemetry_count (log (exec validate error_text has_store enable_pacing s (Poll d record :: evs)))
    ≤ telemetry_count (log s) + 1)%nat.
Proof.
  change (exec validate error_text has_store enable_pacing s (Poll d record :: evs)) with
    (exec validate error_text has_store enable_pacing
      (default s (step validate error_text has_store enable_pacing (Poll d record) s)) evs).
  destruct (step _ _ _ _ (Poll d record) s) as [s1|] eqn:Hstep.
  2:{ simpl in Hstep. rewrite Hidle in Hstep.
      by destruct (handle_command_record _ _ _ _ _ _) as [[[m|]|] s1]. }
  destruct (poll_holds _ _ _ _ _ _ _ _ _ _ Hdecode Haction Hlive Hid Hstep) as (Hh & Ha & Hp).
  pose proof (exec_settles validate error_text has_store enable_pacing evs s1 Hcalm Hh Ha) as He.
  unfold potential in *. simpl. lia.
Qed.

Import ReplayExamples.

(** Session 7 is started; its START is delivered again while it runs; the process is
    killed while its second event is delivered, started again, and the session runs
    to its end.  Then the START comes a third time and is accepted: the stream begins
    again. *)
Definition crash_schedule : list Event :=
  [Start clock] ++ handled 7 0 ++
  [TaskRun draws; TaskSent draws Acked] ++ handled 7 0 ++ [TaskRun draws;
   Kill false true; Start clock; TaskRun draws;
   TaskSent draws Acked; TaskSent draws Acked;
   TaskSent draws Acked] ++ handled 7 0 ++ [TaskRun draws; TaskSent draws Acked].

Lemma replay_exact_witness :
  let s := exec validate error_text true true (initial source_file) crash_schedule in
  let cmd := command 7 0 in
  let tel := telemetry_of (ReplayCommandV1.replay_session_id cmd) in
  ∃ m, length (tel (take m (log s))) = 4%nat ∧ length (tel (drop m (log s))) = 1%nat ∧
  ∃ n, (n ≤ length (logical_stream source_file cmd))%nat ∧
    erase_telemetry <$> dedup (tel (drop m (log s))) = take n (logical_stream source_file cmd) ∧
    ∀ r, replay_checkpoints (db s) !! ReplayCommandV1.replay_session_id cmd = Some r →
      CheckpointRow.state r = COMPLETED →
      n = length (logical_stream source_file cmd) ∧
      stream_ending source_file cmd = None.
Proof.
  intros s cmd tel.
  exists 7%nat. split; [vm_compute; reflexivity|]. split; [vm_compute; reflexivity|].
  assert (polite validate error_text true (initial source_file) crash_schedule = true) as Hp
    by (vm_compute; reflexivity).
  assert ((command 7 0, 7%nat) ∈ runs validate error_text true [] (initial source_file) crash_schedule) as Hr.
  { replace (runs validate error_text true [] (initial source_file) crash_schedule) with [(command 7 0, 7%nat)]
      by (vm_compute; reflexivity). apply list_elem_of_singleton. reflexivity. }
  destruct (replay_exact validate error_text true source_file crash_schedule command_codec Hp) as [Hx _].
  exact (Hx (command 7 0) 7%nat Hr).
Defined.

(** Session 7 after a kill and a restart, before its second event. *)
Definition restart_schedule : list Event :=
  [Start clock] ++ handled 7 0 ++
  [TaskRun draws; TaskSent draws Acked; TaskRun draws; Kill false true; Start clock].

Lemma replay_completes_witness :
  let s := exec validate error_text true true (initial source_file) restart_schedule in
  ∃ a, active_session s = Some a ∧
  let s' := Nat.iter (2 * length (logical_stream source_file (command 7 0)) + 4)
              (drive validate error_text true draws) s in
  ∃ a' r, active_session s' = Some a' ∧ task a' = TaskDone ∧
    replay_checkpoints (db s') !! ReplayCommandV1.replay_session_id (command 7 0) = Some r ∧
    CheckpointRow.state r = COMPLETED ∧
    erase_telemetry <$> dedup (telemetry_of (ReplayCommandV1.replay_session_id (command 7 0)) (log s')) =
      logical_stream source_file (command 7 0).
Proof.
  intros s. destruct (active_session s) as [a|] eqn:Ha.
  2:{ apply (f_equal (λ o, match o with Some _ => true | None => false end)) in Ha. vm_compute in Ha. discriminate. }
  exists a. split; [reflexivity|].
  assert (bool_decide (ReplayController.session_id (controller a) = uid 7) && pause_event a &&
    negb (stop_event a) && healthy (task a) = true) as Hb.
  { apply (f_equal (λ o, match o with
      | Some a => bool_decide (ReplayController.session_id (controller a) = uid 7) && pause_event a &&
          negb (stop_event a) && healthy (task a)
      | None => false end)) in Ha.
    rewrite <-Ha. vm_compute. reflexivity. }
  rewrite !andb_true_iff, negb_true_iff, bool_decide_eq_true in Hb. destruct Hb as [[[Hid Hp] Hs] Hh].
  apply (replay_completes validate error_text true source_file restart_schedule (command 7 0) a draws).
  - apply command_codec.
  - intros st. reflexivity.
  - intros e _. reflexivity.
  - apply NoDup_singleton.
  - vm_compute. reflexivity.
  - apply list_elem_of_singleton. reflexivity.
  - split_and!; [reflexivity|reflexivity|apply list_elem_of_further, list_elem_of_further, list_elem_of_singleton; reflexivity|].
    exists noon, (noon + seconds 3600). split_and!; [reflexivity|reflexivity|vm_compute; reflexivity].
  - vm_compute. reflexivity.
  - exact Ha.
  - exact Hid.
  - vm_compute. discriminate.
  - exact Hp.
  - exact Hs.
  - exact Hh.
Defined.

(** Session 7 is sending its second event when PAUSE comes. *)
Definition pause_schedule : list Event :=
  [Start clock] ++ handled 7 0 ++ [TaskRun draws; TaskSent draws Acked; TaskRun draws].
Definition after_pause : list Event :=
  [Published Acked; TaskSent draws Acked; CommitDone true; TaskRun draws; TaskSent draws Acked].

Lemma pause_is_prompt_witness :
  let s := exec validate error_text true true (initial source_file) pause_schedule in
  (telemetry_count (log (exec validate error_text true true s (poll 7 1 :: after_pause)))
    ≤ telemetry_count (log s) + 1)%nat ∧
  telemetry_count (log (exec validate error_text true true s (poll 7 1 :: after_pause))) = 2%nat.
Proof.
  intros s. split; [|vm_compute; reflexivity].
  destruct (live_session s) as [a|] eqn:Ha.
  2:{ apply (f_equal (λ o, match o with Some _ => true | None => false end)) in Ha. vm_compute in Ha. discriminate. }
  assert (ReplayController.session_id (controller a) = uid 7) as Hid.
  { apply (f_equal (λ o, match o with
      | Some a => bool_decide (ReplayController.session_id (controller a) = uid 7) | None => false end)) in Ha.
    vm_compute in Ha. symmetry in Ha. by apply bool_decide_eq_true in Ha. }
  apply (pause_is_prompt validate error_text true true s draws
    (mkRecord REPLAY_COMMANDS_TOPIC 0 0 [7; 1]) (command 7 1) a after_pause).
  - reflexivity.
  - left. reflexivity.
  - exact Ha.
  - exact Hid.
  - vm_compute. reflexivity.
  - vm_compute. reflexivity.
Defined.
