(* ===== verification/ConsoleStream.v ===== *)
(** * The console stream ([console_stream.py])

    What an operator's browser sees live: telemetry thinned per machine, durable
    events stored before they are shown, and for each subscriber a bounded queue
    that is replaced by a request to resynchronise when it overflows.  A queue is
    an object: subscribers hold its identity, [queues] its content. *)

From S2P Require Import Prelude PyText PyUuid PyTime PyFloat PyHash PyJson.
From S2P Require Import Messages KafkaIo Tables Store.

Abbreviation console_event := ConsoleEventV1.t.

(** ** [TelemetryDownsampler] *)
Module TelemetryDownsampler.
Record t := mk { interval_seconds : Z; last_emitted_by_machine : gmap string datetime }.
Definition init (interval_seconds : Z) : t := mk interval_seconds ∅.

(** [str(event.payload.get("machine_id", "default"))]; [py_str] is [str] of a
    value that is not text. *)
Definition machine_of (py_str : json → string) (event : console_event) : string :=
  match jget "machine_id" (ConsoleEventV1.payload event) with
  | Some (JStr s) => s
  | Some v => py_str v
  | None => "default"
  end.

Definition accept (py_str : json → string) (event : console_event) (d : t) : bool * t :=
  let machine_id := machine_of py_str event in
  let ts := ConsoleEventV1.source_timestamp event in
  if match last_emitted_by_machine d !! machine_id with
     | None => true
     | Some last_ts => seconds (interval_seconds d) <=? ts - last_ts
     end
  then (true, mk (interval_seconds d) (<[machine_id := ts]> (last_emitted_by_machine d)))
  else (false, d).
End TelemetryDownsampler.

(** ** [ConsoleEventBroker] *)
Inductive Item := EventItem (e : console_event) | ResyncRequired.

Record Broker := mkBroker {
  max_queue_size : Z;
  subscribers : gmap string (gset nat);
  queues : gmap nat (list Item);
  next_queue : nat
}.
Definition init_broker (max_queue_size : Z) : Broker := mkBroker max_queue_size ∅ ∅ 0.

Definition subscribers_of (b : Broker) (sid : string) : gset nat := default ∅ (subscribers b !! sid).

Definition subscribe (sid : string) (b : Broker) : nat * Broker :=
  let q := next_queue b in
  (q, mkBroker (max_queue_size b) (<[sid := {[q]} ∪ subscribers_of b sid]> (subscribers b))
        (<[q := []]> (queues b)) (S q)).

Definition unsubscribe (sid : string) (q : nat) (b : Broker) : Broker :=
  match subscribers b !! sid with
  | None => b
  | Some qs =>
      let qs := qs ∖ {[q]} in
      mkBroker (max_queue_size b)
        (if bool_decide (qs = ∅) then delete sid (subscribers b) else <[sid := qs]> (subscribers b))
        (queues b) (next_queue b)
  end.

Definition subscriber_count (sid : string) (b : Broker) : nat := size (subscribers_of b sid).

(** [q.full()]: a queue with a [maxsize] of zero or less is never full. *)
Definition queue_full (max_queue_size : Z) (items : list Item) : bool :=
  (0 <? max_queue_size) && (max_queue_size <=? Z.of_nat (length items)).

(** [put_nowait], or when the queue is full empty it and ask to resynchronise. *)
Definition offer (max_queue_size : Z) (event : console_event) (items : list Item) : list Item :=
  if queue_full max_queue_size items then [ResyncRequired] else items ++ [EventItem event].

Definition publish (event : console_event) (b : Broker) : Broker :=
  let qs := subscribers_of b (ConsoleEventV1.replay_session_id event) in
  mkBroker (max_queue_size b) (subscribers b)
    (map_imap (λ q items,
       Some (if bool_decide (q ∈ qs) then offer (max_queue_size b) event items else items)) (queues b))
    (next_queue b).

(** [q.get()] by the holder of the queue, when there is an item. *)
Definition take_item (q : nat) (b : Broker) : option Item * Broker :=
  match queues b !! q with
  | Some (item :: items) =>
      (Some item, mkBroker (max_queue_size b) (subscribers b) (<[q := items]> (queues b)) (next_queue b))
  | _ => (None, b)
  end.

(** ** [ConsoleFeed] *)

(** [needle in value] *)
Fixpoint starts_with (needle value : bytes) : bool :=
  match needle, value with
  | [], _ => true
  | x :: needle, y :: value => (x =? y) && starts_with needle value
  | _ :: _, [] => false
  end.
Fixpoint contains (needle value : bytes) : bool :=
  starts_with needle value || match value with [] => false | _ :: value => contains needle value end.

(** What [process] is given: a console event, or a Kafka record. *)
Inductive FeedRecord := Decoded (e : console_event) | Raw (r : KafkaRecord).

Record Feed := mkFeed {
  store : DB;
  broker : Broker;
  downsampler : TelemetryDownsampler.t;
  commit_calls : list FeedRecord
}.

Section ConsoleFeed.
Context `{JsonModel TelemetryEventV1.t, JsonModel ScoreDecisionV1.t, JsonModel AlertEventV1.t,
          JsonModel ReplayStatusV1.t}.
(** pydantic's [model_validate_json] of the messages, [str] of a value, and
    whether the consumer can commit, and what its calls raise. *)
Variable validate_telemetry : bytes → result TelemetryEventV1.t.
Variable validate_score : bytes → result ScoreDecisionV1.t.
Variable validate_alert : bytes → result AlertEventV1.t.
Variable validate_status : bytes → result ReplayStatusV1.t.
Variable py_str : json → string.
Variable can_commit : bool.
Variable commit_outcome : nat → option exn.

Definition quoted (name : string) : bytes := encode (text (["034"%char] ++ chars name ++ ["034"%char])).

Definition state_text (s : ReplayState) : string :=
  match s with
  | CREATED => "CREATED" | RUNNING => "RUNNING" | PAUSED => "PAUSED"
  | STOPPED => "STOPPED" | COMPLETED => "COMPLETED" | FAILED => "FAILED"
  end.
Definition optional_int (n : option Z) : string :=
  match n with Some n => text (dec_chars n) | None => "None" end.

Definition decode (record : FeedRecord) : result console_event :=
  match record with
  | Decoded e => Ok e
  | Raw r =>
      let is_kind topic name := bool_decide (rtopic r = topic) || contains (quoted name) (rvalue r) in
      if is_kind TELEMETRY_TOPIC "telemetry-event-v1"%string then
        m ← decode_message validate_telemetry (rvalue r);
        Ok (ConsoleEventV1.mk (str_uuid (TelemetryEventV1.message_id m))
              (str_uuid (TelemetryEventV1.replay_session_id m)) TELEMETRY_EVENT
              (TelemetryEventV1.source_timestamp m) (model_dump m) false)
      else if is_kind SCORES_TOPIC "score-decision-v1"%string then
        m ← decode_message validate_score (rvalue r);
        Ok (ConsoleEventV1.mk (str_uuid (ScoreDecisionV1.decision_id m))
              (str_uuid (ScoreDecisionV1.replay_session_id m)) SCORE_EVENT
              (ScoreDecisionV1.source_timestamp m) (model_dump m) true)
      else if is_kind ALERT_EVENTS_TOPIC "alert-event-v1"%string then
        m ← decode_message validate_alert (rvalue r);
        Ok (ConsoleEventV1.mk (str_uuid (AlertEventV1.message_id m))
              (str_uuid (AlertEventV1.replay_session_id m)) ALERT_EVENT
              (AlertEventV1.source_timestamp m) (model_dump m) true)
      else
        m ← decode_message validate_status (rvalue r);
        Ok (ConsoleEventV1.mk
              ("status-" +:+ str_uuid (ReplayStatusV1.replay_session_id m) +:+ "-" +:+
               state_text (ReplayStatusV1.state m) +:+ "-" +:+ optional_int (ReplayStatusV1.last_sequence m))%string
              (str_uuid (ReplayStatusV1.replay_session_id m)) STATUS_EVENT
              (ReplayStatusV1.source_timestamp m) (model_dump m) true)
  end.

(** [if self.consumer is not None and hasattr(...): self.consumer.commit(record)] *)
Definition feed_commit (record : FeedRecord) : M Feed unit := λ f,
  if can_commit then
    let f' := mkFeed (store f) (broker f) (downsampler f) (commit_calls f ++ [record]) in
    match commit_outcome (length (commit_calls f)) with
    | None => (Ok (), f')
    | Some e => (Err e, f')
    end
  else (Ok (), f).

(** [event.event_type == "telemetry" and not self.downsampler.accept(event)] *)
Definition thin (event : console_event) : M Feed bool := λ f,
  if bool_decide (ConsoleEventV1.event_type event = TELEMETRY_EVENT) then
    let '(accepted, d) := TelemetryDownsampler.accept py_str event (downsampler f) in
    (Ok (negb accepted), mkFeed (store f) (broker f) d (commit_calls f))
  else (Ok false, f).

Definition append_durable (event : console_event) : M Feed unit := λ f,
  let '(r, db) := append_console_event event (store f) in
  (r, mkFeed db (broker f) (downsampler f) (commit_calls f)).

Definition process_console (record : FeedRecord) : M Feed (option console_event) :=
  event ← lift_res (decode record);
  dropped ← thin event;
  if dropped : bool then _ ← feed_commit record; mret None
  else
    _ ← whenM (ConsoleEventV1.durable event) (append_durable event);
    _ ← modify (λ f, mkFeed (store f) (publish event (broker f)) (downsampler f) (commit_calls f));
    _ ← feed_commit record;
    mret (Some event).
End ConsoleFeed.
