(* ===== verification/ConsoleProps.v ===== *)
(** * The console stream: lemmas and properties *)

From S2P Require Import Prelude PyText PyUuid PyTime PyFloat PyHash PyJson.
From S2P Require Import Messages KafkaIo Tables Store ConsoleStream.

(** ** Queues *)

(** [items] accounts for [evs]: each event is in place, or a request to
    resynchronise stands for it and its neighbours. *)
Inductive accounts : list Item → list console_event → Prop :=
| accounts_nil : accounts [] []
| accounts_event e items evs : accounts items evs → accounts (EventItem e :: items) (e :: evs)
| accounts_resync lost items evs :
    lost ≠ [] → accounts items evs → accounts (ResyncRequired :: items) (lost ++ evs).

Lemma accounts_snoc items evs e : accounts items evs → accounts (items ++ [EventItem e]) (evs ++ [e]).
Proof.
  induction 1 as [|e' items evs _ IH|lost items evs Hl _ IH]; simpl.
  - apply accounts_event, accounts_nil.
  - by apply accounts_event.
  - rewrite <-app_assoc. by apply accounts_resync.
Qed.

(** Dropping what is not taken yet. *)
Lemma accounts_drop taken queue evs e :
  accounts (taken ++ queue) evs → accounts (taken ++ [ResyncRequired]) (evs ++ [e]).
Proof.
  revert evs. induction taken as [|i taken IH]; intros evs Ha; simpl in *.
  - rewrite <-(app_nil_r (evs ++ [e])). apply accounts_resync; [by destruct evs|apply accounts_nil].
  - inversion Ha as [|e' items evs' Ha'|lost items evs' Hl Ha']; subst; simpl.
    + apply accounts_event, IH, Ha'.
    + rewrite <-app_assoc. apply accounts_resync; [done|]. by apply IH.
Qed.

Lemma accounts_offer n taken queue evs e :
  accounts (taken ++ queue) evs → accounts (taken ++ offer n e queue) (evs ++ [e]).
Proof.
  intros Ha. unfold offer. destruct (queue_full n queue); [by eapply accounts_drop|].
  rewrite app_assoc. by apply accounts_snoc.
Qed.

Lemma offer_bound n e queue : 0 < n → Z.of_nat (length queue) ≤ n → Z.of_nat (length (offer n e queue)) ≤ n.
Proof.
  intros Hn Hq. unfold offer, queue_full. rewrite (proj2 (Z.ltb_lt _ _) Hn). simpl.
  destruct (Z.leb_spec n (Z.of_nat (length queue))); [simpl; lia|]. rewrite length_app. simpl. lia.
Qed.

(** ** Operations on a broker *)
Inductive BrokerOp :=
| OpSubscribe (sid : string)
| OpUnsubscribe (sid : string) (q : nat)
| OpPublish (e : console_event)
| OpTake (q : nat).

(** One operation, and what a holder took. *)
Definition broker_op (b : Broker) (op : BrokerOp) : Broker * option (nat * Item) :=
  match op with
  | OpSubscribe sid => ((subscribe sid b).2, None)
  | OpUnsubscribe sid q => (unsubscribe sid q b, None)
  | OpPublish e => (publish e b, None)
  | OpTake q => let '(item, b') := take_item q b in (b', (λ i, (q, i)) <$> item)
  end.
Fixpoint broker_run (b : Broker) (ops : list BrokerOp) : Broker * list (nat * Item) :=
  match ops with
  | [] => (b, [])
  | op :: ops =>
      let '(b1, o) := broker_op b op in
      let '(b2, taken) := broker_run b1 ops in (b2, match o with Some x => x :: taken | None => taken end)
  end.

Definition taken_from (q : nat) (log : list (nat * Item)) : list Item :=
  snd <$> filter (λ x : nat * Item, x.1 = q) log.
Definition published_to (sid : string) (ops : list BrokerOp) : list console_event :=
  omap (λ op, match op with
              | OpPublish e => if bool_decide (ConsoleEventV1.replay_session_id e = sid) then Some e else None
              | _ => None end) ops.

Lemma broker_run_snoc b ops op :
  broker_run b (ops ++ [op]) =
  let '(b1, taken) := broker_run b ops in
  let '(b2, o) := broker_op b1 op in (b2, taken ++ match o with Some x => [x] | None => [] end).
Proof.
  revert b. induction ops as [|op' ops IH]; intros b; simpl.
  - by destruct (broker_op b op) as [b1 [x|]].
  - destruct (broker_op b op') as [b1 o]. rewrite IH. destruct (broker_run b1 ops) as [b2 taken].
    destruct (broker_op b2 op) as [b3 o']. by destruct o.
Qed.

(** A queue of a session, subscribed and nowhere else. *)
Record Subscribed (sid : string) (q : nat) (n : Z) (items : list Item) (b : Broker) : Prop := mkSubscribed {
  sub_member : q ∈ subscribers_of b sid;
  sub_only : ∀ sid', q ∈ subscribers_of b sid' → sid' = sid;
  sub_queue : queues b !! q = Some items;
  sub_size : max_queue_size b = n;
  sub_fresh : (q < next_queue b)%nat
}.

(** The queues that exist are below the next one. *)
Definition bounded_queues (b : Broker) : Prop :=
  ∀ sid q, q ∈ subscribers_of b sid → (q < next_queue b)%nat.

Lemma subscribe_of sid b sid' :
  subscribers_of (subscribe sid b).2 sid' =
  if bool_decide (sid' = sid) then {[next_queue b]} ∪ subscribers_of b sid else subscribers_of b sid'.
Proof.
  unfold subscribers_of at 1. simpl. case_bool_decide as Heq.
  - subst. by rewrite lookup_insert_eq.
  - by rewrite lookup_insert_ne.
Qed.

Lemma unsubscribe_of sid q b sid' :
  subscribers_of (unsubscribe sid q b) sid' =
  if bool_decide (sid' = sid) then subscribers_of b sid ∖ {[q]} else subscribers_of b sid'.
Proof.
  unfold unsubscribe, subscribers_of. destruct (subscribers b !! sid) as [qs|] eqn:Hs; simpl.
  - case_bool_decide as He; case_bool_decide as Heq; subst.
    + rewrite lookup_delete_eq. simpl in *. by rewrite He.
    + by rewrite lookup_delete_ne.
    + by rewrite lookup_insert_eq.
    + by rewrite lookup_insert_ne.
  - case_bool_decide as Heq; subst; [|done]. rewrite Hs. simpl. set_solver.
Qed.

Lemma unsubscribe_queues sid q b :
  queues (unsubscribe sid q b) = queues b ∧ next_queue (unsubscribe sid q b) = next_queue b ∧
  max_queue_size (unsubscribe sid q b) = max_queue_size b.
Proof. unfold unsubscribe. by destruct (subscribers b !! sid). Qed.

Lemma op_bounded b op : bounded_queues b → bounded_queues (broker_op b op).1.
Proof.
  intros Hb sid q. destruct op as [sid'|sid' q'|e|q']; cbn [broker_op fst].
  - rewrite subscribe_of. change (next_queue (subscribe sid' b).2) with (S (next_queue b)). case_bool_decide; subst; intros Hq.
    + apply elem_of_union in Hq as [Hq%elem_of_singleton|Hq]; [lia|]. specialize (Hb _ _ Hq). lia.
    + specialize (Hb _ _ Hq). lia.
  - rewrite unsubscribe_of. destruct (unsubscribe_queues sid' q' b) as (_ & -> & _).
    case_bool_decide; subst; [|apply Hb]. intros [Hq _]%elem_of_difference. by eapply Hb.
  - apply Hb.
  - unfold take_item. destruct (queues b !! q') as [[|i items]|]; apply Hb.
Qed.

Lemma run_bounded b ops : bounded_queues b → bounded_queues (broker_run b ops).1.
Proof.
  intros Hb. induction ops as [|op ops IH] using rev_ind; [done|]. rewrite broker_run_snoc.
  destruct (broker_run b ops) as [b1 taken]. pose proof (op_bounded b1 op IH) as Hop.
  by destruct (broker_op b1 op).
Qed.

Lemma subscribe_fresh sid b : bounded_queues b → Subscribed sid (next_queue b) (max_queue_size b) [] (subscribe sid b).2.
Proof.
  intros Hb. split; [| |simpl; by rewrite lookup_insert_eq|done|simpl; lia].
  - rewrite subscribe_of, bool_decide_eq_true_2 by done. set_solver.
  - intros sid'. rewrite subscribe_of. case_bool_decide; [done|]. intros Hq%Hb. lia.
Qed.

(** One operation on the queue of a subscriber. *)
Lemma op_subscribed sid q n items b op :
  Subscribed sid q n items b → op ≠ OpUnsubscribe sid q →
  ∃ items', Subscribed sid q n items' (broker_op b op).1 ∧
    (op = OpTake q ∧ (∃ i, items = i :: items' ∧ (broker_op b op).2 = Some (q, i)) ∨
     op = OpTake q ∧ items = [] ∧ items' = [] ∧ (broker_op b op).2 = None ∨
     op ≠ OpTake q ∧ taken_from q (match (broker_op b op).2 with Some x => [x] | None => [] end) = [] ∧
       items' = match published_to sid [op] with e :: _ => offer n e items | [] => items end).
Proof.
  intros [Hm Ho Hq Hn Hf] Hop. destruct op as [sid'|sid' q'|e|q'].
  - exists items. split; [|by right; right]. cbn [broker_op fst].
    split; [| |simpl; by rewrite lookup_insert_ne by lia|done|simpl; lia].
    + rewrite subscribe_of. case_bool_decide; subst; set_solver.
    + intros sid''. rewrite subscribe_of. case_bool_decide; subst; [|apply Ho].
      intros [Hx%elem_of_singleton|Hx]%elem_of_union; [lia|by apply Ho].
  - exists items. split; [|by right; right]. destruct (unsubscribe_queues sid' q' b) as (Hqs & Hnx & Hmax).
    cbn [broker_op fst].
    split; rewrite ?Hqs, ?Hnx, ?Hmax; try done; [rewrite unsubscribe_of|intros sid''; rewrite unsubscribe_of].
    + case_bool_decide; subst; [|done]. apply elem_of_difference. split; [done|]. set_solver.
    + case_bool_decide; subst; [|apply Ho]. intros [Hx _]%elem_of_difference. by apply Ho.
  - exists (match published_to sid [OpPublish e] with e :: _ => offer n e items | [] => items end).
    split; [|by right; right]. split; simpl; try done.
    rewrite map_lookup_imap, Hq. simpl. rewrite Hn. unfold published_to. simpl.
    case_bool_decide as Hs; case_bool_decide as Hsid; subst; simpl; try done.
    exfalso. by apply Hs in Hm || (apply Ho in Hs; done).
  - simpl. unfold take_item. destruct (decide (q' = q)) as [->|Hne].
    + rewrite Hq. destruct items as [|i items].
      * exists []. split; [done|]. right. left. done.
      * exists items. split; [|left; split; [done|]; by exists i]. split; simpl; try done. by rewrite lookup_insert_eq.
    + destruct (queues b !! q') as [[|i its]|] eqn:Hq'; simpl.
      * exists items. split; [done|]. right. right. split; [congruence|done].
      * exists items. split; [|right; right; split; [congruence|split; [|done]]].
        -- split; simpl; try done. by rewrite lookup_insert_ne.
        -- unfold taken_from. by rewrite filter_cons_False.
      * exists items. split; [done|]. right. right. split; [congruence|done].
Qed.

Lemma broker_run_subscribed sid q n b ops :
  Subscribed sid q n [] b → OpUnsubscribe sid q ∉ ops →
  let r := broker_run b ops in
  ∃ items, Subscribed sid q n items r.1 ∧ accounts (taken_from q r.2 ++ items) (published_to sid ops) ∧
    (0 < n → Z.of_nat (length items) ≤ n).
Proof.
  intros Hb. induction ops as [|op ops IH] using rev_ind; intros Hops; cbv zeta.
  { exists []. split; [done|]. split; [apply accounts_nil|simpl; lia]. }
  destruct IH as (items & Hs & Ha & Hn); [set_solver|].
  rewrite broker_run_snoc. destruct (broker_run b ops) as [b1 log]. simpl in Hs, Ha.
  destruct (op_subscribed sid q n items b1 op Hs ltac:(set_solver)) as (items' & Hs' & Hcase).
  destruct (broker_op b1 op) as [b2 o]. exists items'. split; [done|]. cbn [fst snd] in *.
  assert (published_to sid (ops ++ [op]) = published_to sid ops ++ published_to sid [op]) as -> by apply omap_app.
  unfold taken_from. rewrite filter_app, fmap_app.
  destruct Hcase as [(-> & i & -> & ->)|[(-> & -> & -> & ->)|(Hne & Htaken & ->)]].
  - simpl. rewrite filter_cons_True by done. simpl. rewrite app_nil_r, <-app_assoc.
    split; [exact Ha|]. intros H0. specialize (Hn H0). simpl in Hn. lia.
  - simpl. rewrite !app_nil_r. unfold taken_from in Ha. by rewrite app_nil_r in Ha.
  - unfold taken_from in Htaken. rewrite Htaken, app_nil_r. fold (taken_from q log).
    assert (published_to sid [op] = [] ∨ ∃ e, published_to sid [op] = [e]) as [->|[e ->]].
    { unfold published_to. destruct op as [| |e|]; simpl; auto. case_bool_decide; eauto. }
    + by rewrite app_nil_r.
    + split; [by apply accounts_offer|]. intros H0. by apply offer_bound, Hn.
Qed.

(** ** The feed *)
Section Feed.
Context `{JsonModel TelemetryEventV1.t, JsonModel ScoreDecisionV1.t, JsonModel AlertEventV1.t,
          JsonModel ReplayStatusV1.t}.
Variable validate_telemetry : bytes → result TelemetryEventV1.t.
Variable validate_score : bytes → result ScoreDecisionV1.t.
Variable validate_alert : bytes → result AlertEventV1.t.
Variable validate_status : bytes → result ReplayStatusV1.t.
Variable py_str : json → string.
Variable can_commit : bool.
Variable commit_outcome : nat → option exn.
Abbreviation process := (process_console validate_telemetry validate_score validate_alert validate_status
  py_str can_commit commit_outcome).
Abbreviation machine := (TelemetryDownsampler.machine_of py_str).
Abbreviation last_of f := (TelemetryDownsampler.last_emitted_by_machine (downsampler f)).
Abbreviation interval f := (TelemetryDownsampler.interval_seconds (downsampler f)).
Abbreviation is_telemetry e := (ConsoleEventV1.event_type e = TELEMETRY_EVENT).

Definition stored (db : DB) (e : console_event) : Prop :=
  ∃ r, r ∈ console_events db ∧ ConsoleRow.event_id r = ConsoleEventV1.event_id e.

(** Two telemetry events of one machine, in order. *)
Definition spaced (n : Z) (e e' : console_event) : Prop :=
  is_telemetry e → is_telemetry e' → machine e = machine e' →
  seconds n ≤ ConsoleEventV1.source_timestamp e' - ConsoleEventV1.source_timestamp e.

Definition capped (f : Feed) (e : console_event) : Prop :=
  is_telemetry e → ∃ last, last_of f !! machine e = Some last ∧ ConsoleEventV1.source_timestamp e ≤ last.

(** What was delivered to one subscriber. *)
Record Delivered (f : Feed) (evs : list console_event) : Prop := mkDelivered {
  delivered_stored : Forall (λ e, ConsoleEventV1.durable e = true → stored (store f) e) evs;
  delivered_spaced : StronglySorted (spaced (interval f)) evs;
  delivered_capped : Forall (capped f) evs
}.

(** What a step of the feed may change. *)
Record Grows (f f' : Feed) : Prop := mkGrows {
  grows_store : ∀ e, stored (store f) e → stored (store f') e;
  grows_interval : interval f' = interval f;
  grows_last : ∀ m l, last_of f !! m = Some l → ∃ l', last_of f' !! m = Some l' ∧ l ≤ l'
}.

Lemma grows_refl f : Grows f f.
Proof. split; try done. intros m l Hl. exists l. split; [done|lia]. Qed.

Lemma grows_trans f1 f2 f3 : Grows f1 f2 → Grows f2 f3 → Grows f1 f3.
Proof.
  intros [S1 I1 L1] [S2 I2 L2]. split; [auto|congruence|]. intros m l Hl.
  destruct (L1 _ _ Hl) as (l1 & Hl1 & ?). destruct (L2 _ _ Hl1) as (l2 & Hl2 & ?). exists l2. split; [done|lia].
Qed.

Lemma delivered_grows f f' evs : Grows f f' → Delivered f evs → Delivered f' evs.
Proof.
  intros [Hst Hi Hl] [D1 D2 D3]. split.
  - eapply Forall_impl; [exact D1|]. simpl. auto.
  - by rewrite Hi.
  - eapply Forall_impl; [exact D3|]. intros e Hc Ht. destruct (Hc Ht) as (l & Hm & Hle).
    destruct (Hl _ _ Hm) as (l' & Hm' & ?). exists l'. split; [done|lia].
Qed.

Lemma delivered_prefix f evs evs' : Delivered f (evs ++ evs') → Delivered f evs.
Proof.
  intros [D1 D2 D3]. apply Forall_app in D1 as [D1 _]. apply Forall_app in D3 as [D3 _].
  apply StronglySorted_app in D2 as (_ & D2 & _). by split.
Qed.

(** A broadcast: what it needs, of the state before [f0] and after [f]. *)
Definition admitted (f0 f : Feed) (e : console_event) : Prop :=
  (ConsoleEventV1.durable e = true → stored (store f) e) ∧
  (is_telemetry e → last_of f !! machine e = Some (ConsoleEventV1.source_timestamp e) ∧
     ∀ last, last_of f0 !! machine e = Some last → seconds (interval f0) ≤ ConsoleEventV1.source_timestamp e - last).

Lemma delivered_snoc f0 f e evs :
  Delivered f0 evs → Grows f0 f → admitted f0 f e → Delivered f (evs ++ [e]).
Proof.
  intros Hd Hg [Hst Ht]. pose proof (delivered_grows _ _ _ Hg Hd) as [D1 D2 D3]. split.
  - apply Forall_app. split; [done|]. by repeat constructor.
  - apply StronglySorted_app. split; [|split; [done|repeat constructor]].
    intros x y Hx ->%list_elem_of_singleton Htx Hte Hm. destruct (Ht Hte) as [_ Hlast].
    destruct Hd as [_ _ Hcap]. eapply Forall_forall in Hcap; [|exact Hx].
    destruct (Hcap Htx) as (l & Hl & Hle). rewrite Hm in Hl. specialize (Hlast _ Hl).
    rewrite (grows_interval _ _ Hg). lia.
  - apply Forall_app. split; [done|]. constructor; [|constructor]. intros Hte. destruct (Ht Hte) as [Hl _].
    exists (ConsoleEventV1.source_timestamp e). split; [done|lia].
Qed.

Lemma append_stored e db u db' : append_console_event e db = (Ok u, db') → stored db' e.
Proof.
  unfold append_console_event. cbn [ConsoleRow.event_type ConsoleRow.event_id ConsoleRow.replay_session_id].
  destruct (guard_exn _ _); simpl; [|done].
  destruct (existsb _ _) eqn:Hex; simpl.
  - intros [= _ <-]. apply existsb_exists in Hex as (r & Hr & Hid). apply bool_decide_eq_true in Hid.
    exists r. split; [by apply list_elem_of_In|done].
  - destruct (references_text _ _ _); simpl; [|done]. intros [= _ <-].
    eexists. split; [simpl; apply elem_of_app; right; by apply list_elem_of_singleton|done].
Qed.

Lemma append_keeps_rows e db r : r ∈ console_events db → r ∈ console_events (append_console_event e db).2.
Proof.
  intros Hr. unfold append_console_event. destruct (_ ≫= _) as [rows|err] eqn:Hi; simpl; [|done].
  inv_res. destruct (existsb _ _); inv_res; [done|]. apply elem_of_app. by left.
Qed.

(** Thinning: a telemetry event that goes on is the new last one of its machine. *)
Lemma thin_effect e f : 0 ≤ interval f →
  ∃ dropped f1, thin py_str e f = (Ok dropped, f1) ∧ Grows f f1 ∧ broker f1 = broker f ∧ store f1 = store f ∧
    (dropped = false → is_telemetry e →
       last_of f1 !! machine e = Some (ConsoleEventV1.source_timestamp e) ∧
       ∀ last, last_of f !! machine e = Some last → seconds (interval f) ≤ ConsoleEventV1.source_timestamp e - last).
Proof.
  intros Hi. unfold thin. case_bool_decide as Ht.
  2:{ exists false, f. split; [done|]. split; [apply grows_refl|]. by split_and!. }
  unfold TelemetryDownsampler.accept. set (go := match _ !! _ with None => true | Some _ => _ end).
  destruct go eqn:Hgo; subst go.
  2:{ exists true, f. destruct f as [db b d c]. split; [done|]. split; [apply grows_refl|]. by split_and!. }
  eexists false, _. split; [reflexivity|]. split; [|split; [done|split; [done|]]].
  - split; simpl; [done|done|]. intros m l Hl. destruct (decide (m = machine e)) as [->|Hne].
    + rewrite Hl in Hgo. apply Z.leb_le in Hgo. exists (ConsoleEventV1.source_timestamp e).
      rewrite lookup_insert_eq. split; [done|]. unfold seconds, usec in Hgo. lia.
    + exists l. rewrite lookup_insert_ne by done. split; [done|lia].
  - intros _ _. simpl. rewrite lookup_insert_eq. split; [done|]. intros l Hl. rewrite Hl in Hgo.
    by apply Z.leb_le in Hgo.
Qed.

Lemma append_effect e f r f1 : append_durable e f = (r, f1) →
  Grows f f1 ∧ broker f1 = broker f ∧ last_of f1 = last_of f ∧ (∀ u, r = Ok u → stored (store f1) e).
Proof.
  unfold append_durable. pose proof (append_keeps_rows e (store f)) as Hrows.
  destruct (append_console_event e (store f)) as [r' db] eqn:Ha. intros [= <- <-]. simpl in *.
  split; [|split; [done|split; [done|]]].
  - split; simpl; [|done|intros m l Hl; exists l; split; [done|lia]].
    intros x (row & Hr & Hid). exists row. split; [by apply Hrows|done].
  - intros u ->. by eapply append_stored.
Qed.

(** A record leaves the broker alone, or broadcasts one event that was admitted. *)
Lemma process_effect record f : 0 ≤ interval f →
  let f' := (process record f).2 in
  Grows f f' ∧ (broker f' = broker f ∨ ∃ e, broker f' = publish e (broker f) ∧ admitted f f' e).
Proof.
  intros Hi f'. subst f'. unfold process_console. rewrite M_bind_run. unfold lift_res.
  destruct (decode _ _ _ _ record) as [e|err]; [|split; [apply grows_refl|by left]].
  rewrite M_bind_run. destruct (thin_effect e f Hi) as (dropped & f1 & -> & Hg1 & Hb1 & Hst1 & Hadm).
  assert (∀ f2, Grows f f2 → (broker f2 = broker f ∨ ∃ e, broker f2 = publish e (broker f) ∧ admitted f f2 e) →
    ∀ (o : option console_event),
    let f3 := ((_ ← feed_commit can_commit commit_outcome record; mret o) f2).2 in
    Grows f f3 ∧ (broker f3 = broker f ∨ ∃ e, broker f3 = publish e (broker f) ∧ admitted f f3 e)) as Hcommit.
  { intros f2 Hg2 Hb2 o. cbv zeta. rewrite M_bind_run. unfold feed_commit. destruct can_commit; [|by split].
    destruct (commit_outcome _); simpl; (split; [by destruct Hg2; split|]);
      (destruct Hb2 as [Hb2|(x & Hb2 & Hx)]; [by left|right; exists x; by split]). }
  destruct dropped; [apply Hcommit; [done|by left]|].
  rewrite M_bind_run. unfold whenM. destruct (ConsoleEventV1.durable e) eqn:Hdur.
  - destruct (append_durable e f1) as [r f2] eqn:Ha.
    destruct (append_effect _ _ _ _ Ha) as (Hg2 & Hb2 & Hl2 & Hs2).
    destruct r as [u|err]; [|split; [by eapply grows_trans|left; simpl; congruence]].
    rewrite M_bind_run. unfold modify. apply Hcommit.
    + eapply grows_trans; [exact Hg1|]. eapply grows_trans; [exact Hg2|]. split; try done.
      intros m l Hl. exists l. split; [done|lia].
    + right. exists e. simpl. split; [by rewrite Hb2, Hb1|]. split; [intros _; by eapply Hs2|].
      intros Ht. simpl. rewrite Hl2. by apply Hadm.
  - unfold mret at 1, M_ret at 1. cbv beta iota. rewrite M_bind_run. unfold modify. apply Hcommit.
    + eapply grows_trans; [exact Hg1|]. split; try done. intros m l Hl. exists l. split; [done|lia].
    + right. exists e. simpl. split; [by rewrite Hb1|]. split; [congruence|]. intros Ht. simpl. by apply Hadm.
Qed.

(** ** The feed and its subscribers *)
Inductive FeedOp :=
| FeedProcess (record : FeedRecord)
| FeedSubscribe (sid : string)
| FeedUnsubscribe (sid : string) (q : nat)
| FeedTake (q : nat).

Definition with_broker (f : Feed) (b : Broker) : Feed := mkFeed (store f) b (downsampler f) (commit_calls f).

(** One operation, and what the holders of the queues have taken so far. *)
Definition feed_step (s : Feed * list (nat * Item)) (op : FeedOp) : Feed * list (nat * Item) :=
  let '(f, log) := s in
  match op with
  | FeedProcess record => ((process record f).2, log)
  | FeedSubscribe sid => (with_broker f (subscribe sid (broker f)).2, log)
  | FeedUnsubscribe sid q => (with_broker f (unsubscribe sid q (broker f)), log)
  | FeedTake q =>
      let '(item, b) := take_item q (broker f) in
      (with_broker f b, match item with Some i => log ++ [(q, i)] | None => log end)
  end.

Definition events_of (items : list Item) : list console_event :=
  omap (λ i, match i with EventItem e => Some e | ResyncRequired => None end) items.

(** What the holder of [q] has taken and can still take. *)
Definition items_of (q : nat) (s : Feed * list (nat * Item)) : list Item :=
  taken_from q s.2 ++ default [] (queues (broker s.1) !! q).

Definition FeedInv (n : Z) (s : Feed * list (nat * Item)) : Prop :=
  interval s.1 = n ∧ ∀ q, Delivered s.1 (events_of (items_of q s)).

Lemma events_of_app a b : events_of (a ++ b) = events_of a ++ events_of b.
Proof. apply omap_app. Qed.

Lemma feed_step_inv n s op : 0 ≤ n → FeedInv n s → FeedInv n (feed_step s op).
Proof.
  destruct s as [f log]. intros Hn [Hi Hq]. simpl in Hi. unfold items_of in Hq. simpl in Hq.
  destruct op as [record|sid|sid q|q]; simpl.
  - destruct (process_effect record f ltac:(lia)) as [Hg Hb].
    set (f' := (process record f).2) in *. split; [simpl; by rewrite (grows_interval _ _ Hg)|].
    intros q. unfold items_of. simpl. destruct Hb as [->|(e & -> & He)].
    { eapply delivered_grows; [exact Hg|apply Hq]. }
    simpl. rewrite map_lookup_imap. specialize (Hq q). destruct (queues (broker f) !! q) as [items|] eqn:Hitems;
      simpl; [|eapply delivered_grows; [exact Hg|exact Hq]].
    simpl in Hq. case_bool_decide; simpl; [|eapply delivered_grows; [exact Hg|exact Hq]].
    unfold offer. destruct (queue_full _ items).
    + rewrite events_of_app in Hq |- *. simpl. rewrite app_nil_r.
      eapply delivered_grows; [exact Hg|]. by eapply delivered_prefix.
    + rewrite app_assoc, events_of_app. simpl. eapply delivered_snoc; [exact Hq|exact Hg|exact He].
  - split; [done|]. intros q. unfold items_of. simpl. destruct (decide (q = next_queue (broker f))) as [->|Hne].
    + rewrite lookup_insert_eq. simpl. rewrite app_nil_r. specialize (Hq (next_queue (broker f))).
      rewrite events_of_app in Hq. by apply delivered_prefix in Hq as [D1 D2 D3]; split.
    + rewrite lookup_insert_ne by done. by destruct (Hq q); split.
  - split; [done|]. intros q'. unfold items_of. simpl. destruct (unsubscribe_queues sid q (broker f)) as (-> & _).
    by destruct (Hq q'); split.
  - unfold take_item. destruct (queues (broker f) !! q) as [[|i items]|] eqn:Hitems; simpl;
      (split; [done|]); intros q'; unfold items_of; simpl; try (by destruct (Hq q'); split).
    specialize (Hq q'). unfold taken_from in *. rewrite filter_app, fmap_app.
    destruct (decide (q' = q)) as [->|Hne].
    + rewrite lookup_insert_eq, filter_cons_True by done. simpl. rewrite Hitems in Hq. simpl in Hq.
      rewrite <-app_assoc. by destruct Hq; split.
    + rewrite lookup_insert_ne, filter_cons_False by done. simpl. rewrite app_nil_r. by destruct Hq; split.
Qed.
End Feed.

Lemma run_size b ops : max_queue_size (broker_run b ops).1 = max_queue_size b.
Proof.
  induction ops as [|op ops IH] using rev_ind; [done|]. rewrite broker_run_snoc.
  destruct (broker_run b ops) as [b1 taken]. simpl in IH. rewrite <-IH.
  destruct op as [sid|sid q|e|q]; simpl; [done| |done|].
  - by destruct (unsubscribe_queues sid q b1) as (_ & _ & ->).
  - unfold take_item. by destruct (queues b1 !! q) as [[|i items]|].
Qed.

(** ** Properties *)

(** No subscriber loses an event silently.  For a subscriber of a session that
    stays subscribed, whatever it takes and whatever else happens at the broker:
    what it has taken and what waits in its queue accounts for every event
    published to its session since it subscribed, in order: each event is there,
    or a request to resynchronise stands in the place of a run of events that
    contains it.  A queue of size [n > 0] never holds more than [n] items. *)
Theorem broker_accounts (n : Z) (earlier later : list BrokerOp) (sid : string)
    (Hstays : OpUnsubscribe sid (next_queue (broker_run (init_broker n) earlier).1) ∉ later) :
  let b := (broker_run (init_broker n) earlier).1 in
  let q := (subscribe sid b).1 in
  let r := broker_run (subscribe sid b).2 later in
  ∃ items, queues r.1 !! q = Some items ∧
    accounts (taken_from q r.2 ++ items) (published_to sid later) ∧
    (0 < n → Z.of_nat (length items) ≤ n).
Proof.
  intros b q r.
  assert (bounded_queues b) as Hb by (apply run_bounded; intros sid' q' Hq'; by apply not_elem_of_empty in Hq').
  pose proof (subscribe_fresh sid b Hb) as Hs. assert (max_queue_size b = n) as Hmax by apply run_size.
  rewrite Hmax in Hs.
  destruct (broker_run_subscribed sid q n (subscribe sid b).2 later Hs Hstays) as (items & Hr & Ha & Hn).
  exists items. split; [apply (sub_queue _ _ _ _ _ Hr)|]. by split.
Qed.

(** C37. What reaches a subscriber of the live feed.  After any sequence of records
    processed, subscriptions and items taken, with any failures of the store or
    of commits: each durable event a subscriber has taken or has waiting is in the
    console table, so that a reconnecting browser can find it there; and its
    telemetry events of one machine are at least [interval] seconds apart. *)
Theorem feed_delivers `{JsonModel TelemetryEventV1.t, JsonModel ScoreDecisionV1.t, JsonModel AlertEventV1.t,
      JsonModel ReplayStatusV1.t} validate_telemetry validate_score validate_alert validate_status
    py_str can_commit commit_outcome (db : DB) (size interval : Z) (ops : list FeedOp) (q : nat)
    (Hinterval : 0 ≤ interval) :
  let feed := mkFeed db (init_broker size) (TelemetryDownsampler.init interval) [] in
  let s := foldl (feed_step validate_telemetry validate_score validate_alert validate_status py_str
             can_commit commit_outcome) (feed, []) ops in
  let evs := events_of (items_of q s) in
  (∀ e, e ∈ evs → ConsoleEventV1.durable e = true → stored (store s.1) e) ∧
  StronglySorted (spaced py_str interval) evs.
Proof.
  intros feed s evs. assert (FeedInv py_str interval s) as [Hi Hq].
  { subst s. induction ops as [|op ops IH] using rev_ind.
    - split; [done|]. intros q'. unfold items_of. simpl. rewrite lookup_empty. simpl. split; constructor.
    - rewrite foldl_app. by apply feed_step_inv. }
  destruct (Hq q) as [D1 D2 _]. rewrite Hi in D2. split; [|exact D2].
  intros e He. eapply Forall_forall in D1; [|exact He]. exact D1.
Qed.

(** ** Witnesses *)
Module ConsoleExample.
#[local] Open Scope string_scope.
Definition telemetry (t : Z) : console_event :=
  ConsoleEventV1.mk (text (dec_chars t)) "s" TELEMETRY_EVENT (seconds t) [("machine_id", JStr "m")] false.
Definition earlier : list BrokerOp := [OpSubscribe "t"; OpPublish (telemetry 1)].
Definition later : list BrokerOp :=
  [OpPublish (telemetry 2); OpTake 1; OpPublish (telemetry 3); OpPublish (telemetry 4);
   OpPublish (telemetry 5); OpPublish (telemetry 6); OpTake 1; OpTake 0].

(** With room for two items, the third one that waits is answered by a marker. *)
Example overflow :
  let r := broker_run (subscribe "s" (broker_run (init_broker 2) earlier).1).2 later in
  taken_from 1 r.2 = [EventItem (telemetry 2); ResyncRequired] ∧ queues r.1 !! 1%nat = Some [EventItem (telemetry 6)].
Proof. vm_compute. split; reflexivity. Qed.

#[export] Instance telemetry_model : JsonModel TelemetryEventV1.t :=
  {| model_dump _ := []; model_validate _ := Err (ValidationError "not read") |}.
#[export] Instance decision_model : JsonModel ScoreDecisionV1.t :=
  {| model_dump _ := []; model_validate _ := Err (ValidationError "not read") |}.
#[export] Instance alert_model : JsonModel AlertEventV1.t :=
  {| model_dump _ := []; model_validate _ := Err (ValidationError "not read") |}.
#[export] Instance status_model : JsonModel ReplayStatusV1.t :=
  {| model_dump _ := []; model_validate _ := Err (ValidationError "not read") |}.
Definition invalid {A} (payload : bytes) : result A := Err (ValidationError "payload").
Definition ops : list FeedOp :=
  [FeedSubscribe "s"; FeedProcess (Decoded (telemetry 0)); FeedProcess (Decoded (telemetry 30));
   FeedProcess (Decoded (telemetry 60)); FeedTake 0].
End ConsoleExample.

Lemma broker_accounts_witness :
  let b := (broker_run (init_broker 2) ConsoleExample.earlier).1 in
  let q := (subscribe "s" b).1 in
  let r := broker_run (subscribe "s" b).2 ConsoleExample.later in
  ∃ items, queues r.1 !! q = Some items ∧
    accounts (taken_from q r.2 ++ items) (published_to "s" ConsoleExample.later) ∧
    (0 < 2 → Z.of_nat (length items) ≤ 2).
Proof.
  apply (broker_accounts 2 ConsoleExample.earlier ConsoleExample.later "s").
  unfold ConsoleExample.later. intros Hin. repeat (apply elem_of_cons in Hin as [Hin|Hin]; [discriminate Hin|]).
  by apply not_elem_of_nil in Hin.
Defined.

#[local] Existing Instances ConsoleExample.telemetry_model ConsoleExample.decision_model
  ConsoleExample.alert_model ConsoleExample.status_model.

Lemma feed_delivers_witness :
  let feed := mkFeed empty_db (init_broker 256) (TelemetryDownsampler.init 60) [] in
  let s := foldl (feed_step ConsoleExample.invalid ConsoleExample.invalid ConsoleExample.invalid
             ConsoleExample.invalid (λ _, ""%string) true (λ _, None)) (feed, []) ConsoleExample.ops in
  let evs := events_of (items_of 0 s) in
  (∀ e, e ∈ evs → ConsoleEventV1.durable e = true → stored (store s.1) e) ∧
  StronglySorted (spaced (λ _, ""%string) 60) evs.
Proof.
  apply (feed_delivers ConsoleExample.invalid ConsoleExample.invalid ConsoleExample.invalid
    ConsoleExample.invalid (λ _, ""%string) true (λ _, None) empty_db 256 60 ConsoleExample.ops 0).
  lia.
Defined.
