(* ===== verification/WorkerProps.v ===== *)
(** * The streaming worker: properties *)

From S2P Require Import Prelude PyText PyUuid PyTime PyFloat PyHash PyJson.
From S2P Require Import Contracts Messages KafkaIo Replay Features OnlineFeatures OnlineTheory.
From S2P Require Import OnlineProps.
From S2P Require Import Scoring ScoringTheory Worker WorkerTheory.

(** ** Lemmas *)
Lemma numbered_step evs : numbered evs → ∀ k i x y,
  evs !! i = Some x → evs !! (i + k)%nat = Some y →
  TelemetryEventV1.sequence y = TelemetryEventV1.sequence x + Z.of_nat k.
Proof.
  intros Hn. induction k as [|k IH]; intros i x y Hx Hy.
  - rewrite Nat.add_0_r in Hy. simplify_eq. lia.
  - assert (is_Some (evs !! (i + k)%nat)) as [z Hz].
    { apply lookup_lt_is_Some. apply lookup_lt_Some in Hy. lia. }
    specialize (IH i x z Hx Hz). rewrite Nat.add_succ_r in Hy. specialize (Hn _ _ _ Hz Hy). lia.
Qed.

Lemma numbered_before evs e : numbered (evs ++ [e]) →
  Forall (λ x, TelemetryEventV1.sequence x < TelemetryEventV1.sequence e) evs.
Proof.
  intros Hn. apply Forall_forall. intros x [i Hi]%list_elem_of_lookup. pose proof (lookup_lt_Some _ _ _ Hi).
  rewrite (numbered_step _ Hn (length evs - i) i x e); [lia| |].
  - by apply lookup_app_l_Some.
  - rewrite lookup_app_r by lia. by replace (i + (length evs - i) - length evs)%nat with 0%nat by lia.
Qed.

(** The builder after a push that is not ignored. *)
Lemma push_last `{Numpy} now e b r b' :
  OnlineFeatureBuilder.push now e b = (Ok r, b') →
  OnlineFeatureBuilder.last_sequence b ≠ Some (TelemetryEventV1.sequence e) →
  OnlineFeatureBuilder.last_sequence b' = Some (TelemetryEventV1.sequence e) ∧
  OnlineFeatureBuilder.last_timestamp b' = Some (TelemetryEventV1.source_timestamp e).
Proof.
  unfold OnlineFeatureBuilder.push. intros Hp Hne. apply M_bind_Ok in Hp as ([skip reason] & b1 & Hc & Hp).
  assert (skip = false) as ->.
  { unfold OnlineFeatureBuilder.check_sequence_and_ordering in Hc. rewrite bool_decide_eq_false_2 in Hc by done.
    repeat case_match; by simplify_eq. }
  simpl in Hp. apply M_bind_Ok in Hp as (out & b2 & _ & Hp). apply M_bind_Ok in Hp as (b3 & b4 & Hg & Hp).
  apply M_bind_Ok in Hp as (smp & b5 & _ & Hp). apply M_bind_Ok in Hp as (u & b6 & Hm & Hp).
  apply M_ret_Ok in Hp as [_ ->]. unfold modify in Hm. by simplify_eq.
Qed.

(** After a numbered session the builder shows its last event. *)
Lemma drive_shows `{Numpy} evs b0 e vs b :
  OnlineFeatureBuilder.last_sequence b0 = None → numbered (evs.*2 ++ [e]) → 
  ∀ now, drive (evs ++ [(now, e)]) b0 = (Ok vs, b) →
  OnlineFeatureBuilder.last_sequence b = Some (TelemetryEventV1.sequence e) ∧
  OnlineFeatureBuilder.last_timestamp b = Some (TelemetryEventV1.source_timestamp e).
Proof.
  intros Hb0. revert e vs b. induction evs as [|[now0 e0] evs IH] using rev_ind; intros e vs b Hn now Hd.
  - simpl in Hd. apply M_bind_Ok in Hd as (r & b1 & Hp & Hret). rewrite M_bind_run in Hret.
    unfold mret, M_ret in Hret. simplify_eq. eapply push_last; [exact Hp|]. by rewrite Hb0.
  - destruct (drive_app _ _ _ _ _ Hd) as (vs1 & vs2 & b1 & H1 & H2 & ->).
    rewrite fmap_app in Hn. simpl in Hn.
    destruct (IH e0 vs1 b1 ltac:(by eapply numbered_prefix) now0 H1) as [Hseq _].
    simpl in H2. apply M_bind_Ok in H2 as (r & b2 & Hp & Hret). rewrite M_bind_run in Hret.
    unfold mret, M_ret in Hret. simplify_eq. eapply push_last; [exact Hp|]. rewrite Hseq.
    pose proof (numbered_before _ _ Hn) as Hb. apply Forall_app in Hb as [_ Hb]. apply Forall_inv in Hb.
    intros [=]. lia.
Qed.

Section Session.
Context `{Numpy, JsonModel FeatureVectorV1.t, JsonModel ScoreDecisionV1.t, JsonModel ReplayStatusV1.t,
          JsonModel QuarantineRecordV1.t}.
Variable validate_telemetry : bytes → result TelemetryEventV1.t.
Variable validate_status : bytes → result ReplayStatusV1.t.
Variable error_text : exn → string.
Variable transport : nat → bytes → HttpOutcome.
Variable request_json : ScoreRequestV1.t → bytes.
Variable validate_response : bytes → result ScoreResponseV1.t.
Variable retry_policy : RetryPolicy.
Variable settings : WorkerSettings.t.
Variables (sid : UUID) (machine : string).

Abbreviation quiet := (λ _ : nat, @None exn).
Abbreviation fresh := (OnlineFeatureBuilder.make sid machine (WorkerSettings.source_dataset_sha256 settings)
  (WorkerSettings.contract_sha256 settings) (WorkerSettings.feature_names settings)).
Abbreviation handle := (handle_record validate_telemetry validate_status error_text quiet transport
  request_json validate_response retry_policy settings).
Abbreviation belongs := (of_session validate_telemetry settings sid machine).
Abbreviation stage := (Stage settings sid machine).
Abbreviation answers := (answered transport request_json validate_response retry_policy settings sid).

Abbreviation run_worker := (run validate_telemetry validate_status error_text quiet transport
  request_json validate_response retry_policy settings).

(** A session that is over: everything published, every record committed. *)
Record Finished (vs : list FeatureVectorV1.t) (b : OnlineFeatureBuilder.t) (records : list (WDraws * KafkaRecord))
    (s : WState) : Prop := mkFinished {
  finished_log : published settings vs (sent s);
  finished_commit : committed s = foldl offset_of ∅ records;
  finished_builder : builders s !! sid = Some b
}.

Lemma offsets_nonempty records (r : WDraws * KafkaRecord) : foldl offset_of ∅ (records ++ [r]) ≠ ∅.
Proof. rewrite foldl_app. simpl. unfold offset_of. apply insert_non_empty. Qed.

Lemma run_forM records s :
  forM records (λ r, handle r.1 r.2) (start_worker init_worker) = (Ok (), s) →
  run_worker records init_worker = (Ok (), s).
Proof. intros Hr. unfold run. rewrite M_bind_run. exact Hr. Qed.

Variables (rs : list (WDraws * KafkaRecord)) (evs : list TelemetryEventV1.t).
Variables (rl : WDraws * KafkaRecord) (el : TelemetryEventV1.t).
Variables (sr : WDraws * KafkaRecord) (status : ReplayStatusV1.t).
Hypothesis Hrs : Forall2 belongs rs evs.
Hypothesis Hrl : belongs rl el.
Hypothesis Hsr : of_status validate_status sid sr status.
Hypothesis Hlast : ReplayStatusV1.last_sequence status = Some (TelemetryEventV1.sequence el).
Hypothesis Hnumbered : numbered (evs ++ [el]).
Hypothesis Hcompleted : ReplayStatusV1.state status = COMPLETED.
Hypothesis Hpositive : 0 < TelemetryEventV1.sequence el.

Variables (vs : list FeatureVectorV1.t) (b1 : OnlineFeatureBuilder.t).
Hypothesis Hdrive : drive (zip (push_now <$> (rs ++ [rl]).*1) (evs ++ [el])) fresh = (Ok vs, b1).

Lemma drive_last : ∃ vs0 b0 res,
  drive (zip (push_now <$> rs.*1) evs) fresh = (Ok vs0, b0) ∧
  OnlineFeatureBuilder.push (push_now rl.1) el b0 = (Ok res, b1) ∧ vs = vs0 ++ features res.
Proof.
  rewrite !fmap_app, zip_with_app in Hdrive by (rewrite !length_fmap; by eapply Forall2_length).
  destruct (drive_app _ _ _ _ _ Hdrive) as (vs0 & vs1 & b0 & Hd0 & Hd1 & ->). simpl in Hd1.
  apply M_bind_Ok in Hd1 as (res & b1' & Hpush & Hret). rewrite M_bind_run in Hret. unfold mret, M_ret in Hret.
  simplify_eq. exists vs0, b0, res. by rewrite app_nil_r.
Qed.

Lemma builder_open : open_builder b1.
Proof.
  pose proof (drive_open (zip (push_now <$> (rs ++ [rl]).*1) (evs ++ [el])) fresh eq_refl) as Ho.
  by rewrite Hdrive in Ho.
Qed.

(** The worker after the telemetry. *)
Lemma after_telemetry : Forall answers vs → ∃ log s,
  forM (rs ++ [rl]) (λ r, handle r.1 r.2) (start_worker init_worker) = (Ok (), s) ∧
  published settings vs log ∧ builders s !! sid = Some b1 ∧
  stage b1 (Some (TelemetryEventV1.sequence el)) (foldl offset_of ∅ (rs ++ [rl])) None log ∅ s.
Proof.
  intros Hv. destruct drive_last as (vs0 & b0 & res & Hd & Hpush & Hvs). rewrite Hvs in Hv |- *.
  apply Forall_app in Hv as [Hv0 Hv1].
  destruct (telemetry_ok _ validate_status error_text _ _ _ _ _ _ _ _ _ Hrs _ _ _ _ _ _ _ _ _
    (stage_init settings sid machine)
    ltac:(by apply Forall_forall) Hd Hv0) as (m0 & s0 & Hr0 & Hp0 & Hs0).
  destruct (handle_telemetry_ok _ validate_status error_text _ _ _ _ _ _ _ rl el _ _ _ _ _ _ _ _ _ Hs0 Hrl Hpush Hv1)
    as (m1 & s1 & Hp1 & Hb1 & Hs1 & Hr1).
  exists (m0 ++ m1), s1. rewrite forM_app, M_bind_run, Hr0. simpl. rewrite M_bind_run, Hr1. split; [done|].
  split; [by apply published_app|]. split; [done|]. by rewrite foldl_app.
Qed.

(** The status comes after the telemetry. *)
Lemma status_last out b2 :
  OnlineFeatureBuilder.complete (complete_now sr.1) (ReplayStatusV1.source_timestamp status) b1 = (Ok out, b2) →
  Forall answers (vs ++ features out) →
  ∃ s, run_worker ((rs ++ [rl]) ++ [sr]) init_worker = (Ok (), s) ∧
    Finished (vs ++ features out) b2 ((rs ++ [rl]) ++ [sr]) s.
Proof.
  intros Hc [Hv Ho]%Forall_app. destruct (after_telemetry Hv) as (log & s1 & Hr1 & Hp1 & Hb1 & Hs1).
  destruct (handle_status_ok validate_telemetry _ error_text transport request_json validate_response
    retry_policy _ _ _ sr status _ _ _ _ _ _ _ _ Hs1 Hsr Hlast) as (s2 & Hr2 & Hb2 & Hs2).
  destruct (complete_session_ok transport request_json validate_response retry_policy _ _ _ sr.1 status
    _ _ _ _ _ _ _ out b2 Hs2) as (m3 & s3 & Hr3 & Hp3 & Hs3 & Hb3).
  - by destruct Hsr as (_ & _ & ? & _).
  - rewrite Hb2, Hb1. by eexists.
  - apply builder_open.
  - unfold offset_of. apply insert_non_empty.
  - exact Hc.
  - exact Ho.
  - exists s3. split.
    + apply run_forM. rewrite forM_app, M_bind_run, Hr1. simpl. rewrite M_bind_run, Hr2. cbn [default].
      rewrite Z.leb_refl. simpl. by rewrite Hr3.
    + split; [|by rewrite (stage_committed _ _ _ _ _ _ _ _ _ _ Hs3), map_union_empty, !foldl_app|done].
      rewrite (stage_log _ _ _ _ _ _ _ _ _ _ Hs3). by apply published_app.
Qed.

(** A status older than the last event makes [complete] raise, and the worker with it. *)
Lemma old_status_raises n :
  ReplayStatusV1.last_sequence status = Some n → n ≤ TelemetryEventV1.sequence el →
  ReplayStatusV1.source_timestamp status < TelemetryEventV1.source_timestamp el →
  OnlineFeatureBuilder.last_timestamp b1 = Some (TelemetryEventV1.source_timestamp el) →
  Forall answers vs →
  ∃ s, run_worker ((rs ++ [rl]) ++ [sr]) init_worker =
      (Err (ValueError "completion timestamp cannot precede last received telemetry"), s) ∧
    published settings vs (sent s) ∧ committed s = ∅.
Proof.
  intros Hn Hle Hold Hts Hv. destruct (after_telemetry Hv) as (log & s1 & Hr1 & Hp1 & Hb1 & Hs1).
  destruct (handle_status_ok validate_telemetry _ error_text transport request_json validate_response
    retry_policy _ _ _ sr status _ _ _ _ _ _ _ _ Hs1 Hsr Hn) as (s2 & Hr2 & Hb2 & Hs2).
  exists (set_builder sid b1 s2). split.
  - unfold run. rewrite M_bind_run. unfold modify. rewrite forM_app, M_bind_run, Hr1. simpl. rewrite M_bind_run, Hr2.
    assert ((n <=? default 0 (Some (TelemetryEventV1.sequence el))) = true) as -> by (by apply Z.leb_le).
    cbn [whenM].
    assert (ReplayStatusV1.replay_session_id status = sid) as Hsid by (by destruct Hsr as (_ & _ & ? & _)).
    unfold complete_session. rewrite M_bind_run, Hsid. unfold gets.
    rewrite bool_decide_eq_false_2 by apply (stage_failed _ _ _ _ _ _ _ _ _ _ Hs2).
    rewrite M_bind_run, Hb2, Hb1, M_bind_run. pose proof builder_open as Hopen. unfold open_builder in Hopen.
    rewrite Hopen, M_bind_run. unfold on_builder, OnlineFeatureBuilder.complete. rewrite M_bind_run.
    unfold get_st. rewrite M_bind_run, Hts, (proj2 (Z.ltb_lt _ _) Hold). done.
  - simpl. by rewrite (stage_log _ _ _ _ _ _ _ _ _ _ Hs2), (stage_committed _ _ _ _ _ _ _ _ _ _ Hs2).
Qed.

(** The status comes among the telemetry. *)
Lemma status_early r1 r2 out b2 :
  rs = r1 ++ r2 →
  OnlineFeatureBuilder.complete (complete_now rl.1) (ReplayStatusV1.source_timestamp status) b1 = (Ok out, b2) →
  Forall answers (vs ++ features out) →
  ∃ s, run_worker (r1 ++ sr :: r2 ++ [rl]) init_worker = (Ok (), s) ∧
    Finished (vs ++ features out) b2 (r1 ++ sr :: r2 ++ [rl]) s.
Proof.
  intros Hsplit Hc [Hv Ho]%Forall_app. pose proof builder_open as Hopen.
  pose proof (numbered_before _ _ Hnumbered) as Hbefore.
  destruct drive_last as (vs0 & b0 & res & Hd & Hpush & Hvs). rewrite Hvs in *.
  apply Forall_app in Hv as [Hv0 Hv1]. rewrite Hsplit in Hrs, Hd.
  apply Forall2_app_inv_l in Hrs as (e1 & e2 & Hr1s & Hr2s & Hevs). rewrite Hevs in Hd, Hbefore.
  rewrite !fmap_app, zip_with_app in Hd by (rewrite !length_fmap; by eapply Forall2_length).
  apply drive_app in Hd as (va & vb & ba & Hd1 & Hd2 & Hvab). rewrite Hvab in Hv0 |- *.
  apply Forall_app in Hv0 as [Hva Hvb]. apply Forall_app in Hbefore as [Hb1 Hb2].
  destruct (telemetry_ok _ validate_status error_text _ _ _ _ _ _ _ _ _ Hr1s _ _ _ _ _ _ _ _ _
    (stage_init settings sid machine) ltac:(by apply Forall_forall) Hd1 Hva) as (m0 & s0 & Hr0 & Hp0 & Hs0).
  destruct (handle_status_ok validate_telemetry _ error_text transport request_json validate_response
    retry_policy _ _ _ sr status _ _ _ _ _ _ _ _ Hs0 Hsr Hlast) as (s1 & Hr1 & _ & Hs1).
  assert ((TelemetryEventV1.sequence el <=? default 0 (match last e1 with
    | Some e => Some (TelemetryEventV1.sequence e) | None => None end)) = false) as Hlate.
  { apply Z.leb_gt. destruct e1 as [|x e1 _] using rev_ind; [done|]. rewrite last_snoc. simpl.
    apply Forall_app in Hb1 as [_ Hb1]. by apply Forall_inv in Hb1. }
  rewrite Hlate in Hr1.
  destruct (telemetry_ok _ validate_status error_text _ _ _ _ _ _ _ _ _ Hr2s _ _ _ _ _ _ _ _ _ Hs1
    ltac:(eapply Forall_impl; [exact Hb2|]; intros x Hx; cbv beta in Hx; simpl; rewrite Hlast;
          rewrite andb_comm, bool_decide_eq_false_2 by (intros [=]; lia); done) Hd2 Hvb) as (m2 & s2 & Hr2 & Hp2 & Hs2).
  destruct (handle_telemetry_ok _ validate_status error_text _ _ _ _ _ _ _ rl el _ _ _ _ _ _ _ _ _ Hs2 Hrl Hpush Hv1)
    as (m3 & s3 & Hp3 & Hb3 & Hs3 & Hr3).
  assert (barrier (Some status) el = true) as Hbar.
  { simpl. rewrite Hcompleted, Hlast. by rewrite !bool_decide_eq_true_2. }
  rewrite Hbar in Hr3.
  destruct (complete_session_ok transport request_json validate_response retry_policy _ _ _ rl.1 status
    _ _ _ _ _ _ _ out b2 Hs3) as (m4 & s4 & Hr4 & Hp4 & Hs4 & Hb4).
  - by destruct Hsr as (_ & _ & ? & _).
  - rewrite Hb3. by eexists.
  - exact Hopen.
  - unfold offset_of. apply insert_non_empty.
  - exact Hc.
  - exact Ho.
  - exists s4. split.
    + apply run_forM. rewrite forM_app, M_bind_run, Hr0. simpl. rewrite M_bind_run, Hr1. simpl.
      rewrite forM_app, M_bind_run, Hr2. simpl. rewrite M_bind_run, Hr3. simpl. by rewrite Hr4.
    + split; [|by rewrite (stage_committed _ _ _ _ _ _ _ _ _ _ Hs4), map_union_empty, foldl_app; simpl;
        rewrite foldl_app|done].
      rewrite (stage_log _ _ _ _ _ _ _ _ _ _ Hs4). rewrite app_nil_l.
      by repeat apply published_app.
Qed.
End Session.

(** ** Properties *)
Section Properties.
Context `{Numpy, JsonModel FeatureVectorV1.t, JsonModel ScoreDecisionV1.t, JsonModel ReplayStatusV1.t,
          JsonModel QuarantineRecordV1.t}.
Variable validate_telemetry : bytes → result TelemetryEventV1.t.
Variable validate_status : bytes → result ReplayStatusV1.t.
Variable error_text : exn → string.
Variable transport : nat → bytes → HttpOutcome.
Variable request_json : ScoreRequestV1.t → bytes.
Variable validate_response : bytes → result ScoreResponseV1.t.
Variable retry_policy : RetryPolicy.
Variable settings : WorkerSettings.t.

(** C7. The worker scores every window of a session exactly once, wherever the
    completion status lands among its telemetry.  Kafka answers, the scoring
    service answers for each window, and the builder of the session, pushed the
    events and then completed, gives the vectors [vs] (by
    [online_offline_parity], the windows of the offline generator).  Then the
    worker fed the telemetry records and, at any position, the COMPLETED status
    of the last event raises nothing, publishes for each vector of [vs] in turn
    the vector and next to it a decision about it, and commits, in the end, the
    offset after the last record of every partition. *)
Theorem worker_scores_session sid machine telemetry evs el sr status before after vs b
    (Htelemetry : Forall2 (of_session validate_telemetry settings sid machine) telemetry evs)
    (Hlast : last evs = Some el) (Hnumbered : numbered evs) (Hpositive : 0 < TelemetryEventV1.sequence el)
    (Hstatus : of_status validate_status sid sr status)
    (Hcompleted : ReplayStatusV1.state status = COMPLETED)
    (Hreached : ReplayStatusV1.last_sequence status = Some (TelemetryEventV1.sequence el))
    (Hposition : telemetry = before ++ after)
    (Hvectors : online_vectors (zip (push_now <$> telemetry.*1) evs)
       (complete_now (default sr (last after)).1) (ReplayStatusV1.source_timestamp status)
       (OnlineFeatureBuilder.make sid machine (WorkerSettings.source_dataset_sha256 settings)
          (WorkerSettings.contract_sha256 settings) (WorkerSettings.feature_names settings)) = (Ok vs, b))
    (Hanswered : Forall (answered transport request_json validate_response retry_policy settings sid) vs) :
  let records := before ++ sr :: after in
  ∃ s, run validate_telemetry validate_status error_text (λ _, None) transport request_json
         validate_response retry_policy settings records init_worker = (Ok (), s) ∧
    published settings vs (sent s) ∧
    committed s = foldl offset_of ∅ records ∧
    builders s !! sid = Some b.
Proof.
  intros records. destruct evs as [|x evs _] using rev_ind; [done|]. rewrite last_snoc in Hlast.
  injection Hlast as ->. apply Forall2_app_inv_r in Htelemetry as (rs & tl & Hrs & Htl & Htel).
  apply Forall2_cons_inv_r in Htl as (rl & tl' & Hrl & Htl' & ->). apply Forall2_nil_inv_r in Htl' as ->.
  unfold online_vectors in Hvectors. apply M_bind_Ok in Hvectors as (vs1 & b1 & Hdrive & Hc).
  apply M_bind_Ok in Hc as (out & b2 & Hc & Hret). apply M_ret_Ok in Hret as [-> ->].
  rewrite Htel in Hdrive, Hposition. subst records. rename Hposition into Hpos. clear Htel.
  destruct after as [|r after _] using rev_ind.
  - rewrite app_nil_r in Hpos. subst before.
    destruct (status_last validate_telemetry validate_status error_text transport request_json
      validate_response retry_policy settings sid machine rs evs rl el sr status Hrs Hrl Hstatus Hreached
      vs1 b1 Hdrive out b2 Hc Hanswered) as (s & Hrun & [Hlog Hcommit Hb]).
    exists s. by split_and!.
  - rewrite last_snoc in Hc. rewrite app_assoc in Hpos. apply app_inj_tail in Hpos as [Hsplit <-].
    destruct (status_early validate_telemetry validate_status error_text transport request_json
      validate_response retry_policy settings sid machine rs evs rl el sr status Hrs Hrl Hstatus Hreached
      Hnumbered Hcompleted Hpositive vs1 b1 Hdrive before after out b2 Hsplit Hc Hanswered)
      as (s & Hrun & [Hlog Hcommit Hb]).
    exists s. by split_and!.
Qed.

(** C16. Whatever records arrive and whatever fails (decoding, Kafka, scoring, the
    builder), each decision the worker ever publishes comes right after a feature
    vector, and is about it: same window, session, dataset and contract, and the
    model version of the worker's settings. *)
Theorem decisions_follow_vectors (io : nat → option exn) records :
  let s := (run validate_telemetry validate_status error_text io transport request_json
              validate_response retry_policy settings records init_worker).2 in
  ∀ earlier m later, sent s = earlier ++ m :: later → stopic m = SCORES_TOPIC →
  ∃ earlier' v d vb db,
    earlier = earlier' ++ [vector_message v vb] ∧ m = decision_message d db ∧
    encode_message v = Ok vb ∧ encode_message d = Ok db ∧
    decides (WorkerSettings.model_version settings) d v.
Proof. intros s. apply logged_before. apply run_audited. Qed.

(** C38. Stopping a session stops the worker.  The STOPPED status of a session has
    the time stamp of the STOP command (the API sends 2020-01-01, before every
    telemetry event), and [complete] refuses a time before the last event: so
    after any telemetry of the session the status makes the worker's loop end
    with [ValueError].  Nothing is committed, so a restarted worker reads the
    same records and ends the same way. *)
Theorem stop_ends_worker sid machine telemetry evs el sr controller command stopped emitted now status vs b
    (Htelemetry : Forall2 (of_session validate_telemetry settings sid machine) telemetry evs)
    (Hlast : last evs = Some el) (Hnumbered : numbered evs)
    (Haction : ReplayCommandV1.action command = STOP)
    (Hold : ReplayCommandV1.source_timestamp command < TelemetryEventV1.source_timestamp el)
    (Hsid : ReplayController.session_id controller = sid)
    (Hpublished : default 0 (ReplayController.last_sequence controller) ≤ TelemetryEventV1.sequence el)
    (Hstop : ReplayController.apply controller command = Ok stopped)
    (Hmessage : ReplayController.status stopped emitted now = Ok status)
    (Htopic : rtopic sr.2 = REPLAY_STATUS_TOPIC) (Hdecode : validate_status (rvalue sr.2) = Ok status)
    (Hpushed : drive (zip (push_now <$> telemetry.*1) evs)
       (OnlineFeatureBuilder.make sid machine (WorkerSettings.source_dataset_sha256 settings)
          (WorkerSettings.contract_sha256 settings) (WorkerSettings.feature_names settings)) = (Ok vs, b))
    (Hanswered : Forall (answered transport request_json validate_response retry_policy settings sid) vs) :
  ∃ s, run validate_telemetry validate_status error_text (λ _, None) transport request_json
         validate_response retry_policy settings (telemetry ++ [sr]) init_worker =
       (Err (ValueError "completion timestamp cannot precede last received telemetry"), s) ∧
    published settings vs (sent s) ∧ committed s = ∅.
Proof.
  destruct evs as [|x evs _] using rev_ind; [done|]. rewrite last_snoc in Hlast. injection Hlast as ->.
  apply Forall2_app_inv_r in Htelemetry as (rs & tl & Hrs & Htl & ->).
  apply Forall2_cons_inv_r in Htl as (rl & tl' & Hrl & Htl' & ->). apply Forall2_nil_inv_r in Htl' as ->.
  unfold ReplayController.apply in Hstop. rewrite Haction in Hstop. inv_res.
  unfold ReplayController.status, ReplayStatusV1.make, require_naive, require_aware in Hmessage. simpl in Hmessage.
  inv_res. pose proof Hpushed as Hdrive.
  rewrite !fmap_app, zip_with_app in Hdrive by (rewrite !length_fmap; by eapply Forall2_length).
  assert (OnlineFeatureBuilder.last_timestamp b = Some (TelemetryEventV1.source_timestamp el)) as Hts.
  { eapply drive_shows; [| |exact Hdrive]; [done|].
    by rewrite snd_zip by (rewrite !length_fmap; apply Forall2_length in Hrs; lia). }
  pose proof (conj Htopic (conj Hdecode (conj eq_refl (or_intror eq_refl)))
    : of_status validate_status (ReplayController.session_id controller) sr _) as Hsr.
  exact (old_status_raises validate_telemetry validate_status error_text transport request_json
    validate_response retry_policy settings _ machine rs evs rl el sr _ Hrs Hrl Hsr vs b Hpushed _ eq_refl
    Hpublished Hold Hts Hanswered).
Qed.
End Properties.

(** ** Witnesses: the recording of the feature windows, record by record *)
Module WorkerExample.
Import Recording.
#[local] Existing Instance Recording.numpy.
#[local] Open Scope string_scope.

#[export] Instance vector_model : JsonModel FeatureVectorV1.t :=
  {| model_dump v := [("window_id", JInt (uuid_int (FeatureVectorV1.window_id v)))];
     model_validate _ := Err (ValidationError "not read") |}.
#[export] Instance decision_model : JsonModel ScoreDecisionV1.t :=
  {| model_dump d := [("decision_id", JInt (uuid_int (ScoreDecisionV1.decision_id d)))];
     model_validate _ := Err (ValidationError "not read") |}.
#[export] Instance status_model : JsonModel ReplayStatusV1.t :=
  {| model_dump s := [("message_id", JInt (uuid_int (ReplayStatusV1.message_id s)))];
     model_validate _ := Err (ValidationError "not read") |}.
#[export] Instance quarantine_model : JsonModel QuarantineRecordV1.t :=
  {| model_dump q := [("message_id", JInt (uuid_int (QuarantineRecordV1.message_id q)))];
     model_validate _ := Err (ValidationError "not read") |}.

Definition settings : WorkerSettings.t := WorkerSettings.mk "model-1" digest digest names.
Definition sid : UUID := UUID_of_bits 1.

(** A payload is the number of its event. *)
Definition validate_telemetry (payload : bytes) : result TelemetryEventV1.t :=
  match payload with
  | [n] => Ok (event (Z.to_nat n))
  | _ => Err (ValidationError "telemetry")
  end.
Definition record (i : nat) : WDraws * KafkaRecord :=
  (mkWDraws (UUID_of_bits 0) (mkAware 0 0) (UUID_of_bits 0) (mkAware 0 0) (mkAware (time i) 0) (mkAware (time i) 0),
   mkRecord TELEMETRY_TOPIC 0 (Z.of_nat i) [Z.of_nat i]).
Definition status_record : WDraws * KafkaRecord :=
  (mkWDraws (UUID_of_bits 0) (mkAware 0 0) (UUID_of_bits 0) (mkAware 0 0) (mkAware 0 0) (mkAware 0 0),
   mkRecord REPLAY_STATUS_TOPIC 0 7 []).

Lemma records_belong i n :
  Forall2 (of_session validate_telemetry settings sid "compressor") (record <$> seq i n) (event <$> seq i n).
Proof.
  revert i. induction n as [|n IH]; intros i; simpl; constructor; [|apply IH].
  split_and!; try done. simpl. by rewrite Nat2Z.id.
Qed.

(** A scoring service that answers with a decision about the vector posted. *)
Definition request_json (r : ScoreRequestV1.t) : bytes :=
  [uuid_int (FeatureVectorV1.window_id (ScoreRequestV1.feature_vector r))].
Definition transport (n : nat) (body : bytes) : HttpOutcome := Responded (mkResponse 200 body).
Definition decision_for (n : Z) : ScoreDecisionV1.t :=
  ScoreDecisionV1.mk (UUID_of_bits n) sid digest digest start (mkAware start 0)
    (UUID_of_bits n) (UUID_of_bits n) "model-1" f0 f1 false [].
Definition validate_response (body : bytes) : result ScoreResponseV1.t :=
  match body with
  | [n] => Ok (ScoreResponseV1.mk (decision_for n))
  | _ => Err (ValidationError "response")
  end.

Definition scorable (v : FeatureVectorV1.t) : bool :=
  bool_decide (FeatureVectorV1.replay_session_id v = sid) && is_ok (encode_message v) &&
  bool_decide (FeatureVectorV1.source_dataset_sha256 v = digest) &&
  bool_decide (FeatureVectorV1.contract_sha256 v = digest) &&
  bool_decide (UUID_of_bits (uuid_int (FeatureVectorV1.window_id v)) = FeatureVectorV1.window_id v).

Lemma encode_decision d : is_ok (encode_message (A := ScoreDecisionV1.t) d) = true.
Proof. reflexivity. Qed.

Lemma scorable_answered v : scorable v = true →
  answered transport request_json validate_response default_policy settings sid v.
Proof.
  unfold scorable. intros Hv. repeat apply andb_true_iff in Hv as [Hv ?].
  repeat match goal with Hb : bool_decide _ = true |- _ => apply bool_decide_eq_true in Hb end.
  split; [done|]. split; [done|]. intros c.
  set (d := decision_for (uuid_int (FeatureVectorV1.window_id v))).
  set (body := [uuid_int (FeatureVectorV1.window_id v)]).
  exists d, (mkClient (posts c ++ [body]) (slept c)). split; [|apply encode_decision].
  assert (attempt_outcome validate_response "model-1" (transport (length (posts c)) body) v = inl (Ok d)) as Ho.
  { change (match check_decision "model-1" d v with
            | Err (RetryableScoringError m) => inr (RetryableScoringError m)
            | r => inl r end = inl (Ok d)).
    unfold check_decision, d, decision_for. cbn [ScoreDecisionV1.model_version ScoreDecisionV1.window_id
      ScoreDecisionV1.replay_session_id ScoreDecisionV1.source_dataset_sha256 ScoreDecisionV1.contract_sha256].
    by rewrite !bool_decide_eq_true_2 by done. }
  unfold score. rewrite M_bind_run. unfold lift_res at 1. unfold ScoreRequestV1.make.
  change (Z.to_nat (attempts default_policy)) with 3%nat. cbn [retry_loop]. 
  change (Messages.field (str_len 1 200 (WorkerSettings.model_version settings)) "model_version") with (Ok ()).
  cbn [mbind result_bind]. rewrite M_bind_run. unfold post.
  change (request_json (ScoreRequestV1.mk (WorkerSettings.model_version settings) v)) with body.
  change (WorkerSettings.model_version settings) with "model-1". by rewrite Ho.
Qed.

(** The session of the first 145 events: one window. *)
Definition completed : ReplayStatusV1.t :=
  ReplayStatusV1.mk (UUID_of_bits 9) sid digest digest (time 145) (mkAware (time 145) 0) COMPLETED (Some 144) None.
Definition validate_status (payload : bytes) : result ReplayStatusV1.t := Ok completed.
Abbreviation vectors :=
  (online_vectors (zip (push_now <$> (record <$> seq 0 145).*1) (event <$> seq 0 145))
    (complete_now (default status_record (last (record <$> seq 10 135))).1)
    (ReplayStatusV1.source_timestamp completed)
    (OnlineFeatureBuilder.make sid "compressor" (WorkerSettings.source_dataset_sha256 settings)
       (WorkerSettings.contract_sha256 settings) (WorkerSettings.feature_names settings))).

Example one_window :
  match vectors.1 with Ok vs => forallb scorable vs && (length vs =? 1)%nat | Err _ => false end = true.
Proof. vm_compute. reflexivity. Qed.

Lemma forallb_answered vs : forallb scorable vs = true →
  Forall (answered transport request_json validate_response default_policy settings sid) vs.
Proof.
  induction vs as [|v vs IH]; [done|]. simpl. intros [Hv Hvs]%andb_true_iff.
  constructor; [by apply scorable_answered|auto].
Qed.

Lemma events_numbered n : numbered (event <$> seq 0 n).
Proof. rewrite <-clocked_events. apply clocked_numbered. Qed.

(** A session that is stopped after its first event. *)
Definition running : ReplayController.t :=
  ReplayController.mk sid digest digest RUNNING 1 (Some start) (Some (start + minutes 60)) (Some start) (Some 0) None.
Definition stop_command : ReplayCommandV1.t :=
  ReplayCommandV1.mk (UUID_of_bits 8) sid (text (replicate 64 "0"%char)) (text (replicate 64 "0"%char))
    (datetime_of 2020 1 1 0 0 0 0) (mkAware start 0) (UUID_of_bits 8) STOP 1 None None.
Definition stopped : ReplayController.t :=
  ReplayController.mk sid digest digest STOPPED 1 (Some start) (Some (start + minutes 60))
    (Some (datetime_of 2020 1 1 0 0 0 0)) (Some 0) None.
Definition validate_stopped (payload : bytes) : result ReplayStatusV1.t :=
  ReplayController.status stopped None (mkAware start 0).
Abbreviation first_event :=
  (drive (zip (push_now <$> (record <$> seq 0 1).*1) (event <$> seq 0 1))
    (OnlineFeatureBuilder.make sid "compressor" (WorkerSettings.source_dataset_sha256 settings)
       (WorkerSettings.contract_sha256 settings) (WorkerSettings.feature_names settings))).

(** What the worker publishes for 145 events: a vector and its decision. *)
Abbreviation log_of_145 :=
  (sent (run validate_telemetry validate_status (λ _, ""%string) (λ _, None) transport request_json
     validate_response default_policy settings (record <$> seq 0 145) init_worker).2).

Example one_decision :
  match log_of_145 with [_; m] => bool_decide (stopic m = SCORES_TOPIC) | _ => false end = true.
Proof. vm_compute. reflexivity. Qed.

Example no_window : first_event.1 = Ok [].
Proof. vm_compute. reflexivity. Qed.

Example status_sent : is_ok (validate_stopped []) = true.
Proof. vm_compute. reflexivity. Qed.
End WorkerExample.

#[local] Existing Instances Recording.numpy WorkerExample.vector_model WorkerExample.decision_model
  WorkerExample.status_model WorkerExample.quarantine_model.

Lemma worker_scores_session_witness : ∃ vs b s,
  length vs = 1%nat ∧
  run WorkerExample.validate_telemetry WorkerExample.validate_status (λ _, ""%string) (λ _, None)
    WorkerExample.transport WorkerExample.request_json WorkerExample.validate_response default_policy
    WorkerExample.settings
    ((WorkerExample.record <$> seq 0 10) ++ WorkerExample.status_record :: (WorkerExample.record <$> seq 10 135))
    init_worker = (Ok (), s) ∧
  published WorkerExample.settings vs (sent s) ∧
  committed s = foldl offset_of ∅
    ((WorkerExample.record <$> seq 0 10) ++ WorkerExample.status_record :: (WorkerExample.record <$> seq 10 135)) ∧
  builders s !! WorkerExample.sid = Some b.
Proof.
  pose proof WorkerExample.one_window as Hok.
  destruct WorkerExample.vectors as [[vs|e] b] eqn:Hvs; [|discriminate Hok].
  apply andb_true_iff in Hok as [Hok Hone]. exists vs, b.
  destruct (worker_scores_session WorkerExample.validate_telemetry WorkerExample.validate_status (λ _, ""%string)
    WorkerExample.transport WorkerExample.request_json WorkerExample.validate_response default_policy
    WorkerExample.settings WorkerExample.sid "compressor" (WorkerExample.record <$> seq 0 145)
    (Recording.event <$> seq 0 145) (Recording.event 144) WorkerExample.status_record WorkerExample.completed
    (WorkerExample.record <$> seq 0 10) (WorkerExample.record <$> seq 10 135) vs b) as (s & Hrun & Hrest).
  - apply WorkerExample.records_belong.
  - reflexivity.
  - apply WorkerExample.events_numbered.
  - by vm_compute.
  - split_and!; [done..|by left].
  - reflexivity.
  - reflexivity.
  - reflexivity.
  - exact Hvs.
  - by apply WorkerExample.forallb_answered.
  - exists s. split; [by apply Nat.eqb_eq|]. split; [exact Hrun|exact Hrest].
Defined.

Lemma decisions_follow_vectors_witness : ∃ earlier m later,
  sent (run WorkerExample.validate_telemetry WorkerExample.validate_status (λ _, ""%string) (λ _, None)
    WorkerExample.transport WorkerExample.request_json WorkerExample.validate_response default_policy
    WorkerExample.settings (WorkerExample.record <$> seq 0 145) init_worker).2 = earlier ++ m :: later ∧
  stopic m = SCORES_TOPIC ∧
  ∃ earlier' v d vb db,
    earlier = earlier' ++ [vector_message v vb] ∧ m = decision_message d db ∧
    encode_message v = Ok vb ∧ encode_message d = Ok db ∧ decides "model-1" d v.
Proof.
  pose proof WorkerExample.one_decision as Hlog.
  destruct (sent _) as [|x [|m [|y rest]]] eqn:Hs; try discriminate Hlog.
  apply bool_decide_eq_true in Hlog. exists [x], m, []. split; [reflexivity|]. split; [exact Hlog|].
  exact (decisions_follow_vectors WorkerExample.validate_telemetry WorkerExample.validate_status (λ _, ""%string)
    WorkerExample.transport WorkerExample.request_json WorkerExample.validate_response default_policy
    WorkerExample.settings (λ _, None) (WorkerExample.record <$> seq 0 145) [x] m [] Hs Hlog).
Defined.

Lemma stop_ends_worker_witness : ∃ s,
  run WorkerExample.validate_telemetry WorkerExample.validate_stopped (λ _, ""%string) (λ _, None)
    WorkerExample.transport WorkerExample.request_json WorkerExample.validate_response default_policy
    WorkerExample.settings ((WorkerExample.record <$> seq 0 1) ++ [WorkerExample.status_record]) init_worker =
    (Err (ValueError "completion timestamp cannot precede last received telemetry"), s) ∧
  published WorkerExample.settings [] (sent s) ∧ committed s = ∅.
Proof.
  pose proof WorkerExample.no_window as Hvs. pose proof WorkerExample.status_sent as Hst.
  destruct (drive _ _) as [r b] eqn:Hpushed. simpl in Hvs. subst r.
  destruct (WorkerExample.validate_stopped []) as [status|e] eqn:Hstatus; [|discriminate Hst].
  apply (stop_ends_worker WorkerExample.validate_telemetry WorkerExample.validate_stopped (λ _, ""%string)
    WorkerExample.transport WorkerExample.request_json WorkerExample.validate_response default_policy
    WorkerExample.settings WorkerExample.sid "compressor" (WorkerExample.record <$> seq 0 1)
    (Recording.event <$> seq 0 1) (Recording.event 0) WorkerExample.status_record WorkerExample.running
    WorkerExample.stop_command WorkerExample.stopped None (mkAware Recording.start 0) status [] b).
  - apply WorkerExample.records_belong.
  - reflexivity.
  - apply WorkerExample.events_numbered.
  - reflexivity.
  - by vm_compute.
  - reflexivity.
  - by vm_compute.
  - reflexivity.
  - exact Hstatus.
  - reflexivity.
  - exact Hstatus.
  - exact Hpushed.
  - constructor.
Defined.
