(* ===== verification/LabContracts.v ===== *)
(** * Virtual lab: contracts ([lab/contracts.py])

    The data of the fault laboratory with its validators, and [validate_lab].
    A [dict[str, float | bool]] is a [gmap] of [param]s; [make] of a class is its
    constructor, whose failed constraints are [ValidationError]s.  The text of a
    [LabValidationError] is not kept, its code and its references are. *)

From S2P Require Import Prelude PyText PyUuid PyFloat PyHash PyJson Messages KafkaIo.

(** ** Literals *)
Inductive AssetType := COMPRESSOR | TANK | ISOLATION_VALVE | CONTROL_VALVE | DEMAND.
Inductive PortName := PORT_A | PORT_B | PORT_OUT | PORT_IN.
Inductive SensorKind := PRESSURE | FLOW.
Inductive ObservationQuality := GOOD | MISSING | INVALID.
Inductive ObservationUnit := UNIT_PA | UNIT_KG_S.
Inductive CommandStatus := CMD_ACCEPTED | CMD_APPLIED | CMD_REJECTED | CMD_FAILED.
Inductive EventKind := EV_RUN_STATUS | EV_COMMAND | EV_OBSERVATION | EV_ALERT.
Inductive AlertOrigin := PROCESS_LIMIT | DATA_QUALITY | ML.
Inductive AlertKind := BELOW_LIMIT | ABOVE_LIMIT | KIND_MISSING | KIND_INVALID | ANOMALY.
Inductive LabAlertState := ALERT_OPEN | ALERT_RESOLVED.
Inductive FaultKind := LEAK | VALVE_STUCK | SENSOR_BIAS | SENSOR_DROPOUT | COMPRESSOR_UNAVAILABLE.
Inductive RunStatus :=
  RUN_CREATED | RUN_RUNNING | RUN_PAUSED | RUN_STOPPED | RUN_COMPLETED | RUN_FAILED.

#[export] Instance AssetType_eq_dec : EqDecision AssetType. Proof. solve_decision. Defined.
#[export] Instance PortName_eq_dec : EqDecision PortName. Proof. solve_decision. Defined.
#[export] Instance SensorKind_eq_dec : EqDecision SensorKind. Proof. solve_decision. Defined.
#[export] Instance Quality_eq_dec : EqDecision ObservationQuality. Proof. solve_decision. Defined.
#[export] Instance Unit_eq_dec : EqDecision ObservationUnit. Proof. solve_decision. Defined.
#[export] Instance CommandStatus_eq_dec : EqDecision CommandStatus. Proof. solve_decision. Defined.
#[export] Instance EventKind_eq_dec : EqDecision EventKind. Proof. solve_decision. Defined.
#[export] Instance AlertOrigin_eq_dec : EqDecision AlertOrigin. Proof. solve_decision. Defined.
#[export] Instance AlertKind_eq_dec : EqDecision AlertKind. Proof. solve_decision. Defined.
#[export] Instance LabAlertState_eq_dec : EqDecision LabAlertState. Proof. solve_decision. Defined.
#[export] Instance FaultKind_eq_dec : EqDecision FaultKind. Proof. solve_decision. Defined.
#[export] Instance RunStatus_eq_dec : EqDecision RunStatus. Proof. solve_decision. Defined.

(** The text of a port and of an origin. *)
Definition port_text (p : PortName) : string :=
  match p with PORT_A => "A" | PORT_B => "B" | PORT_OUT => "OUT" | PORT_IN => "IN" end.
Definition port_of_text (s : string) : option PortName :=
  if bool_decide (s = "A"%string) then Some PORT_A else
  if bool_decide (s = "B"%string) then Some PORT_B else
  if bool_decide (s = "OUT"%string) then Some PORT_OUT else
  if bool_decide (s = "IN"%string) then Some PORT_IN else None.
#[export] Instance PortName_countable : Countable PortName.
Proof. refine (inj_countable port_text port_of_text _). by intros []. Defined.

Definition fault_index (k : FaultKind) : nat :=
  match k with LEAK => 0 | VALVE_STUCK => 1 | SENSOR_BIAS => 2 | SENSOR_DROPOUT => 3
             | COMPRESSOR_UNAVAILABLE => 4 end%nat.
#[export] Instance FaultKind_countable : Countable FaultKind.
Proof.
  refine (inj_countable' fault_index
    (λ n, nth n [LEAK; VALVE_STUCK; SENSOR_BIAS; SENSOR_DROPOUT; COMPRESSOR_UNAVAILABLE] LEAK) _).
  by intros [].
Defined.

Definition VALID_PORTS_BY_ASSET_TYPE (t : AssetType) : list PortName :=
  match t with
  | COMPRESSOR => [PORT_OUT]
  | TANK | ISOLATION_VALVE | CONTROL_VALVE => [PORT_A; PORT_B]
  | DEMAND => [PORT_IN]
  end.

(** ** Parameters: [float | bool] *)
Inductive param := PFloat (x : float) | PBool (b : bool).
#[export] Instance param_eq_dec : EqDecision param. Proof. solve_decision. Defined.

(** [float(v)] and [bool(v)]; a comparison of a [bool] with a float is one of its number. *)
Definition param_float (v : param) : float :=
  match v with PFloat x => x | PBool b => if b then f1 else f0 end.
Definition param_bool (v : param) : bool :=
  match v with PFloat x => negb (feqb x f0) | PBool b => b end.

Abbreviation params := (gmap string param).

(** [float(parameters.get(key, default))] *)
Definition get_float (ps : params) (key : string) (d : float) : float :=
  default d (param_float <$> ps !! key).
Definition get_bool (ps : params) (key : string) (d : bool) : bool :=
  default d (param_bool <$> ps !! key).

Definition lit (n : Z) : float := float_of_Z n.
Definition P_400K : float := lit 400000.
Definition COND_2E7 : float := flit 2 (10 ^ 7).

Definition DEFAULT_PARAMETERS_BY_ASSET_TYPE (t : AssetType) : params :=
  list_to_map match t with
  | TANK => [("volume_m3", PFloat (flit 5 10)); ("initial_pressure_pa", PFloat P_400K)]
  | COMPRESSOR =>
      [("q_nom_kg_s", PFloat (flit 2 100)); ("p_max_pa", PFloat (lit 900000)); ("load", PFloat f1);
       ("enabled", PBool true); ("initial_pressure_pa", PFloat P_400K)]
  | ISOLATION_VALVE | CONTROL_VALVE =>
      [("conductance_kg_s_pa", PFloat COND_2E7); ("opening", PFloat f1);
       ("initial_pressure_pa", PFloat P_400K)]
  | DEMAND =>
      [("conductance_kg_s_pa", PFloat (flit 1 (10 ^ 8))); ("load_factor", PFloat f1);
       ("initial_pressure_pa", PFloat P_400K)]
  end%string.

(** [lo <= v <= hi] *)
Definition between (lo hi v : float) : bool := fleb lo v && fleb v hi.

Module PortRef.
Record t := mk { asset_id : UUID; port : PortName }.
End PortRef.
#[export] Instance PortRef_eq_dec : EqDecision PortRef.t. Proof. solve_decision. Defined.

Abbreviation point := (float * float * float)%type.
Definition finite_point (p : point) : bool :=
  let '(x, y, z) := p in is_finite x && is_finite y && is_finite z.

Module Asset.
Record t := mk {
  asset_id : UUID;
  type : AssetType;
  position_m : point;
  rotation_y_rad : float;
  parameters : params
}.

Definition validate_position (v : point) : result point :=
  let '(x, y, z) := v in
  _ ← guard_exn (finite_point v) (ValidationError "position_m coordinates must be finite");
  _ ← guard_exn (between (lit (-12)) (lit 12) x) (ValidationError "position X out of range");
  _ ← guard_exn (negb (fltb (flit 1 (10 ^ 6)) (fabs y))) (ValidationError "position Y must be 0");
  _ ← guard_exn (between (lit (-8)) (lit 8) z) (ValidationError "position Z out of range");
  Ok (x, f0, z).

Definition validate_rotation (v : float) : result float :=
  _ ← guard_exn (is_finite v) (ValidationError "rotation_y_rad must be finite");
  Ok v.

(** [merged[key]] inside a range *)
Definition ranged (merged : params) (key : string) (lo hi : float) : result unit :=
  v ← of_option (KeyError key) (merged !! key);
  guard_exn (between lo hi (param_float v)) (ValidationError key).

Definition is_bool (v : param) : bool := match v with PBool _ => true | PFloat _ => false end.

Definition conductance_ok (merged : params) : result unit :=
  ranged merged "conductance_kg_s_pa" (flit 1 (10 ^ 12)) (flit 1 (10 ^ 6)).

Definition validate_parameters (type : AssetType) (parameters : params) : result unit :=
  let expected_params := DEFAULT_PARAMETERS_BY_ASSET_TYPE type in
  let merged := parameters ∪ expected_params in
  _ ← guard_exn (bool_decide (dom parameters ⊆ dom expected_params))
        (ValidationError "Extra parameter keys not allowed");
  _ ← ranged merged "initial_pressure_pa" (lit 101325) (lit 1500000);
  match type with
  | TANK => ranged merged "volume_m3" (flit 1 100) (lit 10)
  | COMPRESSOR =>
      _ ← ranged merged "q_nom_kg_s" (flit 1 1000) (flit 2 10);
      _ ← ranged merged "p_max_pa" (lit 200000) (lit 1500000);
      _ ← ranged merged "load" f0 f1;
      enabled ← of_option (KeyError "enabled") (merged !! "enabled"%string);
      guard_exn (is_bool enabled) (ValidationError "enabled must be a boolean")
  | ISOLATION_VALVE =>
      _ ← conductance_ok merged;
      op ← of_option (KeyError "opening") (merged !! "opening"%string);
      guard_exn (feqb (param_float op) f0 || feqb (param_float op) f1)
        (ValidationError "isolation valve opening must be 0 or 1")
  | CONTROL_VALVE =>
      _ ← conductance_ok merged;
      ranged merged "opening" f0 f1
  | DEMAND =>
      _ ← conductance_ok merged;
      ranged merged "load_factor" f0 (lit 2)
  end.

Definition make (asset_id : UUID) (type : AssetType) (position_m : point)
    (rotation_y_rad : float) (parameters : params) : result t :=
  position_m ← validate_position position_m;
  rotation_y_rad ← validate_rotation rotation_y_rad;
  _ ← validate_parameters type parameters;
  Ok (mk asset_id type position_m rotation_y_rad parameters).
End Asset.

Module Pipe.
Record t := mk {
  pipe_id : UUID;
  from_port : PortRef.t;
  to_port : PortRef.t;
  conductance_kg_s_pa : float;
  waypoints_m : list point
}.

Definition validate_conductance (v : float) : result float :=
  _ ← field (fleb (flit 1 (10 ^ 12)) v && fleb v (flit 1 (10 ^ 6))) "conductance_kg_s_pa";
  _ ← guard_exn (is_finite v) (ValidationError "conductance_kg_s_pa must be finite");
  Ok v.

Definition validate_waypoints (v : list point) : result (list point) :=
  _ ← guard_exn (length v <=? 16)%nat (ValidationError "Maximum 16 waypoints allowed");
  _ ← guard_exn (forallb finite_point v) (ValidationError "Each waypoint must be 3 finite floats");
  Ok v.

Definition make (pipe_id : UUID) (from_port to_port : PortRef.t) (conductance_kg_s_pa : float)
    (waypoints_m : list point) : result t :=
  conductance_kg_s_pa ← validate_conductance conductance_kg_s_pa;
  waypoints_m ← validate_waypoints waypoints_m;
  _ ← guard_exn (negb (bool_decide (PortRef.asset_id from_port = PortRef.asset_id to_port)
                       && bool_decide (PortRef.port from_port = PortRef.port to_port)))
        (ValidationError "Pipe cannot connect a port to itself");
  Ok (mk pipe_id from_port to_port conductance_kg_s_pa waypoints_m).
End Pipe.

(** [target: PortRef | UUID] *)
Inductive SensorTarget := TPort (p : PortRef.t) | TPipe (pipe : UUID).
#[export] Instance SensorTarget_eq_dec : EqDecision SensorTarget. Proof. solve_decision. Defined.

Module Sensor.
Record t := mk {
  sensor_id : UUID;
  kind : SensorKind;
  target : SensorTarget;
  noise_std : float;
  alarm_low : option float;
  alarm_high : option float
}.

Definition validate_noise (v : float) : result float :=
  _ ← guard_exn (is_finite v && negb (fltb v f0))
        (ValidationError "noise_std must be finite non-negative");
  Ok v.

(** The hysteresis of a kind of sensor. *)
Definition hysteresis (kind : SensorKind) : float :=
  match kind with PRESSURE => lit 10000 | FLOW => flit 1 1000 end.

Definition target_ok (kind : SensorKind) (target : SensorTarget) (noise_std : float)
  : result unit :=
  match kind with
  | PRESSURE =>
      _ ← guard_exn (match target with TPort _ => true | TPipe _ => false end)
            (ValidationError "PRESSURE sensor target must be PortRef");
      guard_exn (between f0 (lit 10000) noise_std) (ValidationError "PRESSURE noise_std out of range")
  | FLOW =>
      _ ← guard_exn (match target with TPipe _ => true | TPort _ => false end)
            (ValidationError "FLOW sensor target must be a pipe UUID");
      guard_exn (between f0 (flit 1 100) noise_std) (ValidationError "FLOW noise_std out of range")
  end.

Definition alarm_finite (alarm : option float) : bool :=
  match alarm with Some x => is_finite x | None => true end.

Definition validate_sensor_rules (s : t) : result unit :=
  _ ← target_ok (kind s) (target s) (noise_std s);
  _ ← guard_exn (alarm_finite (alarm_low s)) (ValidationError "alarm_low must be finite");
  _ ← guard_exn (alarm_finite (alarm_high s)) (ValidationError "alarm_high must be finite");
  guard_exn (match alarm_low s, alarm_high s with
             | Some lo, Some hi =>
                 negb (fleb (fsub hi (hysteresis (kind s))) (fadd lo (hysteresis (kind s))))
             | _, _ => true
             end) (ValidationError "Alarm bounds invalid").

Definition make (sensor_id : UUID) (kind : SensorKind) (target : SensorTarget) (noise_std : float)
    (alarm_low alarm_high : option float) : result t :=
  noise_std ← validate_noise noise_std;
  let s := mk sensor_id kind target noise_std alarm_low alarm_high in
  _ ← validate_sensor_rules s;
  Ok s.
End Sensor.

Module LabDefinition.
Record t := mk {
  lab_id : UUID;
  revision : Z;
  name : string;
  assets : list Asset.t;
  pipes : list Pipe.t;
  sensors : list Sensor.t;
  scene_revision : string
}.

Definition make (lab_id : UUID) (revision : Z) (name : string) (assets : list Asset.t)
    (pipes : list Pipe.t) (sensors : list Sensor.t) (scene_revision : string) : result t :=
  _ ← field (1 <=? revision) "revision";
  _ ← field (str_len 1 80 name) "name";
  Ok (mk lab_id revision name assets pipes sensors scene_revision).

(** [definition.model_copy(update={"revision": r})] *)
Definition with_revision (r : Z) (d : t) : t :=
  mk (lab_id d) r (name d) (assets d) (pipes d) (sensors d) (scene_revision d).
End LabDefinition.

Module LabValidationError.
Record t := mk { code : string; asset_ids : list UUID; port_refs : list PortRef.t }.
End LabValidationError.

Module LabValidationResult.
Record t := mk { run_eligible : bool; definition_digest : string; errors : list LabValidationError.t }.
End LabValidationResult.

(** ** [validate_lab] *)
Definition lab_error (code : string) : LabValidationError.t := LabValidationError.mk code [] [].
Definition lab_error_ports (code : string) (ports : list PortRef.t) : LabValidationError.t :=
  LabValidationError.mk code [] ports.

Abbreviation asset_map := (gmap UUID Asset.t).

Definition check_asset (st : asset_map * list LabValidationError.t) (a : Asset.t)
  : asset_map * list LabValidationError.t :=
  let '(m, errors) := st in
  let dup := match m !! Asset.asset_id a with
             | Some _ => [LabValidationError.mk "DUPLICATE_ASSET_ID" [Asset.asset_id a] []]
             | None => [] end in
  (<[Asset.asset_id a := a]> m, errors ++ dup).

(** A port reference that does not name a port of an asset of the lab. *)
Definition check_port (m : asset_map) (code : string) (p : PortRef.t) : list LabValidationError.t :=
  match m !! PortRef.asset_id p with
  | None => [lab_error_ports code [p]]
  | Some a =>
      if bool_decide (PortRef.port p ∈ VALID_PORTS_BY_ASSET_TYPE (Asset.type a)) then []
      else [lab_error_ports code [p]]
  end.

Abbreviation port_key := (UUID * PortName)%type.
Definition key_of (p : PortRef.t) : port_key := (PortRef.asset_id p, PortRef.port p).

(** [frozenset([(from_id, from_port), (to_id, to_port)])] *)
Definition pair_key (p : Pipe.t) : gset port_key :=
  {[ key_of (Pipe.from_port p); key_of (Pipe.to_port p) ]}.

Record PipeCheck := mkPipeCheck {
  pipe_ids : gset UUID;
  connected_pairs : gset (gset port_key);
  pipe_errors : list LabValidationError.t
}.

Definition check_pipe (m : asset_map) (st : PipeCheck) (p : Pipe.t) : PipeCheck :=
  let dup := if bool_decide (Pipe.pipe_id p ∈ pipe_ids st) then [lab_error "DUPLICATE_PIPE_ID"] else [] in
  let from := check_port m "INVALID_PORT_REF" (Pipe.from_port p) in
  let to := check_port m "INVALID_PORT_REF" (Pipe.to_port p) in
  let key := pair_key p in
  let pair := if bool_decide (size key = 1%nat)
              then [lab_error_ports "SELF_LOOP_PIPE" [Pipe.from_port p; Pipe.to_port p]]
              else if bool_decide (key ∈ connected_pairs st)
              then [lab_error_ports "DUPLICATE_PIPE" [Pipe.from_port p; Pipe.to_port p]]
              else [] in
  mkPipeCheck ({[Pipe.pipe_id p]} ∪ pipe_ids st) ({[key]} ∪ connected_pairs st)
    (pipe_errors st ++ dup ++ from ++ to ++ pair).

Definition check_sensor (m : asset_map) (pipes : gset UUID)
    (st : gset UUID * list LabValidationError.t) (s : Sensor.t)
  : result (gset UUID * list LabValidationError.t) :=
  let '(ids, errors) := st in
  let dup := if bool_decide (Sensor.sensor_id s ∈ ids) then [lab_error "DUPLICATE_SENSOR_ID"] else [] in
  target ← match Sensor.kind s, Sensor.target s with
           | PRESSURE, TPort p => Ok (check_port m "INVALID_SENSOR_TARGET" p)
           | FLOW, TPipe pipe =>
               Ok (if bool_decide (pipe ∈ pipes) then [] else [lab_error "INVALID_SENSOR_TARGET"])
           | _, _ => Err AssertionError
           end;
  Ok ({[Sensor.sensor_id s]} ∪ ids, errors ++ dup ++ target).

Section Digest.
Context `{JsonModel LabDefinition.t}.

Definition compute_definition_digest (definition : LabDefinition.t) : result string :=
  data ← dumps_canonical (JObj (model_dump definition));
  Ok (sha256_hex (encode data)).

(** The errors of the three loops, in the order they are found. *)
Definition lab_errors (definition : LabDefinition.t) : result (list LabValidationError.t) :=
  let '(m, asset_errors) := foldl check_asset (∅, []) (LabDefinition.assets definition) in
  let pc := foldl (check_pipe m) (mkPipeCheck ∅ ∅ asset_errors) (LabDefinition.pipes definition) in
  snd <$> foldR (check_sensor m (pipe_ids pc)) (∅, pipe_errors pc) (LabDefinition.sensors definition).

Definition validate_lab (definition : LabDefinition.t) : result LabValidationResult.t :=
  digest ← compute_definition_digest definition;
  if bool_decide (LabDefinition.assets definition = []) then
    Ok (LabValidationResult.mk false digest [lab_error "EMPTY_LAB"])
  else
    errors ← lab_errors definition;
    Ok (LabValidationResult.mk (bool_decide (length errors = 0%nat)) digest errors).
End Digest.

(** ** Runs, states and observations *)
Module RunSpec.
Record t := mk {
  lab_id : UUID;
  lab_revision : Z;
  seed : Z;
  speed : Z;
  max_ticks : option Z;
  baseline_id : option UUID
}.
Definition make (lab_id : UUID) (lab_revision seed speed : Z) (max_ticks : option Z)
    (baseline_id : option UUID) : result t :=
  _ ← field (1 <=? lab_revision) "lab_revision";
  _ ← field (bool_decide (speed ∈ [1; 10; 100])) "speed";
  _ ← field (match max_ticks with Some n => 0 <? n | None => true end) "max_ticks";
  Ok (mk lab_id lab_revision seed speed max_ticks baseline_id).
End RunSpec.

Module PhysicalState.
Record t := mk {
  tick : Z;
  pressures_pa : gmap string float;
  flows_kg_s : gmap string float;
  operating_modes : gmap string string
}.
Definition make (tick : Z) (pressures_pa flows_kg_s : gmap string float)
    (operating_modes : gmap string string) : result t :=
  _ ← field (0 <=? tick) "tick";
  Ok (mk tick pressures_pa flows_kg_s operating_modes).
End PhysicalState.

Module Observation.
Record t := mk {
  run_id : UUID;
  asset_id : UUID;
  sensor_id : UUID;
  tick : Z;
  unit : ObservationUnit;
  value : option float;
  quality : ObservationQuality;
  profile_digest : string
}.
Definition make (run_id asset_id sensor_id : UUID) (tick : Z) (unit : ObservationUnit)
    (value : option float) (quality : ObservationQuality) (profile_digest : string) : result t :=
  _ ← field (0 <=? tick) "tick";
  Ok (mk run_id asset_id sensor_id tick unit value quality profile_digest).
End Observation.

Module CommandRequest.
Record t := mk {
  command_id : UUID;
  expected_control_revision : Z;
  action : string;
  target_id : option UUID;
  parameters : dict
}.
Definition make (command_id : UUID) (expected_control_revision : Z) (action : string)
    (target_id : option UUID) (parameters : dict) : result t :=
  _ ← field (0 <=? expected_control_revision) "expected_control_revision";
  Ok (mk command_id expected_control_revision action target_id parameters).
End CommandRequest.

Module CommandReceipt.
Record t := mk {
  command_id : UUID;
  status : CommandStatus;
  accepted_sequence : Z;
  effective_tick : option Z;
  control_revision : Z;
  reason_code : option string
}.
Definition make (command_id : UUID) (status : CommandStatus) (accepted_sequence : Z)
    (effective_tick : option Z) (control_revision : Z) (reason_code : option string) : result t :=
  _ ← field (0 <=? accepted_sequence) "accepted_sequence";
  _ ← field (0 <=? control_revision) "control_revision";
  Ok (mk command_id status accepted_sequence effective_tick control_revision reason_code).
End CommandReceipt.

Module LabEvent.
Record t := mk {
  event_id : UUID; run_id : UUID; sequence : Z; kind : EventKind; tick : Z; payload : dict
}.
Definition make (event_id run_id : UUID) (sequence : Z) (kind : EventKind) (tick : Z)
    (payload : dict) : result t :=
  _ ← field (0 <=? sequence) "sequence";
  _ ← field (0 <=? tick) "tick";
  Ok (mk event_id run_id sequence kind tick payload).
End LabEvent.

Module LabAlert.
Record t := mk {
  alert_id : UUID;
  run_id : UUID;
  asset_id : UUID;
  sensor_id : UUID;
  origin : AlertOrigin;
  kind : AlertKind;
  state : LabAlertState;
  first_tick : Z;
  last_tick : Z;
  resolved_tick : option Z;
  evidence_ids : list UUID
}.
Definition make (alert_id run_id asset_id sensor_id : UUID) (origin : AlertOrigin)
    (kind : AlertKind) (state : LabAlertState) (first_tick last_tick : Z)
    (resolved_tick : option Z) (evidence_ids : list UUID) : result t :=
  _ ← field (0 <=? first_tick) "first_tick";
  _ ← field (0 <=? last_tick) "last_tick";
  Ok (mk alert_id run_id asset_id sensor_id origin kind state first_tick last_tick resolved_tick
        evidence_ids).
End LabAlert.

Module ActiveFault.
Record t := mk {
  target_id : UUID;
  kind : FaultKind;
  port : option string;
  values : gmap string float
}.
End ActiveFault.

Module ControlState.
Record t := mk { setpoints : gmap string params; active_faults : list ActiveFault.t }.
Definition empty : t := mk ∅ [].
End ControlState.

Module EngineCheckpoint.
Record t := mk {
  tick : Z;
  physical : PhysicalState.t;
  controls : ControlState.t;
  accepted_scanned_sequence : Z;
  pending_command_ids : list UUID;
  definition_digest : string;
  profile_digest : string;
  sampling_digest : string
}.
Definition make (tick : Z) (physical : PhysicalState.t) (controls : ControlState.t)
    (accepted_scanned_sequence : Z) (pending_command_ids : list UUID)
    (definition_digest profile_digest sampling_digest : string) : result t :=
  _ ← field (0 <=? tick) "tick";
  _ ← field (0 <=? accepted_scanned_sequence) "accepted_scanned_sequence";
  Ok (mk tick physical controls accepted_scanned_sequence pending_command_ids definition_digest
        profile_digest sampling_digest).
End EngineCheckpoint.

(** [SimulationRun]; [model_version], [epoch] and [profile_id] are constants. *)
Module SimulationRun.
Record t := mk {
  run_id : UUID;
  spec : RunSpec.t;
  status : RunStatus;
  definition : LabDefinition.t;
  definition_digest : string;
  scene_digest : string;
  profile_digest : string;
  sampling_digest : string;
  baseline_id : option UUID;
  dt : float;
  tick : Z;
  control_revision : Z;
  event_sequence : Z
}.
End SimulationRun.

Module RunSnapshot.
Record t := mk {
  run_id : UUID;
  tick : Z;
  status : RunStatus;
  control_revision : Z;
  event_sequence : Z;
  physical : PhysicalState.t;
  observations : list Observation.t;
  pending_commands : list CommandReceipt.t;
  alerts : list LabAlert.t
}.
Definition make (run_id : UUID) (tick : Z) (status : RunStatus) (control_revision event_sequence : Z)
    (physical : PhysicalState.t) (observations : list Observation.t)
    (pending_commands : list CommandReceipt.t) (alerts : list LabAlert.t) : result t :=
  _ ← field (0 <=? tick) "tick";
  _ ← field (0 <=? control_revision) "control_revision";
  _ ← field (0 <=? event_sequence) "event_sequence";
  Ok (mk run_id tick status control_revision event_sequence physical observations pending_commands
        alerts).
End RunSnapshot.
