(* ===== verification/LabCatalog.v ===== *)
(** * Virtual lab: catalog and reference laboratory ([lab/catalog.py])

    [get_reference_lab_definition] builds its parts with the constructors of
    [LabContracts], so it can raise; its identifiers are name-based UUIDs.
    [clone_lab_definition] draws a fresh identifier for every new one, the n-th
    of a call being [draw n], and keeps the map from old to new ones. *)

From S2P Require Import Prelude PyText PyUuid PyFloat PyHash KafkaIo LabContracts.

Definition NAMESPACE_LAB : UUID := uuid5 NAMESPACE_URL "https://industrial-reliability.local/lab".

(** ** The catalog *)
Record CatalogEntry := mkEntry {
  entry_type : AssetType; entry_ports : list PortName; entry_parameters : params
}.
Definition ASSET_TYPES : list AssetType := [COMPRESSOR; TANK; ISOLATION_VALVE; CONTROL_VALVE; DEMAND].
Definition get_catalog : list CatalogEntry :=
  (λ t, mkEntry t (VALID_PORTS_BY_ASSET_TYPE t) (DEFAULT_PARAMETERS_BY_ASSET_TYPE t)) <$> ASSET_TYPES.

(** ** The reference laboratory *)
Definition ref_id (name : string) : UUID := uuid5 NAMESPACE_LAB ("ref:" +:+ name)%string.
(** [f"ref:train_{t_idx}:{name}"] *)
Definition train_id (t : string) (name : string) : UUID :=
  ref_id ("train_" +:+ t +:+ ":" +:+ name)%string.

(** The trains with their Z coordinates, and the X coordinate of each type. *)
Definition TRAINS : list (string * float) :=
  [("1"%string, flit (-45) 10); ("2"%string, flit (-15) 10); ("3"%string, flit 15 10); ("4"%string, flit 45 10)].
Definition x_coord (t : AssetType) : float :=
  lit match t with
      | COMPRESSOR => -8 | TANK => -4 | ISOLATION_VALVE => 0 | CONTROL_VALVE => 3 | DEMAND => 7 end.
Definition asset_name (t : AssetType) : string :=
  match t with
  | COMPRESSOR => "compressor" | TANK => "tank" | ISOLATION_VALVE => "isolation_valve"
  | CONTROL_VALVE => "control_valve" | DEMAND => "demand" end.

Definition train_asset (t : string) (z : float) (type : AssetType) : result Asset.t :=
  Asset.make (train_id t (asset_name type)) type (x_coord type, f0, z) f0
    (DEFAULT_PARAMETERS_BY_ASSET_TYPE type).

Definition ref_pipe (id : UUID) (from : UUID) (from_port : PortName) (to : UUID) (to_port : PortName)
  : result Pipe.t :=
  Pipe.make id (PortRef.mk from from_port) (PortRef.mk to to_port) COND_2E7 [].

Definition train_pipes (t : string) : result (list Pipe.t) :=
  let id type := train_id t (asset_name type) in
  p1 ← ref_pipe (train_id t "pipe_comp_tank") (id COMPRESSOR) PORT_OUT (id TANK) PORT_A;
  p2 ← ref_pipe (train_id t "pipe_tank_iso") (id TANK) PORT_B (id ISOLATION_VALVE) PORT_A;
  p3 ← ref_pipe (train_id t "pipe_iso_ctrl") (id ISOLATION_VALVE) PORT_B (id CONTROL_VALVE) PORT_A;
  p4 ← ref_pipe (train_id t "pipe_ctrl_dem") (id CONTROL_VALVE) PORT_B (id DEMAND) PORT_IN;
  Ok [p1; p2; p3; p4].

Definition pressure_sensor (t name : string) (type : AssetType) (port : PortName) : result Sensor.t :=
  Sensor.make (train_id t name) PRESSURE (TPort (PortRef.mk (train_id t (asset_name type)) port))
    (lit 100) (Some (lit 250000)) (Some (lit 850000)).
Definition flow_sensor (t name pipe : string) : result Sensor.t :=
  Sensor.make (train_id t name) FLOW (TPipe (train_id t pipe)) (flit 1 (10 ^ 5))
    (Some (flit (-5) 100)) (Some (flit 5 100)).

Definition train_sensors (t : string) : result (list Sensor.t) :=
  s1 ← pressure_sensor t "sensor_p_comp" COMPRESSOR PORT_OUT;
  s2 ← pressure_sensor t "sensor_p_tank" TANK PORT_B;
  s3 ← pressure_sensor t "sensor_p_dem" DEMAND PORT_IN;
  s4 ← flow_sensor t "sensor_f_comp" "pipe_comp_tank";
  s5 ← flow_sensor t "sensor_f_dem" "pipe_ctrl_dem";
  Ok [s1; s2; s3; s4; s5].

Record Parts := mkParts { r_assets : list Asset.t; r_pipes : list Pipe.t; r_sensors : list Sensor.t }.

(** One iteration of the loop over the trains. *)
Definition add_train (acc : Parts) (tz : string * float) : result Parts :=
  assets ← mapR (train_asset tz.1 tz.2) ASSET_TYPES;
  pipes ← train_pipes tz.1;
  sensors ← train_sensors tz.1;
  Ok (mkParts (r_assets acc ++ assets) (r_pipes acc ++ pipes) (r_sensors acc ++ sensors)).

Definition cross_pipe (name t1 t2 : string) : result Pipe.t :=
  ref_pipe (ref_id name) (train_id t1 "tank") PORT_B (train_id t2 "tank") PORT_B.

Definition get_reference_lab_definition : result LabDefinition.t :=
  parts ← foldR add_train (mkParts [] [] []) TRAINS;
  cross_p1 ← cross_pipe "crosspipe_train_1_2" "1" "2";
  cross_p2 ← cross_pipe "crosspipe_train_3_4" "3" "4";
  LabDefinition.make (uuid5 NAMESPACE_LAB "reference-pneumatic-v1") 1 "Reference Pneumatic Lab"
    (r_assets parts) (r_pipes parts ++ [cross_p1; cross_p2]) (r_sensors parts) "scene-v1".

(** ** Cloning *)
Record CloneState := mkClone { id_map : gmap UUID UUID; drawn : nat }.

Section Clone.
Variable draw : nat → UUID.

(** [uuid.uuid4()] *)
Definition fresh_id : M CloneState UUID := λ s, (Ok (draw (drawn s)), mkClone (id_map s) (S (drawn s))).

Definition get_new_id (old_id : UUID) : M CloneState unit :=
  s ← get_st;
  match id_map s !! old_id with
  | Some _ => mret ()
  | None =>
      new ← fresh_id;
      modify (λ s, mkClone (<[old_id := new]> (id_map s)) (drawn s))
  end.

(** [id_map[old]] *)
Definition mapped (m : gmap UUID UUID) (old : UUID) : result UUID :=
  of_option (KeyError (str_uuid old)) (m !! old).
Definition clone_port (m : gmap UUID UUID) (p : PortRef.t) : result PortRef.t :=
  id ← mapped m (PortRef.asset_id p); Ok (PortRef.mk id (PortRef.port p)).

Definition clone_asset (m : gmap UUID UUID) (a : Asset.t) : result Asset.t :=
  id ← mapped m (Asset.asset_id a);
  Asset.make id (Asset.type a) (Asset.position_m a) (Asset.rotation_y_rad a) (Asset.parameters a).

Definition clone_pipe (m : gmap UUID UUID) (p : Pipe.t) : result Pipe.t :=
  id ← mapped m (Pipe.pipe_id p);
  from ← clone_port m (Pipe.from_port p);
  to ← clone_port m (Pipe.to_port p);
  Pipe.make id from to (Pipe.conductance_kg_s_pa p) (Pipe.waypoints_m p).

Definition clone_target (m : gmap UUID UUID) (s : Sensor.t) : result SensorTarget :=
  match Sensor.kind s, Sensor.target s with
  | PRESSURE, TPort p => TPort <$> clone_port m p
  | FLOW, TPipe pipe => TPipe <$> mapped m pipe
  | _, _ => Err AssertionError
  end.

Definition clone_sensor (m : gmap UUID UUID) (id : UUID) (s : Sensor.t) : result Sensor.t :=
  target ← clone_target m s;
  Sensor.make id (Sensor.kind s) target (Sensor.noise_std s) (Sensor.alarm_low s) (Sensor.alarm_high s).

(** [for s in template.sensors: new_sensors.append(...)]; the sensor's
    identifier is drawn after its target is found. *)
Fixpoint clone_sensors (l : list Sensor.t) : M CloneState (list Sensor.t) :=
  match l with
  | [] => mret []
  | s :: l =>
      st ← get_st;
      _ ← lift_res (clone_target (id_map st) s);
      id ← fresh_id;
      new ← lift_res (clone_sensor (id_map st) id s);
      rest ← clone_sensors l;
      mret (new :: rest)
  end.

Definition clone_body (template : LabDefinition.t) (new_lab_id : UUID) (new_name : string)
  : M CloneState LabDefinition.t :=
  _ ← forM (LabDefinition.assets template) (λ a, get_new_id (Asset.asset_id a));
  _ ← forM (LabDefinition.pipes template) (λ p, get_new_id (Pipe.pipe_id p));
  st ← get_st;
  new_assets ← lift_res (mapR (clone_asset (id_map st)) (LabDefinition.assets template));
  new_pipes ← lift_res (mapR (clone_pipe (id_map st)) (LabDefinition.pipes template));
  new_sensors ← clone_sensors (LabDefinition.sensors template);
  lift_res (LabDefinition.make new_lab_id 1 new_name new_assets new_pipes new_sensors
              (LabDefinition.scene_revision template)).

Definition clone_lab_definition (template : LabDefinition.t) (new_lab_id : UUID) (new_name : string)
  : result LabDefinition.t := (clone_body template new_lab_id new_name (mkClone ∅ 0)).1.
End Clone.
