(* ===== verification/LabNetwork.v ===== *)
(** * Virtual lab: the network compiler ([lab/simulation/network.py])

    [compile_lab] numbers the nodes and the edges of a definition and prepares
    the constant arrays of the solver.  numpy arrays of binary64 are lists of
    floats, matrices lists of rows.  [node_index] of a node is its position. *)

From S2P Require Import Prelude PyText PyUuid PyFloat KafkaIo LabContracts.

Definition R_AIR : float := flit 28705 100.
Definition T_REF : float := flit 29315 100.
Definition P_ATM : float := lit 101325.
Definition DT_DEFAULT : float := flit 5 100.

Module NetworkNode.
Record t := mk {
  node_id : string;
  node_index : nat;
  asset_id : UUID;
  port_group : string;
  volume_m3 : float;
  capacitance : float;
  initial_pressure_pa : float
}.
End NetworkNode.

Module NetworkEdge.
Record t := mk {
  edge_id : string;
  from_node : nat;
  to_node : nat;
  base_conductance : float;
  asset_id : option UUID;
  is_valve : bool
}.
End NetworkEdge.

Module CompressorSource.
Record t := mk {
  asset_id : UUID;
  node_index : nat;
  q_nom_kg_s : float;
  p_max_pa : float;
  nominal_load : float;
  enabled : bool
}.
End CompressorSource.

Module DemandSink.
Record t := mk {
  asset_id : UUID;
  node_index : nat;
  base_conductance : float;
  nominal_load_factor : float
}.
End DemandSink.

Abbreviation vector := (list float).
Abbreviation matrix := (list (list float)).
Abbreviation port_map := (gmap (UUID * string) nat).

Module CompiledNetwork.
Record t := mk {
  definition_digest : string;
  nodes : list NetworkNode.t;
  node_id_to_index : gmap string nat;
  port_to_node_index : port_map;
  edges : list NetworkEdge.t;
  edge_id_to_index : gmap string nat;
  compressors : list CompressorSource.t;
  demands : list DemandSink.t;
  sensor_targets : gmap UUID (SensorKind * nat * Z);
  volumes : vector;
  capacitances : vector;
  c_over_dt : vector;
  base_laplacian : matrix
}.
End CompiledNetwork.

(** [sorted(..., key=lambda a: str(a.asset_id))]: a stable sort by the key. *)
Section Sorted.
Context {A : Type} (key : A → UUID).
Definition id_le (x y : A) : Prop := uuid_leb (key x) (key y) = true.
#[export] Instance id_le_dec : RelDecision id_le.
Proof. intros x y. unfold id_le. apply _. Defined.
Definition sorted_by_id (l : list A) : list A := merge_sort id_le l.
End Sorted.

(** ** Nodes *)
Record NodeTable := mkNodeTable {
  nt_nodes : list NetworkNode.t;
  nt_index : gmap string nat;
  nt_ports : port_map
}.

(** One node with its index, and the ports that lead to it. *)
Definition add_node (node_id : string) (asset_id : UUID) (port_group : string) (vol init_p : float)
    (ports : list PortName) (nt : NodeTable) : NodeTable :=
  let idx := length (nt_nodes nt) in
  let cap := fdiv vol (fmul R_AIR T_REF) in
  mkNodeTable
    (nt_nodes nt ++ [NetworkNode.mk node_id idx asset_id port_group vol cap init_p])
    (<[node_id := idx]> (nt_index nt))
    (foldl (λ m p, <[(asset_id, port_text p) := idx]> m) (nt_ports nt) ports).

(** [f"{asset_id}:{port}"] *)
Definition port_id (asset_id : UUID) (p : string) : string :=
  (str_uuid asset_id +:+ ":" +:+ p)%string.

Definition initial_pressure (a : Asset.t) : float :=
  get_float (Asset.parameters a) "initial_pressure_pa" P_400K.

Definition is_valve_type (t : AssetType) : bool :=
  match t with ISOLATION_VALVE | CONTROL_VALVE => true | _ => false end.

Definition add_asset (nt : NodeTable) (a : Asset.t) : NodeTable :=
  let init_p := initial_pressure a in
  let id := Asset.asset_id a in
  match Asset.type a with
  | TANK =>
      add_node (str_uuid id) id "AB" (get_float (Asset.parameters a) "volume_m3" (flit 5 10)) init_p
        [PORT_A; PORT_B] nt
  | COMPRESSOR => add_node (str_uuid id) id "OUT" (flit 2 100) init_p [PORT_OUT] nt
  | DEMAND => add_node (str_uuid id) id "IN" (flit 1 100) init_p [PORT_IN] nt
  | ISOLATION_VALVE | CONTROL_VALVE =>
      add_node (port_id id "B") id "B" (flit 5 1000) init_p [PORT_B]
        (add_node (port_id id "A") id "A" (flit 5 1000) init_p [PORT_A] nt)
  end.

(** ** Edges *)
Record EdgeTable := mkEdgeTable { et_edges : list NetworkEdge.t; et_index : gmap string nat }.

Definition add_edge (edge : NetworkEdge.t) (et : EdgeTable) : EdgeTable :=
  mkEdgeTable (et_edges et ++ [edge])
    (<[NetworkEdge.edge_id edge := length (et_edges et)]> (et_index et)).

(** [port_to_node_index[(asset_id, port)]] *)
Definition node_of_port (ports : port_map) (asset_id : UUID) (port : PortName) : result nat :=
  of_option (KeyError (port_id asset_id (port_text port))) (ports !! (asset_id, port_text port)).

Definition add_pipe (ports : port_map) (et : EdgeTable) (p : Pipe.t) : result EdgeTable :=
  from_idx ← node_of_port ports (PortRef.asset_id (Pipe.from_port p)) (PortRef.port (Pipe.from_port p));
  to_idx ← node_of_port ports (PortRef.asset_id (Pipe.to_port p)) (PortRef.port (Pipe.to_port p));
  Ok (add_edge (NetworkEdge.mk (str_uuid (Pipe.pipe_id p)) from_idx to_idx
                  (Pipe.conductance_kg_s_pa p) None false) et).

Definition add_valve (ports : port_map) (et : EdgeTable) (a : Asset.t) : result EdgeTable :=
  if is_valve_type (Asset.type a) then
    from_idx ← node_of_port ports (Asset.asset_id a) PORT_A;
    to_idx ← node_of_port ports (Asset.asset_id a) PORT_B;
    let base_cond := get_float (Asset.parameters a) "conductance_kg_s_pa" COND_2E7 in
    let opening := get_float (Asset.parameters a) "opening" f1 in
    Ok (add_edge (NetworkEdge.mk (port_id (Asset.asset_id a) "internal") from_idx to_idx
                    (fmul base_cond opening) (Some (Asset.asset_id a)) true) et)
  else Ok et.

(** ** Sources, sinks and sensors *)
Definition add_compressor (ports : port_map) (l : list CompressorSource.t) (a : Asset.t)
  : result (list CompressorSource.t) :=
  if bool_decide (Asset.type a = COMPRESSOR) then
    n_idx ← node_of_port ports (Asset.asset_id a) PORT_OUT;
    let ps := Asset.parameters a in
    Ok (l ++ [CompressorSource.mk (Asset.asset_id a) n_idx
                (get_float ps "q_nom_kg_s" (flit 2 100)) (get_float ps "p_max_pa" (lit 900000))
                (get_float ps "load" f1) (get_bool ps "enabled" true)])
  else Ok l.

Definition add_demand (ports : port_map) (l : list DemandSink.t) (a : Asset.t)
  : result (list DemandSink.t) :=
  if bool_decide (Asset.type a = DEMAND) then
    n_idx ← node_of_port ports (Asset.asset_id a) PORT_IN;
    let ps := Asset.parameters a in
    Ok (l ++ [DemandSink.mk (Asset.asset_id a) n_idx
                (get_float ps "conductance_kg_s_pa" (flit 1 (10 ^ 8)))
                (get_float ps "load_factor" f1)])
  else Ok l.

(** A validated sensor has a target of its kind; [s.target.asset_id] of a UUID
    would be an [AttributeError]. *)
Definition add_sensor (ports : port_map) (edges : gmap string nat)
    (m : gmap UUID (SensorKind * nat * Z)) (s : Sensor.t)
  : result (gmap UUID (SensorKind * nat * Z)) :=
  match Sensor.kind s, Sensor.target s with
  | PRESSURE, TPort p =>
      n_idx ← node_of_port ports (PortRef.asset_id p) (PortRef.port p);
      Ok (<[Sensor.sensor_id s := (PRESSURE, n_idx, 1)]> m)
  | FLOW, TPipe pipe =>
      e_idx ← of_option (KeyError (str_uuid pipe)) (edges !! str_uuid pipe);
      Ok (<[Sensor.sensor_id s := (FLOW, e_idx, 1)]> m)
  | PRESSURE, TPipe _ => Err (TypeError "target is not a port")
  | FLOW, TPort _ => Err (TypeError "target is not a pipe")
  end.

(** ** Matrices *)
Definition zeros (n : nat) : vector := replicate n f0.
Definition zero_matrix (n : nat) : matrix := replicate n (zeros n).

(** [m[i, j] += k] and [m[i, j] -= k] of indices in range *)
Definition m_add (i j : nat) (k : float) (m : matrix) : matrix := alter (alter (λ x, fadd x k) j) i m.
Definition m_sub (i j : nat) (k : float) (m : matrix) : matrix := alter (alter (λ x, fsub x k) j) i m.

(** The four updates an edge of conductance [k] makes to a Laplacian. *)
Definition stamp_edge (k : float) (i j : nat) (m : matrix) : matrix :=
  m_sub j i k (m_sub i j k (m_add j j k (m_add i i k m))).

Definition compile_lab (definition : LabDefinition.t) (dt : float) : result CompiledNetwork.t :=
  let sorted_assets := sorted_by_id Asset.asset_id (LabDefinition.assets definition) in
  let nt := foldl add_asset (mkNodeTable [] ∅ ∅) sorted_assets in
  let num_nodes := length (nt_nodes nt) in
  _ ← guard_exn (negb (bool_decide (num_nodes = 0%nat)))
        (ValueError "Cannot compile empty network with 0 nodes");
  let sorted_pipes := sorted_by_id Pipe.pipe_id (LabDefinition.pipes definition) in
  et ← foldR (add_pipe (nt_ports nt)) (mkEdgeTable [] ∅) sorted_pipes;
  et ← foldR (add_valve (nt_ports nt)) et sorted_assets;
  compressors ← foldR (add_compressor (nt_ports nt)) [] sorted_assets;
  demands ← foldR (add_demand (nt_ports nt)) [] sorted_assets;
  sensor_targets ← foldR (add_sensor (nt_ports nt) (et_index et)) ∅ (LabDefinition.sensors definition);
  let capacitances := NetworkNode.capacitance <$> nt_nodes nt in
  let l_base := foldl (λ m e, stamp_edge (NetworkEdge.base_conductance e) (NetworkEdge.from_node e)
                                (NetworkEdge.to_node e) m)
                  (zero_matrix num_nodes) (et_edges et) in
  Ok (CompiledNetwork.mk (LabDefinition.scene_revision definition) (nt_nodes nt) (nt_index nt)
        (nt_ports nt) (et_edges et) (et_index et) compressors demands sensor_targets
        (NetworkNode.volume_m3 <$> nt_nodes nt) capacitances
        ((λ c, fdiv c dt) <$> capacitances) l_base).
