(* ===== verification/LabSolver.v ===== *)
(** * Virtual lab: the numerical solver ([lab/simulation/solver.py])

    One backward Euler step of the network.  [numpy.linalg.solve], [numpy.sum]
    and [numpy.max] are parameters; all other arithmetic is binary64.  An index
    outside an array is an [IndexError]. *)

From S2P Require Import Prelude PyText PyUuid PyFloat Messages KafkaIo LabContracts LabNetwork.

(** [np_solve] answers [None] where [LinAlgError] is raised. *)
Class Linalg := {
  np_solve : matrix → vector → option vector;
  np_sum : vector → float;
  np_max_abs : vector → float
}.

Definition fault_map := gmap UUID (gmap FaultKind ActiveFault.t).

(** [faults_by_target.setdefault(f.target_id, {})[f.kind] = f] *)
Definition faults_by_target (faults : list ActiveFault.t) : fault_map :=
  foldl (λ m f, <[ActiveFault.target_id f :=
           <[ActiveFault.kind f := f]> (default ∅ (m !! ActiveFault.target_id f))]> m) ∅ faults.
Definition fault_of (m : fault_map) (target : UUID) (kind : FaultKind) : option ActiveFault.t :=
  default ∅ (m !! target) !! kind.

(** [setpoints.get(str(asset_id), {})] *)
Definition setpoint (controls : ControlState.t) (asset_id : UUID) : params :=
  default ∅ (ControlState.setpoints controls !! str_uuid asset_id).

(** [max(lo, min(hi, x))] *)
Definition clamp (lo hi x : float) : float := py_max lo (py_min hi x).

(** [a[i]], [a[i] += x] and [a[i] = x] *)
Definition v_get (v : vector) (i : nat) : result float := of_option IndexError (v !! i).
Definition v_alter (f : float → float) (i : nat) (v : vector) : result vector :=
  x ← v_get v i; Ok (<[i := f x]> v).

Definition failure (msg : string) : exn := NumericalFailureError msg.

(** ** 0. The previous pressures *)
Definition node_pressure (state : PhysicalState.t) (node : NetworkNode.t) : result float :=
  let p_val := default (NetworkNode.initial_pressure_pa node)
                 (PhysicalState.pressures_pa state !! NetworkNode.node_id node) in
  _ ← guard_exn (is_finite p_val && negb (fleb p_val f0)) (failure "Initial node pressure invalid");
  Ok p_val.

Definition set_node (state : PhysicalState.t) (p_prev : vector) (node : NetworkNode.t)
  : result vector :=
  p_val ← node_pressure state node;
  v_alter (λ _, p_val) (NetworkNode.node_index node) p_prev.

(** ** 1. Edge conductances and the dynamic Laplacian *)
Definition edge_conductance (controls : ControlState.t) (faults : fault_map) (e : NetworkEdge.t)
  : float :=
  match NetworkEdge.is_valve e, NetworkEdge.asset_id e with
  | true, Some asset_id =>
      let opening :=
        match fault_of faults asset_id VALVE_STUCK with
        | Some stuck_fault => default f0 (ActiveFault.values stuck_fault !! "opening"%string)
        | None => get_float (setpoint controls asset_id) "opening" f1
        end in
      fmul (NetworkEdge.base_conductance e) (clamp f0 f1 opening)
  | _, _ => NetworkEdge.base_conductance e
  end.

Definition edge_index (network : CompiledNetwork.t) (e : NetworkEdge.t) : result nat :=
  of_option (KeyError (NetworkEdge.edge_id e))
    (CompiledNetwork.edge_id_to_index network !! NetworkEdge.edge_id e).

Definition m_in_range (m : matrix) (i : nat) : result unit :=
  guard_exn (i <? length m)%nat IndexError.

Definition add_edge_terms (network : CompiledNetwork.t) (controls : ControlState.t)
    (faults : fault_map) (st : vector * matrix) (e : NetworkEdge.t) : result (vector * matrix) :=
  let '(ks, l_dyn) := st in
  let k := edge_conductance controls faults e in
  idx ← edge_index network e;
  ks ← v_alter (λ _, k) idx ks;
  _ ← m_in_range l_dyn (NetworkEdge.from_node e);
  _ ← m_in_range l_dyn (NetworkEdge.to_node e);
  Ok (ks, stamp_edge k (NetworkEdge.from_node e) (NetworkEdge.to_node e) l_dyn).

(** ** 2. Compressors *)
Record CompConfig := mkComp {
  c_idx : nat; c_q_nom : float; c_p_max : float; c_load : float; c_enabled : bool
}.

(** The operating mode of a compressor and whether it is enabled. *)
Definition compressor_mode (controls : ControlState.t) (faults : fault_map)
    (c : CompressorSource.t) : bool * string :=
  match fault_of faults (CompressorSource.asset_id c) COMPRESSOR_UNAVAILABLE with
  | Some _ => (false, "UNAVAILABLE"%string)
  | None =>
      let enabled := get_bool (setpoint controls (CompressorSource.asset_id c)) "enabled"
                       (CompressorSource.enabled c) in
      (enabled, (if enabled then "RUNNING" else "OFF")%string)
  end.

Definition comp_config (controls : ControlState.t) (faults : fault_map) (c : CompressorSource.t)
  : CompConfig :=
  let load := clamp f0 f1 (get_float (setpoint controls (CompressorSource.asset_id c)) "load"
                             (CompressorSource.nominal_load c)) in
  mkComp (CompressorSource.node_index c) (CompressorSource.q_nom_kg_s c)
    (CompressorSource.p_max_pa c) load (compressor_mode controls faults c).1.

Definition operating_modes (controls : ControlState.t) (faults : fault_map)
    (compressors : list CompressorSource.t) : gmap string string :=
  foldl (λ m c, <[str_uuid (CompressorSource.asset_id c) := (compressor_mode controls faults c).2]> m)
    ∅ compressors.

(** ** 3. and 4. Demands and leaks: a node and a conductance *)
Abbreviation sink := (nat * float)%type.

Definition demand_config (controls : ControlState.t) (d : DemandSink.t) : sink :=
  let load_factor := clamp f0 (lit 2) (get_float (setpoint controls (DemandSink.asset_id d))
                                         "load_factor" (DemandSink.nominal_load_factor d)) in
  (DemandSink.node_index d, fmul (DemandSink.base_conductance d) load_factor).

Definition leak_node (network : CompiledNetwork.t) (f : ActiveFault.t) : option nat :=
  match ActiveFault.port f with
  | Some port =>
      if nonempty port then CompiledNetwork.port_to_node_index network !! (ActiveFault.target_id f, port)
      else NetworkNode.node_index <$>
             head (filter (λ n, NetworkNode.asset_id n = ActiveFault.target_id f)
                     (CompiledNetwork.nodes network))
  | None => NetworkNode.node_index <$>
              head (filter (λ n, NetworkNode.asset_id n = ActiveFault.target_id f)
                      (CompiledNetwork.nodes network))
  end.

Definition leak_config (network : CompiledNetwork.t) (f : ActiveFault.t) : option sink :=
  if bool_decide (ActiveFault.kind f = LEAK) then
    n_idx ← leak_node network f;
    Some (n_idx, default (flit 1 (10 ^ 8)) (ActiveFault.values f !! "conductance_kg_s_pa"%string))
  else None.

(** ** 5. The active-set iteration *)
Definition is_active (c : CompConfig) : bool := c_enabled c && fltb f0 (c_load c).

Definition add_source (p_curr : vector) (st : vector * vector) (c : CompConfig)
  : result (vector * vector) :=
  let '(a_vec, b_vec) := st in
  if is_active c then
    p ← v_get p_curr (c_idx c);
    if fltb p (c_p_max c) then
      _ ← guard_exn (negb (feqb (c_p_max c) f0)) ZeroDivisionError;
      let slope := fdiv (fmul (c_q_nom c) (c_load c)) (c_p_max c) in
      a_vec ← v_alter (λ x, fadd x (fmul (c_q_nom c) (c_load c))) (c_idx c) a_vec;
      b_vec ← v_alter (λ x, fadd x slope) (c_idx c) b_vec;
      Ok (a_vec, b_vec)
    else Ok st
  else Ok st.

Definition add_sink (p_curr : vector) (st : vector * vector) (s : sink) : result (vector * vector) :=
  let '(a_vec, b_vec) := st in
  let '(n_idx, k) := s in
  p ← v_get p_curr n_idx;
  if fltb P_ATM p && fltb f0 k then
    a_vec ← v_alter (λ x, fadd x (fmul k P_ATM)) n_idx a_vec;
    b_vec ← v_alter (λ x, fadd x k) n_idx b_vec;
    Ok (a_vec, b_vec)
  else Ok st.

(** [np.diag(c_dt + b_vec) + l_dyn] *)
Definition diag_row (n i : nat) (x : float) : vector := <[i := x]> (zeros n).
Definition system_matrix (c_dt b_vec : vector) (l_dyn : matrix) : matrix :=
  let d := zip_with fadd c_dt b_vec in
  imap (λ i row, zip_with fadd (diag_row (length d) i (default f0 (d !! i))) row) l_dyn.

(** [all((p_sol[i] < p_max) == (p_curr[i] < p_max) for ...)]: the first
    difference ends the loop. *)
Fixpoint all_match {A} (f : A → result bool) (l : list A) : result bool :=
  match l with
  | [] => Ok true
  | a :: l => b ← f a; if (b : bool) then all_match f l else Ok false
  end.
Definition same_side (side : float → bool) (p_sol p_curr : vector) (i : nat) : result bool :=
  x ← v_get p_sol i; y ← v_get p_curr i; Ok (Bool.eqb (side x) (side y)).

Record Boundary := mkBoundary {
  b_comps : list CompConfig; b_demands : list sink; b_leaks : list sink
}.

Section Solver.
Context `{Linalg}.

(** One iteration: the solution of the system of the active set of [p_curr],
    and whether it is accepted. *)
Definition iterate (bd : Boundary) (c_dt p_prev : vector) (l_dyn : matrix) (p_curr : vector)
  : result (vector * bool) :=
  let n := length p_prev in
  ab ← foldR (add_source p_curr) (zeros n, zeros n) (b_comps bd);
  ab ← foldR (add_sink p_curr) ab (b_demands bd);
  ab ← foldR (add_sink p_curr) ab (b_leaks bd);
  let '(a_vec, b_vec) := ab in
  let rhs := zip_with fadd (zip_with fmul c_dt p_prev) a_vec in
  p_sol ← of_option (failure "Singular matrix in solver iteration")
            (np_solve (system_matrix c_dt b_vec l_dyn) rhs);
  let max_delta := np_max_abs (zip_with fsub p_sol p_curr) in
  comp_match ← all_match (λ c, same_side (λ p, fltb p (c_p_max c)) p_sol p_curr (c_idx c))
                 (filter (λ c, is_active c = true) (b_comps bd));
  sink_match ← all_match (λ s : sink, same_side (fltb P_ATM) p_sol p_curr s.1)
                 (filter (λ s : sink, fltb f0 s.2 = true) (b_demands bd));
  Ok (p_sol, comp_match && sink_match && fleb max_delta (flit 1 (10 ^ 7))).

(** [for _iteration in range(16)]: the accepted solution, or the last one. *)
Fixpoint active_set (fuel : nat) (bd : Boundary) (c_dt p_prev : vector) (l_dyn : matrix)
    (p_curr : vector) : result vector :=
  match fuel with
  | O => Ok p_curr
  | S fuel =>
      r ← iterate bd c_dt p_prev l_dyn p_curr;
      if (r.2 : bool) then Ok r.1 else active_set fuel bd c_dt p_prev l_dyn r.1
  end.

(** ** 6. and 7. The gates *)
Definition sanity_gate (p_next : vector) : result unit :=
  _ ← guard_exn (forallb is_finite p_next) (failure "Non-finite pressure detected in solution");
  _ ← guard_exn (negb (existsb (λ p, fleb p f0) p_next))
        (failure "Non-positive absolute pressure in solution");
  guard_exn (negb (existsb (fltb (lit 2000000)) p_next))
    (failure "Extreme pressure exceeding 2.0 MPa limit").

Definition source_mass (p_next : vector) (acc : float) (c : CompConfig) : result float :=
  if is_active c then
    p ← v_get p_next (c_idx c);
    Ok (fadd acc (fmul (fmul (c_q_nom c) (c_load c)) (py_max f0 (fsub f1 (fdiv p (c_p_max c))))))
  else Ok acc.

Definition sink_mass (p_next : vector) (acc : float) (s : sink) : result float :=
  if fltb f0 s.2 then
    p ← v_get p_next s.1;
    Ok (fadd acc (fmul s.2 (py_max f0 (fsub p P_ATM))))
  else Ok acc.

Definition conservation_error (bd : Boundary) (capacitances : vector) (dt : float)
    (p_prev p_next : vector) : result float :=
  let m_prev := zip_with fmul capacitances p_prev in
  let m_next := zip_with fmul capacitances p_next in
  let delta_m := np_sum (zip_with fsub m_next m_prev) in
  q_src_total ← foldR (source_mass p_next) f0 (b_comps bd);
  q_sink_total ← foldR (sink_mass p_next) f0 (b_demands bd);
  q_sink_total ← foldR (sink_mass p_next) q_sink_total (b_leaks bd);
  Ok (fabs (fsub delta_m (fmul dt (fsub q_src_total q_sink_total)))).

Definition allowed_tolerance (capacitances p_prev : vector) : float :=
  fadd (flit 1 (10 ^ 9))
    (fmul (flit 1 (10 ^ 8)) (np_sum (fabs <$> zip_with fmul capacitances p_prev))).

(** ** 8. Flows and the new state *)
Definition edge_flow (network : CompiledNetwork.t) (ks p_next : vector) (m : gmap string float)
    (edge : NetworkEdge.t) : result (gmap string float) :=
  idx ← edge_index network edge;
  k ← v_get ks idx;
  p_from ← v_get p_next (NetworkEdge.from_node edge);
  p_to ← v_get p_next (NetworkEdge.to_node edge);
  Ok (<[NetworkEdge.edge_id edge := fmul k (fsub p_from p_to)]> m).

Definition new_pressure (p_next : vector) (m : gmap string float) (node : NetworkNode.t)
  : result (gmap string float) :=
  p ← v_get p_next (NetworkNode.node_index node);
  Ok (<[NetworkNode.node_id node := p]> m).

Definition boundary (network : CompiledNetwork.t) (controls : ControlState.t) (faults : fault_map)
  : Boundary :=
  mkBoundary (comp_config controls faults <$> CompiledNetwork.compressors network)
    (demand_config controls <$> CompiledNetwork.demands network)
    (omap (leak_config network) (ControlState.active_faults controls)).

(** [step(network, state, controls, dt)] *)
Definition step (network : CompiledNetwork.t) (state : PhysicalState.t) (controls : ControlState.t)
    (dt : float) : result PhysicalState.t :=
  let num_nodes := length (CompiledNetwork.nodes network) in
  p_prev ← foldR (set_node state) (zeros num_nodes) (CompiledNetwork.nodes network);
  let faults := faults_by_target (ControlState.active_faults controls) in
  kl ← foldR (add_edge_terms network controls faults)
         (zeros (length (CompiledNetwork.edges network)), zero_matrix num_nodes)
         (CompiledNetwork.edges network);
  let bd := boundary network controls faults in
  let capacitances := CompiledNetwork.capacitances network in
  let c_dt := (λ c, fdiv c dt) <$> capacitances in
  p_next ← active_set 16 bd c_dt p_prev kl.2 p_prev;
  _ ← sanity_gate p_next;
  error ← conservation_error bd capacitances dt p_prev p_next;
  _ ← guard_exn (negb (fltb (allowed_tolerance capacitances p_prev) error))
        (failure "Conservation gate violation");
  flows_kg_s ← foldR (edge_flow network kl.1 p_next) ∅ (CompiledNetwork.edges network);
  pressures_pa ← foldR (new_pressure p_next) ∅ (CompiledNetwork.nodes network);
  PhysicalState.make (PhysicalState.tick state + 1) pressures_pa flows_kg_s
    (operating_modes controls faults (CompiledNetwork.compressors network)).
End Solver.
