(* ===== verification/LabSolverTheory.v ===== *)
(** * Virtual lab: compiling a definition and stepping its network *)

From S2P Require Import Prelude PyText PyUuid PyFloat PyJson Messages KafkaIo LabContracts LabNetwork LabSolver.

(** ** Compiling: an eligible definition compiles

    [validate_lab] and [compile_lab] read the same references: a definition
    without validation errors compiles to a network whose every index is in range. *)

Abbreviation never := (λ _ : exn, False).

(** ** Nodes and ports *)
Record nt_wf (nt : NodeTable) : Prop := {
  nt_positions : ∀ i n, nt_nodes nt !! i = Some n → NetworkNode.node_index n = i;
  nt_in_range : ∀ k i, nt_ports nt !! k = Some i → (i < length (nt_nodes nt))%nat
}.

(** Growth of a table. *)
Definition nt_grows (nt nt' : NodeTable) : Prop :=
  (length (nt_nodes nt) ≤ length (nt_nodes nt'))%nat ∧
  ∀ k, is_Some (nt_ports nt !! k) → is_Some (nt_ports nt' !! k).
#[export] Instance nt_grows_preorder : PreOrder nt_grows.
Proof.
  split; [by intros nt|]. intros a b c [Hl Hp] [Hl' Hp']. split; [lia|auto].
Qed.

Lemma ports_insert id (idx : nat) ports : ∀ m k i,
  foldl (λ (m : port_map) p, <[(id, port_text p) := idx]> m) m ports !! k = Some i → i = idx ∨ m !! k = Some i.
Proof.
  induction ports as [|p ports IH]; intros m k i; simpl; [auto|].
  intros [->|Hk]%IH; [auto|]. apply lookup_insert_Some in Hk as [[_ ->]|[_ Hk]]; auto.
Qed.
Lemma ports_grow id (idx : nat) ports : ∀ m k,
  is_Some (m !! k) ∨ (∃ p, p ∈ ports ∧ k = (id, port_text p)) →
  is_Some (foldl (λ (m : port_map) p, <[(id, port_text p) := idx]> m) m ports !! k).
Proof.
  induction ports as [|p ports IH]; intros m k Hk; simpl.
  - destruct Hk as [?|(p & Hp & _)]; [done|by apply elem_of_nil in Hp].
  - apply IH. destruct Hk as [Hk|(q & [->|Hq]%elem_of_cons & ->)].
    + left. apply lookup_insert_is_Some'. auto.
    + left. apply lookup_insert_is_Some'. auto.
    + right. eauto.
Qed.

(** A table that has grown by the ports of an asset. *)
Definition grown (id : UUID) (ports : list PortName) (nt nt' : NodeTable) : Prop :=
  nt_wf nt' ∧ nt_grows nt nt' ∧ (0 < length (nt_nodes nt'))%nat ∧
  ∀ q, q ∈ ports → is_Some (nt_ports nt' !! (id, port_text q)).

Lemma add_node_spec node_id id group vol p ports nt :
  nt_wf nt → grown id ports nt (add_node node_id id group vol p ports nt).
Proof.
  intros [Hpos Hr]. split; [split|split; [split|split]]; simpl.
  - intros i n Hi. apply lookup_app_Some in Hi as [Hi|[Hle Hi]]; [by apply Hpos|].
    apply list_lookup_singleton_Some in Hi as [Hi <-]. simpl. lia.
  - intros k i [->|Hk]%ports_insert; rewrite length_app; simpl; [lia|]. apply Hr in Hk. lia.
  - rewrite length_app. lia.
  - intros k Hk. apply ports_grow. auto.
  - rewrite length_app. simpl. lia.
  - intros q Hq. apply ports_grow. eauto.
Qed.

Lemma grown_twice id p q nt nt1 nt2 :
  grown id [p] nt nt1 → grown id [q] nt1 nt2 → grown id [p; q] nt nt2.
Proof.
  intros (_ & Hg & _ & Hp) (Hwf & Hg' & Hlen & Hq). split; [done|split; [by etrans|split; [done|]]].
  intros x Hx. rewrite !elem_of_cons in Hx. destruct Hx as [->|[->|Hx]].
  - apply Hg', Hp. by left.
  - apply Hq. by left.
  - by apply elem_of_nil in Hx.
Qed.

Definition has_ports (nt : NodeTable) (a : Asset.t) : Prop :=
  ∀ p, p ∈ VALID_PORTS_BY_ASSET_TYPE (Asset.type a) → is_Some (nt_ports nt !! (Asset.asset_id a, port_text p)).

Lemma add_asset_spec nt a :
  nt_wf nt → grown (Asset.asset_id a) (VALID_PORTS_BY_ASSET_TYPE (Asset.type a)) nt (add_asset nt a).
Proof.
  intros Hwf. unfold add_asset. destruct (Asset.type a); cbn [VALID_PORTS_BY_ASSET_TYPE].
  3,4: eapply grown_twice; apply add_node_spec; [exact Hwf|]; apply add_node_spec; exact Hwf.
  all: apply add_node_spec; exact Hwf.
Qed.

Definition build_nodes (assets : list Asset.t) (nt : NodeTable) : NodeTable := foldl add_asset nt assets.

Lemma build_nodes_spec assets : ∀ nt, nt_wf nt →
  nt_wf (build_nodes assets nt) ∧ nt_grows nt (build_nodes assets nt) ∧
  (assets ≠ [] → (0 < length (nt_nodes (build_nodes assets nt)))%nat) ∧
  ∀ a, a ∈ assets → has_ports (build_nodes assets nt) a.
Proof.
  induction assets as [|a assets IH]; intros nt Hwf; simpl.
  - split; [done|split; [done|split; [done|]]]. intros a Ha. by apply elem_of_nil in Ha.
  - destruct (add_asset_spec nt a Hwf) as (Hwf1 & Hg & Hlen & Hp).
    destruct (IH _ Hwf1) as (Hwf2 & Hg2 & _ & Hp2). split; [done|]. split; [by etrans|]. split.
    + intros _. destruct Hg2 as [Hl _]. unfold build_nodes in *. simpl. lia.
    + intros b [->|Hb]%elem_of_cons; [|auto]. intros p Hpp. apply Hg2, Hp, Hpp.
Qed.

(** ** Edges *)
Record et_wf (n : nat) (et : EdgeTable) : Prop := {
  et_nodes : ∀ e, e ∈ et_edges et → (NetworkEdge.from_node e < n)%nat ∧ (NetworkEdge.to_node e < n)%nat;
  et_indexed : ∀ e, e ∈ et_edges et → is_Some (et_index et !! NetworkEdge.edge_id e);
  et_range : ∀ k i, et_index et !! k = Some i → (i < length (et_edges et))%nat
}.

Lemma add_edge_wf n e et :
  et_wf n et → (NetworkEdge.from_node e < n)%nat → (NetworkEdge.to_node e < n)%nat →
  et_wf n (add_edge e et).
Proof.
  intros [Hn Hi Hr] Hf Ht. split; simpl.
  - intros e' [He| ->%list_elem_of_singleton]%elem_of_app; auto.
  - intros e' [He| ->%list_elem_of_singleton]%elem_of_app; apply lookup_insert_is_Some'; auto.
  - intros k i. rewrite length_app. simpl. intros [[_ <-]|[_ Hk]]%lookup_insert_Some; [lia|].
    apply Hr in Hk. lia.
Qed.

(** ** What the validation accepts *)

(** A reference to a port that an asset of the lab has. *)
Definition port_ok (assets : list Asset.t) (p : PortRef.t) : Prop :=
  ∃ a, a ∈ assets ∧ Asset.asset_id a = PortRef.asset_id p ∧
       PortRef.port p ∈ VALID_PORTS_BY_ASSET_TYPE (Asset.type a).
Definition pipe_ok (assets : list Asset.t) (p : Pipe.t) : Prop :=
  port_ok assets (Pipe.from_port p) ∧ port_ok assets (Pipe.to_port p) ∧
  key_of (Pipe.from_port p) ≠ key_of (Pipe.to_port p).
Definition sensor_ok (d : LabDefinition.t) (s : Sensor.t) : Prop :=
  match Sensor.kind s, Sensor.target s with
  | PRESSURE, TPort p => port_ok (LabDefinition.assets d) p
  | FLOW, TPipe pipe => pipe ∈ (Pipe.pipe_id <$> LabDefinition.pipes d)
  | _, _ => False
  end.

Record well_formed (d : LabDefinition.t) : Prop := {
  wf_assets : LabDefinition.assets d ≠ [];
  wf_asset_ids : NoDup (Asset.asset_id <$> LabDefinition.assets d);
  wf_pipe_ids : NoDup (Pipe.pipe_id <$> LabDefinition.pipes d);
  wf_sensor_ids : NoDup (Sensor.sensor_id <$> LabDefinition.sensors d);
  wf_pipes : ∀ p, p ∈ LabDefinition.pipes d → pipe_ok (LabDefinition.assets d) p;
  wf_pairs : NoDup (pair_key <$> LabDefinition.pipes d);
  wf_sensors : ∀ s, s ∈ LabDefinition.sensors d → sensor_ok d s
}.

Lemma app_nil_iff {A} (l1 l2 : list A) : (l1 ++ l2 = []) ↔ l1 = [] ∧ l2 = [].
Proof. split; [apply app_eq_nil|by intros [-> ->]]. Qed.

Lemma check_assets assets : ∀ m es m' es',
  foldl check_asset (m, es) assets = (m', es') →
  ((es' = []) ↔ es = [] ∧ NoDup (Asset.asset_id <$> assets) ∧ ∀ a, a ∈ assets → m !! Asset.asset_id a = None) ∧
  (NoDup (Asset.asset_id <$> assets) → ∀ id a, m' !! id = Some a ↔
     (a ∈ assets ∧ Asset.asset_id a = id) ∨ ((id ∉ (Asset.asset_id <$> assets)) ∧ m !! id = Some a)).
Proof.
  induction assets as [|x assets IH]; intros m es m' es'; simpl.
  - intros [= <- <-]. split; [split; [split; [done|split; [constructor|]]|by intros [? _]]|].
    + intros a Ha. by apply elem_of_nil in Ha.
    + intros _ id a. split; [right; split; [apply not_elem_of_nil|done]|].
      intros [[Ha _]|[_ ?]]; [by apply elem_of_nil in Ha|done].
  - intros Hf. destruct (IH _ _ _ _ Hf) as [He Hm]. rewrite NoDup_cons. split.
    + rewrite He, app_nil_iff. split.
      * intros ([-> Hx] & Hnd & Hn).
        assert (∀ a, a ∈ assets → Asset.asset_id a ≠ Asset.asset_id x) as Hne.
        { intros a Ha Heq. specialize (Hn a Ha). by rewrite Heq, lookup_insert_eq in Hn. }
        split; [done|split; [split; [|done]|]].
        -- intros (a & Heq & Ha)%list_elem_of_fmap. by apply (Hne a Ha).
        -- intros a [->|Ha]%elem_of_cons; [by destruct (m !! Asset.asset_id x)|].
           specialize (Hn a Ha). rewrite lookup_insert_ne in Hn; [done|]. intros Heq. by apply (Hne a Ha).
      * intros (-> & [Hni Hnd] & Hn). split; [|split; [done|]].
        { by rewrite (Hn x) by (by left). }
        intros a Ha. rewrite lookup_insert_ne; [apply Hn; by right|]. intros Heq. apply Hni. rewrite Heq.
        by apply list_elem_of_fmap_2.
    + intros [Hni Hnd] id a. rewrite (Hm Hnd id a), lookup_insert_Some, not_elem_of_cons, elem_of_cons. split.
      * intros [[Ha Hid]|[Hni' [[<- <-]|[Hne Hid]]]]; [auto|auto|]. right. split; [split; [congruence|done]|done].
      * intros [[[->|Ha] <-]|[[Hne Hni'] Hid]].
        -- right. auto.
        -- left. auto.
        -- right. split; [done|]. right. split; [congruence|done].
Qed.

Lemma check_port_ok assets (m : asset_map) code p :
  (∀ id a, m !! id = Some a ↔ a ∈ assets ∧ Asset.asset_id a = id) →
  (check_port m code p = []) ↔ port_ok assets p.
Proof.
  intros Hm. unfold check_port, port_ok. destruct (m !! PortRef.asset_id p) as [a|] eqn:Ha.
  - pose proof (proj1 (Hm _ _) Ha) as [Hin Hid]. case_bool_decide as Hp.
    + split; [intros _; by exists a|done].
    + split; [done|]. intros (b & Hb & Hid' & Hp'). destruct Hp.
      assert (m !! PortRef.asset_id p = Some b) as Hb' by (by apply Hm). congruence.
  - split; [done|]. intros (b & Hb & Hid' & _).
    assert (m !! PortRef.asset_id p = Some b) as Hb' by (by apply Hm). congruence.
Qed.

Lemma pair_key_size p : (size (pair_key p) = 1%nat) ↔ key_of (Pipe.from_port p) = key_of (Pipe.to_port p).
Proof.
  unfold pair_key. split.
  - intros Hs. apply size_1_elem_of in Hs as [x Hx]. 
    assert (key_of (Pipe.from_port p) ∈ ({[x]} : gset port_key)) as H1 by (rewrite <-Hx; set_solver).
    assert (key_of (Pipe.to_port p) ∈ ({[x]} : gset port_key)) as H2 by (rewrite <-Hx; set_solver). set_solver.
  - intros ->. rewrite union_idemp_L. apply size_singleton.
Qed.

Section Pipes.
Context (assets : list Asset.t) (m : asset_map).
Hypothesis Hm : ∀ id a, m !! id = Some a ↔ a ∈ assets ∧ Asset.asset_id a = id.

Lemma check_pipes pipes : ∀ st,
  (pipe_errors (foldl (check_pipe m) st pipes) = []) ↔
  pipe_errors st = [] ∧ NoDup (Pipe.pipe_id <$> pipes) ∧ NoDup (pair_key <$> pipes) ∧
  ∀ p, p ∈ pipes → pipe_ok assets p ∧ (Pipe.pipe_id p ∉ pipe_ids st) ∧ pair_key p ∉ connected_pairs st.
Proof.
  induction pipes as [|x pipes IH]; intros st; cbn [foldl].
  - split; [|by intros [? _]]. intros Hst. split; [done|]. split; [constructor|]. split; [constructor|].
    intros p Hp. by apply elem_of_nil in Hp.
  - rewrite IH. cbn [check_pipe pipe_errors pipe_ids connected_pairs].
    rewrite !fmap_cons, !app_nil_iff, !NoDup_cons. unfold pipe_ok.
    rewrite !(check_port_ok assets) by done. split.
    + intros ((Hst & Hd & Hf & Ht & Hk) & Hnd & Hnp & Hall).
      destruct (bool_decide_reflect (Pipe.pipe_id x ∈ pipe_ids st)) as [|Hdup]; [done|].
      revert Hk. case_bool_decide as Hself; [done|]. case_bool_decide as Hdup'; [done|]. intros _.
      rewrite pair_key_size in Hself.
      split; [done|]. split; [split; [|done]|split; [split; [|done]|]].
      * intros (p & Heq & Hp)%list_elem_of_fmap. destruct (Hall p Hp) as (_ & Hn & _).
        rewrite not_elem_of_union, not_elem_of_singleton in Hn. by destruct Hn as [[] _].
      * intros (p & Heq & Hp)%list_elem_of_fmap. destruct (Hall p Hp) as (_ & _ & Hn).
        rewrite not_elem_of_union, not_elem_of_singleton in Hn. by destruct Hn as [[] _].
      * intros p [->|Hp]%elem_of_cons; [done|]. destruct (Hall p Hp) as (? & Hn & Hn').
        apply not_elem_of_union in Hn as [_ Hn], Hn' as [_ Hn']. done.
    + intros (Hst & [Hni Hnd] & [Hnip Hnp] & Hall).
      destruct (Hall x) as ((Hf & Ht & Hk) & Hn & Hnp'); [by left|].
      rewrite bool_decide_eq_false_2 by done.
      rewrite (bool_decide_eq_false_2 (size _ = _)) by (rewrite pair_key_size; exact Hk).
      rewrite (bool_decide_eq_false_2 (_ ∈ _)) by done.
      split; [done|]. split; [done|]. split; [done|]. intros p Hp.
      destruct (Hall p) as (Hp' & Hn1 & Hn2); [by right|]. split; [exact Hp'|].
      split; apply not_elem_of_union; (split; [apply not_elem_of_singleton; intros Heq|done]).
      * apply Hni. rewrite <-Heq. by apply list_elem_of_fmap_2.
      * apply Hnip. rewrite <-Heq. by apply list_elem_of_fmap_2.
Qed.
End Pipes.

Lemma check_pipe_ids (m : asset_map) pipes : ∀ st q,
  q ∈ pipe_ids (foldl (check_pipe m) st pipes) ↔ q ∈ pipe_ids st ∨ q ∈ (Pipe.pipe_id <$> pipes).
Proof.
  induction pipes as [|x pipes IH]; intros st q; simpl; [set_solver|]. rewrite IH. simpl. set_solver.
Qed.

Lemma check_sensors (d : LabDefinition.t) (m : asset_map) (pipes : gset UUID) sensors : ∀ ids es ids' es',
  (∀ id a, m !! id = Some a ↔ a ∈ LabDefinition.assets d ∧ Asset.asset_id a = id) →
  (∀ q, q ∈ pipes ↔ q ∈ (Pipe.pipe_id <$> LabDefinition.pipes d)) →
  foldR (check_sensor m pipes) (ids, es) sensors = Ok (ids', es') →
  (es' = []) ↔ es = [] ∧ NoDup (Sensor.sensor_id <$> sensors) ∧
    ∀ s, s ∈ sensors → sensor_ok d s ∧ Sensor.sensor_id s ∉ ids.
Proof.
  induction sensors as [|x sensors IH]; intros ids es ids' es' Hm Hp Hf; simpl in Hf.
  - injection Hf as <- <-. split; [|by intros [? _]]. intros ->. split; [done|split; [constructor|]].
    intros s Hs. by apply elem_of_nil in Hs.
  - apply bind_Ok in Hf as ([ids1 es1] & Hx & Hf). rewrite (IH _ _ _ _ Hm Hp Hf).
    apply bind_Ok in Hx as (tgt & Ht & Hx). injection Hx as <- <-.
    assert (tgt = [] ↔ sensor_ok d x) as Htgt.
    { unfold sensor_ok. destruct (Sensor.kind x), (Sensor.target x); try done; injection Ht as <-.
      - by apply check_port_ok.
      - rewrite <-Hp. destruct (bool_decide_reflect (pipe ∈ pipes)) as [Hq|Hq].
        + split; [intros _; exact Hq|done].
        + split; [discriminate|intros Hq'; by destruct Hq]. }
    rewrite !app_nil_iff, fmap_cons, NoDup_cons, Htgt. split.
    + intros ((-> & Hd & Hok) & Hnd & Hall). 
      destruct (bool_decide_reflect (Sensor.sensor_id x ∈ ids)) as [|Hdup]; [done|].
      split; [done|]. split; [split; [|done]|].
      * intros (s & Heq & Hs)%list_elem_of_fmap. destruct (Hall s Hs) as (_ & Hn). set_solver.
      * intros s [->|Hs]%elem_of_cons; [done|]. destruct (Hall s Hs) as (? & ?). set_solver.
    + intros (-> & [Hni Hnd] & Hall). destruct (Hall x) as [Hok Hn]; [by left|].
      rewrite bool_decide_eq_false_2 by done. split; [done|]. split; [done|]. intros s Hs.
      destruct (Hall s) as [? ?]; [by right|]. split; [done|].
      assert (Sensor.sensor_id s ≠ Sensor.sensor_id x) as Hne.
      { intros Heq. apply Hni. rewrite <-Heq. by apply list_elem_of_fmap_2. }
      set_solver.
Qed.

(** The loops only add errors. *)
Lemma pipe_errors_grow m pipes : ∀ st, ∃ l, pipe_errors (foldl (check_pipe m) st pipes) = pipe_errors st ++ l.
Proof.
  induction pipes as [|x pipes IH]; intros st; simpl; [exists []; by rewrite app_nil_r|].
  destruct (IH (check_pipe m st x)) as [l ->]. simpl. rewrite <-app_assoc. eauto.
Qed.
Lemma sensor_errors_grow m pipes sensors : ∀ ids es ids' es',
  foldR (check_sensor m pipes) (ids, es) sensors = Ok (ids', es') → ∃ l, es' = es ++ l.
Proof.
  induction sensors as [|x sensors IH]; intros ids es ids' es' Hf; simpl in Hf.
  - injection Hf as <- <-. exists []. by rewrite app_nil_r.
  - apply bind_Ok in Hf as ([ids1 es1] & Hx & Hf). apply IH in Hf as [l ->].
    apply bind_Ok in Hx as (tgt & _ & Hx). injection Hx as <- <-. rewrite <-app_assoc. eauto.
Qed.

Lemma lab_errors_exact d errors :
  LabDefinition.assets d ≠ [] → lab_errors d = Ok errors → (errors = []) ↔ well_formed d.
Proof.
  intros Hne He. unfold lab_errors in He.
  destruct (foldl check_asset (∅, []) (LabDefinition.assets d)) as [m aes] eqn:Ha.
  destruct (check_assets _ _ _ _ _ Ha) as [Haes Hm].
  apply fmap_Ok in He as ([ids es] & Hs & ->). cbn [snd].
  assert (es = [] → NoDup (Asset.asset_id <$> LabDefinition.assets d)) as Hdup.
  { intros ->. destruct (sensor_errors_grow _ _ _ _ _ _ _ Hs) as [l Hl]. symmetry in Hl.
    apply app_nil_iff in Hl as [Hl _]. destruct (pipe_errors_grow m (LabDefinition.pipes d)
      (mkPipeCheck ∅ ∅ aes)) as [l' Hl']. rewrite Hl in Hl'. symmetry in Hl'. apply app_nil_iff in Hl' as [Hl' _].
    by apply Haes in Hl' as (_ & ? & _). }
  assert (NoDup (Asset.asset_id <$> LabDefinition.assets d) → (es = []) ↔ well_formed d) as Hiff.
  { intros Hnd.
    assert (∀ id a, m !! id = Some a ↔ a ∈ LabDefinition.assets d ∧ Asset.asset_id a = id) as Hm'.
    { intros id a. rewrite (Hm Hnd), lookup_empty. naive_solver. }
    assert (∀ q, q ∈ pipe_ids (foldl (check_pipe m) (mkPipeCheck ∅ ∅ aes) (LabDefinition.pipes d)) ↔
                 q ∈ (Pipe.pipe_id <$> LabDefinition.pipes d)) as Hp'.
    { intros q. rewrite check_pipe_ids. set_solver. }
    rewrite (check_sensors d _ _ _ _ _ _ _ Hm' Hp' Hs), (check_pipes _ m Hm').
    cbn [pipe_errors pipe_ids connected_pairs]. rewrite Haes. split.
    - intros ((( _ & _ & _) & Hpi & Hpp & Hp) & Hsi & Hss). split; try done.
      + intros p Hin. by apply Hp.
      + intros s Hin. by apply Hss.
    - intros [_ _ Hpi Hsi Hp Hpp Hss]. split; [split; [|split; [done|split; [done|]]]|split; [done|]].
      + split; [done|split; [done|]]. intros a _. apply lookup_empty.
      + intros p Hin. split; [by apply Hp|]. split; apply not_elem_of_empty.
      + intros q Hin. split; [by apply Hss|]. apply not_elem_of_empty. }
  split; [intros Hes; by apply Hiff; [apply Hdup|]|]. intros Hwf. apply Hiff; [by destruct Hwf|done].
Qed.

(** ** Compilation *)
Lemma sorted_elem {A} (key : A → UUID) l x : x ∈ sorted_by_id key l ↔ x ∈ l.
Proof. unfold sorted_by_id. by rewrite merge_sort_Permutation. Qed.

(** The ports of the table are those of the assets of the lab. *)
Section Compile.
Context (assets : list Asset.t) (nt : NodeTable).
Hypothesis Hwf : nt_wf nt.
Hypothesis Hports : ∀ a, a ∈ assets → has_ports nt a.
Let n := length (nt_nodes nt).

Lemma node_of_port_ok (a : Asset.t) p :
  a ∈ assets → p ∈ VALID_PORTS_BY_ASSET_TYPE (Asset.type a) →
  ensures never (λ i, i < n)%nat (node_of_port (nt_ports nt) (Asset.asset_id a) p).
Proof.
  intros Ha Hp. eapply ensures_weaken; [apply ensures_some, Hports; done|].
  intros i Hi. by apply (nt_in_range nt Hwf) in Hi.
Qed.
Lemma port_resolves r :
  port_ok assets r → ensures never (λ i, i < n)%nat (node_of_port (nt_ports nt) (PortRef.asset_id r) (PortRef.port r)).
Proof. intros (a & Ha & <- & Hp). by apply node_of_port_ok. Qed.

Definition pipes_indexed (pipes : list Pipe.t) (et : EdgeTable) : Prop :=
  ∀ p, p ∈ pipes → is_Some (et_index et !! str_uuid (Pipe.pipe_id p)).

Lemma add_pipe_ok et p :
  et_wf n et → pipe_ok assets p →
  ensures never (λ et', et_wf n et' ∧ is_Some (et_index et' !! str_uuid (Pipe.pipe_id p)) ∧
                        ∀ k, is_Some (et_index et !! k) → is_Some (et_index et' !! k))
    (add_pipe (nt_ports nt) et p).
Proof.
  intros He (Hf & Ht & _). unfold add_pipe. eapply ensures_bind; [by apply port_resolves|]. intros i Hi.
  eapply ensures_bind; [by apply port_resolves|]. intros j Hj. simpl.
  split; [by apply add_edge_wf|]. split; [apply lookup_insert_is_Some'; auto|].
  intros k Hk. apply lookup_insert_is_Some'. auto.
Qed.

Lemma add_pipes_ok pipes : ∀ et done, et_wf n et → pipes_indexed done et →
  (∀ p, p ∈ pipes → pipe_ok assets p) →
  ensures never (λ et', et_wf n et' ∧ pipes_indexed (done ++ pipes) et') (foldR (add_pipe (nt_ports nt)) et pipes).
Proof.
  induction pipes as [|p pipes IH]; intros et dn He Hd Hp; simpl.
  - by rewrite app_nil_r.
  - eapply ensures_bind; [apply add_pipe_ok; [done|apply Hp; by left]|]. intros et' (He' & Hx & Hg).
    replace (dn ++ p :: pipes) with ((dn ++ [p]) ++ pipes) by (by rewrite <-app_assoc).
    apply IH; [done| |intros q Hq; apply Hp; by right].
    intros q [Hq| ->%list_elem_of_singleton]%elem_of_app; [|done]. by apply Hg, Hd.
Qed.

Lemma add_valves_ok l pipes et :
  (∀ a, a ∈ l → a ∈ assets) → et_wf n et → pipes_indexed pipes et →
  ensures never (λ et', et_wf n et' ∧ pipes_indexed pipes et') (foldR (add_valve (nt_ports nt)) et l).
Proof.
  intros Hl He Hp. apply ensures_foldR; [|done]. intros et' a [He' Hp'] Ha. unfold add_valve.
  destruct (is_valve_type (Asset.type a)) eqn:Hv; [|done].
  assert (∀ p, p ∈ [PORT_A; PORT_B] → p ∈ VALID_PORTS_BY_ASSET_TYPE (Asset.type a)) as Hab
    by (by destruct (Asset.type a)).
  eapply ensures_bind; [apply node_of_port_ok; [by apply Hl|apply Hab; set_solver]|]. intros i Hi.
  eapply ensures_bind; [apply node_of_port_ok; [by apply Hl|apply Hab; set_solver]|]. intros j Hj.
  split; [by apply add_edge_wf|]. intros p Hin. apply lookup_insert_is_Some'. right. by apply Hp'.
Qed.

Definition compressor_ok (c : CompressorSource.t) : Prop :=
  (CompressorSource.node_index c < n)%nat ∧
  ∃ a, a ∈ assets ∧ Asset.type a = COMPRESSOR ∧
       CompressorSource.p_max_pa c = get_float (Asset.parameters a) "p_max_pa" (lit 900000).

Lemma add_compressors_ok l :
  (∀ a, a ∈ l → a ∈ assets) →
  ensures never (Forall compressor_ok) (foldR (add_compressor (nt_ports nt)) [] l).
Proof.
  intros Hl. apply ensures_foldR; [|constructor]. intros cs a Hcs Ha. unfold add_compressor.
  case_bool_decide as Ht; [|done].
  eapply ensures_bind; [apply node_of_port_ok; [by apply Hl|rewrite Ht; set_solver]|]. intros i Hi. simpl.
  apply Forall_app. split; [done|]. constructor; [|constructor]. split; [done|]. exists a. auto.
Qed.

Lemma add_demands_ok l :
  (∀ a, a ∈ l → a ∈ assets) →
  ensures never (Forall (λ d, DemandSink.node_index d < n)%nat) (foldR (add_demand (nt_ports nt)) [] l).
Proof.
  intros Hl. apply ensures_foldR; [|constructor]. intros cs a Hcs Ha. unfold add_demand.
  case_bool_decide as Ht; [|done].
  eapply ensures_bind; [apply node_of_port_ok; [by apply Hl|rewrite Ht; set_solver]|]. intros i Hi. simpl.
  apply Forall_app. split; [done|]. by constructor; [|constructor].
Qed.

(** A sensor reads a node or an edge that exists. *)
Definition target_in (edges : nat) (t : SensorKind * nat * Z) : Prop :=
  match t with (PRESSURE, i, _) => i < n | (FLOW, i, _) => i < edges end%nat.

Lemma add_sensors_ok d et l :
  LabDefinition.assets d = assets → et_wf n et → pipes_indexed (LabDefinition.pipes d) et →
  (∀ s, s ∈ l → sensor_ok d s) →
  ensures never (λ m, ∀ k t, m !! k = Some t → target_in (length (et_edges et)) t)
    (foldR (add_sensor (nt_ports nt) (et_index et)) ∅ l).
Proof.
  intros Hd He Hp Hl. apply ensures_foldR; [|intros k t; by rewrite lookup_empty].
  intros m s Hm Hs. specialize (Hl s Hs). unfold sensor_ok in Hl. rewrite Hd in Hl. unfold add_sensor.
  destruct (Sensor.kind s), (Sensor.target s) as [r|q]; try done.
  - eapply ensures_bind; [by apply port_resolves|]. intros i Hi. simpl.
    intros k t [[_ <-]|[_ Hk]]%lookup_insert_Some; [done|by apply (Hm k)].
  - apply list_elem_of_fmap in Hl as (p & -> & Hin).
    eapply ensures_bind; [apply ensures_some, Hp, Hin|]. intros i Hi. simpl.
    intros k t [[_ <-]|[_ Hk]]%lookup_insert_Some; [by apply (et_range n et He) in Hi|by apply (Hm k)].
Qed.
End Compile.

(** Every index of the network is in range. *)
Record network_wf (d : LabDefinition.t) (net : CompiledNetwork.t) : Prop := {
  net_positions : ∀ i x, CompiledNetwork.nodes net !! i = Some x → NetworkNode.node_index x = i;
  net_nodes : CompiledNetwork.nodes net ≠ [];
  net_capacitances : length (CompiledNetwork.capacitances net) = length (CompiledNetwork.nodes net);
  net_edges : et_wf (length (CompiledNetwork.nodes net))
                (mkEdgeTable (CompiledNetwork.edges net) (CompiledNetwork.edge_id_to_index net));
  net_ports : ∀ k i, CompiledNetwork.port_to_node_index net !! k = Some i →
                (i < length (CompiledNetwork.nodes net))%nat;
  net_compressors : Forall (λ c, (CompressorSource.node_index c < length (CompiledNetwork.nodes net))%nat ∧
                      ∃ a, a ∈ LabDefinition.assets d ∧ Asset.type a = COMPRESSOR ∧
                        CompressorSource.p_max_pa c = get_float (Asset.parameters a) "p_max_pa" (lit 900000))
                      (CompiledNetwork.compressors net);
  net_demands : Forall (λ x, DemandSink.node_index x < length (CompiledNetwork.nodes net))%nat
                  (CompiledNetwork.demands net);
  net_sensors : ∀ k t, CompiledNetwork.sensor_targets net !! k = Some t →
    match t with (PRESSURE, i, _) => i < length (CompiledNetwork.nodes net)
               | (FLOW, i, _) => i < length (CompiledNetwork.edges net) end%nat
}.

Lemma compile_wf d dt : well_formed d → ensures never (network_wf d) (compile_lab d dt).
Proof.
  intros Hd. unfold compile_lab.
  set (sorted_assets := sorted_by_id Asset.asset_id (LabDefinition.assets d)).
  fold (build_nodes sorted_assets (mkNodeTable [] ∅ ∅)).
  destruct (build_nodes_spec sorted_assets (mkNodeTable [] ∅ ∅)) as (Hwf & _ & Hlen & Hports).
  { split; [done|]. cbn [nt_ports]. intros k i Hk. by rewrite lookup_empty in Hk. }
  set (nt := build_nodes sorted_assets (mkNodeTable [] ∅ ∅)) in *.
  assert (∀ a, a ∈ sorted_assets → a ∈ LabDefinition.assets d) as Hin
    by (intros a; apply sorted_elem).
  assert (∀ a, a ∈ LabDefinition.assets d → has_ports nt a) as Hports'
    by (intros a Ha; by apply Hports, sorted_elem).
  assert (0 < length (nt_nodes nt))%nat as Hpos.
  { apply Hlen. intros Hnil. pose proof (wf_assets d Hd). destruct (LabDefinition.assets d) as [|a l] eqn:Ea; [done|].
    assert (a ∈ sorted_assets) as Ha by (apply sorted_elem; by left). rewrite Hnil in Ha.
    by apply elem_of_nil in Ha. }
  eapply ensures_bind; [apply ensures_guard; rewrite bool_decide_eq_false_2 by lia; done|]. intros _ _.
  eapply ensures_bind; [apply (add_pipes_ok _ _ Hwf Hports' _ _ [])|].
  { split; cbn [et_edges et_index]; [intros e He..|intros k i Hk]; [by apply elem_of_nil in He..|by rewrite lookup_empty in Hk]. }
  { intros p Hp. by apply elem_of_nil in Hp. }
  { intros p Hp. rewrite sorted_elem in Hp. by apply (wf_pipes d Hd). }
  intros et (He & Hp).
  assert (pipes_indexed (LabDefinition.pipes d) et) as Hp'
    by (intros p Hpp; apply Hp; simpl; by rewrite sorted_elem).
  eapply ensures_bind; [by apply (add_valves_ok _ _ Hwf Hports' _ (LabDefinition.pipes d))|].
  clear dependent et. intros et [He Hp].
  eapply ensures_bind; [by apply (add_compressors_ok _ _ Hwf Hports')|]. intros cs Hcs.
  eapply ensures_bind; [by apply (add_demands_ok _ _ Hwf Hports')|]. intros ds Hds.
  eapply ensures_bind; [apply (add_sensors_ok _ _ Hwf Hports' d); try done; apply (wf_sensors d Hd)|].
  intros ts Hts. simpl. split; simpl; try done.
  - apply (nt_positions nt Hwf).
  - intros Hnil. rewrite Hnil in Hpos. simpl in Hpos. lia.
  - by rewrite length_fmap.
  - destruct et. exact He.
  - apply (nt_in_range nt Hwf).
Qed.

(** ** Stepping: what a step of the solver can do

    On a network whose indices are in range a step gives sane pressures for
    every node or raises [NumericalFailureError], whatever the state, the
    controls and the faults. *)

Definition numerical (e : exn) : Prop := ∃ msg, e = NumericalFailureError msg.

Lemma numerical_failure msg : numerical (failure msg).
Proof. by exists msg. Qed.
#[local] Hint Resolve numerical_failure : core.

(** ** Arrays *)
Lemma v_get_ok E v i : (i < length v)%nat → ensures E (λ x, v !! i = Some x) (v_get v i).
Proof. intros Hi. apply ensures_some. by apply lookup_lt_is_Some. Qed.
Lemma v_get_any E v i : (i < length v)%nat → ensures E (λ _, True) (v_get v i).
Proof. intros Hi. eapply ensures_weaken; [by apply v_get_ok|done]. Qed.
Lemma v_alter_ok E f v i :
  (i < length v)%nat → ensures E (λ v', length v' = length v) (v_alter f i v).
Proof.
  intros Hi. unfold v_alter. eapply ensures_bind; [by apply v_get_any|]. intros x _. simpl.
  apply length_insert.
Qed.
Lemma zip_with_length (f : float → float → float) (a b : vector) : length a = length b → length (zip_with f a b) = length a.
Proof. intros Hl. rewrite length_zip_with. lia. Qed.
Lemma stamp_edge_length (k : float) (i j : nat) (m : matrix) :
  @length (list float) (stamp_edge k i j m) = length m.
Proof. unfold stamp_edge, m_add, m_sub. by rewrite !length_alter. Qed.

Lemma all_match_ok {A} E (f : A → result bool) l :
  (∀ a, a ∈ l → ensures E (λ _, True) (f a)) → ensures E (λ _, True) (all_match f l).
Proof.
  induction l as [|a l IH]; intros Hf; simpl; [done|].
  eapply ensures_bind; [apply Hf; by left|]. intros b _. destruct b; [|done]. apply IH. intros x Hx. apply Hf. by right.
Qed.

Section Step.
Context `{Linalg}.
(** [numpy.linalg.solve] answers a vector as long as the right-hand side. *)
Hypothesis solve_length : ∀ m v x, np_solve m v = Some x → length x = length v.

(** ** The boundary of a network *)
Record boundary_wf (n : nat) (bd : Boundary) : Prop := {
  bd_comps : ∀ c, c ∈ b_comps bd → (c_idx c < n)%nat ∧ feqb (c_p_max c) f0 = false;
  bd_demands : ∀ s : sink, s ∈ b_demands bd → (s.1 < n)%nat;
  bd_leaks : ∀ s : sink, s ∈ b_leaks bd → (s.1 < n)%nat
}.

Definition both (n : nat) (st : vector * vector) : Prop := length st.1 = n ∧ length st.2 = n.

Lemma add_source_ok n p st c :
  length p = n → (c_idx c < n)%nat → feqb (c_p_max c) f0 = false → both n st →
  ensures numerical (both n) (add_source p st c).
Proof.
  intros Hp Hi Hz [Ha Hb]. destruct st as [a b]. unfold add_source. cbn [fst snd] in Ha, Hb.
  destruct (is_active c); [|done].
  eapply ensures_bind; [apply v_get_any; lia|]. intros x _. destruct (fltb x _); [|done].
  eapply ensures_bind; [apply ensures_guard; by rewrite Hz|]. intros _ _.
  eapply ensures_bind; [apply v_alter_ok; lia|]. intros a' Ha'.
  eapply ensures_bind; [apply v_alter_ok; lia|]. intros b' Hb'. simpl. split; simpl; congruence.
Qed.

Lemma add_sink_ok n p st (s : sink) :
  length p = n → (s.1 < n)%nat → both n st → ensures numerical (both n) (add_sink p st s).
Proof.
  intros Hp Hi [Ha Hb]. destruct st as [a b], s as [i k]. unfold add_sink. cbn [fst snd] in Ha, Hb, Hi.
  eapply ensures_bind; [apply v_get_any; lia|]. intros x _. destruct (_ && _); [|done].
  eapply ensures_bind; [apply v_alter_ok; lia|]. intros a' Ha'.
  eapply ensures_bind; [apply v_alter_ok; lia|]. intros b' Hb'. simpl. split; simpl; congruence.
Qed.

Lemma same_side_ok side p q i :
  (i < length p)%nat → (i < length q)%nat → ensures numerical (λ _, True) (same_side side p q i).
Proof.
  intros Hp Hq. unfold same_side. eapply ensures_bind; [by apply v_get_any|]. intros x _.
  by eapply ensures_bind; [by apply v_get_any|].
Qed.

Lemma iterate_ok bd c_dt p_prev l_dyn p_curr :
  boundary_wf (length p_prev) bd → length c_dt = length p_prev → length p_curr = length p_prev →
  ensures numerical (λ r, length r.1 = length p_prev) (iterate bd c_dt p_prev l_dyn p_curr).
Proof.
  intros [Hc Hd Hl] Hcd Hp. unfold iterate.
  eapply (ensures_bind _ (both (length p_prev))).
  { apply ensures_foldR; [|split; apply length_replicate]. intros st c Hst Hin.
    destruct (Hc c Hin). by apply add_source_ok. }
  intros st1 H1. eapply (ensures_bind _ (both (length p_prev))).
  { apply ensures_foldR; [|done]. intros st s Hst Hin. apply add_sink_ok; auto. }
  intros st2 H2. eapply (ensures_bind _ (both (length p_prev))).
  { apply ensures_foldR; [|done]. intros st s Hst Hin. apply add_sink_ok; auto. }
  intros [a b] [Ha Hb]. cbn [fst snd] in Ha, Hb.
  eapply (ensures_bind _ (λ x, length x = length p_prev)).
  { destruct (np_solve _ _) as [x|] eqn:Hx; [|simpl; auto]. apply solve_length in Hx. simpl.
    rewrite Hx. rewrite zip_with_length; rewrite zip_with_length; congruence. }
  intros x Hx. eapply (ensures_bind _ (λ _, True)).
  { apply all_match_ok. intros c [_ Hin]%list_elem_of_filter. destruct (Hc c Hin). apply same_side_ok; lia. }
  intros m1 _. eapply (ensures_bind _ (λ _, True)).
  { apply all_match_ok. intros s [_ Hin]%list_elem_of_filter. apply Hd in Hin. apply same_side_ok; lia. }
  intros m2 _. exact Hx.
Qed.

Lemma active_set_ok bd c_dt p_prev l_dyn fuel : ∀ p_curr,
  boundary_wf (length p_prev) bd → length c_dt = length p_prev → length p_curr = length p_prev →
  ensures numerical (λ r, length r = length p_prev) (active_set fuel bd c_dt p_prev l_dyn p_curr).
Proof.
  induction fuel as [|fuel IH]; intros p_curr Hb Hc Hp; simpl; [done|].
  eapply ensures_bind; [by apply iterate_ok|]. intros [x ok] Hx. cbn [fst snd] in *.
  destruct ok; [exact Hx|]. by apply IH.
Qed.

Lemma conservation_ok bd caps dt p_prev p_next :
  boundary_wf (length p_next) bd →
  ensures numerical (λ _, True) (conservation_error bd caps dt p_prev p_next).
Proof.
  intros [Hc Hd Hl]. unfold conservation_error.
  assert (∀ l : list sink, (∀ s, s ∈ l → (s.1 < length p_next)%nat) → ∀ acc,
    ensures numerical (λ _, True) (foldR (sink_mass p_next) acc l)) as Hsink.
  { intros l Hin acc. apply ensures_foldR; [|done]. intros x s _ Hs. unfold sink_mass.
    destruct (fltb f0 s.2); [|done]. eapply ensures_bind; [by apply v_get_any, Hin|done]. }
  eapply (ensures_bind _ (λ _, True)).
  { apply ensures_foldR; [|done]. intros x c _ Hin. unfold source_mass. destruct (is_active c); [|done].
    eapply ensures_bind; [by apply v_get_any, Hc|done]. }
  intros q _. eapply ensures_bind; [by apply Hsink|]. intros q' _.
  by eapply ensures_bind; [by apply Hsink|].
Qed.

(** ** The phases of a step *)
Context (d : LabDefinition.t) (net : CompiledNetwork.t).
Hypothesis Hwf : network_wf d net.
Hypothesis Hvalid : ∀ a, a ∈ LabDefinition.assets d →
  Asset.validate_parameters (Asset.type a) (Asset.parameters a) = Ok ().
Let n := length (CompiledNetwork.nodes net).

Lemma node_in_range x : x ∈ CompiledNetwork.nodes net → (NetworkNode.node_index x < n)%nat.
Proof.
  intros [i Hi]%list_elem_of_lookup. rewrite (net_positions d net Hwf i x Hi). by eapply lookup_lt_Some.
Qed.

(** A validated compressor has a positive upper pressure. *)
Lemma p_max_nonzero a :
  a ∈ LabDefinition.assets d → Asset.type a = COMPRESSOR →
  feqb (get_float (Asset.parameters a) "p_max_pa" (lit 900000)) f0 = false.
Proof.
  intros Ha Ht. specialize (Hvalid a Ha). rewrite Ht in Hvalid. unfold Asset.validate_parameters in Hvalid.
  do 3 apply bind_Ok in Hvalid as (? & _ & Hvalid). apply bind_Ok in Hvalid as (? & Hr & _).
  unfold Asset.ranged in Hr. apply bind_Ok in Hr as (v & Hv & Hb). apply of_option_Ok in Hv.
  apply guard_exn_Ok, andb_true_iff in Hb as [Hb _]. unfold get_float.
  assert (param_float <$> Asset.parameters a !! "p_max_pa"%string = Some (param_float v)
          ∨ (Asset.parameters a !! "p_max_pa"%string = None)) as [->| ->].
  { apply lookup_union_Some_raw in Hv as [->|[-> _]]; auto. }
  - simpl. destruct (param_float v) as [[]|[]| |[] ? ?]; try done; vm_compute in Hb; discriminate.
  - by vm_compute.
Qed.

Lemma set_node_ok state p x :
  x ∈ CompiledNetwork.nodes net → length p = n →
  ensures numerical (λ p', length p' = n) (set_node state p x).
Proof.
  intros Hx Hp. unfold set_node, node_pressure. eapply (ensures_bind _ (λ _, True)).
  { eapply ensures_bind; [apply ensures_guard; auto|]. intros _ _. exact I. }
  intros v _. eapply ensures_weaken; [apply v_alter_ok; rewrite Hp; by apply node_in_range|]. by intros p' ->.
Qed.

Lemma edge_index_ok e :
  e ∈ CompiledNetwork.edges net →
  ensures numerical (λ i, i < length (CompiledNetwork.edges net))%nat (edge_index net e).
Proof.
  intros He. unfold edge_index.
  eapply ensures_weaken; [apply ensures_some, (et_indexed _ _ (net_edges d net Hwf)), He|].
  intros i Hi. by apply (et_range _ _ (net_edges d net Hwf)) in Hi.
Qed.

Definition edge_terms (st : vector * matrix) : Prop :=
  length st.1 = length (CompiledNetwork.edges net) ∧ length st.2 = n.

Lemma add_edge_terms_ok controls faults st e :
  e ∈ CompiledNetwork.edges net → edge_terms st →
  ensures numerical edge_terms (add_edge_terms net controls faults st e).
Proof.
  intros He [Hk Hl]. destruct st as [ks l]. cbn [fst snd] in Hk, Hl.
  destruct (et_nodes _ _ (net_edges d net Hwf) e He) as [Hf Ht].
  unfold add_edge_terms. eapply ensures_bind; [by apply edge_index_ok|]. intros i Hi.
  eapply ensures_bind; [apply v_alter_ok; rewrite Hk; exact Hi|]. intros ks' Hks.
  unfold m_in_range. rewrite !(proj2 (Nat.ltb_lt _ _)) by (rewrite Hl; done). cbn [guard_exn mbind result_bind].
  split; cbn [fst snd]; [congruence|]. by rewrite stamp_edge_length.
Qed.

Lemma leak_in_range f (s : sink) : leak_config net f = Some s → (s.1 < n)%nat.
Proof.
  unfold leak_config. case_bool_decide; [|done]. intros Hs. apply bind_Some in Hs as (i & Hi & Hs).
  injection Hs as <-. cbn [fst].
  assert (∀ o, o = NetworkNode.node_index <$> head (filter (λ x, NetworkNode.asset_id x = ActiveFault.target_id f)
            (CompiledNetwork.nodes net)) → o = Some i → (i < n)%nat) as Hhead.
  { intros o -> Ho. apply fmap_Some in Ho as (x & Hx & ->). apply node_in_range.
    destruct (filter _ _) as [|y l] eqn:Hfil; [done|]. injection Hx as ->.
    assert (x ∈ filter (λ x, NetworkNode.asset_id x = ActiveFault.target_id f) (CompiledNetwork.nodes net))
      as [_ ?]%list_elem_of_filter by (rewrite Hfil; by left). done. }
  unfold leak_node in Hi. destruct (ActiveFault.port f) as [port|]; [|by eapply Hhead].
  destruct (nonempty port); [by apply (net_ports d net Hwf) in Hi|by eapply Hhead].
Qed.

Lemma boundary_ensures controls faults : boundary_wf n (boundary net controls faults).
Proof.
  split; cbn [b_comps b_demands b_leaks boundary].
  - intros c (x & -> & Hx)%list_elem_of_fmap. pose proof (net_compressors d net Hwf) as Hc.
    rewrite Forall_forall in Hc. destruct (Hc x Hx) as (Hi & a & Ha & Ht & Hp). split; [exact Hi|].
    cbn [comp_config c_p_max]. rewrite Hp. by apply p_max_nonzero.
  - intros s (x & -> & Hx)%list_elem_of_fmap. pose proof (net_demands d net Hwf) as Hd.
    rewrite Forall_forall in Hd. by apply Hd.
  - intros s (f & _ & Hs)%list_elem_of_omap. by eapply leak_in_range.
Qed.

(** ** The new state *)
Definition sane (p : float) : Prop :=
  is_finite p = true ∧ fleb p f0 = false ∧ fltb (lit 2000000) p = false.

Lemma sanity_gate_ok p : ensures numerical (λ _, Forall sane p) (sanity_gate p).
Proof.
  unfold sanity_gate. eapply (ensures_bind _ (λ _, forallb is_finite p = true)); [by apply ensures_guard|]. intros _ Hf.
  eapply (ensures_bind _ (λ _, negb (existsb (λ p, fleb p f0) p) = true)); [by apply ensures_guard|]. intros _ Hp.
  eapply (ensures_weaken _ (λ _, negb (existsb (fltb (lit 2000000)) p) = true)); [by apply ensures_guard|]. intros _ Hx.
  apply negb_true_iff in Hp, Hx. apply Forall_forall. intros x Hin.
  rewrite forallb_forall in Hf. apply list_elem_of_In in Hin. split; [by apply Hf|].
  split; apply not_true_is_false; intros Hc.
  - assert (existsb (λ p, fleb p f0) p = true) by (apply existsb_exists; eauto). congruence.
  - assert (existsb (fltb (lit 2000000)) p = true) by (apply existsb_exists; eauto). congruence.
Qed.

(** The keys a loop of insertions has reached. *)
Lemma keyed_fold {A} (key : A → string) (P : float → Prop) (f : gmap string float → A → result (gmap string float)) l :
  (∀ m a, a ∈ l → ensures numerical (λ m', ∃ x, P x ∧ m' = <[key a := x]> m) (f m a)) →
  ∀ m, map_Forall (λ _, P) m →
  ensures numerical (λ m', map_Forall (λ _, P) m' ∧ (∀ k, is_Some (m !! k) → is_Some (m' !! k)) ∧
                           ∀ a, a ∈ l → is_Some (m' !! key a)) (foldR f m l).
Proof.
  induction l as [|a l IH]; intros Hf m Hm; simpl.
  - split; [done|split; [done|]]. intros x Hx. by apply elem_of_nil in Hx.
  - eapply ensures_bind; [apply Hf; by left|]. intros m' (x & Hx & ->).
    eapply ensures_weaken; [apply IH; [intros; apply Hf; by right|by apply map_Forall_insert_2]|].
    intros m' (Hm' & Hg & Hl). split; [done|]. split.
    + intros k Hk. apply Hg, lookup_insert_is_Some'. auto.
    + intros b [->|Hb]%elem_of_cons; [|auto]. apply Hg, lookup_insert_is_Some'. auto.
Qed.

Lemma edge_flow_ok ks p m e :
  e ∈ CompiledNetwork.edges net → length ks = length (CompiledNetwork.edges net) → length p = n →
  ensures numerical (λ m', ∃ x, True ∧ m' = <[NetworkEdge.edge_id e := x]> m) (edge_flow net ks p m e).
Proof.
  intros He Hk Hp. destruct (et_nodes _ _ (net_edges d net Hwf) e He) as [Hf Ht].
  unfold edge_flow. eapply ensures_bind; [by apply edge_index_ok|]. intros i Hi.
  eapply ensures_bind; [apply v_get_any; rewrite Hk; exact Hi|]. intros k _.
  eapply ensures_bind; [apply v_get_any; rewrite Hp; exact Hf|]. intros a _.
  eapply ensures_bind; [apply v_get_any; rewrite Hp; exact Ht|]. intros b _. eexists. eauto.
Qed.

Lemma new_pressure_ok p m x :
  x ∈ CompiledNetwork.nodes net → length p = n → Forall sane p →
  ensures numerical (λ m', ∃ v, sane v ∧ m' = <[NetworkNode.node_id x := v]> m) (new_pressure p m x).
Proof.
  intros Hx Hp Hs. unfold new_pressure.
  eapply ensures_bind; [apply v_get_ok; rewrite Hp; by apply node_in_range|]. intros v Hv. simpl.
  exists v. split; [|done]. exact (Forall_lookup_1 _ _ _ _ Hs Hv).
Qed.

(** A state with a sane pressure at every node and a flow in every edge. *)
Record state_wf (tick : Z) (s : PhysicalState.t) : Prop := {
  st_tick : PhysicalState.tick s = tick;
  st_sane : map_Forall (λ _, sane) (PhysicalState.pressures_pa s);
  st_nodes : ∀ x, x ∈ CompiledNetwork.nodes net → is_Some (PhysicalState.pressures_pa s !! NetworkNode.node_id x);
  st_edges : ∀ e, e ∈ CompiledNetwork.edges net → is_Some (PhysicalState.flows_kg_s s !! NetworkEdge.edge_id e)
}.

Lemma step_ensures state controls dt :
  0 ≤ PhysicalState.tick state →
  ensures numerical (state_wf (PhysicalState.tick state + 1)) (step net state controls dt).
Proof.
  intros Htick. unfold step. fold n. eapply (ensures_bind _ (λ p, length p = n)).
  { apply ensures_foldR; [|apply length_replicate]. intros p x Hp Hx. by apply set_node_ok. }
  intros p_prev Hp. eapply (ensures_bind _ edge_terms).
  { apply ensures_foldR; [|split; apply length_replicate]. intros st e Hst He. by apply add_edge_terms_ok. }
  intros [ks l] [Hks Hl]. cbn [fst snd] in Hks.
  pose proof (boundary_ensures controls (faults_by_target (ControlState.active_faults controls))) as Hbd.
  set (bd := boundary net controls _) in *. clearbody bd.
  eapply ensures_bind.
  { apply active_set_ok; [by rewrite Hp|rewrite length_fmap, Hp; apply (net_capacitances d net Hwf)|done]. }
  intros p Hp'. rewrite Hp in Hp'. eapply (ensures_bind _ (λ _, Forall sane p)); [apply sanity_gate_ok|]. intros _ Hs.
  eapply ensures_bind; [apply conservation_ok; by rewrite Hp'|]. intros err _.
  eapply ensures_bind; [apply ensures_guard; auto|]. intros _ _.
  eapply ensures_bind.
  { apply (keyed_fold NetworkEdge.edge_id (λ _, True)); [|apply map_Forall_empty].
    intros m e He. by apply edge_flow_ok. }
  intros flows (_ & _ & Hflows). eapply ensures_bind.
  { apply (keyed_fold NetworkNode.node_id sane); [|apply map_Forall_empty].
    intros m x Hx. by apply new_pressure_ok. }
  intros pressures (Hsane & _ & Hnodes). unfold PhysicalState.make.
  rewrite (proj2 (Z.leb_le _ _)) by lia. cbn [field guard_exn mbind result_bind]. by split.
Qed.
End Step.
