(* ===== verification/LabSensors.v ===== *)
(** * Virtual lab: sensor sampling ([lab/simulation/sensors.py])

    Observations are a function of the run, the physical state and the faults:
    the noise comes from a hash of the seed, the sensor and the tick.
    [math.log] and [math.cos] are the C library's and are parameters ([Libm]),
    called here on a positive and on a finite number; [math.sqrt] is correctly
    rounded and refuses a negative number. *)

From S2P Require Import Prelude PyText PyUuid PyFloat PyHash PyJson KafkaIo LabContracts.
From S2P Require Import LabNetwork.

Class Libm := { math_log : float → float; math_cos : float → float }.

Definition TWO_POW_64 : float := float_of_Z (2 ^ 64).
(** [math.pi] is 884279719003555 / 2^48 *)
Definition math_pi : float := flit 884279719003555 (2 ^ 48).

(** [f"{seed}"] *)
Definition str_int (n : Z) : string := text (dec_chars n).

(** [int.from_bytes(bs, "big")] *)
Definition int_from_bytes (bs : bytes) : Z := of_digits 256 bs.

(** [(n + 0.5) / TWO_POW_64] *)
Definition unit_sample (n : Z) : float := fdiv (fadd (float_of_Z n) (flit 1 2)) TWO_POW_64.

Definition noise_digest (seed : Z) (sensor_id : UUID) (tick : Z) : bytes :=
  SHA256.sha256 (encode (str_int seed +:+ ":" +:+ str_uuid sensor_id +:+ ":" +:+ str_int tick
                           +:+ ":noise")%string).

Definition math_sqrt (x : float) : result float :=
  _ ← guard_exn (negb (fltb x f0)) (ValueError "math domain error");
  Ok (fsqrt x).

Definition node_key (a : Asset.t) (p : PortRef.t) : string :=
  if is_valve_type (Asset.type a) then port_id (PortRef.asset_id p) (port_text (PortRef.port p))
  else str_uuid (PortRef.asset_id p).

(** [next((a for a in assets if a.asset_id == target.asset_id), None)] *)
Definition find_asset (assets : list Asset.t) (id : UUID) : option Asset.t :=
  head (filter (λ a, Asset.asset_id a = id) assets).

(** The unit, the sampled truth and the asset of an observation; [None] when the
    asset of a pressure sensor is not found. *)
Definition sample_truth (run : SimulationRun.t) (state : PhysicalState.t) (s : Sensor.t)
  : result (option (ObservationUnit * option float * UUID)) :=
  match Sensor.kind s, Sensor.target s with
  | PRESSURE, TPort p =>
      match find_asset (LabDefinition.assets (SimulationRun.definition run)) (PortRef.asset_id p) with
      | None => Ok None
      | Some a =>
          Ok (Some (UNIT_PA, PhysicalState.pressures_pa state !! node_key a p, PortRef.asset_id p))
      end
  | FLOW, TPipe pipe =>
      Ok (Some (UNIT_KG_S, Some (default f0 (PhysicalState.flows_kg_s state !! str_uuid pipe)), pipe))
  | _, _ => Err AssertionError
  end.

(** [{f.target_id: f for f in controls.active_faults}] *)
Definition sensor_faults (controls : ControlState.t) : gmap UUID ActiveFault.t :=
  foldl (λ m f, <[ActiveFault.target_id f := f]> m) ∅ (ControlState.active_faults controls).

Definition is_fault (k : FaultKind) (fault : option ActiveFault.t) : bool :=
  match fault with Some f => bool_decide (ActiveFault.kind f = k) | None => false end.

Section Sensors.
Context `{Libm}.

Definition compute_gaussian_noise (seed : Z) (sensor_id : UUID) (tick : Z) : result float :=
  let digest := noise_digest seed sensor_id tick in
  let u1 := unit_sample (int_from_bytes (take 8 digest)) in
  let u2 := unit_sample (int_from_bytes (take 8 (drop 8 digest))) in
  radius ← math_sqrt (fmul (lit (-2)) (math_log u1));
  Ok (fmul radius (math_cos (fmul (fmul (lit 2) math_pi) u2))).

(** The truth with noise, and the bias of a [SENSOR_BIAS] fault. *)
Definition measure (run : SimulationRun.t) (state : PhysicalState.t) (fault : option ActiveFault.t)
    (s : Sensor.t) (truth : float) : result float :=
  z ← compute_gaussian_noise (RunSpec.seed (SimulationRun.spec run)) (Sensor.sensor_id s)
        (PhysicalState.tick state);
  let measured := fadd truth (fmul (Sensor.noise_std s) z) in
  Ok match fault with
     | Some f =>
         if bool_decide (ActiveFault.kind f = SENSOR_BIAS)
         then fadd measured (default f0 (ActiveFault.values f !! "bias"%string))
         else measured
     | None => measured
     end.

Definition quality_of (kind : SensorKind) (measured : float) : ObservationQuality * option float :=
  if negb (is_finite measured) then (INVALID, None)
  else if bool_decide (kind = PRESSURE) && fltb measured f0 then (INVALID, Some measured)
  else (GOOD, Some measured).

Definition observe_sensor (run : SimulationRun.t) (state : PhysicalState.t)
    (faults : gmap UUID ActiveFault.t) (s : Sensor.t) : result (list Observation.t) :=
  let fault := faults !! Sensor.sensor_id s in
  sampled ← sample_truth run state s;
  match sampled with
  | None => Ok []
  | Some (unit, truth, asset_id) =>
      reading ← match truth with
                | None => Ok (MISSING, None)
                | Some x => if is_fault SENSOR_DROPOUT fault then Ok (MISSING, None)
                            else quality_of (Sensor.kind s) <$> measure run state fault s x
                end;
      o ← Observation.make (SimulationRun.run_id run) asset_id (Sensor.sensor_id s)
            (PhysicalState.tick state) unit reading.2 reading.1 (SimulationRun.profile_digest run);
      Ok [o]
  end.

Definition observe (run : SimulationRun.t) (state : PhysicalState.t) (controls : ControlState.t)
  : result (list Observation.t) :=
  (@concat Observation.t) <$> mapR (observe_sensor run state (sensor_faults controls))
               (LabDefinition.sensors (SimulationRun.definition run)).
End Sensors.
