(* ===== verification/LabAnalysis.v ===== *)
(** * Virtual lab: process limits and data quality ([lab/analysis.py])

    [evaluate_sensor_observation] mutates the analysis state of its sensor in
    place, also when building an alert raises.  The two alerts it can build take
    their fresh identifiers from [draws]; the dump of an alert into an event's
    payload is pydantic's ([JsonModel]). *)

From S2P Require Import Prelude PyText PyUuid PyFloat PyJson KafkaIo LabContracts.

Module SensorAnalysisState.
Record t := mk {
  sensor_id : UUID;
  high_violations : Z;
  low_violations : Z;
  normal_streak : Z;
  bad_quality_streak : Z;
  good_quality_streak : Z;
  active_process_alert : option LabAlert.t;
  active_quality_alert : option LabAlert.t;
  recent_observations : list Observation.t
}.
Definition init (sensor_id : UUID) : t := mk sensor_id 0 0 0 0 0 None None [].

Definition remember (o : Observation.t) (s : t) : t :=
  let recent := recent_observations s ++ [o] in
  mk (sensor_id s) (high_violations s) (low_violations s) (normal_streak s) (bad_quality_streak s)
    (good_quality_streak s) (active_process_alert s) (active_quality_alert s)
    (if (20 <? length recent)%nat then tail recent else recent).
(** The assignments of the streaks. *)
Definition set_process (high low normal : Z) (s : t) : t :=
  mk (sensor_id s) high low normal (bad_quality_streak s) (good_quality_streak s)
    (active_process_alert s) (active_quality_alert s) (recent_observations s).
Definition set_quality (bad good : Z) (s : t) : t :=
  mk (sensor_id s) (high_violations s) (low_violations s) (normal_streak s) bad good
    (active_process_alert s) (active_quality_alert s) (recent_observations s).
Definition set_process_alert (a : option LabAlert.t) (s : t) : t :=
  mk (sensor_id s) (high_violations s) (low_violations s) (normal_streak s) (bad_quality_streak s)
    (good_quality_streak s) a (active_quality_alert s) (recent_observations s).
Definition set_quality_alert (a : option LabAlert.t) (s : t) : t :=
  mk (sensor_id s) (high_violations s) (low_violations s) (normal_streak s) (bad_quality_streak s)
    (good_quality_streak s) (active_process_alert s) a (recent_observations s).
End SensorAnalysisState.

(** [uuid4()] for the alert and the event of each origin. *)
Record AnalysisDraws := mkDraws {
  quality_alert : UUID; quality_event : UUID; process_alert : UUID; process_event : UUID
}.

Definition target_asset (s : Sensor.t) : UUID :=
  match Sensor.target s with TPort p => PortRef.asset_id p | TPipe pipe => pipe end.

Definition above (sensor : Sensor.t) (v : float) : bool :=
  match Sensor.alarm_high sensor with Some hi => fltb hi v | None => false end.
Definition below (sensor : Sensor.t) (v : float) : bool :=
  match Sensor.alarm_low sensor with Some lo => fltb v lo | None => false end.
Definition safely_inside (sensor : Sensor.t) (v : float) : bool :=
  let hysteresis := Sensor.hysteresis (Sensor.kind sensor) in
  negb (match Sensor.alarm_high sensor with Some hi => fleb (fsub hi hysteresis) v | None => false end)
  && negb (match Sensor.alarm_low sensor with Some lo => fleb v (fadd lo hysteresis) | None => false end).

(** [alert.model_copy(update={"state": "RESOLVED", ...})] *)
Definition resolve (tick : Z) (a : LabAlert.t) : LabAlert.t :=
  LabAlert.mk (LabAlert.alert_id a) (LabAlert.run_id a) (LabAlert.asset_id a) (LabAlert.sensor_id a)
    (LabAlert.origin a) (LabAlert.kind a) ALERT_RESOLVED (LabAlert.first_tick a) tick (Some tick)
    (LabAlert.evidence_ids a).

Abbreviation emitted := (list LabAlert.t * list LabEvent.t)%type.
Abbreviation analysis := (M SensorAnalysisState.t).
Import SensorAnalysisState.

Section Analysis.
Context `{JsonModel LabAlert.t}.
Variables (draws : AnalysisDraws) (obs : Observation.t) (sensor : Sensor.t).

(** The alert with its event. *)
Definition announce_alert (event_id : UUID) (a : LabAlert.t) : result emitted :=
  e ← LabEvent.make event_id (Observation.run_id obs) 0 EV_ALERT (Observation.tick obs) (model_dump a);
  Ok ([a], [e]).

Definition open_alert (alert_id : UUID) (origin : AlertOrigin) (kind : AlertKind) (back : Z)
  : result LabAlert.t :=
  LabAlert.make alert_id (Observation.run_id obs) (target_asset sensor) (Sensor.sensor_id sensor)
    origin kind ALERT_OPEN (Observation.tick obs - back) (Observation.tick obs) None [].

Definition open_quality (kind : AlertKind) : analysis emitted :=
  alert ← lift_res (open_alert (quality_alert draws) DATA_QUALITY kind 20);
  _ ← modify (set_quality_alert (Some alert));
  lift_res (announce_alert (quality_event draws) alert).

Definition open_process (kind : AlertKind) : analysis emitted :=
  alert ← lift_res (open_alert (process_alert draws) PROCESS_LIMIT kind 40);
  _ ← modify (set_process_alert (Some alert));
  lift_res (announce_alert (process_event draws) alert).

(** 1. Bad quality: the streak is counted and the normal streak frozen at 0. *)
Definition evaluate_bad (kind : AlertKind) : analysis emitted :=
  _ ← modify (λ s, set_process (high_violations s) (low_violations s) 0
                     (set_quality (bad_quality_streak s + 1) 0 s));
  s ← get_st;
  if (2 <=? bad_quality_streak s) && bool_decide (active_quality_alert s = None)
  then open_quality kind else mret ([], []).

(** The third good observation in a row resolves the quality alert. *)
Definition evaluate_good : analysis emitted :=
  _ ← modify (λ s, set_quality (bad_quality_streak s) (good_quality_streak s + 1) s);
  s ← get_st;
  match active_quality_alert s with
  | Some a =>
      if 3 <=? good_quality_streak s then
        let resolved := resolve (Observation.tick obs) a in
        _ ← modify (λ s, set_quality 0 (good_quality_streak s) (set_quality_alert None s));
        lift_res (announce_alert (quality_event draws) resolved)
      else mret ([], [])
  | None => mret ([], [])
  end.

(** 2. Process limits *)
Definition evaluate_above : analysis emitted :=
  _ ← modify (λ s, set_process (high_violations s + 1) 0 0 s);
  s ← get_st;
  if (3 <=? high_violations s) && bool_decide (active_process_alert s = None)
  then open_process ABOVE_LIMIT else mret ([], []).

Definition evaluate_below : analysis emitted :=
  _ ← modify (λ s, set_process 0 (low_violations s + 1) 0 s);
  s ← get_st;
  if (3 <=? low_violations s) && bool_decide (active_process_alert s = None)
  then open_process BELOW_LIMIT else mret ([], []).

Definition evaluate_safe : analysis emitted :=
  _ ← modify (λ s, set_process 0 0 (normal_streak s + 1) s);
  s ← get_st;
  match active_process_alert s with
  | Some a =>
      if 5 <=? normal_streak s then
        let resolved := resolve (Observation.tick obs) a in
        _ ← modify (set_process_alert None);
        lift_res (announce_alert (process_event draws) resolved)
      else mret ([], [])
  | None => mret ([], [])
  end.

Definition evaluate_limits (v : float) : analysis emitted :=
  if above sensor v then evaluate_above
  else if below sensor v then evaluate_below
  else if safely_inside sensor v then evaluate_safe
  else mret ([], []).

Definition bad_kind (q : ObservationQuality) : option AlertKind :=
  match q with MISSING => Some KIND_MISSING | INVALID => Some KIND_INVALID | GOOD => None end.

Definition evaluate_sensor_observation : analysis emitted :=
  _ ← modify (remember obs);
  match bad_kind (Observation.quality obs) with
  | Some kind => evaluate_bad kind
  | None =>
      e1 ← evaluate_good;
      match Observation.value obs with
      | None => mret e1
      | Some v => e2 ← evaluate_limits v; mret (e1.1 ++ e2.1, e1.2 ++ e2.2)
      end
  end.
End Analysis.
