(* ===== verification/LabStore.v ===== *)
(** * Virtual lab: the store ([lab/store.py], [006_virtual_lab.sql])

    The tables of the laboratory and every method of [LabStore].  A method that
    runs one transaction is an [M LabDB]; [submit_command] reads the command
    before it locks the run, and [start_run] reads the definition in a
    transaction of its own, so both are compositions whose parts other
    transactions may separate.  Columns that are never read ([updated_at],
    [bytes_recorded], [parent_run_id], the lease) are left out, and [created_at]
    is an instant.  JSON columns hold the dump of the value stored. *)

From S2P Require Import Prelude PyText PyUuid PyFloat PyHash PyJson Messages KafkaIo Tables.
From S2P Require Import LabContracts LabNetwork.

(** ** Rows *)
Module LabRow.
Record t := mk { name : string; current_revision : Z; created_at : Z }.
End LabRow.

Module RevisionRow.
Record t := mk { definition : dict; digest : string }.
End RevisionRow.

Module RunRow.
Record t := mk {
  lab_id : UUID;
  lab_revision : Z;
  baseline_id : option UUID;
  max_ticks : option Z;
  status : RunStatus;
  seed : Z;
  speed : Z;
  tick : Z;
  control_revision : Z;
  accepted_sequence : Z;
  event_sequence : Z;
  fence : Z;
  definition_digest : string;
  profile_digest : string;
  scene_digest : string;
  sampling_digest : string;
  checkpoint : dict
}.
(** [UPDATE lab_runs SET control_revision = ..., accepted_sequence = ...] *)
Definition set_control (rev seq : Z) (r : t) : t :=
  mk (lab_id r) (lab_revision r) (baseline_id r) (max_ticks r) (status r) (seed r) (speed r) (tick r)
    rev seq (event_sequence r) (fence r) (definition_digest r) (profile_digest r) (scene_digest r)
    (sampling_digest r) (checkpoint r).
(** [UPDATE lab_runs SET tick = ..., checkpoint = ..., event_sequence = event_sequence + n] *)
Definition set_progress (tick' : Z) (chk : dict) (n : Z) (r : t) : t :=
  mk (lab_id r) (lab_revision r) (baseline_id r) (max_ticks r) (status r) (seed r) (speed r) tick'
    (control_revision r) (accepted_sequence r) (event_sequence r + n) (fence r)
    (definition_digest r) (profile_digest r) (scene_digest r) (sampling_digest r) chk.
End RunRow.

Module CommandRow.
Record t := mk {
  payload_hash : string;
  accepted_sequence : Z;
  action : string;
  target_id : option UUID;
  parameters : dict;
  status : CommandStatus;
  effective_tick : option Z;
  reason_code : option string;
  control_revision : Z
}.
End CommandRow.

Module LabEventRow.
Record t := mk { event_id : UUID; kind : EventKind; tick : Z; payload : dict }.
End LabEventRow.

Module LabOutboxRow.
Record t := mk {
  run_id : UUID; sensor_id : UUID; tick : Z; topic : string; payload : dict; published_at : option Z
}.
End LabOutboxRow.

Module HealthRow.
Record t := mk { heartbeat_at : Z; kafka_connected : bool }.
End HealthRow.

Record LabDB := mkLabDB {
  lab_definitions : gmap UUID LabRow.t;
  lab_worker_health : gmap UUID HealthRow.t;
  lab_baselines : gset UUID;
  lab_revisions : gmap (UUID * Z) RevisionRow.t;
  lab_runs : gmap UUID RunRow.t;
  lab_commands : gmap (UUID * UUID) CommandRow.t;
  lab_events : gmap (UUID * Z) LabEventRow.t;
  lab_history : gmap (UUID * Z) dict;
  lab_outbox : gmap UUID LabOutboxRow.t;
  lab_alerts : gmap UUID LabAlert.t
}.
Definition empty_lab_db : LabDB := mkLabDB ∅ ∅ ∅ ∅ ∅ ∅ ∅ ∅ ∅ ∅.

Definition set_labs f (db : LabDB) : LabDB :=
  mkLabDB (f (lab_definitions db)) (lab_worker_health db) (lab_baselines db) (lab_revisions db)
    (lab_runs db) (lab_commands db) (lab_events db) (lab_history db) (lab_outbox db) (lab_alerts db).
Definition set_health f (db : LabDB) : LabDB :=
  mkLabDB (lab_definitions db) (f (lab_worker_health db)) (lab_baselines db) (lab_revisions db)
    (lab_runs db) (lab_commands db) (lab_events db) (lab_history db) (lab_outbox db) (lab_alerts db).
Definition set_revisions f (db : LabDB) : LabDB :=
  mkLabDB (lab_definitions db) (lab_worker_health db) (lab_baselines db) (f (lab_revisions db))
    (lab_runs db) (lab_commands db) (lab_events db) (lab_history db) (lab_outbox db) (lab_alerts db).
Definition set_runs f (db : LabDB) : LabDB :=
  mkLabDB (lab_definitions db) (lab_worker_health db) (lab_baselines db) (lab_revisions db)
    (f (lab_runs db)) (lab_commands db) (lab_events db) (lab_history db) (lab_outbox db) (lab_alerts db).
Definition set_commands f (db : LabDB) : LabDB :=
  mkLabDB (lab_definitions db) (lab_worker_health db) (lab_baselines db) (lab_revisions db)
    (lab_runs db) (f (lab_commands db)) (lab_events db) (lab_history db) (lab_outbox db) (lab_alerts db).
Definition set_lab_events f (db : LabDB) : LabDB :=
  mkLabDB (lab_definitions db) (lab_worker_health db) (lab_baselines db) (lab_revisions db)
    (lab_runs db) (lab_commands db) (f (lab_events db)) (lab_history db) (lab_outbox db) (lab_alerts db).
Definition set_history f (db : LabDB) : LabDB :=
  mkLabDB (lab_definitions db) (lab_worker_health db) (lab_baselines db) (lab_revisions db)
    (lab_runs db) (lab_commands db) (lab_events db) (f (lab_history db)) (lab_outbox db) (lab_alerts db).
Definition set_lab_outbox f (db : LabDB) : LabDB :=
  mkLabDB (lab_definitions db) (lab_worker_health db) (lab_baselines db) (lab_revisions db)
    (lab_runs db) (lab_commands db) (lab_events db) (lab_history db) (f (lab_outbox db)) (lab_alerts db).

(** A query of the committed database. *)
Definition query {DB A} (f : DB → result A) : M DB A := λ db, (f db, db).

(** [min(max(1, limit), cap)] rows *)
Definition capped {A} (cap limit : Z) (rows : list A) : list A :=
  take (Z.to_nat (Z.min (Z.max 1 limit) cap)) rows.

Definition MODEL_VERSION : string := "pneumatic-isothermal-v1".
Definition PROFILE_ID : string := "lab-sensor-robust-v1".

(** [f"{asset_id}:{port}"] for the ports of each asset, with its initial pressure *)
Definition initial_pressures (assets : list Asset.t) : gmap string float :=
  foldl (λ m a,
    let p := initial_pressure a in
    let id := Asset.asset_id a in
    match Asset.type a with
    | TANK | ISOLATION_VALVE | CONTROL_VALVE => <[port_id id "B" := p]> (<[port_id id "A" := p]> m)
    | COMPRESSOR => <[port_id id "OUT" := p]> m
    | DEMAND => <[port_id id "IN" := p]> m
    end) ∅ assets.

Definition initial_modes (assets : list Asset.t) : gmap string string :=
  foldl (λ m a, if bool_decide (Asset.type a = COMPRESSOR)
                then <[str_uuid (Asset.asset_id a) :=
                         (if get_bool (Asset.parameters a) "enabled" true then "RUNNING" else "OFF")%string]> m
                else m) ∅ assets.

(** A message of [outbox_messages]. *)
Module OutboxMessage.
Record t := mk { message_id : UUID; sensor_id : UUID; tick : Z; topic : string; payload : dict }.
End OutboxMessage.

Section LabStore.
Context `{JsonModel LabDefinition.t, JsonModel EngineCheckpoint.t, JsonModel CommandRequest.t}.

(** ** Definitions *)

(** The revision the save creates: [SELECT ... FOR UPDATE] and the upsert of the lab. *)
Definition next_revision (now : Z) (definition : LabDefinition.t) (expected_revision : Z) (db : LabDB)
  : result (Z * LabDB) :=
  let id := LabDefinition.lab_id definition in
  match lab_definitions db !! id with
  | None =>
      _ ← guard_exn (bool_decide (expected_revision ∈ [0; 1])) LabRevisionConflictError;
      Ok (1, set_labs <[id := LabRow.mk (LabDefinition.name definition) 1 now]> db)
  | Some row =>
      let current_rev := LabRow.current_revision row in
      _ ← guard_exn (bool_decide (current_rev = expected_revision)) LabRevisionConflictError;
      let new_rev := current_rev + 1 in
      _ ← int4 new_rev;
      Ok (new_rev, set_labs <[id := LabRow.mk (LabDefinition.name definition) new_rev
                                     (LabRow.created_at row)]> db)
  end.

Definition save_body (now : Z) (digest : string) (definition : LabDefinition.t)
    (expected_revision : Z) (db : LabDB) : result (LabDefinition.t * LabDB) :=
  r ← next_revision now definition expected_revision db;
  let '(new_rev, db) := r : Z * LabDB in
  let rev_def := LabDefinition.with_revision new_rev definition in
  let key := (LabDefinition.lab_id definition, new_rev) in
  _ ← guard_exn (bool_decide (lab_revisions db !! key = None)) (IntegrityError "lab_revisions_pkey");
  Ok (rev_def, set_revisions <[key := RevisionRow.mk (model_dump rev_def) digest]> db).

Definition save_lab (now : Z) (definition : LabDefinition.t) (expected_revision : Z)
  : M LabDB LabDefinition.t :=
  digest ← lift_res (compute_definition_digest definition);
  transaction (save_body now digest definition expected_revision).

(** The stored row of the latest or of a given revision. *)
Definition revision_row (db : LabDB) (lab_id : UUID) (revision : option Z) : option RevisionRow.t :=
  match revision with
  | None => r ← lab_definitions db !! lab_id; lab_revisions db !! (lab_id, LabRow.current_revision r)
  | Some r => lab_revisions db !! (lab_id, r)
  end.

Definition get_lab (lab_id : UUID) (revision : option Z) : M LabDB (option LabDefinition.t) :=
  query (λ db, match revision_row db lab_id revision with
               | None => Ok None
               | Some row => Some <$> model_validate (RevisionRow.definition row)
               end).

Definition list_labs (after : option UUID) (limit : Z) : M LabDB (list (UUID * LabRow.t)) :=
  query (λ db, Ok (capped 100 limit (ordered_rows
    (λ id _, match after with Some a => uuid_ltb a id | None => true end) (lab_definitions db)))).

(** ** Runs *)
Definition SCENE_DIGEST : string := sha256_hex (encode "scene-v1").
Definition PROFILE_DIGEST : string := sha256_hex (encode PROFILE_ID).
Definition SAMPLING_DIGEST : string := sha256_hex (encode "sampling-1hz-v1").

Definition initial_checkpoint (def_digest : string) (assets : list Asset.t)
  : result EngineCheckpoint.t :=
  initial_physical ← PhysicalState.make 0 (initial_pressures assets) ∅ (initial_modes assets);
  EngineCheckpoint.make 0 initial_physical ControlState.empty 0 [] def_digest PROFILE_DIGEST
    SAMPLING_DIGEST.

Definition new_run (assigned_run_id : UUID) (spec : RunSpec.t) (definition : LabDefinition.t)
    (def_digest : string) : SimulationRun.t :=
  SimulationRun.mk assigned_run_id spec RUN_CREATED definition def_digest SCENE_DIGEST PROFILE_DIGEST
    SAMPLING_DIGEST (RunSpec.baseline_id spec) DT_DEFAULT 0 0 0.

(** [INSERT INTO lab_runs] *)
Definition insert_run (run : SimulationRun.t) (checkpoint : EngineCheckpoint.t) (db : LabDB)
  : result LabDB :=
  let spec := SimulationRun.spec run in
  _ ← bigint (RunSpec.seed spec);
  _ ← bigint (default 0 (RunSpec.max_ticks spec));
  _ ← guard_exn (bool_decide (lab_runs db !! SimulationRun.run_id run = None))
        (IntegrityError "lab_runs_pkey");
  _ ← guard_exn (bool_decide (RunSpec.speed spec ∈ [1; 10; 100])) (IntegrityError "lab_runs_speed_check");
  _ ← guard_exn (match RunSpec.baseline_id spec with
                 | Some b => bool_decide (b ∈ lab_baselines db) | None => true end)
        (IntegrityError "lab_runs_baseline_id_fkey");
  _ ← references (lab_revisions db) (RunSpec.lab_id spec, RunSpec.lab_revision spec)
        "lab_runs_lab_id_lab_revision_fkey";
  Ok (set_runs <[SimulationRun.run_id run := RunRow.mk
        (RunSpec.lab_id spec) (RunSpec.lab_revision spec) (RunSpec.baseline_id spec)
        (RunSpec.max_ticks spec) (SimulationRun.status run) (RunSpec.seed spec) (RunSpec.speed spec)
        0 0 0 0 0 (SimulationRun.definition_digest run) (SimulationRun.profile_digest run)
        (SimulationRun.scene_digest run) (SimulationRun.sampling_digest run)
        (model_dump checkpoint)]> db).

(** [fresh] is [uuid4()]. *)
Definition start_run (fresh : UUID) (spec : RunSpec.t) (run_id : option UUID)
  : M LabDB SimulationRun.t :=
  found ← get_lab (RunSpec.lab_id spec) (Some (RunSpec.lab_revision spec));
  definition ← lift_res (of_option LabNotFoundError found);
  val_result ← lift_res (validate_lab definition);
  _ ← lift_res (guard_exn (LabValidationResult.run_eligible val_result) LabNotRunnableError);
  def_digest ← lift_res (compute_definition_digest definition);
  checkpoint ← lift_res (initial_checkpoint def_digest (LabDefinition.assets definition));
  let run := new_run (default fresh run_id) spec definition def_digest in
  _ ← update (insert_run run checkpoint);
  mret run.

Definition get_run (run_id : UUID) : M LabDB (option SimulationRun.t) :=
  query (λ db,
    match lab_runs db !! run_id with
    | None => Ok None
    | Some row =>
        match lab_revisions db !! (RunRow.lab_id row, RunRow.lab_revision row) with
        | None => Ok None
        | Some rev =>
            definition ← model_validate (RevisionRow.definition rev);
            spec ← RunSpec.make (RunRow.lab_id row) (RunRow.lab_revision row) (RunRow.seed row)
                     (RunRow.speed row) (RunRow.max_ticks row) (RunRow.baseline_id row);
            Ok (Some (SimulationRun.mk run_id spec (RunRow.status row) definition
                        (RunRow.definition_digest row) (RunRow.scene_digest row)
                        (RunRow.profile_digest row) (RunRow.sampling_digest row)
                        (RunRow.baseline_id row) DT_DEFAULT (RunRow.tick row)
                        (RunRow.control_revision row) (RunRow.event_sequence row)))
        end
    end).

(** ** Commands *)
Definition payload_hash (request : CommandRequest.t) : result string :=
  data ← dumps_canonical (JObj (model_dump request));
  Ok (sha256_hex (encode data)).

Definition receipt_of (command_id : UUID) (row : CommandRow.t) : result CommandReceipt.t :=
  CommandReceipt.make command_id (CommandRow.status row) (CommandRow.accepted_sequence row)
    (CommandRow.effective_tick row) (CommandRow.control_revision row) (CommandRow.reason_code row).

(** The first statement: a command already stored answers its receipt, and
    raises when its payload is another one. *)
Definition find_command (run_id : UUID) (request : CommandRequest.t) (hash : string)
  : M LabDB (option CommandReceipt.t) :=
  query (λ db,
    match lab_commands db !! (run_id, CommandRequest.command_id request) with
    | None => Ok None
    | Some row =>
        _ ← guard_exn (bool_decide (CommandRow.payload_hash row = hash)) CommandIdentityConflictError;
        Some <$> receipt_of (CommandRequest.command_id request) row
    end).

Definition is_terminal (s : RunStatus) : bool :=
  match s with RUN_STOPPED | RUN_COMPLETED | RUN_FAILED => true | _ => false end.

(** From the lock of the run to the commit. *)
Definition accept_body (run_id : UUID) (request : CommandRequest.t) (hash : string) (db : LabDB)
  : result (CommandReceipt.t * LabDB) :=
  row ← of_option RunNotFoundError (lab_runs db !! run_id);
  _ ← guard_exn (negb (is_terminal (RunRow.status row))) InvalidRunStateError;
  let current_control_rev := RunRow.control_revision row in
  _ ← guard_exn (bool_decide (CommandRequest.expected_control_revision request = current_control_rev))
        CommandRevisionConflictError;
  let new_control_rev := current_control_rev + 1 in
  let new_accepted_seq := RunRow.accepted_sequence row + 1 in
  receipt ← CommandReceipt.make (CommandRequest.command_id request) CMD_ACCEPTED new_accepted_seq None
              new_control_rev None;
  let key := (run_id, CommandRequest.command_id request) in
  _ ← bigint new_accepted_seq;
  _ ← bigint new_control_rev;
  _ ← guard_exn (bool_decide (lab_commands db !! key = None)) (IntegrityError "lab_commands_pkey");
  _ ← guard_exn (negb (exists_row (λ k r,
         bool_decide (k.1 = run_id) && bool_decide (CommandRow.accepted_sequence r = new_accepted_seq))
         (lab_commands db))) (IntegrityError "lab_commands_run_id_accepted_sequence_key");
  let command := CommandRow.mk hash new_accepted_seq (CommandRequest.action request)
                   (CommandRequest.target_id request) (CommandRequest.parameters request) CMD_ACCEPTED
                   None None new_control_rev in
  Ok (receipt, set_runs <[run_id := RunRow.set_control new_control_rev new_accepted_seq row]>
                 (set_commands <[key := command]> db)).

Definition accept_command (run_id : UUID) (request : CommandRequest.t) (hash : string)
  : M LabDB CommandReceipt.t := transaction (accept_body run_id request hash).

Definition submit_command (run_id : UUID) (request : CommandRequest.t) : M LabDB CommandReceipt.t :=
  hash ← lift_res (payload_hash request);
  existing_cmd ← find_command run_id request hash;
  match existing_cmd with
  | Some receipt => mret receipt
  | None => accept_command run_id request hash
  end.

(** ** Snapshots, events and history *)

(** [status = 'ACCEPTED' ORDER BY accepted_sequence] *)
Definition by_sequence (x y : UUID * CommandRow.t) : Prop :=
  CommandRow.accepted_sequence x.2 ≤ CommandRow.accepted_sequence y.2.
#[export] Instance by_sequence_dec : RelDecision by_sequence.
Proof. intros x y. unfold by_sequence. apply _. Defined.
Definition pending_rows (db : LabDB) (run_id : UUID) : list (UUID * CommandRow.t) :=
  merge_sort by_sequence (omap (λ kv : (UUID * UUID) * CommandRow.t,
    if bool_decide (kv.1.1 = run_id) && bool_decide (CommandRow.status kv.2 = CMD_ACCEPTED)
    then Some (kv.1.2, kv.2) else None) (map_to_list (lab_commands db))).

(** [state = 'OPEN' ORDER BY first_tick] *)
Definition by_first_tick (x y : LabAlert.t) : Prop := LabAlert.first_tick x ≤ LabAlert.first_tick y.
#[export] Instance by_first_tick_dec : RelDecision by_first_tick.
Proof. intros x y. unfold by_first_tick. apply _. Defined.
(** The snapshot's alerts are built without their evidence. *)
Definition snapshot_alert (a : LabAlert.t) : LabAlert.t :=
  LabAlert.mk (LabAlert.alert_id a) (LabAlert.run_id a) (LabAlert.asset_id a) (LabAlert.sensor_id a)
    (LabAlert.origin a) (LabAlert.kind a) (LabAlert.state a) (LabAlert.first_tick a) (LabAlert.last_tick a)
    (LabAlert.resolved_tick a) [].
Definition open_alerts (db : LabDB) (run_id : UUID) : list LabAlert.t :=
  snapshot_alert <$> merge_sort by_first_tick (filter (λ a, LabAlert.run_id a = run_id ∧ LabAlert.state a = ALERT_OPEN)
    (map_to_list (lab_alerts db)).*2).

Definition get_snapshot (run_id : UUID) : M LabDB (option RunSnapshot.t) :=
  query (λ db,
    match lab_runs db !! run_id with
    | None => Ok None
    | Some row =>
        checkpoint ← (model_validate (RunRow.checkpoint row) : result EngineCheckpoint.t);
        pending_cmds ← mapR (λ kv : UUID * CommandRow.t, receipt_of kv.1 kv.2) (pending_rows db run_id);
        Some <$> RunSnapshot.make run_id (RunRow.tick row) (RunRow.status row)
          (RunRow.control_revision row) (RunRow.event_sequence row) (EngineCheckpoint.physical checkpoint)
          [] pending_cmds (open_alerts db run_id)
    end).

Definition event_of (run_id : UUID) (r : Z * LabEventRow.t) : result LabEvent.t :=
  LabEvent.make (LabEventRow.event_id r.2) run_id r.1 (LabEventRow.kind r.2) (LabEventRow.tick r.2)
    (LabEventRow.payload r.2).

Definition events_after (run_id : UUID) (sequence : Z) (limit : Z) : M LabDB (list LabEvent.t) :=
  query (λ db, mapR (event_of run_id)
    (capped 1000 limit (numbered_rows run_id (λ n _, sequence <? n) (lab_events db)))).

(** [ON CONFLICT (run_id, tick) DO NOTHING] *)
Definition append_history (run_id : UUID) (tick : Z) (frame : dict) : M LabDB unit :=
  update (λ db,
    _ ← bigint tick;
    match lab_history db !! (run_id, tick) with
    | Some _ => Ok db
    | None =>
        _ ← references (lab_runs db) run_id "lab_history_run_id_fkey";
        Ok (set_history <[(run_id, tick) := frame]> db)
    end).

Definition get_history (run_id : UUID) (from_tick : Z) (to_tick : option Z) (limit : Z)
  : M LabDB (list dict) :=
  query (λ db, Ok (snd <$> capped 1000 limit (numbered_rows run_id
    (λ n _, (from_tick <=? n) && match to_tick with Some t => n <=? t | None => true end)
    (lab_history db)))).

(** ** Engine checkpoints *)
Definition insert_event (run_id : UUID) (db : LabDB) (ev : LabEvent.t) : result LabDB :=
  let key := (run_id, LabEvent.sequence ev) in
  _ ← bigint (LabEvent.sequence ev);
  _ ← bigint (LabEvent.tick ev);
  _ ← guard_exn (bool_decide (lab_events db !! key = None)) (IntegrityError "lab_events_pkey");
  _ ← guard_exn (negb (exists_row (λ _ r, bool_decide (LabEventRow.event_id r = LabEvent.event_id ev))
                         (lab_events db))) (IntegrityError "lab_events_event_id_key");
  _ ← references (lab_runs db) run_id "lab_events_run_id_fkey";
  Ok (set_lab_events <[key := LabEventRow.mk (LabEvent.event_id ev) (LabEvent.kind ev)
                                (LabEvent.tick ev) (LabEvent.payload ev)]> db).

Definition insert_message (run_id : UUID) (db : LabDB) (msg : OutboxMessage.t) : result LabDB :=
  _ ← bigint (OutboxMessage.tick msg);
  _ ← guard_exn (bool_decide (lab_outbox db !! OutboxMessage.message_id msg = None))
        (IntegrityError "lab_outbox_pkey");
  _ ← references (lab_runs db) run_id "lab_outbox_run_id_fkey";
  Ok (set_lab_outbox <[OutboxMessage.message_id msg := LabOutboxRow.mk run_id
        (OutboxMessage.sensor_id msg) (OutboxMessage.tick msg) (OutboxMessage.topic msg)
        (OutboxMessage.payload msg) None]> db).

Definition checkpoint_body (run_id : UUID) (fence expected_tick : Z)
    (checkpoint_data : EngineCheckpoint.t) (events : list LabEvent.t)
    (outbox_messages : list OutboxMessage.t) (db : LabDB) : result (bool * LabDB) :=
  let tick := EngineCheckpoint.tick checkpoint_data in
  match lab_runs db !! run_id with
  | Some row =>
      if bool_decide (RunRow.fence row = fence) && bool_decide (RunRow.tick row = expected_tick) then
        let n := Z.of_nat (length events) in
        _ ← bigint tick;
        _ ← bigint (RunRow.event_sequence row + n);
        _ ← guard_exn (0 <=? tick) (IntegrityError "lab_runs_tick_check");
        let db := set_runs <[run_id := RunRow.set_progress tick (model_dump checkpoint_data) n row]> db in
        db ← foldR (insert_event run_id) db events;
        db ← foldR (insert_message run_id) db outbox_messages;
        Ok (true, db)
      else Ok (false, db)
  | None => Ok (false, db)
  end.

Definition checkpoint (run_id : UUID) (fence expected_tick : Z) (checkpoint_data : EngineCheckpoint.t)
    (events : list LabEvent.t) (outbox_messages : list OutboxMessage.t) : M LabDB bool :=
  transaction (checkpoint_body run_id fence expected_tick checkpoint_data events outbox_messages).
End LabStore.
