(* ===== verification/LabEngine.v ===== *)
(** * Virtual lab: the simulation engine ([lab/engine.py])

    [run_once] advances the physics two ticks at a time and commits a checkpoint
    with the observations of each batch.  Between two batches its local state is
    its last checkpoint.  [uuid4()] of the n-th observation of a tick is
    [draw tick n], a different [draw] for every batch. *)

From S2P Require Import Prelude PyText PyUuid PyFloat PyJson Messages KafkaIo Tables.
From S2P Require Import LabContracts LabNetwork LabSolver LabSensors LabStore.

Definition TOPIC_LAB_OBSERVATIONS : string := "irp.lab.observations.v1".

Abbreviation draws := (Z → nat → UUID).

(** ** Commands *)

(** [float(text)] and pydantic's validation of [values: dict[str, float]] belong
    to code that is not modelled. *)
Record CommandText := mkCommandText {
  float_of_text : string → result float;
  validate_values : json → result (gmap string float)
}.

Section Commands.
Variable ct : CommandText.

(** [float(value)] of a JSON value *)
Definition json_float (j : json) : result float :=
  match j with
  | JFloat x => Ok x
  | JInt n =>
      _ ← guard_exn (is_finite (float_of_Z n)) (OverflowError "int too large to convert to float");
      Ok (float_of_Z n)
  | JBool b => Ok (if b then f1 else f0)
  | JStr s => float_of_text ct s
  | JNull | JList _ | JObj _ => Err (TypeError "float() argument")
  end.
(** [bool(value)] of a JSON value *)
Definition json_bool (j : json) : bool :=
  match j with
  | JNull => false
  | JBool b => b
  | JInt n => negb (n =? 0)
  | JFloat x => negb (feqb x f0)
  | JStr s => nonempty s
  | JList l => negb (bool_decide (length l = 0%nat))
  | JObj o => negb (bool_decide (length o = 0%nat))
  end.

Definition fault_text (k : FaultKind) : string :=
  match k with
  | LEAK => "LEAK" | VALVE_STUCK => "VALVE_STUCK" | SENSOR_BIAS => "SENSOR_BIAS"
  | SENSOR_DROPOUT => "SENSOR_DROPOUT" | COMPRESSOR_UNAVAILABLE => "COMPRESSOR_UNAVAILABLE"
  end.
(** [f.kind == kind] *)
Definition is_kind (k : FaultKind) (kind : json) : bool := bool_decide (kind = JStr (fault_text k)).
Definition all_faults : list FaultKind :=
  [LEAK; VALVE_STUCK; SENSOR_BIAS; SENSOR_DROPOUT; COMPRESSOR_UNAVAILABLE].

(** [ActiveFault(target_id=..., kind=..., port=..., values=...)] *)
Definition make_fault (target_id : UUID) (kind : json) (port values : option json)
  : result ActiveFault.t :=
  k ← of_option (ValidationError "kind") (head (filter (λ k, is_kind k kind = true) all_faults));
  port ← match port with
         | None | Some JNull => Ok None
         | Some (JStr s) => Ok (Some s)
         | Some _ => Err (ValidationError "port")
         end;
  values ← match values with None => Ok ∅ | Some v => validate_values ct v end;
  Ok (ActiveFault.mk target_id k port values).

(** [new_setpoints.setdefault(str(target_id), {})[key] = v] *)
Definition set_setpoint (target_id : UUID) (key : string) (v : param) (c : ControlState.t)
  : ControlState.t :=
  let m := ControlState.setpoints c in
  let sp := default ∅ (m !! str_uuid target_id) in
  ControlState.mk (<[str_uuid target_id := <[key := v]> sp]> m) (ControlState.active_faults c).

(** The faults of other targets or other kinds. *)
Definition other_faults (target_id : UUID) (kind : json) (l : list ActiveFault.t)
  : list ActiveFault.t :=
  filter (λ f, bool_decide (ActiveFault.target_id f = target_id)
               && is_kind (ActiveFault.kind f) kind = false) l.

Definition float_setpoint (controls : ControlState.t) (target_id : option UUID) (ps : dict)
    (key : string) : result ControlState.t :=
  target ← of_option AssertionError target_id;
  v ← json_float (default (JFloat f1) (jget key ps));
  Ok (set_setpoint target key (PFloat v) controls).

Definition execute_command_in_controls (controls : ControlState.t) (action : string)
    (target_id : option UUID) (ps : dict) : result ControlState.t :=
  if bool_decide (action = "SET_COMPRESSOR_LOAD"%string) then float_setpoint controls target_id ps "load"
  else if bool_decide (action = "SET_COMPRESSOR_ENABLED"%string) then
    target ← of_option AssertionError target_id;
    Ok (set_setpoint target "enabled"
          (PBool (json_bool (default (JBool true) (jget "enabled" ps)))) controls)
  else if bool_decide (action = "SET_VALVE_OPENING"%string) then float_setpoint controls target_id ps "opening"
  else if bool_decide (action = "SET_LOAD_FACTOR"%string) then float_setpoint controls target_id ps "load_factor"
  else if bool_decide (action = "INJECT_FAULT"%string) then
    target ← of_option AssertionError target_id;
    kind ← of_option (KeyError "kind") (jget "kind" ps);
    fault ← make_fault target kind (jget "port" ps) (jget "values" ps);
    Ok (ControlState.mk (ControlState.setpoints controls)
          (other_faults target kind (ControlState.active_faults controls) ++ [fault]))
  else if bool_decide (action = "CLEAR_FAULT"%string) then
    target ← of_option AssertionError target_id;
    kind ← of_option (KeyError "kind") (jget "kind" ps);
    Ok (ControlState.mk (ControlState.setpoints controls)
          (other_faults target kind (ControlState.active_faults controls)))
  else Ok controls.
End Commands.

(** ** The loop *)
Section Engine.
Context `{Linalg, Libm}.
Context `{JsonModel LabDefinition.t, JsonModel EngineCheckpoint.t, JsonModel CommandRequest.t,
          JsonModel Observation.t}.
Variable run : SimulationRun.t.

Definition run_key : UUID := SimulationRun.run_id run.

(** Without a stored checkpoint the engine starts from the definition. *)
Definition fallback_checkpoint : result EngineCheckpoint.t :=
  initial_physical ← PhysicalState.make 0
    (initial_pressures (LabDefinition.assets (SimulationRun.definition run))) ∅ ∅;
  EngineCheckpoint.make 0 initial_physical ControlState.empty 0 []
    (SimulationRun.definition_digest run) (SimulationRun.profile_digest run)
    (SimulationRun.sampling_digest run).

Definition load_or_create_checkpoint : M LabDB EngineCheckpoint.t :=
  query (λ db,
    match lab_runs db !! run_key with
    | Some row =>
        if bool_decide (RunRow.checkpoint row = []) then fallback_checkpoint
        else model_validate (RunRow.checkpoint row)
    | None => fallback_checkpoint
    end).

Definition observation_message (draw : draws) (i : nat) (o : Observation.t) : OutboxMessage.t :=
  OutboxMessage.mk (draw (Observation.tick o) i) (Observation.sensor_id o) (Observation.tick o)
    TOPIC_LAB_OBSERVATIONS (model_dump o).

(** One tick: a physics step, and the observations of every twentieth tick. *)
Definition sim_tick (network : CompiledNetwork.t) (controls : ControlState.t) (draw : draws)
    (st : PhysicalState.t * list OutboxMessage.t) : result (PhysicalState.t * list OutboxMessage.t) :=
  let '(current_physical, outbox_msgs) := st in
  current_physical ← step network current_physical controls (SimulationRun.dt run);
  if PhysicalState.tick current_physical mod 20 =? 0 then
    obs ← observe run current_physical controls;
    Ok (current_physical, outbox_msgs ++ imap (observation_message draw) obs)
  else Ok (current_physical, outbox_msgs).

Fixpoint sim_ticks (n : nat) (network : CompiledNetwork.t) (controls : ControlState.t) (draw : draws)
    (st : PhysicalState.t * list OutboxMessage.t) : result (PhysicalState.t * list OutboxMessage.t) :=
  match n with
  | O => Ok st
  | S n => st ← sim_tick network controls draw st; sim_ticks n network controls draw st
  end.

(** [run.spec.max_ticks or 1000] *)
Definition max_ticks : Z :=
  match RunSpec.max_ticks (SimulationRun.spec run) with
  | Some n => if n =? 0 then 1000 else n
  | None => 1000
  end.

(** The batch that follows a checkpoint: the next checkpoint and its messages. *)
Definition run_batch (network : CompiledNetwork.t) (draw : draws) (checkpoint : EngineCheckpoint.t)
  : result (EngineCheckpoint.t * list OutboxMessage.t) :=
  let batch_size := Z.min 2 (max_ticks - EngineCheckpoint.tick checkpoint) in
  let controls := EngineCheckpoint.controls checkpoint in
  st ← sim_ticks (Z.to_nat batch_size) network controls draw (EngineCheckpoint.physical checkpoint, []);
  let '(current_physical, outbox_msgs) := st : PhysicalState.t * list OutboxMessage.t in
  new_chk ← EngineCheckpoint.make (PhysicalState.tick current_physical) current_physical controls
    (EngineCheckpoint.accepted_scanned_sequence checkpoint) [] (SimulationRun.definition_digest run)
    (SimulationRun.profile_digest run) (SimulationRun.sampling_digest run);
  Ok (new_chk, outbox_msgs).

(** One iteration of the [while] loop; [None] is [return False]. *)
Definition engine_batch (network : CompiledNetwork.t) (draw : draws) (chk : EngineCheckpoint.t)
  : M LabDB (option EngineCheckpoint.t) :=
  b ← lift_res (run_batch network draw chk);
  success ← checkpoint run_key 0 (EngineCheckpoint.tick chk) b.1 [] b.2;
  mret (if (success : bool) then Some b.1 else None).

(** [while tick < max_ticks]; the [n]-th batch draws from [draw n]. *)
Fixpoint run_loop (fuel : nat) (network : CompiledNetwork.t) (draw : nat → draws)
    (chk : EngineCheckpoint.t) : M LabDB bool :=
  if EngineCheckpoint.tick chk <? max_ticks then
    match fuel with
    | O => mret false
    | S fuel =>
        r ← engine_batch network (draw fuel) chk;
        match r with
        | Some chk' => run_loop fuel network draw chk'
        | None => mret false
        end
    end
  else mret true.

Definition run_once (draw : nat → draws) : M LabDB bool :=
  network ← lift_res (compile_lab (SimulationRun.definition run) (SimulationRun.dt run));
  chk ← load_or_create_checkpoint;
  run_loop (Z.to_nat (max_ticks - EngineCheckpoint.tick chk)) network draw chk.
End Engine.
