(* ===== verification/LabOutbox.v ===== *)
(** * Virtual lab: the outbox publisher and the worker ([lab/outbox.py], [lab/worker.py])

    The broker is the log of what was sent and an oracle of the outcome of its
    n-th call; the members of a payload are sent in the order the column returns
    them.  [dispatch_batch] marks what it sent in the transaction it read
    the rows in; [outbox_loop] is the worker's loop for a number of turns.  SQL
    leaves the order of rows with the same run, tick and sensor open: they are
    taken in the order of their identifiers. *)

From S2P Require Import Prelude PyText PyUuid PyFloat PyHash PyJson Messages KafkaIo Tables.
From S2P Require Import LabContracts LabStore.

(** ** Selection: [ORDER BY run_id, tick, sensor_id] *)
Abbreviation outbox_row := (UUID * LabOutboxRow.t)%type.
Definition outbox_rank (r : outbox_row) : list Z :=
  [uuid_int (LabOutboxRow.run_id r.2); LabOutboxRow.tick r.2; uuid_int (LabOutboxRow.sensor_id r.2);
   uuid_int r.1].
Fixpoint rank_leb (x y : list Z) : bool :=
  match x, y with
  | a :: x, b :: y => (a <? b) || ((a =? b) && rank_leb x y)
  | _, _ => true
  end.
Definition outbox_le (x y : outbox_row) : Prop := rank_leb (outbox_rank x) (outbox_rank y) = true.
#[export] Instance outbox_le_dec : RelDecision outbox_le.
Proof. intros x y. unfold outbox_le. apply _. Defined.

Definition is_unpublished (r : outbox_row) : bool :=
  bool_decide (LabOutboxRow.published_at r.2 = None).
Definition unpublished (db : LabDB) : list outbox_row :=
  merge_sort outbox_le (filter (λ r, is_unpublished r = true) (map_to_list (lab_outbox db))).

(** [UPDATE lab_outbox SET published_at = now() WHERE message_id = ANY(ids)] *)
Definition publish_row (now : Z) (r : LabOutboxRow.t) : LabOutboxRow.t :=
  LabOutboxRow.mk (LabOutboxRow.run_id r) (LabOutboxRow.sensor_id r) (LabOutboxRow.tick r)
    (LabOutboxRow.topic r) (LabOutboxRow.payload r) (Some now).
Definition mark_ids (now : Z) (ids : list UUID) (db : LabDB) : LabDB :=
  set_lab_outbox (λ m, foldl (λ m id, alter (publish_row now) id m) m ids) db.

(** Marks up to [limit] rows without sending them. *)
Definition publish_pending_sync (now : Z) (limit : Z) : M LabDB Z :=
  transaction (λ db,
    rows ← Tables.limit limit (unpublished db);
    Ok (Z.of_nat (length rows), mark_ids now rows.*1 db)).

(** ** [dispatch_batch] *)
Record Publisher := mkPublisher { p_db : LabDB; p_log : list Sent; p_calls : nat; p_running : bool }.

Definition message_of (r : outbox_row) : result Sent :=
  asset ← match jget "asset_id" (LabOutboxRow.payload r.2) with
          | Some j => py_str j
          | None => Ok (str_uuid (LabOutboxRow.sensor_id r.2))
          end;
  Ok (mkSent (LabOutboxRow.topic r.2) (encode (dumps_default (JObj (LabOutboxRow.payload r.2))))
        (encode (str_uuid (LabOutboxRow.run_id r.2) +:+ ":" +:+ asset +:+ ":"
                   +:+ str_uuid (LabOutboxRow.sensor_id r.2))%string)).

Section Publisher.
Variable broker : nat → bool.

(** [await producer.send_and_wait(...)]: whether the n-th call succeeded. *)
Definition send (m : Sent) : M Publisher bool := λ p,
  if broker (p_calls p)
  then (Ok true, mkPublisher (p_db p) (p_log p ++ [m]) (S (p_calls p)) (p_running p))
  else (Ok false, mkPublisher (p_db p) (p_log p) (S (p_calls p)) (p_running p)).

(** The loop over the rows: the identifiers sent before the first failure. *)
Fixpoint send_rows (rows : list outbox_row) : M Publisher (list UUID) :=
  match rows with
  | [] => mret []
  | r :: rows =>
      m ← lift_res (message_of r);
      sent ← send m;
      if (sent : bool) then ids ← send_rows rows; mret (r.1 :: ids) else mret []
  end.

Definition on_lab_db (f : LabDB → LabDB) : M Publisher unit :=
  modify (λ p, mkPublisher (f (p_db p)) (p_log p) (p_calls p) (p_running p)).

Definition dispatch_batch (now : Z) (limit : Z) : M Publisher Z :=
  p ← get_st;
  if negb (p_running p) then mret 0
  else
    rows ← lift_res (Tables.limit limit (unpublished (p_db p)));
    ids ← send_rows rows;
    _ ← on_lab_db (mark_ids now ids);
    mret (Z.of_nat (length ids)).

(** [start] and [stop] of the producer; [connected] is whether it started. *)
Definition start_publisher (connected : bool) (p : Publisher) : Publisher :=
  mkPublisher (p_db p) (p_log p) (p_calls p) connected.
Definition stop_publisher (p : Publisher) : Publisher :=
  mkPublisher (p_db p) (p_log p) (p_calls p) false.

(** ** The worker's loops *)

(** One turn of [_outbox_loop]; an exception is logged. *)
Definition outbox_turn (now : Z) : M Publisher unit :=
  catch (_ ← dispatch_batch now 100; mret ()) (λ _, Some (mret ())).

(** [turns] turns of [_outbox_loop] before the shutdown event. *)
Fixpoint outbox_loop (turns : nat) (now : nat → Z) : M Publisher unit :=
  match turns with
  | O => mret ()
  | S turns => _ ← outbox_turn (now turns); outbox_loop turns now
  end.

(** One turn of [_heartbeat_loop] *)
Definition heartbeat (now : Z) (worker_id : UUID) : M Publisher unit :=
  p ← get_st;
  on_lab_db (set_health <[worker_id := HealthRow.mk now (p_running p)]>).

(** [run]: the producer, the two loops as a schedule of turns, and the stop. *)
Inductive WorkerTurn := OutboxTurn (now : Z) | HeartbeatTurn (now : Z).
Definition worker_turn (worker_id : UUID) (t : WorkerTurn) : M Publisher unit :=
  match t with
  | OutboxTurn now => outbox_turn now
  | HeartbeatTurn now => heartbeat now worker_id
  end.
Definition worker_run (worker_id : UUID) (connected : bool) (turns : list WorkerTurn)
  : M Publisher unit :=
  _ ← modify (start_publisher connected);
  _ ← forM turns (worker_turn worker_id);
  modify stop_publisher.
End Publisher.
