(* ===== verification/LabExamples.v ===== *)
(** * Virtual lab: a small laboratory

    A tank with a pressure sensor, for the examples and witnesses: codecs, the
    linear algebra of one node, and a database that holds the definition. *)

From S2P Require Import Prelude PyText PyUuid PyFloat PyJson Messages KafkaIo Tables.
From S2P Require Import LabContracts LabNetwork LabSolver LabSensors LabStore LabEngine.

Module LabExamples.
Definition id (n : Z) : UUID := UUID_of_bits n.

Lemma id_inj a b : 0 ≤ a < 2 ^ 128 → 0 ≤ b < 2 ^ 128 → id a = id b → a = b.
Proof.
  intros Ha Hb Heq. apply (f_equal uuid_int) in Heq. unfold id, UUID_of_bits in Heq. cbn [uuid_int] in Heq.
  by rewrite !Z.mod_small in Heq.
Qed.

Definition tank : Asset.t := Asset.mk (id 1) TANK (f0, f0, f0) f0 ∅.
Definition gauge : Sensor.t :=
  Sensor.mk (id 2) PRESSURE (TPort (PortRef.mk (id 1) PORT_A)) f0 None None.
Definition lab (revision : Z) : LabDefinition.t :=
  LabDefinition.mk (id 3) revision "tank" [tank] [] [gauge] "scene-v1".

#[export] Instance definition_model : JsonModel LabDefinition.t := {|
  model_dump d := [("revision", JInt (LabDefinition.revision d))]%string;
  model_validate o := match jget "revision" o with
                      | Some (JInt n) => Ok (lab n) | _ => Err (ValidationError "revision") end
|}.
#[export] Instance request_model : JsonModel CommandRequest.t := {|
  model_dump c := [("action", JStr (CommandRequest.action c))]%string;
  model_validate _ := Err (ValidationError "CommandRequest")
|}.
#[export] Instance observation_model : JsonModel Observation.t := {|
  model_dump o := [("tick", JInt (Observation.tick o));
                   ("value", match Observation.value o with Some v => JFloat v | None => JNull end)]%string;
  model_validate _ := Err (ValidationError "Observation")
|}.

(** A checkpoint without controls. *)
Definition dump_pressures (m : gmap string float) : json :=
  JObj (prod_map (λ k, k) JFloat <$> map_to_list m).
Definition load_pressures (o : dict) : gmap string float :=
  list_to_map (omap (λ kv : string * json, match kv.2 with JFloat x => Some (kv.1, x) | _ => None end) o).
#[export] Instance checkpoint_model : JsonModel EngineCheckpoint.t := {|
  model_dump c :=
    [("tick", JInt (EngineCheckpoint.tick c));
     ("physical_tick", JInt (PhysicalState.tick (EngineCheckpoint.physical c)));
     ("pressures", dump_pressures (PhysicalState.pressures_pa (EngineCheckpoint.physical c)));
     ("accepted", JInt (EngineCheckpoint.accepted_scanned_sequence c))]%string;
  model_validate o :=
    match jget "tick" o, jget "physical_tick" o, jget "pressures" o, jget "accepted" o with
    | Some (JInt t), Some (JInt pt), Some (JObj ps), Some (JInt a) =>
        Ok (EngineCheckpoint.mk t (PhysicalState.mk pt (load_pressures ps) ∅ ∅) ControlState.empty a [] "" "" "")
    | _, _, _, _ => Err (ValidationError "EngineCheckpoint")
    end
|}.

Lemma load_dump_pressures m :
  match dump_pressures m with JObj o => load_pressures o = m | _ => False end.
Proof.
  unfold dump_pressures, load_pressures. rewrite <-(list_to_map_to_list m) at 2. f_equal.
  induction (map_to_list m) as [|[k x] l IH]; [done|]. simpl. f_equal. exact IH.
Qed.

(** The system of one node. *)
#[export] Instance linalg : Linalg := {|
  np_solve m v := match m, v with [[a]], [b] => Some [fdiv b a] | _, _ => None end;
  np_sum v := foldl fadd f0 v;
  np_max_abs v := foldl (λ acc x, py_max acc (fabs x)) f0 v
|}.
#[export] Instance libm : Libm := {| math_log _ := lit (-1); math_cos _ := f1 |}.

(** The value of a call that does not raise. *)
Definition from_ok {A} (d : A) (r : result A) : A := match r with Ok a => a | Err _ => d end.
Lemma from_ok_eq {A} (d : A) r : is_ok r = true → r = Ok (from_ok d r).
Proof. by destruct r. Qed.
Lemma from_ok_run {S A} (d : A) (m : M S A) s : is_ok (m s).1 = true → m s = (Ok (from_ok d (m s).1), (m s).2).
Proof. by destruct (m s) as [[]]. Qed.

Definition spec (ticks : Z) : RunSpec.t := RunSpec.mk (id 3) 1 7 1 (Some ticks) None.
Definition db0 : LabDB := (save_lab 0 (lab 1) 0 empty_lab_db).2.
Definition no_run (ticks : Z) : SimulationRun.t :=
  SimulationRun.mk (id 4) (spec ticks) RUN_CREATED (lab 1) "" "" "" "" None DT_DEFAULT 0 0 0.
Definition run (ticks : Z) : SimulationRun.t :=
  from_ok (no_run ticks) (start_run (id 4) (spec ticks) None db0).1.
Definition db1 (ticks : Z) : LabDB := (start_run (id 4) (spec ticks) None db0).2.
Definition network (ticks : Z) : CompiledNetwork.t :=
  from_ok (CompiledNetwork.mk "" [] ∅ ∅ [] ∅ [] [] ∅ [] [] [] [])
    (compile_lab (SimulationRun.definition (run ticks)) (SimulationRun.dt (run ticks))).
Definition draw (f : nat) (t : Z) (i : nat) : UUID := id (2 ^ 64 * Z.of_nat f + 2 ^ 8 * t + Z.of_nat i).

Lemma started : start_run (id 4) (spec 20) None db0 = (Ok (run 20), db1 20).
Proof. apply from_ok_run. by vm_compute. Qed.
Lemma compiled :
  compile_lab (SimulationRun.definition (run 20)) (SimulationRun.dt (run 20)) = Ok (network 20).
Proof. apply from_ok_eq. by vm_compute. Qed.
Example run_ok :
  match (run_once (run 20) draw (db1 20)).1 with Ok b => b | Err _ => false end = true.
Proof. by vm_compute. Qed.
Example observed : size (lab_outbox (run_once (run 20) draw (db1 20)).2) = 1%nat.
Proof. by vm_compute. Qed.
End LabExamples.
