(* ===== verification/LabEngineTheory.v ===== *)
(** * Virtual lab: the engine and the engines of a run *)

From S2P Require Import Prelude PyText PyUuid PyFloat PyJson Messages KafkaIo Tables LabContracts.
From S2P Require Import LabNetwork LabSolver LabSensors LabStore LabEngine LabOutbox.

(** ** Virtual lab: the engine against a plain simulation

    [reference run n] is the simulation of [n] ticks with no batches, no
    checkpoints and no database.  Batches of an engine are segments of it,
    whichever stored checkpoint the engine started from. *)

(** ** States that the physics does not tell apart *)
Definition phys_eq (s s' : PhysicalState.t) : Prop :=
  PhysicalState.tick s = PhysicalState.tick s' ∧
  PhysicalState.pressures_pa s = PhysicalState.pressures_pa s'.
#[export] Instance phys_eq_equivalence : Equivalence phys_eq.
Proof.
  split; unfold phys_eq.
  - done.
  - intros s s' [-> ->]. done.
  - intros s s' s'' [-> ->] [-> ->]. done.
Qed.

(** Checkpoints an engine continues alike: flows and modes are recomputed. *)
Definition chk_eq (c c' : EngineCheckpoint.t) : Prop :=
  EngineCheckpoint.tick c = EngineCheckpoint.tick c' ∧
  phys_eq (EngineCheckpoint.physical c) (EngineCheckpoint.physical c') ∧
  EngineCheckpoint.controls c = EngineCheckpoint.controls c' ∧
  EngineCheckpoint.accepted_scanned_sequence c = EngineCheckpoint.accepted_scanned_sequence c'.
#[export] Instance chk_eq_equivalence : Equivalence chk_eq.
Proof.
  split; unfold chk_eq.
  - done.
  - intros c c' (-> & Hp & -> & ->). by rewrite Hp.
  - intros c c' c'' (-> & Hp & -> & ->) (-> & Hp' & -> & ->). by rewrite Hp, Hp'.
Qed.

Section Theory.
Context `{Linalg, Libm}.
Context `{JsonModel LabDefinition.t, JsonModel EngineCheckpoint.t, JsonModel CommandRequest.t,
          JsonModel Observation.t}.
Variable run : SimulationRun.t.

#[export] Instance step_proper network :
  Proper (phys_eq ==> eq ==> eq ==> eq) (step network).
Proof.
  intros s s' [Ht Hp] c ? <- dt ? <-. unfold step.
  rewrite (foldR_ext (set_node s) (set_node s')) by (intros; unfold set_node, node_pressure; by rewrite Hp).
  by rewrite Ht.
Qed.

(** ** The reference simulation *)
Definition tick_observations (controls : ControlState.t) (s : PhysicalState.t)
  : result (list Observation.t) :=
  if PhysicalState.tick s mod 20 =? 0 then observe run s controls else Ok [].

Definition ref_step (network : CompiledNetwork.t) (st : PhysicalState.t * list Observation.t)
  : result (PhysicalState.t * list Observation.t) :=
  s ← step network st.1 ControlState.empty (SimulationRun.dt run);
  os ← tick_observations ControlState.empty s;
  Ok (s, st.2 ++ os).

Fixpoint iterateR {A} (f : A → result A) (n : nat) (a : A) : result A :=
  match n with O => Ok a | S n => a ← iterateR f n a; f a end.

Definition start_state : PhysicalState.t :=
  PhysicalState.mk 0 (initial_pressures (LabDefinition.assets (SimulationRun.definition run))) ∅
    (initial_modes (LabDefinition.assets (SimulationRun.definition run))).

Definition reference (n : nat) : result (PhysicalState.t * list Observation.t) :=
  network ← compile_lab (SimulationRun.definition run) (SimulationRun.dt run);
  iterateR (ref_step network) n (start_state, []).

Lemma iterateR_add {A} (f : A → result A) n k a :
  iterateR f (k + n) a = b ← iterateR f n a; iterateR f k b.
Proof.
  induction k as [|k IH]; simpl; [by destruct (iterateR f n a)|].
  rewrite IH. by destruct (iterateR f n a).
Qed.

Lemma step_tick network s c dt s' :
  step network s c dt = Ok s' → PhysicalState.tick s' = PhysicalState.tick s + 1.
Proof.
  unfold step. intros Hs. repeat (apply bind_Ok in Hs as (? & _ & Hs)).
  by injection Hs as <-.
Qed.

(** The rows a list of observations puts into the outbox. *)
Definition row_of (o : Observation.t) : UUID * Z * string * dict :=
  (Observation.sensor_id o, Observation.tick o, TOPIC_LAB_OBSERVATIONS, model_dump o).
Definition message_row (m : OutboxMessage.t) : UUID * Z * string * dict :=
  (OutboxMessage.sensor_id m, OutboxMessage.tick m, OutboxMessage.topic m, OutboxMessage.payload m).

Lemma message_rows draw os : message_row <$> imap (observation_message draw) os = row_of <$> os.
Proof.
  rewrite fmap_imap. apply list_eq. intros i. rewrite list_lookup_imap, list_lookup_fmap.
  by destruct (os !! i).
Qed.

(** ** Batches are segments of the reference *)
Lemma ref_step_from network s os :
  ref_step network (s, os) = st ← ref_step network (s, []); Ok (st.1, os ++ st.2).
Proof.
  unfold ref_step. simpl. destruct (step network s _ _); [|done]. simpl.
  by destruct (tick_observations _ _).
Qed.

Lemma iterate_from network k s os :
  iterateR (ref_step network) k (s, os)
  = st ← iterateR (ref_step network) k (s, []); Ok (st.1, os ++ st.2).
Proof.
  induction k as [|k IH]; simpl; [by rewrite app_nil_r|]. rewrite IH.
  destruct (iterateR _ k (s, [])) as [[s1 os1]|]; [|done]. simpl.
  rewrite (ref_step_from network s1 (os ++ os1)), (ref_step_from network s1 os1).
  destruct (ref_step network (s1, [])); simpl; [|done]. by rewrite app_assoc.
Qed.

Lemma iterate_tick network k s os st :
  iterateR (ref_step network) k (s, os) = Ok st → PhysicalState.tick st.1 = PhysicalState.tick s + Z.of_nat k.
Proof.
  revert st. induction k as [|k IH]; intros st Hit; simpl in Hit; [injection Hit as <-; simpl; lia|].
  apply bind_Ok in Hit as (st0 & Hit & Hst). pose proof (IH _ Hit). unfold ref_step in Hst.
  apply bind_Ok in Hst as (s' & Hs & Hst). apply step_tick in Hs.
  apply bind_Ok in Hst as (? & _ & Hst). injection Hst as <-. simpl. lia.
Qed.

Lemma reference_tick network n st :
  iterateR (ref_step network) n (start_state, []) = Ok st → PhysicalState.tick st.1 = Z.of_nat n.
Proof. by intros ->%iterate_tick. Qed.

Lemma sim_tick_ref network draw s msgs :
  sim_tick run network ControlState.empty draw (s, msgs)
  = st ← ref_step network (s, []); Ok (st.1, msgs ++ imap (observation_message draw) st.2).
Proof.
  unfold sim_tick, ref_step, tick_observations. simpl. destruct (step network s _ _) as [s'|]; [|done].
  simpl. destruct (_ =? 0); simpl; [by destruct (observe _ _ _)|]. by rewrite app_nil_r.
Qed.

Definition same_run (r1 : result (PhysicalState.t * list OutboxMessage.t))
    (r2 : result (PhysicalState.t * list Observation.t)) : Prop :=
  match r1, r2 with
  | Ok (s1, msgs), Ok (s2, os) => s1 = s2 ∧ message_row <$> msgs = row_of <$> os
  | Err e1, Err e2 => e1 = e2
  | _, _ => False
  end.

Lemma sim_ticks_ref network draw n : ∀ s msgs os,
  message_row <$> msgs = row_of <$> os →
  same_run (sim_ticks run n network ControlState.empty draw (s, msgs))
    (iterateR (ref_step network) n (s, os)).
Proof.
  induction n as [|n IH]; intros s msgs os Hrows; [done|].
  replace (S n) with (n + 1)%nat at 2 by lia. rewrite iterateR_add. cbn [sim_ticks iterateR].
  rewrite sim_tick_ref. change (iterateR (ref_step network) 0 (s, os)) with (Ok (s, os)).
  cbn [mbind result_bind]. rewrite (ref_step_from network s os).
  destruct (ref_step network (s, [])) as [[s1 os1]|e]; cbn [mbind result_bind]; [|done].
  apply IH. by rewrite !fmap_app, Hrows, message_rows.
Qed.

(** The messages of a batch have the identifiers drawn for their ticks. *)
Definition drawn_ids (draw : draws) (lo hi : Z) (msgs : list OutboxMessage.t) : Prop :=
  Forall (λ m, ∃ t i, OutboxMessage.message_id m = draw t i ∧ lo < t ≤ hi) msgs.
Definition injective_draw (draw : draws) : Prop :=
  ∀ t i t' i', draw t i = draw t' i' → t = t' ∧ i = i'.

Lemma observe_tick s o os :
  observe run s ControlState.empty = Ok os → o ∈ os → Observation.tick o = PhysicalState.tick s.
Proof.
  unfold observe. intros Ho Hin. apply fmap_Ok in Ho as (oss & Ho & ->).
  apply mapR_Forall2 in Ho. apply list_elem_of_In, in_concat in Hin as (l & Hl & Hin).
  apply list_elem_of_In in Hl, Hin. apply list_elem_of_lookup in Hl as [i Hl].
  destruct (Forall2_lookup_r _ _ _ _ _ Ho Hl) as (sen & _ & Hs).
  unfold observe_sensor in Hs. apply bind_Ok in Hs as ([[[u tr] a]|] & _ & Hs);
    [|injection Hs as <-; by apply elem_of_nil in Hin].
  apply bind_Ok in Hs as (rd & _ & Hs). apply bind_Ok in Hs as (o' & Ho' & Hs). injection Hs as <-.
  apply list_elem_of_singleton in Hin as ->. unfold Observation.make in Ho'.
  apply bind_Ok in Ho' as (? & _ & Ho'). by injection Ho' as <-.
Qed.
End Theory.

(** ** Virtual lab: engines and clients of one run

    Any number of engines of one run load, advance and crash while clients use
    the store: an [Action] is one transaction of one of them, and a schedule is
    any list of actions.  [sys_exact], which every action keeps, says that the
    stored run is a prefix of the reference simulation and that the outbox holds
    its observations. *)

(** pydantic and the JSON column give back a checkpoint that is continued alike. *)
Definition checkpoint_json `{JsonModel EngineCheckpoint.t} : Prop :=
  ∀ c : EngineCheckpoint.t, EngineCheckpoint.controls c = ControlState.empty →
    model_dump c ≠ [] ∧ ∃ c', model_validate (model_dump c) = Ok c' ∧ chk_eq c c'.

(** ** The other users of the store *)
Inductive ClientOp :=
| SaveLab (now : Z) (d : LabDefinition.t) (expected_revision : Z)
| StartRun (fresh : UUID) (spec : RunSpec.t) (run_id : option UUID)
| SubmitCommand (run_id : UUID) (request : CommandRequest.t)
| AppendHistory (run_id : UUID) (tick : Z) (frame : dict)
| PublishRows (now : Z) (ids : list UUID)
| Heartbeat (worker_id : UUID) (row : HealthRow.t).

Section Clients.
Context `{JsonModel LabDefinition.t, JsonModel EngineCheckpoint.t, JsonModel CommandRequest.t}.

(** The database after the operation, whatever its outcome. *)
Definition client_op (op : ClientOp) (db : LabDB) : LabDB :=
  match op with
  | SaveLab now d expected => (save_lab now d expected db).2
  | StartRun fresh spec run_id => (start_run fresh spec run_id db).2
  | SubmitCommand run_id request => (submit_command run_id request db).2
  | AppendHistory run_id tick frame => (append_history run_id tick frame db).2
  | PublishRows now ids => mark_ids now ids db
  | Heartbeat worker_id row => set_health <[worker_id := row]> db
  end.
End Clients.

(** ** What the engine's state in the database is *)
Section Frame.
Variable run_id : UUID.

(** The columns the engine owns. *)
Definition progress_of (r : RunRow.t) : Z * Z * Z * dict :=
  (RunRow.fence r, RunRow.event_sequence r, RunRow.tick r, RunRow.checkpoint r).
Definition stored_progress (db : LabDB) : option (Z * Z * Z * dict) := progress_of <$> lab_runs db !! run_id.

Definition message_of_run (_ : UUID) (r : LabOutboxRow.t) : option (UUID * Z * string * dict) :=
  if bool_decide (LabOutboxRow.run_id r = run_id)
  then Some (LabOutboxRow.sensor_id r, LabOutboxRow.tick r, LabOutboxRow.topic r, LabOutboxRow.payload r)
  else None.
Definition run_messages (db : LabDB) : list (UUID * Z * string * dict) :=
  select message_of_run (lab_outbox db).

(** An operation that leaves the run and its messages alone. *)
Definition leaves_run (db db' : LabDB) : Prop :=
  (is_Some (stored_progress db) → stored_progress db' = stored_progress db) ∧
  run_messages db' ≡ₚ run_messages db.

Lemma leaves_run_refl db : leaves_run db db.
Proof. done. Qed.

Lemma leaves_run_same db db' :
  lab_runs db' = lab_runs db → lab_outbox db' = lab_outbox db → leaves_run db db'.
Proof. intros Hr Ho. unfold leaves_run, stored_progress, run_messages. by rewrite Hr, Ho. Qed.

Lemma leaves_transaction {A} (body : LabDB → result (A * LabDB)) db :
  (∀ a db', body db = Ok (a, db') → leaves_run db db') → leaves_run db (transaction body db).2.
Proof. intros Hb. unfold transaction. destruct (body db) as [[a db']|]; simpl; eauto using leaves_run_refl. Qed.

Context `{JsonModel LabDefinition.t, JsonModel EngineCheckpoint.t, JsonModel CommandRequest.t}.

Lemma query_db {A} (f : LabDB → result A) db : (query f db).2 = db.
Proof. done. Qed.

Lemma leaves_save now d expected db : leaves_run db (save_lab now d expected db).2.
Proof.
  unfold save_lab. rewrite M_bind_run. unfold lift_res. destruct (compute_definition_digest d) as [dg|]; [|done].
  apply leaves_transaction. intros a db' Hb. unfold save_body in Hb.
  apply bind_Ok in Hb as ([rev db1] & Hn & Hb). apply bind_Ok in Hb as (? & _ & Hb). injection Hb as _ <-.
  apply leaves_run_same; unfold next_revision in Hn; destruct (lab_definitions db !! _).
  all: repeat (apply bind_Ok in Hn as (? & _ & Hn)); by injection Hn as _ <-.
Qed.

Lemma insert_run_leaves r chk db db' : insert_run r chk db = Ok db' → leaves_run db db'.
Proof.
  unfold insert_run. intros Hb. do 2 apply bind_Ok in Hb as (? & _ & Hb).
  apply bind_Ok in Hb as (? & Hpk & Hb). repeat (apply bind_Ok in Hb as (? & _ & Hb)).
  injection Hb as <-. apply guard_exn_Ok, bool_decide_eq_true in Hpk. split; [|done].
  unfold stored_progress. simpl. intros Hsome. rewrite lookup_insert_ne; [done|].
  intros Heq. rewrite <-Heq, Hpk in Hsome. by apply is_Some_None in Hsome.
Qed.

Lemma leaves_start fresh spec rid db : leaves_run db (start_run fresh spec rid db).2.
Proof.
  unfold start_run, get_lab. rewrite M_bind_run. unfold query.
  destruct (match revision_row db _ _ with Some _ => _ | None => _ end) as [found|]; [|done].
  rewrite M_bind_run. unfold lift_res at 1. destruct (of_option _ found) as [def|]; [|done].
  rewrite M_bind_run. unfold lift_res at 1. destruct (validate_lab def) as [v|]; [|done].
  rewrite M_bind_run. unfold lift_res at 1. destruct (guard_exn _ _); [|done].
  rewrite M_bind_run. unfold lift_res at 1. destruct (compute_definition_digest def) as [dg|]; [|done].
  rewrite M_bind_run. unfold lift_res at 1. destruct (initial_checkpoint dg _) as [chk|]; [|done].
  rewrite M_bind_run. unfold update, transaction.
  destruct (insert_run _ chk db) as [db'|] eqn:Hi; simpl; [|done]. eauto using insert_run_leaves.
Qed.

Lemma leaves_submit rid request db : leaves_run db (submit_command rid request db).2.
Proof.
  unfold submit_command. rewrite M_bind_run. unfold lift_res. destruct (payload_hash request) as [h|]; [|done].
  rewrite M_bind_run. unfold find_command, query.
  destruct (match lab_commands db !! _ with Some _ => _ | None => _ end) as [[r|]|]; [done| |done].
  apply leaves_transaction. intros a db' Hb. unfold accept_body in Hb.
  apply bind_Ok in Hb as (row & Hrow & Hb). apply of_option_Ok in Hrow.
  repeat (apply bind_Ok in Hb as (? & _ & Hb)). injection Hb as _ <-.
  split; [|done]. unfold stored_progress. simpl. intros _. destruct (decide (rid = run_id)) as [->|Hne].
  - rewrite lookup_insert_eq, Hrow. done.
  - by rewrite lookup_insert_ne.
Qed.

Lemma leaves_history rid t frame db : leaves_run db (append_history rid t frame db).2.
Proof.
  unfold append_history, update. apply leaves_transaction. intros a db' Hb.
  apply bind_Ok in Hb as (db1 & Hb & Ha). injection Ha as _ <-.
  apply bind_Ok in Hb as (? & _ & Hb). destruct (lab_history db !! _).
  - injection Hb as <-. apply leaves_run_refl.
  - apply bind_Ok in Hb as (? & _ & Hb). injection Hb as <-. by apply leaves_run_same.
Qed.

Lemma leaves_publish now ids db : leaves_run db (mark_ids now ids db).
Proof.
  split; [done|]. unfold run_messages. simpl. induction ids as [|id ids IH] using rev_ind; [done|].
  rewrite foldl_app. simpl. rewrite select_alter by done. exact IH.
Qed.

Lemma leaves_client op db : leaves_run db (client_op op db).
Proof.
  destruct op; simpl; auto using leaves_save, leaves_start, leaves_submit, leaves_history, leaves_publish.
  by apply leaves_run_same.
Qed.
End Frame.

(** ** The transaction of a batch *)
Lemma insert_messages_rows `{JsonModel LabDefinition.t} rid msgs : ∀ db db',
  foldR (insert_message rid) db msgs = Ok db' →
  lab_runs db' = lab_runs db ∧ run_messages rid db' ≡ₚ run_messages rid db ++ (message_row <$> msgs).
Proof.
  induction msgs as [|m msgs IH]; intros db db' Hf; simpl in Hf.
  - injection Hf as <-. by rewrite app_nil_r.
  - apply bind_Ok in Hf as (db1 & Hi & Hf). apply IH in Hf as [Hr Hm]. unfold insert_message in Hi.
    apply bind_Ok in Hi as (? & _ & Hi). apply bind_Ok in Hi as (? & Hpk & Hi).
    apply guard_exn_Ok, bool_decide_eq_true in Hpk. apply bind_Ok in Hi as (? & _ & Hi).
    injection Hi as <-. split; [by rewrite Hr|]. rewrite Hm. unfold run_messages. simpl.
    rewrite select_insert by done. unfold message_of_run at 1. rewrite bool_decide_eq_true_2 by done.
    simpl. apply Permutation_middle.
Qed.

(** ** The system *)
Record Sys := mkSys { sys_db : LabDB; engines : gmap nat EngineCheckpoint.t }.

Inductive Action :=
| Client (op : ClientOp)
| Load (i : nat)
| Batch (i : nat) (draw : draws)
| Crash (i : nat).

Section System.
Context `{Linalg, Libm}.
Context `{JsonModel LabDefinition.t, JsonModel EngineCheckpoint.t, JsonModel CommandRequest.t,
          JsonModel Observation.t}.
Variable run : SimulationRun.t.
Variable network : CompiledNetwork.t.

(** The parts of [run_once] between two accesses to the database. *)
Definition sys_step (s : Sys) (a : Action) : Sys :=
  match a with
  | Client op => mkSys (client_op op (sys_db s)) (engines s)
  | Load i =>
      match load_or_create_checkpoint run (sys_db s) with
      | (Ok chk, db) => mkSys db (<[i := chk]> (engines s))
      | (Err _, db) => mkSys db (engines s)
      end
  | Batch i draw =>
      match engines s !! i with
      | None => s
      | Some chk =>
          if EngineCheckpoint.tick chk <? max_ticks run then
            match engine_batch run network draw chk (sys_db s) with
            | (Ok (Some chk'), db) => mkSys db (<[i := chk']> (engines s))
            | (_, db) => mkSys db (delete i (engines s))
            end
          else mkSys (sys_db s) (delete i (engines s))
      end
  | Crash i => mkSys (sys_db s) (delete i (engines s))
  end.
Definition sys_run (schedule : list Action) (s : Sys) : Sys := foldl sys_step s schedule.

(** A checkpoint of the reference simulation after [n] ticks. *)
Definition chk_at (n : nat) (st : PhysicalState.t * list Observation.t) (c : EngineCheckpoint.t) : Prop :=
  iterateR (ref_step run network) n (start_state run, []) = Ok st ∧
  EngineCheckpoint.tick c = Z.of_nat n ∧ phys_eq (EngineCheckpoint.physical c) st.1 ∧
  EngineCheckpoint.controls c = ControlState.empty ∧ EngineCheckpoint.accepted_scanned_sequence c = 0.

(** The database holds the reference after some ticks, and its observations. *)
Definition db_at (n : nat) (st : PhysicalState.t * list Observation.t) (db : LabDB) : Prop :=
  ∃ c dump, chk_at n st c ∧ stored_progress (run_key run) db = Some (0, 0, Z.of_nat n, dump) ∧
    dump ≠ [] ∧ model_validate dump = Ok c ∧ run_messages (run_key run) db ≡ₚ row_of <$> st.2.
Definition db_exact (db : LabDB) : Prop :=
  ∃ n st, db_at n st db ∧ Z.of_nat n ≤ Z.max 0 (max_ticks run).
Definition sys_exact (s : Sys) : Prop :=
  db_exact (sys_db s) ∧ map_Forall (λ _ c, ∃ n st, chk_at n st c) (engines s).

Lemma chk_at_eq n st c c' : chk_at n st c → chk_eq c c' → chk_at n st c'.
Proof.
  intros (Hn & Ht & Hp & Hc & Ha) (Ht' & Hp' & Hc' & Ha'). split; [done|].
  by rewrite <-Ht', <-Hc', <-Hp', <-Ha'.
Qed.

Lemma exact_leaves db db' : db_exact db → leaves_run (run_key run) db db' → db_exact db'.
Proof.
  intros (n & st & (c & dump & Hc & Hs & Hd & Hv & Hm) & Hle) [Hl Hl']. exists n, st. split; [|done].
  exists c, dump. split; [done|]. rewrite Hl by (rewrite Hs; eauto). by rewrite Hl'.
Qed.

Lemma batch_reference draw n st c c' msgs :
  chk_at n st c → Z.of_nat n < max_ticks run → run_batch run network draw c = Ok (c', msgs) →
  ∃ k os, chk_at (k + n) (EngineCheckpoint.physical c', st.2 ++ os) c' ∧
    message_row <$> msgs = row_of <$> os ∧ (0 < k)%nat ∧ EngineCheckpoint.tick c' ≤ max_ticks run.
Proof.
  intros (Hn & Ht & Hp & Hc & Ha) Hlt Hb. unfold run_batch in Hb. rewrite Ht, Hc in Hb.
  apply bind_Ok in Hb as ([s' msgs'] & Hs & Hb). apply bind_Ok in Hb as (c1 & Hmk & Hb).
  injection Hb as <- <-. unfold EngineCheckpoint.make in Hmk. do 2 apply bind_Ok in Hmk as (? & _ & Hmk).
  injection Hmk as <-. set (k := Z.to_nat (Z.min 2 (max_ticks run - Z.of_nat n))) in *.
  assert (sim_ticks run k network ControlState.empty draw (st.1, []) = Ok (s', msgs')) as Hs'.
  { rewrite <-Hs. assert (∃ k', k = S k') as [k' ->] by (exists (pred k); lia). cbn [sim_ticks]. f_equal.
    unfold sim_tick. by rewrite Hp. }
  pose proof (sim_ticks_ref run network draw k st.1 [] [] eq_refl) as Hr0.
  rewrite Hs' in Hr0. destruct (iterateR _ k (st.1, [])) as [[s1 os]|] eqn:Hit; [|done].
  destruct Hr0 as [<- Hrows]. exists k, os.
  assert (iterateR (ref_step run network) (k + n) (start_state run, []) = Ok (s', st.2 ++ os)) as Hall.
  { rewrite iterateR_add, Hn. simpl. destruct st as [s0 os0]. simpl in *. by rewrite iterate_from, Hit. }
  pose proof (reference_tick _ _ _ _ Hall) as Htk. simpl in Htk.
  repeat split; simpl; try done; lia.
Qed.

Lemma checkpoint_effect rid expected (c : EngineCheckpoint.t) msgs db db' :
  checkpoint rid 0 expected c [] msgs db = (Ok true, db') →
  ∃ es dump, stored_progress rid db = Some (0, es, expected, dump) ∧
    stored_progress rid db' = Some (0, es, EngineCheckpoint.tick c, model_dump c) ∧
    run_messages rid db' ≡ₚ run_messages rid db ++ (message_row <$> msgs).
Proof.
  unfold checkpoint, transaction. destruct (checkpoint_body _ _ _ _ _ _ _) as [[b d]|] eqn:Hb; [|done].
  intros Heq. injection Heq as -> ->. unfold checkpoint_body in Hb.
  destruct (lab_runs db !! rid) as [row|] eqn:Hrow; [|done].
  destruct (bool_decide _ && bool_decide _) eqn:Hcond; [|done].
  apply andb_true_iff in Hcond as [Hfence%bool_decide_eq_true Htick%bool_decide_eq_true].
  do 3 apply bind_Ok in Hb as (? & _ & Hb). apply bind_Ok in Hb as (db1 & Hev & Hb). simpl in Hev.
  injection Hev as <-. apply bind_Ok in Hb as (db2 & Hm & Hb). injection Hb as <-.
  apply insert_messages_rows in Hm as [Hr Hm]. exists (RunRow.event_sequence row), (RunRow.checkpoint row).
  unfold stored_progress. rewrite Hr, Hrow. simpl. rewrite lookup_insert_eq. simpl.
  unfold progress_of. simpl. by rewrite Hfence, Htick, Z.add_0_r.
Qed.

Lemma checkpoint_refused rid expected (c : EngineCheckpoint.t) msgs db r db' :
  checkpoint rid 0 expected c [] msgs db = (r, db') → r ≠ Ok true → db' = db.
Proof.
  unfold checkpoint, transaction. destruct (checkpoint_body _ _ _ _ _ _ _) as [[[] d]|] eqn:Hb.
  - intros [= <- <-]. done.
  - intros [= <- <-] _. unfold checkpoint_body in Hb.
    destruct (lab_runs db !! rid) as [row|]; [|by injection Hb as <-].
    destruct (bool_decide _ && bool_decide _); [|by injection Hb as <-].
    repeat (apply bind_Ok in Hb as (? & _ & Hb)). done.
  - by intros [= <- <-].
Qed.

Lemma batch_exact draw n st c db r db' :
  checkpoint_json → db_exact db → chk_at n st c → EngineCheckpoint.tick c < max_ticks run →
  engine_batch run network draw c db = (r, db') →
  db_exact db' ∧ (∀ c', r = Ok (Some c') → ∃ n' st', chk_at n' st' c').
Proof.
  intros Hjson Hex Hc Hlt. unfold engine_batch. rewrite M_bind_run. unfold lift_res.
  destruct (run_batch run network draw c) as [[c' msgs]|] eqn:Hb; [|by intros [= <- <-]].
  rewrite M_bind_run. cbn [fst snd]. destruct (checkpoint _ _ _ c' [] msgs db) as [[b|e] db1] eqn:Hck.
  - intros [= <- <-]. destruct b; [|by rewrite (checkpoint_refused _ _ _ _ _ _ _ Hck)].
    pose proof Hc as (_ & Htick & _). rewrite Htick in Hlt.
    destruct (batch_reference draw n st c c' msgs Hc Hlt Hb) as (k & os & Hc' & Hrows & _ & Hle).
    split; [|intros c'' [= <-]; eauto].
    apply checkpoint_effect in Hck as (es & dump & Hs & Hs' & Hm).
    destruct Hex as (n0 & st0 & (c0 & dump0 & Hc0 & Hs0 & _ & _ & Hm0) & _).
    rewrite Hs in Hs0. rewrite Htick in Hs0. injection Hs0 as -> Hn _. apply Nat2Z.inj in Hn as <-.
    destruct Hc as [E1 _], Hc0 as [E2 _]. rewrite E1 in E2. injection E2 as <-.
    destruct (Hjson c') as [Hne (c'' & Hv & Heq)]; [by destruct Hc' as (_ & _ & _ & ? & _)|].
    assert (EngineCheckpoint.tick c' = Z.of_nat (k + n)) as Ht' by (by destruct Hc' as (_ & -> & _)).
    exists (k + n)%nat, (EngineCheckpoint.physical c', st.2 ++ os). split; [|lia].
    exists c'', (model_dump c'). split; [by eapply chk_at_eq|]. split; [by rewrite Hs', Ht'|].
    split; [done|]. split; [done|]. rewrite Hm, Hm0, Hrows. simpl. by rewrite fmap_app.
  - intros [= <- <-]. by rewrite (checkpoint_refused _ _ _ _ _ _ _ Hck).
Qed.

Lemma sys_step_exact s a : checkpoint_json → sys_exact s → sys_exact (sys_step s a).
Proof.
  intros Hjson [Hdb Heng]. destruct a as [op|i|i draw|i]; simpl.
  - split; [|done]. eapply exact_leaves; [done|apply leaves_client].
  - unfold load_or_create_checkpoint, query. destruct Hdb as (n & st & (c & dump & Hc & Hs & Hd & Hv & Hm) & Hle).
    pose proof Hs as Hs'. unfold stored_progress in Hs.
    destruct (lab_runs (sys_db s) !! run_key run) as [row|]; [|done]. simpl in Hs.
    injection Hs as Hf He Ht Hk. rewrite Hk, bool_decide_eq_false_2, Hv by done.
    split; [exists n, st; split; [by exists c, dump|done]|]. apply map_Forall_insert_2; [by eauto|done].
  - destruct (engines s !! i) as [c|] eqn:Hi; [|done]. destruct (Heng i c Hi) as (n & st & Hc).
    destruct (_ <? _) eqn:Hlt; [|split; [done|by apply map_Forall_delete]]. apply Z.ltb_lt in Hlt.
    destruct (engine_batch _ _ _ _ _) as [r db'] eqn:Hb.
    destruct (batch_exact draw n st c (sys_db s) r db' Hjson Hdb Hc Hlt Hb) as [Hdb' Hr].
    destruct r as [[c'|]|e]; (split; [done|]); try (by apply map_Forall_delete).
    apply map_Forall_insert_2; [by eauto|done].
  - split; [done|]. by apply map_Forall_delete.
Qed.

Lemma sys_run_exact schedule s : checkpoint_json → sys_exact s → sys_exact (sys_run schedule s).
Proof.
  intros Hjson. unfold sys_run. revert s. induction schedule as [|a l IH]; intros s Hs; [done|].
  simpl. apply IH. by apply sys_step_exact.
Qed.
End System.
