(* ===== verification/LabEngineProps.v ===== *)
(** * Virtual lab: what the engine promises *)

From S2P Require Import Prelude PyText PyUuid PyFloat PyJson Messages KafkaIo Tables LabContracts.
From S2P Require Import LabNetwork LabSolver LabSensors LabStore LabEngine LabExamples.
From S2P Require Import LabEngineTheory.

(** ** Virtual lab: progress of an undisturbed engine

    Identifiers of new messages do not clash, so the transaction of a batch is
    accepted, and the loop of [run_once] reaches the last tick. *)

Section Live.
Context `{Linalg, Libm}.
Context `{JsonModel LabDefinition.t, JsonModel EngineCheckpoint.t, JsonModel CommandRequest.t,
          JsonModel Observation.t}.
Variable run : SimulationRun.t.
Variable network : CompiledNetwork.t.

(** The ticks and the positions an identifier is drawn for. *)
Definition drawn (t : Z) (i : nat) : Prop :=
  0 ≤ t ≤ max_ticks run ∧ (i < length (LabDefinition.sensors (SimulationRun.definition run)))%nat.
Definition injective_draws (draw : draws) : Prop :=
  ∀ t i t' i', drawn t i → drawn t' i' → draw t i = draw t' i' → t = t' ∧ i = i'.

(** Identifiers drawn by the batches numbered below [fuel] are new and distinct. *)
Definition fresh_draws (draw : nat → draws) (fuel : nat) (db : LabDB) : Prop :=
  (∀ f t i, (f < fuel)%nat → drawn t i → lab_outbox db !! draw f t i = None) ∧
  (∀ f t i f' t' i', (f < fuel)%nat → (f' < fuel)%nat → drawn t i → drawn t' i' →
     draw f t i = draw f' t' i' → f = f' ∧ t = t' ∧ i = i').

Lemma concat_length {A} (ls : list (list A)) n :
  Forall (λ l, length l ≤ n)%nat ls → (length (concat ls) ≤ n * length ls)%nat.
Proof. induction 1; simpl; [lia|]. rewrite length_app. lia. Qed.

(** At most one observation per sensor. *)
Lemma observe_length s os :
  observe run s ControlState.empty = Ok os →
  (length os ≤ length (LabDefinition.sensors (SimulationRun.definition run)))%nat.
Proof.
  unfold observe. intros Ho. apply fmap_Ok in Ho as (oss & Ho & ->). apply mapR_Forall2 in Ho.
  rewrite (Forall2_length _ _ _ Ho). rewrite <-(Nat.mul_1_l (length oss)). apply concat_length.
  apply Forall_forall. intros l Hl. apply list_elem_of_lookup in Hl as [i Hl].
  destruct (Forall2_lookup_r _ _ _ _ _ Ho Hl) as (sen & _ & Hs).
  unfold observe_sensor in Hs. apply bind_Ok in Hs as ([[[u tr] a]|] & _ & Hs);
    [|injection Hs as <-; simpl; lia].
  apply bind_Ok in Hs as (rd & _ & Hs). apply bind_Ok in Hs as (o' & _ & Hs). injection Hs as <-. simpl. lia.
Qed.

Lemma observe_ticks s os :
  observe run s ControlState.empty = Ok os → Forall (λ o, Observation.tick o = PhysicalState.tick s) os.
Proof. intros Ho. apply Forall_forall. intros o Hin. by eapply observe_tick. Qed.

Definition id_below (draw : draws) (hi : Z) (m : OutboxMessage.t) : Prop :=
  0 ≤ OutboxMessage.tick m ≤ hi ∧ ∃ t i, OutboxMessage.message_id m = draw t i ∧ drawn t i ∧ t ≤ hi.
Definition ids_below (draw : draws) (hi : Z) (msgs : list OutboxMessage.t) : Prop :=
  NoDup (OutboxMessage.message_id <$> msgs) ∧ Forall (id_below draw hi) msgs.

Lemma drawn_nodup (draw : draws) t os :
  injective_draws draw → (∀ i, (i < length os)%nat → drawn t i) →
  Forall (λ o, Observation.tick o = t) os →
  NoDup (OutboxMessage.message_id <$> imap (observation_message draw) os).
Proof.
  intros Hinj Hdr Hall. apply NoDup_alt. intros i j x Hi Hj.
  rewrite list_lookup_fmap, list_lookup_imap in Hi, Hj.
  destruct (os !! i) as [o|] eqn:Eo; [|done]. destruct (os !! j) as [o'|] eqn:Eo'; [|done].
  pose proof (Forall_lookup_1 _ _ _ _ Hall Eo) as Ht. pose proof (Forall_lookup_1 _ _ _ _ Hall Eo') as Ht'.
  simpl in Hi, Hj, Ht, Ht'. assert (draw t i = draw t j) as Hd by congruence.
  apply lookup_lt_Some in Eo, Eo'. apply Hinj in Hd as [_ ->]; auto.
Qed.

Lemma sim_tick_ids draw s msgs s' msgs' :
  injective_draws draw → 0 ≤ PhysicalState.tick s < max_ticks run →
  ids_below draw (PhysicalState.tick s) msgs →
  sim_tick run network ControlState.empty draw (s, msgs) = Ok (s', msgs') →
  ids_below draw (PhysicalState.tick s') msgs' ∧ PhysicalState.tick s' = PhysicalState.tick s + 1.
Proof.
  intros Hinj Hpos [Hnd Hall] Hst. unfold sim_tick in Hst. apply bind_Ok in Hst as (s1 & Hs & Hst).
  apply step_tick in Hs.
  assert (Forall (id_below draw (PhysicalState.tick s1)) msgs) as Hmono.
  { eapply Forall_impl; [exact Hall|]. intros m (? & t & i & ? & ? & ?). split; [lia|].
    exists t, i. split; [done|split; [done|lia]]. }
  destruct (_ =? 0).
  - apply bind_Ok in Hst as (os & Ho & Hst). injection Hst as <- <-. pose proof (observe_length _ _ Ho) as Hlen.
    apply observe_ticks in Ho.
    assert (∀ i, (i < length os)%nat → drawn (PhysicalState.tick s1) i) as Hdr by (intros; split; lia).
    split; [split|done].
    + rewrite fmap_app. apply NoDup_app. split; [done|]. split; [|by eapply drawn_nodup].
      intros x Hx Hx'. apply list_elem_of_fmap in Hx as (m & -> & Hm).
      rewrite Forall_forall in Hall. destruct (Hall m Hm) as (_ & t & i & Hid & Hd & Ht).
      apply list_elem_of_fmap in Hx' as (m' & Heq & Hm').
      apply elem_of_lookup_imap in Hm' as (j & o & -> & Hj). simpl in Heq. rewrite Hid in Heq.
      pose proof (Forall_lookup_1 _ _ _ _ Ho Hj) as Hto. simpl in Hto. rewrite Hto in Heq.
      apply Hinj in Heq as [-> _]; [lia|done|]. apply Hdr. by apply lookup_lt_Some in Hj.
    + apply Forall_app. split; [done|]. apply Forall_forall. intros m Hm.
      apply elem_of_lookup_imap in Hm as (j & o & -> & Hj).
      pose proof (Forall_lookup_1 _ _ _ _ Ho Hj) as Hto. simpl in Hto.
      split; [simpl; lia|]. exists (Observation.tick o), j. split; [done|].
      rewrite Hto. apply lookup_lt_Some in Hj. split; [by apply Hdr|lia].
  - injection Hst as <- <-. split; [split|]; auto.
Qed.

Lemma sim_ticks_ids draw n : ∀ s msgs s' msgs',
  injective_draws draw → 0 ≤ PhysicalState.tick s → PhysicalState.tick s + Z.of_nat n ≤ max_ticks run →
  ids_below draw (PhysicalState.tick s) msgs →
  sim_ticks run n network ControlState.empty draw (s, msgs) = Ok (s', msgs') →
  ids_below draw (PhysicalState.tick s') msgs' ∧ PhysicalState.tick s' = PhysicalState.tick s + Z.of_nat n.
Proof.
  induction n as [|n IH]; intros s msgs s' msgs' Hinj Hpos Hmax Hids Hst; cbn [sim_ticks] in Hst.
  - injection Hst as <- <-. split; [done|lia].
  - apply bind_Ok in Hst as ([s1 msgs1] & Ht & Hst).
    apply sim_tick_ids in Ht as [Hids1 Ht]; [|done|lia|done].
    apply IH in Hst as [? Hn]; [|done|lia|lia|done]. split; [done|lia].
Qed.

Lemma insert_message_ok rid db m :
  is_Some (lab_runs db !! rid) → lab_outbox db !! OutboxMessage.message_id m = None →
  bigint (OutboxMessage.tick m) = Ok () →
  ∃ row, insert_message rid db m = Ok (set_lab_outbox <[OutboxMessage.message_id m := row]> db).
Proof.
  intros Hrun Hid Htick. unfold insert_message. rewrite Htick. cbn [mbind result_bind].
  rewrite Hid, bool_decide_eq_true_2 by done. cbn [guard_exn mbind result_bind].
  unfold references. rewrite bool_decide_eq_true_2 by done. cbn [guard_exn mbind result_bind]. eauto.
Qed.

Lemma insert_messages_ok rid msgs : ∀ db,
  is_Some (lab_runs db !! rid) → NoDup (OutboxMessage.message_id <$> msgs) →
  Forall (λ m, lab_outbox db !! OutboxMessage.message_id m = None ∧
               bigint (OutboxMessage.tick m) = Ok ()) msgs →
  ∃ db', foldR (insert_message rid) db msgs = Ok db' ∧
    ∀ id, id ∉ (OutboxMessage.message_id <$> msgs) → lab_outbox db' !! id = lab_outbox db !! id.
Proof.
  induction msgs as [|m msgs IH]; intros db Hrun Hnd Hall; [by exists db|]. cbn [foldR].
  rewrite fmap_cons in Hnd. apply NoDup_cons in Hnd as [Hni Hnd].
  apply Forall_cons in Hall as [[Hid Htick] Hall]. 
  destruct (insert_message_ok rid db m Hrun Hid Htick) as [row ->]. cbn [mbind result_bind].
  destruct (IH (set_lab_outbox <[OutboxMessage.message_id m := row]> db)) as (db' & Hdb' & Hids); simpl.
  - done.
  - done.
  - apply Forall_forall. intros m' Hm'. rewrite Forall_forall in Hall. destruct (Hall m' Hm') as [Hid' Ht'].
    split; [|done]. rewrite lookup_insert_ne; [done|]. intros Heq. apply Hni. rewrite Heq.
    by apply list_elem_of_fmap_2.
  - exists db'. split; [done|]. intros id Hid''. rewrite not_elem_of_cons in Hid''. destruct Hid'' as [Hne Hid''].
    rewrite Hids by done. simpl. by rewrite lookup_insert_ne.
Qed.

Lemma bigint_ok n : 0 ≤ n < 2 ^ 63 → bigint n = Ok ().
Proof.
  intros Hn. unfold bigint, int_column. rewrite (proj2 (Z.leb_le _ _)) by lia.
  by rewrite (proj2 (Z.ltb_lt _ _)) by lia.
Qed.

(** A checkpoint at the stored tick with new identifiers is committed. *)
Lemma checkpoint_ok rid n dump (c : EngineCheckpoint.t) msgs db :
  stored_progress rid db = Some (0, 0, n, dump) → 0 ≤ EngineCheckpoint.tick c < 2 ^ 63 →
  NoDup (OutboxMessage.message_id <$> msgs) →
  Forall (λ m, lab_outbox db !! OutboxMessage.message_id m = None ∧
               bigint (OutboxMessage.tick m) = Ok ()) msgs →
  ∃ db', checkpoint rid 0 n c [] msgs db = (Ok true, db') ∧
    ∀ id, id ∉ (OutboxMessage.message_id <$> msgs) → lab_outbox db' !! id = lab_outbox db !! id.
Proof.
  intros Hs Ht Hnd Hall. unfold stored_progress in Hs.
  destruct (lab_runs db !! rid) as [row|] eqn:Hrow; [|done]. simpl in Hs. injection Hs as Hf He Hk _.
  destruct (insert_messages_ok rid msgs (set_runs <[rid := RunRow.set_progress (EngineCheckpoint.tick c)
      (model_dump c) (Z.of_nat 0) row]> db)) as (db' & Hdb' & Hids); [|done|done|].
  { simpl. rewrite lookup_insert_eq. eauto. }
  exists db'. split; [|exact Hids]. unfold checkpoint, transaction, checkpoint_body.
  rewrite Hrow, Hf, Hk, He. rewrite !bool_decide_eq_true_2 by done. cbn [andb].
  rewrite (bigint_ok (EngineCheckpoint.tick c)) by done. cbn [mbind result_bind length].
  rewrite (bigint_ok (0 + Z.of_nat 0)) by lia. cbn [mbind result_bind].
  rewrite (proj2 (Z.leb_le _ _)) by lia. cbn [guard_exn mbind result_bind].
  change (foldR (insert_event rid) ?d []) with (Ok d). cbn [mbind result_bind].
  by rewrite Hdb'.
Qed.

Lemma batch_runs draw n st c os N :
  chk_at run network n st c → Z.of_nat n < max_ticks run → N = Z.to_nat (max_ticks run) →
  iterateR (ref_step run network) N (start_state run, []) = Ok os →
  injective_draws draw →
  ∃ c' msgs, run_batch run network draw c = Ok (c', msgs) ∧ Z.of_nat n < EngineCheckpoint.tick c' ∧
    ids_below draw (EngineCheckpoint.tick c') msgs.
Proof.
  intros (Hn & Ht & Hp & Hc & Ha) Hlt -> Hall Hinj. unfold run_batch. rewrite Ht, Hc.
  set (k := Z.to_nat (Z.min 2 (max_ticks run - Z.of_nat n))).
  assert (∃ k', k = S k') as [k' Hk'] by (exists (pred k); lia).
  assert (sim_ticks run k network ControlState.empty draw (EngineCheckpoint.physical c, [])
          = sim_ticks run k network ControlState.empty draw (st.1, [])) as ->.
  { rewrite Hk'. cbn [sim_ticks]. f_equal. unfold sim_tick. by rewrite Hp. }
  pose proof (sim_ticks_ref run network draw k st.1 [] [] eq_refl) as Hr0.
  assert (is_ok (iterateR (ref_step run network) k (st.1, [])) = true) as Hok.
  { replace (Z.to_nat (max_ticks run)) with ((Z.to_nat (max_ticks run) - (k + n)) + (k + n))%nat in Hall by lia.
    rewrite iterateR_add in Hall. apply bind_Ok in Hall as (st' & Hall & _).
    rewrite iterateR_add, Hn in Hall. simpl in Hall. destruct st as [s0 os0]. simpl.
    rewrite iterate_from in Hall. by destruct (iterateR _ k (s0, [])). }
  destruct (iterateR _ k (st.1, [])) as [[s1 os1]|] eqn:Hit; [|discriminate].
  destruct (sim_ticks run k network ControlState.empty draw (st.1, [])) as [[s' msgs]|e] eqn:Hst;
    [|contradiction].
  destruct Hr0 as [-> _]. cbn [mbind result_bind].
  pose proof (iterate_tick _ _ _ _ _ _ Hit) as Htk. cbn [fst] in Htk.
  pose proof (reference_tick _ _ _ _ Hn) as Hst1.
  unfold EngineCheckpoint.make. rewrite Ha.
  rewrite (proj2 (Z.leb_le 0 (PhysicalState.tick s1))) by lia. cbn [guard_exn mbind result_bind Z.leb].
  assert (ids_below draw (PhysicalState.tick st.1) []) as Hnil by (split; [apply NoDup_nil_2|done]).
  assert (0 ≤ PhysicalState.tick st.1) as Hpos by lia.
  assert (PhysicalState.tick st.1 + Z.of_nat k ≤ max_ticks run) as Hmax by lia.
  destruct (sim_ticks_ids draw k (st.1) [] s1 msgs Hinj Hpos Hmax Hnil Hst) as [Hids _].
  do 2 eexists. split; [reflexivity|]. split; [cbn; lia|exact Hids].
Qed.

(** ** The loop *)

(** The reference reaches the last tick, which the columns can hold. *)
Definition reference_completes (os : PhysicalState.t * list Observation.t) : Prop :=
  iterateR (ref_step run network) (Z.to_nat (max_ticks run)) (start_state run, []) = Ok os ∧
  0 ≤ max_ticks run < 2 ^ 63.

(** A batch of an engine that is up to date commits. *)
Lemma engine_batch_commits draw n st c os db :
  checkpoint_json → db_at run network n st db → chk_at run network n st c →
  Z.of_nat n < max_ticks run → reference_completes os →
  injective_draws draw →
  (∀ t i, drawn t i → lab_outbox db !! draw t i = None) →
  ∃ c' db' n' st', engine_batch run network draw c db = (Ok (Some c'), db') ∧ (n < n')%nat ∧
    Z.of_nat n' ≤ max_ticks run ∧ db_at run network n' st' db' ∧ chk_at run network n' st' c' ∧
    ∀ id, (∀ t i, drawn t i → id ≠ draw t i) → lab_outbox db' !! id = lab_outbox db !! id.
Proof.
  intros Hjson Hdb Hc Hlt [Href Hmax] Hinj Hfresh.
  destruct (batch_runs draw n st c os _ Hc Hlt eq_refl Href Hinj) as (c' & msgs & Hb & Hgt & Hnd & Hids).
  pose proof Hc as (_ & Ht & _).
  destruct (batch_reference run network draw n st c c' msgs Hc Hlt Hb)
    as (k & os' & Hc' & Hrows & Hk & Hle).
  destruct Hdb as (c0 & dump & Hc0 & Hs & Hne & Hv & Hm). 
  assert (EngineCheckpoint.tick c' = Z.of_nat (k + n)) as Ht' by (by destruct Hc' as (_ & -> & _)).
  assert (Forall (λ m, lab_outbox db !! OutboxMessage.message_id m = None ∧
                       bigint (OutboxMessage.tick m) = Ok ()) msgs) as Hnew.
  { eapply Forall_impl; [exact Hids|]. intros m (Hpos & t & i & -> & Hd & _). split; [by apply Hfresh|].
    apply bigint_ok. lia. }
  assert (0 ≤ EngineCheckpoint.tick c' < 2 ^ 63) as Hw by lia.
  destruct (checkpoint_ok (run_key run) (Z.of_nat n) dump c' msgs db Hs Hw Hnd Hnew) as (db' & Hck & Hids').
  destruct (Hjson c') as [Hne' (c'' & Hv' & Heq)]; [by destruct Hc' as (_ & _ & _ & ? & _)|].
  pose proof (checkpoint_effect _ _ _ _ _ _ Hck) as (es & dump' & Hs0 & Hs' & Hm').
  rewrite Hs in Hs0. injection Hs0 as <- <-.
  exists c', db', (k + n)%nat, (EngineCheckpoint.physical c', st.2 ++ os').
  split; [|split; [lia|split; [lia|split; [|split; [done|]]]]].
  - unfold engine_batch. rewrite M_bind_run. unfold lift_res. rewrite Hb, M_bind_run. cbn [fst snd].
    by rewrite Ht, Hck.
  - exists c'', (model_dump c'). split; [by eapply chk_at_eq|]. split; [by rewrite Hs', Ht'|].
    split; [done|]. split; [done|]. by rewrite Hm', Hm, Hrows, <-fmap_app.
  - intros id Hid. apply Hids'. intros Hin. apply list_elem_of_fmap in Hin as (m & -> & Hin).
    rewrite Forall_forall in Hids. destruct (Hids m Hin) as (_ & t & i & Heq' & Hd & _). by eapply Hid.
Qed.

Lemma run_loop_completes fuel draw : ∀ n st c os db,
  checkpoint_json → db_at run network n st db → chk_at run network n st c →
  Z.of_nat n ≤ max_ticks run → max_ticks run - Z.of_nat n ≤ Z.of_nat fuel → reference_completes os →
  fresh_draws draw fuel db →
  ∃ db' st', run_loop run fuel network draw c db = (Ok true, db') ∧
    db_at run network (Z.to_nat (max_ticks run)) st' db'.
Proof.
  induction fuel as [|fuel IH]; intros n st c os db Hjson Hdb Hc Hle Hfuel Href [Hfresh Hinj];
    pose proof Hc as (_ & Ht & _); cbn [run_loop]; rewrite Ht.
  - rewrite (proj2 (Z.ltb_ge _ _)) by lia. exists db, st. split; [done|].
    by replace (Z.to_nat (max_ticks run)) with n by lia.
  - destruct (_ <? _) eqn:Hlt; [apply Z.ltb_lt in Hlt|apply Z.ltb_ge in Hlt].
    + destruct (engine_batch_commits (draw fuel) n st c os db) as
        (c' & db' & n' & st' & Hb & Hn' & Hle' & Hdb' & Hc' & Hout); try done.
      * intros t i t' i' Hd Hd' Heq. by apply Hinj in Heq as (_ & ? & ?); [|lia..| |].
      * intros t i Hd. apply Hfresh; [lia|done].
      * rewrite M_bind_run, Hb. apply (IH n' st' c' os db'); try done; [lia|].
        split; [intros f t i Hf Hd|intros f t i f' t' i' Hf Hf'; apply Hinj; lia].
        rewrite Hout; [apply Hfresh; [lia|done]|].
        intros t' i' Hd' Heq. apply Hinj in Heq as [-> _]; [lia|lia|lia|done|done].
    + exists db, st. split; [done|]. by replace (Z.to_nat (max_ticks run)) with n by lia.
Qed.
End Live.

(** ** Virtual lab: what the engine promises

    The stored run is the reference simulation, whatever engines, crashes and
    clients do, and an engine left alone completes it.  The witnesses run a
    laboratory of one tank and one pressure sensor. *)

(** The foreign key of the outbox. *)
Definition outbox_runs_exist (db : LabDB) : Prop :=
  ∀ id row, lab_outbox db !! id = Some row → is_Some (lab_runs db !! LabOutboxRow.run_id row).

Section Start.
Context `{Linalg, Libm}.
Context `{JsonModel LabDefinition.t, JsonModel EngineCheckpoint.t, JsonModel CommandRequest.t,
          JsonModel Observation.t}.

Lemma start_run_inv fresh spec rid db0 run db1 :
  start_run fresh spec rid db0 = (Ok run, db1) →
  ∃ def dg chk, initial_checkpoint dg (LabDefinition.assets def) = Ok chk ∧
    run = new_run (default fresh rid) spec def dg ∧ insert_run run chk db0 = Ok db1.
Proof.
  unfold start_run, get_lab. rewrite M_bind_run. unfold query.
  destruct (match revision_row db0 _ _ with Some _ => _ | None => _ end) as [found|]; [|done].
  rewrite M_bind_run. unfold lift_res at 1. destruct (of_option _ found) as [def|]; [|done].
  rewrite M_bind_run. unfold lift_res at 1. destruct (validate_lab def) as [v|]; [|done].
  rewrite M_bind_run. unfold lift_res at 1. destruct (guard_exn _ _); [|done].
  rewrite M_bind_run. unfold lift_res at 1. destruct (compute_definition_digest def) as [dg|]; [|done].
  rewrite M_bind_run. unfold lift_res at 1. destruct (initial_checkpoint dg _) as [chk|] eqn:Hchk; [|done].
  rewrite M_bind_run. unfold update, transaction.
  destruct (insert_run _ chk db0) as [db'|] eqn:Hi; cbn [mbind result_bind]; [|done].
  intros [= <- <-]. by exists def, dg, chk.
Qed.

(** A started run is the reference before its first tick. *)
Lemma start_exact network fresh spec rid db0 run db1 :
  checkpoint_json → outbox_runs_exist db0 → start_run fresh spec rid db0 = (Ok run, db1) →
  db_exact run network db1 ∧ max_ticks run < 2 ^ 63.
Proof.
  intros Hjson Hfk Hstart. apply start_run_inv in Hstart as (def & dg & chk & Hchk & Hrun & Hi).
  unfold initial_checkpoint in Hchk. apply bind_Ok in Hchk as (s0 & Hs0 & Hchk).
  unfold PhysicalState.make in Hs0. cbn [field guard_exn mbind result_bind Z.leb Z.compare] in Hs0.
  apply Ok_inj in Hs0 as <-. unfold EngineCheckpoint.make in Hchk.
  cbn [field guard_exn mbind result_bind Z.leb Z.compare] in Hchk. apply Ok_inj in Hchk as <-.
  unfold insert_run in Hi. apply bind_Ok in Hi as (? & _ & Hi). apply bind_Ok in Hi as (? & Hmax & Hi).
  apply bind_Ok in Hi as (? & Hpk & Hi). apply guard_exn_Ok, bool_decide_eq_true in Hpk.
  repeat (apply bind_Ok in Hi as (? & _ & Hi)). apply Ok_inj in Hi as <-.
  set (chk := EngineCheckpoint.mk _ _ _ _ _ _ _ _).
  destruct (Hjson chk eq_refl) as [Hne (c' & Hv & Heq)]. split.
  - exists 0%nat, (start_state run, []). split; [|lia]. exists c', (model_dump chk).
    split; [|split; [|split; [done|split; [done|]]]].
    + eapply chk_at_eq; [|exact Heq]. subst run. by repeat split.
    + unfold stored_progress, run_key. simpl. by rewrite lookup_insert_eq.
    + unfold run_messages. simpl. rewrite select_none; [done|]. intros id row Hrow.
      unfold message_of_run. rewrite bool_decide_eq_false_2; [done|]. intros Heq'.
      apply Hfk in Hrow. rewrite Heq' in Hrow. unfold run_key in Hrow. rewrite Hpk in Hrow.
      by apply is_Some_None in Hrow.
  - unfold max_ticks. unfold bigint, int_column in Hmax.
    destruct (RunSpec.max_ticks (SimulationRun.spec run)) as [n|]; [|lia].
    simpl in Hmax. destruct (n =? 0); [lia|]. apply guard_exn_Ok, andb_true_iff in Hmax. lia.
Qed.
End Start.

Section Statements.
Context `{Linalg, Libm}.
Context `{JsonModel LabDefinition.t, JsonModel EngineCheckpoint.t, JsonModel CommandRequest.t,
          JsonModel Observation.t}.

(** The stored run of [run] is the reference after [n] ticks, and its messages
    are the observations of these ticks. *)
Definition holds_reference (run : SimulationRun.t) (n : nat) (db : LabDB) : Prop :=
  ∃ row physical obs chk,
    lab_runs db !! run_key run = Some row ∧ RunRow.tick row = Z.of_nat n ∧
    reference run n = Ok (physical, obs) ∧
    model_validate (RunRow.checkpoint row) = Ok chk ∧
    EngineCheckpoint.tick chk = Z.of_nat n ∧
    PhysicalState.pressures_pa (EngineCheckpoint.physical chk) = PhysicalState.pressures_pa physical ∧
    run_messages (run_key run) db ≡ₚ row_of <$> obs.

Lemma db_at_holds run network n st db :
  compile_lab (SimulationRun.definition run) (SimulationRun.dt run) = Ok network →
  db_at run network n st db → holds_reference run n db.
Proof.
  intros Hnet (c & dump & (Hn & Ht & [_ Hp] & _) & Hs & Hne & Hv & Hm).
  unfold stored_progress in Hs. destruct (lab_runs db !! run_key run) as [row|] eqn:Hrow; [|done].
  simpl in Hs. injection Hs as _ _ Htick <-. exists row, st.1, st.2, c.
  split; [done|]. split; [done|]. split; [|done].
  unfold reference. rewrite Hnet. cbn [mbind result_bind]. rewrite Hn. by destruct st.
Qed.

(** C8. The engine stores exactly the simulation: after a run is started, any number of
    engines of it may load its checkpoint, race each other, crash between batches and
    start again, while clients save labs, start runs, submit commands, and dispatch the
    outbox; the stored run is always the plain simulation of some number of ticks of the
    definition - its tick, its pressures - and the outbox holds the observations of
    exactly these ticks, each once. *)
Theorem simulation_exact fresh spec rid db0 run db1 network schedule :
  checkpoint_json → outbox_runs_exist db0 →
  start_run fresh spec rid db0 = (Ok run, db1) →
  compile_lab (SimulationRun.definition run) (SimulationRun.dt run) = Ok network →
  ∃ n, Z.of_nat n ≤ Z.max 0 (max_ticks run) ∧
    holds_reference run n (sys_db (sys_run run network schedule (mkSys db1 ∅))).
Proof.
  intros Hjson Hfk Hstart Hnet. destruct (start_exact network _ _ _ _ _ _ Hjson Hfk Hstart) as [Hex _].
  destruct (sys_run_exact run network schedule (mkSys db1 ∅) Hjson) as [(n & st & Hat & Hle) _].
  { split; [done|]. apply map_Forall_empty. }
  exists n. split; [done|]. by eapply db_at_holds.
Qed.

(** C18. An engine finishes the run: from whatever the engines before it left, when the
    simulation of the run has no numerical failure and [uuid4] is fresh, [run_once]
    returns [True] with the last tick stored and the observations of the whole run in
    the outbox. *)
Theorem run_once_completes fresh spec rid db0 run db1 network schedule draw last :
  checkpoint_json → outbox_runs_exist db0 →
  start_run fresh spec rid db0 = (Ok run, db1) →
  compile_lab (SimulationRun.definition run) (SimulationRun.dt run) = Ok network →
  0 < max_ticks run → reference run (Z.to_nat (max_ticks run)) = Ok last →
  let db := sys_db (sys_run run network schedule (mkSys db1 ∅)) in
  fresh_draws run draw (Z.to_nat (max_ticks run)) db →
  ∃ db', run_once run draw db = (Ok true, db') ∧
    holds_reference run (Z.to_nat (max_ticks run)) db'.
Proof.
  intros Hjson Hfk Hstart Hnet Hmax Hlast db [Hfresh Hinj].
  destruct (start_exact network _ _ _ _ _ _ Hjson Hfk Hstart) as [Hex Hwidth].
  destruct (sys_run_exact run network schedule (mkSys db1 ∅) Hjson) as [(n & st & Hat & Hle) _].
  { split; [done|]. apply map_Forall_empty. }
  fold db in Hat. pose proof Hat as (c & dump & Hc & Hs & Hne & Hv & _). pose proof Hc as (_ & Ht & _).
  unfold reference in Hlast. rewrite Hnet in Hlast. cbn [mbind result_bind] in Hlast.
  destruct (run_loop_completes run network (Z.to_nat (max_ticks run - Z.of_nat n)) draw n st c last db)
    as (db' & st' & Hrun & Hat'); try done; [lia|lia|by split; [|lia]| |].
  { split; [intros; apply Hfresh; [lia|done]|]. intros f t i f' t' i' ??. apply Hinj; lia. }
  exists db'. split; [|by eapply db_at_holds].
  unfold run_once. rewrite M_bind_run. unfold lift_res. rewrite Hnet, M_bind_run.
  unfold load_or_create_checkpoint, query. unfold stored_progress in Hs.
  destruct (lab_runs db !! run_key run) as [row|] eqn:Hrow; [|done].
  cbn in Hs. injection Hs as _ _ _ Hk. rewrite Hk, bool_decide_eq_false_2, Hv by done. by rewrite Ht.
Qed.
End Statements.

(** ** Witnesses *)
Module LabWitness.
Import LabExamples.

Lemma checkpoint_law : checkpoint_json.
Proof.
  intros c Hc. split; [done|]. cbn [model_validate model_dump checkpoint_model jget].
  pose proof (load_dump_pressures (PhysicalState.pressures_pa (EngineCheckpoint.physical c))) as Hl.
  unfold dump_pressures in *. eexists. split; [reflexivity|]. repeat split; simpl; auto.
Qed.

Lemma no_messages : outbox_runs_exist db0.
Proof.
  assert (lab_outbox db0 = ∅) as He by (apply map_size_empty_inv; vm_compute; reflexivity).
  intros i row. by rewrite He, lookup_empty.
Qed.

(** Two engines race, one crashes, and a client tries the run's identifier again. *)
Definition schedule : list Action :=
  [Load 0; Load 1; Batch 0 (draw 100); Batch 1 (draw 101); Crash 0; Load 2; Batch 2 (draw 102);
   Client (StartRun (id 4) (spec 5) None); Client (PublishRows 0 [id 9])].
Definition db_after : LabDB := sys_db (sys_run (run 20) (network 20) schedule (mkSys (db1 20) ∅)).

Lemma ticks_20 : max_ticks (run 20) = 20.
Proof. vm_compute. reflexivity. Qed.
Lemma sensors_1 : length (LabDefinition.sensors (SimulationRun.definition (run 20))) = 1%nat.
Proof. vm_compute. reflexivity. Qed.

Lemma fresh_after : fresh_draws (run 20) draw (Z.to_nat (max_ticks (run 20))) db_after.
Proof.
  assert (lab_outbox db_after = ∅) as He by (apply map_size_empty_inv; vm_compute; reflexivity).
  unfold fresh_draws, drawn. rewrite He, ticks_20, sensors_1. split; [intros; apply lookup_empty|].
  intros f t i f' t' i' Hf Hf' Ht Ht' Heq. apply id_inj in Heq; lia.
Qed.

Lemma simulation_exact_witness :
  ∃ n, Z.of_nat n ≤ Z.max 0 (max_ticks (run 20)) ∧ holds_reference (run 20) n db_after.
Proof.
  exact (simulation_exact (id 4) (spec 20) None db0 (run 20) (db1 20) (network 20) schedule
    checkpoint_law no_messages started compiled).
Defined.

Lemma run_once_completes_witness :
  ∃ db', run_once (run 20) draw db_after = (Ok true, db') ∧ holds_reference (run 20) 20 db'.
Proof.
  refine (run_once_completes (id 4) (spec 20) None db0 (run 20) (db1 20) (network 20) schedule draw
    (from_ok (start_state (run 20), []) (reference (run 20) (Z.to_nat (max_ticks (run 20)))))
    checkpoint_law no_messages started compiled _ (from_ok_eq _ _ _) fresh_after).
  - by rewrite ticks_20.
  - by vm_compute.
Defined.
End LabWitness.
