(* ===== verification/LabModelProps.v ===== *)
(** * Virtual lab: definitions, networks and the solver

    An eligible definition compiles, and a step of its network yields a complete
    sane state or a numerical failure. *)

From S2P Require Import Prelude PyText PyUuid PyFloat PyHash PyJson Messages KafkaIo Tables.
From S2P Require Import LabContracts LabCatalog LabNetwork LabSolverTheory LabSolver.
From S2P Require Import LabSolverTheory.
From S2P Require Import LabSensors LabStore LabEngine LabExamples LabEngineTheory.

Section Statements.
Context `{Linalg}.
Context `{JsonModel LabDefinition.t}.

Lemma validate_exact d v : validate_lab d = Ok v → LabValidationResult.run_eligible v = true ↔ well_formed d.
Proof.
  intros Hv. unfold validate_lab in Hv. apply bind_Ok in Hv as (dg & _ & Hv).
  case_bool_decide as Hne; [injection Hv as <-; split; [done|by intros []]|].
  apply bind_Ok in Hv as (errors & He & Hv). injection Hv as <-. cbn [LabValidationResult.run_eligible].
  rewrite <-(lab_errors_exact d errors Hne He), bool_decide_eq_true. split; [apply nil_length_inv|by intros ->].
Qed.

(** C30. [validate_lab] accepts exactly the well-formed definitions - assets, pipes and
    sensors have distinct identifiers, every port reference names a port its asset has,
    no pipe joins a port to itself or repeats another, every sensor has a target of its
    kind - and every accepted definition compiles to a network whose node, edge,
    compressor, demand, port and sensor indices are all in range. *)
Theorem eligible_compiles d v dt :
  validate_lab d = Ok v →
  (LabValidationResult.run_eligible v = true ↔ well_formed d) ∧
  (LabValidationResult.run_eligible v = true → ∃ net, compile_lab d dt = Ok net ∧ network_wf d net).
Proof.
  intros Hv. pose proof (validate_exact d v Hv) as Hiff. split; [done|].
  intros Hel. by apply ensures_total, compile_wf, Hiff.
Qed.

(** C15. The solver is type sound: on the network of an eligible definition, from any
    state and under any set points and faults, a step either raises
    [NumericalFailureError] or returns the state of the next tick, with a finite
    pressure in (0, 2 MPa] for every node and a flow for every edge; it never raises an
    index, key, validation or division error. *)
Theorem step_sound d v dt net state controls h :
  (∀ m v x, np_solve m v = Some x → length x = length v) →
  (∀ a, a ∈ LabDefinition.assets d →
     Asset.validate_parameters (Asset.type a) (Asset.parameters a) = Ok ()) →
  validate_lab d = Ok v → LabValidationResult.run_eligible v = true →
  compile_lab d dt = Ok net → 0 ≤ PhysicalState.tick state →
  match step net state controls h with
  | Ok s => state_wf net (PhysicalState.tick state + 1) s
  | Err e => ∃ msg, e = NumericalFailureError msg
  end.
Proof.
  intros Hsolve Hvalid Hv Hel Hnet Htick. apply (validate_exact d v Hv) in Hel.
  pose proof (ensures_Ok _ _ _ _ (compile_wf d dt Hel) Hnet) as Hwf.
  exact (step_ensures Hsolve d net Hwf Hvalid state controls h Htick).
Qed.
End Statements.

(** ** Witnesses *)
Module ModelWitness.
Import LabExamples.

Definition verdict : LabValidationResult.t :=
  from_ok (LabValidationResult.mk false "" []) (validate_lab (lab 1)).
Lemma validated : validate_lab (lab 1) = Ok verdict.
Proof. apply from_ok_eq. vm_compute. reflexivity. Qed.
Lemma eligible : LabValidationResult.run_eligible verdict = true.
Proof. vm_compute. reflexivity. Qed.
Definition net : CompiledNetwork.t := from_ok (network 20) (compile_lab (lab 1) DT_DEFAULT).
Lemma net_ok : compile_lab (lab 1) DT_DEFAULT = Ok net.
Proof. apply from_ok_eq. vm_compute. reflexivity. Qed.

(** A stuck valve, a leak at the tank and a set point of an unknown asset. *)
Definition controls : ControlState.t :=
  ControlState.mk {[ "x"%string := {[ "load"%string := PFloat f1 ]} ]}
    [ActiveFault.mk (id 1) LEAK (Some "A"%string) {[ "conductance_kg_s_pa"%string := flit 1 (10 ^ 8) ]};
     ActiveFault.mk (id 9) VALVE_STUCK None ∅].

Lemma solve_law (m : matrix) (v x : vector) : np_solve m v = Some x → length x = length v.
Proof. destruct m as [|[|a []] []], v as [|b []]; simpl; try done. by intros [= <-]. Qed.
Lemma valid_assets a :
  a ∈ LabDefinition.assets (lab 1) → Asset.validate_parameters (Asset.type a) (Asset.parameters a) = Ok ().
Proof. intros ->%list_elem_of_singleton. vm_compute. reflexivity. Qed.

Lemma eligible_compiles_witness :
  (LabValidationResult.run_eligible verdict = true ↔ well_formed (lab 1)) ∧
  (LabValidationResult.run_eligible verdict = true →
   ∃ net, compile_lab (lab 1) DT_DEFAULT = Ok net ∧ network_wf (lab 1) net).
Proof. exact (eligible_compiles (lab 1) verdict DT_DEFAULT validated). Defined.

Lemma step_sound_witness :
  match step net (start_state (run 20)) controls DT_DEFAULT with
  | Ok s => state_wf net 1 s
  | Err e => ∃ msg, e = NumericalFailureError msg
  end.
Proof.
  refine (step_sound (lab 1) verdict DT_DEFAULT net (start_state (run 20)) controls DT_DEFAULT
    solve_law valid_assets validated eligible net_ok _). reflexivity.
Defined.
(** It does not fail there. *)
Example step_ok : is_ok (step net (start_state (run 20)) controls DT_DEFAULT) = true.
Proof. vm_compute. reflexivity. Qed.
End ModelWitness.
