(* ===== verification/LabStoreProps.v ===== *)
(** * Virtual lab: what the store guarantees

    Every transaction is one of four transitions of an abstract store
    ([evolves]), and over any interleaving of them the revisions of a lab and the
    commands of a run are gapless, unique and immutable. *)

From S2P Require Import Prelude PyText PyUuid PyFloat PyHash PyJson Messages KafkaIo Tables.
From S2P Require Import LabContracts LabNetwork LabSolver LabSensors LabStore LabEngine LabOutbox.
From S2P Require Import LabEngineTheory LabExamples.

(** ** Transitions *)
(** The columns of a run that commands and foreign keys use. *)
Definition control_of (r : RunRow.t) : Z * Z * RunStatus * UUID * Z :=
  (RunRow.control_revision r, RunRow.accepted_sequence r, RunRow.status r, RunRow.lab_id r, RunRow.lab_revision r).
Definition controls_of (db : LabDB) (rid : UUID) : option (Z * Z * RunStatus * UUID * Z) :=
  control_of <$> lab_runs db !! rid.

Definition next_number (row : option LabRow.t) : Z :=
  match row with Some r => LabRow.current_revision r + 1 | None => 1 end.

Inductive evolves (db db' : LabDB) : Prop :=
| ev_same :
    lab_definitions db' = lab_definitions db → lab_revisions db' = lab_revisions db →
    lab_commands db' = lab_commands db → (∀ rid, controls_of db' rid = controls_of db rid) → evolves db db'
| ev_save id row rev :
    LabRow.current_revision row = next_number (lab_definitions db !! id) →
    lab_revisions db !! (id, LabRow.current_revision row) = None →
    lab_definitions db' = <[id := row]> (lab_definitions db) →
    lab_revisions db' = <[(id, LabRow.current_revision row) := rev]> (lab_revisions db) →
    lab_commands db' = lab_commands db → lab_runs db' = lab_runs db → evolves db db'
| ev_start rid row :
    lab_runs db !! rid = None → RunRow.control_revision row = 0 → RunRow.accepted_sequence row = 0 →
    is_Some (lab_revisions db !! (RunRow.lab_id row, RunRow.lab_revision row)) →
    lab_runs db' = <[rid := row]> (lab_runs db) → lab_commands db' = lab_commands db →
    lab_definitions db' = lab_definitions db → lab_revisions db' = lab_revisions db → evolves db db'
| ev_accept rid row cid cmd :
    lab_runs db !! rid = Some row → lab_commands db !! (rid, cid) = None →
    CommandRow.accepted_sequence cmd = RunRow.accepted_sequence row + 1 →
    CommandRow.control_revision cmd = RunRow.control_revision row + 1 →
    lab_runs db' = <[rid := RunRow.set_control (RunRow.control_revision row + 1)
                              (RunRow.accepted_sequence row + 1) row]> (lab_runs db) →
    lab_commands db' = <[(rid, cid) := cmd]> (lab_commands db) →
    lab_definitions db' = lab_definitions db → lab_revisions db' = lab_revisions db → evolves db db'.

Lemma evolves_refl db : evolves db db.
Proof. by apply ev_same. Qed.

(** Every transaction of the store; [Accept] is the second one of [submit_command]. *)
Inductive StoreOp :=
| Op (op : ClientOp)
| Accept (run_id : UUID) (request : CommandRequest.t) (hash : string)
| Commit (run_id : UUID) (fence expected_tick : Z) (chk : EngineCheckpoint.t) (events : list LabEvent.t)
    (messages : list OutboxMessage.t).

Section Operations.
Context `{JsonModel LabDefinition.t, JsonModel EngineCheckpoint.t, JsonModel CommandRequest.t}.

Definition store_op (db : LabDB) (op : StoreOp) : LabDB :=
  match op with
  | Op op => client_op op db
  | Accept rid request hash => (accept_command rid request hash db).2
  | Commit rid fence expected chk events messages => (checkpoint rid fence expected chk events messages db).2
  end.
Definition store_ops (ops : list StoreOp) (db : LabDB) : LabDB := foldl store_op db ops.

Lemma evolves_transaction {A} (body : LabDB → result (A * LabDB)) db :
  (∀ a db', body db = Ok (a, db') → evolves db db') → evolves db (transaction body db).2.
Proof. intros Hb. unfold transaction. destruct (body db) as [[a db']|]; simpl; eauto using evolves_refl. Qed.

Lemma save_body_evolves now dg d expected db r db' :
  save_body now dg d expected db = Ok (r, db') → evolves db db'.
Proof.
  intros Hb. unfold save_body in Hb. apply bind_Ok in Hb as ([rev db1] & Hn & Hb).
  apply bind_Ok in Hb as (? & Hpk & Hb). apply guard_exn_Ok, bool_decide_eq_true in Hpk.
  injection Hb as _ <-. unfold next_revision in Hn.
  destruct (lab_definitions db !! LabDefinition.lab_id d) as [row|] eqn:Hrow.
  - repeat (apply bind_Ok in Hn as (? & _ & Hn)). injection Hn as <- <-.
    eapply (ev_save db _ (LabDefinition.lab_id d) (LabRow.mk _ (LabRow.current_revision row + 1) _)); simpl; try done.
    by rewrite Hrow.
  - apply bind_Ok in Hn as (? & _ & Hn). injection Hn as <- <-.
    eapply (ev_save db _ (LabDefinition.lab_id d) (LabRow.mk _ 1 now)); simpl; try done. by rewrite Hrow.
Qed.

Lemma evolves_save now d expected db : evolves db (save_lab now d expected db).2.
Proof.
  unfold save_lab. rewrite M_bind_run. unfold lift_res.
  destruct (compute_definition_digest d) as [dg|]; [|apply evolves_refl].
  apply evolves_transaction. intros a db' Hb. by eapply save_body_evolves.
Qed.

Lemma insert_run_evolves r chk db db' : insert_run r chk db = Ok db' → evolves db db'.
Proof.
  unfold insert_run. intros Hb. do 2 apply bind_Ok in Hb as (? & _ & Hb).
  apply bind_Ok in Hb as (? & Hpk & Hb). do 2 apply bind_Ok in Hb as (? & _ & Hb).
  apply bind_Ok in Hb as (? & Hfk & Hb). apply Ok_inj in Hb as <-.
  apply guard_exn_Ok, bool_decide_eq_true in Hpk. apply references_Ok in Hfk.
  match goal with |- evolves _ (set_runs <[_ := ?row]> _) => apply (ev_start db _ (SimulationRun.run_id r) row) end;
    first [exact Hpk|exact Hfk|reflexivity].
Qed.

Lemma evolves_start fresh spec rid db : evolves db (start_run fresh spec rid db).2.
Proof.
  unfold start_run, get_lab. rewrite M_bind_run. unfold query.
  destruct (match revision_row db _ _ with Some _ => _ | None => _ end) as [found|]; [|apply evolves_refl].
  rewrite M_bind_run. unfold lift_res at 1. destruct (of_option _ found) as [def|]; [|apply evolves_refl].
  rewrite M_bind_run. unfold lift_res at 1. destruct (validate_lab def) as [v|]; [|apply evolves_refl].
  rewrite M_bind_run. unfold lift_res at 1. destruct (guard_exn _ _); [|apply evolves_refl].
  rewrite M_bind_run. unfold lift_res at 1. destruct (compute_definition_digest def) as [dg|]; [|apply evolves_refl].
  rewrite M_bind_run. unfold lift_res at 1. destruct (initial_checkpoint dg _) as [chk|]; [|apply evolves_refl].
  rewrite M_bind_run. unfold update, transaction.
  destruct (insert_run _ chk db) as [db'|] eqn:Hi; simpl; [|apply evolves_refl]. by eapply insert_run_evolves.
Qed.

Lemma accept_inv rid request hash db r db' :
  accept_body rid request hash db = Ok (r, db') →
  ∃ row, lab_runs db !! rid = Some row ∧ is_terminal (RunRow.status row) = false ∧
    CommandRequest.expected_control_revision request = RunRow.control_revision row ∧
    lab_commands db !! (rid, CommandRequest.command_id request) = None ∧
    let cmd := CommandRow.mk hash (RunRow.accepted_sequence row + 1) (CommandRequest.action request)
                 (CommandRequest.target_id request) (CommandRequest.parameters request) CMD_ACCEPTED None None
                 (RunRow.control_revision row + 1) in
    receipt_of (CommandRequest.command_id request) cmd = Ok r ∧
    db' = set_runs <[rid := RunRow.set_control (RunRow.control_revision row + 1)
                              (RunRow.accepted_sequence row + 1) row]>
            (set_commands <[(rid, CommandRequest.command_id request) := cmd]> db).
Proof.
  unfold accept_body. intros Hb. apply bind_Ok in Hb as (row & Hrow & Hb). apply of_option_Ok in Hrow.
  apply bind_Ok in Hb as (? & Hterm & Hb). apply guard_exn_Ok, negb_true_iff in Hterm.
  apply bind_Ok in Hb as (? & Hrev & Hb). apply guard_exn_Ok, bool_decide_eq_true in Hrev.
  apply bind_Ok in Hb as (receipt & Hrec & Hb). do 2 apply bind_Ok in Hb as (? & _ & Hb).
  apply bind_Ok in Hb as (? & Hpk & Hb). apply guard_exn_Ok, bool_decide_eq_true in Hpk.
  apply bind_Ok in Hb as (? & _ & Hb). injection Hb as <- <-. by exists row.
Qed.

Lemma evolves_accept rid request hash db : evolves db (accept_command rid request hash db).2.
Proof.
  apply evolves_transaction. intros r db' Hb. apply accept_inv in Hb as (row & Hrow & _ & _ & Hpk & _ & ->).
  match goal with |- evolves _ (set_runs _ (set_commands <[_ := ?cmd]> _)) =>
    apply (ev_accept db _ rid row (CommandRequest.command_id request) cmd) end;
    first [exact Hrow|exact Hpk|reflexivity].
Qed.

Lemma evolves_submit rid request db : evolves db (submit_command rid request db).2.
Proof.
  unfold submit_command. rewrite M_bind_run. unfold lift_res.
  destruct (payload_hash request) as [h|]; [|apply evolves_refl]. rewrite M_bind_run. unfold find_command, query.
  destruct (match lab_commands db !! _ with Some _ => _ | None => _ end) as [[r|]|];
    [apply evolves_refl|apply evolves_accept|apply evolves_refl].
Qed.

(** Events and messages are inserted into tables of their own. *)
Lemma inserts_same {A} (f : LabDB → A → result LabDB) l :
  (∀ db a db', f db a = Ok db' → lab_definitions db' = lab_definitions db ∧ lab_revisions db' = lab_revisions db ∧
     lab_commands db' = lab_commands db ∧ lab_runs db' = lab_runs db) →
  ∀ db db', foldR f db l = Ok db' → lab_definitions db' = lab_definitions db ∧ lab_revisions db' = lab_revisions db ∧
     lab_commands db' = lab_commands db ∧ lab_runs db' = lab_runs db.
Proof.
  intros Hf. induction l as [|a l IH]; intros db db' Hl; simpl in Hl; [by injection Hl as <-|].
  apply bind_Ok in Hl as (db1 & He1 & Hl). apply Hf in He1 as (? & ? & ? & ?).
  apply IH in Hl as (? & ? & ? & ?). repeat split; congruence.
Qed.

Lemma evolves_checkpoint rid fence expected (chk : EngineCheckpoint.t) events messages db :
  evolves db (checkpoint rid fence expected chk events messages db).2.
Proof.
  apply evolves_transaction. intros b db' Hb. unfold checkpoint_body in Hb.
  destruct (lab_runs db !! rid) as [row|] eqn:Hrow; [|injection Hb as _ <-; apply evolves_refl].
  destruct (_ && _); [|injection Hb as _ <-; apply evolves_refl].
  do 3 apply bind_Ok in Hb as (? & _ & Hb). apply bind_Ok in Hb as (db1 & He1 & Hb).
  apply bind_Ok in Hb as (db2 & He2 & Hb). injection Hb as _ <-.
  apply inserts_same in He1 as (Hd1 & Hr1 & Hc1 & Hn1).
  2:{ intros d e d' He. unfold insert_event in He. repeat (apply bind_Ok in He as (? & _ & He)).
      by injection He as <-. }
  apply inserts_same in He2 as (Hd2 & Hr2 & Hc2 & Hn2).
  2:{ intros d e d' He. unfold insert_message in He. repeat (apply bind_Ok in He as (? & _ & He)).
      by injection He as <-. }
  apply ev_same; try congruence; [by rewrite Hd2, Hd1|by rewrite Hr2, Hr1|by rewrite Hc2, Hc1|].
  intros rid'. unfold controls_of. rewrite Hn2, Hn1. simpl. destruct (decide (rid = rid')) as [<-|Hne].
  - by rewrite lookup_insert_eq, Hrow.
  - by rewrite lookup_insert_ne.
Qed.

Lemma store_op_evolves db op : evolves db (store_op db op).
Proof.
  destruct op as [[| | | | |]| |]; simpl;
    eauto using evolves_save, evolves_start, evolves_submit, evolves_accept, evolves_checkpoint.
  - unfold append_history, update. apply evolves_transaction. intros a db' Hb.
    apply bind_Ok in Hb as (db1 & Hb & Ha). injection Ha as _ <-. apply bind_Ok in Hb as (? & _ & Hb).
    destruct (lab_history db !! _); [injection Hb as <-; apply evolves_refl|].
    apply bind_Ok in Hb as (? & _ & Hb). injection Hb as <-. by apply ev_same.
  - by apply ev_same.
  - by apply ev_same.
Qed.
End Operations.

(** ** The invariant *)
Record lab_ok (db : LabDB) : Prop := {
  ok_revisions : ∀ id r, is_Some (lab_revisions db !! (id, r)) ↔
    ∃ row, lab_definitions db !! id = Some row ∧ 1 ≤ r ≤ LabRow.current_revision row;
  ok_labs : ∀ id row, lab_definitions db !! id = Some row → 1 ≤ LabRow.current_revision row;
  ok_runs : ∀ rid row, lab_runs db !! rid = Some row →
    0 ≤ RunRow.accepted_sequence row ∧ RunRow.control_revision row = RunRow.accepted_sequence row ∧
    is_Some (lab_revisions db !! (RunRow.lab_id row, RunRow.lab_revision row));
  ok_commands : ∀ rid cid cmd, lab_commands db !! (rid, cid) = Some cmd →
    CommandRow.control_revision cmd = CommandRow.accepted_sequence cmd ∧
    ∃ row, lab_runs db !! rid = Some row ∧ 1 ≤ CommandRow.accepted_sequence cmd ≤ RunRow.accepted_sequence row;
  ok_unique : ∀ rid cid cid' cmd cmd', lab_commands db !! (rid, cid) = Some cmd →
    lab_commands db !! (rid, cid') = Some cmd' →
    CommandRow.accepted_sequence cmd = CommandRow.accepted_sequence cmd' → cid = cid';
  ok_gapless : ∀ rid row k, lab_runs db !! rid = Some row → 1 ≤ k ≤ RunRow.accepted_sequence row →
    ∃ cid cmd, lab_commands db !! (rid, cid) = Some cmd ∧ CommandRow.accepted_sequence cmd = k
}.

Lemma lab_ok_empty : lab_ok empty_lab_db.
Proof.
  split; simpl.
  - intros id r. rewrite lookup_empty. split; [by intros [? ?]|intros (? & Hl & _); by rewrite lookup_empty in Hl].
  - intros id row Hl. by rewrite lookup_empty in Hl.
  - intros rid row Hl. by rewrite lookup_empty in Hl.
  - intros rid cid cmd Hl. by rewrite lookup_empty in Hl.
  - intros rid cid cid' cmd cmd' Hl. by rewrite lookup_empty in Hl.
  - intros rid row k Hl. by rewrite lookup_empty in Hl.
Qed.

(** Nothing stored is changed or lost. *)
Lemma evolves_keeps db db' :
  evolves db db' → lab_revisions db ⊆ lab_revisions db' ∧ lab_commands db ⊆ lab_commands db'.
Proof.
  intros [Hd Hr Hc Hn|id row rev Hnum Hfree Hd Hr Hc Hn|rid row Hfree _ _ _ Hn Hc Hd Hr|rid row cid cmd Hrow Hfree _ _ Hn Hc Hd Hr];
    rewrite Hr, Hc; split; try done; by apply insert_subseteq.
Qed.

(** *** Each transition keeps the invariant *)
Section Preservation.
Variables db db' : LabDB.
Hypothesis Hok : lab_ok db.

Lemma same_ok :
  lab_definitions db' = lab_definitions db → lab_revisions db' = lab_revisions db →
  lab_commands db' = lab_commands db → (∀ rid, controls_of db' rid = controls_of db rid) → lab_ok db'.
Proof.
  intros Hd Hr Hc Hn.
  assert (∀ rid row', lab_runs db' !! rid = Some row' →
    ∃ row, lab_runs db !! rid = Some row ∧ control_of row = control_of row') as Hback.
  { intros rid row' Hrow. specialize (Hn rid). unfold controls_of in Hn. rewrite Hrow in Hn. simpl in Hn.
    symmetry in Hn. apply fmap_Some in Hn as (row & ? & ?). eauto. }
  assert (∀ rid row, lab_runs db !! rid = Some row →
    ∃ row', lab_runs db' !! rid = Some row' ∧ control_of row' = control_of row) as Hforth.
  { intros rid row Hrow. specialize (Hn rid). unfold controls_of in Hn. rewrite Hrow in Hn. simpl in Hn.
    apply fmap_Some in Hn as (row' & ? & ?). eauto. }
  destruct Hok as [Hrev Hlab Hrun Hcmd Huni Hgap]. split; rewrite ?Hd, ?Hr, ?Hc; try done.
  - intros rid row' (row & Hrow & Heq)%Hback. injection Heq as <- <- _ <- <-. by apply (Hrun rid).
  - intros rid cid cmd Hin. destruct (Hcmd rid cid cmd Hin) as (Heq & row & Hrow & Hseq). split; [done|].
    apply Hforth in Hrow as (row' & Hrow & Hctl). injection Hctl as _ Hs _ _ _. exists row'.
    split; [done|]. by rewrite Hs.
  - intros rid row' k (row & Hrow & Heq)%Hback Hk. injection Heq as _ Hs _ _ _. rewrite <-Hs in Hk.
    by apply (Hgap rid row).
Qed.

Lemma save_ok id row rev :
  LabRow.current_revision row = next_number (lab_definitions db !! id) →
  lab_revisions db !! (id, LabRow.current_revision row) = None →
  lab_definitions db' = <[id := row]> (lab_definitions db) →
  lab_revisions db' = <[(id, LabRow.current_revision row) := rev]> (lab_revisions db) →
  lab_commands db' = lab_commands db → lab_runs db' = lab_runs db → lab_ok db'.
Proof.
  intros Hnum Hfree Hd Hr Hc Hn. destruct Hok as [Hrev Hlab Hrun Hcmd Huni Hgap].
  assert (1 ≤ LabRow.current_revision row) as Hpos.
  { rewrite Hnum. unfold next_number. destruct (lab_definitions db !! id) as [r0|] eqn:H0; [|lia].
    apply Hlab in H0. lia. }
  split; rewrite ?Hd, ?Hr, ?Hc, ?Hn; try done.
  - intros id' r. destruct (decide (id' = id)) as [->|Hne].
    + destruct (decide (r = LabRow.current_revision row)) as [->|Hr'].
      * rewrite !lookup_insert_eq. split; [intros _; exists row; split; [done|lia]|by eexists].
      * rewrite lookup_insert_ne by congruence. rewrite Hrev. split.
        -- intros (r0 & Hr0 & Hle). exists row. rewrite lookup_insert_eq. split; [done|].
           rewrite Hnum, Hr0. simpl. lia.
        -- intros (r0 & Hr0 & Hle). rewrite lookup_insert_eq in Hr0. injection Hr0 as <-.
           rewrite Hnum in Hle, Hr'. destruct (lab_definitions db !! id) as [r1|] eqn:H1; simpl in Hle, Hr'; [|lia].
           exists r1. split; [done|lia].
    + rewrite lookup_insert_ne by congruence. rewrite Hrev. split; intros (r0 & Hr0 & Hle); exists r0.
      * by rewrite lookup_insert_ne.
      * by rewrite lookup_insert_ne in Hr0.
  - intros id' row' [[_ <-]|[_ Hl]]%lookup_insert_Some; [done|by eapply Hlab].
  - intros rid r0 Hr0. destruct (Hrun rid r0 Hr0) as (? & ? & ?). split; [done|split; [done|]].
    by apply insert_is_Some.
Qed.

Lemma start_ok rid row :
  lab_runs db !! rid = None → RunRow.control_revision row = 0 → RunRow.accepted_sequence row = 0 →
  is_Some (lab_revisions db !! (RunRow.lab_id row, RunRow.lab_revision row)) →
  lab_runs db' = <[rid := row]> (lab_runs db) → lab_commands db' = lab_commands db →
  lab_definitions db' = lab_definitions db → lab_revisions db' = lab_revisions db → lab_ok db'.
Proof.
  intros Hfree Hctl Hseq Hfk Hn Hc Hd Hr. destruct Hok as [Hrev Hlab Hrun Hcmd Huni Hgap].
  split; rewrite ?Hd, ?Hr, ?Hc, ?Hn; try done.
  - intros rid' r0 [[_ <-]|[_ Hr0]]%lookup_insert_Some; [split; [lia|split; [lia|done]]|by apply (Hrun rid')].
  - intros rid' cid cmd Hin. destruct (Hcmd rid' cid cmd Hin) as (Heq & r0 & Hr0 & Hle). split; [done|].
    exists r0. rewrite lookup_insert_ne; [done|congruence].
  - intros rid' r0 k [[_ <-]|[_ Hr0]]%lookup_insert_Some Hk; [lia|by apply (Hgap rid' r0)].
Qed.

Lemma accept_ok rid row cid cmd :
  lab_runs db !! rid = Some row → lab_commands db !! (rid, cid) = None →
  CommandRow.accepted_sequence cmd = RunRow.accepted_sequence row + 1 →
  CommandRow.control_revision cmd = RunRow.control_revision row + 1 →
  lab_runs db' = <[rid := RunRow.set_control (RunRow.control_revision row + 1)
                            (RunRow.accepted_sequence row + 1) row]> (lab_runs db) →
  lab_commands db' = <[(rid, cid) := cmd]> (lab_commands db) →
  lab_definitions db' = lab_definitions db → lab_revisions db' = lab_revisions db → lab_ok db'.
Proof.
  intros Hrow Hfree Hseq Hctl Hn Hc Hd Hr. destruct Hok as [Hrev Hlab Hrun Hcmd Huni Hgap].
  destruct (Hrun rid row Hrow) as (Hpos & Hctl' & Hfk).
  assert (∀ cid' cmd', lab_commands db !! (rid, cid') = Some cmd' →
    CommandRow.accepted_sequence cmd' < CommandRow.accepted_sequence cmd) as Hless.
  { intros cid' cmd' Hin. destruct (Hcmd _ _ _ Hin) as (_ & r0 & Hr0 & Hle). assert (r0 = row) as -> by congruence. lia. }
  split; rewrite ?Hd, ?Hr, ?Hc, ?Hn; try done.
  - intros rid' r0 [[_ <-]|[_ Hr0]]%lookup_insert_Some; [|by apply (Hrun rid')].
    cbn [RunRow.set_control RunRow.accepted_sequence RunRow.control_revision RunRow.lab_id RunRow.lab_revision].
    split; [lia|split; [lia|done]].
  - intros rid' cid' cmd' [[Heq <-]|[_ Hin]]%lookup_insert_Some.
    + injection Heq as -> ->. split; [lia|]. eexists. rewrite lookup_insert_eq. split; [done|]. simpl. lia.
    + destruct (Hcmd _ _ _ Hin) as (Heq & r0 & Hr0 & Hle). split; [done|].
      destruct (decide (rid' = rid)) as [->|Hne]; [|exists r0; by rewrite lookup_insert_ne].
      eexists. rewrite lookup_insert_eq. split; [done|]. simpl. assert (r0 = row) as -> by congruence. lia.
  - intros rid' c1 c2 m1 m2 [[Heq <-]|[Hn1 H1]]%lookup_insert_Some [[Heq' <-]|[Hn2 H2]]%lookup_insert_Some Hs.
    + congruence.
    + injection Heq as -> ->. specialize (Hless _ _ H2). lia.
    + injection Heq' as -> ->. specialize (Hless _ _ H1). lia.
    + by eapply Huni.
  - intros rid' r0 k [[<- <-]|[Hne Hr0]]%lookup_insert_Some Hk.
    + cbn [RunRow.set_control RunRow.accepted_sequence] in Hk.
      destruct (decide (k = RunRow.accepted_sequence row + 1)) as [->|Hk'].
      * exists cid, cmd. by rewrite lookup_insert_eq.
      * destruct (Hgap rid row k Hrow) as (c0 & m0 & Hin & Hm); [lia|]. exists c0, m0.
        rewrite lookup_insert_ne; [done|]. congruence.
    + destruct (Hgap rid' r0 k Hr0 Hk) as (c0 & m0 & Hin & Hm). exists c0, m0.
      rewrite lookup_insert_ne; [done|]. congruence.
Qed.
End Preservation.

Lemma evolves_ok db db' : lab_ok db → evolves db db' → lab_ok db'.
Proof.
  intros Hok [Hd Hr Hc Hn|id row rev Hnum Hfree Hd Hr Hc Hn|rid row Hfree Hctl Hseq Hfk Hn Hc Hd Hr|
              rid row cid cmd Hrow Hfree Hseq Hctl Hn Hc Hd Hr].
  - by eapply same_ok.
  - by eapply save_ok.
  - by eapply start_ok.
  - by eapply accept_ok.
Qed.

Section Statements.
Context `{JsonModel LabDefinition.t, JsonModel EngineCheckpoint.t, JsonModel CommandRequest.t}.

Lemma store_ops_ok ops : ∀ db, lab_ok db → lab_ok (store_ops ops db).
Proof.
  induction ops as [|op ops IH]; intros db Hok; [done|]. simpl. apply IH.
  eapply evolves_ok; [done|apply store_op_evolves].
Qed.
Lemma store_ops_keep ops : ∀ db,
  lab_revisions db ⊆ lab_revisions (store_ops ops db) ∧ lab_commands db ⊆ lab_commands (store_ops ops db).
Proof.
  induction ops as [|op ops IH]; intros db; [done|]. simpl.
  destruct (evolves_keeps _ _ (store_op_evolves db op)) as [? ?].
  destruct (IH (store_op db op)) as [? ?]. split; by etrans.
Qed.

(** C34. The lab store stays consistent under any interleaving of its transactions - saves,
    starts, both halves of concurrent command submissions, engine checkpoints with any
    fence, history, publication, heartbeats: the revisions of a lab are exactly 1 to its
    current one, a run refers to a stored revision, the commands of a run carry the
    sequence numbers 1 to its accepted sequence, each once and equal to their control
    revision, and no stored revision or command is ever changed or removed. *)
Theorem lab_store_linear ops ops' :
  let db := store_ops ops empty_lab_db in
  lab_ok db ∧ lab_revisions db ⊆ lab_revisions (store_ops ops' db) ∧
  lab_commands db ⊆ lab_commands (store_ops ops' db).
Proof.
  intros db. split; [apply store_ops_ok, lab_ok_empty|]. apply store_ops_keep.
Qed.

(** What a saver must know: the current revision, or 0 or 1 for a new lab. *)
Definition current_or_new (row : option LabRow.t) (expected : Z) : Prop :=
  match row with Some r => LabRow.current_revision r = expected | None => expected = 0 ∨ expected = 1 end.

Lemma save_success now dg d expected db :
  lab_ok db → current_or_new (lab_definitions db !! LabDefinition.lab_id d) expected → expected < 2 ^ 31 - 1 →
  let rev := next_number (lab_definitions db !! LabDefinition.lab_id d) in
  ∃ db' row, save_body now dg d expected db = Ok (LabDefinition.with_revision rev d, db') ∧
    lab_definitions db' !! LabDefinition.lab_id d = Some row ∧ LabRow.current_revision row = rev ∧
    lab_revisions db !! (LabDefinition.lab_id d, rev) = None ∧
    lab_revisions db' = <[(LabDefinition.lab_id d, rev) :=
      RevisionRow.mk (model_dump (LabDefinition.with_revision rev d)) dg]> (lab_revisions db).
Proof.
  intros Hok Hexp Hmax rev. unfold save_body, next_revision.
  assert (lab_revisions db !! (LabDefinition.lab_id d, rev) = None) as Hfree.
  { apply eq_None_not_Some. intros (r & Hr & Hle)%(ok_revisions db Hok). unfold rev in Hle. rewrite Hr in Hle.
    simpl in Hle. lia. }
  unfold rev in *. destruct (lab_definitions db !! LabDefinition.lab_id d) as [r|] eqn:Hr; cbn [next_number current_or_new] in *.
  - pose proof (ok_labs db Hok _ _ Hr) as Hpos. rewrite bool_decide_eq_true_2 by done. cbn [guard_exn mbind result_bind].
    assert (int4 (LabRow.current_revision r + 1) = Ok ()) as ->.
    { unfold int4, int_column. rewrite (proj2 (Z.leb_le _ _)) by lia. by rewrite (proj2 (Z.ltb_lt _ _)) by lia. }
    cbn [guard_exn mbind result_bind]. rewrite bool_decide_eq_true_2 by exact Hfree.
    cbn [guard_exn mbind result_bind]. do 2 eexists. split; [reflexivity|]. cbn. by rewrite lookup_insert_eq.
  - rewrite bool_decide_eq_true_2 by set_solver. cbn [guard_exn mbind result_bind].
    rewrite bool_decide_eq_true_2 by exact Hfree. cbn [guard_exn mbind result_bind].
    do 2 eexists. split; [reflexivity|]. cbn. by rewrite lookup_insert_eq.
Qed.

Lemma save_conflict now dg d expected db :
  ¬ current_or_new (lab_definitions db !! LabDefinition.lab_id d) expected →
  save_body now dg d expected db = Err LabRevisionConflictError.
Proof.
  intros Hexp. unfold save_body, next_revision.
  destruct (lab_definitions db !! LabDefinition.lab_id d) as [r|]; cbn [current_or_new] in Hexp.
  - by rewrite bool_decide_eq_false_2.
  - rewrite bool_decide_eq_false_2; [done|]. set_solver.
Qed.

(** Saving a lab is an optimistic compare-and-swap with a faithful history: in any
    reachable database a save that names the current revision (0 or 1 for a new lab)
    stores the definition under the next number, reading the lab back - its latest
    revision, or that number - gives the definition saved, every other revision of every
    lab reads as before; a save that names another revision raises
    [LabRevisionConflictError] and changes nothing, so of two editors of one revision
    the second is refused. *)
Theorem save_lab_compare_and_swap ops now d expected dg :
  (∀ r, model_validate (model_dump (LabDefinition.with_revision r d)) = Ok (LabDefinition.with_revision r d)) →
  compute_definition_digest d = Ok dg → expected < 2 ^ 31 - 1 →
  let db := store_ops ops empty_lab_db in
  let id := LabDefinition.lab_id d in
  let rev := next_number (lab_definitions db !! id) in
  let saved := LabDefinition.with_revision rev d in
  (current_or_new (lab_definitions db !! id) expected → ∃ db',
     save_lab now d expected db = (Ok saved, db') ∧
     get_lab id None db' = (Ok (Some saved), db') ∧ get_lab id (Some rev) db' = (Ok (Some saved), db') ∧
     (∀ id' r, (id', r) ≠ (id, rev) → (get_lab id' (Some r) db').1 = (get_lab id' (Some r) db).1) ∧
     (is_Some (lab_definitions db !! id) → ∀ now' d', LabDefinition.lab_id d' = id → is_ok (compute_definition_digest d') = true →
        save_lab now' d' expected db' = (Err LabRevisionConflictError, db'))) ∧
  (¬ current_or_new (lab_definitions db !! id) expected →
     save_lab now d expected db = (Err LabRevisionConflictError, db)).
Proof.
  intros Hjson Hdg Hmax db id rev saved. pose proof (store_ops_ok ops _ lab_ok_empty) as Hok. fold db in Hok.
  unfold save_lab. rewrite !M_bind_run. unfold lift_res. rewrite Hdg. split.
  - intros Hexp. destruct (save_success now dg d expected db Hok Hexp Hmax) as (db' & row & Hs & Hrow & Hcur & Hfree & Hrevs).
    fold id in Hs, Hrow, Hcur, Hfree, Hrevs. fold rev in Hs, Hcur, Hfree, Hrevs. fold saved in Hs, Hrevs.
    exists db'. unfold transaction at 1. rewrite Hs. split; [done|].
    unfold get_lab, query, revision_row. rewrite Hrow. cbn [mbind option_bind]. rewrite Hcur.
    rewrite !Hrevs, lookup_insert_eq. cbn [RevisionRow.definition].
    unfold saved. rewrite Hjson. cbn [fmap result_fmap]. split; [done|]. split; [done|].
    split; [intros id' r Hne; cbn; rewrite lookup_insert_ne; [done|by intros Heq; apply Hne]|].
    intros [r0 Hr0] now' d' Hid Hd'. rewrite M_bind_run.
    destruct (compute_definition_digest d') as [dg'|]; [|done]. unfold transaction. rewrite save_conflict; [done|].
    rewrite Hid, Hrow. cbn [current_or_new]. rewrite Hcur. unfold rev. rewrite Hr0 in Hexp |- *. simpl in *. lia.
  - intros Hexp. unfold transaction. by rewrite save_conflict.
Qed.

(** Control revisions never go back. *)
Definition control_at_least (rid : UUID) (n : Z) (db : LabDB) : Prop :=
  ∃ row, lab_runs db !! rid = Some row ∧ n ≤ RunRow.control_revision row.
Lemma evolves_control rid n db db' : evolves db db' → control_at_least rid n db → control_at_least rid n db'.
Proof.
  intros Hev (r0 & Hr0 & Hle). unfold control_at_least.
  destruct Hev as [_ _ _ Hn|id row rev _ _ _ _ _ Hn|rid' row Hfree _ _ _ Hn _ _ _|rid' row cid cmd Hrow _ _ _ Hn _ _ _].
  - specialize (Hn rid). unfold controls_of in Hn. rewrite Hr0 in Hn. simpl in Hn.
    apply fmap_Some in Hn as (r1 & Hr1 & Heq). injection Heq as Heq _ _ _ _. exists r1. split; [done|]. by rewrite <-Heq.
  - exists r0. by rewrite Hn.
  - exists r0. rewrite Hn, lookup_insert_ne; [done|congruence].
  - rewrite Hn. destruct (decide (rid' = rid)) as [->|Hne].
    + eexists. rewrite lookup_insert_eq. split; [done|]. simpl. assert (r0 = row) as -> by congruence. lia.
    + exists r0. by rewrite lookup_insert_ne.
Qed.
Lemma store_ops_control rid n ops : ∀ db, control_at_least rid n db → control_at_least rid n (store_ops ops db).
Proof.
  induction ops as [|op ops IH]; intros db Hc; [done|]. simpl. apply IH.
  eapply evolves_control; [apply store_op_evolves|done].
Qed.

(** A stored command that answers a receipt. *)
Definition answers (rid : UUID) (request : CommandRequest.t) (hash : string) (receipt : CommandReceipt.t) (db : LabDB)
  : Prop := ∃ row, lab_commands db !! (rid, CommandRequest.command_id request) = Some row ∧
            CommandRow.payload_hash row = hash ∧ receipt_of (CommandRequest.command_id request) row = Ok receipt.

Lemma submit_answers rid request hash receipt db db' :
  payload_hash request = Ok hash → submit_command rid request db = (Ok receipt, db') →
  answers rid request hash receipt db'.
Proof.
  intros Hh Hs. unfold submit_command in Hs. rewrite M_bind_run in Hs. unfold lift_res in Hs. rewrite Hh in Hs.
  rewrite M_bind_run in Hs. unfold find_command, query in Hs.
  destruct (lab_commands db !! (rid, CommandRequest.command_id request)) as [row|] eqn:Hrow.
  - destruct (guard_exn (bool_decide (CommandRow.payload_hash row = hash)) CommandIdentityConflictError) eqn:Hg; [|done].
    apply guard_exn_Ok, bool_decide_eq_true in Hg. cbn [mbind result_bind] in Hs.
    destruct (receipt_of (CommandRequest.command_id request) row) as [rc|] eqn:Hrc; [|done]. injection Hs as <- <-. by exists row.
  - unfold accept_command, transaction in Hs.
    destruct (accept_body rid request hash db) as [[rc d]|] eqn:Hb; [|done]. injection Hs as <- <-.
    apply accept_inv in Hb as (row & Hrow' & _ & _ & _ & Hrc & ->).
    eexists. split; [simpl; apply lookup_insert_eq|]. split; [done|exact Hrc].
Qed.

(** C12. Commands are accepted exactly once: once a submission has returned its receipt,
    then whatever happens next - other clients, engine checkpoints, concurrent halves of
    other submissions - submitting the same request again returns the very same receipt
    and changes nothing, the same identifier with another payload is refused with
    [CommandIdentityConflictError], and the receipt names a stored command whose control
    revision is its sequence number; and when it was accepted at an expected revision, no
    later acceptance that expects that revision or an older one succeeds. *)
Theorem command_accepted_once ops ops' rid request hash receipt db1 :
  payload_hash request = Ok hash →
  submit_command rid request (store_ops ops empty_lab_db) = (Ok receipt, db1) →
  let db := store_ops ops' db1 in
  submit_command rid request db = (Ok receipt, db) ∧
  (∀ request' hash', CommandRequest.command_id request' = CommandRequest.command_id request →
     payload_hash request' = Ok hash' → hash' ≠ hash →
     submit_command rid request' db = (Err CommandIdentityConflictError, db)) ∧
  CommandReceipt.accepted_sequence receipt = CommandReceipt.control_revision receipt ∧
  (∀ request' hash', CommandRequest.expected_control_revision request' < CommandReceipt.control_revision receipt →
     is_ok (accept_command rid request' hash' db).1 = false).
Proof.
  intros Hh Hs db. pose proof (submit_answers _ _ _ _ _ _ Hh Hs) as (row & Hrow & Hhash & Hrc).
  assert (lab_ok db1) as Hok1.
  { replace db1 with (store_op (store_ops ops empty_lab_db) (Op (SubmitCommand rid request))) by (simpl; by rewrite Hs).
    eapply evolves_ok; [apply store_ops_ok, lab_ok_empty|apply store_op_evolves]. }
  assert (lab_commands db !! (rid, CommandRequest.command_id request) = Some row) as Hrow'.
  { eapply lookup_weaken; [exact Hrow|apply store_ops_keep]. }
  assert (CommandReceipt.accepted_sequence receipt = CommandRow.accepted_sequence row ∧
          CommandReceipt.control_revision receipt = CommandRow.control_revision row) as [Eseq Erev].
  { unfold receipt_of, CommandReceipt.make in Hrc. do 2 apply bind_Ok in Hrc as (? & _ & Hrc). by injection Hrc as <-. }
  destruct (ok_commands db1 Hok1 _ _ _ Hrow) as (Heq & run & Hrun & Hle).
  destruct (ok_runs db1 Hok1 _ _ Hrun) as (_ & Hctl & _).
  split; [|split; [|split]].
  - unfold submit_command. rewrite M_bind_run. unfold lift_res. rewrite Hh, M_bind_run.
    unfold find_command, query. rewrite Hrow', bool_decide_eq_true_2 by done. cbn [guard_exn mbind result_bind].
    by rewrite Hrc.
  - intros request' hash' Hid Hh' Hne. unfold submit_command. rewrite M_bind_run. unfold lift_res.
    rewrite Hh', M_bind_run. unfold find_command, query. rewrite Hid, Hrow', bool_decide_eq_false_2; [done|congruence].
  - by rewrite Eseq, Erev, Heq.
  - intros request' hash' Hlt.
    destruct (store_ops_control rid (CommandRow.control_revision row) ops' db1) as (run' & Hrun' & Hle').
    { exists run. split; [done|]. lia. }
    unfold accept_command, transaction. fold db in Hrun'.
    destruct (accept_body rid request' hash' db) as [[rc d]|] eqn:Hb; [|done].
    apply accept_inv in Hb as (r2 & Hr2 & _ & Hexp & _). assert (r2 = run') as -> by congruence. lia.
Qed.
End Statements.

(** ** Witnesses *)
Module StoreWitness.
Import LabExamples.

Definition digest : string := from_ok "" (compute_definition_digest (lab 1)).
Lemma digest_ok : compute_definition_digest (lab 1) = Ok digest.
Proof. apply from_ok_eq. vm_compute. reflexivity. Qed.

Lemma save_lab_compare_and_swap_witness :
  ∃ db', save_lab 5 (lab 1) 1 db0 = (Ok (lab 2), db') ∧ get_lab (id 3) None db' = (Ok (Some (lab 2)), db').
Proof.
  pose proof (save_lab_compare_and_swap [Op (SaveLab 0 (lab 1) 0)] 5 (lab 1) 1 digest) as Hs.
  destruct Hs as [Hs _]; [by intros r|exact digest_ok|lia|].
  destruct Hs as (db' & Hsave & Hget & _); [vm_compute; reflexivity|]. exists db'. split; [exact Hsave|exact Hget].
Defined.

Definition request : CommandRequest.t := CommandRequest.mk (id 7) 0 "SET_LOAD_FACTOR" None [].
Definition before : list StoreOp := [Op (SaveLab 0 (lab 1) 0); Op (StartRun (id 4) (spec 20) None)].
Definition receipt : CommandReceipt.t :=
  from_ok (CommandReceipt.mk (id 7) CMD_FAILED 0 None 0 None) (submit_command (id 4) request (store_ops before empty_lab_db)).1.
Definition hash : string := from_ok "" (payload_hash request).

Lemma command_accepted_once_witness :
  let db := store_ops [Op (SubmitCommand (id 4) (CommandRequest.mk (id 8) 1 "CLEAR_FAULT" None []))]
              (submit_command (id 4) request (store_ops before empty_lab_db)).2 in
  submit_command (id 4) request db = (Ok receipt, db).
Proof.
  refine (proj1 (command_accepted_once before _ (id 4) request hash receipt _ _ _)).
  - apply from_ok_eq. vm_compute. reflexivity.
  - apply from_ok_run. vm_compute. reflexivity.
Defined.
Example receipt_accepted : CommandReceipt.status receipt = CMD_ACCEPTED.
Proof. vm_compute. reflexivity. Qed.
End StoreWitness.
