(* ===== verification/LabObserveProps.v ===== *)
(** * Virtual lab: observations of a compiled network

    Every sensor of an eligible definition gives one observation of every state
    the solver can return, and only a dropout fault makes it missing. *)

From S2P Require Import Prelude PyText PyUuid PyFloat PyHash PyJson Messages KafkaIo Tables.
From S2P Require Import LabContracts LabNetwork LabSolverTheory LabSolver.
From S2P Require Import LabSensors.
From S2P Require Import LabStore LabEngine LabEngineTheory LabExamples LabModelProps.

(** ** The node a sensor reads *)
Definition named (nt : NodeTable) (k : string) : Prop := ∃ x, x ∈ nt_nodes nt ∧ NetworkNode.node_id x = k.

Lemma add_node_here node_id id group vol p ports nt :
  named (add_node node_id id group vol p ports nt) node_id.
Proof. eexists. split; [apply elem_of_app; right; by left|done]. Qed.
Lemma add_node_keep node_id id group vol p ports nt k :
  named nt k → named (add_node node_id id group vol p ports nt) k.
Proof. intros (x & Hx & Hk). exists x. split; [apply elem_of_app; by left|done]. Qed.

Definition has_nodes (nt : NodeTable) (a : Asset.t) : Prop :=
  ∀ p, p ∈ VALID_PORTS_BY_ASSET_TYPE (Asset.type a) → named nt (node_key a (PortRef.mk (Asset.asset_id a) p)).

Lemma add_asset_named nt a :
  has_nodes (add_asset nt a) a ∧ ∀ k, named nt k → named (add_asset nt a) k.
Proof.
  unfold has_nodes, add_asset, node_key. cbn [PortRef.asset_id PortRef.port].
  destruct (Asset.type a); cbn [VALID_PORTS_BY_ASSET_TYPE is_valve_type].
  3,4: split; [intros p Hp|intros k Hk; apply add_node_keep, add_node_keep, Hk];
    rewrite !elem_of_cons in Hp; destruct Hp as [->|[->|Hp]];
    [apply add_node_keep, add_node_here|apply add_node_here|by apply elem_of_nil in Hp].
  all: split; [intros p Hp; apply add_node_here|intros k Hk; apply add_node_keep, Hk].
Qed.

Lemma build_nodes_named assets : ∀ nt,
  (∀ a, a ∈ assets → has_nodes (build_nodes assets nt) a) ∧
  (∀ k, named nt k → named (build_nodes assets nt) k).
Proof.
  induction assets as [|a assets IH]; intros nt; simpl.
  - split; [intros a Ha; by apply elem_of_nil in Ha|done].
  - destruct (add_asset_named nt a) as [Ha Hg]. destruct (IH (add_asset nt a)) as [Hin Hk]. split.
    + intros b [->|Hb]%elem_of_cons p Hp; [by apply Hk, Ha|by apply Hin].
    + intros k Hn. by apply Hk, Hg.
Qed.

Lemma compile_named d dt net a p :
  compile_lab d dt = Ok net → a ∈ LabDefinition.assets d → p ∈ VALID_PORTS_BY_ASSET_TYPE (Asset.type a) →
  ∃ x, x ∈ CompiledNetwork.nodes net ∧ NetworkNode.node_id x = node_key a (PortRef.mk (Asset.asset_id a) p).
Proof.
  intros Hc Ha Hp. unfold compile_lab in Hc.
  set (sorted_assets := sorted_by_id Asset.asset_id (LabDefinition.assets d)) in Hc.
  fold (build_nodes sorted_assets (mkNodeTable [] ∅ ∅)) in Hc.
  destruct (build_nodes_named sorted_assets (mkNodeTable [] ∅ ∅)) as [Hn _].
  specialize (Hn a (proj2 (sorted_elem _ _ _) Ha) p Hp).
  repeat (apply bind_Ok in Hc as (? & _ & Hc)). apply Ok_inj in Hc as <-. exact Hn.
Qed.

(** ** One sensor *)
Section Observe.
Context `{Libm}.
(** The logarithm of a number in (0, 1] is not positive. *)
Hypothesis log_law : ∀ n, 0 ≤ n < 2 ^ 64 → fltb (fmul (lit (-2)) (math_log (unit_sample n))) f0 = false.
Variable run : SimulationRun.t.
Let d := SimulationRun.definition run.
Hypothesis Hd : well_formed d.

Definition unit_of (k : SensorKind) : ObservationUnit := match k with PRESSURE => UNIT_PA | FLOW => UNIT_KG_S end.
Definition target_id (t : SensorTarget) : UUID := match t with TPort p => PortRef.asset_id p | TPipe q => q end.

(** What an observation of a sensor says. *)
Record reading (state : PhysicalState.t) (s : Sensor.t) (o : Observation.t) : Prop := {
  rd_sensor : Observation.sensor_id o = Sensor.sensor_id s;
  rd_run : Observation.run_id o = SimulationRun.run_id run;
  rd_asset : Observation.asset_id o = target_id (Sensor.target s);
  rd_tick : Observation.tick o = PhysicalState.tick state;
  rd_unit : Observation.unit o = unit_of (Sensor.kind s);
  rd_quality : match Observation.quality o, Observation.value o with
               | GOOD, Some v => is_finite v = true ∧ (Sensor.kind s = PRESSURE → fltb v f0 = false)
               | INVALID, Some v => is_finite v = true ∧ Sensor.kind s = PRESSURE ∧ fltb v f0 = true
               | INVALID, None => True
               | MISSING, None => True
               | _, _ => False
               end
}.

(** The pressures of every node are known. *)
Definition complete (state : PhysicalState.t) : Prop :=
  ∃ dt net, compile_lab d dt = Ok net ∧
    ∀ x, x ∈ CompiledNetwork.nodes net → is_Some (PhysicalState.pressures_pa state !! NetworkNode.node_id x).

(** The observation of a sensor: missing in a complete state only if it drops out. *)
Definition observed (state : PhysicalState.t) (faults : gmap UUID ActiveFault.t) (s : Sensor.t) (o : Observation.t) : Prop :=
  let fault := faults !! Sensor.sensor_id s in
  reading state s o ∧
  (complete state → Observation.quality o = MISSING → is_fault SENSOR_DROPOUT fault = true) ∧
  (is_fault SENSOR_DROPOUT fault = true → Observation.quality o = MISSING).

(** Eight bytes of a digest are a 64-bit integer. *)
Lemma digest_bytes msg : Forall (λ b, 0 ≤ b < 256) (SHA256.sha256 msg).
Proof.
  unfold SHA256.sha256, digest_words. generalize (foldl SHA256.compress SHA256.init (message_blocks msg)).
  intros ws. induction ws as [|w ws IH]; [constructor|]. cbn [mbind list_bind].
  apply Forall_app. split; [by apply to_digits_bound|exact IH].
Qed.
Lemma from_bytes_bound bs : Forall (λ b, 0 ≤ b < 256) bs → 0 ≤ int_from_bytes bs < 256 ^ Z.of_nat (length bs).
Proof.
  unfold int_from_bytes, of_digits. induction bs as [|b bs IH] using rev_ind; intros Hb; [done|].
  apply Forall_app in Hb as [Hbs [Hb _]%Forall_cons]. specialize (IH Hbs). rewrite foldl_app, length_app, Nat2Z.inj_add.
  change (Z.of_nat (length [b])) with 1. rewrite Z.pow_add_r, Z.pow_1_r by lia. cbn [foldl]. lia.
Qed.
Lemma digest_sample msg : 0 ≤ int_from_bytes (take 8 (SHA256.sha256 msg)) < 2 ^ 64.
Proof.
  pose proof (from_bytes_bound (take 8 (SHA256.sha256 msg)) (Forall_take _ 8 _ (digest_bytes msg))) as Hb.
  assert (256 ^ Z.of_nat (length (take 8 (SHA256.sha256 msg))) ≤ 256 ^ 8) as Hle.
  { apply Z.pow_le_mono_r; [lia|]. rewrite length_take. lia. }
  change (256 ^ 8) with (2 ^ 64) in Hle. lia.
Qed.

Lemma noise_ok seed sensor_id tick : ∃ z, compute_gaussian_noise seed sensor_id tick = Ok z.
Proof.
  unfold compute_gaussian_noise, math_sqrt, noise_digest.
  rewrite log_law by apply digest_sample. eexists. reflexivity.
Qed.

Lemma quality_sound kind v :
  let r := quality_of kind v in
  match r.1, r.2 with
  | GOOD, Some v => is_finite v = true ∧ (kind = PRESSURE → fltb v f0 = false)
  | INVALID, Some v => is_finite v = true ∧ kind = PRESSURE ∧ fltb v f0 = true
  | INVALID, None => True
  | MISSING, None => True
  | _, _ => False
  end.
Proof.
  unfold quality_of. destruct (is_finite v) eqn:Hf; [|done]. cbn [negb].
  case_bool_decide as Hk; cbn [andb]; [destruct (fltb v f0) eqn:Hlt|]; cbn [fst snd].
  - done.
  - done.
  - split; [done|]. intros Hk'. by destruct Hk.
Qed.

(** The sample a sensor of an eligible definition takes. *)
Lemma sample_ok state s :
  s ∈ LabDefinition.sensors d →
  ∃ truth, sample_truth run state s = Ok (Some (unit_of (Sensor.kind s), truth, target_id (Sensor.target s))) ∧
    (complete state → is_Some truth).
Proof.
  intros Hs. pose proof (wf_sensors d Hd s Hs) as Hok. unfold sensor_ok in Hok. unfold sample_truth.
  destruct (Sensor.kind s), (Sensor.target s) as [p|q]; try done.
  - destruct Hok as (a & Ha & Hid & Hp). unfold find_asset. fold d.
    assert (head (filter (λ x, Asset.asset_id x = PortRef.asset_id p) (LabDefinition.assets d)) = Some a) as ->.
    { destruct (filter _ _) as [|b l] eqn:Hfil.
      - assert (a ∈ filter (λ x, Asset.asset_id x = PortRef.asset_id p) (LabDefinition.assets d)) as Hin
          by (by apply list_elem_of_filter). rewrite Hfil in Hin. by apply elem_of_nil in Hin.
      - assert (b ∈ filter (λ x, Asset.asset_id x = PortRef.asset_id p) (LabDefinition.assets d)) as Hin
          by (rewrite Hfil; by left). apply list_elem_of_filter in Hin as [Hb Hin]. simpl. f_equal.
        apply list_elem_of_lookup in Hin as [i Hi]. apply list_elem_of_lookup in Ha as [j Hj].
        assert (i = j) as ->; [|congruence].
        eapply (NoDup_lookup _ i j (PortRef.asset_id p) (wf_asset_ids d Hd)); rewrite list_lookup_fmap;
          [rewrite Hi|rewrite Hj]; simpl; congruence. }
    eexists. split; [reflexivity|]. intros (dt & net & Hnet & Hstate).
    destruct (compile_named d dt net a (PortRef.port p) Hnet Ha Hp) as (x & Hx & Hname).
    destruct p as [pid pp]. cbn [PortRef.asset_id PortRef.port] in *. rewrite <-Hid, <-Hname. by apply Hstate.
  - eexists. split; [reflexivity|]. eauto.
Qed.

Lemma observe_one state faults s :
  s ∈ LabDefinition.sensors d → 0 ≤ PhysicalState.tick state →
  ∃ o, observe_sensor run state faults s = Ok [o] ∧ observed state faults s o.
Proof.
  intros Hs Ht. destruct (sample_ok state s Hs) as (truth & Hsample & Htruth).
  unfold observe_sensor. rewrite Hsample. cbn [mbind result_bind].
  set (fault := faults !! Sensor.sensor_id s).
  assert (∃ q v, match truth with
                 | None => Ok (MISSING, None)
                 | Some x => if is_fault SENSOR_DROPOUT fault then Ok (MISSING, None)
                             else quality_of (Sensor.kind s) <$> measure run state fault s x
                 end = Ok (q, v) ∧
            (is_Some truth → q = MISSING → is_fault SENSOR_DROPOUT fault = true) ∧
            (is_fault SENSOR_DROPOUT fault = true → q = MISSING) ∧
            match q, v with
            | GOOD, Some v => is_finite v = true ∧ (Sensor.kind s = PRESSURE → fltb v f0 = false)
            | INVALID, Some v => is_finite v = true ∧ Sensor.kind s = PRESSURE ∧ fltb v f0 = true
            | INVALID, None => True
            | MISSING, None => True
            | _, _ => False
            end) as (q & v & -> & Hq & Hq' & Hqv).
  { destruct truth as [x|]; [|exists MISSING, None; split; [done|split; [by intros [? ?]|done]]].
    destruct (is_fault SENSOR_DROPOUT fault); [by exists MISSING, None|]. unfold measure.
    destruct (noise_ok (RunSpec.seed (SimulationRun.spec run)) (Sensor.sensor_id s) (PhysicalState.tick state)) as [z ->].
    cbn [mbind result_bind fmap result_fmap]. set (m := match fault with Some _ => _ | None => _ end).
    pose proof (quality_sound (Sensor.kind s) m) as Hm. destruct (quality_of (Sensor.kind s) m) as [q v] eqn:Hqm.
    exists q, v. split; [done|]. split; [|split; [done|exact Hm]]. intros _ ->.
    unfold quality_of in Hqm. destruct (is_finite m); [|done]. cbn in Hqm. by destruct (_ && _). }
  cbn [mbind result_bind fst snd]. unfold Observation.make. rewrite (proj2 (Z.leb_le _ _) Ht).
  cbn [field guard_exn mbind result_bind]. eexists. split; [reflexivity|].
  split; [by split|]. split; [|exact Hq']. cbn [Observation.quality]. intros Hstate Hmiss.
  apply Hq; [by apply Htruth|done].
Qed.

Lemma observe_all state controls :
  0 ≤ PhysicalState.tick state →
  ∃ os, observe run state controls = Ok os ∧
    Forall2 (observed state (sensor_faults controls)) (LabDefinition.sensors d) os.
Proof.
  intros Ht. unfold observe. fold d.
  assert (∀ l, (∀ s, s ∈ l → s ∈ LabDefinition.sensors d) → ∃ oss,
    mapR (observe_sensor run state (sensor_faults controls)) l = Ok oss ∧
    Forall2 (observed state (sensor_faults controls)) l (concat oss)) as Hall.
  { induction l as [|s l IH]; intros Hl; [exists []; by split; constructor|].
    destruct (observe_one state (sensor_faults controls) s (Hl s (list_elem_of_here _ _)) Ht) as (o & Ho & Hr).
    destruct IH as (oss & Hoss & Hf); [intros; apply Hl; by right|].
    exists ([o] :: oss). split; [cbn [mapR]; rewrite Ho; cbn [mbind result_bind]; by rewrite Hoss|].
    by constructor. }
  destruct (Hall (LabDefinition.sensors d)) as (oss & -> & Hf); [done|]. by exists (concat oss).
Qed.
End Observe.

Section Statements.
Context `{Linalg, Libm}.
Context `{JsonModel LabDefinition.t}.

(** Solver and sensors fit: in a run of an eligible definition, every state a step
    returns is observed completely - [observe] does not raise, and gives one observation
    per sensor in the order of the definition, with the run, the sensor, its target, the
    tick and the unit of its kind; its quality says what its value is (GOOD: a finite
    value, not negative for a pressure; INVALID: a negative pressure or no finite value;
    MISSING: no value), and it is MISSING exactly under a SENSOR_DROPOUT fault. *)
Theorem observations_complete run v net state controls s' controls' :
  (∀ m v x, np_solve m v = Some x → length x = length v) →
  (∀ n, 0 ≤ n < 2 ^ 64 → fltb (fmul (lit (-2)) (math_log (unit_sample n))) f0 = false) →
  (∀ a, a ∈ LabDefinition.assets (SimulationRun.definition run) →
     Asset.validate_parameters (Asset.type a) (Asset.parameters a) = Ok ()) →
  validate_lab (SimulationRun.definition run) = Ok v → LabValidationResult.run_eligible v = true →
  compile_lab (SimulationRun.definition run) (SimulationRun.dt run) = Ok net →
  0 ≤ PhysicalState.tick state → step net state controls (SimulationRun.dt run) = Ok s' →
  ∃ os, observe run s' controls' = Ok os ∧
    Forall2 (λ s o, reading run s' s o ∧
      (Observation.quality o = MISSING ↔
       is_fault SENSOR_DROPOUT (sensor_faults controls' !! Sensor.sensor_id s) = true))
      (LabDefinition.sensors (SimulationRun.definition run)) os.
Proof.
  intros Hsolve Hlog Hvalid Hv Hel Hnet Htick Hstep. apply (validate_exact _ v Hv) in Hel.
  pose proof (ensures_Ok _ _ _ _ (compile_wf _ (SimulationRun.dt run) Hel) Hnet) as Hwf.
  pose proof (ensures_Ok _ _ _ _ (step_ensures Hsolve _ net Hwf Hvalid state controls _ Htick) Hstep) as Hst.
  destruct (observe_all Hlog run Hel s' controls') as (os & Ho & Hall).
  { rewrite (st_tick _ _ _ Hst). lia. }
  exists os. split; [done|]. eapply Forall2_impl; [exact Hall|]. intros s o (Hr & Hm & Hf).
  split; [done|]. split; [|done]. apply Hm. exists (SimulationRun.dt run), net.
  split; [done|]. apply (st_nodes _ _ _ Hst).
Qed.
End Statements.

Module ObserveWitness.
Import LabExamples ModelWitness.

Lemma log_example n : 0 ≤ n < 2 ^ 64 → fltb (fmul (lit (-2)) (math_log (unit_sample n))) f0 = false.
Proof. intros _. vm_compute. reflexivity. Qed.

Definition run_def : LabDefinition.t := SimulationRun.definition (run 20).
Definition verdict20 : LabValidationResult.t :=
  from_ok (LabValidationResult.mk false "" []) (validate_lab run_def).
Definition start20 : PhysicalState.t := start_state (run 20).
Definition after_step : PhysicalState.t :=
  from_ok start20 (step (network 20) start20 controls (SimulationRun.dt (run 20))).

Lemma assets_valid a :
  a ∈ LabDefinition.assets run_def → Asset.validate_parameters (Asset.type a) (Asset.parameters a) = Ok ().
Proof.
  assert (forallb (λ a, bool_decide (Asset.validate_parameters (Asset.type a) (Asset.parameters a) = Ok ()))
    (LabDefinition.assets run_def) = true) as Hv by (vm_compute; reflexivity).
  rewrite forallb_forall in Hv. intros Ha%list_elem_of_In. by apply Hv, bool_decide_eq_true in Ha.
Qed.

Lemma observations_complete_witness :
  ∃ os, observe (run 20) after_step controls = Ok os ∧
    Forall2 (λ s o, reading (run 20) after_step s o ∧
      (Observation.quality o = MISSING ↔
       is_fault SENSOR_DROPOUT (sensor_faults controls !! Sensor.sensor_id s) = true))
      (LabDefinition.sensors run_def) os.
Proof.
  refine (observations_complete (run 20) verdict20 (network 20) start20 controls after_step controls
    solve_law log_example _ _ _ compiled _ _).
  - exact assets_valid.
  - apply from_ok_eq. vm_compute. reflexivity.
  - vm_compute. reflexivity.
  - vm_compute. congruence.
  - apply from_ok_eq. vm_compute. reflexivity.
Defined.
End ObserveWitness.
