(* ===== verification/LabAnalysisProps.v ===== *)
(** * Virtual lab: what the analysis of a sensor promises

    The alerts of a sensor against a specification that only speaks of the
    history of observations: runs of samples, and two automata over them. *)

From S2P Require Import Prelude PyText PyUuid PyFloat PyJson KafkaIo LabContracts LabAnalysis.

(** ** The specification *)
Section Spec.
Variable sensor : Sensor.t.

Definition is_bad (o : Observation.t) : bool :=
  match bad_kind (Observation.quality o) with Some _ => true | None => false end.
Definition is_good (o : Observation.t) : bool := negb (is_bad o).
(** The value of a good observation. *)
Definition good_value (o : Observation.t) : option float :=
  if is_bad o then None else Observation.value o.
Definition is_above (o : Observation.t) : bool :=
  match good_value o with Some v => above sensor v | None => false end.
Definition is_below (o : Observation.t) : bool :=
  match good_value o with Some v => negb (above sensor v) && below sensor v | None => false end.
Definition is_safe (o : Observation.t) : bool :=
  match good_value o with
  | Some v => negb (above sensor v) && negb (below sensor v) && safely_inside sensor v | None => false end.

(** The samples of a kind since the last one that ends the run; others leave it. *)
Definition run (counted ends : Observation.t → bool) (history : list Observation.t) : Z :=
  foldl (λ n o, if counted o then n + 1 else if ends o then 0 else n) 0 history.
Definition above_run := run is_above (λ o, is_below o || is_safe o).
Definition below_run := run is_below (λ o, is_above o || is_safe o).
Definition safe_run := run is_safe (λ o, is_above o || is_below o || is_bad o).
Definition good_run := run is_good is_bad.

(** What an alert that opens at an observation says. *)
Definition opened (origin : AlertOrigin) (kind : AlertKind) (back : Z) (o : Observation.t) (a : LabAlert.t)
  : Prop :=
  LabAlert.origin a = origin ∧ LabAlert.kind a = kind ∧ LabAlert.state a = ALERT_OPEN ∧
  LabAlert.run_id a = Observation.run_id o ∧ LabAlert.sensor_id a = Sensor.sensor_id sensor ∧
  LabAlert.asset_id a = target_asset sensor ∧ LabAlert.first_tick a = Observation.tick o - back ∧
  LabAlert.last_tick a = Observation.tick o ∧ LabAlert.resolved_tick a = None.

Definition opens_process (history : list Observation.t) (o : Observation.t) (kind : AlertKind) : Prop :=
  (kind = ABOVE_LIMIT ∧ is_above o = true ∧ 3 ≤ above_run (history ++ [o])) ∨
  (kind = BELOW_LIMIT ∧ is_below o = true ∧ 3 ≤ below_run (history ++ [o])).
Definition resolves_process (history : list Observation.t) (o : Observation.t) : Prop :=
  is_safe o = true ∧ 5 ≤ safe_run (history ++ [o]).

(** The process alerts of a history, and the one that is open after it. *)
Inductive process_trace : list Observation.t → list LabAlert.t → option LabAlert.t → Prop :=
| process_start : process_trace [] [] None
| process_idle history alerts o :
    process_trace history alerts None → (∀ kind, ¬ opens_process history o kind) →
    process_trace (history ++ [o]) alerts None
| process_open history alerts o kind a :
    process_trace history alerts None → opens_process history o kind →
    opened PROCESS_LIMIT kind 40 o a → process_trace (history ++ [o]) (alerts ++ [a]) (Some a)
| process_stay history alerts o a :
    process_trace history alerts (Some a) → ¬ resolves_process history o →
    process_trace (history ++ [o]) alerts (Some a)
| process_resolve history alerts o a :
    process_trace history alerts (Some a) → resolves_process history o →
    process_trace (history ++ [o]) (alerts ++ [resolve (Observation.tick o) a]) None.

(** The quality alerts, with the bad samples since the last resolution. *)
Inductive quality_trace : list Observation.t → list LabAlert.t → option LabAlert.t → Z → Prop :=
| quality_start : quality_trace [] [] None 0
| quality_open history alerts o kind a n :
    quality_trace history alerts None n → bad_kind (Observation.quality o) = Some kind → 2 ≤ n + 1 →
    opened DATA_QUALITY kind 20 o a →
    quality_trace (history ++ [o]) (alerts ++ [a]) (Some a) (n + 1)
| quality_bad history alerts o s n :
    quality_trace history alerts s n → is_bad o = true → (s = None → n + 1 < 2) →
    quality_trace (history ++ [o]) alerts s (n + 1)
| quality_good history alerts o s n :
    quality_trace history alerts s n → is_bad o = false →
    (is_Some s → good_run (history ++ [o]) < 3) → quality_trace (history ++ [o]) alerts s n
| quality_resolve history alerts o a n :
    quality_trace history alerts (Some a) n → is_bad o = false → 3 ≤ good_run (history ++ [o]) →
    quality_trace (history ++ [o]) (alerts ++ [resolve (Observation.tick o) a]) None 0.
End Spec.

(** ** A stream of observations *)
Section Stream.
Context `{JsonModel LabAlert.t}.
Variable sensor : Sensor.t.

(** [evaluate_sensor_observation] on every observation, with all it emitted. *)
Fixpoint evaluate_all (l : list (AnalysisDraws * Observation.t)) : M SensorAnalysisState.t emitted :=
  match l with
  | [] => mret ([], [])
  | (draws, o) :: l =>
      e1 ← evaluate_sensor_observation draws o sensor;
      e2 ← evaluate_all l;
      mret (e1.1 ++ e2.1, e1.2 ++ e2.2)
  end.

Lemma evaluate_all_app l1 l2 s :
  evaluate_all (l1 ++ l2) s =
  (e1 ← evaluate_all l1; e2 ← evaluate_all l2; mret (e1.1 ++ e2.1, e1.2 ++ e2.2)) s.
Proof.
  revert s. induction l1 as [|[draws o] l1 IH]; intros s.
  - simpl. unfold mbind, M_bind, mret, M_ret. by destruct (evaluate_all l2 s) as [[[a e]|] s'].
  - cbn [app evaluate_all]. rewrite !M_bind_run.
    destruct (evaluate_sensor_observation draws o sensor s) as [[[a1 e1]|] s1]; [|done].
    rewrite !M_bind_run, IH, !M_bind_run.
    destruct (evaluate_all l1 s1) as [[[a2 e2]|] s2]; [|done]. simpl. rewrite !M_bind_run.
    destruct (evaluate_all l2 s2) as [[[a3 e3]|] s3]; [|done]. simpl. by rewrite !app_assoc.
Qed.

(** Observations come every twentieth tick, the first one at tick 20 or later. *)
Fixpoint spaced (from : Z) (l : list Observation.t) : Prop :=
  match l with
  | [] => True
  | o :: l => from + 20 ≤ Observation.tick o ∧ spaced (Observation.tick o) l
  end.

(** The announcement of an alert. *)
Definition announces (a : LabAlert.t) (e : LabEvent.t) : Prop :=
  LabEvent.kind e = EV_ALERT ∧ LabEvent.payload e = model_dump a ∧ LabEvent.tick e = LabAlert.last_tick a.

Definition of_origin (origin : AlertOrigin) : list LabAlert.t → list LabAlert.t :=
  filter (λ a, LabAlert.origin a = origin).

(** The state after a history. *)
Record tracks (history : list Observation.t) (alerts : list LabAlert.t) (s : SensorAnalysisState.t) : Prop := {
  tr_high : SensorAnalysisState.high_violations s = above_run sensor history;
  tr_low : SensorAnalysisState.low_violations s = below_run sensor history;
  tr_normal : SensorAnalysisState.normal_streak s = safe_run sensor history;
  tr_good : SensorAnalysisState.good_quality_streak s = good_run history;
  tr_process : process_trace sensor history (of_origin PROCESS_LIMIT alerts)
                 (SensorAnalysisState.active_process_alert s);
  tr_quality : quality_trace sensor history (of_origin DATA_QUALITY alerts)
                 (SensorAnalysisState.active_quality_alert s) (SensorAnalysisState.bad_quality_streak s);
  tr_recent : SensorAnalysisState.recent_observations s = drop (length history - 20) history
}.

Import SensorAnalysisState.

Lemma sample_run_snoc counted ends history o :
  run counted ends (history ++ [o]) =
  if counted o then run counted ends history + 1 else if ends o then 0 else run counted ends history.
Proof. unfold run. by rewrite foldl_app. Qed.

Lemma run_bounds counted ends history : 0 ≤ run counted ends history ≤ Z.of_nat (length history).
Proof.
  induction history as [|o history IH] using rev_ind; [done|]. rewrite sample_run_snoc, length_app. simpl.
  destruct (counted o); [lia|]. destruct (ends o); lia.
Qed.

Lemma quality_bounds history alerts s n :
  quality_trace sensor history alerts s n → 0 ≤ n ≤ Z.of_nat (length history).
Proof. induction 1; rewrite ?length_app; simpl; lia. Qed.

Lemma process_origin history alerts a :
  process_trace sensor history alerts (Some a) → LabAlert.origin a = PROCESS_LIMIT.
Proof.
  intros Ht. remember (Some a) as s eqn:Hs. revert a Hs.
  induction Ht as [| |? ? ? ? ? ? ? ? Ho|? ? ? ? ? IH|]; intros b Hs; try done.
  - injection Hs as <-. apply Ho.
  - by apply IH.
Qed.
Lemma quality_origin history alerts a n :
  quality_trace sensor history alerts (Some a) n → LabAlert.origin a = DATA_QUALITY.
Proof.
  intros Ht. remember (Some a) as s eqn:Hs. revert a Hs.
  induction Ht as [|? ? ? ? ? ? ? ? ? ? Ho|? ? ? ? ? ? IH|? ? ? ? ? ? IH|]; intros b Hs; try done.
  - injection Hs as <-. apply Ho.
  - by apply IH.
  - by apply IH.
Qed.

(** ** One observation *)
Section Step.
Variables (draws : AnalysisDraws) (o : Observation.t).

Lemma announce_alert_ok event_id a :
  0 ≤ Observation.tick o → LabAlert.last_tick a = Observation.tick o →
  ∃ e, announce_alert o event_id a = Ok ([a], [e]) ∧ announces a e.
Proof.
  intros Ht Hl. unfold announce_alert, LabEvent.make. rewrite (proj2 (Z.leb_le _ _) Ht).
  eexists. split; [reflexivity|]. by repeat split.
Qed.

Lemma open_alert_ok alert_id origin kind back :
  0 ≤ Observation.tick o - back → 0 ≤ back →
  ∃ a, open_alert o sensor alert_id origin kind back = Ok a ∧ opened sensor origin kind back o a.
Proof.
  intros Ht Hb. unfold open_alert, LabAlert.make. rewrite !(proj2 (Z.leb_le _ _)) by lia.
  eexists. split; [reflexivity|]. by repeat split.
Qed.

Lemma quality_announces a : 0 ≤ Observation.tick o → LabAlert.last_tick a = Observation.tick o → ∀ st : SensorAnalysisState.t,
  ∃ e, lift_res (announce_alert o (quality_event draws) a) st = (Ok ([a], [e]), st) ∧ announces a e.
Proof.
  intros Ht Hl st. destruct (announce_alert_ok (quality_event draws) a Ht Hl) as (e & He & Ha).
  exists e. unfold lift_res. by rewrite He.
Qed.

(** Bad quality, with a quality alert when the second sample is not covered by one. *)
Lemma bad_spec kind history alerts st :
  bad_kind (Observation.quality o) = Some kind → 20 * (Z.of_nat (length history) + 1) ≤ Observation.tick o →
  quality_trace sensor history alerts (active_quality_alert st) (bad_quality_streak st) →
  ∃ alerts' events q,
    evaluate_bad draws o sensor kind st =
      (Ok (alerts', events), set_quality_alert q (set_process (high_violations st) (low_violations st) 0
         (set_quality (bad_quality_streak st + 1) 0 st))) ∧
    quality_trace sensor (history ++ [o]) (alerts ++ alerts') q (bad_quality_streak st + 1) ∧
    Forall (λ a, LabAlert.origin a = DATA_QUALITY) alerts' ∧ Forall2 announces alerts' events.
Proof.
  intros Hk Ht Hq. pose proof (quality_bounds _ _ _ _ Hq) as Hn. unfold evaluate_bad.
  repeat (rewrite M_bind_run; cbn [modify get_st]).
  set (st1 := set_process _ _ _ (set_quality _ _ _)).
  change (bad_quality_streak st1) with (bad_quality_streak st + 1).
  change (active_quality_alert st1) with (active_quality_alert st).
  assert (is_bad o = true) as Hbad by (unfold is_bad; by rewrite Hk).
  destruct (2 <=? bad_quality_streak st + 1) eqn:H2; cbn [andb].
  - case_bool_decide as Hact.
    + destruct (open_alert_ok (quality_alert draws) DATA_QUALITY kind 20) as (a & Ha & Hop); [lia|lia|].
      unfold open_quality. rewrite M_bind_run. unfold lift_res at 1. rewrite Ha, M_bind_run. cbn [modify].
      destruct (quality_announces a) with (st := set_quality_alert (Some a) st1) as (e & -> & Han).
      { lia. } { apply Hop. }
      exists [a], [e], (Some a). split; [reflexivity|]. rewrite Hact in Hq.
      split; [apply (quality_open _ _ _ _ kind); [done|done|lia|done]|].
      split; [apply Forall_singleton, Hop|by apply Forall2_cons; split; [|apply Forall2_nil]].
    + exists [], [], (active_quality_alert st). split; [by destruct st|]. rewrite app_nil_r.
      split; [by apply quality_bad|]. by split; constructor.
  - exists [], [], (active_quality_alert st). split; [by destruct st|]. rewrite app_nil_r.
    split; [apply quality_bad; [done|done|lia]|]. by split; constructor.
Qed.

(** Good quality, with the third sample that resolves the quality alert. *)
Lemma good_spec history alerts st :
  is_bad o = false → 20 * (Z.of_nat (length history) + 1) ≤ Observation.tick o →
  good_quality_streak st = good_run history →
  quality_trace sensor history alerts (active_quality_alert st) (bad_quality_streak st) →
  ∃ alerts' events q n,
    evaluate_good draws o st =
      (Ok (alerts', events), set_quality_alert q (set_quality n (good_run (history ++ [o])) st)) ∧
    quality_trace sensor (history ++ [o]) (alerts ++ alerts') q n ∧
    Forall (λ a, LabAlert.origin a = DATA_QUALITY) alerts' ∧ Forall2 announces alerts' events.
Proof.
  intros Hgood Ht Hg Hq. unfold evaluate_good. repeat (rewrite M_bind_run; cbn [modify get_st]).
  assert (good_run (history ++ [o]) = good_quality_streak st + 1) as Hrun.
  { unfold good_run. rewrite sample_run_snoc. unfold is_good. rewrite Hgood. cbn. rewrite Hg. done. }
  cbn [active_quality_alert set_quality good_quality_streak].
  destruct (active_quality_alert st) as [a|] eqn:Hact.
  - destruct (3 <=? good_quality_streak st + 1) eqn:H3.
    + rewrite M_bind_run. cbn [modify].
      edestruct (quality_announces (resolve (Observation.tick o) a)) as (e & He & Han); [lia|reflexivity|].
      rewrite He. exists [resolve (Observation.tick o) a], [e], None, 0. rewrite Hrun. split; [reflexivity|].
      split; [eapply quality_resolve; [done|done|lia]|].
      split; [apply Forall_singleton, (quality_origin _ _ _ _ Hq)|by apply Forall2_cons; split; [|apply Forall2_nil]].
    + exists [], [], (Some a), (bad_quality_streak st). rewrite Hrun, <-Hact. split; [by destruct st|].
      rewrite app_nil_r, Hact. split; [apply quality_good; [done|done|intros _; lia]|]. by split; constructor.
  - exists [], [], None, (bad_quality_streak st). rewrite Hrun, <-Hact. split; [by destruct st|].
    rewrite app_nil_r, Hact. split; [apply quality_good; [done|done|by intros [? ?]]|]. by split; constructor.
Qed.
(** No process alert opens or resolves. *)
Lemma process_keep history alerts s :
  process_trace sensor history alerts s → (s = None → ∀ kind, ¬ opens_process sensor history o kind) →
  (is_Some s → ¬ resolves_process sensor history o) → process_trace sensor (history ++ [o]) alerts s.
Proof.
  intros Ht Hop Hres. destruct s as [a|]; [apply process_stay|apply process_idle]; eauto.
Qed.

(** The emission of an opening and of a resolution. *)
Lemma open_process_ok kind st :
  40 ≤ Observation.tick o →
  ∃ a e, open_process draws o sensor kind st = (Ok ([a], [e]), set_process_alert (Some a) st) ∧
    opened sensor PROCESS_LIMIT kind 40 o a ∧ announces a e.
Proof.
  intros Ht. destruct (open_alert_ok (process_alert draws) PROCESS_LIMIT kind 40) as (a & Ha & Hop); [lia|lia|].
  unfold open_process. rewrite M_bind_run. unfold lift_res at 1. rewrite Ha, M_bind_run. cbn [modify].
  destruct (announce_alert_ok (process_event draws) a) as (e & He & Han); [lia|apply Hop|].
  exists a, e. unfold lift_res. by rewrite He.
Qed.

Definition process_result (history : list Observation.t) (alerts : list LabAlert.t) (st : SensorAnalysisState.t)
    (r : result emitted * SensorAnalysisState.t) : Prop :=
  ∃ alerts' events p,
    r = (Ok (alerts', events), set_process_alert p (set_process (above_run sensor (history ++ [o]))
           (below_run sensor (history ++ [o])) (safe_run sensor (history ++ [o])) st)) ∧
    process_trace sensor (history ++ [o]) (alerts ++ alerts') p ∧
    Forall (λ a, LabAlert.origin a = PROCESS_LIMIT) alerts' ∧ Forall2 announces alerts' events.

Lemma process_quiet history alerts st p st' :
  process_trace sensor (history ++ [o]) alerts p →
  st' = set_process_alert p (set_process (above_run sensor (history ++ [o]))
          (below_run sensor (history ++ [o])) (safe_run sensor (history ++ [o])) st) →
  process_result history alerts st ((mret ([], []) : analysis emitted) st').
Proof.
  intros Ht ->. exists [], [], p. split; [done|]. rewrite app_nil_r. split; [done|]. by split; constructor.
Qed.

Lemma process_opening history alerts st kind st1 :
  40 ≤ Observation.tick o → process_trace sensor history alerts None → opens_process sensor history o kind →
  st1 = set_process (above_run sensor (history ++ [o])) (below_run sensor (history ++ [o]))
          (safe_run sensor (history ++ [o])) st →
  process_result history alerts st (open_process draws o sensor kind st1).
Proof.
  intros Ht Hp Hop ->. edestruct (open_process_ok kind) as (a & e & -> & Ho & Han); [done|].
  exists [a], [e], (Some a). split; [done|]. split; [by eapply process_open|].
  split; [apply Forall_singleton, Ho|by apply Forall2_cons; split; [|apply Forall2_nil]].
Qed.

(** The four kinds of values, from a state that follows its history. *)
Section Limits.
Variables (history : list Observation.t) (alerts : list LabAlert.t) (st : SensorAnalysisState.t).
Hypothesis Ht : 20 * (Z.of_nat (length history) + 1) ≤ Observation.tick o.
Hypothesis Hh : high_violations st = above_run sensor history.
Hypothesis Hl : low_violations st = below_run sensor history.
Hypothesis Hn : normal_streak st = safe_run sensor history.
Hypothesis Hp : process_trace sensor history alerts (active_process_alert st).

(** The third sample in a run comes at tick 60 or later. *)
Lemma late_enough counted ends : 3 ≤ run counted ends history + 1 → 40 ≤ Observation.tick o.
Proof. pose proof (run_bounds counted ends history). lia. Qed.

Lemma quiet st' :
  (active_process_alert st = None → ∀ kind, ¬ opens_process sensor history o kind) →
  (is_Some (active_process_alert st) → ¬ resolves_process sensor history o) →
  st' = set_process (above_run sensor (history ++ [o])) (below_run sensor (history ++ [o]))
          (safe_run sensor (history ++ [o])) st →
  process_result history alerts st ((mret ([], []) : analysis emitted) st').
Proof.
  intros Ho Hr ->. apply (process_quiet _ _ _ (active_process_alert st)); [by apply process_keep|by destruct st].
Qed.

Lemma above_spec :
  is_above sensor o = true → is_below sensor o = false → is_safe sensor o = false →
  process_result history alerts st (evaluate_above draws o sensor st).
Proof.
  intros Ea Eb Es.
  assert (above_run sensor (history ++ [o]) = high_violations st + 1) as Ra
    by (unfold above_run; rewrite sample_run_snoc, Ea, Hh; done).
  assert (below_run sensor (history ++ [o]) = 0) as Rb by (unfold below_run; by rewrite sample_run_snoc, Eb, Ea).
  assert (safe_run sensor (history ++ [o]) = 0) as Rs by (unfold safe_run; by rewrite sample_run_snoc, Es, Ea).
  assert (¬ resolves_process sensor history o) as Hres by (intros [Hs _]; congruence).
  unfold evaluate_above. repeat (rewrite M_bind_run; cbn [modify get_st]).
  cbn [high_violations active_process_alert set_process].
  destruct (3 <=? high_violations st + 1) eqn:H3; cbn [andb]; [case_bool_decide as Hact|].
  - apply process_opening; [|by rewrite Hact in Hp| |by rewrite Ra, Rb, Rs].
    { rewrite Hh in H3. eapply late_enough, Z.leb_le, H3. }
    left. rewrite Ra. split; [done|]. split; [done|lia].
  - apply quiet; [done|done|by rewrite Ra, Rb, Rs].
  - apply quiet; [|done|by rewrite Ra, Rb, Rs].
    intros _ kind [(_ & _ & Hk)|(_ & Hk & _)]; [lia|congruence].
Qed.

Lemma below_spec :
  is_above sensor o = false → is_below sensor o = true → is_safe sensor o = false →
  process_result history alerts st (evaluate_below draws o sensor st).
Proof.
  intros Ea Eb Es.
  assert (above_run sensor (history ++ [o]) = 0) as Ra by (unfold above_run; by rewrite sample_run_snoc, Ea, Eb).
  assert (below_run sensor (history ++ [o]) = low_violations st + 1) as Rb
    by (unfold below_run; rewrite sample_run_snoc, Eb, Hl; done).
  assert (safe_run sensor (history ++ [o]) = 0) as Rs by (unfold safe_run; by rewrite sample_run_snoc, Es, Ea, Eb).
  assert (¬ resolves_process sensor history o) as Hres by (intros [Hs _]; congruence).
  unfold evaluate_below. repeat (rewrite M_bind_run; cbn [modify get_st]).
  cbn [low_violations active_process_alert set_process].
  destruct (3 <=? low_violations st + 1) eqn:H3; cbn [andb]; [case_bool_decide as Hact|].
  - apply process_opening; [|by rewrite Hact in Hp| |by rewrite Ra, Rb, Rs].
    { rewrite Hl in H3. eapply late_enough, Z.leb_le, H3. }
    right. rewrite Rb. split; [done|]. split; [done|lia].
  - apply quiet; [done|done|by rewrite Ra, Rb, Rs].
  - apply quiet; [|done|by rewrite Ra, Rb, Rs].
    intros _ kind [(_ & Hk & _)|(_ & _ & Hk)]; [congruence|lia].
Qed.

Lemma safe_spec :
  is_above sensor o = false → is_below sensor o = false → is_safe sensor o = true →
  process_result history alerts st (evaluate_safe draws o st).
Proof.
  intros Ea Eb Es.
  assert (above_run sensor (history ++ [o]) = 0) as Ra by (unfold above_run; by rewrite sample_run_snoc, Ea, Eb, Es).
  assert (below_run sensor (history ++ [o]) = 0) as Rb by (unfold below_run; by rewrite sample_run_snoc, Eb, Ea, Es).
  assert (safe_run sensor (history ++ [o]) = normal_streak st + 1) as Rs
    by (unfold safe_run; rewrite sample_run_snoc, Es, Hn; done).
  assert (∀ kind, ¬ opens_process sensor history o kind) as Hno
    by (intros kind [(_ & Hk & _)|(_ & Hk & _)]; congruence).
  pose proof quiet as Hq. unfold evaluate_safe. repeat (rewrite M_bind_run; cbn [modify get_st]).
  cbn [normal_streak active_process_alert set_process].
  destruct (active_process_alert st) as [a|] eqn:Hact; [destruct (5 <=? normal_streak st + 1) eqn:H5|].
  - rewrite M_bind_run. cbn [modify].
    edestruct (announce_alert_ok (process_event draws) (resolve (Observation.tick o) a)) as (e & He & Han); [lia|done|].
    unfold lift_res. rewrite He. exists [resolve (Observation.tick o) a], [e], None.
    rewrite Ra, Rb, Rs. split; [done|]. split.
    { apply process_resolve; [done|]. split; [done|]. rewrite Rs. lia. }
    split; [apply Forall_singleton, (process_origin _ _ _ Hp)|by apply Forall2_cons; split; [|apply Forall2_nil]].
  - apply Hq; [done| |by rewrite Ra, Rb, Rs]. intros _ [_ Hs]. rewrite Rs in Hs. lia.
  - apply Hq; [done|by intros [? ?]|by rewrite Ra, Rb, Rs].
Qed.

(** A value between the limits and the safe range, or no good value at all:
    nothing happens but the end of a safe run by a bad sample. *)
Lemma band_spec :
  is_above sensor o = false → is_below sensor o = false → is_safe sensor o = false →
  process_result history alerts st ((mret ([], []) : analysis emitted)
    (set_process (high_violations st) (low_violations st) (if is_bad o then 0 else normal_streak st) st)).
Proof.
  intros Ea Eb Es. apply quiet.
  - intros _ kind [(_ & Hk & _)|(_ & Hk & _)]; congruence.
  - intros _ [Hs _]. congruence.
  - unfold above_run, below_run, safe_run. rewrite !sample_run_snoc, Ea, Eb, Es, Hh, Hl, Hn. cbn. by destruct (is_bad o).
Qed.

Lemma limits_spec v :
  good_value o = Some v → process_result history alerts st (evaluate_limits draws o sensor v st).
Proof.
  intros Hv. assert (is_bad o = false) as Hbad by (unfold good_value in Hv; by destruct (is_bad o)).
  pose proof above_spec as Ha. pose proof below_spec as Hb. pose proof safe_spec as Hs. pose proof band_spec as Hd.
  unfold is_above, is_below, is_safe in Ha, Hb, Hs, Hd. rewrite Hv in Ha, Hb, Hs, Hd. rewrite Hbad in Hd.
  unfold evaluate_limits. destruct (above sensor v), (below sensor v), (safely_inside sensor v); cbn in *; auto.
  all: specialize (Hd eq_refl eq_refl eq_refl); by destruct st.
Qed.
End Limits.
Lemma remember_recent history (st : SensorAnalysisState.t) :
  recent_observations st = drop (length history - 20) history →
  recent_observations (remember o st) = drop (length (history ++ [o]) - 20) (history ++ [o]).
Proof.
  intros Hr. unfold remember. cbn [recent_observations]. rewrite Hr, !length_app, length_drop. cbn [length].
  destruct (20 <? length history - (length history - 20) + 1)%nat eqn:Hlt.
  - apply Nat.ltb_lt in Hlt. rewrite <-!drop_app_le by lia.
    assert (∀ l : list Observation.t, tail l = drop 1 l) as -> by (by intros []).
    rewrite drop_drop. f_equal. lia.
  - apply Nat.ltb_ge in Hlt. replace (length history - 20)%nat with 0%nat by lia.
    replace (length history + 1 - 20)%nat with 0%nat by lia. done.
Qed.

Lemma of_origin_all origin l : Forall (λ a, LabAlert.origin a = origin) l → of_origin origin l = l.
Proof. apply filter_true. Qed.
Lemma of_origin_none origin origin' l :
  origin ≠ origin' → Forall (λ a, LabAlert.origin a = origin') l → of_origin origin l = [].
Proof. intros Hne Hl. apply filter_false. eapply Forall_impl; [exact Hl|]. intros a ->. congruence. Qed.
Lemma of_origin_app origin l l' : of_origin origin (l ++ l') = of_origin origin l ++ of_origin origin l'.
Proof. apply filter_app. Qed.

Lemma no_value_flags : good_value o = None → is_above sensor o = false ∧ is_below sensor o = false ∧ is_safe sensor o = false.
Proof. intros Hv. unfold is_above, is_below, is_safe. by rewrite Hv. Qed.

(** Without a value the process part keeps its alert. *)
Lemma no_value_process history alerts st :
  good_value o = None → tracks history alerts st →
  above_run sensor (history ++ [o]) = above_run sensor history ∧
  below_run sensor (history ++ [o]) = below_run sensor history ∧
  safe_run sensor (history ++ [o]) = (if is_bad o then 0 else safe_run sensor history) ∧
  process_trace sensor (history ++ [o]) (of_origin PROCESS_LIMIT alerts) (active_process_alert st).
Proof.
  intros Hv Htr. destruct (no_value_flags Hv) as (Ea & Eb & Es).
  unfold above_run, below_run, safe_run. rewrite !sample_run_snoc, Ea, Eb, Es. cbn.
  split; [done|]. split; [done|]. split; [by destruct (is_bad o)|].
  apply process_keep; [apply (tr_process _ _ _ Htr)|intros _ kind [(_ & Hk & _)|(_ & Hk & _)]; congruence|].
  intros _ [Hs _]. congruence.
Qed.

Lemma evaluate_step history alerts st :
  tracks history alerts st → 20 * (Z.of_nat (length history) + 1) ≤ Observation.tick o →
  ∃ alerts' events st', evaluate_sensor_observation draws o sensor st = (Ok (alerts', events), st') ∧
    tracks (history ++ [o]) (alerts ++ alerts') st' ∧ Forall2 announces alerts' events.
Proof.
  intros Htr Ht. pose proof (remember_recent history st (tr_recent _ _ _ Htr)) as Hrecent.
  unfold evaluate_sensor_observation. rewrite M_bind_run. cbn [modify].
  destruct (bad_kind (Observation.quality o)) as [kind|] eqn:Hkind.
  - assert (is_bad o = true) as Hbad by (unfold is_bad; by rewrite Hkind).
    assert (good_value o = None) as Hv by (unfold good_value; by rewrite Hbad).
    destruct (bad_spec kind history (of_origin DATA_QUALITY alerts) (remember o st) Hkind Ht
                (tr_quality _ _ _ Htr)) as (alerts' & events & q & -> & Hq & Ho & Han).
    destruct (no_value_process history alerts st Hv Htr) as (Ra & Rb & Rs & Hp). rewrite Hbad in Rs.
    exists alerts', events. eexists. split; [reflexivity|]. split; [|done].
    split; cbn; rewrite ?Ra, ?Rb, ?Rs, ?of_origin_app;
      try (rewrite (of_origin_none PROCESS_LIMIT DATA_QUALITY alerts'), app_nil_r by done);
      try (rewrite (of_origin_all DATA_QUALITY alerts') by done); try done.
    + apply Htr.
    + apply Htr.
    + unfold good_run. rewrite sample_run_snoc. unfold is_good. by rewrite Hbad.
  - assert (is_bad o = false) as Hbad by (unfold is_bad; by rewrite Hkind).
    rewrite M_bind_run.
    destruct (good_spec history (of_origin DATA_QUALITY alerts) (remember o st) Hbad Ht (tr_good _ _ _ Htr)
                (tr_quality _ _ _ Htr)) as (al1 & ev1 & q & n & -> & Hq & Ho & Han).
    set (st1 := set_quality_alert q (set_quality n (good_run (history ++ [o])) (remember o st))).
    assert (good_value o = Observation.value o) as Hgv by (unfold good_value; by rewrite Hbad).
    destruct (Observation.value o) as [v|] eqn:Hval.
    + rewrite M_bind_run.
      destruct (limits_spec history (of_origin PROCESS_LIMIT alerts) st1 Ht (tr_high _ _ _ Htr)
        (tr_low _ _ _ Htr) (tr_normal _ _ _ Htr) (tr_process _ _ _ Htr) v Hgv)
        as (al2 & ev2 & p & -> & Hp & Ho2 & Han2).
      exists (al1 ++ al2), (ev1 ++ ev2). eexists. split; [reflexivity|]. split; [|by apply Forall2_app].
      split; cbn; rewrite ?of_origin_app;
        try (rewrite (of_origin_none PROCESS_LIMIT DATA_QUALITY al1), (of_origin_all PROCESS_LIMIT al2) by done);
        try (rewrite (of_origin_all DATA_QUALITY al1), (of_origin_none DATA_QUALITY PROCESS_LIMIT al2), app_nil_r by done);
        done.
    + destruct (no_value_process history alerts st Hgv Htr) as (Ra & Rb & Rs & Hp). rewrite Hbad in Rs.
      exists al1, ev1. eexists. split; [reflexivity|]. split; [|done].
      split; cbn; rewrite ?Ra, ?Rb, ?Rs, ?of_origin_app;
        try (rewrite (of_origin_none PROCESS_LIMIT DATA_QUALITY al1), app_nil_r by done);
        try (rewrite (of_origin_all DATA_QUALITY al1) by done); try done; apply Htr.
Qed.
End Step.

Lemma spaced_length l : ∀ from, spaced from l → ∀ o, last l = Some o → from + 20 * Z.of_nat (length l) ≤ Observation.tick o.
Proof.
  induction l as [|x l IH]; intros from Hs o Ho; [done|]. destruct Hs as [Hx Hl]. destruct l as [|y l].
  - injection Ho as <-. simpl. lia.
  - rewrite last_cons_cons in Ho. specialize (IH _ Hl _ Ho). simpl in *. lia.
Qed.

Lemma spaced_init l : ∀ from o, spaced from (l ++ [o]) → spaced from l.
Proof. induction l as [|x l IH]; intros from o; simpl; [done|]. intros [? ?]. split; [done|]. by eapply IH. Qed.

Lemma init_tracks : tracks [] [] (init (Sensor.sensor_id sensor)).
Proof. split; try done; constructor. Qed.

(** C28. Alerts of a sensor, over any stream of its observations (one every twentieth
    tick or rarer, as the engine makes them): the evaluation never raises; its
    process alerts are those of the abstract machine that opens an alert at the third
    sample above (below) the limit of a run and resolves it at the fifth safe sample of
    a run, its quality alerts those of the one that opens at the second bad sample and
    resolves at the third good one in a row; at most one alert of each origin is open,
    every alert is announced by an event in order, and the last twenty observations
    are kept. *)
Theorem lab_alerts_follow_runs (l : list (AnalysisDraws * Observation.t)) :
  spaced 0 l.*2 →
  ∃ alerts events st,
    evaluate_all l (init (Sensor.sensor_id sensor)) = (Ok (alerts, events), st) ∧
    process_trace sensor l.*2 (of_origin PROCESS_LIMIT alerts) (active_process_alert st) ∧
    quality_trace sensor l.*2 (of_origin DATA_QUALITY alerts) (active_quality_alert st) (bad_quality_streak st) ∧
    Forall2 announces alerts events ∧
    recent_observations st = drop (length l - 20) l.*2.
Proof.
  intros Hs. assert (∃ alerts events st, evaluate_all l (init (Sensor.sensor_id sensor)) = (Ok (alerts, events), st)
    ∧ tracks l.*2 alerts st ∧ Forall2 announces alerts events) as (alerts & events & st & He & Htr & Han).
  { induction l as [|[draws o] l IH] using rev_ind.
    - exists [], [], (init (Sensor.sensor_id sensor)). split; [done|]. split; [apply init_tracks|constructor].
    - assert ((l ++ [(draws, o)]).*2 = l.*2 ++ [o]) as Hl by (by rewrite fmap_app).
      rewrite Hl in Hs |- *. destruct IH as (alerts & events & st & He & Htr & Han).
      { by eapply spaced_init. }
      destruct (evaluate_step draws o l.*2 alerts st Htr) as (al & ev & st' & He' & Htr' & Han').
      { pose proof (spaced_length _ _ Hs o) as Hlast. rewrite last_snoc, length_app in Hlast.
        specialize (Hlast eq_refl). simpl in Hlast. lia. }
      exists (alerts ++ al), (events ++ ev), st'. split; [|split; [exact Htr'|by apply Forall2_app]].
      rewrite evaluate_all_app, M_bind_run, He. cbn [evaluate_all]. rewrite !M_bind_run, He'.
      cbn. unfold mbind, M_bind, mret, M_ret. cbn. by rewrite !app_nil_r. }
  exists alerts, events, st. split; [done|]. destruct Htr. by rewrite <-(length_fmap snd l).
Qed.
End Stream.

(** ** Witness *)
Module AnalysisWitness.
#[export] Instance alert_model : JsonModel LabAlert.t := {|
  model_dump a := [("first_tick", JInt (LabAlert.first_tick a))]%string;
  model_validate _ := Err (ValidationError "LabAlert")
|}.
Definition id (n : Z) : UUID := UUID_of_bits n.
Definition sensor : Sensor.t :=
  Sensor.mk (id 2) PRESSURE (TPort (PortRef.mk (id 1) PORT_A)) f0 (Some (lit 250000)) (Some (lit 850000)).
Definition draws : AnalysisDraws := mkDraws (id 11) (id 12) (id 13) (id 14).
Definition sample (tick : Z) (value : option float) : AnalysisDraws * Observation.t :=
  (draws, Observation.mk (id 5) (id 1) (id 2) tick UNIT_PA value
            match value with Some _ => GOOD | None => MISSING end "p").
Definition high := Some (lit 900000).
Definition normal := Some (lit 500000).

(** A limit violation that opens and resolves an alert, and a lost signal. *)
Definition stream : list (AnalysisDraws * Observation.t) :=
  [sample 20 high; sample 40 high; sample 60 high; sample 80 None; sample 100 None;
   sample 120 normal; sample 140 normal; sample 160 normal; sample 180 normal; sample 200 normal].

Lemma lab_alerts_follow_runs_witness :
  ∃ alerts events st,
    evaluate_all sensor stream (SensorAnalysisState.init (id 2)) = (Ok (alerts, events), st) ∧
    process_trace sensor stream.*2 (of_origin PROCESS_LIMIT alerts) (SensorAnalysisState.active_process_alert st) ∧
    quality_trace sensor stream.*2 (of_origin DATA_QUALITY alerts) (SensorAnalysisState.active_quality_alert st)
      (SensorAnalysisState.bad_quality_streak st) ∧
    Forall2 announces alerts events ∧ SensorAnalysisState.recent_observations st = drop (length stream - 20) stream.*2.
Proof.
  refine (lab_alerts_follow_runs sensor stream _). vm_compute. repeat split; congruence.
Defined.

(** Both alerts open and resolve there. *)
Example stream_alerts :
  match (evaluate_all sensor stream (SensorAnalysisState.init (id 2))).1 with
  | Ok (alerts, _) => (λ a, (LabAlert.origin a, LabAlert.state a, LabAlert.first_tick a)) <$> alerts
  | Err _ => []
  end = [(PROCESS_LIMIT, ALERT_OPEN, 20); (DATA_QUALITY, ALERT_OPEN, 80);
         (DATA_QUALITY, ALERT_RESOLVED, 80); (PROCESS_LIMIT, ALERT_RESOLVED, 20)].
Proof. vm_compute. reflexivity. Qed.

(** A run is not a sequence of adjacent samples: bad samples between three high
    ones leave the count, and the alert's first tick is the one of a bad sample. *)
Example interrupted_run :
  match (evaluate_all sensor [sample 20 high; sample 40 high; sample 60 None; sample 80 high]
           (SensorAnalysisState.init (id 2))).1 with
  | Ok ([a], _) => LabAlert.origin a = PROCESS_LIMIT ∧ LabAlert.first_tick a = 40
  | _ => False
  end.
Proof. vm_compute. split; reflexivity. Qed.

(** Nor are the two bad samples of a quality alert: its first tick is a good one. *)
Example interrupted_quality :
  match (evaluate_all sensor [sample 20 None; sample 40 normal; sample 60 None]
           (SensorAnalysisState.init (id 2))).1 with
  | Ok ([a], _) => LabAlert.origin a = DATA_QUALITY ∧ LabAlert.first_tick a = 40
  | _ => False
  end.
Proof. vm_compute. split; reflexivity. Qed.
End AnalysisWitness.
