(* ===== verification/Rca.v ===== *)
(** * Root-cause analysis: evidence and the language-model client *)

From S2P Require Import Prelude PyText PyUuid PyTime PyFloat PyHash PyJson Messages KafkaIo.
From S2P Require Import AlertPolicy AlertState StateCodec Tables Store.

(** ** Evidence for root-cause analysis ([rca_evidence.py])

    Four items of facts are taken from what the store holds about an alert; each
    has an identifier made from its content, and the bundle has a hash of its own.
    Facts are a JSON object in insertion order.  [champion] is what reading the
    manifest of the champion directory gives, [None] when there is no such file. *)

Inductive ToolName := GET_ALERT | GET_SCORE_EVIDENCE | GET_MODEL_PROVENANCE | GET_SYSTEM_HEALTH.
Definition tool_text (t : ToolName) : string :=
  match t with
  | GET_ALERT => "get_alert" | GET_SCORE_EVIDENCE => "get_score_evidence"
  | GET_MODEL_PROVENANCE => "get_model_provenance" | GET_SYSTEM_HEALTH => "get_system_health"
  end.

(** [observed_at] is an aware UTC time: its wall clock. *)
Module EvidenceItemV1.
Record t := mk { evidence_id : string; tool_name : ToolName; observed_at : datetime; facts : dict }.
Definition make (evidence_id : string) (tool_name : ToolName) (observed_at : datetime) (facts : dict)
  : result t :=
  _ ← field (nonempty evidence_id) "evidence_id";
  Ok (mk evidence_id tool_name observed_at facts).
(** [canonical_json_bytes] of [model_dump()] prints the time with [isoformat]. *)
Definition dump (i : t) : json :=
  JObj [("evidence_id", JStr (evidence_id i)); ("tool_name", JStr (tool_text (tool_name i)));
        ("observed_at", JStr (isoformat (observed_at i) +:+ "+00:00")); ("facts", JObj (facts i))]%string.
End EvidenceItemV1.

Module EvidenceBundleV1.
Record t := mk {
  alert_id : string;
  replay_session_id : string;
  model_version : string;
  contract_sha256 : string;
  source_dataset_sha256 : string;
  items : list EvidenceItemV1.t;
  bundle_sha256 : string
}.
Definition make (alert_id replay_session_id model_version contract_sha256 source_dataset_sha256 : string)
    (items : list EvidenceItemV1.t) (bundle_sha256 : string) : result t :=
  _ ← field (nonempty alert_id) "alert_id";
  _ ← field (nonempty replay_session_id) "replay_session_id";
  _ ← field (nonempty model_version) "model_version";
  _ ← field (is_hex64 contract_sha256) "contract_sha256";
  _ ← field (is_hex64 source_dataset_sha256) "source_dataset_sha256";
  _ ← field (is_hex64 bundle_sha256) "bundle_sha256";
  Ok (mk alert_id replay_session_id model_version contract_sha256 source_dataset_sha256 items bundle_sha256).
End EvidenceBundleV1.

(** [f"evidence-{digest[:24]}"] of the canonical JSON of the tool and its facts *)
Definition evidence_id_of (tool : ToolName) (facts : dict) : result string :=
  canonical ← dumps_canonical
    (JObj [("facts", JObj facts); ("tool_name", JStr (tool_text tool))]%string);
  Ok ("evidence-" +:+ text_prefix 24 (sha256_hex (encode canonical)))%string.

Definition compute_bundle_hash (data : dict) : result string :=
  canonical ← dumps_canonical (JObj (dict_set "bundle_sha256" (JStr "") data));
  Ok (sha256_hex (encode canonical)).

Definition sanitize_scalar (val : json) : result json :=
  match val with
  | JBool _ => Ok val
  | JInt n =>
      _ ← guard_exn (is_finite (float_of_Z n)) (OverflowError "int too large to convert to float");
      Ok val
  | JFloat x => _ ← guard_exn (is_finite x) (ValueError "Non-finite float not allowed"); Ok val
  | JList l => Ok (JList ((λ x, JStr (str_of x)) <$> l))
  | _ => Ok (JStr (str_of val))
  end.

(** [str(d.get(key, default))] *)
Definition get_str (key fallback : string) (d : dict) : string :=
  match jget key d with Some v => str_of v | None => fallback end.

Definition item (tool : ToolName) (observed_at : datetime) (facts : dict) : result EvidenceItemV1.t :=
  id ← evidence_id_of tool facts;
  EvidenceItemV1.make id tool observed_at facts.

(** [last_detection.replace(tzinfo=UTC)]: the column holds naive times. *)
Definition observed_time (detail : AlertDetailRecord) : datetime :=
  AlertRow.last_detection (detail_alert detail).2.

Definition row_state_text (s : AlertRowState) : string :=
  match s with ROW_OPEN => "OPEN" | ROW_RESOLVED => "RESOLVED" end.

(** [if key in d: facts[key] = _sanitize_scalar(d[key])] *)
Definition copy_scalar (key : string) (d : dict) (facts : dict) : result dict :=
  match jget key d with
  | Some v => v ← sanitize_scalar v; Ok (dict_set key v facts)
  | None => Ok facts
  end.

Definition get_alert_evidence (detail : AlertDetailRecord) : result EvidenceItemV1.t :=
  let '(id, alert) := detail_alert detail in
  let active_duration := AlertRow.last_detection alert - AlertRow.first_detection alert in
  action ← match detail_events detail with
           | e :: _ => str_of <$> of_option (KeyError "action") (jget "action" e)
           | [] => Ok "OPENED"%string
           end;
  let facts := [("action", JStr action);
    ("active_duration_seconds", JFloat (seconds_of active_duration));
    ("alert_id", JStr (str_uuid id));
    ("decision_count", JInt (Z.of_nat (length (detail_decisions detail))));
    ("first_detection", JStr (isoformat (AlertRow.first_detection alert)));
    ("last_detection", JStr (isoformat (AlertRow.last_detection alert)));
    ("machine_id", JStr (AlertRow.machine_id alert));
    ("state", JStr (row_state_text (AlertRow.state alert)))]%string in
  facts ← match detail_decisions detail with
          | d :: _ => facts ← copy_scalar "score" d facts; copy_scalar "threshold" d facts
          | [] => Ok facts
          end;
  item GET_ALERT (observed_time detail) facts.

(** [facts[f"feature_{name}_observed"] = ...] of one deviation *)
Definition deviation_facts (facts : dict) (dev : json) : result dict :=
  match dev with
  | JObj d =>
      let name := get_str "feature_name" "unknown" d in
      obs_val ← sanitize_scalar (default (JFloat f0) (jget "observed_value" d));
      abs_dev ← sanitize_scalar (default (JFloat f0) (jget "absolute_deviation" d));
      Ok (dict_set ("feature_" +:+ name +:+ "_deviation") abs_dev
            (dict_set ("feature_" +:+ name +:+ "_observed") obs_val facts))%string
  | _ => Err (AttributeError "get")
  end.

(** [for k, v in d.items(): facts[f"{prefix}{k}"] = _sanitize_scalar(v)] *)
Definition prefixed_facts (prefix : string) (d facts : dict) : result dict :=
  foldR (λ facts kv, v ← sanitize_scalar kv.2; Ok (dict_set (prefix +:+ kv.1) v facts))%string facts d.

Definition get_score_evidence (detail : AlertDetailRecord) : result EvidenceItemV1.t :=
  facts ← match detail_evidence detail with
          | [] => Ok []
          | ev :: _ =>
              facts ← match jget "feature_deviations" ev with
                      | Some (JList devs) => foldR deviation_facts [] devs
                      | _ => Ok []
                      end;
              match jget "data_quality" ev with
              | Some (JObj q) => prefixed_facts "dq_" q facts
              | _ => Ok facts
              end
          end;
  item GET_SCORE_EVIDENCE (observed_time detail) facts.

Definition zero_digest : string := text (replicate 64 "0"%char).
Definition first_decision (detail : AlertDetailRecord) : dict := default [] (head (detail_decisions detail)).

(** What the champion's manifest adds, when it is read without an exception: its
    [model_id] and, when that succeeds too, its threshold. *)
Definition champion_facts (champion : option (result json)) (float_of : json → result float)
    (facts : dict) : dict :=
  match champion with
  | Some (Ok (JObj m)) =>
      let facts := dict_set "champion_manifest_model_id" (JStr (get_str "model_id" "" m)) facts in
      match float_of (default (JFloat f0) (jget "threshold" m)) with
      | Ok x => dict_set "champion_threshold" (JFloat x) facts
      | Err _ => facts
      end
  | _ => facts
  end.

Definition get_model_provenance_evidence (champion : option (result json))
    (float_of : json → result float) (detail : AlertDetailRecord) : result EvidenceItemV1.t :=
  let dec := first_decision detail in
  let facts := [("contract_sha256", JStr (get_str "contract_sha256" zero_digest dec));
    ("model_version", JStr (get_str "model_version" "champion-statistical-v1" dec));
    ("source_dataset_sha256", JStr (get_str "source_dataset_sha256" zero_digest dec))]%string in
  item GET_MODEL_PROVENANCE (observed_time detail) (champion_facts champion float_of facts).

Definition get_system_health_evidence (detail : AlertDetailRecord) : result EvidenceItemV1.t :=
  facts ← match detail_evidence detail with
          | [] => Ok []
          | ev :: _ =>
              match jget "system_health" ev with
              | Some (JObj h) => prefixed_facts "health_" h []
              | _ => Ok []
              end
          end;
  item GET_SYSTEM_HEALTH (observed_time detail)
    (if bool_decide (length facts = 0%nat) then [("health_status"%string, JStr "normal")] else facts).

Definition gather_evidence (champion : option (result json)) (float_of : json → result float)
    (db : DB) (alert_id : UUID) : result EvidenceBundleV1.t :=
  detail ← of_option AlertNotFound (get_alert_detail db alert_id);
  item_1 ← get_alert_evidence detail;
  item_2 ← get_score_evidence detail;
  item_3 ← get_model_provenance_evidence champion float_of detail;
  item_4 ← get_system_health_evidence detail;
  let items := [item_1; item_2; item_3; item_4] in
  let dec := first_decision detail in
  let replay_session_id := get_str "replay_session_id" "00000000-0000-0000-0000-000000000000" dec in
  let model_version := get_str "model_version" "champion-statistical-v1" dec in
  let contract_sha256 := get_str "contract_sha256" zero_digest dec in
  let source_dataset_sha256 := get_str "source_dataset_sha256" zero_digest dec in
  b_hash ← compute_bundle_hash
    [("alert_id", JStr (str_uuid alert_id)); ("bundle_sha256", JStr "");
     ("contract_sha256", JStr contract_sha256); ("items", JList (EvidenceItemV1.dump <$> items));
     ("model_version", JStr model_version); ("replay_session_id", JStr replay_session_id);
     ("schema_version", JStr "rca-evidence-bundle-v1");
     ("source_dataset_sha256", JStr source_dataset_sha256)]%string;
  EvidenceBundleV1.make (str_uuid alert_id) replay_session_id model_version contract_sha256
    source_dataset_sha256 items b_hash.

(** ** The language-model client of root-cause analysis ([rca_openai.py])

    [generate_draft] checks what the provider answers: the answer of
    [client.responses.parse] to a prompt is a parameter ([provider]), [None] when
    no parsed output came back.  An exception of the client is a [ProviderError]
    with the name of its class.  [generate] makes the report from the draft, or
    from the evidence alone when anything fails; pydantic's [model_dump_json] of
    the bundle is a parameter. *)

Module ProviderRcaDraft.
Record t := mk {
  summary : string;
  observations : list RcaObservationV1.t;
  uncertainty : list string;
  next_checks : list string
}.
Definition make (summary : string) (observations : list RcaObservationV1.t)
    (uncertainty next_checks : list string) : result t :=
  _ ← field (str_len 1 1000 summary) "summary";
  _ ← field (length observations <=? 12)%nat "observations";
  _ ← field (RcaReportV1.len_between 1 8 uncertainty) "uncertainty";
  _ ← field (length next_checks <=? 8)%nat "next_checks";
  Ok (mk summary observations uncertainty next_checks).
End ProviderRcaDraft.

(** [exc.__class__.__name__] *)
Definition class_name (e : exn) : string :=
  match e with
  | ValueError _ => "ValueError"
  | ValidationError _ => "ValidationError"
  | TypeError _ => "TypeError"
  | AssertionError => "AssertionError"
  | KeyError _ => "KeyError"
  | IndexError => "IndexError"
  | LookupError _ => "LookupError"
  | RuntimeError _ => "RuntimeError"
  | OrderingViolationError => "OrderingViolationError"
  | ReplayContractError _ => "ReplayContractError"
  | MessageDecodeError _ => "MessageDecodeError"
  | IdentityMismatchError _ => "IdentityMismatchError"
  | ArtifactIntegrityError _ => "ArtifactIntegrityError"
  | IntegrityError _ => "IntegrityError"
  | PermanentScoringError _ => "PermanentScoringError"
  | RetryableScoringError _ => "RetryableScoringError"
  | SessionFailedError => "SessionFailedError"
  | KafkaError _ => "KafkaError"
  | ZeroDivisionError => "ZeroDivisionError"
  | OverflowError _ => "OverflowError"
  | ProviderError c => c
  | DataError _ => "DataError"
  | NumericalFailureError _ => "NumericalFailureError"
  | LabNotFoundError => "LabNotFoundError"
  | LabRevisionConflictError => "LabRevisionConflictError"
  | LabNotRunnableError => "LabNotRunnableError"
  | RunNotFoundError => "RunNotFoundError"
  | InvalidRunStateError => "InvalidRunStateError"
  | CommandRevisionConflictError => "CommandRevisionConflictError"
  | CommandIdentityConflictError => "CommandIdentityConflictError"
  | AttributeError _ => "AttributeError"
  | FileNotFoundError _ => "FileNotFoundError"
  | ChampionIntegrityError _ => "ChampionIntegrityError"
  | ScoringContractError _ => "ScoringContractError"
  | MigrationError _ => "MigrationError"
  | FileExistsError _ => "FileExistsError"
  | ChampionPackageError _ => "ChampionPackageError"
  | AlertNotFound => "AlertNotFound"
  end.

(** [self._model] and [self._client.responses.parse(..., evidence_json, ...)] *)
Record OpenAiRcaGenerator := mkGenerator {
  gen_model : string;
  provider : string → result (option ProviderRcaDraft.t)
}.

(** Every observation cites something, and only allowed evidence. *)
Definition check_citations (allowed : list string) (obs : RcaObservationV1.t) : result unit :=
  _ ← guard_exn (negb (bool_decide (RcaObservationV1.evidence_ids obs = [])))
        (ValueError "Observation has empty evidence citations");
  guard_exn (forallb (λ ev, bool_decide (ev ∈ allowed)) (RcaObservationV1.evidence_ids obs))
    (ValueError "Unknown evidence citation").

Definition generate_draft (g : OpenAiRcaGenerator) (evidence_json : string)
    (allowed_evidence_ids : list string) : result ProviderRcaDraft.t :=
  response ← provider g evidence_json;
  draft ← of_option (ValueError "Structured output missing from provider response") response;
  _ ← mapR (check_citations allowed_evidence_ids) (ProviderRcaDraft.observations draft);
  Ok draft.

(** [uuid4()] and [datetime.now(UTC)] of one report *)
Record RcaDraws := mkRcaDraws {
  rca_message_id : UUID; rca_session_id : UUID; rca_report_uuid : UUID; rca_now : datetime
}.

(** [_safe_uuid] *)
Definition safe_uuid (fresh : UUID) (val : string) : UUID :=
  match UUID_of_text val with Ok u => u | Err _ => fresh end.

(** [uuid4().hex[:12]] *)
Definition short_hex (u : UUID) : string := text (take 12 (numeral 16 32 (uuid_int u))).

Definition bundle_evidence_ids (bundle : EvidenceBundleV1.t) : list string :=
  EvidenceItemV1.evidence_id <$> EvidenceBundleV1.items bundle.

Definition evidence_only_report (d : RcaDraws) (bundle : EvidenceBundleV1.t) (reason : string)
  : result RcaReportV1.t :=
  let all_evidence_ids := bundle_evidence_ids bundle in
  let item_1_id := default "evidence-score-0"%string (all_evidence_ids !! 0%nat) in
  let item_2_id := default item_1_id (all_evidence_ids !! 1%nat) in
  o1 ← RcaObservationV1.make
         ("Persisted score and threshold evidence recorded during anomaly window (" +:+ reason +:+ ").")
         [item_1_id];
  o2 ← RcaObservationV1.make "Data quality and system health telemetry recorded at emission." [item_2_id];
  RcaReportV1.make (rca_message_id d)
    (safe_uuid (rca_session_id d) (EvidenceBundleV1.replay_session_id bundle))
    (EvidenceBundleV1.source_dataset_sha256 bundle) (EvidenceBundleV1.contract_sha256 bundle)
    (Naive (rca_now d)) (Aware (mkAware (rca_now d) 0))
    ("rca-fallback-" +:+ short_hex (rca_report_uuid d)) (EvidenceBundleV1.alert_id bundle) UNAVAILABLE
    "Provider RCA unavailable; showing persisted evidence only." [o1; o2]
    ["Anomaly evidence does not prove a mechanical root cause.";
     ("Provider execution status: " +:+ reason +:+ ".")]
    ["Verify physical machine operational indicators and calibration status."]
    all_evidence_ids (EvidenceBundleV1.bundle_sha256 bundle) None.

(** The report of the provider's draft. *)
Definition draft_report (g : OpenAiRcaGenerator) (bundle_json : EvidenceBundleV1.t → string)
    (d : RcaDraws) (bundle : EvidenceBundleV1.t) : result RcaReportV1.t :=
  let allowed_ids := bundle_evidence_ids bundle in
  draft ← generate_draft g (bundle_json bundle) allowed_ids;
  RcaReportV1.make (rca_message_id d)
    (safe_uuid (rca_session_id d) (EvidenceBundleV1.replay_session_id bundle))
    (EvidenceBundleV1.source_dataset_sha256 bundle) (EvidenceBundleV1.contract_sha256 bundle)
    (Naive (rca_now d)) (Aware (mkAware (rca_now d) 0))
    ("rca-" +:+ short_hex (rca_report_uuid d)) (EvidenceBundleV1.alert_id bundle) COMPLETE
    (ProviderRcaDraft.summary draft) (ProviderRcaDraft.observations draft)
    (ProviderRcaDraft.uncertainty draft) (ProviderRcaDraft.next_checks draft)
    allowed_ids (EvidenceBundleV1.bundle_sha256 bundle) (Some (gen_model g)).

(** [generate]; [fallback] are the draws of the report after an exception. *)
Definition generate (g : OpenAiRcaGenerator) (bundle_json : EvidenceBundleV1.t → string)
    (d fallback : RcaDraws) (bundle : EvidenceBundleV1.t) : result RcaReportV1.t :=
  match draft_report g bundle_json d bundle with
  | Ok report => Ok report
  | Err exc => evidence_only_report fallback bundle (class_name exc)
  end.

(** [from_env]: the model and the time-out of the client, [None] when it is not
    configured; [float_of] is [float(text)]. *)
Definition rca_from_env (float_of : string → result float) (environ : string → option string)
  : option (string * float) :=
  let get key fallback := KafkaSettings.py_strip (default fallback (environ key)) in
  let api_key := get "RCA_OPENAI_API_KEY"%string ""%string in
  let model := get "RCA_OPENAI_MODEL"%string ""%string in
  if nonempty api_key && nonempty model then
    let raw_timeout := get "RCA_TIMEOUT_SECONDS"%string "20"%string in
    let timeout := match float_of raw_timeout with
                   | Ok x => py_max f1 (py_min (float_of_Z 60) x)
                   | Err _ => float_of_Z 20
                   end in
    Some (model, timeout)
  else None.
