(* ===== verification/LabRca.v ===== *)
(** * Virtual lab: evidence and root-cause reports ([lab/evidence.py], [lab/rca.py])

    The evidence bundle of an alert, and the report made from it by the provider
    or, when anything fails, by the deterministic fallback.  [fresh] is the
    [uuid4()] of the report. *)

From S2P Require Import Prelude PyText PyUuid PyFloat PyHash PyJson Messages KafkaIo.
From S2P Require Import Rca LabContracts LabSensors.

Definition origin_text (o : AlertOrigin) : string :=
  match o with PROCESS_LIMIT => "PROCESS_LIMIT" | DATA_QUALITY => "DATA_QUALITY" | ML => "ML" end.
Definition kind_text (k : AlertKind) : string :=
  match k with
  | BELOW_LIMIT => "BELOW_LIMIT" | ABOVE_LIMIT => "ABOVE_LIMIT" | KIND_MISSING => "MISSING"
  | KIND_INVALID => "INVALID" | ANOMALY => "ANOMALY" end.

Module LabEvidenceBundle.
Record t := mk {
  evidence_id : UUID;
  run_id : UUID;
  asset_id : UUID;
  sensor_id : UUID;
  definition_digest : string;
  profile_digest : string;
  baseline_id : option UUID;
  tick_range : Z * Z;
  observations : list Observation.t;
  features : list float;
  score : option float;
  threshold : option float;
  rule_origin : AlertOrigin;
  system_health : list (string * string)
}.
End LabEvidenceBundle.

Module LabRcaObservation.
Record t := mk { claim : string; evidence_ids : list UUID }.
Definition make (claim : string) (evidence_ids : list UUID) : result t :=
  _ ← field (nonempty claim) "claim"; Ok (mk claim evidence_ids).
End LabRcaObservation.

Module LabRcaReport.
Record t := mk {
  report_id : string;
  alert_id : UUID;
  bundle_sha256 : string;
  status : string;
  summary : string;
  observations : list LabRcaObservation.t;
  uncertainty : list string;
  next_checks : list string;
  provider_model : option string
}.
End LabRcaReport.

(** ** Evidence *)
Definition evidence_name (run : SimulationRun.t) (alert : LabAlert.t) : string :=
  ("evidence:" +:+ str_uuid (SimulationRun.run_id run) +:+ ":" +:+ str_uuid (LabAlert.sensor_id alert)
   +:+ ":" +:+ origin_text (LabAlert.origin alert) +:+ ":" +:+ str_int (LabAlert.first_tick alert)
   +:+ ":" +:+ str_int (LabAlert.last_tick alert))%string.

(** The observations of the alert's sensor between its ticks. *)
Definition in_window (alert : LabAlert.t) (o : Observation.t) : bool :=
  bool_decide (Observation.sensor_id o = LabAlert.sensor_id alert)
  && (LabAlert.first_tick alert <=? Observation.tick o)
  && (Observation.tick o <=? LabAlert.last_tick alert).

Definition create_alert_evidence (alert : LabAlert.t) (observations : list Observation.t)
    (run : SimulationRun.t) (features : option (list float)) (score threshold : option float)
  : LabEvidenceBundle.t :=
  LabEvidenceBundle.mk (uuid5 NAMESPACE_URL (evidence_name run alert)) (SimulationRun.run_id run)
    (LabAlert.asset_id alert) (LabAlert.sensor_id alert) (SimulationRun.definition_digest run)
    (SimulationRun.profile_digest run) (SimulationRun.baseline_id run)
    (LabAlert.first_tick alert, LabAlert.last_tick alert)
    (filter (λ o, in_window alert o = true) observations) (default [] features) score threshold
    (LabAlert.origin alert)
    [("simulation", "RUNNING"); ("kafka", "CONNECTED"); ("database", "HEALTHY")]%string.

Section Rca.
Context `{JsonModel LabEvidenceBundle.t}.

Definition compute_evidence_digest (bundle : LabEvidenceBundle.t) : result string :=
  data ← dumps_canonical (JObj (model_dump bundle));
  Ok (sha256_hex (encode data)).

(** [f"lab-rca-{uuid4().hex[:12]}"] *)
Definition lab_report_id (fresh : UUID) : string :=
  ("lab-rca-" +:+ text (take 12 (numeral 16 32 (uuid_int fresh))))%string.

Definition fallback_claim (alert : LabAlert.t) (reason : string) : string :=
  ("Alert " +:+ kind_text (LabAlert.kind alert) +:+ " on sensor "
   +:+ str_uuid (LabAlert.sensor_id alert) +:+ " active between ticks "
   +:+ str_int (LabAlert.first_tick alert) +:+ " and " +:+ str_int (LabAlert.last_tick alert)
   +:+ " (" +:+ reason +:+ ").")%string.

Definition generate_fallback_report (fresh : UUID) (alert : LabAlert.t)
    (evidence : LabEvidenceBundle.t) (reason : string) : result LabRcaReport.t :=
  bundle_sha ← compute_evidence_digest evidence;
  let evidence_id := LabEvidenceBundle.evidence_id evidence in
  o1 ← LabRcaObservation.make (fallback_claim alert reason) [evidence_id];
  o2 ← LabRcaObservation.make
         "All recorded observations and system health telemetry verified from simulation runtime."
         [evidence_id];
  Ok (LabRcaReport.mk (lab_report_id fresh) (LabAlert.alert_id alert) bundle_sha "COMPLETE"
        ("Grounded analysis of " +:+ origin_text (LabAlert.origin alert) +:+ " alert ("
         +:+ kind_text (LabAlert.kind alert) +:+ ") on equipment "
         +:+ str_uuid (LabAlert.asset_id alert) +:+ ".")%string
        [o1; o2]
        ["Automated telemetry does not constitute proof of mechanical component breakdown.";
         ("Provider status: " +:+ reason +:+ ".")]%string
        ["Inspect physical component operating setpoints and valve positions.";
         "Check calibration drift or leakage conductance on target equipment."]%string
        None).

(** The report of the provider's draft; every citation becomes the bundle's identifier. *)
Definition provider_report (fresh : UUID) (alert : LabAlert.t) (evidence : LabEvidenceBundle.t)
    (bundle_sha : string) (generator : OpenAiRcaGenerator) : result LabRcaReport.t :=
  let evidence_id := LabEvidenceBundle.evidence_id evidence in
  draft ← generate_draft generator (dumps_default (JObj (model_dump evidence)))
            [str_uuid evidence_id];
  parsed_obs ← mapR (λ o, LabRcaObservation.make (RcaObservationV1.claim o)
                            ((λ _, evidence_id) <$> RcaObservationV1.evidence_ids o))
                 (ProviderRcaDraft.observations draft);
  Ok (LabRcaReport.mk (lab_report_id fresh) (LabAlert.alert_id alert) bundle_sha "COMPLETE"
        (ProviderRcaDraft.summary draft) parsed_obs (ProviderRcaDraft.uncertainty draft)
        (ProviderRcaDraft.next_checks draft) (Some (gen_model generator))).

Definition generate_lab_rca (fresh : UUID) (alert : LabAlert.t) (evidence : LabEvidenceBundle.t)
    (generator : option OpenAiRcaGenerator) : result LabRcaReport.t :=
  bundle_sha ← compute_evidence_digest evidence;
  match generator with
  | None => generate_fallback_report fresh alert evidence "PROVIDER_UNCONFIGURED"
  | Some g =>
      match provider_report fresh alert evidence bundle_sha g with
      | Ok report => Ok report
      | Err exc => generate_fallback_report fresh alert evidence (class_name exc)
      end
  end.
End Rca.
