(* ===== verification/LabApi.v ===== *)
(** * Virtual lab: the HTTP API ([lab/api.py])

    The handlers of the [/v2] routes over [LabStore]: a response is its status
    code and either the data or the code and details of the error envelope (its
    message is left out); bodies are the values that are dumped into them.  What
    FastAPI does before a handler runs (parsing and bounding the parameters) is
    not modelled.  An exception that a handler does not catch is the [Err] of its
    computation. *)

From S2P Require Import Prelude PyText PyUuid PyFloat PyHash PyJson Messages KafkaIo Tables.
From S2P Require Import LabContracts LabCatalog LabNetwork LabStore.

Inductive body :=
| BLabs (labs : list (UUID * LabRow.t))
| BLab (d : LabDefinition.t)
| BValidation (r : LabValidationResult.t)
| BRun (run_id : UUID) (status : RunStatus)
| BSnapshot (s : RunSnapshot.t)
| BReceipt (r : CommandReceipt.t)
| BFrames (frames : list dict)
| BCatalog (entries : list CatalogEntry) (manifest : json)
| BStatus (status : string)
| BDeps (database worker kafka : string).

(** [success_response] and [error_response] *)
Inductive Response :=
| success_response (status_code : Z) (data : body)
| error_response (status_code : Z) (code : string) (details : option body).

Inductive Template := REFERENCE | BLANK.

(** [except E as e: return error_response(...)] *)
Definition respond_to (handlers : list (exn * Response)) {S} (m : M S Response) : M S Response :=
  catch m (λ e, mret <$> (snd <$> head (filter (λ h : exn * Response, h.1 = e) handlers))).

Section Api.
Context `{JsonModel LabDefinition.t, JsonModel EngineCheckpoint.t, JsonModel CommandRequest.t}.

Definition healthz : Response := success_response 200 (BStatus "HEALTHY").

(** [readyz]: the newest heartbeat is at most 5 seconds old. *)
Definition newest_heartbeat (db : LabDB) : option HealthRow.t :=
  foldr (λ r acc, match acc with
                  | Some b => if HealthRow.heartbeat_at b <? HealthRow.heartbeat_at r then Some r else acc
                  | None => Some r end) None (map_to_list (lab_worker_health db)).*2.
Definition health (healthy : bool) : string := if healthy then "HEALTHY" else "UNAVAILABLE".
Definition readyz (now : Z) (reachable : bool) : M LabDB Response :=
  query (λ db,
    if reachable then
      let fresh := match newest_heartbeat db with
                   | Some row => if now - HealthRow.heartbeat_at row <=? 5000000 then Some row else None
                   | None => None end in
      let worker_healthy := bool_decide (is_Some fresh) in
      let kafka_healthy := match fresh with Some row => HealthRow.kafka_connected row | None => false end in
      let deps := BDeps (health true) (health worker_healthy) (health kafka_healthy) in
      if worker_healthy && kafka_healthy then Ok (success_response 200 deps)
      else Ok (error_response 503 "NOT_READY" (Some deps))
    else Ok (error_response 503 "DEPENDENCY_UNAVAILABLE"
               (Some (BDeps "UNAVAILABLE" "UNKNOWN" "UNKNOWN")))).

(** [get_lab_catalog]; [manifest] is what [json.loads] makes of the manifest file,
    [None] when there is no such file or it cannot be read. *)
Definition get_lab_catalog (manifest : option json) : Response :=
  success_response 200 (BCatalog get_catalog (default (JObj []) manifest)).

Definition get_reference_template : M LabDB Response :=
  ref ← lift_res get_reference_lab_definition;
  mret (success_response 200 (BLab ref)).

Definition list_labs_route (after : option UUID) (limit : Z) : M LabDB Response :=
  labs ← list_labs after limit;
  mret (success_response 200 (BLabs labs)).

(** [create_lab]; [new_id] and [draw] are the fresh identifiers. *)
Definition create_lab (now : Z) (new_id : UUID) (draw : nat → UUID) (name : string)
    (template : Template) : M LabDB Response :=
  lab_def ← lift_res match template with
                     | REFERENCE =>
                         ref ← get_reference_lab_definition; clone_lab_definition draw ref new_id name
                     | BLANK => LabDefinition.make new_id 1 name [] [] [] "scene-v1"
                     end;
  saved ← save_lab now lab_def 1;
  mret (success_response 201 (BLab saved)).

Definition get_lab_route (lab_id : UUID) : M LabDB Response :=
  definition ← get_lab lab_id None;
  mret match definition with
       | None => error_response 404 "LAB_NOT_FOUND" None
       | Some d => success_response 200 (BLab d)
       end.

Definition update_lab (now : Z) (lab_id : UUID) (expected_revision : Z) (definition : LabDefinition.t)
  : M LabDB Response :=
  if bool_decide (LabDefinition.lab_id definition = lab_id) then
    respond_to [(LabRevisionConflictError, error_response 409 "LAB_REVISION_CONFLICT" None)]
      (saved ← save_lab now definition expected_revision;
       mret (success_response 200 (BLab saved)))
  else mret (error_response 422 "ID_MISMATCH" None).

Definition validate_lab_revision (lab_id : UUID) (revision : Z) : M LabDB Response :=
  definition ← get_lab lab_id (Some revision);
  match definition with
  | None => mret (error_response 404 "LAB_NOT_FOUND" None)
  | Some d => r ← lift_res (validate_lab d); mret (success_response 200 (BValidation r))
  end.

Definition create_run (fresh : UUID) (spec : RunSpec.t) : M LabDB Response :=
  respond_to [(LabNotFoundError, error_response 404 "LAB_NOT_FOUND" None);
              (LabNotRunnableError, error_response 409 "LAB_NOT_RUNNABLE" None)]
    (run ← start_run fresh spec None;
     mret (success_response 201 (BRun (SimulationRun.run_id run) (SimulationRun.status run)))).

Definition get_run_snapshot (run_id : UUID) : M LabDB Response :=
  snapshot ← get_snapshot run_id;
  mret match snapshot with
       | None => error_response 404 "RUN_NOT_FOUND" None
       | Some s => success_response 200 (BSnapshot s)
       end.

Definition submit_command_route (run_id : UUID) (command : CommandRequest.t) : M LabDB Response :=
  respond_to [(RunNotFoundError, error_response 404 "RUN_NOT_FOUND" None);
              (InvalidRunStateError, error_response 409 "INVALID_RUN_STATE" None);
              (CommandRevisionConflictError, error_response 409 "CONTROL_REVISION_CONFLICT" None);
              (CommandIdentityConflictError, error_response 409 "COMMAND_IDENTITY_CONFLICT" None)]
    (receipt ← submit_command run_id command;
     mret (success_response 202 (BReceipt receipt))).

Definition get_run_history (run_id : UUID) (from_tick : Z) (to_tick : option Z) (limit : Z)
  : M LabDB Response :=
  run ← get_run run_id;
  match run with
  | None => mret (error_response 404 "RUN_NOT_FOUND" None)
  | Some _ =>
      frames ← get_history run_id from_tick to_tick limit;
      mret (success_response 200 (BFrames frames))
  end.

(** ** The event stream *)

(** What the generator yields. *)
Inductive Yield := YSnapshot (s : RunSnapshot.t) | YEvent (id : string) (e : LabEvent.t) | YHeartbeat.

(** [s.split(c)] *)
Definition split_on (c : ascii) (s : list ascii) : list (list ascii) :=
  foldr (λ x acc, if bool_decide (x = c) then [] :: acc
                  else match acc with p :: ps => (x :: p) :: ps | [] => [[x]] end) [[]] s.

(** [int(s)] of a Latin-1 string: white space around it, a sign, and digits with
    single underscores between them; [None] is the [ValueError]. *)
Definition WHITE_SPACE : list ascii :=
  ascii_of_nat <$> [9; 10; 11; 12; 13; 28; 29; 30; 31; 32; 133; 160]%nat.
Definition digits_value (s : list ascii) : option Z :=
  let groups := split_on "_" s in
  if forallb (λ g, negb (bool_decide (g = []))) groups && (length (concat groups) <=? 4300)%nat
  then parse_numeral 10 (concat groups) else None.
Definition int_of_str (s : list ascii) : option Z :=
  match strip WHITE_SPACE s with
  | ("+"%char) :: ds => digits_value ds
  | ("-"%char) :: ds => Z.opp <$> digits_value ds
  | ds => digits_value ds
  end.

(** The cursor after the [Last-Event-ID] header, [run_id:sequence]. *)
Definition start_cursor (run_id : UUID) (after_sequence : Z) (header : option string) : Z :=
  match (λ s, split_on ":" (chars s)) <$> header with
  | Some [id; seq] =>
      if bool_decide (id = chars (str_uuid run_id)) then
        match int_of_str seq with
        | Some n => Z.max after_sequence n
        | None => after_sequence
        end
      else after_sequence
  | _ => after_sequence
  end.

(** The head of [stream_run]: the cursor to read from, or a 404. *)
Definition stream_run (run_id : UUID) (after_sequence : Z) (header : option string)
  : M LabDB (option Z) :=
  run ← get_run run_id;
  mret ((λ _, start_cursor run_id after_sequence header) <$> run).

(** The initial snapshot. *)
Definition stream_snapshot (run_id : UUID) : M LabDB (list Yield) :=
  initial_snap ← get_snapshot run_id;
  mret (match initial_snap with Some s => [YSnapshot s] | None => [] end).

(** One turn of the generator's loop: the events after the cursor, then a
    heartbeat; the cursor moves to the last event sent. *)
Definition stream_turn (run_id : UUID) (last_seen_seq : Z) : M LabDB (list Yield * Z) :=
  events ← events_after run_id last_seen_seq 100;
  mret (((λ e, YEvent (str_uuid run_id +:+ ":" +:+ text (dec_chars (LabEvent.sequence e)))%string e)
           <$> events) ++ [YHeartbeat],
        default last_seen_seq (LabEvent.sequence <$> last events)).

(** [event_generator] over the databases it finds at each turn, until the client
    is disconnected; the snapshot is read before the first turn. *)
Fixpoint stream_loop (run_id : UUID) (last_seen_seq : Z) (dbs : list LabDB) : result (list Yield) :=
  match dbs with
  | [] => Ok []
  | db :: dbs =>
      '(ys, cursor) ← (stream_turn run_id last_seen_seq db).1;
      rest ← stream_loop run_id cursor dbs;
      Ok (ys ++ rest)
  end.
Definition event_generator (run_id : UUID) (last_seen_seq : Z) (db0 : LabDB) (dbs : list LabDB)
  : result (list Yield) :=
  snapshot ← (stream_snapshot run_id db0).1;
  rest ← stream_loop run_id last_seen_seq dbs;
  Ok (snapshot ++ rest).
End Api.
