(* ===== verification/LabServiceProps.v ===== *)
(** * Virtual lab: delivery of messages and reports

    The publisher drains the outbox in order, and a root-cause report is always
    produced and cites only the evidence it was made from. *)

From S2P Require Import Prelude PyText PyUuid PyFloat PyHash PyJson Messages KafkaIo Tables.
From S2P Require Import LabContracts LabStore LabOutbox Rca LabRca LabApi LabExamples.

(** ** The order of the outbox *)
#[export] Instance outbox_le_trans : Transitive outbox_le.
Proof.
  intros x y z. unfold outbox_le, outbox_rank. simpl. rewrite !orb_true_iff, !andb_true_iff. 
  rewrite !orb_true_iff, !Z.ltb_lt, !Z.eqb_eq. lia.
Qed.
#[export] Instance outbox_le_total : Total outbox_le.
Proof.
  intros x y. unfold outbox_le, outbox_rank. simpl.
  rewrite !orb_true_iff, !andb_true_iff, !orb_true_iff, !Z.ltb_lt, !Z.eqb_eq. lia.
Qed.
Lemma outbox_le_antisym x y : outbox_le x y → outbox_le y x → x.1 = y.1.
Proof.
  unfold outbox_le, outbox_rank. simpl. intros Hx Hy. apply uuid_eq.
  rewrite !orb_true_iff, !andb_true_iff, !orb_true_iff, !Z.ltb_lt, !Z.eqb_eq in Hx, Hy. lia.
Qed.

(** ** The rows still to send *)


Lemma elem_of_unpublished db id row :
  (id, row) ∈ unpublished db ↔ lab_outbox db !! id = Some row ∧ LabOutboxRow.published_at row = None.
Proof.
  unfold unpublished. rewrite merge_sort_Permutation, list_elem_of_filter, elem_of_map_to_list.
  unfold is_unpublished. simpl. rewrite bool_decide_eq_true. tauto.
Qed.
Lemma NoDup_unpublished db : NoDup (unpublished db).*1.
Proof.
  unfold unpublished. rewrite merge_sort_Permutation.
  eapply sublist_NoDup; [apply (NoDup_fst_map_to_list (lab_outbox db))|]. apply fmap_sublist, sublist_filter.
Qed.
Lemma sorted_unpublished db : StronglySorted outbox_le (unpublished db).
Proof. apply StronglySorted_merge_sort; apply _. Qed.

Lemma mark_lookup now ids db id :
  lab_outbox (mark_ids now ids db) !! id =
  if bool_decide (id ∈ ids) then publish_row now <$> lab_outbox db !! id else lab_outbox db !! id.
Proof.
  unfold mark_ids. simpl. induction ids as [|x ids IH] using rev_ind; [done|].
  rewrite foldl_app. simpl. destruct (decide (x = id)) as [->|Hne].
  - rewrite lookup_alter_eq, IH. rewrite (bool_decide_eq_true_2 (id ∈ ids ++ [id])) by set_solver.
    case_bool_decide; [|done]. by destruct (lab_outbox db !! id).
  - rewrite lookup_alter_ne, IH by done.
    repeat case_bool_decide; try done; set_solver.
Qed.

(** Marking the first rows leaves the others. *)
Lemma lab_unpublished_mark now k db :
  unpublished (mark_ids now (take k (unpublished db)).*1 db) = drop k (unpublished db).
Proof.
  set (l := unpublished db).
  assert (NoDup (take k l).*1 ∧ (∀ x, x ∈ (take k l).*1 → x ∉ (drop k l).*1) ∧ NoDup (drop k l).*1) as (_ & Hdis & Hdrop).
  { apply NoDup_app. rewrite <-fmap_app, take_drop. apply NoDup_unpublished. }
  assert (∀ id row, (id, row) ∈ unpublished (mark_ids now (take k l).*1 db) ↔ (id, row) ∈ drop k l) as Hel.
  { intros id row. rewrite elem_of_unpublished, mark_lookup. case_bool_decide as Hin; split.
    - intros [Hl Hp]. apply fmap_Some in Hl as (r & _ & ->). done.
    - intros Hd. exfalso. apply (Hdis id Hin). by apply (list_elem_of_fmap_2 fst) in Hd.
    - intros Hl. assert ((id, row) ∈ l) as Hrow by (by apply elem_of_unpublished).
      rewrite <-(take_drop k l) in Hrow. apply elem_of_app in Hrow as [Ht|Hd]; [|done].
      exfalso. apply Hin. by apply (list_elem_of_fmap_2 fst) in Ht.
    - intros Hd. apply elem_of_unpublished. fold l. rewrite <-(take_drop k l). apply elem_of_app. by right. }
  apply (StronglySorted_unique_strong outbox_le).
  - intros [i r] [j r'] Hi Hj Hle Hge. apply outbox_le_antisym in Hle; [|done]. simpl in Hle. subst j.
    apply Hel in Hi. f_equal.
    assert ((i, r) ∈ l) as Hi' by (rewrite <-(take_drop k l); apply elem_of_app; by right).
    assert ((i, r') ∈ l) as Hj' by (rewrite <-(take_drop k l); apply elem_of_app; by right).
    apply elem_of_unpublished in Hi' as [Hi' _], Hj' as [Hj' _]. congruence.
  - apply sorted_unpublished.
  - pose proof (sorted_unpublished db) as Hs. fold l in Hs. rewrite <-(take_drop k l) in Hs.
    by apply StronglySorted_app in Hs as (_ & _ & ?).
  - apply NoDup_Permutation.
    + eapply NoDup_fmap_1, NoDup_unpublished.
    + by eapply NoDup_fmap_1.
    + intros [id row]. apply Hel.
Qed.

(** ** Sending *)
Section Send.
Variable broker : nat → bool.

(** The rows that are sent: those before the first refusal. *)
Fixpoint accepted (calls : nat) (rows : list outbox_row) : nat :=
  match rows with
  | [] => 0
  | _ :: rows => if broker calls then S (accepted (S calls) rows) else 0
  end.

Definition sendable (rows : list outbox_row) : Prop := Forall (λ r, is_ok (message_of r) = true) rows.
Definition messages (rows : list outbox_row) : list Sent :=
  omap (λ r, result_to_option (message_of r)) rows.

Lemma accepted_le rows : ∀ calls, (accepted calls rows ≤ length rows)%nat.
Proof. induction rows as [|r rows IH]; intros calls; simpl; [lia|]. destruct (broker calls); [|lia]. specialize (IH (S calls)). lia. Qed.

Lemma send_rows_spec rows : ∀ p,
  sendable rows →
  ∃ calls, send_rows broker rows p =
    (Ok (take (accepted (p_calls p) rows) rows).*1,
     mkPublisher (p_db p) (p_log p ++ messages (take (accepted (p_calls p) rows) rows)) calls (p_running p)) ∧
    (p_calls p ≤ calls)%nat.
Proof.
  induction rows as [|r rows IH]; intros p Hok; cbn [send_rows accepted].
  - exists (p_calls p). rewrite app_nil_r. by destruct p.
  - apply Forall_cons in Hok as [Hm Hok]. rewrite M_bind_run. unfold lift_res.
    destruct (message_of r) as [m|] eqn:Hmsg; [|done]. rewrite M_bind_run. unfold send.
    destruct (broker (p_calls p)).
    + set (p1 := mkPublisher _ _ _ _). destruct (IH p1 Hok) as (calls & Hrun & Hle).
      rewrite M_bind_run, Hrun. exists calls. cbn [p_calls p_db p_log p_running p1] in *.
      cbn [take fmap list_fmap messages omap list_omap]. rewrite Hmsg. cbn [result_to_option].
      split; [|lia]. by rewrite <-app_assoc.
    + exists (S (p_calls p)). cbn. rewrite app_nil_r. split; [done|lia].
Qed.

Lemma outbox_turn_spec now p :
  p_running p = true → sendable (take 100 (unpublished (p_db p))) →
  let k := accepted (p_calls p) (take 100 (unpublished (p_db p))) in
  ∃ calls, outbox_turn broker now p =
    (Ok (), mkPublisher (mark_ids now (take k (unpublished (p_db p))).*1 (p_db p))
              (p_log p ++ messages (take k (unpublished (p_db p)))) calls true) ∧ (p_calls p ≤ calls)%nat.
Proof.
  intros Hrun Hok k. unfold outbox_turn, catch. rewrite M_bind_run. unfold dispatch_batch.
  repeat (rewrite M_bind_run; cbn [get_st]). rewrite Hrun. cbn [negb].
  rewrite M_bind_run. unfold lift_res at 1, Tables.limit. cbn [guard_exn mbind result_bind Z.leb Z.compare].
  change (Z.to_nat 100) with 100%nat. rewrite M_bind_run.
  destruct (send_rows_spec (take 100 (unpublished (p_db p))) p Hok) as (calls & -> & Hle). fold k.
  assert (k ≤ 100)%nat as Hk.
  { pose proof (accepted_le (take 100 (unpublished (p_db p))) (p_calls p)) as Hk. rewrite length_take in Hk.
    unfold k. lia. }
  rewrite take_take, Nat.min_l by done. rewrite M_bind_run. unfold on_lab_db. cbn [modify p_db p_log p_calls p_running].
  exists calls. rewrite Hrun. by split.
Qed.
End Send.

(** C35. Each turn of the outbox loop sends the oldest messages in order - by run, tick and
    sensor - up to the first one the broker refuses, at most a hundred, marks exactly the
    rows it sent, and leaves the others to be sent next: published rows were sent, and a
    refused row is tried again before any later one. *)
Theorem outbox_turn_exact broker now p :
  p_running p = true → sendable (take 100 (unpublished (p_db p))) →
  ∃ k calls, (k ≤ 100)%nat ∧
    outbox_turn broker now p =
      (Ok (), mkPublisher (mark_ids now (take k (unpublished (p_db p))).*1 (p_db p))
                (p_log p ++ messages (take k (unpublished (p_db p)))) calls true) ∧
    unpublished (p_db (outbox_turn broker now p).2) = drop k (unpublished (p_db p)) ∧
    (k < length (take 100 (unpublished (p_db p))) → broker (p_calls p + k)%nat = false)%nat.
Proof.
  intros Hrun Hok. destruct (outbox_turn_spec broker now p Hrun Hok) as (calls & Heq & _).
  set (rows := take 100 (unpublished (p_db p))) in *. exists (accepted broker (p_calls p) rows), calls. rewrite Heq.
  pose proof (accepted_le broker rows (p_calls p)) as Hle. split.
  { unfold rows in Hle. rewrite length_take in Hle. unfold rows. lia. }
  split; [done|]. split; [apply lab_unpublished_mark|].
  clear. generalize (p_calls p). intros calls. revert calls. induction rows as [|r rows IH]; intros calls Hlt; simpl in *; [lia|].
  destruct (broker calls) eqn:Hb; [|by rewrite Nat.add_0_r].
  replace (calls + S (accepted broker (S calls) rows))%nat with (S calls + accepted broker (S calls) rows)%nat by lia.
  apply IH. lia.
Qed.

(** With a broker that answers, the loop empties the outbox: after enough turns - one
    per hundred rows - every row is published and every message was sent exactly once
    by them, in order. *)
Theorem outbox_drains broker turns now p :
  p_running p = true → sendable (unpublished (p_db p)) →
  (∀ n, (p_calls p ≤ n)%nat → broker n = true) →
  (length (unpublished (p_db p)) ≤ 100 * turns)%nat →
  ∃ p', outbox_loop broker turns now p = (Ok (), p') ∧ unpublished (p_db p') = [] ∧
    p_log p' = p_log p ++ messages (unpublished (p_db p)).
Proof.
  revert p. induction turns as [|turns IH]; intros p Hrun Hok Hb Hlen; cbn [outbox_loop].
  - exists p. assert (unpublished (p_db p) = []) as -> by (apply nil_length_inv; lia). split; [done|]. split; [done|].
    by rewrite app_nil_r.
  - rewrite M_bind_run.
    destruct (outbox_turn_spec broker (now turns) p Hrun) as (calls & Heq & Hle); [by apply Forall_take|].
    assert (∀ rows calls, (p_calls p ≤ calls)%nat → accepted broker calls rows = length rows) as Hall.
    { induction rows as [|r rows IHr]; intros c Hc; simpl; [done|]. rewrite Hb by done. f_equal. apply IHr. lia. }
    rewrite Hall in Heq by done. set (n := length (take 100 (unpublished (p_db p)))) in *.
    rewrite Heq. set (p1 := mkPublisher _ _ _ _).
    assert (unpublished (p_db p1) = drop n (unpublished (p_db p))) as Hrest by apply lab_unpublished_mark.
    destruct (IH p1) as (p' & Hrun' & Hnil & Hlog).
    { done. } { rewrite Hrest. by apply Forall_drop. } { intros m Hm. apply Hb. cbn [p1 p_calls] in Hm. lia. }
    { rewrite Hrest, length_drop. unfold n. rewrite length_take. lia. }
    exists p'. split; [done|]. split; [done|]. rewrite Hlog, Hrest. cbn [p1 p_log]. rewrite <-app_assoc. f_equal.
    unfold messages. by rewrite <-omap_app, take_drop.
Qed.

(** ** Root-cause reports *)
Section Rca.
Context `{JsonModel LabEvidenceBundle.t}.

(** A report about an alert that cites nothing but the bundle. *)
Definition grounded (alert : LabAlert.t) (evidence : LabEvidenceBundle.t) (digest : string) (r : LabRcaReport.t)
  : Prop :=
  LabRcaReport.alert_id r = LabAlert.alert_id alert ∧ LabRcaReport.bundle_sha256 r = digest ∧
  LabRcaReport.status r = "COMPLETE"%string ∧
  Forall (λ o, nonempty (LabRcaObservation.claim o) = true ∧
               Forall (λ i, i = LabEvidenceBundle.evidence_id evidence) (LabRcaObservation.evidence_ids o))
    (LabRcaReport.observations r).

Lemma fallback_grounded fresh alert evidence reason digest :
  compute_evidence_digest evidence = Ok digest →
  ∃ r, generate_fallback_report fresh alert evidence reason = Ok r ∧ grounded alert evidence digest r ∧
    LabRcaReport.provider_model r = None.
Proof.
  intros Hd. unfold generate_fallback_report. rewrite Hd. cbn [mbind result_bind].
  eexists. split; [reflexivity|]. split; [|reflexivity]. split; [done|]. split; [done|]. split; [done|].
  cbn [LabRcaReport.observations]. repeat constructor.
Qed.

Lemma provider_grounded fresh alert evidence digest g r :
  provider_report fresh alert evidence digest g = Ok r →
  grounded alert evidence digest r ∧ LabRcaReport.provider_model r = Some (gen_model g).
Proof.
  unfold provider_report. intros Hr. apply bind_Ok in Hr as (draft & _ & Hr).
  apply bind_Ok in Hr as (obs & Hobs & Hr). injection Hr as <-. split; [|done].
  split; [done|]. split; [done|]. split; [done|]. cbn [LabRcaReport.observations].
  apply mapR_Forall2 in Hobs. clear -Hobs. induction Hobs as [|o o' l l' Ho _ IH]; [constructor|].
  constructor; [|exact IH]. unfold LabRcaObservation.make in Ho. apply bind_Ok in Ho as (? & Hc & Ho).
  injection Ho as <-. apply guard_exn_Ok in Hc. split; [done|]. cbn [LabRcaObservation.evidence_ids].
  apply Forall_fmap. by apply Forall_forall.
Qed.

(** C36. A root-cause report is always produced and always grounded: whatever the provider
    does - absent, failing, answering an invalid draft - the report is about the alert,
    carries the digest of the evidence, and each of its claims is non-empty and cites
    only the evidence bundle; it names a provider model only if the provider's draft was
    accepted, and is the deterministic fallback otherwise. *)
Theorem lab_rca_grounded fresh alert evidence generator digest :
  compute_evidence_digest evidence = Ok digest →
  ∃ r, generate_lab_rca fresh alert evidence generator = Ok r ∧ grounded alert evidence digest r ∧
    match generator with
    | None => generate_fallback_report fresh alert evidence "PROVIDER_UNCONFIGURED" = Ok r
    | Some g => (provider_report fresh alert evidence digest g = Ok r ∧
                 LabRcaReport.provider_model r = Some (gen_model g)) ∨
                (∃ e, provider_report fresh alert evidence digest g = Err e ∧
                   generate_fallback_report fresh alert evidence (class_name e) = Ok r)
    end.
Proof.
  intros Hd. unfold generate_lab_rca. rewrite Hd. cbn [mbind result_bind]. destruct generator as [g|].
  - destruct (provider_report fresh alert evidence digest g) as [r|e] eqn:Hr.
    + destruct (provider_grounded _ _ _ _ _ _ Hr). exists r. auto.
    + destruct (fallback_grounded fresh alert evidence (class_name e) digest Hd) as (r & Hf & Hg & _).
      exists r. split; [done|]. split; [done|]. right. eauto.
  - destruct (fallback_grounded fresh alert evidence "PROVIDER_UNCONFIGURED" digest Hd) as (r & Hf & Hg & _).
    exists r. auto.
Qed.
End Rca.

(** ** Witnesses *)
Module ServiceWitness.
Import LabExamples.

(** An outbox with the two observations of a finished run. *)
Definition db_run : LabDB := (LabEngine.run_once (run 40) draw (db1 40)).2.
Definition publisher : Publisher := mkPublisher db_run [] 0 true.
Definition flaky (n : nat) : bool := negb (bool_decide (n = 1%nat)).

Lemma sendable_check rows : forallb (λ r, is_ok (message_of r)) rows = true → sendable rows.
Proof.
  intros Hb. apply Forall_forall. intros r Hr. rewrite forallb_forall in Hb. by apply Hb, list_elem_of_In.
Qed.
Lemma ready : sendable (unpublished (p_db publisher)).
Proof. apply sendable_check. vm_compute. reflexivity. Qed.
Lemma ready_batch : sendable (take 100 (unpublished (p_db publisher))).
Proof. apply Forall_take. exact ready. Qed.

Lemma outbox_turn_exact_witness :
  ∃ k calls, (k ≤ 100)%nat ∧
    outbox_turn flaky 9 publisher =
      (Ok (), mkPublisher (mark_ids 9 (take k (unpublished (p_db publisher))).*1 (p_db publisher))
                (p_log publisher ++ messages (take k (unpublished (p_db publisher)))) calls true) ∧
    unpublished (p_db (outbox_turn flaky 9 publisher).2) = drop k (unpublished (p_db publisher)) ∧
    (k < length (take 100 (unpublished (p_db publisher))) → flaky (p_calls publisher + k)%nat = false)%nat.
Proof. exact (outbox_turn_exact flaky 9 publisher eq_refl ready_batch). Defined.
(** The broker refuses the second message. *)
Example one_left : length (unpublished (p_db (outbox_turn flaky 9 publisher).2)) = 1%nat.
Proof. vm_compute. reflexivity. Qed.

Lemma outbox_drains_witness :
  ∃ p', outbox_loop (λ _, true) 1 (λ _, 9) publisher = (Ok (), p') ∧ unpublished (p_db p') = [] ∧
    p_log p' = p_log publisher ++ messages (unpublished (p_db publisher)).
Proof.
  refine (outbox_drains (λ _, true) 1 (λ _, 9) publisher eq_refl ready _ _); [done|].
  vm_compute. repeat constructor.
Defined.

#[export] Instance bundle_model : JsonModel LabEvidenceBundle.t := {|
  model_dump b := [("evidence_id", JStr (str_uuid (LabEvidenceBundle.evidence_id b)))]%string;
  model_validate _ := Err (ValidationError "LabEvidenceBundle")
|}.
Definition alert : LabAlert.t :=
  LabAlert.mk (id 21) (id 4) (id 1) (id 2) PROCESS_LIMIT ABOVE_LIMIT ALERT_OPEN 20 60 None [].
Definition evidence : LabEvidenceBundle.t := create_alert_evidence alert [] (run 20) None None None.
Definition evidence_digest : string := from_ok "" (compute_evidence_digest evidence).
(** A provider whose draft cites evidence it was not given. *)
Definition generator : OpenAiRcaGenerator :=
  mkGenerator "model" (λ _, Ok (Some (ProviderRcaDraft.mk "s" [RcaObservationV1.mk "c" ["elsewhere"]%string] [] []))).

Lemma lab_rca_grounded_witness :
  ∃ r, generate_lab_rca (id 22) alert evidence (Some generator) = Ok r ∧
    grounded alert evidence evidence_digest r ∧
    ((provider_report (id 22) alert evidence evidence_digest generator = Ok r ∧
      LabRcaReport.provider_model r = Some "model"%string) ∨
     (∃ e, provider_report (id 22) alert evidence evidence_digest generator = Err e ∧
        generate_fallback_report (id 22) alert evidence (class_name e) = Ok r)).
Proof.
  refine (lab_rca_grounded (id 22) alert evidence (Some generator) evidence_digest _).
  apply from_ok_eq. vm_compute. reflexivity.
Defined.
Example refused_draft :
  match generate_lab_rca (id 22) alert evidence (Some generator) with
  | Ok r => LabRcaReport.provider_model r = None | Err _ => False end.
Proof. vm_compute. reflexivity. Qed.
End ServiceWitness.
