(* ===== verification/LabStreamProps.v ===== *)
(** * Virtual lab: the event stream of a run

    A connection to [/v2/runs/{run_id}/stream] yields the run's events in order,
    each of them once, and a client that reconnects with the identifier of the last
    event it received goes on from there. *)

From S2P Require Import Prelude PyText PyUuid PyFloat PyHash PyJson Messages KafkaIo Tables.
From S2P Require Import LabContracts LabSensors LabStore LabApi LabExamples.

(** ** Reading the cursor back *)
Lemma chars_append a b : chars (a +:+ b)%string = chars a ++ chars b.
Proof. induction a as [|c a IH]; [done|]. simpl. by f_equal. Qed.

Lemma split_on_none c s : c ∉ s → split_on c s = [s].
Proof.
  induction s as [|x s IH]; intros Hc; [done|]. apply not_elem_of_cons in Hc as [Hx Hs].
  unfold split_on in *. cbn [foldr]. rewrite IH, bool_decide_eq_false_2 by congruence. done.
Qed.

Lemma split_on_two c s t : c ∉ s → c ∉ t → split_on c (s ++ c :: t) = [s; t].
Proof.
  intros Hs Ht. induction s as [|x s IH].
  - simpl app. unfold split_on. cbn [foldr]. rewrite bool_decide_eq_true_2 by done.
    f_equal. by apply split_on_none.
  - apply not_elem_of_cons in Hs as [Hx Hs]. specialize (IH Hs). unfold split_on in *.
    cbn [foldr app]. rewrite IH, bool_decide_eq_false_2 by congruence. done.
Qed.

Definition is_digit (c : ascii) : Prop := c ∈ digit_char <$> seqZ 0 10.

Lemma numeral_digits n z : Forall is_digit (numeral 10 n z).
Proof.
  unfold numeral. apply Forall_fmap. eapply Forall_impl; [by apply (to_digits_bound 10)|].
  intros d Hd. cbv beta in Hd. apply list_elem_of_fmap. exists d. split; [done|]. apply elem_of_seqZ. lia.
Qed.

Lemma digit_neq c d : is_digit c → bool_decide (d ∈ digit_char <$> seqZ 0 10) = false → c ≠ d.
Proof. intros Hc Hd ->. by apply bool_decide_eq_false in Hd. Qed.

Lemma digits_absent l d : Forall is_digit l → bool_decide (d ∈ digit_char <$> seqZ 0 10) = false → d ∉ l.
Proof. intros Hl Hd Hin. rewrite Forall_forall in Hl. by eapply digit_neq; [apply Hl|exact Hd|]. Qed.

Lemma num_digits_bound f z : 0 ≤ z → z < 10 ^ Z.of_nat (S f) → z < 10 ^ Z.of_nat (num_digits f z).
Proof.
  revert z. induction f as [|f IH]; intros z Hz Hlt; [exact Hlt|]. cbn [num_digits].
  destruct (z <? 10) eqn:E; [apply Z.ltb_lt in E; lia|]. apply Z.ltb_ge in E.
  assert (z / 10 < 10 ^ Z.of_nat (num_digits f (z / 10))) as H.
  { apply IH; [apply Z.div_pos; lia|]. apply Z.div_lt_upper_bound; [lia|].
    replace (10 * 10 ^ Z.of_nat (S f)) with (10 ^ Z.of_nat (S (S f))); [done|].
    rewrite (Nat2Z.inj_succ (S f)), Z.pow_succ_r by lia. done. }
  rewrite Nat2Z.inj_succ, Z.pow_succ_r by lia. pose proof (Z.mod_pos_bound z 10). 
  rewrite (Z.div_mod z 10) at 1 by lia. lia.
Qed.

Lemma num_digits_le f z : (num_digits f z ≤ S f)%nat.
Proof. revert z. induction f as [|f IH]; intros z; cbn [num_digits]; [lia|]. destruct (z <? 10); [lia|]. specialize (IH (z / 10)). lia. Qed.

(** A sequence number is printed with at most 64 digits and read back. *)
Lemma int_of_dec_chars n : 0 ≤ n < 2 ^ 63 → int_of_str (dec_chars n) = Some n ∧ ":"%char ∉ dec_chars n.
Proof.
  intros Hn. unfold dec_chars. rewrite (proj2 (Z.ltb_ge n 0)), Z.abs_eq by lia. cbn [app].
  set (k := num_digits _ _). pose proof (numeral_digits k n) as Hd.
  assert (n < 10 ^ Z.of_nat k) as Hlt.
  { apply num_digits_bound; [lia|]. destruct (decide (n = 0)) as [->|Hn0]; [lia|].
    pose proof (Z.log2_spec n ltac:(lia)) as [_ Hl]. rewrite Nat2Z.inj_succ, Z2Nat.id by apply Z.log2_nonneg.
    eapply Z.lt_le_trans; [exact Hl|]. apply Z.pow_le_mono_l. lia. }
  assert (k ≤ 64)%nat as Hk.
  { pose proof (num_digits_le (Z.to_nat (Z.log2 n)) n) as Hle. fold k in Hle.
    assert (Z.log2 n ≤ 62); [|lia]. destruct (decide (n = 0)) as [->|]; [done|].
    assert (Z.log2 n < 63); [|lia]. apply Z.log2_lt_pow2; lia. }
  assert (numeral 10 k n ≠ []) as Hne.
  { unfold k, num_digits. destruct (Z.to_nat (Z.log2 n)); intros Hnil; apply (f_equal length) in Hnil;
      rewrite numeral_length in Hnil; [done|]. by destruct (n <? 10). }
  split; [|by apply digits_absent].
  unfold int_of_str. rewrite strip_absent.
  2:{ eapply Forall_impl; [exact Hd|]. intros c Hc Hin.
      assert (Forall (λ w, bool_decide (w ∈ digit_char <$> seqZ 0 10) = false) WHITE_SPACE) as Hw
        by (apply (bool_decide_unpack _); reflexivity).
      rewrite Forall_forall in Hw. by apply (digit_neq c c Hc (Hw c Hin)). }
  assert (digits_value (numeral 10 k n) = Some n) as Hv.
  { unfold digits_value. rewrite split_on_none by by apply digits_absent. simpl concat. rewrite app_nil_r. simpl forallb.
    rewrite (bool_decide_eq_false_2 _ Hne), numeral_length, (proj2 (Nat.leb_le k 4300)) by lia. simpl.
    apply parse_numeral_small; lia. }
  destruct (numeral 10 k n) as [|c l] eqn:E; [done|]. apply Forall_cons in Hd as [Hc _].
  pose proof (digit_neq c "+" Hc eq_refl). pose proof (digit_neq c "-" Hc eq_refl).
  destruct c as [[] [] [] [] [] [] [] []]; done.
Qed.

Definition event_key (run_id : UUID) (n : Z) : string :=
  (str_uuid run_id +:+ ":" +:+ text (dec_chars n))%string.

Lemma start_cursor_event run_id a n :
  0 ≤ n < 2 ^ 63 → start_cursor run_id a (Some (event_key run_id n)) = Z.max a n.
Proof.
  intros Hn. destruct (int_of_dec_chars n Hn) as [Hi Hc]. unfold start_cursor, event_key. cbn [fmap option_fmap option_map].
  rewrite !chars_append, chars_text. unfold str_uuid at 1. rewrite chars_text.
  change (chars ":") with [":"%char]. cbn [app]. rewrite split_on_two; [| |done].
  - unfold str_uuid. rewrite chars_text, bool_decide_eq_true_2 by done. by rewrite Hi.
  - intros Hin. pose proof (uuid_chars_ok run_id) as Hok. rewrite Forall_forall in Hok.
    by apply (uuid_char_ok_neq ":"%char ":"%char (Hok _ Hin)).
Qed.

(** ** The events of a run *)
Definition run_events (run_id : UUID) (db : LabDB) : list (Z * LabEventRow.t) :=
  numbered_rows run_id (λ _ _, true) (lab_events db).
Definition after (c : Z) (rows : list (Z * LabEventRow.t)) : list (Z * LabEventRow.t) :=
  filter (λ r, c < r.1) rows.

Lemma events_after_rows run_id c db :
  numbered_rows run_id (λ n _, c <? n) (lab_events db) = after c (run_events run_id db).
Proof.
  apply (key_sorted_unique fst).
  - apply numbered_rows_sorted.
  - apply StronglySorted_filter, numbered_rows_sorted.
  - unfold after, run_events, numbered_rows. rewrite !(merge_sort_Permutation by_number).
    rewrite list_filter_filter. apply Permutation_refl', list_filter_iff. intros x. rewrite Z.ltb_lt. tauto.
Qed.

(** Later databases have more events of the run, with higher sequence numbers. *)
Definition grows (run_id : UUID) (db db' : LabDB) : Prop :=
  run_events run_id db `prefix_of` run_events run_id db'.

(** The events that are yielded, and the identifiers sent with them. *)
Definition yielded (ys : list Yield) : list LabEvent.t :=
  omap (λ y, match y with YEvent _ e => Some e | _ => None end) ys.
Definition id_matches (run_id : UUID) (y : Yield) : Prop :=
  match y with YEvent id e => id = event_key run_id (LabEvent.sequence e) | _ => True end.

Lemma after_prefix c l l' : l `prefix_of` l' → after c l `prefix_of` after c l'.
Proof. intros [k ->]. unfold after. rewrite filter_app. by eexists. Qed.

(** The rows after the last of the first [k] are the others. *)
Lemma after_take k c l :
  StronglySorted (key_lt fst) l →
  after (default c (fst <$> last (take k (after c l)))) l = drop k (after c l).
Proof.
  intros Hs. destruct (last (take k (after c l))) as [x|] eqn:Hl; simpl.
  - apply last_Some in Hl as [l1 Hl]. 
    assert (after c l = l1 ++ x :: drop k (after c l)) as Heq.
    { rewrite <-(take_drop k (after c l)) at 1. by rewrite Hl, <-app_assoc. }
    assert (StronglySorted (key_lt fst) (after c l)) as Hs' by by apply StronglySorted_filter.
    rewrite Heq in Hs'. rewrite <-(filter_beyond fst l1 x (drop k (after c l)) Hs'), <-Heq.
    assert (c < x.1) as Hx.
    { assert (x ∈ after c l) as Hin by (rewrite Heq; apply elem_of_app; right; constructor).
      unfold after in Hin. apply list_elem_of_filter in Hin. tauto. }
    unfold after. rewrite list_filter_filter. apply list_filter_iff. intros y. cbn. lia.
  - apply last_None in Hl. rewrite <-(take_drop k (after c l)) at 1. by rewrite Hl.
Qed.

Lemma take_prefix_take {A} k (l l' : list A) : l `prefix_of` l' → take k l = take (k `min` length l) l'.
Proof.
  intros [m ->]. rewrite take_app_le by lia.
  destruct (decide (k ≤ length l)%nat); [by rewrite Nat.min_l|].
  rewrite Nat.min_r, !take_ge by lia. done.
Qed.

Section Stream.
Variable run_id : UUID.

Lemma event_of_sequence r e : (event_of run_id) r = Ok e → LabEvent.sequence e = r.1.
Proof.
  unfold event_of, LabEvent.make. intros He. repeat (apply bind_Ok in He as (? & _ & He)). by injection He as <-.
Qed.

Lemma decoded_last rows events :
  mapR (event_of run_id) rows = Ok events → LabEvent.sequence <$> last events = fst <$> last rows.
Proof.
  intros He. apply mapR_Forall2 in He. rewrite <-!fmap_last. f_equal.
  induction He as [|r e rows events Hr _ IH]; [done|]. rewrite !fmap_cons, IH. f_equal. by apply event_of_sequence.
Qed.

Definition decodable (rows : list (Z * LabEventRow.t)) : Prop := Forall (λ r, is_ok ((event_of run_id) r) = true) rows.

Lemma decodable_mapR rows : decodable rows → ∃ events, mapR (event_of run_id) rows = Ok events.
Proof.
  induction 1 as [|r rows Hr _ [es IH]]; [by eexists|]. cbn [mapR]. destruct ((event_of run_id) r) as [e|]; [|done].
  rewrite IH. by eexists.
Qed.

(** One turn: the next hundred rows at most, and the cursor on the last of them. *)
Lemma stream_turn_spec c db events :
  mapR (event_of run_id) (take 100 (after c (run_events run_id db))) = Ok events →
  ∃ ys, (stream_turn run_id c db).1 =
    Ok (ys, default c (fst <$> last (take 100 (after c (run_events run_id db))))) ∧
    yielded ys = events ∧ Forall (id_matches run_id) ys.
Proof.
  intros He. unfold stream_turn, events_after. rewrite M_bind_run. unfold query. rewrite events_after_rows.
  unfold capped. change (Z.to_nat (Z.min (Z.max 1 100) 1000)) with 100%nat. rewrite He. cbn [mret M_ret fst].
  eexists. split; [by rewrite (decoded_last _ _ He)|]. split.
  - clear He. unfold yielded. rewrite omap_app. simpl. rewrite app_nil_r.
    induction events as [|e es IH]; [done|]. simpl. by f_equal.
  - apply Forall_app. split; [|by repeat constructor]. apply Forall_fmap, Forall_forall. intros e _. done.
Qed.

Lemma turn_rows c db d :
  grows run_id db d →
  let k := (100 `min` length (after c (run_events run_id db)))%nat in
  let rows := take 100 (after c (run_events run_id db)) in
  rows = take k (after c (run_events run_id d)) ∧ (k ≤ length (after c (run_events run_id d)))%nat ∧
  after (default c (fst <$> last rows)) (run_events run_id d) = drop k (after c (run_events run_id d)).
Proof.
  intros Hg k rows. apply (after_prefix c) in Hg.
  assert (rows = take k (after c (run_events run_id d))) as Heq by by apply take_prefix_take.
  split; [done|]. split; [apply prefix_length in Hg; unfold k; lia|].
  rewrite Heq. apply after_take, numbered_rows_sorted.
Qed.

Lemma stream_loop_spec dbs final : ∀ c,
  StronglySorted (grows run_id) (dbs ++ [final]) → decodable (run_events run_id final) →
  ∃ n ys, stream_loop run_id c dbs = Ok ys ∧
    mapR (event_of run_id) (take n (after c (run_events run_id final))) = Ok (yielded ys) ∧ Forall (id_matches run_id) ys ∧
    (n ≤ length (after c (run_events run_id final)))%nat ∧
    ∀ i db, dbs !! i = Some db →
      (length (after c (run_events run_id db)) `min` (100 * (length dbs - i)) ≤ n)%nat.
Proof.
  induction dbs as [|db dbs IH]; intros c Hs Hd; cbn [stream_loop].
  { exists 0%nat, []. repeat split; [constructor|lia|]. intros i db Hi. by rewrite lookup_nil in Hi. }
  simpl in Hs. apply StronglySorted_inv in Hs as [Hs Hall]. rewrite Forall_forall in Hall.
  destruct (turn_rows c db final) as (Htake & Hk & Hrest); [apply Hall; set_solver|].
  set (rows := take 100 (after c (run_events run_id db))) in *. set (k := (100 `min` _)%nat) in *.
  destruct (decodable_mapR rows) as [es He].
  { rewrite Htake. apply Forall_take, Forall_forall. intros r [_ Hr]%list_elem_of_filter.
    unfold decodable in Hd. rewrite Forall_forall in Hd. by apply Hd. }
  destruct (stream_turn_spec c db es He) as (ys & -> & Hy & Hid). fold rows. cbn [mbind result_bind].
  destruct (IH (default c (fst <$> last rows)) Hs Hd) as (n & ys' & -> & Hmap & Hid' & Hn & Hmin).
  rewrite Hrest in Hmap, Hn. rewrite length_drop in Hn. cbn [mbind result_bind].
  exists (k + n)%nat, (ys ++ ys'). split; [done|]. split; [|split; [by apply Forall_app|split; [lia|]]].
  - rewrite <-(take_drop k (take (k + n) _)), take_take, Nat.min_l, skipn_firstn_comm, Nat.add_sub' by lia.
    rewrite mapR_app, <-Htake, He. cbn [mbind result_bind]. rewrite Hmap. cbn [mbind result_bind].
    unfold yielded. by rewrite omap_app, <-Hy.
  - intros [|i] d Hi; simpl in Hi.
    + injection Hi as <-. fold k. destruct dbs as [|d1 ds]; [simpl; unfold k; lia|].
      specialize (Hmin 0%nat d1 eq_refl).
      destruct (turn_rows c db d1) as (_ & Hk1 & Hrest1); [apply Hall; set_solver|]. fold rows k in Hrest1, Hk1.
      rewrite Hrest1, length_drop in Hmin.
      pose proof (prefix_length _ _ (after_prefix c _ _ (Hall d1 ltac:(set_solver)))) as Hp.
      simpl length in *. unfold k in *. lia.
    + specialize (Hmin i d Hi).
      destruct (turn_rows c db d) as (_ & Hk1 & Hrest1).
      { apply Hall, elem_of_app. left. by eapply list_elem_of_lookup_2. }
      fold rows k in Hrest1, Hk1. rewrite Hrest1, length_drop in Hmin. simpl length. lia.
Qed.
End Stream.

(** C29. The event stream of a run delivers its events in order, each of them once, and
    promptly: over the databases found at its turns, to which events are only appended,
    a connection that starts after the sequence number [c] yields exactly the first
    events after [c]; everything stored when a turn begins has been sent when the turns
    that remain number one per hundred events.  Each event carries its identifier, and a
    client that reconnects with the last identifier it received resumes right after it. *)
Theorem stream_delivers_once run_id c dbs final :
  StronglySorted (grows run_id) (dbs ++ [final]) → decodable run_id (run_events run_id final) →
  Forall (λ r, r.1 < 2 ^ 63) (run_events run_id final) →
  ∃ n ys, stream_loop run_id c dbs = Ok ys ∧
    mapR (event_of run_id) (take n (after c (run_events run_id final))) = Ok (yielded ys) ∧
    Forall (id_matches run_id) ys ∧
    (∀ i db, dbs !! i = Some db →
      (length (after c (run_events run_id db)) `min` (100 * (length dbs - i)) ≤ n)%nat) ∧
    ∀ a e, a ≤ c → last (yielded ys) = Some e →
      let cursor := start_cursor run_id a (Some (event_key run_id (LabEvent.sequence e))) in
      cursor = LabEvent.sequence e ∧
      after cursor (run_events run_id final) = drop n (after c (run_events run_id final)).
Proof.
  intros Hs Hd Hrange. destruct (stream_loop_spec run_id dbs final c Hs Hd) as (n & ys & Hloop & Hmap & Hid & _ & Hmin).
  exists n, ys. repeat (split; [done|]). intros a e Ha He cursor.
  pose proof (decoded_last run_id _ _ Hmap) as Hl. rewrite He in Hl. simpl in Hl.
  destruct (last (take n (after c (run_events run_id final)))) as [r|] eqn:Hr; [|done]. injection Hl as Hl.
  assert (r ∈ after c (run_events run_id final)) as [Hc Hin]%list_elem_of_filter.
  { apply (subseteq_take n). apply last_Some in Hr as [l ->]. set_solver. }
  rewrite Forall_forall in Hrange. specialize (Hrange r Hin).
  assert (0 ≤ LabEvent.sequence e) as Hpos.
  { apply mapR_Forall2 in Hmap. apply last_Some in He as [l He]. rewrite He in Hmap.
    apply Forall2_app_inv_r in Hmap as (? & l2 & _ & Hmap & _). inversion Hmap as [|r0 ? ? ? Hx]; subst.
    unfold event_of, LabEvent.make in Hx. apply bind_Ok in Hx as (? & Hf & Hx). apply bind_Ok in Hx as (? & _ & Hx).
    injection Hx as <-. simpl. unfold field in Hf. apply guard_exn_Ok in Hf. lia. }
  assert (cursor = LabEvent.sequence e) as -> by (unfold cursor; rewrite start_cursor_event; lia).
  split; [done|]. rewrite <-after_take, Hr by apply numbered_rows_sorted. simpl. by rewrite Hl.
Qed.

(** ** Witness *)
Module StreamWitness.
Import LabExamples.
Definition row (n : Z) : LabEventRow.t := LabEventRow.mk (id n) EV_OBSERVATION n [].
Definition db (l : list Z) : LabDB :=
  set_lab_events (λ _, list_to_map ((λ n, ((id 30, n), row n)) <$> l)) db0.
Lemma stream_delivers_once_witness :
  ∃ n ys, stream_loop (id 30) 1 [db [1; 2]; db [1; 2; 3]] = Ok ys ∧
    mapR (event_of (id 30)) (take n (after 1 (run_events (id 30) (db [1; 2; 3; 4])))) = Ok (yielded ys) ∧
    Forall (id_matches (id 30)) ys ∧
    (∀ i d, [db [1; 2]; db [1; 2; 3]] !! i = Some d →
      (length (after 1 (run_events (id 30) d)) `min` (100 * (2 - i)) ≤ n)%nat) ∧
    ∀ a e, a ≤ 1 → last (yielded ys) = Some e →
      let cursor := start_cursor (id 30) a (Some (event_key (id 30) (LabEvent.sequence e))) in
      cursor = LabEvent.sequence e ∧
      after cursor (run_events (id 30) (db [1; 2; 3; 4])) = drop n (after 1 (run_events (id 30) (db [1; 2; 3; 4]))).
Proof.
  refine (stream_delivers_once (id 30) 1 [db [1; 2]; db [1; 2; 3]] (db [1; 2; 3; 4]) _ _ _).
  - simpl. repeat constructor;
      first [ exists [(3, row 3)]; vm_compute; reflexivity
            | exists [(4, row 4)]; vm_compute; reflexivity
            | exists [(3, row 3); (4, row 4)]; vm_compute; reflexivity ].
  - unfold decodable. vm_compute. repeat constructor.
  - apply (bool_decide_unpack _). vm_compute. exact I.
Defined.
End StreamWitness.
