(* ===== verification/Evaluation.v ===== *)
(** * Calibration and evaluation of a model ([evaluation.py], [models.py])

    The threshold of a model is a quantile of its calibration scores; the
    anomalous decisions of the holdout are merged into episodes, and the episodes
    are held against the recorded failures.  A score frame is the list of its
    rows, with numeric scores; numpy's quantile and median and scikit-learn's
    average precision are parameters. *)

From S2P Require Import Prelude PyText PyTime PyFloat PyHash PyJson Contracts.

Class Statistics := {
  np_median : list float → float;
  (* np.quantile(values, q, method=method): an unknown method raises *)
  np_quantile : list float → float → string → result float;
  (* np.max of a row *)
  np_row_max : list float → float;
  (* average_precision_score(positive, scores) *)
  average_precision : list bool → list float → float
}.

(** [EvaluationPolicy]: what evaluation reads of a contract *)
Record EvaluationPolicy := mkPolicy {
  stride_seconds : Z;
  event_horizon_seconds : Z;
  threshold_quantile : float;
  threshold_method : string;
  anomaly_inclusive : bool;
  min_detected_events : Z;
  max_false_episodes_per_day : float;
  max_time_in_alert : float
}.
Definition policy_of (c : Phase1BContract.t) : EvaluationPolicy :=
  mkPolicy (Phase1BContract.stride_seconds c) (Phase1BContract.event_horizon_seconds c)
    (Phase1BContract.threshold_quantile c) (Phase1BContract.threshold_method c)
    (Phase1BContract.anomaly_inclusive c) (Phase1BContract.min_detected_events c)
    (Phase1BContract.max_false_episodes_per_day c) (Phase1BContract.max_time_in_alert c).

Module Episode.
Record t := mk { detection_time : datetime; last_detection_time : datetime; decision_count : Z }.
End Episode.

Module EventResult.
Record t := mk {
  event_id : string;
  evaluable : bool;
  matching_horizon_valid_decisions : Z;
  source_interval_valid_decisions : Z;
  source_interval_coverage_seconds : Z;
  detected : bool;
  first_detection_time : option datetime;
  lead_seconds_to_source_start : option float;
  lead_seconds_to_local_lps : option float
}.
End EventResult.

Module EvaluationResult.
Record t := mk {
  threshold : float;
  valid_holdout_decisions : Z;
  positive_decisions : Z;
  anomalous_decisions : Z;
  normal_valid_decisions : Z;
  normal_exposure_days : float;
  time_in_alert : float;
  pr_auc : float;
  detected_events : Z;
  total_events : Z;
  false_episodes : Z;
  false_episodes_per_day : float;
  event_results : list EventResult.t;
  feasible : bool
}.
End EvaluationResult.

(** A row of a score frame *)
Record ScoreRow := mkScoreRow { window_start : stamp; window_end : stamp; row_score : float }.

(** ** Validation *)
Definition validate_contract (contract : EvaluationPolicy) : result unit :=
  _ ← guard_exn (0 <? stride_seconds contract) (ValueError "stride_seconds must be positive");
  guard_exn (0 <=? event_horizon_seconds contract)
    (ValueError "event_horizon_seconds must be non-negative").

Definition validate_threshold (threshold : float) : result float :=
  _ ← guard_exn (is_finite threshold) (ValueError "threshold must be finite");
  Ok threshold.

Definition as_naive_datetime (field : string) (value : stamp) : result datetime :=
  match value with
  | Naive t => Ok t
  | Aware _ => Err (ValueError (field +:+ " must contain naive valid datetimes"))
  end.

(** [not any(current <= previous for previous, current in pairwise(l))] *)
Fixpoint strictly_increasing (l : list Z) : bool :=
  match l with
  | x :: ((y :: _) as rest) => (x <? y) && strictly_increasing rest
  | _ => true
  end.

Definition validated_scores (scores : list ScoreRow) : result (list datetime * list float) :=
  _ ← guard_exn (negb (bool_decide (length scores = 0%nat))) (ValueError "score frame must not be empty");
  let values := row_score <$> scores in
  _ ← guard_exn (forallb is_finite values)
        (ValueError "scores must be a finite one-dimensional sequence");
  ends ← mapR (as_naive_datetime "window_end") (window_end <$> scores);
  _ ← guard_exn (strictly_increasing ends) (ValueError "window_end must be strictly increasing");
  starts ← mapR (as_naive_datetime "window_start") (window_start <$> scores);
  _ ← guard_exn (strictly_increasing starts) (ValueError "window_start must be strictly increasing");
  _ ← guard_exn (forallb (λ p : Z * Z, p.1 <=? p.2) (zip starts ends))
        (ValueError "window_start must not follow window_end");
  Ok (ends, values).

Definition validated_events (events : list Event.t) : result (list Event.t) :=
  _ ← guard_exn (negb (bool_decide (length events = 0%nat))) (ValueError "events must not be empty");
  _ ← guard_exn (forallb (λ e, Event.source_start e <? Event.source_end e) events)
        (ValueError "event source interval must be non-empty");
  Ok events.

(** The loop over the episodes, with the one before. *)
Fixpoint check_episodes (previous : option Episode.t) (l : list Episode.t) : result unit :=
  match l with
  | [] => Ok ()
  | e :: l =>
      _ ← guard_exn ((0 <? Episode.decision_count e)
                     && (Episode.detection_time e <=? Episode.last_detection_time e))
            (ValueError "episode fields are inconsistent");
      _ ← guard_exn (match previous with
                     | Some p => Episode.last_detection_time p <? Episode.detection_time e
                     | None => true end)
            (ValueError "episodes must be strictly ordered and non-overlapping");
      check_episodes (Some e) l
  end.
Definition validated_episodes (episodes : list Episode.t) : result (list Episode.t) :=
  _ ← check_episodes None episodes; Ok episodes.

(** ** Calibration *)
Definition is_anomaly (threshold : float) (contract : EvaluationPolicy) (score : float) : bool :=
  if anomaly_inclusive contract then fleb threshold score else fltb threshold score.

Section Evaluation.
Context `{Statistics}.

Definition calibrate_threshold (values : list float) (contract : EvaluationPolicy) : result float :=
  _ ← guard_exn (negb (bool_decide (length values = 0%nat)))
        (ValueError "calibration_scores must be a non-empty one-dimensional sequence");
  _ ← guard_exn (forallb is_finite values) (ValueError "calibration_scores must be finite");
  _ ← guard_exn (fleb f0 (threshold_quantile contract) && fleb (threshold_quantile contract) f1)
        (ValueError "threshold_quantile must be between zero and one");
  match np_quantile values (threshold_quantile contract) (threshold_method contract) with
  | Err (ValueError _) => Err (ValueError ("invalid threshold_method: " +:+ threshold_method contract))
  | r => r
  end.

(** ** Episodes *)
Fixpoint merge_episodes (stride : Z) (first last : datetime) (count : Z) (l : list datetime)
  : list Episode.t :=
  match l with
  | [] => [Episode.mk first last count]
  | current :: l =>
      if total_seconds_leb (current - last) stride then merge_episodes stride first current (count + 1) l
      else Episode.mk first last count :: merge_episodes stride current current 1 l
  end.

(** The ends of the anomalous decisions *)
Definition anomalous_ends (threshold : float) (contract : EvaluationPolicy) (ends : list datetime)
    (values : list float) : list datetime :=
  fst <$> filter (λ p : datetime * float, is_anomaly threshold contract p.2 = true) (zip ends values).

Definition build_episodes (scores : list ScoreRow) (threshold : float) (contract : EvaluationPolicy)
  : result (list Episode.t) :=
  _ ← validate_contract contract;
  threshold_value ← validate_threshold threshold;
  '(ends, values) ← validated_scores scores;
  match anomalous_ends threshold_value contract ends values with
  | [] => Ok []
  | first :: rest => Ok (merge_episodes (stride_seconds contract) first first 1 rest)
  end.

Definition horizon_start (event : Event.t) (contract : EvaluationPolicy) : datetime :=
  Event.source_start event - seconds (event_horizon_seconds contract).

Definition episode_matches_event (contract : EvaluationPolicy) (event : Event.t) (episode : Episode.t)
  : bool :=
  let detected_in_horizon := (horizon_start event contract <=? Episode.detection_time episode)
    && (Episode.detection_time episode <? Event.source_end event) in
  let episode_end := Episode.last_detection_time episode + seconds (stride_seconds contract) in
  let overlaps_source := (Episode.detection_time episode <? Event.source_end event)
    && (Event.source_start event <? episode_end) in
  detected_in_horizon || overlaps_source.

(** ** Evaluation *)
Definition count_true (l : list bool) : Z := Z.of_nat (length (filter (λ b, b = true) l)).
Definition in_interval (lo hi : datetime) (t : datetime) : bool := (lo <=? t) && (t <? hi).

(** [min(...)] of a non-empty sequence *)
Definition min_time (l : list datetime) : option datetime :=
  match l with [] => None | t :: l => Some (foldl Z.min t l) end.

(** One turn of the loop over the events: the positive decisions so far and the result. *)
Definition evaluate_event (ends : list datetime) (episodes : list Episode.t) (contract : EvaluationPolicy)
    (state : list bool * list EventResult.t) (event : Event.t) : result (list bool * list EventResult.t) :=
  let '(positive, results) := state in
  let matching := in_interval (horizon_start event contract) (Event.source_end event) <$> ends in
  let source := in_interval (Event.source_start event) (Event.source_end event) <$> ends in
  let matching_count := count_true matching in
  _ ← guard_exn (negb (matching_count =? 0))
         (ValueError ("event " +:+ text (repr_string (Event.event_id event)) +:+ " is not evaluable"));
  let matched := filter (λ ep, episode_matches_event contract event ep = true) episodes in
  let first_detection := min_time (Episode.detection_time <$> matched) in
  let source_count := count_true source in
  Ok (zip_with orb positive matching,
      results ++ [EventResult.mk (Event.event_id event) true matching_count source_count
        (source_count * stride_seconds contract) (bool_decide (is_Some first_detection)) first_detection
        ((λ t, seconds_of (Event.source_start event - t)) <$> first_detection)
        (t ← first_detection; (λ lps, seconds_of (lps - t)) <$> Event.local_lps_transition event)]).

Definition evaluate (holdout_scores : list ScoreRow) (episodes : list Episode.t) (threshold : float)
    (events : list Event.t) (contract : EvaluationPolicy) : result EvaluationResult.t :=
  _ ← validate_contract contract;
  threshold_value ← validate_threshold threshold;
  '(ends, score_values) ← validated_scores holdout_scores;
  event_values ← validated_events events;
  episode_values ← validated_episodes episodes;
  '(positive, event_results) ←
    foldR (evaluate_event ends episode_values contract) ((λ _, false) <$> ends, []) event_values;
  let valid_decisions := Z.of_nat (length ends) in
  let positive_decisions := count_true positive in
  let normal_decisions := valid_decisions - positive_decisions in
  _ ← guard_exn (negb (normal_decisions =? 0)) (ValueError "normal exposure must be greater than zero");
  let anomalous_decisions := count_true (is_anomaly threshold_value contract <$> score_values) in
  let normal_exposure_days := int_div (normal_decisions * stride_seconds contract) 86400 in
  let false_episodes := count_true
    ((λ ep, negb (existsb (λ ev, episode_matches_event contract ev ep) event_values)) <$> episode_values) in
  let false_episodes_per_day := fdiv (float_of_Z false_episodes) normal_exposure_days in
  let time_in_alert := int_div anomalous_decisions valid_decisions in
  let detected_events := count_true (EventResult.detected <$> event_results) in
  let feasible := (min_detected_events contract <=? detected_events)
    && fleb false_episodes_per_day (max_false_episodes_per_day contract)
    && fleb time_in_alert (max_time_in_alert contract) in
  Ok (EvaluationResult.mk threshold_value valid_decisions positive_decisions anomalous_decisions
        normal_decisions normal_exposure_days time_in_alert (average_precision positive score_values)
        detected_events (Z.of_nat (length event_values)) false_episodes false_episodes_per_day
        event_results feasible).
End Evaluation.

(** ** The statistical detector

    A matrix is the list of its rows; rows of different lengths make no array. *)
Definition matrix_of (values : list (list float)) : result (list (list float)) :=
  let width := length (default [] (head values)) in
  _ ← guard_exn (negb (bool_decide (length values = 0%nat)) && negb (width =? 0)%nat
                 && forallb (λ r, length r =? width)%nat values)
        (ValueError "must be a nonempty two-dimensional array");
  _ ← guard_exn (forallb (forallb is_finite) values) (ValueError "must contain only finite values");
  Ok values.

Definition columns (m : list (list float)) : list (list float) :=
  (λ j, omap (λ r, r !! j) m) <$> seq 0 (length (default [] (head m))).

Module RobustStatisticalDetector.
(** [None] before [fit]: medians, spreads and the mask of the features that vary *)
Record fitted := mkFitted { medians : list float; mads : list float; feature_mask : list bool }.
Definition t := option fitted.
Definition init : t := None.

(** [PHASE1.robust_mad_scale] *)
Definition robust_mad_scale : float := flit 14826 10000.

Section Detector.
Context `{Statistics}.

Definition fit (train : list (list float)) : result t :=
  values ← matrix_of train;
  let cols := columns values in
  let medians := np_median <$> cols in
  let mads := zip_with (λ col m, np_median ((λ x, fabs (fsub x m)) <$> col)) cols medians in
  let mask := (λ d, negb (isclose_zero d)) <$> mads in
  _ ← guard_exn (existsb id mask) (ValueError "all training features have zero MAD");
  Ok (Some (mkFitted medians mads mask)).

(** The robust z-scores of the features of a row that vary. *)
Fixpoint z_scores (row medians mads : list float) (mask : list bool) : list float :=
  match row, medians, mads, mask with
  | x :: row, m :: medians, d :: mads, b :: mask =>
      (if b then [fabs (fdiv (fsub x m) (fmul robust_mad_scale d))] else []) ++ z_scores row medians mads mask
  | _, _, _, _ => []
  end.

Definition score (self : t) (values : list (list float)) : result (list float) :=
  f ← of_option (RuntimeError "detector must be fit before score") self;
  matrix ← matrix_of values;
  _ ← guard_exn (length (default [] (head matrix)) =? length (medians f))%nat
        (ValueError "values must have the same feature count as train");
  Ok ((λ row, np_row_max (z_scores row (medians f) (mads f) (feature_mask f))) <$> matrix).
End Detector.
End RobustStatisticalDetector.
