(* ===== verification/EvaluationProps.v ===== *)
(** * Evaluation: what the figures of a model mean *)

From S2P Require Import Prelude PyText PyTime PyFloat PyHash PyJson Contracts Evaluation.

(** ** Evaluation: lemmas *)

(** ** Runs of decisions *)

(** Next to each other: not further apart than [s]. *)
Definition near (s : Z) (a b : datetime) : Prop := b - a ≤ s.
(** The end of a run and the start of the next one are further apart than [s]. *)
Definition apart (s : Z) (g g' : list datetime) : Prop :=
  ∀ a b, last g = Some a → head g' = Some b → s < b - a.

(** [gs] are the maximal runs of [ts]. *)
Record maximal_runs (s : Z) (ts : list datetime) (gs : list (list datetime)) : Prop := {
  runs_concat : concat gs = ts;
  runs_nonempty : Forall (λ g, g ≠ []) gs;
  runs_near : Forall (Sorted (near s)) gs;
  runs_apart : Sorted (apart s) gs
}.

Definition episode_of (g : list datetime) : Episode.t :=
  Episode.mk (default 0 (head g)) (default 0 (last g)) (Z.of_nat (length g)).

Lemma Sorted_snoc {A} (R : A → A → Prop) l a b :
  Sorted R l → last l = Some a → R a b → Sorted R (l ++ [b]).
Proof.
  induction l as [|x l IH]; intros Hs Hl Hab; [done|]. apply Sorted_inv in Hs as [Hs Hh]. simpl.
  destruct l as [|y l]; simpl in *.
  - injection Hl as ->. constructor; [repeat constructor|by constructor].
  - constructor; [by apply IH|]. apply HdRel_inv in Hh. by constructor.
Qed.

Lemma merge_runs stride l : ∀ g first last_ count,
  head g = Some first → last g = Some last_ → count = Z.of_nat (length g) → Sorted (near (seconds stride)) g →
  ∃ gs g', merge_episodes stride first last_ count l = episode_of <$> (g' :: gs) ∧ head g' = Some first ∧
    maximal_runs (seconds stride) (g ++ l) (g' :: gs).
Proof.
  induction l as [|cur l IH]; intros g first last_ count Hh Hl -> Hs; cbn [merge_episodes].
  - exists [], g. split; [|split; [done|]].
    + unfold episode_of. simpl. by rewrite Hh, Hl.
    + split; simpl; [done|by constructor; [destruct g|]|by constructor|repeat constructor].
  - unfold total_seconds_leb. destruct (Z.leb_spec (cur - last_) (seconds stride)) as [Hle|Hgt].
    + destruct (IH (g ++ [cur]) first cur (Z.of_nat (length g) + 1)) as (gs & g' & -> & Hg' & Hruns).
      * by destruct g.
      * by rewrite last_snoc.
      * rewrite length_app. simpl. lia.
      * by eapply Sorted_snoc.
      * exists gs, g'. split; [done|]. split; [done|]. by rewrite <-app_assoc in Hruns.
    + destruct (IH [cur] cur cur 1) as (gs & g' & -> & Hg' & [Hc Hn Hnr Ha]); [done..|repeat constructor|].
      exists (g' :: gs), g. split; [|split; [done|]].
      * unfold episode_of at 2. simpl. by rewrite Hh, Hl.
      * split.
        { cbn [concat]. cbn [concat] in Hc. rewrite Hc. done. }
        { constructor; [by destruct g|done]. }
        { by constructor. }
        { constructor; [done|]. constructor. intros a b Ha' Hb. rewrite Hl in Ha'. rewrite Hg' in Hb. simplify_eq. lia. }
Qed.

(** ** Order *)
Lemma strictly_increasing_sorted l : strictly_increasing l = true → StronglySorted Z.lt l.
Proof.
  intros Hl. apply Sorted_StronglySorted; [intros x y z; lia|].
  induction l as [|x [|y l] IH]; [constructor|repeat constructor|]. simpl in Hl.
  apply andb_true_iff in Hl as [Hxy Hl]. constructor; [by apply IH|]. constructor. lia.
Qed.

Lemma anomalous_sorted thr pol ends values :
  StronglySorted Z.lt ends → StronglySorted Z.lt (anomalous_ends thr pol ends values).
Proof.
  intros Hs. unfold anomalous_ends. revert values.
  induction Hs as [|x l Hl IH Hx]; intros [|v values]; simpl; try constructor.
  rewrite filter_cons. case_decide; simpl; [|apply IH].
  constructor; [apply IH|]. rewrite Forall_forall in Hx |- *. intros y Hy.
  apply list_elem_of_fmap in Hy as ([y' v'] & -> & Hy). apply list_elem_of_filter in Hy as [_ Hy].
  apply elem_of_zip_l in Hy. auto.
Qed.

(** ** Which episodes match an event *)
Section Matching.
Variables (contract : EvaluationPolicy) (event : Event.t).
Abbreviation s := (seconds (stride_seconds contract)).
Hypothesis Hstride : 0 < s.
Hypothesis Hevent : Event.source_start event < Event.source_end event.

(** The interval that a decision stands for meets the failure. *)
Definition meets (d : datetime) : Prop := Event.source_start event - s < d < Event.source_end event.
(** A decision in the horizon of the failure. *)
Definition ahead (d : datetime) : Prop := horizon_start event contract ≤ d < Event.source_end event.

Lemma episode_matches ep :
  episode_matches_event contract event ep = true ↔
  ahead (Episode.detection_time ep) ∨
  (Episode.detection_time ep < Event.source_end event ∧
   Event.source_start event < Episode.last_detection_time ep + s).
Proof.
  unfold episode_matches_event, ahead. cbv zeta.
  rewrite orb_true_iff, !andb_true_iff, !Z.leb_le, !Z.ltb_lt. tauto.
Qed.

(** No decision of [ts] shortly before [d]. *)
Definition opens (ts : list datetime) (d : datetime) : Prop := ∀ d', d' ∈ ts → d' < d → s < d - d'.

(** A contiguous run meets the failure when one of its decisions does. *)
Definition covers (g : list datetime) (first last_ : datetime) : Prop :=
  first ≤ last_ ∧
  (first < Event.source_end event ∧ Event.source_start event < last_ + s ↔ ∃ d, d ∈ g ∧ meets d).

Lemma covers_extend g first last_ cur :
  covers g first last_ → last_ < cur → cur - last_ ≤ s → covers (g ++ [cur]) first cur.
Proof.
  intros [Hle Hg] Hlt Hnear. split; [lia|]. split.
  - intros [H1 H2]. destruct (Z.lt_ge_cases cur (Event.source_end event)).
    + exists cur. split; [apply elem_of_app; right; apply list_elem_of_singleton; done|]. unfold meets. lia.
    + destruct Hg as [Hg _]. destruct Hg as (d & Hd & Hm); [|exists d; split; [apply elem_of_app; by left|done]].
      split; [done|]. lia.
  - intros (d & Hd & Hm). apply elem_of_app in Hd as [Hd|Hd].
    + destruct Hg as [_ Hg]. destruct Hg as [H1 H2]; [eauto|]. lia.
    + apply list_elem_of_singleton in Hd. subst. unfold meets in Hm. lia.
Qed.

(** Where a run ends in a sorted stream. *)
Lemma sorted_boundary (g l : list Z) last_ cur :
  last g = Some last_ → StronglySorted Z.lt (g ++ cur :: l) →
  last_ < cur ∧ (∀ d, d ∈ g → d ≤ last_) ∧ (∀ d, d ∈ cur :: l → cur ≤ d).
Proof.
  intros Hl Hs. apply last_Some in Hl as [g0 ->]. apply StronglySorted_app in Hs as (Hb & Hg & Hr).
  split; [apply Hb; set_solver|]. split.
  - intros d [Hd|Hd%list_elem_of_singleton]%elem_of_app; [|lia].
    apply StronglySorted_app in Hg as (Hg & _ & _). specialize (Hg d last_ Hd ltac:(set_solver)). lia.
  - intros d [->|Hd]%elem_of_cons; [lia|]. apply StronglySorted_inv in Hr as [_ Hr].
    rewrite Forall_forall in Hr. specialize (Hr d Hd). lia.
Qed.

(** After a gap the decisions before it do not count. *)
Lemma opens_after (g l : list Z) last_ cur d :
  last g = Some last_ → StronglySorted Z.lt (g ++ cur :: l) → s < cur - last_ →
  d ∈ cur :: l → opens (cur :: l) d → opens (g ++ cur :: l) d.
Proof.
  intros Hl Hs Hgap Hd Ho d' [Hd'|Hd']%elem_of_app Hlt; [|by apply Ho].
  destruct (sorted_boundary _ _ _ _ Hl Hs) as (_ & Hg & Hr). specialize (Hg d' Hd'). specialize (Hr d Hd). lia.
Qed.
Lemma opens_first (g l : list Z) last_ cur :
  last g = Some last_ → StronglySorted Z.lt (g ++ cur :: l) → opens (cur :: l) cur.
Proof.
  intros Hl Hs d Hd Hlt. destruct (sorted_boundary _ _ _ _ Hl Hs) as (_ & _ & Hr). specialize (Hr d Hd). lia.
Qed.

(** A decision alone is a run. *)
Lemma covers_single cur : covers [cur] cur cur.
Proof.
  split; [lia|]. unfold meets. split; [intros [? ?]; exists cur; split; [set_solver|lia]|].
  intros (d & Hd & Hm). apply list_elem_of_singleton in Hd. subst. lia.
Qed.

(** An episode of the rest of the stream matches when a decision of it meets the
    failure, or opens an episode ahead of it; [g] is the run so far. *)
Lemma merge_matches l : ∀ g first last_ count,
  last g = Some last_ → StronglySorted Z.lt (g ++ l) → covers g first last_ →
  (Exists (λ ep, episode_matches_event contract event ep = true)
     (merge_episodes (stride_seconds contract) first last_ count l) ↔
   ahead first ∨ (∃ d, d ∈ g ++ l ∧ meets d) ∨ (∃ d, d ∈ l ∧ ahead d ∧ opens (g ++ l) d)).
Proof.
  induction l as [|cur l IH]; intros g first last_ count Hl Hs Hc; cbn [merge_episodes].
  - rewrite app_nil_r, Exists_cons, Exists_nil, episode_matches. cbn [Episode.detection_time Episode.last_detection_time].
    destruct Hc as [_ Hc]. rewrite Hc. set_solver.
  - destruct (sorted_boundary _ _ _ _ Hl Hs) as (Hlt & Hg & _).
    unfold total_seconds_leb. destruct (Z.leb_spec (cur - last_) s) as [Hle|Hgt].
    + assert (g ++ cur :: l = (g ++ [cur]) ++ l) as Happ by (by rewrite <-app_assoc).
      rewrite Happ in Hs |- *. rewrite (IH (g ++ [cur]) first cur (count + 1));
        [|by rewrite last_snoc|done|by apply covers_extend with last_].
      split; [set_solver|]. intros [?|[?|(d & Hd & Ha & Ho)]]; [tauto|tauto|].
      apply elem_of_cons in Hd as [->|Hd]; [|eauto 10].
      exfalso. assert (s < cur - last_); [|lia]. apply Ho; [|done].
      apply last_Some in Hl as [g0 ->]. set_solver.
    + rewrite Exists_cons, episode_matches. cbn [Episode.detection_time Episode.last_detection_time].
      rewrite (IH [cur] cur cur 1);
        [|done|by apply StronglySorted_app in Hs as (_ & _ & Hs)|apply covers_single].
      destruct Hc as [_ Hc]. rewrite Hc. cbn [app].
      pose proof (λ d, opens_after g l last_ cur d Hl Hs Hgt) as Hopen.
      pose proof (opens_first g l last_ cur Hl Hs) as Hcur. split.
      * intros [[?|(d & ? & ?)]|[?|[(d & ? & ?)|(d & Hd & Ha & Ho)]]]; [tauto|set_solver| |set_solver|].
        { right. right. exists cur. split; [set_solver|]. split; [done|]. apply Hopen; [set_solver|done]. }
        { right. right. exists d. split; [set_solver|]. split; [done|]. apply Hopen; [set_solver|done]. }
      * intros [?|[(d & Hd & Hm)|(d & Hd & Ha & Ho)]]; [tauto| |].
        { apply elem_of_app in Hd as [Hd|Hd]; [left; right; eauto|]. right. right. left. eauto. }
        { right. apply elem_of_cons in Hd as [->|Hd]; [by left|]. right. right. exists d. split; [done|]. split; [done|].
          intros d' Hd'. apply Ho. set_solver. }
Qed.
End Matching.

(** ** Evaluation: what the figures of a model mean *)

(** ** The episodes of a stream are accepted by [evaluate] *)
Lemma merge_checked stride l : ∀ previous first last_ count,
  0 < count → first ≤ last_ → StronglySorted Z.lt (last_ :: l) →
  match previous with Some p => Episode.last_detection_time p < first | None => True end →
  check_episodes previous (merge_episodes stride first last_ count l) = Ok ().
Proof.
  induction l as [|cur l IH]; intros previous first last_ count Hc Hle Hs Hp; cbn [merge_episodes];
    apply StronglySorted_inv in Hs as [Hs Hlt].
  - simpl. rewrite !(proj2 (Z.ltb_lt _ _)), !(proj2 (Z.leb_le _ _)) by done. simpl.
    destruct previous; [|done]. by rewrite (proj2 (Z.ltb_lt _ _)) by done.
  - apply Forall_cons in Hlt as [Hlt _]. destruct (total_seconds_leb (cur - last_) stride).
    + apply IH; [lia|lia|done|done].
    + simpl. rewrite !(proj2 (Z.ltb_lt _ _)), !(proj2 (Z.leb_le _ _)) by done. simpl.
      assert (check_episodes (Some (Episode.mk first last_ count)) (merge_episodes stride cur cur 1 l) = Ok ()) as Hrest
        by (apply IH; simpl; [lia|lia|done|done]).
      destruct previous; [rewrite (proj2 (Z.ltb_lt _ _)) by done|]; exact Hrest.
Qed.

(** ** The loop over the events *)
Section Events.
Variables (ends : list datetime) (episodes : list Episode.t) (contract : EvaluationPolicy).

(** The decision at [t] is in the horizon of the failure. *)
Definition in_horizon (ev : Event.t) (t : datetime) : bool :=
  in_interval (horizon_start ev contract) (Event.source_end ev) t.
Definition evaluable (ev : Event.t) : Prop := ∃ t, t ∈ ends ∧ in_horizon ev t = true.

Lemma count_true_zero {A} (f : A → bool) l : count_true (f <$> l) = 0 ↔ ∀ x, x ∈ l → f x = false.
Proof.
  unfold count_true. induction l as [|x l IH]; simpl; [split; [set_solver|done]|].
  rewrite filter_cons. destruct (f x) eqn:Hf; simpl.
  - split; [lia|]. intros H. rewrite (H x) in Hf by set_solver. done.
  - rewrite IH. set_solver.
Qed.

(** The result of an event *)
Definition result_ok (ev : Event.t) (r : EventResult.t) : Prop :=
  EventResult.event_id r = Event.event_id ev ∧
  (EventResult.detected r = true ↔ Exists (λ ep, episode_matches_event contract ev ep = true) episodes).

Lemma min_time_Some l : is_Some (min_time l) ↔ l ≠ [].
Proof. destruct l; simpl; split; intros H; [by destruct H|done|done|eauto]. Qed.

Lemma filter_nonempty {A} (P : A → Prop) `{∀ x, Decision (P x)} l : filter P l ≠ [] ↔ Exists P l.
Proof.
  rewrite Exists_exists. split.
  - destruct (filter P l) as [|x l'] eqn:E; [done|]. intros _.
    assert (x ∈ filter P l) as [HP Hx]%list_elem_of_filter by (rewrite E; left). eauto.
  - intros (x & Hx & HP) E. assert (x ∈ filter P l) as Hin by (by apply list_elem_of_filter).
    rewrite E in Hin. by apply elem_of_nil in Hin.
Qed.

Lemma not_evaluable ev : count_true (in_horizon ev <$> ends) = 0 ↔ ¬ evaluable ev.
Proof.
  rewrite count_true_zero. split; [intros Hz (t & Ht & Hin); by rewrite Hz in Hin|].
  intros Hno t Ht. apply not_true_is_false. intros Hin. apply Hno. by exists t.
Qed.

(** One turn of the loop *)
Lemma evaluate_event_Ok ev (f : datetime → bool) results : evaluable ev →
  ∃ r, evaluate_event ends episodes contract (f <$> ends, results) ev =
    Ok ((λ t, f t || in_horizon ev t) <$> ends, results ++ [r]) ∧ result_ok ev r.
Proof.
  intros Hev. unfold evaluate_event. cbv zeta. change (in_interval (horizon_start ev contract) (Event.source_end ev)) with (in_horizon ev).
  rewrite (proj2 (Z.eqb_neq _ _)) by (by rewrite not_evaluable; intros H; apply H).
  eexists. split.
  - cbn [negb guard_exn mbind result_bind]. by rewrite zip_with_fmap_l, zip_with_fmap_r, zip_with_diag.
  - split; [done|]. cbn [EventResult.detected]. rewrite bool_decide_eq_true, min_time_Some, <-filter_nonempty.
    split; intros H E; apply H; [by rewrite E|by apply fmap_nil_inv in E].
Qed.
Lemma evaluate_event_Err ev state : ¬ evaluable ev →
  evaluate_event ends episodes contract state ev =
    Err (ValueError ("event " +:+ text (repr_string (Event.event_id ev)) +:+ " is not evaluable")).
Proof.
  intros Hno. destruct state. unfold evaluate_event. cbv zeta. change (in_interval (horizon_start ev contract) (Event.source_end ev)) with (in_horizon ev).
  by rewrite (proj2 (Z.eqb_eq _ _)) by (by apply not_evaluable).
Qed.

#[export] Instance evaluable_dec ev : Decision (evaluable ev).
Proof.
  destruct (decide (count_true (in_horizon ev <$> ends) = 0)) as [Hz|Hz]; [right|left].
  - by apply not_evaluable.
  - rewrite not_evaluable in Hz. destruct (existsb (in_horizon ev) ends) eqn:Hex.
    + apply existsb_exists in Hex as (t & Ht & Hin). exists t. split; [by apply list_elem_of_In|done].
    + destruct Hz. intros (t & Ht & Hin). assert (existsb (in_horizon ev) ends = true); [|congruence].
      apply existsb_exists. exists t. split; [by apply list_elem_of_In|done].
Defined.

(** The loop ends when every failure can be evaluated; the positive decisions are
    those in the horizon of some failure. *)
Lemma events_loop evs : ∀ (f : datetime → bool) results,
  Forall evaluable evs →
  ∃ rs, foldR (evaluate_event ends episodes contract) (f <$> ends, results) evs =
      Ok ((λ t, f t || existsb (λ ev, in_horizon ev t) evs) <$> ends, results ++ rs) ∧
    Forall2 result_ok evs rs.
Proof.
  induction evs as [|ev evs IH]; intros f results Hev.
  - exists []. rewrite app_nil_r. split; [|constructor]. cbn [foldR existsb]. do 2 f_equal.
    apply list_fmap_ext. intros _ t _. by rewrite orb_false_r.
  - apply Forall_cons in Hev as [Hone Hev]. cbn [foldR].
    destruct (evaluate_event_Ok ev f results Hone) as (r & -> & Hr). cbn [mbind result_bind].
    destruct (IH (λ t, f t || in_horizon ev t) (results ++ [r]) Hev) as (rs & -> & Hrs).
    exists (r :: rs). split; [|by constructor]. rewrite <-app_assoc. do 2 f_equal.
    apply list_fmap_ext. intros _ x _. cbn [existsb]. by rewrite orb_assoc.
Qed.

Lemma events_loop_fails evs : ∀ (f : datetime → bool) results,
  ¬ Forall evaluable evs →
  ∃ m, foldR (evaluate_event ends episodes contract) (f <$> ends, results) evs = Err (ValueError m).
Proof.
  induction evs as [|ev evs IH]; intros f results Hno; [by destruct Hno|]. cbn [foldR].
  destruct (decide (evaluable ev)) as [Hev|Hev]; [|rewrite evaluate_event_Err by done; by eexists].
  destruct (evaluate_event_Ok ev f results Hev) as (r & -> & _). apply IH.
  intros Hall. apply Hno. by constructor.
Qed.
End Events.

(** ** Properties *)

(** The decisions of a frame are in order. *)
Lemma validated_ends scores ends values :
  validated_scores scores = Ok (ends, values) → StronglySorted Z.lt ends ∧ length ends = length values.
Proof.
  unfold validated_scores. intros E. inv_res. split; [by apply strictly_increasing_sorted|].
  match goal with Hm : mapR (as_naive_datetime "window_end") _ = _ |- _ => apply mapR_length in Hm; etrans; [exact Hm|] end.
  by rewrite !length_fmap.
Qed.

Lemma filter_zip_length thr pol ends values : length ends = length values →
  Z.of_nat (length (anomalous_ends thr pol ends values)) = count_true (is_anomaly thr pol <$> values).
Proof.
  unfold anomalous_ends, count_true. revert values.
  induction ends as [|t ends IH]; intros [|v values] Hlen; try done. simpl.
  rewrite !filter_cons. injection Hlen as Hlen. simpl. case_decide; simpl; rewrite ?Nat2Z.inj_succ, IH by done; done.
Qed.

(** A failure is detected: a decision meets it, or one that follows none closely is
    in its horizon. *)
Definition detectable (pol : EvaluationPolicy) (ts : list datetime) (ev : Event.t) : Prop :=
  (∃ d, d ∈ ts ∧ meets pol ev d) ∨ (∃ d, d ∈ ts ∧ ahead pol ev d ∧ opens pol ts d).

(** The episodes of a list of decisions *)
Definition merged (pol : EvaluationPolicy) (ts : list datetime) : list Episode.t :=
  match ts with [] => [] | first :: rest => merge_episodes (stride_seconds pol) first first 1 rest end.

Lemma built scores thr pol eps ends values :
  build_episodes scores thr pol = Ok eps → validated_scores scores = Ok (ends, values) →
  validate_contract pol = Ok () ∧ 0 < seconds (stride_seconds pol) ∧ is_finite thr = true ∧
  eps = merged pol (anomalous_ends thr pol ends values).
Proof.
  unfold build_episodes, validate_threshold. intros E Hv. rewrite Hv in E.
  destruct (validate_contract pol) as [[]|] eqn:Hc; [|done].
  destruct (is_finite thr); [|done]. simpl in E.
  split; [done|]. split.
  - unfold validate_contract in Hc. inv_res. unfold seconds, usec. lia.
  - split; [done|]. by destruct (anomalous_ends thr pol ends values); simplify_eq.
Qed.

Lemma merged_detects pol ev ts :
  0 < seconds (stride_seconds pol) → Event.source_start ev < Event.source_end ev → StronglySorted Z.lt ts →
  (Exists (λ ep, episode_matches_event pol ev ep = true) (merged pol ts) ↔ detectable pol ts ev).
Proof.
  intros Hstride Hev Hts. destruct ts as [|first rest]; cbn [merged].
  { rewrite Exists_nil. unfold detectable. set_solver. }
  rewrite (merge_matches pol ev Hstride Hev rest [first] first first 1);
    [|done|done|by apply covers_single].
  cbn [app]. unfold detectable. split; [|set_solver].
  intros [Hd|[?|(d & Hd & ? & ?)]]; [|tauto|right; exists d; set_solver].
  right. exists first. split; [left|]. split; [done|].
  intros d' [->|Hd']%elem_of_cons Hlt; [lia|]. apply StronglySorted_inv in Hts as [_ Hts].
  rewrite Forall_forall in Hts. specialize (Hts d' Hd'). lia.
Qed.

Lemma merged_checked pol ts : StronglySorted Z.lt ts → validated_episodes (merged pol ts) = Ok (merged pol ts).
Proof.
  intros Hts. unfold validated_episodes, merged. destruct ts as [|first rest]; [done|].
  by rewrite merge_checked by (lia || done).
Qed.

(** What the figures of a model are. *)
Record figures_ok (pol : EvaluationPolicy) (ends ts : list datetime) (eps : list Episode.t)
    (events : list Event.t) (r : EvaluationResult.t) : Prop := {
  fig_anomalous : EvaluationResult.anomalous_decisions r = Z.of_nat (length ts);
  fig_positive : EvaluationResult.positive_decisions r =
    Z.of_nat (length (filter (λ t, existsb (λ ev, in_horizon pol ev t) events = true) ends));
  fig_normal : 0 < EvaluationResult.normal_valid_decisions r;
  fig_events : Forall2 (λ ev er, EventResult.event_id er = Event.event_id ev ∧
    (EventResult.detected er = true ↔ detectable pol ts ev)) events (EvaluationResult.event_results r);
  fig_false : EvaluationResult.false_episodes r =
    Z.of_nat (length (filter (λ ep, existsb (λ ev, episode_matches_event pol ev ep) events = false) eps));
  fig_feasible : EvaluationResult.feasible r = true ↔
    min_detected_events pol ≤
      Z.of_nat (length (filter (λ er, EventResult.detected er = true) (EvaluationResult.event_results r))) ∧
    fleb (EvaluationResult.false_episodes_per_day r) (max_false_episodes_per_day pol) = true ∧
    fleb (EvaluationResult.time_in_alert r) (max_time_in_alert pol) = true
}.

Lemma count_true_filter {A} (f : A → bool) (l : list A) :
  count_true (f <$> l) = Z.of_nat (length (filter (λ x, f x = true) l)).
Proof.
  unfold count_true. induction l as [|x l IH]; [done|]. rewrite fmap_cons, !filter_cons.
  destruct (f x); case_decide; cbn -[Z.of_nat]; try done; lia.
Qed.
Lemma count_true_negb {A} (f : A → bool) (l : list A) :
  count_true ((λ x, negb (f x)) <$> l) = Z.of_nat (length (filter (λ x, f x = false) l)).
Proof.
  rewrite count_true_filter. do 2 f_equal. apply list_filter_iff. intros x. by rewrite negb_true_iff.
Qed.

(** Some decision is not counted. *)
Lemma count_true_lt {A} (f : A → bool) l x : x ∈ l → f x = false → count_true (f <$> l) < Z.of_nat (length l).
Proof.
  intros Hx Hf. rewrite count_true_filter.
  assert (length (filter (λ x, f x = true) l) < length l)%nat; [|lia].
  apply length_filter_lt with x; [done|]. by rewrite Hf.
Qed.

Lemma results_detectable pol ts evs rs :
  0 < seconds (stride_seconds pol) → StronglySorted Z.lt ts →
  Forall (λ e, (Event.source_start e <? Event.source_end e) = true) evs →
  Forall2 (result_ok (merged pol ts) pol) evs rs →
  Forall2 (λ ev er, EventResult.event_id er = Event.event_id ev ∧
    (EventResult.detected er = true ↔ detectable pol ts ev)) evs rs.
Proof.
  intros Hstride Hts Hlt. induction 1 as [|ev r evs rs [Hid Hr] _ IH]; [constructor|].
  apply Forall_cons in Hlt as [Hev Hlt]. constructor; [|by apply IH].
  split; [done|]. by rewrite Hr, merged_detects by (done || lia).
Qed.

Section Exact.
Context `{Statistics}.

(** What is left of [evaluate] when the frames, the failures and the loop went well. *)
Lemma evaluate_figures scores thr pol events ends values :
  validate_contract pol = Ok () → 0 < seconds (stride_seconds pol) → is_finite thr = true →
  validated_scores scores = Ok (ends, values) → validated_events events = Ok events →
  Forall (evaluable ends pol) events → (∃ t, t ∈ ends ∧ ∀ ev, ev ∈ events → in_horizon pol ev t = false) →
  let ts := anomalous_ends thr pol ends values in
  ∃ r, evaluate scores (merged pol ts) thr events pol = Ok r ∧
    figures_ok pol ends ts (merged pol ts) events r.
Proof.
  intros Hc Hstride Hthr Hv He Hev (t & Ht & Hno) ts.
  destruct (validated_ends _ _ _ Hv) as [Hends Hlen].
  pose proof (anomalous_sorted thr pol ends values Hends) as Hts.
  destruct (events_loop ends (merged pol ts) pol events (λ _, false) [] Hev) as (rs & Hloop & Hrs).
  unfold evaluate. rewrite Hc. unfold validate_threshold. rewrite Hthr, Hv, He. simpl.
  rewrite merged_checked by done. simpl. rewrite Hloop. cbn [mbind result_bind orb app].
  assert (existsb (λ ev, in_horizon pol ev t) events = false) as Hnot.
  { apply not_true_is_false. intros (ev & Hev' & Hin)%existsb_exists.
    rewrite Hno in Hin by (by apply list_elem_of_In). done. }
  pose proof (count_true_lt (λ t, existsb (λ ev, in_horizon pol ev t) events) ends t Ht Hnot) as Hpos.
  rewrite (proj2 (Z.eqb_neq _ _)) by lia. cbn [negb guard_exn mbind result_bind].
  eexists. split; [reflexivity|]. split; cbn.
  - by rewrite <-(filter_zip_length thr pol ends values Hlen).
  - by rewrite count_true_filter.
  - lia.
  - apply results_detectable; [done|done| |done].
    unfold validated_events in He. inv_res. rewrite Forall_forall. intros e He%list_elem_of_In.
    match goal with Hs : forallb _ events = true |- _ => rewrite forallb_forall in Hs; by apply Hs end.
  - by rewrite (count_true_negb (λ ep, existsb (λ ev, episode_matches_event pol ev ep) events)).
  - rewrite !andb_true_iff, Z.leb_le, count_true_filter. tauto.
Qed.

(** Up to the loop over the events, [evaluate] accepts what [build_episodes] made. *)
Lemma evaluate_fails scores thr pol events ends values :
  validate_contract pol = Ok () → is_finite thr = true →
  validated_scores scores = Ok (ends, values) → validated_events events = Ok events →
  (¬ Forall (evaluable ends pol) events) ∨
    (Forall (evaluable ends pol) events ∧
     ∀ t, t ∈ ends → Exists (λ ev, in_horizon pol ev t = true) events) →
  ∃ m, evaluate scores (merged pol (anomalous_ends thr pol ends values)) thr events pol = Err (ValueError m).
Proof.
  intros Hc Hthr Hv He Hcase. destruct (validated_ends _ _ _ Hv) as [Hends _].
  unfold evaluate. rewrite Hc. unfold validate_threshold. rewrite Hthr, Hv, He. simpl.
  rewrite merged_checked by (by apply anomalous_sorted). simpl.
  set (eps := merged _ _). destruct Hcase as [Hno|[Hev Hall]].
  - by destruct (events_loop_fails ends eps pol events (λ _, false) [] Hno) as [m ->]; eexists.
  - destruct (events_loop ends eps pol events (λ _, false) [] Hev) as (rs & -> & _).
    cbn [mbind result_bind orb app]. rewrite count_true_filter.
    rewrite filter_true; [|apply Forall_forall; intros t Ht].
    + rewrite Z.sub_diag. by eexists.
    + apply existsb_exists. specialize (Hall t Ht). rewrite Exists_exists in Hall.
      destruct Hall as (ev & Hin & ?). exists ev. by rewrite <-list_elem_of_In.
Qed.
End Exact.

(** C19. The figures by which a model is judged are those that the decisions give.
    Let the decisions of a frame be in order and finite and the failures non-empty
    intervals, as [evaluate] demands, and let [eps] be what [build_episodes] makes
    of the anomalous decisions (their ends are [ts]).  Then [eps]
    are exactly the maximal runs of [ts] whose neighbours are no further apart than
    the stride, each with its first and last end and its length; [evaluate] accepts
    them; if every failure has a decision in its horizon and some decision is in
    the horizon of none, it returns figures in which the counts of anomalous and
    positive decisions and of false episodes are those of the frame, each failure
    is marked detected if and only if one of the anomalous decisions stands for time
    that meets the failure, or falls in its horizon with no other anomalous decision
    within a stride before it, and the model is feasible if and only if the three limits
    of the contract are kept; otherwise it raises a ValueError. *)
Theorem evaluation_exact `{Statistics} (scores : list ScoreRow) (thr : float) (pol : EvaluationPolicy)
    (events : list Event.t) (ends : list datetime) (values : list float) (eps : list Episode.t) :
  validated_scores scores = Ok (ends, values) → validated_events events = Ok events →
  build_episodes scores thr pol = Ok eps →
  let ts := anomalous_ends thr pol ends values in
  let normal t := ∀ ev, ev ∈ events → in_horizon pol ev t = false in
  (∃ gs, eps = episode_of <$> gs ∧ maximal_runs (seconds (stride_seconds pol)) ts gs) ∧
  (Forall (evaluable ends pol) events → (∃ t, t ∈ ends ∧ normal t) →
   ∃ r, evaluate scores eps thr events pol = Ok r ∧ figures_ok pol ends ts eps events r) ∧
  (¬ Forall (evaluable ends pol) events ∨ ¬ (∃ t, t ∈ ends ∧ normal t) →
   ∃ m, evaluate scores eps thr events pol = Err (ValueError m)).
Proof.
  intros Hv He Hb ts normal. destruct (built _ _ _ _ _ _ Hb Hv) as (Hc & Hstride & Hthr & ->).
  split; [|split].
  - unfold merged. destruct (anomalous_ends thr pol ends values) as [|first rest].
    { exists []. split; [done|]. split; [done|constructor..]. }
    destruct (merge_runs (stride_seconds pol) rest [first] first first 1) as (gs & g & -> & _ & Hruns);
      [done..|repeat constructor|]. by exists (g :: gs).
  - intros Hev Hn. by apply evaluate_figures.
  - intros Hcase. apply evaluate_fails; [done..|].
    destruct (decide (Forall (evaluable ends pol) events)) as [Hev|]; [right; split; [done|]|by left].
    destruct Hcase as [|Hn]; [done|]. intros t Ht.
    destruct (decide (Exists (λ ev, in_horizon pol ev t = true) events)) as [|Hno]; [done|].
    destruct Hn. exists t. split; [done|]. intros ev Hin. apply not_true_is_false.
    intros Hh. apply Hno, Exists_exists. eauto.
Qed.

(** Eight decisions ten seconds apart, three of them anomalous, and one failure that
    the last of the three falls in; the first two make a false episode. *)
Module EvaluationExample.
#[local] Instance statistics : Statistics := {
  np_median l := default f0 (l !! (length l / 2)%nat);
  np_quantile l q m := if bool_decide (m = "higher"%string) then Ok (default f0 (last l)) else Err (ValueError m);
  np_row_max l := default f0 (last l);
  average_precision positive l := int_div (count_true positive) (Z.of_nat (length l))
}.
Definition policy : EvaluationPolicy := mkPolicy 10 10 (flit 95 100) "higher" true 1 (float_of_Z 2000) (flit 1 2).
Definition frame : list ScoreRow :=
  (λ p : Z * Z, mkScoreRow (Naive (seconds (p.1 - 10))) (Naive (seconds p.1)) (float_of_Z p.2)) <$>
    [(10, 0); (20, 2); (30, 2); (40, 0); (50, 0); (60, 2); (70, 0); (80, 0)].
Definition failure : Event.t := Event.mk "failure" "air leak" (seconds 55) (seconds 65) "minute" 1 None None.
Definition times : list datetime := seconds <$> [10; 20; 30; 40; 50; 60; 70; 80].
Definition scores : list float := float_of_Z <$> [0; 2; 2; 0; 0; 2; 0; 0].
Definition episodes : list Episode.t := [Episode.mk (seconds 20) (seconds 30) 2; Episode.mk (seconds 60) (seconds 60) 1].

Lemma evaluation_exact_witness :
  build_episodes frame f1 policy = Ok episodes ∧
  ∃ r, evaluate frame episodes f1 [failure] policy = Ok r ∧
    figures_ok policy times (seconds <$> [20; 30; 60]) episodes [failure] r.
Proof.
  assert (validated_scores frame = Ok (times, scores)) as Hv by (vm_compute; reflexivity).
  assert (validated_events [failure] = Ok [failure]) as He by (vm_compute; reflexivity).
  assert (build_episodes frame f1 policy = Ok episodes) as Hb by (vm_compute; reflexivity).
  split; [exact Hb|].
  destruct (evaluation_exact frame f1 policy [failure] times scores episodes Hv He Hb) as (_ & Hok & _).
  replace (seconds <$> [20; 30; 60]) with (anomalous_ends f1 policy times scores) by (vm_compute; reflexivity).
  apply Hok.
  - constructor; [|constructor]. exists (seconds 60). split; [apply (bool_decide_unpack _)|]; vm_compute; reflexivity.
  - exists (seconds 10). split; [apply (bool_decide_unpack _); vm_compute; reflexivity|].
    intros ev Hev. apply list_elem_of_singleton in Hev as ->. vm_compute. reflexivity.
Defined.

Example the_figures :
  match evaluate frame episodes f1 [failure] policy with
  | Ok r => (EvaluationResult.anomalous_decisions r, EvaluationResult.positive_decisions r,
             EvaluationResult.false_episodes r, EvaluationResult.detected_events r, EvaluationResult.feasible r)
             = (3, 2, 1, 1, true)
  | Err _ => False
  end.
Proof. vm_compute. reflexivity. Qed.
End EvaluationExample.
