(* ===== verification/Drift.v ===== *)
(** * Drift monitoring ([drift.py])

    The reference distributions of the champion's features, their self-hashed
    file, and the population stability index.  A loaded reference is the JSON the
    file holds: the code checks its hash and its identity, not the types of its
    members.  [json.loads], the training table and numpy's quantiles, histogram,
    sum and logarithm are parameters. *)

From S2P Require Import Prelude PyText PyFloat PyHash PyJson Messages KafkaIo.

(** [_sanitize]: infinities become text, members are sorted. *)
Fixpoint sanitize (j : json) : json :=
  match j with
  | JFloat (S754_infinity s) => JStr (if s then "-inf" else "inf")
  | JList l => JList (map sanitize l)
  | JObj o => JObj (sort_keys (map (λ kv, (kv.1, sanitize kv.2)) o))
  | _ => j
  end.

Definition canonical_json (data : dict) : result string := dumps_sorted (sanitize (JObj data)).

Definition compute_drift_hash (data : dict) : result string :=
  canonical ← canonical_json (dict_set "self_sha256" (JStr "") data);
  Ok (sha256_hex (encode canonical)).

(** [_desanitize]: the texts become infinities again. *)
Fixpoint desanitize (j : json) : json :=
  match j with
  | JStr s => if bool_decide (s = "-inf"%string) then JFloat (S754_infinity true)
              else if bool_decide (s = "inf"%string) then JFloat (S754_infinity false) else j
  | JList l => JList (map desanitize l)
  | JObj o => JObj (map (λ kv, (kv.1, desanitize kv.2)) o)
  | _ => j
  end.

Module DriftReferenceV1.
Record t := mk {
  model_version : json;
  source_dataset_sha256 : json;
  contract_sha256 : json;
  active_feature_names : list json;
  num_train_samples : Z;
  bin_edges : json;
  reference_proportions : json;
  self_sha256 : json
}.

(** [asdict(self)] *)
Definition to_dict (r : t) : dict :=
  [("model_version", model_version r); ("source_dataset_sha256", source_dataset_sha256 r);
   ("contract_sha256", contract_sha256 r); ("active_feature_names", JList (active_feature_names r));
   ("num_train_samples", JInt (num_train_samples r)); ("bin_edges", bin_edges r);
   ("reference_proportions", reference_proportions r); ("self_sha256", self_sha256 r);
   ("schema_version", JStr "drift-reference-v1")]%string.
End DriftReferenceV1.

(** [d[key]] *)
Definition member (key : string) (data : dict) : result json := of_option (KeyError key) (jget key data).

(** [tuple(value)] of a JSON value *)
Definition py_tuple (j : json) : result (list json) :=
  match j with
  | JList l => Ok l
  | JStr s => Ok ((λ c, JStr (text [c])) <$> chars s)
  | JObj o => Ok (JStr <$> o.*1)
  | _ => Err (TypeError "object is not iterable")
  end.

(** What [load_reference] compares of the expected manifest. *)
Record Expected := mkExpected {
  expected_version : string; expected_source : string; expected_contract : string;
  expected_features : list string
}.

Definition same_text (j : json) (s : string) : bool := bool_decide (j = JStr s).

Definition check_expected (data : dict) (e : Expected) : result unit :=
  version ← member "model_version" data;
  _ ← guard_exn (same_text version (expected_version e))
        (ValueError "Model version mismatch in drift reference");
  source ← member "source_dataset_sha256" data;
  _ ← guard_exn (same_text source (expected_source e))
        (ValueError "Dataset SHA mismatch in drift reference");
  contract ← member "contract_sha256" data;
  _ ← guard_exn (same_text contract (expected_contract e))
        (ValueError "Contract SHA mismatch in drift reference");
  active ← member "active_feature_names" data;
  names ← py_tuple active;
  guard_exn (bool_decide (names = JStr <$> expected_features e))
    (ValueError "feature order mismatch in drift reference").

Section Files.
(** [json.loads] of the content of a file *)
Variable json_loads : bytes → result json.

Definition load_reference (file : option bytes) (expected : option Expected)
  : result DriftReferenceV1.t :=
  content ← of_option (FileNotFoundError "Drift reference file not found") file;
  raw ← json_loads content;
  match desanitize raw with
  | JObj data =>
      let self_hash := default (JStr "") (jget "self_sha256" data) in
      computed ← compute_drift_hash data;
      _ ← guard_exn (same_text self_hash computed)
            (ValueError "Drift reference is tampered or corrupted");
      _ ← match expected with Some e => check_expected data e | None => Ok () end;
      version ← member "model_version" data;
      source ← member "source_dataset_sha256" data;
      contract ← member "contract_sha256" data;
      active ← member "active_feature_names" data;
      names ← py_tuple active;
      samples ← member "num_train_samples" data;
      num ← py_int samples;
      edges ← member "bin_edges" data;
      proportions ← member "reference_proportions" data;
      self ← member "self_sha256" data;
      Ok (DriftReferenceV1.mk version source contract names num edges proportions self)
  | _ => Err (AttributeError "get")
  end.
End Files.

(** The content [save_reference] writes. *)
Definition save_reference (ref : DriftReferenceV1.t) : result bytes :=
  encode <$> canonical_json (DriftReferenceV1.to_dict ref).

(** ** Statistics *)
Class NumpyStats := {
  np_quantiles : list float → list float;          (* np.quantile(col, np.linspace(0.1, 0.9, 9)) *)
  np_histogram : list float → list float → list Z; (* np.histogram(values, bins=edges)[0] *)
  np_sum : list float → float;
  np_log : float → float
}.

Section Stats.
Context `{NumpyStats}.

(** [np.clip(x, eps, 1.0)] *)
Definition clip (eps x : float) : float := if fltb x eps then eps else if fltb f1 x then f1 else x.
Definition normalized (l : list float) : list float := (λ x, fdiv x (np_sum l)) <$> l.
Definition total_of (counts : list Z) : Z := foldr Z.add 0 counts.

Definition population_stability_index (actual_samples bin_edges reference_proportions : list float)
    (eps : float) : float :=
  if bool_decide (actual_samples = []) then f0
  else
    let counts := np_histogram actual_samples bin_edges in
    let total := total_of counts in
    if total =? 0 then f0
    else
      let actual := normalized
        ((λ n, clip eps (fdiv (float_of_Z n) (float_of_Z total))) <$> counts) in
      let ref := normalized (clip eps <$> reference_proportions) in
      np_sum (zip_with (λ a r, fmul (fsub a r) (np_log (fdiv a r))) actual ref).

Definition eps_default : float := flit 1 1000000.

(** The edges and proportions of a feature of the reference, [list[float]]: a member
    that is no number is refused here, numpy would convert texts and [None]. *)
Definition number (j : json) : result float :=
  match j with
  | JFloat v => Ok v
  | JInt n => Ok (float_of_Z n)
  | JBool b => Ok (if b then f1 else f0)
  | _ => Err (ValueError "could not convert to float")
  end.
Definition floats_of (j : json) : result (list float) :=
  match j with JList l => mapR number l | _ => Err (ValueError "could not convert to float") end.
Definition feature_row (feat : string) (j : json) : result (list float) :=
  match j with JObj o => row ← member feat o; floats_of row | _ => Err (TypeError "not subscriptable") end.

(** [max(psi_list)] *)
Definition max_of (l : list float) : result float :=
  match l with
  | [] => Err (ValueError "drift reference and current features have no feature overlap")
  | x :: l => Ok (foldl (λ best y, if fltb best y then y else best) x l)
  end.

Definition feature_psi (current : gmap string (list float)) (ref : DriftReferenceV1.t) (feat : json)
  : result (option float) :=
  match feat with
  | JStr name =>
      match current !! name with
      | None => Ok None
      | Some values =>
          edges ← feature_row name (DriftReferenceV1.bin_edges ref);
          props ← feature_row name (DriftReferenceV1.reference_proportions ref);
          Ok (Some (population_stability_index values edges props eps_default))
      end
  | _ => Ok None
  end.

Definition max_population_stability_index (current : gmap string (list float))
    (ref : DriftReferenceV1.t) : result float :=
  psis ← mapR (feature_psi current ref) (DriftReferenceV1.active_feature_names ref);
  max_of (omap id psis).

(** The rows of the train split: their number and their columns. *)
Record TrainTable := mkTrain { train_rows : Z; train_column : string → result (list float) }.

Definition build_feature (tbl : TrainTable) (feat : string) : result (string * (json * json)) :=
  col ← train_column tbl feat;
  let edges := [S754_infinity true] ++ np_quantiles col ++ [S754_infinity false] in
  let counts := np_histogram col edges in
  let total := float_of_Z (total_of counts) in
  Ok (feat, (JList (JFloat <$> edges),
             JList ((λ n, JFloat (fdiv (float_of_Z n) total)) <$> counts))).

Definition build_reference (tbl : option TrainTable) (m : Expected) : result DriftReferenceV1.t :=
  tbl ← of_option (FileNotFoundError "Features file not found") tbl;
  _ ← guard_exn (negb (train_rows tbl =? 0))
        (ValueError "No training samples found in features parquet for split='train'");
  features ← mapR (build_feature tbl) (expected_features m);
  let version := JStr (expected_version m) in
  let source := JStr (expected_source m) in
  let contract := JStr (expected_contract m) in
  let names := JStr <$> expected_features m in
  let edges := JObj ((λ f, (f.1, f.2.1)) <$> features) in
  let proportions := JObj ((λ f, (f.1, f.2.2)) <$> features) in
  let data := [("schema_version", JStr "drift-reference-v1"); ("model_version", version);
    ("source_dataset_sha256", source); ("contract_sha256", contract);
    ("active_feature_names", JList names); ("num_train_samples", JInt (train_rows tbl));
    ("bin_edges", edges); ("reference_proportions", proportions); ("self_sha256", JStr "")]%string in
  self_hash ← compute_drift_hash data;
  Ok (DriftReferenceV1.mk version source contract names (train_rows tbl) edges proportions
        (JStr self_hash)).
End Stats.
