(* ===== verification/DriftProps.v ===== *)
(** * Drift monitoring: a reference file says what its reference says *)

From S2P Require Import Prelude PyText PyFloat PyHash PyJson Messages KafkaIo Drift.

(** ** Members in the order of their keys *)
Lemma chars_leb_refl a : chars_leb a a = true.
Proof. induction a as [|c a IH]; [done|]. simpl. by rewrite N.ltb_irrefl. Qed.
Lemma chars_leb_total a : ∀ b, chars_leb a b = true ∨ chars_leb b a = true.
Proof.
  induction a as [|c a IH]; intros [|d b]; [by left|by left|by right|]. simpl.
  destruct (N.ltb_spec (N_of_ascii c) (N_of_ascii d)); [by left|].
  destruct (N.ltb_spec (N_of_ascii d) (N_of_ascii c)); [by right|]. apply IH.
Qed.
Lemma chars_leb_antisym a : ∀ b, chars_leb a b = true → chars_leb b a = true → a = b.
Proof.
  induction a as [|c a IH]; intros [|d b]; simpl; try done.
  destruct (N.ltb_spec (N_of_ascii c) (N_of_ascii d)), (N.ltb_spec (N_of_ascii d) (N_of_ascii c)); try done; try lia.
  intros H1 H2. f_equal; [|by apply IH]. rewrite <-(ascii_N_embedding c), <-(ascii_N_embedding d). f_equal. lia.
Qed.
Lemma chars_leb_trans a : ∀ b c, chars_leb a b = true → chars_leb b c = true → chars_leb a c = true.
Proof.
  induction a as [|x a IH]; intros [|y b] [|z c]; simpl; try done.
  repeat (match goal with |- context [N.ltb ?u ?v] => destruct (N.ltb_spec u v) end); try done; try lia; eauto.
Qed.

#[export] Instance key_le_trans : Transitive key_le.
Proof. intros x y z. unfold key_le. apply chars_leb_trans. Qed.
#[export] Instance key_le_total : Total key_le.
Proof. intros x y. unfold key_le. apply chars_leb_total. Qed.

Lemma key_le_same x y : key_le x y → key_le y x → x.1 = y.1.
Proof.
  unfold key_le. intros H1 H2. rewrite <-(text_chars x.1), <-(text_chars y.1). f_equal.
  by apply chars_leb_antisym.
Qed.

Lemma sort_keys_sorted (o : dict) : StronglySorted key_le (sort_keys o).
Proof. unfold sort_keys. apply StronglySorted_merge_sort; apply _. Qed.

(** A dictionary has one arrangement in the order of its keys. *)
Lemma sort_keys_unique (o o' : dict) :
  NoDup o.*1 → o ≡ₚ o' → StronglySorted key_le o' → sort_keys o = o'.
Proof.
  intros Hnd Hp Hs. apply (StronglySorted_unique_strong key_le); [|apply sort_keys_sorted|done|].
  - intros x y Hx Hy Hxy Hyx. apply key_le_same in Hxy; [|done].
    unfold sort_keys in Hx. rewrite merge_sort_Permutation in Hx. rewrite <-Hp in Hy.
    destruct x as [k v], y as [k' w]. simpl in Hxy. subst k'. f_equal.
    clear -Hnd Hx Hy. induction o as [|[k0 u] o IH]; [by apply elem_of_nil in Hx|].
    apply NoDup_cons in Hnd as [Hni Hnd]. apply elem_of_cons in Hx, Hy.
    destruct Hx as [Ex|Hx], Hy as [Ey|Hy]; simplify_eq; [done| | |by apply IH].
    + destruct Hni. by apply (list_elem_of_fmap_2 fst) in Hy.
    + destruct Hni. by apply (list_elem_of_fmap_2 fst) in Hx.
  - rewrite <-Hp. apply merge_sort_Permutation.
Qed.

Lemma sort_keys_perm (o : dict) : sort_keys o ≡ₚ o.
Proof. apply merge_sort_Permutation. Qed.

(** A change of the values alone. *)
Definition on_values (f : json → json) (o : dict) : dict := map (λ kv, (kv.1, f kv.2)) o.

Lemma on_values_keys f o : (on_values f o).*1 = o.*1.
Proof. unfold on_values. induction o as [|kv o IH]; [done|]. simpl. by f_equal. Qed.
Lemma on_values_compose f g o : on_values f (on_values g o) = on_values (λ v, f (g v)) o.
Proof. unfold on_values. by rewrite map_map. Qed.
Lemma on_values_ext f g o : (∀ k v, (k, v) ∈ o → f v = g v) → on_values f o = on_values g o.
Proof.
  intros Hfg. unfold on_values. apply map_ext_in. intros [k v] Hin. simpl. f_equal. apply (Hfg k).
  by apply list_elem_of_In.
Qed.
Lemma on_values_sorted f o : StronglySorted key_le o → StronglySorted key_le (on_values f o).
Proof.
  induction 1 as [|x l _ IH Hx]; [constructor|]. constructor; [done|].
  rewrite Forall_forall in *. intros y Hy. apply list_elem_of_In, in_map_iff in Hy as (z & <- & Hz).
  apply (Hx z). by apply list_elem_of_In.
Qed.

Lemma sort_on_values f (o : dict) : NoDup o.*1 → sort_keys (on_values f o) = on_values f (sort_keys o).
Proof.
  intros Hnd. apply sort_keys_unique; [by rewrite on_values_keys| |].
  - unfold on_values. by rewrite sort_keys_perm.
  - apply on_values_sorted, sort_keys_sorted.
Qed.
Lemma sort_idemp (o : dict) : NoDup o.*1 → sort_keys (sort_keys o) = sort_keys o.
Proof.
  intros Hnd. apply sort_keys_unique; [by rewrite sort_keys_perm|done|apply sort_keys_sorted].
Qed.
Lemma sort_perm (o o' : dict) : NoDup o.*1 → o ≡ₚ o' → sort_keys o = sort_keys o'.
Proof.
  intros Hnd Hp. apply sort_keys_unique; [done|by rewrite sort_keys_perm|apply sort_keys_sorted].
Qed.

Lemma jget_Some (o : dict) k v : NoDup o.*1 → (jget k o = Some v ↔ (k, v) ∈ o).
Proof.
  induction o as [|[k' w] o IH]; intros Hnd; simpl; [set_solver|]. apply NoDup_cons in Hnd as [Hni Hnd].
  rewrite elem_of_cons. case_bool_decide as Hk.
  - subst k'. split; [intros [= ->]; by left|]. intros [[= ->]|Hin]; [done|].
    destruct Hni. by apply (list_elem_of_fmap_2 fst) in Hin.
  - rewrite IH by done. split; [by right|]. intros [[= -> ->]|Hin]; [done|done].
Qed.
Lemma jget_perm (o o' : dict) k : NoDup o.*1 → o ≡ₚ o' → jget k o = jget k o'.
Proof.
  intros Hnd Hp. assert (NoDup o'.*1) by (by rewrite <-Hp). apply option_eq. intros v.
  by rewrite !jget_Some, Hp by done.
Qed.
Lemma jget_on_values f o k : jget k (on_values f o) = f <$> jget k o.
Proof. induction o as [|[k' v] o IH]; [done|]. simpl. by case_bool_decide. Qed.

(** Setting a member that is there *)
Lemma dict_set_perm (o o' : dict) k v : NoDup o.*1 → o ≡ₚ o' → dict_set k v o ≡ₚ dict_set k v o'.
Proof.
  intros Hnd Hp. induction Hp as [|[k1 v1] l l' Hp IH|[k1 v1] [k2 v2] l|l l' l'' Hp1 IH1 Hp2 IH2]; [done| | |].
  - simpl. apply NoDup_cons in Hnd as [_ Hnd]. case_bool_decide; [by rewrite Hp|by rewrite IH].
  - simpl. apply NoDup_cons in Hnd as [Hni _]. simpl in Hni. rewrite not_elem_of_cons in Hni. destruct Hni as [Hne _].
    repeat case_bool_decide; subst; try done; apply Permutation_swap.
  - rewrite IH1 by done. apply IH2. by rewrite <-Hp1.
Qed.
Lemma dict_set_on_values f (o : dict) k v :
  dict_set k (f v) (on_values f o) = on_values f (dict_set k v o).
Proof. induction o as [|[k' w] o IH]; [done|]. simpl. case_bool_decide; [done|]. simpl. by rewrite IH. Qed.
Lemma dict_set_keys (o : dict) k v : k ∈ o.*1 → (dict_set k v o).*1 = o.*1.
Proof.
  induction o as [|[k' w] o IH]; intros Hk; [by apply elem_of_nil in Hk|]. simpl. case_bool_decide; [done|].
  cbn in *. f_equal. apply IH. apply elem_of_cons in Hk as [->|]; done.
Qed.

(** ** Digests: 64 hexadecimal digits *)
Lemma sha256_round_length s kw : length s = 8%nat → length (SHA256.round s kw) = 8%nat.
Proof. destruct s as [|? [|? [|? [|? [|? [|? [|? [|? [|]]]]]]]]]; done. Qed.
Lemma sha256_compress_length h blk : length h = 8%nat → length (SHA256.compress h blk) = 8%nat.
Proof.
  intros Hh. unfold SHA256.compress. cbv zeta. rewrite length_zip_with.
  assert (∀ l s, length s = 8%nat → length (foldl SHA256.round s l) = 8%nat) as Hr
    by (induction l as [|x l IH]; intros s Hs; [done|]; by apply IH, sha256_round_length).
  rewrite (Hr _ h Hh), Hh. done.
Qed.
Lemma sha256_length b : length (SHA256.sha256 b) = 32%nat.
Proof.
  unfold SHA256.sha256, digest_words.
  assert (∀ l h, length h = 8%nat → length (foldl SHA256.compress h l) = 8%nat) as Hr
    by (induction l as [|x l IH]; intros h Hh; [done|]; by apply IH, sha256_compress_length).
  generalize (Hr (message_blocks b) SHA256.init eq_refl). generalize (foldl SHA256.compress SHA256.init (message_blocks b)).
  intros ws Hws. destruct ws as [|? [|? [|? [|? [|? [|? [|? [|? [|]]]]]]]]]; try done.
Qed.
Lemma sha256_chars b :
  length (chars (sha256_hex b)) = 64%nat ∧ Forall (λ c, is_hex_char c = true) (chars (sha256_hex b)).
Proof.
  unfold sha256_hex. split; [by rewrite numeral_width_hexdigest, sha256_length|].
  unfold hexdigest. rewrite chars_text. apply Forall_bind, Forall_forall. intros n _. apply numeral_hex.
Qed.

(** ** What the file of a reference holds *)

(** The value that printing with sorted keys prints *)
Definition norm (j : json) : json := canonical (sanitize j).
(** What reading it back gives *)
Definition reread (j : json) : json := desanitize (norm j).

(** Unchanged by writing and reading *)
Definition faithful (j : json) : Prop := reread j = j.

Definition not_infinite (s : string) : Prop := s ≠ "inf"%string ∧ s ≠ "-inf"%string.

Lemma faithful_text s : not_infinite s → faithful (JStr s).
Proof. intros [H1 H2]. unfold faithful, reread. simpl. by rewrite !bool_decide_eq_false_2. Qed.
Lemma faithful_int n : faithful (JInt n).
Proof. done. Qed.
Lemma faithful_float x : faithful (JFloat x).
Proof. by destruct x as [|[]| |]. Qed.
Lemma faithful_list l : Forall faithful l → faithful (JList l).
Proof.
  intros Hl. unfold faithful, reread. simpl. f_equal. rewrite !map_map.
  induction Hl as [|j l Hj _ IH]; [done|]. simpl. f_equal; [exact Hj|exact IH].
Qed.
Lemma faithful_floats xs : faithful (JList (JFloat <$> xs)).
Proof. apply faithful_list, Forall_fmap, Forall_forall. intros x _. apply faithful_float. Qed.
Lemma faithful_texts l : Forall not_infinite l → faithful (JList (JStr <$> l)).
Proof. intros Hl. apply faithful_list, Forall_fmap. eapply Forall_impl; [exact Hl|]. apply faithful_text. Qed.

Lemma norm_obj o : NoDup o.*1 → norm (JObj o) = JObj (on_values norm (sort_keys o)).
Proof.
  intros Hnd. unfold norm. cbn [sanitize canonical]. f_equal.
  change (map (λ kv, (kv.1, sanitize kv.2)) o) with (on_values sanitize o).
  rewrite sort_on_values by done.
  change (sort_keys (on_values canonical (on_values sanitize (sort_keys o))) = on_values norm (sort_keys o)).
  rewrite on_values_compose, sort_on_values by (by rewrite sort_keys_perm). by rewrite sort_idemp.
Qed.
Lemma reread_obj o : NoDup o.*1 → reread (JObj o) = JObj (on_values reread (sort_keys o)).
Proof.
  intros Hnd. unfold reread. rewrite norm_obj by done. cbn [desanitize]. f_equal.
  change (on_values desanitize (on_values norm (sort_keys o)) = on_values reread (sort_keys o)).
  by rewrite on_values_compose.
Qed.
Lemma reread_faithful_obj o : NoDup o.*1 → Forall (λ kv : string * json, faithful kv.2) o →
  reread (JObj o) = JObj (sort_keys o).
Proof.
  intros Hnd Ho. rewrite reread_obj by done. f_equal. rewrite <-(map_id (sort_keys o)) at 2.
  unfold on_values. apply map_ext_in. intros [k v] Hin. simpl. f_equal.
  apply list_elem_of_In in Hin. rewrite sort_keys_perm in Hin. rewrite Forall_forall in Ho. by apply (Ho (k, v)).
Qed.

(** Writing what was read writes the same. *)
Definition stable (j : json) : Prop := norm (reread j) = norm j.
Lemma faithful_stable j : faithful j → stable j.
Proof. unfold faithful, stable. by intros ->. Qed.
Lemma stable_obj o : NoDup o.*1 → Forall (λ kv : string * json, faithful kv.2) o → stable (JObj o).
Proof.
  intros Hnd Ho. unfold stable. rewrite reread_faithful_obj by done.
  rewrite !norm_obj by (by rewrite ?sort_keys_perm). by rewrite sort_idemp.
Qed.

Lemma stable_set k v o : stable v → Forall (λ kv : string * json, stable kv.2) o →
  Forall (λ kv : string * json, stable kv.2) (dict_set k v o).
Proof.
  intros Hv. induction 1 as [|[k' w] o Hw Ho IH]; simpl; [by repeat constructor|].
  case_bool_decide; by constructor.
Qed.

Lemma sha256_not_infinite l : not_infinite (sha256_hex l).
Proof. destruct (sha256_chars l) as [Hlen _]. split; intros E; rewrite E in Hlen; discriminate Hlen. Qed.
Lemma hash_not_infinite o h : compute_drift_hash o = Ok h → not_infinite h.
Proof. unfold compute_drift_hash. intros E. inv_res. apply sha256_not_infinite. Qed.

(** The digest does not depend on the order of the members. *)
Lemma hash_perm (o o' : dict) : NoDup (dict_set "self_sha256" (JStr "") o).*1 →
  dict_set "self_sha256" (JStr "") o ≡ₚ dict_set "self_sha256" (JStr "") o' →
  compute_drift_hash o = compute_drift_hash o'.
Proof.
  intros Hnd Hp. unfold compute_drift_hash, canonical_json, dumps_sorted.
  assert (norm (JObj (dict_set "self_sha256" (JStr "") o)) = norm (JObj (dict_set "self_sha256" (JStr "") o'))) as Heq.
  { rewrite !norm_obj by (by rewrite <-?Hp). by rewrite (sort_perm _ _ Hnd Hp). }
  unfold norm in Heq. by rewrite Heq.
Qed.

(** The digest of a dictionary is that of what its file holds. *)
Lemma hash_reread (o : dict) : NoDup o.*1 → "self_sha256"%string ∈ o.*1 →
  Forall (λ kv : string * json, stable kv.2) o →
  compute_drift_hash (on_values reread (sort_keys o)) = compute_drift_hash o.
Proof.
  intros Hnd Hin Ho. set (k := "self_sha256"%string) in *. set (v := JStr ""%string).
  assert (NoDup (dict_set k v o).*1) as Hnd' by (by rewrite dict_set_keys).
  assert (norm (JObj (dict_set k v (on_values reread (sort_keys o)))) = norm (JObj (dict_set k v o))) as Heq.
  2:{ unfold compute_drift_hash, canonical_json, dumps_sorted. unfold norm in Heq. fold k v. by rewrite Heq. }
  assert (dict_set k v (sort_keys o) ≡ₚ dict_set k v o) as Hp
    by (apply dict_set_perm; [by rewrite sort_keys_perm|apply sort_keys_perm]).
  assert (NoDup (dict_set k v (sort_keys o)).*1) as Hnd2 by (by rewrite Hp).
  rewrite (dict_set_on_values reread _ k v : dict_set k v (on_values reread (sort_keys o)) = _).
  rewrite (norm_obj (on_values _ _)) by (by rewrite on_values_keys). rewrite norm_obj by done. f_equal.
  rewrite sort_on_values by done. rewrite (sort_perm _ _ Hnd2 Hp), on_values_compose.
  apply on_values_ext. intros k' w Hw. rewrite sort_keys_perm in Hw.
  assert (Forall (λ kv : string * json, stable kv.2) (dict_set k v o)) as Hs by (by apply stable_set).
  rewrite Forall_forall in Hs. exact (Hs _ Hw).
Qed.

(** ** The reference *)
Section Reference.
Context `{NumpyStats}.
Variable json_loads : bytes → result json.

(** Names and identities that the file cannot turn into numbers *)
Record plain (e : Expected) : Prop := {
  plain_version : not_infinite (expected_version e);
  plain_source : not_infinite (expected_source e);
  plain_contract : not_infinite (expected_contract e);
  plain_features : Forall not_infinite (expected_features e);
  plain_distinct : NoDup (expected_features e)
}.

Lemma built_features tbl names fs : mapR (build_feature tbl) names = Ok fs →
  fs.*1 = names ∧ Forall (λ f : string * (json * json), faithful f.2.1 ∧ faithful f.2.2) fs.
Proof.
  intros Hm. apply mapR_Forall2 in Hm. induction Hm as [|n f names fs Hf _ [IH1 IH2]]; [by split|].
  unfold build_feature in Hf. inv_res. split; [cbn; by f_equal|]. constructor; [|done]. simpl. split.
  - apply (faithful_floats (S754_infinity true :: (np_quantiles _ ++ [S754_infinity false]))).
  - apply faithful_list, Forall_fmap, Forall_forall. intros n' _. apply faithful_float.
Qed.

(** The members of a built reference *)
Record built_for (e : Expected) (ref : DriftReferenceV1.t) : Prop := {
  for_version : DriftReferenceV1.model_version ref = JStr (expected_version e);
  for_source : DriftReferenceV1.source_dataset_sha256 ref = JStr (expected_source e);
  for_contract : DriftReferenceV1.contract_sha256 ref = JStr (expected_contract e);
  for_names : DriftReferenceV1.active_feature_names ref = JStr <$> expected_features e;
  for_edges : ∃ o, DriftReferenceV1.bin_edges ref = JObj o ∧ NoDup o.*1 ∧ Forall (λ kv : string * json, faithful kv.2) o;
  for_props : ∃ o, DriftReferenceV1.reference_proportions ref = JObj o ∧ NoDup o.*1 ∧
    Forall (λ kv : string * json, faithful kv.2) o;
  for_hash : ∃ h, DriftReferenceV1.self_sha256 ref = JStr h ∧ not_infinite h ∧
    compute_drift_hash (DriftReferenceV1.to_dict ref) = Ok h
}.

Lemma keyed_keys {A B} (g : string * A → B) (l : list (string * A)) : ((λ f, (f.1, g f)) <$> l).*1 = l.*1.
Proof. induction l as [|x l IH]; [done|]. cbn. by f_equal. Qed.

Lemma built_reference tbl e ref : plain e → build_reference tbl e = Ok ref → built_for e ref.
Proof.
  intros Hp E. unfold build_reference in E. inv_res.
  match goal with Hm : mapR (build_feature _) _ = Ok ?fs |- _ => apply built_features in Hm as [Hk Hf] end.
  split; simpl; try done.
  - eexists. split; [reflexivity|]. split; [|by apply Forall_fmap; eapply Forall_impl; [exact Hf|intros ? []]].
    rewrite keyed_keys, Hk. apply plain_distinct, Hp.
  - eexists. split; [reflexivity|]. split; [|by apply Forall_fmap; eapply Forall_impl; [exact Hf|intros ? []]].
    rewrite keyed_keys, Hk. apply plain_distinct, Hp.
  - match goal with Hh : compute_drift_hash ?d = Ok ?h |- _ => exists h; set (data := d) in Hh end.
    split; [done|]. split; [by eapply hash_not_infinite|].
    etrans; [|eassumption]. apply hash_perm.
    + apply (bool_decide_unpack _). vm_compute. reflexivity.
    + symmetry. refine (Permutation_cons_append _ _).
Qed.

Lemma to_dict_keys ref : NoDup (DriftReferenceV1.to_dict ref).*1.
Proof. apply (bool_decide_unpack _). vm_compute. reflexivity. Qed.

(** What reading the file of a reference gives *)
Definition reread_reference (ref : DriftReferenceV1.t) : DriftReferenceV1.t :=
  DriftReferenceV1.mk (DriftReferenceV1.model_version ref) (DriftReferenceV1.source_dataset_sha256 ref)
    (DriftReferenceV1.contract_sha256 ref) (DriftReferenceV1.active_feature_names ref)
    (DriftReferenceV1.num_train_samples ref) (reread (DriftReferenceV1.bin_edges ref))
    (reread (DriftReferenceV1.reference_proportions ref)) (DriftReferenceV1.self_sha256 ref).

Lemma reread_member ref k v : jget k (DriftReferenceV1.to_dict ref) = Some v →
  member k (on_values reread (sort_keys (DriftReferenceV1.to_dict ref))) = Ok (reread v).
Proof.
  intros Hk. unfold member. rewrite jget_on_values, (jget_perm _ (DriftReferenceV1.to_dict ref)), Hk; [done| |].
  - rewrite sort_keys_perm. apply to_dict_keys.
  - apply sort_keys_perm.
Qed.

Lemma built_stable e ref : plain e → built_for e ref →
  Forall (λ kv : string * json, stable kv.2) (DriftReferenceV1.to_dict ref).
Proof.
  intros [Hv Hs Hc Hn _] [Ev Es Ec En (o & Eo & Ho & Hfo) (o' & Eo' & Ho' & Hfo') (h & Hh & Hnh & _)].
  unfold DriftReferenceV1.to_dict. destruct ref; simpl in *. subst.
  repeat (apply Forall_cons; split; [simpl|]); [..|constructor];
    try (apply stable_obj; done); apply faithful_stable;
    auto using faithful_text, faithful_texts, faithful_int.
  by apply faithful_text.
Qed.

#[local] Instance JStr_inj : Inj (=) (=) JStr.
Proof. by intros ? ? [= ->]. Qed.

Lemma expected_ok (data : dict) e :
  member "model_version" data = Ok (JStr (expected_version e)) →
  member "source_dataset_sha256" data = Ok (JStr (expected_source e)) →
  member "contract_sha256" data = Ok (JStr (expected_contract e)) →
  member "active_feature_names" data = Ok (JList (JStr <$> expected_features e)) →
  ∀ e', match check_expected data e' with Ok _ => e' = e | Err x => e' ≠ e ∧ ∃ m, x = ValueError m end.
Proof.
  intros Hv Hs Hc Hn e'. unfold check_expected, same_text. rewrite Hv. simpl.
  case_bool_decide as H1; simpl; [|split; [intros ->; by apply H1|by eexists]]. rewrite Hs. simpl.
  case_bool_decide as H2; simpl; [|split; [intros ->; by apply H2|by eexists]]. rewrite Hc. simpl.
  case_bool_decide as H3; simpl; [|split; [intros ->; by apply H3|by eexists]]. rewrite Hn. simpl.
  case_bool_decide as H4; simpl; [|split; [intros ->; by apply H4|by eexists]].
  apply list_fmap_eq_inj in H4; [|apply _]. destruct e, e'; simpl in *. congruence.
Qed.

Lemma reference_loads e ref content : plain e → built_for e ref →
  json_loads content = Ok (norm (JObj (DriftReferenceV1.to_dict ref))) →
  load_reference json_loads (Some content) (Some e) = Ok (reread_reference ref) ∧
  ∀ e', e' ≠ e → ∃ m, load_reference json_loads (Some content) (Some e') = Err (ValueError m).
Proof.
  intros Hp Hb Hread. pose proof (built_stable e ref Hp Hb) as Hst. pose proof (to_dict_keys ref) as Hnd.
  destruct Hp as [Hv Hs Hc Hn Hd]. pose proof Hb as [Ev Es Ec En _ _ (h & Eh & Hnh & Hhash)].
  pose proof (reread_member ref "model_version" _ eq_refl) as Mv.
  pose proof (reread_member ref "source_dataset_sha256" _ eq_refl) as Ms.
  pose proof (reread_member ref "contract_sha256" _ eq_refl) as Mc.
  pose proof (reread_member ref "active_feature_names" _ eq_refl) as Mn.
  pose proof (reread_member ref "num_train_samples" _ eq_refl) as Mk.
  pose proof (reread_member ref "bin_edges" _ eq_refl) as Me.
  pose proof (reread_member ref "reference_proportions" _ eq_refl) as Mp.
  pose proof (reread_member ref "self_sha256" _ eq_refl) as Mh.
  assert (∀ s, not_infinite s → reread (JStr s) = JStr s) as Ft by (intros s Hns; by apply faithful_text).
  rewrite Ev, Ft in Mv by done. rewrite Es, Ft in Ms by done. rewrite Ec, Ft in Mc by done.
  rewrite En in Mn. rewrite (faithful_texts _ Hn : reread _ = _) in Mn. rewrite Eh, Ft in Mh by done.
  pose proof (expected_ok _ e Mv Ms Mc Mn) as Hexp.
  assert (∀ e', load_reference json_loads (Some content) (Some e') =
    _ ← check_expected (on_values reread (sort_keys (DriftReferenceV1.to_dict ref))) e'; Ok (reread_reference ref)) as Hload.
  { intros e'. unfold load_reference. cbn [of_option mbind result_bind]. rewrite Hread. cbn [mbind result_bind].
    change (desanitize (norm (JObj (DriftReferenceV1.to_dict ref)))) with (reread (JObj (DriftReferenceV1.to_dict ref))).
    rewrite reread_obj by done. rewrite hash_reread, Hhash by (done || (apply (bool_decide_unpack _); vm_compute; reflexivity)).
    cbn [mbind result_bind].
    assert (jget "self_sha256" (on_values reread (sort_keys (DriftReferenceV1.to_dict ref))) = Some (JStr h)) as ->
      by (unfold member in Mh; by apply of_option_Ok in Mh).
    cbn [default]. unfold same_text at 1. rewrite bool_decide_eq_true_2 by done. cbn [guard_exn mbind result_bind].
    rewrite Mv, Ms, Mc, Mn, Mk, Me, Mp, Mh. cbn [mbind result_bind py_tuple]. unfold reread_reference.
    rewrite Ev, Es, Ec, En, Eh. destruct (check_expected _ e'); reflexivity. }
  split.
  - rewrite Hload. specialize (Hexp e). destruct (check_expected _ e); [done|]. by destruct Hexp as [[] _].
  - intros e' Hne. rewrite Hload. specialize (Hexp e'). destruct (check_expected _ e') as [u|x]; [done|].
    destruct Hexp as (_ & m & ->). by eexists.
Qed.

Lemma feature_row_reread o name : NoDup o.*1 → Forall (λ kv : string * json, faithful kv.2) o →
  feature_row name (reread (JObj o)) = feature_row name (JObj o).
Proof.
  intros Hnd Ho. rewrite reread_faithful_obj by done. unfold feature_row, member.
  rewrite (jget_perm (sort_keys o) o); [done|by rewrite sort_keys_perm|apply sort_keys_perm].
Qed.

Lemma psi_reread e ref current : built_for e ref →
  max_population_stability_index current (reread_reference ref) = max_population_stability_index current ref.
Proof.
  intros [_ _ _ _ (o & Eo & Ho & Hfo) (o' & Eo' & Ho' & Hfo') _].
  unfold max_population_stability_index. change (DriftReferenceV1.active_feature_names (reread_reference ref))
    with (DriftReferenceV1.active_feature_names ref).
  assert (∀ feat, feature_psi current (reread_reference ref) feat = feature_psi current ref feat) as Heq.
  { intros [| | | |name| |]; try done. unfold feature_psi, reread_reference. simpl.
    destruct (current !! name); [|done]. by rewrite Eo, Eo', !feature_row_reread. }
  f_equal. generalize (DriftReferenceV1.active_feature_names ref). intros l.
  induction l as [|feat l IH]; [done|]. cbn [mapR]. by rewrite Heq, IH.
Qed.

(** C32. A drift reference survives its file.  Let a reference be built from a train
    table for a model whose features are distinct and none of whose names is the
    text of an infinity, and let json.loads read the file that [save_reference]
    writes as the value that was printed.  Then [load_reference] accepts the file
    for that model, the loaded reference has the identity, the features, the sample
    count and the digest of the one that was saved, and whatever the current
    features are, the stability index against it is the same; for any other
    version, data set, contract or list of features the file is refused with a
    ValueError. *)
Theorem reference_roundtrip tbl e ref content :
  plain e → build_reference tbl e = Ok ref → save_reference ref = Ok content →
  json_loads content = Ok (norm (JObj (DriftReferenceV1.to_dict ref))) →
  ∃ ref', load_reference json_loads (Some content) (Some e) = Ok ref' ∧
    DriftReferenceV1.model_version ref' = JStr (expected_version e) ∧
    DriftReferenceV1.active_feature_names ref' = JStr <$> expected_features e ∧
    DriftReferenceV1.num_train_samples ref' = DriftReferenceV1.num_train_samples ref ∧
    DriftReferenceV1.self_sha256 ref' = DriftReferenceV1.self_sha256 ref ∧
    (∀ current, max_population_stability_index current ref' = max_population_stability_index current ref) ∧
    ∀ e', e' ≠ e → ∃ m, load_reference json_loads (Some content) (Some e') = Err (ValueError m).
Proof.
  intros Hp Hb _ Hread. pose proof (built_reference _ _ _ Hp Hb) as Hfor.
  destruct (reference_loads e ref content Hp Hfor Hread) as [Hload Hother].
  exists (reread_reference ref). split; [done|]. destruct Hfor as [Hv _ _ Hn _ _ _].
  split_and!; try done. intros current. by eapply psi_reread, built_reference.
Qed.
End Reference.

(** Two features of four samples *)
Module DriftExample.
#[local] Instance stats : NumpyStats := {
  np_quantiles l := take 9 (l ++ l ++ l);
  np_histogram l edges := (λ i, Z.of_nat i) <$> seq 1 (length edges - 1);
  np_sum l := foldl fadd f0 l;
  np_log x := fsub x f1
}.
Definition identity : Expected :=
  mkExpected "champion-statistical-v1" "source" "contract" ["tp2__mean"; "tp3__mean"]%string.
Definition column (name : string) : result (list float) :=
  if bool_decide (name = "tp2__mean"%string) then Ok (float_of_Z <$> [1; 2; 3; 4])
  else if bool_decide (name = "tp3__mean"%string) then Ok (float_of_Z <$> [8; 6; 4; 2])
  else Err (KeyError name).
Definition table : TrainTable := mkTrain 4 column.

Definition reference : DriftReferenceV1.t := Eval vm_compute in
  match build_reference (Some table) identity with
  | Ok ref => ref
  | Err _ => DriftReferenceV1.mk JNull JNull JNull [] 0 JNull JNull JNull
  end.
Definition content : bytes := Eval vm_compute in
  match save_reference reference with Ok c => c | Err _ => [] end.
(** A reader of this one file *)
Definition json_loads (c : bytes) : result json :=
  if bool_decide (c = content) then Ok (norm (JObj (DriftReferenceV1.to_dict reference)))
  else Err (ValueError "JSONDecodeError").

Lemma reference_roundtrip_witness :
  build_reference (Some table) identity = Ok reference ∧ save_reference reference = Ok content ∧
  ∃ ref', load_reference json_loads (Some content) (Some identity) = Ok ref' ∧
    ∀ current, max_population_stability_index current ref' = max_population_stability_index current reference.
Proof.
  assert (plain identity) as Hp
    by (split; try (split; discriminate); apply (bool_decide_unpack _); vm_compute; reflexivity).
  assert (build_reference (Some table) identity = Ok reference) as Hb by (vm_compute; reflexivity).
  assert (save_reference reference = Ok content) as Hs by (vm_compute; reflexivity).
  assert (json_loads content = Ok (norm (JObj (DriftReferenceV1.to_dict reference)))) as Hr
    by (vm_compute; reflexivity).
  destruct (reference_roundtrip json_loads (Some table) identity reference content Hp Hb Hs Hr)
    as (ref' & Hload & _ & _ & _ & _ & Hpsi & _).
  split; [exact Hb|]. split; [exact Hs|]. exists ref'. split; [exact Hload|exact Hpsi].
Defined.
End DriftExample.
