(* ===== verification/Champion.v ===== *)
(** * The champion package and its scorer ([champion.py], [package_champion.py], [ml_provenance.py])

    [load_champion] verifies a package directory against a pinned manifest digest
    before anything of it is used; [ChampionScorer] scores a feature vector;
    [ChampionProvenanceVerifier] checks the promotion receipt.  The parsers of the
    files - pydantic's of the manifest, [json.loads], joblib's and numpy's loaders -
    and the detector they yield are parameters. *)

From S2P Require Import Prelude PyText PyUuid PyTime PyFloat PyHash PyJson Messages KafkaIo Drift.

(** ** The manifest *)
Inductive PackageRole := CHAMPION | RESEARCH_CANDIDATE.
Inductive EvaluationVerdict := FEASIBLE | NOT_FEASIBLE.
Inductive OperationalStatus := PRODUCTION_CANDIDATE | RESEARCH_ONLY.
Inductive SourceChampionSchema := PHASE1B_CHAMPION_V1 | PHASE1B_RUN_V1.
Inductive ModelId := STATISTICAL | ISOLATION_FOREST | AUTOENCODER.
#[export] Instance PackageRole_eq_dec : EqDecision PackageRole.
Proof. solve_decision. Defined.
#[export] Instance EvaluationVerdict_eq_dec : EqDecision EvaluationVerdict.
Proof. solve_decision. Defined.
#[export] Instance OperationalStatus_eq_dec : EqDecision OperationalStatus.
Proof. solve_decision. Defined.
#[export] Instance SourceChampionSchema_eq_dec : EqDecision SourceChampionSchema.
Proof. solve_decision. Defined.

Definition DETECTOR_FILENAME : string := "detector.joblib".
Definition BASELINE_FILENAME : string := "evidence-baseline.npz".
Definition GOLDEN_CASES_FILENAME : string := "golden-cases.json".
Definition DRIFT_REFERENCE_FILENAME : string := "drift-reference.json".
Definition MANIFEST_FILENAME : string := "manifest.json".
Definition SCORES_PARQUET_FILENAME : string := "scores.parquet".

Module ChampionManifest.
Record t := mk {
  package_role : PackageRole;
  evaluation_verdict : EvaluationVerdict;
  operational_status : OperationalStatus;
  source_champion_schema : SourceChampionSchema;
  source_run_id : string;
  model_id : ModelId;
  model_version : string;
  contract_sha256 : string;
  source_dataset_sha256 : string;
  prepared_output_sha256 : string;
  feature_output_sha256 : string;
  feature_names : list string;
  threshold : float;
  threshold_quantile : float;
  artifact_sha256 : list (string * string)
}.

Definition required : list string :=
  [DETECTOR_FILENAME; BASELINE_FILENAME; GOLDEN_CASES_FILENAME; DRIFT_REFERENCE_FILENAME].
Definition allowed : list string := required ++ [SCORES_PARQUET_FILENAME].

Definition validate_artifact_hashes (v : list (string * string)) : result unit :=
  _ ← guard_exn (forallb (λ n, bool_decide (n ∈ v.*1)) required &&
                 forallb (λ n, bool_decide (n ∈ allowed)) v.*1)
        (ValidationError "artifact_sha256 must contain the required files and only allow the known ones");
  guard_exn (forallb (λ kv : string * string, (String.length kv.2 =? 64)%nat) v)
    (ValidationError "Invalid sha256").

Definition validate_package_role (m : t) : result unit :=
  let champion := bool_decide (package_role m = CHAMPION)
    && bool_decide (evaluation_verdict m = FEASIBLE)
    && bool_decide (operational_status m = PRODUCTION_CANDIDATE)
    && bool_decide (source_champion_schema m = PHASE1B_CHAMPION_V1) in
  let research := bool_decide (package_role m = RESEARCH_CANDIDATE)
    && bool_decide (evaluation_verdict m = NOT_FEASIBLE)
    && bool_decide (operational_status m = RESEARCH_ONLY)
    && bool_decide (source_champion_schema m = PHASE1B_RUN_V1) in
  guard_exn (champion || research)
    (ValidationError "invalid package role and evaluation verdict combination").

(** The model's validation of its members *)
Definition make (m : t) : result t :=
  _ ← field (is_hex64 (contract_sha256 m)) "contract_sha256";
  _ ← field (is_hex64 (source_dataset_sha256 m)) "source_dataset_sha256";
  _ ← field (is_hex64 (prepared_output_sha256 m)) "prepared_output_sha256";
  _ ← field (is_hex64 (feature_output_sha256 m)) "feature_output_sha256";
  _ ← field (negb (bool_decide (feature_names m = []))) "feature_names";
  _ ← validate_artifact_hashes (artifact_sha256 m);
  _ ← validate_package_role m;
  Ok m.
End ChampionManifest.

(** ** The scorer *)
Module ScoredVector.
Record t := mk {
  score : float; threshold : float; is_anomaly : bool; evidence_vector : list EvidenceValueV1.t
}.
End ScoredVector.

(** A detector scores a row; its [score] may raise. *)
Definition Detector := list float → result float.

Record ChampionScorer := mkScorer {
  manifest : ChampionManifest.t;
  detector : Detector;
  median : list float;
  mad : list float
}.
Definition scorer_version (s : ChampionScorer) : string := ChampionManifest.model_version (manifest s).
Definition scorer_threshold (s : ChampionScorer) : float := ChampionManifest.threshold (manifest s).

Definition validate_identity (s : ChampionScorer) (feature : FeatureVectorV1.t) : result unit :=
  _ ← guard_exn (bool_decide (FeatureVectorV1.contract_sha256 feature =
                              ChampionManifest.contract_sha256 (manifest s)))
        (ScoringContractError "Contract mismatch");
  _ ← guard_exn (bool_decide (FeatureVectorV1.source_dataset_sha256 feature =
                              ChampionManifest.source_dataset_sha256 (manifest s)))
        (ScoringContractError "Dataset mismatch");
  guard_exn (bool_decide (FeatureVectorV1.feature_names feature =
                          ChampionManifest.feature_names (manifest s)))
    (ScoringContractError "Feature order mismatch").

(** [|x - median| / (1.4826 * mad)], 0 where the spread is close to 0 *)
Definition robust_deviation (x m d : float) : float :=
  if isclose_zero d then f0 else fdiv (fabs (fsub x m)) (fmul (flit 14826 10000) d).

(** The rows of [zip(names, values, deviations, strict=True)].  The scorers of
    [load_champion] have as many medians and spreads as names; vectors of other
    lengths do not broadcast here. *)
Fixpoint evidence_of (names : list string) (values medians mads : list float)
  : result (list EvidenceValueV1.t) :=
  match names, values, medians, mads with
  | [], [], [], [] => Ok []
  | n :: names, x :: values, m :: medians, d :: mads =>
      e ← EvidenceValueV1.make n x (robust_deviation x m d);
      es ← evidence_of names values medians mads;
      Ok (e :: es)
  | _, _, _, _ => Err (ValueError "operands could not be broadcast together")
  end.

Definition scorer_score (s : ChampionScorer) (feature : FeatureVectorV1.t) : result ScoredVector.t :=
  _ ← validate_identity s feature;
  let matrix := FeatureVectorV1.feature_values feature in
  raw_score ← detector s matrix;
  evidence ← evidence_of (ChampionManifest.feature_names (manifest s)) matrix (median s) (mad s);
  Ok (ScoredVector.mk raw_score (scorer_threshold s) (fleb (scorer_threshold s) raw_score) evidence).

(** ** Loading a package *)

(** A package directory: the content of its files, and which names resolve to a
    child of it (a symbolic link may lead elsewhere). *)
Record Package := mkPackage { files : gmap string bytes; is_child : string → bool }.

(** [np.load(...)] of the evidence baseline *)
Record Baseline := mkBaseline {
  baseline_features : list string; baseline_median : list float; baseline_mad : list float
}.

Definition resolve_safe_child (pkg : Package) (filename : string) : result string :=
  _ ← guard_exn (is_child pkg filename) (ChampionIntegrityError "Path traversal detected");
  Ok filename.

(** [is_file()], then [sha256_file] *)
Definition check_artifact (pkg : Package) (entry : string * string) : result unit :=
  name ← resolve_safe_child pkg entry.1;
  content ← of_option (ChampionIntegrityError "Artifact missing in package") (files pkg !! name);
  guard_exn (bool_decide (sha256_hex content = entry.2)) (ChampionIntegrityError "SHA-256 mismatch").

(** [manifest.model_dump()] as [load_reference] reads it *)
Definition expected_of (m : ChampionManifest.t) : Expected :=
  mkExpected (ChampionManifest.model_version m) (ChampionManifest.source_dataset_sha256 m)
    (ChampionManifest.contract_sha256 m) (ChampionManifest.feature_names m).

Section Load.
Variable manifest_of_json : bytes → result ChampionManifest.t.
Variable json_loads : bytes → result json.
Variable load_detector : bytes → result Detector.
Variable load_baseline : bytes → result Baseline.

(** Opening a file that is not there raises [FileNotFoundError]. *)
Definition read_child (pkg : Package) (filename : string) : result bytes :=
  name ← resolve_safe_child pkg filename;
  of_option (FileNotFoundError name) (files pkg !! name).

Definition load_champion (pkg : Package) (expected_manifest_sha256 : string)
    (allow_research_candidate : bool) : result ChampionScorer :=
  content ← of_option (ChampionIntegrityError "manifest.json missing") (files pkg !! MANIFEST_FILENAME);
  _ ← guard_exn (bool_decide (sha256_hex content = expected_manifest_sha256))
        (ChampionIntegrityError "manifest SHA-256 mismatch");
  m ← manifest_of_json content;
  _ ← guard_exn (negb (bool_decide (ChampionManifest.operational_status m = RESEARCH_ONLY))
                 || allow_research_candidate)
        (ChampionIntegrityError "research-only package requires ALLOW_RESEARCH_CANDIDATE=true");
  _ ← mapR (check_artifact pkg) (ChampionManifest.artifact_sha256 m);
  detector_file ← read_child pkg DETECTOR_FILENAME;
  detector ← load_detector detector_file;
  baseline_file ← read_child pkg BASELINE_FILENAME;
  baseline ← load_baseline baseline_file;
  _ ← guard_exn (bool_decide (baseline_features baseline = ChampionManifest.feature_names m))
        (ChampionIntegrityError "evidence-baseline feature_names mismatch with manifest");
  let n := length (ChampionManifest.feature_names m) in
  _ ← guard_exn (bool_decide (length (baseline_median baseline) = n)
                 && bool_decide (length (baseline_mad baseline) = n))
        (ChampionIntegrityError "evidence-baseline dimensions mismatch with feature count");
  drift ← resolve_safe_child pkg DRIFT_REFERENCE_FILENAME;
  _ ← of_option (ChampionIntegrityError "Artifact missing in package") (files pkg !! drift);
  _ ← match load_reference json_loads (files pkg !! drift) (Some (expected_of m)) with
      | Ok _ => Ok ()
      | Err _ => Err (ChampionIntegrityError "drift reference verification failed")
      end;
  Ok (mkScorer m detector (baseline_median baseline) (baseline_mad baseline)).
End Load.

(** ** Promotion receipts *)

(** [re.compile(r"^[0-9a-f]{n}$").match(value)]: the [$] also matches before a
    final newline. *)
Definition hex_match (n : nat) (j : json) : bool :=
  match j with
  | JStr s =>
      let cs := chars s in
      forallb is_hex_char (take n cs) && (n <=? length cs)%nat
      && (bool_decide (drop n cs = []) || bool_decide (drop n cs = ["010"%char]))
  | _ => false
  end.
Definition validate_hex64 (val : json) (name : string) : result unit :=
  guard_exn (hex_match 64 val) (ValueError name).
Definition validate_git_sha (val : json) (name : string) : result unit :=
  guard_exn (hex_match 40 val) (ValueError name).

(** [_check_no_nan] *)
Fixpoint no_nan (j : json) : bool :=
  match j with
  | JFloat x => is_finite x
  | JList l => forallb no_nan l
  | JObj o => forallb (λ kv, no_nan kv.2) o
  | _ => true
  end.
Definition canonical_dumps (j : json) : result string :=
  _ ← guard_exn (no_nan j) (ValueError "JSON serialization cannot contain NaN or Infinity");
  dumps_canonical j.
Definition canonical_sha256 (j : json) : result string :=
  serialized ← canonical_dumps j;
  Ok (sha256_hex (encode serialized)).

(** The members are what the file holds: only those checked are known to be texts. *)
Module PromotionReceiptV1.
Record t := mk {
  schema_version : json;
  mlflow_run_id : json;
  registered_model_name : json;
  registered_model_version : string;
  alias : json;
  model_version : json;
  dataset_sha256 : json;
  contract_sha256 : json;
  champion_package_sha256 : json;
  source_git_sha : json;
  approver : json;
  promoted_at : json;
  receipt_sha256 : json
}.

(** [if not self.approver or not self.approver.strip()] *)
Definition check_approver (j : json) : result unit :=
  let empty := ValueError "approver cannot be empty" in
  match j with
  | JStr s => guard_exn (nonempty (KafkaSettings.py_strip s)) empty
  | _ => if truthy j then Err (AttributeError "strip") else Err empty
  end.

Definition post_init (r : t) : result t :=
  _ ← guard_exn (same_text (schema_version r) "mlflow-promotion-receipt-v1")
        (ValueError "Invalid schema_version");
  _ ← guard_exn (same_text (registered_model_name r) "industrial-reliability-anomaly-detector")
        (ValueError "Invalid registered_model_name");
  _ ← guard_exn (same_text (alias r) "champion") (ValueError "Invalid alias");
  _ ← check_approver (approver r);
  _ ← validate_hex64 (dataset_sha256 r) "dataset_sha256";
  _ ← validate_hex64 (contract_sha256 r) "contract_sha256";
  _ ← validate_hex64 (champion_package_sha256 r) "champion_package_sha256";
  _ ← validate_git_sha (source_git_sha r) "source_git_sha";
  Ok r.

(** [asdict(self)] without the hash *)
Definition hashed_members (r : t) : dict :=
  [("schema_version", schema_version r); ("mlflow_run_id", mlflow_run_id r);
   ("registered_model_name", registered_model_name r);
   ("registered_model_version", JStr (registered_model_version r)); ("alias", alias r);
   ("model_version", model_version r); ("dataset_sha256", dataset_sha256 r);
   ("contract_sha256", contract_sha256 r);
   ("champion_package_sha256", champion_package_sha256 r); ("source_git_sha", source_git_sha r);
   ("approver", approver r); ("promoted_at", promoted_at r)]%string.
Definition compute_hash (r : t) : result string := canonical_sha256 (JObj (hashed_members r)).

Definition from_dict (data : dict) : result t :=
  schema ← member "schema_version" data;
  run ← member "mlflow_run_id" data;
  name ← member "registered_model_name" data;
  version ← member "registered_model_version" data;
  alias ← member "alias" data;
  model ← member "model_version" data;
  dataset ← member "dataset_sha256" data;
  contract ← member "contract_sha256" data;
  package ← member "champion_package_sha256" data;
  git ← member "source_git_sha" data;
  approver ← member "approver" data;
  promoted ← member "promoted_at" data;
  post_init (mk schema run name (str_of version) alias model dataset contract package git approver
               promoted (default (JStr "") (jget "receipt_sha256" data))).

(** [with_computed_hash] *)
Definition with_computed_hash (r : t) : result t :=
  h ← compute_hash r;
  post_init (mk (schema_version r) (mlflow_run_id r) (registered_model_name r)
    (registered_model_version r) (alias r) (model_version r) (dataset_sha256 r) (contract_sha256 r)
    (champion_package_sha256 r) (source_git_sha r) (approver r) (promoted_at r) (JStr h)).
End PromotionReceiptV1.

Definition verify_promotion_receipt (r : PromotionReceiptV1.t) : result unit :=
  expected ← PromotionReceiptV1.compute_hash r;
  _ ← guard_exn (same_text (PromotionReceiptV1.receipt_sha256 r) expected)
        (ValueError "Promotion receipt hash mismatch");
  guard_exn (same_text (PromotionReceiptV1.alias r) "champion")
    (ValueError "Promotion receipt must specify champion alias").

Section Receipts.
Variable json_loads : bytes → result json.

Definition load_promotion_receipt (content : bytes) : result PromotionReceiptV1.t :=
  data ← json_loads content;
  match data with
  | JObj o => r ← PromotionReceiptV1.from_dict o; _ ← verify_promotion_receipt r; Ok r
  | _ => Err (TypeError "indices must be integers or slices")
  end.

(** [ChampionProvenanceVerifier.verify]: [None] when the provenance holds, else the
    reason.  [alias_run] is what the model registry answers for the champion alias,
    [None] without a client. *)
Definition verify_provenance (pkg : Package) (receipt_file : option bytes)
    (alias_run : option (result string)) : option string :=
  match files pkg !! MANIFEST_FILENAME with
  | None => Some "Champion manifest not found"
  | Some manifest_content =>
      match receipt_file with
      | None => Some "Promotion receipt not found"
      | Some content =>
          match load_promotion_receipt content with
          | Err _ => Some "Invalid promotion receipt"
          | Ok receipt =>
              if negb (same_text (PromotionReceiptV1.champion_package_sha256 receipt)
                         (sha256_hex manifest_content)) then Some "Provenance mismatch"
              else
                match alias_run with
                | None => None
                | Some (Ok run_id) =>
                    if bool_decide (run_id = str_of (PromotionReceiptV1.mlflow_run_id receipt)) then None
                    else Some "MLflow champion alias points to another run"
                | Some (Err _) => Some "MLflow alias verification failed"
                end
          end
      end
  end%string.

(** [get_provenance_data] *)
Definition get_provenance_data (pkg : Package) (receipt_file : option bytes) : result dict :=
  manifest ← match files pkg !! MANIFEST_FILENAME with
             | Some c => j ← json_loads c; Ok [("manifest"%string, j)]
             | None => Ok []
             end;
  receipt ← match receipt_file with
            | Some c => j ← json_loads c; Ok [("receipt"%string, j)]
            | None => Ok []
            end;
  Ok (manifest ++ receipt).
End Receipts.
