(* ===== verification/ChampionProps.v ===== *)
(** * What loading a champion package guarantees *)

From S2P Require Import Prelude PyText PyUuid PyTime PyFloat PyHash PyJson Messages KafkaIo Drift.
From S2P Require Import Champion.

Section Champion.
Variable manifest_of_json : bytes → result ChampionManifest.t.
Variable json_loads : bytes → result json.
Variable load_detector : bytes → result Detector.
Variable load_baseline : bytes → result Baseline.
Abbreviation load := (load_champion manifest_of_json json_loads load_detector load_baseline).

(** The file of a declared artifact is a child of the directory with the declared digest. *)
Definition intact (pkg : Package) (entry : string * string) : Prop :=
  is_child pkg entry.1 = true ∧ ∃ content, files pkg !! entry.1 = Some content ∧ sha256_hex content = entry.2.

(** What holds of a package that was loaded under a pinned digest, and of its scorer. *)
Record verified (pkg : Package) (pin : string) (allow : bool) (s : ChampionScorer) : Prop := {
  ver_manifest : ∃ content, files pkg !! MANIFEST_FILENAME = Some content ∧ sha256_hex content = pin ∧
    manifest_of_json content = Ok (manifest s);
  ver_role : ChampionManifest.operational_status (manifest s) = RESEARCH_ONLY → allow = true;
  ver_artifacts : Forall (intact pkg) (ChampionManifest.artifact_sha256 (manifest s));
  ver_detector : ∃ content, files pkg !! DETECTOR_FILENAME = Some content ∧ load_detector content = Ok (detector s);
  ver_baseline : ∃ content b, files pkg !! BASELINE_FILENAME = Some content ∧ load_baseline content = Ok b ∧
    baseline_features b = ChampionManifest.feature_names (manifest s) ∧
    median s = baseline_median b ∧ mad s = baseline_mad b;
  ver_dimensions : length (median s) = length (ChampionManifest.feature_names (manifest s)) ∧
    length (mad s) = length (ChampionManifest.feature_names (manifest s));
  ver_drift : ∃ r, load_reference json_loads (files pkg !! DRIFT_REFERENCE_FILENAME)
    (Some (expected_of (manifest s))) = Ok r
}.

Lemma check_artifact_intact pkg entry : check_artifact pkg entry = Ok () ↔ intact pkg entry.
Proof.
  unfold check_artifact, resolve_safe_child, intact. split.
  - intros E. inv_res. simplify_eq. eauto.
  - intros (-> & c & Hf & Hs). simpl. rewrite Hf. simpl. by rewrite bool_decide_eq_true_2.
Qed.

Lemma load_verified pkg pin allow s : load pkg pin allow = Ok s → verified pkg pin allow s.
Proof.
  unfold load_champion, read_child, resolve_safe_child. cbv zeta. intros E. inv_res.
  repeat match goal with Hg : (_ ≫= _) = Ok _ |- _ => apply bind_Ok in Hg as (? & ? & ?); inv_res end.
  simplify_eq/=.
  split; simpl; eauto.
  - intros Hr. rewrite bool_decide_eq_true_2 in * by done. by destruct allow.
  - rewrite Forall_forall. intros e He.
    match goal with Hm : mapR _ _ = _ |- _ => apply mapR_Forall2 in Hm;
      apply list_elem_of_lookup in He as [i Hi]; destruct (Forall2_lookup_l _ _ _ _ _ Hm Hi) as ([] & _ & Hc) end.
    by apply check_artifact_intact.
  - eauto 10.
  - case_match; [eauto|done].
Qed.

Lemma made_same m m' : ChampionManifest.make m = Ok m' → m' = m.
Proof.
  unfold ChampionManifest.make. intros E. inv_res.
  repeat match goal with Hg : (_ ≫= _) = Ok _ |- _ => apply bind_Ok in Hg as (? & ? & Hg) end. congruence.
Qed.

Lemma required_declared m n :
  ChampionManifest.make m = Ok m → n ∈ ChampionManifest.required →
  ∃ digest, (n, digest) ∈ ChampionManifest.artifact_sha256 m.
Proof.
  unfold ChampionManifest.make, ChampionManifest.validate_artifact_hashes. intros E Hn.
  inv_res. repeat match goal with Hg : (_ ≫= _) = Ok _ |- _ => apply bind_Ok in Hg as (? & ? & ?); inv_res end.
  match goal with Hf : forallb _ ChampionManifest.required = true |- _ =>
    rewrite forallb_forall in Hf; specialize (Hf n (proj1 (list_elem_of_In _ _) Hn)) end.
  inv_res. match goal with Hi : n ∈ _ |- _ => apply list_elem_of_fmap in Hi as ([n' d] & -> & Hd) end. eauto.
Qed.

(** The names of a scorer and of a vector it accepts: the rows of the evidence match. *)
Lemma evidence_of_defined names : ∀ values medians mads,
  length values = length names → length medians = length names → length mads = length names →
  ensures (λ e, ∃ n, e = ValidationError n) (λ es, EvidenceValueV1.feature_name <$> es = names)
    (evidence_of names values medians mads).
Proof.
  induction names as [|n names IH]; intros [|x values] [|m medians] [|d mads] Hv Hm Hd; try done.
  simpl. unfold EvidenceValueV1.make. destruct (guard_exn _ _) as [[]|e] eqn:Hg.
  - simpl. apply (ensures_bind _ (λ es, EvidenceValueV1.feature_name <$> es = names)).
    + apply IH; simpl in *; lia.
    + intros es <-. done.
  - simpl. unfold guard_exn in Hg. destruct (_ && _); [done|]. simplify_eq. eauto.
Qed.

(** No two files of the packages have the same digest and different contents. *)
Definition no_collision (pkg pkg' : Package) : Prop :=
  ∀ n n' c c', files pkg !! n = Some c → files pkg' !! n' = Some c' → sha256_hex c = sha256_hex c' → c = c'.

(** Verified packages under one pin, whose declared artifacts are intact. *)
Lemma same_scorer pkg pkg' pin allow allow' s s' :
  no_collision pkg pkg' →
  (∀ n, n ∈ ChampionManifest.required → ∃ digest,
     (n, digest) ∈ ChampionManifest.artifact_sha256 (manifest s)) →
  verified pkg pin allow s → verified pkg' pin allow' s' → s' = s.
Proof.
  intros Hcol Hreq Hv Hv'.
  destruct (ver_manifest _ _ _ _ Hv) as (c & Hc & Hpin & Hm), (ver_manifest _ _ _ _ Hv') as (c' & Hc' & Hpin' & Hm').
  assert (c = c') as <- by (eapply Hcol; eauto; congruence).
  assert (manifest s' = manifest s) as Hman by congruence.
  assert (∀ n x x', n ∈ ChampionManifest.required → files pkg !! n = Some x → files pkg' !! n = Some x' → x = x') as Hfile.
  { intros n x x' Hn Hx Hx'. destruct (Hreq n Hn) as [d Hd].
    pose proof (ver_artifacts _ _ _ _ Hv) as Ha. pose proof (ver_artifacts _ _ _ _ Hv') as Ha'.
    rewrite Forall_forall in Ha, Ha'. rewrite Hman in Ha'.
    destruct (Ha _ Hd) as (_ & y & Hy & Hsy), (Ha' _ Hd) as (_ & y' & Hy' & Hsy'). simpl in *.
    eapply Hcol; eauto; congruence. }
  destruct (ver_detector _ _ _ _ Hv) as (x & Hx & Hd), (ver_detector _ _ _ _ Hv') as (x' & Hx' & Hd').
  destruct (ver_baseline _ _ _ _ Hv) as (y & b & Hy & Hb & _ & Hmed & Hmad),
    (ver_baseline _ _ _ _ Hv') as (y' & b' & Hy' & Hb' & _ & Hmed' & Hmad').
  assert (x = x') as <- by (eapply Hfile; eauto; set_solver).
  assert (y = y') as <- by (eapply Hfile; eauto; set_solver).
  assert (b' = b) as -> by congruence. destruct s, s'; simpl in *. congruence.
Qed.

(** C22. A pinned digest pins the scorer.  A package that [load_champion] accepts has the
    pinned manifest; every artifact the manifest declares, and it declares all that
    is loaded, is a file of the directory with the declared digest; the detector
    and the baseline come from those files, the baseline has the features of the
    manifest in their order, the drift reference is the model's, and a research
    package was allowed.  Any other directory accepted under the same pin, with
    whatever else it holds, gives the same scorer, and a vector that passes the
    scorer's identity check never fails on dimensions. *)
Theorem champion_integrity pkg pin allow s
    (Hmodel : ∀ c m, manifest_of_json c = Ok m → ChampionManifest.make m = Ok m)
    (Hload : load pkg pin allow = Ok s) :
  verified pkg pin allow s ∧
  (∀ n, n ∈ ChampionManifest.required → ∃ digest,
     (n, digest) ∈ ChampionManifest.artifact_sha256 (manifest s) ∧ intact pkg (n, digest)) ∧
  (∀ pkg' allow' s', no_collision pkg pkg' → load pkg' pin allow' = Ok s' → s' = s) ∧
  (∀ f, validate_identity s f = Ok () →
     length (FeatureVectorV1.feature_values f) = length (FeatureVectorV1.feature_names f) →
     ensures (λ e, ∃ n, e = ValidationError n)
       (λ es, EvidenceValueV1.feature_name <$> es = FeatureVectorV1.feature_names f)
       (evidence_of (ChampionManifest.feature_names (manifest s)) (FeatureVectorV1.feature_values f)
          (median s) (mad s))).
Proof.
  pose proof (load_verified _ _ _ _ Hload) as Hv.
  assert (∀ p a x, load p pin a = Ok x → ∀ n, n ∈ ChampionManifest.required → ∃ digest,
     (n, digest) ∈ ChampionManifest.artifact_sha256 (manifest x) ∧ intact p (n, digest)) as Hreq.
  { intros p a x Hx n Hn. apply load_verified in Hx as Hvx. destruct (ver_manifest _ _ _ _ Hvx) as (c & _ & _ & Hm).
    destruct (required_declared _ _ (Hmodel _ _ Hm) Hn) as [d Hd]. exists d. split; [done|].
    pose proof (ver_artifacts _ _ _ _ Hvx) as Ha. rewrite Forall_forall in Ha. by apply Ha. }
  split; [done|]. split; [by apply (Hreq pkg allow)|]. split.
  - intros pkg' allow' s' Hcol Hload'. eapply same_scorer; [exact Hcol| |exact Hv|by eapply load_verified].
    intros n Hn. destruct (Hreq _ _ _ Hload n Hn) as (d & Hd & _). by exists d.
  - intros f Hf Hlen. destruct (ver_dimensions _ _ _ _ Hv) as [Hmed Hmad].
    unfold validate_identity in Hf. inv_res.
    match goal with Hn : FeatureVectorV1.feature_names f = _ |- _ => rewrite Hn in Hlen |- * end.
    by apply evidence_of_defined.
Qed.
End Champion.

(** ** Witness: a package of one-byte files *)
Module PackageExample.
Definition digest : string := text (replicate 64 "a"%char).
Definition names : list string := ["tp2_last"; "tp3_last"]%string.

Definition drift_members : dict :=
  [("model_version", JStr "model-1"); ("source_dataset_sha256", JStr digest); ("contract_sha256", JStr digest);
   ("active_feature_names", JList (JStr <$> names)); ("num_train_samples", JInt 10);
   ("bin_edges", JObj []); ("reference_proportions", JObj []); ("self_sha256", JStr "")]%string.
Definition drift_file : dict :=
  match compute_drift_hash drift_members with
  | Ok h => dict_set "self_sha256" (JStr h) drift_members
  | Err _ => []
  end.

Definition artifacts : list (string * string) :=
  [(DETECTOR_FILENAME, sha256_hex [2]); (BASELINE_FILENAME, sha256_hex [3]);
   (GOLDEN_CASES_FILENAME, sha256_hex [4]); (DRIFT_REFERENCE_FILENAME, sha256_hex [5])].
Definition package_manifest : ChampionManifest.t :=
  ChampionManifest.mk CHAMPION FEASIBLE PRODUCTION_CANDIDATE PHASE1B_CHAMPION_V1 "run-1" STATISTICAL "model-1"
    digest digest digest digest names (flit 1 2) (flit 99 100) artifacts.

Definition manifest_of_json (c : bytes) : result ChampionManifest.t :=
  if bool_decide (c = [1]) then ChampionManifest.make package_manifest else Err (ValidationError "manifest").
Definition json_loads (c : bytes) : result json :=
  if bool_decide (c = [5]) then Ok (JObj drift_file) else Err (ValueError "json").
Definition load_detector (c : bytes) : result Detector := Ok (λ row, Ok (foldr fadd f0 row)).
Definition load_baseline (c : bytes) : result Baseline := Ok (mkBaseline names [f0; f0] [f1; f1]).

Definition package : Package := mkPackage
  (<[MANIFEST_FILENAME := [1]]> (<[DETECTOR_FILENAME := [2]]> (<[BASELINE_FILENAME := [3]]>
   (<[GOLDEN_CASES_FILENAME := [4]]> (<[DRIFT_REFERENCE_FILENAME := [5]]> ∅))))) (λ _, true).
(** The same package with a detector of another digest *)
Definition tampered : Package := mkPackage (<[DETECTOR_FILENAME := [9]]> (files package)) (λ _, true).

Definition load := load_champion manifest_of_json json_loads load_detector load_baseline.

Example tampered_refused :
  is_ok (load package (sha256_hex [1]) false) = true ∧
  match load tampered (sha256_hex [1]) false with Err (ChampionIntegrityError _) => true | _ => false end = true.
Proof. vm_compute. split; reflexivity. Qed.

Lemma manifest_validated c m : manifest_of_json c = Ok m → ChampionManifest.make m = Ok m.
Proof.
  unfold manifest_of_json. destruct (bool_decide (c = [1])); [|discriminate]. intros E.
  rewrite (made_same _ _ E) at 1. exact E.
Qed.

Lemma champion_integrity_witness :
  ∃ s, load package (sha256_hex [1]) false = Ok s ∧
    verified manifest_of_json json_loads load_detector load_baseline package (sha256_hex [1]) false s.
Proof.
  destruct (load package (sha256_hex [1]) false) as [s|e] eqn:E.
  2:{ apply (f_equal is_ok) in E. vm_compute in E. discriminate E. }
  exists s. split; [reflexivity|].
  exact (proj1 (champion_integrity manifest_of_json json_loads load_detector load_baseline package
    (sha256_hex [1]) false s manifest_validated E)).
Defined.
End PackageExample.
