(* ===== verification/ModelRun.v ===== *)
(** * Training, evaluation and selection of the models ([phase1b_benchmark.py])

    The three detectors ([models.py], [autoencoder.py]) and one run of the
    benchmark: each is fitted on the train split, calibrated on the calibration
    split and evaluated on the holdout, and the simplest feasible one becomes the
    champion.  scikit-learn and torch are parameters, as are the formats of the
    files; a run directory is the content of its files, and it keeps what was
    written before an exception. *)

From S2P Require Import Prelude PyText PyTime PyFloat PyHash PyJson Contracts Messages KafkaIo Features.
From S2P Require Import ArtifactIntegrity Drift Evaluation Champion.

(** ** The detectors of the libraries *)

(** The arguments of [IsolationForest(...)] *)
Record ForestConfig := mkForestConfig {
  n_estimators : Z; max_samples : string; contamination : string; random_state : Z; n_jobs : Z
}.
Definition PHASE1_FOREST : ForestConfig := mkForestConfig 200 "auto" "auto" 42 1.

(** The constants of [PHASE1] that the autoencoder uses *)
Definition random_seed : Z := 42.
Definition autoencoder_hidden_width : Z := 64.
Definition autoencoder_bottleneck_width : Z := 16.
Definition autoencoder_batch_size : Z := 256.
Definition autoencoder_learning_rate : float := flit 1 1000.

Class Learning := {
  forest : Type;
  fit_forest : ForestConfig → list (list float) → forest;
  score_samples : forest → list (list float) → list float;
  scaler : Type;
  fit_scaler : list (list float) → scaler;
  scaler_size : scaler → nat;                        (* scaler.mean_.size *)
  tensor : Type;
  scaled : scaler → list (list float) → tensor;      (* scaler.transform, as float32 *)
  generator : Type;
  seed_everything : Z → generator;
  epoch_batches : Z → generator → tensor → list tensor * generator;
  network : Type;
  initial_network : Z → list (Z * Z) → network;      (* the widths of its linear layers *)
  training : Type;                                   (* a network and its optimizer *)
  start_training : network → float → training;
  optimizer_step : training → tensor → training;
  trained : training → network;
  squared_errors : network → tensor → list (list float)
}.

Module IsolationForestDetector.
Section Detector.
Context `{Learning}.

Definition t := option (forest * nat).
Definition init : t := None.

Definition fit (train : list (list float)) : result t :=
  values ← matrix_of train;
  Ok (Some (fit_forest PHASE1_FOREST values, length (default [] (head values)))).

Definition score (self : t) (values : list (list float)) : result (list float) :=
  '(model, feature_count) ← of_option (RuntimeError "detector must be fit before score") self;
  matrix ← matrix_of values;
  _ ← guard_exn (length (default [] (head matrix)) =? feature_count)%nat
        (ValueError "values must have the same feature count as train");
  Ok (SFopp <$> score_samples model matrix).
End Detector.
End IsolationForestDetector.

Module DenseAutoencoderDetector.
Section Detector.
Context `{Learning, Numpy}.

Record t := mk { epochs : Z; fitted : option (scaler * network) }.

Definition init (epochs : Z) : result t :=
  _ ← guard_exn (1 <=? epochs) (ValueError "epochs must be a positive integer");
  Ok (mk epochs None).

Definition layers (feature_count : Z) : list (Z * Z) :=
  [(feature_count, autoencoder_hidden_width); (autoencoder_hidden_width, autoencoder_bottleneck_width);
   (autoencoder_bottleneck_width, autoencoder_hidden_width); (autoencoder_hidden_width, feature_count)].

(** [for _ in range(epochs): for (batch,) in loader: ...] *)
Fixpoint train_epochs (n : nat) (data : tensor) (gen : generator) (model : training) : training :=
  match n with
  | O => model
  | S n =>
      let '(batches, gen) := epoch_batches autoencoder_batch_size gen data in
      train_epochs n data gen (foldl optimizer_step model batches)
  end.

Definition fit (self : t) (train : list (list float)) : result t :=
  values ← matrix_of train;
  let scaler := fit_scaler values in
  let data := scaled scaler values in
  let gen := seed_everything random_seed in
  let model := initial_network random_seed (layers (Z.of_nat (length (default [] (head values))))) in
  let model := train_epochs (Z.to_nat (epochs self)) data gen
                 (start_training model autoencoder_learning_rate) in
  Ok (mk (epochs self) (Some (scaler, trained model))).

Definition contributions (self : t) (values : list (list float)) : result (list (list float)) :=
  '(scaler, model) ← of_option (RuntimeError "detector must be fit before scoring") (fitted self);
  matrix ← matrix_of values;
  _ ← guard_exn (length (default [] (head matrix)) =? scaler_size scaler)%nat
        (ValueError "values must have the same feature count as train");
  Ok (squared_errors model (scaled scaler matrix)).

Definition score (self : t) (values : list (list float)) : result (list float) :=
  errors ← contributions self values;
  Ok (np_mean <$> (errors : list (list float))).
End Detector.
End DenseAutoencoderDetector.

(** ** The benchmark *)
Definition MODEL_IDS : list ModelId := [STATISTICAL; ISOLATION_FOREST; AUTOENCODER].
Definition model_text (m : ModelId) : string :=
  match m with
  | STATISTICAL => "statistical" | ISOLATION_FOREST => "isolation_forest" | AUTOENCODER => "autoencoder"
  end.

(** A window of [features.parquet]; its times are naive, as the generator writes them. *)
Record FeatureRow := mkFeatureRow {
  row_split : string; row_start : datetime; row_end : datetime; row_value : string → float
}.
Record FeatureTable := mkFeatureTable { feature_columns : list string; feature_rows : list FeatureRow }.

Definition split_rows (split : string) (tbl : FeatureTable) : list FeatureRow :=
  filter (λ r, row_split r = split) (feature_rows tbl).

(** [df[list(names)].to_numpy(dtype=np.float64)] *)
Definition feature_matrix (tbl : FeatureTable) (names : list string) (rows : list FeatureRow)
  : result (list (list float)) :=
  _ ← guard_exn (forallb (λ n, bool_decide (n ∈ feature_columns tbl)) names) (KeyError "not in index");
  Ok ((λ r, row_value r <$> names) <$> rows).

(** A row of the scores of a model *)
Module ScoredWindow.
Record t := mk {
  model_id : ModelId; split : string; window_start : datetime; window_end : datetime;
  score : float; threshold : float; is_anomaly : bool
}.
Definition frame_row (w : t) : ScoreRow := mkScoreRow (Naive (window_start w)) (Naive (window_end w)) (score w).
End ScoredWindow.

(** Files under a directory, by their path in it *)
Abbreviation Files := (gmap string bytes).
Definition write_file (path : string) (content : bytes) : M Files unit := modify <[path := content]>.

Section Benchmark.
Context `{Learning, Numpy, Statistics}.

Inductive AnyDetector :=
| Statistical (d : RobustStatisticalDetector.t)
| Forest (d : IsolationForestDetector.t)
| Autoencoder (d : DenseAutoencoderDetector.t).

Definition detector_for (m : ModelId) (contract : Phase1BContract.t) : result AnyDetector :=
  match m with
  | STATISTICAL => Ok (Statistical RobustStatisticalDetector.init)
  | ISOLATION_FOREST => Ok (Forest IsolationForestDetector.init)
  | AUTOENCODER => Autoencoder <$> DenseAutoencoderDetector.init (Phase1BContract.autoencoder_epochs contract)
  end.
Definition detector_fit (d : AnyDetector) (train : list (list float)) : result AnyDetector :=
  match d with
  | Statistical _ => Statistical <$> RobustStatisticalDetector.fit train
  | Forest _ => Forest <$> IsolationForestDetector.fit train
  | Autoencoder d => Autoencoder <$> DenseAutoencoderDetector.fit d train
  end.
Definition detector_score (d : AnyDetector) (values : list (list float)) : result (list float) :=
  match d with
  | Statistical d => RobustStatisticalDetector.score d values
  | Forest d => IsolationForestDetector.score d values
  | Autoencoder d => DenseAutoencoderDetector.score d values
  end.

(** With the [LockedThreshold]: the quantile of the calibration scores and its method *)
Record FittedCandidate := mkFitted {
  fc_model : ModelId; fc_detector : AnyDetector; fc_threshold : float;
  locked_quantile : float; locked_method : string
}.

Definition fit_phase1b_candidate (m : ModelId) (train calibration : list (list float))
    (contract : Phase1BContract.t) : result FittedCandidate :=
  unfitted ← detector_for m contract;
  detector ← detector_fit unfitted train;
  calib_scores ← detector_score detector calibration;
  threshold ← calibrate_threshold calib_scores (policy_of contract);
  Ok (mkFitted m detector threshold (Phase1BContract.threshold_quantile contract)
        (Phase1BContract.threshold_method contract)).

Record CandidateResult := mkCandidate {
  cr_model : ModelId; cr_fitted : FittedCandidate; cr_scores : list ScoredWindow.t;
  cr_evaluation : EvaluationResult.t
}.

(** The rows of [scores_df] *)
Definition scored_windows (fitted : FittedCandidate) (rows : list FeatureRow) (scores : list float)
  : list ScoredWindow.t :=
  zip_with (λ r s, ScoredWindow.mk (fc_model fitted) "holdout" (row_start r) (row_end r)
                     s (fc_threshold fitted) (fleb (fc_threshold fitted) s))
    rows scores.

Definition evaluate_candidate_holdout (fitted : FittedCandidate) (tbl : FeatureTable)
    (active_features : list string) (contract : Phase1BContract.t) : result CandidateResult :=
  let holdout := split_rows "holdout" tbl in
  matrix ← feature_matrix tbl active_features holdout;
  scores ← detector_score (fc_detector fitted) matrix;
  _ ← guard_exn (length scores =? length holdout)%nat (ValueError "All arrays must be of the same length");
  let scores_df := scored_windows fitted holdout scores in
  let frame := ScoredWindow.frame_row <$> scores_df in
  episodes ← build_episodes frame (fc_threshold fitted) (policy_of contract);
  eval_result ← evaluate frame episodes (fc_threshold fitted) phase1b_evaluation_events
                  (policy_of contract);
  Ok (mkCandidate (fc_model fitted) fitted scores_df eval_result).

Definition opt_json {A} (f : A → json) (o : option A) : json :=
  match o with Some a => f a | None => JNull end.

Definition serialize_event_result (er : EventResult.t) : json :=
  JObj [("event_id", JStr (EventResult.event_id er)); ("detected", JBool (EventResult.detected er));
        ("first_detection_time", opt_json (λ t, JStr (isoformat t)) (EventResult.first_detection_time er));
        ("lead_seconds_to_source_start", opt_json JFloat (EventResult.lead_seconds_to_source_start er))]%string.

Definition serialize_candidate_evaluation (res : EvaluationResult.t) : json :=
  JObj [("threshold", JFloat (EvaluationResult.threshold res));
        ("valid_holdout_decisions", JInt (EvaluationResult.valid_holdout_decisions res));
        ("anomalous_decisions", JInt (EvaluationResult.anomalous_decisions res));
        ("time_in_alert", JFloat (EvaluationResult.time_in_alert res));
        ("pr_auc", JFloat (EvaluationResult.pr_auc res));
        ("detected_events", JInt (EvaluationResult.detected_events res));
        ("total_events", JInt (EvaluationResult.total_events res));
        ("false_episodes", JInt (EvaluationResult.false_episodes res));
        ("false_episodes_per_day", JFloat (EvaluationResult.false_episodes_per_day res));
        ("feasible", JBool (EvaluationResult.feasible res));
        ("event_results", JList (serialize_event_result <$> EvaluationResult.event_results res))]%string.

(** *** The run directory *)
Variable save_baseline : list string → list float → list float → bytes.   (* np.savez_compressed *)
Variable joblib_dump : AnyDetector → bytes.
Variable write_scores : list ScoredWindow.t → bytes.                       (* pq.write_table *)
Variable read_features : bytes → result FeatureTable.                      (* pq.read_table(...).to_pandas() *)
Variable json_loads : bytes → result json.

Definition dict_of (content : bytes) : result dict :=
  j ← json_loads content;
  match j with JObj o => Ok o | _ => Err (AttributeError "get") end.
(** A name of a column *)
Definition column_name (j : json) : result string :=
  match j with JStr s => Ok s | _ => Err (KeyError "not in index") end.

Definition model_path (m : ModelId) : string := ("models/" +:+ model_text m +:+ ".joblib")%string.
Definition SCORES_FILE : string := "scores.parquet".
Definition RUN_MANIFEST : string := "run_manifest.json".
Definition CHAMPION_MANIFEST : string := "champion-manifest.json".

(** What was verified before the run: the identity of the prepared data, the
    manifest of the features, their names and their table. *)
Record RunInputs := mkInputs {
  in_prepared : PreparedArtifactIdentity.t; in_manifest : dict; in_names : list string; in_table : FeatureTable
}.

Definition verify_inputs (telemetry prep_manifest feat_manifest features : option bytes)
    (expected_prepared_output_sha256 : string) (contract : Phase1BContract.t) : result RunInputs :=
  let missing := FileNotFoundError "Prerequisite manifest files missing" in
  telemetry ← of_option missing telemetry;
  prep_manifest ← of_option missing prep_manifest;
  feat_manifest ← of_option missing feat_manifest;
  features ← of_option missing features;
  expected_contract_sha ← metropt3_contract_sha256 contract;
  prepared ← (m ← dict_of prep_manifest;
              verify_prepared_parquet m telemetry expected_contract_sha
                (Phase1BContract.archive_sha256 contract) expected_prepared_output_sha256);
  manifest ← (m ← dict_of feat_manifest; load_self_hashed_manifest m);
  output ← get_text "output_sha256" manifest;
  _ ← verify_file_sha256 features output;
  _ ← guard_exn (bool_decide (jget "contract_sha256" manifest = Some (JStr expected_contract_sha)))
        (ArtifactIntegrityError "features contract SHA-256 mismatch");
  _ ← guard_exn (bool_decide (jget "data_manifest_sha256" manifest =
                              Some (JStr (PreparedArtifactIdentity.manifest_sha256 prepared))))
        (ArtifactIntegrityError "features data manifest mismatch");
  active ← member "active_feature_names" manifest;
  active ← py_tuple active;
  tbl ← read_features features;
  names ← mapR column_name active;
  Ok (mkInputs prepared manifest names tbl).

(** One turn of the loop over the models *)
Definition run_model (contract : Phase1BContract.t) (inputs : RunInputs) (train calib : list (list float))
    (m : ModelId) : M Files CandidateResult :=
  fitted ← lift_res (fit_phase1b_candidate m train calib contract);
  _ ← write_file (model_path m) (joblib_dump (fc_detector fitted));
  lift_res (evaluate_candidate_holdout fitted (in_table inputs) (in_names inputs) contract).

Fixpoint run_models (contract : Phase1BContract.t) (inputs : RunInputs) (train calib : list (list float))
    (ms : list ModelId) : M Files (list CandidateResult) :=
  match ms with
  | [] => mret []
  | m :: ms =>
      res ← run_model contract inputs train calib m;
      rest ← run_models contract inputs train calib ms;
      mret (res :: rest)
  end.

(** The simplest feasible model *)
Definition select_model (results : list CandidateResult) : option CandidateResult :=
  head (filter (λ r, EvaluationResult.feasible (cr_evaluation r) = true) results).

Definition verdict_text (selected : option CandidateResult) : string :=
  match selected with Some _ => "FEASIBLE" | None => "NOT FEASIBLE" end.

Definition run_manifest (run_id : string) (now : datetime) (git_sha output_sha contract_sha : json)
    (prepared : PreparedArtifactIdentity.t) (results : list CandidateResult) : dict :=
  let selected := select_model results in
  [("schema_version", JStr "phase1b-run-v1"); ("run_id", JStr run_id); ("timestamp", JStr (isoformat now));
   ("verdict", JStr (verdict_text selected));
   ("selected_model", opt_json (λ r, JStr (model_text (cr_model r))) selected);
   ("contract_sha256", contract_sha);
   ("source_dataset_sha256", JStr (PreparedArtifactIdentity.source_dataset_sha256 prepared));
   ("prepared_output_sha256", JStr (PreparedArtifactIdentity.parquet_sha256 prepared));
   ("feature_output_sha256", output_sha); ("source_git_sha", git_sha);
   ("models", JObj ((λ r, (model_text (cr_model r),
                           serialize_candidate_evaluation (cr_evaluation r))) <$> results))]%string.

Definition champion_manifest (run_id : string) (output_sha contract_sha : json)
    (prepared : PreparedArtifactIdentity.t) (names : list string) (scores model baseline : string)
    (r : CandidateResult) : dict :=
  let fitted := cr_fitted r in
  [("schema_version", JStr "phase1b-champion-v1"); ("run_id", JStr run_id); ("verdict", JStr "FEASIBLE");
   ("model_id", JStr (model_text (cr_model r)));
   ("model_version", JStr ("champion-" +:+ model_text (cr_model r) +:+ "-v1"));
   ("threshold", JFloat (fc_threshold fitted));
   ("threshold_provenance",
    JObj [("split", JStr "calibration"); ("quantile", JFloat (locked_quantile fitted));
          ("method", JStr (locked_method fitted))]);
   ("active_feature_names", jstrs names); ("contract_sha256", contract_sha);
   ("source_dataset_sha256", JStr (PreparedArtifactIdentity.source_dataset_sha256 prepared));
   ("prepared_output_sha256", JStr (PreparedArtifactIdentity.parquet_sha256 prepared));
   ("feature_output_sha256", output_sha);
   ("artifact_sha256",
    JObj [("scores_parquet", JStr scores); ("model_binary", JStr model); ("evidence_baseline", JStr baseline)])]%string.

(** [sha256_file] *)
Definition file_sha256 (path : string) : M Files string :=
  fs ← get_st;
  content ← lift_res (of_option (FileNotFoundError path) (fs !! path));
  mret (sha256_hex content).

Record Phase1BBenchmarkResult := mkBenchmark {
  br_verdict : string; br_selected : option ModelId; br_contract : json; br_source_dataset : string;
  br_run_id : string
}.

(** The part of the run after the inputs were verified *)
Definition run_verified (run_id : string) (now : datetime) (source_git_sha : string)
    (contract : Phase1BContract.t) (inputs : RunInputs) : M Files Phase1BBenchmarkResult :=
  let prepared := in_prepared inputs in
  let names := in_names inputs in
  train ← lift_res (feature_matrix (in_table inputs) names (split_rows "train" (in_table inputs)));
  calib ← lift_res (feature_matrix (in_table inputs) names (split_rows "calibration" (in_table inputs)));
  let cols := columns train in
  let medians := np_median <$> cols in
  let mads := zip_with (λ col m, np_median ((λ x, fabs (fsub x m)) <$> col)) cols medians in
  _ ← write_file BASELINE_FILENAME (save_baseline names medians mads);
  results ← run_models contract inputs train calib MODEL_IDS;
  _ ← write_file SCORES_FILE (write_scores (results ≫= cr_scores));
  contract_sha ← lift_res (member "contract_sha256" (in_manifest inputs));
  output_sha ← lift_res (member "output_sha256" (in_manifest inputs));
  output_text ← lift_res (get_text "output_sha256" (in_manifest inputs));
  _ ← lift_res (validate_git_sha (JStr source_git_sha) "source_git_sha");
  let manifest := run_manifest run_id now (JStr source_git_sha) (JStr output_text) contract_sha prepared results in
  _ ← write_file RUN_MANIFEST (encode (dumps_indent (JObj manifest)));
  _ ← match select_model results with
      | None => mret ()
      | Some r =>
          scores ← file_sha256 SCORES_FILE;
          model ← file_sha256 (model_path (cr_model r));
          baseline ← file_sha256 BASELINE_FILENAME;
          write_file CHAMPION_MANIFEST (encode (dumps_indent (JObj
            (champion_manifest run_id output_sha contract_sha prepared names scores model baseline r))))
      end;
  let selected := select_model results in
  mret (mkBenchmark (verdict_text selected) (cr_model <$> selected) contract_sha
          (PreparedArtifactIdentity.source_dataset_sha256 prepared) run_id).

Definition run_phase1b_benchmark (telemetry prep_manifest feat_manifest features : option bytes)
    (expected_prepared_output_sha256 source_git_sha run_id : string) (now : datetime)
    (contract : Phase1BContract.t) : M Files Phase1BBenchmarkResult :=
  inputs ← lift_res (verify_inputs telemetry prep_manifest feat_manifest features
                       expected_prepared_output_sha256 contract);
  run_verified run_id now source_git_sha contract inputs.
End Benchmark.
