(* ===== verification/Packaging.v ===== *)
(** * Packaging a model ([package_champion.py], [package_research_candidate.py])

    A package is built in a temporary directory next to its destination and renamed
    when it is complete; an exception removes the temporary directory.  The state
    of a build is these two directories.  File names under a directory that the
    build itself made are not symbolic links, so [_resolve_path] accepts them.
    pandas, pydantic's dump of a manifest, git and the readers of the files are
    parameters. *)

From S2P Require Import Prelude PyText PyTime PyFloat PyHash PyJson Contracts Messages KafkaIo.
From S2P Require Import AlertPolicy Drift Champion ModelRun.

(** ** Golden cases *)
Abbreviation merged := (FeatureRow * ScoredWindow.t)%type.

(** [pd.merge(..., how="inner", validate="one_to_one")] on split and window, and
    the two [sort_values] *)
Class Pandas := {
  pd_merge : list FeatureRow → list ScoredWindow.t → result (list merged);
  sort_by_start : list merged → list merged;
  sort_by_score_descending : list merged → list merged
}.

Module GoldenCase.
Record t := mk {
  case_id : string; source_timestamp : datetime; window_start : datetime; window_end : datetime;
  feature_names : list string; feature_values : list float;
  expected_score : float; expected_threshold : float; expected_is_anomaly : bool;
  expected_evidence : list (string * float * float)
}.
End GoldenCase.

Definition golden_case_json (c : GoldenCase.t) : json :=
  JObj [("case_id", JStr (GoldenCase.case_id c));
        ("source_timestamp", JStr (isoformat (GoldenCase.source_timestamp c)));
        ("window_start", JStr (isoformat (GoldenCase.window_start c)));
        ("window_end", JStr (isoformat (GoldenCase.window_end c)));
        ("feature_names", jstrs (GoldenCase.feature_names c));
        ("feature_values", JList (JFloat <$> GoldenCase.feature_values c));
        ("expected_score", JFloat (GoldenCase.expected_score c));
        ("expected_threshold", JFloat (GoldenCase.expected_threshold c));
        ("expected_is_anomaly", JBool (GoldenCase.expected_is_anomaly c));
        ("expected_evidence",
         JList ((λ e : string * float * float,
                   JObj [("feature_name", JStr e.1.1); ("feature_value", JFloat e.1.2);
                         ("robust_deviation", JFloat e.2)]) <$> GoldenCase.expected_evidence c))]%string.
Definition serialize_golden_cases (cases : list GoldenCase.t) : json :=
  JObj [("schema_version", JStr "champion-golden-cases-v1"); ("cases", JList (golden_case_json <$> cases))]%string.

(** The deviations of a row, and [zip(..., strict=True)] with the names *)
Fixpoint golden_evidence (names : list string) (values medians mads : list float)
  : result (list (string * float * float)) :=
  match names, values, medians, mads with
  | [], [], [], [] => Ok []
  | n :: names, x :: values, m :: medians, d :: mads =>
      es ← golden_evidence names values medians mads; Ok ((n, x, robust_deviation x m d) :: es)
  | _, _, _, _ => Err (ValueError "operands could not be broadcast together")
  end.

(** ** Readers *)
Definition string_of (name : string) (j : json) : result string :=
  match j with JStr s => Ok s | _ => Err (ValidationError name) end.
Definition model_of_text (s : string) : option ModelId := find (λ m, bool_decide (model_text m = s)) MODEL_IDS.

Section Packaging.
Context `{Pandas, NumpyStats}.
Variable json_loads : bytes → result json.
Variable read_features : bytes → result FeatureTable.
Variable read_train : bytes → TrainTable.               (* the train rows of features.parquet *)
Variable read_scores : bytes → result (list ScoredWindow.t).
Variable load_baseline : bytes → result Baseline.
Variable dump_manifest : ChampionManifest.t → bytes.    (* model_dump_json(indent=2) *)
Variable git_is_ancestor : string → bool.               (* git merge-base --is-ancestor *)

Definition golden_case (champion_names : list string) (tbl : FeatureTable) (threshold : float)
    (baseline : Baseline) (chosen : string * merged) : result GoldenCase.t :=
  let '(case_id, (row, scored)) := chosen in
  _ ← guard_exn (forallb (λ n, bool_decide (n ∈ feature_columns tbl)) champion_names) (KeyError "not in index");
  let feat_vals := row_value row <$> champion_names in
  evidence ← golden_evidence champion_names feat_vals (baseline_median baseline) (baseline_mad baseline);
  Ok (GoldenCase.mk case_id (row_end row) (row_start row) (row_end row) champion_names feat_vals
        (ScoredWindow.score scored) threshold (fleb threshold (ScoredWindow.score scored)) evidence).

Definition merged_score (r : merged) : float := ScoredWindow.score r.2.

Definition select_golden_cases (scores features : bytes) (champion : dict) (baseline_npz : bytes)
  : result (list GoldenCase.t) :=
  tbl ← read_features features;
  scores_df ← read_scores scores;
  baseline ← load_baseline baseline_npz;
  active ← member "active_feature_names" champion;
  active ← py_tuple active;
  threshold ← member "threshold" champion;
  threshold ← number threshold;
  model_id ← member "model_id" champion;
  let model_scores :=
    filter (λ w, same_text model_id (model_text (ScoredWindow.model_id w)) = true) scores_df in
  _ ← guard_exn (negb (bool_decide (length model_scores = 0%nat)))
        (ChampionPackageError "No scores for champion model");
  merged_rows ← pd_merge (feature_rows tbl) model_scores;
  let calib := sort_by_start (filter (λ r : merged, row_split r.1 = "calibration"%string) merged_rows) in
  let calib_merged := match calib with [] => sort_by_start merged_rows | _ => calib end in
  row_earliest ← of_option IndexError (head calib_merged);
  let normal_rows := filter (λ r, fltb (merged_score r) threshold = true) calib_merged in
  row_highest_normal ← of_option IndexError
    (match normal_rows with
     | [] => calib_merged !! (length calib_merged / 2)%nat
     | _ => head (sort_by_score_descending normal_rows)
     end);
  let anom_rows := filter (λ r, fleb threshold (merged_score r) = true) calib_merged in
  row_anom ← of_option IndexError
    (match anom_rows with
     | [] => head (sort_by_score_descending calib_merged)
     | r :: _ => Some r
     end);
  names ← mapR column_name active;
  mapR (golden_case names tbl threshold baseline)
    [("golden-calib-earliest", row_earliest); ("golden-calib-highest-normal", row_highest_normal);
     ("golden-calib-anomalous", row_anom)]%string.

(** ** The gates before a package is built *)

(** [not path.is_file() or sha256_file(path) != expected] raises. *)
Definition check_file (files : Files) (path : string) (expected : option json) : result unit :=
  guard_exn (match files !! path with
             | Some content => bool_decide (expected = Some (JStr (sha256_hex content)))
             | None => false
             end) (ChampionPackageError "missing or SHA-256 mismatch").

Definition verify_phase1b_artifacts (run : Files) (features : option bytes) (champion : dict) : result unit :=
  features ← of_option (ChampionPackageError "Features file not found") features;
  _ ← guard_exn (bool_decide (jget "feature_output_sha256" champion = Some (JStr (sha256_hex features))))
        (ChampionPackageError "features.parquet SHA-256 does not match champion manifest");
  artifact_hashes ← match jget "artifact_sha256" champion with
                    | Some (JObj o) => Ok o
                    | None => Ok []
                    | _ => Err (AttributeError "get")
                    end;
  let model_id := match jget "model_id" champion with Some j => str_of j | None => "None"%string end in
  _ ← check_file run SCORES_FILE (jget "scores_parquet" artifact_hashes);
  _ ← check_file run BASELINE_FILENAME (jget "evidence_baseline" artifact_hashes);
  check_file run ("models/" +:+ model_id +:+ ".joblib") (jget "model_binary" artifact_hashes).

(** [if not git_sha: return] *)
Definition verify_git_ancestor (git_sha : option json) : result unit :=
  match git_sha with
  | None => Ok ()
  | Some j =>
      if negb (truthy j) then Ok ()
      else match j with
           | JStr s => guard_exn (git_is_ancestor s) (ChampionPackageError "not an ancestor of HEAD")
           | _ => Err (TypeError "expected str, bytes or os.PathLike object")
           end
  end.

(** ** Building a package *)
Record Build := mkBuild { output_dir : option Files; temp_output : option Files }.

(** [temp_output.mkdir(parents=True, exist_ok=True)] *)
Definition make_temp : M Build unit := modify (λ b, mkBuild (output_dir b) (Some (default ∅ (temp_output b)))).
Definition remove_temp : M Build unit := modify (λ b, mkBuild (output_dir b) None).
Definition temp_files : M Build Files := gets (λ b, default ∅ (temp_output b)).
Definition put_temp (path : string) (content : bytes) : M Build unit :=
  modify (λ b, mkBuild (output_dir b) (<[path := content]> <$> temp_output b)).
Definition publish_temp : M Build unit := modify (λ b, mkBuild (temp_output b) None).

(** [shutil.copy2] *)
Definition copy_file (run : Files) (source target : string) : M Build unit :=
  content ← lift_res (of_option (FileNotFoundError source) (run !! source));
  put_temp target content.

(** [{name: sha256_file(...)}] *)
Definition artifact_hash (name : string) : M Build (string * string) :=
  fs ← temp_files;
  content ← lift_res (of_option (FileNotFoundError name) (fs !! name));
  mret (name, sha256_hex content).
Fixpoint artifact_hashes (names : list string) : M Build (list (string * string)) :=
  match names with
  | [] => mret []
  | n :: names => h ← artifact_hash n; hs ← artifact_hashes names; mret (h :: hs)
  end.

(** [try: ... except Exception: rmtree(temp_output); raise] *)
Definition or_clean {A} (m : M Build A) : M Build A :=
  catch m (λ e, Some (_ ← remove_temp; raise e)).

(** What the reference of the drift monitor is built for *)
Definition drift_expected (version source contract : json) (names : list json) : result Expected :=
  version ← string_of "model_version" version;
  source ← string_of "source_dataset_sha256" source;
  contract ← string_of "contract_sha256" contract;
  names ← mapR (string_of "feature_names") names;
  Ok (mkExpected version source contract names).

Definition write_drift (features : bytes) (e : Expected) : M Build unit :=
  ref ← lift_res (build_reference (Some (read_train features)) e);
  content ← lift_res (save_reference ref);
  put_temp DRIFT_REFERENCE_FILENAME content.

(** The members of the champion manifest that the package takes over *)
Definition package_manifest (champion : dict) (artifacts : list (string * string)) : result ChampionManifest.t :=
  run_id ← member "run_id" champion ≫= string_of "source_run_id";
  model_id ← member "model_id" champion ≫= string_of "model_id";
  model_id ← of_option (ValidationError "model_id") (model_of_text model_id);
  model_version ← member "model_version" champion ≫= string_of "model_version";
  contract ← member "contract_sha256" champion ≫= string_of "contract_sha256";
  source ← member "source_dataset_sha256" champion ≫= string_of "source_dataset_sha256";
  prepared ← member "prepared_output_sha256" champion ≫= string_of "prepared_output_sha256";
  feature ← member "feature_output_sha256" champion ≫= string_of "feature_output_sha256";
  names ← member "active_feature_names" champion ≫= py_tuple;
  names ← mapR (string_of "feature_names") names;
  threshold ← member "threshold" champion ≫= number;
  ChampionManifest.make (ChampionManifest.mk CHAMPION FEASIBLE PRODUCTION_CANDIDATE PHASE1B_CHAMPION_V1
    run_id model_id model_version contract source prepared feature names threshold (flit 995 1000) artifacts).

Definition fill_package (run : Files) (features : bytes) (champion : dict) (model_src : string)
    (golden : list GoldenCase.t) : M Build (ChampionManifest.t * string) :=
  _ ← copy_file run model_src DETECTOR_FILENAME;
  _ ← copy_file run BASELINE_FILENAME BASELINE_FILENAME;
  _ ← put_temp GOLDEN_CASES_FILENAME (encode (dumps_indent (serialize_golden_cases golden)));
  version ← lift_res (member "model_version" champion);
  source ← lift_res (member "source_dataset_sha256" champion);
  contract ← lift_res (member "contract_sha256" champion);
  names ← lift_res (member "active_feature_names" champion ≫= py_tuple);
  e ← lift_res (drift_expected version source contract names);
  _ ← write_drift features e;
  artifacts ← artifact_hashes ChampionManifest.required;
  manifest ← lift_res (package_manifest champion artifacts);
  _ ← put_temp MANIFEST_FILENAME (dump_manifest manifest);
  sha ← artifact_hash MANIFEST_FILENAME;
  _ ← publish_temp;
  mret (manifest, sha.2).

Definition FEASIBLE_required : exn := ChampionPackageError "Phase 2 requires a FEASIBLE champion".

Definition build_champion_package (run : Files) (features : option bytes)
  : M Build (ChampionManifest.t * string) :=
  b ← get_st;
  _ ← lift_res (guard_exn (negb (bool_decide (is_Some (output_dir b)))) (FileExistsError "destination already exists"));
  content ← lift_res (of_option FEASIBLE_required (run !! CHAMPION_MANIFEST));
  champion ← lift_res (dict_of json_loads content);
  _ ← lift_res (guard_exn (bool_decide (jget "schema_version" champion = Some (JStr "phase1b-champion-v1"))
                           && bool_decide (jget "verdict" champion = Some (JStr "FEASIBLE"))) FEASIBLE_required);
  _ ← lift_res (verify_phase1b_artifacts run features champion);
  _ ← lift_res (verify_git_ancestor (jget "git_sha" champion));
  model_id ← lift_res (member "model_id" champion);
  let model_src := ("models/" +:+ str_of model_id +:+ ".joblib")%string in
  features ← lift_res (of_option (FileNotFoundError "features.parquet") features);
  scores ← lift_res (of_option (FileNotFoundError SCORES_FILE) (run !! SCORES_FILE));
  baseline ← lift_res (of_option (FileNotFoundError BASELINE_FILENAME) (run !! BASELINE_FILENAME));
  golden ← lift_res (select_golden_cases scores features champion baseline);
  _ ← make_temp;
  or_clean (fill_package run features champion model_src golden).

(** ** Verifying a package *)
Definition verify_package_files (manifest_of_json : bytes → result ChampionManifest.t) (pkg : Package)
  : result ChampionManifest.t :=
  content ← of_option (ChampionPackageError "manifest.json not found") (files pkg !! MANIFEST_FILENAME);
  manifest ← match manifest_of_json content with
             | Ok m => Ok m
             | Err _ => Err (ChampionPackageError "Invalid package manifest")
             end;
  _ ← mapR (λ entry : string * string,
        _ ← guard_exn (is_child pkg entry.1) (ValueError "Path traversal detected");
        guard_exn (match files pkg !! entry.1 with
                   | Some c => bool_decide (sha256_hex c = entry.2)
                   | None => false end) (ChampionPackageError "missing or SHA-256 mismatch"))
      (ChampionManifest.artifact_sha256 manifest);
  Ok manifest.

(** ** The research package *)
Section Research.
Context `{FrameOps}.
Variable read_policy_scores : bytes → result (list AlertPolicy.ScoreRow.t).   (* pd.read_parquet *)

Definition POLICY_FILENAME : string := "alert-policy.json".

(** [lock_alert_policy(published_manifest, temp_output / "alert-policy.json")] *)
Definition lock_policy_file : M Build unit :=
  fs ← temp_files;
  content ← lift_res (of_option (FileNotFoundError MANIFEST_FILENAME) (fs !! MANIFEST_FILENAME));
  manifest ← lift_res (dict_of json_loads content);
  scores ← lift_res (match fs !! SCORES_FILE with
                     | Some c => Some <$> read_policy_scores c
                     | None => Ok None end);
  policy ← lift_res (lock_alert_policy manifest scores (sha256_hex (default [] (fs !! SCORES_FILE))));
  put_temp POLICY_FILENAME
    (encode (dumps_indent (canonical (JObj (LockedAlertPolicyV1.to_dict policy))))).

Definition research_version : string := "research-candidate-statistical-v1".

(** [run["models"]["statistical"]["threshold"]] *)
Definition research_threshold (run : dict) : result json :=
  models ← member "models" run;
  match models with
  | JObj o =>
      m ← member "statistical" o;
      match m with JObj o => member "threshold" o | _ => Err (TypeError "indices must be integers") end
  | _ => Err (TypeError "indices must be integers")
  end.

Definition research_manifest (run : dict) (names : list json) (threshold : json)
    (artifacts : list (string * string)) : result ChampionManifest.t :=
  run_id ← member "run_id" run ≫= string_of "source_run_id";
  contract ← member "contract_sha256" run ≫= string_of "contract_sha256";
  source ← member "source_dataset_sha256" run ≫= string_of "source_dataset_sha256";
  prepared ← member "prepared_output_sha256" run ≫= string_of "prepared_output_sha256";
  feature ← member "feature_output_sha256" run ≫= string_of "feature_output_sha256";
  names ← mapR (string_of "feature_names") names;
  threshold ← number threshold;
  ChampionManifest.make (ChampionManifest.mk RESEARCH_CANDIDATE NOT_FEASIBLE RESEARCH_ONLY PHASE1B_RUN_V1
    run_id STATISTICAL research_version contract source prepared feature names threshold (flit 995 1000) artifacts).

Definition fill_research (run_files : Files) (features_file : bytes) (run : dict) (names : json)
    (threshold : json) (golden : list GoldenCase.t) : M Build (ChampionManifest.t * string) :=
  _ ← copy_file run_files (model_path STATISTICAL) DETECTOR_FILENAME;
  _ ← copy_file run_files BASELINE_FILENAME BASELINE_FILENAME;
  _ ← copy_file run_files SCORES_FILE SCORES_PARQUET_FILENAME;
  _ ← put_temp GOLDEN_CASES_FILENAME (encode (dumps_indent (serialize_golden_cases golden)));
  source ← lift_res (member "source_dataset_sha256" run);
  contract ← lift_res (member "contract_sha256" run);
  names ← lift_res (py_tuple names);
  e ← lift_res (drift_expected (JStr research_version) source contract names);
  _ ← write_drift features_file e;
  artifacts ← artifact_hashes (ChampionManifest.required ++ [SCORES_PARQUET_FILENAME]);
  manifest ← lift_res (research_manifest run names threshold artifacts);
  _ ← put_temp MANIFEST_FILENAME (dump_manifest manifest);
  _ ← lock_policy_file;
  sha ← artifact_hash MANIFEST_FILENAME;
  _ ← publish_temp;
  mret (manifest, sha.2).

Definition build_research_candidate_package (run_files : Files) (features_file : bytes)
    (feature_manifest : option bytes) : M Build (ChampionManifest.t * string) :=
  content ← lift_res (of_option (ChampionPackageError "Run manifest missing") (run_files !! RUN_MANIFEST));
  feature_content ← lift_res (of_option (ChampionPackageError "Feature manifest missing") feature_manifest);
  run ← lift_res (dict_of json_loads content);
  features ← lift_res (dict_of json_loads feature_content);
  _ ← lift_res (guard_exn (bool_decide (jget "schema_version" run = Some (JStr "phase1b-run-v1")))
        (ChampionPackageError "phase1b-run-v1 manifest required"));
  _ ← lift_res (guard_exn (bool_decide (jget "verdict" run = Some (JStr "NOT FEASIBLE"))
                           && bool_decide (default JNull (jget "selected_model" run) = JNull))
        (ChampionPackageError "research package requires the immutable NOT FEASIBLE run"));
  feature_output ← lift_res (member "feature_output_sha256" run);
  _ ← lift_res (guard_exn (same_text feature_output (sha256_hex features_file))
        (ChampionPackageError "features.parquet SHA-256 mismatch"));
  _ ← lift_res (guard_exn (bool_decide (jget "output_sha256" features = Some feature_output))
        (ChampionPackageError "feature manifest does not match the Phase 1B run"));
  let missing := ChampionPackageError "required research artifact missing" in
  _ ← lift_res (of_option missing (run_files !! model_path STATISTICAL));
  scores ← lift_res (of_option missing (run_files !! SCORES_FILE));
  baseline ← lift_res (of_option missing (run_files !! BASELINE_FILENAME));
  run_id ← lift_res (member "run_id" run);
  threshold ← lift_res (research_threshold run);
  names ← lift_res (member "active_feature_names" features);
  golden ← lift_res (select_golden_cases scores features_file
    [("run_id", run_id); ("model_id", JStr "statistical"); ("threshold", threshold);
     ("active_feature_names", names)]%string baseline);
  b ← get_st;
  _ ← lift_res (guard_exn (negb (bool_decide (is_Some (output_dir b)))) (FileExistsError "destination already exists"));
  _ ← lift_res (guard_exn (negb (bool_decide (is_Some (temp_output b)))) (FileExistsError "temporary directory"));
  _ ← make_temp;
  or_clean (fill_research run_files features_file run names threshold golden).
End Research.
End Packaging.
