(* ===== verification/RunProps.v ===== *)
(** * Training runs: what a run of the benchmark writes *)

From S2P Require Import Prelude PyText PyTime PyFloat PyHash PyJson Contracts Messages KafkaIo.
From S2P Require Import Features ArtifactIntegrity Evaluation AlertPolicy Drift DriftProps Champion.
From S2P Require Import ModelRun Packaging.

(** Looking up a file by its name *)
Ltac look := repeat first [rewrite lookup_insert_eq | rewrite lookup_insert_ne by discriminate].

(** ** Runs of the benchmark *)
Section Runs.
Context `{Learning, Numpy, Statistics}.
Variable save_baseline : list string → list float → list float → bytes.
Variable joblib_dump : AnyDetector → bytes.
Variable write_scores : list ScoredWindow.t → bytes.
Abbreviation run_verified := (run_verified save_baseline joblib_dump write_scores).

Definition train_of (inputs : RunInputs) : list FeatureRow := split_rows "train" (in_table inputs).
Definition calibration_of (inputs : RunInputs) : list FeatureRow := split_rows "calibration" (in_table inputs).
Definition holdout_only (ws : list ScoredWindow.t) : Prop := Forall (λ w, ScoredWindow.split w = "holdout"%string) ws.

(** A candidate that a run left in [fs]: fitted on the train rows, with the threshold
    of the calibration rows, evaluated on the holdout. *)
Record candidate (contract : Phase1BContract.t) (inputs : RunInputs) (train calib : list (list float))
    (fs : Files) (m : ModelId) (r : CandidateResult) : Prop := {
  cand_model : cr_model r = m;
  cand_fitted : fit_phase1b_candidate m train calib contract = Ok (cr_fitted r);
  cand_evaluated : evaluate_candidate_holdout (cr_fitted r) (in_table inputs) (in_names inputs) contract = Ok r;
  cand_file : fs !! model_path m = Some (joblib_dump (fc_detector (cr_fitted r)));
  cand_holdout : holdout_only (cr_scores r)
}.

Lemma fitted_model m train calib contract f :
  fit_phase1b_candidate m train calib contract = Ok f → fc_model f = m.
Proof. unfold fit_phase1b_candidate. intros E. by inv_res. Qed.

Lemma scored_holdout fitted rows : ∀ scores, holdout_only (scored_windows fitted rows scores).
Proof. unfold scored_windows. induction rows as [|r rows IH]; intros [|s scores]; constructor; [done|apply IH]. Qed.

Lemma evaluated fitted tbl names contract r : evaluate_candidate_holdout fitted tbl names contract = Ok r →
  cr_fitted r = fitted ∧ cr_model r = fc_model fitted ∧ holdout_only (cr_scores r).
Proof.
  unfold evaluate_candidate_holdout. cbv zeta. intros E. inv_res. split; [done|]. split; [done|]. apply scored_holdout.
Qed.

Lemma candidate_frame contract inputs train calib fs fs' m r :
  fs' !! model_path m = fs !! model_path m →
  candidate contract inputs train calib fs m r → candidate contract inputs train calib fs' m r.
Proof. intros Hf [? ? ? ? ?]. split; congruence. Qed.

Lemma run_models_Ok contract inputs train calib ms fs rs fs' :
  NoDup (model_path <$> ms) →
  run_models joblib_dump contract inputs train calib ms fs = (Ok rs, fs') →
  Forall2 (candidate contract inputs train calib fs') ms rs ∧
  ∀ p, p ∉ model_path <$> ms → fs' !! p = fs !! p.
Proof.
  revert fs rs. induction ms as [|m ms IH]; intros fs rs Hnd E; cbn [run_models] in E; inv_M; [by split|].
  unfold run_model in *. inv_M. unfold write_file, modify in *. simplify_eq.
  rewrite fmap_cons in *. apply NoDup_cons in Hnd as [Hni Hnd].
  match goal with Hr : run_models _ _ _ _ _ _ _ = _ |- _ => destruct (IH _ _ Hnd Hr) as [Hc Hf] end.
  match goal with Hv : evaluate_candidate_holdout _ _ _ _ = _, Hi : fit_phase1b_candidate _ _ _ _ = _ |- _ =>
    pose proof (evaluated _ _ _ _ _ Hv) as (Hfit & Hmod & Hhold); pose proof (fitted_model _ _ _ _ _ Hi) as Hm end.
  split.
  - constructor; [|exact Hc]. split; [congruence|by rewrite Hfit|by rewrite Hfit| |done].
    rewrite Hf, Hfit by done. apply lookup_insert_eq.
  - intros p Hp. apply not_elem_of_cons in Hp as [Hne Hp]. rewrite Hf by done. by rewrite lookup_insert_ne.
Qed.

(** The first of [l] with [P] *)
Definition is_first {A} (P : A → Prop) (l : list A) (a : A) : Prop :=
  ∃ i, l !! i = Some a ∧ P a ∧ ∀ j b, (j < i)%nat → l !! j = Some b → ¬ P b.
Lemma head_filter_first {A} (P : A → Prop) `{∀ a, Decision (P a)} l a :
  head (filter P l) = Some a → is_first P l a.
Proof.
  induction l as [|b l IH]; [done|]. rewrite filter_cons. case_decide as Hb.
  - intros [= ->]. exists 0%nat. split; [done|]. split; [done|]. lia.
  - intros Hh. destruct (IH Hh) as (i & Hi & Ha & Hj). exists (S i). split; [done|]. split; [done|].
    intros [|j] c Hlt Hc; [by simplify_eq/=|]. apply (Hj j); [lia|done].
Qed.

Abbreviation is_feasible := (λ r, EvaluationResult.feasible (cr_evaluation r) = true).

(** What the run reports and writes of its choice *)
Definition champion_of (fs0 : Files) (inputs : RunInputs) (results : list CandidateResult)
    (fs : Files) (br : Phase1BBenchmarkResult) : Prop :=
  match br_selected br with
  | None => br_verdict br = "NOT FEASIBLE"%string ∧ Forall (λ r, ¬ is_feasible r) results ∧
      fs !! CHAMPION_MANIFEST = fs0 !! CHAMPION_MANIFEST
  | Some m => br_verdict br = "FEASIBLE"%string ∧
      ∃ r champion, is_first is_feasible results r ∧ cr_model r = m ∧
        fs !! CHAMPION_MANIFEST = Some (encode (dumps_indent (JObj champion))) ∧
        jget "model_id" champion = Some (JStr (model_text m)) ∧
        jget "threshold" champion = Some (JFloat (fc_threshold (cr_fitted r))) ∧
        jget "git_sha" champion = None ∧
        ∀ features, member "output_sha256" (in_manifest inputs) = Ok (JStr (sha256_hex features)) →
          verify_phase1b_artifacts fs (Some features) champion = Ok ()
  end.

Lemma file_sha256_Ok p fs s fs' : file_sha256 p fs = (Ok s, fs') →
  fs' = fs ∧ ∃ c, fs !! p = Some c ∧ s = sha256_hex c.
Proof. unfold file_sha256. intros E. inv_M. unfold get_st, gets in *. simplify_eq. inv_res. eauto. Qed.

Lemma check_file_ok fs p c : fs !! p = Some c → check_file fs p (Some (JStr (sha256_hex c))) = Ok ().
Proof. intros Hc. unfold check_file. by rewrite Hc, bool_decide_eq_true_2. Qed.

Lemma champion_verifies fs features run_id contract_sha prepared names r scores model baseline :
  fs !! SCORES_FILE = Some scores → fs !! model_path (cr_model r) = Some model →
  fs !! BASELINE_FILENAME = Some baseline →
  verify_phase1b_artifacts fs (Some features)
    (champion_manifest run_id (JStr (sha256_hex features)) contract_sha prepared names
       (sha256_hex scores) (sha256_hex model) (sha256_hex baseline) r) = Ok ().
Proof.
  intros Hs Hm Hb. unfold verify_phase1b_artifacts. cbn [of_option mbind result_bind]. cbv zeta.
  rewrite (bool_decide_eq_true_2 (jget "feature_output_sha256" _ = _)) by reflexivity.
  cbn [guard_exn mbind result_bind].
  change (jget "artifact_sha256" _) with
    (Some (JObj [("scores_parquet", JStr (sha256_hex scores)); ("model_binary", JStr (sha256_hex model));
                 ("evidence_baseline", JStr (sha256_hex baseline))])%string).
  change (jget "model_id" _) with (Some (JStr (model_text (cr_model r)))).
  cbn [mbind result_bind str_of]. change (jget "scores_parquet" _) with (Some (JStr (sha256_hex scores))).
  change (jget "evidence_baseline" _) with (Some (JStr (sha256_hex baseline))).
  change (jget "model_binary" _) with (Some (JStr (sha256_hex model))).
  rewrite (check_file_ok _ _ _ Hs). cbn [mbind result_bind]. rewrite (check_file_ok _ _ _ Hb).
  cbn [mbind result_bind]. exact (check_file_ok _ _ _ Hm).
Qed.

(** The files of a run that are not the detectors' *)
Definition run_files : list string := [SCORES_FILE; RUN_MANIFEST; CHAMPION_MANIFEST; BASELINE_FILENAME].
Lemma model_path_other m p : p ∈ run_files → p ≠ model_path m.
Proof. intros Hp. repeat (apply elem_of_cons in Hp as [->|Hp]; [by destruct m|]). by apply elem_of_nil in Hp. Qed.

Lemma candidates_frame contract inputs train calib fs fs' ms rs :
  (∀ m, fs' !! model_path m = fs !! model_path m) →
  Forall2 (candidate contract inputs train calib fs) ms rs → Forall2 (candidate contract inputs train calib fs') ms rs.
Proof. intros Hf Hc. eapply Forall2_impl; [exact Hc|]. intros m r. by apply candidate_frame. Qed.

Lemma candidates_holdout contract inputs train calib fs ms rs :
  Forall2 (candidate contract inputs train calib fs) ms rs → holdout_only (rs ≫= cr_scores).
Proof.
  induction 1 as [|m r ms rs Hc _ IH]; [constructor|]. apply Forall_app. split; [|exact IH]. apply (cand_holdout _ _ _ _ _ _ _ Hc).
Qed.

(** The last step of a run: the champion manifest, if there is a champion *)
Lemma write_champion contract inputs train calib run_id output_sha contract_sha fs0 fs fs' results br u :
  Forall2 (candidate contract inputs train calib fs) MODEL_IDS results →
  member "output_sha256" (in_manifest inputs) = Ok output_sha →
  fs !! CHAMPION_MANIFEST = fs0 !! CHAMPION_MANIFEST →
  br_selected br = cr_model <$> select_model results → br_verdict br = verdict_text (select_model results) →
  match select_model results with
  | None => mret ()
  | Some r =>
      scores ← file_sha256 SCORES_FILE;
      model ← file_sha256 (model_path (cr_model r));
      baseline ← file_sha256 BASELINE_FILENAME;
      write_file CHAMPION_MANIFEST (encode (dumps_indent (JObj (champion_manifest run_id output_sha contract_sha
        (in_prepared inputs) (in_names inputs) scores model baseline r))))
  end fs = (Ok u, fs') →
  champion_of fs0 inputs results fs' br ∧ ∀ p, p ≠ CHAMPION_MANIFEST → fs' !! p = fs !! p.
Proof.
  intros Hc Hout Hold Hsel Hver E. unfold champion_of. rewrite Hsel, Hver.
  destruct (select_model results) as [r|] eqn:Hr; simpl.
  - inv_M. repeat match goal with Hh : file_sha256 _ _ = _ |- _ => apply file_sha256_Ok in Hh as (-> & ? & ? & ->) end.
    unfold write_file, modify in *. simplify_eq. split; [|intros p Hp; by rewrite lookup_insert_ne].
    split; [done|]. eexists r, _. split; [exact (head_filter_first _ _ _ Hr)|]. split; [done|].
    split; [by rewrite lookup_insert_eq|]. do 3 (split; [reflexivity|]).
    intros features Hf. rewrite Hout in Hf. injection Hf as ->.
    apply champion_verifies; rewrite lookup_insert_ne; done.
  - inv_M. split; [|done]. split; [done|]. split; [|done].
    rewrite Forall_forall. intros r Hin Hfe. unfold select_model in Hr. apply head_None in Hr.
    assert (r ∈ filter (λ r, EvaluationResult.feasible (cr_evaluation r) = true) results) as Hin'
      by (by apply list_elem_of_filter).
    rewrite Hr in Hin'. by apply elem_of_nil in Hin'.
Qed.

(** C20. A run of the benchmark that returns.  Its three candidates, in the order of
    their simplicity, are each fitted on the train rows and thresholded on the
    calibration rows alone, evaluated on the holdout, and their detectors are in
    the run directory.  The selected model is the first feasible one; then, and only
    then, a champion manifest is written, which names it and its threshold and with
    whose digests the files of the run verify, whatever was in the directory.  The
    score file has the scores of all three, holdout rows only, and the manifest of
    the champion names no git revision, so a package of it is built without the
    check that the revision is an ancestor. *)
Theorem benchmark_outcome run_id now git contract inputs fs br fs'
    (Hrun : run_verified run_id now git contract inputs fs = (Ok br, fs')) :
  ∃ train calib results,
    feature_matrix (in_table inputs) (in_names inputs) (train_of inputs) = Ok train ∧
    feature_matrix (in_table inputs) (in_names inputs) (calibration_of inputs) = Ok calib ∧
    Forall2 (candidate contract inputs train calib fs') MODEL_IDS results ∧
    champion_of fs inputs results fs' br ∧
    fs' !! SCORES_FILE = Some (write_scores (results ≫= cr_scores)) ∧ holdout_only (results ≫= cr_scores) ∧
    is_Some (fs' !! RUN_MANIFEST).
Proof.
  unfold ModelRun.run_verified in Hrun. cbv zeta in Hrun. inv_M. unfold write_file, modify in *. simplify_eq.
  match goal with Hr : run_models _ _ _ _ _ _ _ = _ |- _ =>
    apply run_models_Ok in Hr as [Hc Hf]; [|apply (bool_decide_unpack _); vm_compute; reflexivity] end.
  assert (∀ p, p ∈ run_files → p ∉ model_path <$> MODEL_IDS) as Hother.
  { intros p Hp Hin. apply list_elem_of_fmap in Hin as (m & -> & _). by apply (model_path_other m) in Hp. }
  match goal with Hw : (match select_model ?rs with _ => _ end) ?fs1 = _ |- _ =>
    eapply (write_champion contract inputs _ _ _ _ _ fs fs1 _ rs) in Hw as [Hchamp Hrest] end.
  all: try done.
  - do 3 eexists. split; [eassumption|]. split; [eassumption|].
    split; [|split; [exact Hchamp|]].
    + eapply candidates_frame; [|exact Hc]. intros m. rewrite Hrest by done. by look.
    + rewrite !Hrest by done. look. split; [done|]. split; [by eapply candidates_holdout|by eexists].
  - eapply candidates_frame; [|exact Hc]. intros m. by look.
  - look. rewrite Hf by (apply Hother; set_solver). by look.
  - reflexivity.
  - reflexivity.
Qed.
End Runs.

(** ** Witness: a run over a table of one feature *)
Module RunExample.
#[local] Instance statistics : Statistics := {
  np_median l :=
    fdiv (fadd (default f0 (l !! ((length l - 1) / 2)%nat)) (default f0 (l !! (length l / 2)%nat))) (float_of_Z 2);
  np_quantile l q m := if bool_decide (m = "higher"%string) then Ok (default f0 (last l)) else Err (ValueError m);
  np_row_max l := default f0 (last l);
  average_precision positive l := int_div (count_true positive) (Z.of_nat (length l))
}.
#[local] Instance numpy : Numpy := {
  np_mean l := default f0 (last l); np_std l := f0; np_min l := default f0 (head l); np_max l := default f0 (last l)
}.
(** Libraries whose models give every row the score 0 *)
#[local] Instance learning : Learning := {
  forest := unit; fit_forest _ _ := (); score_samples _ rows := (λ _, f0) <$> rows;
  scaler := nat; fit_scaler rows := length (default [] (head rows)); scaler_size := id;
  tensor := list (list float); scaled _ rows := rows;
  generator := Z; seed_everything := id; epoch_batches _ g rows := ([rows], g + 1);
  network := unit; initial_network _ _ := (); training := nat; start_training _ _ := 0%nat;
  optimizer_step n _ := S n; trained _ := (); squared_errors _ rows := (λ _, [f0]) <$> rows
}.
Definition name : string := "tp2__mean".
Definition row (split : string) (ending : datetime) (value : Z) : FeatureRow :=
  mkFeatureRow split (ending - seconds 1800) ending (λ _, float_of_Z value).
(** [n] normal windows, and one at the start of each of the failures *)
Definition holdout (n : nat) : list FeatureRow :=
  ((λ i, row "holdout" (datetime_of 2020 4 10 0 0 0 0 + seconds (300 * Z.of_nat i)) 1) <$> seq 0 n) ++
  ((λ ev, row "holdout" (Event.source_start ev) 10) <$> phase1b_evaluation_events).
Definition table (n : nat) : FeatureTable := mkFeatureTable [name]
  ([row "train" (seconds 3600) 0; row "train" (seconds 7200) 2;
    row "calibration" (seconds 10800) 0; row "calibration" (seconds 14400) 2] ++ holdout n).
Definition digest : string := text (replicate 64 "a"%char).
Definition features : bytes := [2].
Definition features_sha : string := Eval vm_compute in sha256_hex features.
Definition inputs (n : nat) : RunInputs := mkInputs (PreparedArtifactIdentity.mk digest digest digest digest)
  [("contract_sha256", JStr digest); ("output_sha256", JStr features_sha)]%string [name] (table n).

Definition save_baseline (names : list string) (medians mads : list float) : bytes := [4].
Definition joblib_dump (d : AnyDetector) : bytes :=
  match d with Statistical _ => [5] | Forest _ => [6] | Autoencoder _ => [7] end.
(** One byte a row: whether it is of the holdout *)
Definition write_scores (ws : list ScoredWindow.t) : bytes :=
  (λ w, if bool_decide (ScoredWindow.split w = "holdout"%string) then 1 else 0) <$> ws.
Definition run (n : nat) : result Phase1BBenchmarkResult * Files :=
  run_verified save_baseline joblib_dump write_scores "run-1" (seconds 0) (text (replicate 40 "b"%char)) PHASE1C
    (inputs n) ∅.

(** With enough normal windows the statistical detector is feasible, otherwise none is. *)
Lemma run_selects :
  (br_selected <$> (run 100).1) = Ok (Some STATISTICAL) ∧ (br_selected <$> (run 1).1) = Ok None.
Proof. vm_compute. split; reflexivity. Qed.

Lemma benchmark_outcome_witness : ∃ br fs,
  run 100 = (Ok br, fs) ∧ br_selected br = Some STATISTICAL ∧
  ∃ results, champion_of ∅ (inputs 100) results fs br ∧ holdout_only (results ≫= cr_scores).
Proof.
  pose proof (proj1 run_selects) as Hsel.
  destruct (run 100) as [[br|e] fs] eqn:Hrun; [|discriminate Hsel]. injection Hsel as Hsel.
  exists br, fs. split; [reflexivity|]. split; [exact Hsel|].
  destruct (benchmark_outcome save_baseline joblib_dump write_scores "run-1" (seconds 0) (text (replicate 40 "b"%char))
    PHASE1C (inputs 100) ∅ br fs Hrun) as (_ & _ & results & _ & _ & _ & Hchamp & _ & Hhold & _).
  exists results. split; [exact Hchamp|exact Hhold].
Defined.
End RunExample.
