(* ===== verification/PackagingProps.v ===== *)
(** * Model packages: what the builders promise *)

From S2P Require Import Prelude PyText PyTime PyFloat PyHash PyJson Contracts Messages KafkaIo.
From S2P Require Import Features ArtifactIntegrity Evaluation AlertPolicy Drift DriftProps Champion.
From S2P Require Import ModelRun Packaging RunProps.

(** ** Failing builds

    [safe_err P m]: where [m] raises, [P] still holds. *)
Definition safe_err {S A} (P : S → Prop) (m : M S A) : Prop :=
  ∀ s, P s → match m s with (Err _, s') => P s' | _ => True end.

Lemma safe_err_bind {S A B} (P : S → Prop) (m : M S A) (f : A → M S B) :
  keeps P m → (∀ a, safe_err P (f a)) → safe_err P (m ≫= f).
Proof.
  intros Hm Hf s Hs. rewrite M_bind_run. specialize (Hm s Hs). destruct (m s) as [[a|e] s']; [|done].
  by apply Hf.
Qed.

Lemma lift_bind_Err {S A B} (r : result A) (f : A → M S B) s e s' : (lift_res r ≫= f) s = (Err e, s') →
  s' = s ∨ ∃ a, r = Ok a ∧ f a s = (Err e, s').
Proof. rewrite M_bind_run. unfold lift_res. destruct r; naive_solver. Qed.

(** A build: the temporary directory exists, the destination is as it was. *)
Definition building (o : option Files) (b : Build) : Prop := output_dir b = o.

Section Builders.
Context `{Pandas, NumpyStats}.
Variable json_loads : bytes → result json.
Variable read_features : bytes → result FeatureTable.
Variable read_train : bytes → TrainTable.
Variable read_scores : bytes → result (list ScoredWindow.t).
Variable load_baseline : bytes → result Baseline.
Variable dump_manifest : ChampionManifest.t → bytes.

Lemma building_put o p c : keeps (building o) (put_temp p c).
Proof. by apply keeps_modify. Qed.
Lemma building_copy o run p q : keeps (building o) (copy_file run p q).
Proof. unfold copy_file. keeps_all. apply building_put. Qed.
Lemma building_temp o : keeps (building o) temp_files.
Proof. apply keeps_gets. Qed.
#[local] Hint Resolve building_temp : keeps.
Lemma building_hash o n : keeps (building o) (artifact_hash n).
Proof. unfold artifact_hash. keeps_all. Qed.
Lemma building_hashes o ns : keeps (building o) (artifact_hashes ns).
Proof. induction ns as [|n ns IH]; simpl; [apply keeps_ret|]. apply keeps_bind; [apply building_hash|]. intros h. apply keeps_bind; [apply IH|]. intros hs. apply keeps_ret. Qed.
Lemma building_drift o f e : keeps (building o) (write_drift read_train f e).
Proof. unfold write_drift. keeps_all. apply building_put. Qed.
#[local] Hint Resolve building_put building_copy building_hash building_hashes building_drift : keeps.

(** The last two steps do not raise. *)
Lemma publish_safe {A} P (a : A) : safe_err P (_ ← publish_temp; mret a).
Proof. by intros s Hs. Qed.

Lemma fill_package_safe o run f champion src golden :
  safe_err (building o) (fill_package read_train dump_manifest run f champion src golden).
Proof.
  unfold fill_package. repeat (apply safe_err_bind; [solve [keeps_all]|intros ?]).
  apply publish_safe.
Qed.

(** What the cleanup leaves of a build *)
Lemma or_clean_err {A} (m : M Build A) b e b' :
  safe_err (building (output_dir b)) m → or_clean m b = (Err e, b') → b' = mkBuild (output_dir b) None.
Proof.
  intros Hm. unfold or_clean, catch. specialize (Hm b eq_refl). destruct (m b) as [[a|x] s']; [done|].
  unfold remove_temp. rewrite M_bind_run. cbn. intros [= _ <-]. by rewrite Hm.
Qed.
Lemma or_clean_Ok {A} (m : M Build A) b a b' : or_clean m b = (Ok a, b') → m b = (Ok a, b').
Proof. unfold or_clean, catch. destruct (m b) as [[x|e] s']; [done|]. by rewrite M_bind_run. Qed.

(** ** Successful builds *)

(** The artifacts of a manifest are files with the declared digests. *)
Definition declared (fs : Files) (entry : string * string) : Prop :=
  ∃ c, fs !! entry.1 = Some c ∧ entry.2 = sha256_hex c.

Lemma hashes_declared ns b hs b' : artifact_hashes ns b = (Ok hs, b') →
  b' = b ∧ hs.*1 = ns ∧ Forall (declared (default ∅ (temp_output b))) hs.
Proof.
  revert hs. induction ns as [|n ns IH]; intros hs E; cbn [artifact_hashes] in E; inv_M; [by repeat split|].
  unfold artifact_hash in *. inv_M.
  match goal with Ht : temp_files _ = _ |- _ => unfold temp_files, gets in Ht; simplify_eq end.
  match goal with Hl : of_option _ _ = Ok _ |- _ => apply of_option_Ok in Hl; rename Hl into Hc end.
  match goal with Ha : artifact_hashes ns _ = (Ok _, _) |- _ => destruct (IH _ Ha) as (-> & Hk & Hd) end.
  split; [done|]. split; [cbn; by f_equal|]. constructor; [by eexists|done].
Qed.

(** Names read as texts *)
Lemma texts_of (f : json → result string) l ns :
  (∀ j s, f j = Ok s → j = JStr s) → mapR f l = Ok ns → l = JStr <$> ns.
Proof.
  intros Hf Hm. apply mapR_Forall2 in Hm. induction Hm as [|j s l ns Hj _ IH]; [done|]. cbn. by rewrite (Hf _ _ Hj), IH.
Qed.
Lemma column_name_text j s : column_name j = Ok s → j = JStr s.
Proof. destruct j; naive_solver. Qed.
Lemma string_of_text k j s : string_of k j = Ok s → j = JStr s.
Proof. destruct j; naive_solver. Qed.

Lemma expected_same champion hs m version source contract names e :
  package_manifest champion hs = Ok m →
  member "model_version" champion = Ok version → member "source_dataset_sha256" champion = Ok source →
  member "contract_sha256" champion = Ok contract →
  member "active_feature_names" champion ≫= py_tuple = Ok names →
  drift_expected version source contract names = Ok e →
  e = expected_of m ∧ ChampionManifest.artifact_sha256 m = hs ∧ ChampionManifest.make m = Ok m ∧
  ChampionManifest.operational_status m = PRODUCTION_CANDIDATE ∧ names = JStr <$> ChampionManifest.feature_names m.
Proof.
  intros Hm Hv Hs Hc Hn He. unfold package_manifest in Hm. rewrite Hv, Hs, Hc in Hm. cbn [mbind result_bind] in Hm.
  apply bind_Ok in Hm as (run_id & _ & Hm). apply bind_Ok in Hm as (mid & _ & Hm). apply bind_Ok in Hm as (mid' & _ & Hm).
  apply bind_Ok in Hm as (v & Hv' & Hm). apply bind_Ok in Hm as (c & Hc' & Hm). apply bind_Ok in Hm as (so & Hs' & Hm).
  apply bind_Ok in Hm as (pr & _ & Hm). apply bind_Ok in Hm as (fe & _ & Hm). apply bind_Ok in Hm as (ns & Hns & Hm).
  rewrite Hn in Hns. injection Hns as <-. apply bind_Ok in Hm as (fn & Hfn & Hm). apply bind_Ok in Hm as (th & _ & Hm).
  unfold drift_expected in He. rewrite Hv', Hs', Hc', Hfn in He. cbn in He. injection He as <-.
  assert (ChampionManifest.make m = Ok m ∧ m = ChampionManifest.mk CHAMPION FEASIBLE PRODUCTION_CANDIDATE
    PHASE1B_CHAMPION_V1 run_id mid' v c so pr fe fn th (flit 995 1000) hs) as [Hmk ->].
  { pose proof Hm as Hm'. unfold ChampionManifest.make in Hm'. repeat (apply bind_Ok in Hm' as (? & _ & Hm')).
    injection Hm' as <-. by split. }
  split_and!; try done. exact (texts_of _ _ _ (string_of_text _) Hfn).
Qed.

Lemma copy_Ok run p q b u b' : copy_file run p q b = (Ok u, b') →
  ∃ c, run !! p = Some c ∧ b' = mkBuild (output_dir b) (<[q := c]> <$> temp_output b).
Proof. unfold copy_file. intros E. inv_M. unfold put_temp, modify in *. simplify_eq. inv_res. eauto. Qed.
Lemma drift_Ok f e b u b' : write_drift read_train f e b = (Ok u, b') →
  ∃ ref c, build_reference (Some (read_train f)) e = Ok ref ∧ save_reference ref = Ok c ∧
    b' = mkBuild (output_dir b) (<[DRIFT_REFERENCE_FILENAME := c]> <$> temp_output b).
Proof. unfold write_drift. intros E. inv_M. unfold put_temp, modify in *. simplify_eq. eauto 10. Qed.
Lemma hash_Ok n b h b' : artifact_hash n b = (Ok h, b') →
  b' = b ∧ ∃ c, default ∅ (temp_output b) !! n = Some c ∧ h = (n, sha256_hex c).
Proof. unfold artifact_hash. intros E. inv_M. unfold temp_files, gets in *. simplify_eq. inv_res. eauto. Qed.

Lemma declared_insert fs p c ns hs : p ∉ ns → Forall (declared fs) hs → hs.*1 = ns →
  Forall (declared (<[p := c]> fs)) hs.
Proof.
  intros Hp Hd Hk. rewrite Forall_forall in *. intros [n h] Hin. destruct (Hd _ Hin) as (x & Hx & Hs). exists x.
  split; [|exact Hs]. simpl in *. rewrite lookup_insert_ne; [done|]. intros <-. apply Hp. rewrite <-Hk.
  exact (list_elem_of_fmap_2 fst _ _ Hin).
Qed.

(** What a complete build published *)
Record published (run : Files) (f : bytes) (champion : dict) (src : string)
    (golden : list GoldenCase.t) (fs0 : Files) (m : ChampionManifest.t) (fs : Files) : Prop := {
  pub_make : ChampionManifest.make m = Ok m;
  pub_status : ChampionManifest.operational_status m = PRODUCTION_CANDIDATE;
  pub_manifest : fs !! MANIFEST_FILENAME = Some (dump_manifest m);
  pub_names : member "active_feature_names" champion ≫= py_tuple = Ok (JStr <$> ChampionManifest.feature_names m);
  pub_model : ∃ c, run !! src = Some c ∧ fs !! DETECTOR_FILENAME = Some c;
  pub_baseline : ∃ c, run !! BASELINE_FILENAME = Some c ∧ fs !! BASELINE_FILENAME = Some c;
  pub_drift : ∃ ref c, build_reference (Some (read_train f)) (expected_of m) = Ok ref ∧
    save_reference ref = Ok c ∧ fs !! DRIFT_REFERENCE_FILENAME = Some c;
  pub_golden : fs !! GOLDEN_CASES_FILENAME = Some (encode (dumps_indent (serialize_golden_cases golden)));
  pub_declared : Forall (declared fs) (ChampionManifest.artifact_sha256 m);
  pub_artifacts : (ChampionManifest.artifact_sha256 m).*1 = ChampionManifest.required;
  pub_others : ∀ p, p ∉ MANIFEST_FILENAME :: ChampionManifest.required → fs !! p = fs0 !! p
}.

Lemma fill_Ok run f champion src golden o fs0 m sha b' :
  fill_package read_train dump_manifest run f champion src golden (mkBuild o (Some fs0)) = (Ok (m, sha), b') →
  ∃ fs, b' = mkBuild (Some fs) None ∧ sha = sha256_hex (dump_manifest m) ∧
    published run f champion src golden fs0 m fs.
Proof.
  unfold fill_package. intros E. inv_M.
  repeat match goal with
  | Hx : copy_file _ _ _ _ = _ |- _ => apply copy_Ok in Hx as (? & ? & ->)
  | Hx : put_temp _ _ _ = _ |- _ => unfold put_temp, modify in Hx; simplify_eq
  | Hx : write_drift _ _ _ _ = _ |- _ => apply drift_Ok in Hx as (? & ? & ? & ? & ->)
  | Hx : artifact_hashes _ _ = _ |- _ => apply hashes_declared in Hx as (-> & ? & ?)
  | Hx : artifact_hash _ _ = _ |- _ => apply hash_Ok in Hx as (-> & ? & ? & ->)
  | Hx : publish_temp _ = _ |- _ => unfold publish_temp, modify in Hx; simplify_eq
  end.
  simpl in *.
  match goal with
  | Hm : package_manifest _ _ = Ok _, Hv : member "model_version" _ = _, Hs : member "source_dataset_sha256" _ = _,
    Hc : member "contract_sha256" _ = _, Hn : _ ≫= py_tuple = _, He : drift_expected _ _ _ _ = _ |- _ =>
      destruct (expected_same _ _ _ _ _ _ _ _ Hm Hv Hs Hc Hn He) as (-> & Ha & Hmake & Hstatus & ->)
  end.
  match goal with Hl : <[MANIFEST_FILENAME:=_]> _ !! _ = _ |- _ => rewrite lookup_insert_eq in Hl; injection Hl as <- end.
  eexists. split; [reflexivity|]. split; [reflexivity|]. split; rewrite ?Ha; try done.
  - by rewrite lookup_insert_eq.
  - eexists. split; [eassumption|]. by look.
  - eexists. split; [eassumption|]. by look.
  - do 2 eexists. split; [eassumption|]. split; [eassumption|]. by look.
  - by look.
  - match goal with Hd : Forall (declared _) ?l, Hk : ?l.*1 = _ |- _ => revert Hd Hk end.
    apply declared_insert. apply (bool_decide_unpack _). vm_compute. reflexivity.
  - intros p Hp. rewrite !lookup_insert_ne; [done|..]; intros <-; apply Hp; apply (bool_decide_unpack _); vm_compute; reflexivity.
Qed.

(** *** The gates of a build *)
Variable git_is_ancestor : string → bool.
Lemma golden_evidence_lengths names : ∀ values medians mads es,
  golden_evidence names values medians mads = Ok es →
  length medians = length names ∧ length mads = length names.
Proof.
  induction names as [|n names IH]; intros [|x values] [|m medians] [|d mads] es E; try discriminate E; [done|].
  cbn [golden_evidence] in E. apply bind_Ok in E as (es' & E & _). destruct (IH _ _ _ _ E). simpl. lia.
Qed.

(** The golden cases need the dimensions that loading a package checks. *)
Lemma select_golden_dims scores f champion base golden :
  select_golden_cases read_features read_scores load_baseline scores f champion base = Ok golden →
  ∃ b names, load_baseline base = Ok b ∧
    member "active_feature_names" champion ≫= py_tuple = Ok (JStr <$> names) ∧
    length (baseline_median b) = length names ∧ length (baseline_mad b) = length names.
Proof.
  unfold select_golden_cases. cbv zeta. intros E.
  apply bind_Ok in E as (tbl & _ & E). apply bind_Ok in E as (sc & _ & E). apply bind_Ok in E as (b & Hb & E).
  apply bind_Ok in E as (active & Ha & E). apply bind_Ok in E as (l & Hl & E).
  do 8 (apply bind_Ok in E as (? & _ & E)).
  apply bind_Ok in E as (names & Hn & E). apply mapR_Forall2 in E.
  inversion E as [|? ? ? ? Hc]; subst. unfold golden_case in Hc. cbv zeta in Hc.
  match type of Hc with context [let '(_, _) := ?r in _] => destruct r end.
  apply bind_Ok in Hc as (? & _ & Hc). apply bind_Ok in Hc as (es & He & _).
  apply golden_evidence_lengths in He as [Hm Hd].
  exists b, names. split; [done|]. split; [|done]. rewrite Ha. simpl. rewrite Hl. f_equal.
  exact (texts_of column_name _ _ column_name_text Hn).
Qed.
(** The gates that a build passed before its directory was made *)
Record passed (run : Files) (features : option bytes) (f : bytes) (champion : dict) (src : string)
    (golden : list GoldenCase.t) (base : bytes) : Prop := {
  pass_features : features = Some f;
  pass_manifest : ∃ content, run !! CHAMPION_MANIFEST = Some content ∧ dict_of json_loads content = Ok champion;
  pass_feasible : jget "verdict" champion = Some (JStr "FEASIBLE");
  pass_files : verify_phase1b_artifacts run features champion = Ok ();
  pass_model : ∃ model_id, member "model_id" champion = Ok model_id ∧
    src = ("models/" +:+ str_of model_id +:+ ".joblib")%string;
  pass_baseline : run !! BASELINE_FILENAME = Some base;
  pass_golden : ∃ scores, run !! SCORES_FILE = Some scores ∧
    select_golden_cases read_features read_scores load_baseline scores f champion base = Ok golden
}.
Abbreviation build := (build_champion_package json_loads read_features read_train read_scores load_baseline
  dump_manifest git_is_ancestor).

Lemma build_Ok run features b m sha b' : build run features b = (Ok (m, sha), b') →
  output_dir b = None ∧
  ∃ f champion src golden base, passed run features f champion src golden base ∧
    fill_package read_train dump_manifest run f champion src golden
      (mkBuild None (Some (default ∅ (temp_output b)))) = (Ok (m, sha), b').
Proof.
  unfold build_champion_package. intros E.
  apply M_bind_Ok in E as (b0 & s & Hs & E). unfold get_st, gets in Hs. simplify_eq.
  inv_M. unfold make_temp, modify in *. simplify_eq.
  match goal with Hf : or_clean _ _ = _ |- _ => apply or_clean_Ok in Hf; rename Hf into Hfill end. inv_res.
  match goal with Hd : ¬ is_Some _ |- _ => apply eq_None_not_Some in Hd; rename Hd into Hout end.
  match goal with Hv : verify_phase1b_artifacts _ _ _ = Ok ?u |- _ => destruct u end.
  split; [done|]. rewrite Hout in Hfill. do 5 eexists. split; [|exact Hfill]. split; eauto.
Qed.

(** A build that raises leaves the destination as it was, and no temporary files of its own. *)
Lemma build_Err run features b e b' : build run features b = (Err e, b') →
  b' = b ∨ b' = mkBuild (output_dir b) None.
Proof.
  unfold build_champion_package. rewrite M_bind_run. unfold get_st, gets. intros E.
  repeat (apply lift_bind_Err in E as [->|(? & _ & E)]; [by left|]).
  rewrite M_bind_run in E. right. apply or_clean_err in E; [done|]. apply fill_package_safe.
Qed.
#[local] Instance JStr_inj : Inj (=) (=) JStr.
Proof. by intros ? ? [= ->]. Qed.

(** *** Loading what was built *)
Section Serving.
Variable manifest_of_json : bytes → result ChampionManifest.t.
Variable load_detector : bytes → result Detector.
Abbreviation load := (load_champion manifest_of_json json_loads load_detector load_baseline).

(** The directory of a package, none of whose files is a link *)
Definition directory (fs : Files) : Package := mkPackage fs (λ _, true).

Lemma declared_artifacts fs l : Forall (declared fs) l → mapR (check_artifact (directory fs)) l = Ok ((λ _, ()) <$> l).
Proof.
  induction 1 as [|[n d] l (c & Hc & Hd) _ IH]; [done|]. cbn [mapR].
  assert (check_artifact (directory fs) (n, d) = Ok ()) as ->.
  { unfold check_artifact, resolve_safe_child. simpl in *. rewrite Hc. simpl. by rewrite bool_decide_eq_true_2. }
  simpl. by rewrite IH.
Qed.

(** Readers that read what was written: pydantic's of the manifest, [json.loads] of
    the drift reference. *)
Record reads (tbl : TrainTable) (m : ChampionManifest.t) : Prop := {
  reads_manifest : manifest_of_json (dump_manifest m) = Ok m;
  reads_drift : ∀ ref c, build_reference (Some tbl) (expected_of m) = Ok ref → save_reference ref = Ok c →
    json_loads c = Ok (norm (JObj (DriftReferenceV1.to_dict ref)))
}.

(** A published directory under its digest: only the model file and the names of
    the baseline decide. *)
Lemma published_loads run f champion src golden fs0 m fs model base b d allow :
  published run f champion src golden fs0 m fs → reads (read_train f) m → plain (expected_of m) →
  run !! src = Some model → load_detector model = Ok d →
  run !! BASELINE_FILENAME = Some base → load_baseline base = Ok b →
  length (baseline_median b) = length (ChampionManifest.feature_names m) →
  length (baseline_mad b) = length (ChampionManifest.feature_names m) →
  load (directory fs) (sha256_hex (dump_manifest m)) allow =
    if bool_decide (baseline_features b = ChampionManifest.feature_names m)
    then Ok (mkScorer m d (baseline_median b) (baseline_mad b))
    else Err (ChampionIntegrityError "evidence-baseline feature_names mismatch with manifest").
Proof.
  intros [Hmk Hst Hm _ (c & Hc & Hf) (c' & Hc' & Hf') (ref & rc & Hr & Hs & Hd) _ Hdecl _ _] [Hrm Hrd] Hp
    Hsrc Hdet Hbase Hb Hmed Hmad.
  simplify_eq. unfold load_champion, read_child, resolve_safe_child. cbv zeta. cbn [files directory is_child].
  rewrite Hm. cbn [of_option mbind result_bind]. rewrite bool_decide_eq_true_2 by done. cbn [guard_exn mbind result_bind].
  rewrite Hrm. cbn [mbind result_bind]. rewrite Hst, bool_decide_eq_false_2 by done. cbn [negb orb guard_exn mbind result_bind].
  change (mkPackage fs (λ _, true)) with (directory fs). rewrite declared_artifacts by done. cbn [mbind result_bind guard_exn].
  rewrite Hf, Hf', Hd. cbn [of_option mbind result_bind]. rewrite Hdet. cbn [mbind result_bind]. rewrite Hb. cbn [mbind result_bind].
  destruct (bool_decide (baseline_features b = ChampionManifest.feature_names m)); [|done]. cbn [guard_exn mbind result_bind]. rewrite !bool_decide_eq_true_2 by done.
  cbn [andb guard_exn mbind result_bind].
  destruct (reference_loads json_loads _ ref rc Hp (built_reference _ _ _ Hp Hr) (Hrd _ _ Hr Hs)) as [-> _]. done.
Qed.

(** C23. A champion package is published whole, and it serves.  A build that raises
    leaves the destination as it was and no temporary files of its own.  A build that
    returns had no destination to overwrite and passed every gate: the run is
    FEASIBLE and its files have the digests its champion manifest declares.  What
    it publishes is a production candidate whose manifest has the returned digest;
    the model, the baseline, the golden cases and the drift reference are those of
    the run, and each artifact has the declared digest.  If the readers read what
    was written, [load_champion] under the returned digest gives the scorer of the
    model of the run exactly when the baseline has the features of the manifest,
    and it refuses the package under any other digest. *)
Theorem package_serves run features b :
  match build run features b with
  | (Err _, b') => b' = b ∨ b' = mkBuild (output_dir b) None
  | (Ok (m, sha), b') =>
      output_dir b = None ∧
      ∃ fs f champion src golden base bl,
        b' = mkBuild (Some fs) None ∧ sha = sha256_hex (dump_manifest m) ∧
        passed run features f champion src golden base ∧
        published run f champion src golden (default ∅ (temp_output b)) m fs ∧ load_baseline base = Ok bl ∧
        (∀ model d allow, reads (read_train f) m → plain (expected_of m) →
           run !! src = Some model → load_detector model = Ok d →
           load (directory fs) sha allow =
             if bool_decide (baseline_features bl = ChampionManifest.feature_names m)
             then Ok (mkScorer m d (baseline_median bl) (baseline_mad bl))
             else Err (ChampionIntegrityError "evidence-baseline feature_names mismatch with manifest")) ∧
        (∀ pin allow, pin ≠ sha →
           load (directory fs) pin allow = Err (ChampionIntegrityError "manifest SHA-256 mismatch"))
  end.
Proof.
  destruct (build run features b) as [[[m sha]|e] b'] eqn:E; [|by eapply build_Err].
  apply build_Ok in E as (Hout & f & champion & src & golden & base & Hpass & Hfill). split; [done|].
  apply fill_Ok in Hfill as (fs & -> & -> & Hpub).
  destruct (pass_golden _ _ _ _ _ _ _ Hpass) as (scores & _ & Hg).
  apply select_golden_dims in Hg as (bl & names & Hbl & Hn & Hmed & Hmad).
  assert (names = ChampionManifest.feature_names m) as ->.
  { rewrite (pub_names _ _ _ _ _ _ _ _ Hpub) in Hn. injection Hn as Hn. apply (inj (fmap JStr)) in Hn. done. }
  do 7 eexists. split_and!; eauto.
  - intros model d allow Hr Hp Hsrc Hd. eapply published_loads; eauto using pass_baseline.
  - intros pin allow Hpin. unfold load_champion. cbn [files directory].
    rewrite (pub_manifest _ _ _ _ _ _ _ _ Hpub). cbn [of_option mbind result_bind]. by rewrite bool_decide_eq_false_2.
Qed.
End Serving.
End Builders.

(** ** Alert policies of a run *)
Section Policies.
Context `{Learning, Numpy, Statistics, Pandas, NumpyStats, FrameOps}.
Variable save_baseline : list string → list float → list float → bytes.
Variable joblib_dump : AnyDetector → bytes.
Variable write_scores : list ScoredWindow.t → bytes.
Variable json_loads : bytes → result json.
Variable read_features : bytes → result FeatureTable.
Variable read_train : bytes → TrainTable.
Variable read_scores : bytes → result (list ScoredWindow.t).
Variable load_baseline : bytes → result Baseline.
Variable dump_manifest : ChampionManifest.t → bytes.
Variable git_is_ancestor : string → bool.
Variable read_policy_scores : bytes → result (list AlertPolicy.ScoreRow.t).
Abbreviation build := (build_champion_package json_loads read_features read_train read_scores load_baseline
  dump_manifest git_is_ancestor).
Abbreviation build_research := (build_research_candidate_package json_loads read_features read_train read_scores
  load_baseline dump_manifest read_policy_scores).
Abbreviation lock_policy := (lock_policy_file json_loads read_policy_scores).

(** A row that a policy may be fitted on *)
Definition fits (r : AlertPolicy.ScoreRow.t) : Prop :=
  AlertPolicy.ScoreRow.split r = "calibration"%string ∨ AlertPolicy.ScoreRow.split r = "train"%string.

Lemma rows_of_fits scores m s r rows : rows_of scores m s = r :: rows → r ∈ scores ∧ AlertPolicy.ScoreRow.split r = s.
Proof.
  intros E. assert (r ∈ rows_of scores m s) as Hr by (rewrite E; by left).
  unfold rows_of in Hr. apply list_elem_of_filter in Hr as [[_ Hs] Hin]. done.
Qed.

Lemma calibration_rows_fit scores m research rows :
  calibration_rows scores m research = Ok rows → ∃ r, r ∈ scores ∧ fits r.
Proof.
  unfold calibration_rows, fits. intros E.
  destruct (rows_of scores m "calibration") as [|r l] eqn:Hc; [|apply rows_of_fits in Hc as []; eauto].
  destruct research; [|done].
  destruct (rows_of scores m "train") as [|r l] eqn:Ht; [done|]. apply rows_of_fits in Ht as []; eauto.
Qed.

Lemma lock_needs_rows manifest scores sha p : lock_alert_policy manifest scores sha = Ok p →
  ∃ ws r, scores = Some ws ∧ r ∈ ws ∧ fits r.
Proof.
  unfold lock_alert_policy. intros E. do 6 (apply bind_Ok in E as (? & _ & E)). cbv zeta in E.
  apply bind_Ok in E as (ws & Hws & E). apply of_option_Ok in Hws as ->. apply bind_Ok in E as (? & _ & E).
  apply bind_Ok in E as (rows & Hr & _). apply calibration_rows_fit in Hr as (r & Hin & Hf). eauto.
Qed.

(** Locking a policy in a directory reads the score file, and raises or writes one file. *)
Lemma lock_policy_cases o dir :
  (∃ c ws r, dir !! SCORES_FILE = Some c ∧ read_policy_scores c = Ok ws ∧ r ∈ ws ∧ fits r) ∨
  ∃ e, lock_policy (mkBuild o (Some dir)) = (Err e, mkBuild o (Some dir)).
Proof.
  destruct (lock_policy (mkBuild o (Some dir))) as [[u|e] b'] eqn:E.
  - left. unfold lock_policy_file in E. inv_M. unfold temp_files, gets in *. simplify_eq. cbn [default temp_output] in *.
    match goal with Hl : lock_alert_policy _ _ _ = Ok _ |- _ => apply lock_needs_rows in Hl as (ws & r & -> & Hin & Hf) end.
    cbn in *. match goal with Hs : (match ?f with _ => _ end) = Ok _ |- _ => destruct f as [c|] eqn:Hc; [|discriminate Hs] end.
    inv_res. eauto 10.
  - right. exists e. f_equal. unfold lock_policy_file in E. rewrite M_bind_run in E. unfold temp_files, gets in E.
    repeat (apply lift_bind_Err in E as [->|(? & _ & E)]; [done|]). done.
Qed.
#[local] Hint Resolve building_temp building_put building_copy building_hash building_hashes building_drift : keeps.
Lemma fill_research_safe o run_files f champion names threshold golden :
  safe_err (building o) (fill_research json_loads read_train dump_manifest read_policy_scores run_files f champion
    names threshold golden).
Proof.
  unfold fill_research, lock_policy_file.
  repeat (apply safe_err_bind; [solve [keeps_all]|intros ?]).
  apply publish_safe.
Qed.

Lemma research_Err run_files f manifest b e b' : build_research run_files f manifest b = (Err e, b') →
  b' = b ∨ b' = mkBuild (output_dir b) None.
Proof.
  unfold build_research_candidate_package. cbv zeta. intros E.
  repeat (apply lift_bind_Err in E as [->|(? & _ & E)]; [by left|]).
  right. apply or_clean_err in E; [done|]. apply fill_research_safe.
Qed.

Lemma research_needs_rows run_files f manifest b m sha b' :
  build_research run_files f manifest b = (Ok (m, sha), b') →
  ∃ c ws r, run_files !! SCORES_FILE = Some c ∧ read_policy_scores c = Ok ws ∧ r ∈ ws ∧ fits r.
Proof.
  unfold build_research_candidate_package. cbv zeta. intros E. inv_M.
  match goal with Hf : or_clean _ _ = _ |- _ => apply or_clean_Ok in Hf; rename Hf into Hfill end.
  unfold make_temp, modify, get_st, gets in *. simplify_eq. unfold fill_research in Hfill. inv_M.
  repeat match goal with
  | Hx : copy_file _ _ _ _ = _ |- _ => apply copy_Ok in Hx as (? & ? & ->)
  | Hx : put_temp _ _ _ = _ |- _ => unfold put_temp, modify in Hx; simplify_eq
  | Hx : write_drift _ _ _ _ = _ |- _ => apply drift_Ok in Hx as (? & ? & ? & ? & ->)
  | Hx : artifact_hashes _ _ = _ |- _ => apply hashes_declared in Hx as (-> & ? & ?)
  end.
  match goal with Hl : lock_policy _ = _ |- _ => cbn [output_dir temp_output fmap option_fmap option_map] in Hl end.
  match goal with Hl : lock_policy (mkBuild ?o (Some ?dir)) = _ |- _ =>
    destruct (lock_policy_cases o dir) as [(c & ws & r & Hc & Hrest)|(e & He)]; [|rewrite He in Hl; discriminate Hl] end.
  rewrite !lookup_insert_ne in Hc by done. rewrite lookup_insert_eq in Hc. injection Hc as <-. eauto 10.
Qed.

(** C21. No alert policy can be locked for a run of the benchmark.  The score file that
    a run writes has holdout rows only, while a policy is fitted on calibration rows,
    or for a research package on train rows.  So, with a reader that gives back the
    split of every row, locking a policy raises in every directory whose score file
    is the run's or is missing, and changes nothing there; a research package of
    the run can never be built, whatever the other inputs; and a champion package
    of the run is published without a score file, so no policy can be locked for it. *)
Theorem no_policy_from_run run_id now git contract inputs fs0 br fs
    (Hread : ∀ ws rows, read_policy_scores (write_scores ws) = Ok rows →
       AlertPolicy.ScoreRow.split <$> rows = ScoredWindow.split <$> ws)
    (Hrun : run_verified save_baseline joblib_dump write_scores run_id now git contract inputs fs0 = (Ok br, fs)) :
  (∀ o dir, dir !! SCORES_FILE = fs !! SCORES_FILE ∨ dir !! SCORES_FILE = None →
     ∃ e, lock_policy (mkBuild o (Some dir)) = (Err e, mkBuild o (Some dir))) ∧
  (∀ features manifest b, ∃ e b', build_research fs features manifest b = (Err e, b') ∧
     (b' = b ∨ b' = mkBuild (output_dir b) None)) ∧
  (∀ features o m sha b', build fs features (mkBuild o None) = (Ok (m, sha), b') →
     ∃ dir, b' = mkBuild (Some dir) None ∧ ∃ e, lock_policy (mkBuild None (Some dir)) = (Err e, mkBuild None (Some dir))).
Proof.
  apply benchmark_outcome in Hrun as (_ & _ & results & _ & _ & _ & _ & Hscores & Hhold & _).
  assert (∀ c ws r, fs !! SCORES_FILE = Some c → read_policy_scores c = Ok ws → r ∈ ws → ¬ fits r) as Hno.
  { intros c ws r Hc Hws Hr. rewrite Hscores in Hc. injection Hc as <-. apply Hread in Hws.
    unfold holdout_only in Hhold. rewrite Forall_forall in Hhold.
    apply (list_elem_of_fmap_2 AlertPolicy.ScoreRow.split) in Hr. rewrite Hws in Hr.
    apply list_elem_of_fmap in Hr as (w & Hr & Hin). unfold fits. rewrite Hr, (Hhold _ Hin). by intros [|]. }
  assert (∀ o dir, dir !! SCORES_FILE = fs !! SCORES_FILE ∨ dir !! SCORES_FILE = None →
     ∃ e, lock_policy (mkBuild o (Some dir)) = (Err e, mkBuild o (Some dir))) as Hlock.
  { intros o dir Hdir. destruct (lock_policy_cases o dir) as [(c & ws & r & Hc & Hws & Hr & Hf)|He]; [|exact He].
    destruct Hdir as [Hdir|Hdir]; rewrite Hdir in Hc; [|discriminate]. by destruct (Hno c ws r). }
  split; [exact Hlock|]. split.
  - intros f manifest b. destruct (build_research fs f manifest b) as [[[m sha]|e] b'] eqn:E.
    + apply research_needs_rows in E as (c & ws & r & Hc & Hws & Hr & Hf). by destruct (Hno c ws r).
    + exists e, b'. split; [done|]. by eapply research_Err.
  - intros f o m sha b' E. apply build_Ok in E as (_ & ? & champion & src & golden & base & _ & Hfill).
    apply fill_Ok in Hfill as (dir & -> & _ & Hpub). exists dir. split; [done|]. apply Hlock. right.
    rewrite (pub_others _ _ _ _ _ _ _ _ _ _ Hpub); [done|]. apply (bool_decide_unpack _). vm_compute. reflexivity.
Qed.
End Policies.

(** ** Witness: a run whose files are one byte each *)
Module BuildExample.
#[local] Existing Instance DriftExample.stats.
#[local] Instance pandas : Pandas := {
  pd_merge rows scores := Ok (zip rows scores);
  sort_by_start := id;
  sort_by_score_descending := reverse
}.
Definition names : list string := ["tp2__mean"; "tp3__mean"]%string.
Definition digest : string := text (replicate 64 "a"%char).
Definition features : bytes := [2].
Definition feature_table : FeatureTable := mkFeatureTable names
  [mkFeatureRow "calibration" 0 300 (λ _, f0); mkFeatureRow "calibration" 300 600 (λ _, f1);
   mkFeatureRow "holdout" 600 900 (λ _, f0)].
Definition scored (split : string) (t : Z) (score : float) : ScoredWindow.t :=
  ScoredWindow.mk STATISTICAL split t (t + 300) score f1 (fleb f1 score).
Definition scores : list ScoredWindow.t :=
  [scored "calibration" 0 f0; scored "calibration" 300 f1; scored "holdout" 600 f1].
Definition baseline : Baseline := mkBaseline names [f0; f0] [f1; f1].
Definition champion : dict := Eval vm_compute in
  [("schema_version", JStr "phase1b-champion-v1"); ("run_id", JStr "run-1"); ("verdict", JStr "FEASIBLE");
   ("model_id", JStr "statistical"); ("model_version", JStr "champion-statistical-v1"); ("threshold", JFloat f1);
   ("active_feature_names", jstrs names); ("contract_sha256", JStr digest);
   ("source_dataset_sha256", JStr digest); ("prepared_output_sha256", JStr digest);
   ("feature_output_sha256", JStr (sha256_hex features));
   ("artifact_sha256", JObj [("scores_parquet", JStr (sha256_hex [3])); ("model_binary", JStr (sha256_hex [5]));
                             ("evidence_baseline", JStr (sha256_hex [4]))])]%string.
Definition run : Files :=
  <[CHAMPION_MANIFEST := [1]]> (<[SCORES_FILE := [3]]> (<[BASELINE_FILENAME := [4]]>
  (<["models/statistical.joblib"%string := [5]]> ∅))).
Definition read_features (c : bytes) : result FeatureTable := Ok feature_table.
Definition read_train (c : bytes) : TrainTable := DriftExample.table.
Definition read_scores (c : bytes) : result (list ScoredWindow.t) := Ok scores.
Definition load_baseline (c : bytes) : result Baseline := Ok baseline.
Definition dump_manifest (m : ChampionManifest.t) : bytes := encode (ChampionManifest.model_version m).
Definition load_detector (c : bytes) : result Detector := Ok (λ row, Ok (foldr fadd f0 row)).

(** The reference of the package and its file *)
Definition identity : Expected := Eval vm_compute in mkExpected "champion-statistical-v1" digest digest names.
Definition reference : DriftReferenceV1.t := Eval vm_compute in
  match build_reference (Some DriftExample.table) identity with
  | Ok ref => ref
  | Err _ => DriftExample.reference
  end.
Definition reference_file : bytes := Eval vm_compute in
  match save_reference reference with Ok c => c | Err _ => [] end.
Definition json_loads (c : bytes) : result json :=
  if bool_decide (c = [1]) then Ok (JObj champion)
  else if bool_decide (c = reference_file) then Ok (norm (JObj (DriftReferenceV1.to_dict reference)))
  else Err (ValueError "JSONDecodeError").

Definition nothing : Build := mkBuild None None.
Definition built := build_champion_package json_loads read_features read_train read_scores load_baseline
  dump_manifest (λ _, true) run (Some features) nothing.
Definition manifest : ChampionManifest.t := Eval vm_compute in
  match built with
  | (Ok (m, _), _) => m
  | _ => ChampionManifest.mk CHAMPION FEASIBLE PRODUCTION_CANDIDATE PHASE1B_CHAMPION_V1 "" STATISTICAL ""
           "" "" "" "" [] f0 f0 []
  end.
Definition manifest_of_json (c : bytes) : result ChampionManifest.t :=
  if bool_decide (c = dump_manifest manifest) then Ok manifest else Err (ValidationError "manifest").

Lemma built_ok : fst <$> built.1 = Ok manifest.
Proof. vm_compute. reflexivity. Qed.

Lemma package_serves_witness : ∃ sha fs,
  built = (Ok (manifest, sha), mkBuild (Some fs) None) ∧
  ∃ s, load_champion manifest_of_json json_loads load_detector load_baseline (directory fs) sha false = Ok s.
Proof.
  assert (reads json_loads dump_manifest manifest_of_json DriftExample.table manifest) as Hr.
  { split; [vm_compute; reflexivity|]. intros ref c Hb Hs.
    assert (build_reference (Some DriftExample.table) (expected_of manifest) = Ok reference) as Hb'
      by (vm_compute; reflexivity).
    assert (save_reference reference = Ok reference_file) as Hs' by (vm_compute; reflexivity).
    rewrite Hb' in Hb. injection Hb as <-. rewrite Hs' in Hs. injection Hs as <-. vm_compute. reflexivity. }
  assert (plain (expected_of manifest)) as Hp
    by (split; try (split; discriminate); apply (bool_decide_unpack _); vm_compute; reflexivity).
  pose proof (package_serves json_loads read_features read_train read_scores load_baseline dump_manifest
    (λ _, true) manifest_of_json load_detector run (Some features) nothing) as Hserves.
  fold built in Hserves. pose proof built_ok as Hok.
  destruct built as [[[m sha]|e] b']; [|discriminate Hok]. cbn in Hok. injection Hok as ->.
  destruct Hserves as (_ & fs & f & champ & src & golden & base & bl & -> & _ & Hpass & Hpub & Hbl & Hload & _).
  destruct (pub_model _ _ _ _ _ _ _ _ _ _ Hpub) as (model & Hsrc & _). injection Hbl as <-.
  exists sha, fs. split; [reflexivity|].
  eexists. rewrite (Hload model _ false Hr Hp Hsrc eq_refl). reflexivity.
Defined.

(** The run of [RunExample] that has no feasible model, read back row by row *)
#[local] Existing Instances RunExample.learning RunExample.numpy RunExample.statistics.
#[local] Instance frame_ops : FrameOps := {
  sort_values := id; col_min l := default (CTime 0) (head l); col_max l := default (CTime 0) (last l)
}.
Definition policy_row (b : Z) : result AlertPolicy.ScoreRow.t :=
  _ ← guard_exn (b =? 1) (ValueError "split");
  Ok (AlertPolicy.ScoreRow.mk "statistical" "holdout" (CTime 0) (CTime 300) false).
Definition read_policy_scores : bytes → result (list AlertPolicy.ScoreRow.t) := mapR policy_row.

Lemma read_back ws : ∀ rows, read_policy_scores (RunExample.write_scores ws) = Ok rows →
  AlertPolicy.ScoreRow.split <$> rows = ScoredWindow.split <$> ws.
Proof.
  unfold read_policy_scores, RunExample.write_scores, policy_row.
  induction ws as [|w ws IH]; intros rows E; cbn in E; inv_res; [done|].
  case_bool_decide as Hw; [|done]. cbn. rewrite Hw. f_equal. by apply IH.
Qed.

Lemma no_policy_from_run_witness : ∃ br fs, RunExample.run 1 = (Ok br, fs) ∧ br_selected br = None ∧
  ∀ features manifest b, ∃ e b', build_research_candidate_package json_loads read_features read_train read_scores
    load_baseline dump_manifest read_policy_scores fs features manifest b = (Err e, b').
Proof.
  pose proof (proj2 RunExample.run_selects) as Hsel.
  destruct (RunExample.run 1) as [[br|e] fs] eqn:Hrun; [|discriminate Hsel]. injection Hsel as Hsel.
  exists br, fs. split; [reflexivity|]. split; [exact Hsel|]. intros features manifest b.
  destruct (no_policy_from_run RunExample.save_baseline RunExample.joblib_dump RunExample.write_scores json_loads
    read_features read_train read_scores load_baseline dump_manifest (λ _, true) read_policy_scores "run-1" (seconds 0)
    (text (replicate 40 "b"%char)) PHASE1C (RunExample.inputs 1) ∅ br fs read_back Hrun) as (_ & Hres & _).
  destruct (Hres features manifest b) as (e & b' & He & _). exists e, b'. exact He.
Defined.

(** A score file with a calibration row is enough to lock a policy. *)
Example calibration_row_locks :
  is_ok (lock_policy_file json_loads
    (λ _, Ok [AlertPolicy.ScoreRow.mk "statistical" "calibration" (CTime 0) (CTime (seconds 300)) false])
    (mkBuild None (Some (<[MANIFEST_FILENAME := [1]]> (<[SCORES_FILE := [3]]> ∅))))).1 = true.
Proof. vm_compute. reflexivity. Qed.
End BuildExample.
