(* ===== verification/Api.v ===== *)
(** * The HTTP API of the console *)

From S2P Require Import Prelude PyText PyUuid PyTime PyFloat PyHash PyJson Messages KafkaIo.
From S2P Require Import Scoring AlertPolicy AlertState StateCodec Tables Store StoreProps.
From S2P Require Import ConsoleStream Rca Champion.

(** ** The HTTP API of the console ([api.py])

    The handlers of the [/v1] routes over the scorer, the store, the command
    producer and the broker: a response is its status code and the JSON of its
    envelope.  FastAPI (routing, the parsing of parameters, the serialization of
    [ScoreResponseV1]), the metrics and the logger are not modelled; an exception
    that a handler raises is the [Err] of its computation.  Messages that
    interpolate values of an exception are abbreviated to what the exception of
    the model carries. *)

(** ** Requests *)
Module StartReplayRequestV1.
Record t := mk { range_start : stamp; range_end : stamp; speed : Z }.
(** [bounded_range]: the comparison of a naive with an aware time raises. *)
Definition make (range_start range_end : stamp) (speed : Z) : result t :=
  _ ← field (bool_decide (speed ∈ [1; 100; 1000])) "speed";
  late ← stamp_geb range_start range_end;
  _ ← guard_exn (negb late) (ValidationError "range_start must precede range_end");
  Ok (mk range_start range_end speed).
End StartReplayRequestV1.

Module ReplayControlRequestV1.
Record t := mk { action : ReplayAction }.
Definition make (action : ReplayAction) : result t :=
  _ ← field (bool_decide (action ∈ [PAUSE; RESUME; STOP])) "action";
  Ok (mk action).
End ReplayControlRequestV1.

(** ** Responses *)
Record ApiResponse := JSONResponse { status : Z; payload : json }.

Definition envelope (ok : bool) (data error : json) : json :=
  JObj [("success", JBool ok); ("data", data); ("error", error)]%string.
Definition error_object (code message : string) : json :=
  JObj [("code", JStr code); ("message", JStr message)]%string.
Definition success_envelope (code : Z) (data : json) : ApiResponse := JSONResponse code (envelope true data JNull).
Definition error_envelope (code : Z) (name message : string) : ApiResponse :=
  JSONResponse code (envelope false JNull (error_object name message)).

Definition ERR_STORE_UNAVAILABLE_MSG : string := "Database store not configured".
Definition store_unavailable_response : ApiResponse :=
  error_envelope 503 "STORE_UNAVAILABLE" ERR_STORE_UNAVAILABLE_MSG.
Definition producer_unavailable_response (message : string) : ApiResponse :=
  error_envelope 503 "PRODUCER_UNAVAILABLE" message.

(** The two exception handlers of the application; [None]: no handler. *)
Definition exception_response (e : exn) : option ApiResponse :=
  match e with
  | ScoringContractError msg => Some (error_envelope 409 "SCORING_CONTRACT_MISMATCH" msg)
  | _ => None
  end.
Definition request_validation_error_handler : ApiResponse :=
  error_envelope 422 "INVALID_REQUEST" "request validation failed".

Definition event_name (t : EventType) : string :=
  match t with
  | STATUS_EVENT => "status" | TELEMETRY_EVENT => "telemetry"
  | SCORE_EVENT => "score" | ALERT_EVENT => "alert"
  end.

(** A frame of the stream; no caller passes a text as its data. *)
Definition encode_sse (event : string) (data : dict) (event_id : option string) : result bytes :=
  body ← print_json false (JObj data);
  let id_line := match event_id with
                 | Some i => if nonempty i then chars ("id: " +:+ i) ++ ["010"%char] else []
                 | None => []
                 end in
  Ok (encode (text (id_line ++ chars ("event: " +:+ event) ++ ["010"%char]
                    ++ chars "data: " ++ body ++ ["010"%char; "010"%char]))).

Definition optional (f : datetime → string) (t : option datetime) : json :=
  match t with Some t => JStr (f t) | None => JNull end.
Definition optional_text (s : option string) : json :=
  match s with Some s => JStr s | None => JNull end.

Section Serialize.
(** [isoformat()] of a [timestamptz] in the time zone of the session *)
Variable timestamptz_text : Z → string.

Definition serialize_replay (sid : UUID) (r : SessionRow.t) : dict :=
  [("replay_session_id", JStr (str_uuid sid));
   ("source_dataset_sha256", JStr (SessionRow.source_dataset_sha256 r));
   ("contract_sha256", JStr (SessionRow.contract_sha256 r));
   ("model_version", JStr (SessionRow.model_version r));
   ("state", JStr (state_text (SessionRow.state r)));
   ("last_sequence", match SessionRow.last_sequence r with Some n => JInt n | None => JNull end);
   ("source_timestamp", optional isoformat (SessionRow.source_timestamp r));
   ("error_code", optional_text (SessionRow.error_code r));
   ("updated_at", JStr (timestamptz_text (SessionRow.updated_at r)))]%string.

Definition serialize_alert_summary (alert : UUID * AlertRow.t) : dict :=
  let '(id, a) := alert in
  [("alert_id", JStr (str_uuid id));
   ("replay_session_id", JStr (str_uuid (AlertRow.replay_session_id a)));
   ("machine_id", JStr (AlertRow.machine_id a));
   ("state", JStr (row_state_text (AlertRow.state a)));
   ("first_detection", JStr (isoformat (AlertRow.first_detection a)));
   ("last_detection", JStr (isoformat (AlertRow.last_detection a)));
   ("resolved_at", optional isoformat (AlertRow.resolved_at a));
   ("latest_decision_id", JStr (str_uuid (AlertRow.latest_decision_id a)));
   ("policy_sha256", JStr (AlertRow.policy_sha256 a))]%string.

Definition serialize_alert_detail (detail : AlertDetailRecord) : dict :=
  [("alert", JObj (serialize_alert_summary (detail_alert detail)));
   ("events", JList (JObj <$> detail_events detail));
   ("evidence", JList (JObj <$> detail_evidence detail));
   ("decisions", JList (JObj <$> detail_decisions detail));
   ("rca", match detail_rca detail with Some r => JObj r | None => JNull end)]%string.

(** ** Health and provenance *)
Definition healthz : ApiResponse := success_envelope 200 (JObj [("status"%string, JStr "ok")]).

(** What [check_connection] does, when there is a store, and what [verify] answers,
    when there is a verifier ([Some None]: verified). *)
Definition readyz (store_check : option (result unit)) (provenance : option (option string)) : ApiResponse :=
  let db_status := match store_check with
                   | None => "UNKNOWN" | Some (Ok _) => "HEALTHY" | Some (Err _) => "UNAVAILABLE"
                   end%string in
  let dependencies := JObj [("database"%string, JStr db_status)] in
  let unhealthy := JObj [("status"%string, JStr "unhealthy"); ("dependencies"%string, dependencies)] in
  let ready :=
    if bool_decide (db_status = "UNAVAILABLE"%string) then
      JSONResponse 503 (envelope false unhealthy
        (error_object "DATABASE_UNAVAILABLE" "Configured database is not reachable"))
    else success_envelope 200 (JObj ([("status"%string, JStr "ready")] ++
           match store_check with Some _ => [("dependencies"%string, dependencies)] | None => [] end)) in
  match provenance with
  | Some (Some reason) =>
      JSONResponse 503 (envelope false unhealthy
        (error_object "CHAMPION_PROVENANCE_MISMATCH"
           (if nonempty reason then reason else "Champion provenance verification failed")))
  | _ => ready
  end.

(** [get_model_provenance]; [provenance] is what [get_provenance_data] returns or raises. *)
Definition get_model_provenance (scorer : ChampionScorer) (provenance : option (result dict))
    (model_version : string) : result ApiResponse :=
  if negb (bool_decide (model_version = scorer_version scorer)) then
    Ok (error_envelope 404 "MODEL_VERSION_NOT_FOUND" ("Model version " +:+ model_version +:+ " not found"))
  else
    match provenance with
    | Some data => data ← data; Ok (success_envelope 200 (JObj data))
    | None =>
        Ok (success_envelope 200 (JObj
          [("model_version", JStr (scorer_version scorer));
           ("active_feature_names", JList (JStr <$> ChampionManifest.feature_names (manifest scorer)));
           ("threshold", JFloat (scorer_threshold scorer))]%string))
    end.
End Serialize.

(** ** Scoring *)
Definition decision_uuid (window_id : UUID) (model_version : string) : UUID :=
  uuid5 NAMESPACE_URL ("decision:" +:+ str_uuid window_id +:+ ":" +:+ model_version)%string.

Definition score_route (scorer : ChampionScorer) (now : datetime) (request : ScoreRequestV1.t)
  : result ScoreResponseV1.t :=
  _ ← guard_exn (bool_decide (ScoreRequestV1.model_version request = scorer_version scorer))
        (ScoringContractError "Model version mismatch");
  let feature := ScoreRequestV1.feature_vector request in
  r ← scorer_score scorer feature;
  let decision_id := decision_uuid (FeatureVectorV1.window_id feature) (scorer_version scorer) in
  decision ← ScoreDecisionV1.make decision_id (FeatureVectorV1.replay_session_id feature)
    (FeatureVectorV1.source_dataset_sha256 feature) (FeatureVectorV1.contract_sha256 feature)
    (Naive (FeatureVectorV1.source_timestamp feature)) (Aware (mkAware now 0))
    decision_id (FeatureVectorV1.window_id feature) (scorer_version scorer)
    (ScoredVector.score r) (ScoredVector.threshold r) (ScoredVector.is_anomaly r)
    (ScoredVector.evidence_vector r);
  Ok (ScoreResponseV1.mk decision).

(** The answer to [POST /v1/score]: the parsing of the body and the serialization of
    the answers are FastAPI's; an exception without a handler is answered 500. *)
Definition post_score (parse_request : bytes → result ScoreRequestV1.t)
    (render_score : ScoreResponseV1.t → bytes) (render : json → bytes)
    (scorer : ChampionScorer) (now : datetime) (body : bytes) : HttpResponse :=
  let http r := mkResponse (status r) (render (payload r)) in
  match parse_request body with
  | Err _ => http request_validation_error_handler
  | Ok request =>
      match score_route scorer now request with
      | Ok r => mkResponse 200 (render_score r)
      | Err e =>
          match exception_response e with
          | Some r => http r
          | None => mkResponse 500 (encode "Internal Server Error")
          end
      end
  end.

(** ** Replay commands *)

(** [uuid4()] and [datetime.now(UTC)] of one request *)
Record CommandDraws := mkCommandDraws {
  cd_session : UUID; cd_message : UUID; cd_command : UUID; cd_now : datetime
}.

(** [isinstance(scorer.manifest, dict)]: the manifest of a [ChampionScorer] is a
    pydantic model, never a dictionary, so both digests keep their first value. *)
Definition start_digests (scorer : ChampionScorer) : string * string := (zero_digest, zero_digest).

Section Commands.
Context `{JsonModel ReplayCommandV1.t}.
(** What sending a message to the broker does. *)
Variable broker_send : Sent → result unit.

(** The producer of the application, when there is one. *)
Abbreviation Producer := (option AioKafkaCommandProducer.t).

Definition publish_command (cmd : ReplayCommandV1.t) : M Producer unit := λ p,
  match p with
  | None => (Ok (), None)
  | Some p => let '(r, p) := AioKafkaCommandProducer.publish_command broker_send cmd p in (r, Some p)
  end.

Definition start_replay_command (scorer : ChampionScorer) (d : CommandDraws) (body : StartReplayRequestV1.t)
  : result ReplayCommandV1.t :=
  let '(ds_sha, c_sha) := start_digests scorer in
  ReplayCommandV1.make (cd_message d) (cd_session d) ds_sha c_sha
    (StartReplayRequestV1.range_start body) (Aware (mkAware (cd_now d) 0)) (cd_command d) START
    (StartReplayRequestV1.speed body) (Some (StartReplayRequestV1.range_start body))
    (Some (StartReplayRequestV1.range_end body)).

(** [try: await _publish_command(...) except Exception: return 503] *)
Definition respond_accepted (cmd : ReplayCommandV1.t) (data : dict) : M Producer ApiResponse :=
  catch (_ ← publish_command cmd; mret (success_envelope 202 (JObj data)))
    (λ _, Some (mret (producer_unavailable_response "Failed to publish replay command to Kafka"))).

Definition not_configured : ApiResponse :=
  producer_unavailable_response "Kafka replay command producer is not configured".

Definition start_replay (scorer : ChampionScorer) (d : CommandDraws) (body : StartReplayRequestV1.t)
  : M Producer ApiResponse :=
  producer ← get_st;
  match producer with
  | None => mret not_configured
  | Some _ =>
      cmd ← lift_res (start_replay_command scorer d body);
      respond_accepted cmd [("replay_session_id"%string, JStr (str_uuid (cd_session d)))]
  end.

Definition control_command (d : CommandDraws) (replay_session_id : UUID) (body : ReplayControlRequestV1.t)
  : result ReplayCommandV1.t :=
  ReplayCommandV1.make (cd_message d) replay_session_id zero_digest zero_digest
    (Naive (datetime_of 2020 1 1 0 0 0 0)) (Aware (mkAware (cd_now d) 0)) (cd_command d)
    (ReplayControlRequestV1.action body) 100 None None.

Definition control_replay (d : CommandDraws) (replay_session_id : UUID) (body : ReplayControlRequestV1.t)
  : M Producer ApiResponse :=
  producer ← get_st;
  match producer with
  | None => mret not_configured
  | Some _ =>
      cmd ← lift_res (control_command d replay_session_id body);
      respond_accepted cmd [("status"%string, JStr "accepted")]
  end.
End Commands.

(** ** Queries *)
Section Queries.
Variable timestamptz_text : Z → string.
Abbreviation StoreOf := (option DB).

Definition replay_not_found : ApiResponse := error_envelope 404 "REPLAY_NOT_FOUND" "Replay session not found".
Definition alert_not_found : ApiResponse := error_envelope 404 "ALERT_NOT_FOUND" "Alert not found".

Definition get_replay (store : StoreOf) (replay_session_id : UUID) : ApiResponse :=
  match store with
  | None => store_unavailable_response
  | Some db =>
      match Store.get_replay db replay_session_id with
      | None => replay_not_found
      | Some record => success_envelope 200 (JObj (serialize_replay timestamptz_text replay_session_id record))
      end
  end.

Definition list_alerts (store : StoreOf) (replay_session_id : UUID) (after : option UUID) (limit : Z)
  : result ApiResponse :=
  match store with
  | None => Ok store_unavailable_response
  | Some db =>
      alerts ← Store.list_alerts db replay_session_id after limit;
      Ok (success_envelope 200 (JObj
            [("alerts"%string, JList ((λ a, JObj (serialize_alert_summary a)) <$> alerts))]))
  end.

Definition get_alert (store : StoreOf) (alert_id : UUID) : ApiResponse :=
  match store with
  | None => store_unavailable_response
  | Some db =>
      match get_alert_detail db alert_id with
      | None => alert_not_found
      | Some detail => success_envelope 200 (JObj (serialize_alert_detail detail))
      end
  end.

(** ** The event stream *)
Definition snapshot_data (store : StoreOf) (sid : UUID) : result dict :=
  match store with
  | None => Ok []
  | Some db =>
      alerts ← Store.list_alerts db sid None 50;
      Ok [("replay"%string,
           match Store.get_replay db sid with
           | Some rep => JObj (serialize_replay timestamptz_text sid rep) | None => JNull end);
          ("alerts"%string, JList ((λ a, JObj (serialize_alert_summary a)) <$> alerts))]
  end.

Definition event_frame (ev : ConsoleEventV1.t) : result bytes :=
  encode_sse (event_name (ConsoleEventV1.event_type ev)) (ConsoleEventV1.payload ev)
    (Some (ConsoleEventV1.event_id ev)).
Definition resync_frame : result bytes := encode_sse "resync_required" [] None.

(** What is sent before the live events; [fresh] is [uuid4()]. *)
Definition stream_prefix (store : StoreOf) (sid : UUID) (fresh : UUID) (last_event_id : option string)
  : result (list bytes) :=
  data ← snapshot_data store sid;
  snapshot ← encode_sse "snapshot" data (Some ("snap-" +:+ str_uuid fresh)%string);
  match last_event_id, store with
  | Some last_id, Some db =>
      missed_events ← events_after db (str_uuid sid) (Some last_id) 100;
      if bool_decide (missed_events = []) then resync ← resync_frame; Ok [resync; snapshot]
      else frames ← mapR event_frame missed_events; Ok (snapshot :: frames)
  | _, _ => Ok [snapshot]
  end.

(** One turn of the loop: an item of the queue, or 15 seconds without one. *)
Definition stream_item (i : option Item) : result bytes :=
  match i with
  | Some ResyncRequired => resync_frame
  | Some (EventItem e) => event_frame e
  | None => Ok (encode (text (chars ": heartbeat" ++ ["010"%char; "010"%char])))
  end.
Definition stream_replay (store : StoreOf) (has_broker : bool) (sid fresh : UUID)
    (last_event_id : option string) (items : list (option Item)) : result (list bytes) :=
  prefix ← stream_prefix store sid fresh last_event_id;
  if has_broker then live ← mapR stream_item items; Ok (prefix ++ live) else Ok prefix.
End Queries.

(** ** Root-cause reports over HTTP ([generate_alert_rca] of [api.py])

    The handler makes four calls of the store, each a transaction of its own, and
    calls the provider in between: [generate_alert_rca] runs it alone, [rca_step]
    runs it up to the next call, so that concurrent requests and the other
    clients of the store can be put in between. *)

(** A request, with what is outside of the store when it runs: the generator of the
    application (or of the environment), the manifest of the champion directory,
    and the draws of the report. *)
Record RcaRequest := mkRcaRequest {
  rq_alert : UUID;
  rq_generator : option OpenAiRcaGenerator;
  rq_champion : option (result json);
  rq_draws : RcaDraws;
  rq_fallback : RcaDraws
}.

Section Rca.
Context `{JsonModel RcaReportV1.t}.
(** [float] of a value of JSON, and pydantic's [model_dump_json] of a bundle *)
Variable float_of : json → result float.
Variable bundle_json : EvidenceBundleV1.t → string.

Definition evidence_of_alert (rq : RcaRequest) (db : DB) : result EvidenceBundleV1.t :=
  gather_evidence (rq_champion rq) float_of db (rq_alert rq).

Definition existing_rca (rq : RcaRequest) (bundle : EvidenceBundleV1.t) (db : DB)
  : result (option RcaReportV1.t) :=
  get_rca db (str_uuid (rq_alert rq)) (Some (EvidenceBundleV1.bundle_sha256 bundle)).

Definition make_report (rq : RcaRequest) (bundle : EvidenceBundleV1.t) : result RcaReportV1.t :=
  match rq_generator rq with
  | None => evidence_only_report (rq_draws rq) bundle "provider_not_configured"
  | Some gen => generate gen bundle_json (rq_draws rq) (rq_fallback rq) bundle
  end.

Definition rca_success (report : RcaReportV1.t) : ApiResponse := success_envelope 200 (JObj (model_dump report)).
Definition rca_persistence_failed : ApiResponse :=
  error_envelope 503 "RCA_PERSISTENCE_FAILED" "RCA report could not be persisted; retry the request".

Definition generate_alert_rca (rq : RcaRequest) : M (option DB) ApiResponse := λ store,
  match store with
  | None => (Ok store_unavailable_response, None)
  | Some db =>
      match get_alert_detail db (rq_alert rq) with
      | None => (Ok alert_not_found, Some db)
      | Some _ =>
          match evidence_of_alert rq db with
          | Err AlertNotFound => (Ok alert_not_found, Some db)
          | Err e => (Err e, Some db)
          | Ok bundle =>
              match existing_rca rq bundle db with
              | Err e => (Err e, Some db)
              | Ok (Some existing_report) => (Ok (rca_success existing_report), Some db)
              | Ok None =>
                  match make_report rq bundle with
                  | Err e => (Err e, Some db)
                  | Ok report =>
                      match save_rca report db with
                      | (Ok report, db) => (Ok (rca_success report), Some db)
                      | (Err _, db) => (Ok rca_persistence_failed, Some db)
                      end
                  end
              end
          end
      end
  end.

(** Where a request is: before one of its calls of the store, or answered; a request
    that was answered after its evidence was gathered keeps the bundle. *)
Inductive RcaPhase :=
| RcaDetail
| RcaGather
| RcaLookup (bundle : EvidenceBundleV1.t)
| RcaSave (bundle : EvidenceBundleV1.t) (report : RcaReportV1.t)
| RcaAnswered (bundle : option EvidenceBundleV1.t) (answer : result ApiResponse).

Definition rca_step (rq : RcaRequest) (phase : RcaPhase) (db : DB) : RcaPhase * DB :=
  match phase with
  | RcaDetail =>
      (match get_alert_detail db (rq_alert rq) with
       | None => RcaAnswered None (Ok alert_not_found)
       | Some _ => RcaGather
       end, db)
  | RcaGather =>
      (match evidence_of_alert rq db with
       | Err AlertNotFound => RcaAnswered None (Ok alert_not_found)
       | Err e => RcaAnswered None (Err e)
       | Ok bundle => RcaLookup bundle
       end, db)
  | RcaLookup bundle =>
      (match existing_rca rq bundle db with
       | Err e => RcaAnswered (Some bundle) (Err e)
       | Ok (Some existing_report) => RcaAnswered (Some bundle) (Ok (rca_success existing_report))
       | Ok None =>
           match make_report rq bundle with
           | Err e => RcaAnswered (Some bundle) (Err e)
           | Ok report => RcaSave bundle report
           end
       end, db)
  | RcaSave bundle report =>
      match save_rca report db with
      | (Ok report, db) => (RcaAnswered (Some bundle) (Ok (rca_success report)), db)
      | (Err _, db) => (RcaAnswered (Some bundle) (Ok rca_persistence_failed), db)
      end
  | RcaAnswered _ _ => (phase, db)
  end.

Fixpoint rca_steps (n : nat) (rq : RcaRequest) (phase : RcaPhase) (db : DB) : RcaPhase * DB :=
  match n with
  | O => (phase, db)
  | S n => let '(phase, db) := rca_step rq phase db in rca_steps n rq phase db
  end.

(** ** Concurrent requests *)
Record RcaSystem := mkRcaSystem { rca_db : DB; rca_requests : list (RcaRequest * RcaPhase) }.

Context `{JsonModel ScoreDecisionV1.t, JsonModel AlertEventV1.t, JsonModel EvidenceSnapshotV1.t,
          JsonModel ReplayCommandV1.t}.

(** A request arrives, the request [i] runs to its next call of the store, or
    another client of the store runs a transaction. *)
Inductive RcaEvent := Arrive (rq : RcaRequest) | Advance (i : nat) | Transact (op : store_op).

Definition rca_event (s : RcaSystem) (ev : RcaEvent) : RcaSystem :=
  match ev with
  | Arrive rq => mkRcaSystem (rca_db s) (rca_requests s ++ [(rq, RcaDetail)])
  | Advance i =>
      match rca_requests s !! i with
      | None => s
      | Some (rq, phase) =>
          let '(phase, db) := rca_step rq phase (rca_db s) in
          mkRcaSystem db (<[i := (rq, phase)]> (rca_requests s))
      end
  | Transact op => mkRcaSystem (exec op (rca_db s)).2 (rca_requests s)
  end.
Definition rca_run (evs : list RcaEvent) : RcaSystem :=
  foldl rca_event (mkRcaSystem empty_db []) evs.
End Rca.
