(* ===== verification/ApiProps.v ===== *)
(** * What the API guarantees

    Root-cause reports under concurrent requests, the scoring service seen by its
    client, and the replay commands the API sends seen by the replay service. *)

From S2P Require Import Prelude PyText PyUuid PyTime PyFloat PyHash PyJson Messages KafkaIo Tables.
From S2P Require Import AlertPolicy AlertState StateCodec Store StoreTheory StoreProps.
From S2P Require Import Rca Champion Api.

(** ** Reports are only added *)
Definition reports_grow (db db' : DB) : Prop := rca_reports db ⊆ rca_reports db'.

Lemma grow_same db db' : rca_reports db' = rca_reports db → reports_grow db db'.
Proof. unfold reports_grow. by intros ->. Qed.
#[export] Instance reports_grow_preorder : PreOrder reports_grow.
Proof. unfold reports_grow. split; [intros db; done|intros a b c Hab Hbc; by etrans]. Qed.

(** A transaction grows the reports when its body does. *)
Lemma grow_transaction {A} (body : DB → result (A * DB)) db :
  (∀ a db', body db = Ok (a, db') → reports_grow db db') → reports_grow db (transaction body db).2.
Proof. intros Hb. unfold transaction. destruct (body db) as [[a db']|e]; [by apply (Hb a)|done]. Qed.
Lemma grow_update body db :
  (∀ db', body db = Ok db' → rca_reports db' = rca_reports db) → reports_grow db (update body db).2.
Proof. intros Hb. apply grow_transaction. intros a db' E. inv_res. by apply grow_same, Hb. Qed.

(** [M] followed by a pure end *)
Lemma bind_ret_state {S A} (m : M S A) (s : S) : ((_ ← m; mret ()) s : result unit * S).2 = (m s).2.
Proof. rewrite M_bind_run. by destruct (m s) as [[]]. Qed.

Section Grow.
Context `{JsonModel ScoreDecisionV1.t, JsonModel AlertEventV1.t, JsonModel EvidenceSnapshotV1.t,
          JsonModel ReplayCommandV1.t, JsonModel RcaReportV1.t}.

Lemma persist_reports d r db db' : persist_event d r db = Ok db' → rca_reports db' = rca_reports db.
Proof.
  unfold persist_event, upsert_alert, insert_alert_event, insert_evidence, insert_outbox.
  intros E. repeat (inv_res; try case_match); by inv_res.
Qed.
Lemma record_reports now d r db db' : record_body now d r db = Ok db' → rca_reports db' = rca_reports db.
Proof.
  unfold record_body, upsert_runtime_state. intros E. inv_res. simpl.
  match goal with Hp : persist_event _ _ _ = _ |- _ => rewrite (persist_reports _ _ _ _ Hp) end.
  unfold insert_decision, ensure_session_exists in *. repeat (case_match; inv_res); done.
Qed.

Lemma save_grows rep db : reports_grow db (save_rca rep db).2.
Proof.
  apply grow_transaction. intros a db' E. inv_res.
  assert (x = db') as -> by (repeat (case_match; inv_res); done).
  unfold insert_report in *. case_match; inv_res; [done|]. by apply insert_subseteq.
Qed.

Lemma exec_grows op db : reports_grow db (exec op db).2.
Proof.
  destruct op; cbn [exec]; unfold record_decision_transition, load_alert_state, mark_outbox_published,
    record_replay_status, record_replay_checkpoint, update_replay_checkpoint_state;
    try (apply grow_update; intros db' E; cbv zeta in E; by inv_res).
  - apply grow_update. intros db' E. by eapply record_reports.
  - rewrite bind_ret_state. apply grow_transaction. intros a db' E. unfold load_body in E.
    apply grow_same. repeat (case_match; inv_res); done.
  - apply grow_update. intros db' E. case_match; by inv_res.
  - rewrite bind_ret_state. apply save_grows.
  - rewrite bind_ret_state. unfold save_complete_rca. case_match; [apply save_grows|done].
  - unfold append_console_event. cbv zeta. case_match; by apply grow_same.
Qed.

(** What a successful save returns is what is stored under the key of the report. *)
Lemma save_stored rep r db db' :
  save_rca rep db = (Ok r, db') →
  ∃ i row, rca_reports db' !! i = Some row ∧ RcaRow.alert_id row = RcaReportV1.alert_id rep ∧
    RcaRow.evidence_bundle_sha256 row = RcaReportV1.evidence_bundle_sha256 rep ∧
    model_validate (RcaRow.payload row) = Ok r.
Proof.
  unfold save_rca, transaction. intros E. destruct (insert_report rep db) as [db1|e] eqn:Hins; [|done].
  simpl in E. assert (∃ i row, find_report db1 (RcaReportV1.alert_id rep)
      (RcaReportV1.evidence_bundle_sha256 rep) = Some (i, row)) as (i & row & Hf)
    by (apply insert_report_find in Hins as [(-> & ?)|(? & ? & ? & ?)]; eauto).
  rewrite Hf in E. destruct (model_validate (RcaRow.payload row)) as [x|e] eqn:Hv; [|done].
  simpl in E. destruct (bool_decide _); [|done]. simpl in E. simplify_eq.
  apply find_report_Some in Hf as (Hi & Ha & Hb). eauto 10.
Qed.
End Grow.

(** ** The requests *)
Lemma hex64_nonempty s : is_hex64 s = true → nonempty s = true.
Proof. unfold is_hex64. destruct s; [done|]. by intros _. Qed.

Lemma gathered champion float_of db a b :
  gather_evidence champion float_of db a = Ok b →
  EvidenceBundleV1.alert_id b = str_uuid a ∧ nonempty (EvidenceBundleV1.bundle_sha256 b) = true.
Proof.
  unfold gather_evidence, EvidenceBundleV1.make, field. cbv zeta. intros E. inv_res. simpl.
  split; [done|]. by apply hex64_nonempty.
Qed.

(** A report is filed under an alert and a bundle. *)
Definition filed (rep : RcaReportV1.t) (b : EvidenceBundleV1.t) : Prop :=
  RcaReportV1.alert_id rep = EvidenceBundleV1.alert_id b ∧
  RcaReportV1.evidence_bundle_sha256 rep = EvidenceBundleV1.bundle_sha256 b.

Lemma make_filed m s ds cs ts ea rid b st su obs un nc ev pm rep :
  RcaReportV1.make m s ds cs ts ea rid (EvidenceBundleV1.alert_id b) st su obs un nc ev
    (EvidenceBundleV1.bundle_sha256 b) pm = Ok rep → filed rep b.
Proof. unfold RcaReportV1.make, field. intros E. inv_res. by split. Qed.

Lemma fallback_filed d b reason rep : evidence_only_report d b reason = Ok rep → filed rep b.
Proof. unfold evidence_only_report. cbv zeta. intros E. inv_res. by eapply make_filed. Qed.

Lemma report_filed bundle_json rq b rep : make_report bundle_json rq b = Ok rep → filed rep b.
Proof.
  unfold make_report, generate. intros E. destruct (rq_generator rq) as [g|]; [|by eapply fallback_filed].
  destruct (draft_report g bundle_json _ b) as [x|e] eqn:Hd; [|by eapply fallback_filed].
  simplify_eq. unfold draft_report in Hd. cbv zeta in Hd. inv_res. by eapply make_filed.
Qed.

Section Requests.
Context `{JsonModel RcaReportV1.t}.
Variable float_of : json → result float.
Variable bundle_json : EvidenceBundleV1.t → string.

(** The bundle of a request is about its alert. *)
Definition about (rq : RcaRequest) (b : EvidenceBundleV1.t) : Prop :=
  EvidenceBundleV1.alert_id b = str_uuid (rq_alert rq) ∧
  nonempty (EvidenceBundleV1.bundle_sha256 b) = true.

(** The stored report of an alert and a bundle. *)
Definition stored (db : DB) (alert : UUID) (sha : string) (rep : RcaReportV1.t) : Prop :=
  ∃ i row, rca_reports db !! i = Some row ∧ RcaRow.alert_id row = str_uuid alert ∧
    RcaRow.evidence_bundle_sha256 row = sha ∧ model_validate (RcaRow.payload row) = Ok rep.

Definition phase_ok (db : DB) (rq : RcaRequest) (phase : RcaPhase) : Prop :=
  match phase with
  | RcaLookup b => about rq b
  | RcaSave b rep => about rq b ∧ filed rep b
  | RcaAnswered (Some b) (Ok answer) => about rq b ∧
      (status answer = 200 → ∃ rep, answer = rca_success rep ∧
         stored db (rq_alert rq) (EvidenceBundleV1.bundle_sha256 b) rep)
  | RcaAnswered None (Ok answer) => status answer ≠ 200
  | _ => True
  end.

Lemma stored_grows db db' a sha rep : reports_grow db db' → stored db a sha rep → stored db' a sha rep.
Proof. intros Hg (i & row & Hi & ?). exists i, row. split; [|done]. by eapply lookup_weaken. Qed.

Lemma phase_ok_grows db db' rq phase : reports_grow db db' → phase_ok db rq phase → phase_ok db' rq phase.
Proof.
  intros Hg. destruct phase as [| | | |[b|] [answer|e]]; simpl; try done.
  intros [Ha Hs]. split; [done|]. intros H200. destruct (Hs H200) as (rep & -> & ?).
  exists rep. split; [done|]. by eapply stored_grows.
Qed.

(** The report of a well-formed database that is looked up is the stored one. *)
Lemma stored_found db a sha rep :
  db_ok db → nonempty sha = true → stored db a sha rep →
  get_rca db (str_uuid a) (Some sha) = Ok (Some rep).
Proof.
  intros Hok Hne (i & row & Hi & Ha & Hb & Hv). unfold get_rca. rewrite Hne.
  destruct (find_report_is_Some db _ _ i row Hi Ha Hb) as (j & r & Hf). rewrite Hf.
  apply find_report_Some in Hf as (Hj & Ha' & Hb').
  assert (j = i) as -> by (eapply (rca_unique db Hok); eauto; congruence).
  assert (r = row) as -> by congruence. by rewrite Hv.
Qed.

Lemma found_stored db a sha rep :
  nonempty sha = true → get_rca db (str_uuid a) (Some sha) = Ok (Some rep) → stored db a sha rep.
Proof.
  unfold get_rca. intros -> E. destruct (find_report db _ _) as [[i row]|] eqn:Hf; [|done].
  apply find_report_Some in Hf as (? & ? & ?).
  destruct (model_validate _) eqn:Hv; [|done]. simpl in E. simplify_eq. by exists i, row.
Qed.

Lemma rca_step_ok rq phase db :
  phase_ok db rq phase →
  let '(phase', db') := rca_step float_of bundle_json rq phase db in
  reports_grow db db' ∧ phase_ok db' rq phase'.
Proof.
  intros Hp. destruct phase as [| |b|b rep|b answer]; simpl.
  - by destruct (get_alert_detail _ _).
  - destruct (evidence_of_alert _ rq db) as [b|[]] eqn:He; try done. by apply gathered in He.
  - split; [done|]. destruct (existing_rca rq b db) as [[rep|]|e] eqn:Hx.
    + split; [done|]. intros _. exists rep. split; [done|]. by apply found_stored; [apply Hp|].
    + destruct (make_report bundle_json rq b) as [rep|e] eqn:Hr; [|done]. split; [done|].
      by eapply report_filed.
    + done.
  - destruct Hp as [Hb [Hfa Hfb]]. pose proof (save_grows rep db) as Hg.
    destruct (save_rca rep db) as [[r|e] db'] eqn:Hs; (split; [exact Hg|]); simpl; split; try done.
    intros _. exists r. split; [done|]. apply save_stored in Hs as (i & row & Hi & Ha & Hb' & Hv).
    exists i, row. split_and!; try done; [|congruence]. rewrite Ha, Hfa. apply Hb.
  - by destruct b, answer.
Qed.
End Requests.

(** ** The system *)
Section System.
Context `{JsonModel RcaReportV1.t, JsonModel ScoreDecisionV1.t, JsonModel AlertEventV1.t,
          JsonModel EvidenceSnapshotV1.t, JsonModel ReplayCommandV1.t}.
Variable float_of : json → result float.
Variable bundle_json : EvidenceBundleV1.t → string.

Definition system_ok (s : RcaSystem) : Prop :=
  db_good (rca_db s) ∧ Forall (λ r, phase_ok (rca_db s) r.1 r.2) (rca_requests s).

Lemma rca_step_good rq phase db :
  db_good db → db_good (rca_step float_of bundle_json rq phase db).2.
Proof.
  intros Hdb. destruct phase as [| |b|b rep|b answer]; simpl; try done.
  pose proof (preserves_save_rca rep db Hdb) as Hg. by destruct (save_rca rep db) as [[]].
Qed.

Lemma requests_grow db db' rs :
  reports_grow db db' → Forall (λ r, phase_ok db r.1 r.2) rs → Forall (λ r, phase_ok db' r.1 r.2) rs.
Proof.
  intros Hg Hrs. eapply Forall_impl; [exact Hrs|]. intros [rq phase]. by apply phase_ok_grows.
Qed.

Lemma rca_event_ok s ev : system_ok s → system_ok (rca_event float_of bundle_json s ev).
Proof.
  intros [Hdb Hrs]. destruct ev as [rq|i|op]; simpl.
  - split; [done|]. apply Forall_app. split; [done|]. by constructor.
  - destruct (rca_requests s !! i) as [[rq phase]|] eqn:Hi; [|by split].
    pose proof (rca_step_good rq phase _ Hdb) as Hdb'.
    pose proof (rca_step_ok float_of bundle_json rq phase _ (Forall_lookup_1 _ _ _ _ Hrs Hi)) as Hstep.
    destruct (rca_step _ _ _ _ _) as [phase' db']. destruct Hstep as [Hg Hp].
    split; [done|]. apply Forall_insert; [by apply (requests_grow (rca_db s))|done].
  - split; [by apply preserves_exec|]. by apply (requests_grow (rca_db s)), Hrs; apply exec_grows.
Qed.

Lemma rca_run_ok evs : system_ok (rca_run float_of bundle_json evs).
Proof.
  induction evs as [|ev evs IH] using rev_ind.
  - split; [split; [exact db_ok_empty|exact outbox_ok_empty]|constructor].
  - unfold rca_run. rewrite foldl_app. by apply rca_event_ok.
Qed.

(** The cuts of the handler are the handler. *)
Lemma rca_uninterrupted rq db :
  ∃ b r db', rca_steps float_of bundle_json 4 rq RcaDetail db = (RcaAnswered b r, db') ∧
    generate_alert_rca float_of bundle_json rq (Some db) = (r, Some db').
Proof.
  unfold generate_alert_rca. cbn [rca_steps rca_step].
  destruct (get_alert_detail _ _); [|by eauto 10]. cbn [rca_step].
  destruct (evidence_of_alert _ rq db) as [b|[]]; try by eauto 10. cbn [rca_step].
  destruct (existing_rca rq b db) as [[x|]|]; try by eauto 10.
  destruct (make_report _ rq b) as [x|]; [|by eauto 10]. cbn [rca_step].
  destruct (save_rca x db) as [[y|y] db']; by eauto 10.
Qed.

(** C11. Reports over HTTP never disagree.  Any number of requests for root-cause
    reports run concurrently, cut at every call of the store, among any other
    transactions of the database: whatever report a request answered with is
    stored, it is what the store returns for that alert and that evidence from
    then on, and two requests that answer 200 for the same alert and the same
    evidence answer the same report, whichever of them, with whatever provider,
    came first.  A request that runs alone is answered after at most four calls. *)
Theorem rca_answers_agree evs :
  let s := rca_run float_of bundle_json evs in
  (∀ i rq b answer, rca_requests s !! i = Some (rq, RcaAnswered b (Ok answer)) → status answer = 200 →
     ∃ bundle rep, b = Some bundle ∧ answer = rca_success rep ∧
       get_rca (rca_db s) (str_uuid (rq_alert rq)) (Some (EvidenceBundleV1.bundle_sha256 bundle)) =
         Ok (Some rep)) ∧
  (∀ i j rq rq' b b' answer answer',
     rca_requests s !! i = Some (rq, RcaAnswered (Some b) (Ok answer)) →
     rca_requests s !! j = Some (rq', RcaAnswered (Some b') (Ok answer')) →
     rq_alert rq = rq_alert rq' → EvidenceBundleV1.bundle_sha256 b = EvidenceBundleV1.bundle_sha256 b' →
     status answer = 200 → status answer' = 200 → answer = answer') ∧
  (∀ rq, ∃ b r db',
     rca_steps float_of bundle_json 4 rq RcaDetail (rca_db s) = (RcaAnswered b r, db') ∧
     generate_alert_rca float_of bundle_json rq (Some (rca_db s)) = (r, Some db')).
Proof.
  intros s. destruct (rca_run_ok evs) as [[Hok _] Hrs]. fold s in Hok, Hrs.
  assert (∀ i rq b answer, rca_requests s !! i = Some (rq, RcaAnswered (Some b) (Ok answer)) →
    status answer = 200 → ∃ rep, answer = rca_success rep ∧
      get_rca (rca_db s) (str_uuid (rq_alert rq)) (Some (EvidenceBundleV1.bundle_sha256 b)) = Ok (Some rep)) as Hall.
  { intros i rq b answer Hi H200. destruct (Forall_lookup_1 _ _ _ _ Hrs Hi) as [[_ Hne] Hst].
    destruct (Hst H200) as (rep & -> & Hs). exists rep. split; [done|]. by apply stored_found. }
  split; [|split].
  - intros i rq [b|] answer Hi H200; [|by destruct (Forall_lookup_1 _ _ _ _ Hrs Hi)].
    destruct (Hall i rq b answer Hi H200) as (rep & ? & ?). eauto.
  - intros i j rq rq' b b' answer answer' Hi Hj Ha Hb Hs1 Hs2.
    destruct (Hall i _ _ _ Hi Hs1) as (rep & -> & Hr). destruct (Hall j _ _ _ Hj Hs2) as (rep' & -> & Hr').
    rewrite Ha, Hb, Hr' in Hr. by simplify_eq.
  - intros rq. apply rca_uninterrupted.
Qed.
End System.

(** Both requests answered 200, about the same alert and evidence. *)
Definition same_case (r r' : option (RcaRequest * RcaPhase)) : bool :=
  match r, r' with
  | Some (rq, RcaAnswered (Some b) (Ok a)), Some (rq', RcaAnswered (Some b') (Ok a')) =>
      bool_decide (rq_alert rq = rq_alert rq')
      && bool_decide (EvidenceBundleV1.bundle_sha256 b = EvidenceBundleV1.bundle_sha256 b')
      && (status a =? 200) && (status a' =? 200)
  | _, _ => false
  end.
Lemma same_case_spec r r' : same_case r r' = true →
  ∃ rq rq' b b' a a', r = Some (rq, RcaAnswered (Some b) (Ok a)) ∧
    r' = Some (rq', RcaAnswered (Some b') (Ok a')) ∧ rq_alert rq = rq_alert rq' ∧
    EvidenceBundleV1.bundle_sha256 b = EvidenceBundleV1.bundle_sha256 b' ∧ status a = 200 ∧ status a' = 200.
Proof.
  unfold same_case. repeat (case_match; try done). subst. rewrite !andb_true_iff, !bool_decide_eq_true, !Z.eqb_eq.
  intros [[[? ?] ?] ?]. eauto 15.
Qed.

(** ** Witness: an alert, two requests that race, and a retry *)
Module RcaRace.
Import AlertProps.AlertExamples ReportExamples.

#[export] Instance decision_model : JsonModel ScoreDecisionV1.t := {|
  model_dump := λ d, [("replay_session_id", JStr (str_uuid (ScoreDecisionV1.replay_session_id d)));
    ("model_version", JStr (ScoreDecisionV1.model_version d));
    ("contract_sha256", JStr (ScoreDecisionV1.contract_sha256 d));
    ("source_dataset_sha256", JStr (ScoreDecisionV1.source_dataset_sha256 d));
    ("score", JFloat (ScoreDecisionV1.score d)); ("threshold", JFloat (ScoreDecisionV1.threshold d))]%string;
  model_validate := λ _, Err (ValidationError "decision") |}.
#[export] Instance event_model : JsonModel AlertEventV1.t :=
  {| model_dump := λ e, [("action"%string, JStr "OPENED")];
     model_validate := λ _, Err (ValidationError "event") |}.
#[export] Instance evidence_model : JsonModel EvidenceSnapshotV1.t :=
  {| model_dump := λ _, []; model_validate := λ _, Err (ValidationError "evidence") |}.
#[export] Instance command_model : JsonModel ReplayCommandV1.t :=
  {| model_dump := λ _, []; model_validate := λ _, Err (ValidationError "command") |}.

Definition opened : TransitionResult.t :=
  TransitionResult.mk (AlertState.empty (uid 7) "metropt")
    (Some (AlertEventV1.mk (uid 51) (uid 7) hex64 hex64 (seconds 600) (mkAware 0 0) (uid 1) "metropt" OPENED
             (seconds 300) (seconds 600) [uid 202] hex64)) None.
Definition draws (n : Z) : RcaDraws := mkRcaDraws (uid n) (uid 7) (UUID_of_bits (n * 2 ^ 100)) (seconds 900).
Definition draft : ProviderRcaDraft.t := ProviderRcaDraft.mk "pressure drop" [] ["sensor drift"%string] [].
Definition provider : OpenAiRcaGenerator := mkGenerator "model-x" (λ _, Ok (Some draft)).
Definition request (n : Z) (g : option OpenAiRcaGenerator) : RcaRequest :=
  mkRcaRequest (uid 1) g None (draws n) (draws (n + 1)).
Definition float_of (j : json) : result float := Ok f0.
Definition bundle_json (b : EvidenceBundleV1.t) : string := EvidenceBundleV1.bundle_sha256 b.

(** Both requests find no report and make one; the first to save answers it, the
    second is told to retry, and the retry gets the report of the first. *)
Definition race : list RcaEvent :=
  [Transact (OpRecord 0 (decision 2 true) opened); Arrive (request 10 None); Arrive (request 20 (Some provider))]
  ++ [Advance 0; Advance 1; Advance 0; Advance 1; Advance 0; Advance 1; Advance 1; Advance 0]
  ++ [Arrive (request 30 None); Advance 2; Advance 2; Advance 2].
Abbreviation final := (rca_run float_of bundle_json race).

Definition answer_of (i : nat) : option ApiResponse :=
  match rca_requests final !! i with Some (_, RcaAnswered _ (Ok a)) => Some a | _ => None end.
Definition outcome : list (option Z) := (λ i, status <$> answer_of i) <$> [0; 1; 2]%nat.

Example raced : outcome = [Some 503; Some 200; Some 200].
Proof. vm_compute. reflexivity. Qed.
Lemma rca_answers_agree_witness :
  ∃ rq rq' b b' answer,
    rca_requests final !! 1%nat = Some (rq, RcaAnswered (Some b) (Ok answer)) ∧
    rca_requests final !! 2%nat = Some (rq', RcaAnswered (Some b') (Ok answer)) ∧
    status answer = 200.
Proof.
  assert (same_case (rca_requests final !! 1%nat) (rca_requests final !! 2%nat) = true) as Hsame
    by (vm_compute; reflexivity).
  apply same_case_spec in Hsame as (rq & rq' & b & b' & a & a' & H1 & H2 & Halert & Hsha & H200 & H200').
  pose proof (rca_answers_agree float_of bundle_json race) as Hthm. cbv zeta in Hthm.
  destruct Hthm as (_ & Hagree & _).
  pose proof (Hagree 1%nat 2%nat rq rq' b b' a a' H1 H2 Halert Hsha H200 H200') as Heq.
  exists rq, rq', b, b', a. rewrite <-Heq in H2. split; [exact H1|]. split; [exact H2|exact H200].
Defined.
End RcaRace.

