(* ===== verification/ApiServices.v ===== *)
(** * The API with the services below and behind it *)

From S2P Require Import Prelude PyText PyUuid PyTime PyFloat PyHash PyJson Messages KafkaIo.
From S2P Require Import KafkaIo Scoring ScoringTheory ArtifactIntegrity Replay Tables Store.
From S2P Require Import ReplayService ReplayServiceProps Rca Champion Api.

(** ** The scoring service seen by its client

    The client of [scoring_client.py] posts to the [/v1/score] route of [api.py]:
    what it returns for a vector, in terms of the scorer of the service. *)

(** The vector has the contract, the data set and the features of the model. *)
Definition identity_ok (s : ChampionScorer) (f : FeatureVectorV1.t) : bool := is_ok (validate_identity s f).

(** A decision at another time. *)
Definition redated (d : ScoreDecisionV1.t) (now : datetime) : ScoreDecisionV1.t :=
  ScoreDecisionV1.mk (ScoreDecisionV1.message_id d) (ScoreDecisionV1.replay_session_id d)
    (ScoreDecisionV1.source_dataset_sha256 d) (ScoreDecisionV1.contract_sha256 d)
    (ScoreDecisionV1.source_timestamp d) (mkAware now 0) (ScoreDecisionV1.decision_id d)
    (ScoreDecisionV1.window_id d) (ScoreDecisionV1.model_version d) (ScoreDecisionV1.score d)
    (ScoreDecisionV1.threshold d) (ScoreDecisionV1.is_anomaly d) (ScoreDecisionV1.evidence_vector d).

(** ** The handler *)
Lemma validate_identity_error s f e :
  validate_identity s f = Err e → ∃ m, e = ScoringContractError m.
Proof.
  unfold validate_identity, guard_exn. intros E. repeat (case_match; simpl in E; simplify_eq); eauto.
Qed.

Lemma evidence_names names : ∀ values medians mads es,
  evidence_of names values medians mads = Ok es →
  EvidenceValueV1.feature_name <$> es = names ∧ EvidenceValueV1.feature_value <$> es = values.
Proof.
  induction names as [|n names IH]; intros [|x values] [|m medians] [|d mads] es E;
    cbn [evidence_of] in E; simplify_eq; [done|].
  apply bind_Ok in E as (e & He & E). apply bind_Ok in E as (rest & Hrest & E). simplify_eq.
  destruct (IH _ _ _ _ Hrest) as [<- <-]. unfold EvidenceValueV1.make in He. by inv_res.
Qed.

(** Each deviation is the distance to the median in robust standard deviations, and
    zero for a feature without spread. *)
Lemma evidence_deviations names : ∀ values medians mads es i e,
  evidence_of names values medians mads = Ok es → es !! i = Some e →
  ∃ x m d, values !! i = Some x ∧ medians !! i = Some m ∧ mads !! i = Some d ∧
    EvidenceValueV1.robust_deviation e =
      if isclose_zero d then f0 else fdiv (fabs (fsub x m)) (fmul (flit 14826 10000) d).
Proof.
  induction names as [|n names IH]; intros [|x values] [|m medians] [|d mads] es i e E Hi;
    cbn [evidence_of] in E; simplify_eq.
  apply bind_Ok in E as (e' & He & E). apply bind_Ok in E as (rest & Hrest & E). simplify_eq.
  destruct i as [|i]; simpl in Hi; [|by apply (IH _ _ _ _ _ _ Hrest Hi)].
  simplify_eq. exists x, m, d. split_and!; try done. unfold EvidenceValueV1.make in He. by inv_res.
Qed.

(** What a decision of the service is. *)
Record scored (s : ChampionScorer) (f : FeatureVectorV1.t) (d : ScoreDecisionV1.t) : Prop := {
  scored_decides : decides (scorer_version s) d f;
  scored_id : ScoreDecisionV1.decision_id d = decision_uuid (FeatureVectorV1.window_id f) (scorer_version s);
  scored_by : detector s (FeatureVectorV1.feature_values f) = Ok (ScoreDecisionV1.score d);
  scored_threshold : ScoreDecisionV1.threshold d = scorer_threshold s;
  scored_anomaly : ScoreDecisionV1.is_anomaly d = fleb (scorer_threshold s) (ScoreDecisionV1.score d);
  scored_names : EvidenceValueV1.feature_name <$> ScoreDecisionV1.evidence_vector d = FeatureVectorV1.feature_names f;
  scored_values : EvidenceValueV1.feature_value <$> ScoreDecisionV1.evidence_vector d = FeatureVectorV1.feature_values f;
  scored_deviations : ∀ i e, ScoreDecisionV1.evidence_vector d !! i = Some e →
    ∃ x m w, FeatureVectorV1.feature_values f !! i = Some x ∧ median s !! i = Some m ∧ mad s !! i = Some w ∧
      EvidenceValueV1.robust_deviation e =
        if isclose_zero w then f0 else fdiv (fabs (fsub x m)) (fmul (flit 14826 10000) w)
}.

Lemma score_route_scored s now req r :
  score_route s now req = Ok r →
  ScoreRequestV1.model_version req = scorer_version s ∧
  identity_ok s (ScoreRequestV1.feature_vector req) = true ∧
  scored s (ScoreRequestV1.feature_vector req) (ScoreResponseV1.data r).
Proof.
  unfold score_route, scorer_score, ScoreDecisionV1.make, field, identity_ok. intros E. inv_res.
  match goal with Hv : validate_identity _ _ = _ |- _ => rewrite Hv; unfold validate_identity in Hv end.
  match goal with He : evidence_of _ _ _ _ = _ |- _ =>
    pose proof (λ i e, evidence_deviations _ _ _ _ _ i e He) as Hdev; apply evidence_names in He as [Hn Hvals] end.
  split; [done|]. split; [done|]. simpl. inv_res.
  split; simpl; try done. congruence.
Qed.

(** The clock of the service is in the decision and nowhere else. *)
Lemma score_route_clock s now now' req :
  score_route s now' req =
    match score_route s now req with
    | Ok r => Ok (ScoreResponseV1.mk (redated (ScoreResponseV1.data r) now'))
    | Err e => Err e
    end.
Proof.
  unfold score_route. destruct (guard_exn _ _) as [[]|e]; [|done]. simpl.
  destruct (scorer_score _ _) as [r|e]; [|done]. simpl. unfold ScoreDecisionV1.make, field.
  by repeat match goal with |- context [guard_exn ?b ?e] => destruct (guard_exn b e) as [[]|]; simpl end.
Qed.

Lemma redated_self s now req r :
  score_route s now req = Ok r → redated (ScoreResponseV1.data r) now = ScoreResponseV1.data r.
Proof. intros E. pose proof (score_route_clock s now now req) as Hc. rewrite E in Hc. injection Hc as ->. done. Qed.

Lemma score_route_refused s now req :
  ScoreRequestV1.model_version req ≠ scorer_version s ∨
    identity_ok s (ScoreRequestV1.feature_vector req) = false →
  ∃ m, score_route s now req = Err (ScoringContractError m).
Proof.
  unfold score_route, scorer_score, identity_ok. intros Hno. case_bool_decide as Hv; [|by eexists]. simpl.
  destruct Hno as [Hno|Hno]; [by destruct Hno|].
  destruct (validate_identity _ _) as [[]|e] eqn:Hi; [done|].
  apply validate_identity_error in Hi as [m ->]. by exists m.
Qed.

(** ** The client and the service *)
Section Service.
Variable request_json : ScoreRequestV1.t → bytes.
Variable parse_request : bytes → result ScoreRequestV1.t.
Variable render_score : ScoreResponseV1.t → bytes.
Variable validate_response : bytes → result ScoreResponseV1.t.
Variable render : json → bytes.
Variable scorer : ChampionScorer.
(** The time of the service at the n-th request of the client. *)
Variable clock : nat → datetime.

Definition service (n : nat) (body : bytes) : HttpOutcome :=
  Responded (post_score parse_request render_score render scorer (clock n) body).

(** One attempt against the service. *)
Lemma service_outcome mv f n request :
  parse_request (request_json request) = Ok request →
  (∀ now r, score_route scorer now request = Ok r → validate_response (render_score r) = Ok r) →
  ScoreRequestV1.make mv f = Ok request →
  attempt_outcome validate_response mv (service n (request_json request)) f =
    match score_route scorer (clock n) request with
    | Ok r => inl (Ok (ScoreResponseV1.data r))
    | Err (ScoringContractError _) => inl (Err (PermanentScoringError "Permanent Scoring API error"))
    | Err _ => inr (RetryableScoringError "Transient Scoring API failure")
    end.
Proof.
  intros Hparse Hcodec Hmake. unfold service, attempt_outcome, post_score, validated_decision. rewrite Hparse.
  destruct (score_route scorer (clock n) request) as [r|e] eqn:Hs.
  - simpl. rewrite (Hcodec _ _ Hs). apply score_route_scored in Hs as (Hv & _ & [[Hm Hw Hse Hd Hc] _ _ _ _ _ _ _]).
    assert (ScoreRequestV1.model_version request = mv ∧ ScoreRequestV1.feature_vector request = f) as [Hmv <-]
      by (unfold ScoreRequestV1.make, field in Hmake; by inv_res).
    unfold check_decision. rewrite Hm, Hw, Hse, Hd, Hc, <-Hv, Hmv. by rewrite !bool_decide_eq_true_2.
  - by destruct e.
Qed.

(** C10. What the client gets from the scoring service, for retries enough to cover the
    policy: when the scorer accepts the vector, the decision of the first request,
    which is the detector's score of exactly the values sent, compared with the
    threshold of the model, with each value and its robust deviation as evidence,
    under an identifier that only depends on the window and the model - scoring the vector again, at any time, gives the same decision
    with another emission time; when the versions differ or the vector is not of
    the model's contract, data set or features, a permanent error after one
    request; when the scorer fails in another way, a retryable error after all
    attempts. *)
Theorem score_service_contract mv policy f c request
    (Hattempts : 1 ≤ attempts policy ≤ Z.of_nat (length (delays_seconds policy)) + 1)
    (Hmake : ScoreRequestV1.make mv f = Ok request)
    (Hparse : parse_request (request_json request) = Ok request)
    (Hcodec : ∀ now r, score_route scorer now request = Ok r → validate_response (render_score r) = Ok r) :
  let body := request_json request in
  let first := score_route scorer (clock (length (posts c))) request in
  let once := mkClient (posts c ++ [body]) (slept c) in
  let run := score service request_json validate_response mv policy f c in
  (∀ r, first = Ok r →
     run = (Ok (ScoreResponseV1.data r), once) ∧ scored scorer f (ScoreResponseV1.data r) ∧
     ∀ now, score_route scorer now request =
       Ok (ScoreResponseV1.mk (redated (ScoreResponseV1.data r) now))) ∧
  (mv ≠ scorer_version scorer ∨ identity_ok scorer f = false →
     ∃ m, run = (Err (PermanentScoringError m), once)) ∧
  (∀ e, first = Err e → (∀ m, e ≠ ScoringContractError m) →
     ∃ m, run = (Err (RetryableScoringError m),
                 mkClient (posts c ++ replicate (Z.to_nat (attempts policy)) body)
                   (slept c ++ take (Z.to_nat (attempts policy) - 1) (delays_seconds policy)))).
Proof.
  intros body first once run.
  assert (ScoreRequestV1.model_version request = mv ∧ ScoreRequestV1.feature_vector request = f) as [Hmv Hf]
    by (unfold ScoreRequestV1.make, field in Hmake; by inv_res).
  destruct (score_retries service request_json validate_response mv policy f c request Hmake Hattempts)
    as (j & r & Hrun & Hj & Hbefore & Hr). fold run body in Hrun.
  assert (∀ i, attempt_outcome validate_response mv (service (length (posts c) + i)%nat body) f =
    match first with
    | Ok r => inl (Ok (redated (ScoreResponseV1.data r) (clock (length (posts c) + i)%nat)))
    | Err (ScoringContractError _) => inl (Err (PermanentScoringError "Permanent Scoring API error"))
    | Err _ => inr (RetryableScoringError "Transient Scoring API failure")
    end) as Hout.
  { intros i. unfold body. rewrite service_outcome by done.
    rewrite (score_route_clock scorer (clock (length (posts c)))). fold first. by destruct first as [|[]]. }
  split; [|split].
  - intros x Hx. rewrite Hx in Hout.
    destruct j as [|j]; [|destruct (Hbefore 0%nat ltac:(lia)) as [e He]; by rewrite Hout in He].
    rewrite Hout, Nat.add_0_r, (redated_self _ _ _ _ Hx) in Hr.
    destruct r as [d|e]; [destruct Hr as [[= <-] _]|by destruct Hr as [Hr|[Hr _]]].
    rewrite Hrun, app_nil_r. split; [done|]. split.
    + rewrite <-Hf. by apply (score_route_scored _ _ _ _ Hx).
    + intros now. rewrite (score_route_clock scorer (clock (length (posts c)))). fold first. by rewrite Hx.
  - intros Hno. rewrite <-Hmv, <-Hf in Hno. destruct (score_route_refused scorer (clock (length (posts c))) request Hno) as [m Hm].
    fold first in Hm. rewrite Hm in Hout.
    destruct j as [|j]; [|destruct (Hbefore 0%nat ltac:(lia)) as [e He]; by rewrite Hout in He].
    rewrite Hout in Hr. destruct r as [d|e]; [by destruct Hr|]. destruct Hr as [Hr|(Hr & _)]; [|done].
    injection Hr as <-. eexists. rewrite Hrun. by rewrite app_nil_r.
  - intros e He Hne. rewrite He in Hout.
    assert (∀ i, attempt_outcome validate_response mv (service (length (posts c) + i)%nat body) f =
      inr (RetryableScoringError "Transient Scoring API failure")) as Hall
      by (intros i; rewrite Hout; destruct e; try done; by destruct (Hne msg)).
    rewrite Hall in Hr. destruct r as [d|e']; [by destruct Hr|].
    destruct Hr as [Hr|(_ & Hn & m & ->)]; [done|]. exists m. rewrite Hrun. repeat f_equal; lia.
Qed.
End Service.

(** ** Witness *)
Module ServiceExample.
Import ScoringExample.

Definition package_manifest : ChampionManifest.t :=
  ChampionManifest.mk CHAMPION FEASIBLE PRODUCTION_CANDIDATE PHASE1B_CHAMPION_V1 "run-1" STATISTICAL "model-1"
    digest digest digest digest ["tp2_last"%string] (flit 1 2) (flit 99 100) [].
(** A detector that adds the values, and refuses rows above 4. *)
Definition detector (row : list float) : result float :=
  let total := foldr fadd f0 row in
  if fleb total (float_of_Z 4) then Ok total else Err (ValueError "out of range").
Definition scorer : ChampionScorer := mkScorer package_manifest detector [f0] [f1].
Definition request : ScoreRequestV1.t := ScoreRequestV1.mk "model-1" (vector 7).
Definition parse_request (body : bytes) : result ScoreRequestV1.t :=
  if bool_decide (body = [7]) then Ok request else Err (ValidationError "request").
(** A response is told apart by its emission time. *)
Definition render_score (r : ScoreResponseV1.t) : bytes := [wall (ScoreDecisionV1.emitted_at (ScoreResponseV1.data r))].
Definition validate_response (body : bytes) : result ScoreResponseV1.t :=
  match body with [t] => score_route scorer t request | _ => Err (ValidationError "response") end.
Definition clock (n : nat) : datetime := noon + seconds (Z.of_nat n).

Lemma rendered now r : score_route scorer now request = Ok r → validate_response (render_score r) = Ok r.
Proof.
  intros E. unfold render_score, validate_response. rewrite <-(redated_self _ _ _ _ E). simpl. exact E.
Qed.

Lemma score_service_contract_witness :
  ∃ d, Scoring.score (service parse_request render_score (λ _, []) scorer clock) request_json validate_response
         "model-1" default_policy (vector 7) (mkClient [] []) = (Ok d, mkClient [[7]] []) ∧
    scored scorer (vector 7) d ∧ ScoreDecisionV1.is_anomaly d = true.
Proof.
  destruct (score_route scorer (clock 0) request) as [r|e] eqn:E.
  2:{ apply (f_equal is_ok) in E. vm_compute in E. discriminate E. }
  destruct (score_service_contract request_json parse_request render_score validate_response (λ _, []) scorer clock
    "model-1" default_policy (vector 7) (mkClient [] []) request) as (Hok & _ & _).
  - vm_compute. split; discriminate.
  - reflexivity.
  - reflexivity.
  - exact rendered.
  - destruct (Hok r E) as (Hrun & Hs & _). exists (ScoreResponseV1.data r). split; [exact Hrun|]. split; [exact Hs|].
    assert (ScoreDecisionV1.is_anomaly <$> (ScoreResponseV1.data <$> score_route scorer (clock 0) request) = Ok true) as Ha
      by (vm_compute; reflexivity).
    rewrite E in Ha. injection Ha as Ha. exact Ha.
Defined.
End ServiceExample.

(** ** The replay commands of the API at the replay service

    What a 202 answer of the API means for the service that reads the command. *)

(** A START whose digests are not the source's is refused: nothing changes and the
    answer is a FAILED status. *)
Lemma start_mismatch
    `{JsonModel ReplayCommandV1.t, JsonModel TelemetryEventV1.t, JsonModel ReplayStatusV1.t,
      JsonModel QuarantineRecordV1.t, TableOps} has_store d command s r s' :
  live_session s = None →
  ReplayCommandV1.source_dataset_sha256 command ≠
    PreparedArtifactIdentity.source_dataset_sha256 (ReplaySource.identity (source s)) →
  handle_start has_store d command s = (r, s') →
  s' = s ∧
  ∀ msg, r = Ok (Some msg) → ∃ st, msg.1 = MStatus st ∧
    ReplayStatusV1.replay_session_id st = ReplayCommandV1.replay_session_id command ∧
    ReplayStatusV1.state st = FAILED ∧ ReplayStatusV1.last_sequence st = Some 0 ∧
    ReplayStatusV1.error_code st = Some "REPLAY_SOURCE_IDENTITY_MISMATCH"%string.
Proof.
  intros Hidle Hne Hrun. unfold handle_start in Hrun. rewrite !M_bind_run in Hrun. unfold gets in Hrun.
  cbn beta iota in Hrun. rewrite M_bind_run in Hrun. cbn beta iota in Hrun. rewrite Hidle in Hrun.
  cbv zeta in Hrun. rewrite bool_decide_eq_false_2 in Hrun by done. cbn [andb negb] in Hrun.
  exact (announce_failed _ _ _ _ _ _ _ _ _ Hrun).
Qed.

(** What publishing leaves: the one message of an answer 202, or nothing. *)
Lemma accepted_sent `{JsonModel ReplayCommandV1.t} send cmd data p answer p' :
  respond_accepted send cmd data (Some p) = (Ok answer, p') →
  (status answer = 202 ∧ ∃ payload, encode_message cmd = Ok payload ∧ p' =
     Some (AioKafkaCommandProducer.mk true (AioKafkaCommandProducer.sent p ++
       [mkSent REPLAY_COMMANDS_TOPIC payload (encode (str_uuid (ReplayCommandV1.replay_session_id cmd)))]))) ∨
  (status answer = 503 ∧ p' = Some p).
Proof.
  unfold respond_accepted, catch. rewrite M_bind_run. unfold Api.publish_command, AioKafkaCommandProducer.publish_command.
  destruct (AioKafkaCommandProducer.started p) eqn:Hst; simpl.
  2:{ intros [= <- <-]. by right. }
  destruct (encode_message cmd) as [payload|e] eqn:Hp; simpl.
  2:{ intros [= <- <-]. by right. }
  destruct (send _) as [[]|e]; simpl; intros [= <- <-]; [left|by right].
  split; [done|]. by exists payload.
Qed.

(** The fields of a START command. *)
Lemma start_command_fields scorer d body cmd :
  start_replay_command scorer d body = Ok cmd →
  ReplayCommandV1.action cmd = START ∧ ReplayCommandV1.replay_session_id cmd = cd_session d ∧
  ReplayCommandV1.source_dataset_sha256 cmd = zero_digest ∧
  option_map Naive (ReplayCommandV1.range_start cmd) = Some (StartReplayRequestV1.range_start body) ∧
  option_map Naive (ReplayCommandV1.range_end cmd) = Some (StartReplayRequestV1.range_end body) ∧
  ReplayCommandV1.speed cmd = StartReplayRequestV1.speed body.
Proof.
  unfold start_replay_command, start_digests, ReplayCommandV1.make, ReplayCommandV1.validate_start_command, field.
  generalize zero_digest. intros z E. inv_res. rewrite bool_decide_eq_true_2 in * by done.
  destruct (StartReplayRequestV1.range_start body), (StartReplayRequestV1.range_end body);
    simpl in *; by inv_res.
Qed.

Section Start.
Context `{JsonModel ReplayCommandV1.t, JsonModel TelemetryEventV1.t, JsonModel ReplayStatusV1.t,
          JsonModel QuarantineRecordV1.t, TableOps}.

(** C25. A replay that the API accepts does not start.  [POST /v1/replays] answers 503
    and sends nothing, or answers 202 and has sent exactly one message, keyed by the
    new session: a START with the range and the speed of the request whose
    digests are zeros, whatever champion the application scores with.  The
    replay service that reads it while no session is live, with a source whose
    data set digest is not zeros, keeps its state as it is - it starts no
    session and writes no checkpoint - and answers a FAILED status with
    REPLAY_SOURCE_IDENTITY_MISMATCH. *)
Theorem api_start_refused send scorer d body p answer p'
    (Hrun : start_replay send scorer d body (Some p) = (Ok answer, p')) :
  (status answer = 503 ∧ p' = Some p) ∨
  (status answer = 202 ∧ ∃ cmd payload,
     start_replay_command scorer d body = Ok cmd ∧
     ReplayCommandV1.replay_session_id cmd = cd_session d ∧
     ReplayCommandV1.source_dataset_sha256 cmd = zero_digest ∧
     option_map Naive (ReplayCommandV1.range_start cmd) = Some (StartReplayRequestV1.range_start body) ∧
     option_map Naive (ReplayCommandV1.range_end cmd) = Some (StartReplayRequestV1.range_end body) ∧
     ReplayCommandV1.speed cmd = StartReplayRequestV1.speed body ∧
     p' = Some (AioKafkaCommandProducer.mk true (AioKafkaCommandProducer.sent p ++
       [mkSent REPLAY_COMMANDS_TOPIC payload (encode (str_uuid (cd_session d)))])) ∧
     ∀ validate error_text has_store rd part off s r s',
       validate payload = Ok cmd → live_session s = None →
       PreparedArtifactIdentity.source_dataset_sha256 (ReplaySource.identity (source s)) ≠ zero_digest →
       handle_command_record validate error_text has_store rd (mkRecord REPLAY_COMMANDS_TOPIC part off payload) s
         = (r, s') →
       s' = s ∧
       ∀ msg, r = Ok (Some msg) → ∃ st, msg.1 = MStatus st ∧
         ReplayStatusV1.replay_session_id st = cd_session d ∧
         ReplayStatusV1.state st = FAILED ∧ ReplayStatusV1.last_sequence st = Some 0 ∧
         ReplayStatusV1.error_code st = Some "REPLAY_SOURCE_IDENTITY_MISMATCH"%string).
Proof.
  unfold start_replay in Hrun. rewrite M_bind_run in Hrun. cbn beta iota delta [get_st] in Hrun.
  rewrite M_bind_run in Hrun. unfold lift_res in Hrun.
  destruct (start_replay_command scorer d body) as [cmd|e] eqn:Hcmd; [|done].
  destruct (accepted_sent _ _ _ _ _ _ Hrun) as [(H202 & payload & Hpay & ->)|[H503 ->]]; [|by left].
  right. split; [done|]. exists cmd, payload.
  assert (ReplayCommandV1.action cmd = START ∧ ReplayCommandV1.replay_session_id cmd = cd_session d ∧
    ReplayCommandV1.source_dataset_sha256 cmd = zero_digest ∧
    option_map Naive (ReplayCommandV1.range_start cmd) = Some (StartReplayRequestV1.range_start body) ∧
    option_map Naive (ReplayCommandV1.range_end cmd) = Some (StartReplayRequestV1.range_end body) ∧
    ReplayCommandV1.speed cmd = StartReplayRequestV1.speed body) as (Hact & Hsid & Hds & Hrs & Hre & Hsp).
  { by apply start_command_fields in Hcmd. }
  split_and!; try done; [by rewrite Hsid|].
  intros validate error_text has_store rd part off s r s' Hval Hidle Hsrc Hh.
  unfold handle_command_record, decode_message in Hh. cbn [rvalue] in Hh. rewrite Hval in Hh.
  unfold handle_command in Hh. rewrite Hact in Hh. rewrite <-Hsid.
  apply (start_mismatch _ _ _ _ _ _ Hidle) in Hh; [done|]. rewrite Hds. congruence.
Qed.
End Start.

(** ** Witness: a request of an hour, and a service over a file *)
Module StartExample.
Import ReplayExamples.
Definition scorer : ChampionScorer :=
  mkScorer (ChampionManifest.mk CHAMPION FEASIBLE PRODUCTION_CANDIDATE PHASE1B_CHAMPION_V1 "run-1" STATISTICAL
    "model-1" digest digest digest digest ["tp2_last"%string] (flit 1 2) (flit 99 100) [])
    (λ _, Ok f0) [f0] [f1].
Definition request_draws : CommandDraws := mkCommandDraws (uid 8) (uid 81) (uid 82) noon.
Definition hour : StartReplayRequestV1.t :=
  StartReplayRequestV1.mk (Naive noon) (Naive (noon + minutes 60)) 100.
Definition send (m : Sent) : result unit := Ok ().
Definition producer : AioKafkaCommandProducer.t := AioKafkaCommandProducer.mk true [].

Lemma api_start_refused_witness :
  ∃ answer p' cmd payload, start_replay send scorer request_draws hour (Some producer) = (Ok answer, p') ∧
    status answer = 202 ∧ ReplayCommandV1.replay_session_id cmd = uid 8 ∧
    (handle_command_record (λ _, Ok cmd) error_text true draws
      (mkRecord REPLAY_COMMANDS_TOPIC 0 0 payload) (initial source_file)).2 = initial source_file.
Proof.
  destruct (start_replay send scorer request_draws hour (Some producer)) as [[answer|e] p'] eqn:Hrun.
  2:{ apply (f_equal (λ x, is_ok x.1)) in Hrun. vm_compute in Hrun. discriminate Hrun. }
  destruct (api_start_refused send scorer request_draws hour producer answer p' Hrun) as [[H503 _]|[H202 H]].
  { apply (f_equal (λ x, match x.1 with Ok a => status a | Err _ => 0 end)) in Hrun. simpl in Hrun.
    rewrite H503 in Hrun. vm_compute in Hrun. discriminate Hrun. }
  destruct H as (cmd & payload & _ & Hsid & _ & _ & _ & _ & _ & Href).
  exists answer, p', cmd, payload. split; [reflexivity|]. split; [exact H202|]. split; [exact Hsid|].
  destruct (handle_command_record (λ _, Ok cmd) error_text true draws
    (mkRecord REPLAY_COMMANDS_TOPIC 0 0 payload) (initial source_file)) as [r s'] eqn:Hh.
  apply (Href (λ _, Ok cmd) error_text true draws 0 0 (initial source_file) r s'); [reflexivity|reflexivity| |exact Hh].
  apply (bool_decide_unpack _). vm_compute. reflexivity.
Defined.
End StartExample.
